(* ===== verification/_CoqProject ===== *)
-Q . S2P
Prelude.v
Debounce.v
Dial.v
Keypad.v
Protocol.v
RingBuffer.v
Machine.v
Ram.v
Logic.v
Endpoint.v
Nvm.v
Dfu.v
DfuSecure.v
DfuProgram.v
EndpointStream.v
UsbController.v
DeviceRequests.v
Cdc.v
Locc.v
Interrupts.v
Descriptors.v
ConfigDescriptors.v
Firmware.v
Lock.v
Selection.v
DfuHost.v
DfuDownload.v
DfuExamples.v
IntelHex.v
HexFiles.v
HidBoot.v
HidPages.v
Loader.v
HidLoad.v
HidExamples.v
Transfers.v
Control.v
Waiting.v
Enumeration.v
Port.v
HidParser.v
HidTypes.v
HidReport.v
HidDescriptor.v
HidVerdict.v
HidLayout.v
ClassMemory.v
Rndis.v
RndisMessages.v
Network.v
Checksum.v
Tcp.v
Webserver.v
Ethernet.v
Packets.v
PacketReplies.v
NodeRefinement.v
TcpServer.v
TcpRefinement.v
TcpHeader.v
TcpFrames.v
TcpSessions.v
TcpTask.v
WebPages.v
FrameChecks.v
NetworkExamples.v
HidDevice.v
MassStorage.v
Midi.v
AudioDevice.v
Footprints.v
ClassTransfers.v
