(* ===== verification/Prelude.v ===== *)
(** * The c_locc firmware, verified

    The program under src/ is the firmware of a door lock controller: an ATmega8U2 that is a
    USB serial port towards a host, and drives an electronic lock cylinder over a one-wire line
    and a supply pin.  It also scans a 4x4 keypad, a rotary dial with its hook switch, and shows
    three LEDs through a shift register.  The host sends commands over the serial port ('o'
    opens the lock, 'l' sets an LED) and receives the keys and digits.  The USB stack is LUFA,
    built for this part from src/lufa/LUFA with the options of src/LUFAConfig.h.

    ** The parts, and where they are modelled

    - Prelude.v: machine integers, C bit expressions, little-endian bytes, shared lemmas.
    - Debounce.v: the lockout counter that dial.c and keypad.c write out inline.
    - Dial.v (dial.c), Keypad.v (keypad.c), Protocol.v (handle_user_input, set_led and the shift
      register byte of c_locc.c), RingBuffer.v (Drivers/Misc/RingBuffer.h): sequential parts, as
      functions on a record of the C statics.  Pin values are arguments, characters to send are
      part of the result.
    - Machine.v: the registers, the static memory ([mcu]) and the monad [M] for everything that
      touches registers.  The peripherals are a parameter, the class [Hardware]: its state, what
      a register read delivers, what a write does, and which interrupt is delivered at an access.
      [script_hardware] is a concrete instance that plays back register values; the witnesses
      run on it.
    - Logic.v: [spec] (a postcondition on result, final state and the log of accesses), [obeys]
      (a policy: a relation closed under composition, proved by taking the program apart with
      the tactic [obey]), [yields] (a property of the result) and [returns] (termination).
    - Endpoint.v (Endpoint_AVR8.h/.c, Device_AVR8.h/.c), EndpointStream.v
      (EndpointStream_AVR8.c and its templates), UsbController.v (USBController_AVR8.h/.c,
      USBInterrupt_AVR8.h), DeviceRequests.v (DeviceStandardReq.c), Cdc.v (CDCClassDevice.c),
      Interrupts.v (USBInterrupt_AVR8.c, USBTask.c and when interrupts run), Descriptors.v
      (Descriptors.c), ConfigDescriptors.v (ConfigDescriptors.c), Locc.v (locc.c), Firmware.v
      (c_locc.c: [setup], [loop], the event handlers, [main]): one definition per C function.
    - Lock.v, Selection.v, Transfers.v, Control.v, Waiting.v, Enumeration.v, Port.v: properties
      of the composed program.

    The library has more parts that the firmware links or could use:

    - HidParser.v (HIDParser.c, HIDReportData.h): the HID report descriptor parser, in an error
      monad over the parser's locals, with the functions that read and write report items;
      HidTypes.v, HidDescriptor.v, HidVerdict.v, HidLayout.v and HidReport.v are its theory.
    - Ram.v: the data memory, a byte per address, with the laws of loads and stores.  The other
      class drivers reach their structures through pointers and lay several structures over one
      buffer, so they are modelled on it; the memory is the component [ram] of [mcu].
    - ClassMemory.v: the stream functions on memory.  Rndis.v (RNDISClassDevice.c),
      MassStorage.v (MassStorageClassDevice.c), HidDevice.v (HIDClassDevice.c), Midi.v
      (MIDIClassDevice.c), AudioDevice.v (AudioClassDevice.c and .h): one definition per C
      function, with the address of the interface structure as an argument.  The application's
      callbacks are classes ([MsCallbacks], [HidCallbacks], [AudioCallbacks]).
    - RndisMessages.v, Footprints.v, ClassTransfers.v: properties of these drivers.

    The demo Demos/Device/ClassDriver/RNDISEthernet is the library's user of the Ethernet
    adapter, with a TCP/IP stack and a web server of its own:

    - Network.v (Endianness.h, ARP.c, ICMP.c, UDP.c, DHCP.c and the checksum of Ethernet.c),
      Tcp.v (TCP.c), Webserver.v (Webserver.c), Ethernet.v (IP.c, the rest of Ethernet.c,
      RNDISEthernet.c): one definition per C function, on frames and tables in data memory.
      Where the linker placed the statics is the class [Layout]; the handler behind a pointer of
      the port table is the class [TcpApplication], whose instance is the web server.
    - Checksum.v (one's complement sums), Packets.v (a reference node for the stateless
      protocols), PacketReplies.v and NodeRefinement.v (the code implements it); TcpServer.v (an
      abstract TCP server), TcpRefinement.v, TcpHeader.v and TcpFrames.v (the code implements
      it); TcpSessions.v (what follows for whole exchanges), TcpTask.v and WebPages.v (the
      frames of the TCP task and the transfer of the page), FrameChecks.v (checksums, and inputs
      the code does not check), NetworkExamples.v (concrete runs).

    The DFU bootloader of the library, Bootloaders/DFU, is the program such a part is loaded with:

    - Nvm.v: the class [Nvm] of the flash and EEPROM operations of avr-libc, what the data sheet
      says of them ([NvmLaws]), and a family of parts that behave so ([part]).
    - Dfu.v (BootloaderDFU.c, BootloaderAPI.c): the bootloader's statics as the record [dfu] and
      one definition per function, request and loop, in the monad [B] of machine, statics and
      early returns.
    - DfuSecure.v (secure mode), DfuProgram.v (programming, blank check and erase as functions on
      the memories), DfuHost.v (a host with its packets ready: class [ControlHost]),
      DfuDownload.v (whole requests against it), DfuExamples.v (concrete runs).

    The HID bootloader, Bootloaders/HID, comes with a loader that runs on the host; both ends of
    the cable are modelled:

    - IntelHex.v (the Intel hex reader of HostLoaderApp/hid_bootloader_cli.c: statics, lines,
      records, access to the image, with what sscanf, fgets and strlen do of it), HexFiles.v (a
      printer, the image a sequence of records describes, and what the reader makes of files).
    - Loader.v (the rest of hid_bootloader_cli.c: command line, device access, [main]; libusb and
      the file system are the class [Libusb]).
    - HidBoot.v (BootloaderHID.c): the statics as the record [hid_boot], the request handler, the
      start-up check; HidPages.v (what a report does to the flash).
    - HidLoad.v: what is asked of the bus between them (the class [BootloaderOnBus]: a libusb that
      finds the device and whose control messages run the bootloader's handler) and the theorems
      on the whole; HidExamples.v (an instance of the class, and concrete runs).

    ** How the parts interact

    [main] runs [setup] with interrupts disabled and then [loop] forever.  Interrupts can be
    delivered at every access to a register or a volatile variable, and between the byte accesses
    that make up one to [wait_ticks] (32 bits) or to the frame number: there the code runs
    [preempt], whose meaning depends on the context it is called in (class [Preempt]): nothing
    inside the handlers that run with interrupts disabled ([no_preempt]), and [isr n] in the main
    program and in the part of USB_COM_vect behind [GlobalInterruptEnable].  The library calls
    back into the application through the class [UsbEvents], instantiated in Firmware.v; the
    lock driver writes to the host through the class [Console].  The endpoint registers are
    banked by UENUM, which is part of the memory image; a log entry names the endpoint that was
    selected.

    ** What the theorems show

    - The lock (Lock.v, Locc.v): every completed round of the main loop, under any interrupts, is
      a round of an abstract controller that performs one action when its timer has run out (or
      falls below 256 while its bytes are read one by one), with exactly the pin waveform of that
      action; order and minimal spacing of the actions; a due action is performed in the next
      round; nothing happens on the pins without an 'o' behind a newline; the telegram's waveform decodes to the telegram (and one word more: the loop in
      sendCylinderTelegram runs once too often).
    - Interrupts (Selection.v, Lock.v): they restore the selected endpoint, access no FIFO but
      the control endpoint's, and leave the lock alone; a bus reset is the exception for the
      selection, shown by a concrete run.
    - Transfers (Transfers.v, Control.v, Port.v): the stream functions, the control data stage
      and the serial port's byte functions move exactly the bytes they report, in order, once,
      under interrupts; descriptors are sent whole, or up to the length asked for; the line encoding survives the round
      trip.
    - The USB device (Enumeration.v, Control.v, Port.v, ConfigDescriptors.v): decoding of the
      setup packet, SetConfiguration on every branch, endpoint
      sizes, consistency of the descriptors, searching in them, the suspended state is never
      entered.
    - Termination (Waiting.v): the readiness wait ends when the frame counter runs, under any
      interrupts that return within 40 frames (class [BriefInterrupts]), and with it every function
      that sends to the host.
    - The scanners and the command interpreter (Dial.v, Keypad.v, Protocol.v) and the ring buffer
      as a bounded queue (RingBuffer.v).
    - The HID report parser, up to the first PUSH item, whose copy overwrites the stack and ends
      the model's run: which descriptors are accepted and with which error the others are refused
      (HidVerdict.v, by simulation with a machine that only counts), that the result is well-formed
      (HidTypes.v, HidVerdict.v), that the items of a report do not overlap (HidLayout.v), and that
      reading an item is reading a bit field of the report (HidReport.v).
    - The Ethernet adapter (RndisMessages.v): its message handling implements an abstract NDIS
      adapter, with the one query that overruns the buffer described exactly, and an invariant
      over every sequence of messages.  Footprints.v bounds what the receive function writes, and
      shows that the mass storage driver hands only checked command blocks to the application.
      ClassTransfers.v has the round trips of the audio samples and of the HID idle period.
    - The network stack: from frame to frame it implements a reference node for ARP, ICMP and
      DHCP, on the frames whose length passes the code's byte-swapped test (NodeRefinement.v), and
      over any exchange of TCP frames whose data fit the buffers an
      abstract server (TcpSessions.v), which gives the handshake, the assembly of a request and
      the independence of connections.  The page is sent whole and in order by the main loop, one
      frame per received frame, as long as the client stays quiet from the fourth on (WebPages.v;
      a client that acknowledges every frame loses a block, NetworkExamples.v), and what is sent passes a receiver's checksum tests (FrameChecks.v).  What
      happens to data that do not fit, to ports that are not open and with two clients at once is
      shown in FrameChecks.v and NetworkExamples.v.

    - The bootloader: in secure mode no sequence of requests changes the memories or depends on
      their content before a chip erase has cleared the application section (DfuSecure.v, by a
      two-run argument); firmware downloaded below the bootloader's section is what the flash holds
      and what an upload returns, with 0xFF in the rest of its last page and nothing else changed
      (DfuDownload.v); the blank check is exact (DfuProgram.v); and the
      filler bytes of a download are miscounted at a packet boundary (DfuDownload.v).
    - The loader and the HID bootloader: the reader recovers what a hex file describes, refuses
      damaged data records, and stores outside its image when an address wraps (HexFiles.v);
      loader, transfers and bootloader together leave exactly the file's pages in the flash, on
      every part the loader knows but those of 64 KB, on which they program the first page only
      (HidLoad.v; on 128 KB parts for files without data in the last 256 bytes below 64 KB).

    ** Bounds

    A busy-wait loop ([spin_until], [iter]) takes a number of passes from the class [Fuel]; when
    it is used up the run is [None], which stands for a loop that is still spinning.  Theorems
    about runs hold for every fuel; loops that are bounded by a length are given enough passes
    for it (fill_pass and drain_pass: the length plus one; ep_size_loop: 14, enough for every
    size on which the C loop ends).  [isr n] bounds the nesting of control-request handlers, which
    on the hardware needs a bus reset inside a handler, since USB_COM_vect masks its own source;
    theorems hold for every [n], and those about request handlers take [isr 0], in which timer
    and bus events still occur.  [main k n] is observed for [n] rounds of the endless loop.  The
    HID parser takes one pass per item, and the theorems that say it ends ask for more passes
    than the descriptor has items.  [strlen], [strlen_P] and the walk over DHCP options are given
    the 65536 addresses there are, and [None] is a walk that finds no end; the checksum's carry
    loop is given two passes, behind which its condition is false (checksums_match_reference).
    The loops of the bootloader over the application section are given a pass per byte and one
    more, which is shown to be enough; its requests are shown to return against a host that does
    not keep the device waiting, with a bound of at least one pass per wait.
    The hex reader's loop is given a pass per character of the file, more than it has lines, and
    [data_bytes] the 256 passes behind which the C loop returns; the loader's loop over the blocks
    is given a pass per byte of the flash; waiting for a device is bounded by an argument of
    [Loader.main], and by the laws of [BootloaderOnBus] one pass is enough.
    The readiness wait is shown to end with a fuel of 101 frames' worth of polls.
    The theorems about the other class drivers hold for every fuel and for every interrupt
    context with the footprint they name.

    ** What is not modelled

    Time, apart from the frame counter of Waiting.v and the timer interrupt; [_delay_us] is an
    entry in the log. What the 14 bytes do that PUSH in the HID parser writes behind its table. The
    watchdog and clock prescaler calls
    of [setup]. Branches of the library for other parts and for host mode, which the preprocessor
    removes in this build; the drivers of other peripherals and boards; the library's demos,
    except for the network stack and main loop of the RNDIS demo, of which the protocol decoders
    (compiled out), the hardware setup and the descriptors are left out; the library's projects
    and the other bootloaders. Of the DFU bootloader the hardware setup, the descriptors, the
    assembler table of its API and, of [main], all but the loop condition are left out: the USB
    task between two requests is any change of the machine ([session]), since it does not touch
    the bootloader's statics. Of the HID bootloader the hardware setup, the loop of [main], the
    endpoint it configures and does not use, and the descriptors; of its loader the messages, and
    the access to the device on systems without libusb. Whether the boot lock bits let the
    bootloader's own section be programmed is not modelled. In the class drivers a local array is
    a function of the offset whose contents before initialisation are an argument, and [memcpy] is
    a store of bytes read before. *)
From Stdlib Require Export ZArith Lia Ascii.
From stdpp Require Export base tactics list numbers option.

#[global] Open Scope Z_scope.

(** ** Machine integers

    A [w]-bit unsigned C object is an element of [Z] in [0, 2^w).  [wrap w]
    is the conversion to such a type: reduction modulo [2^w]. *)

Definition wrap (w z : Z) : Z := z mod 2 ^ w.

Declare Scope cint_scope.
Delimit Scope cint_scope with cint.
Open Scope cint_scope.

(** [uint8_t], [uint16_t] and [uint32_t] conversions. *)
Abbreviation u8 := (wrap 8).
Abbreviation u16 := (wrap 16).
Abbreviation u32 := (wrap 32).

(** The C bit expressions the sources are written with. *)
Abbreviation bit n := (Z.shiftl 1 n).
Notation "x .& y" := (Z.land x y) (at level 40, left associativity) : cint_scope.
Notation "x .| y" := (Z.lor x y) (at level 50, left associativity) : cint_scope.
Notation "x .&~ y" := (Z.ldiff x y) (at level 40, left associativity) : cint_scope.
Notation "x .>> y" := (Z.shiftr x y) (at level 38, left associativity) : cint_scope.
Notation "x .<< y" := (Z.shiftl x y) (at level 38, left associativity) : cint_scope.

(** Conversion to a signed type of [w] bits. *)
Definition signed (w z : Z) : Z :=
  let u := wrap w z in if u <? 2 ^ (w - 1) then u else u - 2 ^ w.

(** Truth value of a C integer used as a condition. *)
Definition truth (z : Z) : bool := negb (z =? 0).

(** Character constants. *)
Definition ch (a : ascii) : Z := Z.of_N (N_of_ascii a).
Arguments ch a%_char_scope.

Definition is_u (w z : Z) : Prop := 0 <= z < 2 ^ w.
Abbreviation is_u8 := (is_u 8).
Abbreviation is_u16 := (is_u 16).
Abbreviation is_u32 := (is_u 32).

(** Linear arithmetic with [mod] and [/] by constants. *)
Ltac zmod := Z.div_mod_to_equations; lia.

Create HintDb cint.
Create Rewrite HintDb cint.

Lemma wrap_is_u w z : 0 <= w -> is_u w (wrap w z).
Proof. intros. apply Z.mod_pos_bound. apply Z.pow_pos_nonneg; lia. Qed.

Lemma wrap_id w z : is_u w z -> wrap w z = z.
Proof. apply Z.mod_small. Qed.

Lemma wrap_wrap w z : 0 <= w -> wrap w (wrap w z) = wrap w z.
Proof. intros. apply wrap_id, wrap_is_u; lia. Qed.

Lemma signed_small w z : 0 < w -> 0 <= z < 2 ^ (w - 1) -> signed w z = z.
Proof.
  intros Hw Hz. assert (2 ^ (w - 1) <= 2 ^ w) by (apply Z.pow_le_mono_r; lia).
  unfold signed. rewrite wrap_id by (unfold is_u; lia). by destruct (Z.ltb_spec z (2 ^ (w - 1))); [|lia].
Qed.

Lemma wrap_add_r w x y : 0 <= w -> wrap w (x + wrap w y) = wrap w (x + y).
Proof. intros. apply Z.add_mod_idemp_r, Z.pow_nonzero; lia. Qed.

Lemma is_u_wrap_iff w z : 0 <= w -> is_u w z <-> wrap w z = z.
Proof.
  intros Hw; split; [apply wrap_id|]. intros <-. by apply wrap_is_u.
Qed.

Lemma is_u_mono w w' z : 0 <= w <= w' -> is_u w z -> is_u w' z.
Proof.
  unfold is_u. intros Hw [H0 H1]; split; [done|].
  eapply Z.lt_le_trans; [exact H1|]. apply Z.pow_le_mono_r; lia.
Qed.

#[export] Hint Resolve wrap_is_u : cint.
#[export] Hint Extern 2 (0 <= _) => lia : cint.
#[export] Hint Rewrite wrap_wrap using lia : cint.

(** A [w]-bit value is a value whose bits from [w] on are clear. *)
Lemma is_u_bits w z :
  0 <= w -> is_u w z <-> 0 <= z /\ (forall i, w <= i -> Z.testbit z i = false).
Proof.
  intros Hw. split.
  - intros [H0 H1]. split; [done|]. intros i Hi.
    rewrite <- (Z.mod_small z (2 ^ w)) by done.
    apply Z.mod_pow2_bits_high. lia.
  - intros [H0 H1].
    assert (z mod 2 ^ w = z) as <-; [|apply Z.mod_pos_bound, Z.pow_pos_nonneg; lia].
    apply Z.bits_inj'. intros i Hi.
    destruct (Z.lt_ge_cases i w) as [Hlt|Hge].
    + by rewrite Z.mod_pow2_bits_low.
    + rewrite Z.mod_pow2_bits_high by lia. by rewrite H1.
Qed.

Lemma is_u_lor w x y : 0 <= w -> is_u w x -> is_u w y -> is_u w (x .| y).
Proof.
  intros Hw Hx Hy. rewrite is_u_bits in * by done.
  destruct Hx as [Hx Hxb], Hy as [Hy Hyb]. split; [by apply Z.lor_nonneg|].
  intros i Hi. by rewrite Z.lor_spec, Hxb, Hyb.
Qed.

Lemma is_u_land w x y : 0 <= w -> is_u w x -> is_u w (x .& y).
Proof.
  intros Hw Hx. rewrite is_u_bits in * by done.
  destruct Hx as [Hx Hxb]. split; [apply Z.land_nonneg; by left|].
  intros i Hi. by rewrite Z.land_spec, Hxb.
Qed.

Lemma is_u_ldiff w x y : 0 <= w -> is_u w x -> is_u w (x .&~ y).
Proof.
  intros Hw Hx. rewrite is_u_bits in * by done.
  destruct Hx as [Hx Hxb]. split; [apply Z.ldiff_nonneg; by left|].
  intros i Hi. by rewrite Z.ldiff_spec, Hxb.
Qed.

Lemma is_u_bit w n : 0 <= n < w -> is_u w (bit n).
Proof.
  intros [Hn Hw]. unfold is_u. rewrite Z.shiftl_mul_pow2, Z.mul_1_l by done.
  split; [apply Z.pow_nonneg; lia|]. apply Z.pow_lt_mono_r; lia.
Qed.

#[export] Hint Resolve is_u_lor is_u_land is_u_ldiff is_u_bit : cint.

(** ** Bits of the register idioms [r |= (1 << n)] and [r &= ~(1 << n)] *)

Lemma testbit_bit n i : 0 <= n -> 0 <= i -> Z.testbit (bit n) i = (n =? i).
Proof.
  intros Hn Hi. rewrite Z.shiftl_spec by done.
  destruct (Z.eqb_spec n i) as [->|Hne]; [by rewrite Z.sub_diag|].
  destruct (Z.lt_ge_cases i n); [rewrite Z.testbit_neg_r by lia; done|].
  change 1 with (2 ^ 0). rewrite Z.pow2_bits_false; [done|lia].
Qed.

Lemma testbit_set v n i :
  0 <= n -> 0 <= i -> Z.testbit (v .| bit n) i = (Z.testbit v i || (n =? i)).
Proof. intros. by rewrite Z.lor_spec, testbit_bit. Qed.

Lemma testbit_clr v n i :
  0 <= n -> 0 <= i -> Z.testbit (v .&~ bit n) i = (Z.testbit v i && negb (n =? i)).
Proof. intros. by rewrite Z.ldiff_spec, testbit_bit. Qed.

Lemma testbit_u8 v i : 0 <= i < 8 -> Z.testbit (u8 v) i = Z.testbit v i.
Proof. intros. unfold wrap. by rewrite Z.mod_pow2_bits_low by lia. Qed.

(** [r & (1 << n)] used as a condition is the [n]-th bit of [r]. *)
Lemma truth_land_bit v n : 0 <= n -> truth (v .& bit n) = Z.testbit v n.
Proof.
  intros Hn. unfold truth. destruct (Z.testbit v n) eqn:Hb.
  - destruct (Z.eqb_spec (v .& bit n) 0) as [H0|]; [|done].
    apply (f_equal (fun z => Z.testbit z n)) in H0.
    rewrite Z.land_spec, testbit_bit, Z.eqb_refl, Hb, Z.bits_0 in H0 by lia. done.
  - assert (v .& bit n = 0) as ->; [|done].
    apply Z.bits_inj'. intros i Hi.
    rewrite Z.land_spec, testbit_bit, Z.bits_0 by done.
    destruct (Z.eqb_spec n i) as [->|]; [by rewrite Hb|by rewrite andb_false_r].
Qed.

#[export] Hint Rewrite testbit_set testbit_clr truth_land_bit using lia : cint.

(** ** Deciding properties of small machine integers by evaluation *)

Definition range (n : nat) : list Z := Z.of_nat <$> seq 0 n.

Lemma elem_of_range n z : z ∈ range n <-> 0 <= z < Z.of_nat n.
Proof.
  unfold range. rewrite list_elem_of_fmap. split.
  - intros (i & -> & Hi%elem_of_seq). lia.
  - intros Hz. exists (Z.to_nat z). rewrite elem_of_seq. lia.
Qed.

Lemma forall_range n (P : Z -> bool) :
  forallb P (range n) = true -> forall z, 0 <= z < Z.of_nat n -> P z = true.
Proof.
  intros H z Hz. rewrite forallb_forall in H.
  apply H, list_elem_of_In, elem_of_range. done.
Qed.

Lemma forall_u8 (P : Z -> bool) :
  forallb P (range 256) = true -> forall z, is_u8 z -> P z = true.
Proof. intros H z Hz. apply (forall_range 256); done. Qed.

(** A list of bytes, decided by evaluation. *)
Lemma bytes_u8 bs :
  forallb (fun b => (0 <=? b) && (b <? 256)) bs = true -> Forall is_u8 bs.
Proof.
  induction bs as [|b bs IH]; simpl; [constructor|].
  intros [Hb Hbs]%andb_true_iff. constructor; [|by apply IH]. split; lia.
Qed.

Lemma land_ff z : is_u8 z -> z .& 0xFF = z.
Proof.
  intros H. change 0xFF with (Z.ones 8). rewrite Z.land_ones by lia. by apply Z.mod_small.
Qed.

(** ** Little-endian byte sequences *)

Fixpoint le_bytes (n : nat) (z : Z) : list Z :=
  match n with
  | O => []
  | S n' => u8 z :: le_bytes n' (z .>> 8)
  end.

Fixpoint le_value (bs : list Z) : Z :=
  match bs with
  | [] => 0
  | b :: bs' => b .| (le_value bs' .<< 8)
  end.

Lemma length_le_bytes n z : length (le_bytes n z) = n.
Proof. revert z; induction n; intros; simpl; auto. Qed.

Lemma Forall_le_bytes n z : Forall is_u8 (le_bytes n z).
Proof. revert z; induction n; intros; simpl; constructor; auto with cint. Qed.

Lemma lor_shiftl8 b z : is_u8 b -> b .| (z .<< 8) = b + 256 * z.
Proof.
  intros Hb. assert (b .& (z .<< 8) = 0) as Hd.
  { apply Z.bits_inj'. intros i Hi. rewrite Z.land_spec, Z.bits_0.
    destruct (Z.lt_ge_cases i 8).
    - rewrite (Z.shiftl_spec_low z 8 i) by done. apply andb_false_r.
    - apply is_u_bits in Hb as [_ Hb]; [|done]. by rewrite Hb. }
  rewrite <- Z.lxor_lor, <- Z.add_nocarry_lxor by done.
  rewrite Z.shiftl_mul_pow2 by done. lia.
Qed.

Lemma le_value_bytes n z : le_value (le_bytes n z) = wrap (8 * Z.of_nat n) z.
Proof.
  revert z; induction n as [|n IH]; intros z; cbn [le_bytes le_value].
  { unfold wrap. by rewrite Z.mod_1_r. }
  rewrite lor_shiftl8, IH by auto with cint. unfold wrap.
  rewrite Z.shiftr_div_pow2 by done.
  replace (8 * Z.of_nat (S n)) with (8 + 8 * Z.of_nat n) by lia.
  rewrite Z.pow_add_r by lia. change (2 ^ 8) with 256.
  rewrite Z.rem_mul_r by lia. done.
Qed.

Lemma le_bytes_value bs :
  Forall is_u8 bs -> le_bytes (length bs) (le_value bs) = bs.
Proof.
  induction 1 as [|b bs Hb Hbs IH]; [done|].
  cbn [le_bytes le_value length]. rewrite lor_shiftl8 by done. f_equal.
  - unfold wrap. change (2 ^ 8) with 256 in *. rewrite Z.mul_comm, Z.mod_add by done.
    by apply Z.mod_small.
  - rewrite Z.shiftr_div_pow2, Z.mul_comm by done. change (2 ^ 8) with 256.
    rewrite Z.div_add, Z.div_small by done. done.
Qed.

Lemma le_value_is_u bs : Forall is_u8 bs -> is_u (8 * Z.of_nat (length bs)) (le_value bs).
Proof.
  intros H. rewrite <- (le_bytes_value bs) at 2 by done.
  rewrite le_value_bytes. apply wrap_is_u. lia.
Qed.

#[export] Hint Resolve length_le_bytes Forall_le_bytes le_value_is_u : cint.

(** Four bytes, as the numbers they stand for. *)
Lemma le_value4 a b c d :
  is_u8 a -> is_u8 b -> is_u8 c -> is_u8 d ->
  le_value [a; b; c; d] = a + 256 * b + 65536 * c + 16777216 * d.
Proof.
  intros. cbn [le_value]. rewrite Z.shiftl_0_l, Z.lor_0_r, !lor_shiftl8 by done. lia.
Qed.

Lemma le_bytes4 z :
  le_bytes 4 z = [z mod 256; (z / 256) mod 256; (z / 65536) mod 256; (z / 16777216) mod 256].
Proof.
  cbn [le_bytes]. unfold wrap. change (2 ^ 8) with 256.
  by rewrite !Z.shiftr_div_pow2, !Z.div_div by lia.
Qed.
