(* ===== verification/Debounce.v ===== *)
(** * Debounce: the lockout counter the input scanners share

    [dial.c] (impulse and dial contacts) and [keypad.c] (every cell of the key
    matrix) debounce a contact with the same down-counter idiom, written out
    inline each time.  This file states the idiom once, as a reference automaton
    [debounce], with the facts the scanners need: when it fires, how far apart
    two firings are, that a held contact fires once, and that a released
    contact is re-armed. *)
From S2P Require Import Prelude.

(** One sample.  [load] is the value the counter is loaded with when the contact
    fires; the result says whether it fires and gives the next counter. *)
Definition debounce (load d : Z) (sample : bool) : bool * Z :=
  if d <=? 1 then
    if sample then (if d =? 0 then (true, load) else (false, d))
    else (false, 0)
  else (false, d - 1).

(** A run over a list of samples: the firings and the final counter. *)
Fixpoint debounce_run (load d : Z) (xs : list bool) : list bool * Z :=
  match xs with
  | [] => ([], d)
  | x :: xs' =>
      let '(f, d1) := debounce load d x in
      let '(fs, d2) := debounce_run load d1 xs' in
      (f :: fs, d2)
  end.

(** Number of firings of a run. *)
Definition firings (fs : list bool) : Z := Z.of_nat (length (filter (eq true) fs)).

Section Debounce.
Context (load : Z) (Hload : 2 <= load).

Lemma debounce_fires d x : (debounce load d x).1 = true <-> d = 0 /\ x = true.
Proof.
  unfold debounce. destruct (Z.leb_spec d 1), x, (Z.eqb_spec d 0); simpl; split;
    intuition (congruence || lia).
Qed.

Lemma debounce_range d x : 0 <= d <= load -> 0 <= (debounce load d x).2 <= load.
Proof.
  unfold debounce. destruct (Z.leb_spec d 1), x, (Z.eqb_spec d 0); simpl; lia.
Qed.

Lemma debounce_run_app d xs ys :
  debounce_run load d (xs ++ ys) =
    let '(fs, d1) := debounce_run load d xs in
    let '(gs, d2) := debounce_run load d1 ys in (fs ++ gs, d2).
Proof.
  revert d. induction xs as [|x xs IH]; intros d; simpl.
  - by destruct (debounce_run load d ys).
  - destruct (debounce load d x) as [f d1]. rewrite IH.
    destruct (debounce_run load d1 xs) as [fs d2].
    by destruct (debounce_run load d2 ys).
Qed.

Lemma debounce_run_length d xs : length (debounce_run load d xs).1 = length xs.
Proof.
  revert d. induction xs as [|x xs IH]; intros d; simpl; [done|].
  destruct (debounce load d x) as [f d1]. specialize (IH d1).
  destruct (debounce_run load d1 xs). simpl in *. by rewrite IH.
Qed.

(** While the counter is above 1 it counts down whatever the contact does. *)
Lemma debounce_run_lockout d xs :
  1 <= d - Z.of_nat (length xs) ->
  debounce_run load d xs = (replicate (length xs) false, d - Z.of_nat (length xs)).
Proof.
  revert d. induction xs as [|x xs IH]; intros d Hd.
  { simpl. f_equal. lia. }
  cbn [length debounce_run] in *. unfold debounce.
  destruct (Z.leb_spec d 1); [lia|]. rewrite IH by lia. cbn [replicate]. f_equal. lia.
Qed.

(** A closed contact does not fire again: the counter stays at or above 1. *)
Lemma debounce_run_held d n :
  1 <= d -> (debounce_run load d (replicate n true)).1 = replicate n false
          /\ 1 <= (debounce_run load d (replicate n true)).2 <= d.
Proof.
  revert d. induction n as [|n IH]; intros d Hd; simpl; [split; [done|lia]|].
  unfold debounce. destruct (Z.leb_spec d 1).
  - destruct (Z.eqb_spec d 0); [lia|]. specialize (IH d Hd).
    destruct (debounce_run load d (replicate n true)). simpl in *.
    destruct IH as [-> ?]. done.
  - specialize (IH (d - 1) ltac:(lia)).
    destruct (debounce_run load (d - 1) (replicate n true)). simpl in *.
    destruct IH as [-> ?]. split; [done|lia].
Qed.

(** An open contact re-arms: after [d] samples at the latest the counter is 0. *)
Lemma debounce_run_released d n :
  0 <= d <= Z.max 1 (Z.of_nat n) -> (0 < n)%nat ->
  debounce_run load d (replicate n false) = (replicate n false, 0).
Proof.
  revert d. induction n as [|n IH]; intros d Hd Hn; [lia|].
  simpl. unfold debounce. destruct (Z.leb_spec d 1).
  - destruct n as [|n]; [done|]. rewrite (IH 0) by lia. done.
  - rewrite (IH (d - 1)) by lia. done.
Qed.

(** A clean pulse (closed for [h] samples, then open for [l]) that lasts longer
    than the lockout fires exactly once, on its first sample, and leaves the
    contact armed. *)
Lemma debounce_run_pulse h l :
  (0 < h)%nat -> (0 < l)%nat -> load + 1 <= Z.of_nat h + Z.of_nat l ->
  debounce_run load 0 (replicate h true ++ replicate l false) =
    (true :: replicate (h + l - 1) false, 0).
Proof.
  intros Hh Hl Hsum. destruct h as [|h]; [lia|].
  simpl. rewrite debounce_run_app.
  pose proof (debounce_run_held load h ltac:(lia)) as [Hf Hd].
  destruct (debounce_run load load (replicate h true)) as [fs d] eqn:Hrun.
  simpl in Hf, Hd. subst fs.
  assert (d <= Z.max 1 (Z.of_nat l)) as Hdl.
  { destruct (Z.le_gt_cases (Z.of_nat h) (load - 1)) as [Hle|Hgt].
    - rewrite debounce_run_lockout in Hrun by (rewrite length_replicate; lia).
      rewrite length_replicate in Hrun. simplify_eq. lia.
    - clear Hl Hsum. assert (d <= 1); [|lia].
      replace h with (Z.to_nat (load - 1) + (h - Z.to_nat (load - 1)))%nat in Hrun by lia.
      rewrite replicate_add, debounce_run_app in Hrun.
      rewrite debounce_run_lockout in Hrun by (rewrite length_replicate; lia).
      rewrite length_replicate in Hrun.
      pose proof (debounce_run_held (load - Z.of_nat (Z.to_nat (load - 1)))
                    (h - Z.to_nat (load - 1)) ltac:(lia)) as [_ Hd2].
      destruct (debounce_run load (load - _) _). simplify_eq. simpl in *. lia. }
  rewrite debounce_run_released by lia.
  rewrite <- replicate_add. do 3 f_equal. lia.
Qed.

(** Two firings are more than [load] samples apart. *)
Lemma debounce_spacing d xs i j :
  0 <= d <= load -> (i < j)%nat ->
  (debounce_run load d xs).1 !! i = Some true ->
  (debounce_run load d xs).1 !! j = Some true ->
  Z.of_nat i + load < Z.of_nat j.
Proof.
  revert d i j. induction xs as [|x xs IH]; intros d i j Hd Hij Hi Hj; [done|].
  simpl in Hi, Hj. destruct (debounce load d x) as [f d1] eqn:Hstep.
  pose proof (debounce_range d x Hd) as Hd1. rewrite Hstep in Hd1. simpl in Hd1.
  destruct j as [|j]; [lia|].
  destruct (debounce_run load d1 xs) as [fs d2] eqn:Hrun. simpl in Hi, Hj.
  destruct i as [|i]; simpl in Hi.
  - simplify_eq. assert (d1 = load) as ->.
    { unfold debounce in Hstep. repeat case_match; simplify_eq; done. }
    destruct (Z.lt_ge_cases (Z.of_nat j) load) as [Hlt|]; [|lia]. exfalso.
    assert (length fs = length xs) as Hlen.
    { pose proof (debounce_run_length load xs) as H. by rewrite Hrun in H. }
    apply lookup_lt_Some in Hj as Hjl.
    rewrite <- (take_drop (Z.to_nat (load - 1)) xs), debounce_run_app in Hrun.
    rewrite debounce_run_lockout in Hrun by (rewrite length_take; lia).
    rewrite length_take in Hrun.
    destruct (Nat.lt_ge_cases j (Z.to_nat (load - 1) `min` length xs)) as [Hjs|Hjs].
    + destruct (debounce_run load _ (drop _ xs)) as [gs d3]. simplify_eq.
      rewrite lookup_app_l in Hj by (rewrite length_replicate; lia).
      apply lookup_replicate in Hj as [? _]. done.
    + destruct (drop (Z.to_nat (load - 1)) xs) as [|y ys] eqn:Hdrop.
      { apply (f_equal length) in Hdrop. rewrite length_drop in Hdrop. simpl in Hdrop. lia. }
      assert (Z.to_nat (load - 1) `min` length xs = Z.to_nat (load - 1))%nat as Hmin.
      { apply (f_equal length) in Hdrop. rewrite length_drop in Hdrop. simpl in Hdrop. lia. }
      rewrite Hmin in *. simpl in Hrun.
      destruct (debounce load _ y) as [f4 d4] eqn:Hs4.
      destruct (debounce_run load d4 ys) as [gs d3]. simplify_eq.
      assert (j = Z.to_nat (load - 1)) as -> by lia.
      rewrite lookup_app_r in Hj by (rewrite length_replicate; lia).
      rewrite length_replicate, Nat.sub_diag in Hj. simpl in Hj. simplify_eq.
      pose proof (debounce_fires (load - Z.of_nat (Z.to_nat (load - 1))) y) as [Hf _].
      rewrite Hs4 in Hf. specialize (Hf eq_refl). lia.
  - specialize (IH d1 i j Hd1 ltac:(lia)). rewrite Hrun in IH. specialize (IH Hi Hj). lia.
Qed.
End Debounce.
