(* ===== verification/Dial.v ===== *)
(** * Dial: the rotary dial and hook switch scanner ([dial.c], [dial.h])

    [dial_scan] keeps four [static uint8_t] objects between calls; they are the
    fields of [dial_state].  Its three reads of [PINC] are the three arguments of
    [dial_scan]; the pins are those of [dial.h]. *)
From S2P Require Import Prelude Debounce.

Definition IMPULSE_PIN := 6.
Definition HANGUP_PIN := 5.
Definition DIAL_PIN := 4.

Record dial_state := DialState {
  dial_counter : Z;
  state_impulse : Z;
  state_dialing : Z;
  state_hangup : Z }.

Definition dial_init : dial_state := DialState 0 0 0 0.

(** [dial_setup]: the pull-ups of the three pins, all on [PORTC]. *)
Definition dial_setup (portc : Z) : Z :=
  portc .| bit IMPULSE_PIN .| bit DIAL_PIN .| bit HANGUP_PIN.

(** First block of [dial_scan]: the impulse contact. *)
Definition dial_impulse (s : dial_state) (pinc : Z) : dial_state :=
  let 'DialState cnt imp dia han := s in
  if imp <=? 1 then
    if truth (pinc .& bit IMPULSE_PIN) then
      if imp =? 0 then DialState (u8 (cnt + 1)) 0x40 dia han else s
    else DialState cnt 0 dia han
  else DialState cnt (imp - 1) dia han.

(** Second block: the dial contact.  [rv] is the pending return value. *)
Definition dial_dialing (s : dial_state) (pinc rv : Z) : Z * dial_state :=
  let 'DialState cnt imp dia han := s in
  if dia <=? 1 then
    if truth (pinc .& bit DIAL_PIN) then
      if dia =? 0 then
        let cnt := if 10 <=? cnt then 0 else cnt in
        (ch "0" + cnt, DialState 0 imp 0x80 han)
      else (rv, s)
    else (rv, DialState cnt imp 0 han)
  else (rv, DialState cnt imp (dia - 1) han).

(** Third block: the hook switch. *)
Definition dial_hangup (s : dial_state) (pinc rv : Z) : Z * dial_state :=
  let 'DialState cnt imp dia han := s in
  if han <=? 2 then
    if truth (pinc .& bit HANGUP_PIN) then
      if han =? 0 then (ch "H", DialState cnt imp dia 0xFF)
      else (rv, DialState cnt imp dia 1)
    else
      if han =? 1 then (ch "h", DialState cnt imp dia 0xFF)
      else (rv, DialState cnt imp dia 0)
  else (rv, DialState cnt imp dia (han - 1)).

Definition dial_scan (s : dial_state) (pinc_impulse pinc_dial pinc_hangup : Z)
  : Z * dial_state :=
  let s := dial_impulse s pinc_impulse in
  let '(rv, s) := dial_dialing s pinc_dial 0 in
  dial_hangup s pinc_hangup rv.

(** A run of scans, one triple of pin samples each. *)
Fixpoint dial_scans (s : dial_state) (ps : list (Z * Z * Z)) : list Z * dial_state :=
  match ps with
  | [] => ([], s)
  | (a, b, c) :: ps' =>
      let '(r, s1) := dial_scan s a b c in
      let '(rs, s2) := dial_scans s1 ps' in
      (r :: rs, s2)
  end.

(** ** Invariant *)

Definition dial_wf (s : dial_state) : Prop :=
  is_u8 (dial_counter s) /\ 0 <= state_impulse s <= 0x40 /\
  0 <= state_dialing s <= 0x80 /\ 0 <= state_hangup s <= 0xFF.

(** What a scan may report: nothing, a digit, or a hook event. *)
Definition dial_report (r : Z) : Prop :=
  r = 0 \/ ch "0" <= r <= ch "9" \/ r = ch "H" \/ r = ch "h".

Ltac dial_cases :=
  repeat match goal with
  | |- context [if ?b then _ else _] => destruct b eqn:?; simpl
  end;
  rewrite ?Z.leb_le, ?Z.leb_gt, ?Z.eqb_eq, ?Z.eqb_neq in *.

Lemma dial_impulse_wf s p : dial_wf s -> dial_wf (dial_impulse s p).
Proof.
  destruct s as [cnt imp dia han]. unfold dial_wf, dial_impulse; simpl.
  intros (? & ? & ? & ?). dial_cases; split_and!; auto with cint; lia.
Qed.

Lemma dial_dialing_wf s p rv :
  dial_wf s -> dial_report rv ->
  dial_wf (dial_dialing s p rv).2 /\ dial_report (dial_dialing s p rv).1.
Proof.
  destruct s as [cnt imp dia han]. unfold dial_wf, dial_dialing, dial_report; simpl.
  change (ch "0") with 48. change (ch "9") with 57. unfold is_u; change (2 ^ 8) with 256.
  intros (? & ? & ? & ?) ?. dial_cases; split_and!; lia.
Qed.

Lemma dial_hangup_wf s p rv :
  dial_wf s -> dial_report rv ->
  dial_wf (dial_hangup s p rv).2 /\ dial_report (dial_hangup s p rv).1.
Proof.
  destruct s as [cnt imp dia han]. unfold dial_wf, dial_hangup, dial_report; simpl.
  intros (? & ? & ? & ?) ?. dial_cases; split_and!; auto; lia.
Qed.

Lemma dial_scan_keeps s a b c :
  dial_wf s ->
  dial_wf (dial_scan s a b c).2 /\ dial_report (dial_scan s a b c).1.
Proof.
  intros Hs. unfold dial_scan.
  pose proof (dial_dialing_wf _ b 0 (dial_impulse_wf s a Hs) (or_introl eq_refl)) as [H1 H2].
  destruct (dial_dialing (dial_impulse s a) b 0) as [rv s1]. by apply dial_hangup_wf.
Qed.

(** ** The blocks against the reference automaton *)

(** The impulse block is the reference debouncer with load 0x40; a firing counts
    one impulse. *)
Lemma dial_impulse_debounce s pinc :
  dial_impulse s pinc =
    let '(f, d) := debounce 0x40 (state_impulse s) (Z.testbit pinc IMPULSE_PIN) in
    DialState (if f then u8 (dial_counter s + 1) else dial_counter s) d
      (state_dialing s) (state_hangup s).
Proof.
  destruct s as [cnt imp dia han]. unfold dial_impulse, debounce; cbn [state_impulse].
  rewrite truth_land_bit by done. by destruct (imp <=? 1), (Z.testbit pinc IMPULSE_PIN), (imp =? 0).
Qed.

(** The dial block is the reference debouncer with load 0x80; a firing reports the
    digit counted so far and clears the counter. *)
Lemma dial_dialing_debounce s pinc rv :
  dial_dialing s pinc rv =
    let '(f, d) := debounce 0x80 (state_dialing s) (Z.testbit pinc DIAL_PIN) in
    if f then (ch "0" + (if 10 <=? dial_counter s then 0 else dial_counter s),
               DialState 0 (state_impulse s) d (state_hangup s))
    else (rv, DialState (dial_counter s) (state_impulse s) d (state_hangup s)).
Proof.
  destruct s as [cnt imp dia han]. unfold dial_dialing, debounce; cbn [state_dialing].
  rewrite truth_land_bit by done. by destruct (dia <=? 1), (Z.testbit pinc DIAL_PIN), (dia =? 0).
Qed.

(** With the hook switch idle (released and settled), the hook block is inert. *)
Lemma dial_hangup_idle cnt imp dia pinc rv :
  Z.testbit pinc HANGUP_PIN = false ->
  dial_hangup (DialState cnt imp dia 0) pinc rv = (rv, DialState cnt imp dia 0).
Proof. intros H. unfold dial_hangup. rewrite truth_land_bit, H by done. done. Qed.

(** Three equal samples per scan. *)
Definition same_pins (p : Z) : Z * Z * Z := (p, p, p).

Definition quiet (p : Z) : Prop :=
  Z.testbit p DIAL_PIN = false /\ Z.testbit p HANGUP_PIN = false.

Lemma dial_scan_quiet cnt imp p :
  quiet p ->
  dial_scan (DialState cnt imp 0 0) p p p =
    let '(f, d) := debounce 0x40 imp (Z.testbit p IMPULSE_PIN) in
    (0, DialState (if f then u8 (cnt + 1) else cnt) d 0 0).
Proof.
  intros [Hd Hh]. unfold dial_scan. rewrite dial_impulse_debounce; cbn [state_impulse].
  destruct (debounce 0x40 imp (Z.testbit p IMPULSE_PIN)) as [f d].
  rewrite dial_dialing_debounce; cbn [state_dialing]. rewrite Hd.
  change (debounce 0x80 0 false) with (false, 0). cbv beta iota. by rewrite dial_hangup_idle.
Qed.

Lemma firings_cons f fs : firings (f :: fs) = (if f then 1 else 0) + firings fs.
Proof. unfold firings. destruct f; rewrite filter_cons; simpl; lia. Qed.

Lemma dial_scans_quiet cnt imp ps :
  is_u8 cnt -> Forall quiet ps ->
  dial_scans (DialState cnt imp 0 0) (same_pins <$> ps) =
    let '(fs, d) := debounce_run 0x40 imp ((fun p => Z.testbit p IMPULSE_PIN) <$> ps) in
    (replicate (length ps) 0, DialState (u8 (cnt + firings fs)) d 0 0).
Proof.
  intros Hc Hps. revert cnt imp Hc. induction Hps as [|p ps Hp _ IH]; intros cnt imp Hc.
  { simpl. by rewrite Z.add_0_r, wrap_id. }
  cbn [fmap list_fmap dial_scans same_pins debounce_run].
  rewrite dial_scan_quiet by done.
  destruct (debounce 0x40 imp (Z.testbit p IMPULSE_PIN)) as [f d].
  rewrite IH by (destruct f; auto with cint).
  destruct (debounce_run 0x40 d _) as [fs d2]. rewrite firings_cons.
  cbn [length replicate]. do 2 f_equal. unfold wrap. destruct f.
  - rewrite Zplus_mod_idemp_l. f_equal; lia.
  - f_equal; lia.
Qed.

(** ** Theorems *)

(** From reset, every run of scans keeps the four counters of [dial_scan] in
    range and reports only nothing, a digit ['0'..'9'], ['H'] or ['h']. *)
Theorem dial_scans_reports ps :
  dial_wf (dial_scans dial_init ps).2 /\ Forall dial_report (dial_scans dial_init ps).1.
Proof.
  assert (dial_wf dial_init) as Hwf by (unfold dial_wf, is_u; simpl; lia).
  revert Hwf. generalize dial_init. induction ps as [|[[a b] c] ps IH]; intros s Hs; simpl.
  { done. }
  pose proof (dial_scan_keeps s a b c Hs) as [H1 H2].
  destruct (dial_scan s a b c) as [r s1]. specialize (IH s1 H1).
  destruct (dial_scans s1 ps) as [rs s2]. simpl in *. destruct IH. auto.
Qed.

(** The contact pattern of one dial pulse: closed for [h] scans, open for [l]. *)
Definition pulse (hl : nat * nat) : list bool := replicate hl.1 true ++ replicate hl.2 false.

Definition clean_pulse (hl : nat * nat) : Prop :=
  (0 < hl.1)%nat /\ (0 < hl.2)%nat /\ (65 <= hl.1 + hl.2)%nat.

Lemma firings_app fs gs : firings (fs ++ gs) = firings fs + firings gs.
Proof. induction fs as [|f fs IH]; simpl; [done|]. rewrite !firings_cons, IH. lia. Qed.

Lemma firings_replicate_false n : firings (replicate n false) = 0.
Proof. induction n as [|n IH]; simpl; [done|]. by rewrite firings_cons, IH. Qed.

Lemma debounce_pulses hls :
  Forall clean_pulse hls ->
  exists fs, debounce_run 0x40 0 (mjoin (pulse <$> hls)) = (fs, 0)
             /\ firings fs = Z.of_nat (length hls).
Proof.
  induction 1 as [|[h l] hls (Hh & Hl & Hs) _ (fs & IH & IHf)]; [by exists []|].
  simpl in Hh, Hl, Hs.
  change (mjoin (pulse <$> ((h, l) :: hls))) with (pulse (h, l) ++ mjoin (pulse <$> hls)).
  rewrite debounce_run_app. unfold pulse at 1; cbn [fst snd]. rewrite debounce_run_pulse by lia. rewrite IH.
  eexists; split; [done|]. cbn [length app]. rewrite firings_cons, firings_app, firings_replicate_false. lia.
Qed.

(** C38: Dialling a digit.  With the hook switch idle, any number [n < 256] of clean
    impulses followed by the dial contact reports nothing during the impulses and
    then the digit: [n] for [n < 10], and ['0'] for ten impulses and more. *)
Theorem dial_digit hls ps last :
  Forall clean_pulse hls -> Z.of_nat (length hls) < 256 ->
  Forall quiet ps ->
  (fun p => Z.testbit p IMPULSE_PIN) <$> ps = mjoin (pulse <$> hls) ->
  Z.testbit last DIAL_PIN = true -> Z.testbit last HANGUP_PIN = false ->
  Z.testbit last IMPULSE_PIN = false ->
  let n := Z.of_nat (length hls) in
  let '(rs, s) := dial_scans dial_init (same_pins <$> (ps ++ [last])) in
  rs = replicate (length ps) 0 ++ [ch "0" + (if 10 <=? n then 0 else n)]
  /\ dial_counter s = 0.
Proof.
  intros Hhl Hn Hq Hps Hd Hh Hi n.
  destruct (debounce_pulses hls Hhl) as (fs & Hrun & Hf).
  assert (forall s xs ys, dial_scans s (xs ++ ys) =
    let '(rs, s1) := dial_scans s xs in
    let '(rs', s2) := dial_scans s1 ys in (rs ++ rs', s2)) as Happ.
  { intros s xs ys. revert s. induction xs as [|[[a b] c] xs IH]; intros s; simpl.
    - by destruct (dial_scans s ys).
    - destruct (dial_scan s a b c) as [r s1]. rewrite IH.
      destruct (dial_scans s1 xs) as [rs s2]. by destruct (dial_scans s2 ys). }
  rewrite fmap_app, Happ. change dial_init with (DialState 0 0 0 0).
  rewrite dial_scans_quiet by (done || (unfold is_u; lia)). rewrite Hps, Hrun, Hf.
  rewrite Z.add_0_l, wrap_id by (unfold is_u; lia). fold n.
  cbn [fmap list_fmap same_pins dial_scans]. unfold dial_scan.
  rewrite dial_impulse_debounce; cbn [state_impulse]. rewrite Hi.
  change (debounce 0x40 0 false) with (false, 0). cbv beta iota.
  rewrite dial_dialing_debounce; cbn [state_dialing]. rewrite Hd.
  change (debounce 0x80 0 true) with (true, 0x80). cbv beta iota.
  rewrite dial_hangup_idle by done. done.
Qed.

(** Three pulses of 40 closed and 30 open scans dial a ['3']. *)
Lemma dial_digit_witness :
  let hls := replicate 3 (40, 30)%nat in
  let ps := (fun b : bool => if b then 0x40 else 0) <$> mjoin (pulse <$> hls) in
  let '(rs, s) := dial_scans dial_init (same_pins <$> (ps ++ [0x10])) in
  rs = replicate (length ps) 0 ++ [ch "3"] /\ dial_counter s = 0.
Proof.
  intros hls ps. apply (dial_digit hls ps 0x10); try reflexivity.
  - unfold hls, clean_pulse. repeat constructor; simpl; lia.
  - unfold ps, quiet. apply Forall_fmap, Forall_true. by intros [].
Defined.

(** Two impulses are counted only if the scans that count them are more than
    64 scans apart: contact bounce within the lockout adds nothing to the digit. *)
Theorem dial_impulse_spacing ps i j :
  let fs := (debounce_run 0x40 0 ((fun p => Z.testbit p IMPULSE_PIN) <$> ps)).1 in
  Forall quiet ps ->
  dial_counter (dial_scans dial_init (same_pins <$> ps)).2 = u8 (firings fs)
  /\ ((i < j)%nat -> fs !! i = Some true -> fs !! j = Some true ->
      Z.of_nat i + 64 < Z.of_nat j).
Proof.
  intros fs Hq. split.
  - change dial_init with (DialState 0 0 0 0).
    rewrite dial_scans_quiet by (done || (unfold is_u; lia)). subst fs.
    by destruct (debounce_run 0x40 0 _).
  - intros Hij Hi Hj. by apply (debounce_spacing 64 ltac:(lia) 0 _ i j) in Hj; [|lia|..].
Qed.

Lemma dial_impulse_spacing_witness :
  dial_counter (dial_scans dial_init (same_pins <$> [0x40; 0; 0x40; 0])).2 = 1.
Proof.
  apply (dial_impulse_spacing [0x40; 0; 0x40; 0] 0 1).
  unfold quiet. repeat constructor.
Defined.

Definition hook_report (r : Z) : Prop := r = ch "H" \/ r = ch "h".

Lemma dial_dialing_no_hook s p :
  dial_wf s -> ~ hook_report (dial_dialing s p 0).1
               /\ state_hangup (dial_dialing s p 0).2 = state_hangup s.
Proof.
  destruct s as [cnt imp dia han]. unfold dial_wf, dial_dialing, hook_report; simpl.
  change (ch "0") with 48. change (ch "H") with 72. change (ch "h") with 104.
  unfold is_u. intros (? & ? & ? & ?). dial_cases; lia.
Qed.

Lemma dial_scan_locked s a b c :
  dial_wf s -> 2 < state_hangup s ->
  ~ hook_report (dial_scan s a b c).1
  /\ state_hangup (dial_scan s a b c).2 = state_hangup s - 1.
Proof.
  intros Hwf Hs. unfold dial_scan.
  pose proof (dial_dialing_no_hook _ b (dial_impulse_wf s a Hwf)) as [Hr Hst].
  destruct (dial_dialing (dial_impulse s a) b 0) as [rv [cnt imp dia han]].
  simpl in Hr, Hst. assert (han = state_hangup s) as ->.
  { rewrite Hst. destruct s. unfold dial_impulse. by repeat case_match. }
  unfold dial_hangup. destruct (Z.leb_spec (state_hangup s) 2); [lia|]. done.
Qed.

Lemma dial_scans_locked s ps :
  dial_wf s -> Z.of_nat (length ps) <= state_hangup s - 2 ->
  Forall (fun r => ~ hook_report r) (dial_scans s ps).1
  /\ dial_wf (dial_scans s ps).2
  /\ state_hangup (dial_scans s ps).2 = state_hangup s - Z.of_nat (length ps).
Proof.
  revert s. induction ps as [|[[a b] c] ps IH]; intros s Hwf Hlen.
  { simpl. split_and!; [done..|lia]. }
  cbn [dial_scans length] in *.
  pose proof (dial_scan_locked s a b c Hwf ltac:(lia)) as [Hr Hst].
  pose proof (dial_scan_keeps s a b c Hwf) as [Hwf1 _].
  destruct (dial_scan s a b c) as [r s1]. simpl in Hr, Hst, Hwf1.
  specialize (IH s1 Hwf1 ltac:(lia)) as (? & ? & ?).
  destruct (dial_scans s1 ps) as [rs s2]. simpl in *. split_and!; [by constructor|done|lia].
Qed.

(** Hook debounce.  After a hook event ([state_hangup = 0xFF]) the next 253
    scans report no hook event, and the scan after them adopts the level of the
    switch as settled without reporting it.  A change of the switch that happens
    within the lockout is therefore not reported at all. *)
Theorem dial_hook_lockout s ps a b c :
  dial_wf s -> state_hangup s = 0xFF -> length ps = 253%nat ->
  let '(rs, s1) := dial_scans s ps in
  let '(r, s2) := dial_scan s1 a b c in
  Forall (fun r => ~ hook_report r) rs /\ ~ hook_report r
  /\ state_hangup s2 = (if Z.testbit c HANGUP_PIN then 1 else 0).
Proof.
  intros Hwf Hs Hlen.
  pose proof (dial_scans_locked s ps Hwf ltac:(lia)) as (Hrs & Hwf1 & Hst).
  destruct (dial_scans s ps) as [rs s1]. simpl in Hrs, Hwf1, Hst.
  rewrite Hs, Hlen in Hst. change (255 - Z.of_nat 253) with 2 in Hst.
  unfold dial_scan.
  pose proof (dial_dialing_no_hook _ b (dial_impulse_wf s1 a Hwf1)) as [Hr1 Hst1].
  destruct (dial_dialing (dial_impulse s1 a) b 0) as [rv [cnt imp dia han]].
  simpl in Hr1, Hst1. assert (han = 2) as ->.
  { rewrite Hst1, <- Hst. destruct s1. unfold dial_impulse. by repeat case_match. }
  unfold dial_hangup. rewrite truth_land_bit by done.
  by destruct (Z.testbit c HANGUP_PIN).
Qed.

(** The receiver is lifted and put back within the lockout: one ['H'], no ['h']. *)
Lemma dial_hook_lockout_witness :
  let s := (dial_scan dial_init 0x20 0x20 0x20).2 in
  (dial_scan dial_init 0x20 0x20 0x20).1 = ch "H"
  /\ let '(rs, s1) := dial_scans s (replicate 253 (0, 0, 0)) in
     let '(r, s2) := dial_scan s1 0 0 0 in
     Forall (fun r => ~ hook_report r) rs /\ ~ hook_report r /\ state_hangup s2 = 0.
Proof.
  intros s. split; [reflexivity|].
  apply (dial_hook_lockout s (replicate 253 (0, 0, 0)) 0 0 0); [|reflexivity..].
  unfold dial_wf, is_u. vm_compute. intuition congruence.
Defined.
