(* ===== verification/Keypad.v ===== *)
(** * Keypad: the 4x4 matrix keypad scanner ([keypad.c], [keypad.h])

    [keypad_scan] scans one matrix row per call.  Its static objects [row] and
    [debouncing] and the global [matrix_selector] (which [shiftreg_out] puts on the
    row drivers between two calls) are the fields of [keypad_state]; the value of
    [PIND] it reads is an argument. *)
From S2P Require Import Prelude Debounce.

Definition KEYPAD_COLS_FIRST_PIN := 0.

Record keypad_state := KeypadState {
  matrix_selector : Z;
  row : Z;
  debouncing : list (list Z) }.

Definition keypad_init : keypad_state :=
  KeypadState 0x10 0 (replicate 4 (replicate 4 0)).

(** [keypad_setup]: pull-ups of the column inputs, on [PORTD]. *)
Definition keypad_setup (portd : Z) : Z := portd .| (0xF .<< KEYPAD_COLS_FIRST_PIN).

(** The string literal [lookup] of [keypad_scan]. *)
Definition lookup_table : list Z :=
  [ch "2"; ch "5"; ch "8"; ch "0"; ch "1"; ch "4"; ch "7"; ch "a";
   ch "f"; ch "e"; ch "d"; ch "c"; ch "3"; ch "6"; ch "9"; ch "b"].

Definition key_code (r i : Z) : Z := default 0 (lookup_table !! Z.to_nat (r * 4 + i)).

(** Body of the [for] loop: column [i] of the row being scanned, whose
    [debouncing] entries are [cells]. *)
Definition keypad_cell (r row_state : Z) (acc : Z * list Z) (i : Z) : Z * list Z :=
  let '(ret, cells) := acc in
  let d := default 0 (cells !! Z.to_nat i) in
  let store v := <[Z.to_nat i := v]> cells in
  if d <=? 1 then
    if truth (row_state .& bit i) then
      if d =? 0 then (key_code r i, store 0x40) else (ret, cells)
    else (ret, store 0)
  else (ret, store (u8 (d - 1))).

Definition keypad_scan (s : keypad_state) (pind : Z) : Z * keypad_state :=
  let 'KeypadState sel r deb := s in
  let row_state := u8 (Z.lnot (pind .>> KEYPAD_COLS_FIRST_PIN)) in
  let cells := default [] (deb !! Z.to_nat r) in
  let '(ret, cells) := fold_left (keypad_cell r row_state) [0; 1; 2; 3] (0, cells) in
  let deb := <[Z.to_nat r := cells]> deb in
  let sel := u8 (sel .<< 1) in
  let r := u8 (r + 1) in
  if truth sel then (ret, KeypadState sel r deb) else (ret, KeypadState 0x10 0 deb).

Fixpoint keypad_scans (s : keypad_state) (ps : list Z) : list Z * keypad_state :=
  match ps with
  | [] => ([], s)
  | p :: ps' =>
      let '(r, s1) := keypad_scan s p in
      let '(rs, s2) := keypad_scans s1 ps' in
      (r :: rs, s2)
  end.

(** ** Invariant *)

Definition cell_wf (d : Z) : Prop := 0 <= d <= 0x40.

(** The row counter and the one-hot row selector move together, and the debounce
    array has its declared shape. *)
Definition keypad_wf (s : keypad_state) : Prop :=
  0 <= row s < 4 /\ matrix_selector s = 0x10 .<< row s /\
  length (debouncing s) = 4%nat /\
  Forall (fun cells => length cells = 4%nat /\ Forall cell_wf cells) (debouncing s).

Definition cell (s : keypad_state) (r i : Z) : Z :=
  default 0 (default [] (debouncing s !! Z.to_nat r) !! Z.to_nat i).

(** Column [i] reads as pressed when its input is pulled low. *)
Definition pressed (pind i : Z) : bool := negb (Z.testbit pind i).

Lemma row_state_bit pind i :
  0 <= i < 4 -> truth (u8 (Z.lnot (pind .>> KEYPAD_COLS_FIRST_PIN)) .& bit i) = pressed pind i.
Proof.
  intros Hi. rewrite truth_land_bit by lia. unfold wrap, KEYPAD_COLS_FIRST_PIN.
  rewrite Z.mod_pow2_bits_low by lia. rewrite Z.lnot_spec, Z.shiftr_0_r by lia. done.
Qed.

(** One column against the reference debouncer. *)
Lemma keypad_cell_debounce r pind ret cells i d :
  0 <= i < 4 -> cells !! Z.to_nat i = Some d -> cell_wf d ->
  keypad_cell r (u8 (Z.lnot (pind .>> KEYPAD_COLS_FIRST_PIN))) (ret, cells) i =
    let '(f, d') := debounce 0x40 d (pressed pind i) in
    (if f then key_code r i else ret, <[Z.to_nat i := d']> cells).
Proof.
  intros Hi Hd Hwf. unfold keypad_cell. rewrite Hd, row_state_bit by done.
  unfold cell_wf in Hwf. cbn [default from_option]. unfold debounce, id.
  destruct (Z.leb_spec d 1); [|rewrite wrap_id by (unfold is_u; lia); done].
  destruct (pressed pind i); [|done].
  destruct (Z.eqb_spec d 0); [done|]. by rewrite list_insert_id.
Qed.

(** The four columns of a row. *)
Lemma keypad_row_debounce r pind d0 d1 d2 d3 :
  Forall cell_wf [d0; d1; d2; d3] ->
  fold_left (keypad_cell r (u8 (Z.lnot (pind .>> KEYPAD_COLS_FIRST_PIN)))) [0; 1; 2; 3]
    (0, [d0; d1; d2; d3]) =
    let '(f0, e0) := debounce 0x40 d0 (pressed pind 0) in
    let '(f1, e1) := debounce 0x40 d1 (pressed pind 1) in
    let '(f2, e2) := debounce 0x40 d2 (pressed pind 2) in
    let '(f3, e3) := debounce 0x40 d3 (pressed pind 3) in
    (if f3 then key_code r 3 else if f2 then key_code r 2
     else if f1 then key_code r 1 else if f0 then key_code r 0 else 0,
     [e0; e1; e2; e3]).
Proof.
  intros H. rewrite !Forall_cons_iff in H. destruct H as (? & ? & ? & ? & _). cbn [fold_left].
  rewrite (keypad_cell_debounce _ _ _ _ 0 d0) by (lia || done).
  destruct (debounce 0x40 d0 _) as [f0 e0]. cbv beta iota.
  rewrite (keypad_cell_debounce _ _ _ _ 1 d1) by (lia || done).
  destruct (debounce 0x40 d1 _) as [f1 e1]. cbv beta iota.
  rewrite (keypad_cell_debounce _ _ _ _ 2 d2) by (lia || done).
  destruct (debounce 0x40 d2 _) as [f2 e2]. cbv beta iota.
  rewrite (keypad_cell_debounce _ _ _ _ 3 d3) by (lia || done).
  destruct (debounce 0x40 d3 _) as [f3 e3]. done.
Qed.

Lemma keypad_wf_row s :
  keypad_wf s -> exists d0 d1 d2 d3,
    debouncing s !! Z.to_nat (row s) = Some [d0; d1; d2; d3] /\ Forall cell_wf [d0; d1; d2; d3].
Proof.
  intros (Hr & _ & Hlen & Hall).
  destruct (lookup_lt_is_Some_2 (debouncing s) (Z.to_nat (row s))) as [cells Hc]; [lia|].
  rewrite Forall_lookup in Hall. destruct (Hall _ _ Hc) as [Hl Hw].
  destruct cells as [|d0 [|d1 [|d2 [|d3 [|]]]]]; try done. eauto 10.
Qed.

Lemma selector_step r :
  0 <= r < 4 ->
  u8 (0x10 .<< r .<< 1) = (if r =? 3 then 0 else 0x10 .<< (r + 1)) /\ u8 (r + 1) = r + 1.
Proof. intros H. assert (r = 0 \/ r = 1 \/ r = 2 \/ r = 3) as [-> | [-> | [-> | ->]]] by lia; done. Qed.

(** The complete effect of a scan on a well-formed state. *)
Lemma keypad_scan_eq s pind d0 d1 d2 d3 :
  keypad_wf s -> debouncing s !! Z.to_nat (row s) = Some [d0; d1; d2; d3] ->
  Forall cell_wf [d0; d1; d2; d3] ->
  keypad_scan s pind =
    let '(ret, cells) :=
      fold_left (keypad_cell (row s) (u8 (Z.lnot (pind .>> KEYPAD_COLS_FIRST_PIN))))
        [0; 1; 2; 3] (0, [d0; d1; d2; d3]) in
    (ret, KeypadState (0x10 .<< ((row s + 1) mod 4)) ((row s + 1) mod 4)
            (<[Z.to_nat (row s) := cells]> (debouncing s))).
Proof.
  intros (Hr & Hsel & _) Hrow Hcw. destruct s as [sel r deb]. cbn [row matrix_selector debouncing] in *.
  subst sel. unfold keypad_scan. rewrite Hrow. cbn [default from_option]. unfold id.
  destruct (fold_left _ _ _) as [ret cells].
  destruct (selector_step r Hr) as [-> ->].
  assert (r = 0 \/ r = 1 \/ r = 2 \/ r = 3) as [-> | [-> | [-> | ->]]] by lia; done.
Qed.

Lemma keypad_scan_wf s pind : keypad_wf s -> keypad_wf (keypad_scan s pind).2.
Proof.
  intros Hwf. destruct (keypad_wf_row s Hwf) as (d0 & d1 & d2 & d3 & Hrow & Hcw).
  rewrite (keypad_scan_eq _ _ _ _ _ _ Hwf Hrow Hcw), keypad_row_debounce by done.
  destruct Hwf as (Hr & _ & Hlen & Hall).
  rewrite !Forall_cons_iff in Hcw. destruct Hcw as (? & ? & ? & ? & _).
  pose proof (debounce_range 0x40 ltac:(lia) d0 (pressed pind 0)).
  pose proof (debounce_range 0x40 ltac:(lia) d1 (pressed pind 1)).
  pose proof (debounce_range 0x40 ltac:(lia) d2 (pressed pind 2)).
  pose proof (debounce_range 0x40 ltac:(lia) d3 (pressed pind 3)).
  destruct (debounce 0x40 d0 _), (debounce 0x40 d1 _), (debounce 0x40 d2 _), (debounce 0x40 d3 _).
  unfold keypad_wf, cell_wf in *. cbn [snd row matrix_selector debouncing] in *.
  split_and!; [pose proof (Z.mod_pos_bound (row s + 1) 4); lia..|done| |].
  - by rewrite length_insert.
  - apply Forall_insert; [done|]. split; [done|]. repeat constructor; lia.
Qed.

(** Cell by cell form of [keypad_scan_eq]. *)
Lemma keypad_scan_spec s pind :
  keypad_wf s ->
  let fires i := (debounce 0x40 (cell s (row s) i) (pressed pind i)).1 in
  let '(ret, s') := keypad_scan s pind in
  (forall r i, 0 <= r < 4 -> 0 <= i < 4 ->
     cell s' r i = if r =? row s then (debounce 0x40 (cell s r i) (pressed pind i)).2
                   else cell s r i)
  /\ ret = (if fires 3 then key_code (row s) 3 else if fires 2 then key_code (row s) 2
            else if fires 1 then key_code (row s) 1 else if fires 0 then key_code (row s) 0
            else 0).
Proof.
  intros Hwf fires. destruct (keypad_wf_row s Hwf) as (d0 & d1 & d2 & d3 & Hr & Hcw).
  rewrite (keypad_scan_eq _ _ _ _ _ _ Hwf Hr Hcw), keypad_row_debounce by done.
  destruct Hwf as (Hrow & _ & Hlen & _).
  assert (forall i e, [d0; d1; d2; d3] !! Z.to_nat i = Some e -> cell s (row s) i = e) as Hcell.
  { intros i e He. unfold cell. rewrite Hr. simpl. unfold id. by rewrite He. }
  subst fires. cbn beta.
  rewrite (Hcell 0 d0), (Hcell 1 d1), (Hcell 2 d2), (Hcell 3 d3) by done.
  destruct (debounce 0x40 d0 _) as [f0 e0] eqn:H0, (debounce 0x40 d1 _) as [f1 e1] eqn:H1,
    (debounce 0x40 d2 _) as [f2 e2] eqn:H2, (debounce 0x40 d3 _) as [f3 e3] eqn:H3.
  split; [|done]. intros r i Hr4 Hi4. unfold cell at 1. cbn [debouncing].
  destruct (Z.eqb_spec r (row s)) as [->|Hne].
  - rewrite list_lookup_insert_eq by lia. cbn [default from_option]. unfold id.
    assert (i = 0 \/ i = 1 \/ i = 2 \/ i = 3) as [-> | [-> | [-> | ->]]] by lia;
      erewrite Hcell by done; [rewrite H0|rewrite H1|rewrite H2|rewrite H3]; done.
  - rewrite list_lookup_insert_ne by lia. done.
Qed.

(** ** Theorems *)

(** The row counter and the row selector stay in step and the debounce array
    stays in range through any run of scans from reset, so that [keypad_scan]
    never indexes [debouncing] or [lookup] out of bounds; every reported key is the
    code of a key of the scanned row, or 0. *)
Theorem keypad_scans_invariant ps :
  let '(rs, s) := keypad_scans keypad_init ps in
  keypad_wf s /\ row s = Z.of_nat (length ps) mod 4
  /\ forall n r, rs !! n = Some r ->
       r = 0 \/ exists i, 0 <= i < 4 /\ r = key_code (Z.of_nat n mod 4) i.
Proof.
  assert (keypad_wf keypad_init /\ row keypad_init = 0 mod 4) as [Hwf Hrow].
  { split; [|done]. unfold keypad_wf, cell_wf. simpl. split_and!; [lia..|done|done|].
    repeat constructor; lia. }
  enough (forall ps k s, keypad_wf s -> row s = Z.of_nat k mod 4 ->
    let '(rs, s') := keypad_scans s ps in
    keypad_wf s' /\ row s' = Z.of_nat (k + length ps) mod 4
    /\ forall n r, rs !! n = Some r ->
         r = 0 \/ exists i, 0 <= i < 4 /\ r = key_code (Z.of_nat (k + n) mod 4) i) as H
    by apply (H ps 0%nat keypad_init Hwf Hrow).
  clear. induction ps as [|p ps IH]; intros k s Hwf Hrow.
  { simpl. rewrite Nat.add_0_r. done. }
  cbn [keypad_scans]. pose proof (keypad_scan_wf s p Hwf) as Hwf1.
  destruct (keypad_wf_row s Hwf) as (d0 & d1 & d2 & d3 & Hr & Hcw).
  rewrite (keypad_scan_eq _ _ _ _ _ _ Hwf Hr Hcw), keypad_row_debounce in * by done.
  repeat destruct (debounce 0x40 _ _). cbn [snd] in Hwf1.
  specialize (IH (S k) _ Hwf1). destruct (keypad_scans _ ps) as [rs s'].
  destruct IH as (? & Hrow' & Hrs).
  { cbn [row]. rewrite Hrow, Nat2Z.inj_succ, Zplus_mod_idemp_l. done. }
  split_and!; [done| |].
  - cbn [length]. rewrite Hrow'. do 2 f_equal. lia.
  - intros [|n] r; simpl.
    + intros [= <-]. rewrite Nat.add_0_r, <- Hrow.
      repeat case_match; [right; eexists; split; [|done]; lia..|by left].
    + intros Hn. replace (k + S n)%nat with (S k + n)%nat by lia. by apply Hrs.
Qed.

(** The complete result of a scan.  Each cell of the scanned row moves as the
    reference debouncer with its column, the other rows are untouched, and the
    report is the code of the highest column that fires (0 if none does). *)
Theorem keypad_scan_functional s pind :
  keypad_wf s ->
  let fires i := (debounce 0x40 (cell s (row s) i) (pressed pind i)).1 in
  let '(ret, s') := keypad_scan s pind in
  (forall r i, 0 <= r < 4 -> 0 <= i < 4 ->
     cell s' r i = if r =? row s then (debounce 0x40 (cell s r i) (pressed pind i)).2
                   else cell s r i)
  /\ ret = (if fires 3 then key_code (row s) 3 else if fires 2 then key_code (row s) 2
            else if fires 1 then key_code (row s) 1 else if fires 0 then key_code (row s) 0
            else 0).
Proof. apply keypad_scan_spec. Qed.

Lemma keypad_scan_functional_witness :
  keypad_wf keypad_init /\ (keypad_scan keypad_init 0xFB).1 = ch "8".
Proof.
  assert (keypad_wf keypad_init) as Hwf.
  { unfold keypad_wf, cell_wf. simpl. split_and!; [lia..|done|done|]. repeat constructor; lia. }
  split; [done|]. pose proof (keypad_scan_functional keypad_init 0xFB Hwf) as H.
  destruct (keypad_scan keypad_init 0xFB) as [ret s']. apply H.
Defined.

(** ** A single key over whole matrix cycles *)

(** State at the start of a cycle in which only the cell of key [(r, i)] is in use. *)
Definition only (r i : nat) (d : Z) : keypad_state :=
  KeypadState 0x10 0 (<[r := <[i := d]> (replicate 4 0)]> (replicate 4 (replicate 4 0))).

(** The four column readings of a cycle in which key [(r, i)] is up or down. *)
Definition cycle (r i : nat) (down : bool) : list Z :=
  (fun q => if down && (q =? r)%nat then 0xFF .&~ bit (Z.of_nat i) else 0xFF) <$> seq 0 4.

Definition cycle_report (r i : nat) (fires : bool) : list Z :=
  (fun q => if fires && (q =? r)%nat then key_code (Z.of_nat r) (Z.of_nat i) else 0) <$> seq 0 4.

Lemma keypad_cycle r i d down :
  (r < 4)%nat -> (i < 4)%nat -> cell_wf d ->
  keypad_scans (only r i d) (cycle r i down) =
    let '(f, d') := debounce 0x40 d down in (cycle_report r i f, only r i d').
Proof.
  intros Hr Hi Hd. unfold cell_wf in Hd.
  assert (wrap 8 (d - 1) = d - 1 \/ d = 0) as Hw.
  { destruct (Z.eq_dec d 0); [by right|]. left. apply wrap_id. unfold is_u. lia. }
  do 4 (destruct r as [|r]; [do 4 (destruct i as [|i];
    [destruct down; simpl; unfold keypad_cell, debounce; simpl;
     destruct (Z.leb_spec d 1), (Z.eqb_spec d 0); simpl;
     try reflexivity; destruct Hw as [Hw|Hw]; try lia; try (rewrite Hw; reflexivity); subst; reflexivity|]); lia|]).
  lia.
Qed.

Lemma keypad_scans_app s xs ys :
  keypad_scans s (xs ++ ys) =
    let '(rs, s1) := keypad_scans s xs in
    let '(rs', s2) := keypad_scans s1 ys in (rs ++ rs', s2).
Proof.
  revert s. induction xs as [|x xs IH]; intros s; simpl.
  - by destruct (keypad_scans s ys).
  - destruct (keypad_scan s x) as [r s1]. rewrite IH.
    destruct (keypad_scans s1 xs) as [rs s2]. by destruct (keypad_scans s2 ys).
Qed.

Lemma keypad_cycles r i d downs :
  (r < 4)%nat -> (i < 4)%nat -> cell_wf d ->
  keypad_scans (only r i d) (mjoin (cycle r i <$> downs)) =
    let '(fs, d') := debounce_run 0x40 d downs in
    (mjoin (cycle_report r i <$> fs), only r i d').
Proof.
  intros Hr Hi. revert d. induction downs as [|b downs IH]; intros d Hd; [done|].
  change (mjoin (cycle r i <$> (b :: downs))) with (cycle r i b ++ mjoin (cycle r i <$> downs)).
  rewrite keypad_scans_app, keypad_cycle by done. cbn [debounce_run].
  pose proof (debounce_range 0x40 ltac:(lia) d b Hd) as Hd1.
  destruct (debounce 0x40 d b) as [f d1]. rewrite IH by done.
  by destruct (debounce_run 0x40 d1 downs).
Qed.

Lemma keypad_init_only r i : (r < 4)%nat -> (i < 4)%nat -> keypad_init = only r i 0.
Proof.
  intros Hr Hi. unfold keypad_init, only. f_equal.
  rewrite (list_insert_id (replicate 4 0)) by (apply lookup_replicate; done).
  by rewrite list_insert_id by (apply lookup_replicate; done).
Qed.

(** C39: One report per key press.  Whatever key of the matrix is pressed, held for
    [n] cycles and released for [m] cycles, with the whole press longer than the
    64-cycle lockout, the scanner reports that key's code exactly once, in the first
    cycle, and nothing else; it is then ready for the next press. *)
Theorem keypad_press_once r i n m :
  (r < 4)%nat -> (i < 4)%nat -> (0 < n)%nat -> (0 < m)%nat -> (65 <= n + m)%nat ->
  keypad_scans keypad_init (mjoin (cycle r i <$> (replicate n true ++ replicate m false))) =
    (cycle_report r i true ++ replicate (4 * (n + m - 1)) 0, keypad_init).
Proof.
  intros Hr Hi Hn Hm Hnm. rewrite (keypad_init_only r i Hr Hi).
  rewrite keypad_cycles by (done || (unfold cell_wf; lia)).
  rewrite debounce_run_pulse by lia. f_equal.
  change (mjoin (cycle_report r i <$> true :: ?l))
    with (cycle_report r i true ++ mjoin (cycle_report r i <$> l)).
  f_equal. induction (n + m - 1)%nat as [|k IH]; [done|].
  change (replicate (S k) false) with (false :: replicate k false).
  change (mjoin (cycle_report r i <$> false :: ?l))
    with (replicate 4 0 ++ mjoin (cycle_report r i <$> l)).
  rewrite IH, <- replicate_add. f_equal. lia.
Qed.

Lemma keypad_press_once_witness :
  keypad_scans keypad_init (mjoin (cycle 1 2 <$> (replicate 30 true ++ replicate 40 false))) =
    ([0; ch "7"; 0; 0] ++ replicate 276 0, keypad_init).
Proof. apply (keypad_press_once 1 2 30 40); lia. Defined.

(** Two keys of the same row that go down in the same scan are both latched, but
    only the one in the higher column is reported: the other press is lost. *)
Theorem keypad_same_row_shadowed s pind i j :
  keypad_wf s -> 0 <= i -> i < j < 4 ->
  cell s (row s) i = 0 -> cell s (row s) j = 0 ->
  pressed pind i = true -> pressed pind j = true ->
  (forall k, j < k < 4 -> pressed pind k = false) ->
  let '(ret, s') := keypad_scan s pind in
  ret = key_code (row s) j /\ cell s' (row s) i = 0x40 /\ cell s' (row s) j = 0x40.
Proof.
  intros Hwf Hi Hj Hci Hcj Hpi Hpj Hhigh.
  assert (forall k, 0 <= k < 4 ->
    (debounce 0x40 (cell s (row s) k) (pressed pind k)).1 = true -> k <= j) as Hno.
  { intros k Hk [_ Hp]%debounce_fires. destruct (Z.le_gt_cases k j); [done|].
    rewrite Hhigh in Hp by lia. done. }
  pose proof (keypad_scan_spec s pind Hwf) as H. cbv zeta in H.
  destruct (keypad_scan s pind) as [ret s']. destruct H as [Hc ->].
  rewrite !Hc, Z.eqb_refl, Hci, Hcj, Hpi, Hpj by (destruct Hwf; lia).
  split; [|done].
  assert ((debounce 0x40 (cell s (row s) j) (pressed pind j)).1 = true) as Hjf
    by (by rewrite Hcj, Hpj).
  pose proof (Hno 3 ltac:(lia)) as H3. pose proof (Hno 2 ltac:(lia)) as H2.
  assert (j = 1 \/ j = 2 \/ j = 3) as [-> | [-> | ->]] by lia;
    repeat case_match; congruence || (specialize (H3 eq_refl); lia)
    || (specialize (H2 eq_refl); lia) || done.
Qed.

Lemma keypad_same_row_shadowed_witness :
  let '(ret, s') := keypad_scan keypad_init 0xFC in
  ret = ch "5" /\ cell s' 0 0 = 0x40 /\ cell s' 0 1 = 0x40.
Proof.
  apply (keypad_same_row_shadowed keypad_init 0xFC 0 1); try reflexivity; try lia.
  - unfold keypad_wf, cell_wf. simpl. split_and!; [lia..|done|done|]. repeat constructor; lia.
  - intros k Hk. assert (k = 2 \/ k = 3) as [-> | ->] by lia; reflexivity.
Defined.
