(* ===== verification/Protocol.v ===== *)
(** * Protocol: the serial command interpreter and the LED/matrix shift register
    ([handle_user_input], [set_led] and the byte [shiftreg_out] sends; [c_locc.c])

    [handle_user_input] is fed one received byte per frame.  Its static objects
    [p_state] and [cmd_target] and the global [led_states] are the fields of
    [proto_state].  Its calls of [usb_putc] are returned as the list of characters
    to send, in order, next to its return value. *)
From S2P Require Import Prelude Keypad.

Inductive protocol_state :=
  WAIT_FOR_NEWLINE | WAIT_FOR_CMD_CHAR | WAIT_FOR_LED_NUMBER | WAIT_FOR_LED_VALUE.

#[global] Instance protocol_state_eq_dec : EqDecision protocol_state.
Proof. solve_decision. Defined.

Record proto_state := ProtoState {
  p_state : protocol_state;
  cmd_target : Z;
  led_states : Z }.

Definition proto_init : proto_state := ProtoState WAIT_FOR_NEWLINE 0 0x07.

Definition CR := 13.
Definition LF := 10.

(** [set_led(num, val)] on [led_states]; both arguments are [uint8_t]. *)
Definition set_led (led num val : Z) : Z :=
  if num <? 3 then (led .&~ bit num) .| (Z.b2z (negb (truth val)) .<< num) else led.

Definition handle_user_input (s : proto_state) (c : Z) : Z * list Z * proto_state :=
  let 'ProtoState p tgt led := s in
  match p with
  | WAIT_FOR_NEWLINE =>
      if (c =? LF) || (c =? CR) then (0, [], ProtoState WAIT_FOR_CMD_CHAR tgt led)
      else (0, [], s)
  | WAIT_FOR_CMD_CHAR =>
      if c =? ch "o" then (1, [ch "O"], ProtoState WAIT_FOR_NEWLINE tgt led)
      else if c =? ch "l" then (0, [], ProtoState WAIT_FOR_LED_NUMBER tgt led)
      else if c =? ch "h" then (0, [], s)
      else if c =? ch "i" then (0, [], s)
      else if (c =? LF) || (c =? CR) then (0, [CR], s)
      else (0, [], ProtoState WAIT_FOR_NEWLINE tgt led)
  | WAIT_FOR_LED_NUMBER => (0, [], ProtoState WAIT_FOR_LED_VALUE (u8 c) led)
  | WAIT_FOR_LED_VALUE =>
      (0, [], ProtoState WAIT_FOR_NEWLINE tgt
                (set_led led (u8 (tgt - ch "0")) (u8 (c - ch "0"))))
  end.

(** A run over the received bytes: the return values and the final state. *)
Fixpoint handle_inputs (s : proto_state) (cs : list Z) : list Z * proto_state :=
  match cs with
  | [] => ([], s)
  | c :: cs' =>
      let '(cmd, _, s1) := handle_user_input s c in
      let '(cmds, s2) := handle_inputs s1 cs' in
      (cmd :: cmds, s2)
  end.

(** The byte [shiftreg_out] writes to [SPDR]: LEDs in the low nibble, the row
    drivers, active low, in the high nibble. *)
Definition shiftreg_byte (led sel : Z) : Z := u8 (led .| (0xF0 .& Z.lnot sel)).

(** ** LEDs *)

Definition led_wf (s : proto_state) : Prop := is_u 3 (led_states s).

Lemma set_led_bits led num val i :
  0 <= num -> 0 <= i ->
  Z.testbit (set_led led num val) i =
    if (num <? 3) && (num =? i) then (val =? 0) else Z.testbit led i.
Proof.
  intros Hn Hi. unfold set_led. destruct (Z.ltb_spec num 3); [|done]. cbn [andb].
  rewrite Z.lor_spec, testbit_clr by done. rewrite Z.shiftl_spec by done.
  destruct (Z.eqb_spec num i) as [->|Hne].
  - rewrite Z.sub_diag. unfold truth. rewrite negb_involutive, andb_false_r.
    by destruct (val =? 0).
  - rewrite andb_true_r. destruct (Z.lt_ge_cases i num) as [?|?].
    + rewrite (Z.testbit_neg_r _ (i - num)) by lia. apply orb_false_r.
    + assert (Z.testbit (Z.b2z (negb (truth val))) (i - num) = false) as ->; [|apply orb_false_r].
      destruct (negb (truth val)); [|apply Z.testbit_0_l].
      change (Z.b2z true) with (2 ^ 0). apply Z.pow2_bits_false. lia.
Qed.

Lemma set_led_wf led num val : 0 <= num -> is_u 3 led -> is_u 3 (set_led led num val).
Proof.
  intros Hn Hled. apply is_u_bits; [done|]. apply is_u_bits in Hled as [H0 Hb]; [|done].
  split.
  - unfold set_led. destruct (num <? 3); [|done].
    apply Z.lor_nonneg; split; [apply Z.ldiff_nonneg; by left|apply Z.shiftl_nonneg].
    by destruct (negb (truth val)).
  - intros i Hi. rewrite set_led_bits by lia. rewrite Hb by done.
    destruct (Z.ltb_spec num 3), (Z.eqb_spec num i); simpl; lia || done.
Qed.

Lemma handle_user_input_led_wf s c : led_wf s -> led_wf (handle_user_input s c).2.
Proof.
  destruct s as [p tgt led]. unfold led_wf, handle_user_input; simpl. intros Hl.
  repeat case_match; simpl; try done.
  apply set_led_wf; [|done]. by apply (wrap_is_u 8).
Qed.

Lemma handle_inputs_led_wf s cs : led_wf s -> led_wf (handle_inputs s cs).2.
Proof.
  revert s. induction cs as [|c cs IH]; intros s Hs; simpl; [done|].
  apply (handle_user_input_led_wf s c) in Hs.
  destruct (handle_user_input s c) as [[cmd outs] s1]. specialize (IH s1 Hs).
  by destruct (handle_inputs s1 cs).
Qed.

(** The LED command.  From the command state, ["l"] followed by a LED number
    character and a value character sets that LED and only that one (a lit LED is a
    0 bit), for the numbers ['0'..'2']; every other number byte changes nothing.  No
    byte sequence ever sets a bit of [led_states] above the three LEDs. *)
Theorem led_command s a b i :
  p_state s = WAIT_FOR_CMD_CHAR -> is_u8 a -> is_u8 b -> led_wf s -> 0 <= i ->
  let '(cmds, s') := handle_inputs s [ch "l"; a; b] in
  cmds = [0; 0; 0] /\ p_state s' = WAIT_FOR_NEWLINE /\ led_wf s' /\
  Z.testbit (led_states s') i =
    if (ch "0" <=? a) && (a <? ch "3") && (a - ch "0" =? i) then (b =? ch "0")
    else Z.testbit (led_states s) i.
Proof.
  intros Hp Ha Hb Hled Hi. pose proof (handle_inputs_led_wf s [ch "l"; a; b] Hled) as Hwf.
  destruct s as [p tgt led]. simpl in Hp. subst p. simpl in Hwf |- *.
  split_and!; [done..|exact Hwf|].
  rewrite set_led_bits by (done || apply (wrap_is_u 8); done).
  change (ch "0") with 48 in *. change (ch "3") with 51. rewrite (wrap_id 8 a) by done.
  unfold is_u in Ha, Hb. change (2 ^ 8) with 256 in Ha, Hb.
  assert (u8 (b - 48) = 0 <-> b = 48) as Hb48.
  { unfold wrap. change (2 ^ 8) with 256. split; intros; [|by subst]. zmod. }
  assert (u8 (a - 48) = if 48 <=? a then a - 48 else a + 208) as ->.
  { unfold wrap. change (2 ^ 8) with 256. destruct (Z.leb_spec 48 a); zmod. }
  destruct (Z.eqb_spec b 48), (Z.eqb_spec (u8 (b - 48)) 0); try (exfalso; tauto);
    destruct (Z.leb_spec 48 a), (Z.ltb_spec a 51); simpl;
    destruct (Z.ltb_spec (a - 48) 3), (Z.ltb_spec (a + 208) 3); simpl; lia || done.
Qed.

Lemma led_command_witness :
  let s := ProtoState WAIT_FOR_CMD_CHAR 0 0x07 in
  let '(cmds, s') := handle_inputs s [ch "l"; ch "1"; ch "1"] in
  cmds = [0; 0; 0] /\ p_state s' = WAIT_FOR_NEWLINE /\ led_wf s' /\
  Z.testbit (led_states s') 1 = false.
Proof.
  intros s. apply (led_command s (ch "1") (ch "1") 1); unfold led_wf, is_u; vm_compute; done || (split; congruence).
Defined.

(** ** The command grammar *)

Definition newline (c : Z) : bool := (c =? LF) || (c =? CR).

(** Bytes that leave the interpreter waiting for a command character. *)
Definition idle_byte (c : Z) : bool := newline c || (c =? ch "h") || (c =? ch "i").

(** [cs] ends in a newline followed by idle bytes only. *)
Definition command_position (cs : list Z) : Prop :=
  exists pre nl mid, cs = pre ++ nl :: mid /\ newline nl = true /\ Forall (fun c => idle_byte c = true) mid.

Lemma command_position_idle cs c :
  command_position cs -> idle_byte c = true -> command_position (cs ++ [c]).
Proof.
  intros (pre & nl & mid & -> & Hnl & Hmid) Hc. exists pre, nl, (mid ++ [c]).
  split_and!; [by rewrite <- app_assoc|done|]. apply Forall_app; auto.
Qed.

Lemma handle_inputs_app s xs ys :
  handle_inputs s (xs ++ ys) =
    let '(cs, s1) := handle_inputs s xs in
    let '(ds, s2) := handle_inputs s1 ys in (cs ++ ds, s2).
Proof.
  revert s. induction xs as [|x xs IH]; intros s; simpl.
  - by destruct (handle_inputs s ys).
  - destruct (handle_user_input s x) as [[c o] s1]. rewrite IH.
    destruct (handle_inputs s1 xs) as [cs s2]. by destruct (handle_inputs s2 ys).
Qed.

Lemma waits_for_command cs :
  p_state (handle_inputs proto_init cs).2 = WAIT_FOR_CMD_CHAR -> command_position cs.
Proof.
  induction cs as [|c cs IH] using rev_ind; [done|].
  rewrite handle_inputs_app. destruct (handle_inputs proto_init cs) as [ds [p tgt led]].
  cbn [handle_inputs snd p_state] in *.
  unfold handle_user_input. destruct p; intros H.
  - destruct ((c =? LF) || (c =? CR)) eqn:Hc; [|done]. by exists cs, c, [].
  - specialize (IH eq_refl).
    destruct (c =? ch "o"); [discriminate|]. destruct (c =? ch "l"); [discriminate|].
    apply command_position_idle; [done|]. unfold idle_byte, newline.
    destruct (c =? ch "h"); [by rewrite orb_true_r|].
    destruct (c =? ch "i"); [by rewrite !orb_true_r|].
    destruct ((c =? LF) || (c =? CR)); [done|discriminate].
  - done.
  - done.
Qed.

(** Only an ['o'] in the command state requests an opening. *)
Lemma open_request s c :
  (handle_user_input s c).1.1 = 1 -> p_state s = WAIT_FOR_CMD_CHAR /\ c = ch "o".
Proof.
  intros H. destruct s as [p tgt led]. simpl in *.
  destruct p; repeat case_match; simpl in H; try done.
  match goal with Hc : (c =? ch "o") = true |- _ => apply Z.eqb_eq in Hc end. auto.
Qed.

(** C40: No spurious opening.  Over any byte stream from reset, an opening is
    requested only by an ['o'] that directly follows a newline (with nothing but
    newlines, ['h'] and ['i'] in between). *)
Theorem open_only_after_newline cs c :
  (handle_user_input (handle_inputs proto_init cs).2 c).1.1 = 1 ->
  c = ch "o" /\ command_position cs.
Proof. intros H. apply open_request in H as [Hp ->]. split; [done|]. by apply waits_for_command. Qed.

Lemma open_only_after_newline_witness :
  ch "o" = ch "o" /\ command_position [ch "x"; LF; ch "h"].
Proof. apply open_only_after_newline. reflexivity. Defined.

Lemma idle_stays s mid :
  p_state s = WAIT_FOR_CMD_CHAR -> Forall (fun c => idle_byte c = true) mid ->
  p_state (handle_inputs s mid).2 = WAIT_FOR_CMD_CHAR.
Proof.
  intros Hs Hmid. revert s Hs. induction Hmid as [|c mid Hc _ IH]; intros [p tgt led] Hp;
    simpl in Hp; subst p; [done|].
  enough (exists cmd outs, handle_user_input (ProtoState WAIT_FOR_CMD_CHAR tgt led) c =
    (cmd, outs, ProtoState WAIT_FOR_CMD_CHAR tgt led)) as (cmd & outs & Heq).
  { cbn [handle_inputs]. rewrite Heq. specialize (IH (ProtoState WAIT_FOR_CMD_CHAR tgt led) eq_refl).
    by destruct (handle_inputs _ mid). }
  unfold idle_byte, newline, handle_user_input in *.
  destruct (Z.eqb_spec c (ch "o")) as [->|]; [done|].
  destruct (Z.eqb_spec c (ch "l")) as [->|]; [done|].
  destruct (c =? ch "h"); [eauto|]. destruct (c =? ch "i"); [eauto|].
  rewrite !orb_false_r in Hc. rewrite Hc. eauto.
Qed.

(** The open command is always accepted.  Unless a LED command is half received,
    a newline, any number of idle bytes and ['o'] request an opening, answer ['O'] and
    leave the interpreter waiting for the next newline. *)
Theorem open_accepted s nl mid :
  p_state s = WAIT_FOR_NEWLINE \/ p_state s = WAIT_FOR_CMD_CHAR ->
  newline nl = true -> Forall (fun c => idle_byte c = true) mid ->
  let s1 := (handle_inputs s (nl :: mid)).2 in
  handle_user_input s1 (ch "o") =
    (1, [ch "O"], ProtoState WAIT_FOR_NEWLINE (cmd_target s1) (led_states s1)).
Proof.
  intros Hs Hnl Hmid s1. enough (p_state s1 = WAIT_FOR_CMD_CHAR) as H.
  { destruct s1 as [p tgt led]. simpl in H. by subst p. }
  subst s1. change (nl :: mid) with ([nl] ++ mid). rewrite handle_inputs_app.
  assert (p_state (handle_inputs s [nl]).2 = WAIT_FOR_CMD_CHAR) as H1.
  { destruct Hs as [Hs|Hs]; [|apply idle_stays; [done|]].
    - destruct s as [p tgt led]; simpl in Hs; subst p. simpl. unfold newline in Hnl. by rewrite Hnl.
    - constructor; [|done]. unfold idle_byte. by rewrite Hnl. }
  destruct (handle_inputs s [nl]) as [cs s2]. pose proof (idle_stays s2 mid H1 Hmid) as H2.
  by destruct (handle_inputs s2 mid).
Qed.

Lemma open_accepted_witness :
  handle_user_input (handle_inputs proto_init [LF; CR; ch "i"]).2 (ch "o") =
    (1, [ch "O"], ProtoState WAIT_FOR_NEWLINE 0 0x07).
Proof. apply (open_accepted proto_init LF [CR; ch "i"]); [by left|done|repeat constructor]. Defined.

(** The documented form of a command, [[command]\n], is not what the interpreter
    reads: the first line after reset is discarded whatever it holds, and a command
    is carried out before its newline arrives. *)
Theorem first_line_discarded cs :
  Forall (fun c => newline c = false) cs ->
  handle_inputs proto_init (cs ++ [LF]) =
    (replicate (length cs + 1) 0, ProtoState WAIT_FOR_CMD_CHAR 0 0x07).
Proof.
  intros Hcs. rewrite handle_inputs_app.
  assert (handle_inputs proto_init cs = (replicate (length cs) 0, proto_init)) as ->.
  { induction Hcs as [|c cs Hc _ IH]; [done|]. cbn [handle_inputs proto_init handle_user_input].
    unfold newline in Hc. rewrite Hc. change (ProtoState _ 0 7) with proto_init. by rewrite IH. }
  simpl. by rewrite replicate_add.
Qed.

Lemma first_line_discarded_witness :
  handle_inputs proto_init [ch "o"; LF] = ([0; 0], ProtoState WAIT_FOR_CMD_CHAR 0 0x07).
Proof. apply (first_line_discarded [ch "o"]). repeat constructor. Defined.

(** The shift register byte carries the LED word in its low nibble and drives
    exactly the row being scanned: of the four row outputs, that of the current row
    is low and the others are high. *)
Theorem shiftreg_byte_nibbles p k i :
  led_wf p -> keypad_wf k -> 0 <= i ->
  is_u8 (shiftreg_byte (led_states p) (matrix_selector k)) /\
  Z.testbit (shiftreg_byte (led_states p) (matrix_selector k)) i =
    if i <? 4 then Z.testbit (led_states p) i
    else (i <? 8) && negb (i - 4 =? row k).
Proof.
  intros Hled (Hr & Hsel & _) Hi. unfold shiftreg_byte. split; [by apply (wrap_is_u 8)|].
  apply is_u_bits in Hled as [_ Hb]; [|done].
  rewrite Hsel. unfold wrap. destruct (Z.ltb_spec i 8).
  - rewrite Z.mod_pow2_bits_low, Z.lor_spec, Z.land_spec, Z.lnot_spec by lia.
    rewrite (Z.shiftl_spec 0x10) by lia. change 0x10 with (2 ^ 4).
    rewrite Z.pow2_bits_eqb by lia. destruct (Z.ltb_spec i 4).
    + assert (Z.testbit 0xF0 i = false) as ->; [|by rewrite andb_false_l, orb_false_r].
      assert (i = 0 \/ i = 1 \/ i = 2 \/ i = 3) as [-> | [-> | [-> | ->]]] by lia; done.
    + rewrite Hb by lia.
      assert (Z.testbit 0xF0 i = true) as ->.
      { assert (i = 4 \/ i = 5 \/ i = 6 \/ i = 7) as [-> | [-> | [-> | ->]]] by lia; done. }
      cbn [orb andb]. destruct (Z.eqb_spec 4 (i - row k)), (Z.eqb_spec (i - 4) (row k)); lia || done.
  - rewrite Z.mod_pow2_bits_high by lia. destruct (Z.ltb_spec i 4); [lia|done].
Qed.

Lemma shiftreg_byte_nibbles_witness :
  shiftreg_byte 0x07 0x10 = 0xE7 /\ Z.testbit (shiftreg_byte 0x07 0x10) 4 = false.
Proof.
  split; [reflexivity|].
  apply (shiftreg_byte_nibbles proto_init keypad_init 4); [unfold led_wf, is_u; simpl; lia| |lia].
  unfold keypad_wf, cell_wf. simpl. split_and!; [lia..|done|done|]. repeat constructor; lia.
Defined.
