(* ===== verification/RingBuffer.v ===== *)
(** * RingBuffer: the byte FIFO of [LUFA/Drivers/Misc/RingBuffer.h]

    The structure keeps two pointers into a storage array and a count.  A pointer
    is the index of the byte it points at, relative to [Start]; [End] is the index
    one past the array.  The storage array is part of the model state, as the
    functions write through the pointers.  The interrupt masking around the counter
    updates has no effect on the sequential behaviour modelled here. *)
From S2P Require Import Prelude.

Module Ring.

Record RingBuffer_t := RingBuffer {
  In : Z;
  Out : Z;
  Start : Z;
  End_ : Z;
  Size : Z;
  Count : Z;
  Data : list Z }.

(** [RingBuffer_InitBuffer(Buffer, DataPtr, Size)]; [dat] is the storage array. *)
Definition RingBuffer_InitBuffer (dat : list Z) (size : Z) : RingBuffer_t :=
  RingBuffer 0 0 0 size size 0 dat.

Definition RingBuffer_GetCount (b : RingBuffer_t) : Z := Count b.

Definition RingBuffer_GetFreeCount (b : RingBuffer_t) : Z :=
  u16 (Size b - RingBuffer_GetCount b).

Definition RingBuffer_IsEmpty (b : RingBuffer_t) : bool := RingBuffer_GetCount b =? 0.

Definition RingBuffer_IsFull (b : RingBuffer_t) : bool := RingBuffer_GetCount b =? Size b.

Definition RingBuffer_Insert (b : RingBuffer_t) (d : Z) : RingBuffer_t :=
  let dat := <[Z.to_nat (In b) := d]> (Data b) in
  let inp := In b + 1 in
  let inp := if inp =? End_ b then Start b else inp in
  RingBuffer inp (Out b) (Start b) (End_ b) (Size b) (u16 (Count b + 1)) dat.

Definition RingBuffer_Remove (b : RingBuffer_t) : Z * RingBuffer_t :=
  let d := default 0 (Data b !! Z.to_nat (Out b)) in
  let out := Out b + 1 in
  let out := if out =? End_ b then Start b else out in
  (d, RingBuffer (In b) out (Start b) (End_ b) (Size b) (u16 (Count b - 1)) (Data b)).

Definition RingBuffer_Peek (b : RingBuffer_t) : Z := default 0 (Data b !! Z.to_nat (Out b)).

(** ** Abstract specification: a bounded queue *)

(** The bytes in the buffer, oldest first: [Count] bytes from [Out], wrapping. *)
Definition contents (b : RingBuffer_t) : list Z :=
  (fun k => default 0 (Data b !! Z.to_nat ((Out b + Z.of_nat k) mod Size b)))
    <$> seq 0 (Z.to_nat (Count b)).

Definition ring_wf (b : RingBuffer_t) : Prop :=
  0 < Size b < 2 ^ 16 /\ Start b = 0 /\ End_ b = Size b /\
  Z.of_nat (length (Data b)) = Size b /\
  0 <= Out b < Size b /\ 0 <= Count b <= Size b /\
  In b = (Out b + Count b) mod Size b.

(** What a FIFO of capacity [cap] promises to its clients, for a representation [B]. *)
Class Queue (B : Type) := {
  q_ok : B -> Prop;
  q_cap : B -> Z;
  q_contents : B -> list Z;
  q_insert : B -> Z -> B;
  q_remove : B -> Z * B;
  q_insert_ok b d : q_ok b -> Z.of_nat (length (q_contents b)) < q_cap b ->
    q_ok (q_insert b d) /\ q_cap (q_insert b d) = q_cap b /\
    q_contents (q_insert b d) = q_contents b ++ [d];
  q_remove_ok b x xs : q_ok b -> q_contents b = x :: xs ->
    (q_remove b).1 = x /\ q_ok (q_remove b).2 /\ q_cap (q_remove b).2 = q_cap b /\
    q_contents (q_remove b).2 = xs }.

Lemma length_contents b : ring_wf b -> Z.of_nat (length (contents b)) = Count b.
Proof. intros (_ & _ & _ & _ & _ & ? & _). unfold contents. rewrite length_fmap, length_seq. lia. Qed.

(** Advancing a pointer with the wrap test is advancing it modulo the size. *)
Lemma advance_mod p size :
  0 <= p < size -> (if p + 1 =? size then 0 else p + 1) = (p + 1) mod size.
Proof.
  intros Hp. destruct (Z.eqb_spec (p + 1) size) as [->|].
  - rewrite Z.mod_same; lia.
  - rewrite Z.mod_small; lia.
Qed.

Lemma RingBuffer_Insert_spec b d :
  ring_wf b -> Count b < Size b ->
  ring_wf (RingBuffer_Insert b d) /\ Size (RingBuffer_Insert b d) = Size b /\
  contents (RingBuffer_Insert b d) = contents b ++ [d].
Proof.
  intros (Hsz & Hst & Hend & Hlen & Hout & Hcnt & Hin) Hfree.
  assert (0 <= In b < Size b) as Hin' by (rewrite Hin; apply Z.mod_pos_bound; lia).
  assert (u16 (Count b + 1) = Count b + 1) as Hc by (apply wrap_id; unfold is_u; lia).
  split_and!; [| done |].
  - unfold ring_wf, RingBuffer_Insert; cbn [In Out Start End_ Size Count Data].
    rewrite Hc, Hst, Hend, advance_mod, length_insert by done. split_and!; try lia.
    rewrite Hin, Zplus_mod_idemp_l. f_equal. lia.
  - unfold contents, RingBuffer_Insert; cbn [Out Size Count Data]. rewrite Hc.
    rewrite Z2Nat.inj_add by lia. change (Z.to_nat 1) with 1%nat.
    rewrite seq_app, fmap_app. f_equal.
    + apply list_fmap_ext. intros i k Hik. apply lookup_seq in Hik as [-> Hlt].
      rewrite list_lookup_insert_ne; [done|]. rewrite Hin. intros Heq.
      apply Z2Nat.inj in Heq; [|apply Z.mod_pos_bound; lia..]. simpl in Heq.
      assert (((Out b + Count b) - (Out b + Z.of_nat i)) mod Size b = 0) as Hd.
      { rewrite Zminus_mod, Heq, Z.sub_diag. done. }
      rewrite Z.mod_small in Hd by lia. lia.
    + simpl. rewrite Z2Nat.id by lia. rewrite <- Hin.
      rewrite list_lookup_insert_eq by lia. done.
Qed.

Lemma RingBuffer_Remove_spec b x xs :
  ring_wf b -> contents b = x :: xs ->
  (RingBuffer_Remove b).1 = x /\ ring_wf (RingBuffer_Remove b).2 /\
  Size (RingBuffer_Remove b).2 = Size b /\ contents (RingBuffer_Remove b).2 = xs.
Proof.
  intros Hwf Hx. pose proof (length_contents b Hwf) as Hl. rewrite Hx in Hl. cbn [length] in Hl.
  destruct Hwf as (Hsz & Hst & Hend & Hlen & Hout & Hcnt & Hin).
  assert (u16 (Count b - 1) = Count b - 1) as Hc by (apply wrap_id; unfold is_u; lia).
  unfold contents in Hx. destruct (Z.to_nat (Count b)) as [|n] eqn:Hn; [lia|].
  cbn [seq fmap list_fmap] in Hx. injection Hx as Hx Hxs.
  rewrite Z.add_0_r, (Z.mod_small (Out b)) in Hx by lia.
  split_and!; [done| |done|].
  - unfold ring_wf, RingBuffer_Remove; cbn [snd In Out Start End_ Size Count Data].
    rewrite Hc, Hst, Hend, advance_mod by done.
    split_and!; try lia; try (apply Z.mod_pos_bound; lia).
    rewrite Hin, Zplus_mod_idemp_l. f_equal. lia.
  - unfold contents, RingBuffer_Remove; cbn [snd Out Size Count Data]. rewrite Hc.
    replace (Z.to_nat (Count b - 1)) with n by lia.
    rewrite Hst, Hend, advance_mod by done. rewrite <- Hxs, <- fmap_S_seq, <- list_fmap_compose.
    apply list_fmap_ext. intros i k _. simpl. rewrite Zplus_mod_idemp_l. do 4 f_equal. lia.
Qed.

#[export] Program Instance ring_queue : Queue RingBuffer_t := {
  q_ok := ring_wf;
  q_cap := Size;
  q_contents := contents;
  q_insert := RingBuffer_Insert;
  q_remove := RingBuffer_Remove }.
Next Obligation.
  intros b d Hwf Hl. apply RingBuffer_Insert_spec; [done|]. rewrite length_contents in Hl; done.
Qed.
Next Obligation. intros b x xs. apply RingBuffer_Remove_spec. Qed.

(** ** Clients of the queue interface *)

Section Fifo.
Context {B : Type} {Q : Queue B}.

Definition q_insert_all (b : B) (xs : list Z) : B := fold_left q_insert xs b.

Fixpoint q_remove_n (n : nat) (b : B) : list Z * B :=
  match n with
  | O => ([], b)
  | S n' => let '(x, b1) := q_remove b in
            let '(xs, b2) := q_remove_n n' b1 in (x :: xs, b2)
  end.

Lemma q_insert_all_ok b xs :
  q_ok b -> Z.of_nat (length (q_contents b) + length xs) <= q_cap b ->
  q_ok (q_insert_all b xs) /\ q_cap (q_insert_all b xs) = q_cap b /\
  q_contents (q_insert_all b xs) = q_contents b ++ xs.
Proof.
  revert b. induction xs as [|x xs IH]; intros b Hok Hcap.
  { rewrite app_nil_r. done. }
  cbn [length q_insert_all fold_left] in *.
  destruct (q_insert_ok b x Hok ltac:(lia)) as (Hok1 & Hcap1 & Hc1).
  destruct (IH (q_insert b x) Hok1) as (Hok2 & Hcap2 & Hc2).
  { rewrite Hcap1, Hc1, length_app. simpl. lia. }
  unfold q_insert_all in *. rewrite Hc2, Hc1, Hcap2, <- app_assoc. done.
Qed.

Lemma q_remove_n_ok b xs ys :
  q_ok b -> q_contents b = xs ++ ys ->
  (q_remove_n (length xs) b).1 = xs /\ q_ok (q_remove_n (length xs) b).2 /\
  q_contents (q_remove_n (length xs) b).2 = ys.
Proof.
  revert b. induction xs as [|x xs IH]; intros b Hok Hc; [done|].
  cbn [length q_remove_n]. destruct (q_remove_ok b x (xs ++ ys) Hok Hc) as (Hx & Hok1 & _ & Hc1).
  destruct (q_remove b) as [x' b1]. simpl in *. subst x'.
  specialize (IH b1 Hok1 Hc1). destruct (q_remove_n (length xs) b1). simpl in *.
  destruct IH as (-> & ? & ?). done.
Qed.
End Fifo.

Lemma RingBuffer_InitBuffer_wf dat size :
  0 < size < 2 ^ 16 -> Z.of_nat (length dat) = size ->
  ring_wf (RingBuffer_InitBuffer dat size) /\ contents (RingBuffer_InitBuffer dat size) = [].
Proof.
  intros Hs Hl. split; [|done]. unfold ring_wf, RingBuffer_InitBuffer; simpl.
  split_and!; try lia. by rewrite Z.mod_0_l by lia.
Qed.

Lemma q_remove_n_size n b : Size (q_remove_n (Q:=ring_queue) n b).2 = Size b.
Proof.
  revert b. induction n as [|n IH]; intros b; [done|].
  cbn [q_remove_n q_remove ring_queue]. specialize (IH (RingBuffer_Remove b).2).
  unfold RingBuffer_Remove in *. destruct (q_remove_n n _). exact IH.
Qed.

(** C37: Insert/remove round trip.  After [RingBuffer_InitBuffer], inserting any bytes
    that fit, removing some of them and inserting as many again as there is room for,
    the bytes removed are exactly the bytes inserted, in order: the two wrapping
    pointers and the count implement a bounded FIFO. *)
Theorem ring_buffer_fifo dat size xs ys zs :
  0 < size < 2 ^ 16 -> Z.of_nat (length dat) = size ->
  Z.of_nat (length (xs ++ ys)) <= size -> Z.of_nat (length (ys ++ zs)) <= size ->
  let b1 := q_insert_all (RingBuffer_InitBuffer dat size) (xs ++ ys) in
  let '(out1, b2) := q_remove_n (length xs) b1 in
  let b3 := q_insert_all b2 zs in
  let '(out2, b4) := q_remove_n (length (ys ++ zs)) b3 in
  out1 = xs /\ out2 = ys ++ zs /\ RingBuffer_IsEmpty b4 = true
  /\ (RingBuffer_IsFull b3 = true <-> Z.of_nat (length (ys ++ zs)) = size).
Proof.
  intros Hs Hl Hxy Hyz. destruct (RingBuffer_InitBuffer_wf dat size Hs Hl) as [Hwf Hc].
  destruct (q_insert_all_ok (Q:=ring_queue) (RingBuffer_InitBuffer dat size) (xs ++ ys) Hwf) as (Hok1 & Hcap1 & Hc1).
  { cbn [q_contents q_cap ring_queue]. rewrite Hc. simpl. lia. }
  cbv zeta. set (b1 := q_insert_all _ (xs ++ ys)) in *. cbn [q_contents ring_queue] in Hc1. rewrite Hc in Hc1.
  assert (Size b1 = size) as Hsz1 by done. clearbody b1.
  destruct (q_remove_n_ok (Q:=ring_queue) b1 xs ys Hok1 Hc1) as (Ho1 & Hok2 & Hc2).
  pose proof (q_remove_n_size (length xs) b1) as Hrs.
  destruct (q_remove_n (length xs) b1) as [out1 b2].
  cbn [fst snd q_contents q_ok ring_queue] in Ho1, Hok2, Hc2, Hrs.
  destruct (q_insert_all_ok (Q:=ring_queue) b2 zs Hok2) as (Hok3 & Hcap3 & Hc3).
  { cbn [q_contents q_cap ring_queue]. rewrite Hc2, Hrs, Hsz1. rewrite length_app in Hyz. lia. }
  set (b3 := q_insert_all b2 zs) in *. clearbody b3.
  cbn [q_contents q_ok q_cap ring_queue] in Hok3, Hcap3, Hc3. rewrite Hc2 in Hc3.
  destruct (q_remove_n_ok (Q:=ring_queue) b3 (ys ++ zs) [] Hok3) as (Ho2 & Hok4 & Hc4).
  { cbn [q_contents ring_queue]. by rewrite app_nil_r. }
  destruct (q_remove_n (length (ys ++ zs)) b3) as [out2 b4].
  cbn [fst snd q_contents q_ok ring_queue] in Ho2, Hok4, Hc4.
  unfold RingBuffer_IsEmpty, RingBuffer_IsFull, RingBuffer_GetCount.
  rewrite <- (length_contents b3), <- (length_contents b4), Hc3, Hc4, Hcap3, Hrs, Hsz1 by done.
  split_and!; [done|done|done|apply Z.eqb_eq].
Qed.

(** The 128-byte buffer of [c_locc.c], filled past its end and drained. *)
Lemma ring_buffer_fifo_witness :
  let b1 := q_insert_all (RingBuffer_InitBuffer (replicate 128 0) 128) (range 100 ++ [7]) in
  let '(out1, b2) := q_remove_n 100 b1 in
  let b3 := q_insert_all b2 (range 120) in
  let '(out2, b4) := q_remove_n 121 b3 in
  out1 = range 100 /\ out2 = [7] ++ range 120 /\ RingBuffer_IsEmpty b4 = true
  /\ (RingBuffer_IsFull b3 = true <-> 121 = 128).
Proof.
  apply (ring_buffer_fifo (replicate 128 0) 128 (range 100) [7] (range 120));
    vm_compute; intuition congruence.
Defined.

End Ring.
