(* ===== verification/Machine.v ===== *)
(** * Machine: memory image, register access and interrupts of the firmware

    The firmware runs on an ATmega8U2 (USB series 2, device mode only), configured
    by [LUFAConfig.h].  This file holds what all translation units share: the I/O
    registers they touch, the state that is the program's static memory, and the
    monad [M] in which register-level code is written.

    - The hardware behind the registers is a parameter ([Hardware]): a state, the
      value each register read delivers, the effect of each register write, and the
      interrupt, if any, that is delivered at an access.  Nothing is assumed about
      it; theorems that need documented behaviour of it name it as a hypothesis.
    - [UENUM] and the port registers, which read back what was written, are kept in
      the memory image ([regs]).
    - Every volatile access may be preceded by an interrupt: [preempt] runs there.
      What it does depends on the context the code runs in (see [Preempt]); the
      instances are in [Interrupts.v].
    - Busy-wait loops take a bound on their iterations ([Fuel]); running out of it
      is [None], which stands for a loop that is still spinning.
    - [trace] is a ghost log of the register accesses and delays. *)
From S2P Require Import Prelude Keypad Dial Protocol RingBuffer.

(** ** Registers *)

Inductive reg :=
  (* banked by UENUM *)
  | UEINTX | UECONX | UECFG0X | UECFG1X | UEIENX | UEDATX | UEBCLX | UESTA0X
  (* USB device and controller *)
  | UENUM | UDADDR | UDFNUML | UDFNUMH | UDINT | UDIEN | UDCON | UEINT | UERST
  | USBCON | PLLCSR | REGCR
  (* ports, SPI, timer 0, reset cause *)
  | PINC | PIND | DDRB | DDRD | PORTC | PORTD
  | SPDR | SPSR | SPCR | TIMSK0 | TCCR0B | TCNT0 | MCUSR.

#[global] Instance reg_eq_dec : EqDecision reg.
Proof. solve_decision. Defined.

(** Registers that read back what was last written to them. *)
Definition plain (r : reg) : bool :=
  match r with UENUM | DDRB | DDRD | PORTC | PORTD => true | _ => false end.

(** Every register is 8 bits wide; the 16-bit [UDFNUM] is the pair [UDFNUMH:UDFNUML]. *)
Definition reg_width (r : reg) : Z := 8.
#[global] Arguments reg_width _ /.

(** Bit positions ([avr/io.h] for this part). *)
Definition FIFOCON := 7.
Definition RWAL := 5.
Definition RXSTPI := 3.
Definition RXOUTI := 2.
Definition TXINI := 0.
Definition RXSTPE := 3.
Definition STALLRQ := 5.
Definition STALLRQC := 4.
Definition RSTDT := 3.
Definition EPEN := 0.
Definition EPTYPE0 := 6.
Definition EPDIR := 0.
Definition EPSIZE0 := 4.
Definition EPBK0 := 2.
Definition ALLOC := 1.
Definition CFGOK := 7.
Definition NBUSYBK0 := 0.
Definition ADDEN := 7.
Definition RMWKUP := 1.
Definition DETACH := 0.
Definition WAKEUPI := 4.
Definition EORSTI := 3.
Definition SOFI := 2.
Definition SUSPI := 0.
Definition WAKEUPE := 4.
Definition EORSTE := 3.
Definition SOFE := 2.
Definition SUSPE := 0.
Definition USBE := 7.
Definition FRZCLK := 5.
Definition PLLP0 := 2.
Definition PLLE := 1.
Definition PLOCK := 0.
Definition REGDIS := 0.
Definition TOIE0 := 0.
Definition SPE := 6.
Definition MSTR := 4.
Definition CPOL := 3.
Definition CPHA := 2.
Definition SPIF := 7.
Definition WDRF := 3.

(** ** Static memory *)

(** [USB_Request_Header_t] *)
Record USB_Request_Header_t := USB_Request_Header {
  bmRequestType : Z;
  bRequest : Z;
  wValue : Z;
  wIndex : Z;
  wLength : Z }.

(** [enum USB_Device_States_t] *)
Inductive USB_Device_States_t :=
  DEVICE_STATE_Unattached | DEVICE_STATE_Powered | DEVICE_STATE_Default
  | DEVICE_STATE_Addressed | DEVICE_STATE_Configured | DEVICE_STATE_Suspended.

#[global] Instance USB_Device_States_eq_dec : EqDecision USB_Device_States_t.
Proof. solve_decision. Defined.

(** Globals of the USB core ([USBTask.c], [DeviceStandardReq.c]). *)
Record usb_globals := UsbGlobals {
  USB_IsInitialized : bool;
  USB_ControlRequest : USB_Request_Header_t;
  USB_DeviceState : USB_Device_States_t;
  USB_Device_ConfigurationNumber : Z;
  USB_Device_CurrentlySelfPowered : bool;
  USB_Device_RemoteWakeupEnabled : bool }.

(** [USB_Endpoint_Table_t] *)
Record USB_Endpoint_Table_t := USB_Endpoint_Table {
  Address : Z;
  Size : Z;
  Type_ : Z;
  Banks : Z }.

(** [CDC_LineEncoding_t] *)
Record CDC_LineEncoding_t := CDC_LineEncoding {
  BaudRateBPS : Z;
  CharFormat : Z;
  ParityType : Z;
  DataBits : Z }.

(** [USB_ClassInfo_CDC_Device_t]: [Config] and [State]. *)
Record USB_ClassInfo_CDC_Device_t := USB_ClassInfo_CDC_Device {
  ControlInterfaceNumber : Z;
  DataINEndpoint : USB_Endpoint_Table_t;
  DataOUTEndpoint : USB_Endpoint_Table_t;
  NotificationEndpoint : USB_Endpoint_Table_t;
  HostToDevice : Z;
  DeviceToHost : Z;
  LineEncoding : CDC_LineEncoding_t }.

(** [enum locc_states]: integers, because the code increments them. *)
Definition SLEEP := 0.
Definition POWERUP := 1.
Definition AWAKEN := 2.
Definition OPEN := 3.
Definition POWERDOWN := 4.
Definition RESET := 5.

(** The globals of [locc.c]. *)
Record locc_globals := LoccGlobals {
  wait_ticks : Z;
  state : Z;
  current_locc_step : Z }.

(** Globals and function statics of [c_locc.c], [keypad.c] and [dial.c]. *)
Record app_globals := AppGlobals {
  is_locking : bool;
  keypad : keypad_state;
  dial : dial_state;
  proto : proto_state;
  USB_input_Buffer : Ring.RingBuffer_t;
  USB_output_Buffer : Ring.RingBuffer_t }.

Inductive irq := TIMER0_OVF_vect | USB_GEN_vect | USB_COM_vect.

(** Log entries: a register access names the endpoint selected at the time. *)
Inductive event :=
  | Rd (r : reg) (ep v : Z)
  | Wr (r : reg) (ep v : Z)
  | Delay (us : Z).

(** ** Parameters *)

(** The microcontroller's peripherals and the world behind them. *)
Class Hardware := {
  hw_state : Type;
  hw_read : reg -> Z -> hw_state -> Z * hw_state;
  hw_write : reg -> Z -> Z -> hw_state -> hw_state;
  hw_irq : hw_state -> option irq * hw_state;
  (* avr-libc [boot_signature_byte_get] *)
  boot_signature_byte_get : Z -> Z;
  (* the [int] the linker places behind the array [openTelegram] *)
  word_after_openTelegram : Z }.

(** Bound on the iterations of each busy-wait loop. *)
Class Fuel := fuel : nat.

(** [ram] is the data memory outside the statics of this firmware, a byte per address: where
    an application that uses the other class drivers of the library has their structures. *)
Record mcu `{Hardware} := Mcu {
  hw : hw_state;
  regs : reg -> Z;
  usb : usb_globals;
  cdc : USB_ClassInfo_CDC_Device_t;
  locc : locc_globals;
  app : app_globals;
  ram : Z -> Z;
  trace : list event }.

Section Monad.
Context {HW : Hardware}.

Definition M (A : Type) : Type := mcu -> option (A * mcu).

Definition ret {A} (a : A) : M A := fun s => Some (a, s).

Definition bind {A B} (m : M A) (k : A -> M B) : M B :=
  fun s => match m s with Some (a, s') => k a s' | None => None end.

(** A loop that is still spinning when its bound is used up. *)
Definition spin {A} : M A := fun _ => None.

Definition set_hw (h : hw_state) (s : mcu) : mcu :=
  Mcu _ h (regs s) (usb s) (cdc s) (locc s) (app s) (ram s) (trace s).
Definition set_reg (r : reg) (v : Z) (s : mcu) : mcu :=
  Mcu _ (hw s) (fun r' => if decide (r' = r) then v else regs s r')
    (usb s) (cdc s) (locc s) (app s) (ram s) (trace s).
Definition set_usb (u : usb_globals) (s : mcu) : mcu :=
  Mcu _ (hw s) (regs s) u (cdc s) (locc s) (app s) (ram s) (trace s).
Definition set_cdc (c : USB_ClassInfo_CDC_Device_t) (s : mcu) : mcu :=
  Mcu _ (hw s) (regs s) (usb s) c (locc s) (app s) (ram s) (trace s).
Definition set_locc (l : locc_globals) (s : mcu) : mcu :=
  Mcu _ (hw s) (regs s) (usb s) (cdc s) l (app s) (ram s) (trace s).
Definition set_app (a : app_globals) (s : mcu) : mcu :=
  Mcu _ (hw s) (regs s) (usb s) (cdc s) (locc s) a (ram s) (trace s).
Definition set_ram (m : Z -> Z) (s : mcu) : mcu :=
  Mcu _ (hw s) (regs s) (usb s) (cdc s) (locc s) (app s) m (trace s).
Definition log (e : event) (s : mcu) : mcu :=
  Mcu _ (hw s) (regs s) (usb s) (cdc s) (locc s) (app s) (ram s) (trace s ++ [e]).

(** Non-volatile globals are read and written without an interrupt point. *)
Definition gets {A} (f : mcu -> A) : M A := fun s => Some (f s, s).
Definition modify (f : mcu -> mcu) : M unit := fun s => Some (tt, f s).

(** The endpoint register bank in view. *)
Definition uenum (s : mcu) : Z := regs s UENUM.

(** The access itself. *)
Definition raw_read (r : reg) : M Z := fun s =>
  let ep := uenum s in
  if plain r then let v := regs s r in Some (v, log (Rd r ep v) s)
  else let '(v, h) := hw_read r ep (hw s) in
       let v := wrap (reg_width r) v in
       Some (v, log (Rd r ep v) (set_hw h s)).

Definition raw_write (r : reg) (v : Z) : M unit := fun s =>
  let ep := uenum s in
  let v := wrap (reg_width r) v in
  if plain r then Some (tt, log (Wr r ep v) (set_reg r v s))
  else Some (tt, log (Wr r ep v) (set_hw (hw_write r ep v (hw s)) s)).

(** [_delay_us] *)
Definition delay_us (us : Z) : M unit := modify (log (Delay us)).
End Monad.

Declare Scope mcu_scope.
Delimit Scope mcu_scope with mcu.
Open Scope mcu_scope.

Notation "x <- m ;; k" := (bind m (fun x => k))
  (at level 100, m at next level, right associativity) : mcu_scope.
Notation "m ;; k" := (bind m (fun _ => k))
  (at level 100, right associativity) : mcu_scope.
Notation "'when' b 'do' m" := (if b then m else ret tt)
  (at level 60, m at level 60) : mcu_scope.

(** What runs at an interrupt point.  The value depends on the code's context:
    nothing inside an [ISR_BLOCK] handler or before [sei()], the maskable handlers
    elsewhere. *)
Class Preempt `{Hardware} := preempt : M unit.

(** [for (;;)] with early exit: [body x] continues with [inl x'] or leaves with [inr b]. *)
Fixpoint iter `{Hardware} {X B} (n : nat) (body : X -> M (X + B)) (x : X) : M B :=
  match n with
  | O => spin
  | S n' => r <- body x ;; match r with inl x' => iter n' body x' | inr b => ret b end
  end.

Section Access.
Context {HW : Hardware} {PRE : Preempt} {FU : Fuel}.

Definition rd (r : reg) : M Z := preempt ;; raw_read r.
Definition wr (r : reg) (v : Z) : M unit := preempt ;; raw_write r v.

(** [r |= m] and [r &= ~m]: a volatile read, then a volatile write. *)
Definition set_bits (r : reg) (m : Z) : M unit := v <- rd r ;; wr r (v .| m).
Definition clear_bits (r : reg) (m : Z) : M unit := v <- rd r ;; wr r (v .&~ m).

(** Volatile globals. *)
Definition get_state : M USB_Device_States_t :=
  preempt ;; gets (fun s => USB_DeviceState (usb s)).

Definition put_state (d : USB_Device_States_t) : M unit :=
  preempt ;; modify (fun s =>
    let 'UsbGlobals i c _ n p w := usb s in set_usb (UsbGlobals i c d n p w) s).

Definition put_initialized (b : bool) : M unit :=
  preempt ;; modify (fun s =>
    let 'UsbGlobals _ c d n p w := usb s in set_usb (UsbGlobals b c d n p w) s).

(** [wait_ticks] is 32 bits wide and the CPU has 8-bit loads and stores: an access is four
    accesses to its bytes, the low byte first (as [avr-gcc] emits them), and an interrupt may
    come in between. *)
Definition get_wait_byte (i : nat) : M Z :=
  preempt ;; gets (fun s => nth i (le_bytes 4 (wait_ticks (locc s))) 0).

Definition put_wait_byte (i : nat) (b : Z) : M unit :=
  preempt ;; modify (fun s =>
    let 'LoccGlobals t st k := locc s in
    set_locc (LoccGlobals (le_value (<[i := b]> (le_bytes 4 t))) st k) s).

Definition get_wait_ticks : M Z :=
  b0 <- get_wait_byte 0 ;;
  b1 <- get_wait_byte 1 ;;
  b2 <- get_wait_byte 2 ;;
  b3 <- get_wait_byte 3 ;;
  ret (le_value [b0; b1; b2; b3]).

Definition put_wait_ticks (t : Z) : M unit :=
  put_wait_byte 0 (u8 t) ;;
  put_wait_byte 1 (u8 (t .>> 8)) ;;
  put_wait_byte 2 (u8 (t .>> 16)) ;;
  put_wait_byte 3 (u8 (t .>> 24)).

Definition get_locc_state : M Z := preempt ;; gets (fun s => state (locc s)).

Definition put_locc_state (x : Z) : M unit :=
  preempt ;; modify (fun s =>
    let 'LoccGlobals t _ k := locc s in set_locc (LoccGlobals t x k) s).

(** [while (!cond);] *)
Definition spin_until (cond : M bool) : M unit :=
  iter fuel (fun _ : unit => c <- cond ;; ret (if c : bool then inr tt else inl tt)) tt.
End Access.

(** Context in which interrupts are disabled. *)
Definition no_preempt `{Hardware} : Preempt := ret tt.

(** Remaining non-volatile globals of the USB core. *)
Section UsbGlobals.
Context {HW : Hardware}.

Definition get_request : M USB_Request_Header_t := gets (fun s => USB_ControlRequest (usb s)).
Definition put_request (r : USB_Request_Header_t) : M unit :=
  modify (fun s => let 'UsbGlobals i _ d n p w := usb s in set_usb (UsbGlobals i r d n p w) s).
Definition get_config : M Z := gets (fun s => USB_Device_ConfigurationNumber (usb s)).
Definition put_config (n : Z) : M unit :=
  modify (fun s => let 'UsbGlobals i c d _ p w := usb s in set_usb (UsbGlobals i c d n p w) s).
Definition put_self_powered (b : bool) : M unit :=
  modify (fun s => let 'UsbGlobals i c d n _ w := usb s in set_usb (UsbGlobals i c d n b w) s).
Definition put_remote_wakeup (b : bool) : M unit :=
  modify (fun s => let 'UsbGlobals i c d n p _ := usb s in set_usb (UsbGlobals i c d n p b) s).

(** [current_locc_step] *)
Definition get_step : M Z := gets (fun s => current_locc_step (locc s)).
Definition put_step (k : Z) : M unit :=
  modify (fun s => let 'LoccGlobals t x _ := locc s in set_locc (LoccGlobals t x k) s).
End UsbGlobals.

(** ** A concrete machine

    Hardware that plays back prepared register values: each read of a register takes the next
    value of its list (the last one stays), and each interrupt point the next entry of
    [s_irqs].  It instantiates the parameters wherever a theorem is applied to a concrete
    run. *)
Record script := Script {
  s_reads : reg -> list Z;
  s_irqs : list (option irq) }.

Definition script_read (r : reg) (ep : Z) (h : script) : Z * script :=
  match s_reads h r with
  | [] => (0, h)
  | [v] => (v, h)
  | v :: vs => (v, Script (fun r' => if decide (r' = r) then vs else s_reads h r') (s_irqs h))
  end.

Definition script_irq (h : script) : option irq * script :=
  match s_irqs h with
  | [] => (None, h)
  | i :: is' => (i, Script (s_reads h) is')
  end.

Definition script_hardware : Hardware := {|
  hw_state := script;
  hw_read := script_read;
  hw_write := fun _ _ _ h => h;
  hw_irq := script_irq;
  boot_signature_byte_get := fun _ => 0x5A;
  word_after_openTelegram := 0x01 |}.

(** A CDC interface on endpoints 3 (IN), 4 (OUT) and 2, with the port closed. *)
Definition script_port : USB_ClassInfo_CDC_Device_t :=
  USB_ClassInfo_CDC_Device 0 (USB_Endpoint_Table 0x83 16 0 1) (USB_Endpoint_Table 4 16 0 1)
    (USB_Endpoint_Table 0x82 8 0 1) 0 0 (CDC_LineEncoding 0 0 0 0).

(** Static memory at reset, before [setup]. *)
Definition app_init : app_globals :=
  let b := Ring.RingBuffer 0 0 0 0 0 0 (replicate 128%nat 0) in
  AppGlobals false keypad_init dial_init proto_init b b.

Definition boot_state (h : script) (c : USB_ClassInfo_CDC_Device_t) : @mcu script_hardware :=
  @Mcu script_hardware h (fun _ => 0)
    (UsbGlobals false (USB_Request_Header 0 0 0 0 0) DEVICE_STATE_Unattached 0 false false)
    c (LoccGlobals 0 SLEEP 0) app_init (fun _ => 0) [].
