(* ===== verification/Ram.v ===== *)
(** * Ram: structures in data memory

    The class drivers the firmware does not use keep their configuration and state in a
    structure the application owns, and reach it through a pointer.  RNDISClassDevice.c lays
    several message structures over one buffer and computes a pointer from a field of the
    received message, so these drivers are modelled on memory itself: a byte per address, 16-bit
    pointers that wrap, packed structures (the makefile has [-fpack-struct]) and little-endian
    scalars.  Two memories are the same when they agree on every address ([≡]); stores respect
    that, and stores to disjoint ranges commute. *)
From S2P Require Import Prelude Machine.
From Stdlib Require Export Setoid Morphisms.

Definition mem := Z -> Z.

(** A byte behind a pointer. *)
Definition load8 (m : mem) (a : Z) : Z := u8 (m (u16 a)).
Definition store8 (m : mem) (a v : Z) : mem := fun x => if x =? u16 a then u8 v else m x.

Fixpoint load_bytes (m : mem) (a : Z) (n : nat) : list Z :=
  match n with O => [] | S n' => load8 m a :: load_bytes m (a + 1) n' end.

(** [memcpy] from a source outside the destination. *)
Fixpoint store_bytes (m : mem) (a : Z) (bs : list Z) : mem :=
  match bs with [] => m | b :: bs' => store_bytes (store8 m a b) (a + 1) bs' end.

(** Scalars of [n] bytes. *)
Definition load (n : nat) (m : mem) (a : Z) : Z := le_value (load_bytes m a n).
Definition store (n : nat) (m : mem) (a v : Z) : mem := store_bytes m a (le_bytes n v).

Definition memset (m : mem) (a v : Z) (n : nat) : mem := store_bytes m a (replicate n v).

(** [strlen]; [None] when no address holds a zero, on which the C loop does not end. *)
Fixpoint strlen_upto (k : nat) (m : mem) (a n : Z) : option Z :=
  match k with
  | O => None
  | S k' => if load8 m a =? 0 then Some n else strlen_upto k' m (a + 1) (n + 1)
  end.
Definition strlen (m : mem) (a : Z) : option Z := strlen_upto (Z.to_nat 65536) m a 0.

(** [USB_Endpoint_Table_t] as it lies in memory. *)
Definition table_Address (a : Z) : Z := a.
Definition table_Size (a : Z) : Z := a + 1.
Definition table_Type (a : Z) : Z := a + 3.
Definition table_Banks (a : Z) : Z := a + 4.
Definition sizeof_table : Z := 5.

Definition load_table (m : mem) (a : Z) : USB_Endpoint_Table_t :=
  USB_Endpoint_Table (load8 m (table_Address a)) (load 2 m (table_Size a))
    (load8 m (table_Type a)) (load8 m (table_Banks a)).

(** ** Access from register-level code: no interrupt point. *)
Section Access.
Context {HW : Hardware}.

Definition peek {A} (f : mem -> A) : M A := gets (fun s => f (ram s)).
Definition poke (f : mem -> mem) : M unit := modify (fun s => set_ram (f (ram s)) s).

(** Code that only computes on memory; [None] is a loop that does not end. *)
Definition on_ram (f : mem -> option mem) : M unit := fun s =>
  match f (ram s) with Some m => Some (tt, set_ram m s) | None => None end.
End Access.

(** ** Laws *)

(** Addresses of a structure that lies inside the data memory. *)
Definition inside (a n : Z) : Prop := 0 <= a /\ a + n <= 65536.

Lemma u16_small a : 0 <= a < 65536 -> u16 a = a.
Proof. intros. by apply Z.mod_small. Qed.

#[export] Instance mem_eq : Equiv mem := fun m m' => forall a, load8 m a = load8 m' a.

#[export] Instance mem_equivalence : Equivalence (≡@{mem}).
Proof.
  split; [by intros m a|by intros m m' H a|].
  intros m1 m2 m3 H H' a. by rewrite (H a).
Qed.

Lemma load8_store8 m a v x : load8 (store8 m a v) x = if u16 x =? u16 a then u8 v else load8 m x.
Proof. unfold load8, store8. case_match; [by apply wrap_wrap|done]. Qed.

#[export] Instance load8_proper : Proper ((≡) ==> eq ==> eq) load8.
Proof. intros m m' Hm a ? <-. apply Hm. Qed.

#[export] Instance store8_proper : Proper ((≡) ==> eq ==> eq ==> (≡)) store8.
Proof. intros m m' Hm a ? <- v ? <- x. rewrite !load8_store8. case_match; [done|apply Hm]. Qed.

#[export] Instance load_bytes_proper : Proper ((≡) ==> eq ==> eq ==> eq) load_bytes.
Proof.
  intros m m' Hm a ? <- n ? <-. revert a.
  induction n as [|n IH]; intros a; simpl; [done|]. by rewrite IH, Hm.
Qed.

#[export] Instance store_bytes_proper : Proper ((≡) ==> eq ==> eq ==> (≡)) store_bytes.
Proof.
  intros m m' Hm a ? <- bs ? <-. revert m m' Hm a.
  induction bs as [|b bs IH]; intros m m' Hm a; simpl; [done|]. apply IH. by rewrite Hm.
Qed.

#[export] Instance load_proper n : Proper ((≡) ==> eq ==> eq) (load n).
Proof. intros m m' Hm a ? <-. unfold load. by rewrite Hm. Qed.

#[export] Instance store_proper n : Proper ((≡) ==> eq ==> eq ==> (≡)) (store n).
Proof. intros m m' Hm a ? <- v ? <-. unfold store. by rewrite Hm. Qed.

Lemma load8_u8 m a : is_u8 (load8 m a).
Proof. by apply wrap_is_u. Qed.

Lemma load_bytes_u8 m a n : Forall is_u8 (load_bytes m a n).
Proof. revert a; induction n; intros a; simpl; constructor; auto using load8_u8. Qed.

Lemma length_load_bytes m a n : length (load_bytes m a n) = n.
Proof. revert a; induction n; intros a; simpl; auto. Qed.

Lemma load_u n m a : is_u (8 * Z.of_nat n) (load n m a).
Proof. unfold load. rewrite <- (length_load_bytes m a n) at 1. apply le_value_is_u, load_bytes_u8. Qed.

Lemma le_bytes_load n m a : le_bytes n (load n m a) = load_bytes m a n.
Proof.
  unfold load. rewrite <- (length_load_bytes m a n) at 1. apply le_bytes_value, load_bytes_u8.
Qed.

#[export] Hint Resolve load8_u8 load_bytes_u8 load_u : cint.
#[export] Hint Rewrite length_load_bytes le_bytes_load : cint.

(** What is at [x] after a store of [bs] at [a]. *)
Lemma store_bytes_at m a bs x : inside a (Z.of_nat (length bs)) -> 0 <= x < 65536 ->
  load8 (store_bytes m a bs) x
  = match (if a <=? x then bs !! Z.to_nat (x - a) else None) with Some b => u8 b | None => load8 m x end.
Proof.
  revert m a. induction bs as [|b bs IH]; intros m a [H0 H1] Hr; cbn [store_bytes].
  { rewrite lookup_nil. by destruct (a <=? x). }
  cbn [length] in H1. rewrite IH by (try split; lia). rewrite load8_store8, !u16_small by lia.
  destruct (Z.leb_spec (a + 1) x), (Z.leb_spec a x), (Z.eqb_spec x a); try lia; try done.
  - replace (Z.to_nat (x - a)) with (S (Z.to_nat (x - (a + 1)))) by lia. done.
  - replace (x - a) with 0 by lia. done.
Qed.

Lemma store_bytes_out m a bs x : inside a (Z.of_nat (length bs)) -> 0 <= x < 65536 ->
  x < a \/ a + Z.of_nat (length bs) <= x -> load8 (store_bytes m a bs) x = load8 m x.
Proof.
  intros Ha Hr Hx. rewrite store_bytes_at by done. destruct (Z.leb_spec a x); [|done].
  by rewrite lookup_ge_None_2 by lia.
Qed.

Lemma load_bytes_ext m m' a n : inside a (Z.of_nat n) ->
  (forall x, a <= x < a + Z.of_nat n -> load8 m x = load8 m' x) -> load_bytes m a n = load_bytes m' a n.
Proof.
  revert a. induction n as [|n IH]; intros a [H0 H1] H; cbn [load_bytes]; [done|].
  f_equal; [apply H|apply IH; [split|intros; apply H]]; lia.
Qed.

(** Memories that agree on the addresses there are. *)
Lemma mem_eq_addr m m' : (forall x, 0 <= x < 65536 -> load8 m x = load8 m' x) -> m ≡ m'.
Proof.
  intros H x. specialize (H (u16 x)). unfold load8 in H. rewrite wrap_wrap in H by lia.
  apply H. apply (wrap_is_u 16). lia.
Qed.

(** Reading around a store, and reading the store. *)
Lemma load_bytes_disjoint m a bs b n : inside a (Z.of_nat (length bs)) -> inside b (Z.of_nat n) ->
  b + Z.of_nat n <= a \/ a + Z.of_nat (length bs) <= b ->
  load_bytes (store_bytes m a bs) b n = load_bytes m b n.
Proof.
  intros Ha [] Hd. apply load_bytes_ext; [done|]. intros x Hx. apply store_bytes_out; [done|lia..].
Qed.

Lemma load_bytes_same m a bs n : inside a (Z.of_nat (length bs)) -> Forall is_u8 bs ->
  n = length bs -> load_bytes (store_bytes m a bs) a n = bs.
Proof.
  intros Ha Hb ->. revert m a Ha. induction Hb as [|b bs Hb Hbs IH]; intros m a [H0 H1]; [done|].
  cbn [store_bytes load_bytes length] in *. f_equal; [|apply IH; split; lia].
  rewrite store_bytes_out, load8_store8, Z.eqb_refl by (unfold inside; lia). by apply wrap_id.
Qed.

Lemma load_same n m a v : inside a (Z.of_nat n) -> load n (store n m a v) a = wrap (8 * Z.of_nat n) v.
Proof.
  intros Ha. unfold load, store.
  rewrite load_bytes_same by (rewrite ?length_le_bytes; auto using Forall_le_bytes).
  apply le_value_bytes.
Qed.

Lemma load8_same m a v : load8 (store8 m a v) a = u8 v.
Proof. by rewrite load8_store8, Z.eqb_refl. Qed.

Lemma load8_bytes m a : load8 m a = default 0 (head (load_bytes m a 1)).
Proof. done. Qed.

Lemma store8_bytes m a v : store8 m a v = store_bytes m a [v].
Proof. done. Qed.

(** Consecutive stores are one store. *)
Lemma store_bytes_app m a bs bs' :
  store_bytes m a (bs ++ bs') = store_bytes (store_bytes m a bs) (a + Z.of_nat (length bs)) bs'.
Proof.
  revert m a. induction bs as [|b bs IH]; intros m a; cbn [store_bytes length Datatypes.app].
  - by rewrite Z.add_0_r.
  - rewrite IH. f_equal. lia.
Qed.

Lemma store_bytes_comm m a bs b bs' :
  inside a (Z.of_nat (length bs)) -> inside b (Z.of_nat (length bs')) ->
  b + Z.of_nat (length bs') <= a \/ a + Z.of_nat (length bs) <= b ->
  store_bytes (store_bytes m a bs) b bs' ≡ store_bytes (store_bytes m b bs') a bs.
Proof.
  intros Ha Hb Hd. apply mem_eq_addr. intros x Hx. rewrite !store_bytes_at by done.
  destruct (Z.leb_spec b x), (Z.leb_spec a x); try done.
  destruct (bs' !! Z.to_nat (x - b)) as [v|] eqn:E, (bs !! Z.to_nat (x - a)) as [w|] eqn:E'; try done.
  apply lookup_lt_Some in E, E'. lia.
Qed.

(** Storing what is there. *)
Lemma store_bytes_load m a n : store_bytes m a (load_bytes m a n) ≡ m.
Proof.
  revert a. induction n as [|n IH]; intros a; cbn [load_bytes store_bytes]; [done|].
  assert (store8 m a (load8 m a) ≡ m) as ->; [|apply IH].
  intros x. rewrite load8_store8. destruct (Z.eqb_spec (u16 x) (u16 a)) as [E|]; [|done].
  unfold load8. rewrite E. by apply wrap_wrap.
Qed.

Lemma load_bytes_app m a n k :
  load_bytes m a (n + k) = load_bytes m a n ++ load_bytes m (a + Z.of_nat n) k.
Proof.
  revert a. induction n as [|n IH]; intros a; cbn [load_bytes Nat.add Datatypes.app].
  - by rewrite Z.add_0_r.
  - f_equal. rewrite IH. do 2 f_equal. lia.
Qed.

Lemma load_pieces m a xs ys :
  load_bytes m a (length xs) = xs -> load_bytes m (a + Z.of_nat (length xs)) (length ys) = ys ->
  load_bytes m a (length (xs ++ ys)) = xs ++ ys.
Proof. intros Hx Hy. by rewrite length_app, load_bytes_app, Hx, Hy. Qed.

Lemma load_bytes_at m a bs b n : inside a (Z.of_nat (length bs)) -> Forall is_u8 bs ->
  b = a -> n = length bs -> load_bytes (store_bytes m a bs) b n = bs.
Proof. intros Ha Hb -> ->. by apply load_bytes_same. Qed.

Lemma le_word m a : le_bytes 4 (le_value (load_bytes m a 4)) = load_bytes m a 4.
Proof. apply (le_bytes_load 4). Qed.

(** Evaluate loads from a sequence of stores at constant offsets from a symbolic address. *)
Ltac addr := unfold inside in *; rewrite ?length_load_bytes, ?length_le_bytes, ?length_replicate; cbn [length] in *; lia.
Ltac bytes := first [apply Forall_le_bytes | apply load_bytes_u8
  | assumption | apply bytes_u8; vm_compute; reflexivity].
Ltac loads :=
  repeat match goal with
  | |- context [load_bytes (store_bytes ?m ?a ?bs) ?b ?n] =>
      first [ rewrite (load_bytes_disjoint m a bs b n) by addr
            | rewrite (load_bytes_at m a bs b n) by first [addr | bytes] ]
  end.

Ltac outside := intros x Hx Hout; repeat rewrite store_bytes_out by addr; done.

(** A string in memory has its length. *)
Lemma strlen_ok k m' a n cs : (length cs < k)%nat -> 0 ∉ cs ->
  load_bytes m' a (length (cs ++ [0])) = cs ++ [0] -> strlen_upto k m' a n = Some (n + Z.of_nat (length cs)).
Proof.
  revert k a n. induction cs as [|c cs IH]; intros [|k] a n Hk H0 E; cbn in *; try lia.
  - injection E as ->. rewrite Z.eqb_refl. f_equal. lia.
  - injection E as E1 E2. rewrite E1. destruct (Z.eqb_spec c 0) as [->|_]; [by destruct H0; constructor|].
    rewrite (IH k (a + 1) (n + 1)); [f_equal; lia|lia|by intros ?; apply H0; constructor|done].
Qed.

(** ** Regions

    A region that a function fills is a list of bytes; a store inside it is an update of the
    list. *)
Definition splice (k : nat) (bs l : list Z) : list Z := take k l ++ bs ++ drop (k + length bs) l.

Lemma load_bytes_splice m a n k bs :
  inside a (Z.of_nat n) -> (k + length bs <= n)%nat -> Forall is_u8 bs ->
  load_bytes (store_bytes m (a + Z.of_nat k) bs) a n = splice k bs (load_bytes m a n).
Proof.
  intros Ha Hk Hb. assert (n = k + (length bs + (n - k - length bs)))%nat as -> by lia.
  set (r := (n - k - length bs)%nat) in *. unfold inside in Ha. unfold splice.
  rewrite !load_bytes_app. rewrite load_bytes_disjoint by (unfold inside; lia).
  rewrite load_bytes_same by (unfold inside; auto; lia).
  rewrite load_bytes_disjoint by (unfold inside; lia).
  rewrite take_app_length' by (by rewrite length_load_bytes). do 2 f_equal.
  rewrite app_assoc, drop_app_length'; [done|]. by rewrite length_app, !length_load_bytes.
Qed.

(** [m'] differs from [m] at most in the [n] bytes from [a] on. *)
Definition changed_in (m m' : mem) (a n : Z) : Prop :=
  forall x, 0 <= x < 65536 -> x < a \/ a + n <= x -> load8 m' x = load8 m x.

Lemma changed_refl m a n : changed_in m m a n.
Proof. done. Qed.

Lemma changed_trans m m1 m2 a n : changed_in m m1 a n -> changed_in m1 m2 a n -> changed_in m m2 a n.
Proof. intros H1 H2 x Hx Ho. by rewrite H2, H1. Qed.

Lemma changed_mono m m' a n b k : b <= a -> a + n <= b + k -> changed_in m m' a n -> changed_in m m' b k.
Proof. intros H1 H2 H x Hx Ho. apply H; lia. Qed.

Lemma changed_store m a bs b k : inside a (Z.of_nat (length bs)) -> b <= a -> a + Z.of_nat (length bs) <= b + k ->
  changed_in m (store_bytes m a bs) b k.
Proof. intros Ha H1 H2 x Hx Ho. apply store_bytes_out; [done|lia|lia]. Qed.

Lemma changed_load m m' a n b k : changed_in m m' a n -> inside b (Z.of_nat k) ->
  b + Z.of_nat k <= a \/ a + n <= b -> load_bytes m' b k = load_bytes m b k.
Proof. intros H [H0 H1] Hd. apply load_bytes_ext; [done|]. intros x Hx. apply H; lia. Qed.

(** The same for two regions. *)
Definition changed_in2 (m m' : mem) (a n b k : Z) : Prop :=
  forall x, 0 <= x < 65536 -> x < a \/ a + n <= x -> x < b \/ b + k <= x -> load8 m' x = load8 m x.

Lemma changed_load2 m m' a n b k c l : changed_in2 m m' a n b k -> inside c (Z.of_nat l) ->
  c + Z.of_nat l <= a \/ a + n <= c -> c + Z.of_nat l <= b \/ b + k <= c ->
  load_bytes m' c l = load_bytes m c l.
Proof. intros H [H0 H1] Hd He. apply load_bytes_ext; [done|]. intros x Hx. apply H; lia. Qed.
