(* ===== verification/Logic.v ===== *)
(** * Logic: reasoning about register-level code

    [spec m Q]: every run of [m] that returns extends the log by some [t], and [Q] relates
    the start state, the result, [t] and the final state.  [obeys R m] is the special case
    of a policy: a relation [R] on (start state, log segment, final state) that is closed
    under composition, so that a program obeys it when its parts do.  The tactic [obey] does
    that decomposition and closes the leaves with the hint database [obey]. *)
From S2P Require Import Prelude Machine.

Section Spec.
Context {HW : Hardware}.

Definition spec {A} (m : M A) (Q : mcu -> A -> list event -> mcu -> Prop) : Prop :=
  forall s a s', m s = Some (a, s') -> exists t, trace s' = trace s ++ t /\ Q s a t s'.

Lemma spec_conseq {A} (m : M A) (P Q : mcu -> A -> list event -> mcu -> Prop) :
  spec m P -> (forall s a t s', P s a t s' -> Q s a t s') -> spec m Q.
Proof. intros Hm HPQ s a s' H. destruct (Hm s a s' H) as (t & Ht & HP). eauto. Qed.

(** Programs that agree on every state have the same runs. *)
Lemma spec_ext {A} (m m' : M A) Q : (forall s, m s = m' s) -> spec m' Q -> spec m Q.
Proof. intros He Hm s a s' H. rewrite He in H. by apply Hm. Qed.

Lemma bind_assoc {A B C} (m : M A) (k : A -> M B) (h : B -> M C) s :
  bind m (fun a => bind (k a) h) s = bind (bind m k) h s.
Proof. unfold bind. by destruct (m s) as [[a s1]|]. Qed.

Lemma spec_and {A} (m : M A) (P Q : mcu -> A -> list event -> mcu -> Prop) :
  spec m P -> spec m Q -> spec m (fun s a t s' => P s a t s' /\ Q s a t s').
Proof.
  intros Hp Hq s a s' H. destruct (Hp s a s' H) as (t & Ht & HP).
  destruct (Hq s a s' H) as (t' & Ht' & HQ). rewrite Ht in Ht'.
  apply app_inv_head in Ht' as <-. eauto.
Qed.

Lemma spec_ret {A} (a : A) (Q : mcu -> A -> list event -> mcu -> Prop) :
  (forall s, Q s a [] s) -> spec (ret a) Q.
Proof. intros HQ s b s' [= <- <-]. exists []. by rewrite app_nil_r. Qed.

Lemma spec_ret_exact {A} (a : A) : spec (ret a) (fun s b t s' => t = [] /\ s' = s /\ b = a).
Proof. by apply spec_ret. Qed.

Lemma spec_spin {A} (Q : mcu -> A -> list event -> mcu -> Prop) : spec spin Q.
Proof. intros s a s' [=]. Qed.

Lemma spec_gets {A} (f : mcu -> A) (Q : mcu -> A -> list event -> mcu -> Prop) :
  (forall s, Q s (f s) [] s) -> spec (gets f) Q.
Proof. intros HQ s b s' [= <- <-]. exists []. by rewrite app_nil_r. Qed.

Lemma spec_modify (f : mcu -> mcu) (Q : mcu -> unit -> list event -> mcu -> Prop) :
  (forall s, trace (f s) = trace s) -> (forall s, Q s tt [] (f s)) -> spec (modify f) Q.
Proof. intros Hf HQ s b s' [= <- <-]. exists []. rewrite app_nil_r. eauto. Qed.

Lemma spec_bind {A B} (m : M A) (k : A -> M B) P R Q :
  spec m P -> (forall a, spec (k a) (R a)) ->
  (forall s a t s1 b t' s2, P s a t s1 -> R a s1 b t' s2 -> Q s b (t ++ t') s2) ->
  spec (bind m k) Q.
Proof.
  intros Hm Hk HQ s b s2 H. unfold bind in H.
  destruct (m s) as [[a s1]|] eqn:Hs; [|done].
  destruct (Hm s a s1 Hs) as (t & Ht & HP). destruct (Hk a s1 b s2 H) as (t' & Ht' & HR).
  exists (t ++ t'). rewrite Ht', Ht, app_assoc. eauto.
Qed.

(** The same with the point in between left to the postcondition. *)
Lemma spec_seq {A B} (m : M A) (k : A -> M B) P R :
  spec m P -> (forall a, spec (k a) (R a)) ->
  spec (bind m k) (fun s b t s2 =>
    exists a t1 s1 t2, t = t1 ++ t2 /\ P s a t1 s1 /\ R a s1 b t2 s2).
Proof. intros Hm Hk. eapply spec_bind; [exact Hm|exact Hk|]. cbn beta. eauto 10. Qed.

(** A program whose first part has a known result and no log entries. *)
Lemma spec_get_bind {A B} (f : mcu -> A) (k : A -> M B) Q :
  (forall a, spec (k a) (fun s b t s' => a = f s -> Q s b t s')) -> spec (bind (gets f) k) Q.
Proof.
  intros Hk. eapply (spec_bind _ _ (fun s a t s' => t = [] /\ a = f s /\ s' = s)).
  - by apply spec_gets.
  - exact Hk.
  - intros s a t s1 b t' s2 (-> & -> & ->) H. by apply H.
Qed.

(** Loops: [B] describes one pass, [J x] the loop from [x]. *)
Lemma spec_iter {X Y} n (body : X -> M (X + Y)) (x : X) B J :
  (forall x, spec (body x) (B x)) ->
  (forall x s y t s', B x s (inr y) t s' -> J x s y t s') ->
  (forall x s x' t s1 y t' s2, B x s (inl x') t s1 -> J x' s1 y t' s2 -> J x s y (t ++ t') s2) ->
  spec (iter n body x) (J x).
Proof.
  intros Hb Hr Hl. revert x. induction n as [|n IH]; intros x; cbn [iter]; [apply spec_spin|].
  intros s y s2 H. unfold bind in H. destruct (body x s) as [[r s1]|] eqn:Hx; [|done].
  destruct (Hb x s r s1 Hx) as (t & Ht & HB). destruct r as [x'|y'].
  - destruct (IH x' s1 y s2 H) as (t' & Ht' & HJ).
    exists (t ++ t'). rewrite Ht', Ht, app_assoc. eauto.
  - injection H as <- <-. eauto.
Qed.

(** The raw register accesses. *)
Lemma spec_raw_read r (Q : mcu -> Z -> list event -> mcu -> Prop) :
  (forall s, plain r = true -> Q s (regs s r) [Rd r (uenum s) (regs s r)]
                                 (log (Rd r (uenum s) (regs s r)) s)) ->
  (forall s v h, plain r = false -> hw_read r (uenum s) (hw s) = (v, h) ->
     Q s (wrap (reg_width r) v) [Rd r (uenum s) (wrap (reg_width r) v)]
       (log (Rd r (uenum s) (wrap (reg_width r) v)) (set_hw h s))) ->
  spec (raw_read r) Q.
Proof.
  intros Hp Hh s a s' H. unfold raw_read in H.
  destruct (plain r) eqn:Hr; [|destruct (hw_read r (uenum s) (hw s)) as [v h] eqn:Hv];
    injection H as <- <-; (eexists; split; [|eauto]); done.
Qed.

Lemma spec_raw_write r v (Q : mcu -> unit -> list event -> mcu -> Prop) :
  let w := wrap (reg_width r) v in
  (forall s, Q s tt [Wr r (uenum s) w]
     (log (Wr r (uenum s) w)
        (if plain r then set_reg r w s else set_hw (hw_write r (uenum s) w (hw s)) s))) ->
  spec (raw_write r v) Q.
Proof.
  intros w HQ s [] s' H. unfold raw_write in H.
  specialize (HQ s). destruct (plain r); injection H as <-; eexists; (split; [|exact HQ]); done.
Qed.

(** ** Termination: [m] returns from every state. *)
Definition returns {A} (m : M A) : Prop := forall s, exists a s', m s = Some (a, s').

Lemma returns_ret {A} (a : A) : returns (ret a).
Proof. intros s. by exists a, s. Qed.

Lemma returns_bind {A B} (m : M A) (k : A -> M B) :
  returns m -> (forall a, returns (k a)) -> returns (bind m k).
Proof. intros Hm Hk s. destruct (Hm s) as (a & s1 & H). unfold bind. rewrite H. apply Hk. Qed.

Lemma returns_gets {A} (f : mcu -> A) : returns (gets f).
Proof. intros s. by eexists _, _. Qed.

Lemma returns_modify f : returns (modify f).
Proof. intros s. by eexists _, _. Qed.

Lemma returns_raw_read r : returns (raw_read r).
Proof.
  intros s. unfold raw_read. destruct (plain r); [by eexists _, _|].
  destruct (hw_read r (uenum s) (hw s)). by eexists _, _.
Qed.

Lemma returns_raw_write r v : returns (raw_write r v).
Proof. intros s. unfold raw_write. destruct (plain r); by eexists _, _. Qed.

(** ** Results: whatever [m] returns satisfies [F]. *)
Definition yields {A} (F : A -> Prop) (m : M A) : Prop := forall s a s', m s = Some (a, s') -> F a.

Lemma yields_ret {A} (F : A -> Prop) a : F a -> yields F (ret a).
Proof. intros HF s b s' [= <- <-]. done. Qed.

Lemma yields_bind {A B} (F : B -> Prop) (m : M A) (k : A -> M B) :
  (forall a, yields F (k a)) -> yields F (bind m k).
Proof.
  intros Hk s b s' H. unfold bind in H. destruct (m s) as [[a s1]|]; [|done]. by eapply Hk.
Qed.

Lemma yields_iter {X Y} (F : Y -> Prop) n (body : X -> M (X + Y)) x :
  (forall x, yields (fun r => match r with inr y => F y | inl _ => True end) (body x)) ->
  yields F (iter n body x).
Proof.
  intros Hb. revert x. induction n as [|n IH]; intros x s y s' H; [done|]. cbn [iter] in H.
  unfold bind in H. destruct (body x s) as [[r s1]|] eqn:Hx; [|done]. apply Hb in Hx.
  destruct r as [x'|y']; [by eapply IH|]. by injection H as <- <-.
Qed.

Lemma spec_yields {A} (F : A -> Prop) (m : M A) Q :
  spec m Q -> yields F m -> spec m (fun s a t s' => Q s a t s' /\ F a).
Proof. intros Hm HF s a s' H. destruct (Hm s a s' H) as (t & Ht & HQ). eauto 10. Qed.

(** ** Policies *)

Class Policy (R : mcu -> list event -> mcu -> Prop) := {
  policy_refl s : R s [] s;
  policy_trans s t s1 t' s2 : R s t s1 -> R s1 t' s2 -> R s (t ++ t') s2 }.

Definition obeys (R : mcu -> list event -> mcu -> Prop) {A} (m : M A) : Prop :=
  spec m (fun s _ t s' => R s t s').

Context (R : mcu -> list event -> mcu -> Prop) {P : Policy R}.

Lemma obeys_ret {A} (a : A) : obeys R (ret a).
Proof. apply spec_ret. intros s. apply policy_refl. Qed.

Lemma obeys_spin {A} : obeys R (spin (A := A)).
Proof. apply spec_spin. Qed.

Lemma obeys_gets {A} (f : mcu -> A) : obeys R (gets f).
Proof. apply spec_gets. intros s. apply policy_refl. Qed.

Lemma obeys_bind {A B} (m : M A) (k : A -> M B) :
  obeys R m -> (forall a, obeys R (k a)) -> obeys R (bind m k).
Proof.
  intros Hm Hk. eapply spec_bind; [exact Hm|exact Hk|].
  cbn. intros. eapply policy_trans; eauto.
Qed.

(** A first part about which nothing but the policy is needed, before a postcondition on
    result and log that more log entries in front do not disturb. *)
Lemma spec_skip {A B} (m : M A) (k : A -> M B) (F : B -> list event -> Prop) :
  obeys R m -> (forall a, spec (k a) (fun _ b t _ => F b t)) ->
  (forall b t t', F b t' -> F b (t ++ t')) -> spec (bind m k) (fun _ b t _ => F b t).
Proof. intros Hm Hk HF. eapply spec_bind; [exact Hm|exact Hk|]. cbn. eauto. Qed.

(** A postcondition on the final state alone. *)
Lemma spec_last {A B} (m : M A) (k : A -> M B) (F : mcu -> Prop) :
  obeys R m -> (forall a, spec (k a) (fun _ _ _ s' => F s')) ->
  spec (bind m k) (fun _ _ _ s' => F s').
Proof. intros Hm Hk. eapply spec_bind; [exact Hm|exact Hk|]. cbn. auto. Qed.

Lemma obeys_iter {X Y} n (body : X -> M (X + Y)) x :
  (forall x, obeys R (body x)) -> obeys R (iter n body x).
Proof.
  intros Hb. eapply (spec_iter n body x (fun _ s _ t s' => R s t s') (fun _ s _ t s' => R s t s'));
    [exact Hb|done|]. cbn. intros. eapply policy_trans; eauto.
Qed.

Lemma obeys_if {A} (b : bool) (m1 m2 : M A) : obeys R m1 -> obeys R m2 -> obeys R (if b then m1 else m2).
Proof. by destruct b. Qed.

Context {PRE : Preempt} {FU : Fuel}.
Context (pre_ok : obeys R preempt).

Lemma obeys_rd r : obeys R (raw_read r) -> obeys R (rd r).
Proof. intros. by apply obeys_bind. Qed.

Lemma obeys_wr r v : obeys R (raw_write r v) -> obeys R (wr r v).
Proof. intros. by apply obeys_bind. Qed.

Lemma obeys_put_wait_ticks t :
  (forall f, obeys R (modify (fun s =>
     let 'LoccGlobals t st k := locc s in set_locc (LoccGlobals (f t) st k) s))) ->
  obeys R (put_wait_ticks t).
Proof.
  intros Hf. assert (forall i b, obeys R (put_wait_byte i b)) as Hb.
  { intros i b. apply obeys_bind; [done|intros _]. exact (Hf (fun t => le_value (<[i := b]> (le_bytes 4 t)))). }
  unfold put_wait_ticks. repeat (apply obeys_bind; [apply Hb|intros _]). apply Hb.
Qed.
End Spec.

Create HintDb obey.
#[export] Hint Resolve obeys_ret obeys_spin obeys_gets : obey.

Ltac head_of t := match t with ?f _ => head_of f | _ => constr:(t) end.

(** Decompose a program into its leaves: [bind]s, loops, [match]es and calls without a lemma
    of their own are taken apart. *)
Ltac obey :=
  cbv beta zeta;
  match goal with
  | |- obeys _ (bind _ _) => apply obeys_bind; [typeclasses eauto|obey|intros; obey]
  | |- obeys _ (iter _ _ _) => apply obeys_iter; [typeclasses eauto|intros; obey]
  | |- obeys _ (match ?x with _ => _ end) => destruct x; obey
  | |- forall _, _ => intros; obey
  | |- _ => solve [eauto with obey typeclass_instances]
  | |- obeys _ ?m => let f := head_of m in progress unfold f; obey
  | |- _ => idtac
  end.

(** Straight-line code returns when the interrupts do. *)
Section Returns.
Context {HW : Hardware} {PRE : Preempt} (pre_ret : returns preempt).

Lemma returns_rd r : returns (rd r).
Proof. apply returns_bind; [done|]. intros. apply returns_raw_read. Qed.
Lemma returns_wr r v : returns (wr r v).
Proof. apply returns_bind; [done|]. intros. apply returns_raw_write. Qed.
Lemma returns_set_bits r m : returns (set_bits r m).
Proof. apply returns_bind; [apply returns_rd|]. intros. apply returns_wr. Qed.
Lemma returns_clear_bits r m : returns (clear_bits r m).
Proof. apply returns_bind; [apply returns_rd|]. intros. apply returns_wr. Qed.
End Returns.

Create HintDb returns.
#[export] Hint Resolve returns_ret returns_gets returns_modify returns_rd returns_wr
  returns_set_bits returns_clear_bits : returns.

(** ** Policies of the USB stack

    Everything the USB code and the interrupt handlers do to the memory image: accesses to
    the USB registers, updates of the USB globals (which never record a suspended bus),
    updates of the CDC state that keep the endpoint numbers, changes inside the hardware, and
    timer ticks. *)

Definition usb_reg (r : reg) : bool :=
  match r with
  | UEINTX | UECONX | UECFG0X | UECFG1X | UEIENX | UEDATX | UEBCLX | UESTA0X
  | UENUM | UDADDR | UDFNUML | UDFNUMH | UDINT | UDIEN | UDCON | UEINT | UERST
  | USBCON | PLLCSR | REGCR => true
  | _ => false
  end.

(** The part of the CDC interface that is fixed at build time. *)
Definition same_config (c c' : USB_ClassInfo_CDC_Device_t) : Prop :=
  ControlInterfaceNumber c' = ControlInterfaceNumber c
  /\ Address (DataINEndpoint c') = Address (DataINEndpoint c)
  /\ Address (DataOUTEndpoint c') = Address (DataOUTEndpoint c)
  /\ Address (NotificationEndpoint c') = Address (NotificationEndpoint c).

Definition no_suspend (u u' : usb_globals) : Prop :=
  USB_DeviceState u' = USB_DeviceState u \/ USB_DeviceState u' <> DEVICE_STATE_Suspended.

Class UsbPolicy `{HW : Hardware} (R : mcu -> list event -> mcu -> Prop) := {
  usb_policy :: Policy R;
  usb_read r : usb_reg r = true -> obeys R (raw_read r);
  usb_write r v : usb_reg r = true -> obeys R (raw_write r v);
  usb_globals_ok s u : no_suspend (usb s) u -> R s [] (set_usb u s);
  usb_cdc_ok s c : same_config (cdc s) c -> R s [] (set_cdc c s);
  usb_hw_ok s h : R s [] (set_hw h s) }.

Section UsbPolicy.
Context {HW : Hardware} (R : mcu -> list event -> mcu -> Prop) {UP : UsbPolicy R}.
Context {PRE : Preempt} {FU : Fuel} (pre_ok : obeys R preempt).

Lemma obeys_usb_rd r : usb_reg r = true -> obeys R (rd r).
Proof. intros. apply obeys_rd; [typeclasses eauto|done|by apply usb_read]. Qed.

Lemma obeys_usb_wr r v : usb_reg r = true -> obeys R (wr r v).
Proof. intros. apply obeys_wr; [typeclasses eauto|done|by apply usb_write]. Qed.

Lemma obeys_set_bits r m : usb_reg r = true -> obeys R (set_bits r m).
Proof. intros. apply obeys_bind; [typeclasses eauto|by apply obeys_usb_rd|]. intros. by apply obeys_usb_wr. Qed.

Lemma obeys_clear_bits r m : usb_reg r = true -> obeys R (clear_bits r m).
Proof. intros. apply obeys_bind; [typeclasses eauto|by apply obeys_usb_rd|]. intros. by apply obeys_usb_wr. Qed.

Lemma obeys_usb_globals (f : usb_globals -> usb_globals) :
  (forall u, no_suspend u (f u)) -> obeys R (modify (fun s => set_usb (f (usb s)) s)).
Proof. intros Hf. apply spec_modify; [done|]. intros s. by apply usb_globals_ok. Qed.

Lemma obeys_cdc (f : USB_ClassInfo_CDC_Device_t -> USB_ClassInfo_CDC_Device_t) :
  (forall c, same_config c (f c)) -> obeys R (modify (fun s => set_cdc (f (cdc s)) s)).
Proof. intros Hf. apply spec_modify; [done|]. intros s. by apply usb_cdc_ok. Qed.

Lemma obeys_get_state : obeys R get_state.
Proof. apply obeys_bind; [typeclasses eauto|done|]. intros. apply obeys_gets; typeclasses eauto. Qed.

Lemma obeys_put_state d : d <> DEVICE_STATE_Suspended -> obeys R (put_state d).
Proof.
  intros Hd. apply obeys_bind; [typeclasses eauto|done|]. intros _.
  apply spec_modify; intros s; destruct (usb s) eqn:E; [done|].
  apply usb_globals_ok. by right.
Qed.

Lemma obeys_put_initialized b : obeys R (put_initialized b).
Proof.
  apply obeys_bind; [typeclasses eauto|done|]. intros _.
  apply spec_modify; intros s; destruct (usb s) eqn:E; [done|].
  apply usb_globals_ok. rewrite E. by left.
Qed.
End UsbPolicy.

(** The non-volatile USB globals, in any context. *)
Section UsbPolicyGlobals.
Context {HW : Hardware} (R : mcu -> list event -> mcu -> Prop) {UP : UsbPolicy R}.

Ltac globals := apply spec_modify; intros s; destruct (usb s) eqn:E; [done|];
  apply usb_globals_ok; rewrite E; by left.

Lemma obeys_put_request r : obeys R (put_request r).
Proof. globals. Qed.
Lemma obeys_put_config n : obeys R (put_config n).
Proof. globals. Qed.
Lemma obeys_put_self_powered b : obeys R (put_self_powered b).
Proof. globals. Qed.
Lemma obeys_put_remote_wakeup b : obeys R (put_remote_wakeup b).
Proof. globals. Qed.
End UsbPolicyGlobals.

#[export] Hint Resolve obeys_usb_rd obeys_usb_wr obeys_set_bits obeys_clear_bits obeys_get_state
  obeys_put_state obeys_put_initialized obeys_put_request obeys_put_config
  obeys_put_self_powered obeys_put_remote_wakeup : obey.
#[export] Hint Extern 1 (usb_reg _ = true) => reflexivity : obey.
#[export] Hint Extern 1 (_ <> DEVICE_STATE_Suspended) =>
  first [discriminate | case_match; discriminate] : obey.
#[export] Hint Extern 1 (obeys _ get_request) => apply obeys_gets : obey.
#[export] Hint Extern 1 (obeys _ get_config) => apply obeys_gets : obey.

(** Run [m] to its end: [a] is the result and [s'] the final state. *)
Ltac run_to m a s' E :=
  destruct m as [[a s']|] eqn:E; [|exfalso; revert E; vm_compute; discriminate].
