(* ===== verification/Endpoint.v ===== *)
(** * Endpoint: endpoint management
    ([LUFA/Drivers/USB/Core/AVR8/Endpoint_AVR8.h], [Endpoint_AVR8.c], [Device_AVR8.h])

    One definition per function, over the register accesses of [Machine.v], for the
    configuration the firmware is built with: series 2 controller (five endpoints),
    neither [CONTROL_ONLY_DEVICE] nor [ORDERED_EP_CONFIG]. *)
From S2P Require Import Prelude Machine Logic.

Definition ENDPOINT_TOTAL_ENDPOINTS := 5.
Definition ENDPOINT_EPNUM_MASK := 0x0F.
Definition ENDPOINT_CONTROLEP := 0.
Definition ENDPOINT_DIR_IN := 0x80.
Definition ENDPOINT_DIR_OUT := 0x00.
Definition EP_TYPE_CONTROL := 0x00.
Definition EP_TYPE_BULK := 0x02.
Definition EP_TYPE_INTERRUPT := 0x03.
Definition USB_STREAM_TIMEOUT_MS := 100.

(** [enum Endpoint_WaitUntilReady_ErrorCodes_t] *)
Definition ENDPOINT_READYWAIT_NoError := 0.
Definition ENDPOINT_READYWAIT_EndpointStalled := 1.
Definition ENDPOINT_READYWAIT_DeviceDisconnected := 2.
Definition ENDPOINT_READYWAIT_BusSuspended := 3.
Definition ENDPOINT_READYWAIT_Timeout := 4.

Definition REQDIR_DEVICETOHOST := bit 7.

Module Endpoint.
Section Endpoint.
Context {HW : Hardware} {PRE : Preempt} {FU : Fuel}.

(** The [while] loop of [Endpoint_BytesToEPSizeMask]; [None]: still looping after [n]
    iterations. *)
Fixpoint ep_size_loop (n : nat) (Bytes MaskVal CheckBytes : Z) : option Z :=
  match n with
  | O => None
  | S n' => if CheckBytes <? Bytes
            then ep_size_loop n' Bytes (u8 (MaskVal + 1)) (u16 (CheckBytes .<< 1))
            else Some MaskVal
  end.

(** 14 iterations are enough for every size the loop ends on at all (see
    [ep_size_mask]). *)
Definition Endpoint_BytesToEPSizeMask (Bytes : Z) : M Z :=
  match ep_size_loop 14 Bytes 0 8 with
  | Some MaskVal => ret (u8 (MaskVal .<< EPSIZE0))
  | None => spin
  end.

Definition Endpoint_BytesInEndpoint : M Z := rd UEBCLX.

Definition Endpoint_GetEndpointDirection : M Z :=
  v <- rd UECFG0X ;;
  ret (if truth (v .& bit EPDIR) then ENDPOINT_DIR_IN else ENDPOINT_DIR_OUT).

Definition Endpoint_GetCurrentEndpoint : M Z :=
  n <- rd UENUM ;;
  d <- Endpoint_GetEndpointDirection ;;
  ret (n .& ENDPOINT_EPNUM_MASK .| d).

Definition Endpoint_SelectEndpoint (Address : Z) : M unit :=
  wr UENUM (Address .& ENDPOINT_EPNUM_MASK).

Definition Endpoint_ResetEndpoint (Address : Z) : M unit :=
  wr UERST (bit (Address .& ENDPOINT_EPNUM_MASK)) ;;
  wr UERST 0.

Definition Endpoint_EnableEndpoint : M unit := set_bits UECONX (bit EPEN).

Definition Endpoint_DisableEndpoint : M unit := clear_bits UECONX (bit EPEN).

Definition Endpoint_IsEnabled : M bool :=
  v <- rd UECONX ;; ret (truth (v .& bit EPEN)).

Definition Endpoint_GetBusyBanks : M Z :=
  v <- rd UESTA0X ;; ret (v .& (0x03 .<< NBUSYBK0)).

Definition Endpoint_AbortPendingIN : M unit :=
  iter fuel (fun _ : unit =>
    b <- Endpoint_GetBusyBanks ;;
    if b =? 0 then ret (inr tt)
    else set_bits UEINTX (bit RXOUTI) ;;
         spin_until (v <- rd UEINTX ;; ret (negb (truth (v .& bit RXOUTI)))) ;;
         ret (inl tt)) tt.

Definition Endpoint_IsReadWriteAllowed : M bool :=
  v <- rd UEINTX ;; ret (truth (v .& bit RWAL)).

Definition Endpoint_IsConfigured : M bool :=
  v <- rd UESTA0X ;; ret (truth (v .& bit CFGOK)).

Definition Endpoint_GetEndpointInterrupts : M Z := rd UEINT.

Definition Endpoint_HasEndpointInterrupted (Address : Z) : M bool :=
  v <- Endpoint_GetEndpointInterrupts ;;
  ret (truth (v .& bit (Address .& ENDPOINT_EPNUM_MASK))).

Definition Endpoint_IsINReady : M bool :=
  v <- rd UEINTX ;; ret (truth (v .& bit TXINI)).

Definition Endpoint_IsOUTReceived : M bool :=
  v <- rd UEINTX ;; ret (truth (v .& bit RXOUTI)).

Definition Endpoint_IsSETUPReceived : M bool :=
  v <- rd UEINTX ;; ret (truth (v .& bit RXSTPI)).

Definition Endpoint_ClearSETUP : M unit := clear_bits UEINTX (bit RXSTPI).

Definition Endpoint_ClearIN : M unit := clear_bits UEINTX (bit TXINI .| bit FIFOCON).

Definition Endpoint_ClearOUT : M unit := clear_bits UEINTX (bit RXOUTI .| bit FIFOCON).

Definition Endpoint_StallTransaction : M unit := set_bits UECONX (bit STALLRQ).

Definition Endpoint_ClearStall : M unit := set_bits UECONX (bit STALLRQC).

Definition Endpoint_IsStalled : M bool :=
  v <- rd UECONX ;; ret (truth (v .& bit STALLRQ)).

Definition Endpoint_ResetDataToggle : M unit := set_bits UECONX (bit RSTDT).

Definition Endpoint_SetEndpointDirection (DirectionMask : Z) : M unit :=
  v <- rd UECFG0X ;;
  wr UECFG0X (v .&~ bit EPDIR .| (if truth DirectionMask then bit EPDIR else 0)).

Definition Endpoint_Read_8 : M Z := rd UEDATX.

Definition Endpoint_Write_8 (Data : Z) : M unit := wr UEDATX Data.

Definition Endpoint_Discard_8 : M unit := rd UEDATX ;; ret tt.

Definition Endpoint_Read_16_LE : M Z :=
  b0 <- rd UEDATX ;; b1 <- rd UEDATX ;; ret (le_value [b0; b1]).

Definition Endpoint_Read_16_BE : M Z :=
  b1 <- rd UEDATX ;; b0 <- rd UEDATX ;; ret (le_value [b0; b1]).

Definition Endpoint_Write_16_LE (Data : Z) : M unit :=
  wr UEDATX (Data .& 0xFF) ;; wr UEDATX (Data .>> 8).

Definition Endpoint_Write_16_BE (Data : Z) : M unit :=
  wr UEDATX (Data .>> 8) ;; wr UEDATX (Data .& 0xFF).

Definition Endpoint_Discard_16 : M unit := rd UEDATX ;; rd UEDATX ;; ret tt.

Definition Endpoint_Read_32_LE : M Z :=
  b0 <- rd UEDATX ;; b1 <- rd UEDATX ;; b2 <- rd UEDATX ;; b3 <- rd UEDATX ;;
  ret (le_value [b0; b1; b2; b3]).

Definition Endpoint_Read_32_BE : M Z :=
  b3 <- rd UEDATX ;; b2 <- rd UEDATX ;; b1 <- rd UEDATX ;; b0 <- rd UEDATX ;;
  ret (le_value [b0; b1; b2; b3]).

Definition Endpoint_Write_32_LE (Data : Z) : M unit :=
  wr UEDATX (Data .& 0xFF) ;; wr UEDATX (Data .>> 8) ;;
  wr UEDATX (Data .>> 16) ;; wr UEDATX (Data .>> 24).

Definition Endpoint_Write_32_BE (Data : Z) : M unit :=
  wr UEDATX (Data .>> 24) ;; wr UEDATX (Data .>> 16) ;;
  wr UEDATX (Data .>> 8) ;; wr UEDATX (Data .& 0xFF).

Definition Endpoint_Discard_32 : M unit :=
  rd UEDATX ;; rd UEDATX ;; rd UEDATX ;; rd UEDATX ;; ret tt.

(** ** [Device_AVR8.h] *)

(** The 16-bit register is read byte by byte, the low one first. *)
Definition USB_Device_GetFrameNumber : M Z :=
  l <- rd UDFNUML ;; h <- rd UDFNUMH ;; ret (l .| (h .<< 8)).

Definition USB_Device_SetDeviceAddress (Address : Z) : M unit :=
  v <- rd UDADDR ;; wr UDADDR (v .& bit ADDEN .| Address .& 0x7F).

Definition USB_Device_EnableDeviceAddress (Address : Z) : M unit :=
  set_bits UDADDR (bit ADDEN).

Definition USB_Device_IsAddressSet : M bool :=
  v <- rd UDADDR ;; ret (truth (v .& bit ADDEN)).

(** Body of the loop of [USB_Device_GetSerialString]; the address steps after every
    second character. *)
Definition serial_char (SerialCharNum SigReadAddress : Z) : Z * Z :=
  let SerialByte := boot_signature_byte_get SigReadAddress in
  let '(SerialByte, SigReadAddress) :=
    if truth (SerialCharNum .& 0x01) then (u8 SerialByte .>> 4, u8 (SigReadAddress + 1))
    else (u8 SerialByte, SigReadAddress) in
  let SerialByte := SerialByte .& 0x0F in
  (if 10 <=? SerialByte then (ch "A" - 10) + SerialByte else ch "0" + SerialByte,
   SigReadAddress).

(** The loop: [n] characters from number [SerialCharNum] on. *)
Fixpoint serial_string (n : nat) (SerialCharNum SigReadAddress : Z) : list Z :=
  match n with
  | O => []
  | S n' => let '(c, a) := serial_char SerialCharNum SigReadAddress in
            c :: serial_string n' (SerialCharNum + 1) a
  end.

Definition INTERNAL_SERIAL_LENGTH_BITS := 80.
Definition INTERNAL_SERIAL_START_ADDRESS := 0x0E.

(** The interrupt mask is saved, cleared and restored around the loop, which performs
    no volatile access. *)
Definition USB_Device_GetSerialString : list Z :=
  serial_string (Z.to_nat (INTERNAL_SERIAL_LENGTH_BITS / 4)) 0 INTERNAL_SERIAL_START_ADDRESS.

(** ** [Endpoint_AVR8.c] *)

(** Loop body of [Endpoint_ConfigureEndpoint_Prv] for one endpoint: [inl] to go on,
    [inr false] when the controller refuses the configuration. *)
Definition configure_step (Number UECFG0XData UECFG1XData EPNum : Z) : M (unit + bool) :=
  Endpoint_SelectEndpoint EPNum ;;
  t <- (if EPNum =? Number then ret (UECFG0XData, UECFG1XData, 0)
        else c0 <- rd UECFG0X ;; c1 <- rd UECFG1X ;; ie <- rd UEIENX ;; ret (c0, c1, ie)) ;;
  let '(UECFG0XTemp, UECFG1XTemp, UEIENXTemp) := t in
  if negb (truth (UECFG1XTemp .& bit ALLOC)) then ret (inl tt)
  else
    Endpoint_DisableEndpoint ;;
    clear_bits UECFG1X (bit ALLOC) ;;
    Endpoint_EnableEndpoint ;;
    wr UECFG0X UECFG0XTemp ;;
    wr UECFG1X UECFG1XTemp ;;
    wr UEIENX UEIENXTemp ;;
    ok <- Endpoint_IsConfigured ;;
    ret (if ok : bool then inl tt else inr false).

(** The [for] loop over the [n] endpoints from [EPNum] up. *)
Fixpoint configure_from (n : nat) (Number UECFG0XData UECFG1XData EPNum : Z) : M bool :=
  match n with
  | O => ret true
  | S n' =>
      r <- configure_step Number UECFG0XData UECFG1XData EPNum ;;
      match r with
      | inl _ => configure_from n' Number UECFG0XData UECFG1XData (EPNum + 1)
      | inr b => ret b
      end
  end.

Definition Endpoint_ConfigureEndpoint_Prv (Number UECFG0XData UECFG1XData : Z) : M bool :=
  ok <- configure_from (Z.to_nat (ENDPOINT_TOTAL_ENDPOINTS - Number))
          Number UECFG0XData UECFG1XData Number ;;
  if ok : bool then Endpoint_SelectEndpoint Number ;; ret true else ret false.

Definition Endpoint_ConfigureEndpoint (Address Type_ Size Banks : Z) : M bool :=
  let Number := Address .& ENDPOINT_EPNUM_MASK in
  if ENDPOINT_TOTAL_ENDPOINTS <=? Number then ret false
  else
    m <- Endpoint_BytesToEPSizeMask Size ;;
    Endpoint_ConfigureEndpoint_Prv Number
      (u8 (Type_ .<< EPTYPE0 .| (if truth (Address .& ENDPOINT_DIR_IN) then bit EPDIR else 0)))
      (u8 (bit ALLOC .| (if 1 <? Banks then bit EPBK0 else 0) .| m)).

Fixpoint Endpoint_ConfigureEndpointTable (Table : list USB_Endpoint_Table_t) : M bool :=
  match Table with
  | [] => ret true
  | t :: Table' =>
      if negb (truth (Address t)) then Endpoint_ConfigureEndpointTable Table'
      else
        ok <- Endpoint_ConfigureEndpoint (Address t) (Type_ t) (Size t) (Banks t) ;;
        if ok : bool then Endpoint_ConfigureEndpointTable Table' else ret false
  end.

Fixpoint clear_endpoints_from (n : nat) (EPNum : Z) : M unit :=
  match n with
  | O => ret tt
  | S n' =>
      Endpoint_SelectEndpoint EPNum ;;
      wr UEIENX 0 ;;
      wr UEINTX 0 ;;
      wr UECFG1X 0 ;;
      Endpoint_DisableEndpoint ;;
      clear_endpoints_from n' (EPNum + 1)
  end.

Definition Endpoint_ClearEndpoints : M unit :=
  wr UEINT 0 ;;
  clear_endpoints_from (Z.to_nat ENDPOINT_TOTAL_ENDPOINTS) 0.

(** [while (!ready) if (USB_DeviceState == DEVICE_STATE_Unattached) return;]: [true]
    when [ready] was seen, [false] on disconnection. *)
Definition wait_attached (ready : M bool) : M bool :=
  iter fuel (fun _ : unit =>
    r <- ready ;;
    if r : bool then ret (inr true)
    else
      d <- get_state ;;
      ret (if decide (d = DEVICE_STATE_Unattached) then inr false else inl tt)) tt.

Definition Endpoint_ClearStatusStage : M unit :=
  req <- get_request ;;
  if truth (bmRequestType req .& REQDIR_DEVICETOHOST) then
    ok <- wait_attached Endpoint_IsOUTReceived ;;
    when ok do Endpoint_ClearOUT
  else
    ok <- wait_attached Endpoint_IsINReady ;;
    when ok do Endpoint_ClearIN.

(** One pass of the polling loop of [Endpoint_WaitUntilReady]; the loop variables are
    [TimeoutMSRem] and [PreviousFrameNumber]. *)
Definition wait_ready_poll (st : Z * Z) : M ((Z * Z) + Z) :=
  let '(TimeoutMSRem, PreviousFrameNumber) := st in
  dir <- Endpoint_GetEndpointDirection ;;
  ready <- (if dir =? ENDPOINT_DIR_IN then Endpoint_IsINReady else Endpoint_IsOUTReceived) ;;
  if ready : bool then ret (inr ENDPOINT_READYWAIT_NoError)
  else
    d <- get_state ;;
    if decide (d = DEVICE_STATE_Unattached) then ret (inr ENDPOINT_READYWAIT_DeviceDisconnected)
    else if decide (d = DEVICE_STATE_Suspended) then ret (inr ENDPOINT_READYWAIT_BusSuspended)
    else
      stalled <- Endpoint_IsStalled ;;
      if stalled : bool then ret (inr ENDPOINT_READYWAIT_EndpointStalled)
      else
        CurrentFrameNumber <- USB_Device_GetFrameNumber ;;
        if negb (CurrentFrameNumber =? PreviousFrameNumber) then
          if TimeoutMSRem =? 0 then ret (inr ENDPOINT_READYWAIT_Timeout)
          else ret (inl (TimeoutMSRem - 1, CurrentFrameNumber))
        else ret (inl (TimeoutMSRem, PreviousFrameNumber)).

Definition Endpoint_WaitUntilReady : M Z :=
  f <- USB_Device_GetFrameNumber ;;
  iter fuel wait_ready_poll (USB_STREAM_TIMEOUT_MS, f).

End Endpoint.
End Endpoint.

(** ** Footprint: endpoint management obeys every policy of the USB stack *)
Section EndpointFootprint.
Import Endpoint.
Context {HW : Hardware} (R : mcu -> list event -> mcu -> Prop) {UP : UsbPolicy R}.
Context {PRE : Preempt} {FU : Fuel} (pre_ok : obeys R preempt).

Lemma obeys_configure_from n x y z e : obeys R (configure_from n x y z e).
Proof. revert e. induction n as [|n IH]; intros e; cbn [configure_from]; obey. Qed.

Lemma obeys_Endpoint_ConfigureEndpoint a t z b : obeys R (Endpoint_ConfigureEndpoint a t z b).
Proof. pose proof obeys_configure_from. obey. Qed.

Lemma obeys_Endpoint_ConfigureEndpointTable l : obeys R (Endpoint_ConfigureEndpointTable l).
Proof.
  pose proof obeys_Endpoint_ConfigureEndpoint.
  induction l as [|t l IH]; cbn [Endpoint_ConfigureEndpointTable]; obey.
Qed.

Lemma obeys_Endpoint_ClearEndpoints : obeys R Endpoint_ClearEndpoints.
Proof.
  unfold Endpoint_ClearEndpoints. apply obeys_bind; [typeclasses eauto|obey|]. intros _.
  generalize (Z.to_nat ENDPOINT_TOTAL_ENDPOINTS), 0. intros n.
  induction n as [|n IH]; intros e; cbn [clear_endpoints_from]; obey.
Qed.

Lemma obeys_Endpoint_WaitUntilReady : obeys R Endpoint_WaitUntilReady.
Proof. obey. Qed.

Lemma obeys_Endpoint_ClearStatusStage : obeys R Endpoint_ClearStatusStage.
Proof. obey. Qed.
End EndpointFootprint.

#[export] Hint Resolve obeys_Endpoint_ConfigureEndpoint obeys_Endpoint_ConfigureEndpointTable
  obeys_Endpoint_ClearEndpoints obeys_Endpoint_WaitUntilReady obeys_Endpoint_ClearStatusStage
  : obey.
