(* ===== verification/Nvm.v ===== *)
(** * Nvm: flash self-programming and EEPROM

    The memories a bootloader programs, behind [avr/boot.h], [avr/pgmspace.h] and
    [avr/eeprom.h], which are not part of the repository.  [Nvm] has the operations the
    bootloader calls; [NvmLaws] states what the data sheet documents of them in terms of the
    cells of the flash, the temporary page buffer, the EEPROM and whether the application
    section can be read; [part] is a family of parts that behave so.

    An SPM operation is taken as complete when the call is over (every one is followed by
    boot_spm_busy_wait), and as executed: the two instructions of the timed sequence are not
    separated by an interrupt. *)
From S2P Require Import Prelude.

Class Nvm := {
  nvm : Type;
  SPM_PAGESIZE : Z;
  FLASHEND : Z;
  boot_page_erase : Z -> nvm -> nvm;
  boot_page_fill : Z -> Z -> nvm -> nvm;
  boot_page_write : Z -> nvm -> nvm;
  boot_rww_enable : nvm -> nvm;
  pgm_read_byte : Z -> nvm -> Z;
  pgm_read_word : Z -> nvm -> Z;
  eeprom_read_byte : Z -> nvm -> Z;
  eeprom_write_byte : Z -> Z -> nvm -> nvm;
  boot_lock_fuse_bits_get : Z -> nvm -> Z;
  boot_lock_bits_set : Z -> nvm -> nvm }.

Section Pages.
Context {NV : Nvm}.

Definition on_chip (a : Z) : Prop := 0 <= a <= FLASHEND.
Definition same_page (a x : Z) : bool := a / SPM_PAGESIZE =? x / SPM_PAGESIZE.

(** The word of its page a byte address belongs to. *)
Definition word_of (a : Z) : Z := a mod SPM_PAGESIZE / 2.

(** The byte at [a] of a buffered word; an unfilled one is erased. *)
Definition buffered_byte (w : option Z) (a : Z) : Z :=
  match w with Some w => u8 (w .>> (8 * (a mod 2))) | None => 0xFF end.
End Pages.

(** Documented behaviour.  Programming a page only clears bits; the buffer is erased by it and
    by re-enabling the application section; a buffered word cannot be filled twice, and what an
    EEPROM write leaves in the buffer is not said. *)
Class NvmLaws {NV : Nvm} := {
  flash : nvm -> Z -> Z;
  buffered : nvm -> Z -> option Z;
  eeprom : nvm -> Z -> Z;
  readable : nvm -> bool;

  page_size : exists k, 1 <= k <= 8 /\ SPM_PAGESIZE = 2 ^ k;
  whole_pages : (FLASHEND + 1) mod SPM_PAGESIZE = 0;
  flash_u8 m x : is_u8 (flash m x);

  erase_flash m a x : on_chip a -> on_chip x ->
    flash (boot_page_erase a m) x = if same_page a x then 0xFF else flash m x;
  erase_buffered m a i : buffered (boot_page_erase a m) i = buffered m i;
  erase_eeprom m a x : eeprom (boot_page_erase a m) x = eeprom m x;

  fill_flash m a w x : flash (boot_page_fill a w m) x = flash m x;
  fill_buffered m a w i : on_chip a -> buffered m (word_of a) = None ->
    buffered (boot_page_fill a w m) i = if decide (i = word_of a) then Some w else buffered m i;
  fill_eeprom m a w x : eeprom (boot_page_fill a w m) x = eeprom m x;

  write_flash_page m a x : on_chip a -> on_chip x ->
    flash (boot_page_write a m) x =
    if same_page a x then flash m x .& buffered_byte (buffered m (word_of x)) x else flash m x;
  write_buffered m a i : buffered (boot_page_write a m) i = None;
  write_eeprom m a x : eeprom (boot_page_write a m) x = eeprom m x;

  enable_flash m x : flash (boot_rww_enable m) x = flash m x;
  enable_buffered m i : buffered (boot_rww_enable m) i = None;
  enable_eeprom m x : eeprom (boot_rww_enable m) x = eeprom m x;
  enable_readable m : readable (boot_rww_enable m) = true;

  read_byte m a : readable m = true -> on_chip a -> pgm_read_byte a m = flash m a;
  read_word m a : readable m = true -> on_chip a -> on_chip (a + 1) ->
    pgm_read_word a m = le_value [flash m a; flash m (a + 1)];

  eeprom_written m a v x : eeprom (eeprom_write_byte a v m) x = if decide (x = a) then v else eeprom m x;
  eeprom_flash m a v x : flash (eeprom_write_byte a v m) x = flash m x;
  eeprom_read m a : eeprom_read_byte a m = eeprom m a }.

Create Rewrite HintDb nvm.
#[export] Hint Rewrite @fill_flash @fill_eeprom @erase_buffered @erase_eeprom @write_buffered @write_eeprom
  @enable_flash @enable_buffered @enable_eeprom @enable_readable @eeprom_flash @eeprom_read : nvm.

(** ** Pages *)
Section PageLemmas.
Context {NV : Nvm} {NL : NvmLaws}.

Lemma page_pos : 0 < SPM_PAGESIZE /\ SPM_PAGESIZE mod 2 = 0 /\ SPM_PAGESIZE <= 256.
Proof.
  destruct page_size as (k & Hk & ->).
  replace k with (1 + (k - 1)) by lia. rewrite Z.pow_add_r by lia.
  assert (0 < 2 ^ (k - 1)) by (apply Z.pow_pos_nonneg; lia).
  assert (2 ^ (k - 1) <= 2 ^ 7) by (apply Z.pow_le_mono_r; lia).
  change (2 ^ 1) with 2. change (2 ^ 7) with 128 in *. split; [lia|split; [|lia]].
  rewrite Z.mul_comm. apply Z.mod_mul. lia.
Qed.

Lemma page_nz : SPM_PAGESIZE <> 0.
Proof. destruct page_pos. lia. Qed.

(** The addresses of the page that starts at [a]. *)
Lemma same_page_range a x : a mod SPM_PAGESIZE = 0 ->
  same_page a x = true <-> a <= x < a + SPM_PAGESIZE.
Proof.
  intros Ha. destruct page_pos as [P _]. unfold same_page. rewrite Z.eqb_eq.
  pose proof (Z.div_mod a SPM_PAGESIZE page_nz). pose proof (Z.div_mod x SPM_PAGESIZE page_nz).
  pose proof (Z.mod_pos_bound x SPM_PAGESIZE P). split; [intros E|intros R].
  { rewrite E in *. lia. }
  apply (Z.div_unique x _ _ (x - a)); lia.
Qed.

Lemma same_page_out a x : a mod SPM_PAGESIZE = 0 -> ~ (a <= x < a + SPM_PAGESIZE) -> same_page a x = false.
Proof. intros Ha Hx. apply not_true_is_false. by rewrite same_page_range. Qed.

(** Inside a page, equal words are equal addresses up to the byte. *)
Lemma word_of_page a x : a mod SPM_PAGESIZE = 0 -> a <= x < a + SPM_PAGESIZE -> word_of x = (x - a) / 2.
Proof.
  intros Ha Hx. unfold word_of. f_equal. replace x with (x - a + a) at 1 by lia.
  rewrite Z.add_mod, Ha, Z.add_0_r, Z.mod_mod by (destruct page_pos; lia). apply Z.mod_small. lia.
Qed.

Lemma page_even a : a mod SPM_PAGESIZE = 0 -> a mod 2 = 0.
Proof.
  intros Ha. destruct page_pos as (P & E & _). apply Z.mod_divide in Ha; [|lia].
  apply Z.mod_divide in E; [|lia]. apply Z.mod_divide; [lia|]. by eapply Z.divide_trans.
Qed.

Lemma page_on_chip a x : a mod SPM_PAGESIZE = 0 -> on_chip a -> a <= x < a + SPM_PAGESIZE -> on_chip x.
Proof.
  intros Ha [H0 H1] Hx. destruct page_pos as [P _]. split; [lia|].
  pose proof (Z.div_mod a SPM_PAGESIZE page_nz) as Da. rewrite Ha in Da.
  pose proof (Z.div_mod (FLASHEND + 1) SPM_PAGESIZE page_nz) as Df. rewrite whole_pages in Df.
  assert (a / SPM_PAGESIZE < (FLASHEND + 1) / SPM_PAGESIZE) by nia. nia.
Qed.
End PageLemmas.

(** ** Parts

    Flash up to [last] in pages of [page] bytes. *)
Record chip_state := Chip {
  c_flash : Z -> Z;
  c_buffer : Z -> option Z;
  c_eeprom : Z -> Z;
  c_readable : bool }.

Definition part (page last : Z) : Nvm := {|
  nvm := chip_state;
  SPM_PAGESIZE := page;
  FLASHEND := last;
  boot_page_erase := fun a c => Chip (fun x => if a / page =? x / page then 0xFF else c_flash c x)
    (c_buffer c) (c_eeprom c) false;
  boot_page_fill := fun a w c => Chip (c_flash c)
    (fun i => if decide (i = a mod page / 2)
              then match c_buffer c i with None => Some w | Some v => Some v end else c_buffer c i)
    (c_eeprom c) (c_readable c);
  boot_page_write := fun a c => Chip
    (fun x => if a / page =? x / page
              then c_flash c x .& match c_buffer c (x mod page / 2) with
                                  | Some w => u8 (w .>> (8 * (x mod 2))) | None => 0xFF end
              else c_flash c x)
    (fun _ => None) (c_eeprom c) false;
  boot_rww_enable := fun c => Chip (c_flash c) (fun _ => None) (c_eeprom c) true;
  pgm_read_byte := fun a c => u8 (c_flash c a);
  pgm_read_word := fun a c => le_value [u8 (c_flash c a); u8 (c_flash c (a + 1))];
  eeprom_read_byte := fun a c => c_eeprom c a;
  eeprom_write_byte := fun a v c => Chip (c_flash c) (c_buffer c)
    (fun x => if decide (x = a) then v else c_eeprom c x) (c_readable c);
  boot_lock_fuse_bits_get := fun _ _ => 0xFF;
  boot_lock_bits_set := fun _ c => c |}.

Lemma u8_land a b : u8 (a .& b) = u8 a .& u8 b.
Proof.
  unfold wrap. rewrite <- !Z.land_ones by lia. apply Z.bits_inj'. intros i Hi.
  rewrite !Z.land_spec. by destruct (Z.testbit a i), (Z.testbit b i), (Z.testbit (Z.ones 8) i).
Qed.

Definition part_laws k page last : 1 <= k <= 8 -> page = 2 ^ k -> (last + 1) mod page = 0 -> @NvmLaws (part page last).
Proof.
  intros Hk Hp Hl.
  refine {| flash := fun (c : @nvm (part page last)) x => u8 (c_flash c x);
            buffered := fun (c : @nvm (part page last)) i => c_buffer c i;
            eeprom := fun (c : @nvm (part page last)) x => c_eeprom c x;
            readable := fun (c : @nvm (part page last)) => c_readable c |};
    try (intros; reflexivity).
  - by exists k.
  - exact Hl.
  - intros. by apply wrap_is_u.
  - intros m a x _ _. cbn. unfold same_page. cbn. by destruct (_ =? _).
  - intros m a w i _ H. cbn. unfold word_of in *. cbn in *. case_decide as E; [|done]. subst. by rewrite H.
  - intros m a x _ _. cbn. unfold same_page, word_of. cbn. destruct (_ =? _); [|done].
    rewrite u8_land. f_equal. unfold buffered_byte. destruct (c_buffer m _); [|done].
    by rewrite wrap_wrap.
Defined.

(** 1 KB in pages of 32 bytes. *)
Definition chip : Nvm := part 32 1023.
#[export] Instance chip_laws : @NvmLaws chip.
Proof. apply (part_laws 5); [lia|done|done]. Defined.
