(* ===== verification/Dfu.v ===== *)
(** * Dfu: the DFU class bootloader ([Bootloaders/DFU/BootloaderDFU.c], [BootloaderAPI.c])

    The bootloader's statics are a record [dfu] of their own beside the machine of
    [Machine.v]; the memories it programs are the ones of [Nvm.v].  Code runs in the monad [B]:
    machine, statics, and the early [return] of a C function ([leave], caught by [call]).
    Built, like the library, for a part of series 2; the board is the one of the makefile. *)
From S2P Require Import Prelude Machine Logic Endpoint Nvm.

Module Dfu.
Import Endpoint.

(** ** Constants ([BootloaderDFU.h], [LUFAConfig.h]) *)

Definition MAGIC_BOOT_KEY := 0xDC42.
Definition BOOTLOADER_VERSION := (2 .<< 4) .| 0.
Definition BOOTLOADER_ID_BYTE1 := 0xDC.
Definition BOOTLOADER_ID_BYTE2 := 0xFB.
Definition DFU_FILE_SUFFIX_SIZE := 16.
Definition DFU_FILLER_BYTES_SIZE := 26.
Definition FIXED_CONTROL_ENDPOINT_SIZE := 32.

Definition DFU_REQ_DNLOAD := 0x01.
Definition DFU_REQ_UPLOAD := 0x02.
Definition DFU_REQ_GETSTATUS := 0x03.
Definition DFU_REQ_CLRSTATUS := 0x04.
Definition DFU_REQ_GETSTATE := 0x05.
Definition DFU_REQ_ABORT := 0x06.

Definition COMMAND_PROG_START := 0x01.
Definition COMMAND_DISP_DATA := 0x03.
Definition COMMAND_WRITE := 0x04.
Definition COMMAND_READ := 0x05.
Definition COMMAND_CHANGE_BASE_ADDR := 0x06.

(** [enum DFU_State_t] and [enum DFU_Status_t]: the values the code assigns. *)
Definition dfuIDLE := 2.
Definition dfuDNLOAD_IDLE := 5.
Definition dfuUPLOAD_IDLE := 9.
Definition dfuERROR := 10.
Definition OK := 0.
Definition errWRITE := 3.
Definition errCHECK_ERASED := 5.

(** ** Statics *)

Record DFU_Command_t := DFU_Command {
  Command : Z;
  Data : list Z;  (* [uint8_t Data[5]] *)
  DataSize : Z }.

(** [memory] is the memory the bootloader programs and [watchdog] the timeout it has started. *)
Record dfu {NV : Nvm} := Dfu {
  IsSecure : bool;
  RunBootloader : bool;
  WaitForExit : bool;
  DFU_State : Z;
  DFU_Status : Z;
  SentCommand : DFU_Command_t;
  ResponseByte : Z;
  AppStartPtr : Z;
  Flash64KBPage : Z;
  StartAddr : Z;
  EndAddr : Z;
  MagicBootKey : Z;
  watchdog : option Z;
  memory : nvm }.

(** Build settings, and the bytes around the two local arrays of ProcessReadCommand, which it
    indexes without a check. *)
Class DfuConfig `{HW : Hardware} := {
  SECURE_MODE : bool;
  BOOT_START_ADDR : Z;
  AVR_SIGNATURE : list Z;
  beside_BootloaderInfo : Z -> mcu -> Z;
  beside_SignatureInfo : Z -> mcu -> Z }.

(** ** The monad *)
Section Monad.
Context {HW : Hardware} {NV : Nvm}.

(** The statics, and the value unless a [return] was executed. *)
Definition B (A : Type) : Type := dfu -> M (option A * dfu).

Definition done_ {A} (a : A) : B A := fun d => ret (Some a, d).
Definition bindB {A C} (m : B A) (k : A -> B C) : B C := fun d =>
  bind (m d) (fun r => match r with (Some a, d') => k a d' | (None, d') => ret (None, d') end).
Definition leave {A} : B A := fun d => ret (None, d).
Definition call (m : B unit) : B unit := fun d => bind (m d) (fun r => ret (Some tt, r.2)).
Definition io {A} (m : M A) : B A := fun d => bind m (fun a => ret (Some a, d)).
Definition ask {A} (f : dfu -> A) : B A := fun d => ret (Some (f d), d).
Definition put (f : dfu -> dfu) : B unit := fun d => ret (Some tt, f d).
(** A loop that is still running. *)
Definition spinB {A} : B A := fun _ => spin.
End Monad.

Declare Scope boot_scope.
Delimit Scope boot_scope with boot.
Notation "x <- m ;; k" := (bindB m (fun x => k))
  (at level 100, m at next level, right associativity) : boot_scope.
Notation "m ;; k" := (bindB m (fun _ => k))
  (at level 100, right associativity) : boot_scope.
Notation "'when' b 'do' m" := (if b then m else done_ tt)
  (at level 60, m at level 60) : boot_scope.

(** ** Assignments *)
Section Assignments.
Context {NV : Nvm}.

Definition set_IsSecure v (d : dfu) : dfu :=
  let 'Dfu _ _ r w st su c rb ap fp sa ea mk wd m := d in Dfu _ v r w st su c rb ap fp sa ea mk wd m.
Definition set_RunBootloader v (d : dfu) : dfu :=
  let 'Dfu _ i _ w st su c rb ap fp sa ea mk wd m := d in Dfu _ i v w st su c rb ap fp sa ea mk wd m.
Definition set_WaitForExit v (d : dfu) : dfu :=
  let 'Dfu _ i r _ st su c rb ap fp sa ea mk wd m := d in Dfu _ i r v st su c rb ap fp sa ea mk wd m.
Definition set_DFU_State v (d : dfu) : dfu :=
  let 'Dfu _ i r w _ su c rb ap fp sa ea mk wd m := d in Dfu _ i r w v su c rb ap fp sa ea mk wd m.
Definition set_DFU_Status v (d : dfu) : dfu :=
  let 'Dfu _ i r w st _ c rb ap fp sa ea mk wd m := d in Dfu _ i r w st v c rb ap fp sa ea mk wd m.
Definition set_SentCommand v (d : dfu) : dfu :=
  let 'Dfu _ i r w st su _ rb ap fp sa ea mk wd m := d in Dfu _ i r w st su v rb ap fp sa ea mk wd m.
Definition set_ResponseByte v (d : dfu) : dfu :=
  let 'Dfu _ i r w st su c _ ap fp sa ea mk wd m := d in Dfu _ i r w st su c v ap fp sa ea mk wd m.
Definition set_AppStartPtr v (d : dfu) : dfu :=
  let 'Dfu _ i r w st su c rb _ fp sa ea mk wd m := d in Dfu _ i r w st su c rb v fp sa ea mk wd m.
Definition set_Flash64KBPage v (d : dfu) : dfu :=
  let 'Dfu _ i r w st su c rb ap _ sa ea mk wd m := d in Dfu _ i r w st su c rb ap v sa ea mk wd m.
Definition set_StartAddr v (d : dfu) : dfu :=
  let 'Dfu _ i r w st su c rb ap fp _ ea mk wd m := d in Dfu _ i r w st su c rb ap fp v ea mk wd m.
Definition set_EndAddr v (d : dfu) : dfu :=
  let 'Dfu _ i r w st su c rb ap fp sa _ mk wd m := d in Dfu _ i r w st su c rb ap fp sa v mk wd m.
Definition set_MagicBootKey v (d : dfu) : dfu :=
  let 'Dfu _ i r w st su c rb ap fp sa ea _ wd m := d in Dfu _ i r w st su c rb ap fp sa ea v wd m.
Definition set_watchdog v (d : dfu) : dfu :=
  let 'Dfu _ i r w st su c rb ap fp sa ea mk _ m := d in Dfu _ i r w st su c rb ap fp sa ea mk v m.
Definition set_memory v (d : dfu) : dfu :=
  let 'Dfu _ i r w st su c rb ap fp sa ea mk wd _ := d in Dfu _ i r w st su c rb ap fp sa ea mk wd v.

Definition on_memory (f : nvm -> nvm) (d : dfu) : dfu := set_memory (f (memory d)) d.

(** [SentCommand.DataSize = n], [SentCommand.Command = c], [SentCommand.Data[i] = v] *)
Definition set_DataSize n (d : dfu) : dfu :=
  let c := SentCommand d in set_SentCommand (DFU_Command (Command c) (Data c) n) d.
Definition set_Command v (d : dfu) : dfu :=
  let c := SentCommand d in set_SentCommand (DFU_Command v (Data c) (DataSize c)) d.
Definition set_Data (i : nat) v (d : dfu) : dfu :=
  let c := SentCommand d in set_SentCommand (DFU_Command (Command c) (<[i := v]> (Data c)) (DataSize c)) d.

Definition data (d : dfu) (i : nat) : Z := nth i (Data (SentCommand d)) 0.
Definition IS_ONEBYTE_COMMAND (d : dfu) (cb1 : Z) : bool := data d 0 =? cb1.
Definition IS_TWOBYTE_COMMAND (d : dfu) (cb1 cb2 : Z) : bool := (data d 0 =? cb1) && (data d 1 =? cb2).

(** The union [CurrFlashAddress] of a 16-bit address and the 64 KB page. *)
Definition flash_address (d : dfu) : Z := StartAddr d .| (Flash64KBPage d .<< 16).

(** [uint16_t BytesRemaining = ((EndAddr - StartAddr) + 1)] *)
Definition bytes_remaining (d : dfu) : Z := u16 (EndAddr d - StartAddr d + 1).
End Assignments.

Section Bootloader.
Context {HW : Hardware} {PRE : Preempt} {FU : Fuel} {NV : Nvm} {CF : DfuConfig}.
Open Scope boot_scope.

(** The statics at reset; [MagicBootKey] is not initialised. *)
Definition dfu_reset (key : Z) (m : nvm) : dfu :=
  Dfu _ SECURE_MODE true false dfuIDLE OK (DFU_Command 0 [0; 0; 0; 0; 0] 0) 0 0 0 0 0 key None m.

(** [Board/AVR8/USBKEY/LEDs.h] *)
Definition LEDs_ToggleLEDs (LEDMask : Z) : M unit := wr PIND LEDMask.
Definition TIMER1_OVF_isr : M unit := LEDs_ToggleLEDs (bit 4 .| bit 5).

(** ** Commands *)

Definition LoadStartEndAddresses : B unit :=
  put (fun d => set_EndAddr (le_value [data d 4; data d 3])
                  (set_StartAddr (le_value [data d 2; data d 1]) d)).

Definition ProcessMemProgCommand : B unit :=
  flash_ <- ask (fun d => IS_ONEBYTE_COMMAND d 0x00) ;;
  eeprom_ <- ask (fun d => IS_ONEBYTE_COMMAND d 0x01) ;;
  when flash_ || eeprom_ do
    (LoadStartEndAddresses ;;
     (when flash_ do
        (CurrFlashAddress <- ask flash_address ;;
         put (on_memory (boot_page_erase CurrFlashAddress)))) ;;
     put (set_DFU_State dfuDNLOAD_IDLE)).

(** The [while] loop of the blank check: the first address that is not blank, if any; [None] on
    the outside: still looping after [n] rounds. *)
Fixpoint blank_check (n : nat) (CurrFlashAddress : Z) (m : nvm) : option (option Z) :=
  match n with
  | O => None
  | S n' =>
      if CurrFlashAddress <? BOOT_START_ADDR then
        if negb (pgm_read_byte CurrFlashAddress m =? 0xFF) then Some (Some CurrFlashAddress)
        else blank_check n' (u32 (CurrFlashAddress + 1)) m
      else Some None
  end.

(** The bound is one round per byte and the last test. *)
Definition section_rounds : nat := S (Z.to_nat BOOT_START_ADDR).

Definition ProcessMemReadCommand : B unit :=
  flash_ <- ask (fun d => IS_ONEBYTE_COMMAND d 0x00) ;;
  eeprom_ <- ask (fun d => IS_ONEBYTE_COMMAND d 0x02) ;;
  blank_ <- ask (fun d => IS_ONEBYTE_COMMAND d 0x01) ;;
  if flash_ || eeprom_ then
    LoadStartEndAddresses ;;
    put (set_DFU_State dfuUPLOAD_IDLE)
  else when blank_ do
    (m <- ask memory ;;
     match blank_check section_rounds 0 m with
     | None => spinB
     | Some None => done_ tt
     | Some (Some CurrFlashAddress) =>
         put (set_Flash64KBPage (u8 (CurrFlashAddress .>> 16))) ;;
         put (set_StartAddr (u16 CurrFlashAddress)) ;;
         put (set_DFU_State dfuERROR) ;;
         put (set_DFU_Status errCHECK_ERASED)
     end).

(** The [while] loop of the chip erase. *)
Fixpoint erase_loop (n : nat) (CurrFlashAddress : Z) (m : nvm) : option nvm :=
  match n with
  | O => None
  | S n' =>
      if CurrFlashAddress <? BOOT_START_ADDR then
        erase_loop n' (u32 (CurrFlashAddress + SPM_PAGESIZE))
          (boot_page_write CurrFlashAddress (boot_page_erase CurrFlashAddress m))
      else Some m
  end.

(** [wdt_enable]'s WDTO_250MS. *)
Definition WDTO_250MS := 4.

Definition start_application : B unit :=
  put (set_WaitForExit true) ;;
  size <- ask (fun d => DataSize (SentCommand d)) ;;
  how <- ask (fun d => data d 1) ;;
  if truth size then
    when how =? 0x01 do put (fun d => set_AppStartPtr (le_value [data d 4; data d 3]) d)
  else if how =? 0x00 then
    put (set_MagicBootKey MAGIC_BOOT_KEY) ;;
    put (set_watchdog (Some WDTO_250MS))
  else put (set_RunBootloader false).

Definition erase_application : B unit :=
  m <- ask memory ;;
  match erase_loop section_rounds 0 m with
  | None => spinB
  | Some m' =>
      put (set_memory m') ;;
      put (on_memory boot_rww_enable) ;;
      put (set_IsSecure false)
  end.

Definition ProcessWriteCommand : B unit :=
  start_ <- ask (fun d => IS_ONEBYTE_COMMAND d 0x03) ;;
  erase_ <- ask (fun d => IS_TWOBYTE_COMMAND d 0x00 0xFF) ;;
  if start_ then start_application
  else when erase_ do erase_application.

(** [a[i]] for a local array; outside it, whatever is there. *)
Definition local_byte (a : list Z) (beside : Z -> mcu -> Z) (i : Z) (s : mcu) : Z :=
  if (0 <=? i) && (i <? Z.of_nat (length a)) then nth (Z.to_nat i) a 0 else u8 (beside i s).

Definition ProcessReadCommand : B unit :=
  info_ <- ask (fun d => IS_ONEBYTE_COMMAND d 0x00) ;;
  sig_ <- ask (fun d => IS_ONEBYTE_COMMAND d 0x01) ;;
  DataIndexToRead <- ask (fun d => data d 1) ;;
  if info_ then
    v <- io (gets (local_byte [BOOTLOADER_VERSION; BOOTLOADER_ID_BYTE1; BOOTLOADER_ID_BYTE2]
                     beside_BootloaderInfo DataIndexToRead)) ;;
    put (set_ResponseByte v)
  else when sig_ do
    (v <- io (gets (local_byte AVR_SIGNATURE beside_SignatureInfo (DataIndexToRead - 0x30))) ;;
     put (set_ResponseByte v)).

(** Refused in secure mode: anything but a read or the chip erase. *)
Definition refused (d : dfu) : bool :=
  IsSecure d
  && negb (((Command (SentCommand d) =? COMMAND_WRITE) && IS_TWOBYTE_COMMAND d 0x00 0xFF)
           || (Command (SentCommand d) =? COMMAND_READ)).

Definition ProcessBootloaderCommand : B unit := call (
  r <- ask refused ;;
  (when r do
     (put (set_DFU_State dfuERROR) ;;
      put (set_DFU_Status errWRITE) ;;
      io Endpoint_StallTransaction ;;
      leave)) ;;
  c <- ask (fun d => Command (SentCommand d)) ;;
  if c =? COMMAND_PROG_START then ProcessMemProgCommand
  else if c =? COMMAND_DISP_DATA then ProcessMemReadCommand
  else if c =? COMMAND_WRITE then ProcessWriteCommand
  else if c =? COMMAND_READ then ProcessReadCommand
  else if c =? COMMAND_CHANGE_BASE_ADDR then
    two <- ask (fun d => IS_TWOBYTE_COMMAND d 0x03 0x00) ;;
    when two do put (fun d => set_Flash64KBPage (data d 2) d)
  else done_ tt).

(** ** The data stage *)

(** [while (!ready) if (USB_DeviceState == DEVICE_STATE_Unattached) return;] *)
Definition wait_or_leave (ready : M bool) : B unit :=
  ok <- io (wait_attached ready) ;;
  if ok : bool then done_ tt else leave.

(** An emptied OUT packet is released and the next one awaited. *)
Definition next_OUT : B unit :=
  n <- io Endpoint_BytesInEndpoint ;;
  when negb (truth n) do
    (io Endpoint_ClearOUT ;;
     wait_or_leave Endpoint_IsOUTReceived).

(** A full IN packet is sent and the bank awaited. *)
Definition next_IN : B unit :=
  n <- io Endpoint_BytesInEndpoint ;;
  when n =? FIXED_CONTROL_ENDPOINT_SIZE do
    (io Endpoint_ClearIN ;;
     wait_or_leave Endpoint_IsINReady).

Fixpoint discard_loop (NumberOfBytes : nat) : B unit :=
  match NumberOfBytes with
  | O => done_ tt
  | S n' =>
      n <- io Endpoint_BytesInEndpoint ;;
      (if negb (truth n) then
         io Endpoint_ClearOUT ;;
         wait_or_leave Endpoint_IsOUTReceived
       else io Endpoint_Discard_8) ;;
      discard_loop n'
  end.

Definition DiscardFillerBytes (NumberOfBytes : Z) : B unit :=
  call (discard_loop (Z.to_nat (u8 NumberOfBytes))).

(** The parameter bytes of a command: the [for] loop from [DataByte] on, [n] rounds left. *)
Fixpoint load_data (n DataByte : nat) : B unit :=
  match n with
  | O => done_ tt
  | S n' =>
      more <- io Endpoint_BytesInEndpoint ;;
      when truth more do
        (v <- io Endpoint_Read_8 ;;
         put (set_Data DataByte v) ;;
         put (fun d => set_DataSize (u16 (DataSize (SentCommand d) - 1)) d) ;;
         load_data n' (S DataByte))
  end.

Definition load_command : B unit :=
  wait_or_leave Endpoint_IsOUTReceived ;;
  c <- io Endpoint_Read_8 ;;
  put (set_Command c) ;;
  put (fun d => set_DataSize (u16 (DataSize (SentCommand d) - 1)) d) ;;
  load_data 5 0 ;;
  ProcessBootloaderCommand.

(** Programming flash: [n] is [WordsRemaining] before the test of the [while] loop. *)
Fixpoint program_flash (n : nat) (CurrFlashAddress CurrFlashPageStartAddress WordsInFlashPage : Z)
    : B unit :=
  match n with
  | O => done_ tt
  | S n' =>
      next_OUT ;;
      w <- io Endpoint_Read_16_LE ;;
      put (on_memory (boot_page_fill CurrFlashAddress w)) ;;
      let WordsInFlashPage := u8 (WordsInFlashPage + 1) in
      let CurrFlashAddress := u32 (CurrFlashAddress + 2) in
      let more := bool_decide (n' <> O) in
      if (WordsInFlashPage =? SPM_PAGESIZE .>> 1) || negb more then
        put (on_memory (boot_page_write CurrFlashPageStartAddress)) ;;
        if more then
          put (on_memory (boot_page_erase CurrFlashAddress)) ;;
          program_flash n' CurrFlashAddress CurrFlashAddress 0
        else program_flash n' CurrFlashAddress CurrFlashPageStartAddress WordsInFlashPage
      else program_flash n' CurrFlashAddress CurrFlashPageStartAddress WordsInFlashPage
  end.

(** Writing EEPROM: [n] is [BytesRemaining]. *)
Fixpoint program_eeprom (n : nat) : B unit :=
  match n with
  | O => done_ tt
  | S n' =>
      next_OUT ;;
      v <- io Endpoint_Read_8 ;;
      put (fun d => on_memory (eeprom_write_byte (StartAddr d) v) d) ;;
      put (fun d => set_StartAddr (u16 (StartAddr d + 1)) d) ;;
      program_eeprom n'
  end.

(** The data of a memory program command. *)
Definition receive_firmware : B unit :=
  DiscardFillerBytes DFU_FILLER_BYTES_SIZE ;;
  start <- ask StartAddr ;;
  DiscardFillerBytes (start mod FIXED_CONTROL_ENDPOINT_SIZE) ;;
  BytesRemaining <- ask bytes_remaining ;;
  flash_ <- ask (fun d => IS_ONEBYTE_COMMAND d 0x00) ;;
  a <- ask flash_address ;;
  (if flash_ then
     program_flash (Z.to_nat (BytesRemaining .>> 1)) a a 0 ;;
     put (fun d => set_StartAddr (EndAddr d) d) ;;
     put (on_memory boot_rww_enable)
   else program_eeprom (Z.to_nat BytesRemaining)) ;;
  DiscardFillerBytes DFU_FILE_SUFFIX_SIZE.

Definition dnload : B unit :=
  io Endpoint_ClearSETUP ;;
  exit_ <- ask WaitForExit ;;
  (when exit_ do
     (ProcessBootloaderCommand ;;
      put (set_WaitForExit false))) ;;
  size <- ask (fun d => DataSize (SentCommand d)) ;;
  (when truth size do load_command) ;;
  st <- ask DFU_State ;;
  (when st =? dfuDNLOAD_IDLE do
     (size <- ask (fun d => DataSize (SentCommand d)) ;;
      if negb (truth size) then put (set_DFU_State dfuIDLE)
      else receive_firmware)) ;;
  io Endpoint_ClearOUT ;;
  io Endpoint_ClearStatusStage.

(** Reading flash: [n] is [WordsRemaining]. *)
Fixpoint upload_flash (n : nat) (CurrFlashAddress : Z) : B unit :=
  match n with
  | O => done_ tt
  | S n' =>
      next_IN ;;
      m <- ask memory ;;
      io (Endpoint_Write_16_LE (pgm_read_word CurrFlashAddress m)) ;;
      upload_flash n' (u32 (CurrFlashAddress + 2))
  end.

Fixpoint upload_eeprom (n : nat) : B unit :=
  match n with
  | O => done_ tt
  | S n' =>
      next_IN ;;
      v <- ask (fun d => eeprom_read_byte (StartAddr d) (memory d)) ;;
      io (Endpoint_Write_8 v) ;;
      put (fun d => set_StartAddr (u16 (StartAddr d + 1)) d) ;;
      upload_eeprom n'
  end.

(** Outside an upload: the answer to the last command. *)
Definition send_response : B unit :=
  check_ <- ask (fun d => (DFU_State d =? dfuERROR) && IS_ONEBYTE_COMMAND d 0x01) ;;
  if check_ then
    a <- ask StartAddr ;;
    io (Endpoint_Write_16_LE a)
  else
    r <- ask ResponseByte ;;
    io (Endpoint_Write_8 r).

Definition send_memory : B unit :=
  BytesRemaining <- ask bytes_remaining ;;
  flash_ <- ask (fun d => IS_ONEBYTE_COMMAND d 0x00) ;;
  eeprom_ <- ask (fun d => IS_ONEBYTE_COMMAND d 0x02) ;;
  a <- ask flash_address ;;
  (if flash_ then
     upload_flash (Z.to_nat (BytesRemaining .>> 1)) a ;;
     put (fun d => set_StartAddr (EndAddr d) d)
   else when eeprom_ do upload_eeprom (Z.to_nat BytesRemaining)) ;;
  put (set_DFU_State dfuIDLE).

Definition upload : B unit :=
  io Endpoint_ClearSETUP ;;
  wait_or_leave Endpoint_IsINReady ;;
  st <- ask DFU_State ;;
  (if negb (st =? dfuUPLOAD_IDLE) then send_response else send_memory) ;;
  io Endpoint_ClearIN ;;
  io Endpoint_ClearStatusStage.

Definition getstatus : B unit :=
  io Endpoint_ClearSETUP ;;
  su <- ask DFU_Status ;;
  io (Endpoint_Write_8 su) ;;
  io (Endpoint_Write_8 0) ;;
  io (Endpoint_Write_16_LE 0) ;;
  st <- ask DFU_State ;;
  io (Endpoint_Write_8 st) ;;
  io (Endpoint_Write_8 0) ;;
  io Endpoint_ClearIN ;;
  io Endpoint_ClearStatusStage.

Definition clrstatus : B unit :=
  io Endpoint_ClearSETUP ;;
  put (set_DFU_Status OK) ;;
  io Endpoint_ClearStatusStage.

Definition getstate : B unit :=
  io Endpoint_ClearSETUP ;;
  st <- ask DFU_State ;;
  io (Endpoint_Write_8 st) ;;
  io Endpoint_ClearIN ;;
  io Endpoint_ClearStatusStage.

Definition abort_ : B unit :=
  io Endpoint_ClearSETUP ;;
  put (set_DFU_State dfuIDLE) ;;
  io Endpoint_ClearStatusStage.

(** [CONTROL_REQTYPE_TYPE | CONTROL_REQTYPE_RECIPIENT] and [REQTYPE_CLASS | REQREC_INTERFACE] *)
Definition to_dfu (r : USB_Request_Header_t) : bool :=
  bmRequestType r .& (0x60 .| 0x1F) =? (1 .<< 5) .| (1 .<< 0).

(** [EVENT_USB_Device_ControlRequest] *)
Definition ControlRequest : B unit := call (
  req <- io get_request ;;
  if negb (to_dfu req) then leave
  else
    io (LEDs_ToggleLEDs (bit 4 .| bit 5)) ;;
    put (set_DataSize (wLength req)) ;;
    let r := bRequest req in
    if r =? DFU_REQ_DNLOAD then dnload
    else if r =? DFU_REQ_UPLOAD then upload
    else if r =? DFU_REQ_GETSTATUS then getstatus
    else if r =? DFU_REQ_CLRSTATUS then clrstatus
    else if r =? DFU_REQ_GETSTATE then getstate
    else if r =? DFU_REQ_ABORT then abort_
    else done_ tt).

(** The handler on the statics. *)
Definition handle (d : dfu) : M dfu := bind (ControlRequest d) (fun r => ret r.2).

(** Condition of the loop in [main]. *)
Definition keep_running (d : dfu) : bool := RunBootloader d || WaitForExit d.

(** [Application_Jump_Check]: whether the application at 0 is started. *)
Definition Application_Jump_Check : B bool :=
  v <- io (rd MCUSR) ;;
  key <- ask MagicBootKey ;;
  if truth (v .& bit WDRF) && (key =? MAGIC_BOOT_KEY) then
    io (clear_bits MCUSR (bit WDRF)) ;;
    put (set_watchdog None) ;;
    put (set_MagicBootKey 0) ;;
    done_ true
  else done_ false.

(** ** [BootloaderAPI.c]: entry points for the application *)

Definition BootloaderAPI_ErasePage (Address : Z) (m : nvm) : nvm := boot_rww_enable (boot_page_erase Address m).
Definition BootloaderAPI_WritePage (Address : Z) (m : nvm) : nvm := boot_rww_enable (boot_page_write Address m).
Definition BootloaderAPI_FillWord (Address Word : Z) (m : nvm) : nvm := boot_page_fill Address Word m.
Definition BootloaderAPI_ReadSignature (Address : Z) : Z := boot_signature_byte_get Address.
Definition BootloaderAPI_ReadFuse (Address : Z) (m : nvm) : Z := boot_lock_fuse_bits_get Address m.
(** [GET_LOCK_BITS] *)
Definition BootloaderAPI_ReadLock (m : nvm) : Z := boot_lock_fuse_bits_get 0x0001 m.
Definition BootloaderAPI_WriteLock (LockBits : Z) (m : nvm) : nvm := boot_lock_bits_set LockBits m.
End Bootloader.
End Dfu.
