(* ===== verification/DfuSecure.v ===== *)
(** * DfuSecure: secure mode of the DFU bootloader

    Until a chip erase has gone through, a bootloader in secure mode neither changes the
    memories nor lets anything it does depend on their content.  [tame] is code that leaves the
    memories, the security flag and the idle states alone and runs the same whatever the
    memories hold; [guarded] is code that does so when started in secure mode, except that it
    may perform the chip erase. *)
From S2P Require Import Prelude Machine Logic Endpoint Nvm Dfu.
Import Endpoint Dfu.

(** ** The chip erase *)
Section Erase.
Context {HW : Hardware} {NV : Nvm} {CF : DfuConfig}.

(** What the erase makes of the memories. *)
Definition erased (m : nvm) : nvm := boot_rww_enable (default m (erase_loop section_rounds 0 m)).

(** Whether the loop ends does not depend on the memories. *)
Lemma erase_loop_uniform n a m m2 : is_Some (erase_loop n a m) -> is_Some (erase_loop n a m2).
Proof.
  revert a m m2. induction n as [|n IH]; intros a m m2; cbn [erase_loop]; [done|].
  destruct (a <? BOOT_START_ADDR); [apply IH|done].
Qed.

Context {NL : NvmLaws} (boot_range : 0 <= BOOT_START_ADDR <= FLASHEND + 1).
Context (boot_page : BOOT_START_ADDR mod SPM_PAGESIZE = 0) (flash_32 : FLASHEND + 256 < 2 ^ 32).

(** The loop from the page at [a] on, with nothing in the page buffer. *)
Lemma erase_loop_spec n a m : 0 <= a -> a mod SPM_PAGESIZE = 0 -> BOOT_START_ADDR < a + Z.of_nat n ->
  a <= BOOT_START_ADDR -> (forall i, buffered m i = None) ->
  exists m', erase_loop n a m = Some m' /\ (forall x, eeprom m' x = eeprom m x)
    /\ forall x, on_chip x -> flash m' x = if bool_decide (a <= x < BOOT_START_ADDR) then 0xFF else flash m x.
Proof.
  destruct page_pos as (P & _ & P'). revert a m. induction n as [|n IH]; intros a m H0 Ha Hn Hle Hb; [lia|].
  cbn [erase_loop]. destruct (Z.ltb_spec a BOOT_START_ADDR) as [Hlt|Hge].
  2: { exists m. split_and!; [done|done|]. intros x _. by rewrite bool_decide_false by lia. }
  assert (a + SPM_PAGESIZE <= BOOT_START_ADDR) as Hnext.
  { pose proof (Z.div_mod a SPM_PAGESIZE page_nz). pose proof (Z.div_mod BOOT_START_ADDR SPM_PAGESIZE page_nz).
    assert (a / SPM_PAGESIZE < BOOT_START_ADDR / SPM_PAGESIZE) by nia. nia. }
  rewrite wrap_id by (unfold is_u; lia).
  assert (on_chip a) as Hc by (unfold on_chip; lia).
  destruct (IH (a + SPM_PAGESIZE) (boot_page_write a (boot_page_erase a m))) as (m' & -> & He & Hf); try lia.
  - by rewrite <- Z.add_mod_idemp_r, Z.mod_same, Z.add_0_r by apply page_nz.
  - intros i. by autorewrite with nvm.
  - exists m'. split; [done|]. split; [intros x; rewrite He; by autorewrite with nvm|].
    intros x Hx. rewrite Hf, write_flash_page, erase_flash, erase_buffered, Hb by done. cbn [buffered_byte].
    destruct (same_page a x) eqn:Ep.
    + apply same_page_range in Ep; [|done]. rewrite bool_decide_false, bool_decide_true by lia. done.
    + assert (~ (a <= x < a + SPM_PAGESIZE)) by (rewrite <- same_page_range by done; congruence).
      do 2 case_bool_decide; try done; lia.
Qed.

(** The erase ends and clears the application section, and nothing else. *)
Lemma erased_spec m : (forall i, buffered m i = None) ->
  is_Some (erase_loop section_rounds 0 m) /\ (forall x, eeprom (erased m) x = eeprom m x)
  /\ (forall i, buffered (erased m) i = None) /\ readable (erased m) = true
  /\ forall x, on_chip x -> flash (erased m) x = if bool_decide (x < BOOT_START_ADDR) then 0xFF else flash m x.
Proof.
  intros Hb. destruct (erase_loop_spec section_rounds 0 m) as (m' & E & He & Hf); try done.
  { unfold section_rounds. lia. } { lia. }
  unfold erased. rewrite E. cbn [default]. split; [by exists m'|]. split_and!.
  - intros x. rewrite enable_eeprom. apply He.
  - intros i. apply enable_buffered.
  - apply enable_readable.
  - intros x Hx. rewrite enable_flash, Hf by done. destruct Hx. do 2 case_bool_decide; try done; lia.
Qed.
End Erase.

(** ** Code that does not look at the memories *)
Section Secure.
Context {HW : Hardware} {PRE : Preempt} {FU : Fuel} {NV : Nvm} {CF : DfuConfig}.

(** Neither a download nor an upload nor the exit is under way. *)
Definition idle (d : dfu) : Prop :=
  DFU_State d <> dfuDNLOAD_IDLE /\ DFU_State d <> dfuUPLOAD_IDLE /\ WaitForExit d = false.

Definition tame {A} (m : B A) : Prop := forall d s r d' s', idle d -> m d s = Some ((r, d'), s') ->
  idle d' /\ IsSecure d' = IsSecure d
  /\ forall m2, m (set_memory m2 d) s = Some ((r, set_memory m2 d'), s').

(** Started in [d]. *)
Definition guarded_at {A} (d : dfu) (m : B A) : Prop := forall s r d' s',
  m d s = Some ((r, d'), s') -> idle d'
  /\ forall m2, m (set_memory m2 d) s =
       Some ((r, set_memory (if IsSecure d' then m2 else erased m2) d'), s').

Definition guarded {A} (m : B A) : Prop := forall d, idle d -> IsSecure d = true -> guarded_at d m.

Lemma set_memory_same d : set_memory (memory d) d = d.
Proof. by destruct d. Qed.
Lemma memory_set_memory m d : memory (set_memory m d) = m.
Proof. by destruct d. Qed.
Lemma set_memory_twice m m' d : set_memory m (set_memory m' d) = set_memory m d.
Proof. by destruct d. Qed.
Lemma IsSecure_set_memory m d : IsSecure (set_memory m d) = IsSecure d.
Proof. by destruct d. Qed.
Lemma idle_set_memory m d : idle (set_memory m d) <-> idle d.
Proof. by destruct d. Qed.

Lemma tame_done {A} (a : A) : tame (done_ a).
Proof. intros d s r d' s' Hd [= <- <- <-]. done. Qed.

Lemma tame_leave {A} : tame (leave (A := A)).
Proof. intros d s r d' s' Hd [= <- <- <-]. done. Qed.

Lemma tame_io {A} (m : M A) : tame (io m).
Proof.
  intros d s r d' s' Hd. unfold io, bind. intros H. destruct (m s) as [[a s1]|]; [|done].
  injection H as <- <- <-. done.
Qed.

Lemma tame_put f :
  (forall d, idle d -> idle (f d) /\ IsSecure (f d) = IsSecure d) ->
  (forall d m2, f (set_memory m2 d) = set_memory m2 (f d)) -> tame (put f).
Proof.
  intros Hf Hm d s r d' s' Hd [= <- <- <-]. destruct (Hf d Hd) as [? ?]. split_and!; [done|done|].
  intros m2. unfold put. by rewrite Hm.
Qed.

Lemma bindB_inv {A C} (m : B A) (k : A -> B C) d s r d' s' : bindB m k d s = Some ((r, d'), s') ->
  exists o d1 s1, m d s = Some ((o, d1), s1)
    /\ match o with Some a => k a d1 s1 = Some ((r, d'), s') | None => r = None /\ d' = d1 /\ s' = s1 end.
Proof.
  unfold bindB, bind. destruct (m d s) as [[[o d1] s1]|]; [|done]. intros H. exists o, d1, s1.
  split; [done|]. destruct o; [done|]. by injection H as <- <- <-.
Qed.

Lemma bindB_run {A C} (m : B A) (k : A -> B C) d s o d1 s1 : m d s = Some ((o, d1), s1) ->
  bindB m k d s = match o with Some a => k a d1 s1 | None => Some ((None, d1), s1) end.
Proof. intros H. unfold bindB, bind. rewrite H. by destruct o. Qed.

Lemma tame_bind {A C} (m : B A) (k : A -> B C) : tame m -> (forall a, tame (k a)) -> tame (bindB m k).
Proof.
  intros Hm Hk d s r d' s' Hd (o & d1 & s1 & H1 & H2)%bindB_inv.
  destruct (Hm _ _ _ _ _ Hd H1) as (Hd1 & S1 & R1). destruct o as [a|].
  - destruct (Hk a _ _ _ _ _ Hd1 H2) as (Hd2 & S2 & R2). split_and!; [done|congruence|].
    intros m2. by rewrite (bindB_run _ _ _ _ _ _ _ (R1 m2)).
  - destruct H2 as (-> & -> & ->). split_and!; [done|done|].
    intros m2. by rewrite (bindB_run _ _ _ _ _ _ _ (R1 m2)).
Qed.

(** Code that always executes a [return]. *)
Definition leaves {A} (m : B A) : Prop := forall d s r d' s', m d s = Some ((r, d'), s') -> r = None.

Lemma leaves_leave {A} : leaves (leave (A := A)).
Proof. by intros d s r d' s' [= <- _ _]. Qed.

Lemma leaves_bind {A C} (m : B A) (k : A -> B C) : (forall a, leaves (k a)) -> leaves (bindB m k).
Proof.
  intros Hk d s r d' s' (o & d1 & s1 & _ & H2)%bindB_inv. destruct o; [by eapply Hk|]. by destruct H2.
Qed.

Lemma tame_leaves {A C} (m : B A) (k : A -> B C) : tame m -> leaves m -> tame (bindB m k).
Proof.
  intros Hm Hl d s r d' s' Hd (o & d1 & s1 & H1 & H2)%bindB_inv.
  destruct (Hm _ _ _ _ _ Hd H1) as (Hd1 & S1 & R1). rewrite (Hl _ _ _ _ _ H1) in *.
  destruct H2 as (-> & -> & ->). split_and!; [done|done|].
  intros m2. by rewrite (bindB_run _ _ _ _ _ _ _ (R1 m2)).
Qed.

Lemma tame_guarded {A} (m : B A) : tame m -> guarded m.
Proof.
  intros Hm d Hd Hs s r d' s' H. destruct (Hm _ _ _ _ _ Hd H) as (Hd1 & S1 & R1).
  split; [done|]. intros m2. by rewrite S1, Hs.
Qed.

Lemma guarded_bind_l {A C} (m : B A) (k : A -> B C) :
  tame m -> (forall a, guarded (k a)) -> guarded (bindB m k).
Proof.
  intros Hm Hk d Hd Hs s r d' s' (o & d1 & s1 & H1 & H2)%bindB_inv.
  destruct (Hm _ _ _ _ _ Hd H1) as (Hd1 & S1 & R1). rewrite Hs in S1. destruct o as [a|].
  - destruct (Hk a _ Hd1 S1 _ _ _ _ H2) as (Hd2 & R2). split; [done|].
    intros m2. by rewrite (bindB_run _ _ _ _ _ _ _ (R1 m2)).
  - destruct H2 as (-> & -> & ->). split; [done|]. rewrite S1.
    intros m2. by rewrite (bindB_run _ _ _ _ _ _ _ (R1 m2)).
Qed.

Lemma guarded_bind_r {A C} (m : B A) (k : A -> B C) :
  guarded m -> (forall a, tame (k a)) -> guarded (bindB m k).
Proof.
  intros Hm Hk d Hd Hs s r d' s' (o & d1 & s1 & H1 & H2)%bindB_inv.
  destruct (Hm _ Hd Hs _ _ _ _ H1) as (Hd1 & R1). destruct o as [a|].
  - destruct (Hk a _ _ _ _ _ Hd1 H2) as (Hd2 & S2 & R2). split; [done|]. rewrite S2.
    intros m2. by rewrite (bindB_run _ _ _ _ _ _ _ (R1 m2)).
  - destruct H2 as (-> & -> & ->). split; [done|].
    intros m2. by rewrite (bindB_run _ _ _ _ _ _ _ (R1 m2)).
Qed.

(** Reading a static that is not a memory: its value comes from an idle state. *)
Lemma tame_ask {A C} (f : dfu -> A) (k : A -> B C) : (forall d m2, f (set_memory m2 d) = f d) ->
  (forall d, idle d -> tame (k (f d))) -> tame (bindB (ask f) k).
Proof.
  intros Hf Hk d s r d' s' Hd H. change (k (f d) d s = Some (r, d', s')) in H.
  destruct (Hk d Hd _ _ _ _ _ Hd H) as (? & ? & R). split_and!; [done|done|].
  intros m2. rewrite <- R. unfold bindB, bind, ask, ret. by rewrite Hf.
Qed.

Lemma guarded_at_ask {A C} d (f : dfu -> A) (k : A -> B C) : (forall d m2, f (set_memory m2 d) = f d) ->
  guarded_at d (k (f d)) -> guarded_at d (bindB (ask f) k).
Proof.
  intros Hf Hk s r d' s' H. destruct (Hk _ _ _ _ H) as (? & R). split; [done|].
  intros m2. rewrite <- R. unfold bindB, bind, ask, ret. by rewrite Hf.
Qed.

Lemma guarded_ask {A C} (f : dfu -> A) (k : A -> B C) : (forall d m2, f (set_memory m2 d) = f d) ->
  (forall d, idle d -> IsSecure d = true -> guarded (k (f d))) -> guarded (bindB (ask f) k).
Proof. intros Hf Hk d Hd Hs. apply guarded_at_ask; [done|]. by apply Hk. Qed.

Lemma call_inv (m : B unit) d s r d' s' : call m d s = Some ((r, d'), s') ->
  r = Some tt /\ exists o, m d s = Some ((o, d'), s').
Proof.
  unfold call, bind. destruct (m d s) as [[[o d1] s1]|]; [|done]. intros [= <- <- <-]. eauto.
Qed.

Lemma call_run (m : B unit) d s o d' s' : m d s = Some ((o, d'), s') -> call m d s = Some ((Some tt, d'), s').
Proof. intros H. unfold call, bind. by rewrite H. Qed.

Lemma tame_call m : tame m -> tame (call m).
Proof.
  intros Hm d s r d' s' Hd (-> & o & H)%call_inv. destruct (Hm _ _ _ _ _ Hd H) as (? & ? & R).
  split_and!; [done|done|]. intros m2. by eapply call_run.
Qed.

Lemma guarded_call m : guarded m -> guarded (call m).
Proof.
  intros Hm d Hd Hs s r d' s' (-> & o & H)%call_inv. destruct (Hm _ Hd Hs _ _ _ _ H) as (? & R).
  split; [done|]. intros m2. by eapply call_run.
Qed.
End Secure.

Create HintDb tame.
#[export] Hint Resolve tame_done tame_leave tame_io tame_call tame_guarded : tame.

(** Goes through code statement by statement. *)
Ltac tame_step :=
  match goal with
  | |- tame (bindB (ask _) _) => apply tame_ask; [by intros []|intros ? ?]
  | |- tame (bindB _ _) => apply tame_bind; [|intros ?]
  | |- tame (put _) => apply tame_put; [intros [] (? & ? & ?); cbn in *; by split_and!|by intros []]
  | |- tame (call _) => apply tame_call
  | |- tame (if ?b then _ else _) => destruct b
  | |- tame _ => solve [eauto with tame]
  | |- guarded (bindB (ask _) _) => apply guarded_ask; [by intros []|intros ? ? ?]
  | |- guarded (call _) => apply guarded_call
  | |- guarded (if ?b then _ else _) => destruct b eqn:?
  end.

(** ** The request handler in secure mode *)
Section Handler.
Context {HW : Hardware} {PRE : Preempt} {FU : Fuel} {NV : Nvm} {CF : DfuConfig}.

Lemma tame_wait m : tame (wait_or_leave m).
Proof. unfold wait_or_leave. repeat tame_step. Qed.
#[local] Hint Resolve tame_wait : tame.

Lemma tame_load_data n i : tame (load_data n i).
Proof. revert i. induction n as [|n IH]; intros i; cbn [load_data]; repeat tame_step. Qed.
#[local] Hint Resolve tame_load_data : tame.

Lemma tame_ProcessReadCommand : tame ProcessReadCommand.
Proof. unfold ProcessReadCommand. repeat tame_step. Qed.

Lemma guarded_erase : guarded erase_application.
Proof.
  intros d Hd Hs s r d' s'. unfold erase_application, bindB, bind, ask, ret.
  destruct (erase_loop section_rounds 0 (memory d)) as [m'|] eqn:E; [|done].
  intros [= <- <- <-]. split; [by destruct d|]. intros m2. rewrite memory_set_memory.
  destruct (erase_loop_uniform section_rounds 0 (memory d) m2) as [m2' E2]; [by eexists|].
  unfold erased. rewrite E2. by destruct d.
Qed.

(** A command that is not refused is a read or the chip erase. *)
Lemma not_refused d : IsSecure d = true -> refused d = false ->
  Command (SentCommand d) = COMMAND_READ
  \/ Command (SentCommand d) = COMMAND_WRITE /\ data d 0 = 0x00 /\ data d 1 = 0xFF.
Proof.
  unfold refused, IS_TWOBYTE_COMMAND. intros -> H. cbn [andb] in H. apply negb_false_iff, orb_true_iff in H as [H|H].
  - right. rewrite !andb_true_iff, !Z.eqb_eq in H. tauto.
  - left. by apply Z.eqb_eq.
Qed.

Lemma guarded_ProcessWriteCommand d : idle d -> IsSecure d = true -> data d 0 = 0x00 -> data d 1 = 0xFF ->
  guarded_at d ProcessWriteCommand.
Proof.
  intros Hd Hs H0 H1. unfold ProcessWriteCommand. do 2 (apply guarded_at_ask; [by intros []|]).
  unfold IS_ONEBYTE_COMMAND, IS_TWOBYTE_COMMAND. rewrite H0, H1. cbn. by apply guarded_erase.
Qed.

Lemma guarded_ProcessBootloaderCommand : guarded ProcessBootloaderCommand.
Proof.
  apply guarded_call. intros d Hd Hs. apply guarded_at_ask; [by intros []|].
  destruct (refused d) eqn:R.
  { apply tame_guarded; [|done|done]. apply tame_leaves; [repeat tame_step|].
    repeat (apply leaves_bind; intros _). apply leaves_leave. }
  change (guarded_at d (bindB (ask (fun d => Command (SentCommand d))) (fun c =>
    if c =? COMMAND_PROG_START then ProcessMemProgCommand
    else if c =? COMMAND_DISP_DATA then ProcessMemReadCommand
    else if c =? COMMAND_WRITE then ProcessWriteCommand
    else if c =? COMMAND_READ then ProcessReadCommand
    else if c =? COMMAND_CHANGE_BASE_ADDR then
      bindB (ask (fun d => IS_TWOBYTE_COMMAND d 0x03 0x00)) (fun two =>
        if two then put (fun d => set_Flash64KBPage (data d 2) d) else done_ tt)
    else done_ tt))).
  apply guarded_at_ask; [by intros []|].
  destruct (not_refused d Hs R) as [->|(-> & H0 & H1)]; cbn.
  - by apply tame_guarded; [apply tame_ProcessReadCommand| |].
  - by apply guarded_ProcessWriteCommand.
Qed.
#[local] Hint Resolve guarded_ProcessBootloaderCommand : tame.

Lemma guarded_dnload : guarded dnload.
Proof.
  unfold dnload. apply guarded_bind_l; [apply tame_io|intros _].
  apply guarded_ask; [by intros []|]. intros d (_ & _ & ->) _. cbn beta iota.
  apply guarded_bind_l; [apply tame_done|intros _]. apply guarded_ask; [by intros []|]. intros d1 _ _.
  apply guarded_bind_r.
  - destruct (truth _); [|apply tame_guarded, tame_done]. unfold load_command.
    do 5 (apply guarded_bind_l; [repeat tame_step|intros ?]). auto with tame.
  - intros _. apply tame_ask; [by intros []|]. intros d2 (H1 & _ & _).
    rewrite (proj2 (Z.eqb_neq _ _) H1). repeat tame_step.
Qed.

Lemma tame_upload : tame upload.
Proof.
  unfold upload. do 2 (apply tame_bind; [auto with tame|intros _]).
  apply tame_ask; [by intros []|]. intros d (_ & H1 & _). rewrite (proj2 (Z.eqb_neq _ _) H1).
  cbn [negb]. unfold send_response. repeat tame_step.
Qed.

Lemma guarded_ControlRequest : guarded ControlRequest.
Proof.
  pose proof guarded_dnload. pose proof tame_upload.
  apply guarded_call, guarded_bind_l; [apply tame_io|]. intros req.
  destruct (to_dfu req); cbn [negb]; [|apply tame_guarded, tame_leave].
  do 2 (apply guarded_bind_l; [repeat tame_step|intros ?]). cbn zeta.
  destruct (_ =? DFU_REQ_DNLOAD); [done|]. apply tame_guarded.
  unfold getstatus, clrstatus, getstate, abort_. repeat tame_step.
Qed.

Lemma handle_guarded d s d' s' : idle d -> IsSecure d = true -> handle d s = Some (d', s') ->
  idle d' /\ forall m2, handle (set_memory m2 d) s =
    Some (set_memory (if IsSecure d' then m2 else erased m2) d', s').
Proof.
  intros Hd Hs. unfold handle, bind. destruct (ControlRequest d s) as [[[r d1] s1]|] eqn:E; [|done].
  intros [= <- <-]. destruct (guarded_ControlRequest _ Hd Hs _ _ _ _ E) as [? R]. split; [done|].
  intros m2. by rewrite R.
Qed.
End Handler.

(** ** Sessions *)
Section Sessions.
Context {HW : Hardware} {PRE : Preempt} {FU : Fuel} {NV : Nvm} {CF : DfuConfig}.

(** Requests one after the other: each has the machine when its handler starts, which is up to
    the host and the rest of the stack, and when the handler is over. *)
Inductive session : dfu -> list (mcu * mcu) -> dfu -> Prop :=
  | session_nil d : session d [] d
  | session_cons d s s' d1 l d' :
      handle d s = Some (d1, s') -> session d1 l d' -> session d ((s, s') :: l) d'.

Lemma session_det d l d1 d2 : session d l d1 -> session d l d2 -> d1 = d2.
Proof.
  intros H1. revert d2. induction H1 as [d|d s s' d1 l d' E H IH]; intros d2; inversion 1; subst; [done|].
  apply IH. congruence.
Qed.

(** [l] up to its first erase, or all of it when there is none. *)
Lemma session_secure d l d' : idle d -> IsSecure d = true -> session d l d' ->
  (idle d' /\ IsSecure d' = true
   /\ forall m2, session (set_memory m2 d) l (set_memory m2 d'))
  \/ exists l1 l2 d1, l = l1 ++ l2 /\ IsSecure d1 = false /\ session d l1 d1 /\ session d1 l2 d'
     /\ forall m2, session (set_memory m2 d) l1 (set_memory (erased m2) d1).
Proof.
  intros Hd Hs H. induction H as [d|d s s' d1 l d' H1 H2 IH].
  { left. split_and!; [done|done|]. intros. constructor. }
  destruct (handle_guarded _ _ _ _ Hd Hs H1) as [Hd1 R1]. destruct (IsSecure d1) eqn:E.
  - destruct (IH Hd1 eq_refl) as [(? & ? & R2)|(l1 & l2 & d2 & -> & ? & ? & ? & R2)].
    + left. split_and!; [done|done|]. intros. by econstructor.
    + right. exists ((s, s') :: l1), l2, d2. split_and!; [done|done|by econstructor|done|]. intros. by econstructor.
  - right. exists [(s, s')], l, d1. split_and!; [done|done| |done|].
    + econstructor; [done|constructor].
    + intros. econstructor; [done|constructor].
Qed.

Context {NL : NvmLaws} (boot_range : 0 <= BOOT_START_ADDR <= FLASHEND + 1).
Context (boot_page : BOOT_START_ADDR mod SPM_PAGESIZE = 0) (flash_32 : FLASHEND + 256 < 2 ^ 32).

(** C23: A bootloader built with SECURE_MODE protects the device until it is erased.  Whatever
    requests the host sends after reset, either the bootloader is still in secure mode, then
    flash and EEPROM are as they were and the whole exchange (register accesses, answers, final
    statics) would have been the same with any other content of the memories; or the requests
    have a first part, which equally does not depend on the memories, that ends with a completed
    chip erase: at that point every byte of the application section reads 0xFF, and the boot
    section and the EEPROM are untouched. *)
Theorem secure_mode_protects key m l d' : SECURE_MODE = true -> (forall i, buffered m i = None) ->
  session (dfu_reset key m) l d' ->
  (IsSecure d' = true /\ memory d' = m
   /\ forall m2, session (dfu_reset key m2) l (set_memory m2 d'))
  \/ exists l1 l2 d1, l = l1 ++ l2 /\ IsSecure d1 = false
     /\ session (dfu_reset key m) l1 d1 /\ session d1 l2 d'
     /\ (forall m2, session (dfu_reset key m2) l1 (set_memory (erased m2) d1))
     /\ (forall x, 0 <= x < BOOT_START_ADDR -> flash (memory d1) x = 0xFF)
     /\ (forall x, BOOT_START_ADDR <= x <= FLASHEND -> flash (memory d1) x = flash m x)
     /\ (forall x, eeprom (memory d1) x = eeprom m x).
Proof.
  intros Hs Hb H. assert (idle (dfu_reset key m)) as Hd by done.
  destruct (session_secure _ _ _ Hd Hs H) as [(_ & Hs' & R)|(l1 & l2 & d1 & -> & Hs' & H1 & H2 & R)].
  - left. split; [done|]. split; [|exact R].
    rewrite (session_det _ _ _ _ H (R m)) at 1. apply memory_set_memory.
  - right. exists l1, l2, d1. destruct (erased_spec boot_range boot_page flash_32 m Hb) as (_ & He & _ & _ & Hf).
    assert (memory d1 = erased m) as -> by (rewrite (session_det _ _ _ _ H1 (R m)) at 1; apply memory_set_memory).
    split_and!; [done|done|done|done|exact R| | |done]; intros x Hx; rewrite Hf by (unfold on_chip; lia);
      case_bool_decide; (done || lia).
Qed.
End Sessions.
