(* ===== verification/DfuProgram.v ===== *)
(** * DfuProgram: what programming and checking make of the flash

    The memory side of the loops of [Dfu.v] as functions of the words received, and what the
    flash holds afterwards under the laws of [Nvm.v]. *)
From S2P Require Import Prelude Machine Logic Endpoint Nvm Dfu DfuSecure.
Import Endpoint Dfu.

(** Case analysis on the comparisons of an address. *)
Ltac ltb_cases :=
  repeat match goal with |- context [?x <? ?y] => destruct (Z.ltb_spec x y) end; try done; try lia.

Section Program.
Context {NV : Nvm}.

(** [program_flash] for the words [ws], without the endpoint. *)
Fixpoint program (ws : list Z) (a page k : Z) (m : nvm) : nvm :=
  match ws with
  | [] => m
  | w :: ws' =>
      let m := boot_page_fill a w m in
      let k := u8 (k + 1) in
      let a := u32 (a + 2) in
      let more := bool_decide (ws' <> []) in
      if (k =? SPM_PAGESIZE .>> 1) || negb more then
        let m := boot_page_write page m in
        if more then program ws' a a 0 (boot_page_erase a m) else program ws' a page k m
      else program ws' a page k m
  end.

(** The words in memory order. *)
Definition image (ws : list Z) : list Z := concat (le_bytes 2 <$> ws).

(** The end of the last page of the bytes below [e]. *)
Definition page_end (e : Z) : Z := (e + SPM_PAGESIZE - 1) / SPM_PAGESIZE * SPM_PAGESIZE.

Lemma length_image ws : length (image ws) = (2 * length ws)%nat.
Proof. induction ws as [|w ws IH]; [done|]. unfold image in *. cbn in *. lia. Qed.

Lemma image_cons w ws j : 0 <= j -> nth (Z.to_nat j) (image (w :: ws)) 0 =
  if j <? 2 then u8 (w .>> (8 * (j mod 2))) else nth (Z.to_nat (j - 2)) (image ws) 0.
Proof.
  intros Hj. destruct (Z.ltb_spec j 2) as [H2|H2].
  - assert (j = 0 \/ j = 1) as [-> | ->] by lia; [|done]. cbn. by rewrite Z.shiftr_0_r.
  - replace (Z.to_nat j) with (S (S (Z.to_nat (j - 2)))) by lia. done.
Qed.

Context {NL : NvmLaws} (flash_32 : FLASHEND + 256 < 2 ^ 32).

(** What the flash holds at [x] once [ws] is programmed from [a] on, when [k] words of the page
    at [page] are in the buffer already. *)
Definition programmed (ws : list Z) (a page : Z) (m : nvm) (x : Z) : Z :=
  if x <? page then flash m x
  else if x <? a then buffered_byte (buffered m (word_of x)) x
  else if x <? a + 2 * Z.of_nat (length ws) then nth (Z.to_nat (x - a)) (image ws) 0
  else if x <? page_end (a + 2 * Z.of_nat (length ws)) then 0xFF
  else flash m x.

(** The state of the loop: the buffer holds the first [k] words of an erased page. *)
Definition filling (a page k : Z) (m : nvm) : Prop :=
  page mod SPM_PAGESIZE = 0 /\ 0 <= k < SPM_PAGESIZE / 2 /\ a = page + 2 * k /\ 0 <= page
  /\ (forall i, k <= i -> buffered m i = None)
  /\ (forall x, page <= x < page + SPM_PAGESIZE -> flash m x = 0xFF).

Lemma page_half : SPM_PAGESIZE = 2 * (SPM_PAGESIZE / 2).
Proof. destruct page_pos as (P & E & _). rewrite (Z.div_mod SPM_PAGESIZE 2) at 1 by lia. lia. Qed.

(** The page of a partly filled page ends the data as long as they stay inside it. *)
Lemma page_end_in page e : page mod SPM_PAGESIZE = 0 -> page < e <= page + SPM_PAGESIZE ->
  page_end e = page + SPM_PAGESIZE.
Proof.
  intros Hp He. destruct page_pos as [P _]. unfold page_end.
  pose proof (Z.div_mod page SPM_PAGESIZE page_nz) as D. rewrite Hp in D.
  rewrite <- (Z.div_unique_pos (e + SPM_PAGESIZE - 1) SPM_PAGESIZE (page / SPM_PAGESIZE + 1) (e - 1 - page)); lia.
Qed.

Lemma page_end_bounds e : e <= page_end e < e + SPM_PAGESIZE.
Proof.
  destruct page_pos as [P _]. unfold page_end.
  pose proof (Z.div_mod (e + SPM_PAGESIZE - 1) SPM_PAGESIZE page_nz).
  pose proof (Z.mod_pos_bound (e + SPM_PAGESIZE - 1) SPM_PAGESIZE P). lia.
Qed.

Lemma page_end_le page e : page mod SPM_PAGESIZE = 0 -> page < e -> page + SPM_PAGESIZE <= page_end e.
Proof.
  intros Hp He. destruct page_pos as [P _]. unfold page_end.
  pose proof (Z.div_mod page SPM_PAGESIZE page_nz) as D. rewrite Hp in D.
  assert (page / SPM_PAGESIZE + 1 <= (e + SPM_PAGESIZE - 1) / SPM_PAGESIZE); [|nia].
  apply Z.div_le_lower_bound; lia.
Qed.

Section Step.
Context (a page k w : Z) (m : nvm) (F : filling a page k m) (Hc : page + SPM_PAGESIZE <= FLASHEND + 1).

Lemma filling_word : word_of a = k /\ on_chip a /\ on_chip page.
Proof.
  destruct F as (Hp & Hk & -> & H0 & _). pose proof page_half. split; [|unfold on_chip; lia].
  rewrite (word_of_page page) by lia. replace (page + 2 * k - page) with (k * 2) by lia.
  by apply Z.div_mul.
Qed.

Lemma filled_buffer i : buffered (boot_page_fill a w m) i = if decide (i = k) then Some w else buffered m i.
Proof.
  destruct filling_word as (Hw & Ha & _). rewrite fill_buffered, Hw; [done|done|].
  rewrite Hw. by apply F.
Qed.

(** The buffered byte at an address of the page. *)
Lemma filled_byte x : page <= x < page + SPM_PAGESIZE ->
  buffered_byte (buffered (boot_page_fill a w m) (word_of x)) x =
  if x <? a then buffered_byte (buffered m (word_of x)) x
  else if x <? a + 2 then u8 (w .>> (8 * ((x - a) mod 2))) else 0xFF.
Proof.
  intros Hx. rewrite filled_buffer. destruct F as (Hp & Hk & -> & H0 & Hb & _). pose proof (page_even _ Hp) as E.
  rewrite (word_of_page page) by done.
  destruct (Z.ltb_spec x (page + 2 * k)) as [H1|H1].
  { rewrite decide_False; [done|]. zmod. }
  destruct (Z.ltb_spec x (page + 2 * k + 2)) as [H2|H2].
  - rewrite decide_True by zmod. cbn. do 3 f_equal. zmod.
  - rewrite decide_False by zmod. rewrite Hb by zmod. done.
Qed.

(** Inside the page. *)
Lemma filling_next : k + 1 < SPM_PAGESIZE / 2 -> filling (a + 2) page (k + 1) (boot_page_fill a w m).
Proof.
  intros Hk1. destruct F as (Hp & Hk & Ea & H0 & Hb & Hf). split_and!; try done; try lia.
  - intros i Hi. rewrite filled_buffer, decide_False by lia. apply Hb. lia.
  - intros x Hx. rewrite fill_flash. by apply Hf.
Qed.

(** The page once it is written. *)
Lemma written_page x : on_chip x -> flash (boot_page_write page (boot_page_fill a w m)) x =
  if bool_decide (page <= x < page + SPM_PAGESIZE)
  then buffered_byte (buffered (boot_page_fill a w m) (word_of x)) x else flash m x.
Proof.
  intros Hx. destruct filling_word as (_ & _ & Hp'). destruct F as (Hp & _ & _ & _ & _ & Hf).
  rewrite write_flash_page, fill_flash by done. case_bool_decide as E.
  - rewrite (proj2 (same_page_range page x Hp) E), Hf by done. rewrite Z.land_comm, land_ff; [done|].
    unfold buffered_byte. destruct (buffered _ _); [by apply wrap_is_u|done].
  - by rewrite same_page_out.
Qed.

(** The next page, when this one is full. *)
Lemma filling_page : k + 1 = SPM_PAGESIZE / 2 -> page + SPM_PAGESIZE + SPM_PAGESIZE <= FLASHEND + 1 ->
  filling (a + 2) (a + 2) 0 (boot_page_erase (a + 2) (boot_page_write page (boot_page_fill a w m))).
Proof.
  intros Hk1 Hn. destruct F as (Hp & Hk & Ea & H0 & Hb & Hf). pose proof page_half as Ph.
  destruct page_pos as [P _]. assert (a + 2 = page + SPM_PAGESIZE) as E by lia. rewrite E.
  assert ((page + SPM_PAGESIZE) mod SPM_PAGESIZE = 0) as Hm
    by (by rewrite <- Z.add_mod_idemp_r, Z.mod_same, Z.add_0_r by apply page_nz).
  split_and!; try done; try lia.
  - intros i _. by autorewrite with nvm.
  - intros x Hx. rewrite erase_flash by (unfold on_chip; lia).
    by rewrite (proj2 (same_page_range _ _ Hm) Hx).
Qed.

(** ** The expected content, one word at a time *)

Context (x : Z) (Hx : on_chip x).

Lemma a_bounds : page <= a /\ a + 2 <= page + SPM_PAGESIZE.
Proof. destruct F as (_ & Hk & -> & _). pose proof page_half. lia. Qed.

Lemma programmed_word ws : programmed (w :: ws) a page m x = programmed ws (a + 2) page (boot_page_fill a w m) x.
Proof.
  pose proof a_bounds. pose proof (filled_byte x) as Fb. pose proof (image_cons w ws (x - a)) as Ic.
  unfold programmed. rewrite fill_flash.
  replace (a + 2 * Z.of_nat (length (w :: ws))) with (a + 2 + 2 * Z.of_nat (length ws)) by (cbn [length]; lia).
  replace (x - (a + 2)) with (x - a - 2) by lia.
  ltb_cases; try (rewrite Fb by lia; ltb_cases); rewrite ?Ic by lia; ltb_cases.
Qed.

Lemma programmed_last : programmed [w] a page m x = flash (boot_page_write page (boot_page_fill a w m)) x.
Proof.
  pose proof a_bounds. destruct F as (Hp & _). rewrite written_page by done. rewrite programmed_word. unfold programmed.
  cbn [length]. rewrite Z.add_0_r, fill_flash, (page_end_in page) by (done || lia).
  pose proof (filled_byte x) as Fb. case_bool_decide; ltb_cases. rewrite Fb by lia. ltb_cases.
Qed.

Lemma programmed_page ws : k + 1 = SPM_PAGESIZE / 2 -> ws <> [] -> page + SPM_PAGESIZE + SPM_PAGESIZE <= FLASHEND + 1 ->
  programmed (w :: ws) a page m x =
  programmed ws (a + 2) (a + 2) (boot_page_erase (a + 2) (boot_page_write page (boot_page_fill a w m))) x.
Proof.
  intros Hk1 Hws Hn. pose proof (filling_page Hk1 Hn) as (Hp2 & _). pose proof page_half as Ph.
  destruct F as (Hp & Hk & Ea & H0 & _). destruct page_pos as [P _].
  rewrite programmed_word. unfold programmed.
  assert (flash (boot_page_erase (a + 2) (boot_page_write page (boot_page_fill a w m))) x =
    if bool_decide (a + 2 <= x < a + 2 + SPM_PAGESIZE) then 0xFF
    else flash (boot_page_write page (boot_page_fill a w m)) x) as ->.
  { rewrite erase_flash by (done || unfold on_chip; lia). case_bool_decide as E.
    - by rewrite (proj2 (same_page_range _ _ Hp2) E).
    - by rewrite same_page_out. }
  pose proof (page_end_le (a + 2) (a + 2 + 2 * Z.of_nat (length ws)) Hp2) as Pe.
  assert (0 < Z.of_nat (length ws)) by (destruct ws; [done|cbn [length]; lia]).
  rewrite written_page, fill_flash by done. repeat case_bool_decide; ltb_cases.
Qed.
End Step.

Lemma program_spec ws a page k m x : filling a page k m -> ws <> [] ->
  page_end (a + 2 * Z.of_nat (length ws)) <= FLASHEND + 1 -> on_chip x ->
  flash (program ws a page k m) x = programmed ws a page m x.
Proof.
  revert a page k m. induction ws as [|w ws IH]; intros a page k m F Hne He Hx; [done|].
  pose proof page_half as Ph. destruct page_pos as (P & _ & P'). pose proof F as (Hp & Hk & Ea & H0 & _).
  replace (a + 2 * Z.of_nat (length (w :: ws))) with (a + 2 + 2 * Z.of_nat (length ws)) in He by (cbn [length]; lia).
  pose proof (page_end_le page (a + 2 + 2 * Z.of_nat (length ws)) Hp ltac:(lia)).
  assert (page + SPM_PAGESIZE <= FLASHEND + 1) as Hc by lia.
  cbn [program]. rewrite !wrap_id by (unfold is_u; change (2 ^ 8) with 256; lia).
  rewrite Z.shiftr_div_pow2 by done. change (2 ^ 1) with 2.
  destruct (bool_decide (ws <> [])) eqn:More; cbn [negb]; rewrite ?orb_false_r, ?orb_true_r.
  2: { apply bool_decide_eq_false, dec_stable in More as ->. cbn [program].
       by rewrite (programmed_last a page k w m F). }
  apply bool_decide_eq_true in More. assert (0 < Z.of_nat (length ws)) by (destruct ws; [done|cbn [length]; lia]).
  destruct (Z.eqb_spec (k + 1) (SPM_PAGESIZE / 2)) as [Hk1|Hk1].
  - assert (page + SPM_PAGESIZE + SPM_PAGESIZE <= FLASHEND + 1) as Hn.
    { etransitivity; [|exact He]. apply page_end_le; [|lia].
      by rewrite <- Z.add_mod_idemp_r, Z.mod_same, Z.add_0_r by apply page_nz. }
    rewrite (programmed_page a page k w m F) by done. apply (IH _ _ 0); try done.
    by apply (filling_page a page k).
  - rewrite (programmed_word a page k w m F) by done. apply (IH _ _ (k + 1)); try done.
    apply filling_next; (done || lia).
Qed.
End Program.

(** ** Blank check and chip erase *)
Section Blank.
Context {HW : Hardware} {PRE : Preempt} {FU : Fuel} {NV : Nvm} {CF : DfuConfig} {NL : NvmLaws}.
Context (boot_range : 0 <= BOOT_START_ADDR <= FLASHEND + 1) (flash_24 : FLASHEND < 2 ^ 24).

(** [y] is the first address from [a] on that is not blank. *)
Definition first_used (m : nvm) (a y : Z) : Prop :=
  a <= y < BOOT_START_ADDR /\ flash m y <> 0xFF /\ forall x, a <= x < y -> flash m x = 0xFF.

Lemma blank_check_spec n a m : readable m = true -> 0 <= a <= BOOT_START_ADDR -> BOOT_START_ADDR < a + Z.of_nat n ->
  (blank_check n a m = Some None /\ forall x, a <= x < BOOT_START_ADDR -> flash m x = 0xFF)
  \/ exists y, blank_check n a m = Some (Some y) /\ first_used m a y.
Proof.
  intros Hr. revert a. induction n as [|n IH]; intros a Ha Hn; [lia|]. cbn [blank_check].
  destruct (Z.ltb_spec a BOOT_START_ADDR) as [Hlt|Hge]; [|left; split; [done|lia]].
  rewrite read_byte by (done || unfold on_chip; lia). rewrite wrap_id by (unfold is_u; lia).
  destruct (Z.eqb_spec (flash m a) 0xFF) as [E|E]; cbn [negb].
  2: { right. exists a. split; [done|]. split_and!; [lia|lia|done|lia]. }
  destruct (IH (a + 1)) as [[-> B]|(y & -> & R & U & B)]; [lia|lia| |].
  - left. split; [done|]. intros x Hx. destruct (decide (x = a)) as [->|]; [done|]. apply B. lia.
  - right. exists y. split; [done|]. split_and!; [lia|lia|done|].
    intros x Hx. destruct (decide (x = a)) as [->|]; [done|]. apply B. lia.
Qed.

(** C25: The blank check is exact.  On a readable flash the command always ends and touches neither
    memory nor machine.  If every byte of the application section is 0xFF, the statics are as
    before; otherwise the state is dfuERROR with status errCHECK_ERASED, and the 64 KB page and
    the start address it reports are those of the first byte that is not blank. *)
Theorem blank_check_exact d s : data d 0 = 1 -> readable (memory d) = true ->
  exists d', ProcessMemReadCommand d s = Some ((Some tt, d'), s) /\ memory d' = memory d
    /\ (((forall x, 0 <= x < BOOT_START_ADDR -> flash (memory d) x = 0xFF) /\ d' = d)
        \/ (first_used (memory d) 0 (StartAddr d' + 2 ^ 16 * Flash64KBPage d')
            /\ DFU_State d' = dfuERROR /\ DFU_Status d' = errCHECK_ERASED)).
Proof.
  intros H1 Hr. unfold ProcessMemReadCommand, IS_ONEBYTE_COMMAND, bindB, bind, ask, ret. rewrite H1. cbn [Z.eqb Pos.eqb orb].
  destruct (blank_check_spec section_rounds 0 (memory d) Hr) as [[E B]|(y & E & R & U & B)];
    [lia|unfold section_rounds; lia| |]; rewrite E.
  - exists d. split_and!; [done|done|]. left. done.
  - eexists. split; [done|]. split; [by destruct d|]. right. destruct d. cbn in *. split; [|done].
    assert (u16 y + 2 ^ 16 * u8 (y .>> 16) = y) as ->; [|done].
    rewrite Z.shiftr_div_pow2 by done. unfold wrap. change (2 ^ 24) with 16777216 in *.
    change (2 ^ 16) with 65536. change (2 ^ 8) with 256. zmod.
Qed.

Context (boot_page : BOOT_START_ADDR mod SPM_PAGESIZE = 0) (flash_32 : FLASHEND + 256 < 2 ^ 32).

(** What is left in the page buffer when a chip erase starts, from a download that was cut off,
    ends up in the first page, because the loop writes the page it has erased. *)
Lemma erase_commits_page_buffer m x : 0 <= x < SPM_PAGESIZE -> x < BOOT_START_ADDR ->
  flash (erased m) x = buffered_byte (buffered m (word_of x)) x.
Proof.
  intros Hx Hb. destruct page_pos as (P & _ & P').
  assert (SPM_PAGESIZE <= BOOT_START_ADDR) as Hle.
  { pose proof (Z.div_mod BOOT_START_ADDR SPM_PAGESIZE page_nz) as D. rewrite boot_page in D.
    assert (0 < BOOT_START_ADDR / SPM_PAGESIZE) by nia. nia. }
  assert (on_chip 0 /\ on_chip x) as [H0 Hc] by (unfold on_chip; lia).
  unfold erased, section_rounds. cbn [erase_loop]. rewrite (proj2 (Z.ltb_lt 0 BOOT_START_ADDR)) by lia.
  rewrite wrap_id by (unfold is_u; lia).
  destruct (erase_loop_spec boot_range boot_page flash_32 (Z.to_nat BOOT_START_ADDR) (0 + SPM_PAGESIZE)
    (boot_page_write 0 (boot_page_erase 0 m))) as (m' & -> & _ & Hf); try lia.
  - by rewrite Z.add_0_l, Z.mod_same by apply page_nz.
  - intros i. apply write_buffered.
  - cbn [default]. rewrite enable_flash, Hf, bool_decide_false by (done || lia).
    assert (same_page 0 x = true) as S by (apply same_page_range; [done|lia]).
    rewrite write_flash_page, erase_flash, erase_buffered, S by done. rewrite Z.land_comm, land_ff; [done|].
    unfold buffered_byte. destruct (buffered _ _); [by apply wrap_is_u|done].
Qed.
End Blank.
