(* ===== verification/EndpointStream.v ===== *)
(** * EndpointStream: buffer transfers over an endpoint
    ([LUFA/Drivers/USB/Core/AVR8/EndpointStream_AVR8.c] and its [Template] files)

    The C code instantiates three function bodies with the preprocessor.  Here a body
    is a definition over a [template] record that holds the macros, and every function
    of the file is an instance.  A buffer is the memory behind the pointer argument, a
    function of the offset from it; a flash or EEPROM buffer is the contents of that
    memory at the address passed. *)
From S2P Require Import Prelude Machine Logic Endpoint.

Definition buffer := Z -> Z.

Definition buf_set (b : buffer) (i v : Z) : buffer := fun j => if decide (j = i) then v else b j.

(** [enum Endpoint_Stream_RW_ErrorCodes_t] *)
Definition ENDPOINT_RWSTREAM_NoError := 0.
Definition ENDPOINT_RWSTREAM_EndpointStalled := 1.
Definition ENDPOINT_RWSTREAM_DeviceDisconnected := 2.
Definition ENDPOINT_RWSTREAM_BusSuspended := 3.
Definition ENDPOINT_RWSTREAM_Timeout := 4.
Definition ENDPOINT_RWSTREAM_IncompleteTransfer := 5.

(** [enum Endpoint_ControlStream_RW_ErrorCodes_t] *)
Definition ENDPOINT_RWCSTREAM_NoError := 0.
Definition ENDPOINT_RWCSTREAM_HostAborted := 1.
Definition ENDPOINT_RWCSTREAM_DeviceDisconnected := 2.
Definition ENDPOINT_RWCSTREAM_BusSuspended := 3.

(** [FIXED_CONTROL_ENDPOINT_SIZE] *)
Definition USB_Device_ControlEndpointSize := 8.

Module Stream.
Import Endpoint.
Section Stream.
Context {HW : Hardware} {PRE : Preempt} {FU : Fuel}.

(** The macros a template is instantiated with.  [transfer] is given the buffer and the
    offset of [DataStream] in it. *)
Record template := Template {
  TEMPLATE_CLEAR_ENDPOINT : M unit;
  TEMPLATE_BUFFER_OFFSET : Z -> Z;
  TEMPLATE_BUFFER_STEP : Z;
  TEMPLATE_TRANSFER_BYTE : buffer -> Z -> M buffer }.

(** Result of a stream function: error code, [*BytesProcessed] (if the pointer is not
    [NULL]) and the buffer. *)
Definition stream_result : Type := Z * option Z * buffer.

(** The loop variables [Length], [DataStream], [BytesInTransfer] and the buffer. *)
Record stream_vars := StreamVars {
  Length : Z;
  DataStream : Z;
  BytesInTransfer : Z;
  Buffer : buffer }.

(** One pass of [while (Length)]. *)
Definition rw_pass (T : template) (BytesProcessed : option Z) (v : stream_vars)
    : M (stream_vars + stream_result) :=
  if negb (truth (Length v)) then ret (inr (ENDPOINT_RWSTREAM_NoError, BytesProcessed, Buffer v))
  else
    ok <- Endpoint_IsReadWriteAllowed ;;
    if negb ok then
      TEMPLATE_CLEAR_ENDPOINT T ;;
      match BytesProcessed with
      | Some p =>
          ret (inr (ENDPOINT_RWSTREAM_IncompleteTransfer,
                    Some (u16 (p + BytesInTransfer v)), Buffer v))
      | None =>
          ErrorCode <- Endpoint_WaitUntilReady ;;
          if truth ErrorCode then ret (inr (ErrorCode, BytesProcessed, Buffer v))
          else ret (inl v)
      end
    else
      b <- TEMPLATE_TRANSFER_BYTE T (Buffer v) (DataStream v) ;;
      ret (inl (StreamVars (Length v - 1) (DataStream v + TEMPLATE_BUFFER_STEP T)
                  (u16 (BytesInTransfer v + 1)) b)).

(** [Template_Endpoint_RW.c] *)
Definition Template_Endpoint_RW (T : template) (b : buffer) (len : Z)
    (BytesProcessed : option Z) : M stream_result :=
  ErrorCode <- Endpoint_WaitUntilReady ;;
  if truth ErrorCode then ret (ErrorCode, BytesProcessed, b)
  else
    let p := default 0 BytesProcessed in
    iter fuel (rw_pass T BytesProcessed)
      (StreamVars (u16 (len - p)) (TEMPLATE_BUFFER_OFFSET T len + TEMPLATE_BUFFER_STEP T * p) 0 b).

Definition write_byte (b : buffer) (i : Z) : M buffer := Endpoint_Write_8 (b i) ;; ret b.
Definition read_byte (b : buffer) (i : Z) : M buffer := v <- Endpoint_Read_8 ;; ret (buf_set b i v).

(** [eeprom_update_byte] leaves the cell with the value it is given. *)
Definition eeprom_update (b : buffer) (i : Z) : M buffer :=
  v <- Endpoint_Read_8 ;; ret (buf_set b i v).

Definition zero_offset (len : Z) : Z := 0.
Definition last_offset (len : Z) : Z := len - 1.

Definition Endpoint_Write_Stream_LE :=
  Template_Endpoint_RW (Template Endpoint_ClearIN zero_offset 1 write_byte).
Definition Endpoint_Write_Stream_BE :=
  Template_Endpoint_RW (Template Endpoint_ClearIN last_offset (-1) write_byte).
Definition Endpoint_Read_Stream_LE :=
  Template_Endpoint_RW (Template Endpoint_ClearOUT zero_offset 1 read_byte).
Definition Endpoint_Read_Stream_BE :=
  Template_Endpoint_RW (Template Endpoint_ClearOUT last_offset (-1) read_byte).
Definition Endpoint_Write_PStream_LE :=
  Template_Endpoint_RW (Template Endpoint_ClearIN zero_offset 1 write_byte).
Definition Endpoint_Write_PStream_BE :=
  Template_Endpoint_RW (Template Endpoint_ClearIN last_offset (-1) write_byte).
Definition Endpoint_Write_EStream_LE :=
  Template_Endpoint_RW (Template Endpoint_ClearIN zero_offset 1 write_byte).
Definition Endpoint_Write_EStream_BE :=
  Template_Endpoint_RW (Template Endpoint_ClearIN last_offset (-1) write_byte).
Definition Endpoint_Read_EStream_LE :=
  Template_Endpoint_RW (Template Endpoint_ClearOUT zero_offset 1 eeprom_update).
Definition Endpoint_Read_EStream_BE :=
  Template_Endpoint_RW (Template Endpoint_ClearOUT last_offset (-1) eeprom_update).

(** [Endpoint_Discard_Stream] and [Endpoint_Null_Stream]: the same loop without a buffer,
    written out in the source. *)
Definition unbuffered_pass (clear : M unit) (transfer : M unit) (BytesProcessed : option Z)
    (v : Z * Z) : M ((Z * Z) + (Z * option Z)) :=
  let '(Length, BytesInTransfer) := v in
  if negb (truth Length) then ret (inr (ENDPOINT_RWSTREAM_NoError, BytesProcessed))
  else
    ok <- Endpoint_IsReadWriteAllowed ;;
    if negb ok then
      clear ;;
      match BytesProcessed with
      | Some p => ret (inr (ENDPOINT_RWSTREAM_IncompleteTransfer, Some (u16 (p + BytesInTransfer))))
      | None =>
          ErrorCode <- Endpoint_WaitUntilReady ;;
          if truth ErrorCode then ret (inr (ErrorCode, BytesProcessed)) else ret (inl v)
      end
    else
      transfer ;;
      ret (inl (Length - 1, u16 (BytesInTransfer + 1))).

Definition Endpoint_Discard_Stream (len : Z) (BytesProcessed : option Z) : M (Z * option Z) :=
  ErrorCode <- Endpoint_WaitUntilReady ;;
  if truth ErrorCode then ret (ErrorCode, BytesProcessed)
  else iter fuel (unbuffered_pass Endpoint_ClearOUT Endpoint_Discard_8 BytesProcessed)
         (u16 (len - default 0 BytesProcessed), 0).

Definition Endpoint_Null_Stream (len : Z) (BytesProcessed : option Z) : M (Z * option Z) :=
  ErrorCode <- Endpoint_WaitUntilReady ;;
  if truth ErrorCode then ret (ErrorCode, BytesProcessed)
  else iter fuel (unbuffered_pass Endpoint_ClearIN (Endpoint_Write_8 0) BytesProcessed)
         (u16 (len - default 0 BytesProcessed), 0).

(** ** Control streams *)

(** The state tests at the top of the control loops: the error code to leave with. *)
Definition state_error (d : USB_Device_States_t) : option Z :=
  if decide (d = DEVICE_STATE_Unattached) then Some ENDPOINT_RWCSTREAM_DeviceDisconnected
  else if decide (d = DEVICE_STATE_Suspended) then Some ENDPOINT_RWCSTREAM_BusSuspended
  else None.

(** The loop that fills one packet: [while (Length && BytesInEndpoint < ...)].  Variables
    [Length], [DataStream], [BytesInEndpoint]. *)
Definition fill_pass (T : template) (b : buffer) (v : Z * Z * Z) : M ((Z * Z * Z) + (Z * Z * Z)) :=
  let '(Length, DataStream, BytesInEndpoint) := v in
  if truth Length && (BytesInEndpoint <? USB_Device_ControlEndpointSize) then
    TEMPLATE_TRANSFER_BYTE T b DataStream ;;
    ret (inl (Length - 1, DataStream + TEMPLATE_BUFFER_STEP T, BytesInEndpoint + 1))
  else ret (inr v).

(** One pass of [while (Length || LastPacketFull)]; it is left with an error code or, at its
    end or by [break], with [None]. *)
Definition control_w_pass (T : template) (b : buffer) (v : Z * Z * bool)
    : M ((Z * Z * bool) + option Z) :=
  let '(Length, DataStream, LastPacketFull) := v in
  if negb (truth Length || LastPacketFull) then ret (inr None)
  else
    d <- get_state ;;
    match state_error d with
    | Some e => ret (inr (Some e))
    | None =>
        setup <- Endpoint_IsSETUPReceived ;;
        if setup : bool then ret (inr (Some ENDPOINT_RWCSTREAM_HostAborted))
        else
          out <- Endpoint_IsOUTReceived ;;
          if out : bool then ret (inr None)
          else
            ready <- Endpoint_IsINReady ;;
            if ready : bool then
              BytesInEndpoint <- Endpoint_BytesInEndpoint ;;
              r <- iter (S (Z.to_nat Length)) (fill_pass T b) (Length, DataStream, BytesInEndpoint) ;;
              let '(Length, DataStream, BytesInEndpoint) := r in
              Endpoint_ClearIN ;;
              ret (inl (Length, DataStream, BytesInEndpoint =? USB_Device_ControlEndpointSize))
            else ret (inl v)
    end.

(** [while (!ready) { ... }] at the end of both control templates: waiting for the status
    stage. *)
Definition control_status (ready : M bool) : M Z :=
  iter fuel (fun _ : unit =>
    r <- ready ;;
    if r : bool then ret (inr ENDPOINT_RWCSTREAM_NoError)
    else
      d <- get_state ;;
      ret (match state_error d with Some e => inr e | None => inl tt end)) tt.

(** [Template_Endpoint_Control_W.c] *)
Definition Template_Endpoint_Control_W (T : template) (b : buffer) (len : Z) : M Z :=
  req <- get_request ;;
  Length <- (if wLength req <? len then ret (wLength req)
             else (when negb (truth len) do Endpoint_ClearIN) ;; ret len) ;;
  r <- iter fuel (control_w_pass T b) (Length, TEMPLATE_BUFFER_OFFSET T len, false) ;;
  match r with
  | Some ErrorCode => ret ErrorCode
  | None => control_status Endpoint_IsOUTReceived
  end.

(** [while (Length && Endpoint_BytesInEndpoint())] *)
Definition drain_pass (T : template) (v : Z * Z * buffer)
    : M ((Z * Z * buffer) + (Z * Z * buffer)) :=
  let '(Length, DataStream, b) := v in
  if truth Length then
    n <- Endpoint_BytesInEndpoint ;;
    if truth n then
      b' <- TEMPLATE_TRANSFER_BYTE T b DataStream ;;
      ret (inl (Length - 1, DataStream + TEMPLATE_BUFFER_STEP T, b'))
    else ret (inr v)
  else ret (inr v).

(** One pass of [while (Length)] of the control read. *)
Definition control_r_pass (T : template) (v : Z * Z * buffer)
    : M ((Z * Z * buffer) + (option Z * buffer)) :=
  let '(Length, DataStream, b) := v in
  if negb (truth Length) then ret (inr (None, b))
  else
    d <- get_state ;;
    match state_error d with
    | Some e => ret (inr (Some e, b))
    | None =>
        setup <- Endpoint_IsSETUPReceived ;;
        if setup : bool then ret (inr (Some ENDPOINT_RWCSTREAM_HostAborted, b))
        else
          out <- Endpoint_IsOUTReceived ;;
          if out : bool then
            v <- iter (S (Z.to_nat Length)) (drain_pass T) v ;;
            Endpoint_ClearOUT ;;
            ret (inl v)
          else ret (inl v)
    end.

(** [Template_Endpoint_Control_R.c] *)
Definition Template_Endpoint_Control_R (T : template) (b : buffer) (len : Z) : M (Z * buffer) :=
  (when negb (truth len) do Endpoint_ClearOUT) ;;
  r <- iter fuel (control_r_pass T) (len, TEMPLATE_BUFFER_OFFSET T len, b) ;;
  match r with
  | (Some ErrorCode, b) => ret (ErrorCode, b)
  | (None, b) => e <- control_status Endpoint_IsINReady ;; ret (e, b)
  end.

(** The control templates do not use [TEMPLATE_CLEAR_ENDPOINT]. *)
Definition no_clear : M unit := ret tt.

Definition Endpoint_Write_Control_Stream_LE :=
  Template_Endpoint_Control_W (Template no_clear zero_offset 1 write_byte).
Definition Endpoint_Write_Control_Stream_BE :=
  Template_Endpoint_Control_W (Template no_clear last_offset (-1) write_byte).
Definition Endpoint_Read_Control_Stream_LE :=
  Template_Endpoint_Control_R (Template no_clear zero_offset 1 read_byte).
Definition Endpoint_Read_Control_Stream_BE :=
  Template_Endpoint_Control_R (Template no_clear last_offset (-1) read_byte).
Definition Endpoint_Write_Control_PStream_LE :=
  Template_Endpoint_Control_W (Template no_clear zero_offset 1 write_byte).
Definition Endpoint_Write_Control_PStream_BE :=
  Template_Endpoint_Control_W (Template no_clear last_offset (-1) write_byte).
Definition Endpoint_Write_Control_EStream_LE :=
  Template_Endpoint_Control_W (Template no_clear zero_offset 1 write_byte).
Definition Endpoint_Write_Control_EStream_BE :=
  Template_Endpoint_Control_W (Template no_clear last_offset (-1) write_byte).
Definition Endpoint_Read_Control_EStream_LE :=
  Template_Endpoint_Control_R (Template no_clear zero_offset 1 eeprom_update).
Definition Endpoint_Read_Control_EStream_BE :=
  Template_Endpoint_Control_R (Template no_clear last_offset (-1) eeprom_update).

End Stream.
End Stream.

(** ** Footprint *)
Section StreamFootprint.
Import Endpoint Stream.
Context {HW : Hardware} (R : mcu -> list event -> mcu -> Prop) {UP : UsbPolicy R}.
Context {PRE : Preempt} {FU : Fuel} (pre_ok : obeys R preempt).

Lemma obeys_Endpoint_Write_Stream_LE b n p : obeys R (Endpoint_Write_Stream_LE b n p).
Proof. obey. Qed.

Lemma obeys_Endpoint_Write_Control_Stream_LE b n : obeys R (Endpoint_Write_Control_Stream_LE b n).
Proof. obey. Qed.

Lemma obeys_Endpoint_Write_Control_PStream_LE b n : obeys R (Endpoint_Write_Control_PStream_LE b n).
Proof. obey. Qed.
End StreamFootprint.

#[export] Hint Resolve obeys_Endpoint_Write_Stream_LE obeys_Endpoint_Write_Control_Stream_LE
  obeys_Endpoint_Write_Control_PStream_LE : obey.
