(* ===== verification/UsbController.v ===== *)
(** * UsbController: controller and interrupt control
    ([LUFA/Drivers/USB/Core/AVR8]: [USBController_AVR8.h], [USBController_AVR8.c],
    [USBInterrupt_AVR8.h], [USBInterrupt_AVR8.c], [Device_AVR8.c])

    For a series 2 part in device mode with the static options of [LUFAConfig.h]: the
    regulator enabled and the PLL under the library's control. *)
From S2P Require Import Prelude Machine Logic Endpoint EndpointStream.

(** [enum USB_Interrupts_t], the values that exist in device mode. *)
Inductive USB_Interrupts_t :=
  USB_INT_WAKEUPI | USB_INT_SUSPI | USB_INT_EORSTI | USB_INT_SOFI | USB_INT_RXSTPI.

(** [USB_PLL_PSC] for a 16 MHz clock. *)
Definition USB_PLL_PSC := bit PLLP0.

Definition USB_OPT_REG_DISABLED := bit 1.
Definition USB_OPT_MANUAL_PLL := bit 2.

(** [USE_STATIC_OPTIONS]: [USB_DEVICE_OPT_FULLSPEED | USB_OPT_REG_ENABLED | USB_OPT_AUTO_PLL] *)
Definition USB_Options := 0 .| 0 .| 0.

Module Controller.
Import Endpoint.
Section Controller.
Context {HW : Hardware} {PRE : Preempt} {FU : Fuel}.

(** ** [USBInterrupt_AVR8.h] *)

Definition USB_INT_Enable (Interrupt : USB_Interrupts_t) : M unit :=
  match Interrupt with
  | USB_INT_WAKEUPI => set_bits UDIEN (bit WAKEUPE)
  | USB_INT_SUSPI => set_bits UDIEN (bit SUSPE)
  | USB_INT_EORSTI => set_bits UDIEN (bit EORSTE)
  | USB_INT_SOFI => set_bits UDIEN (bit SOFE)
  | USB_INT_RXSTPI => set_bits UEIENX (bit RXSTPE)
  end.

Definition USB_INT_Disable (Interrupt : USB_Interrupts_t) : M unit :=
  match Interrupt with
  | USB_INT_WAKEUPI => clear_bits UDIEN (bit WAKEUPE)
  | USB_INT_SUSPI => clear_bits UDIEN (bit SUSPE)
  | USB_INT_EORSTI => clear_bits UDIEN (bit EORSTE)
  | USB_INT_SOFI => clear_bits UDIEN (bit SOFE)
  | USB_INT_RXSTPI => clear_bits UEIENX (bit RXSTPE)
  end.

Definition USB_INT_Clear (Interrupt : USB_Interrupts_t) : M unit :=
  match Interrupt with
  | USB_INT_WAKEUPI => clear_bits UDINT (bit WAKEUPI)
  | USB_INT_SUSPI => clear_bits UDINT (bit SUSPI)
  | USB_INT_EORSTI => clear_bits UDINT (bit EORSTI)
  | USB_INT_SOFI => clear_bits UDINT (bit SOFI)
  | USB_INT_RXSTPI => clear_bits UEINTX (bit RXSTPI)
  end.

(** [return (r & (1 << n));] as [bool] *)
Definition test_bit (r : reg) (n : Z) : M bool := v <- rd r ;; ret (truth (v .& bit n)).

Definition USB_INT_IsEnabled (Interrupt : USB_Interrupts_t) : M bool :=
  match Interrupt with
  | USB_INT_WAKEUPI => test_bit UDIEN WAKEUPE
  | USB_INT_SUSPI => test_bit UDIEN SUSPE
  | USB_INT_EORSTI => test_bit UDIEN EORSTE
  | USB_INT_SOFI => test_bit UDIEN SOFE
  | USB_INT_RXSTPI => test_bit UEIENX RXSTPE
  end.

Definition USB_INT_HasOccurred (Interrupt : USB_Interrupts_t) : M bool :=
  match Interrupt with
  | USB_INT_WAKEUPI => test_bit UDINT WAKEUPI
  | USB_INT_SUSPI => test_bit UDINT SUSPI
  | USB_INT_EORSTI => test_bit UDINT EORSTI
  | USB_INT_SOFI => test_bit UDINT SOFI
  | USB_INT_RXSTPI => test_bit UEINTX RXSTPI
  end.

(** ** [USBInterrupt_AVR8.c] *)

Definition USB_INT_DisableAllInterrupts : M unit := wr UDIEN 0.
Definition USB_INT_ClearAllInterrupts : M unit := wr UDINT 0.

(** ** [USBController_AVR8.h] *)

Definition USB_Detach : M unit := set_bits UDCON (bit DETACH).
Definition USB_Attach : M unit := clear_bits UDCON (bit DETACH).

Definition USB_PLL_On : M unit := wr PLLCSR USB_PLL_PSC ;; wr PLLCSR (USB_PLL_PSC .| bit PLLE).
Definition USB_PLL_Off : M unit := wr PLLCSR 0.
Definition USB_PLL_IsReady : M bool := v <- rd PLLCSR ;; ret (truth (v .& bit PLOCK)).

Definition USB_REG_On : M unit := clear_bits REGCR (bit REGDIS).
Definition USB_REG_Off : M unit := set_bits REGCR (bit REGDIS).

Definition USB_CLK_Freeze : M unit := set_bits USBCON (bit FRZCLK).
Definition USB_CLK_Unfreeze : M unit := clear_bits USBCON (bit FRZCLK).

Definition USB_Controller_Enable : M unit := set_bits USBCON (bit USBE).
Definition USB_Controller_Disable : M unit := clear_bits USBCON (bit USBE).
Definition USB_Controller_Reset : M unit :=
  clear_bits USBCON (bit USBE) ;; set_bits USBCON (bit USBE).

(** ** [USBController_AVR8.c] *)

(** [if (!(USB_Options & USB_OPT_MANUAL_PLL)) { USB_PLL_On(); while (!(USB_PLL_IsReady())); }] *)
Definition pll_start : M unit :=
  when negb (truth (USB_Options .& USB_OPT_MANUAL_PLL)) do
    (USB_PLL_On ;; spin_until USB_PLL_IsReady).

Definition USB_Init_Device : M unit :=
  put_state DEVICE_STATE_Unattached ;;
  put_config 0 ;;
  put_remote_wakeup false ;;
  put_self_powered false ;;
  Endpoint_ConfigureEndpoint ENDPOINT_CONTROLEP EP_TYPE_CONTROL USB_Device_ControlEndpointSize 1 ;;
  USB_INT_Clear USB_INT_SUSPI ;;
  USB_INT_Enable USB_INT_SUSPI ;;
  USB_INT_Enable USB_INT_EORSTI ;;
  USB_Attach.

Definition USB_ResetInterface : M unit :=
  USB_INT_DisableAllInterrupts ;;
  USB_INT_ClearAllInterrupts ;;
  USB_Controller_Reset ;;
  USB_CLK_Unfreeze ;;
  pll_start ;;
  USB_Init_Device.

Definition USB_Init : M unit :=
  (if negb (truth (USB_Options .& USB_OPT_REG_DISABLED)) then USB_REG_On else USB_REG_Off) ;;
  put_initialized true ;;
  USB_ResetInterface.

Definition USB_Disable : M unit :=
  USB_INT_DisableAllInterrupts ;;
  USB_INT_ClearAllInterrupts ;;
  USB_Detach ;;
  USB_Controller_Disable ;;
  (when negb (truth (USB_Options .& USB_OPT_MANUAL_PLL)) do USB_PLL_Off) ;;
  USB_REG_Off ;;
  put_initialized false.

(** ** [Device_AVR8.h], [Device_AVR8.c] *)

Definition USB_Device_EnableSOFEvents : M unit := USB_INT_Enable USB_INT_SOFI.
Definition USB_Device_DisableSOFEvents : M unit := USB_INT_Disable USB_INT_SOFI.

Definition USB_Device_SendRemoteWakeup : M unit :=
  pll_start ;;
  USB_CLK_Unfreeze ;;
  set_bits UDCON (bit RMWKUP) ;;
  spin_until (v <- rd UDCON ;; ret (negb (truth (v .& bit RMWKUP)))).

End Controller.
End Controller.

(** ** Footprint *)
Section ControllerFootprint.
Import Controller.
Context {HW : Hardware} (R : mcu -> list event -> mcu -> Prop) {UP : UsbPolicy R}.
Context {PRE : Preempt} {FU : Fuel} (pre_ok : obeys R preempt).

Lemma obeys_USB_Init : obeys R USB_Init.
Proof. obey. Qed.

Lemma obeys_USB_Disable : obeys R USB_Disable.
Proof. obey. Qed.

Lemma obeys_USB_Device_SendRemoteWakeup : obeys R USB_Device_SendRemoteWakeup.
Proof. obey. Qed.
End ControllerFootprint.

#[export] Hint Resolve obeys_USB_Init : obey.
