(* ===== verification/DeviceRequests.v ===== *)
(** * DeviceRequests: standard control requests
    ([LUFA/Drivers/USB/Core/DeviceStandardReq.c])

    The callbacks of the library into the application are an interface, the class
    [UsbEvents]: the library's theorems are proved against its laws, and the firmware's
    instance is in [Firmware.v]. *)
From S2P Require Import Prelude Machine Logic Endpoint EndpointStream UsbController.

(** [enum USB_Control_Request_t], feature selectors and masks ([StdRequestType.h]). *)
Definition REQ_GetStatus := 0.
Definition REQ_ClearFeature := 1.
Definition REQ_SetFeature := 3.
Definition REQ_SetAddress := 5.
Definition REQ_GetDescriptor := 6.
Definition REQ_GetConfiguration := 8.
Definition REQ_SetConfiguration := 9.
Definition FEATURE_SEL_EndpointHalt := 0x00.
Definition FEATURE_SEL_DeviceRemoteWakeup := 0x01.
Definition FEATURE_SELFPOWERED_ENABLED := bit 0.
Definition FEATURE_REMOTE_WAKEUP_ENABLED := bit 1.
Definition CONTROL_REQTYPE_RECIPIENT := 0x1F.
Definition REQDIR_HOSTTODEVICE := 0 .<< 7.
Definition REQTYPE_STANDARD := 0 .<< 5.
Definition REQTYPE_CLASS := 1 .<< 5.
Definition REQREC_DEVICE := 0 .<< 0.
Definition REQREC_INTERFACE := 1 .<< 0.
Definition REQREC_ENDPOINT := 2 .<< 0.

(** Descriptor types ([StdDescriptors.h]) and fixed configuration. *)
Definition DTYPE_Device := 0x01.
Definition DTYPE_Configuration := 0x02.
Definition DTYPE_String := 0x03.
Definition DTYPE_Interface := 0x04.
Definition DTYPE_Endpoint := 0x05.
Definition DTYPE_CSInterface := 0x24.
Definition NO_DESCRIPTOR := 0.
Definition USE_INTERNAL_SERIAL := 0xDC.
Definition FIXED_NUM_CONFIGURATIONS := 1.
Definition USB_STRING_LEN (UnicodeChars : Z) : Z := 2 + (UnicodeChars .<< 1).

(** Events and callbacks the application supplies.  Each event runs in the interrupt context
    of its caller.  [CALLBACK_USB_GetDescriptor] returns the size and the flash memory behind
    [DescriptorAddress]. *)
Class UsbEvents `{Hardware} := {
  EVENT_USB_Device_ControlRequest : Preempt -> M unit;
  EVENT_USB_Device_ConfigurationChanged : Preempt -> M unit;
  EVENT_USB_Device_Connect : Preempt -> M unit;
  EVENT_USB_Device_Disconnect : Preempt -> M unit;
  EVENT_USB_Device_Reset : Preempt -> M unit;
  EVENT_USB_Device_StartOfFrame : Preempt -> M unit;
  CALLBACK_USB_GetDescriptor : Z -> Z -> Z * buffer }.

Module Requests.
Import Endpoint Stream Controller.
Section Requests.
Context {HW : Hardware} {PRE : Preempt} {FU : Fuel} {EV : UsbEvents}.

Definition USB_Device_SetAddress : M unit :=
  req <- get_request ;;
  let DeviceAddress := wValue req .& 0x7F in
  USB_Device_SetDeviceAddress DeviceAddress ;;
  Endpoint_ClearSETUP ;;
  Endpoint_ClearStatusStage ;;
  spin_until Endpoint_IsINReady ;;
  USB_Device_EnableDeviceAddress DeviceAddress ;;
  put_state (if truth DeviceAddress then DEVICE_STATE_Addressed else DEVICE_STATE_Default).

Definition USB_Device_SetConfiguration : M unit :=
  req <- get_request ;;
  if FIXED_NUM_CONFIGURATIONS <? u8 (wValue req) then ret tt
  else
    Endpoint_ClearSETUP ;;
    req <- get_request ;;
    put_config (u8 (wValue req)) ;;
    Endpoint_ClearStatusStage ;;
    n <- get_config ;;
    (if truth n then put_state DEVICE_STATE_Configured
     else
       set <- USB_Device_IsAddressSet ;;
       put_state (if set : bool then DEVICE_STATE_Configured else DEVICE_STATE_Powered)) ;;
    EVENT_USB_Device_ConfigurationChanged PRE.

Definition USB_Device_GetConfiguration : M unit :=
  Endpoint_ClearSETUP ;;
  n <- get_config ;;
  Endpoint_Write_8 n ;;
  Endpoint_ClearIN ;;
  Endpoint_ClearStatusStage.

(** The bytes of [SignatureDescriptor]: size, type, and the 16-bit characters of the serial
    number in little-endian order. *)
Definition SignatureDescriptor : list Z :=
  [USB_STRING_LEN (INTERNAL_SERIAL_LENGTH_BITS / 4); DTYPE_String]
  ++ mjoin ((fun c => le_bytes 2 c) <$> USB_Device_GetSerialString).

(** Memory that holds a list of bytes. *)
Definition bytes_at (bs : list Z) : buffer := fun i => default 0 (bs !! Z.to_nat i).

Definition USB_Device_GetInternalSerialDescriptor : M unit :=
  Endpoint_ClearSETUP ;;
  Endpoint_Write_Control_Stream_LE (bytes_at SignatureDescriptor)
    (Z.of_nat (length SignatureDescriptor)) ;;
  Endpoint_ClearOUT.

Definition USB_Device_GetDescriptor : M unit :=
  req <- get_request ;;
  if wValue req =? (DTYPE_String .<< 8 .| USE_INTERNAL_SERIAL) then
    USB_Device_GetInternalSerialDescriptor
  else
    let '(DescriptorSize, Descriptor) :=
      CALLBACK_USB_GetDescriptor (wValue req) (u8 (wIndex req)) in
    if DescriptorSize =? NO_DESCRIPTOR then ret tt
    else
      Endpoint_ClearSETUP ;;
      Endpoint_Write_Control_PStream_LE Descriptor DescriptorSize ;;
      Endpoint_ClearOUT.

(** [CurrentStatus], or [None] for the [default: return] branch. *)
Definition current_status (req : USB_Request_Header_t) : M (option Z) :=
  if bmRequestType req =? (REQDIR_DEVICETOHOST .| REQTYPE_STANDARD .| REQREC_DEVICE) then
    u <- gets usb ;;
    ret (Some ((if USB_Device_CurrentlySelfPowered u then FEATURE_SELFPOWERED_ENABLED else 0)
               .| (if USB_Device_RemoteWakeupEnabled u then FEATURE_REMOTE_WAKEUP_ENABLED else 0)))
  else if bmRequestType req =? (REQDIR_DEVICETOHOST .| REQTYPE_STANDARD .| REQREC_ENDPOINT) then
    Endpoint_SelectEndpoint (u8 (wIndex req) .& ENDPOINT_EPNUM_MASK) ;;
    stalled <- Endpoint_IsStalled ;;
    Endpoint_SelectEndpoint ENDPOINT_CONTROLEP ;;
    ret (Some (if stalled : bool then 1 else 0))
  else ret None.

Definition USB_Device_GetStatus : M unit :=
  req <- get_request ;;
  st <- current_status req ;;
  match st with
  | None => ret tt
  | Some CurrentStatus =>
      Endpoint_ClearSETUP ;;
      Endpoint_Write_16_LE CurrentStatus ;;
      Endpoint_ClearIN ;;
      Endpoint_ClearStatusStage
  end.

(** The [switch] on the recipient: [false] for its [return]s. *)
Definition clear_set_feature (req : USB_Request_Header_t) : M bool :=
  let recipient := bmRequestType req .& CONTROL_REQTYPE_RECIPIENT in
  if recipient =? REQREC_DEVICE then
    if u8 (wValue req) =? FEATURE_SEL_DeviceRemoteWakeup then
      put_remote_wakeup (bRequest req =? REQ_SetFeature) ;; ret true
    else ret false
  else if recipient =? REQREC_ENDPOINT then
    if u8 (wValue req) =? FEATURE_SEL_EndpointHalt then
      let EndpointIndex := u8 (wIndex req) .& ENDPOINT_EPNUM_MASK in
      if EndpointIndex =? ENDPOINT_CONTROLEP then ret false
      else
        Endpoint_SelectEndpoint EndpointIndex ;;
        enabled <- Endpoint_IsEnabled ;;
        (when enabled do
           (req <- get_request ;;
            if bRequest req =? REQ_SetFeature then Endpoint_StallTransaction
            else
              Endpoint_ClearStall ;;
              Endpoint_ResetEndpoint EndpointIndex ;;
              Endpoint_ResetDataToggle)) ;;
        ret true
    else ret true
  else ret false.

Definition USB_Device_ClearSetFeature : M unit :=
  req <- get_request ;;
  go <- clear_set_feature req ;;
  when go do
    (Endpoint_SelectEndpoint ENDPOINT_CONTROLEP ;;
     Endpoint_ClearSETUP ;;
     Endpoint_ClearStatusStage).

(** Storing byte [i] of the packed [USB_ControlRequest]. *)
Definition set_request_byte (i : nat) (v : Z) (req : USB_Request_Header_t)
    : USB_Request_Header_t :=
  let 'USB_Request_Header t r a x l := req in
  let lo w := w .& 0xFF00 .| v in
  let hi w := w .& 0x00FF .| v .<< 8 in
  match i with
  | 0%nat => USB_Request_Header v r a x l
  | 1%nat => USB_Request_Header t v a x l
  | 2%nat => USB_Request_Header t r (lo a) x l
  | 3%nat => USB_Request_Header t r (hi a) x l
  | 4%nat => USB_Request_Header t r a (lo x) l
  | 5%nat => USB_Request_Header t r a (hi x) l
  | 6%nat => USB_Request_Header t r a x (lo l)
  | _ => USB_Request_Header t r a x (hi l)
  end.

(** [for (...) *(RequestHeader++) = Endpoint_Read_8();], [n] bytes from byte [i] on. *)
Fixpoint read_request (n i : nat) : M unit :=
  match n with
  | O => ret tt
  | S n' =>
      v <- Endpoint_Read_8 ;;
      req <- get_request ;;
      put_request (set_request_byte i v req) ;;
      read_request n' (S i)
  end.

(** The [switch] on [bRequest]. *)
Definition dispatch_request (bmRequestType : Z) (req : USB_Request_Header_t) : M unit :=
  let std d r := bmRequestType =? (d .| REQTYPE_STANDARD .| r) in
  let b := bRequest req in
  if b =? REQ_GetStatus then
    when std REQDIR_DEVICETOHOST REQREC_DEVICE || std REQDIR_DEVICETOHOST REQREC_ENDPOINT
    do USB_Device_GetStatus
  else if (b =? REQ_ClearFeature) || (b =? REQ_SetFeature) then
    when std REQDIR_HOSTTODEVICE REQREC_DEVICE || std REQDIR_HOSTTODEVICE REQREC_ENDPOINT
    do USB_Device_ClearSetFeature
  else if b =? REQ_SetAddress then
    when std REQDIR_HOSTTODEVICE REQREC_DEVICE do USB_Device_SetAddress
  else if b =? REQ_GetDescriptor then
    when std REQDIR_DEVICETOHOST REQREC_DEVICE || std REQDIR_DEVICETOHOST REQREC_INTERFACE
    do USB_Device_GetDescriptor
  else if b =? REQ_GetConfiguration then
    when std REQDIR_DEVICETOHOST REQREC_DEVICE do USB_Device_GetConfiguration
  else if b =? REQ_SetConfiguration then
    when std REQDIR_HOSTTODEVICE REQREC_DEVICE do USB_Device_SetConfiguration
  else ret tt.

Definition USB_Device_ProcessControlRequest : M unit :=
  read_request 8 0 ;;
  EVENT_USB_Device_ControlRequest PRE ;;
  setup <- Endpoint_IsSETUPReceived ;;
  (when setup do
     (req <- get_request ;;
      dispatch_request (bmRequestType req) req)) ;;
  setup <- Endpoint_IsSETUPReceived ;;
  when setup do
    (Endpoint_ClearSETUP ;;
     Endpoint_StallTransaction).

End Requests.
End Requests.

(** ** Footprint

    The library obeys a policy of the USB stack when the application's event handlers do,
    whatever may interrupt them. *)
Class EventsObey `{HW : Hardware} {EV : UsbEvents} (R : mcu -> list event -> mcu -> Prop) := {
  control_request_ok PRE : obeys R (@preempt _ PRE) -> obeys R (EVENT_USB_Device_ControlRequest PRE);
  configuration_changed_ok PRE :
    obeys R (@preempt _ PRE) -> obeys R (EVENT_USB_Device_ConfigurationChanged PRE);
  connect_ok PRE : obeys R (@preempt _ PRE) -> obeys R (EVENT_USB_Device_Connect PRE);
  disconnect_ok PRE : obeys R (@preempt _ PRE) -> obeys R (EVENT_USB_Device_Disconnect PRE);
  reset_ok PRE : obeys R (@preempt _ PRE) -> obeys R (EVENT_USB_Device_Reset PRE);
  start_of_frame_ok PRE : obeys R (@preempt _ PRE) -> obeys R (EVENT_USB_Device_StartOfFrame PRE) }.

#[export] Hint Resolve control_request_ok configuration_changed_ok connect_ok disconnect_ok
  reset_ok start_of_frame_ok : obey.

Section RequestsFootprint.
Import Requests.
Context {HW : Hardware} (R : mcu -> list event -> mcu -> Prop) {UP : UsbPolicy R}.
Context {PRE : Preempt} {FU : Fuel} (pre_ok : obeys R preempt).
Context {EV : UsbEvents} {EO : EventsObey R}.

Lemma obeys_read_request n i : obeys R (read_request n i).
Proof. revert i. induction n as [|n IH]; intros i; cbn [read_request]; obey. Qed.

Lemma obeys_USB_Device_ProcessControlRequest : obeys R USB_Device_ProcessControlRequest.
Proof. pose proof obeys_read_request. obey. Qed.
End RequestsFootprint.

#[export] Hint Resolve obeys_USB_Device_ProcessControlRequest : obey.
