(* ===== verification/Cdc.v ===== *)
(** * Cdc: the virtual serial port
    ([LUFA/Drivers/USB/Class/Device/CDCClassDevice.c])

    The firmware has one CDC interface, [VirtualSerial_CDC_Interface]; its configuration and
    state are the [cdc] component of the memory image.  The handlers
    [EVENT_CDC_Device_ControLineStateChanged] and [EVENT_CDC_Device_BreakSent] are the
    library's empty stubs and [EVENT_CDC_Device_LineEncodingChanged] is empty in [c_locc.c]. *)
From S2P Require Import Prelude Machine Logic Endpoint EndpointStream UsbController DeviceRequests.

Definition CDC_REQ_SetLineEncoding := 0x20.
Definition CDC_REQ_GetLineEncoding := 0x21.
Definition CDC_REQ_SetControlLineState := 0x22.
Definition CDC_REQ_SendBreak := 0x23.
Definition CDC_NOTIF_SerialState := 0x20.

Module Cdc.
Import Endpoint Stream Controller Requests.
Section Cdc.
Context {HW : Hardware} {PRE : Preempt} {FU : Fuel} {EV : UsbEvents}.

Definition get_cdc : M USB_ClassInfo_CDC_Device_t := gets cdc.

Definition put_line_encoding (l : CDC_LineEncoding_t) : M unit :=
  modify (fun s => let 'USB_ClassInfo_CDC_Device n i o t h d _ := cdc s in
                   set_cdc (USB_ClassInfo_CDC_Device n i o t h d l) s).

Definition put_host_to_device (h : Z) : M unit :=
  modify (fun s => let 'USB_ClassInfo_CDC_Device n i o t _ d l := cdc s in
                   set_cdc (USB_ClassInfo_CDC_Device n i o t h d l) s).

Definition CDC_Device_Event_Stub : M unit := ret tt.

(** [EVENT_CDC_Device_LineEncodingChanged] of [c_locc.c] *)
Definition EVENT_CDC_Device_LineEncodingChanged : M unit := ret tt.

Definition get_line_encoding : M unit :=
  Endpoint_ClearSETUP ;;
  spin_until Endpoint_IsINReady ;;
  c <- get_cdc ;; Endpoint_Write_32_LE (BaudRateBPS (LineEncoding c)) ;;
  c <- get_cdc ;; Endpoint_Write_8 (CharFormat (LineEncoding c)) ;;
  c <- get_cdc ;; Endpoint_Write_8 (ParityType (LineEncoding c)) ;;
  c <- get_cdc ;; Endpoint_Write_8 (DataBits (LineEncoding c)) ;;
  Endpoint_ClearIN ;;
  Endpoint_ClearStatusStage.

Definition set_line_encoding : M unit :=
  Endpoint_ClearSETUP ;;
  ok <- wait_attached Endpoint_IsOUTReceived ;;
  if negb ok then ret tt
  else
    b <- Endpoint_Read_32_LE ;;
    c <- get_cdc ;;
    put_line_encoding (CDC_LineEncoding b (CharFormat (LineEncoding c))
                         (ParityType (LineEncoding c)) (DataBits (LineEncoding c))) ;;
    f <- Endpoint_Read_8 ;;
    c <- get_cdc ;;
    put_line_encoding (CDC_LineEncoding (BaudRateBPS (LineEncoding c)) f
                         (ParityType (LineEncoding c)) (DataBits (LineEncoding c))) ;;
    p <- Endpoint_Read_8 ;;
    c <- get_cdc ;;
    put_line_encoding (CDC_LineEncoding (BaudRateBPS (LineEncoding c)) (CharFormat (LineEncoding c))
                         p (DataBits (LineEncoding c))) ;;
    d <- Endpoint_Read_8 ;;
    c <- get_cdc ;;
    put_line_encoding (CDC_LineEncoding (BaudRateBPS (LineEncoding c)) (CharFormat (LineEncoding c))
                         (ParityType (LineEncoding c)) d) ;;
    Endpoint_ClearOUT ;;
    Endpoint_ClearStatusStage ;;
    EVENT_CDC_Device_LineEncodingChanged.

Definition CDC_Device_ProcessControlRequest : M unit :=
  setup <- Endpoint_IsSETUPReceived ;;
  if negb setup then ret tt
  else
    req <- get_request ;;
    c <- get_cdc ;;
    if negb (wIndex req =? ControlInterfaceNumber c) then ret tt
    else
      let to_host := REQDIR_DEVICETOHOST .| REQTYPE_CLASS .| REQREC_INTERFACE in
      let to_device := REQDIR_HOSTTODEVICE .| REQTYPE_CLASS .| REQREC_INTERFACE in
      let b := bRequest req in
      if b =? CDC_REQ_GetLineEncoding then
        when bmRequestType req =? to_host do get_line_encoding
      else if b =? CDC_REQ_SetLineEncoding then
        when bmRequestType req =? to_device do set_line_encoding
      else if b =? CDC_REQ_SetControlLineState then
        when bmRequestType req =? to_device do
          (Endpoint_ClearSETUP ;;
           Endpoint_ClearStatusStage ;;
           req <- get_request ;;
           put_host_to_device (wValue req) ;;
           CDC_Device_Event_Stub)
      else if b =? CDC_REQ_SendBreak then
        when bmRequestType req =? to_device do
          (Endpoint_ClearSETUP ;;
           Endpoint_ClearStatusStage ;;
           CDC_Device_Event_Stub)
      else ret tt.

Definition with_type (e : USB_Endpoint_Table_t) (t : Z) : USB_Endpoint_Table_t :=
  USB_Endpoint_Table (Address e) (Size e) t (Banks e).

(** [memset(&State, 0, ...)] and the three endpoint types. *)
Definition reset_cdc (c : USB_ClassInfo_CDC_Device_t) : USB_ClassInfo_CDC_Device_t :=
  USB_ClassInfo_CDC_Device (ControlInterfaceNumber c)
    (with_type (DataINEndpoint c) EP_TYPE_BULK)
    (with_type (DataOUTEndpoint c) EP_TYPE_BULK)
    (with_type (NotificationEndpoint c) EP_TYPE_INTERRUPT)
    0 0 (CDC_LineEncoding 0 0 0 0).

Definition CDC_Device_ConfigureEndpoints : M bool :=
  modify (fun s => set_cdc (reset_cdc (cdc s)) s) ;;
  c <- get_cdc ;;
  ok <- Endpoint_ConfigureEndpointTable [DataINEndpoint c] ;;
  if negb ok then ret false
  else
    c <- get_cdc ;;
    ok <- Endpoint_ConfigureEndpointTable [DataOUTEndpoint c] ;;
    if negb ok then ret false
    else
      c <- get_cdc ;;
      ok <- Endpoint_ConfigureEndpointTable [NotificationEndpoint c] ;;
      if negb ok then ret false else ret true.

(** [(USB_DeviceState != DEVICE_STATE_Configured) || !(State.LineEncoding.BaudRateBPS)] *)
Definition port_closed : M bool :=
  d <- get_state ;;
  if decide (d = DEVICE_STATE_Configured) then
    c <- get_cdc ;; ret (negb (truth (BaudRateBPS (LineEncoding c))))
  else ret true.

Definition select_data_in : M unit :=
  c <- get_cdc ;; Endpoint_SelectEndpoint (Address (DataINEndpoint c)).

Definition select_data_out : M unit :=
  c <- get_cdc ;; Endpoint_SelectEndpoint (Address (DataOUTEndpoint c)).

Definition CDC_Device_Flush : M Z :=
  closed <- port_closed ;;
  if closed : bool then ret ENDPOINT_RWSTREAM_DeviceDisconnected
  else
    select_data_in ;;
    n <- Endpoint_BytesInEndpoint ;;
    if negb (truth n) then ret ENDPOINT_READYWAIT_NoError
    else
      rwal <- Endpoint_IsReadWriteAllowed ;;
      let BankFull := negb rwal in
      Endpoint_ClearIN ;;
      if BankFull then
        ErrorCode <- Endpoint_WaitUntilReady ;;
        if negb (ErrorCode =? ENDPOINT_READYWAIT_NoError) then ret ErrorCode
        else Endpoint_ClearIN ;; ret ENDPOINT_READYWAIT_NoError
      else ret ENDPOINT_READYWAIT_NoError.

Definition CDC_Device_USBTask : M unit :=
  closed <- port_closed ;;
  if closed : bool then ret tt
  else
    select_data_in ;;
    ready <- Endpoint_IsINReady ;;
    when ready do (CDC_Device_Flush ;; ret tt).

(** The stream functions are called with a [NULL] third argument here. *)
Definition stream_error (m : M stream_result) : M Z := r <- m ;; ret r.1.1.

(** [String]: the characters before the terminating zero. *)
Definition CDC_Device_SendString (String : list Z) : M Z :=
  closed <- port_closed ;;
  if closed : bool then ret ENDPOINT_RWSTREAM_DeviceDisconnected
  else
    select_data_in ;;
    stream_error (Endpoint_Write_Stream_LE (bytes_at String) (Z.of_nat (length String)) None).

Definition CDC_Device_SendData (Buffer : buffer) (Length : Z) : M Z :=
  closed <- port_closed ;;
  if closed : bool then ret ENDPOINT_RWSTREAM_DeviceDisconnected
  else
    select_data_in ;;
    stream_error (Endpoint_Write_Stream_LE Buffer Length None).

Definition CDC_Device_SendByte (Data : Z) : M Z :=
  closed <- port_closed ;;
  if closed : bool then ret ENDPOINT_RWSTREAM_DeviceDisconnected
  else
    select_data_in ;;
    rwal <- Endpoint_IsReadWriteAllowed ;;
    if negb rwal then
      Endpoint_ClearIN ;;
      ErrorCode <- Endpoint_WaitUntilReady ;;
      if negb (ErrorCode =? ENDPOINT_READYWAIT_NoError) then ret ErrorCode
      else Endpoint_Write_8 Data ;; ret ENDPOINT_READYWAIT_NoError
    else Endpoint_Write_8 Data ;; ret ENDPOINT_READYWAIT_NoError.

Definition CDC_Device_BytesReceived : M Z :=
  closed <- port_closed ;;
  if closed : bool then ret 0
  else
    select_data_out ;;
    out <- Endpoint_IsOUTReceived ;;
    if out : bool then
      n <- Endpoint_BytesInEndpoint ;;
      if negb (truth n) then Endpoint_ClearOUT ;; ret 0
      else Endpoint_BytesInEndpoint
    else ret 0.

Definition CDC_Device_ReceiveByte : M Z :=
  closed <- port_closed ;;
  if closed : bool then ret (-1)
  else
    select_data_out ;;
    out <- Endpoint_IsOUTReceived ;;
    if out : bool then
      n <- Endpoint_BytesInEndpoint ;;
      ReceivedByte <- (if truth n then Endpoint_Read_8 else ret (-1)) ;;
      n <- Endpoint_BytesInEndpoint ;;
      (when negb (truth n) do Endpoint_ClearOUT) ;;
      ret ReceivedByte
    else ret (-1).

(** The bytes of a packed [USB_Request_Header_t]. *)
Definition request_bytes (r : USB_Request_Header_t) : list Z :=
  [bmRequestType r; bRequest r]
  ++ le_bytes 2 (wValue r) ++ le_bytes 2 (wIndex r) ++ le_bytes 2 (wLength r).

(** [ControlLineStates.DeviceToHost] is 16 bits wide. *)
Definition CDC_Device_SendControlLineStateChange : M unit :=
  closed <- port_closed ;;
  if closed : bool then ret tt
  else
    c <- get_cdc ;;
    Endpoint_SelectEndpoint (Address (NotificationEndpoint c)) ;;
    let Notification :=
      USB_Request_Header (REQDIR_DEVICETOHOST .| REQTYPE_CLASS .| REQREC_INTERFACE)
        CDC_NOTIF_SerialState 0 0 2 in
    Endpoint_Write_Stream_LE (bytes_at (request_bytes Notification)) 8 None ;;
    c <- get_cdc ;;
    Endpoint_Write_Stream_LE (bytes_at (le_bytes 2 (DeviceToHost c))) 2 None ;;
    Endpoint_ClearIN.

Definition _FDEV_ERR := -1.
Definition _FDEV_EOF := -2.

Definition CDC_Device_putchar (c : Z) : M Z :=
  e <- CDC_Device_SendByte (u8 c) ;; ret (if truth e then _FDEV_ERR else 0).

Definition CDC_Device_getchar : M Z :=
  ReceivedByte <- CDC_Device_ReceiveByte ;;
  ret (if ReceivedByte <? 0 then _FDEV_EOF else ReceivedByte).

End Cdc.
End Cdc.

(** ** Footprint *)
Section CdcFootprint.
Import Cdc.
Context {HW : Hardware} (R : mcu -> list event -> mcu -> Prop) {UP : UsbPolicy R}.
Context {PRE : Preempt} {FU : Fuel} (pre_ok : obeys R preempt).

Lemma obeys_put_line_encoding l : obeys R (put_line_encoding l).
Proof.
  apply spec_modify; intros s; destruct (cdc s) eqn:E; [done|].
  apply usb_cdc_ok. rewrite E. repeat split.
Qed.

Lemma obeys_put_host_to_device h : obeys R (put_host_to_device h).
Proof.
  apply spec_modify; intros s; destruct (cdc s) eqn:E; [done|].
  apply usb_cdc_ok. rewrite E. repeat split.
Qed.

#[local] Hint Resolve obeys_put_line_encoding obeys_put_host_to_device : obey.

Lemma obeys_CDC_Device_ProcessControlRequest : obeys R CDC_Device_ProcessControlRequest.
Proof. obey. Qed.

Lemma obeys_CDC_Device_ConfigureEndpoints : obeys R CDC_Device_ConfigureEndpoints.
Proof.
  unfold CDC_Device_ConfigureEndpoints.
  apply obeys_bind; [typeclasses eauto| |intros; obey].
  apply (obeys_cdc R reset_cdc). intros c. repeat split.
Qed.

Lemma obeys_CDC_Device_SendByte c : obeys R (CDC_Device_SendByte c).
Proof. obey. Qed.

Lemma obeys_CDC_Device_ReceiveByte : obeys R CDC_Device_ReceiveByte.
Proof. obey. Qed.

Lemma obeys_CDC_Device_USBTask : obeys R CDC_Device_USBTask.
Proof. obey. Qed.
End CdcFootprint.

#[export] Hint Resolve obeys_CDC_Device_ProcessControlRequest obeys_CDC_Device_ConfigureEndpoints
  obeys_CDC_Device_SendByte obeys_CDC_Device_ReceiveByte obeys_CDC_Device_USBTask : obey.
