(* ===== verification/Locc.v ===== *)
(** * Locc: the lock driver ([locc.c])

    The electronic cylinder hangs on two pins of port D: its supply and a one-wire data
    line.  [do_next_locc_step], called from the main loop, takes it through wake-up, the open
    telegram, power-down and power-up, pacing itself with [wait_ticks], which the timer
    interrupt counts down. *)
From S2P Require Import Prelude Machine Logic.

Definition CYLINDER_IO_DDR := DDRD.
Definition CYLINDER_IO_PORT := PORTD.
Definition CYLINDER_IO_PIN := 5.
Definition CYLINDER_VCC_DDR := DDRD.
Definition CYLINDER_VCC_PORT := PORTD.
Definition CYLINDER_VCC_PIN := 6.
Definition CYLINDER_TELEGRAM_TIMING_DELAY := 50.

Definition statusTelegram : list Z := [0x01; 0x00; 0x00; 0x00; 0x00; 0x00; 0x20; 0x00].
Definition openTelegram : list Z := [0x02; 0x23; 0x42; 0xb7; 0x00; 0x00; 0x63; 0x00].

(** What [locc.c] needs from [c_locc.c]: a character to the host. *)
Class Console `{Hardware} := usb_putc : Preempt -> Z -> M unit.

Module Locc.
Section Locc.
Context {HW : Hardware} {PRE : Preempt} {CON : Console}.

Abbreviation putc c := (usb_putc PRE c).

(** [while(value--) _delay_us(us);] *)
Fixpoint repeat_delay (value : nat) (us : Z) : M unit :=
  match value with
  | O => ret tt
  | S n => delay_us us ;; repeat_delay n us
  end.

Definition systemDelay10us (value : Z) : M unit := repeat_delay (Z.to_nat (u8 value)) 10.
Definition systemDelay1ms (value : Z) : M unit := repeat_delay (Z.to_nat (u8 value)) 1000.
Definition systemDelay10ms (value : Z) : M unit := repeat_delay (Z.to_nat (u8 value)) 10000.
Definition systemDelay1s (value : Z) : M unit := repeat_delay (Z.to_nat (u8 value)) 1000000.

(** "generate logical HIGH" and "generate logical LOW" *)
Definition io_high : M unit :=
  clear_bits CYLINDER_IO_DDR (bit CYLINDER_IO_PIN) ;;
  set_bits CYLINDER_IO_PORT (bit CYLINDER_IO_PIN).

Definition io_low : M unit :=
  set_bits CYLINDER_IO_DDR (bit CYLINDER_IO_PIN) ;;
  clear_bits CYLINDER_IO_PORT (bit CYLINDER_IO_PIN).

Definition powerdown_locc : M unit :=
  io_low ;;
  clear_bits CYLINDER_VCC_PORT (bit CYLINDER_VCC_PIN).

Definition powerup_locc : M unit :=
  io_high ;;
  set_bits CYLINDER_VCC_PORT (bit CYLINDER_VCC_PIN).

Definition wakeup_locc : M unit :=
  io_high ;;
  systemDelay10us CYLINDER_TELEGRAM_TIMING_DELAY ;;
  io_low ;;
  systemDelay10us (2 * CYLINDER_TELEGRAM_TIMING_DELAY) ;;
  io_high.

(** Bit [i] of a word: HIGH then LOW for 1, LOW then HIGH for 0. *)
Definition send_bit (word i : Z) : M unit :=
  if truth (word .>> i .& 1) then
    io_high ;; systemDelay10us CYLINDER_TELEGRAM_TIMING_DELAY ;;
    io_low ;; systemDelay10us CYLINDER_TELEGRAM_TIMING_DELAY
  else
    io_low ;; systemDelay10us CYLINDER_TELEGRAM_TIMING_DELAY ;;
    io_high ;; systemDelay10us CYLINDER_TELEGRAM_TIMING_DELAY.

(** [for(i=7; i>=0; i--)]: the low [n] bits, from the top. *)
Fixpoint send_bits (n : nat) (word : Z) : M unit :=
  match n with
  | O => ret tt
  | S n' => send_bit word (Z.of_nat n') ;; send_bits n' word
  end.

(** [n] rounds of [for(j=0; j<=length;j++)], from word [j] on; [telegram] is the memory
    behind the pointer. *)
Fixpoint send_words (n : nat) (telegram : Z -> Z) (j : Z) : M unit :=
  match n with
  | O => ret tt
  | S n' => send_bits 8 (telegram j) ;; send_words n' telegram (j + 1)
  end.

Definition sendCylinderTelegram (telegram : Z -> Z) (length : Z) : M unit :=
  send_words (Z.to_nat (length + 1)) telegram 0 ;;
  io_high.

(** The memory at [openTelegram]: its eight words and what follows them. *)
Definition openTelegram_memory (j : Z) : Z :=
  default word_after_openTelegram (openTelegram !! Z.to_nat j).

Definition open_locc : M unit := sendCylinderTelegram openTelegram_memory 8.

(** [case SLEEP], also reached from [case RESET]. *)
Definition state_machine_sleep : M unit :=
  put_locc_state SLEEP ;;
  putc (ch "[") ;;
  put_wait_ticks 0.

Definition state_machine (new_state : Z) : M unit :=
  if new_state =? SLEEP then state_machine_sleep
  else
    put_locc_state new_state ;;
    if new_state =? POWERUP then putc (ch "]") ;; powerup_locc ;; put_wait_ticks 50
    else if new_state =? AWAKEN then putc (ch "{") ;; wakeup_locc ;; put_wait_ticks 59
    else if new_state =? OPEN then putc (ch "}") ;; open_locc ;; put_wait_ticks 10000
    else if new_state =? POWERDOWN then putc 34 ;; powerdown_locc ;; put_wait_ticks 2
    else if new_state =? RESET then state_machine_sleep
    else ret tt.

Definition loccStartOpening : M unit :=
  st <- get_locc_state ;;
  when st =? SLEEP do (putc (ch "|") ;; state_machine POWERUP).

(** [++state]: the enumeration is one byte wide ([-fshort-enums]). *)
Definition loccPoll : M unit :=
  putc (ch ">") ;;
  st <- get_locc_state ;;
  if st =? SLEEP then ret tt
  else
    t <- get_wait_ticks ;;
    when t =? 0 do
      (st <- get_locc_state ;;
       put_locc_state (u8 (st + 1)) ;;
       state_machine (u8 (st + 1))).

Definition loccPowerDown : M unit := powerdown_locc.
Definition loccPowerUp : M unit := powerup_locc.

(** ** The opening cycle driven by the main loop *)

Definition start_locking : M unit := put_step 1.

Definition timer_is_expired : M bool :=
  t <- get_wait_ticks ;; ret (negb (0 <? t)).

Definition set_wait_time (millis : Z) : M unit := put_wait_ticks millis.

Definition do_locc_step (step : Z) : M unit :=
  k <- get_step ;;
  if k =? 0 then set_wait_time 0 ;; put_step 1
  else if k =? 1 then wakeup_locc ;; put_step 2 ;; set_wait_time 59
  else if k =? 2 then open_locc ;; set_wait_time 15000 ;; put_step 3
  else if k =? 3 then powerdown_locc ;; set_wait_time 5000 ;; put_step 4
  else if k =? 4 then powerup_locc ;; set_wait_time 5000 ;; put_step 0
  else ret tt.

Definition do_next_locc_step : M bool :=
  expired <- timer_is_expired ;;
  (when expired do (k <- get_step ;; do_locc_step k)) ;;
  k <- get_step ;;
  if 0 <? k then ret true
  else putc (ch ".") ;; ret false.

Definition loccSetup : M unit :=
  clear_bits CYLINDER_IO_DDR (bit CYLINDER_IO_PIN) ;;
  set_bits CYLINDER_IO_PORT (bit CYLINDER_IO_PIN) ;;
  set_bits CYLINDER_VCC_DDR (bit CYLINDER_VCC_PIN) ;;
  clear_bits CYLINDER_VCC_PORT (bit CYLINDER_VCC_PIN) ;;
  set_bits TIMSK0 (bit TOIE0) ;;
  wr TCCR0B 0x03 ;;
  wr TCNT0 0x06 ;;
  powerup_locc.

End Locc.

(** The timer interrupt runs with interrupts disabled. *)
Section Timer.
Context {HW : Hardware}.
#[local] Existing Instance no_preempt.

Definition ISR_TIMER0_OVF_vect : M unit :=
  wr TCNT0 0x06 ;;
  t <- get_wait_ticks ;;
  when 0 <? t do
    (t <- get_wait_ticks ;;
     put_wait_ticks (u32 (t - 1))).
End Timer.
End Locc.

(** ** The lock's pins as seen from outside

    [pins t] is what a log segment does to the cylinder: writes of its pins (direction of the
    data line; level of the data line and of the supply) and the pauses in between. *)
Inductive pin_event :=
  | Ddr (io : bool)
  | Port (io vcc : bool)
  | Pause (us : Z).

Definition pin_event_of (e : event) : option pin_event :=
  match e with
  | Wr DDRD _ v => Some (Ddr (Z.testbit v CYLINDER_IO_PIN))
  | Wr PORTD _ v => Some (Port (Z.testbit v CYLINDER_IO_PIN) (Z.testbit v CYLINDER_VCC_PIN))
  | Delay us => Some (Pause us)
  | _ => None
  end.

Definition pins (t : list event) : list pin_event := omap pin_event_of t.

(** Timer interrupts taken: each one reloads [TCNT0]. *)
Definition tick (e : event) : Z := match e with Wr TCNT0 _ _ => 1 | _ => 0 end.
Fixpoint ticks (t : list event) : Z := match t with [] => 0 | e :: t' => tick e + ticks t' end.

Lemma pins_app t t' : pins (t ++ t') = pins t ++ pins t'.
Proof. apply omap_app. Qed.

Lemma ticks_app t t' : ticks (t ++ t') = ticks t + ticks t'.
Proof. induction t as [|e t IH]; simpl; lia. Qed.

Lemma ticks_nonneg t : 0 <= ticks t.
Proof. induction t as [|[r ? ?|r ? ?|] t IH]; simpl; try destruct r; simpl; lia. Qed.

(** Everything but the lock's pins: the application's variables, the opening cycle's position
    and the other port registers stay as they are, and [wait_ticks] has counted the timer
    interrupts down to, at most, zero. *)
Section Quiet.
Context {HW : Hardware}.

Definition frame (s : mcu) (t : list event) (s' : mcu) : Prop :=
  app s' = app s /\ current_locc_step (locc s') = current_locc_step (locc s)
  /\ state (locc s') = state (locc s)
  /\ regs s' PORTC = regs s PORTC /\ regs s' DDRB = regs s DDRB
  /\ (is_u32 (wait_ticks (locc s)) ->
      wait_ticks (locc s') = Z.max 0 (wait_ticks (locc s) - ticks t)).

Definition gpio (s : mcu) : Z * Z := (regs s DDRD, regs s PORTD).

Definition lock_quiet (s : mcu) (t : list event) (s' : mcu) : Prop :=
  gpio s' = gpio s /\ pins t = [] /\ frame s t s'.

(** A run whose effect on the two port registers is [f] and on the pins [w]. *)
Definition drives (f : Z * Z -> Z * Z) (w : Z * Z -> list pin_event)
    (s : mcu) (t : list event) (s' : mcu) : Prop :=
  gpio s' = f (gpio s) /\ pins t = w (gpio s) /\ frame s t s'.

Lemma wait_is_u32 w n : is_u32 w -> 0 <= n -> is_u32 (Z.max 0 (w - n)).
Proof. unfold is_u. lia. Qed.

Lemma frame_refl s : frame s [] s.
Proof. unfold frame, is_u. cbn. split_and!; try done. lia. Qed.

Lemma frame_trans s t s1 t' s2 : frame s t s1 -> frame s1 t' s2 -> frame s (t ++ t') s2.
Proof.
  intros (A1 & A2 & A3 & A4 & A5 & A6) (B1 & B2 & B3 & B4 & B5 & B6).
  unfold frame. split_and!; try congruence. intros Hw. rewrite ticks_app.
  pose proof (ticks_nonneg t). pose proof (ticks_nonneg t').
  rewrite B6; rewrite A6 by done; [lia|by apply wait_is_u32].
Qed.

Lemma drives_trans f w f' w' s t s1 t' s2 :
  drives f w s t s1 -> drives f' w' s1 t' s2 ->
  drives (fun g => f' (f g)) (fun g => w g ++ w' (f g)) s (t ++ t') s2.
Proof.
  intros (A1 & A2 & A3) (B1 & B2 & B3). unfold drives. rewrite pins_app, A2, B2, B1, A1.
  split_and!; [done|done|by eapply frame_trans].
Qed.

Lemma lock_quiet_drives s t s' : lock_quiet s t s' <-> drives id (fun _ => []) s t s'.
Proof. done. Qed.

#[export] Instance lock_quiet_policy : Policy lock_quiet.
Proof.
  split.
  - intros s. unfold lock_quiet. split_and!; [done..|apply frame_refl].
  - intros s t s1 t' s2 H1 H2. exact (drives_trans id (fun _ => []) id (fun _ => []) s t s1 t' s2 H1 H2).
Qed.

(** The USB stack never touches the lock. *)
Lemma usb_access_quiet r (e : event) s s' :
  usb_reg r = true -> (exists ep v, e = Rd r ep v \/ e = Wr r ep v) ->
  (forall r', usb_reg r' = false -> regs s' r' = regs s r') ->
  app s' = app s -> locc s' = locc s -> lock_quiet s [e] s'.
Proof.
  intros Hr (ep & v & He) Hregs Happ Hl.
  assert (pins [e] = [] /\ ticks [e] = 0) as [Hp Ht] by (destruct He as [-> | ->], r; done).
  unfold lock_quiet, frame, gpio. rewrite !Hregs, Hp, Ht, Happ, Hl by done.
  split_and!; try done. unfold is_u. lia.
Qed.

#[export] Instance lock_quiet_usb : UsbPolicy lock_quiet.
Proof.
  split.
  - typeclasses eauto.
  - intros r Hr. apply spec_raw_read; intros;
      (apply (usb_access_quiet r); [done|eauto|done|done|done]).
  - intros r v Hr. apply spec_raw_write. intros s.
    apply (usb_access_quiet r); [done|eauto| | |].
    + intros r' Hr'. destruct (plain r); [|done]. cbn. by case_decide; [subst; congruence|].
    + by destruct (plain r).
    + by destruct (plain r).
  - intros s u _. exact (policy_refl s).
  - intros s c _. exact (policy_refl s).
  - intros s h. exact (policy_refl s).
Qed.
End Quiet.

(** A timer interrupt is one tick. *)
Section Tick.
Context {HW : Hardware}.

(** Nothing comes between the bytes of an access inside the handler. *)
Lemma get_wait_ticks_atomic s :
  @get_wait_ticks _ no_preempt s = Some (u32 (wait_ticks (locc s)), s).
Proof.
  unfold get_wait_ticks, get_wait_byte, preempt, no_preempt, bind, ret, gets.
  by rewrite <- (le_value_bytes 4 (wait_ticks (locc s)) : _ = u32 _).
Qed.

Lemma put_wait_ticks_atomic t s :
  @put_wait_ticks _ no_preempt t s =
  let 'LoccGlobals _ st k := locc s in Some (tt, set_locc (LoccGlobals (u32 t) st k) s).
Proof.
  assert (forall b0 b1 b2 b3, is_u8 b0 -> is_u8 b1 -> is_u8 b2 -> is_u8 b3 ->
    le_bytes 4 (le_value [b0; b1; b2; b3]) = [b0; b1; b2; b3]) as Hle
    by (intros; by apply (le_bytes_value [_; _; _; _]), Forall_cons, Forall_cons, Forall_cons, Forall_singleton).
  assert (forall z, is_u8 (u8 z)) as Hu by (intros; by apply wrap_is_u).
  destruct s as [h r u c [w st k] a m tr].
  unfold put_wait_ticks, put_wait_byte, preempt, no_preempt, bind, ret, modify.
  pose proof (Forall_le_bytes 4 w) as Hw. destruct (le_bytes 4 w) as [|c0 [|c1 [|c2 [|c3 []]]]] eqn:E;
    try done. cbn [locc set_locc]. rewrite E. cbn [insert list_insert].
  apply Forall_cons_iff in Hw as [? Hw]. apply Forall_cons_iff in Hw as [? Hw].
  apply Forall_cons_iff in Hw as [? Hw]. apply Forall_cons_iff in Hw as [? _].
  do 3 (rewrite Hle by auto; cbn [insert list_insert]).
  rewrite <- (le_value_bytes 4 t : _ = u32 _). cbn [le_bytes]. by rewrite !Z.shiftr_shiftr by done.
Qed.

Lemma timer_quiet : obeys lock_quiet Locc.ISR_TIMER0_OVF_vect.
Proof.
  intros s [] s' H. set (s0 := log (Wr TCNT0 (uenum s) 6) (set_hw (hw_write TCNT0 (uenum s) 6 (hw s)) s)).
  assert (Locc.ISR_TIMER0_OVF_vect s =
    if 0 <? u32 (wait_ticks (locc s)) then
      @put_wait_ticks _ no_preempt (u32 (u32 (wait_ticks (locc s)) - 1)) s0 else Some (tt, s0)) as E.
  { unfold Locc.ISR_TIMER0_OVF_vect, bind. change (wr TCNT0 6 s) with (Some (tt, s0)). cbv iota beta.
    rewrite get_wait_ticks_atomic. change (locc s0) with (locc s).
    destruct (0 <? u32 (wait_ticks (locc s))); [|done]. by rewrite get_wait_ticks_atomic. }
  rewrite E, put_wait_ticks_atomic in H. change (locc s0) with (locc s) in H.
  exists [Wr TCNT0 (uenum s) 6]. destruct (locc s) as [w st k] eqn:El. cbn [wait_ticks] in H.
  unfold lock_quiet, frame. rewrite El. cbn [wait_ticks state current_locc_step].
  destruct (Z.ltb_spec 0 (u32 w)) as [Hw|Hw]; injection H as <-; (split; [done|]);
    cbn; rewrite ?El; cbn; split_and!; try done; intros Hu;
    rewrite wrap_id in Hw by done; [|unfold is_u in Hu; lia].
  rewrite (wrap_id 32 w) by done. unfold is_u in Hu.
  assert (u32 (w - 1) = w - 1) as -> by (apply wrap_id; unfold is_u; lia).
  rewrite wrap_id by (unfold is_u; lia). lia.
Qed.
End Tick.

(** Side conditions on pin numbers. *)
Ltac pin := unfold CYLINDER_IO_PIN, CYLINDER_VCC_PIN; lia.

(** ** Driving the pins

    Under any interrupts that are quiet towards the lock, every routine of the driver has a
    fixed effect on the pins. *)
Section Drive.
Context {HW : Hardware} {PRE : Preempt} (pre_ok : obeys lock_quiet preempt).
Import Locc.

Definition does {A} (m : M A) (f : Z * Z -> Z * Z) (w : Z * Z -> list pin_event) : Prop :=
  spec m (fun s _ t s' => drives f w s t s').

Lemma does_ret {A} (a : A) : does (ret a) id (fun _ => []).
Proof. apply spec_ret. intros s. exact (policy_refl (R := lock_quiet) s). Qed.

Lemma does_bind {A B} (m : M A) (k : A -> M B) f w f' w' :
  does m f w -> (forall a, does (k a) f' w') ->
  does (bind m k) (fun g => f' (f g)) (fun g => w g ++ w' (f g)).
Proof.
  intros Hm Hk. eapply spec_bind; [exact Hm|exact Hk|]. cbn. intros.
  by eapply drives_trans.
Qed.

Lemma does_ext {A} (m : M A) f w f' w' :
  does m f w -> (forall g, f' g = f g) -> (forall g, w' g = w g) -> does m f' w'.
Proof.
  intros Hm Hf Hw. eapply spec_conseq; [exact Hm|]. cbn. unfold drives.
  intros s a t s' (-> & -> & ?). by rewrite Hf, Hw.
Qed.

Lemma does_quiet {A} (m : M A) : obeys lock_quiet m -> does m id (fun _ => []).
Proof. exact id. Qed.

Lemma does_delay us : does (delay_us us) id (fun _ => [Pause us]).
Proof.
  intros s [] s' [= <-]. exists [Delay us]. split; [done|].
  unfold drives. split_and!; [done|done|]. unfold frame, is_u. cbn. split_and!; try done. lia.
Qed.

(** The new values of [DDRD] and [PORTD]. *)
Definition set_ddr (g : Z * Z) (v : Z) : Z * Z := (u8 v, g.2).
Definition set_port (g : Z * Z) (v : Z) : Z * Z := (g.1, u8 v).
Definition ddr_event (v : Z) : pin_event := Ddr (Z.testbit (u8 v) CYLINDER_IO_PIN).
Definition port_event (v : Z) : pin_event :=
  Port (Z.testbit (u8 v) CYLINDER_IO_PIN) (Z.testbit (u8 v) CYLINDER_VCC_PIN).

Lemma spec_rd_gpio r : plain r = true -> usb_reg r = false ->
  spec (rd r) (fun s v t s' => lock_quiet s t s' /\ v = regs s' r).
Proof.
  intros Hp Hu. eapply spec_bind; [exact pre_ok| |].
  - intros u. apply (spec_raw_read r (fun s v t s' => lock_quiet s t s' /\ v = regs s' r));
      [|congruence].
    intros s _. split; [|done].
    unfold lock_quiet, frame, is_u, gpio. cbn. split_and!; try done; destruct r; try done; cbn; lia.
  - cbn. intros s [] t s1 b t' s2 H1 [H2 ->]. split; [|done]. by eapply (policy_trans (R := lock_quiet)).
Qed.

Lemma raw_write_ddr v :
  spec (raw_write DDRD v) (fun s _ t s' => drives (fun g => set_ddr g v) (fun _ => [ddr_event v]) s t s').
Proof.
  apply spec_raw_write. intros s. unfold drives, frame, is_u. cbn. split_and!; try done. lia.
Qed.

Lemma raw_write_port v :
  spec (raw_write PORTD v)
    (fun s _ t s' => drives (fun g => set_port g v) (fun _ => [port_event v]) s t s').
Proof.
  apply spec_raw_write. intros s. unfold drives, frame, is_u. cbn. split_and!; try done. lia.
Qed.

(** Read-modify-write of a port register: interrupts in between change nothing. *)
Lemma rmw_ddr (f : Z -> Z) :
  does (v <- rd DDRD ;; wr DDRD (f v)) (fun g => set_ddr g (f g.1)) (fun g => [ddr_event (f g.1)]).
Proof.
  eapply (spec_bind _ _ _ (fun v s _ t s' =>
    drives (fun g => set_ddr g (f v)) (fun _ => [ddr_event (f v)]) s t s')).
  - by apply spec_rd_gpio.
  - intros v. eapply spec_bind; [exact pre_ok|intros; apply raw_write_ddr|].
    cbn. intros s [] t s1 [] t' s2 H1 H2. exact (drives_trans id (fun _ => []) _ _ _ _ _ _ _ H1 H2).
  - cbn. intros s v t s1 [] t' s2 [H1 ->] H2.
    pose proof (drives_trans id (fun _ => []) _ _ _ _ _ _ _ H1 H2) as H.
    destruct H1 as (Hg & _). unfold gpio in Hg. injection Hg as Hd Hp.
    rewrite Hd in H. exact H.
Qed.

Lemma rmw_port (f : Z -> Z) :
  does (v <- rd PORTD ;; wr PORTD (f v)) (fun g => set_port g (f g.2)) (fun g => [port_event (f g.2)]).
Proof.
  eapply (spec_bind _ _ _ (fun v s _ t s' =>
    drives (fun g => set_port g (f v)) (fun _ => [port_event (f v)]) s t s')).
  - by apply spec_rd_gpio.
  - intros v. eapply spec_bind; [exact pre_ok|intros; apply raw_write_port|].
    cbn. intros s [] t s1 [] t' s2 H1 H2. exact (drives_trans id (fun _ => []) _ _ _ _ _ _ _ H1 H2).
  - cbn. intros s v t s1 [] t' s2 [H1 ->] H2.
    pose proof (drives_trans id (fun _ => []) _ _ _ _ _ _ _ H1 H2) as H.
    destruct H1 as (Hg & _). unfold gpio in Hg. injection Hg as Hd Hp.
    rewrite Hp in H. exact H.
Qed.

(** Levels of the data line ("HIGH": input with pull-up; "LOW": driven low) and of the supply. *)
Definition high (g : Z * Z) : Z * Z := (u8 (g.1 .&~ bit CYLINDER_IO_PIN), u8 (g.2 .| bit CYLINDER_IO_PIN)).
Definition low (g : Z * Z) : Z * Z := (u8 (g.1 .| bit CYLINDER_IO_PIN), u8 (g.2 .&~ bit CYLINDER_IO_PIN)).
Definition vcc (g : Z * Z) : bool := Z.testbit g.2 CYLINDER_VCC_PIN.

(** The pin events of the line taking a level, with the supply at [v]. *)
Definition level (v b : bool) : list pin_event := [Ddr (negb b); Port b v].

Definition pauses (n : nat) : list pin_event := replicate n (Pause 10).

Lemma does_io_high : does io_high high (fun g => level (vcc g) true).
Proof.
  eapply does_ext.
  - apply does_bind; [apply (rmw_ddr (fun v => v .&~ bit CYLINDER_IO_PIN))|].
    intros []. apply (rmw_port (fun v => v .| bit CYLINDER_IO_PIN)).
  - done.
  - intros g. unfold level, ddr_event, port_event, vcc. cbn [Datatypes.app set_ddr set_port fst snd].
    rewrite !testbit_u8 by pin. rewrite testbit_clr, !testbit_set by pin.
    by rewrite andb_false_r, orb_true_r, orb_false_r.
Qed.

Lemma does_io_low : does io_low low (fun g => level (vcc g) false).
Proof.
  eapply does_ext.
  - apply does_bind; [apply (rmw_ddr (fun v => v .| bit CYLINDER_IO_PIN))|].
    intros []. apply (rmw_port (fun v => v .&~ bit CYLINDER_IO_PIN)).
  - done.
  - intros g. unfold level, ddr_event, port_event, vcc. cbn [Datatypes.app set_ddr set_port fst snd].
    rewrite !testbit_u8 by pin. rewrite testbit_set, !testbit_clr by pin.
    by rewrite orb_true_r, andb_false_r, andb_true_r.
Qed.

Lemma does_repeat_delay n : does (repeat_delay n 10) id (fun _ => pauses n).
Proof.
  induction n as [|n IH]; cbn [repeat_delay]; [apply does_ret|].
  eapply does_ext; [apply does_bind; [apply does_delay|intros []; exact IH]|done|done].
Qed.

Lemma vcc_high g : vcc (high g) = vcc g.
Proof.
  unfold vcc, high. cbn [snd]. rewrite testbit_u8, testbit_set by pin. apply orb_false_r.
Qed.

Lemma vcc_low g : vcc (low g) = vcc g.
Proof.
  unfold vcc, low. cbn [snd]. rewrite testbit_u8, testbit_clr by pin. apply andb_true_r.
Qed.

(** A bit on the wire: each half lasts 500 us. *)
Definition wave_bit (v b : bool) : list pin_event :=
  level v b ++ pauses 50 ++ level v (negb b) ++ pauses 50.

Definition after_bit (b : bool) (g : Z * Z) : Z * Z := if b then low (high g) else high (low g).

Lemma does_send_bit word i : 0 <= i ->
  does (send_bit word i) (after_bit (Z.testbit word i)) (fun g => wave_bit (vcc g) (Z.testbit word i)).
Proof.
  intros Hi. unfold send_bit, systemDelay10us.
  assert (truth (word .>> i .& 1) = Z.testbit word i) as ->.
  { change 1 with (bit 0). rewrite truth_land_bit, Z.shiftr_spec by done. by rewrite Z.add_0_l. }
  destruct (Z.testbit word i).
  - eapply does_ext.
    + apply does_bind; [apply does_io_high|]. intros []. apply does_bind; [apply does_repeat_delay|].
      intros []. apply does_bind; [apply does_io_low|]. intros []. apply does_repeat_delay.
    + done.
    + intros g. unfold wave_bit, id. cbv beta. by rewrite vcc_high.
  - eapply does_ext.
    + apply does_bind; [apply does_io_low|]. intros []. apply does_bind; [apply does_repeat_delay|].
      intros []. apply does_bind; [apply does_io_high|]. intros []. apply does_repeat_delay.
    + done.
    + intros g. unfold wave_bit, id. cbv beta. by rewrite vcc_low.
Qed.

Lemma vcc_after_bit b g : vcc (after_bit b g) = vcc g.
Proof. destruct b; unfold after_bit; by rewrite ?vcc_low, ?vcc_high, ?vcc_low. Qed.

(** The low [n] bits of a word, most significant first. *)
Fixpoint word_bits (n : nat) (word : Z) : list bool :=
  match n with
  | O => []
  | S n' => Z.testbit word (Z.of_nat n') :: word_bits n' word
  end.

Definition wave_bits (v : bool) (bs : list bool) : list pin_event := mjoin (wave_bit v <$> bs).
Definition after_bits (bs : list bool) (g : Z * Z) : Z * Z := fold_left (fun g b => after_bit b g) bs g.

Lemma vcc_after_bits bs g : vcc (after_bits bs g) = vcc g.
Proof. revert g. induction bs as [|b bs IH]; intros g; [done|].
  change (after_bits (b :: bs) g) with (after_bits bs (after_bit b g)). rewrite IH. apply vcc_after_bit.
Qed.

Lemma does_send_bits n word :
  does (send_bits n word) (after_bits (word_bits n word)) (fun g => wave_bits (vcc g) (word_bits n word)).
Proof.
  induction n as [|n IH]; cbn [send_bits word_bits]; [apply does_ret|].
  eapply does_ext; [apply does_bind; [apply does_send_bit; lia|intros []; exact IH]|done|].
  intros g. cbv beta. by rewrite vcc_after_bit.
Qed.

(** All bits of [n] words from [j] on. *)
Fixpoint telegram_bits (n : nat) (telegram : Z -> Z) (j : Z) : list bool :=
  match n with
  | O => []
  | S n' => word_bits 8 (telegram j) ++ telegram_bits n' telegram (j + 1)
  end.

Lemma does_send_words n telegram j :
  does (send_words n telegram j) (after_bits (telegram_bits n telegram j))
    (fun g => wave_bits (vcc g) (telegram_bits n telegram j)).
Proof.
  revert j. induction n as [|n IH]; intros j; cbn [send_words telegram_bits]; [apply does_ret|].
  eapply does_ext; [apply does_bind; [apply does_send_bits|intros []; apply IH]| |].
  - intros g. apply fold_left_app.
  - intros g. cbv beta. rewrite vcc_after_bits. unfold wave_bits. by rewrite fmap_app, join_app.
Qed.

(** What a telegram of [n] words looks like on the wire. *)
Definition wave_telegram (v : bool) (bs : list bool) : list pin_event := wave_bits v bs ++ level v true.

Lemma does_sendCylinderTelegram telegram len :
  let bs := telegram_bits (Z.to_nat (len + 1)) telegram 0 in
  does (sendCylinderTelegram telegram len) (fun g => high (after_bits bs g))
    (fun g => wave_telegram (vcc g) bs).
Proof.
  intros bs. eapply does_ext; [apply does_bind; [apply does_send_words|intros []; apply does_io_high]|done|].
  intros g. cbv beta. by rewrite vcc_after_bits.
Qed.

Definition wave_wakeup (v : bool) : list pin_event :=
  level v true ++ pauses 50 ++ level v false ++ pauses 100 ++ level v true.

Lemma does_wakeup_locc : does wakeup_locc (fun g => high (low (high g))) (fun g => wave_wakeup (vcc g)).
Proof.
  eapply does_ext.
  - apply does_bind; [apply does_io_high|]. intros []. apply does_bind; [apply does_repeat_delay|].
    intros []. apply does_bind; [apply does_io_low|]. intros [].
    apply does_bind; [apply does_repeat_delay|]. intros []. apply does_io_high.
  - done.
  - intros g. cbv beta. unfold id. by rewrite vcc_low, vcc_high.
Qed.

Definition supply_off (g : Z * Z) : Z * Z := (g.1, u8 (g.2 .&~ bit CYLINDER_VCC_PIN)).
Definition supply_on (g : Z * Z) : Z * Z := (g.1, u8 (g.2 .| bit CYLINDER_VCC_PIN)).

Lemma does_powerdown_locc :
  does powerdown_locc (fun g => supply_off (low g)) (fun g => level (vcc g) false ++ [Port false false]).
Proof.
  eapply does_ext.
  - apply does_bind; [apply does_io_low|]. intros []. apply (rmw_port (fun v => v .&~ bit CYLINDER_VCC_PIN)).
  - done.
  - intros g. cbv beta. unfold port_event, low. cbn [snd].
    rewrite !testbit_u8, !testbit_clr, !testbit_u8, !testbit_clr by pin.
    by rewrite !andb_false_r, ?andb_true_r.
Qed.

Lemma does_powerup_locc :
  does powerup_locc (fun g => supply_on (high g)) (fun g => level (vcc g) true ++ [Port true true]).
Proof.
  eapply does_ext.
  - apply does_bind; [apply does_io_high|]. intros []. apply (rmw_port (fun v => v .| bit CYLINDER_VCC_PIN)).
  - done.
  - intros g. cbv beta. unfold port_event, high. cbn [snd].
    rewrite !testbit_u8, !testbit_set, !testbit_u8, !testbit_set by pin.
    by rewrite !orb_true_r, ?orb_false_r.
Qed.
End Drive.

(** ** Receiving a telegram

    A receiver sees the line as levels with durations ([line]) and reads two half-bits of
    500 us each, HIGH-LOW for 1 and LOW-HIGH for 0 ([decode]). *)
Fixpoint segments (cur : bool * Z) (w : list pin_event) : list (bool * Z) :=
  match w with
  | [] => [cur]
  | Ddr _ :: w' => segments cur w'
  | Port b _ :: w' => cur :: segments (b, 0) w'
  | Pause us :: w' => segments (cur.1, cur.2 + us) w'
  end.

(** The levels from the first write on. *)
Definition line (w : list pin_event) : list (bool * Z) := tail (segments (true, 0) w).

Fixpoint decode (l : list (bool * Z)) : list bool :=
  match l with
  | (a, t1) :: (b, t2) :: l' =>
      if (t1 =? 500) && (t2 =? 500) && xorb a b then a :: decode l' else []
  | _ => []
  end.

Lemma segments_pauses n b us w :
  segments (b, us) (pauses n ++ w) = segments (b, us + 10 * Z.of_nat n) w.
Proof.
  revert us. induction n as [|n IH]; intros us; cbn.
  - f_equal. f_equal. lia.
  - rewrite IH. f_equal. f_equal. lia.
Qed.

Lemma segments_level cur v b w : segments cur (level v b ++ w) = cur :: segments (b, 0) w.
Proof. done. Qed.

Lemma segments_bit cur v b w :
  segments cur (wave_bit v b ++ w) = cur :: (b, 500) :: segments (negb b, 500) w.
Proof.
  unfold wave_bit. rewrite <- !app_assoc, segments_level, segments_pauses, segments_level.
  by rewrite segments_pauses.
Qed.

Lemma segments_wave cur v bs :
  segments cur (wave_bits v bs ++ level v true) =
    cur :: mjoin ((fun b : bool => [(b, 500); (negb b, 500)]) <$> bs) ++ [(true, 0)].
Proof.
  revert cur. induction bs as [|b bs IH]; intros cur; [done|].
  change (wave_bits v (b :: bs)) with (wave_bit v b ++ wave_bits v bs). rewrite <- app_assoc.
  by rewrite segments_bit, IH.
Qed.

Lemma decode_wave v bs : decode (line (wave_telegram v bs)) = bs.
Proof.
  unfold line, wave_telegram. rewrite segments_wave. cbn [tail].
  induction bs as [|b bs IH]; [done|]. rewrite <- IH at 2.
  rewrite fmap_cons. generalize ((fun b : bool => [(b, 500); (negb b, 500)]) <$> bs).
  intros l. by destruct b.
Qed.

Section Returning.
Context {HW : Hardware} {PRE : Preempt} (pre_ret : returns preempt).
Import Locc.

Lemma returns_repeat_delay n us : returns (repeat_delay n us).
Proof.
  induction n as [|n IH]; [apply returns_ret|].
  apply returns_bind; [apply returns_modify|intros; exact IH].
Qed.

Lemma returns_io_high : returns io_high.
Proof. apply returns_bind; auto with returns. Qed.

Lemma returns_io_low : returns io_low.
Proof. apply returns_bind; auto with returns. Qed.

#[local] Hint Resolve returns_repeat_delay returns_io_high returns_io_low : returns.

Lemma returns_send_bits n word : returns (send_bits n word).
Proof.
  induction n as [|n IH]; cbn [send_bits]; [apply returns_ret|].
  apply returns_bind; [|intros; exact IH]. unfold send_bit, systemDelay10us.
  case_match; repeat (apply returns_bind; [by auto with returns|intros]); auto with returns.
Qed.

Lemma returns_sendCylinderTelegram telegram len : returns (sendCylinderTelegram telegram len).
Proof.
  apply returns_bind; [|auto with returns].
  generalize 0. induction (Z.to_nat (len + 1)) as [|n IH]; intros j; [apply returns_ret|].
  apply returns_bind; [apply returns_send_bits|intros; apply IH].
Qed.
End Returning.

(** C5: The open telegram on the wire.  Whatever interrupts run in between, as long as they
    leave the lock alone, [open_locc] produces a waveform that the receiver decodes to the
    eight words of [openTelegram], most significant bit first, followed by the eight low bits
    of the word behind the array: the loop of [sendCylinderTelegram] runs once too often.  It
    returns whenever the interrupts do. *)
Theorem open_telegram_roundtrip `{HW : Hardware} {PRE : Preempt} :
  obeys lock_quiet preempt ->
  (returns preempt -> returns Locc.open_locc)
  /\ spec Locc.open_locc (fun s _ t s' =>
       decode (line (pins t)) =
         mjoin (word_bits 8 <$> openTelegram) ++ word_bits 8 word_after_openTelegram
       /\ frame s t s').
Proof.
  intros Hpre. split; [intros; by apply returns_sendCylinderTelegram|].
  eapply spec_conseq; [by apply does_sendCylinderTelegram|].
  cbn beta. intros s [] t s' (_ & -> & Hf). split; [|done]. by rewrite decode_wave.
Qed.

Lemma open_telegram_roundtrip_witness :
  exists s', Locc.open_locc (HW := script_hardware) (PRE := no_preempt)
               (boot_state (Script (fun _ => []) []) script_port) = Some (tt, s')
    /\ decode (line (pins (trace s'))) =
         mjoin (word_bits 8 <$> openTelegram) ++ word_bits 8 0x01.
Proof.
  destruct (open_telegram_roundtrip (HW := script_hardware) (PRE := no_preempt)) as [Hret Hspec].
  { apply obeys_ret. typeclasses eauto. }
  destruct (Hret (returns_ret tt) (boot_state (Script (fun _ => []) []) script_port))
    as ([] & s' & Hs).
  exists s'. split; [exact Hs|].
  destruct (Hspec _ _ _ Hs) as (t & -> & Hd & _). exact Hd.
Defined.
