(* ===== verification/Interrupts.v ===== *)
(** * Interrupts: the interrupt handlers and when they run
    ([USBInterrupt_AVR8.c], [USBTask.c], [ISR(TIMER0_OVF_vect)] of [locc.c])

    [isr n] is what happens at an interrupt point when up to [n] more control-request
    handlers may nest: the pending interrupts, as many as the hardware delivers there, are
    handled one after the other.  [USB_GEN_vect] and [TIMER0_OVF_vect] run with interrupts
    disabled; [USB_COM_vect] re-enables them once the setup interrupt is masked. *)
From S2P Require Import Prelude Machine Logic Endpoint EndpointStream UsbController DeviceRequests Cdc Locc.

Module Interrupts.
Import Endpoint Controller Requests Cdc.

(** ** [USB_GEN_vect] *)
Section Gen.
Context {HW : Hardware} {FU : Fuel} {EV : UsbEvents}.
#[local] Existing Instance no_preempt.

(** [USB_INT_HasOccurred(i) && USB_INT_IsEnabled(i)] *)
Definition pending (i : USB_Interrupts_t) : M bool :=
  o <- USB_INT_HasOccurred i ;;
  if o : bool then USB_INT_IsEnabled i else ret false.

Definition gen_sof : M unit :=
  p <- pending USB_INT_SOFI ;;
  when p do
    (USB_INT_Clear USB_INT_SOFI ;;
     EVENT_USB_Device_StartOfFrame no_preempt).

Definition gen_suspend : M unit :=
  p <- pending USB_INT_SUSPI ;;
  when p do
    (USB_INT_Disable USB_INT_SUSPI ;;
     USB_INT_Enable USB_INT_WAKEUPI ;;
     USB_CLK_Freeze ;;
     (when negb (truth (USB_Options .& USB_OPT_MANUAL_PLL)) do USB_PLL_Off) ;;
     put_state DEVICE_STATE_Unattached ;;
     EVENT_USB_Device_Disconnect no_preempt).

Definition gen_wakeup : M unit :=
  p <- pending USB_INT_WAKEUPI ;;
  when p do
    (pll_start ;;
     USB_CLK_Unfreeze ;;
     USB_INT_Clear USB_INT_WAKEUPI ;;
     USB_INT_Disable USB_INT_WAKEUPI ;;
     USB_INT_Enable USB_INT_SUSPI ;;
     n <- get_config ;;
     (if truth n then put_state DEVICE_STATE_Configured
      else
        set <- USB_Device_IsAddressSet ;;
        put_state (if set : bool then DEVICE_STATE_Configured else DEVICE_STATE_Powered)) ;;
     EVENT_USB_Device_Connect no_preempt).

Definition gen_reset : M unit :=
  p <- pending USB_INT_EORSTI ;;
  when p do
    (USB_INT_Clear USB_INT_EORSTI ;;
     put_state DEVICE_STATE_Default ;;
     put_config 0 ;;
     USB_INT_Clear USB_INT_SUSPI ;;
     USB_INT_Disable USB_INT_SUSPI ;;
     USB_INT_Enable USB_INT_WAKEUPI ;;
     Endpoint_ConfigureEndpoint ENDPOINT_CONTROLEP EP_TYPE_CONTROL
       USB_Device_ControlEndpointSize 1 ;;
     USB_INT_Enable USB_INT_RXSTPI ;;
     EVENT_USB_Device_Reset no_preempt).

Definition ISR_USB_GEN_vect : M unit :=
  gen_sof ;; gen_suspend ;; gen_wakeup ;; gen_reset.

(** ** [USB_COM_vect]

    Up to [GlobalInterruptEnable] nothing can interrupt; then [PRE] can. *)
Definition ISR_USB_COM_vect (PRE : Preempt) : M unit :=
  PrevSelectedEndpoint <- Endpoint_GetCurrentEndpoint (PRE := no_preempt) ;;
  Endpoint_SelectEndpoint (PRE := no_preempt) ENDPOINT_CONTROLEP ;;
  USB_INT_Disable (PRE := no_preempt) USB_INT_RXSTPI ;;
  USB_Device_ProcessControlRequest (PRE := PRE) ;;
  Endpoint_SelectEndpoint (PRE := PRE) ENDPOINT_CONTROLEP ;;
  USB_INT_Enable (PRE := PRE) USB_INT_RXSTPI ;;
  Endpoint_SelectEndpoint (PRE := PRE) PrevSelectedEndpoint.

(** The next interrupt the hardware delivers. *)
Definition next_irq : M (option irq) := fun s =>
  let '(i, h) := hw_irq (hw s) in Some (i, set_hw h s).

(** All interrupts delivered at one point; [com] handles the control request. *)
Definition deliver (com : M unit) : M unit :=
  iter fuel (fun _ : unit =>
    i <- next_irq ;;
    match i with
    | None => ret (inr tt)
    | Some TIMER0_OVF_vect => Locc.ISR_TIMER0_OVF_vect ;; ret (inl tt)
    | Some USB_GEN_vect => ISR_USB_GEN_vect ;; ret (inl tt)
    | Some USB_COM_vect => com ;; ret (inl tt)
    end) tt.

(** A control request may itself be interrupted by another one only after a bus reset has
    enabled the setup interrupt again; [n] bounds that nesting. *)
Fixpoint isr (n : nat) : Preempt :=
  match n with
  | O => deliver spin
  | S n' => deliver (ISR_USB_COM_vect (isr n'))
  end.
End Gen.

(** ** [USBTask.c] *)
Section Task.
Context {HW : Hardware} {PRE : Preempt} {FU : Fuel} {EV : UsbEvents}.

Definition USB_DeviceTask : M unit :=
  d <- get_state ;;
  if decide (d = DEVICE_STATE_Unattached) then ret tt
  else
    PrevEndpoint <- Endpoint_GetCurrentEndpoint ;;
    Endpoint_SelectEndpoint ENDPOINT_CONTROLEP ;;
    setup <- Endpoint_IsSETUPReceived ;;
    (when setup do USB_Device_ProcessControlRequest) ;;
    Endpoint_SelectEndpoint PrevEndpoint.

Definition USB_USBTask : M unit := USB_DeviceTask.

(** [CDC_Device_getchar_Blocking] of [CDCClassDevice.c] *)
Definition CDC_Device_getchar_Blocking : M Z :=
  iter fuel (fun _ : unit =>
    ReceivedByte <- CDC_Device_ReceiveByte ;;
    if ReceivedByte <? 0 then
      d <- get_state ;;
      if decide (d = DEVICE_STATE_Unattached) then ret (inr _FDEV_EOF)
      else CDC_Device_USBTask ;; USB_USBTask ;; ret (inl tt)
    else ret (inr ReceivedByte)) tt.

(** avr-libc's [FILE]: the members [FDEV_SETUP_STREAM] and [fdev_set_udata] set.  [udata] is
    the address of the interface; there is one, [VirtualSerial_CDC_Interface]. *)
Inductive interface := VirtualSerial_CDC_Interface.

Record FILE := File {
  put : Z -> M Z;
  get : M Z;
  flags : Z;
  udata : option interface }.

Definition _FDEV_SETUP_RW := 3.
Definition FDEV_SETUP_STREAM (p : Z -> M Z) (g : M Z) (f : Z) : FILE := File p g f None.
Definition fdev_set_udata (s : FILE) (u : interface) : FILE := File (put s) (get s) (flags s) (Some u).

Definition CDC_Device_CreateStream (CDCInterfaceInfo : interface) : FILE :=
  fdev_set_udata (FDEV_SETUP_STREAM CDC_Device_putchar CDC_Device_getchar _FDEV_SETUP_RW)
    CDCInterfaceInfo.

Definition CDC_Device_CreateBlockingStream (CDCInterfaceInfo : interface) : FILE :=
  fdev_set_udata (FDEV_SETUP_STREAM CDC_Device_putchar CDC_Device_getchar_Blocking _FDEV_SETUP_RW)
    CDCInterfaceInfo.
End Task.
End Interrupts.

(** ** Footprint: a policy of the USB stack that admits timer ticks is obeyed by everything
    that can happen at an interrupt point, at every nesting depth. *)
Section InterruptsFootprint.
Import Interrupts.
Context {HW : Hardware} (R : mcu -> list event -> mcu -> Prop) {UP : UsbPolicy R}.
Context {FU : Fuel} {EV : UsbEvents} {EO : EventsObey R}.
Context (tick_ok : obeys R Locc.ISR_TIMER0_OVF_vect).

Lemma obeys_no_preempt : obeys R (@preempt _ no_preempt).
Proof. apply obeys_ret. typeclasses eauto. Qed.
#[local] Hint Resolve obeys_no_preempt : obey.

Lemma obeys_ISR_USB_GEN_vect : obeys R ISR_USB_GEN_vect.
Proof. pose proof obeys_no_preempt. obey. Qed.

Lemma obeys_ISR_USB_COM_vect (PRE : Preempt) :
  obeys R (@preempt _ PRE) -> obeys R (ISR_USB_COM_vect PRE).
Proof. intros. pose proof obeys_no_preempt. obey. Qed.

Lemma obeys_next_irq : obeys R next_irq.
Proof.
  intros s i s' H. unfold next_irq in H. destruct (hw_irq (hw s)) as [j h].
  injection H as <- <-. exists []. split; [by rewrite app_nil_r|apply usb_hw_ok].
Qed.

Lemma obeys_deliver com : obeys R com -> obeys R (deliver com).
Proof. intros. pose proof obeys_next_irq. pose proof obeys_ISR_USB_GEN_vect. obey. Qed.

Lemma obeys_isr n : obeys R (@preempt _ (isr n)).
Proof.
  induction n as [|n IH]; apply obeys_deliver.
  - apply obeys_spin.
  - by apply obeys_ISR_USB_COM_vect.
Qed.

Lemma obeys_USB_USBTask {PRE : Preempt} : obeys R (@preempt _ PRE) -> obeys R USB_USBTask.
Proof. intros. obey. Qed.
End InterruptsFootprint.

#[export] Hint Resolve obeys_isr obeys_USB_USBTask : obey.
