(* ===== verification/Descriptors.v ===== *)
(** * Descriptors: what the device tells the host about itself
    ([Descriptors.c], [Descriptors.h])

    The descriptor structures are packed records; each is written here field by field and
    then serialised ([*_bytes]) in declaration order, 16-bit fields little-endian, which is
    how they lie in flash memory. *)
From S2P Require Import Prelude Machine Endpoint EndpointStream DeviceRequests.

Definition CDC_NOTIFICATION_EPADDR := ENDPOINT_DIR_IN .| 2.
Definition CDC_TX_EPADDR := ENDPOINT_DIR_IN .| 3.
Definition CDC_RX_EPADDR := ENDPOINT_DIR_OUT .| 4.
Definition CDC_NOTIFICATION_EPSIZE := 8.
Definition CDC_TXRX_EPSIZE := 16.

Definition CDC_CSCP_CDCClass := 0x02.
Definition CDC_CSCP_NoSpecificSubclass := 0x00.
Definition CDC_CSCP_NoSpecificProtocol := 0x00.
Definition CDC_CSCP_ACMSubclass := 0x02.
Definition CDC_CSCP_ATCommandProtocol := 0x01.
Definition CDC_CSCP_CDCDataClass := 0x0A.
Definition CDC_CSCP_NoDataSubclass := 0x00.
Definition CDC_CSCP_NoDataProtocol := 0x00.
Definition CDC_DSUBTYPE_CSInterface_Header := 0x00.
Definition CDC_DSUBTYPE_CSInterface_ACM := 0x02.
Definition CDC_DSUBTYPE_CSInterface_Union := 0x06.
Definition USB_CONFIG_ATTR_RESERVED := 0x80.
Definition USB_CONFIG_ATTR_SELFPOWERED := 0x40.
Definition USB_CONFIG_POWER_MA (mA : Z) : Z := mA .>> 1.
Definition ENDPOINT_ATTR_NO_SYNC := 0 .<< 2.
Definition ENDPOINT_USAGE_DATA := 0 .<< 4.
Definition LANGUAGE_ID_ENG := 0x0409.

(** [VERSION_BCD] of a version given as its hundredfold. *)
Definition VERSION_BCD (x100 : Z) : Z :=
  (x100 / 1000) .<< 12 .| (x100 / 100 mod 10) .<< 8 .| (x100 / 10 mod 10) .<< 4 .| x100 mod 10.

Module Descriptors.

Record USB_Descriptor_Device_t := USB_Descriptor_Device {
  USBSpecification : Z; Class_ : Z; SubClass : Z; Protocol : Z; Endpoint0Size : Z;
  VendorID : Z; ProductID : Z; ReleaseNumber : Z; ManufacturerStrIndex : Z;
  ProductStrIndex : Z; SerialNumStrIndex : Z; NumberOfConfigurations : Z }.

Definition device_bytes (d : USB_Descriptor_Device_t) : list Z :=
  [18; DTYPE_Device] ++ le_bytes 2 (USBSpecification d)
  ++ [Class_ d; SubClass d; Protocol d; Endpoint0Size d]
  ++ le_bytes 2 (VendorID d) ++ le_bytes 2 (ProductID d) ++ le_bytes 2 (ReleaseNumber d)
  ++ [ManufacturerStrIndex d; ProductStrIndex d; SerialNumStrIndex d; NumberOfConfigurations d].

Definition DeviceDescriptor : USB_Descriptor_Device_t := {|
  USBSpecification := VERSION_BCD 110;
  Class_ := CDC_CSCP_CDCClass;
  SubClass := CDC_CSCP_NoSpecificSubclass;
  Protocol := CDC_CSCP_NoSpecificProtocol;
  Endpoint0Size := USB_Device_ControlEndpointSize;
  VendorID := 0x03EB;
  ProductID := 0x204B;
  ReleaseNumber := VERSION_BCD 1;
  ManufacturerStrIndex := 0x01;
  ProductStrIndex := 0x02;
  SerialNumStrIndex := USE_INTERNAL_SERIAL;
  NumberOfConfigurations := FIXED_NUM_CONFIGURATIONS |}.

(** The parts of [USB_Descriptor_Configuration_t] ([Descriptors.h]). *)
Record USB_Descriptor_Configuration_Header_t := USB_Descriptor_Configuration_Header {
  TotalConfigurationSize : Z; TotalInterfaces : Z; ConfigurationNumber : Z;
  ConfigurationStrIndex : Z; ConfigAttributes : Z; MaxPowerConsumption : Z }.

Definition config_header_bytes (c : USB_Descriptor_Configuration_Header_t) : list Z :=
  [9; DTYPE_Configuration] ++ le_bytes 2 (TotalConfigurationSize c)
  ++ [TotalInterfaces c; ConfigurationNumber c; ConfigurationStrIndex c; ConfigAttributes c;
      MaxPowerConsumption c].

Record USB_Descriptor_Interface_t := USB_Descriptor_Interface {
  InterfaceNumber : Z; AlternateSetting : Z; TotalEndpoints : Z;
  InterfaceClass : Z; InterfaceSubClass : Z; InterfaceProtocol : Z; InterfaceStrIndex : Z }.

Definition interface_bytes (i : USB_Descriptor_Interface_t) : list Z :=
  [9; DTYPE_Interface; InterfaceNumber i; AlternateSetting i; TotalEndpoints i;
   InterfaceClass i; InterfaceSubClass i; InterfaceProtocol i; InterfaceStrIndex i].

Record USB_Descriptor_Endpoint_t := USB_Descriptor_Endpoint {
  EndpointAddress : Z; Attributes : Z; EndpointSize : Z; PollingIntervalMS : Z }.

Definition endpoint_bytes (e : USB_Descriptor_Endpoint_t) : list Z :=
  [7; DTYPE_Endpoint; EndpointAddress e; Attributes e] ++ le_bytes 2 (EndpointSize e)
  ++ [PollingIntervalMS e].

Definition functional_header_bytes (CDCSpecification : Z) : list Z :=
  [5; DTYPE_CSInterface; CDC_DSUBTYPE_CSInterface_Header] ++ le_bytes 2 CDCSpecification.

Definition functional_acm_bytes (Capabilities : Z) : list Z :=
  [4; DTYPE_CSInterface; CDC_DSUBTYPE_CSInterface_ACM; Capabilities].

Definition functional_union_bytes (MasterInterfaceNumber SlaveInterfaceNumber : Z) : list Z :=
  [5; DTYPE_CSInterface; CDC_DSUBTYPE_CSInterface_Union;
   MasterInterfaceNumber; SlaveInterfaceNumber].

(** [sizeof(USB_Descriptor_Configuration_t)] *)
Definition sizeof_configuration := 9 + 9 + 5 + 4 + 5 + 7 + 9 + 7 + 7.

Definition Config : USB_Descriptor_Configuration_Header_t := {|
  TotalConfigurationSize := sizeof_configuration;
  TotalInterfaces := 2;
  ConfigurationNumber := 1;
  ConfigurationStrIndex := NO_DESCRIPTOR;
  ConfigAttributes := USB_CONFIG_ATTR_RESERVED .| USB_CONFIG_ATTR_SELFPOWERED;
  MaxPowerConsumption := USB_CONFIG_POWER_MA 100 |}.

Definition CDC_CCI_Interface : USB_Descriptor_Interface_t := {|
  InterfaceNumber := 0;
  AlternateSetting := 0;
  TotalEndpoints := 1;
  InterfaceClass := CDC_CSCP_CDCClass;
  InterfaceSubClass := CDC_CSCP_ACMSubclass;
  InterfaceProtocol := CDC_CSCP_ATCommandProtocol;
  InterfaceStrIndex := NO_DESCRIPTOR |}.

Definition CDC_NotificationEndpoint : USB_Descriptor_Endpoint_t := {|
  EndpointAddress := CDC_NOTIFICATION_EPADDR;
  Attributes := EP_TYPE_INTERRUPT .| ENDPOINT_ATTR_NO_SYNC .| ENDPOINT_USAGE_DATA;
  EndpointSize := CDC_NOTIFICATION_EPSIZE;
  PollingIntervalMS := 0xFF |}.

Definition CDC_DCI_Interface : USB_Descriptor_Interface_t := {|
  InterfaceNumber := 1;
  AlternateSetting := 0;
  TotalEndpoints := 2;
  InterfaceClass := CDC_CSCP_CDCDataClass;
  InterfaceSubClass := CDC_CSCP_NoDataSubclass;
  InterfaceProtocol := CDC_CSCP_NoDataProtocol;
  InterfaceStrIndex := NO_DESCRIPTOR |}.

Definition CDC_DataOutEndpoint : USB_Descriptor_Endpoint_t := {|
  EndpointAddress := CDC_RX_EPADDR;
  Attributes := EP_TYPE_BULK .| ENDPOINT_ATTR_NO_SYNC .| ENDPOINT_USAGE_DATA;
  EndpointSize := CDC_TXRX_EPSIZE;
  PollingIntervalMS := 0x05 |}.

Definition CDC_DataInEndpoint : USB_Descriptor_Endpoint_t := {|
  EndpointAddress := CDC_TX_EPADDR;
  Attributes := EP_TYPE_BULK .| ENDPOINT_ATTR_NO_SYNC .| ENDPOINT_USAGE_DATA;
  EndpointSize := CDC_TXRX_EPSIZE;
  PollingIntervalMS := 0x05 |}.

(** [ConfigurationDescriptor] as it lies in flash. *)
Definition ConfigurationDescriptor : list Z :=
  config_header_bytes Config
  ++ interface_bytes CDC_CCI_Interface
  ++ functional_header_bytes (VERSION_BCD 110)
  ++ functional_acm_bytes 0x06
  ++ functional_union_bytes 0 1
  ++ endpoint_bytes CDC_NotificationEndpoint
  ++ interface_bytes CDC_DCI_Interface
  ++ endpoint_bytes CDC_DataOutEndpoint
  ++ endpoint_bytes CDC_DataInEndpoint.

(** A string descriptor: [USB_STRING_LEN(chars)] and the UTF-16 characters. *)
Definition string_bytes (chars : Z) (UnicodeString : list Z) : list Z :=
  [USB_STRING_LEN chars; DTYPE_String] ++ mjoin (le_bytes 2 <$> UnicodeString).

Definition LanguageString : list Z := string_bytes 1 [LANGUAGE_ID_ENG].

(** [L"lynxis/jaseg"] *)
Definition ManufacturerString : list Z :=
  string_bytes 12 (ch <$> ["l"; "y"; "n"; "x"; "i"; "s"; "/"; "j"; "a"; "s"; "e"; "g"]%char).

(** [L"c-lab locc system"] *)
Definition ProductString : list Z :=
  string_bytes 17 (ch <$> ["c"; "-"; "l"; "a"; "b"; " "; "l"; "o"; "c"; "c"; " ";
                           "s"; "y"; "s"; "t"; "e"; "m"]%char).

(** Size and memory of the requested descriptor; the size of a string is read from its
    header. *)
Definition CALLBACK_GetDescriptor (wValue wIndex : Z) : Z * buffer :=
  let DescriptorType := u8 (wValue .>> 8) in
  let DescriptorNumber := wValue .& 0xFF in
  let string s := (Requests.bytes_at s 0, Requests.bytes_at s) in
  let none := (NO_DESCRIPTOR, Requests.bytes_at []) in
  if DescriptorType =? DTYPE_Device then (18, Requests.bytes_at (device_bytes DeviceDescriptor))
  else if DescriptorType =? DTYPE_Configuration then
    (sizeof_configuration, Requests.bytes_at ConfigurationDescriptor)
  else if DescriptorType =? DTYPE_String then
    if DescriptorNumber =? 0x00 then string LanguageString
    else if DescriptorNumber =? 0x01 then string ManufacturerString
    else if DescriptorNumber =? 0x02 then string ProductString
    else none
  else none.

End Descriptors.
