(* ===== verification/ConfigDescriptors.v ===== *)
(** * ConfigDescriptors: walking a configuration descriptor
    ([LUFA/Drivers/USB/Core/ConfigDescriptors.c], [ConfigDescriptors.h])

    The functions keep a position, [*CurrConfigLoc], and the bytes remaining from there,
    [*BytesRem]; both are returned.  [mem] is the memory the position points into.  A loop is
    given a number of passes; [None] stands for a loop that is still running after them.
    [USB_Host_GetDeviceConfigDescriptor] is compiled in host mode only. *)
From S2P Require Import Prelude EndpointStream DeviceRequests Descriptors.

(** [enum DSearch_Return_ErrorCodes_t] and [enum DSearch_Comp_Return_ErrorCodes_t] *)
Definition DESCRIPTOR_SEARCH_Found := 0.
Definition DESCRIPTOR_SEARCH_Fail := 1.
Definition DESCRIPTOR_SEARCH_NotFound := 2.
Definition DESCRIPTOR_SEARCH_COMP_Found := 0.
Definition DESCRIPTOR_SEARCH_COMP_Fail := 1.
Definition DESCRIPTOR_SEARCH_COMP_EndOfDescriptor := 2.

Module ConfigDescriptors.
Section Walk.
Context (mem : Z -> Z).

Definition DESCRIPTOR_SIZE (loc : Z) : Z := mem loc.
Definition DESCRIPTOR_TYPE (loc : Z) : Z := mem (loc + 1).

Definition USB_GetNextDescriptor (BytesRem CurrConfigLoc : Z) : Z * Z :=
  let CurrDescriptorSize := DESCRIPTOR_SIZE CurrConfigLoc in
  let CurrDescriptorSize := if BytesRem <? CurrDescriptorSize then BytesRem else CurrDescriptorSize in
  (u16 (BytesRem - CurrDescriptorSize), CurrConfigLoc + CurrDescriptorSize).

Fixpoint USB_GetNextDescriptorOfType (n : nat) (BytesRem CurrConfigLoc Type_ : Z) : option (Z * Z) :=
  if negb (truth BytesRem) then Some (BytesRem, CurrConfigLoc)
  else match n with
  | O => None
  | S n' =>
      let '(BytesRem, CurrConfigLoc) := USB_GetNextDescriptor BytesRem CurrConfigLoc in
      if DESCRIPTOR_TYPE CurrConfigLoc =? Type_ then Some (BytesRem, CurrConfigLoc)
      else USB_GetNextDescriptorOfType n' BytesRem CurrConfigLoc Type_
  end.

Fixpoint USB_GetNextDescriptorOfTypeBefore (n : nat) (BytesRem CurrConfigLoc Type_ BeforeType : Z)
    : option (Z * Z) :=
  if negb (truth BytesRem) then Some (BytesRem, CurrConfigLoc)
  else match n with
  | O => None
  | S n' =>
      let '(BytesRem, CurrConfigLoc) := USB_GetNextDescriptor BytesRem CurrConfigLoc in
      if DESCRIPTOR_TYPE CurrConfigLoc =? Type_ then Some (BytesRem, CurrConfigLoc)
      else if DESCRIPTOR_TYPE CurrConfigLoc =? BeforeType then Some (0, CurrConfigLoc)
      else USB_GetNextDescriptorOfTypeBefore n' BytesRem CurrConfigLoc Type_ BeforeType
  end.

Definition USB_GetNextDescriptorOfTypeAfter (n : nat) (BytesRem CurrConfigLoc Type_ AfterType : Z)
    : option (Z * Z) :=
  match USB_GetNextDescriptorOfType n BytesRem CurrConfigLoc AfterType with
  | Some (BytesRem, CurrConfigLoc) =>
      if truth BytesRem then USB_GetNextDescriptorOfType n BytesRem CurrConfigLoc Type_
      else Some (BytesRem, CurrConfigLoc)
  | None => None
  end.

(** [ComparatorRoutine] is given the position and reads the memory there. *)
Fixpoint USB_GetNextDescriptorComp (n : nat) (BytesRem CurrConfigLoc : Z) (ComparatorRoutine : Z -> Z)
    : option (Z * Z * Z) :=
  if negb (truth BytesRem) then Some (DESCRIPTOR_SEARCH_COMP_EndOfDescriptor, BytesRem, CurrConfigLoc)
  else match n with
  | O => None
  | S n' =>
      let PrevDescLoc := CurrConfigLoc in
      let PrevBytesRem := BytesRem in
      let '(BytesRem, CurrConfigLoc) := USB_GetNextDescriptor BytesRem CurrConfigLoc in
      let ErrorCode := ComparatorRoutine CurrConfigLoc in
      if negb (ErrorCode =? DESCRIPTOR_SEARCH_NotFound) then
        if ErrorCode =? DESCRIPTOR_SEARCH_Fail then Some (ErrorCode, PrevBytesRem, PrevDescLoc)
        else Some (ErrorCode, BytesRem, CurrConfigLoc)
      else USB_GetNextDescriptorComp n' BytesRem CurrConfigLoc ComparatorRoutine
  end.
End Walk.
End ConfigDescriptors.
Import ConfigDescriptors.

(** ** Well-formed configuration descriptors *)

(** A descriptor: its length in the first byte, its type in the second. *)
Definition descriptor_wf (d : list Z) : Prop :=
  2 <= Z.of_nat (length d) < 256 /\ d !! 0%nat = Some (Z.of_nat (length d)).
Definition type_of (d : list Z) : Z := default 0 (d !! 1%nat).
Definition total (ds : list (list Z)) : Z := Z.of_nat (length (mjoin ds)).

(** The descriptors lie at [loc], one behind the other. *)
Definition laid_out (mem : Z -> Z) (loc : Z) (ds : list (list Z)) : Prop :=
  forall i v, mjoin ds !! i = Some v -> mem (loc + Z.of_nat i) = v.

(** What a search for a type finds among the descriptors behind the current one. *)
Fixpoint find_type (ty : Z) (ds : list (list Z)) : list (list Z) :=
  match ds with
  | [] => []
  | d :: ds' => if type_of d =? ty then ds else find_type ty ds'
  end.

Lemma total_cons d ds : total (d :: ds) = Z.of_nat (length d) + total ds.
Proof. unfold total. change (mjoin (d :: ds)) with (d ++ mjoin ds). rewrite length_app. lia. Qed.

Lemma laid_out_cons mem loc d ds : laid_out mem loc (d :: ds) ->
  (forall i v, d !! i = Some v -> mem (loc + Z.of_nat i) = v)
  /\ laid_out mem (loc + Z.of_nat (length d)) ds.
Proof.
  intros H. split.
  - intros i v Hi. apply H. change (mjoin (d :: ds)) with (d ++ mjoin ds). by apply lookup_app_l_Some.
  - intros i v Hi. replace (loc + Z.of_nat (length d) + Z.of_nat i) with (loc + Z.of_nat (length d + i)) by lia.
    apply H. change (mjoin (d :: ds)) with (d ++ mjoin ds). rewrite lookup_app_r by lia. by replace (length d + i - length d)%nat with i by lia.
Qed.

(** One step over a descriptor. *)
Lemma step_over mem loc d ds : descriptor_wf d -> laid_out mem loc (d :: ds) -> total (d :: ds) < 2 ^ 16 ->
  USB_GetNextDescriptor mem (total (d :: ds)) loc = (total ds, loc + Z.of_nat (length d)).
Proof.
  intros [Hl H0] Hm Ht. apply laid_out_cons in Hm as [Hd _]. unfold USB_GetNextDescriptor, DESCRIPTOR_SIZE.
  replace (mem loc) with (Z.of_nat (length d)) by (symmetry; rewrite <- (Z.add_0_r loc); by apply (Hd 0%nat)).
  rewrite total_cons in *. unfold total in *. destruct (Z.ltb_spec (Z.of_nat (length d) + Z.of_nat (length (mjoin ds))) (Z.of_nat (length d))); [lia|].
  f_equal. etransitivity; [apply wrap_id; unfold is_u; lia|lia].
Qed.

Lemma type_at mem loc d ds : descriptor_wf d -> laid_out mem loc (d :: ds) -> DESCRIPTOR_TYPE mem loc = type_of d.
Proof.
  intros [Hl _] Hm. apply laid_out_cons in Hm as [Hd _]. unfold DESCRIPTOR_TYPE, type_of.
  destruct (lookup_lt_is_Some_2 d 1) as [v Hv]; [lia|]. rewrite Hv. by apply (Hd 1%nat).
Qed.

Lemma total_pos d ds : descriptor_wf d -> negb (truth (total (d :: ds))) = false.
Proof.
  intros [Hl _]. rewrite total_cons. unfold truth, total. destruct (Z.eqb_spec (Z.of_nat (length d) + Z.of_nat (length (mjoin ds))) 0); [lia|done].
Qed.

Lemma of_type_spec mem n d ds loc ty :
  (length ds < n)%nat -> Forall descriptor_wf (d :: ds) -> laid_out mem loc (d :: ds) ->
  total (d :: ds) < 2 ^ 16 ->
  let r := total (find_type ty ds) in
  USB_GetNextDescriptorOfType mem n (total (d :: ds)) loc ty = Some (r, loc + (total (d :: ds) - r)).
Proof.
  revert n d loc. induction ds as [|d' ds IH]; intros n d loc Hn Hwf Hm Ht; (destruct n as [|n]; [cbn in Hn; lia|]);
    apply Forall_cons_iff in Hwf as [Hd Hwf]; cbn [USB_GetNextDescriptorOfType];
    rewrite total_pos, step_over by done; cbn [find_type].
  - replace (loc + (total [d] - total [])) with (loc + Z.of_nat (length d)) by (rewrite total_cons; lia).
    destruct (_ =? _); [done|]. destruct n; done.
  - apply laid_out_cons in Hm as [_ Hm']. pose proof Hwf as [Hd' _]%Forall_cons_iff.
    rewrite (type_at _ _ _ _ Hd' Hm'). rewrite total_cons in Ht. destruct (_ =? _).
    + do 2 f_equal. rewrite (total_cons d). lia.
    + rewrite IH; [|cbn in Hn; lia|done|done|unfold total in *; lia]. do 2 f_equal. rewrite (total_cons d). lia.
Qed.

Fixpoint find_before (ty before : Z) (ds : list (list Z)) : list (list Z) :=
  match ds with
  | [] => []
  | d :: ds' => if type_of d =? ty then ds else if type_of d =? before then [] else find_before ty before ds'
  end.

Lemma of_type_before_spec mem n d ds loc ty bt :
  (length ds < n)%nat -> Forall descriptor_wf (d :: ds) -> laid_out mem loc (d :: ds) ->
  total (d :: ds) < 2 ^ 16 ->
  let r := total (find_before ty bt ds) in
  exists loc', USB_GetNextDescriptorOfTypeBefore mem n (total (d :: ds)) loc ty bt = Some (r, loc')
    /\ (r <> 0 -> loc' = loc + (total (d :: ds) - r)).
Proof.
  revert n d loc. induction ds as [|d' ds IH]; intros n d loc Hn Hwf Hm Ht; (destruct n as [|n]; [cbn in Hn; lia|]);
    apply Forall_cons_iff in Hwf as [Hd Hwf]; cbn [USB_GetNextDescriptorOfTypeBefore];
    rewrite total_pos, step_over by done; cbn [find_before].
  - destruct (_ =? _); [by eexists|]. destruct (_ =? _); [by eexists|]. destruct n; by eexists.
  - apply laid_out_cons in Hm as [_ Hm']. pose proof Hwf as [Hd' _]%Forall_cons_iff.
    rewrite (type_at _ _ _ _ Hd' Hm'). rewrite total_cons in Ht. destruct (_ =? _).
    + eexists. split; [done|]. rewrite (total_cons d). lia.
    + destruct (_ =? _); [by eexists|].
      destruct (IH n d' (loc + Z.of_nat (length d))) as (loc' & E & Hl); [cbn in Hn; lia|done|done|unfold total in *; lia|].
      exists loc'. split; [exact E|]. intros Hr. rewrite (Hl Hr), (total_cons d). lia.
Qed.

(** The descriptors behind the first one of type [after]. *)
Definition find_after (ty after : Z) (ds : list (list Z)) : list (list Z) :=
  match find_type after ds with [] => [] | _ :: ds' => find_type ty ds' end.

Lemma find_type_suffix ty ds : exists pre, ds = pre ++ find_type ty ds.
Proof.
  induction ds as [|d ds [pre IH]]; [by exists []|]. cbn. destruct (_ =? _); [by exists []|].
  exists (d :: pre). cbn. by rewrite <- IH.
Qed.

Lemma total_app ds ds' : total (ds ++ ds') = total ds + total ds'.
Proof. induction ds as [|d ds IH]; [done|]. cbn [Datatypes.app]. rewrite !total_cons, IH. lia. Qed.

Lemma laid_out_app mem loc ds ds' : laid_out mem loc (ds ++ ds') -> laid_out mem (loc + total ds) ds'.
Proof.
  revert loc. induction ds as [|d ds IH]; intros loc H; [by rewrite Z.add_0_r|].
  apply laid_out_cons in H as [_ H]. apply IH in H. rewrite total_cons.
  by replace (loc + (Z.of_nat (length d) + total ds)) with (loc + Z.of_nat (length d) + total ds) by lia.
Qed.

(** the searches by type.  Started on the first of a sequence of well-formed descriptors
    that fills the remaining bytes, with whatever memory behind them, the three functions end
    within as many passes as there are descriptors, on the first later descriptor of the type
    asked for (before one of type [bt], or behind one of type [at_]), with the bytes that remain
    from there; with no such descriptor they end with no bytes remaining. *)
Theorem descriptor_search_correct mem n d ds loc ty bt at_ :
  (length ds < n)%nat -> Forall descriptor_wf (d :: ds) -> laid_out mem loc (d :: ds) ->
  total (d :: ds) < 2 ^ 16 ->
  let t := total (d :: ds) in
  (let r := total (find_type ty ds) in
   USB_GetNextDescriptorOfType mem n t loc ty = Some (r, loc + (t - r)))
  /\ (let r := total (find_before ty bt ds) in
      exists loc', USB_GetNextDescriptorOfTypeBefore mem n t loc ty bt = Some (r, loc')
        /\ (r <> 0 -> loc' = loc + (t - r)))
  /\ (let r := total (find_after ty at_ ds) in
      USB_GetNextDescriptorOfTypeAfter mem n t loc ty at_ = Some (r, loc + (t - r))).
Proof.
  intros Hn Hwf Hm Ht t. split; [by apply of_type_spec|]. split; [by apply of_type_before_spec|].
  cbv zeta. unfold USB_GetNextDescriptorOfTypeAfter, t. rewrite of_type_spec by done.
  unfold find_after. destruct (find_type_suffix at_ ds) as [pre Hpre].
  destruct (find_type at_ ds) as [|d1 ds1]; [reflexivity|].
  rewrite Hpre, app_comm_cons in Hwf, Hm, Ht |- *. apply Forall_app in Hwf as [_ Hwf].
  pose proof Hwf as [Hd1 _]%Forall_cons_iff.
  replace (truth (total (d1 :: ds1))) with true by (pose proof (total_pos d1 ds1 Hd1); by destruct (truth _)).
  apply laid_out_app in Hm. rewrite total_app in *.
  assert (length ds1 < n)%nat by (rewrite Hpre, length_app in Hn; cbn in Hn; lia).
  replace (loc + (total (d :: pre) + total (d1 :: ds1) - total (d1 :: ds1))) with (loc + total (d :: pre)) by lia.
  rewrite of_type_spec; [|done..|unfold total in *; lia]. do 2 f_equal. lia.
Qed.

(** ** The search with a comparator *)

(** Bytes remaining and position at each descriptor behind the current one, and at the end. *)
Fixpoint stops (loc : Z) (ds : list (list Z)) : list (Z * Z) :=
  match ds with
  | [] => [(0, loc)]
  | d :: ds' => (total ds, loc) :: stops (loc + Z.of_nat (length d)) ds'
  end.

(** The first stop the comparator does not pass over. *)
Fixpoint first_stop (cmp : Z -> Z) (prev : Z * Z) (ps : list (Z * Z)) : Z * Z * Z :=
  match ps with
  | [] => (DESCRIPTOR_SEARCH_COMP_EndOfDescriptor, prev.1, prev.2)
  | p :: ps' =>
      if cmp p.2 =? DESCRIPTOR_SEARCH_NotFound then first_stop cmp p ps'
      else if cmp p.2 =? DESCRIPTOR_SEARCH_Fail then (cmp p.2, prev.1, prev.2)
      else (cmp p.2, p.1, p.2)
  end.

(** the search with a comparator asks it about every later descriptor in turn, and then
    about the position behind the last one, which is not a descriptor any more; it stops where
    the comparator does not answer [NotFound], and on [Fail] goes back by one descriptor, so
    that the next search starts at the one that failed. *)
Theorem descriptor_search_comp mem n d ds loc cmp :
  (length ds < n)%nat -> Forall descriptor_wf (d :: ds) -> laid_out mem loc (d :: ds) ->
  total (d :: ds) < 2 ^ 16 ->
  USB_GetNextDescriptorComp mem n (total (d :: ds)) loc cmp
    = Some (first_stop cmp (total (d :: ds), loc) (stops (loc + Z.of_nat (length d)) ds)).
Proof.
  revert n d loc. induction ds as [|d' ds IH]; intros n d loc Hn Hwf Hm Ht; (destruct n as [|n]; [cbn in Hn; lia|]);
    apply Forall_cons_iff in Hwf as [Hd Hwf]; cbn [USB_GetNextDescriptorComp];
    rewrite total_pos, step_over by done; cbn [stops first_stop fst snd].
  - destruct (_ =? DESCRIPTOR_SEARCH_NotFound); cbn [negb]; [by destruct n|by destruct (_ =? _)].
  - apply laid_out_cons in Hm as [_ Hm']. rewrite total_cons in Ht.
    destruct (_ =? DESCRIPTOR_SEARCH_NotFound); cbn [negb]; [|by destruct (_ =? _)].
    apply IH; [cbn in Hn; lia|done|done|unfold total in *; lia].
Qed.

(** A descriptor whose length byte is zero is never left: with bytes remaining, and a type
    other than the one asked for, the search by type does not end, however many passes it is
    given. *)
Theorem zero_length_never_ends mem BytesRem loc ty :
  0 < BytesRem < 2 ^ 16 -> DESCRIPTOR_SIZE mem loc = 0 -> DESCRIPTOR_TYPE mem loc <> ty ->
  forall n, USB_GetNextDescriptorOfType mem n BytesRem loc ty = None.
Proof.
  intros Hr Hs Ht n. assert (negb (truth BytesRem) = false) as E.
  { unfold truth. by destruct (Z.eqb_spec BytesRem 0); [lia|]. }
  induction n as [|n IH]; cbn [USB_GetNextDescriptorOfType]; rewrite E; [done|].
  unfold USB_GetNextDescriptor. rewrite Hs. destruct (Z.ltb_spec BytesRem 0); [lia|].
  rewrite Z.sub_0_r, Z.add_0_r, wrap_id by (unfold is_u; lia).
  destruct (Z.eqb_spec (DESCRIPTOR_TYPE mem loc) ty); [done|exact IH].
Qed.

(** ** Concrete runs: the firmware's own configuration descriptor *)
Section Demo.
Definition demo_config : list (list Z) :=
  [Descriptors.config_header_bytes Descriptors.Config;
   Descriptors.interface_bytes Descriptors.CDC_CCI_Interface;
   Descriptors.functional_header_bytes (VERSION_BCD 110);
   Descriptors.functional_acm_bytes 6;
   Descriptors.functional_union_bytes 0 1;
   Descriptors.endpoint_bytes Descriptors.CDC_NotificationEndpoint;
   Descriptors.interface_bytes Descriptors.CDC_DCI_Interface;
   Descriptors.endpoint_bytes Descriptors.CDC_DataOutEndpoint;
   Descriptors.endpoint_bytes Descriptors.CDC_DataInEndpoint].
Definition demo_mem : Z -> Z := Requests.bytes_at Descriptors.ConfigurationDescriptor.

Lemma demo_wf : Forall descriptor_wf demo_config.
Proof.
  unfold demo_config, descriptor_wf.
  repeat (constructor; [split; [split; vm_compute; [discriminate|reflexivity]|vm_compute; reflexivity]|]). constructor.
Qed.

Lemma demo_laid_out : laid_out demo_mem 0 demo_config.
Proof.
  intros i v H. unfold demo_mem, Requests.bytes_at. rewrite Z.add_0_l, Nat2Z.id.
  change (mjoin demo_config) with Descriptors.ConfigurationDescriptor in H. by rewrite H.
Qed.

(** The first endpoint of the data interface. *)
Lemma descriptor_search_correct_witness :
  exists r, USB_GetNextDescriptorOfTypeAfter demo_mem 9 (total demo_config) 0 DTYPE_Endpoint DTYPE_Interface
              = Some (r, total demo_config - r)
    /\ r = total (find_after DTYPE_Endpoint DTYPE_Interface (tail demo_config)).
Proof.
  destruct (descriptor_search_correct demo_mem 9 (hd [] demo_config) (tail demo_config) 0
              DTYPE_Endpoint DTYPE_Endpoint DTYPE_Interface) as (_ & _ & H);
    [cbn; lia|exact demo_wf|exact demo_laid_out|vm_compute; reflexivity|].
  eexists. split; [exact H|reflexivity].
Defined.

Definition demo_cmp (loc : Z) : Z := if demo_mem (loc + 1) =? DTYPE_Endpoint then 0 else 2.

Lemma descriptor_search_comp_witness :
  USB_GetNextDescriptorComp demo_mem 9 (total demo_config) 0 demo_cmp
    = Some (first_stop demo_cmp (total demo_config, 0) (stops 9 (tail demo_config))).
Proof.
  apply (descriptor_search_comp demo_mem 9 (hd [] demo_config) (tail demo_config) 0 demo_cmp);
    [cbn; lia|exact demo_wf|exact demo_laid_out|vm_compute; reflexivity].
Defined.

Lemma zero_length_never_ends_witness :
  USB_GetNextDescriptorOfType (fun _ => 0) 1000 4 0 DTYPE_Endpoint = None.
Proof.
  apply (zero_length_never_ends (fun _ => 0) 4 0 DTYPE_Endpoint); [lia|reflexivity|discriminate].
Defined.
End Demo.
