(* ===== verification/Firmware.v ===== *)
(** * Firmware: the main program ([c_locc.c]) *)
From S2P Require Import Prelude Keypad Dial Protocol RingBuffer.
From S2P Require Import Machine Logic Endpoint EndpointStream UsbController DeviceRequests Cdc Locc.
From S2P Require Import Interrupts Descriptors.

Module Firmware.
Import Endpoint Stream Controller Cdc Interrupts.

(** ** Event handlers and callbacks *)
Section Events.
Context {HW : Hardware} {FU : Fuel}.

Definition on_ControlRequest (PRE : Preempt) : M unit := CDC_Device_ProcessControlRequest.

Definition on_ConfigurationChanged (PRE : Preempt) : M unit :=
  CDC_Device_ConfigureEndpoints ;; ret tt.

(** The remaining handlers are empty, in [c_locc.c] or as the library's stub. *)
Definition USB_Event_Stub (PRE : Preempt) : M unit := ret tt.

#[export] Instance firmware_events : UsbEvents := {|
  EVENT_USB_Device_ControlRequest := on_ControlRequest;
  EVENT_USB_Device_ConfigurationChanged := on_ConfigurationChanged;
  EVENT_USB_Device_Connect := USB_Event_Stub;
  EVENT_USB_Device_Disconnect := USB_Event_Stub;
  EVENT_USB_Device_Reset := USB_Event_Stub;
  EVENT_USB_Device_StartOfFrame := USB_Event_Stub;
  CALLBACK_USB_GetDescriptor := Descriptors.CALLBACK_GetDescriptor |}.

(** [usb_putc] discards the error code. *)
#[export] Instance firmware_putc : Console := fun PRE c => CDC_Device_SendByte (u8 c) ;; ret tt.
End Events.

(** [VirtualSerial_CDC_Interface] at reset. *)
Definition VirtualSerial_CDC_Interface : USB_ClassInfo_CDC_Device_t := {|
  ControlInterfaceNumber := 0;
  DataINEndpoint := USB_Endpoint_Table CDC_TX_EPADDR CDC_TXRX_EPSIZE 0 1;
  DataOUTEndpoint := USB_Endpoint_Table CDC_RX_EPADDR CDC_TXRX_EPSIZE 0 1;
  NotificationEndpoint := USB_Endpoint_Table CDC_NOTIFICATION_EPADDR CDC_NOTIFICATION_EPSIZE 0 1;
  HostToDevice := 0;
  DeviceToHost := 0;
  LineEncoding := CDC_LineEncoding 0 0 0 0 |}.

Section Main.
Context {HW : Hardware} {PRE : Preempt} {FU : Fuel}.

(** [char] is unsigned in this build ([-funsigned-char]). *)
Definition hex_digit (d : Z) : Z := if d <? 0xA then d + ch "0" else d + ch "A" - 0xA.

Definition usb_puthex (c : Z) : M unit :=
  let h := u8 c .>> 4 in
  let l := u8 c .& 0xF in
  usb_putc PRE (hex_digit h) ;;
  usb_putc PRE (hex_digit l).

(** ** Function statics and globals *)
Definition get_app : M app_globals := gets app.
Definition put_locking (b : bool) : M unit :=
  modify (fun s => let 'AppGlobals _ k d p i o := app s in set_app (AppGlobals b k d p i o) s).
Definition put_keypad (k : keypad_state) : M unit :=
  modify (fun s => let 'AppGlobals b _ d p i o := app s in set_app (AppGlobals b k d p i o) s).
Definition put_dial (d : dial_state) : M unit :=
  modify (fun s => let 'AppGlobals b k _ p i o := app s in set_app (AppGlobals b k d p i o) s).
Definition put_proto (p : proto_state) : M unit :=
  modify (fun s => let 'AppGlobals b k d _ i o := app s in set_app (AppGlobals b k d p i o) s).

(** The two ring buffers are initialised over their 128-byte arrays. *)
Definition init_buffers : M unit :=
  modify (fun s =>
    let 'AppGlobals b k d p i o := app s in
    set_app (AppGlobals b k d p (Ring.RingBuffer_InitBuffer (Ring.Data i) 128)
                              (Ring.RingBuffer_InitBuffer (Ring.Data o) 128)) s).

(** [keypad_scan] and [dial_scan] on the memory image: one and three pin reads. *)
Definition scan_keypad : M Z :=
  pind <- rd PIND ;;
  a <- get_app ;;
  let '(r, k) := keypad_scan (keypad a) pind in
  put_keypad k ;; ret r.

(** Whether the dial and hook pins are sampled depends on the debounce counters, as in the
    code; a pin that is not sampled is not looked at by [dial_scan] either. *)
Definition scan_dial : M Z :=
  a <- get_app ;;
  x <- (if state_impulse (dial a) <=? 1 then rd PINC else ret 0) ;;
  y <- (if state_dialing (dial a) <=? 1 then rd PINC else ret 0) ;;
  z <- (if state_hangup (dial a) <=? 2 then rd PINC else ret 0) ;;
  let '(r, d) := dial_scan (dial a) x y z in
  put_dial d ;; ret r.

(** [handle_user_input] with its [usb_putc] calls. *)
Fixpoint put_all (cs : list Z) : M unit :=
  match cs with
  | [] => ret tt
  | c :: cs' => usb_putc PRE c ;; put_all cs'
  end.

Definition user_input (c : Z) : M Z :=
  a <- get_app ;;
  let '(command, outs, p) := handle_user_input (proto a) c in
  put_all outs ;;
  put_proto p ;;
  ret command.

Definition shiftreg_out : M unit :=
  a <- get_app ;;
  wr SPDR (shiftreg_byte (led_states (proto a)) (matrix_selector (keypad a))) ;;
  spin_until (v <- rd SPSR ;; ret (truth (v .& bit SPIF))) ;;
  clear_bits PORTD 0x10 ;;
  set_bits PORTD 0x10.

(** [if (c) usb_putc(c);] *)
Definition put_report (c : Z) : M unit := when truth c do usb_putc PRE c.

(** The locking part of [loop]. *)
Definition locking_task (command : Z) : M unit :=
  a <- get_app ;;
  (when negb (is_locking a) && (command =? 1) do
     (usb_putc PRE (ch "O") ;;
      put_locking true ;;
      Locc.start_locking)) ;;
  a <- get_app ;;
  when is_locking a do
    (b <- Locc.do_next_locc_step ;; put_locking b).

Definition loop : M unit :=
  receive_status <- CDC_Device_ReceiveByte ;;
  select_data_in ;;
  let c := receive_status .& 0xFF in
  command <- (if negb (receive_status <? 0) then user_input c else ret 0) ;;
  locking_task command ;;
  pressed_key <- scan_keypad ;;
  put_report pressed_key ;;
  dialled_number <- scan_dial ;;
  put_report dialled_number ;;
  delay_us 8 ;;
  shiftreg_out ;;
  CDC_Device_USBTask ;;
  USB_USBTask ;;
  delay_us 255.
End Main.

(** [setup] runs before [sei()]: nothing interrupts it.  [wdt_disable] and
    [clock_prescale_set] configure the watchdog and the clock, which are not modelled. *)
Section Setup.
Context {HW : Hardware} {FU : Fuel}.
#[local] Existing Instance no_preempt.

Definition setup : M unit :=
  clear_bits MCUSR (bit WDRF) ;;
  set_bits DDRB 0x07 ;;
  set_bits DDRD 0x10 ;;
  set_bits PORTD 0x10 ;;
  wr SPCR (bit SPE .| bit MSTR .| bit CPOL .| bit CPHA) ;;
  USB_Init ;;
  init_buffers ;;
  (v <- rd PORTC ;; wr PORTC (v .| bit IMPULSE_PIN) ;;
   v <- rd PORTC ;; wr PORTC (v .| bit DIAL_PIN) ;;
   v <- rd PORTC ;; wr PORTC (v .| bit HANGUP_PIN)) ;;
  Locc.loccSetup ;;
  (v <- rd PORTD ;; wr PORTD (keypad_setup v)).
End Setup.

(** [main], observed for [n] rounds of its loop, with interrupts nested at most [k] deep. *)
Section Run.
Context {HW : Hardware} {FU : Fuel}.

Fixpoint loops (k n : nat) : M unit :=
  match n with
  | O => ret tt
  | S n' => loop (PRE := isr k) ;; loops k n'
  end.

Definition main (k n : nat) : M unit := setup ;; loops k n.
End Run.
End Firmware.

(** ** Footprint: the firmware's handlers obey every policy of the USB stack. *)
Section FirmwareFootprint.
Import Firmware.
Context {HW : Hardware} (R : mcu -> list event -> mcu -> Prop) {UP : UsbPolicy R} {FU : Fuel}.

#[export] Instance firmware_events_obey : EventsObey R.
Proof. split; intros PRE Hpre; cbn; obey. Qed.

Lemma obeys_usb_putc (PRE : Preempt) c : obeys R (@preempt _ PRE) -> obeys R (usb_putc PRE c).
Proof. intros. unfold usb_putc, firmware_putc. obey. Qed.

Lemma obeys_put_all (PRE : Preempt) cs : obeys R (@preempt _ PRE) -> obeys R (put_all cs).
Proof.
  intros. pose proof obeys_usb_putc. induction cs as [|c cs IH]; cbn [put_all]; obey.
Qed.

Lemma obeys_firmware_isr n :
  obeys R Locc.ISR_TIMER0_OVF_vect -> obeys R (@preempt _ (Interrupts.isr n)).
Proof. intros. apply obeys_isr; [typeclasses eauto..|done]. Qed.
End FirmwareFootprint.

#[export] Hint Resolve obeys_usb_putc obeys_put_all : obey.
