(* ===== verification/Lock.v ===== *)
(** * Lock: the opening cycle as the outside world sees it

    The main loop advances the opening cycle a little in every round, under interrupts.  This
    file states what that amounts to: an abstract controller ([lock_round]) that performs one
    action on the cylinder when its timer has run out, and the theorem that every round of
    [loop] is a round of that controller, with the pin events of its action and no others.
    Timing, order of the actions and the absence of spurious openings are then properties of
    the controller. *)
From S2P Require Import Prelude Keypad Dial Protocol RingBuffer.
From S2P Require Import Machine Logic Endpoint EndpointStream UsbController DeviceRequests Cdc Locc.
From S2P Require Import Interrupts Descriptors Firmware.
Import Endpoint Cdc Firmware.

(** ** The abstract controller *)

Inductive action := Wake | Telegram | Off | On.

(** The action of each position of the cycle, the next position, and the ticks to wait before
    the action there. *)
Definition action_of (k : Z) : option action :=
  if k =? 1 then Some Wake else if k =? 2 then Some Telegram
  else if k =? 3 then Some Off else if k =? 4 then Some On else None.
Definition next_step (k : Z) : Z := if k =? 4 then 0 else k + 1.
Definition hold (k : Z) : Z := if k =? 1 then 59 else if k =? 2 then 15000 else 5000.

Record lock_view := LockView { v_locking : bool; v_step : Z; v_left : Z }.

(** When the timer may be found expired after [n] of its [w] ticks: when they have all passed,
    or, because the four bytes of [wait_ticks] are read one after the other, when the timer goes
    from 256 or more to less than 256 during the reading (the low byte is 0 before, the next one
    is 0 after). *)
Definition ran_out (w n : Z) : Prop := w - n <= 0 \/ 256 <= w /\ w - n < 256.

(** One round: [c] an opening is requested, [n] timer ticks pass, [acts] is done.  After an
    action the timer has been set, and at most the ticks since then have been counted. *)
Inductive lock_round : lock_view -> bool -> Z -> list action -> lock_view -> Prop :=
  | round_idle k w n :
      lock_round (LockView false k w) false n [] (LockView false k (Z.max 0 (w - n)))
  | round_wait b k w c k' n1 n2 :
      b || c = true -> k' = (if b then k else 1) -> 0 <= n1 -> 0 <= n2 -> 0 < w - n1 ->
      lock_round (LockView b k w) c (n1 + n2) [] (LockView true k' (Z.max 0 (w - (n1 + n2))))
  | round_act b k w c k' a n1 n2 n3 w' :
      b || c = true -> k' = (if b then k else 1) -> action_of k' = Some a ->
      0 <= n1 -> 0 <= n2 -> 0 <= n3 -> ran_out w n1 ->
      0 <= w' -> hold k' - n3 <= w' <= hold k' ->
      lock_round (LockView b k w) c (n1 + n2 + n3) [a]
        (LockView (0 <? next_step k') (next_step k') w').

Lemma hold_bound k : 0 <= hold k <= 15000.
Proof. unfold hold. repeat case_match; lia. Qed.

(** The pin events of an action, with the supply at [v] before it. *)

Section Wave.
Context {HW : Hardware}.

Definition open_bits : list bool := telegram_bits 9 Locc.openTelegram_memory 0.

Definition wave (v : bool) (a : action) : list pin_event :=
  match a with
  | Wake => wave_wakeup v
  | Telegram => wave_telegram v open_bits
  | Off => level v false ++ [Port false false]
  | On => level v true ++ [Port true true]
  end.

Definition after_action (a : action) (g : Z * Z) : Z * Z :=
  match a with
  | Wake => high (low (high g))
  | Telegram => high (after_bits open_bits g)
  | Off => supply_off (low g)
  | On => supply_on (high g)
  end.

Definition waves (v : bool) (acts : list action) : list pin_event := mjoin (wave v <$> acts).

Definition view (s : mcu) : lock_view :=
  LockView (is_locking (app s)) (current_locc_step (locc s)) (wait_ticks (locc s)).

(** Reachable views: a cycle in progress is at one of its four positions, and the timer is
    never set to more than 15000 ticks (two of the four bytes are enough). *)
Definition lock_inv (s : mcu) : Prop :=
  (is_locking (app s) = true -> 1 <= current_locc_step (locc s) <= 4)
  /\ is_u 16 (wait_ticks (locc s)).

Lemma u16_is_u32 w : is_u 16 w -> is_u32 w.
Proof. unfold is_u. lia. Qed.

Lemma wait_is_u16 w n : is_u 16 w -> 0 <= n -> is_u 16 (Z.max 0 (w - n)).
Proof. unfold is_u. lia. Qed.
End Wave.

(** ** The parts of a round *)
Section Parts.
Context {HW : Hardware}.

(** Pin events that change nothing on the cylinder, the pins being at [l]. *)
Definition levels (s : mcu) : bool * bool :=
  (Z.testbit (regs s PORTD) CYLINDER_IO_PIN, Z.testbit (regs s PORTD) CYLINDER_VCC_PIN).

Definition neutral (l : bool * bool) (p : pin_event) : Prop :=
  match p with Port io v => (io, v) = l | Pause _ => True | Ddr _ => False end.

(** A part of a round that leaves the cycle, the command interpreter and the lock alone. *)
Definition lock_idle (s : mcu) (t : list event) (s' : mcu) : Prop :=
  is_locking (app s') = is_locking (app s) /\ proto (app s') = proto (app s)
  /\ current_locc_step (locc s') = current_locc_step (locc s)
  /\ (is_u32 (wait_ticks (locc s)) ->
      wait_ticks (locc s') = Z.max 0 (wait_ticks (locc s) - ticks t))
  /\ levels s' = levels s /\ Forall (neutral (levels s)) (pins t).

#[export] Instance lock_idle_policy : Policy lock_idle.
Proof.
  split.
  - intros s. unfold lock_idle, is_u. cbn. split_and!; try done. lia.
  - intros s t s1 t' s2 (A1 & A2 & A3 & A4 & A5 & A6) (B1 & B2 & B3 & B4 & B5 & B6).
    unfold lock_idle. rewrite pins_app, ticks_app. split_and!; try congruence.
    + intros Hw. pose proof (ticks_nonneg t). pose proof (ticks_nonneg t').
      rewrite B4; rewrite A4 by done; [lia|by apply wait_is_u32].
    + apply Forall_app. split; [done|]. by rewrite <- A5.
Qed.

Lemma lock_quiet_idle s t s' : lock_quiet s t s' -> lock_idle s t s'.
Proof.
  intros (Hg & Hp & Ha & Hk & _ & _ & _ & Hw). unfold gpio in Hg. injection Hg as Hd Hq.
  unfold lock_idle, levels. rewrite Hp, Ha, Hk, Hq. split_and!; done.
Qed.

Lemma obeys_idle {A} (m : M A) : obeys lock_quiet m -> obeys lock_idle m.
Proof. intros Hm. eapply spec_conseq; [exact Hm|]. cbn. intros. by apply lock_quiet_idle. Qed.

(** An effect on [PORTD] that keeps the lock's bits is idle. *)
Lemma does_idle {A} (m : M A) f w :
  does m f w ->
  (forall g, (Z.testbit (f g).2 CYLINDER_IO_PIN, Z.testbit (f g).2 CYLINDER_VCC_PIN)
             = (Z.testbit g.2 CYLINDER_IO_PIN, Z.testbit g.2 CYLINDER_VCC_PIN)) ->
  (forall g, Forall (neutral (Z.testbit g.2 CYLINDER_IO_PIN, Z.testbit g.2 CYLINDER_VCC_PIN)) (w g)) ->
  obeys lock_idle m.
Proof.
  intros Hm Hf Hw. eapply spec_conseq; [exact Hm|]. cbn.
  intros s a t s' (Hg & Hp & Ha & Hk & _ & _ & _ & Ht).
  unfold lock_idle. rewrite Ha, Hk, Hp. specialize (Hf (gpio s)). specialize (Hw (gpio s)).
  rewrite <- Hg in Hf. split_and!; done.
Qed.
End Parts.

Section Round.
Context {HW : Hardware} {PRE : Preempt} {FU : Fuel} (pre_ok : obeys lock_quiet preempt).

(** Accesses to the pin inputs and the SPI are quiet. *)
Definition io_reg (r : reg) : bool :=
  match r with PINC | PIND | SPDR | SPSR => true | _ => false end.

Lemma io_access_quiet r (e : event) (s : mcu) h :
  io_reg r = true -> (exists ep v, e = Rd r ep v \/ e = Wr r ep v) ->
  lock_quiet s [e] (log e (set_hw h s)).
Proof.
  intros Hr (ep & v & He).
  assert (pins [e] = [] /\ ticks [e] = 0) as [Hp Ht] by (destruct He as [-> | ->], r; done).
  unfold lock_quiet, frame, is_u. rewrite Hp, Ht. split_and!; try done. cbn. lia.
Qed.

Lemma obeys_rd_io r : io_reg r = true -> obeys lock_quiet (rd r).
Proof.
  intros Hr. apply obeys_rd; [typeclasses eauto|done|].
  apply spec_raw_read; [destruct r; done|].
  intros s v h _ _. apply (io_access_quiet r); eauto.
Qed.

Lemma obeys_wr_io r v : io_reg r = true -> obeys lock_quiet (wr r v).
Proof.
  intros Hr. apply obeys_wr; [typeclasses eauto|done|].
  apply spec_raw_write. intros s. replace (plain r) with false by (destruct r; done).
  apply (io_access_quiet r); eauto.
Qed.

Lemma obeys_putc c : obeys lock_quiet (usb_putc PRE c).
Proof. by apply obeys_usb_putc; [typeclasses eauto|]. Qed.

Lemma obeys_put_keypad k : obeys lock_idle (put_keypad k).
Proof.
  apply spec_modify; intros s; destruct (app s) eqn:E; [done|].
  unfold lock_idle, is_u. cbn. rewrite E. split_and!; try done. lia.
Qed.

Lemma obeys_put_dial d : obeys lock_idle (put_dial d).
Proof.
  apply spec_modify; intros s; destruct (app s) eqn:E; [done|].
  unfold lock_idle, is_u. cbn. rewrite E. split_and!; try done. lia.
Qed.

(** The latch pulse of the shift register is on the same port as the lock. *)
Lemma obeys_strobe (f : Z -> Z) :
  (forall v i, i = CYLINDER_IO_PIN \/ i = CYLINDER_VCC_PIN -> Z.testbit (f v) i = Z.testbit v i) ->
  obeys lock_idle (v <- rd PORTD ;; wr PORTD (f v)).
Proof.
  intros Hf. assert (forall v i, i = CYLINDER_IO_PIN \/ i = CYLINDER_VCC_PIN ->
    Z.testbit (u8 (f v)) i = Z.testbit v i) as Hu.
  { intros v i Hi. rewrite testbit_u8; [by apply Hf|]. destruct Hi as [-> | ->]; cbv; split; congruence. }
  eapply does_idle; [by apply rmw_port|..]; intros g;
    unfold set_port, port_event; cbn [fst snd]; rewrite !Hu by auto; [done|].
  by repeat constructor.
Qed.

Lemma obeys_shiftreg_out : obeys lock_idle shiftreg_out.
Proof.
  unfold shiftreg_out. apply obeys_bind; [typeclasses eauto|obey|]. intros a.
  apply obeys_bind; [typeclasses eauto|by apply obeys_idle, obeys_wr_io|]. intros [].
  apply obeys_bind; [typeclasses eauto| |].
  { apply obeys_idle. pose proof (obeys_rd_io SPSR eq_refl). obey. }
  intros []. apply obeys_bind; [typeclasses eauto| |intros []].
  - apply (obeys_strobe (fun v => v .&~ 0x10)). intros v i Hi. change 0x10 with (bit 4).
    destruct Hi as [-> | ->]; rewrite testbit_clr by pin; apply andb_true_r.
  - apply (obeys_strobe (fun v => v .| 0x10)). intros v i Hi. change 0x10 with (bit 4).
    destruct Hi as [-> | ->]; rewrite testbit_set by pin; apply orb_false_r.
Qed.

Lemma obeys_delay us : obeys lock_idle (delay_us us).
Proof.
  eapply does_idle; [apply does_delay|done|]. intros g. by repeat constructor.
Qed.

#[local] Hint Resolve obeys_put_keypad obeys_put_dial obeys_shiftreg_out obeys_delay : obey.

(** The part of [loop] after the lock. *)
Definition loop_tail : M unit :=
  pressed_key <- scan_keypad ;;
  put_report pressed_key ;;
  dialled_number <- scan_dial ;;
  put_report dialled_number ;;
  delay_us 8 ;;
  shiftreg_out ;;
  CDC_Device_USBTask ;;
  Interrupts.USB_USBTask ;;
  delay_us 255.

Lemma obeys_loop_tail : obeys lock_idle loop_tail.
Proof.
  pose proof (obeys_idle _ (obeys_rd_io PIND eq_refl)).
  pose proof (obeys_idle _ (obeys_rd_io PINC eq_refl)).
  pose proof (fun c => obeys_idle _ (obeys_putc c)).
  assert (obeys lock_idle CDC_Device_USBTask) by (apply obeys_idle; obey).
  assert (obeys lock_idle Interrupts.USB_USBTask) by (apply obeys_idle; obey).
  unfold loop_tail, scan_keypad, scan_dial, put_report, get_app. obey.
Qed.
End Round.

(** ** One step of the cycle *)
Section Step.
Context {HW : Hardware} {PRE : Preempt} {FU : Fuel} (pre_ok : obeys lock_quiet preempt).
Import Locc.

(** The effect on pins and application, without the cycle's own variables. *)
Definition acted (f : Z * Z -> Z * Z) (w : Z * Z -> list pin_event)
    (s : mcu) (t : list event) (s' : mcu) : Prop :=
  gpio s' = f (gpio s) /\ pins t = w (gpio s) /\ app s' = app s.

Lemma drives_acted f w s t s' : drives f w s t s' -> acted f w s t s'.
Proof. by intros (Hg & Hp & Ha & _). Qed.

Lemma acted_trans f w s t s1 t' s2 :
  acted f w s t s1 -> acted id (fun _ => []) s1 t' s2 -> acted f w s (t ++ t') s2.
Proof.
  intros (A1 & A2 & A3) (B1 & B2 & B3). unfold acted. rewrite pins_app, A2, B2, app_nil_r.
  unfold id in B1. split_and!; congruence.
Qed.

(** A timer below 256 that is set to [h] in the course of [n] ticks. *)
Definition timer_set (h n w w' : Z) : Prop := 0 <= w < 256 -> 0 <= w' /\ h - n <= w' <= h.

(** Setting the timer and the position, in either order. *)
Definition sets (k h : Z) (s : mcu) (t : list event) (s' : mcu) : Prop :=
  acted id (fun _ => []) s t s' /\ current_locc_step (locc s') = k
  /\ timer_set h (ticks t) (wait_ticks (locc s)) (wait_ticks (locc s')).

(** A byte access of [wait_ticks] sees, or changes, the timer as the interrupts before it have
    left it. *)
Lemma spec_get_wait_byte i :
  spec (get_wait_byte i) (fun s b t s' =>
    lock_quiet s t s' /\ b = nth i (le_bytes 4 (wait_ticks (locc s'))) 0).
Proof.
  eapply (spec_bind _ _ _ (fun _ s w t s' => t = [] /\ s' = s
    /\ w = nth i (le_bytes 4 (wait_ticks (locc s))) 0)); [exact pre_ok|intros; by apply spec_gets|].
  cbn beta. intros s [] t s1 b t' s2 H (-> & -> & ->). by rewrite app_nil_r.
Qed.

Definition stores_byte (i : nat) (b : Z) (s : mcu) (t : list event) (s' : mcu) : Prop :=
  acted id (fun _ => []) s t s' /\ current_locc_step (locc s') = current_locc_step (locc s)
  /\ (is_u32 (wait_ticks (locc s)) -> wait_ticks (locc s') =
        le_value (<[i := b]> (le_bytes 4 (Z.max 0 (wait_ticks (locc s) - ticks t))))).

Lemma spec_put_wait_byte i b : spec (put_wait_byte i b) (fun s _ t s' => stores_byte i b s t s').
Proof.
  eapply (spec_bind _ _ _ (fun _ s _ t s' => t = [] /\ gpio s' = gpio s /\ app s' = app s
    /\ current_locc_step (locc s') = current_locc_step (locc s)
    /\ wait_ticks (locc s') = le_value (<[i := b]> (le_bytes 4 (wait_ticks (locc s))))));
    [exact pre_ok| |].
  - intros _. apply spec_modify; intros s; by destruct (locc s).
  - cbn beta. intros s [] t s1 [] t' s2 (Hg & Hp & Ha & Hk & _ & _ & _ & Hw) (-> & Hg' & Ha' & Hk' & Hw').
    unfold stores_byte, acted, id. rewrite app_nil_r, Hw'. split_and!; try congruence.
    intros Hu. by rewrite Hw.
Qed.

Lemma split256 w : 0 <= w -> w = 256 * (w / 256) + w mod 256 /\ 0 <= w mod 256 < 256 /\ 0 <= w / 256.
Proof.
  intros. pose proof (Z.div_mod w 256). pose proof (Z.mod_pos_bound w 256).
  pose proof (Z.div_pos w 256). lia.
Qed.

(** The bytes of a value of two bytes, and what storing one does to it. *)
Lemma low_bytes w : is_u 16 w -> le_bytes 4 w = [w mod 256; w / 256; 0; 0].
Proof.
  unfold is_u. intros Hw. rewrite le_bytes4.
  destruct (split256 w) as (? & ? & ?); [lia|].
  rewrite (Z.mod_small (w / 256)), (Z.div_small w 65536), (Z.div_small w 16777216) by lia. done.
Qed.

Lemma store_low w b : is_u 16 w -> is_u8 b ->
  le_value (<[0%nat := b]> (le_bytes 4 w)) = b + 256 * (w / 256)
  /\ le_value (<[1%nat := b]> (le_bytes 4 w)) = w mod 256 + 256 * b
  /\ le_value (<[2%nat := 0]> (le_bytes 4 w)) = w /\ le_value (<[3%nat := 0]> (le_bytes 4 w)) = w.
Proof.
  intros Hw Hb. rewrite low_bytes by done. unfold is_u in *.
  destruct (split256 w) as (? & ? & ?); [lia|]. cbn [insert list_insert].
  rewrite !le_value4 by (unfold is_u; lia). lia.
Qed.

(** The four stores, from a timer below 256, interrupted before each. *)
Lemma stored_in_order h w n0 n1 n2 n3 w1 w2 w3 w4 :
  is_u 16 h -> 0 <= w < 256 -> 0 <= n0 -> 0 <= n1 -> 0 <= n2 -> 0 <= n3 ->
  w1 = le_value (<[0%nat := u8 h]> (le_bytes 4 (Z.max 0 (w - n0)))) ->
  w2 = le_value (<[1%nat := u8 (h .>> 8)]> (le_bytes 4 (Z.max 0 (w1 - n1)))) ->
  w3 = le_value (<[2%nat := u8 (h .>> 16)]> (le_bytes 4 (Z.max 0 (w2 - n2)))) ->
  w4 = le_value (<[3%nat := u8 (h .>> 24)]> (le_bytes 4 (Z.max 0 (w3 - n3)))) ->
  (is_u 16 w1 /\ is_u 16 w2 /\ is_u 16 w3) /\ 0 <= w4 /\ h - (n1 + n2 + n3) <= w4 <= h.
Proof.
  intros Hh Hw H0 H1 H2 H3 E1 E2 E3 E4.
  assert (u8 h = h mod 256 /\ u8 (h .>> 8) = h / 256 /\ u8 (h .>> 16) = 0 /\ u8 (h .>> 24) = 0)
    as (B0 & B1 & B2 & B3).
  { pose proof (low_bytes h Hh) as E. cbn [le_bytes] in E. rewrite !Z.shiftr_shiftr in E by done.
    by injection E. }
  rewrite B0 in E1. rewrite B1 in E2. rewrite B2 in E3. rewrite B3 in E4. unfold is_u in *.
  destruct (split256 h) as (? & ? & ?); [lia|].
  destruct (store_low (Z.max 0 (w - n0)) (h mod 256)) as [L1 _]; [unfold is_u; lia..|].
  rewrite L1, (Z.div_small (Z.max 0 (w - n0))) in E1 by lia. assert (w1 = h mod 256) as -> by lia.
  destruct (store_low (Z.max 0 (h mod 256 - n1)) (h / 256)) as (_ & L2 & _); [unfold is_u; lia..|].
  rewrite L2, (Z.mod_small (Z.max 0 (h mod 256 - n1))) in E2 by lia.
  destruct (store_low (Z.max 0 (w2 - n2)) 0) as (_ & _ & L3 & _); [unfold is_u; lia..|].
  rewrite L3 in E3.
  destruct (store_low (Z.max 0 (w3 - n3)) 0) as (_ & _ & _ & L4); [unfold is_u; lia..|].
  rewrite L4 in E4. lia.
Qed.

Lemma spec_put_wait_ticks h :
  is_u 16 h ->
  spec (put_wait_ticks h) (fun s _ t s' =>
    acted id (fun _ => []) s t s' /\ current_locc_step (locc s') = current_locc_step (locc s)
    /\ timer_set h (ticks t) (wait_ticks (locc s)) (wait_ticks (locc s'))).
Proof.
  intros Hh. unfold put_wait_ticks.
  eapply spec_conseq; [do 3 (eapply spec_seq; [apply spec_put_wait_byte|intros ?]);
    apply spec_put_wait_byte|].
  cbn beta. intros s [] t s4 (_ & t0 & s1 & ? & -> & (A0 & K0 & W0) & _ & t1 & s2 & ? & -> &
    (A1 & K1 & W1) & _ & t2 & s3 & t3 & -> & (A2 & K2 & W2) & (A3 & K3 & W3)). split_and!; [|congruence|].
  - eapply acted_trans; [exact A0|]. eapply acted_trans; [exact A1|]. by eapply acted_trans.
  - intros Hw. rewrite !ticks_app.
    pose proof (ticks_nonneg t0). pose proof (ticks_nonneg t1).
    pose proof (ticks_nonneg t2). pose proof (ticks_nonneg t3).
    assert (is_u32 (wait_ticks (locc s))) as U by (unfold is_u; lia).
    (* the bounds of the intermediate values *)
    destruct (stored_in_order h (wait_ticks (locc s)) (ticks t0) (ticks t1) (ticks t2) (ticks t3) _ _ _ _
      Hh Hw ltac:(lia) ltac:(lia) ltac:(lia) ltac:(lia) eq_refl eq_refl eq_refl eq_refl)
      as ((U1 & U2 & U3) & B).
    rewrite <- (W0 U) in U1, U2, U3, B. rewrite <- (W1 (u16_is_u32 _ U1)) in U2, U3, B.
    rewrite <- (W2 (u16_is_u32 _ U2)) in U3, B. rewrite <- (W3 (u16_is_u32 _ U3)) in B. lia.
Qed.

Lemma spec_put_step k :
  spec (put_step k) (fun s _ t s' => t = [] /\ gpio s' = gpio s /\ app s' = app s
    /\ current_locc_step (locc s') = k /\ wait_ticks (locc s') = wait_ticks (locc s)).
Proof. apply spec_modify; intros s; destruct (locc s) eqn:E; cbn; rewrite ?E; done. Qed.

Lemma spec_wait_then_step k h :
  is_u 16 h -> spec (set_wait_time h ;; put_step k) (fun s _ t s' => sets k h s t s').
Proof.
  intros Hh. eapply spec_bind; [by apply spec_put_wait_ticks|intros; apply spec_put_step|].
  cbn beta. intros s [] t s1 [] t' s2 ((Hg & Hp & Ha) & Hk & Hw) (-> & Hg' & Ha' & Hk' & Hw').
  unfold sets, acted. rewrite app_nil_r, Hw'. split_and!; (done || congruence).
Qed.

Lemma spec_step_then_wait k h :
  is_u 16 h -> spec (put_step k ;; set_wait_time h) (fun s _ t s' => sets k h s t s').
Proof.
  intros Hh. eapply spec_bind; [apply spec_put_step|intros; by apply spec_put_wait_ticks|].
  cbn beta. intros s [] t s1 [] t' s2 (-> & Hg' & Ha' & Hk' & Hw') ((Hg & Hp & Ha) & Hk & Hw).
  unfold sets, acted, id in *. cbn [Datatypes.app]. rewrite Hw' in Hw. split_and!; (done || congruence).
Qed.

(** [do_locc_step] at position [k] of the cycle. *)
Definition stepped (k : Z) (a : action) (s : mcu) (t : list event) (s' : mcu) : Prop :=
  acted (after_action a) (fun g => wave (vcc g) a) s t s'
  /\ current_locc_step (locc s') = next_step k
  /\ exists n2 n3, ticks t = n2 + n3 /\ 0 <= n2 /\ 0 <= n3
     /\ timer_set (hold k) n3 (wait_ticks (locc s)) (wait_ticks (locc s')).

Lemma stepped_from {A} (m : M A) (rest : A -> M unit) k a :
  does m (after_action a) (fun g => wave (vcc g) a) ->
  (forall x, spec (rest x) (fun s _ t s' => sets (next_step k) (hold k) s t s')) ->
  spec (bind m rest) (fun s _ t s' => stepped k a s t s').
Proof.
  intros Hm Hr. eapply spec_bind; [exact Hm|exact Hr|].
  cbn beta. intros s x t s1 [] t' s2 H1 (H2 & Hk & Hw). split_and!; [|done|].
  - eapply acted_trans; [by apply drives_acted|done].
  - exists (ticks t), (ticks t'). rewrite ticks_app.
    pose proof (ticks_nonneg t). pose proof (ticks_nonneg t'). split_and!; try done.
    intros Hu. apply Hw. destruct H1 as (_ & _ & _ & _ & _ & _ & _ & Ht).
    rewrite Ht by (unfold is_u; lia). lia.
Qed.

Lemma spec_do_locc_step x :
  spec (do_locc_step x) (fun s _ t s' =>
    forall k a, current_locc_step (locc s) = k -> action_of k = Some a -> stepped k a s t s').
Proof.
  unfold do_locc_step. apply spec_get_bind. intros k'.
  assert (forall j (m : M unit) a, action_of j = Some a ->
    spec m (fun s _ t s' => stepped j a s t s') -> k' = j ->
    spec m (fun s _ t s' => k' = current_locc_step (locc s) ->
      forall k a, current_locc_step (locc s) = k -> action_of k = Some a -> stepped k a s t s')) as Hj.
  { intros j m a Ha Hm -> . eapply spec_conseq; [exact Hm|]. cbn. intros s u t s' Hst <- k a' <- Ha'.
    rewrite Ha in Ha'. by injection Ha' as <-. }
  destruct (Z.eqb_spec k' 0) as [->|]; [|destruct (Z.eqb_spec k' 1) as [->|];
    [|destruct (Z.eqb_spec k' 2) as [->|]; [|destruct (Z.eqb_spec k' 3) as [->|];
    [|destruct (Z.eqb_spec k' 4) as [->|]]]]].
  - eapply spec_conseq; [by apply spec_wait_then_step|]. cbn. intros s u t s' _ <- k a <- [=].
  - eapply (Hj 1 _ Wake); [done| |done].
    apply stepped_from; [by apply does_wakeup_locc|intros; by apply spec_step_then_wait].
  - eapply (Hj 2 _ Telegram); [done| |done].
    apply stepped_from; [by apply does_sendCylinderTelegram|intros; by apply spec_wait_then_step].
  - eapply (Hj 3 _ Off); [done| |done].
    apply stepped_from; [by apply does_powerdown_locc|intros; by apply spec_wait_then_step].
  - eapply (Hj 4 _ On); [done| |done].
    apply stepped_from; [by apply does_powerup_locc|intros; by apply spec_wait_then_step].
  - apply spec_ret. intros s -> k a <-. unfold action_of.
    repeat (case_match; [lia|]). done.
Qed.

Lemma acted_quiet s t s' : lock_quiet s t s' -> acted id (fun _ => []) s t s'.
Proof. exact (drives_acted id (fun _ => []) s t s'). Qed.

(** What reading a timer of two bytes, the low byte first, tells: 0 is read after it has run
    out, and anything else before. *)
Definition read_timer (w v n : Z) : Prop :=
  exists n1, 0 <= n1 <= n /\ if 0 <? v then 0 < w - n1 else ran_out w n1.

Lemma read_in_order w n0 n1 n2 n3 :
  is_u 16 w -> 0 <= n0 -> 0 <= n1 -> 0 <= n2 -> 0 <= n3 ->
  let w0 := Z.max 0 (w - n0) in let w1 := Z.max 0 (w0 - n1) in
  let w2 := Z.max 0 (w1 - n2) in let w3 := Z.max 0 (w2 - n3) in
  read_timer w (le_value [nth 0 (le_bytes 4 w0) 0; nth 1 (le_bytes 4 w1) 0;
                          nth 2 (le_bytes 4 w2) 0; nth 3 (le_bytes 4 w3) 0]) (n0 + n1 + n2 + n3).
Proof.
  intros Hw ? ? ? ? w0 w1 w2 w3. unfold is_u in Hw.
  destruct (split256 w0) as (? & ? & ?); [lia|]. destruct (split256 w1) as (? & ? & ?); [lia|].
  rewrite !low_bytes by (unfold is_u; lia). cbn [nth].
  rewrite le_value4 by (unfold is_u; lia). unfold read_timer, ran_out.
  destruct (Z.ltb_spec 0 (w0 mod 256 + 256 * (w1 / 256) + 65536 * 0 + 16777216 * 0)).
  - destruct (Z.eq_dec (w0 mod 256) 0); [exists (n0 + n1)|exists n0]; lia.
  - exists (n0 + n1). lia.
Qed.

Lemma spec_get_wait_ticks :
  spec get_wait_ticks (fun s v t s' => lock_quiet s t s'
    /\ (is_u 16 (wait_ticks (locc s)) -> read_timer (wait_ticks (locc s)) v (ticks t))).
Proof.
  unfold get_wait_ticks.
  eapply spec_conseq; [do 4 (eapply spec_seq; [apply spec_get_wait_byte|intros ?]);
    apply spec_ret_exact|].
  cbn beta. intros s v t s4 (b0 & t0 & s0 & ? & -> & (Q0 & ->) & b1 & t1 & s1 & ? & -> & (Q1 & ->) &
    b2 & t2 & s2 & ? & -> & (Q2 & ->) & b3 & t3 & s3 & ? & -> & (Q3 & ->) & -> & -> & ->).
  rewrite app_nil_r. split.
  - do 3 (eapply (policy_trans (R := lock_quiet)); [eassumption|]). done.
  - intros Hu. pose proof (u16_is_u32 _ Hu) as Hu32. rewrite !ticks_app, !Z.add_assoc.
    pose proof (ticks_nonneg t0). pose proof (ticks_nonneg t1).
    pose proof (ticks_nonneg t2). pose proof (ticks_nonneg t3).
    destruct Q0 as (_ & _ & _ & _ & _ & _ & _ & W0). destruct Q1 as (_ & _ & _ & _ & _ & _ & _ & W1).
    destruct Q2 as (_ & _ & _ & _ & _ & _ & _ & W2). destruct Q3 as (_ & _ & _ & _ & _ & _ & _ & W3).
    specialize (W0 Hu32).
    specialize (W1 ltac:(rewrite W0; by apply wait_is_u32)).
    specialize (W2 ltac:(rewrite W1, W0; by do 2 (apply wait_is_u32; [|done]))).
    specialize (W3 ltac:(rewrite W2, W1, W0; by do 3 (apply wait_is_u32; [|done]))).
    rewrite W3, W2, W1, W0. by apply read_in_order.
Qed.

Lemma spec_timer_is_expired :
  spec timer_is_expired (fun s b t s' => lock_quiet s t s'
    /\ (is_u 16 (wait_ticks (locc s)) -> exists n1, 0 <= n1 <= ticks t
        /\ if b : bool then ran_out (wait_ticks (locc s)) n1 else 0 < wait_ticks (locc s) - n1)).
Proof.
  unfold timer_is_expired.
  eapply (spec_bind _ _ _ (fun w s b t s' => t = [] /\ s' = s /\ b = negb (0 <? w)));
    [apply spec_get_wait_ticks|intros w; by apply spec_ret|].
  cbn beta. intros s w t s1 b t' s2 [H Hr] (-> & -> & ->). rewrite app_nil_r. split; [done|].
  intros Hu. destruct (Hr Hu) as (n1 & Hn & Hw). exists n1. by destruct (0 <? w).
Qed.

(** The last lines of [do_next_locc_step]. *)
Definition report_end : M bool :=
  k <- get_step ;; if 0 <? k then ret true else usb_putc PRE (ch ".") ;; ret false.

Lemma spec_report_end :
  spec report_end (fun s b t s' => lock_quiet s t s' /\ b = (0 <? current_locc_step (locc s))).
Proof.
  apply spec_get_bind. intros k. destruct (0 <? k) eqn:Hk.
  - apply spec_ret. intros s ->. split; [apply policy_refl|done].
  - eapply (spec_bind _ _ _ (fun _ s b t s' => t = [] /\ s' = s /\ b = false));
      [by apply obeys_putc|intros; by apply spec_ret|].
    cbn. intros s [] t s1 b t' s2 H (-> & -> & ->) ->. by rewrite app_nil_r.
Qed.

(** What [do_next_locc_step] does at position [k]: nothing before the timer has run out, the
    action of the position otherwise. *)
Definition waited (s : mcu) (b : bool) (t : list event) (s' : mcu) : Prop :=
  lock_quiet s t s' /\ b = true
  /\ exists n1 n2, ticks t = n1 + n2 /\ 0 <= n1 /\ 0 <= n2 /\ 0 < wait_ticks (locc s) - n1.

Definition performed (k : Z) (a : action) (s : mcu) (b : bool) (t : list event) (s' : mcu) : Prop :=
  acted (after_action a) (fun g => wave (vcc g) a) s t s'
  /\ current_locc_step (locc s') = next_step k /\ b = (0 <? next_step k)
  /\ exists n1 n2 n3, ticks t = n1 + n2 + n3 /\ 0 <= n1 /\ 0 <= n2 /\ 0 <= n3
     /\ ran_out (wait_ticks (locc s)) n1
     /\ 0 <= wait_ticks (locc s') /\ hold k - n3 <= wait_ticks (locc s') <= hold k.

Lemma performed_from k a s t1 s1 n1 t2 s2 t3 s3 b :
  is_u 16 (wait_ticks (locc s)) -> lock_quiet s t1 s1 ->
  0 <= n1 <= ticks t1 -> ran_out (wait_ticks (locc s)) n1 ->
  stepped k a s1 t2 s2 ->
  lock_quiet s2 t3 s3 -> b = (0 <? current_locc_step (locc s2)) ->
  performed k a s b (t1 ++ t2 ++ t3) s3.
Proof.
  intros Hu (Hg & Hp & Ha & Hs & _ & _ & _ & Hw) Hn1 Hexp (Hst & Hk & n2 & n3 & Hn & Hn2 & Hn3 & Hh) Hq Hb.
  unfold performed. specialize (Hw (u16_is_u32 _ Hu)).
  pose proof (ticks_nonneg t1). pose proof (ticks_nonneg t2). pose proof (ticks_nonneg t3).
  split; [|split; [|split]].
  - destruct Hst as (A1 & A2 & A3). destruct Hq as (B1 & B2 & B3 & _).
    unfold acted. rewrite !pins_app, Hp, A2, B2, app_nil_r, Hg. split_and!; [congruence|done|congruence].
  - destruct Hq as (_ & _ & _ & Hk' & _). congruence.
  - congruence.
  - exists n1, (ticks t1 - n1 + n2), (n3 + ticks t3). rewrite !ticks_app.
    destruct Hq as (_ & _ & _ & _ & _ & _ & _ & Hw').
    destruct Hh as [Hh1 Hh2]; [unfold ran_out, is_u in *; lia|].
    pose proof (hold_bound k).
    rewrite Hw' by (unfold is_u; lia). split_and!; (done || lia).
Qed.

Lemma spec_do_next_locc_step :
  spec do_next_locc_step (fun s b t s' => forall k a,
    current_locc_step (locc s) = k -> action_of k = Some a -> is_u 16 (wait_ticks (locc s)) ->
    waited s b t s' \/ performed k a s b t s').
Proof.
  eapply spec_bind; [apply spec_timer_is_expired| |].
  - intros e. eapply (spec_bind _ _ (fun s _ t s' => if e : bool then
        (forall k a, current_locc_step (locc s) = k -> action_of k = Some a -> stepped k a s t s')
        else t = [] /\ s' = s) (fun _ s b t s' => lock_quiet s t s' /\ b = (0 <? current_locc_step (locc s)))
        (fun s b t s' => exists t2 s2 t3, t = t2 ++ t3
           /\ (if e : bool then forall k a, current_locc_step (locc s) = k -> action_of k = Some a ->
                  stepped k a s t2 s2 else t2 = [] /\ s2 = s)
           /\ lock_quiet s2 t3 s' /\ b = (0 <? current_locc_step (locc s2)))).
    + destruct e; [|by apply spec_ret].
      unfold get_step. apply spec_get_bind. intros k'.
      eapply spec_conseq; [apply spec_do_locc_step|]. cbn. intros s [] t s' H _. exact H.
    + intros []. apply spec_report_end.
    + cbn. intros s [] t s1 b t' s2 H [Hq ->]. exists t, s1, t'. done.
  - cbn. intros s e t1 s1 b t s3 [Hq He] (t2 & s2 & t3 & -> & Hst & Hq3 & Hb) k a Hk Ha Hu.
    assert (current_locc_step (locc s1) = k) as Hk1 by (destruct Hq as (_ & _ & _ & -> & _); done).
    destruct (He Hu) as (n1 & Hn1 & Hexp). destruct e; [right|left].
    + eapply performed_from; [done|exact Hq|exact Hn1|done|by apply Hst|exact Hq3|done].
    + destruct Hst as [-> ->]. split_and!.
      * eapply (policy_trans (R := lock_quiet)); [exact Hq|exact Hq3].
      * rewrite Hb, Hk1. unfold action_of in Ha. repeat (case_match; [lia|]). done.
      * exists n1, (ticks t1 - n1 + ticks t3). rewrite ticks_app. cbn [Datatypes.app].
        pose proof (ticks_nonneg t1). pose proof (ticks_nonneg t3). split_and!; lia.
Qed.
End Step.

(** Ticks before and after a round belong to it. *)
Lemma round_lead v c n acts v' w n0 :
  lock_round v c n acts v' -> 0 <= n0 -> 0 <= n -> v_left v = Z.max 0 (w - n0) ->
  lock_round (LockView (v_locking v) (v_step v) w) c (n0 + n) acts v'.
Proof.
  intros H Hn0 Hn Hw. destruct H; cbn in *.
  - replace (Z.max 0 (w0 - n)) with (Z.max 0 (w - (n0 + n))) by lia. constructor.
  - replace (Z.max 0 (w0 - (n1 + n2))) with (Z.max 0 (w - (n0 + n1 + n2))) by lia.
    rewrite Z.add_assoc. constructor; try done; lia.
  - replace (n0 + (n1 + n2 + n3)) with (n0 + n1 + n2 + n3) by lia.
    constructor; try done; unfold ran_out in *; lia.
Qed.

Lemma round_trail v c n acts v' n4 :
  lock_round v c n acts v' -> 0 <= n4 -> 0 <= n ->
  lock_round v c (n + n4) acts (LockView (v_locking v') (v_step v') (Z.max 0 (v_left v' - n4))).
Proof.
  intros H Hn4 Hn. destruct H; cbn.
  - replace (Z.max 0 (Z.max 0 (w - n) - n4)) with (Z.max 0 (w - (n + n4))) by lia. constructor.
  - replace (Z.max 0 (Z.max 0 (w - (n1 + n2)) - n4)) with (Z.max 0 (w - (n1 + (n2 + n4)))) by lia.
    rewrite <- Z.add_assoc. constructor; try done; lia.
  - rewrite <- (Z.add_assoc (n1 + n2)). econstructor; try done; lia.
Qed.

(** ** The locking part of a round *)
Section Task.
Context {HW : Hardware} {PRE : Preempt} {FU : Fuel} (pre_ok : obeys lock_quiet preempt).
Import Locc.

Lemma spec_put_locking b :
  spec (put_locking b) (fun s _ t s' => t = [] /\ gpio s' = gpio s /\ locc s' = locc s
    /\ proto (app s') = proto (app s) /\ is_locking (app s') = b).
Proof. apply spec_modify; intros s; destruct (app s) eqn:E; cbn; rewrite ?E; done. Qed.

(** Starting a cycle: only when none is running and the command asks for it. *)
Definition begin_cycle (command : Z) (a : app_globals) : M unit :=
  when negb (is_locking a) && (command =? 1) do
    (usb_putc PRE (ch "O") ;; put_locking true ;; start_locking).

Definition began (command : Z) (s : mcu) (t : list event) (s' : mcu) : Prop :=
  gpio s' = gpio s /\ pins t = [] /\ proto (app s') = proto (app s)
  /\ (is_u32 (wait_ticks (locc s)) ->
      wait_ticks (locc s') = Z.max 0 (wait_ticks (locc s) - ticks t))
  /\ is_locking (app s') = is_locking (app s) || (command =? 1)
  /\ current_locc_step (locc s') =
       (if is_locking (app s) then current_locc_step (locc s)
        else if command =? 1 then 1 else current_locc_step (locc s)).

Lemma began_nothing command s :
  negb (is_locking (app s)) && (command =? 1) = false -> began command s [] s.
Proof.
  intros H. unfold began, is_u. split_and!; try done; cbn; [lia|..];
    destruct (is_locking (app s)), (command =? 1); done.
Qed.

Lemma spec_begin_cycle command :
  spec (a <- get_app ;; begin_cycle command a) (fun s _ t s' => began command s t s').
Proof.
  apply spec_get_bind. intros a. unfold begin_cycle.
  destruct (negb (is_locking a) && (command =? 1)) eqn:E.
  - apply andb_true_iff in E as [E1 E2]. apply negb_true_iff in E1.
    eapply spec_bind; [apply obeys_putc; exact pre_ok| |].
    { intros u. eapply (spec_bind _ _ _ (fun _ s _ t s' => t = [] /\ gpio s' = gpio s /\ app s' = app s
        /\ current_locc_step (locc s') = 1 /\ wait_ticks (locc s') = wait_ticks (locc s))
        (fun s _ t s' => t = [] /\ gpio s' = gpio s /\ proto (app s') = proto (app s)
        /\ is_locking (app s') = true
        /\ current_locc_step (locc s') = 1 /\ wait_ticks (locc s') = wait_ticks (locc s)));
        [apply spec_put_locking|intros []; apply spec_put_step|].
      cbn. intros s [] t s1 [] t' s2 (-> & Hg & Hl & Hp & Hb) (-> & Hg' & Ha' & Hk & Hw).
      split_and!; (done || congruence). }
    cbn. intros s [] t s1 [] t' s2 (Hg & Hp & Ha & Hk & _ & _ & _ & Hw)
      (-> & Hg' & Hp' & Hb & Hk' & Hw') ->.
    unfold began. rewrite E1, E2, app_nil_r. cbn. split_and!; try congruence.
    intros Hu. rewrite Hw'. by apply Hw.
  - apply spec_ret. intros s ->. by apply began_nothing.
Qed.

(** Advancing it. *)
Lemma spec_advance :
  spec (a <- get_app ;; when is_locking a do (b <- do_next_locc_step ;; put_locking b))
    (fun s _ t s' => lock_inv s ->
       if is_locking (app s) then
         exists k a b s1, current_locc_step (locc s) = k /\ action_of k = Some a
           /\ (waited s b t s1 \/ performed k a s b t s1)
           /\ gpio s' = gpio s1 /\ locc s' = locc s1 /\ proto (app s') = proto (app s)
           /\ is_locking (app s') = b
       else t = [] /\ s' = s).
Proof.
  apply spec_get_bind. intros a. destruct (is_locking a) eqn:E.
  - eapply (spec_bind _ _ _ _ _ (spec_do_next_locc_step pre_ok) spec_put_locking).
    intros s b t s1 [] t' s2 H (-> & Hg & Hl & Hp & Hb) -> [Hk Hu]. rewrite E. specialize (Hk E).
    rewrite app_nil_r.
    assert (exists a, action_of (current_locc_step (locc s)) = Some a) as [ac Hac].
    { unfold action_of. repeat (case_match; [eauto|]). lia. }
    specialize (H _ ac eq_refl Hac Hu).
    exists (current_locc_step (locc s)), ac, b, s1. split_and!; try done.
    destruct H as [((_ & _ & Ha & _) & _)|((_ & _ & Ha) & _)]; congruence.
  - apply spec_ret. intros s -> _. by rewrite E.
Qed.

(** A round of the controller, as seen in the machine. *)
Definition refines_round (c : bool) (s : mcu) (t : list event) (s' : mcu) : Prop :=
  exists acts, lock_round (view s) c (ticks t) acts (view s') /\ lock_inv s'
    /\ pins t = waves (vcc (gpio s)) acts /\ gpio s' = fold_left (flip after_action) acts (gpio s)
    /\ proto (app s') = proto (app s).

Lemma next_step_range k a : action_of k = Some a ->
  (0 <? next_step k) = true -> 1 <= next_step k <= 4.
Proof.
  unfold action_of, next_step. intros Ha H.
  destruct (Z.eqb_spec k 4); [done|]. repeat (case_match; [lia|]). done.
Qed.


(** The cases of [spec_advance] after [spec_begin_cycle]. *)
Lemma refines_waited command s t1 s1 t2 s2 b s3 :
  lock_inv s -> began command s t1 s1 -> is_locking (app s) || (command =? 1) = true ->
  waited s1 b t2 s2 -> gpio s3 = gpio s2 -> locc s3 = locc s2 ->
  proto (app s3) = proto (app s1) -> is_locking (app s3) = b ->
  1 <= current_locc_step (locc s1) <= 4 ->
  refines_round (command =? 1) s (t1 ++ t2) s3.
Proof.
  intros [Hk Hu] (Bg & Bp & Bpr & Bw & Bl & Bk) Hor
    ((Hg & Hp & _ & Hs & _ & _ & _ & Hw) & -> & n1 & n2 & Hn & Hn1 & Hn2 & Hlt) Hg3 Hl3 Hp3 Hb3 Hr.
  specialize (Bw (u16_is_u32 _ Hu)). pose proof (ticks_nonneg t1).
  specialize (Hw ltac:(rewrite Bw; by apply wait_is_u32, ticks_nonneg; apply u16_is_u32)).
  exists []. rewrite pins_app, ticks_app, Bp, Hp, Hg3. cbn. split_and!.
  - unfold view. rewrite Hb3, Hl3, Hs, Hw, Bw, Hn, Z.add_assoc, Bk.
    replace (Z.max 0 (Z.max 0 (wait_ticks (locc s) - ticks t1) - (n1 + n2)))
      with (Z.max 0 (wait_ticks (locc s) - ((ticks t1 + n1) + n2))) by lia.
    constructor; try done; try lia.
    by destruct (is_locking (app s)), (command =? 1).
  - unfold lock_inv. rewrite Hl3, Hs. split; [done|]. rewrite Hw, Bw.
    by apply wait_is_u16; [apply wait_is_u16|lia].
  - done.
  - congruence.
  - congruence.
Qed.

Lemma refines_performed command s t1 s1 t2 s2 k a b s3 :
  lock_inv s -> began command s t1 s1 -> is_locking (app s) || (command =? 1) = true ->
  current_locc_step (locc s1) = k -> action_of k = Some a ->
  performed k a s1 b t2 s2 -> gpio s3 = gpio s2 -> locc s3 = locc s2 ->
  proto (app s3) = proto (app s1) -> is_locking (app s3) = b ->
  refines_round (command =? 1) s (t1 ++ t2) s3.
Proof.
  intros [Hk Hu] (Bg & Bp & Bpr & Bw & Bl & Bk) Hor Hk1 Ha
    ((Hg & Hp & _) & Hs & -> & n1 & n2 & n3 & Hn & Hn1 & Hn2 & Hn3 & Hle & Hw0 & Hw) Hg3 Hl3 Hp3 Hb3.
  specialize (Bw (u16_is_u32 _ Hu)). pose proof (ticks_nonneg t1).
  exists [a]. rewrite pins_app, ticks_app, Bp, Hp, Hg3, Hg, Bg. split_and!.
  - unfold view. rewrite Hb3, Hl3, Hs, Hn.
    replace (ticks t1 + (n1 + n2 + n3)) with ((ticks t1 + n1) + n2 + n3) by lia.
    constructor; try done; try (unfold ran_out in *; lia).
    rewrite <- Hk1, Bk. by destruct (is_locking (app s)), (command =? 1).
  - unfold lock_inv. rewrite Hb3, Hl3, Hs. split; [by eapply next_step_range|].
    pose proof (hold_bound k). unfold is_u. lia.
  - unfold waves. cbn [fmap list_fmap mjoin list_join]. by rewrite app_nil_r.
  - done.
  - congruence.
Qed.

Lemma spec_locking_task command :
  spec (locking_task command) (fun s _ t s' =>
    lock_inv s -> refines_round (command =? 1) s t s').
Proof.
  eapply spec_ext; [intros s; apply (bind_assoc get_app (begin_cycle command))|].
  eapply spec_bind; [apply spec_begin_cycle|intros; apply spec_advance|].
  cbn. intros s [] t1 s1 [] t2 s3 HB HA Hinv. pose proof HB as (Bg & Bp & Bpr & Bw & Bl & Bk).
  assert (lock_inv s1) as Hinv1.
  { destruct Hinv as [Hk Hu]. pose proof (ticks_nonneg t1). split.
    - intros Hl. rewrite Bl in Hl. rewrite Bk. destruct (is_locking (app s)); [by apply Hk|].
      cbn in Hl. rewrite Hl. lia.
    - rewrite Bw by (by apply u16_is_u32). by apply wait_is_u16. }
  specialize (HA Hinv1). rewrite Bl in HA.
  destruct (is_locking (app s) || (command =? 1)) eqn:Hor.
  - destruct HA as (k & a & b & s2 & Hk & Ha & [Hw|Hp] & Hg3 & Hl3 & Hp3 & Hb3).
    + apply (refines_waited command s t1 s1 t2 s2 b s3); try done.
      apply Hinv1. by rewrite Bl.
    + apply (refines_performed command s t1 s1 t2 s2 k a b s3); done.
  - destruct HA as [-> ->]. apply orb_false_iff in Hor as [H1 H2]. destruct Hinv as [Hk Hu].
    exists []. rewrite app_nil_r, H2, Bp. split_and!; try done.
    unfold view. rewrite Bl, Bk, H1, ?H2, Bw by (done || by apply u16_is_u32). cbn. constructor.
Qed.
End Task.

(** ** The command of a round *)
Section Command.
Context {HW : Hardware} {PRE : Preempt} {FU : Fuel} (pre_ok : obeys lock_quiet preempt).
Import Locc.

(** The segment reads the byte [c] from an endpoint's FIFO. *)
Definition reads_byte (c : Z) (t : list event) : Prop := exists ep, In (Rd UEDATX ep c) t.

Lemma reads_byte_app c t t' : reads_byte c t \/ reads_byte c t' -> reads_byte c (t ++ t').
Proof. intros [[ep H]|[ep H]]; exists ep; apply in_or_app; auto. Qed.

Lemma spec_read_data :
  spec (rd UEDATX) (fun s v t s' => lock_quiet s t s' /\ is_u8 v /\ reads_byte v t).
Proof.
  apply spec_and; [apply obeys_usb_rd; [typeclasses eauto|exact pre_ok|done]|].
  eapply (spec_bind _ _ _ (fun _ s v t s' => is_u8 v /\ reads_byte v t)); [exact pre_ok| |].
  - intros _. apply spec_raw_read; [done|]. intros s v h _ _. split; [by apply wrap_is_u|].
    eexists. by left.
  - cbn. intros s [] t s1 v t' s2 _ [Hv Hr]. split; [done|]. apply reads_byte_app. auto.
Qed.

Lemma spec_ReceiveByte :
  spec CDC_Device_ReceiveByte (fun s r t s' => lock_quiet s t s'
    /\ (r = -1 \/ is_u8 r /\ reads_byte r t)).
Proof.
  apply spec_and; [apply obeys_CDC_Device_ReceiveByte; [typeclasses eauto|exact pre_ok]|].
  set (F := fun (r : Z) t => r = -1 \/ is_u8 r /\ reads_byte r t).
  assert (forall r t t', F r t \/ F r t' -> F r (t ++ t')) as HF.
  { intros r t t' [[?|[? ?]]|[?|[? ?]]]; [by left| |by left|];
      right; (split; [done|]); apply reads_byte_app; auto. }
  unfold CDC_Device_ReceiveByte. apply (spec_skip lock_quiet _ _ F); [obey| |eauto].
  intros []; [apply spec_ret; by left|].
  apply (spec_skip lock_quiet _ _ F); [obey| |eauto]. intros [].
  apply (spec_skip lock_quiet _ _ F); [obey| |eauto]. intros []; [|apply spec_ret; by left].
  apply (spec_skip lock_quiet _ _ F); [obey| |eauto]. intros n.
  eapply (spec_bind _ _ (fun _ r t _ => F r t) (fun v _ r _ _ => r = v)).
  - destruct (truth n); [|apply spec_ret; by left].
    eapply spec_conseq; [apply spec_read_data|]. cbn. intros s v t s' (_ & H). by right.
  - intros v. apply (spec_skip lock_quiet _ _ (fun r _ => r = v)); [obey| |done]. intros m.
    apply (spec_skip lock_quiet _ _ (fun r _ => r = v)); [obey| |done]. intros []. by apply spec_ret.
  - cbn. intros s a t s1 b t' s2 H ->. eauto.
Qed.

(** The effect of the received byte, if any, on the command interpreter; [true] when it asks
    for an opening. *)
Definition input_step (p : proto_state) (b : option Z) : bool * proto_state :=
  match b with
  | None => (false, p)
  | Some c => let '(command, _, p') := handle_user_input p c in (command =? 1, p')
  end.

(** Reading a command: the lock and the cycle are left alone; [b] is the byte. *)
Definition takes (b : option Z) (s : mcu) (command : Z) (t : list event) (s' : mcu) : Prop :=
  gpio s' = gpio s /\ pins t = [] /\ is_locking (app s') = is_locking (app s)
  /\ current_locc_step (locc s') = current_locc_step (locc s)
  /\ (is_u32 (wait_ticks (locc s)) ->
      wait_ticks (locc s') = Z.max 0 (wait_ticks (locc s) - ticks t))
  /\ input_step (proto (app s)) b = (command =? 1, proto (app s')).

Definition commanded (s : mcu) (command : Z) (t : list event) (s' : mcu) : Prop :=
  exists b, takes b s command t s' /\ forall c, b = Some c -> reads_byte c t.

Lemma takes_quiet b s t s1 command t' s2 :
  lock_quiet s t s1 -> takes b s1 command t' s2 -> takes b s command (t ++ t') s2.
Proof.
  intros (Hg & Hp & Ha & Hk & _ & _ & _ & Hw) (Hg' & Hp' & Hl' & Hk' & Hw' & Hin).
  unfold takes. rewrite pins_app, ticks_app, Hp, Hp'. rewrite Ha in Hin, Hl'.
  split_and!; [congruence|done|congruence|congruence| |congruence]. intros Hu. specialize (Hw Hu).
  pose proof (ticks_nonneg t). pose proof (ticks_nonneg t').
  rewrite Hw'; rewrite Hw; [lia|by apply wait_is_u32].
Qed.

Lemma spec_put_proto p :
  spec (put_proto p) (fun s _ t s' => t = [] /\ gpio s' = gpio s /\ locc s' = locc s
    /\ proto (app s') = p /\ is_locking (app s') = is_locking (app s)).
Proof. apply spec_modify; intros s; destruct (app s) eqn:E; cbn; rewrite ?E; done. Qed.

Lemma spec_user_input c : spec (user_input c) (fun s command t s' => takes (Some c) s command t s').
Proof.
  unfold user_input. apply spec_get_bind. intros a.
  destruct (handle_user_input (proto a) c) as [[command outs] p] eqn:Hh.
  eapply spec_bind; [apply obeys_put_all; [typeclasses eauto|exact pre_ok]| |].
  { intros u. eapply (spec_bind _ _ _ (fun _ s x t s' => t = [] /\ s' = s /\ x = command)
      (fun s x t s' => t = [] /\ gpio s' = gpio s /\ locc s' = locc s
        /\ proto (app s') = p /\ is_locking (app s') = is_locking (app s) /\ x = command));
      [apply spec_put_proto|intros; by apply spec_ret|].
    cbn. intros s [] t s1 x t' s2 (-> & H1 & H2 & H3 & H4) (-> & -> & ->). done. }
  cbn. intros s [] t s1 x t' s2 (Hg & Hp & Ha & Hk & _ & _ & _ & Hw)
    (-> & Hg' & Hl & Hpr & Hlk & ->) ->.
  unfold takes. cbn [input_step]. rewrite app_nil_r, Hh, Hpr, Hl. split_and!; (done || congruence).
Qed.

(** The first lines of [loop]. *)
Definition read_command : M Z :=
  receive_status <- CDC_Device_ReceiveByte ;;
  select_data_in ;;
  if negb (receive_status <? 0) then user_input (receive_status .& 0xFF) else ret 0.

Lemma spec_read_command : spec read_command (fun s command t s' => commanded s command t s').
Proof.
  unfold read_command. eapply spec_bind; [apply spec_ReceiveByte| |].
  { intros r. eapply (spec_bind _ _ (fun s _ t s' => lock_quiet s t s')
      (fun _ s x t s' => takes (if r <? 0 then None else Some (r .& 0xFF)) s x t s')
      (fun s x t s' => takes (if r <? 0 then None else Some (r .& 0xFF)) s x t s')).
    - change (obeys lock_quiet select_data_in). obey.
    - intros []. destruct (r <? 0); cbn; [|apply spec_user_input].
      apply spec_ret. intros s. unfold takes, is_u. cbn. split_and!; try done. lia.
    - cbn. intros s [] t s1 x t' s2 H1 H2. by eapply takes_quiet. }
  cbn. intros s r t s1 x t' s2 [Hq Hr] H.
  eexists. split; [by eapply takes_quiet|]. intros c Hc.
  destruct (Z.ltb_spec r 0); [done|]. injection Hc as <-.
  destruct Hr as [->|[Hu Hrd]]; [lia|]. rewrite land_ff by done. apply reads_byte_app. auto.
Qed.
End Command.

(** ** A round of the main loop *)

(** What a round shows: the byte received, the timer ticks and the actions. *)
Record round_obs := RoundObs {
  ob_byte : option Z;
  ob_ticks : Z;
  ob_acts : list action }.

(** The supply after an action. *)
Definition supply (v : bool) (a : action) : bool :=
  match a with Off => false | On => true | _ => v end.

Section Loop.
Context {HW : Hardware} {PRE : Preempt} {FU : Fuel} (pre_ok : obeys lock_quiet preempt).

Lemma vcc_after_action a g : vcc (after_action a g) = supply (vcc g) a.
Proof.
  destruct a; unfold after_action, supply_off, supply_on.
  - by rewrite vcc_high, vcc_low, vcc_high.
  - by rewrite vcc_high, vcc_after_bits.
  - unfold vcc. cbn [snd supply]. rewrite testbit_u8, testbit_clr by pin.
    rewrite Z.eqb_refl. apply andb_false_r.
  - unfold vcc. cbn [snd supply]. rewrite testbit_u8, testbit_set by pin.
    rewrite Z.eqb_refl. apply orb_true_r.
Qed.

(** One round of [loop], seen as [o]: the controller makes a round on the command of the byte
    received, and the cylinder sees the waveform of its action and nothing else. *)
Definition observed (o : round_obs) (s : mcu) (t : list event) (s' : mcu) : Prop :=
  (exists c, input_step (proto (app s)) (ob_byte o) = (c, proto (app s'))
     /\ lock_round (view s) c (ob_ticks o) (ob_acts o) (view s'))
  /\ ob_ticks o = ticks t
  /\ (forall x, ob_byte o = Some x -> reads_byte x t)
  /\ lock_inv s'
  /\ (levels s').2 = fold_left supply (ob_acts o) (levels s).2
  /\ exists rest, pins t = waves (levels s).2 (ob_acts o) ++ rest
       /\ Forall (neutral (levels s')) rest
       /\ (ob_acts o = [] -> levels s' = levels s).

Lemma loop_parts s :
  loop s = (command <- read_command ;; (locking_task command ;; loop_tail)) s.
Proof.
  unfold loop, read_command. rewrite <- bind_assoc. unfold bind.
  destruct (CDC_Device_ReceiveByte s) as [[r s1]|]; [|done].
  destruct (select_data_in s1) as [[[] s2]|]; [|done]. done.
Qed.

Lemma vcc_fold acts g : vcc (fold_left (flip after_action) acts g) = fold_left supply acts (vcc g).
Proof.
  revert g. induction acts as [|a acts IH]; intros g; [done|].
  cbn [fold_left]. rewrite IH. unfold flip. by rewrite vcc_after_action.
Qed.

Lemma levels_gpio s s' : gpio s' = gpio s -> levels s' = levels s.
Proof. unfold gpio, levels. intros [= _ ->]. done. Qed.

Lemma spec_loop : spec loop (fun s _ t s' => lock_inv s -> exists o, observed o s t s').
Proof.
  eapply spec_ext; [exact loop_parts|].
  eapply spec_bind; [exact (spec_read_command pre_ok)| |].
  { intros command. eapply (spec_bind (locking_task command) (fun _ => loop_tail)
      (fun s _ t s' => lock_inv s -> refines_round (command =? 1) s t s')
      (fun _ s _ t s' => lock_idle s t s') (fun s _ t s' => lock_inv s -> exists t1 s1 t2,
      t = t1 ++ t2 /\ refines_round (command =? 1) s t1 s1 /\ lock_idle s1 t2 s'));
      [exact (spec_locking_task pre_ok command)|intros; exact (obeys_loop_tail pre_ok)|].
    cbn. intros s [] t s1 [] t' s2 H1 H2 Hi. exists t, s1, t'. auto. }
  cbn. intros s command t0 s1 [] t s3 (b & (Tg & Tp & Tl & Tk & Tw & Tin) & Hread) H [Hk Hu].
  specialize (Tw (u16_is_u32 _ Hu)). pose proof (ticks_nonneg t0).
  destruct H as (t1 & s2 & t2 & -> & (acts & Hround & [Hk2 Hu2] & Hpins & Hgpio & Hproto)
    & (Il & Ip & Ik & Iw & Iv & In)).
  { split; [by rewrite Tl, Tk|]. rewrite Tw. by apply wait_is_u16. }
  specialize (Iw (u16_is_u32 _ Hu2)). pose proof (ticks_nonneg t1). pose proof (ticks_nonneg t2).
  exists (RoundObs b (ticks t0 + ticks t1 + ticks t2) acts). unfold observed.
  cbn [ob_byte ob_ticks ob_acts].
  assert ((levels s).2 = vcc (gpio s)) as Hv by done. rewrite Hv.
  assert ((levels s2).2 = vcc (gpio s2)) as Hv2 by done.
  split_and!.
  - exists (command =? 1). rewrite Ip, Hproto. split; [done|].
    replace (view s3) with (LockView (v_locking (view s2)) (v_step (view s2))
      (Z.max 0 (v_left (view s2) - ticks t2))) by (unfold view; cbn; congruence).
    replace (view s) with (LockView (v_locking (view s1)) (v_step (view s1)) (wait_ticks (locc s)))
      by (unfold view; cbn; congruence).
    apply round_trail; [|lia..]. apply round_lead; [done|lia..|]. done.
  - rewrite !ticks_app. lia.
  - intros x Hx. apply reads_byte_app. auto.
  - unfold lock_inv. rewrite Il, Ik, Iw. split; [done|]. by apply wait_is_u16.
  - by rewrite Iv, Hv2, Hgpio, vcc_fold, Tg.
  - exists (pins t2). rewrite !pins_app, Tp, Hpins, Tg. split_and!; [done|by rewrite Iv|].
    intros ->. rewrite Iv. apply levels_gpio. rewrite Hgpio. exact Tg.
Qed.
End Loop.

(** ** Runs of the controller *)

(** A run takes the controller and the command interpreter through the observed rounds. *)
Inductive lock_run : lock_view -> proto_state -> list round_obs -> lock_view -> proto_state -> Prop :=
  | run_nil v p : lock_run v p [] v p
  | run_cons v p o c p1 v1 os v2 p2 :
      input_step p (ob_byte o) = (c, p1) ->
      lock_round v c (ob_ticks o) (ob_acts o) v1 ->
      lock_run v1 p1 os v2 p2 -> lock_run v p (o :: os) v2 p2.

Definition total_ticks (os : list round_obs) : Z := foldr (fun o n => ob_ticks o + n) 0 os.
Definition bytes_of (os : list round_obs) : list Z := omap ob_byte os.
Definition idle_obs (o : round_obs) : Prop := ob_acts o = [].

(** The position of an action in the cycle, and the one that follows it. *)
Definition position (a : action) : Z := match a with Wake => 1 | Telegram => 2 | Off => 3 | On => 4 end.
Definition follows (a : action) : action :=
  match a with Wake => Telegram | Telegram => Off | Off => On | On => Wake end.

Lemma action_of_position k a : action_of k = Some a <-> k = position a.
Proof.
  unfold action_of, position. split.
  - intros H. repeat (case_match; [simplify_eq; lia|]). done.
  - intros ->. by destruct a.
Qed.

Lemma lock_run_app v p os1 os2 v2 p2 :
  lock_run v p (os1 ++ os2) v2 p2 <->
  exists v1 p1, lock_run v p os1 v1 p1 /\ lock_run v1 p1 os2 v2 p2.
Proof.
  revert v p. induction os1 as [|o os1 IH]; intros v p.
  - split; [intros; do 2 eexists; split; [constructor|done]|]. intros (v1 & p1 & H & ?).
    by inversion H; subst.
  - split.
    + intros H. inversion H as [|? ? ? c p1 v1 ? ? ? Hin Hr Hrest]; subst.
      apply IH in Hrest as (v3 & p3 & H1 & H2). exists v3, p3. split; [by econstructor|done].
    + intros (v1 & p1 & H & ?). inversion H; subst. econstructor; [done|done|]. apply IH. eauto.
Qed.

(** While nothing is done, the position of a running cycle stays and its timer runs. *)
Lemma idle_run v p os v2 p2 :
  lock_run v p os v2 p2 -> Forall idle_obs os -> Forall (fun o => 0 <= ob_ticks o) os ->
  0 <= v_left v -> v_left v <= v_left v2 + total_ticks os /\ v_left v2 <= v_left v
  /\ (v_locking v = true -> v_locking v2 = true /\ v_step v2 = v_step v)
  /\ (v_locking v = false -> v_locking v2 = true -> v_step v2 = 1).
Proof.
  induction 1 as [v p|v p o c p1 v1 os v2 p2 Hin Hr Hrun IH]; intros Hi Ht Hl.
  { cbn. split_and!; [lia|lia|done|]. intros. congruence. }
  apply Forall_cons_iff in Hi as [Ho Hi]. apply Forall_cons_iff in Ht as [Hto Ht].
  unfold idle_obs in Ho. rewrite Ho in Hr.
  change (total_ticks (o :: os)) with (ob_ticks o + total_ticks os).
  assert (0 <= v_left v1) as Hl1 by (inversion Hr; subst; cbn; lia).
  destruct (IH Hi Ht Hl1) as (I1 & I0 & I2 & I3).
  inversion Hr; subst; cbn [v_left v_locking v_step] in *.
  - split_and!; [lia|lia|done|]. intros _ Hl2. by apply I3.
  - destruct (I2 eq_refl) as [J1 J2]. split_and!; [lia|lia| |].
    + intros ->. by rewrite J2.
    + intros ->. by rewrite J2.
Qed.

Lemma total_ticks_nonneg os : Forall (fun o => 0 <= ob_ticks o) os -> 0 <= total_ticks os.
Proof. unfold total_ticks. induction 1; cbn [foldr]; lia. Qed.

(** The timer of a waiting cycle runs out with the ticks. *)
Lemma waiting_run v p os v2 p2 :
  lock_run v p os v2 p2 -> Forall idle_obs os -> Forall (fun o => 0 <= ob_ticks o) os ->
  v_locking v = true -> 0 <= v_left v ->
  v2 = LockView true (v_step v) (Z.max 0 (v_left v - total_ticks os)).
Proof.
  induction 1 as [v p|v p o c p1 v1 os v2 p2 Hin Hr Hrun IH]; intros Hi Ht Hv Hl.
  { destruct v; cbn in *. subst. f_equal. lia. }
  apply Forall_cons_iff in Hi as [Ho Hi]. apply Forall_cons_iff in Ht as [Hto Ht].
  unfold idle_obs in Ho. rewrite Ho in Hr.
  change (total_ticks (o :: os)) with (ob_ticks o + total_ticks os).
  inversion Hr; subst; cbn [v_left v_locking v_step] in *; subst; [done|].
  rewrite IH by (done || lia). f_equal. cbn.
  pose proof (total_ticks_nonneg os Ht). lia.
Qed.

(** An action that is due is performed in the next round, if not before. *)
Lemma due_run v p mid o v2 p2 a :
  lock_run v p (mid ++ [o]) v2 p2 -> Forall (fun o => 0 <= ob_ticks o) mid ->
  v_locking v = true -> action_of (v_step v) = Some a -> 0 <= v_left v <= total_ticks mid ->
  exists pre o' post, mid ++ [o] = pre ++ o' :: post /\ ob_acts o' = [a].
Proof.
  intros Hrun Ht Hv Ha Hl.
  assert (forall o v c v', v_locking v = true -> action_of (v_step v) = Some a ->
    lock_round v c (ob_ticks o) (ob_acts o) v' -> ob_acts o = [a] \/
    ob_acts o = [] /\ v_locking v' = true /\ v_step v' = v_step v /\ 0 < v_left v) as Hstep.
  { intros x w c w' Hw Hwa Hr. inversion Hr; subst; cbn in *; subst; [done| |].
    - right. split_and!; try done. lia.
    - left. by simplify_eq. }
  revert v p Hrun Ht Hv Ha Hl. induction mid as [|x mid IH]; intros v p Hrun Ht Hv Ha Hl.
  - inversion Hrun as [|? ? ? c p1 v1 ? ? ? Hin Hr _]; subst. cbn in Hl.
    destruct (Hstep _ _ _ _ Hv Ha Hr) as [?|(_ & _ & _ & ?)]; [|lia].
    by exists [], o, [].
  - inversion Hrun as [|? ? ? c p1 v1 ? ? ? Hin Hr Hrest]; subst.
    apply Forall_cons_iff in Ht as [Htx Ht].
    destruct (Hstep _ _ _ _ Hv Ha Hr) as [?|(Hx & Hv1 & Hk1 & _)].
    { by exists [], x, (mid ++ [o]). }
    assert (v1 = LockView true (v_step v) (Z.max 0 (v_left v - total_ticks [x]))) as E.
    { apply (waiting_run v p [x] v1 p1); [by econstructor; [done..|constructor]| | |done|lia];
        by constructor. }
    change (total_ticks (x :: mid)) with (ob_ticks x + total_ticks mid) in Hl.
    change (total_ticks [x]) with (ob_ticks x + 0) in E.
    destruct (IH v1 p1) as (pre & o' & post & Ho' & Hact);
      [done|done|done|by rewrite Hk1|subst v1; cbn| ].
    { pose proof (total_ticks_nonneg mid Ht). lia. }
    exists (x :: pre), o', post. split; [by cbn; rewrite Ho'|done].
Qed.

Lemma total_ticks_snoc l x : total_ticks (l ++ [x]) = total_ticks l + ob_ticks x.
Proof.
  induction l as [|o l IH]; [cbn; lia|].
  change (total_ticks ((o :: l) ++ [x])) with (ob_ticks o + total_ticks (l ++ [x])).
  change (total_ticks (o :: l)) with (ob_ticks o + total_ticks l). lia.
Qed.

Lemma total_ticks_prefix mid o pre o' post :
  Forall (fun o => 0 <= ob_ticks o) mid -> mid ++ [o] = pre ++ o' :: post ->
  total_ticks pre <= total_ticks mid.
Proof.
  revert pre. induction mid as [|x mid IH]; intros [|y pre] Hpos E; try done.
  - cbn in E. injection E as _ E. by destruct pre.
  - by apply total_ticks_nonneg.
  - apply Forall_cons_iff in Hpos as [_ Hpos]. injection E as -> E.
    specialize (IH pre Hpos E). unfold total_ticks in *. cbn [foldr]. lia.
Qed.

(** The ticks that pass at least before the next action: a timer set to 256 or more may be found
    expired up to 255 ticks early ([ran_out]). *)
Definition least_wait (k : Z) : Z := if hold k <? 256 then hold k else hold k - 255.

(** Between two consecutive actions: the second is the one that follows the first in the
    cycle, and at least the first one's waiting time has passed. *)
Lemma run_spacing v p o mid o' v' p' a a' :
  lock_run v p (o :: mid ++ [o']) v' p' -> ob_acts o = [a] -> ob_acts o' = [a'] ->
  Forall idle_obs mid -> Forall (fun o => 0 <= ob_ticks o) mid ->
  a' = follows a /\ least_wait (position a) <= total_ticks (o :: mid ++ [o']).
Proof.
  intros Hrun Ha Ha' Hi Ht. inversion Hrun as [|? ? ? c p1 v1 ? ? ? Hin Hr Hrest]; subst.
  apply lock_run_app in Hrest as (v2 & p2 & Hmid & Hlast).
  inversion Hlast as [|? ? ? c' p3 v3 ? ? ? Hin' Hr' Hnil]; subst.
  rewrite Ha in Hr. rewrite Ha' in Hr'.
  assert (total_ticks (o :: mid ++ [o']) = ob_ticks o + total_ticks mid + ob_ticks o') as Htot.
  { change (total_ticks (o :: mid ++ [o'])) with (ob_ticks o + total_ticks (mid ++ [o'])).
    rewrite total_ticks_snoc. lia. }
  rewrite Htot.
  inversion Hr as [| |b k w c0 k' a0 n1 n2 n3 w1 Hor Hk' Hact Hn1 Hn2 Hn3 Hle Hw0 Hw1]; subst.
  apply action_of_position in Hact. rewrite Hact in *.
  pose proof (idle_run _ _ _ _ _ Hmid Hi Ht Hw0) as (I1 & I0 & I2 & I3). cbn in I1, I0, I2, I3.
  inversion Hr' as [| |b' k2 w' c'' k'' a1 m1 m2 m3 w3 Hor' Hk'' Hact' Hm1 Hm2 Hm3 Hle' _ _]; subst.
  apply action_of_position in Hact'. cbn in *.
  assert (forall z, position z = 1 -> z = Wake) as P1 by (by intros []).
  split; [|unfold least_wait, ran_out in *; destruct (Z.ltb_spec (hold (position a)) 256); lia].
  destruct b'.
  - destruct (0 <? next_step (position a)) eqn:Hnext.
    + destruct (I2 eq_refl) as [_ Hk]. rewrite Hk in Hact'. by destruct a, a'.
    + rewrite (I3 eq_refl eq_refl) in Hact'. symmetry in Hact'. apply P1 in Hact' as ->. by destruct a.
  - destruct (0 <? next_step (position a)) eqn:Hnext.
    + destruct (I2 eq_refl) as [? _]. done.
    + symmetry in Hact'. apply P1 in Hact' as ->. by destruct a.
Qed.

(** No action without a request: from an idle controller, a run that does something has
    received an ['o'] in command position. *)
Definition open_requested (cs : list Z) : Prop :=
  exists pre post, cs = pre ++ ch "o" :: post /\ command_position pre.

Lemma input_step_bytes p b c p1 :
  input_step p b = (c, p1) ->
  p1 = (handle_inputs p (option_list b)).2
  /\ (c = true -> b = Some (ch "o") /\ p_state p = WAIT_FOR_CMD_CHAR).
Proof.
  destruct b as [x|]; cbn.
  - pose proof (open_request p x) as Ho. destruct (handle_user_input p x) as [[cmd outs] p'] eqn:E.
    intros [= <- <-]. split; [done|]. intros Hc. apply Z.eqb_eq in Hc. subst.
    by destruct (Ho eq_refl) as [-> ->].
  - by intros [= <- <-].
Qed.

Lemma idle_until_request v p os v2 p2 cs :
  lock_run v p os v2 p2 -> v_locking v = false -> p = (handle_inputs proto_init cs).2 ->
  Forall idle_obs os \/ open_requested (cs ++ bytes_of os).
Proof.
  intros Hrun. revert cs. induction Hrun as [v p|v p o c p1 v1 os v2 p2 Hin Hr Hrun IH]; intros cs Hv Hp.
  { by left. }
  apply input_step_bytes in Hin as [Hp1 Hc].
  assert (bytes_of (o :: os) = option_list (ob_byte o) ++ bytes_of os) as Hb.
  { unfold bytes_of. cbn. by destruct (ob_byte o). }
  destruct c.
  - destruct (Hc eq_refl) as [Ho Hst]. right. exists cs, (bytes_of os).
    rewrite Hb, Ho. split; [done|]. apply waits_for_command. by rewrite <- Hp.
  - assert (ob_acts o = [] /\ v_locking v1 = false) as [Hacts Hv1].
    { inversion Hr; subst; cbn in *; subst; done. }
    destruct (IH (cs ++ option_list (ob_byte o)) Hv1) as [Hi|Hreq].
    { rewrite handle_inputs_app, Hp1, Hp. destruct (handle_inputs proto_init cs) as [ds s1]. cbn.
      by destruct (handle_inputs s1 (option_list (ob_byte o))). }
    + left. by constructor.
    + right. by rewrite Hb, app_assoc.
Qed.

(** ** The firmware runs the controller *)

(** All bytes read from endpoint FIFOs. *)
Definition data_byte (e : event) : option Z := match e with Rd UEDATX _ v => Some v | _ => None end.
Definition data (t : list event) : list Z := omap data_byte t.

Section Run.
Context {HW : Hardware} {FU : Fuel} (k : nat).

Lemma isr_quiet : obeys lock_quiet (@preempt _ (Interrupts.isr k)).
Proof. apply obeys_firmware_isr; [typeclasses eauto|apply timer_quiet]. Qed.

Lemma reads_byte_data c t : reads_byte c t -> c ∈ data t.
Proof.
  intros [ep H]. apply list_elem_of_omap. exists (Rd UEDATX ep c).
  split; [by apply list_elem_of_In|done].
Qed.

(** What the lock's pins show over several rounds. *)
Definition shown (os : list round_obs) (s : mcu) (t : list event) (s' : mcu) : Prop :=
  lock_inv s' /\ lock_run (view s) (proto (app s)) os (view s') (proto (app s'))
  /\ total_ticks os = ticks t /\ Forall (fun o => 0 <= ob_ticks o) os
  /\ bytes_of os `sublist_of` data t
  /\ (Forall idle_obs os -> levels s' = levels s /\ Forall (neutral (levels s)) (pins t)).

Lemma shown_cons o os s t s1 t' s2 :
  observed o s t s1 -> shown os s1 t' s2 -> shown (o :: os) s (t ++ t') s2.
Proof.
  intros ((c & Hin & Hr) & Ht & Hread & Hi & Hl & rest & Hp & Hn & Hsame)
    (Hi2 & Hrun & Htot & Hpos & Hsub & Hidle).
  unfold shown. rewrite ticks_app, pins_app. split_and!; [done| | | | |].
  - by econstructor.
  - change (total_ticks (o :: os)) with (ob_ticks o + total_ticks os). lia.
  - constructor; [rewrite Ht; apply ticks_nonneg|done].
  - unfold bytes_of, data. cbn [omap list_omap]. rewrite omap_app.
    destruct (ob_byte o) as [x|] eqn:Hx.
    + change (x :: omap ob_byte os) with ([x] ++ omap ob_byte os). apply sublist_app; [|done].
      apply singleton_sublist_l. by apply reads_byte_data, Hread.
    + by apply sublist_inserts_l.
  - intros [Ho Hos]%Forall_cons_iff. destruct (Hidle Hos) as [E1 E2].
    rewrite (Hsame Ho) in E1, E2, Hn. rewrite Hp, Ho. split; [done|].
    apply Forall_app. done.
Qed.

(** The rounds of the main loop one after the other, each with its log segment and with what it
    shows; the labels of [os] are those of the waveforms in the log. *)
Inductive watched : list round_obs -> mcu -> list event -> mcu -> Prop :=
  | watched_nil s : watched [] s [] s
  | watched_cons o os s t s1 t' s2 :
      loop (PRE := Interrupts.isr k) s = Some (tt, s1) -> trace s1 = trace s ++ t ->
      observed o s t s1 -> watched os s1 t' s2 -> watched (o :: os) s (t ++ t') s2.

Lemma watched_shown os s t s' : lock_inv s -> watched os s t s' -> shown os s t s'.
Proof.
  intros Hi H. induction H as [s|o os s t s1 t' s2 Hl Ht Ho Hw IH].
  - unfold shown. split_and!; try done. constructor.
  - eapply shown_cons; [done|]. apply IH. by destruct Ho as (_ & _ & _ & ? & _).
Qed.

Lemma watched_app os1 os2 s t s' :
  watched (os1 ++ os2) s t s' ->
  exists t1 s1 t2, t = t1 ++ t2 /\ watched os1 s t1 s1 /\ watched os2 s1 t2 s'.
Proof.
  revert s t. induction os1 as [|o os1 IH]; intros s t H.
  - exists [], s, t. split_and!; [done|constructor|done].
  - inversion H as [|? ? ? ta sa tb ? Hl Ht Ho Hw]; subst.
    destruct (IH _ _ Hw) as (t1 & s1 & t2 & -> & H1 & H2).
    exists (ta ++ t1), s1, t2. split_and!; [by rewrite app_assoc| |done]. by econstructor.
Qed.

Lemma watched_trace os s t s' : watched os s t s' -> trace s' = trace s ++ t.
Proof.
  induction 1 as [s|o os s t s1 t' s2 Hl Ht Ho Hw IH]; [by rewrite app_nil_r|].
  by rewrite IH, Ht, app_assoc.
Qed.

Lemma loops_watched n s s' :
  lock_inv s -> loops k n s = Some (tt, s') ->
  exists t os, trace s' = trace s ++ t /\ length os = n /\ watched os s t s'.
Proof.
  revert s. induction n as [|n IH]; intros s Hi H; cbn [loops] in H.
  - injection H as <-. exists [], []. rewrite app_nil_r. split_and!; [done..|constructor].
  - unfold bind in H. destruct (loop s) as [[[] s1]|] eqn:Hl; [|done].
    destruct (spec_loop isr_quiet s tt s1 Hl) as (t & Ht & Ho). destruct (Ho Hi) as [o Hobs].
    assert (lock_inv s1) as Hi1 by (by destruct Hobs as (_ & _ & _ & ? & _)).
    destruct (IH s1 Hi1 H) as (t' & os & Ht' & Hlen & Hw).
    exists (t ++ t'), (o :: os). rewrite Ht', Ht, app_assoc.
    split_and!; [done|by cbn; rewrite Hlen|by econstructor].
Qed.

(** A round with an action, among those up to [o], shows its waveform. *)
Lemma watched_action mid o post pre o' post' s t s' a :
  lock_inv s -> watched (mid ++ o :: post) s t s' -> mid ++ [o] = pre ++ o' :: post' ->
  ob_acts o' = [a] ->
  exists t1 s1 t2 s2 t3 rest,
    t = t1 ++ t2 ++ t3 /\ trace s1 = trace s ++ t1 /\ trace s2 = trace s1 ++ t2
    /\ loop (PRE := Interrupts.isr k) s1 = Some (tt, s2) /\ ticks t1 <= total_ticks mid
    /\ pins t2 = wave (levels s1).2 a ++ rest /\ Forall (neutral (levels s2)) rest
    /\ (levels s2).2 = supply (levels s1).2 a.
Proof.
  intros Hi Hw E Hact.
  assert (total_ticks pre <= total_ticks mid) as Hle.
  { destruct (watched_shown _ s t s' Hi Hw) as (_ & _ & _ & Hpos & _).
    apply Forall_app in Hpos as [Hpos _]. by eapply total_ticks_prefix. }
  replace (mid ++ o :: post) with (pre ++ o' :: post' ++ post) in Hw.
  2: { replace (mid ++ o :: post) with ((mid ++ [o]) ++ post) by (by rewrite <- app_assoc).
       rewrite E. by rewrite <- app_assoc. }
  destruct (watched_app _ _ _ _ _ Hw) as (t1 & s1 & tr & -> & H1 & H2).
  inversion H2 as [|? ? ? t2 s2 t3 ? Hl Ht Ho Hrest]; subst.
  destruct (watched_shown pre s t1 s1 Hi H1) as (_ & _ & Htot & Hpos & _).
  destruct Ho as (_ & _ & _ & _ & Hlev & rest & Hp & Hn & _). rewrite Hact in Hlev, Hp.
  exists t1, s1, t2, s2, t3, rest. split_and!; try done; [by apply watched_trace in H1| |].
  - by rewrite <- Htot.
  - rewrite Hp. unfold waves. cbn. by rewrite app_nil_r.
Qed.

Lemma spec_loops n : spec (loops k n) (fun s _ t s' => lock_inv s -> exists os,
  length os = n /\ shown os s t s').
Proof.
  intros s [] s' H. assert (exists t, trace s' = trace s ++ t) as [t Ht].
  { clear - H. revert s H. induction n as [|n IH]; intros s H; cbn [loops] in H.
    - injection H as <-. exists []. by rewrite app_nil_r.
    - unfold bind in H. destruct (loop s) as [[[] s1]|] eqn:Hl; [|done].
      destruct (spec_loop isr_quiet s tt s1 Hl) as (t & Ht & _). destruct (IH s1 H) as [t' Ht'].
      exists (t ++ t'). by rewrite Ht', Ht, app_assoc. }
  exists t. split; [done|]. intros Hi. destruct (loops_watched n s s' Hi H) as (t' & os & Ht' & Hlen & Hw).
  rewrite Ht in Ht'. apply app_inv_head in Ht' as <-. exists os. split; [done|by apply watched_shown].
Qed.
End Run.

(** ** Start-up *)
Section Boot.
Context {HW : Hardware} {FU : Fuel}.

(** [setup] does not touch the cycle's variables and the command interpreter. *)
Definition boots (s : mcu) (t : list event) (s' : mcu) : Prop :=
  is_locking (app s') = is_locking (app s) /\ proto (app s') = proto (app s) /\ locc s' = locc s.

#[export] Instance boots_policy : Policy boots.
Proof.
  split; unfold boots; [done|]. intros s t s1 t' s2 (A1 & A2 & A3) (B1 & B2 & B3).
  split_and!; congruence.
Qed.

Lemma raw_read_boots r : obeys boots (raw_read r).
Proof. apply spec_raw_read; intros; done. Qed.

Lemma raw_write_boots r v : obeys boots (raw_write r v).
Proof. apply spec_raw_write. intros s. by destruct (plain r). Qed.

#[export] Instance boots_usb : UsbPolicy boots.
Proof.
  split; [typeclasses eauto|intros; apply raw_read_boots|intros; apply raw_write_boots|done..].
Qed.

(** Nothing interrupts [setup]. *)
Lemma no_preempt_boots : obeys boots (@preempt _ no_preempt).
Proof. apply obeys_ret. typeclasses eauto. Qed.

Lemma rd_boots r : obeys boots (@rd _ no_preempt r).
Proof. apply obeys_rd; [typeclasses eauto|apply no_preempt_boots|apply raw_read_boots]. Qed.

Lemma wr_boots r v : obeys boots (@wr _ no_preempt r v).
Proof. apply obeys_wr; [typeclasses eauto|apply no_preempt_boots|apply raw_write_boots]. Qed.

Lemma init_buffers_boots : obeys boots init_buffers.
Proof.
  apply spec_modify; intros s; destruct (app s) eqn:E; [done|]. unfold boots. cbn. by rewrite E.
Qed.

#[local] Hint Resolve no_preempt_boots rd_boots wr_boots init_buffers_boots : obey.

Lemma setup_boots : obeys boots setup.
Proof. unfold setup. obey. Qed.

Lemma spec_powerup_levels :
  spec (Locc.powerup_locc (PRE := no_preempt)) (fun _ _ _ s' => levels s' = (true, true)).
Proof.
  eapply spec_conseq; [apply does_powerup_locc; apply obeys_ret; typeclasses eauto|].
  cbn beta. intros s [] t s' (Hg & _). unfold gpio in Hg. injection Hg as _ Hp.
  unfold levels. rewrite Hp. unfold supply_on, high. cbn [snd].
  rewrite !testbit_u8, !testbit_set, !testbit_u8, !testbit_set by pin.
  by rewrite !orb_true_r.
Qed.

(** After [setup] the line is idle (high) and the supply on; the keypad's pull-ups, enabled
    last, are on other pins of the port. *)
Lemma spec_setup_levels : spec setup (fun _ _ _ s' => levels s' = (true, true)).
Proof.
  unfold setup. do 8 (apply (spec_last boots); [obey|intros []]).
  eapply (spec_bind _ _ (fun _ _ _ s' => levels s' = (true, true))
            (fun _ s _ t s' => lock_idle s t s')).
  - unfold Locc.loccSetup. do 7 (apply (spec_last boots); [obey|intros []]).
    apply spec_powerup_levels.
  - intros []. apply (obeys_strobe (obeys_ret lock_quiet tt) keypad_setup).
    intros v i Hi. unfold keypad_setup. rewrite Z.lor_spec.
    replace (Z.testbit (15 .<< KEYPAD_COLS_FIRST_PIN) i) with false by (by destruct Hi as [-> | ->]).
    apply orb_false_r.
  - cbn beta. intros s [] t s1 [] t' s2 Hl (_ & _ & _ & _ & -> & _). done.
Qed.
End Boot.

(** ** Theorems *)

(** C6: Interrupts and the lock.  Whatever interrupts the hardware delivers at an interrupt
    point of the main program, nested to any depth and with any timing, they do not change the
    lock's pins, the opening cycle's position or the application's variables; [wait_ticks] is
    decremented once per timer interrupt and stops at zero. *)
Theorem interrupts_leave_lock_alone `{HW : Hardware} {FU : Fuel} k s s' :
  is_u32 (wait_ticks (locc s)) -> @preempt _ (Interrupts.isr k) s = Some (tt, s') ->
  exists t, trace s' = trace s ++ t /\ pins t = [] /\ gpio s' = gpio s /\ app s' = app s
    /\ current_locc_step (locc s') = current_locc_step (locc s)
    /\ wait_ticks (locc s') = Z.max 0 (wait_ticks (locc s) - ticks t).
Proof.
  intros Hu H. destruct (isr_quiet k s tt s' H) as (t & Ht & Hg & Hp & Ha & Hk & _ & _ & _ & Hw).
  exists t. split_and!; auto.
Qed.

(** C2: The main loop implements the lock controller.  Every round of [loop] that completes, under
    any interrupts, also between the byte accesses of [wait_ticks], is one round of the abstract
    controller [lock_round]: it acts only when the timer has run out or falls below 256 while its
    bytes are read ([ran_out]), only at the position the cycle is at, starts a cycle only on a
    command, and the pin events of the round are exactly the waveform of its action, apart from
    writes that leave the lock's levels as they are. *)
Theorem loop_refines_controller `{HW : Hardware} {FU : Fuel} k s s' :
  lock_inv s -> loop (PRE := Interrupts.isr k) s = Some (tt, s') ->
  exists t o, trace s' = trace s ++ t /\ observed o s t s'.
Proof.
  intros Hi H. destruct (spec_loop (isr_quiet k) s tt s' H) as (t & Ht & Ho).
  destruct (Ho Hi) as [o Hobs]. eauto.
Qed.

(** C3: Order and timing of the opening cycle.  Over any number of completed rounds of the main
    loop under any interrupts, each round shows on the cylinder's pins the waveform of its action
    or none ([watched]), the actions come in the order wake-up, telegram, power off, power on,
    and between two consecutive ones at least 59, 14745, 4745 and 4745 timer ticks pass: 255 less
    than the 15000, 5000 and 5000 set, since the timer interrupt may come between the loads of
    the four bytes of [wait_ticks]. *)
Theorem cycle_order_and_timing `{HW : Hardware} {FU : Fuel} k n s s' :
  lock_inv s -> loops k n s = Some (tt, s') ->
  exists t os, trace s' = trace s ++ t /\ length os = n /\ total_ticks os = ticks t
    /\ watched k os s t s'
    /\ forall pre o mid o' post a a',
         os = pre ++ o :: mid ++ o' :: post -> ob_acts o = [a] -> Forall idle_obs mid ->
         ob_acts o' = [a'] ->
         a' = follows a
         /\ match a with Wake => 59 | Telegram => 14745 | Off => 4745 | On => 4745 end
            <= total_ticks (o :: mid ++ [o']).
Proof.
  intros Hi H. destruct (loops_watched k n s s' Hi H) as (t & os & Ht & Hlen & Hw).
  destruct (watched_shown k os s t s' Hi Hw) as (_ & Hrun & Htot & Hpos & _).
  exists t, os. split_and!; try done. intros pre o mid o' post a a' -> Ha Hidle Ha'.
  apply lock_run_app in Hrun as (v1 & p1 & _ & Hrun).
  replace (o :: mid ++ o' :: post) with ((o :: mid ++ [o']) ++ post) in Hrun
    by (cbn; by rewrite <- app_assoc).
  apply lock_run_app in Hrun as (v2 & p2 & Hrun & _).
  assert (Forall (fun o => 0 <= ob_ticks o) mid) as Hm.
  { apply Forall_app in Hpos as [_ Hpos]. apply Forall_cons_iff in Hpos as [_ Hpos].
    by apply Forall_app in Hpos as [Hpos _]. }
  destruct (run_spacing _ _ _ _ _ _ _ _ _ Hrun Ha Ha' Hidle Hm) as [-> Hle].
  split; [done|]. by destruct a.
Qed.

(** C4: An action that is due is performed.  When a cycle is in progress, its timer has run out
    within the first of several completed rounds of the main loop, and another round follows
    them, then one of these rounds has put the waveform of the next action on the cylinder's
    pins, followed only by events that leave its levels as they are. *)
Theorem due_action_performed `{HW : Hardware} {FU : Fuel} k n s s' a :
  lock_inv s -> is_locking (app s) = true -> action_of (current_locc_step (locc s)) = Some a ->
  loops k n s = Some (tt, s') ->
  exists t os, trace s' = trace s ++ t /\ length os = n /\ watched k os s t s'
    /\ forall mid o post,
         os = mid ++ o :: post -> wait_ticks (locc s) <= total_ticks mid ->
         exists t1 s1 t2 s2 t3 rest,
           t = t1 ++ t2 ++ t3 /\ trace s1 = trace s ++ t1 /\ trace s2 = trace s1 ++ t2
           /\ loop (PRE := Interrupts.isr k) s1 = Some (tt, s2) /\ ticks t1 <= total_ticks mid
           /\ pins t2 = wave (levels s1).2 a ++ rest /\ Forall (neutral (levels s2)) rest
           /\ (levels s2).2 = supply (levels s1).2 a.
Proof.
  intros Hi Hl Ha H. destruct (loops_watched k n s s' Hi H) as (t & os & Ht & Hlen & Hw).
  destruct (watched_shown k os s t s' Hi Hw) as (_ & Hrun & Htot & Hpos & _).
  exists t, os. split_and!; try done. intros mid o post -> Hdue.
  replace (mid ++ o :: post) with ((mid ++ [o]) ++ post) in Hrun by (by rewrite <- app_assoc).
  apply lock_run_app in Hrun as (v1 & p1 & Hrun & _).
  pose proof Hpos as [Hpm _]%Forall_app.
  destruct (due_run _ _ _ _ _ _ a Hrun Hpm Hl Ha) as (pre & o' & post' & E & Hact);
    [destruct Hi as [_ [? _]]; cbn; lia|].
  by apply (watched_action k mid o post pre o' post' s t s' a).
Qed.

(** The static memory at reset. *)
Definition at_reset `{HW : Hardware} (s : mcu) : Prop :=
  app s = app_init /\ locc s = LoccGlobals 0 SLEEP 0.

(** C1: No opening without a command.  After start-up the line is idle and the cylinder's
    supply on, and over any number of rounds under any interrupts the lock's pins keep those
    levels unless the bytes received so far contain an ['o'] that follows a newline. *)
Theorem no_opening_without_command `{HW : Hardware} {FU : Fuel} k n s s' :
  at_reset s -> main k n s = Some (tt, s') ->
  exists t0 t1 cs, trace s' = trace s ++ t0 ++ t1 /\ cs `sublist_of` data t1
    /\ (open_requested cs \/ Forall (neutral (true, true)) (pins t1)).
Proof.
  intros [Happ Hlocc] H. unfold main, bind in H.
  destruct (setup s) as [[[] s1]|] eqn:Hs; [|done].
  destruct (spec_and _ _ _ setup_boots spec_setup_levels s tt s1 Hs)
    as (t0 & Ht0 & (Bl & Bp & Bc) & Hlev).
  rewrite Happ in Bl, Bp. rewrite Hlocc in Bc.
  destruct (spec_loops k n s1 tt s' H) as (t1 & Ht1 & Hos).
  destruct Hos as (os & _ & _ & Hrun & _ & _ & Hsub & Hidle).
  { split; [by rewrite Bl|]. rewrite Bc. done. }
  exists t0, t1, (bytes_of os). split_and!; [by rewrite Ht1, Ht0, app_assoc|done|].
  destruct (idle_until_request _ _ _ _ _ [] Hrun) as [Hi|Hreq]; [done|by rewrite Bp| |by left].
  right. rewrite <- Hlev. by apply Hidle.
Qed.

(** Concrete runs: the SPI byte has been sent, the PLL is locked, the port is closed. *)
Definition demo_reads (r : reg) : list Z :=
  match r with SPSR => [0x80] | PLLCSR => [0x01] | UESTA0X => [0x80] | _ => [] end.

Definition demo_state (irqs : list (option irq)) (l : locc_globals) (locking : bool)
    : @mcu script_hardware :=
  let s := boot_state (Script demo_reads irqs) script_port in
  let 'AppGlobals _ kp d p i o := app_init in
  set_locc l (set_app (AppGlobals locking kp d p i o) s).

#[local] Existing Instance script_hardware.
#[local] Instance demo_fuel : Fuel := 5%nat.

(** A run that returns. *)
Ltac run_of m s' E :=
  assert (exists x, m = Some (tt, x)) as [s' E];
  [ let F := fresh in
    destruct m as [[[] ?]|] eqn:F; [by eexists|exfalso; revert F; vm_compute; discriminate] |].

Lemma interrupts_leave_lock_alone_witness :
  let s := demo_state [Some TIMER0_OVF_vect; Some USB_GEN_vect; Some TIMER0_OVF_vect; None]
             (LoccGlobals 10 SLEEP 2) true in
  exists s' t, @preempt _ (Interrupts.isr 1) s = Some (tt, s') /\ trace s' = t
    /\ pins t = [] /\ wait_ticks (locc s') = Z.max 0 (10 - ticks t).
Proof.
  intros s. run_of (@preempt _ (Interrupts.isr 1) s) s' E.
  destruct (interrupts_leave_lock_alone 1 s s') as (t & Ht & Hp & _ & _ & _ & Hw);
    [unfold is_u; cbn; lia|exact E|].
  exists s', t. split; [exact E|split; [exact Ht|split; [exact Hp|exact Hw]]].
Defined.

Lemma loop_refines_controller_witness :
  let s := demo_state [] (LoccGlobals 0 SLEEP 3) true in
  exists s' t o, loop (PRE := Interrupts.isr 1) s = Some (tt, s') /\ observed o s t s'.
Proof.
  intros s. run_of (loop (PRE := Interrupts.isr 1) s) s' E.
  destruct (loop_refines_controller 1 s s') as (t & o & _ & Ho);
    [split; [cbn; lia|unfold is_u; cbn; lia]|exact E|].
  exists s', t, o. split; [exact E|exact Ho].
Defined.

Lemma cycle_order_and_timing_witness :
  let s := demo_state [] (LoccGlobals 0 SLEEP 3) true in
  exists s' t os, loops 1 3 s = Some (tt, s') /\ length os = 3%nat /\ watched 1 os s t s'.
Proof.
  intros s. run_of (loops 1 3 s) s' E.
  destruct (cycle_order_and_timing 1 3 s s') as (t & os & _ & Hlen & _ & Hw & _);
    [split; [cbn; lia|unfold is_u; cbn; lia]|exact E|].
  exists s', t, os. split; [exact E|split; [exact Hlen|exact Hw]].
Defined.

Lemma due_action_performed_witness :
  let s := demo_state [] (LoccGlobals 0 SLEEP 3) true in
  exists s' t os, loops 1 3 s = Some (tt, s') /\ length os = 3%nat /\ watched 1 os s t s'
    /\ forall mid o post, os = mid ++ o :: post -> 0 <= total_ticks mid ->
         exists t1 s1 t2 rest, trace s1 = trace s ++ t1 /\ ticks t1 <= total_ticks mid
           /\ pins t2 = wave (levels s1).2 Off ++ rest.
Proof.
  intros s. run_of (loops 1 3 s) s' E.
  destruct (due_action_performed 1 3 s s' Off) as (t & os & _ & Hlen & Hw & Hd);
    [split; [cbn; lia|unfold is_u; cbn; lia]|reflexivity|reflexivity|exact E|].
  exists s', t, os. split; [exact E|split; [exact Hlen|split; [exact Hw|]]].
  intros mid o post Hos Hdue.
  destruct (Hd mid o post Hos Hdue) as (t1 & s1 & t2 & s2 & t3 & rest & _ & Ht1 & _ & _ & Hle & Hp & _).
  exists t1, s1, t2, rest. split; [exact Ht1|split; [exact Hle|exact Hp]].
Defined.

(** The timer found expired with 255 ticks to go: the timer interrupt comes after the load of the
    low byte of 256. *)
Example torn_read_expires_early :
  let s := demo_state [None; Some TIMER0_OVF_vect] (LoccGlobals 256 SLEEP 3) true in
  exists s', Locc.timer_is_expired (PRE := Interrupts.isr 1) s = Some (true, s')
    /\ wait_ticks (locc s') = 255.
Proof. vm_compute. eexists. split; reflexivity. Qed.

Lemma no_opening_without_command_witness :
  let s := demo_state [] (LoccGlobals 0 SLEEP 0) false in
  exists s' t0 t1 cs, main 1 2 s = Some (tt, s') /\ trace s' = t0 ++ t1 /\ cs `sublist_of` data t1
    /\ (open_requested cs \/ Forall (neutral (true, true)) (pins t1)).
Proof.
  intros s. run_of (main 1 2 s) s' E.
  destruct (no_opening_without_command 1 2 s s') as (t0 & t1 & cs & Ht & Hs & Ho);
    [split; done|exact E|].
  exists s', t0, t1, cs. split; [exact E|split; [exact Ht|split; [exact Hs|exact Ho]]].
Defined.
