(* ===== verification/Selection.v ===== *)
(** * Selection: which endpoint is selected, and whose FIFO is accessed

    All endpoint registers are banked by [UENUM], which main program and interrupt handlers
    share.  The policies of this file say what each part of the USB stack does to the selection
    and to the FIFO of a given endpoint:

    - [keeps ep]: the selection is restored and the FIFO of [ep] is not accessed (every
      interrupt, for every endpoint other than the control endpoint);
    - [roams ep]: the selection may change, the FIFO of [ep] is not accessed (configuration
      code);
    - [at_control ep]: started with the control endpoint selected, ends with it selected, and
      only its FIFO is accessed (request handlers).

    All of them are subject to [no_reset]: a bus reset reconfigures the control endpoint from
    [USB_GEN_vect] without restoring the selection. *)
From S2P Require Import Prelude Machine Logic Endpoint EndpointStream UsbController DeviceRequests.
From S2P Require Import Cdc Locc Interrupts Descriptors Firmware.
Import Endpoint Stream Controller Requests Cdc Interrupts.

(** Bytes written to and read from the FIFO of endpoint [ep]. *)
Definition sent_byte (ep : Z) (e : event) : option Z :=
  match e with Wr UEDATX ep' v => if ep' =? ep then Some v else None | _ => None end.
Definition recv_byte (ep : Z) (e : event) : option Z :=
  match e with Rd UEDATX ep' v => if ep' =? ep then Some v else None | _ => None end.
Definition sent (ep : Z) (t : list event) : list Z := omap (sent_byte ep) t.
Definition received (ep : Z) (t : list event) : list Z := omap (recv_byte ep) t.

(** No pending bus reset was seen. *)
Definition reset_seen (e : event) : bool :=
  match e with Rd UDINT _ v => Z.testbit v EORSTI | _ => false end.
Definition no_reset (t : list event) : Prop := Forall (fun e => reset_seen e = false) t.

Lemma sent_app ep t t' : sent ep (t ++ t') = sent ep t ++ sent ep t'.
Proof. apply omap_app. Qed.
Lemma received_app ep t t' : received ep (t ++ t') = received ep t ++ received ep t'.
Proof. apply omap_app. Qed.
Lemma no_reset_app t t' : no_reset (t ++ t') <-> no_reset t /\ no_reset t'.
Proof. apply Forall_app. Qed.

Section Policies.
Context {HW : Hardware} (ep : Z).

Definition silent (t : list event) : Prop := sent ep t = [] /\ received ep t = [].

Lemma silent_app t t' : silent (t ++ t') <-> silent t /\ silent t'.
Proof. unfold silent. rewrite sent_app, received_app, !app_nil. tauto. Qed.

Definition keeps (s : mcu) (t : list event) (s' : mcu) : Prop :=
  no_reset t -> is_u 4 (uenum s) -> uenum s' = uenum s /\ silent t.
Definition roams (s : mcu) (t : list event) (s' : mcu) : Prop :=
  no_reset t -> is_u 4 (uenum s) -> is_u 4 (uenum s') /\ silent t.
Definition at_control (s : mcu) (t : list event) (s' : mcu) : Prop :=
  no_reset t -> uenum s = 0 -> uenum s' = 0 /\ silent t.

#[export] Instance keeps_policy : Policy keeps.
Proof.
  split; unfold keeps; [done|]. intros s t s1 t' s2 H1 H2 [N1 N2]%no_reset_app Hu.
  destruct (H1 N1 Hu) as [E1 S1]. destruct (H2 N2) as [E2 S2]; [by rewrite E1|].
  rewrite silent_app. split_and!; [congruence|done|done].
Qed.

#[export] Instance roams_policy : Policy roams.
Proof.
  split; unfold roams; [done|]. intros s t s1 t' s2 H1 H2 [N1 N2]%no_reset_app Hu.
  destruct (H1 N1 Hu) as [E1 S1]. destruct (H2 N2 E1) as [E2 S2].
  by rewrite silent_app.
Qed.

#[export] Instance at_control_policy : Policy at_control.
Proof.
  split; unfold at_control; [done|]. intros s t s1 t' s2 H1 H2 [N1 N2]%no_reset_app Hu.
  destruct (H1 N1 Hu) as [E1 S1]. destruct (H2 N2 E1) as [E2 S2].
  by rewrite silent_app.
Qed.

Lemma keeps_roams {A} (m : M A) : obeys keeps m -> obeys roams m.
Proof.
  intros Hm. eapply spec_conseq; [exact Hm|]. cbn. unfold keeps, roams. intros s a t s' H N Hu.
  destruct (H N Hu) as [-> ?]. done.
Qed.

Lemma keeps_at_control {A} (m : M A) : obeys keeps m -> obeys at_control m.
Proof.
  intros Hm. eapply spec_conseq; [exact Hm|]. cbn. unfold keeps, at_control. intros s a t s' H N Hu.
  destruct (H N) as [-> ?]; [by rewrite Hu|]. done.
Qed.

(** Register accesses other than to the selection and the FIFO. *)
Definition plain_access (r : reg) : bool :=
  match r with UEDATX | UENUM => false | _ => usb_reg r end.

Lemma silent_access r e : plain_access r = true -> (exists ep' v, e = Rd r ep' v \/ e = Wr r ep' v) ->
  silent [e].
Proof. intros Hr (ep' & v & [-> | ->]); by destruct r. Qed.

Lemma raw_read_keeps r : plain_access r = true -> obeys keeps (raw_read r).
Proof.
  intros Hr. apply spec_raw_read; intros; (intros _ Hu; split; [done|]);
    apply (silent_access r); eauto.
Qed.

Lemma raw_write_keeps r v : plain_access r = true -> obeys keeps (raw_write r v).
Proof.
  intros Hr. apply spec_raw_write. intros s _ Hu. split; [|apply (silent_access r); eauto].
  destruct r; done.
Qed.

(** Reading [UENUM] and selecting an endpoint. *)
Lemma raw_read_uenum_keeps : obeys keeps (raw_read UENUM).
Proof. apply spec_raw_read; [|done]. intros s _ _ Hu. done. Qed.

Lemma land_f_range a : is_u 4 (a .& ENDPOINT_EPNUM_MASK).
Proof.
  unfold is_u, ENDPOINT_EPNUM_MASK. change 15 with (Z.ones 4). rewrite Z.land_ones by lia.
  apply Z.mod_pos_bound. lia.
Qed.

Lemma land_f_id a : is_u 4 a -> a .& ENDPOINT_EPNUM_MASK = a.
Proof.
  intros H. unfold ENDPOINT_EPNUM_MASK. change 15 with (Z.ones 4). rewrite Z.land_ones by lia.
  by apply Z.mod_small.
Qed.

Lemma u4_u8 a : is_u 4 a -> u8 a = a.
Proof. intros H. apply wrap_id. eapply is_u_mono; [|exact H]. lia. Qed.

Lemma raw_select a :
  spec (raw_write UENUM (a .& ENDPOINT_EPNUM_MASK))
    (fun s _ t s' => uenum s' = a .& ENDPOINT_EPNUM_MASK /\ silent t /\ no_reset t).
Proof.
  apply spec_raw_write. intros s. cbn. unfold uenum. cbn.
  rewrite u4_u8 by apply land_f_range. split_and!; [done|done|by repeat constructor].
Qed.
End Policies.

(** The three policies share their leaves. *)
Class EpPolicy `{HW : Hardware} (ep : Z) (R : mcu -> list event -> mcu -> Prop) := {
  ep_policy :: Policy R;
  ep_of_keeps {A} (m : M A) : obeys (keeps ep) m -> obeys R m }.

#[export] Instance keeps_ep `{HW : Hardware} ep : EpPolicy ep (keeps ep).
Proof. split; [typeclasses eauto|done]. Qed.
#[export] Instance roams_ep `{HW : Hardware} ep : EpPolicy ep (roams ep).
Proof. split; [typeclasses eauto|intros; by apply keeps_roams]. Qed.
#[export] Instance at_control_ep `{HW : Hardware} ep : EpPolicy ep (at_control ep).
Proof. split; [typeclasses eauto|intros; by apply keeps_at_control]. Qed.

Section Leaves.
Context {HW : Hardware} (ep : Z) (R : mcu -> list event -> mcu -> Prop) {EP : EpPolicy ep R}.
Context {PRE : Preempt} {FU : Fuel} (pre_ok : obeys (keeps ep) preempt).

Lemma ep_preempt : obeys R preempt.
Proof. by apply ep_of_keeps. Qed.

Lemma ep_rd r : plain_access r = true -> obeys R (rd r).
Proof.
  intros Hr. apply ep_of_keeps, obeys_rd; [typeclasses eauto|done|by apply raw_read_keeps].
Qed.

Lemma ep_wr r v : plain_access r = true -> obeys R (wr r v).
Proof.
  intros Hr. apply ep_of_keeps, obeys_wr; [typeclasses eauto|done|by apply raw_write_keeps].
Qed.

Lemma ep_rd_uenum : obeys R (rd UENUM).
Proof. apply ep_of_keeps, obeys_rd; [typeclasses eauto|done|apply raw_read_uenum_keeps]. Qed.

Lemma ep_set_bits r m : plain_access r = true -> obeys R (set_bits r m).
Proof. intros. apply obeys_bind; [typeclasses eauto|by apply ep_rd|intros; by apply ep_wr]. Qed.

Lemma ep_clear_bits r m : plain_access r = true -> obeys R (clear_bits r m).
Proof. intros. apply obeys_bind; [typeclasses eauto|by apply ep_rd|intros; by apply ep_wr]. Qed.

Lemma ep_modify f :
  (forall s, regs (f s) = regs s /\ trace (f s) = trace s) -> obeys R (modify f).
Proof.
  intros Hf. apply ep_of_keeps, spec_modify; intros s; destruct (Hf s) as [Hr Ht]; [done|].
  intros _ _. unfold uenum. by rewrite Hr.
Qed.

Lemma ep_get_state : obeys R get_state.
Proof. apply obeys_bind; [typeclasses eauto|apply ep_preempt|intros; apply obeys_gets; typeclasses eauto]. Qed.

Lemma ep_put_state d : obeys R (put_state d).
Proof.
  apply obeys_bind; [typeclasses eauto|apply ep_preempt|intros].
  apply ep_modify. intros s. by destruct (usb s).
Qed.
End Leaves.

Section Globals.
Context {HW : Hardware} (ep : Z) (R : mcu -> list event -> mcu -> Prop) {EP : EpPolicy ep R}.

Lemma ep_put_request r : obeys R (put_request r).
Proof. eapply ep_modify; [exact EP|]. intros s. by destruct (usb s). Qed.
Lemma ep_put_config n : obeys R (put_config n).
Proof. eapply ep_modify; [exact EP|]. intros s. by destruct (usb s). Qed.
Lemma ep_put_remote_wakeup b : obeys R (put_remote_wakeup b).
Proof. eapply ep_modify; [exact EP|]. intros s. by destruct (usb s). Qed.
Lemma ep_put_line_encoding l : obeys R (put_line_encoding l).
Proof. eapply ep_modify; [exact EP|]. intros s. by destruct (cdc s). Qed.
Lemma ep_put_host_to_device l : obeys R (put_host_to_device l).
Proof. eapply ep_modify; [exact EP|]. intros s. by destruct (cdc s). Qed.
End Globals.

#[export] Hint Resolve ep_rd ep_wr ep_rd_uenum ep_set_bits ep_clear_bits ep_get_state ep_put_state
  ep_put_request ep_put_config ep_put_remote_wakeup ep_put_line_encoding ep_put_host_to_device
  : obey.
#[export] Hint Extern 1 (plain_access _ = true) => reflexivity : obey.

Section Waiting.
Context {HW : Hardware} (ep : Z) {PRE : Preempt} {FU : Fuel} (pre_ok : obeys (keeps ep) preempt).

Lemma wait_keeps : obeys (keeps ep) Endpoint_WaitUntilReady.
Proof. obey. Qed.
End Waiting.

(** ** Request handlers work on the control endpoint *)

(** Started on the control endpoint; may end on any other. *)
Definition from_control `{HW : Hardware} (ep : Z) (s : mcu) (t : list event) (s' : mcu) : Prop :=
  no_reset t -> uenum s = 0 -> is_u 4 (uenum s') /\ silent ep t.

Section Sequencing.
Context {HW : Hardware} (ep : Z) {A B : Type} (m : M A) (k : A -> M B).

Lemma from_control_bind :
  obeys (at_control ep) m -> (forall a, obeys (from_control ep) (k a)) ->
  obeys (from_control ep) (bind m k).
Proof.
  intros Hm Hk. eapply spec_bind; [exact Hm|exact Hk|]. cbn.
  intros s a t s1 b t' s2 H1 H2 [N1 N2]%no_reset_app Hu. rewrite silent_app.
  destruct (H1 N1 Hu) as [E1 S1]. by destruct (H2 N2 E1).
Qed.

Lemma from_control_roams :
  obeys (from_control ep) m -> (forall a, obeys (roams ep) (k a)) ->
  obeys (from_control ep) (bind m k).
Proof.
  intros Hm Hk. eapply spec_bind; [exact Hm|exact Hk|]. cbn.
  intros s a t s1 b t' s2 H1 H2 [N1 N2]%no_reset_app Hu. rewrite silent_app.
  destruct (H1 N1 Hu) as [E1 S1]. by destruct (H2 N2 E1).
Qed.
End Sequencing.

Lemma roams_from_control `{HW : Hardware} ep {A} (m : M A) :
  obeys (roams ep) m -> obeys (from_control ep) m.
Proof.
  intros Hm. eapply spec_conseq; [exact Hm|]. cbn. intros s a t s' H N Hu. apply H; [done|].
  by rewrite Hu.
Qed.

Lemma at_control_from_control `{HW : Hardware} ep {A} (m : M A) :
  obeys (at_control ep) m -> obeys (from_control ep) m.
Proof.
  intros Hm. eapply spec_conseq; [exact Hm|]. cbn. intros s a t s' H N Hu.
  destruct (H N Hu) as [-> ?]. done.
Qed.

Section Handlers.
Context {HW : Hardware} (ep : Z) (ep_not_control : ep <> 0).
Context {PRE : Preempt} {FU : Fuel} (pre_ok : obeys (keeps ep) preempt).
#[local] Existing Instance Firmware.firmware_events.

Lemma silent_data r w v : w <> ep -> silent ep [Rd r w v] /\ silent ep [Wr r w v].
Proof.
  intros Hw. unfold silent, sent, received. cbn. destruct (Z.eqb_spec w ep) as [E|]; [done|].
  by destruct r.
Qed.

Lemma read_data_at_control : obeys (at_control ep) (rd UEDATX).
Proof.
  apply obeys_rd; [typeclasses eauto|by apply keeps_at_control|].
  apply spec_raw_read; intros s; [done|]. intros v h _ _ _ Hu. cbn. split; [done|].
  apply (silent_data UEDATX). congruence.
Qed.

Lemma write_data_at_control v : obeys (at_control ep) (wr UEDATX v).
Proof.
  apply obeys_wr; [typeclasses eauto|by apply keeps_at_control|].
  apply spec_raw_write. intros s _ Hu. cbn. split; [done|]. apply (silent_data UEDATX). congruence.
Qed.

(** Selecting an endpoint: the selection afterwards is known unless the interrupt before it
    saw a reset. *)
Lemma select_spec a :
  spec (Endpoint_SelectEndpoint a) (fun s _ t s' =>
    uenum s' = a .& ENDPOINT_EPNUM_MASK /\ (no_reset t -> is_u 4 (uenum s) -> silent ep t)).
Proof.
  eapply spec_bind; [exact pre_ok|intros u; apply (raw_select ep)|]. cbn.
  intros s u t s1 u' t' s2 K (E & S & _). split; [done|].
  intros [N _]%no_reset_app Hu. rewrite silent_app. by destruct (K N Hu).
Qed.

Lemma select_roams a : obeys (roams ep) (Endpoint_SelectEndpoint a).
Proof.
  eapply spec_conseq; [apply select_spec|]. cbn. intros s u t s' [E S] N Hu.
  rewrite E. split; [apply land_f_range|by apply S].
Qed.

#[local] Hint Resolve read_data_at_control write_data_at_control select_roams : obey.

(** A detour over other endpoints that returns to the control endpoint. *)
Definition to_control (s : mcu) (t : list event) (s' : mcu) : Prop :=
  no_reset t -> is_u 4 (uenum s) -> uenum s' = 0 /\ silent ep t.

Lemma select_to_control {B} (k : M B) :
  obeys (at_control ep) k -> obeys to_control (Endpoint_SelectEndpoint ENDPOINT_CONTROLEP ;; k).
Proof.
  intros Hk. eapply spec_bind; [apply (select_spec ENDPOINT_CONTROLEP)|intros u; exact Hk|].
  cbn beta. intros s u t s1 b t' s2 [E S] H [N1 N2]%no_reset_app Hu. rewrite silent_app.
  destruct (H N2) as [E' S']; [by rewrite E|]. by split_and!; [|apply S|].
Qed.

Lemma roams_to_control s t s1 t' s2 :
  roams ep s t s1 -> to_control s1 t' s2 -> at_control ep s (t ++ t') s2.
Proof.
  intros H1 H2 [N1 N2]%no_reset_app Hu. rewrite silent_app.
  destruct (H1 N1) as [E1 S1]; [by rewrite Hu|]. by destruct (H2 N2 E1).
Qed.

Lemma back_to_control {A B} (m : M A) (k : A -> M B) :
  obeys (roams ep) m -> (forall a, obeys (at_control ep) (k a)) ->
  obeys (at_control ep) (a <- m ;; Endpoint_SelectEndpoint ENDPOINT_CONTROLEP ;; k a).
Proof.
  intros Hm Hk. eapply spec_bind; [exact Hm|intros a; apply select_to_control, Hk|].
  cbn beta. intros. by eapply roams_to_control.
Qed.

Lemma configure_roams a t z b : obeys (roams ep) (Endpoint_ConfigureEndpoint a t z b).
Proof.
  assert (forall n x y w e, obeys (roams ep) (configure_from n x y w e)).
  { induction n as [|n IH]; intros x y w e; cbn [configure_from]; obey. }
  obey.
Qed.

Lemma table_roams l : obeys (roams ep) (Endpoint_ConfigureEndpointTable l).
Proof.
  pose proof configure_roams.
  induction l as [|t l IH]; cbn [Endpoint_ConfigureEndpointTable]; obey.
Qed.

Lemma cdc_configure_roams : obeys (roams ep) CDC_Device_ConfigureEndpoints.
Proof.
  pose proof table_roams. unfold CDC_Device_ConfigureEndpoints.
  apply obeys_bind; [typeclasses eauto|by eapply ep_modify; [typeclasses eauto|]|]. obey.
Qed.

Lemma cdc_request_at_control : obeys (at_control ep) CDC_Device_ProcessControlRequest.
Proof. obey. Qed.

Lemma read_request_at_control n i : obeys (at_control ep) (read_request n i).
Proof. revert i. induction n as [|n IH]; intros i; cbn [read_request]; obey. Qed.

Lemma current_status_at_control req : obeys (at_control ep) (current_status req).
Proof.
  unfold current_status. destruct (_ =? _); [obey|]. destruct (_ =? _); [|obey].
  eapply spec_ext; [intros s; apply bind_assoc|].
  match goal with |- spec _ ?Q => apply (back_to_control _ (fun stalled : bool =>
    ret (Some (if stalled then 1 else 0)))) end; obey.
Qed.

(** The [switch] of ClearFeature and SetFeature leaves the control endpoint only when the
    status stage follows. *)
Lemma clear_set_feature_spec req :
  spec (clear_set_feature req) (fun s go t s' =>
    roams ep s t s' /\ (go = false -> s' = s /\ t = [])).
Proof.
  assert (forall (b : bool), spec (ret b) (fun s go t s' => roams ep s t s' /\ (go = false -> s' = s /\ t = []))).
  { intros b. apply spec_ret. intros s. split; [apply policy_refl|done]. }
  assert (forall m : M unit, obeys (roams ep) m ->
    spec (m ;; ret true) (fun s go t s' => roams ep s t s' /\ (go = false -> s' = s /\ t = []))) as Ht.
  { intros m Hm. eapply spec_bind; [exact Hm|intros u; apply (spec_ret true (fun s go t s' => go = true /\ s' = s /\ t = [])); done|].
    cbn beta. intros s u t s1 go t' s2 H1 (-> & -> & ->). by rewrite app_nil_r. }
  unfold clear_set_feature. cbv zeta.
  destruct (_ =? REQREC_DEVICE).
  - destruct (_ =? _); [|done]. apply Ht. obey.
  - destruct (_ =? _); [|done]. destruct (_ =? _); [|done]. destruct (_ =? _); [done|].
    eapply spec_ext; [intros s; apply bind_assoc|]. eapply spec_ext; [intros s; apply bind_assoc|].
    apply Ht. obey.
Qed.

Lemma feature_at_control : obeys (at_control ep) USB_Device_ClearSetFeature.
Proof.
  unfold USB_Device_ClearSetFeature. apply obeys_bind; [typeclasses eauto|obey|]. intros req.
  eapply (spec_bind _ _ _ (fun go s _ t s' =>
    if go : bool then to_control s t s' else s' = s /\ t = [])); [apply clear_set_feature_spec| |].
  - intros []; [|by apply spec_ret].
    apply (select_to_control (Endpoint_ClearSETUP ;; Endpoint_ClearStatusStage)). obey.
  - cbn beta. intros s go t s1 u t' s2 [H1 Hgo] H2. destruct go.
    + by eapply roams_to_control.
    + destruct Hgo as [-> ->]; [done|]. destruct H2 as [-> ->]. apply policy_refl.
Qed.

Lemma set_configuration_from_control : obeys (from_control ep) USB_Device_SetConfiguration.
Proof.
  pose proof cdc_configure_roams.
  assert (obeys (from_control ep) (EVENT_USB_Device_ConfigurationChanged PRE)).
  { apply roams_from_control. cbn. obey. }
  unfold USB_Device_SetConfiguration.
  apply from_control_bind; [obey|]. intros req.
  destruct (_ <? _); [apply at_control_from_control; obey|].
  do 6 (apply from_control_bind; [obey|intros]). done.
Qed.

Lemma dispatch_from_control t req : obeys (from_control ep) (dispatch_request t req).
Proof.
  pose proof current_status_at_control. pose proof feature_at_control.
  unfold dispatch_request. cbv zeta.
  repeat match goal with |- context [if ?b then _ else _] => destruct b end;
    try (apply set_configuration_from_control);
    apply at_control_from_control; obey.
Qed.

Lemma process_from_control : obeys (from_control ep) USB_Device_ProcessControlRequest.
Proof.
  pose proof read_request_at_control. pose proof cdc_request_at_control.
  unfold USB_Device_ProcessControlRequest.
  apply from_control_bind; [done|intros _].
  apply from_control_bind; [exact cdc_request_at_control|intros _].
  apply from_control_bind; [obey|intros setup].
  apply from_control_roams; [|intros; obey].
  destruct setup; [|apply at_control_from_control; obey].
  apply from_control_bind; [obey|intros req]. apply dispatch_from_control.
Qed.
End Handlers.

(** ** The trivial policy: the log only grows *)
Section Grows.
Context {HW : Hardware}.

Definition grows (s : mcu) (t : list event) (s' : mcu) : Prop := True.

#[export] Instance grows_policy : Policy grows.
Proof. by split. Qed.
#[export] Instance grows_usb : UsbPolicy grows.
Proof.
  split; [typeclasses eauto| | |done..].
  - intros. by apply spec_raw_read.
  - intros. by apply spec_raw_write.
Qed.
End Grows.

(** ** Interrupts restore the selection *)
Section Isr.
Context {HW : Hardware} {FU : Fuel}.
#[local] Existing Instance Firmware.firmware_events.

Lemma no_preempt_keeps ep : obeys (keeps ep) (@preempt _ no_preempt).
Proof. apply obeys_ret. typeclasses eauto. Qed.
#[local] Hint Resolve no_preempt_keeps : obey.

Lemma timer_keeps ep : obeys (keeps ep) Locc.ISR_TIMER0_OVF_vect.
Proof.
  unfold Locc.ISR_TIMER0_OVF_vect.
  assert (obeys (keeps ep) (@wr _ no_preempt TCNT0 6)) as Hw.
  { apply obeys_wr; [typeclasses eauto|obey|].
    apply spec_raw_write. intros s _ _. done. }
  assert (forall t, obeys (keeps ep) (@put_wait_ticks _ no_preempt t)) as Hp.
  { intros t. apply obeys_put_wait_ticks; [typeclasses eauto|obey|intros].
    eapply ep_modify; [typeclasses eauto|]. intros s. by destruct (locc s). }
  obey.
Qed.

(** The branches of [USB_GEN_vect] other than the bus reset. *)
Lemma gen_others_keep ep : obeys (keeps ep) (gen_sof ;; gen_suspend ;; gen_wakeup).
Proof. pose proof (no_preempt_keeps ep). obey. Qed.

(** A pending reset shows in the log. *)
Lemma spec_test_reset ep :
  spec (@test_bit _ no_preempt UDINT EORSTI) (fun s o t s' =>
    keeps ep s t s' /\ (o = true -> ~ no_reset t)).
Proof.
  apply spec_and; [pose proof (no_preempt_keeps ep); change (obeys (keeps ep)
    (@test_bit _ no_preempt UDINT EORSTI)); obey|].
  eapply (spec_bind _ _ (fun _ v t _ => Z.testbit v EORSTI = true -> ~ no_reset t)
            (fun v _ o t _ => t = [] /\ o = truth (v .& bit EORSTI))).
  - eapply (spec_bind _ _ (fun _ _ t _ => True)
      (fun _ _ v t _ => Z.testbit v EORSTI = true -> ~ no_reset t)).
    + apply spec_ret. done.
    + intros _. apply spec_raw_read; [done|]. intros s v h _ _ Hv [H _]%Forall_cons_iff.
      cbn in H. cbn in Hv. congruence.
    + cbn beta. intros s [] t s1 v t' s2 _ H Hv [_ N]%no_reset_app. by apply H.
  - intros v. by apply spec_ret.
  - cbn beta. intros s v t s1 o t' s2 H [-> ->] Ho. rewrite app_nil_r.
    apply H. by rewrite <- truth_land_bit.
Qed.

(** The reset branch is entered only on a read of [UDINT] that shows the reset. *)
Lemma gen_reset_keeps ep : obeys (keeps ep) gen_reset.
Proof.
  pose proof (no_preempt_keeps ep) as Hn. unfold gen_reset, pending. cbn [USB_INT_HasOccurred].
  eapply (spec_bind _ _ (fun s p t s' => keeps ep s t s' /\ (p = true -> ~ no_reset t))
            (fun p s _ t s' => if p : bool then True else t = [] /\ s' = s)).
  - eapply (spec_bind _ _ _ (fun o s p t s' => keeps ep s t s' /\ (p = true -> o = true)));
      [apply (spec_test_reset ep)| |].
    + intros []; [|apply spec_ret; intros s; split; [apply policy_refl|done]].
      eapply (spec_conseq _ (fun s _ t s' => keeps ep s t s')); [|cbn beta; intros; by split].
      match goal with |- spec ?m _ => change (obeys (keeps ep) m) end. obey.
    + cbn beta. intros s o t s1 p t' s2 [K1 R1] [K2 R2]. split; [by eapply policy_trans|].
      intros Hp [N _]%no_reset_app. by apply R1; [apply R2|].
  - intros [].
    + eapply (spec_conseq _ (fun s _ t s' => grows s t s')); [|done].
      match goal with |- spec ?m _ => change (obeys grows m) end.
      pose proof (obeys_no_preempt grows). obey.
    + by apply spec_ret.
  - cbn beta. intros s p t s1 u t' s2 [K Hp] H. destruct p.
    + intros [N _]%no_reset_app. by destruct Hp.
    + destruct H as [-> ->]. by rewrite app_nil_r.
Qed.

Lemma gen_keeps ep : obeys (keeps ep) ISR_USB_GEN_vect.
Proof.
  unfold ISR_USB_GEN_vect. pose proof (no_preempt_keeps ep). pose proof (gen_reset_keeps ep).
  obey.
Qed.

Lemma next_irq_keeps ep : obeys (keeps ep) next_irq.
Proof.
  intros s i s' H. unfold next_irq in H. destruct (hw_irq (hw s)) as [j h].
  injection H as <- <-. exists []. split; [by rewrite app_nil_r|]. by intros _ _.
Qed.

Lemma deliver_keeps ep com : obeys (keeps ep) com -> obeys (keeps ep) (deliver com).
Proof.
  intros. pose proof (next_irq_keeps ep). pose proof (gen_keeps ep). pose proof (timer_keeps ep).
  obey.
Qed.

(** Timer and controller interrupts alone, for every endpoint. *)
Lemma isr_0_keeps ep : obeys (keeps ep) (@preempt _ (isr 0)).
Proof. apply deliver_keeps, obeys_spin. Qed.

(** The endpoint [Endpoint_GetCurrentEndpoint] returns selects again what was selected. *)
Lemma current_endpoint_spec ep :
  spec (Endpoint_GetCurrentEndpoint (PRE := no_preempt)) (fun s e t s' =>
    keeps ep s t s' /\ (is_u 4 (uenum s) -> e .& ENDPOINT_EPNUM_MASK = uenum s)).
Proof.
  apply spec_and; [pose proof (no_preempt_keeps ep); match goal with |- spec ?m _ => change (obeys (keeps ep) m) end; obey|].
  unfold Endpoint_GetCurrentEndpoint.
  eapply (spec_bind _ _ (fun s n t s' => n = uenum s)
    (fun n s e t s' => e = n .& ENDPOINT_EPNUM_MASK .| ENDPOINT_DIR_IN \/ e = n .& ENDPOINT_EPNUM_MASK .| ENDPOINT_DIR_OUT)).
  - eapply (spec_bind _ _ (fun s _ t s' => s' = s) (fun _ s n t s' => n = uenum s)).
    + by apply spec_ret.
    + intros u. by apply spec_raw_read.
    + cbn. intros; subst; done.
  - intros n. eapply (spec_bind _ _ (fun s d t s' => d = ENDPOINT_DIR_IN \/ d = ENDPOINT_DIR_OUT)
      (fun d s e t s' => e = n .& ENDPOINT_EPNUM_MASK .| d)).
    + eapply (spec_bind _ _ (fun _ _ _ _ => True)).
      * eapply (spec_conseq _ (fun s _ t s' => grows s t s')); [|done].
        match goal with |- spec ?m _ => change (obeys grows m) end.
        pose proof (obeys_no_preempt grows). obey.
      * intros v. apply (spec_ret _ (fun _ d _ _ => d = ENDPOINT_DIR_IN \/ d = ENDPOINT_DIR_OUT)).
        intros s. destruct (truth _); auto.
      * done.
    + intros d. by apply spec_ret.
    + cbn beta. intros s d t s1 e t' s2 [-> | ->] ->; auto.
  - cbn beta. intros s n t s1 e t' s2 -> [-> | ->] Hu; rewrite Z.land_lor_distr_l, (land_f_id (uenum s)) by done;
      rewrite land_f_id by done.
    + change (ENDPOINT_DIR_IN .& ENDPOINT_EPNUM_MASK) with 0. apply Z.lor_0_r.
    + change (ENDPOINT_DIR_OUT .& ENDPOINT_EPNUM_MASK) with 0. apply Z.lor_0_r.
Qed.

(** The request is handled on the control endpoint, whatever was selected. *)
Lemma excursion_roams ep (PRE : Preempt) : ep <> 0 -> obeys (keeps ep) (@preempt _ PRE) ->
  obeys (roams ep)
    ((Endpoint_SelectEndpoint (PRE := no_preempt) ENDPOINT_CONTROLEP ;;
      USB_INT_Disable (PRE := no_preempt) USB_INT_RXSTPI) ;;
     USB_Device_ProcessControlRequest (PRE := PRE)).
Proof.
  intros He Hp. pose proof (no_preempt_keeps ep) as Hn.
  eapply spec_ext; [intros s; symmetry; apply bind_assoc|].
  eapply (spec_bind _ _ _ (fun _ s _ t s' => from_control ep s t s'));
    [apply (select_spec ep (PRE := no_preempt) Hn)| |].
  - intros u. match goal with |- spec ?m _ => change (obeys (from_control ep) m) end.
    apply from_control_bind; [obey|intros; by apply process_from_control].
  - cbn beta. intros s u t s1 b t' s2 [E S] H [N1 N2]%no_reset_app Hu. rewrite silent_app.
    destruct (H N2 E). split_and!; [done|by apply S|done].
Qed.

Lemma com_keeps ep (PRE : Preempt) : ep <> 0 ->
  obeys (keeps ep) (@preempt _ PRE) -> obeys (keeps ep) (ISR_USB_COM_vect PRE).
Proof.
  intros He Hp. unfold ISR_USB_COM_vect.
  eapply (spec_bind _ _ _ (fun e s _ t s' =>
    no_reset t -> is_u 4 (uenum s) -> uenum s' = e .& ENDPOINT_EPNUM_MASK /\ silent ep t));
    [apply (current_endpoint_spec ep)| |].
  - intros e. eapply spec_ext.
    { intros s. rewrite bind_assoc, bind_assoc. rewrite bind_assoc, bind_assoc. reflexivity. }
    eapply (spec_bind _ _ (fun s _ t s' => roams ep s t s')); [|intros u; by apply (select_spec ep)|].
    + match goal with |- spec ?m _ => change (obeys (roams ep) m) end.
      apply obeys_bind; [typeclasses eauto| |intros; obey].
      apply obeys_bind; [typeclasses eauto|by apply excursion_roams|intros; by apply select_roams].
    + cbn beta. intros s u t s1 b t' s2 H [E S] [N1 N2]%no_reset_app Hu. rewrite silent_app.
      destruct (H N1 Hu) as [E1 S1]. by split_and!; [| |apply S].
  - cbn beta. intros s e t s1 u t' s2 [K He'] H [N1 N2]%no_reset_app Hu. rewrite silent_app.
    destruct (K N1 Hu) as [E1 S1]. destruct (H N2) as [E2 S2]; [by rewrite E1|].
    rewrite E2. split_and!; [by apply He'|done|done].
Qed.

(** Every interrupt, at every nesting depth. *)
Lemma isr_keeps n ep : ep <> 0 -> obeys (keeps ep) (@preempt _ (isr n)).
Proof.
  intros He. induction n as [|n IH]; apply deliver_keeps; [apply obeys_spin|by apply com_keeps].
Qed.

(** C7: endpoint selection is invisible to the interrupted code: whatever is delivered at an
    interrupt point (timer ticks, bus events, whole control requests with interrupts nested in
    them, at any depth), the selected endpoint is the same afterwards and no byte was read from
    or written to the FIFO of an endpoint other than the control endpoint, unless a bus reset
    was seen. *)
Theorem interrupts_restore_endpoint n s s' :
  is_u 4 (uenum s) -> @preempt _ (isr n) s = Some (tt, s') ->
  exists t, trace s' = trace s ++ t
    /\ (no_reset t -> uenum s' = uenum s
        /\ forall ep, ep <> 0 -> sent ep t = [] /\ received ep t = []).
Proof.
  intros Hu H. destruct (isr_keeps n 1 (ltac:(done)) _ _ _ H) as (t & Ht & K). exists t.
  split; [done|]. intros N. split; [by apply K|]. intros ep He.
  destruct (isr_keeps n ep He _ _ _ H) as (t' & Ht' & K'). rewrite Ht in Ht'.
  apply app_inv_head in Ht' as <-. by apply K'.
Qed.
End Isr.

(** ** Concrete runs *)
Section Demo.
#[local] Existing Instance script_hardware.
#[local] Instance demo_fuel : Fuel := 20%nat.
#[local] Existing Instance Firmware.firmware_events.

(** A check on the result and the log of a run. *)
Definition check_run {A} (o : option (A * mcu)) (f : A -> list event -> bool) : bool :=
  match o with Some (a, s') => f a (trace s') | None => false end.
Definition seen_no_reset (t : list event) : bool := forallb (fun e => negb (reset_seen e)) t.

Lemma seen_no_reset_ok t : seen_no_reset t = true -> no_reset t.
Proof.
  induction t as [|e t IH]; [by constructor|]. intros [H1 H2]%andb_prop. constructor; [|by apply IH].
  by destruct (reset_seen e).
Qed.

(** Endpoint 3 selected; a control request (GetStatus) arrives, interrupted by a tick. *)
Definition demo_request : script :=
  Script (fun r => match r with UEINTX => [0x0D] | UEDATX => [0x80; 0; 0; 0; 0; 0; 2; 0] | _ => [] end)
    [Some USB_COM_vect; Some TIMER0_OVF_vect].

Lemma interrupts_restore_endpoint_witness :
  exists s', @preempt _ (isr 1) (set_reg UENUM 3 (boot_state demo_request script_port)) = Some (tt, s')
    /\ no_reset (trace s') /\ uenum s' = 3 /\ sent 3 (trace s') = [] /\ sent 0 (trace s') = [0; 0].
Proof.
  set (run := @preempt _ (isr 1) (set_reg UENUM 3 (boot_state demo_request script_port))).
  assert (check_run run (fun _ t => seen_no_reset t && bool_decide (sent 0 t = [0; 0])) = true) as V
    by (vm_compute; reflexivity).
  destruct run as [[[] s']|] eqn:E; [|done]. apply andb_prop in V as [V1 V2].
  apply seen_no_reset_ok in V1. apply bool_decide_eq_true in V2.
  destruct (interrupts_restore_endpoint 1 (set_reg UENUM 3 (boot_state demo_request script_port)) s')
    as (t & Ht & H); [split; vm_compute; done|exact E|].
  cbn in Ht. subst t. destruct (H V1) as [Hu Hs].
  exists s'. split_and!; [done|exact V1|exact Hu|by apply Hs|exact V2].
Defined.

(** a bus reset is the exception.  [USB_GEN_vect] configures the control endpoint and leaves
    it selected: a write of the three bytes 10, 20, 30 to endpoint 3, with a reset delivered
    after the first, puts the other two into the FIFO of the control endpoint and reports
    [NoError]. *)
Theorem reset_redirects_transfer :
  let reads r := match r with
    | UEINTX => [0x21] | UESTA0X => [0x80] | UDINT => [0x08] | UDIEN => [0x08] | UECFG0X => [1]
    | _ => [] end in
  let irqs := [None; None; None; None; None; None; Some USB_GEN_vect] in
  let s := set_reg UENUM 3 (boot_state (Script reads irqs) script_port) in
  check_run (Endpoint_Write_Stream_LE (PRE := isr 1) (bytes_at [10; 20; 30]) 3 None s) (fun r t =>
    (r.1.1 =? ENDPOINT_RWSTREAM_NoError) && bool_decide (sent 3 t = [10])
    && bool_decide (sent 0 t = [20; 30])) = true.
Proof. vm_compute. reflexivity. Qed.
End Demo.
