(* ===== verification/DfuHost.v ===== *)
(** * DfuHost: downloads and uploads between the bootloader and its host

    Whole requests of the DFU bootloader against a host that has the packets of the data stage
    ready and takes every answer at once ([ControlHost]: the flags, byte counter and FIFO of the
    control endpoint as the data sheet describes them, with a queue of OUT packets behind
    them).  The theorems are total: the handler returns, and then the memories or the bytes sent
    are as stated. *)
From S2P Require Import Prelude Machine Logic Endpoint EndpointStream UsbController DeviceRequests.
From S2P Require Import Cdc Locc Interrupts Descriptors Firmware Selection.
From S2P Require Import Nvm Dfu DfuSecure DfuProgram.
Import Endpoint Dfu.

(** [packets]: the OUT packets the device has not released, first the one in the bank, less the
    bytes already read from it; [filled]: the bytes of an IN packet in the making. *)
Class ControlHost `{HW : Hardware} := {
  packets : hw_state -> list (list Z);
  filled : hw_state -> nat;
  read_count h : (length (hd [] (packets h)) + filled h < 256)%nat ->
    u8 (hw_read UEBCLX 0 h).1 = Z.of_nat (length (hd [] (packets h)) + filled h)
    /\ packets (hw_read UEBCLX 0 h).2 = packets h /\ filled (hw_read UEBCLX 0 h).2 = filled h;
  read_flags h :
    Z.testbit (hw_read UEINTX 0 h).1 RXOUTI = bool_decide (packets h <> [])
    /\ Z.testbit (hw_read UEINTX 0 h).1 TXINI = true
    /\ packets (hw_read UEINTX 0 h).2 = packets h /\ filled (hw_read UEINTX 0 h).2 = filled h;
  read_fifo h b p ps : packets h = (b :: p) :: ps ->
    u8 (hw_read UEDATX 0 h).1 = u8 b
    /\ packets (hw_read UEDATX 0 h).2 = p :: ps /\ filled (hw_read UEDATX 0 h).2 = filled h;
  write_flags h v :
    packets (hw_write UEINTX 0 v h) = (if Z.testbit v RXOUTI then packets h else tail (packets h))
    /\ filled (hw_write UEINTX 0 v h) = (if Z.testbit v TXINI then filled h else 0%nat);
  write_fifo h v : packets (hw_write UEDATX 0 v h) = packets h /\ filled (hw_write UEDATX 0 v h) = S (filled h);
  write_port h v : packets (hw_write PIND 0 v h) = packets h /\ filled (hw_write PIND 0 v h) = filled h }.

Section Host.
Context {HW : Hardware} {CH : ControlHost} {FU : Fuel} (fuel_pos : (0 < fuel)%nat).
#[local] Instance quiet_context : Preempt := no_preempt.

(** ** Accesses to the control endpoint *)

(** The OUT packets, the bytes of the IN packet in the making, the bytes sent so far and the USB
    globals, with the control endpoint selected. *)
Definition sees (s : mcu) (ps : list (list Z)) (f : nat) (out : list Z) (u : usb_globals) : Prop :=
  uenum s = 0 /\ packets (hw s) = ps /\ filled (hw s) = f /\ sent 0 (trace s) = out /\ usb s = u.

(** [m] returns, and [Q] holds then. *)
Definition ends {A} (m : M A) (s : mcu) (Q : A -> mcu -> Prop) : Prop :=
  exists a s', m s = Some (a, s') /\ Q a s'.

Lemma ends_bind {A C} (m : M A) (k : A -> M C) s Q :
  ends m s (fun a s' => ends (k a) s' Q) -> ends (bind m k) s Q.
Proof. intros (a & s1 & E & c & s2 & E2 & H). exists c, s2. unfold bind. by rewrite E. Qed.

Lemma ends_weaken {A} (m : M A) s (P Q : A -> mcu -> Prop) :
  ends m s P -> (forall a s', P a s' -> Q a s') -> ends m s Q.
Proof. intros (a & s' & E & H) HQ. exists a, s'. auto. Qed.

Lemma ends_ret {A} (a : A) s (Q : A -> mcu -> Prop) : Q a s -> ends (ret a) s Q.
Proof. intros H. by exists a, s. Qed.

Lemma ends_rd r s (Q : Z -> mcu -> Prop) : plain r = false -> uenum s = 0 ->
  Q (wrap (reg_width r) (hw_read r 0 (hw s)).1)
    (log (Rd r 0 (wrap (reg_width r) (hw_read r 0 (hw s)).1)) (set_hw (hw_read r 0 (hw s)).2 s)) ->
  ends (rd r) s Q.
Proof.
  intros Hr Hu H. unfold ends, rd, bind, preempt, quiet_context, no_preempt, ret, raw_read. rewrite Hr, Hu.
  destruct (hw_read r 0 (hw s)) as [v h]. eauto.
Qed.

Lemma ends_wr r v s (Q : unit -> mcu -> Prop) : plain r = false -> uenum s = 0 ->
  Q tt (log (Wr r 0 (wrap (reg_width r) v)) (set_hw (hw_write r 0 (wrap (reg_width r) v) (hw s)) s)) ->
  ends (wr r v) s Q.
Proof.
  intros Hr Hu H. unfold ends, wr, bind, preempt, quiet_context, no_preempt, ret, raw_write. rewrite Hr, Hu. eauto.
Qed.

(** An access that puts nothing into the FIFO. *)
Lemma sees_log s ps f out u h e ps' f' : sees s ps f out u -> sent_byte 0 e = None ->
  packets h = ps' -> filled h = f' -> sees (log e (set_hw h s)) ps' f' out u.
Proof.
  intros (Hu & _ & _ & Ho & Hg) He Hp Hf. split_and!; try done. cbn. unfold sent in *. rewrite omap_app, Ho. cbn.
  by rewrite He, app_nil_r.
Qed.

Lemma ends_count s ps f out u : sees s ps f out u -> (length (hd [] ps) + f < 256)%nat ->
  ends Endpoint_BytesInEndpoint s (fun n s' => n = Z.of_nat (length (hd [] ps) + f) /\ sees s' ps f out u).
Proof.
  intros H Hl. pose proof H as (Hu & Hp & Hf & _). apply ends_rd; [done|done|].
  destruct (read_count (hw s)) as (E1 & E2 & E3); [by rewrite Hp, Hf|]. rewrite Hp, Hf in *.
  split; [exact E1|]. by eapply sees_log.
Qed.

Lemma ends_read s b p ps f out u : sees s ((b :: p) :: ps) f out u ->
  ends Endpoint_Read_8 s (fun v s' => v = u8 b /\ sees s' (p :: ps) f out u).
Proof.
  intros H. pose proof H as (Hu & Hp & Hf & _). apply ends_rd; [done|done|].
  destruct (read_fifo _ _ _ _ Hp) as (E1 & E2 & E3). split; [exact E1|]. eapply sees_log; [done|done|done|congruence].
Qed.

Lemma ends_write s v ps f out u : sees s ps f out u ->
  ends (Endpoint_Write_8 v) s (fun _ s' => sees s' ps (S f) (out ++ [u8 v]) u).
Proof.
  intros (Hu & Hp & Hf & Ho & Hg). apply ends_wr; [done|done|].
  destruct (write_fifo (hw s) (u8 v)) as [E1 E2]. split_and!; cbn; try done; [congruence|congruence|].
  unfold sent in *. by rewrite omap_app, Ho.
Qed.

Lemma ends_port s v ps f out u : sees s ps f out u -> ends (wr PIND v) s (fun _ s' => sees s' ps f out u).
Proof.
  intros H. pose proof H as (Hu & Hp & Hf & _). apply ends_wr; [done|done|].
  destruct (write_port (hw s) (u8 v)) as [E1 E2]. eapply sees_log; [done|done|cbn; congruence|cbn; congruence].
Qed.

(** Clearing flags: [RXOUTI] releases the OUT packet and [TXINI] the IN packet. *)
Lemma ends_clear s m ps f out u : sees s ps f out u ->
  ends (clear_bits UEINTX m) s (fun _ s' =>
    sees s' (if Z.testbit m RXOUTI then tail ps else ps) (if Z.testbit m TXINI then 0%nat else f) out u).
Proof.
  intros H. pose proof H as (Hu & Hp & Hf & _). destruct (read_flags (hw s)) as (E1 & E2 & E3 & E4).
  apply ends_bind, ends_rd; [done|done|]. apply ends_wr; [done|done|].
  destruct (write_flags (hw_read UEINTX 0 (hw s)).2 (u8 (u8 (hw_read UEINTX 0 (hw s)).1 .&~ m))) as [W1 W2].
  rewrite E3, Hp in W1. rewrite E4, Hf in W2.
  rewrite testbit_u8, Z.ldiff_spec, testbit_u8 in W1, W2 by done. rewrite E1, Hp in W1. rewrite E2 in W2.
  eapply sees_log; [eapply sees_log; [exact H|done|reflexivity|reflexivity]|done| |]; cbn [hw log set_hw reg_width].
  - rewrite W1. destruct ps; [by destruct (Z.testbit m RXOUTI)|]. rewrite bool_decide_true by done.
    by destruct (Z.testbit m RXOUTI).
  - rewrite W2. by destruct (Z.testbit m TXINI).
Qed.

Lemma ends_clear_out s ps f out u : sees s ps f out u ->
  ends Endpoint_ClearOUT s (fun _ s' => sees s' (tail ps) f out u).
Proof. apply (ends_clear s (bit RXOUTI .| bit FIFOCON)). Qed.
Lemma ends_clear_in s ps f out u : sees s ps f out u -> ends Endpoint_ClearIN s (fun _ s' => sees s' ps 0 out u).
Proof. apply (ends_clear s (bit TXINI .| bit FIFOCON)). Qed.
Lemma ends_clear_setup s ps f out u : sees s ps f out u -> ends Endpoint_ClearSETUP s (fun _ s' => sees s' ps f out u).
Proof. apply (ends_clear s (bit RXSTPI)). Qed.

(** A condition that holds at once ends a wait. *)
Lemma ends_wait (ready : M bool) s Q : ends ready s (fun b s' => b = true /\ Q s') ->
  ends (wait_attached ready) s (fun b s' => b = true /\ Q s').
Proof.
  intros (b & s' & E & -> & H). exists true, s'. split; [|done]. unfold wait_attached.
  destruct fuel as [|n]; [lia|]. cbn [iter]. unfold bind. by rewrite E.
Qed.

Lemma ends_flag n s ps f out u : 0 <= n < 8 -> sees s ps f out u ->
  Z.testbit (hw_read UEINTX 0 (hw s)).1 n = true ->
  ends (bind (rd UEINTX) (fun v => ret (truth (v .& bit n)))) s (fun b s' => b = true /\ sees s' ps f out u).
Proof.
  intros Hn H Hb. pose proof H as (Hu & Hp & Hf & _). destruct (read_flags (hw s)) as (_ & _ & E3 & E4).
  apply ends_bind, ends_rd; [done|done|]. apply ends_ret. split.
  - rewrite truth_land_bit by lia. by rewrite testbit_u8.
  - eapply sees_log; [done|done|congruence|congruence].
Qed.

Lemma ends_wait_out s ps f out u : sees s ps f out u -> ps <> [] ->
  ends (wait_attached Endpoint_IsOUTReceived) s (fun b s' => b = true /\ sees s' ps f out u).
Proof.
  intros H Hne. apply ends_wait, ends_flag; [done|done|].
  destruct (read_flags (hw s)) as (-> & _). destruct H as (_ & -> & _). by apply bool_decide_true.
Qed.

Lemma ends_wait_in s ps f out u : sees s ps f out u ->
  ends (wait_attached Endpoint_IsINReady) s (fun b s' => b = true /\ sees s' ps f out u).
Proof. intros H. apply ends_wait, ends_flag; [done|done|]. by destruct (read_flags (hw s)) as (_ & -> & _). Qed.

Lemma ends_status_in s ps f out u : sees s ps f out u ->
  truth (bmRequestType (USB_ControlRequest u) .& REQDIR_DEVICETOHOST) = false ->
  ends Endpoint_ClearStatusStage s (fun _ s' => sees s' ps 0 out u).
Proof.
  intros H Hd. apply ends_bind. exists (USB_ControlRequest (usb s)), s. split; [done|].
  replace (usb s) with u by (symmetry; apply H). rewrite Hd. apply ends_bind.
  eapply ends_weaken; [by apply ends_wait_in|]. cbn beta. intros b s' [-> H']. by apply (ends_clear_in _ _ f).
Qed.

Lemma ends_status_out s ps f out u : sees s ps f out u -> ps <> [] ->
  truth (bmRequestType (USB_ControlRequest u) .& REQDIR_DEVICETOHOST) = true ->
  ends Endpoint_ClearStatusStage s (fun _ s' => sees s' (tail ps) f out u).
Proof.
  intros H Hne Hd. apply ends_bind. exists (USB_ControlRequest (usb s)), s. split; [done|].
  replace (usb s) with u by (symmetry; apply H). rewrite Hd. apply ends_bind.
  eapply ends_weaken; [by apply ends_wait_out|]. cbn beta. intros b s' [-> H']. by apply ends_clear_out.
Qed.
End Host.
