(* ===== verification/DfuDownload.v ===== *)
(** * DfuDownload: whole download and upload requests

    Total correctness of the two DFU requests that move firmware, against the host of
    [DfuHost.v] and the memories of [Nvm.v]. *)
From S2P Require Import Prelude Machine Logic Endpoint EndpointStream UsbController DeviceRequests.
From S2P Require Import Cdc Locc Interrupts Descriptors Firmware Selection.
From S2P Require Import Nvm Dfu DfuSecure DfuProgram DfuHost.
Import Endpoint Dfu.

(** ** Code on the statics *)
Section Wp.
Context {HW : Hardware} {NV : Nvm}.

(** [m] returns, and [Q] holds then. *)
Definition wp {A} (m : B A) (d : dfu) (s : mcu) (Q : option A -> dfu -> mcu -> Prop) : Prop :=
  exists r d' s', m d s = Some ((r, d'), s') /\ Q r d' s'.

(** [m] runs to its end. *)
Definition wpn {A} (m : B A) (d : dfu) (s : mcu) (Q : A -> dfu -> mcu -> Prop) : Prop :=
  wp m d s (fun r d' s' => exists a, r = Some a /\ Q a d' s').

Lemma wpB_bind {A C} (m : B A) (k : A -> B C) d s Q :
  wpn m d s (fun a d' s' => wp (k a) d' s' Q) -> wp (bindB m k) d s Q.
Proof.
  intros (r & d1 & s1 & E & a & -> & r2 & d2 & s2 & E2 & H). exists r2, d2, s2. split; [|done].
  by rewrite (bindB_run _ _ _ _ _ _ _ E).
Qed.

Lemma wp_weaken {A} (m : B A) d s (P Q : option A -> dfu -> mcu -> Prop) :
  wp m d s P -> (forall r d' s', P r d' s' -> Q r d' s') -> wp m d s Q.
Proof. intros (r & d' & s' & E & H) HQ. exists r, d', s'. auto. Qed.

Lemma wpn_weaken {A} (m : B A) d s (P Q : A -> dfu -> mcu -> Prop) :
  wpn m d s P -> (forall a d' s', P a d' s' -> Q a d' s') -> wpn m d s Q.
Proof. intros H HQ. eapply wp_weaken; [exact H|]. cbn. intros r d' s' (a & -> & Ha). eauto. Qed.

Lemma wpn_bind {A C} (m : B A) (k : A -> B C) d s Q :
  wpn m d s (fun a d' s' => wpn (k a) d' s' Q) -> wpn (bindB m k) d s Q.
Proof. apply wpB_bind. Qed.

Lemma wpn_done {A} (a : A) d s (Q : A -> dfu -> mcu -> Prop) : Q a d s -> wpn (done_ a) d s Q.
Proof. intros H. exists (Some a), d, s. eauto. Qed.

Lemma wpn_ask {A} (f : dfu -> A) d s (Q : A -> dfu -> mcu -> Prop) : Q (f d) d s -> wpn (ask f) d s Q.
Proof. intros H. exists (Some (f d)), d, s. eauto. Qed.

Lemma wpn_put f d s (Q : unit -> dfu -> mcu -> Prop) : Q tt (f d) s -> wpn (put f) d s Q.
Proof. intros H. exists (Some tt), (f d), s. eauto. Qed.

Lemma wpn_io {A} (m : M A) d s (Q : A -> dfu -> mcu -> Prop) :
  ends m s (fun a s' => Q a d s') -> wpn (io m) d s Q.
Proof. intros (a & s' & E & H). exists (Some a), d, s'. unfold io, bind. rewrite E. eauto. Qed.

Lemma wpn_call (m : B unit) d s (Q : unit -> dfu -> mcu -> Prop) :
  wp m d s (fun _ d' s' => Q tt d' s') -> wpn (call m) d s Q.
Proof. intros (r & d' & s' & E & H). exists (Some tt), d', s'. rewrite (call_run _ _ _ _ _ _ E). eauto. Qed.

Lemma wpn_wp {A} (m : B A) d s (Q : dfu -> mcu -> Prop) :
  wpn m d s (fun _ d' s' => Q d' s') -> wp m d s (fun _ d' s' => Q d' s').
Proof. intros H. eapply wp_weaken; [exact H|]. cbn. by intros r d' s' (a & _ & ?). Qed.
End Wp.

(** One statement. *)
Ltac stmt := first
  [ apply wpn_bind, wpn_ask | apply wpn_bind, wpn_put | apply wpn_bind, wpn_io | apply wpn_bind, wpn_done
  | apply wpn_ask | apply wpn_put | apply wpn_done | apply wpn_io ].
Ltac step L := eapply ends_weaken; [eapply L|cbn beta].

(** The words of a byte stream. *)
Fixpoint words (n : nat) (bs : list Z) : list Z :=
  match n, bs with S n', b0 :: b1 :: bs' => le_value [b0; b1] :: words n' bs' | _, _ => [] end.

Lemma image_words n bs : Forall is_u8 bs -> (2 * n <= length bs)%nat -> image (words n bs) = take (2 * n) bs.
Proof.
  revert bs. induction n as [|n IH]; intros bs Hb Hl; [by destruct bs|].
  destruct bs as [|b0 [|b1 bs]]; cbn [length] in Hl; [lia|lia|].
  replace (2 * S n)%nat with (S (S (2 * n))) by lia. cbn [words take].
  rewrite !Forall_cons_iff in Hb. destruct Hb as (B0 & B1 & Hb). unfold image in *. cbn [fmap list_fmap concat].
  rewrite IH by (done || lia). pose proof (le_bytes_value [b0; b1]) as E. cbn [length] in E.
  rewrite E by (by rewrite !Forall_cons_iff). done.
Qed.

Lemma stream_words_app n bs bs' : length bs = (2 * n)%nat -> words n (bs ++ bs') = words n bs.
Proof.
  revert bs. induction n as [|n IH]; intros bs Hl; [by destruct bs, bs'|].
  destruct bs as [|b0 [|b1 bs]]; cbn [length] in Hl; [lia|lia|]. cbn. rewrite IH by lia. done.
Qed.

Section Stage.
Context {HW : Hardware} {CH : ControlHost} {FU : Fuel} (fuel_pos : (0 < fuel)%nat) {NV : Nvm} {CF : DfuConfig}.
#[local] Existing Instance quiet_context.

(** ** OUT packets *)

(** Packets of whole words that fit the bank; the first may be empty already. *)
Definition even_packet (p : list Z) : Prop := Nat.Even (length p) /\ (length p < 256)%nat.
Definition word_packets (ps : list (list Z)) : Prop :=
  match ps with
  | [] => False
  | p :: ps' => even_packet p /\ Forall (fun q => even_packet q /\ q <> []) ps'
  end.

Lemma wp_wait_out d s ps f out u : sees s ps f out u -> ps <> [] ->
  wpn (wait_or_leave Endpoint_IsOUTReceived) d s (fun _ d' s' => d' = d /\ sees s' ps f out u).
Proof.
  intros H Hne. unfold wait_or_leave. stmt. step ends_wait_out; [done|done|done|].
  intros b s' [-> H']. by stmt.
Qed.

Lemma wp_wait_in d s ps f out u : sees s ps f out u ->
  wpn (wait_or_leave Endpoint_IsINReady) d s (fun _ d' s' => d' = d /\ sees s' ps f out u).
Proof.
  intros H. unfold wait_or_leave. stmt. step ends_wait_in; [done|done|].
  intros b s' [-> H']. by stmt.
Qed.

(** After [next_OUT] there is a word in the bank. *)
Lemma wp_next_OUT d s ps out u : sees s ps 0 out u -> word_packets ps -> concat ps <> [] ->
  wpn next_OUT d s (fun _ d' s' => d' = d /\ exists b0 b1 p ps', sees s' ((b0 :: b1 :: p) :: ps') 0 out u
    /\ word_packets (p :: ps') /\ b0 :: b1 :: p ++ concat ps' = concat ps).
Proof.
  intros H Hw Hc. destruct ps as [|p ps]; [done|]. destruct Hw as [[Hp Hl] Hps].
  assert (forall q qs, even_packet q -> q <> [] -> Forall (fun q => even_packet q /\ q <> []) qs ->
    exists b0 b1 p', q = b0 :: b1 :: p' /\ word_packets (p' :: qs)) as two.
  { intros q qs [He Hlq] Hq Hqs. destruct q as [|b0 [|b1 p']]; [done|destruct He as [m Hm]; cbn in Hm; lia|].
    exists b0, b1, p'. split; [done|]. split; [|done]. destruct He as [m Hm]. cbn in Hm, Hlq.
    split; [exists (m - 1)%nat|]; lia. }
  unfold next_OUT. stmt. step ends_count; [exact H|cbn; lia|]. intros n s1 [-> H1].
  destruct p as [|b p].
  - cbn. destruct ps as [|q ps]; [done|]. apply Forall_cons_iff in Hps as [[Hq Hne] Hps]. stmt.
    step ends_clear_out; [exact H1|]. intros _ s2 H2. eapply wpn_weaken; [by eapply wp_wait_out|].
    cbn beta. intros _ d' s' [-> H3]. split; [done|]. destruct (two q ps Hq Hne Hps) as (b0 & b1 & p' & -> & ?).
    by exists b0, b1, p', ps.
  - cbn [hd length]. rewrite Nat.add_0_r. replace (truth _) with true by (unfold truth; cbn; done).
    stmt. split; [done|]. destruct (two (b :: p) ps) as (b0 & b1 & p' & [= -> ->] & ?); try done.
    by exists b0, b1, p', ps.
Qed.

Lemma ends_read_word s b0 b1 p ps out u : sees s ((b0 :: b1 :: p) :: ps) 0 out u -> is_u8 b0 -> is_u8 b1 ->
  ends Endpoint_Read_16_LE s (fun v s' => v = le_value [b0; b1] /\ sees s' (p :: ps) 0 out u).
Proof.
  intros H H0 H1. apply ends_bind. step ends_read; [exact H|]. intros v0 s1 [-> Hs1].
  apply ends_bind. step ends_read; [exact Hs1|]. intros v1 s2 [-> Hs2]. apply ends_ret.
  by rewrite !wrap_id.
Qed.

Lemma bool_decide_words n ws : length ws = n -> bool_decide (n <> O) = bool_decide (ws <> @nil Z).
Proof. intros <-. by destruct ws. Qed.

(** The programming loop takes its words from the stream. *)
Lemma wp_program_flash n a page k d s ps out u : sees s ps 0 out u -> word_packets ps ->
  Forall is_u8 (concat ps) -> (2 * n <= length (concat ps))%nat ->
  wpn (program_flash n a page k) d s (fun _ d' s' =>
    d' = on_memory (program (words n (concat ps)) a page k) d
    /\ exists ps', sees s' ps' 0 out u /\ word_packets ps' /\ concat ps' = drop (2 * n) (concat ps)).
Proof.
  revert a page k d s ps. induction n as [|n IH]; intros a page k d s ps H Hw Hb Hl; cbn [program_flash].
  { stmt. split; [|by exists ps]. by destruct d, (concat ps). }
  apply wpn_bind. eapply wpn_weaken.
  { apply wp_next_OUT; [exact H|done|]. intros E. rewrite E in Hl. cbn in Hl. lia. }
  cbn beta. intros _ d1 s1 (-> & b0 & b1 & p & ps' & H1 & Hw1 & E).
  assert (is_u8 b0 /\ is_u8 b1 /\ Forall is_u8 (concat (p :: ps'))) as (B0 & B1 & Bp).
  { rewrite <- E, !Forall_cons_iff in Hb. tauto. }
  assert (2 * n <= length (concat (p :: ps')))%nat as Hl' by (rewrite <- E in Hl; cbn in *; lia).
  rewrite <- E. cbn [words]. change (p ++ concat ps') with (concat (p :: ps')).
  replace (drop (2 * S n) (b0 :: b1 :: concat (p :: ps'))) with (drop (2 * n) (concat (p :: ps')))
    by (by replace (2 * S n)%nat with (S (S (2 * n))) by lia).
  assert (length (words n (concat (p :: ps'))) = n) as Hn.
  { clear -Hl'. revert Hl'. generalize (concat (p :: ps')). induction n as [|n IH]; intros bs Hl; [done|].
    destruct bs as [|b0 [|b1 bs]]; cbn [length] in Hl; [lia|lia|]. cbn. f_equal. apply IH. lia. }
  stmt. step ends_read_word; [exact H1|done|done|]. intros w s2 [-> H2].
  stmt. cbn zeta. cbn [program]. rewrite <- (bool_decide_words n _ Hn).
  destruct (_ || _); [stmt; destruct (bool_decide (n <> O)); [stmt|]|];
    (eapply wpn_weaken; [by eapply IH|]; cbn beta; intros _ d' s' (-> & Hs'); split; [by destruct d|done]).
Qed.

(** ** Fillers *)

Lemma ends_discard s b p ps out u : sees s ((b :: p) :: ps) 0 out u ->
  ends Endpoint_Discard_8 s (fun _ s' => sees s' (p :: ps) 0 out u).
Proof.
  intros H. apply ends_bind. step ends_read; [exact H|]. intros v s' [_ H']. by apply ends_ret.
Qed.

(** Inside a packet the loop discards as many bytes as it is told. *)
Lemma wp_discard_in n d s p ps out u : sees s (p :: ps) 0 out u -> (n <= length p < 256)%nat ->
  wpn (discard_loop n) d s (fun _ d' s' => d' = d /\ sees s' (drop n p :: ps) 0 out u).
Proof.
  revert s p. induction n as [|n IH]; intros s p H Hl; cbn [discard_loop]; [by stmt|].
  destruct p as [|b p]; cbn [length] in Hl; [lia|].
  stmt. step ends_count; [exact H|cbn; lia|]. intros c s1 [-> H1]. cbn [hd length]. rewrite Nat.add_0_r.
  replace (truth _) with true by done. cbn [negb]. stmt. step ends_discard; [exact H1|]. intros _ s2 H2.
  apply IH; [done|lia].
Qed.

(** At the end of a packet one of the rounds goes into fetching the next one. *)
Lemma wp_discard_next n d s p ps out u : sees s ([] :: p :: ps) 0 out u -> (n <= length p < 256)%nat ->
  wpn (discard_loop (S n)) d s (fun _ d' s' => d' = d /\ sees s' (drop n p :: ps) 0 out u).
Proof.
  intros H Hl. cbn [discard_loop]. stmt. step ends_count; [exact H|cbn; lia|]. intros c s1 [-> H1].
  cbn. apply wpn_bind. stmt. step ends_clear_out; [exact H1|]. intros _ s2 H2.
  eapply wpn_weaken; [by eapply wp_wait_out|]. cbn beta. intros _ d' s3 [-> H3]. by apply wp_discard_in.
Qed.

(** In any case it does not run dry. *)
Lemma wp_discard n d s ps out u : sees s ps 0 out u -> ps <> [] ->
  Forall (fun q => (length q < 256)%nat) ps -> Forall (fun q => q <> []) (tail ps) -> (n <= length (concat ps))%nat ->
  wpn (discard_loop n) d s (fun _ d' s' => d' = d /\ exists ps', sees s' ps' 0 out u).
Proof.
  revert s ps. induction n as [|n IH]; intros s ps H Hne Hs Ht Hl; cbn [discard_loop]; [stmt; eauto|].
  destruct ps as [|p ps]; [done|]. apply Forall_cons_iff in Hs as [Hp Hs].
  stmt. step ends_count; [exact H|cbn; lia|]. intros c s1 [-> H1]. cbn [hd]. rewrite Nat.add_0_r.
  destruct p as [|b p].
  - cbn [truth length negb]. cbn. destruct ps as [|q ps]; [cbn in Hl; lia|].
    apply wpn_bind. stmt. step ends_clear_out; [exact H1|]. intros _ s2 H2.
    eapply wpn_weaken; [by eapply wp_wait_out|]. cbn beta. intros _ d' s3 [-> H3].
    eapply IH; [exact H3|done|done|by apply Forall_cons_iff in Ht as [_ ?]|cbn in *; lia].
  - replace (truth _) with true by done. cbn [negb]. stmt. step ends_discard; [exact H1|]. intros _ s2 H2.
    eapply IH; [exact H2|done| |done|cbn in *; lia]. constructor; [cbn in *; lia|done].
Qed.
End Stage.

(** ** The download request *)
Section Download.
Context {HW : Hardware} {CH : ControlHost} {FU : Fuel} (fuel_pos : (0 < fuel)%nat) {NV : Nvm} {CF : DfuConfig}.
#[local] Existing Instance quiet_context.

Fixpoint loaded (bs : list Z) (i : nat) (d : dfu) : dfu :=
  match bs with
  | [] => d
  | b :: bs' => let d := set_Data i b d in
                loaded bs' (S i) (set_DataSize (u16 (DataSize (SentCommand d) - 1)) d)
  end.

Lemma wp_load_data bs i d s p ps out u : sees s ((bs ++ p) :: ps) 0 out u -> Forall is_u8 bs ->
  (length bs + length p < 256)%nat ->
  wpn (load_data (length bs) i) d s (fun _ d' s' => d' = loaded bs i d /\ sees s' (p :: ps) 0 out u).
Proof.
  revert i d s. induction bs as [|b bs IH]; intros i d s H Hb Hl; cbn [load_data length]; [by stmt|].
  apply Forall_cons_iff in Hb as [B Hb]. cbn [length] in Hl.
  stmt. step ends_count; [exact H|cbn; rewrite length_app; lia|]. intros c s1 [-> H1].
  replace (truth _) with true by done. stmt. step ends_read; [exact H1|]. intros v s2 [-> H2].
  rewrite wrap_id by done. do 2 stmt. cbn [loaded]. apply IH; [done|done|lia].
Qed.

(** The statics once the command [c] with the parameters [bs] has been read. *)
Definition commanded (c : Z) (bs : list Z) (d : dfu) : dfu :=
  set_SentCommand (DFU_Command c bs (u16 (DataSize (SentCommand d) - 6))) d.

Lemma u16_pred x y : u16 (u16 x - y) = u16 (x - y).
Proof. unfold wrap. by rewrite Zminus_mod_idemp_l. Qed.

Lemma loaded_all b0 b1 b2 b3 b4 c d : length (Data (SentCommand d)) = 5%nat ->
  loaded [b0; b1; b2; b3; b4] 0
    (set_DataSize (u16 (DataSize (SentCommand (set_Command c d)) - 1)) (set_Command c d))
  = commanded c [b0; b1; b2; b3; b4] d.
Proof.
  intros Hl. destruct d as [? ? ? ? ? [c0 bs n] ? ? ? ? ? ? ? ?]. cbn in Hl.
  do 5 (destruct bs as [|? bs]; [done|]). destruct bs; [|done]. unfold commanded. cbn.
  repeat (rewrite u16_pred, <- Z.sub_add_distr; cbn [Z.add Pos.add Pos.succ]). done.
Qed.

Lemma wp_load_command c b0 b1 b2 b3 b4 d s p ps out u (Q : unit -> dfu -> mcu -> Prop) :
  sees s ((c :: [b0; b1; b2; b3; b4] ++ p) :: ps) 0 out u ->
  Forall is_u8 [c; b0; b1; b2; b3; b4] -> (length p < 250)%nat -> length (Data (SentCommand d)) = 5%nat ->
  (forall s', sees s' (p :: ps) 0 out u ->
     wpn ProcessBootloaderCommand (commanded c [b0; b1; b2; b3; b4] d) s' Q) ->
  wpn load_command d s Q.
Proof.
  intros H Hb Hl Hd HQ. apply Forall_cons_iff in Hb as [Hc Hb]. unfold load_command. apply wpn_bind.
  eapply wpn_weaken; [by eapply wp_wait_out|]. cbn beta. intros _ d1 s1 [-> H1].
  stmt. step ends_read; [exact H1|]. intros v s2 [-> H2]. rewrite wrap_id by done. do 2 stmt.
  apply wpn_bind. eapply wpn_weaken; [apply (wp_load_data [b0; b1; b2; b3; b4]); [exact H2|done|cbn; lia]|].
  cbn beta. intros _ d3 s3 [-> H3]. rewrite loaded_all by done. by apply HQ.
Qed.

(** A memory program command for flash. *)
Lemma wp_prog_start d s (Q : unit -> dfu -> mcu -> Prop) sh sl eh el :
  IsSecure d = false -> Command (SentCommand d) = COMMAND_PROG_START ->
  Data (SentCommand d) = [0; sh; sl; eh; el] ->
  (forall d', d' = set_EndAddr (le_value [el; eh]) (set_StartAddr (le_value [sl; sh]) d) ->
     Q tt (set_DFU_State dfuDNLOAD_IDLE (on_memory (boot_page_erase (flash_address d')) d')) s) ->
  wpn ProcessBootloaderCommand d s Q.
Proof.
  intros Hs Hc Hd HQ. apply wpn_call, wpn_wp. stmt. unfold refused. rewrite Hs. cbn [andb].
  do 2 stmt. rewrite Hc. cbn [COMMAND_PROG_START Z.eqb]. unfold COMMAND_PROG_START. cbn [Z.eqb Pos.eqb].
  unfold ProcessMemProgCommand, IS_ONEBYTE_COMMAND, data. stmt. rewrite Hd. cbn [nth Z.eqb]. stmt. cbn [orb].
  unfold LoadStartEndAddresses, data. stmt. rewrite Hd. cbn [nth].
  apply wpn_bind. do 2 stmt. stmt. by apply HQ.
Qed.

(** The data behind a memory program command for flash: [n] words at [a]. *)
Lemma wp_receive_firmware d s filler ps out u n a :
  sees s (filler :: ps) 0 out u -> length filler = 26%nat -> ps <> [] ->
  Forall (fun q => even_packet q /\ q <> []) ps -> Forall is_u8 (concat ps) ->
  (2 * n + 16 <= length (concat ps))%nat -> data d 0 = 0 -> a = flash_address d ->
  StartAddr d mod 32 = 0 -> bytes_remaining d = 2 * Z.of_nat n ->
  wpn receive_firmware d s (fun _ d' s' =>
    d' = on_memory boot_rww_enable (set_StartAddr (EndAddr d)
           (on_memory (program (words n (concat ps)) a a 0) d))
    /\ exists ps', sees s' ps' 0 out u).
Proof.
  intros H Hf Hne Hps Hb Hl H0 -> Hs Hn. unfold receive_firmware. apply wpn_bind, wpn_call, wpn_wp.
  eapply wpn_weaken; [apply (wp_discard_in fuel_pos 26); [exact H|lia]|]. cbn beta. intros _ d1 s1 [-> H1].
  rewrite drop_ge in H1 by lia. stmt. unfold FIXED_CONTROL_ENDPOINT_SIZE. rewrite Hs.
  apply wpn_bind, wpn_call, wpn_wp. change (Z.to_nat (u8 0)) with 0%nat. cbn [discard_loop]. stmt.
  do 3 stmt. unfold IS_ONEBYTE_COMMAND. rewrite H0, Hn, Z.shiftr_div_pow2 by done. change (2 ^ 1) with 2.
  rewrite Z.mul_comm, Z.div_mul, Nat2Z.id by done. cbn [Z.eqb]. apply wpn_bind, wpn_bind.
  eapply wpn_weaken; [apply wp_program_flash; [done|exact H1| |exact Hb|cbn; lia]|].
  { split; [|exact Hps]. split; [by exists 0%nat|cbn; lia]. }
  cbn beta. intros _ d2 s2 (-> & ps' & H2 & Hw & Ec). do 2 stmt. change (concat ([] :: ps)) with (concat ps) in *.
  apply wpn_call, wpn_wp. destruct ps' as [|q ps']; [done|]. destruct Hw as [[_ Hq] Hw].
  eapply wpn_weaken; [eapply wp_discard; [done|exact H2|done| | |]|].
  - constructor; [done|]. eapply Forall_impl; [|exact Hw]. cbn. by intros ? [[_ ?] _].
  - eapply Forall_impl; [|exact Hw]. cbn. by intros ? [_ ?].
  - rewrite Ec, length_drop. change (Z.to_nat (u8 DFU_FILE_SUFFIX_SIZE)) with 16%nat. lia.
  - cbn beta. intros _ d3 s3 [-> H3]. split; [by destruct d|done].
Qed.

Context {NL : NvmLaws} (flash_32 : FLASHEND + 256 < 2 ^ 32).

Lemma program_eeprom_same ws a page k m x : eeprom (program ws a page k m) x = eeprom m x.
Proof.
  revert a page k m. induction ws as [|w ws IH]; intros a page k m; cbn [program]; [done|].
  repeat case_match; rewrite IH; by autorewrite with nvm.
Qed.

(** What the flash holds after [fw] was programmed at the page boundary [a]. *)
Lemma firmware_programmed fw n a m x : Forall is_u8 fw -> length fw = (2 * n)%nat -> (0 < n)%nat ->
  a mod SPM_PAGESIZE = 0 -> 0 <= a -> page_end (a + Z.of_nat (length fw)) <= FLASHEND + 1 ->
  (forall i, buffered m i = None) -> on_chip x ->
  flash (program (words n fw) a a 0 (boot_page_erase a m)) x =
  if bool_decide (a <= x < a + Z.of_nat (length fw)) then nth (Z.to_nat (x - a)) fw 0
  else if bool_decide (a + Z.of_nat (length fw) <= x < page_end (a + Z.of_nat (length fw))) then 0xFF
  else flash m x.
Proof.
  intros Hb Hl Hn Ha H0 He Hm Hx. pose proof (image_words n fw Hb ltac:(lia)) as Hi.
  assert (Z.of_nat (length (words n fw)) * 2 = Z.of_nat (length fw)) as Hw.
  { pose proof (length_image (words n fw)) as E. rewrite Hi, length_take in E. lia. }
  destruct page_pos as [P _]. pose proof (page_end_le a (a + Z.of_nat (length fw)) Ha ltac:(lia)) as Pe.
  assert (on_chip a) as Hc by (unfold on_chip; lia).
  rewrite program_spec; [|done| |by intros E; rewrite E in Hw; cbn in Hw; lia| |done].
  - unfold programmed. rewrite Hi, take_ge by lia. rewrite (Z.mul_comm 2), Hw, erase_flash by done.
    destruct (same_page a x) eqn:E.
    + apply same_page_range in E; [|done]. repeat case_bool_decide; ltb_cases.
    + assert (~ (a <= x < a + SPM_PAGESIZE)) by (rewrite <- same_page_range by done; congruence).
      repeat case_bool_decide; ltb_cases.
  - pose proof page_half. split_and!; [done|lia|lia|lia|lia| |].
    + intros i _. by rewrite erase_buffered.
    + intros y Hy. rewrite erase_flash; [|done|by eapply page_on_chip].
      by rewrite (proj2 (same_page_range a y Ha) Hy).
  - by rewrite Z.mul_comm, Hw.
Qed.

(** ** Requests *)

(** A class request [r] to the DFU interface in the direction [dir], waiting to be handled. *)
Definition requested (u : usb_globals) (r : Z) (device_to_host : bool) : Prop :=
  let req := USB_ControlRequest u in
  to_dfu req = true /\ bRequest req = r
  /\ truth (bmRequestType req .& REQDIR_DEVICETOHOST) = device_to_host.

(** The handler, up to the branch for the request. *)
Lemma handle_wp (body : B unit) d s ps f out u (Q : dfu -> mcu -> Prop) r dir :
  sees s ps f out u -> requested u r dir ->
  (forall s', sees s' ps f out u ->
     (if r =? DFU_REQ_DNLOAD then dnload else if r =? DFU_REQ_UPLOAD then upload else body) = body
     /\ wpn body (set_DataSize (wLength (USB_ControlRequest u)) d) s' (fun _ => Q)) ->
  r = DFU_REQ_DNLOAD \/ r = DFU_REQ_UPLOAD ->
  exists d' s', handle d s = Some (d', s') /\ Q d' s'.
Proof.
  intros H (Hr & Hb & _) Hbody Hu.
  assert (wpn ControlRequest d s (fun _ => Q)) as (r0 & d' & s' & E & a & -> & HQ).
  { apply wpn_call, wpn_wp. stmt. exists (USB_ControlRequest (usb s)), s. split; [done|].
    replace (usb s) with u by (symmetry; apply H). rewrite Hr. cbn [negb]. stmt.
    step ends_port; [exact H|]. intros _ s1 H1. stmt. rewrite Hb. destruct (Hbody s1 H1) as [<- W].
    by destruct Hu as [-> | ->]. }
  exists d', s'. split; [|done]. unfold handle, bind. by rewrite E.
Qed.

(** The first packet of a download to flash. *)
Definition prog_packet (start last : Z) (filler : list Z) : list Z :=
  [COMMAND_PROG_START; 0x00; start .>> 8; start .& 0xFF; last .>> 8; last .& 0xFF] ++ filler.

Lemma le_value_split x : is_u16 x -> le_value [x .& 0xFF; x .>> 8] = x /\ is_u8 (x .& 0xFF) /\ is_u8 (x .>> 8).
Proof.
  intros Hx. assert (is_u8 (x .& 0xFF)) as H0.
  { change 0xFF with (Z.ones 8). rewrite Z.land_ones by done. by apply wrap_is_u. }
  assert (is_u8 (x .>> 8)) as H1.
  { rewrite Z.shiftr_div_pow2 by done. unfold is_u in *. change (2 ^ 8) with 256. change (2 ^ 16) with 65536 in *. zmod. }
  split; [|done]. cbn [le_value]. rewrite Z.shiftl_0_l, Z.lor_0_r, lor_shiftl8 by done.
  change 0xFF with (Z.ones 8). rewrite Z.land_ones, Z.shiftr_div_pow2 by done. change (2 ^ 8) with 256. zmod.
Qed.

(** A DFU_DNLOAD request whose data stage has a memory program command for the flash from [start]
    on with its 26 filler bytes in the first packet, then the firmware and a suffix in packets of
    whole words. *)
Definition firmware_request (s : mcu) (start : Z) (fw : list Z) : Prop :=
  exists u out filler ps suffix,
    sees s (prog_packet start (start + Z.of_nat (length fw) - 1) filler :: ps) 0 out u
    /\ requested u DFU_REQ_DNLOAD false
    /\ wLength (USB_ControlRequest u) <> 0 /\ u16 (wLength (USB_ControlRequest u) - 6) <> 0
    /\ length filler = 26%nat /\ Forall (fun q => even_packet q /\ q <> []) ps
    /\ concat ps = fw ++ suffix /\ Forall is_u8 (fw ++ suffix) /\ (16 <= length suffix)%nat.

(** The bootloader takes commands: not in secure mode, not about to exit. *)
Definition accepts (d : dfu) : Prop :=
  IsSecure d = false /\ WaitForExit d = false /\ length (Data (SentCommand d)) = 5%nat.

(** [fw] goes to [a]: whole words from the beginning of a page, which is also one of a 32-byte
    block of the data stage, in pages below the bootloader's own section. *)
Definition fits (start a : Z) (fw : list Z) : Prop :=
  Nat.Even (length fw) /\ (0 < length fw)%nat /\ 0 <= start /\ start + Z.of_nat (length fw) < 2 ^ 16
  /\ start mod 32 = 0 /\ a mod SPM_PAGESIZE = 0 /\ 0 <= a
  /\ page_end (a + Z.of_nat (length fw)) <= BOOT_START_ADDR /\ BOOT_START_ADDR <= FLASHEND + 1.

(** The flash afterwards. *)
Definition firmware_at (a : Z) (fw : list Z) (m m' : nvm) : Prop := forall x, on_chip x ->
  flash m' x =
    if bool_decide (a <= x < a + Z.of_nat (length fw)) then nth (Z.to_nat (x - a)) fw 0
    else if bool_decide (a + Z.of_nat (length fw) <= x < page_end (a + Z.of_nat (length fw))) then 0xFF
    else flash m x.

(** The whole download: the handler returns, the firmware is in place, the rest of its last page
    is erased, and nothing else has changed. *)
Lemma download_run d s start fw : let a := start .| (Flash64KBPage d .<< 16) in
  accepts d -> (forall i, buffered (memory d) i = None) -> firmware_request s start fw -> fits start a fw ->
  exists d' s', handle d s = Some (d', s')
    /\ firmware_at a fw (memory d) (memory d')
    /\ (forall x, eeprom (memory d') x = eeprom (memory d) x)
    /\ readable (memory d') = true /\ accepts d' /\ Flash64KBPage d' = Flash64KBPage d.
Proof.
  intros a (Hs & Hx & Hd) Hm (u & out & filler & ps & suffix & H & Hr & Hw & Hz & Hf & Hps & Ec & Hb & Hsx)
    ([n Hl] & Hn & Hs0 & Hn16 & H32 & Ha & Ha0 & Heb & Hbf). pose proof (Z.le_trans _ _ _ Heb Hbf) as He.
  set (last := start + Z.of_nat (length fw) - 1) in *.
  assert (is_u16 start /\ is_u16 last) as [Us Ul] by (unfold is_u, last; lia).
  assert (last = start + 2 * Z.of_nat n - 1) as El by (unfold last; lia). clearbody last.
  destruct (le_value_split start Us) as (Es & Us0 & Us1). destruct (le_value_split last Ul) as (El' & Ul0 & Ul1).
  assert (Forall is_u8 fw) as Hfw by (rewrite Forall_app in Hb; tauto).
  eapply (handle_wp dnload); [exact H|exact Hr| |by left]. intros s1 H1. split; [done|].
  unfold dnload. stmt. step ends_clear_setup; [exact H1|]. intros _ s2 H2. stmt.
  replace (WaitForExit _) with false by (by destruct d). do 2 stmt.
  replace (DataSize _) with (wLength (USB_ControlRequest u)) by (by destruct d).
  replace (truth _) with true by (symmetry; unfold truth; by rewrite (proj2 (Z.eqb_neq _ _) Hw)).
  apply wpn_bind. eapply wp_load_command; [exact H2|by rewrite !Forall_cons_iff|lia|by destruct d|].
  intros s3 H3. eapply wp_prog_start; [by destruct d..|]. intros d1 ->. rewrite Es, El'.
  match goal with |- wpn _ ?d2 _ _ => set (D := d2) end.
  assert (DFU_State D = dfuDNLOAD_IDLE /\ DataSize (SentCommand D) <> 0 /\ data D 0 = 0 /\ flash_address D = a
    /\ StartAddr D = start /\ EndAddr D = last /\ memory D = boot_page_erase a (memory d)
    /\ accepts D /\ Flash64KBPage D = Flash64KBPage d)
    as (D1 & D2 & D3 & D4 & D5 & D6 & D7 & D8 & D9) by (destruct d; by split_and!).
  clearbody D. stmt. rewrite D1, Z.eqb_refl. apply wpn_bind. stmt.
  replace (truth _) with true by (symmetry; unfold truth; by rewrite (proj2 (Z.eqb_neq _ _) D2)). cbn [negb].
  eapply wpn_weaken.
  { apply (wp_receive_firmware D s3 filler ps out u n a); try done; [|by rewrite Ec|by rewrite Ec, length_app; lia|by rewrite D5|].
    - intros ->. destruct fw; [cbn in Hn; lia|done].
    - unfold bytes_remaining. rewrite D5, D6, El, wrap_id; unfold is_u; lia. }
  cbn beta. intros _ d2 s4 (-> & ps' & H4). stmt. step ends_clear_out; [exact H4|]. intros _ s5 H5.
  stmt. step ends_status_in; [done|exact H5|apply Hr|]. intros _ s6 _.
  rewrite Ec, stream_words_app by done. split_and!.
  - intros x Hxc. replace (memory _) with (boot_rww_enable (program (words n fw) a a 0 (boot_page_erase a (memory d))))
      by (rewrite <- D7; by destruct D).
    rewrite enable_flash. apply (firmware_programmed fw n); (done || lia).
  - intros x. replace (memory _) with (boot_rww_enable (program (words n fw) a a 0 (boot_page_erase a (memory d))))
      by (rewrite <- D7; by destruct D).
    by rewrite enable_eeprom, program_eeprom_same, erase_eeprom.
  - destruct D. apply enable_readable.
  - by destruct D.
  - by destruct D.
Qed.

(** ** The upload request *)

Lemma word_bytes b0 b1 : is_u8 b0 -> is_u8 b1 ->
  u8 (le_value [b0; b1] .& 0xFF) = b0 /\ u8 (le_value [b0; b1] .>> 8) = b1.
Proof.
  intros H0 H1. assert (le_bytes 2 (le_value [b0; b1]) = [b0; b1]) as E.
  { apply (le_bytes_value [b0; b1]). by rewrite !Forall_cons_iff. }
  revert E. generalize (le_value [b0; b1]). intros w E. cbn [le_bytes] in E.
  assert (u8 w = b0 /\ u8 (w .>> 8) = b1) as [<- <-] by (by injection E). split; [|done].
  change 0xFF with (Z.ones 8). rewrite Z.land_ones by done. by apply wrap_wrap.
Qed.

(** Room for a word, with the status packet of the host waiting. *)
Lemma wp_next_IN d s ps f out u : sees s ([] :: ps) f out u -> (f <= 32)%nat -> Nat.Even f ->
  wpn next_IN d s (fun _ d' s' => d' = d /\ exists f', sees s' ([] :: ps) f' out u /\ (f' <= 30)%nat /\ Nat.Even f').
Proof.
  intros H Hf Ev. unfold next_IN. stmt. step ends_count; [exact H|cbn; lia|]. intros c s1 [-> H1]. cbn [hd length Nat.add].
  unfold FIXED_CONTROL_ENDPOINT_SIZE. destruct (Z.eqb_spec (Z.of_nat f) 32) as [E|E].
  - stmt. step ends_clear_in; [exact H1|]. intros _ s2 H2. eapply wpn_weaken; [by eapply wp_wait_in|].
    cbn beta. intros _ d' s3 [-> H3]. split; [done|]. exists 0%nat. split_and!; [done|lia|by exists 0%nat].
  - stmt. split; [done|]. exists f. split_and!; [done| |done]. destruct Ev as [k Hk]. lia.
Qed.

Lemma wp_upload_flash n a d s ps f out u : sees s ([] :: ps) f out u -> (f <= 32)%nat -> Nat.Even f ->
  readable (memory d) = true -> 0 <= a -> a + 2 * Z.of_nat n <= FLASHEND + 1 ->
  wpn (upload_flash n a) d s (fun _ d' s' => d' = d
    /\ exists f', sees s' ([] :: ps) f' (out ++ (flash (memory d) <$> seqZ a (2 * Z.of_nat n))) u).
Proof.
  revert a s f out. induction n as [|n IH]; intros a s f out H Hf Ev Hr H0 He; cbn [upload_flash].
  { stmt. split; [done|]. exists f. by rewrite app_nil_r. }
  apply wpn_bind. eapply wpn_weaken; [by eapply wp_next_IN|]. cbn beta. intros _ d1 s1 (-> & f' & H1 & Hf' & Ev').
  stmt. rewrite read_word by (done || unfold on_chip; lia).
  destruct (word_bytes (flash (memory d) a) (flash (memory d) (a + 1))) as [E0 E1]; [apply flash_u8..|].
  stmt. apply ends_bind. step ends_write; [exact H1|]. intros _ s2 H2. step ends_write; [exact H2|]. intros _ s3 H3.
  rewrite E0, E1, <- app_assoc in H3. rewrite wrap_id by (unfold is_u; lia).
  eapply wpn_weaken; [eapply IH; [exact H3|lia| |done|lia|lia]|].
  { destruct Ev' as [k ->]. exists (S k). lia. }
  cbn beta. intros _ d' s' (-> & f2 & H4). split; [done|]. exists f2. rewrite <- app_assoc in H4.
  replace (2 * Z.of_nat (S n)) with (2 + 2 * Z.of_nat n) by lia. rewrite seqZ_app, fmap_app by lia.
  by replace (seqZ a 2) with [a; a + 1] by (rewrite Z.add_1_r; by do 2 rewrite seqZ_cons by lia).
Qed.

(** The whole upload of a flash range. *)
Lemma upload_run d s u out ps n : let a := flash_address d in
  sees s ([] :: ps) 0 out u -> requested u DFU_REQ_UPLOAD true ->
  DFU_State d = dfuUPLOAD_IDLE -> data d 0 = 0 -> bytes_remaining d = 2 * Z.of_nat n ->
  readable (memory d) = true -> 0 <= a -> a + 2 * Z.of_nat n <= FLASHEND + 1 ->
  exists d' s', handle d s = Some (d', s')
    /\ sent 0 (trace s') = out ++ (flash (memory d) <$> seqZ a (2 * Z.of_nat n))
    /\ DFU_State d' = dfuIDLE /\ memory d' = memory d.
Proof.
  intros a H Hr Hst H0 Hn Hread Ha He. eapply (handle_wp upload); [exact H|exact Hr| |by right].
  intros s1 H1. split; [done|]. unfold upload. stmt. step ends_clear_setup; [exact H1|]. intros _ s2 H2.
  apply wpn_bind. eapply wpn_weaken; [by eapply wp_wait_in|]. cbn beta. intros _ d1 s3 [-> H3].
  match goal with |- wpn _ ?d2 _ _ => set (D := d2) end.
  assert (DFU_State D = dfuUPLOAD_IDLE /\ data D 0 = 0 /\ flash_address D = a /\ memory D = memory d
    /\ bytes_remaining D = 2 * Z.of_nat n) as (D1 & D2 & D3 & D4 & D5) by (destruct d; by split_and!).
  clearbody D. stmt. rewrite D1, Z.eqb_refl. cbn [negb]. apply wpn_bind. unfold send_memory. do 4 stmt.
  unfold IS_ONEBYTE_COMMAND. rewrite D2, D3, D5, Z.shiftr_div_pow2 by done. change (2 ^ 1) with 2.
  replace (2 * Z.of_nat n / 2) with (Z.of_nat n) by zmod. rewrite Nat2Z.id. cbn [Z.eqb]. apply wpn_bind, wpn_bind.
  eapply wpn_weaken; [eapply wp_upload_flash; [exact H3|lia|by exists 0%nat|by rewrite D4|done|lia]|].
  cbn beta. intros _ d2 s4 (-> & f & H4). do 2 stmt. stmt. step ends_clear_in; [exact H4|]. intros _ s5 H5.
  stmt. step ends_status_out; [done|exact H5|done|apply Hr|]. intros _ s6 (_ & _ & _ & H6 & _).
  rewrite H6, D4. split_and!; by destruct D.
Qed.

(** ** Selecting the range to read *)

Definition disp_packet (start last : Z) : list Z :=
  [COMMAND_DISP_DATA; 0x00; start .>> 8; start .& 0xFF; last .>> 8; last .& 0xFF].

Lemma wp_disp_data d s (Q : unit -> dfu -> mcu -> Prop) sh sl eh el :
  IsSecure d = false -> Command (SentCommand d) = COMMAND_DISP_DATA ->
  Data (SentCommand d) = [0; sh; sl; eh; el] ->
  Q tt (set_DFU_State dfuUPLOAD_IDLE
          (set_EndAddr (le_value [el; eh]) (set_StartAddr (le_value [sl; sh]) d))) s ->
  wpn ProcessBootloaderCommand d s Q.
Proof.
  intros Hs Hc Hd HQ. apply wpn_call, wpn_wp. stmt. unfold refused. rewrite Hs. cbn [andb].
  do 2 stmt. rewrite Hc. unfold COMMAND_PROG_START, COMMAND_DISP_DATA. cbn [Z.eqb Pos.eqb].
  unfold ProcessMemReadCommand, IS_ONEBYTE_COMMAND, data. stmt. rewrite Hd. cbn [nth Z.eqb]. do 2 stmt. cbn [orb].
  unfold LoadStartEndAddresses, data. stmt. rewrite Hd. cbn [nth]. by stmt.
Qed.

Lemma display_run d s u out ps start last :
  sees s (disp_packet start last :: ps) 0 out u -> requested u DFU_REQ_DNLOAD false ->
  wLength (USB_ControlRequest u) = 6 ->
  IsSecure d = false -> WaitForExit d = false -> length (Data (SentCommand d)) = 5%nat ->
  is_u16 start -> is_u16 last ->
  exists d' s', handle d s = Some (d', s')
    /\ DFU_State d' = dfuUPLOAD_IDLE /\ data d' 0 = 0 /\ StartAddr d' = start /\ EndAddr d' = last
    /\ Flash64KBPage d' = Flash64KBPage d /\ memory d' = memory d.
Proof.
  intros H Hr Hw Hs Hx Hd Us Ul.
  destruct (le_value_split start Us) as (Es & Us0 & Us1). destruct (le_value_split last Ul) as (El & Ul0 & Ul1).
  eapply (handle_wp dnload); [exact H|exact Hr| |by left]. intros s1 H1. split; [done|].
  unfold dnload. stmt. step ends_clear_setup; [exact H1|]. intros _ s2 H2. stmt.
  replace (WaitForExit _) with false by (by destruct d). do 2 stmt.
  replace (DataSize _) with 6 by (rewrite <- Hw; by destruct d). replace (truth 6) with true by done.
  apply wpn_bind. eapply (wp_load_command _ _ _ _ _ _ _ _ []); [exact H2|by rewrite !Forall_cons_iff|cbn; lia|by destruct d|].
  intros s3 H3. eapply wp_disp_data; [by destruct d..|]. rewrite Es, El.
  stmt. replace (DFU_State _) with dfuUPLOAD_IDLE by (by destruct d). cbn [Z.eqb dfuUPLOAD_IDLE dfuDNLOAD_IDLE].
  replace (dfuUPLOAD_IDLE =? dfuDNLOAD_IDLE) with false by done. stmt.
  stmt. step ends_clear_out; [exact H3|]. intros _ s4 H4. stmt. step ends_status_in; [done|exact H4|apply Hr|].
  intros _ s5 _. destruct d; by split_and!.
Qed.

(** ** Programming and reading back *)

(** A DFU_DNLOAD request that selects a flash range for reading, and a DFU_UPLOAD request after
    [out] has been sent. *)
Definition display_request (s : mcu) (start last : Z) : Prop := exists u out ps,
  sees s (disp_packet start last :: ps) 0 out u /\ requested u DFU_REQ_DNLOAD false
  /\ wLength (USB_ControlRequest u) = 6.
Definition upload_request (s : mcu) (out : list Z) : Prop := exists u ps,
  sees s ([] :: ps) 0 out u /\ requested u DFU_REQ_UPLOAD true.

(** The bytes of the firmware are the ones in the flash. *)
Lemma firmware_bytes a fw m m' : firmware_at a fw m m' -> 0 <= a -> a + Z.of_nat (length fw) <= FLASHEND + 1 ->
  flash m' <$> seqZ a (Z.of_nat (length fw)) = fw.
Proof.
  intros H H0 H1. apply list_eq. intros i. rewrite list_lookup_fmap.
  destruct (decide (i < length fw)%nat) as [Hi|Hi].
  - rewrite lookup_seqZ_lt by lia. cbn. rewrite H by (unfold on_chip; lia).
    rewrite bool_decide_true by lia. replace (Z.to_nat (a + Z.of_nat i - a)) with i by lia.
    symmetry. destruct (nth_lookup_or_length fw i 0) as [->|]; [done|lia].
  - rewrite lookup_seqZ_ge by lia. symmetry. apply lookup_ge_None. lia.
Qed.

(** C24: Firmware that is downloaded is what the flash holds and what an upload returns.  Take a
    bootloader that accepts commands, with nothing in the page buffer, and three requests of the
    host, each on a machine of its own: a download of [fw], whole words that fit below the
    bootloader's section, to [start], the beginning of a page and of a 32-byte block, the selection
    of the same range for reading, and an upload.  All three handlers return; after the first, the flash has
    [fw] at its address, 0xFF in the rest of its last page and what it had everywhere else, and
    the EEPROM is as it was; the others leave the memories alone; and the bytes the last one puts
    into the control endpoint are exactly [fw]. *)
Theorem firmware_roundtrip d s1 s2 s3 start fw out : let a := start .| (Flash64KBPage d .<< 16) in
  accepts d -> (forall i, buffered (memory d) i = None) -> fits start a fw ->
  firmware_request s1 start fw -> display_request s2 start (start + Z.of_nat (length fw) - 1) ->
  upload_request s3 out ->
  exists d1 d2 d3 s1' s2' s3',
    handle d s1 = Some (d1, s1') /\ handle d1 s2 = Some (d2, s2') /\ handle d2 s3 = Some (d3, s3')
    /\ firmware_at a fw (memory d) (memory d1) /\ (forall x, eeprom (memory d1) x = eeprom (memory d) x)
    /\ memory d3 = memory d1 /\ sent 0 (trace s3') = out ++ fw /\ DFU_State d3 = dfuIDLE.
Proof.
  intros a Hd Hm Hfit H1 (u2 & out2 & ps2 & H2 & R2 & W2) (u3 & ps3 & H3 & R3).
  destruct (download_run d s1 start fw Hd Hm H1 Hfit) as (d1 & s1' & E1 & F1 & P1 & Rd & Hd1 & Pg1).
  destruct Hfit as ([n Hl] & Hn & Hs0 & Hn16 & _ & Ha & Ha0 & Heb & Hbf). pose proof (Z.le_trans _ _ _ Heb Hbf) as He.
  destruct (page_end_bounds (a + Z.of_nat (length fw))) as [Pe _].
  destruct Hd1 as (I1 & X1 & L1).
  destruct (display_run d1 s2 u2 out2 ps2 start (start + Z.of_nat (length fw) - 1)) as
    (d2 & s2' & E2 & St2 & D2 & A2 & B2 & Pg2 & M2); try done; try (unfold is_u; lia).
  destruct (upload_run d2 s3 u3 out ps3 n) as (d3 & s3' & E3 & O3 & St3 & M3); try done.
  - unfold bytes_remaining. rewrite A2, B2, wrap_id; unfold is_u; lia.
  - by rewrite M2.
  - unfold flash_address. by rewrite A2, Pg2, Pg1.
  - unfold flash_address. rewrite A2, Pg2, Pg1. fold a. lia.
  - exists d1, d2, d3, s1', s2', s3'. split_and!; try done; [by rewrite M3|].
    rewrite O3, M2. unfold flash_address. rewrite A2, Pg2, Pg1. fold a.
    replace (2 * Z.of_nat n) with (Z.of_nat (length fw)) by lia. f_equal. by eapply firmware_bytes; [| |lia].
Qed.

(** Discarding filler bytes across a packet boundary discards one byte too few.  When the
    packet in the bank is used up, DiscardFillerBytes spends one of its [n + 1] rounds on
    fetching the next packet and takes only [n] bytes from it: the last alignment byte before the
    firmware is left in the endpoint and is taken for its first byte. *)
Theorem filler_byte_left n d s p ps out u : sees s ([] :: p :: ps) 0 out u ->
  (n <= length p < 256)%nat -> (n < 255)%nat ->
  exists s', DiscardFillerBytes (Z.of_nat (S n)) d s = Some ((Some tt, d), s') /\ sees s' (drop n p :: ps) 0 out u.
Proof.
  intros H Hl Hn. unfold DiscardFillerBytes. rewrite wrap_id, Nat2Z.id by (unfold is_u; lia).
  destruct (wp_discard_next fuel_pos n d s p ps out u H Hl) as (r & d' & s' & E & [] & -> & -> & H').
  exists s'. split; [|done]. by apply call_run in E.
Qed.
End Download.
