(* ===== verification/DfuExamples.v ===== *)
(** * DfuExamples: the bootloader on a concrete part

    The control endpoint with a queue of packets ([host_hardware]), the 1 KB part of [Nvm.v] with
    its boot section at 512, and the theorems on the bootloader applied to concrete requests. *)
From S2P Require Import Prelude Machine Logic Endpoint EndpointStream UsbController DeviceRequests.
From S2P Require Import Cdc Locc Interrupts Descriptors Firmware Selection.
From S2P Require Import Nvm Dfu DfuSecure DfuProgram DfuHost DfuDownload.
Import Endpoint Dfu.

(** ** The part *)

Record host := HostState { h_packets : list (list Z); h_filled : nat }.

Definition host_read (r : reg) (ep : Z) (h : host) : Z * host :=
  match r with
  | UEBCLX => (Z.of_nat (length (hd [] (h_packets h)) + h_filled h), h)
  | UEINTX => ((if bool_decide (h_packets h <> []) then bit RXOUTI else 0) .| bit TXINI, h)
  | UEDATX => match h_packets h with
              | (b :: p) :: ps => (b, HostState (p :: ps) (h_filled h))
              | _ => (0, h)
              end
  | _ => (0, h)
  end.

Definition host_write (r : reg) (ep v : Z) (h : host) : host :=
  match r with
  | UEINTX => HostState (if Z.testbit v RXOUTI then h_packets h else tail (h_packets h))
                (if Z.testbit v TXINI then h_filled h else 0%nat)
  | UEDATX => HostState (h_packets h) (S (h_filled h))
  | _ => h
  end.

Definition host_hardware : Hardware := {|
  hw_state := host;
  hw_read := host_read;
  hw_write := host_write;
  hw_irq := fun h => (None, h);
  boot_signature_byte_get := fun _ => 0x5A;
  word_after_openTelegram := 0x01 |}.

#[export] Instance host_control : @ControlHost host_hardware.
Proof.
  refine {| packets := fun (h : @hw_state host_hardware) => h_packets h;
            filled := fun (h : @hw_state host_hardware) => h_filled h |}; try (intros; by split).
  - intros h Hl. split; [|done]. apply wrap_id. unfold is_u. change (2 ^ 8) with 256. lia.
  - intros h. cbn. split_and!; [|by case_bool_decide|done|done]. by case_bool_decide.
  - intros h b p ps E. cbn. by rewrite E.
Defined.

Definition config (secure : bool) : @DfuConfig host_hardware :=
  @Build_DfuConfig host_hardware secure 512 [0x1E; 0x93; 0x89] (fun _ _ => 0) (fun _ _ => 0).

#[local] Instance one_round : Fuel := 4%nat.

(** Flash with 0x11 everywhere, EEPROM with 0x22. *)
Definition used_chip : @nvm chip := Chip (fun _ => 0x11) (fun _ => None) (fun _ => 0x22) true.

(** A request on its way, with the packets of the host. *)
Definition request (bm b len : Z) (ps : list (list Z)) : @mcu host_hardware :=
  @Mcu host_hardware (HostState ps 0) (fun _ => 0)
    (UsbGlobals true (USB_Request_Header bm b 0 0 len) DEVICE_STATE_Configured 1 false false)
    script_port (LoccGlobals 0 SLEEP 0) app_init (fun _ => 0) [].

(** The requests of the host. *)
Definition dnload_request (len : Z) (ps : list (list Z)) := request 0x21 DFU_REQ_DNLOAD len ps.
Definition upload_data : @mcu host_hardware := request 0xA1 DFU_REQ_UPLOAD 64 [[]].
Definition fw4 : list Z := [1; 2; 3; 4].
Definition download4 := dnload_request 52
  [prog_packet 32 35 (replicate 26%nat 0); fw4 ++ replicate 16%nat 0].

#[local] Abbreviation start_state secure m := (@dfu_reset host_hardware chip (config secure) 0 m).
#[local] Abbreviation run secure := (@handle host_hardware no_preempt one_round chip (config secure)).

Lemma firmware_roundtrip_witness :
  exists d1 d2 d3 s1' s2' s3',
    run false (start_state false used_chip) download4 = Some (d1, s1')
    /\ run false d1 (dnload_request 6 [disp_packet 32 35]) = Some (d2, s2')
    /\ run false d2 upload_data = Some (d3, s3')
    /\ @firmware_at chip chip_laws 32 fw4 used_chip (memory d1)
    /\ (forall x, @eeprom chip chip_laws (memory d1) x = 0x22)
    /\ memory d3 = memory d1 /\ sent 0 (trace s3') = fw4 /\ DFU_State d3 = dfuIDLE.
Proof.
  apply (@firmware_roundtrip host_hardware host_control one_round ltac:(unfold fuel, one_round; lia) chip (config false) chip_laws
    ltac:(cbn; lia) (start_state false used_chip) download4 (dnload_request 6 [disp_packet 32 35]) upload_data 32 fw4 []).
  - by vm_compute.
  - done.
  - split_and!; cbn; try lia; try done. by exists 2%nat.
  - eexists _, [], (replicate 26%nat 0), [fw4 ++ replicate 16%nat 0], (replicate 16%nat 0).
    split_and!; try done.
    + constructor; [|constructor]. split; [|done]. split; [by exists 10%nat|cbn; lia].
    + by apply bytes_u8.
  - by eexists _, [], [].
  - by eexists _, [].
Defined.

(** ** Secure mode: a refused download, the chip erase, and the read that is allowed then *)

Definition erase_request := dnload_request 6 [[COMMAND_WRITE; 0x00; 0xFF; 0; 0; 0]].

(** The machine and the statics after a request. *)
Definition after (d : @dfu chip) (s : @mcu host_hardware) : @dfu chip * @mcu host_hardware :=
  default (d, s) (run true d s).
Definition secure_0 := start_state true used_chip.
Definition secure_1 := after secure_0 download4.
Definition secure_2 := after secure_1.1 erase_request.
Definition secure_log := [(download4, secure_1.2); (erase_request, secure_2.2)].

#[local] Abbreviation serves := (@session host_hardware no_preempt one_round chip (config true)).

Lemma after_run d s : bool_decide (is_Some (run true d s)) = true -> run true d s = Some ((after d s).1, (after d s).2).
Proof. unfold after. destruct (run true d s) as [[]|]; [done|]. by intros [? [=]]%bool_decide_eq_true. Qed.

Lemma secure_session : serves secure_0 secure_log secure_2.1.
Proof.
  apply (session_cons _ _ _ secure_1.1); [apply after_run; vm_compute; reflexivity|].
  apply (session_cons _ _ _ secure_2.1); [apply after_run; vm_compute; reflexivity|]. constructor.
Qed.

Lemma secure_mode_protects_witness :
  serves secure_0 secure_log secure_2.1
  /\ ((IsSecure secure_2.1 = true /\ memory secure_2.1 = used_chip
       /\ forall m2, serves (start_state true m2) secure_log (set_memory m2 secure_2.1))
      \/ exists l1 l2 d1, secure_log = l1 ++ l2 /\ IsSecure d1 = false
         /\ serves secure_0 l1 d1 /\ serves d1 l2 secure_2.1
         /\ (forall m2, serves (start_state true m2) l1
               (set_memory (@erased host_hardware chip (config true) m2) d1))
         /\ (forall x, 0 <= x < 512 -> @flash chip chip_laws (memory d1) x = 0xFF)
         /\ (forall x, 512 <= x <= 1023 -> @flash chip chip_laws (memory d1) x = @flash chip chip_laws used_chip x)
         /\ (forall x, @eeprom chip chip_laws (memory d1) x = @eeprom chip chip_laws used_chip x)).
Proof.
  split; [exact secure_session|].
  apply (@secure_mode_protects host_hardware no_preempt one_round chip (config true) chip_laws
    ltac:(cbn; lia) eq_refl ltac:(cbn; lia) 0 used_chip secure_log secure_2.1 eq_refl (fun _ => eq_refl) secure_session).
Defined.

(** In that session the download is refused and the erase accepted. *)
Example secure_session_result :
  (DFU_State secure_1.1, DFU_Status secure_1.1, IsSecure secure_1.1) = (dfuERROR, errWRITE, true)
  /\ IsSecure secure_2.1 = false
  /\ (pgm_read_byte 0 (memory secure_1.1), pgm_read_byte 0 (memory secure_2.1)) = (0x11, 0xFF).
Proof. by vm_compute. Qed.

(** ** Blank check *)

Definition checking : @dfu chip :=
  set_SentCommand (DFU_Command COMMAND_DISP_DATA [0x01; 0; 0; 0; 0] 0)
    (start_state false (Chip (fun x => if x =? 300 then 0x11 else 0xFF) (fun _ => None) (fun _ => 0x22) true)).

Lemma blank_check_exact_witness :
  exists d', @ProcessMemReadCommand host_hardware chip (config false) checking upload_data = Some ((Some tt, d'), upload_data)
    /\ memory d' = memory checking
    /\ (((forall x, 0 <= x < 512 -> @flash chip chip_laws (memory checking) x = 0xFF) /\ d' = checking)
        \/ (@first_used host_hardware chip (config false) chip_laws (memory checking) 0
              (StartAddr d' + 2 ^ 16 * Flash64KBPage d')
            /\ DFU_State d' = dfuERROR /\ DFU_Status d' = errCHECK_ERASED)).
Proof.
  apply (@blank_check_exact host_hardware chip (config false) chip_laws ltac:(cbn; lia) ltac:(cbn; lia)
    checking upload_data eq_refl eq_refl).
Defined.

(** ** Alignment bytes *)

Definition boundary := dnload_request 64 [[]; [0xE0; 0xE1; 0xE2; 0xE3]].

Lemma filler_byte_left_witness :
  exists s', @DiscardFillerBytes host_hardware no_preempt one_round chip 3 (start_state false used_chip) boundary
      = Some ((Some tt, start_state false used_chip), s')
    /\ sees s' [[0xE2; 0xE3]] 0 [] (usb boundary).
Proof.
  apply (@filler_byte_left host_hardware host_control one_round ltac:(unfold fuel, one_round; lia) chip
    2 (start_state false used_chip) boundary [0xE0; 0xE1; 0xE2; 0xE3] [] [] (usb boundary)); [done|cbn; lia|lia].
Defined.

(** Firmware [1; 2; 3; 4] for address 16, behind 16 alignment bytes 0xEE: the flash gets
    [0xEE; 1; 2; 3]. *)
Definition download_unaligned := dnload_request 68
  [prog_packet 16 19 (replicate 26%nat 0); replicate 16%nat 0xEE ++ fw4 ++ replicate 12%nat 0; replicate 4%nat 0].

Example alignment_byte_programmed :
  (fun '(d, _) => (fun x => pgm_read_byte x (memory d)) <$> [16; 17; 18; 19])
    <$> run false (start_state false used_chip) download_unaligned = Some [0xEE; 1; 2; 3].
Proof. by vm_compute. Qed.
