(* ===== verification/IntelHex.v ===== *)
(** * IntelHex: the Intel hex reader of the HID bootloader's loader
    ([Bootloaders/HID/HostLoaderApp/hid_bootloader_cli.c])

    The loader runs on the host: it reads the firmware from an Intel hex file into an image of
    64 KB, and hands the image out block by block.  Characters are their codes.  [int] is 32 bits
    wide; the line buffer is kept whole, with what earlier lines left behind the terminator,
    because the parser can run past it.  [None] is a store outside the image. *)
From S2P Require Import Prelude.

Module IntelHex.

Definition MAX_MEMORY_SIZE := 0x10000.

(** The statics of the reader.  The images and the 32-bit address keep their widths where they
    are computed; [byte_count], an [int] on the host, is counted without a bound: it overflows,
    which C leaves undefined, only behind 2^31 bytes of data records. *)
Record hex_state := HexState {
  firmware_image : Z -> Z;
  firmware_mask : Z -> Z;
  end_record_seen : bool;
  byte_count : Z;
  extended_addr : Z }.

(** ** [sscanf] with ["%0Nx"]

    White space is skipped; then at most [N] characters: a sign, the prefix 0x, hexadecimal
    digits. *)

Inductive scan := Scanned (v : Z) | NoMatch | Eof.

Definition isspace (c : Z) : bool := (c =? 32) || ((9 <=? c) && (c <=? 13)).

Definition xdigit (c : Z) : option Z :=
  if (ch "0" <=? c) && (c <=? ch "9") then Some (c - ch "0")
  else if (ch "A" <=? c) && (c <=? ch "F") then Some (c - ch "A" + 10)
  else if (ch "a" <=? c) && (c <=? ch "f") then Some (c - ch "a" + 10)
  else None.

Fixpoint skip_space (s : list Z) : list Z :=
  match s with c :: s' => if isspace c then skip_space s' else s | [] => [] end.

(** Up to [n] digits, and whether there was one. *)
Fixpoint xdigits (n : nat) (s : list Z) (acc : option Z) : option Z :=
  match n, s with
  | S n', c :: s' =>
      match xdigit c with
      | Some v => xdigits n' s' (Some (default 0 acc * 16 + v))
      | None => acc
      end
  | _, _ => acc
  end.

(** The prefix is taken when there is room for it. *)
Definition scan_unsigned (n : nat) (s : list Z) : option Z :=
  match n, s with
  | S (S n'), c :: x :: s' =>
      if (c =? ch "0") && ((x =? ch "x") || (x =? ch "X")) then xdigits n' s' None
      else xdigits n s None
  | _, _ => xdigits n s None
  end.

Definition scan_hex (n : nat) (s : list Z) : scan :=
  match skip_space s with
  | [] => Eof
  | c :: s' =>
      let r := if (c =? ch "+") || (c =? ch "-") then scan_unsigned (n - 1) s'
               else scan_unsigned n (c :: s') in
      match r with
      | Some v => Scanned (signed 32 (if c =? ch "-" then - v else v))
      | None => NoMatch
      end
  end.

(** ** [parse_hex_line] *)

(** The string at offset [i] of a buffer, and [strlen]. *)
Fixpoint until_nul (s : list Z) : list Z :=
  match s with c :: s' => if c =? 0 then [] else c :: until_nul s' | [] => [] end.
Definition cstring (buf : list Z) (i : nat) : list Z := until_nul (drop i buf).
Definition strlen (buf : list Z) : Z := Z.of_nat (length (cstring buf 0)).

(** What the locals hold before they are assigned; [sscanf] leaves them alone at the end of the
    string, where it returns [EOF], which [!sscanf(...)] does not catch. *)
Class Locals := { junk_len : Z; junk_addr : Z; junk_code : Z; junk_i : Z; junk_cksum : Z }.

Section Reader.
Context {LO : Locals}.

(** [if (!sscanf(ptr, "%0Nx", &v)) ...]: [None] when the branch is taken. *)
Definition scan_or (junk : Z) (n : nat) (s : list Z) : option Z :=
  match scan_hex n s with Scanned v => Some v | Eof => Some junk | NoMatch => None end.

Definition checksum_bad (sum cksum : Z) : bool := truth (((sum .& 255) + (cksum .& 255)) .& 255).

Definition set_extended_addr (a : Z) (st : hex_state) : hex_state :=
  HexState (firmware_image st) (firmware_mask st) (end_record_seen st) (byte_count st) a.
Definition set_end_record_seen (st : hex_state) : hex_state :=
  HexState (firmware_image st) (firmware_mask st) true (byte_count st) (extended_addr st).
Definition add_byte_count (n : Z) (st : hex_state) : hex_state :=
  HexState (firmware_image st) (firmware_mask st) (end_record_seen st) (byte_count st + n) (extended_addr st).
Definition set_byte (a v : Z) (st : hex_state) : hex_state :=
  HexState (fun x => if x =? a then v else firmware_image st x)
    (fun x => if x =? a then 1 else firmware_mask st x)
    (end_record_seen st) (byte_count st) (extended_addr st).

(** An extended address record: the base of the records that follow, if its checksum is right. *)
Definition extended_record (buf : list Z) (ptr : nat) (sum shift : Z) (st : hex_state) : hex_state :=
  match scan_or junk_i 4 (cstring buf ptr) with
  | None => st
  | Some i =>
      let sum := sum + ((i .>> 8) .& 255) + (i .& 255) in
      match scan_or junk_cksum 2 (cstring buf (ptr + 4)) with
      | None => st
      | Some cksum => if checksum_bad sum cksum then st else set_extended_addr (u32 (i .<< shift)) st
      end
  end.

(** The [while] loop over the data from byte [num] on, and the checksum behind it; it is left
    after 256 bytes at the latest. *)
Fixpoint data_bytes (n : nat) (buf : list Z) (ptr : nat) (addr len num sum : Z) (st : hex_state)
    : option (bool * hex_state) :=
  if num =? len then
    match scan_or junk_cksum 2 (cstring buf ptr) with
    | None => Some (false, st)
    | Some cksum => Some (negb (checksum_bad sum cksum), st)
    end
  else
    match n with
    | O => Some (false, st)
    | S n' =>
        match scan_hex 2 (cstring buf ptr) with
        | Scanned i =>
            let i := i .& 255 in
            let a := u32 (addr + extended_addr st + num) in
            if MAX_MEMORY_SIZE <=? a then None
            else
              let st := set_byte a i st in
              let num := num + 1 in
              if 256 <=? num then Some (false, st)
              else data_bytes n' buf (ptr + 2) addr len num (sum + i) st
        | _ => Some (false, st)
        end
    end.

(** Behind the fields of the header. *)
Definition parse_record (buf : list Z) (len addr code : Z) (st : hex_state) : option (bool * hex_state) :=
  if MAX_MEMORY_SIZE <=? u32 (addr + extended_addr st + len) then Some (false, st)
  else
    let sum := (len .& 255) + ((addr .>> 8) .& 255) + (addr .& 255) + (code .& 255) in
    if negb (code =? 0) then
      if code =? 1 then Some (true, set_end_record_seen st)
      else if (code =? 2) && (len =? 2) then Some (true, extended_record buf 9 sum 4 st)
      else if (code =? 4) && (len =? 2) then Some (true, extended_record buf 9 sum 16 st)
      else Some (true, st)
    else data_bytes 256 buf 9 addr len 0 sum (add_byte_count len st).

Definition parse_hex_line (buf : list Z) (st : hex_state) : option (bool * hex_state) :=
  if negb (nth 0 buf 0 =? ch ":") then Some (false, st)
  else if strlen buf <? 11 then Some (false, st)
  else
    match scan_or junk_len 2 (cstring buf 1) with
    | None => Some (false, st)
    | Some len =>
        if strlen buf <? 11 + len * 2 then Some (false, st)
        else
          match scan_or junk_addr 4 (cstring buf 3) with
          | None => Some (false, st)
          | Some addr =>
              match scan_or junk_code 2 (cstring buf 7) with
              | None => Some (false, st)
              | Some code => parse_record buf len addr code st
              end
          end
    end.

(** ** [read_intel_hex] *)

(** [fgets] with a buffer of [S n] bytes: the line read, and the rest of the file. *)
Fixpoint fgets (n : nat) (file : list Z) : list Z * list Z :=
  match n, file with
  | S n', c :: file' =>
      if c =? 10 then ([c], file') else let '(l, r) := fgets n' file' in (c :: l, r)
  | _, _ => ([], file)
  end.

(** The buffer with a new line in front. *)
Definition put_line (l buf : list Z) : list Z := l ++ 0 :: drop (S (length l)) buf.

Definition hex_reset : hex_state := HexState (fun _ => 0xFF) (fun _ => 0) false 0 0.

(** The [while] loop: the result of the function and the statics.  A file that is read to its
    end leaves the loop by [feof] or by [fgets]; the standard input is not read, so the test on
    it never ends the loop. *)
Fixpoint read_lines (n : nat) (file buf : list Z) (st : hex_state) : option (Z * hex_state) :=
  match n, file with
  | _, [] => Some (byte_count st, st)
  | O, _ => None
  | S n', _ =>
      let '(l, file) := fgets 1023 file in
      let buf := put_line l buf in
      if nth 0 buf 0 =? 0 then
        if end_record_seen st then Some (byte_count st, st) else read_lines n' file buf st
      else
        match parse_hex_line buf st with
        | None => None
        | Some (false, st) => Some (-2, st)
        | Some (true, st) =>
            if end_record_seen st then Some (byte_count st, st) else read_lines n' file buf st
        end
  end.

(** [file]: the contents, or [None] when the file cannot be opened; [buf]: what the line buffer
    holds at the start. *)
Definition read_intel_hex (file : option (list Z)) (buf : list Z) : option (Z * hex_state) :=
  match file with
  | None => Some (-1, hex_reset)
  | Some file => read_lines (length file) file buf hex_reset
  end.

(** ** Access to the image *)

Definition ihex_bytes_within_range (st : hex_state) (begin_ end_ : Z) : bool :=
  if (begin_ <? 0) || (MAX_MEMORY_SIZE <=? begin_) || (end_ <? 0) || (MAX_MEMORY_SIZE <=? end_) then false
  else existsb (fun i => truth (firmware_mask st i)) (seqZ begin_ (end_ - begin_ + 1)).

Definition ihex_get_data (st : hex_state) (addr len : Z) : list Z :=
  if (addr <? 0) || (len <? 0) || (MAX_MEMORY_SIZE <=? addr + len) then replicate (Z.to_nat len) 255
  else (fun a => if truth (firmware_mask st a) then firmware_image st a else 255) <$> seqZ addr len.
End Reader.
End IntelHex.
