(* ===== verification/HexFiles.v ===== *)
(** * HexFiles: what the loader reads from an Intel hex file

    A printer for Intel hex records and the image a sequence of records describes; the reader of
    [IntelHex.v] recovers the image from the printed file, refuses damaged records, and writes
    outside its image when an address wraps around. *)
From S2P Require Import Prelude IntelHex.
Import IntelHex.

(** ** Printing *)

Definition hexc (d : Z) : Z := if d <? 10 then ch "0" + d else ch "A" + (d - 10).
Definition hex2 (b : Z) : list Z := [hexc (b / 16); hexc (b mod 16)].

Fixpoint sum_of (bs : list Z) : Z := match bs with [] => 0 | b :: bs' => b + sum_of bs' end.

(** A line: its fields, data and checksum byte. *)
Definition hex_line (addr code : Z) (bs : list Z) (ck : Z) : list Z :=
  [ch ":"] ++ hex2 (Z.of_nat (length bs)) ++ hex2 (addr / 256) ++ hex2 (addr mod 256) ++ hex2 code
  ++ concat (hex2 <$> bs) ++ hex2 ck ++ [10].

(** The sum of all bytes of a line in front of the checksum. *)
Definition line_sum (addr code : Z) (bs : list Z) : Z :=
  Z.of_nat (length bs) + addr / 256 + addr mod 256 + code + sum_of bs.

Inductive hex_record := DataRecord (addr : Z) (bs : list Z) | SegmentRecord (i : Z) | LinearRecord (i : Z).

Definition checked_line (addr code : Z) (bs : list Z) : list Z :=
  hex_line addr code bs (u8 (- line_sum addr code bs)).

Definition print_record (r : hex_record) : list Z :=
  match r with
  | DataRecord addr bs => checked_line addr 0 bs
  | SegmentRecord i => checked_line 0 2 [i / 256; i mod 256]
  | LinearRecord i => checked_line 0 4 [i / 256; i mod 256]
  end.
Definition print_file (rs : list hex_record) : list Z :=
  concat (print_record <$> rs) ++ checked_line 0 1 [].

(** ** What the records describe *)

(** The base address behind a record. *)
Definition next_base (base : Z) (r : hex_record) : Z :=
  match r with DataRecord _ _ => base | SegmentRecord i => 16 * i | LinearRecord i => 65536 * i end.

(** Records inside the 64 KB the reader keeps; the end of the last one is not usable. *)
Definition record_ok (base : Z) (r : hex_record) : Prop :=
  match r with
  | DataRecord addr bs => is_u16 addr /\ (length bs < 256)%nat /\ Forall is_u8 bs
      /\ base + addr + Z.of_nat (length bs) < MAX_MEMORY_SIZE
  | SegmentRecord i | LinearRecord i => is_u16 i /\ base + 2 < MAX_MEMORY_SIZE
  end.
Fixpoint records_ok (base : Z) (rs : list hex_record) : Prop :=
  match rs with
  | [] => 0 <= base < MAX_MEMORY_SIZE
  | r :: rs' => 0 <= base /\ record_ok base r /\ records_ok (next_base base r) rs'
  end.

(** The byte at [x], if there is one: the last record that has it wins. *)
Fixpoint image_of (base : Z) (rs : list hex_record) (x : Z) : option Z :=
  match rs with
  | [] => None
  | r :: rs' =>
      match image_of (next_base base r) rs' x with
      | Some b => Some b
      | None =>
          match r with
          | DataRecord addr bs =>
              if base + addr <=? x then bs !! Z.to_nat (x - (base + addr)) else None
          | _ => None
          end
      end
  end.
Fixpoint data_size (rs : list hex_record) : Z :=
  match rs with
  | [] => 0
  | DataRecord _ bs :: rs' => Z.of_nat (length bs) + data_size rs'
  | _ :: rs' => data_size rs'
  end.

(** Bytes of a description, below the top of the image. *)
Lemma image_range rs base x b : records_ok base rs -> image_of base rs x = Some b -> is_u8 b /\ 0 <= x < MAX_MEMORY_SIZE.
Proof.
  revert base. induction rs as [|r rs IH]; intros base Hr E; [done|]. destruct Hr as (H0 & Hr & Hrs). cbn [image_of] in E.
  destruct (image_of (next_base base r) rs x) as [b'|] eqn:E'; [injection E as ->; by eapply IH|].
  destruct r as [addr bs|i|i]; [|done|done]. destruct Hr as (Ha & _ & Hb & Hm). unfold is_u in Ha.
  destruct (Z.leb_spec (base + addr) x) as [Hx|]; [|done].
  split; [by eapply Forall_lookup_1|]. apply lookup_lt_Some in E. lia.
Qed.

(** ** Digits *)

Definition digit_ok (d : Z) : bool :=
  negb (isspace (hexc d)) && negb (hexc d =? ch "+") && negb (hexc d =? ch "-")
  && negb (hexc d =? ch "x") && negb (hexc d =? ch "X") && negb (hexc d =? 0) && negb (hexc d =? 10)
  && bool_decide (xdigit (hexc d) = Some d).

Lemma hexc_ok d : 0 <= d < 16 -> digit_ok d = true.
Proof. apply (forall_range 16). by vm_compute. Qed.

Lemma hexc_spec d : 0 <= d < 16 -> isspace (hexc d) = false /\ hexc d <> ch "+" /\ hexc d <> ch "-"
  /\ hexc d <> ch "x" /\ hexc d <> ch "X" /\ hexc d <> 0 /\ hexc d <> 10 /\ xdigit (hexc d) = Some d.
Proof.
  intros H%hexc_ok. unfold digit_ok in H. rewrite !andb_true_iff, !negb_true_iff, !Z.eqb_neq, bool_decide_eq_true in H. tauto.
Qed.

Lemma nibbles b : is_u8 b -> 0 <= b / 16 < 16 /\ 0 <= b mod 16 < 16 /\ b = b / 16 * 16 + b mod 16.
Proof. unfold is_u. change (2 ^ 8) with 256. intros. zmod. Qed.

(** Digits of which at least one is there. *)
Lemma scan_digits n d s : 0 <= d < 16 -> (forall e t, s = e :: t -> e <> ch "x" /\ e <> ch "X") ->
  scan_hex (S n) (hexc d :: s) =
  Scanned (signed 32 (default 0 (xdigits n s (Some d)))).
Proof.
  intros Hd Hs. destruct (hexc_spec d Hd) as (Sp & P & M & _ & _ & _ & _ & X).
  unfold scan_hex. cbn [skip_space]. rewrite Sp, (proj2 (Z.eqb_neq _ _) P), (proj2 (Z.eqb_neq _ _) M). cbn [orb].
  assert (scan_unsigned (S n) (hexc d :: s) = xdigits n s (Some d)) as ->.
  { unfold scan_unsigned. cbn [xdigits]. rewrite X. cbn [default]. destruct n as [|n], s as [|e t]; try done.
    destruct (Hs e t eq_refl) as [H1 H2].
    rewrite (proj2 (Z.eqb_neq _ _) H1), (proj2 (Z.eqb_neq _ _) H2), andb_false_r. done. }
  assert (forall k t a, exists v, xdigits k t (Some a) = Some v) as T.
  { intros k. induction k as [|k IH]; intros t a; [eauto|]. destruct t as [|c t]; cbn; [eauto|].
    destruct (xdigit c); eauto. }
  destruct (T n s d) as [v ->]. done.
Qed.

Lemma not_x d t : 0 <= d < 16 -> forall e u, hexc d :: t = e :: u -> e <> ch "x" /\ e <> ch "X".
Proof. intros Hd e u [= <- _]. by destruct (hexc_spec d Hd) as (_ & _ & _ & ? & ? & _). Qed.

Lemma signed_32 v : 0 <= v < 2 ^ 16 -> signed 32 v = v.
Proof. intros. apply signed_small; [done|]. change (2 ^ (32 - 1)) with 2147483648. lia. Qed.

Lemma scan_2 b t : is_u8 b -> scan_hex 2 (hex2 b ++ t) = Scanned b.
Proof.
  intros Hb. destruct (nibbles b Hb) as (H1 & H2 & E). unfold hex2. cbn [Datatypes.app].
  rewrite scan_digits by (done || by apply not_x). cbn [xdigits].
  destruct (hexc_spec _ H2) as (_ & _ & _ & _ & _ & _ & _ & ->). cbn [from_option default id].
  rewrite <- E, signed_32; [done|]. unfold is_u in Hb. lia.
Qed.

Lemma scan_4 h l t : is_u8 h -> is_u8 l -> scan_hex 4 (hex2 h ++ hex2 l ++ t) = Scanned (256 * h + l).
Proof.
  intros Hh Hl. destruct (nibbles h Hh) as (H1 & H2 & E). destruct (nibbles l Hl) as (H3 & H4 & E').
  unfold hex2. cbn [Datatypes.app]. rewrite scan_digits by (done || by apply not_x). cbn [xdigits].
  destruct (hexc_spec _ H2) as (_ & _ & _ & _ & _ & _ & _ & ->). destruct (hexc_spec _ H3) as (_ & _ & _ & _ & _ & _ & _ & ->).
  destruct (hexc_spec _ H4) as (_ & _ & _ & _ & _ & _ & _ & ->). cbn [from_option default id].
  unfold is_u in *. rewrite signed_32; [f_equal|]; lia.
Qed.

(** ** Lines in the buffer *)

(** Text without the terminator and the end of the line. *)
Definition plain_text (s : list Z) : Prop := Forall (fun c => c <> 0 /\ c <> 10) s.

Lemma plain_hex2 b : is_u8 b -> plain_text (hex2 b).
Proof.
  intros Hb. destruct (nibbles b Hb) as (H1 & H2 & _). unfold hex2.
  destruct (hexc_spec _ H1) as (_ & _ & _ & _ & _ & ? & ? & _). destruct (hexc_spec _ H2) as (_ & _ & _ & _ & _ & ? & ? & _).
  repeat constructor; done.
Qed.

Lemma plain_data bs : Forall is_u8 bs -> plain_text (concat (hex2 <$> bs)).
Proof.
  induction 1 as [|b bs Hb _ IH]; [constructor|]. apply Forall_app. split; [by apply plain_hex2|exact IH].
Qed.

Lemma until_nul_app s t : Forall (fun c => c <> 0) s -> until_nul (s ++ 0 :: t) = s.
Proof. induction 1 as [|c s Hc _ IH]; [done|]. cbn. by rewrite (proj2 (Z.eqb_neq _ _) Hc), IH. Qed.

(** The string at an offset inside the line. *)
Lemma cstring_line s1 s2 buf : Forall (fun c => c <> 0) s2 -> cstring (put_line (s1 ++ s2) buf) (length s1) = s2.
Proof.
  intros H. unfold cstring, put_line. rewrite <- app_assoc, drop_app_length. by apply until_nul_app.
Qed.

Lemma cstring_next buf ptr c1 c2 t : cstring buf ptr = c1 :: c2 :: t -> cstring buf (ptr + 2) = t.
Proof.
  unfold cstring. rewrite <- drop_drop. destruct (drop ptr buf) as [|a [|b l]]; cbn; [done| |].
  - by destruct (a =? 0).
  - destruct (a =? 0); [done|]. destruct (b =? 0); [done|]. intros [= _ _ <-]. by rewrite ?drop_0.
Qed.

Lemma fgets_line n s rest : plain_text s -> (length s < n)%nat -> fgets n (s ++ 10 :: rest) = (s ++ [10], rest).
Proof.
  intros H. revert n. induction H as [|c s [_ Hc] _ IH]; intros n Hn; (destruct n as [|n]; [cbn in Hn; lia|]); cbn; [done|].
  rewrite (proj2 (Z.eqb_neq _ _) Hc), IH by (cbn in Hn; lia). done.
Qed.

Lemma addr_u8 addr : is_u16 addr ->
  is_u8 (addr / 256) /\ is_u8 (addr mod 256) /\ addr = 256 * (addr / 256) + addr mod 256.
Proof. unfold is_u. change (2 ^ 8) with 256. change (2 ^ 16) with 65536. intros. zmod. Qed.

Lemma length_hex_data (l : list Z) : length (concat (hex2 <$> l)) = (2 * length l)%nat.
Proof. induction l as [|b l IH]; [done|]. cbn in *. lia. Qed.

(** ** A line of the printed form *)
Section Line.
Context {LO : Locals} (addr code ck : Z) (bs old : list Z).
Context (Ha : is_u16 addr) (Hc : is_u8 code) (Hk : is_u8 ck) (Hb : Forall is_u8 bs) (Hl : (length bs < 256)%nat).

Let len := Z.of_nat (length bs).
Let body := concat (hex2 <$> bs) ++ hex2 ck ++ [10].
Let buf := put_line (hex_line addr code bs ck) old.

Lemma len_u8 : is_u8 len.
Proof. unfold is_u, len. change (2 ^ 8) with 256. lia. Qed.

Lemma nonzero_body : Forall (fun c => c <> 0) body.
Proof.
  unfold body. rewrite !Forall_app. split_and!.
  - eapply Forall_impl; [|by apply plain_data]. cbn. tauto.
  - eapply Forall_impl; [|by apply plain_hex2]. cbn. tauto.
  - by constructor.
Qed.

(** The string at the fields. *)
Lemma line_at s1 s2 : hex_line addr code bs ck = s1 ++ s2 -> cstring buf (length s1) = s2.
Proof.
  intros E. unfold buf. rewrite E. apply cstring_line.
  assert (Forall (fun c => c <> 0) (s1 ++ s2)) as H%Forall_app; [|tauto]. rewrite <- E.
  destruct (addr_u8 addr Ha) as (A1 & A2 & _). unfold hex_line. fold body.
  assert (forall b, is_u8 b -> Forall (fun c => c <> 0) (hex2 b)) as N.
  { intros b B. eapply Forall_impl; [|by apply plain_hex2]. cbn. tauto. }
  pose proof len_u8. pose proof nonzero_body. rewrite !Forall_app. split_and!; try (by apply N); try done. by constructor.
Qed.

Lemma line_head : nth 0 buf 0 = ch ":" /\ strlen buf = 12 + 2 * len.
Proof.
  split; [done|]. unfold strlen.
  assert (cstring buf 0 = hex_line addr code bs ck) as -> by (by apply (line_at [])).
  unfold hex_line, len. rewrite !length_app, length_hex_data. cbn. lia.
Qed.

(** Up to the code the line is read as printed. *)
Lemma parse_line st : parse_hex_line buf st = parse_record buf len addr code st.
Proof.
  destruct line_head as [E1 E2]. destruct (addr_u8 addr Ha) as (A1 & A2 & A3). pose proof len_u8 as L.
  unfold parse_hex_line. rewrite E1, E2. cbn [negb]. rewrite Z.eqb_refl. cbn [negb].
  assert (0 <= len) by (unfold is_u in L; lia).
  rewrite (proj2 (Z.ltb_ge _ _)) by lia.
  assert (cstring buf 1 = hex2 len ++ hex2 (addr / 256) ++ hex2 (addr mod 256) ++ hex2 code ++ body) as C1
    by (by apply (line_at [ch ":"])).
  assert (cstring buf 3 = hex2 (addr / 256) ++ hex2 (addr mod 256) ++ hex2 code ++ body) as C3
    by (by apply (line_at ([ch ":"] ++ hex2 len))).
  assert (cstring buf 7 = hex2 code ++ body) as C7
    by (by apply (line_at ([ch ":"] ++ hex2 len ++ hex2 (addr / 256) ++ hex2 (addr mod 256)))).
  unfold scan_or. rewrite C1, scan_2 by done. rewrite (proj2 (Z.ltb_ge _ _)) by lia.
  rewrite C3, scan_4, C7, scan_2 by done. by rewrite <- A3.
Qed.

Lemma line_body : cstring buf 9 = body.
Proof. by apply (line_at ([ch ":"] ++ hex2 len ++ hex2 (addr / 256) ++ hex2 (addr mod 256) ++ hex2 code)). Qed.
End Line.

(** ** Records *)
Section Records.
Context {LO : Locals}.

Lemma land_255 x : x .& 255 = x mod 256.
Proof. change 255 with (Z.ones 8). by rewrite Z.land_ones. Qed.

Lemma checksum_spec sum ck : checksum_bad sum ck = negb (bool_decide ((sum + ck) mod 256 = 0)).
Proof.
  unfold checksum_bad, truth. rewrite !land_255, <- Z.add_mod by done. f_equal.
  destruct (Z.eqb_spec ((sum + ck) mod 256) 0) as [E|E]; [by rewrite bool_decide_true|by rewrite bool_decide_false].
Qed.

Lemma checksum_right sum : checksum_bad sum (u8 (- sum)) = false.
Proof.
  rewrite checksum_spec, bool_decide_true; [done|]. unfold wrap. change (2 ^ 8) with 256.
  rewrite Z.add_mod_idemp_r by done. by rewrite Z.add_opp_diag_r.
Qed.

Lemma checksum_unique sum ck : is_u8 ck -> (sum + ck) mod 256 = 0 -> u8 (- sum) = ck.
Proof. unfold is_u, wrap. change (2 ^ 8) with 256. intros. zmod. Qed.

Fixpoint stored (bs : list Z) (a : Z) (st : hex_state) : hex_state :=
  match bs with [] => st | b :: bs' => stored bs' (a + 1) (set_byte a b st) end.

Lemma stored_fields bs a st : extended_addr (stored bs a st) = extended_addr st
  /\ end_record_seen (stored bs a st) = end_record_seen st /\ byte_count (stored bs a st) = byte_count st.
Proof. revert a st. induction bs as [|b bs IH]; intros a st; [done|]. apply (IH (a + 1) (set_byte a b st)). Qed.

(** The byte at [x] once [bs] is stored at [a]. *)
Lemma stored_at bs a st x :
  (firmware_image (stored bs a st) x, firmware_mask (stored bs a st) x) =
  if a <=? x then match bs !! Z.to_nat (x - a) with
                  | Some b => (b, 1)
                  | None => (firmware_image st x, firmware_mask st x)
                  end
  else (firmware_image st x, firmware_mask st x).
Proof.
  revert a st. induction bs as [|b bs IH]; intros a st; cbn [stored]; [by destruct (a <=? x)|].
  rewrite IH. cbn [firmware_image firmware_mask set_byte].
  destruct (Z.leb_spec (a + 1) x) as [H1|H1], (Z.leb_spec a x) as [H2|H2]; try lia.
  - replace (Z.to_nat (x - a)) with (S (Z.to_nat (x - (a + 1)))) by lia. cbn.
    rewrite (proj2 (Z.eqb_neq x a)) by lia. done.
  - replace x with a by lia. by rewrite Z.sub_diag, Z.eqb_refl.
  - by rewrite (proj2 (Z.eqb_neq x a)) by lia.
Qed.

Lemma data_bytes_ok ck buf addr len n ptr bs num sum st : is_u8 ck -> Forall is_u8 bs ->
  cstring buf ptr = concat (hex2 <$> bs) ++ hex2 ck ++ [10] ->
  (length bs <= n)%nat -> num + Z.of_nat (length bs) = len -> 0 <= num -> len < 256 ->
  0 <= addr + extended_addr st -> addr + extended_addr st + len < MAX_MEMORY_SIZE ->
  data_bytes n buf ptr addr len num sum st =
  Some (negb (checksum_bad (sum + sum_of bs) ck), stored bs (addr + extended_addr st + num) st).
Proof.
  intros Hk. revert n ptr num sum st. induction bs as [|b bs IH]; intros n ptr num sum st Hb E Hn Hl H0 H256 Ha Hm.
  - cbn in Hl. change (cstring buf ptr = hex2 ck ++ [10]) in E.
    destruct n; cbn [data_bytes]; rewrite (proj2 (Z.eqb_eq num len)) by lia; unfold scan_or;
      rewrite E, (scan_2 ck [10]) by done; by rewrite Z.add_0_r.
  - apply Forall_cons_iff in Hb as [B Hb]. cbn [length] in *. destruct n as [|n]; [lia|]. cbn [data_bytes].
    rewrite (proj2 (Z.eqb_neq num len)) by lia. cbn [fmap list_fmap concat] in E. rewrite <- app_assoc in E.
    rewrite E, scan_2, land_ff by done. unfold MAX_MEMORY_SIZE in *.
    rewrite wrap_id by (unfold is_u; lia). rewrite (proj2 (Z.leb_gt _ _)) by lia.
    rewrite IH with (ptr := (ptr + 2)%nat); [|done|exact (cstring_next _ _ _ _ _ E)|lia|lia|lia|lia|done|cbn; lia].
    destruct (Z.leb_spec 256 (num + 1)) as [|_].
    + assert (bs = []) as -> by (destruct bs; [done|cbn [length] in *; lia]). cbn [length] in *; lia.
    + cbn [sum_of stored extended_addr set_byte]. by rewrite !Z.add_assoc.
Qed.

(** ** Lines by their code *)

Lemma header_sum len addr code : is_u8 len -> is_u16 addr -> is_u8 code ->
  (len .& 255) + ((addr .>> 8) .& 255) + (addr .& 255) + (code .& 255) = len + addr / 256 + addr mod 256 + code.
Proof.
  intros Hl Ha Hc. rewrite Z.shiftr_div_pow2, !land_255 by done. unfold is_u in *.
  change (2 ^ 8) with 256 in *. change (2 ^ 16) with 65536 in *. zmod.
Qed.

Lemma data_line addr bs ck st old : is_u16 addr -> is_u8 ck -> Forall is_u8 bs -> (length bs < 256)%nat ->
  0 <= extended_addr st -> extended_addr st + addr + Z.of_nat (length bs) < MAX_MEMORY_SIZE ->
  parse_hex_line (put_line (hex_line addr 0 bs ck) old) st =
  Some (negb (checksum_bad (line_sum addr 0 bs) ck),
        stored bs (extended_addr st + addr) (add_byte_count (Z.of_nat (length bs)) st)).
Proof.
  intros Ha Hk Hb Hl He Hm. rewrite parse_line by done. unfold parse_record.
  assert (0 <= addr) by (unfold is_u in Ha; lia).
  rewrite wrap_id by (unfold is_u, MAX_MEMORY_SIZE in *; lia). rewrite (proj2 (Z.leb_gt _ _)) by lia. cbn [Z.eqb negb].
  rewrite header_sum by (done || by apply len_u8).
  rewrite (data_bytes_ok ck) with (bs := bs); try done; try lia; cbn [extended_addr add_byte_count]; try lia.
  - unfold line_sum. by rewrite !Z.add_0_r, (Z.add_comm addr).
  - by apply line_body.
Qed.

Lemma end_line addr bs ck st old : is_u16 addr -> is_u8 ck -> Forall is_u8 bs -> (length bs < 256)%nat ->
  0 <= extended_addr st -> extended_addr st + addr + Z.of_nat (length bs) < MAX_MEMORY_SIZE ->
  parse_hex_line (put_line (hex_line addr 1 bs ck) old) st = Some (true, set_end_record_seen st).
Proof.
  intros Ha Hk Hb Hl He Hm. rewrite parse_line by done. unfold parse_record.
  assert (0 <= addr) by (unfold is_u in Ha; lia).
  rewrite wrap_id by (unfold is_u, MAX_MEMORY_SIZE in *; lia). by rewrite (proj2 (Z.leb_gt _ _)) by lia.
Qed.

(** Both kinds of extended address records. *)
Lemma extended_line code shift i st old : is_u16 i -> code = 2 /\ shift = 4 \/ code = 4 /\ shift = 16 ->
  0 <= extended_addr st -> extended_addr st + 2 < MAX_MEMORY_SIZE ->
  parse_hex_line (put_line (checked_line 0 code [i / 256; i mod 256]) old) st =
  Some (true, set_extended_addr (2 ^ shift * i) st).
Proof.
  intros Hi Hs He Hm. assert (is_u8 (i / 256) /\ is_u8 (i mod 256) /\ i = 256 * (i / 256) + i mod 256) as (I1 & I2 & I3)
    by (by apply addr_u8).
  assert (Forall is_u8 [i / 256; i mod 256]) as Hb by (by rewrite !Forall_cons_iff).
  assert (is_u8 code) as Hc by (by destruct Hs as [[-> _]|[-> _]]).
  unfold checked_line. set (ck := u8 _). assert (is_u8 ck) as Hk by (by apply wrap_is_u).
  rewrite parse_line by (done || cbn; lia). unfold parse_record. cbn [length].
  rewrite wrap_id by (unfold is_u, MAX_MEMORY_SIZE in *; lia). rewrite (proj2 (Z.leb_gt _ _)) by lia.
  rewrite header_sum by done.
  assert (extended_record (put_line (hex_line 0 code [i / 256; i mod 256] ck) old) 9
    (Z.of_nat 2 + 0 / 256 + 0 mod 256 + code) shift st = set_extended_addr (2 ^ shift * i) st) as E.
  { unfold extended_record, scan_or. rewrite line_body by (done || cbn; lia). cbn [fmap list_fmap concat].
    rewrite app_nil_r, <- app_assoc, scan_4 by done. rewrite <- I3.
    rewrite (cstring_next _ 11 (hexc (i mod 256 / 16)) (hexc (i mod 256 mod 16)) (hex2 ck ++ [10])).
    2: { apply (cstring_next _ 9 (hexc (i / 256 / 16)) (hexc (i / 256 mod 16))).
         by rewrite line_body by (done || cbn; lia). }
    rewrite scan_2 by done. rewrite Z.shiftr_div_pow2, !land_255 by done. change (2 ^ 8) with 256.
    rewrite (Z.mod_small (i / 256)) by done.
    assert (Z.of_nat 2 + 0 / 256 + 0 mod 256 + code + i / 256 + i mod 256 = line_sum 0 code [i / 256; i mod 256]) as ->
      by (unfold line_sum; cbn [length sum_of]; lia).
    unfold ck. rewrite checksum_right. f_equal. rewrite Z.shiftl_mul_pow2 by (destruct Hs as [[_ ->]|[_ ->]]; done).
    rewrite Z.mul_comm. apply wrap_id. unfold is_u in *. destruct Hs as [[_ ->]|[_ ->]];
      change (2 ^ 32) with 4294967296; change (2 ^ 16) with 65536 in *; change (2 ^ 4) with 16; lia. }
  by destruct Hs as [[-> ->]|[-> ->]]; cbn [Z.eqb Pos.eqb negb andb]; rewrite <- E.
Qed.

Lemma data_overflow n buf ptr addr len num sum st b t : num <> len -> cstring buf ptr = hex2 b ++ t -> is_u8 b ->
  MAX_MEMORY_SIZE <= u32 (addr + extended_addr st + num) -> data_bytes (S n) buf ptr addr len num sum st = None.
Proof.
  intros Hn E Hb Ha. cbn [data_bytes]. by rewrite (proj2 (Z.eqb_neq _ _) Hn), E, scan_2, (proj2 (Z.leb_le _ _) Ha) by done.
Qed.

Lemma wrap_over y : 4294967296 <= y < 4294967296 + MAX_MEMORY_SIZE -> u32 y < MAX_MEMORY_SIZE.
Proof. unfold wrap, MAX_MEMORY_SIZE. change (2 ^ 32) with 4294967296. intros. zmod. Qed.

(** A record that wraps around: the first byte goes to its address below 4 GB. *)
Lemma wrapped_record addr bs ck old st : is_u16 addr -> is_u8 ck -> Forall is_u8 bs -> (length bs < 256)%nat ->
  extended_addr st = 65536 * 0xFFFF -> 2 ^ 32 <= extended_addr st + addr + Z.of_nat (length bs) ->
  parse_record (put_line (hex_line addr 0 bs ck) old) (Z.of_nat (length bs)) addr 0 st = None.
Proof.
  intros Ha Hk Hb Hl He Hw. assert (0 <= addr < 65536) as Ha' by exact Ha.
  assert (4294967296 <= 65536 * 0xFFFF + addr + Z.of_nat (length bs)) as Hw' by (by rewrite <- He).
  unfold parse_record. rewrite He.
  assert (u32 (addr + 65536 * 0xFFFF + Z.of_nat (length bs)) < MAX_MEMORY_SIZE) as W.
  { apply wrap_over. unfold MAX_MEMORY_SIZE. lia. }
  rewrite (proj2 (Z.leb_gt _ _) W). cbn [Z.eqb negb]. destruct bs as [|b bs]; [cbn in Hw'; lia|].
  apply Forall_cons_iff in Hb as B. destruct B as [B _].
  apply (data_overflow 255) with (b := b) (t := concat (hex2 <$> bs) ++ hex2 ck ++ [10]); [cbn; lia| |done|].
  - rewrite line_body by done. cbn [fmap list_fmap concat]. by rewrite <- app_assoc.
  - cbn [extended_addr add_byte_count]. rewrite He, wrap_id by (unfold is_u; lia). unfold MAX_MEMORY_SIZE. lia.
Qed.
End Records.

(** ** Files *)
Section Files.
Context {LO : Locals}.

(** A line is taken off the file whole. *)
Lemma fgets_hex_line addr code bs ck rest : is_u16 addr -> is_u8 code -> is_u8 ck -> Forall is_u8 bs ->
  (length bs < 256)%nat -> fgets 1023 (hex_line addr code bs ck ++ rest) = (hex_line addr code bs ck, rest).
Proof.
  intros Ha Hc Hk Hb Hl. destruct (addr_u8 addr Ha) as (A1 & A2 & _).
  pose (text := [ch ":"] ++ hex2 (Z.of_nat (length bs)) ++ hex2 (addr / 256) ++ hex2 (addr mod 256) ++ hex2 code
    ++ concat (hex2 <$> bs) ++ hex2 ck).
  assert (hex_line addr code bs ck = text ++ [10]) as -> by (unfold text, hex_line; by rewrite <- !app_assoc).
  rewrite <- app_assoc. apply fgets_line.
  - unfold plain_text, text. rewrite !Forall_app. pose proof (len_u8 bs Hl).
    split_and!; try (by apply plain_hex2); [|by apply plain_data]. by constructor.
  - unfold text. rewrite !length_app, length_hex_data. cbn. lia.
Qed.

(** One round of the loop. *)
Lemma read_hex_line n addr code bs ck rest old st : is_u16 addr -> is_u8 code -> is_u8 ck -> Forall is_u8 bs ->
  (length bs < 256)%nat ->
  read_lines (S n) (hex_line addr code bs ck ++ rest) old st =
  match parse_hex_line (put_line (hex_line addr code bs ck) old) st with
  | None => None
  | Some (false, st) => Some (-2, st)
  | Some (true, st) =>
      if end_record_seen st then Some (byte_count st, st)
      else read_lines n rest (put_line (hex_line addr code bs ck) old) st
  end.
Proof.
  intros Ha Hc Hk Hb Hl.
  transitivity (let '(l, file) := fgets 1023 (hex_line addr code bs ck ++ rest) in
    match parse_hex_line (put_line l old) st with
    | None => None
    | Some (false, st) => Some (-2, st)
    | Some (true, st) => if end_record_seen st then Some (byte_count st, st) else read_lines n file (put_line l old) st
    end); [|by rewrite fgets_hex_line].
  cbn [read_lines]. destruct (hex_line addr code bs ck ++ rest) eqn:E; [done|]. rewrite <- E.
  by rewrite fgets_hex_line.
Qed.

(** What a sequence of records does to the statics. *)
Definition gained (base : Z) (rs : list hex_record) (st st' : hex_state) : Prop :=
  end_record_seen st' = false /\ extended_addr st' = foldl next_base base rs
  /\ 0 <= extended_addr st' < MAX_MEMORY_SIZE
  /\ byte_count st' = byte_count st + data_size rs
  /\ forall x, (firmware_image st' x, firmware_mask st' x) =
       match image_of base rs x with Some b => (b, 1) | None => (firmware_image st x, firmware_mask st x) end.

(** One record. *)
Lemma read_record n r rest old st : 0 <= extended_addr st -> record_ok (extended_addr st) r ->
  end_record_seen st = false ->
  exists old' st', read_lines (S n) (print_record r ++ rest) old st = read_lines n rest old' st'
    /\ end_record_seen st' = false /\ extended_addr st' = next_base (extended_addr st) r
    /\ byte_count st' = byte_count st + data_size [r]
    /\ forall x, (firmware_image st' x, firmware_mask st' x) =
         match image_of (extended_addr st) [r] x with Some b => (b, 1) | None => (firmware_image st x, firmware_mask st x) end.
Proof.
  intros H0 Hr Hend. destruct r as [addr bs|i|i]; cbn [print_record record_ok] in *; unfold checked_line.
  - destruct Hr as (Ha & Hl & Hb & Hm). rewrite read_hex_line, data_line by (done || by apply wrap_is_u).
    rewrite checksum_right. cbn [negb].
    destruct (stored_fields bs (extended_addr st + addr) (add_byte_count (Z.of_nat (length bs)) st)) as (E1 & E2 & E3).
    rewrite E2. cbn [end_record_seen add_byte_count]. rewrite Hend. eexists _, _. split; [done|].
    rewrite E1, E2, E3. cbn [data_size byte_count]. split_and!; try done; [cbn; lia|].
    intros x. rewrite stored_at. cbn. destruct (_ <=? x); [|done]. by destruct (bs !! _).
  - destruct Hr as [Hi Hm]. destruct (addr_u8 i Hi) as (I1 & I2 & _).
    rewrite read_hex_line by (done || by apply wrap_is_u || (by rewrite !Forall_cons_iff) || (cbn; lia)).
    pose proof (extended_line 2 4 i st old Hi ltac:(by left) H0 Hm) as E. unfold checked_line in E. rewrite E.
    cbn [end_record_seen set_extended_addr]. rewrite Hend. eexists _, _. split; [done|]. split_and!; try done. cbn; lia.
  - destruct Hr as [Hi Hm]. destruct (addr_u8 i Hi) as (I1 & I2 & _).
    rewrite read_hex_line by (done || by apply wrap_is_u || (by rewrite !Forall_cons_iff) || (cbn; lia)).
    pose proof (extended_line 4 16 i st old Hi ltac:(by right) H0 Hm) as E. unfold checked_line in E. rewrite E.
    cbn [end_record_seen set_extended_addr]. rewrite Hend. eexists _, _. split; [done|]. split_and!; try done. cbn; lia.
Qed.

Lemma read_records rs n rest old st : records_ok (extended_addr st) rs -> end_record_seen st = false ->
  (length rs <= n)%nat ->
  exists old' st', read_lines n (concat (print_record <$> rs) ++ rest) old st = read_lines (n - length rs) rest old' st'
    /\ gained (extended_addr st) rs st st'.
Proof.
  revert n old st. induction rs as [|r rs IH]; intros n old st Hr Hend Hn.
  { exists old, st. rewrite Nat.sub_0_r. split; [done|]. split_and!; try done; [apply Hr|apply Hr|cbn; lia]. }
  destruct Hr as (H0 & Hr & Hrs). destruct n as [|n]; [cbn in Hn; lia|]. cbn [fmap list_fmap concat]. rewrite <- app_assoc.
  destruct (read_record n r (concat (print_record <$> rs) ++ rest) old st H0 Hr Hend) as (old1 & st1 & E1 & Hend1 & B1 & C1 & I1).
  destruct (IH n old1 st1) as (old2 & st2 & E2 & Hend2 & F2 & B2 & C2 & I2); [by rewrite B1|done|cbn in Hn; lia|].
  exists old2, st2. rewrite E1, E2. split; [done|]. split_and!; try done; [by rewrite F2, B1|lia|lia| |].
  - rewrite C2, C1. destruct r; cbn; lia.
  - intros x. rewrite I2, B1. cbn [image_of]. destruct (image_of _ rs x); [done|]. rewrite I1. cbn. by destruct r.
Qed.

(** A line takes a character at least. *)
Lemma length_lines rs : (length rs <= length (concat (print_record <$> rs)))%nat.
Proof.
  induction rs as [|r rs IH]; [done|]. cbn [fmap list_fmap concat]. rewrite length_app. cbn [length].
  assert (1 <= length (print_record r))%nat by (by destruct r; cbn; lia). lia.
Qed.

(** The records of a file, up to whatever line is behind them. *)
Lemma read_file rs rest buf : records_ok 0 rs -> rest <> [] ->
  exists n old st, read_intel_hex (Some (concat (print_record <$> rs) ++ rest)) buf = read_lines (S n) rest old st
    /\ (length rest <= S n)%nat /\ gained 0 rs hex_reset st.
Proof.
  intros Hr Hrest. unfold read_intel_hex. rewrite length_app. set (n := (_ + _)%nat).
  assert (length rs + length rest <= n)%nat by (unfold n; pose proof (length_lines rs); lia).
  assert (1 <= length rest)%nat by (destruct rest; [done|cbn; lia]).
  destruct (read_records rs n rest buf hex_reset Hr eq_refl) as (old & st & E & G); [lia|].
  exists (n - length rs - 1)%nat, old, st. rewrite E. split; [f_equal; lia|split; [lia|done]].
Qed.

(** What is in the statics is what the records describe. *)
Definition image_is (st : hex_state) (rs : list hex_record) : Prop :=
  forall x, (firmware_image st x, firmware_mask st x) =
    match image_of 0 rs x with Some b => (b, 1) | None => (0xFF, 0) end.

Lemma read_printed rs buf : records_ok 0 rs ->
  exists st, read_intel_hex (Some (print_file rs)) buf = Some (data_size rs, st) /\ image_is st rs.
Proof.
  intros Hr. destruct (read_file rs (checked_line 0 1 []) buf Hr ltac:(done)) as (n & old & st & E & _ & Hend & _ & Hb & Hc & Hi).
  exists (set_end_record_seen st). unfold print_file. rewrite E.
  rewrite <- (app_nil_r (checked_line 0 1 [])). unfold checked_line.
  rewrite read_hex_line, end_line by (done || by apply wrap_is_u || (cbn; lia)). cbn [end_record_seen set_end_record_seen].
  split; [|exact Hi]. cbn [byte_count set_end_record_seen]. by rewrite Hc.
Qed.

Lemma get_data_image st rs addr len : image_is st rs -> 0 <= addr -> 0 <= len -> addr + len < MAX_MEMORY_SIZE ->
  ihex_get_data st addr len = (fun x => default 0xFF (image_of 0 rs x)) <$> seqZ addr len.
Proof.
  intros Hi H0 H1 H2. unfold ihex_get_data.
  rewrite (proj2 (Z.ltb_ge _ _)), (proj2 (Z.ltb_ge _ _)), (proj2 (Z.leb_gt _ _)) by lia. cbn [orb].
  apply list_fmap_ext. intros _ x _. specialize (Hi x). destruct (image_of 0 rs x); by injection Hi as -> ->.
Qed.

Lemma bytes_within_image st rs b e : image_is st rs -> 0 <= b < MAX_MEMORY_SIZE -> 0 <= e < MAX_MEMORY_SIZE ->
  ihex_bytes_within_range st b e = existsb (fun x => bool_decide (is_Some (image_of 0 rs x))) (seqZ b (e - b + 1)).
Proof.
  intros Hi B1 B2. unfold ihex_bytes_within_range. rewrite !(proj2 (Z.ltb_ge _ _)), !(proj2 (Z.leb_gt _ _)) by lia. cbn [orb].
  induction (seqZ b (e - b + 1)) as [|x xs IH]; [done|]. cbn. rewrite IH. f_equal.
  specialize (Hi x). destruct (image_of 0 rs x) eqn:E; injection Hi as _ ->; [by rewrite bool_decide_true by eauto|].
  by rewrite bool_decide_false by (by intros []).
Qed.

(** C28: whatever an Intel hex file of data and extended address records says below the top of the
    64 KB image, printed with the right checksums, the reader recovers: it returns the number of
    data bytes, the image has every byte at the address its record and the extended address before
    it give (the last one, where records overlap), exactly those bytes are marked as present, and
    blocks handed out are padded with 0xFF. *)
Theorem hex_file_roundtrip rs buf : records_ok 0 rs ->
  exists st, read_intel_hex (Some (print_file rs)) buf = Some (data_size rs, st)
    /\ (forall addr len, 0 <= addr -> 0 <= len -> addr + len < MAX_MEMORY_SIZE ->
          ihex_get_data st addr len = (fun x => default 0xFF (image_of 0 rs x)) <$> seqZ addr len)
    /\ (forall b e, 0 <= b < MAX_MEMORY_SIZE -> 0 <= e < MAX_MEMORY_SIZE ->
          ihex_bytes_within_range st b e = true <-> exists x, b <= x <= e /\ is_Some (image_of 0 rs x)).
Proof.
  intros Hr. destruct (read_printed rs buf Hr) as (st & E & Hi). exists st. split; [done|]. split.
  - intros. by apply get_data_image.
  - intros b e B1 B2. rewrite (bytes_within_image st rs) by done. rewrite existsb_exists.
    setoid_rewrite <- list_elem_of_In. setoid_rewrite elem_of_seqZ. setoid_rewrite bool_decide_eq_true.
    split; intros (x & Hx & T); exists x; (split; [lia|done]).
Qed.

(** C29: a data record whose checksum byte is not the one of its bytes is refused: the function
    answers -2, whatever good records came before it and whatever follows. *)
Theorem damaged_record_refused rs addr bs ck rest buf base :
  records_ok 0 rs -> foldl next_base 0 rs = base -> record_ok base (DataRecord addr bs) -> is_u8 ck ->
  ck <> u8 (- line_sum addr 0 bs) ->
  exists st, read_intel_hex (Some (concat (print_record <$> rs) ++ hex_line addr 0 bs ck ++ rest)) buf = Some (-2, st).
Proof.
  intros Hr <- (Ha & Hl & Hb & Hm) Hk Hne.
  destruct (read_file rs (hex_line addr 0 bs ck ++ rest) buf Hr ltac:(done)) as (n & old & st & -> & _ & _ & F & B & _).
  rewrite read_hex_line, data_line by (done || lia). rewrite checksum_spec, bool_decide_false; [by eexists|].
  intros E. apply Hne. symmetry. by apply checksum_unique.
Qed.

(** C30: the test of a record's addresses against the top of the image is made in 32 bits: a data
    record that runs past 4 GB behind an extended linear address passes it, and the reader stores
    outside its image, whatever good records came before. *)
Theorem wrapped_record_overflows rs addr bs ck rest buf :
  records_ok 0 rs -> foldl next_base 0 rs + 2 < MAX_MEMORY_SIZE ->
  is_u16 addr -> Forall is_u8 bs -> (length bs < 256)%nat -> is_u8 ck ->
  2 ^ 32 <= 65536 * 0xFFFF + addr + Z.of_nat (length bs) ->
  read_intel_hex (Some (concat (print_record <$> rs) ++ print_record (LinearRecord 0xFFFF)
                        ++ hex_line addr 0 bs ck ++ rest)) buf = None.
Proof.
  intros Hr Hbase Ha Hb Hl Hk Hw.
  destruct (read_file rs (print_record (LinearRecord 0xFFFF) ++ hex_line addr 0 bs ck ++ rest) buf Hr ltac:(done))
    as (n & old & st & -> & Hn & Hend & F & B & _).
  destruct (read_record n (LinearRecord 0xFFFF) (hex_line addr 0 bs ck ++ rest) old st) as (old' & st' & -> & _ & E & _);
    [lia|cbn; split; [done|lia]|done|].
  destruct n as [|n]; [cbn in Hn; lia|].
  rewrite read_hex_line, parse_line by done. cbn [next_base] in E. by rewrite wrapped_record by (done || by rewrite E).
Qed.
End Files.
