(* ===== verification/HidBoot.v ===== *)
(** * HidBoot: the HID class bootloader ([Bootloaders/HID/BootloaderHID.c])

    The bootloader programs the flash one page per SetReport request of the host.  Its statics
    are a record [hid_boot] passed beside the machine of [Machine.v]; the flash is the one of
    [Nvm.v], and whether addresses need more than 16 bits is decided by FLASHEND, as in the
    source. *)
From S2P Require Import Prelude Machine Logic Endpoint UsbController Nvm.

Module HidBoot.
Import Endpoint Controller.

Definition COMMAND_STARTAPPLICATION := 0xFFFF.
Definition MAGIC_BOOT_KEY := 0xDC42.
Definition HID_REQ_SetReport := 0x09.
Definition WDTO_250MS := 4.

(** [memory] is the flash and [watchdog] the timeout that has been started. *)
Record hid_boot {NV : Nvm} := Statics {
  RunBootloader : bool;
  MagicBootKey : Z;
  watchdog : option Z;
  memory : nvm }.

Section Bootloader.
Context {HW : Hardware} {PRE : Preempt} {FU : Fuel} {NV : Nvm}.

(** The statics at reset; [MagicBootKey] is not initialised. *)
Definition hid_reset (key : Z) (m : nvm) : hid_boot := Statics _ true key None m.

Definition set_memory (m : nvm) (d : hid_boot) : hid_boot :=
  Statics _ (RunBootloader d) (MagicBootKey d) (watchdog d) m.
Definition set_RunBootloader (v : bool) (d : hid_boot) : hid_boot :=
  Statics _ v (MagicBootKey d) (watchdog d) (memory d).

(** ** Addresses *)

(** [#if (FLASHEND > 0xFFFF)] *)
Definition far : bool := 0xFFFF <? FLASHEND.

(** The page address from the first word of a report. *)
Definition page_address (w : Z) : Z := if far then u32 (w .<< 8) else w.
Definition is_start (PageAddress : Z) : bool :=
  (if far then u16 (PageAddress .>> 8) else PageAddress) =? COMMAND_STARTAPPLICATION.
(** [PageAddress + ((uint16_t)PageWord << 1)] *)
Definition word_address (PageAddress PageWord : Z) : Z :=
  (if far then u32 else u16) (PageAddress + u16 (PageWord .<< 1)).

(** ** The request *)

(** [while (!(Endpoint_IsOUTReceived()));] *)
Definition wait_OUT : M unit :=
  iter fuel (fun _ : unit =>
    r <- Endpoint_IsOUTReceived ;;
    ret (if r : bool then inr tt else inl tt)) tt.

(** The [for] loop from [PageWord] on, [n] rounds left. *)
Fixpoint page_words (n : nat) (PageAddress PageWord : Z) (m : nvm) : M nvm :=
  match n with
  | O => ret m
  | S n' =>
      c <- Endpoint_BytesInEndpoint ;;
      (when negb (truth c) do (Endpoint_ClearOUT ;; wait_OUT)) ;;
      w <- Endpoint_Read_16_LE ;;
      page_words n' PageAddress (u8 (PageWord + 1)) (boot_page_fill (word_address PageAddress PageWord) w m)
  end.

Definition write_page (PageAddress : Z) (m : nvm) : M nvm :=
  m <- page_words (Z.to_nat (SPM_PAGESIZE / 2)) PageAddress 0 (boot_page_erase PageAddress m) ;;
  ret (boot_rww_enable (boot_page_write PageAddress m)).

Definition set_report (d : hid_boot) : M hid_boot :=
  Endpoint_ClearSETUP ;;
  wait_OUT ;;
  w <- Endpoint_Read_16_LE ;;
  let PageAddress := page_address w in
  d <- (if is_start PageAddress then ret (set_RunBootloader false d)
        else m <- write_page PageAddress (memory d) ;; ret (set_memory m d)) ;;
  Endpoint_ClearOUT ;;
  Endpoint_ClearStatusStage ;;
  ret d.

(** [EVENT_USB_Device_ControlRequest] *)
Definition ControlRequest (d : hid_boot) : M hid_boot :=
  r <- get_request ;;
  if negb (bmRequestType r .& (0x60 .| 0x1F) =? (1 .<< 5) .| (1 .<< 0)) then ret d
  else if bRequest r =? HID_REQ_SetReport then set_report d
  else ret d.

(** [main] behind its loop, up to the endless loop that waits for the watchdog. *)
Definition shutdown (d : hid_boot) : M hid_boot :=
  USB_Detach ;;
  ret (Statics _ (RunBootloader d) MAGIC_BOOT_KEY (Some WDTO_250MS) (memory d)).

(** [Application_Jump_Check]: whether the application at 0 is started. *)
Definition Application_Jump_Check (d : hid_boot) : M (bool * hid_boot) :=
  v <- rd MCUSR ;;
  if truth (v .& bit WDRF) && (MagicBootKey d =? MAGIC_BOOT_KEY) then
    ret (true, Statics _ (RunBootloader d) 0 (watchdog d) (memory d))
  else ret (false, d).
End Bootloader.
End HidBoot.
