(* ===== verification/HidPages.v ===== *)
(** * HidPages: what a report does to the flash

    A SetReport request of the HID bootloader, against the host of [DfuHost.v] and the flash of
    [Nvm.v]: the handler returns, and the page the report names is as the report says. *)
From S2P Require Import Prelude Machine Logic Endpoint UsbController.
From S2P Require Import Nvm DfuProgram DfuHost DfuDownload HidBoot.
Import Endpoint HidBoot.

(** ** The effect of a report on the statics *)
Section Effect.
Context {NV : Nvm}.

Fixpoint fill_words (ws : list Z) (PageAddress PageWord : Z) (m : nvm) : nvm :=
  match ws with
  | [] => m
  | w :: ws' => fill_words ws' PageAddress (u8 (PageWord + 1)) (boot_page_fill (word_address PageAddress PageWord) w m)
  end.

Definition page_programmed (a : Z) (ws : list Z) (m : nvm) : nvm :=
  boot_rww_enable (boot_page_write a (fill_words ws a 0 (boot_page_erase a m))).

Definition page_half_words : nat := Z.to_nat (SPM_PAGESIZE / 2).

Definition apply_report (rep : list Z) (d : hid_boot) : hid_boot :=
  match rep with
  | b0 :: b1 :: data =>
      let a := page_address (le_value [b0; b1]) in
      if is_start a then set_RunBootloader false d
      else set_memory (page_programmed a (words page_half_words data) (memory d)) d
  | _ => d
  end.
End Effect.

Lemma length_words n bs : (2 * n <= length bs)%nat -> length (words n bs) = n.
Proof.
  revert bs. induction n as [|n IH]; intros bs Hl; [by destruct bs|].
  destruct bs as [|b0 [|b1 bs]]; cbn [length] in Hl; [lia|lia|]. cbn. by rewrite IH by lia.
Qed.

(** ** The request *)
Section Request.
Context {HW : Hardware} {CH : ControlHost} {FU : Fuel} (fuel_pos : (0 < fuel)%nat) {NV : Nvm}.
#[local] Existing Instance quiet_context.

Lemma ends_wait_OUT s ps out u : sees s ps 0 out u -> ps <> [] ->
  ends wait_OUT s (fun _ s' => sees s' ps 0 out u).
Proof.
  intros H Hne. assert (ends Endpoint_IsOUTReceived s (fun b s' => b = true /\ sees s' ps 0 out u)) as E.
  { apply ends_flag; [done|done|done|]. destruct (read_flags (hw s)) as (-> & _).
    destruct H as (_ & -> & _). by apply bool_decide_true. }
  unfold wait_OUT. destruct fuel as [|n]; [lia|]. cbn [iter]. apply ends_bind, ends_bind.
  eapply ends_weaken; [exact E|]. intros b s' [-> H']. by apply ends_ret, ends_ret.
Qed.

(** A word from the bank, or from the next packet. *)
Lemma packet_word q qs : even_packet q -> q <> [] -> Forall (fun q => even_packet q /\ q <> []) qs ->
  exists b0 b1 p, q = b0 :: b1 :: p /\ word_packets (p :: qs).
Proof.
  intros [He Hl] Hq Hqs. destruct q as [|b0 [|b1 p]]; [done|destruct He as [m Hm]; cbn in Hm; lia|].
  exists b0, b1, p. split; [done|]. split; [|done]. destruct He as [m Hm]. cbn in Hm, Hl.
  split; [exists (m - 1)%nat|]; lia.
Qed.

Lemma ends_refill s ps out u : sees s ps 0 out u -> word_packets ps -> concat ps <> [] ->
  ends (c <- Endpoint_BytesInEndpoint ;; when negb (truth c) do (Endpoint_ClearOUT ;; wait_OUT)) s (fun _ s' =>
    exists b0 b1 p ps', sees s' ((b0 :: b1 :: p) :: ps') 0 out u
    /\ word_packets (p :: ps') /\ b0 :: b1 :: p ++ concat ps' = concat ps).
Proof.
  intros H Hw Hc. destruct ps as [|p ps]; [done|]. destruct Hw as [[Hp Hl] Hps].
  apply ends_bind. step ends_count; [exact H|cbn; lia|]. intros n s1 [-> H1]. destruct p as [|b p].
  - cbn. destruct ps as [|q ps]; [done|]. apply Forall_cons_iff in Hps as [[Hq Hne] Hps]. apply ends_bind.
    step ends_clear_out; [exact H1|]. intros _ s2 H2. step ends_wait_OUT; [exact H2|done|]. intros _ s3 H3.
    destruct (packet_word q ps Hq Hne Hps) as (b0 & b1 & p' & -> & ?). by exists b0, b1, p', ps.
  - cbn [hd length]. rewrite Nat.add_0_r. replace (truth _) with true by done. apply ends_ret.
    destruct (packet_word (b :: p) ps) as (b0 & b1 & p' & [= -> ->] & ?); try done. by exists b0, b1, p', ps.
Qed.

Lemma ends_page_words n a k m s ps out u : sees s ps 0 out u -> word_packets ps ->
  Forall is_u8 (concat ps) -> (2 * n <= length (concat ps))%nat ->
  ends (page_words n a k m) s (fun m' s' => m' = fill_words (words n (concat ps)) a k m
    /\ exists ps', sees s' ps' 0 out u).
Proof.
  revert k m s ps. induction n as [|n IH]; intros k m s ps H Hw Hb Hl; cbn [page_words].
  { apply ends_ret. split; [by destruct (concat ps)|eauto]. }
  enough (ends (bind (c <- Endpoint_BytesInEndpoint ;; when negb (truth c) do (Endpoint_ClearOUT ;; wait_OUT))
    (fun _ => w <- Endpoint_Read_16_LE ;; page_words n a (u8 (k + 1)) (boot_page_fill (word_address a k) w m))) s
    (fun m' s' => m' = fill_words (words (S n) (concat ps)) a k m /\ exists ps', sees s' ps' 0 out u)) as E.
  { destruct E as (m' & s' & E & HQ). exists m', s'. split; [|done]. rewrite <- E. unfold bind.
    by destruct (Endpoint_BytesInEndpoint s) as [[]|]. }
  apply ends_bind. step ends_refill; [exact H|done| |].
  { intros E. rewrite E in Hl. cbn in Hl. lia. }
  intros _ s1 (b0 & b1 & p & ps' & H1 & Hw1 & E).
  assert (is_u8 b0 /\ is_u8 b1 /\ Forall is_u8 (concat (p :: ps'))) as (B0 & B1 & Bp).
  { rewrite <- E, !Forall_cons_iff in Hb. tauto. }
  apply ends_bind. step ends_read_word; [exact H1|done|done|]. intros w s2 [-> H2].
  rewrite <- E. apply (IH _ _ _ (p :: ps')); [done|done|done|]. rewrite <- E in Hl. cbn in *. lia.
Qed.

(** The packets of a data stage: whole words each. *)
Definition report_packets (ps : list (list Z)) : Prop :=
  ps <> [] /\ Forall (fun q => even_packet q /\ q <> []) ps.

Definition is_set_report (u : usb_globals) : Prop :=
  bmRequestType (USB_ControlRequest u) = 0x21 /\ bRequest (USB_ControlRequest u) = HID_REQ_SetReport.

(** The handler takes a report of a page address and a page. *)
Lemma report_run d s ps u : sees s ps 0 [] u -> is_set_report u -> report_packets ps -> Forall is_u8 (concat ps) ->
  (2 + 2 * page_half_words <= length (concat ps))%nat ->
  exists s', ControlRequest d s = Some (apply_report (concat ps) d, s').
Proof.
  intros H [Hm Hr] [Hne Hps] Hb Hl.
  enough (ends (ControlRequest d) s (fun d' _ => d' = apply_report (concat ps) d)) as (d' & s' & E & ->) by eauto.
  apply ends_bind. exists (USB_ControlRequest (usb s)), s. split; [done|].
  replace (usb s) with u by (symmetry; apply H). rewrite Hm, Hr. cbn.
  unfold set_report. apply ends_bind. step ends_clear_setup; [exact H|]. intros _ s1 H1.
  apply ends_bind. step ends_wait_OUT; [exact H1|done|]. intros _ s2 H2.
  destruct ps as [|q ps]; [done|]. apply Forall_cons_iff in Hps as [[He Hq] Hps].
  destruct (packet_word q ps He Hq Hps) as (b0 & b1 & p & -> & Hw). cbn [concat Datatypes.app] in Hb, Hl |- *.
  rewrite !Forall_cons_iff in Hb. destruct Hb as (B0 & B1 & Hb).
  apply ends_bind. step ends_read_word; [exact H2|done|done|]. intros w s3 [-> H3]. cbn [apply_report].
  set (a := page_address _). apply ends_bind.
  apply (ends_weaken _ _ (fun d' s' => d' = (if is_start a then set_RunBootloader false d
    else set_memory (page_programmed a (words page_half_words (p ++ concat ps)) (memory d)) d)
    /\ exists ps', sees s' ps' 0 [] u)).
  - destruct (is_start a); [apply ends_ret; eauto|]. apply ends_bind. unfold write_page. apply ends_bind.
    step ends_page_words; [exact H3|done|exact Hb|cbn [length concat] in Hl |- *; unfold page_half_words in Hl; lia|]. intros m s4 [-> [ps' H4]].
    apply ends_ret, ends_ret. eauto.
  - intros d' s4 [-> [ps' H4]]. apply ends_bind. step ends_clear_out; [exact H4|]. intros _ s5 H5.
    apply ends_bind. step ends_status_in; [done|exact H5|by rewrite Hm|]. intros _ s6 _. by apply ends_ret.
Qed.
End Request.

(** ** The flash *)
Section Flash.
Context {NV : Nvm} {NL : NvmLaws} (flash_32 : FLASHEND + 256 < 2 ^ 32).

Lemma word_address_in a k : on_chip a -> 0 <= k < 128 -> a + 2 * k <= FLASHEND -> word_address a k = a + 2 * k.
Proof.
  intros [Ha _] Hk Hf. unfold word_address, far. rewrite Z.shiftl_mul_pow2 by done. change (2 ^ 1) with 2.
  rewrite (wrap_id 16 (k * 2)) by (unfold is_u; lia). rewrite (Z.mul_comm k).
  destruct (Z.ltb_spec 0xFFFF FLASHEND); apply wrap_id; unfold is_u; [lia|change (2 ^ 16) with 65536; lia].
Qed.

(** A page is filled and written by the programming loop of [DfuProgram.v]. *)
Lemma fill_program ws a k m : a mod SPM_PAGESIZE = 0 -> on_chip a -> ws <> [] -> 0 <= k ->
  k + Z.of_nat (length ws) = SPM_PAGESIZE / 2 ->
  boot_page_write a (fill_words ws a k m) = program ws (a + 2 * k) a k m.
Proof.
  intros Ha Hc. destruct page_pos as (P & _ & P'). pose proof page_half as Ph.
  assert (on_chip (a + SPM_PAGESIZE - 1)) as [_ Hl] by (apply (page_on_chip a); [done|done|lia]). destruct Hc as [Ha0 Ha1].
  revert k m. induction ws as [|w ws IH]; intros k m Hne Hk Hlen; [done|]. cbn [length] in Hlen.
  cbn [fill_words program]. rewrite word_address_in by (unfold on_chip; lia).
  rewrite !wrap_id by (unfold is_u; change (2 ^ 8) with 256; lia). destruct ws as [|w' ws].
  - cbn. by rewrite orb_true_r.
  - rewrite bool_decide_true by done. cbn [negb]. rewrite orb_false_r.
    rewrite Z.shiftr_div_pow2 by done. change (2 ^ 1) with 2.
    rewrite (proj2 (Z.eqb_neq (k + 1) _)) by (cbn [length] in Hlen; lia).
    rewrite IH by (done || cbn [length] in *; lia). f_equal; lia.
Qed.

Lemma page_half_words_Z : Z.of_nat (2 * page_half_words) = SPM_PAGESIZE /\ (0 < page_half_words)%nat.
Proof. destruct page_pos as (P & _). pose proof page_half. unfold page_half_words. lia. Qed.

(** The page of a report gets the report's data and the rest of the flash stays. *)
Lemma page_programmed_flash a data m x : a mod SPM_PAGESIZE = 0 -> on_chip a ->
  Z.of_nat (length data) = SPM_PAGESIZE -> Forall is_u8 data -> (forall i, buffered m i = None) -> on_chip x ->
  flash (page_programmed a (words page_half_words data) m) x =
  if bool_decide (a <= x < a + SPM_PAGESIZE) then nth (Z.to_nat (x - a)) data 0 else flash m x.
Proof.
  intros Ha Hc Hd Hb Hm Hx. destruct page_half_words_Z as [Hw Hw0]. assert (length (words page_half_words data) = page_half_words) as Hlw by (apply length_words; lia).
  destruct page_pos as (P & _). unfold page_programmed. rewrite enable_flash, fill_program; [|done|done| |lia|].
  - rewrite Z.mul_0_r, Z.add_0_r. assert (page_end (a + SPM_PAGESIZE) = a + SPM_PAGESIZE) as Pe by (apply page_end_in; [done|lia]).
    assert (on_chip (a + SPM_PAGESIZE - 1)) as [_ Hl] by (apply (page_on_chip a); [done|done|lia]).
    rewrite (@firmware_programmed 1%nat ltac:(unfold fuel; lia) _ _ flash_32); try done; try lia; [|apply Hc|rewrite Hd; lia].
    rewrite Hd, Pe. case_bool_decide; [done|]. by rewrite bool_decide_false by lia.
  - intros E. rewrite E in Hlw. cbn in Hlw. lia.
  - rewrite Hlw. unfold page_half_words. pose proof page_half. lia.
Qed.

Lemma fill_words_flash ws a k m x : flash (fill_words ws a k m) x = flash m x.
Proof. revert k m. induction ws as [|w ws IH]; intros k m; [done|]. cbn. by rewrite IH, fill_flash. Qed.

(** Whatever words are filled in, other pages stay. *)
Lemma page_programmed_other a ws m x : on_chip a -> on_chip x -> same_page a x = false ->
  flash (page_programmed a ws m) x = flash m x.
Proof.
  intros Ha Hx Hp. unfold page_programmed. rewrite enable_flash, write_flash_page, Hp by done.
  by rewrite fill_words_flash, erase_flash, Hp by done.
Qed.
End Flash.
