(* ===== verification/Loader.v ===== *)
(** * Loader: the loader of the HID bootloader on the host
    ([Bootloaders/HID/HostLoaderApp/hid_bootloader_cli.c], built for libusb)

    Command line, device access and main program; the Intel hex reader is in [IntelHex.v].
    libusb and the file system are the class [Libusb]: a world and the functions the loader
    calls.  [exit] ends the program, so a function that can call it returns an option.  What is
    printed is not modelled. *)
From stdpp Require Import strings.
From S2P Require Import Prelude IntelHex.

Definition str (s : string) : list Z := ch <$> String.list_ascii_of_string s.

Module Loader.
Import IntelHex.

(** ** Command line *)

Record options := Options {
  wait_for_device_to_appear : bool;
  hard_reboot_device : bool;
  reboot_after_programming : bool;
  verbose : bool;
  code_size : Z;
  block_size : Z;
  filename : option (list Z) }.

Definition options_init : options := Options false false true false 0 0 None.

(** [strncmp(arg, p, strlen(p)) == 0]: what follows the prefix [p]. *)
Fixpoint after_prefix (p arg : list Z) : option (list Z) :=
  match p, arg with
  | [], _ => Some arg
  | c :: p', x :: arg' => if c =? x then after_prefix p' arg' else None
  | _, [] => None
  end.
Definition starts_with (p : string) (arg : list Z) : bool := bool_decide (is_Some (after_prefix (str p) arg)).

(** The size of the flash and of its pages, by the name of the part. *)
Definition mcu_sizes (arg : list Z) : option (Z * Z) :=
  let model (arg : list Z) :=
    if starts_with "128" arg then Some (128 * 1024, 256)
    else if starts_with "64" arg then Some (64 * 1024, 256)
    else if starts_with "32" arg then Some (32 * 1024, 128)
    else if starts_with "16" arg then Some (16 * 1024, 128)
    else if starts_with "8" arg then Some (8 * 1024, 128)
    else None in
  match after_prefix (str "at90usb") arg with
  | Some arg => model arg
  | None => match after_prefix (str "atmega") arg with Some arg => model arg | None => None end
  end.

Definition parse_option (arg : list Z) (o : options) : option options :=
  let 'Options w h r v c b f := o in
  if hd 0 arg =? ch "-" then
    if bool_decide (arg = str "-w") then Some (Options true h r v c b f)
    else if bool_decide (arg = str "-r") then Some (Options w true r v c b f)
    else if bool_decide (arg = str "-n") then Some (Options w h false v c b f)
    else if bool_decide (arg = str "-v") then Some (Options w h r true c b f)
    else match after_prefix (str "-mmcu=") arg with
         | Some arg => '(c, b) ← mcu_sizes arg; Some (Options w h r v c b f)
         | None => Some o
         end
  else Some (Options w h r v c b (Some arg)).

(** The arguments behind the program's name. *)
Fixpoint parse_options (args : list (list Z)) (o : options) : option options :=
  match args with
  | [] => Some o
  | arg :: args' => o ← parse_option arg o; parse_options args' o
  end.

(** ** Device access *)

(** libusb, the file system and the time. *)
Class Libusb := {
  world : Type;
  device : Type;
  usb_handle : Type;
  idVendor : device -> Z;
  idProduct : device -> Z;
  (** [usb_init], [usb_find_busses], [usb_find_devices] *)
  usb_find : world -> world;
  usb_get_busses : world -> list (list device);
  usb_open : device -> world -> option usb_handle * world;
  has_get_driver_np : bool;
  usb_get_driver_np : usb_handle -> Z -> world -> Z * world;
  usb_detach_kernel_driver_np : usb_handle -> Z -> world -> Z * world;
  usb_claim_interface : usb_handle -> Z -> world -> Z * world;
  usb_release_interface : usb_handle -> Z -> world -> world;
  usb_close : usb_handle -> world -> world;
  usb_control_msg : usb_handle -> Z -> Z -> Z -> Z -> list Z -> Z -> world -> Z * world;
  read_file : list Z -> world -> option (list Z);
  delay : Z -> world -> world }.

Section Program.
Context {LU : Libusb} {LO : Locals}.

(** The kernel's driver is taken off the device: whether it could be. *)
Definition detach_driver (h : usb_handle) (w : world) : bool * world :=
  if has_get_driver_np then
    let '(r, w) := usb_get_driver_np h 0 w in
    if 0 <=? r then
      let '(r, w) := usb_detach_kernel_driver_np h 0 w in
      if r <? 0 then (false, usb_close h w) else (true, w)
    else (true, w)
  else (true, w).

Definition try_device (vid pid : Z) (dev : device) (w : world) : option usb_handle * world :=
  if negb (idVendor dev =? vid) then (None, w)
  else if negb (idProduct dev =? pid) then (None, w)
  else
    match usb_open dev w with
    | (None, w) => (None, w)
    | (Some h, w) =>
        let '(ok, w) := detach_driver h w in
        if ok : bool then
          let '(r, w) := usb_claim_interface h 0 w in
          if r <? 0 then (None, usb_close h w) else (Some h, w)
        else (None, w)
    end.

Fixpoint try_devices (vid pid : Z) (devs : list device) (w : world) : option usb_handle * world :=
  match devs with
  | [] => (None, w)
  | dev :: devs' =>
      match try_device vid pid dev w with
      | (Some h, w) => (Some h, w)
      | (None, w) => try_devices vid pid devs' w
      end
  end.

Definition open_usb_device (vid pid : Z) (w : world) : option usb_handle * world :=
  let w := usb_find w in try_devices vid pid (concat (usb_get_busses w)) w.

(** One product id behind the other. *)
Definition open_either (vid1 pid1 vid2 pid2 : Z) (w : world) : option usb_handle * world :=
  match open_usb_device vid1 pid1 w with
  | (Some h, w) => (Some h, w)
  | (None, w) => open_usb_device vid2 pid2 w
  end.

(** [libusb_teensy_handle] is passed and returned. *)
Definition teensy_close (h : option usb_handle) (w : world) : world :=
  match h with None => w | Some h => usb_close h (usb_release_interface h 0 w) end.

Definition teensy_open (h : option usb_handle) (w : world) : option usb_handle * world :=
  open_either 0x16C0 0x0478 0x03eb 0x2067 (teensy_close h w).

(** [timeout] in milliseconds *)
Definition teensy_write (h : option usb_handle) (buf : list Z) (timeout : Z) (w : world) : bool * world :=
  match h with
  | None => (false, w)
  | Some h => let '(r, w) := usb_control_msg h 0x21 9 0x0200 0 buf timeout w in (negb (r <? 0), w)
  end.

Definition hard_reboot (w : world) : bool * world :=
  match open_either 0x16C0 0x0477 0x03eb 0x2067 w with
  | (None, w) => (false, w)
  | (Some rebootor, w) =>
      let '(r, w) := usb_control_msg rebootor 0x21 9 0x0200 0 (str "reboot") 100 w in
      (negb (r <? 0), usb_close rebootor (usb_release_interface rebootor 0 w))
  end.

(** ** Main program *)

(** How the program ends, with the world: [exit(1)], or the end of [main]. *)
Inductive ending := Exit (w : world) | End (w : world).

(** The loop that opens the device: the handle, and whether it waited; [None]: still waiting
    after [n] rounds. *)
Fixpoint open_loop (n : nat) (h : option usb_handle) (reboot wait waited : bool) (w : world)
    : option (world + option usb_handle * bool * world) :=
  match n with
  | O => None
  | S n' =>
      match teensy_open h w with
      | (Some h, w) => Some (inr (Some h, waited, w))
      | (None, w) =>
          let again (wait : bool) (w : world) :=
            if negb wait then Some (inl w) else open_loop n' None false wait true (delay 250 w) in
          if reboot then
            let '(r, w) := hard_reboot w in
            if r : bool then again true w else Some (inl w)
          else again wait w
      end
  end.

(** The report for the block at [addr]. *)
Definition block_report (o : options) (st : hex_state) (addr : Z) : list Z :=
  (if code_size o <? 0x10000 then [addr .& 255; (addr .>> 8) .& 255]
   else [(addr .>> 8) .& 255; (addr .>> 16) .& 255])
  ++ ihex_get_data st addr (block_size o).

(** The [for] loop from [addr] on; [n] bounds its rounds. *)
Fixpoint program_blocks (n : nat) (o : options) (st : hex_state) (h : option usb_handle) (first_block : bool)
    (addr : Z) (w : world) : option (ending + world) :=
  if code_size o <=? addr then Some (inr w)
  else
    match n with
    | O => None
    | S n' =>
        if (0 <? addr) && negb (ihex_bytes_within_range st addr (addr + block_size o - 1)) then
          program_blocks n' o st h first_block (addr + block_size o) w
        else
          let '(r, w) := teensy_write h (block_report o st addr) (if first_block then 3000 else 250) w in
          if r : bool then program_blocks n' o st h false (addr + block_size o) w
          else Some (inl (Exit w))
    end.

(** [buf] with 0xFF twice in front and zero behind. *)
Definition boot_report (o : options) : list Z := [0xFF; 0xFF] ++ replicate (Z.to_nat (block_size o)) 0.

(** From the programming on. *)
Definition program_device (o : options) (st : hex_state) (h : option usb_handle) (w : world) : option ending :=
  match program_blocks (Z.to_nat (code_size o)) o st h true 0 w with
  | None => None
  | Some (inl e) => Some e
  | Some (inr w) =>
      let w := if reboot_after_programming o then (teensy_write h (boot_report o) 250 w).2 else w in
      Some (End (teensy_close h w))
  end.

(** [n] bounds the rounds of waiting for the device; [buf], [buf']: what the reader's line
    buffer holds at its first and second call.
    [None]: still waiting, or a store outside the reader's image. *)
Definition main (n : nat) (buf buf' : list Z) (args : list (list Z)) (w : world) : option ending :=
  match parse_options args options_init with
  | None => Some (Exit w)
  | Some o =>
      match filename o with
      | None => Some (Exit w)
      | Some f =>
          if code_size o =? 0 then Some (Exit w)
          else
            '(num, st) ← read_intel_hex (read_file f w) buf;
            if num <? 0 then Some (Exit w)
            else
              r ← open_loop n None (hard_reboot_device o) (wait_for_device_to_appear o) false w;
              match r with
              | inl w => Some (Exit w)
              | inr (h, waited, w) =>
                  if waited : bool then
                    '(num, st) ← read_intel_hex (read_file f w) buf';
                    if num <? 0 then Some (Exit w) else program_device o st h w
                  else program_device o st h w
              end
      end
  end.
End Program.
End Loader.
