(* ===== verification/HidLoad.v ===== *)
(** * HidLoad: from the hex file to the flash

    The loader of [Loader.v] with the HID bootloader of [HidBoot.v] at the other end of the bus:
    [BootloaderOnBus] states what that asks of libusb and of the bus. *)
From S2P Require Import Prelude Machine Logic Endpoint UsbController.
From S2P Require Import Nvm DfuProgram DfuHost DfuDownload HidBoot HidPages IntelHex HexFiles Loader.
Import HidBoot IntelHex Loader.

(** ** Packets *)

(** [l] in pieces of [k]; [n] bounds their number. *)
Fixpoint pieces (n k : nat) (l : list Z) : list (list Z) :=
  match n, l with
  | S n', _ :: _ => take k l :: pieces n' k (drop k l)
  | _, _ => []
  end.

(** [FIXED_CONTROL_ENDPOINT_SIZE] *)
Definition control_size : nat := 8.
Definition data_stage (bytes : list Z) : list (list Z) := pieces (length bytes) control_size bytes.

Lemma pieces_concat n k l : (0 < k)%nat -> (length l <= n)%nat -> concat (pieces n k l) = l.
Proof.
  intros Hk. revert l. induction n as [|n IH]; intros l Hl; [by destruct l; [|cbn in Hl; lia]|].
  destruct l as [|x l]; [done|]. cbn [pieces concat]. rewrite IH; [apply take_drop|].
  rewrite length_drop. cbn [length] in *. lia.
Qed.

Lemma pieces_even n k l : Nat.Even k -> (0 < k < 256)%nat -> Nat.Even (length l) ->
  Forall (fun q => even_packet q /\ q <> []) (pieces n k l).
Proof.
  intros Hk Hk0. revert l. induction n as [|n IH]; intros l Hl; [by constructor|].
  destruct l as [|x l]; [by constructor|]. cbn [pieces]. constructor.
  - split; [|by destruct k; [lia|]]. unfold even_packet. rewrite length_take. split; [|lia].
    destruct (Nat.min_spec k (length (x :: l))) as [[_ ->]|[_ ->]]; done.
  - apply IH. rewrite length_drop. destruct Hk as [i ->], Hl as [j ->]. exists (j - i)%nat. lia.
Qed.

Lemma data_stage_packets bytes : bytes <> [] -> Nat.Even (length bytes) ->
  report_packets (data_stage bytes) /\ concat (data_stage bytes) = bytes.
Proof.
  intros Hne He. unfold data_stage, control_size. split; [split|].
  - by destruct bytes.
  - apply pieces_even; [by exists 4%nat|lia|done].
  - apply pieces_concat; lia.
Qed.

(** ** The command line *)

Definition known_sizes (o : options) : Prop :=
  code_size o = 0 \/ (code_size o, block_size o) ∈ [(0x20000, 256); (0x10000, 256); (0x8000, 128); (0x4000, 128); (0x2000, 128)].

Lemma mcu_sizes_known arg p : mcu_sizes arg = Some p -> p ∈ [(0x20000, 256); (0x10000, 256); (0x8000, 128); (0x4000, 128); (0x2000, 128)].
Proof.
  unfold mcu_sizes. intros E.
  repeat match type of E with
  | match ?m with _ => _ end = _ => destruct m
  | (if ?b then _ else _) = _ => destruct b
  end; simplify_eq; by repeat (apply list_elem_of_here || apply list_elem_of_further).
Qed.

Lemma parse_options_known args o o' : known_sizes o -> parse_options args o = Some o' -> known_sizes o'.
Proof.
  revert o. induction args as [|arg args IH]; intros o Ho E; cbn in E; [by simplify_eq|].
  destruct (parse_option arg o) as [o1|] eqn:E1; [|done]. apply (IH o1); [|done]. clear IH E.
  destruct o as [w h r v c b f]. unfold parse_option in E1.
  repeat match type of E1 with (if ?x then _ else _) = _ => destruct x end; try (by simplify_eq).
  destruct (after_prefix _ arg) as [a|]; [|by simplify_eq].
  destruct (mcu_sizes a) as [[c' b']|] eqn:Em; [|done]. cbn in E1. simplify_eq.
  right. by apply mcu_sizes_known in Em.
Qed.

(** ** The loop over the blocks *)
Section Blocks.
Context {LU : Libusb} (o : options) (st : hex_state) (h : option usb_handle) (P : Z -> world -> Prop).
Context (size_pos : 0 < block_size o).
Context (block : forall a w, P a w -> a < code_size o ->
  if (0 <? a) && negb (ihex_bytes_within_range st a (a + block_size o - 1)) then P (a + block_size o) w
  else forall t, exists w', teensy_write h (block_report o st a) t w = (true, w') /\ P (a + block_size o) w').

Lemma program_blocks_run n first a w : P a w -> code_size o <= a + Z.of_nat n ->
  exists a' w', program_blocks n o st h first a w = Some (inr w') /\ code_size o <= a' /\ P a' w'.
Proof.
  revert first a w. induction n as [|n IH]; intros first a w HP Hn; cbn [program_blocks].
  { rewrite (proj2 (Z.leb_le _ _)) by lia. exists a, w. split; [done|]. split; [lia|done]. }
  destruct (Z.leb_spec (code_size o) a) as [Hc|Hc]; [by exists a, w|].
  pose proof (block a w HP Hc) as Hb. destruct (_ && _); [apply IH; [done|lia]|].
  destruct (Hb (if first then 3000 else 250)) as (w' & -> & HP'). apply IH; [done|lia].
Qed.
End Blocks.

(** ** Blocks and pages *)

Lemma word_sent z : is_u16 z -> le_value [z .& 255; (z .>> 8) .& 255] = z.
Proof.
  intros Hz. rewrite !land_255, Z.shiftr_div_pow2 by done. unfold is_u in Hz. change (2 ^ 16) with 65536 in Hz.
  change (2 ^ 8) with 256. pose proof (Z.mod_pos_bound (z / 256) 256). pose proof (Z.mod_pos_bound z 256).
  cbn [le_value]. rewrite Z.shiftl_0_l, Z.lor_0_r, lor_shiftl8 by (unfold is_u; change (2 ^ 8) with 256; lia). zmod.
Qed.
Section Pages.
Context {NV : Nvm}.

Definition page_start (x : Z) : Z := x / SPM_PAGESIZE * SPM_PAGESIZE.

(** The pages the loader sends: the first, and those with a byte of the file. *)
Definition page_used (rs : list hex_record) (x : Z) : bool :=
  (x <? SPM_PAGESIZE) || existsb (fun y => bool_decide (is_Some (image_of 0 rs y))) (seqZ (page_start x) SPM_PAGESIZE).

(** The byte of a block; of the last one below 64 KB the loader sends 0xFF. *)
Definition block_byte (rs : list hex_record) (x : Z) : Z :=
  if MAX_MEMORY_SIZE <=? page_start x + SPM_PAGESIZE then 0xFF else default 0xFF (image_of 0 rs x).

Context {NL : NvmLaws} (st : hex_state) (rs : list hex_record) (Hi : image_is st rs) (Hr : records_ok 0 rs).
Context (a : Z) (Ha : 0 <= a) (Hm : a mod SPM_PAGESIZE = 0).

Lemma page_start_in x : a <= x < a + SPM_PAGESIZE -> page_start x = a.
Proof.
  intros Hx. destruct page_pos as [P _]. unfold page_start.
  rewrite (Z.div_mod a SPM_PAGESIZE page_nz), Hm, Z.add_0_r in Hx |- *. rewrite Z.mul_comm. f_equal.
  symmetry. apply (Z.div_unique x _ _ (x - SPM_PAGESIZE * (a / SPM_PAGESIZE))); lia.
Qed.

Lemma block_data_ok : Forall is_u8 (ihex_get_data st a SPM_PAGESIZE)
  /\ Z.of_nat (length (ihex_get_data st a SPM_PAGESIZE)) = SPM_PAGESIZE.
Proof.
  destruct page_pos as [P _]. unfold ihex_get_data.
  rewrite (proj2 (Z.ltb_ge _ _)), (proj2 (Z.ltb_ge _ _)) by lia. cbn [orb]. destruct (_ <=? _).
  - rewrite length_replicate. split; [by apply Forall_replicate|lia].
  - rewrite length_fmap, length_seqZ. split; [|lia]. apply Forall_fmap, Forall_true. intros x. cbn.
    specialize (Hi x). destruct (image_of 0 rs x) eqn:E; injection Hi as -> ->; [|done].
    by apply (image_range rs 0 x).
Qed.

Lemma block_data x : a <= x < a + SPM_PAGESIZE ->
  nth (Z.to_nat (x - a)) (ihex_get_data st a SPM_PAGESIZE) 0 = block_byte rs x.
Proof.
  intros Hx. destruct page_pos as [P _]. unfold block_byte. rewrite page_start_in by done.
  destruct (Z.leb_spec MAX_MEMORY_SIZE (a + SPM_PAGESIZE)) as [Hle|Hlt].
  - unfold ihex_get_data. rewrite (proj2 (Z.leb_le _ _) Hle), !orb_true_r. apply nth_lookup_Some, lookup_replicate_2. lia.
  - rewrite (get_data_image st rs) by (done || lia). apply nth_lookup_Some.
    rewrite list_lookup_fmap, lookup_seqZ_lt by lia. cbn. do 3 f_equal. lia.
Qed.

Lemma image_whole_pages : MAX_MEMORY_SIZE = SPM_PAGESIZE * (MAX_MEMORY_SIZE / SPM_PAGESIZE).
Proof.
  destruct page_size as (k & Hk & Ek). apply Z.div_exact; [exact page_nz|]. rewrite Ek. unfold MAX_MEMORY_SIZE.
  change 0x10000 with (2 ^ 16). replace 16 with (16 - k + k) by lia. rewrite Z.pow_add_r by lia.
  apply Z.mod_mul. rewrite <- Ek. exact page_nz.
Qed.

(** The loop skips exactly the other pages. *)
Lemma block_skipped x : a <= x < a + SPM_PAGESIZE ->
  (0 <? a) && negb (ihex_bytes_within_range st a (a + SPM_PAGESIZE - 1)) = negb (page_used rs x).
Proof.
  intros Hx. unfold page_used. rewrite page_start_in by done. rewrite negb_orb. destruct page_pos as [P _]. f_equal.
  { assert (a < SPM_PAGESIZE -> a = 0) by (intros; rewrite <- Hm; symmetry; apply Z.mod_small; lia).
    pose proof (Z.div_mod a SPM_PAGESIZE page_nz). destruct (Z.ltb_spec 0 a), (Z.ltb_spec x SPM_PAGESIZE); try done; exfalso; lia. }
  f_equal. destruct (Z.lt_ge_cases a MAX_MEMORY_SIZE) as [Hlt|Hge].
  - rewrite (bytes_within_image st rs); [by replace (a + SPM_PAGESIZE - 1 - a + 1) with SPM_PAGESIZE by lia|done|lia|].
    split; [lia|]. pose proof image_whole_pages as W. pose proof (Z.div_mod a SPM_PAGESIZE page_nz) as D. rewrite Hm in D.
    assert (a / SPM_PAGESIZE < MAX_MEMORY_SIZE / SPM_PAGESIZE) by nia. nia.
  - unfold ihex_bytes_within_range. rewrite (proj2 (Z.leb_le _ _) Hge), !orb_true_r. cbn [orb]. symmetry.
    apply not_true_is_false. rewrite existsb_exists. intros (y & Hy & [b E]%bool_decide_eq_true).
    apply list_elem_of_In, elem_of_seqZ in Hy. apply (image_range rs 0 y b Hr) in E. lia.
Qed.
End Pages.

(** ** The bus *)

(** What the loader relies on: a device with the bootloader's ids is on the bus, behind it no other
    with them and nowhere one with the Teensy's; it can be opened, its kernel driver taken off and
    its interface claimed; and a control message to it is a request, with its data in packets of
    the size of the control endpoint, that the bootloader's handler serves.  The other calls leave
    the bootloader and the host's files alone. *)
Class BootloaderOnBus {HW : Hardware} {CH : ControlHost} {FU : Fuel} {NV : Nvm} {LU : Libusb} := {
  boot : world -> hid_boot;
  linked : usb_handle -> Prop;
  same_desk (w w' : world) := boot w' = boot w /\ forall f, read_file f w' = read_file f w;
  find_keeps w : same_desk w (usb_find w);
  open_keeps dev w : same_desk w (usb_open dev w).2;
  driver_keeps h i w : same_desk w (usb_get_driver_np h i w).2;
  detach_keeps h i w : same_desk w (usb_detach_kernel_driver_np h i w).2;
  claim_keeps h i w : same_desk w (usb_claim_interface h i w).2;
  release_keeps h i w : same_desk w (usb_release_interface h i w);
  close_keeps h w : same_desk w (usb_close h w);
  no_teensy w dev : dev ∈ concat (usb_get_busses (usb_find w)) ->
    idVendor dev <> 0x16C0 \/ idProduct dev <> 0x0478;
  device_listed w : exists pre dev post, concat (usb_get_busses (usb_find w)) = pre ++ dev :: post
    /\ (forall x, x ∈ pre -> idVendor x <> 0x03eb \/ idProduct x <> 0x2067)
    /\ idVendor dev = 0x03eb /\ idProduct dev = 0x2067
    /\ forall w', exists h, (usb_open dev w').1 = Some h /\ linked h;
  detach_ok h w : linked h -> 0 <= (usb_detach_kernel_driver_np h 0 w).1;
  claim_ok h w : linked h -> 0 <= (usb_claim_interface h 0 w).1;
  message_served h requesttype request value index bytes timeout w : linked h ->
    exists u s, USB_ControlRequest u
        = USB_Request_Header requesttype request value index (Z.of_nat (length bytes))
      /\ sees s (data_stage bytes) 0 [] u
      /\ forall d s', ControlRequest (PRE := no_preempt) (boot w) s = Some (d, s') ->
         exists r w', usb_control_msg h requesttype request value index bytes timeout w = (r, w')
           /\ 0 <= r /\ boot w' = d /\ forall f, read_file f w' = read_file f w }.

Section Attached.
Context {HW : Hardware} {CH : ControlHost} {FU : Fuel} (fuel_pos : (0 < fuel)%nat) {NV : Nvm} {NL : NvmLaws} {LO : Locals}.
Context (flash_32 : FLASHEND + 256 < 2 ^ 32) {LU : Libusb} {BB : BootloaderOnBus}.
#[local] Existing Instance quiet_context.

Lemma desk_trans w w1 w2 : same_desk w w1 -> same_desk w1 w2 -> same_desk w w2.
Proof. intros [A1 A2] [B1 B2]. split; [congruence|]. intros f. by rewrite B2, A2. Qed.

(** A report of the right size arrives. *)
Lemma report_delivered h rep t w : linked h -> Forall is_u8 rep -> Z.of_nat (length rep) = 2 + SPM_PAGESIZE ->
  exists w', teensy_write (Some h) rep t w = (true, w')
    /\ boot w' = apply_report rep (boot w) /\ forall f, read_file f w' = read_file f w.
Proof.
  intros Hh Hb Hl. destruct page_half_words_Z as [Hw Hw0].
  assert (length rep = 2 + 2 * page_half_words)%nat as Hlen by lia.
  destruct (data_stage_packets rep) as [Hp Hc]; [by destruct rep|exists (1 + page_half_words)%nat; lia|].
  destruct (message_served h 0x21 9 0x0200 0 rep t w Hh) as (u & s & Hu & Hs & Hmsg).
  destruct (report_run fuel_pos (boot w) s (data_stage rep) u) as (s' & E).
  - done.
  - unfold is_set_report. by rewrite Hu.
  - done.
  - by rewrite Hc.
  - rewrite Hc. lia.
  - rewrite Hc in E. destruct (Hmsg _ _ E) as (r & w' & Em & Hr & Hbw & Hf). exists w'.
    unfold teensy_write. rewrite Em, (proj2 (Z.ltb_ge _ _) Hr). done.
Qed.

(** Devices with other ids are passed over. *)
Lemma others_skipped vid pid devs w : (forall x, x ∈ devs -> idVendor x <> vid \/ idProduct x <> pid) ->
  forall rest, try_devices vid pid (devs ++ rest) w = try_devices vid pid rest w.
Proof.
  induction devs as [|x devs IH]; intros H rest; [done|]. cbn [Datatypes.app try_devices].
  assert (try_device vid pid x w = (None, w)) as ->; [|apply IH; intros y Hy; apply H; by apply list_elem_of_further].
  unfold try_device. destruct (H x) as [E|E]; [apply list_elem_of_here|..].
  - by rewrite (proj2 (Z.eqb_neq _ _) E).
  - destruct (idVendor x =? vid); [|done]. by rewrite (proj2 (Z.eqb_neq _ _) E).
Qed.

Lemma driver_detached h w : linked h -> exists w', detach_driver h w = (true, w') /\ same_desk w w'.
Proof.
  intros Hh. unfold detach_driver. destruct has_get_driver_np; [|by exists w].
  pose proof (driver_keeps h 0 w) as K1. destruct (usb_get_driver_np h 0 w) as [r w1]. cbn in K1.
  destruct (0 <=? r); [|by exists w1].
  pose proof (detach_keeps h 0 w1) as K2. pose proof (detach_ok h w1 Hh) as Hr.
  destruct (usb_detach_kernel_driver_np h 0 w1) as [r2 w2]. cbn in K2, Hr.
  rewrite (proj2 (Z.ltb_ge _ _) Hr). exists w2. split; [done|by eapply desk_trans].
Qed.

(** The device is found at once. *)
Lemma device_opened w : exists h w', teensy_open None w = (Some h, w') /\ linked h /\ same_desk w w'.
Proof.
  unfold teensy_open, open_either, open_usb_device. cbn [teensy_close].
  pose proof (others_skipped 0x16C0 0x0478 _ (usb_find w) (no_teensy w) []) as E.
  rewrite app_nil_r in E. rewrite E. cbn [try_devices].
  destruct (device_listed (usb_find w)) as (pre & dev & post & -> & Hpre & Hv & Hp & Ho).
  rewrite others_skipped by done. cbn [try_devices].
  set (w1 := usb_find (usb_find w)). assert (same_desk w w1) as K1 by (eapply desk_trans; apply find_keeps).
  unfold try_device. rewrite Hv, Hp. cbn [Z.eqb Pos.eqb negb].
  destruct (Ho w1) as (h & Eo & Hh). pose proof (open_keeps dev w1) as K2.
  destruct (usb_open dev w1) as [o w2]. cbn in Eo, K2. subst o.
  destruct (driver_detached h w2 Hh) as (w3 & -> & K3).
  pose proof (claim_keeps h 0 w3) as K4. pose proof (claim_ok h w3 Hh) as Hr.
  destruct (usb_claim_interface h 0 w3) as [r w4]. cbn in K4, Hr. rewrite (proj2 (Z.ltb_ge _ _) Hr).
  exists h, w4. split_and!; [done|done|]. by do 3 (eapply desk_trans; [|eassumption]).
Qed.

Lemma handle_closed h w : same_desk w (teensy_close (Some h) w).
Proof. eapply desk_trans; [apply release_keeps|apply close_keeps]. Qed.

(** With a file of printed records the program gets as far as the programming. *)
Lemma main_programs n buf buf' args o f rs w : parse_options args options_init = Some o -> filename o = Some f ->
  code_size o <> 0 -> read_file f w = Some (print_file rs) -> records_ok 0 rs ->
  exists st h w1, image_is st rs /\ linked h /\ same_desk w w1
    /\ main (S n) buf buf' args w = program_device o st (Some h) w1.
Proof.
  intros Ho Hf Hc Hw Hr. destruct (read_printed rs buf Hr) as (st & E & Hi).
  destruct (device_opened w) as (h & w1 & Eo & Hh & K). exists st, h, w1. split_and!; [done|done|done..|].
  unfold main. rewrite Ho, Hf, (proj2 (Z.eqb_neq _ _) Hc), Hw, E. cbn [mbind option_bind].
  assert (0 <= data_size rs) as Hd by (clear; induction rs as [|[] rs IH]; cbn [data_size]; lia).
  rewrite (proj2 (Z.ltb_ge _ _) Hd). cbn [open_loop]. by rewrite Eo.
Qed.

(** The part the options say. *)
Definition part_of (o : options) : Prop :=
  known_sizes o /\ FLASHEND + 1 = code_size o /\ SPM_PAGESIZE = block_size o /\ code_size o <> 0.

Lemma report_bytes o st rs a : image_is st rs -> records_ok 0 rs -> part_of o -> 0 <= a ->
  Forall is_u8 (block_report o st a) /\ Z.of_nat (length (block_report o st a)) = 2 + SPM_PAGESIZE.
Proof.
  intros Hi Hr (_ & _ & Hs & _) Ha. unfold block_report. rewrite <- Hs.
  destruct (block_data_ok st rs Hi Hr a Ha) as [D1 D2]. rewrite Forall_app, length_app.
  assert (forall x, is_u8 (x .& 255)) as U by (intros x; rewrite land_255; by apply (wrap_is_u 8)).
  destruct (_ <? _); (split; [split; [|done]|cbn [length]; lia]); rewrite !Forall_cons_iff; done.
Qed.

(** Except on parts of 64 KB, the device takes the address the host means. *)
Lemma address_sent o a : part_of o -> code_size o <> 0x10000 -> 0 <= a < code_size o -> a mod SPM_PAGESIZE = 0 ->
  exists b0 b1, (forall st, block_report o st a = b0 :: b1 :: ihex_get_data st a SPM_PAGESIZE)
    /\ page_address (le_value [b0; b1]) = a /\ is_start a = false.
Proof.
  intros (Hk & Hf & Hs & H0) H64 Ha Hm. unfold block_report, page_address, is_start, far.
  rewrite <- Hs. assert (code_size o <= 0x8000 \/ code_size o = 0x20000 /\ SPM_PAGESIZE = 256) as [Hc|[Hc Hp]].
  { rewrite Hs. destruct Hk as [|Hk]; [done|]. rewrite !elem_of_cons in Hk.
    destruct Hk as [E|[E|[E|[E|[E|E%elem_of_nil]]]]]; [..|done]; injection E as Ec Eb; lia. }
  - rewrite (proj2 (Z.ltb_lt (code_size o) _)), (proj2 (Z.ltb_ge _ FLASHEND)) by lia.
    exists (a .& 255), ((a .>> 8) .& 255). rewrite word_sent by (unfold is_u; change (2 ^ 16) with 65536; lia).
    split_and!; [done|done|]. apply Z.eqb_neq. unfold COMMAND_STARTAPPLICATION. lia.
  - rewrite (proj2 (Z.ltb_ge (code_size o) _)), (proj2 (Z.ltb_lt _ FLASHEND)) by lia. rewrite Hp in Hm.
    assert (a .>> 8 = a / 256) as E8 by (by rewrite Z.shiftr_div_pow2).
    assert (0 <= a / 256 < 0x200) as Hq by (split; [apply Z.div_pos; lia|apply Z.div_lt_upper_bound; lia]).
    assert (u32 ((a .>> 8) .<< 8) = a) as Ea.
    { rewrite Z.shiftl_mul_pow2, E8 by done. change (2 ^ 8) with 256.
      rewrite wrap_id by (unfold is_u; lia). pose proof (Z.div_mod a 256). lia. }
    exists ((a .>> 8) .& 255), ((a .>> 16) .& 255). replace (a .>> 16) with ((a .>> 8) .>> 8) by (by rewrite Z.shiftr_shiftr).
    rewrite word_sent by (rewrite E8; unfold is_u; change (2 ^ 16) with 65536; lia).
    split_and!; [done|done|]. rewrite E8, wrap_id by (unfold is_u; change (2 ^ 16) with 65536; lia).
    apply Z.eqb_neq. unfold COMMAND_STARTAPPLICATION. lia.
Qed.

(** ** The flash after the program *)

(** The last report starts the application. *)
Lemma boot_report_applied o d : apply_report (boot_report o) d = set_RunBootloader false d.
Proof. unfold apply_report, boot_report, page_address, is_start, far. cbn [Datatypes.app]. by destruct (_ <? FLASHEND). Qed.

Lemma boot_report_bytes o : part_of o ->
  Forall is_u8 (boot_report o) /\ Z.of_nat (length (boot_report o)) = 2 + SPM_PAGESIZE.
Proof.
  intros (_ & _ & Hs & _). destruct page_pos as [P _]. unfold boot_report. rewrite length_app, length_replicate.
  split; [|cbn [length]; lia]. rewrite Forall_app, !Forall_cons_iff. by split_and!; try apply Forall_replicate.
Qed.

(** What is left of [program_device] behind the loop. *)
Lemma device_programmed o st h w0 (P : Z -> hid_boot -> Prop) : linked h -> part_of o -> P 0 (boot w0) ->
  (forall a d, P a d -> a < code_size o ->
    if (0 <? a) && negb (ihex_bytes_within_range st a (a + block_size o - 1)) then P (a + block_size o) d
    else P (a + block_size o) (apply_report (block_report o st a) d)) ->
  (forall a d, P a d -> Forall is_u8 (block_report o st a) /\ Z.of_nat (length (block_report o st a)) = 2 + SPM_PAGESIZE) ->
  exists a d w', P a d /\ code_size o <= a /\ program_device o st (Some h) w0 = Some (End w')
    /\ boot w' = (if reboot_after_programming o then set_RunBootloader false d else d)
    /\ forall f, read_file f w' = read_file f w0.
Proof.
  intros Hh Ho H0 Hblock Hrep. pose proof Ho as (_ & _ & Hs & _). destruct page_pos as [Pp _].
  set (Q := fun a w => P a (boot w) /\ forall f, read_file f w = read_file f w0).
  destruct (program_blocks_run o st (Some h) Q ltac:(lia)) with (n := Z.to_nat (code_size o)) (first := true) (a := 0) (w := w0)
    as (a & w & E & Ha & HP & Hf); [|done|lia|].
  - intros a w [HP Hf] Ha. specialize (Hblock a (boot w) HP Ha). destruct (_ && _); [done|]. intros t.
    destruct (Hrep a (boot w) HP) as [R1 R2]. destruct (report_delivered h (block_report o st a) t w) as (w' & Ew & Hb & Hf'); try done.
    exists w'. split; [done|]. split; [by rewrite Hb|]. intros f. by rewrite Hf', Hf.
  - unfold program_device. rewrite E. destruct (reboot_after_programming o).
    + destruct (boot_report_bytes o Ho). destruct (report_delivered h (boot_report o) 250 w) as (w2 & -> & Hb2 & Hf2); try done.
      cbn [snd]. destruct (handle_closed h w2) as [C1 C2]. exists a, (boot w). eexists. split_and!; [done|done|done| |].
      * by rewrite C1, Hb2, boot_report_applied.
      * intros f. by rewrite C2, Hf2, Hf.
    + destruct (handle_closed h w) as [C1 C2]. exists a, (boot w). eexists.
      split_and!; [done|done|done|done|]. intros f. by rewrite C2, Hf.
Qed.

(** The blocks below [a] are in the flash. *)
Definition loaded_below (rs : list hex_record) (d0 : hid_boot) (a : Z) (d : hid_boot) : Prop :=
  0 <= a /\ a mod SPM_PAGESIZE = 0 /\ RunBootloader d = RunBootloader d0
  /\ (forall i, buffered (memory d) i = None)
  /\ forall x, on_chip x -> flash (memory d) x =
       if (x <? a) && page_used rs x then block_byte rs x else flash (memory d0) x.

Lemma next_block rs st o d0 a d : part_of o -> code_size o <> 0x10000 -> image_is st rs -> records_ok 0 rs ->
  loaded_below rs d0 a d -> a < code_size o ->
  if (0 <? a) && negb (ihex_bytes_within_range st a (a + block_size o - 1)) then loaded_below rs d0 (a + block_size o) d
  else loaded_below rs d0 (a + block_size o) (apply_report (block_report o st a) d).
Proof.
  intros Ho H64 Hi Hr (Ha & Hm & Hrun & Hbuf & Hfl) Hlt. pose proof Ho as (_ & Hc & Hs & _). rewrite <- Hs.
  destruct page_pos as [Pp _]. assert ((a + SPM_PAGESIZE) mod SPM_PAGESIZE = 0) as Hm'.
  { rewrite <- Hm. rewrite <- (Z.mul_1_l SPM_PAGESIZE) at 1. apply Z.mod_add. lia. }
  assert (on_chip a) as Hca by (unfold on_chip; lia).
  assert (forall x, a <= x < a + SPM_PAGESIZE -> (0 <? a) && negb (ihex_bytes_within_range st a (a + SPM_PAGESIZE - 1))
    = negb (page_used rs x)) as Hskip by (intros x Hx; by apply block_skipped).
  destruct (_ && _).
  - split_and!; try done; [lia|]. intros x Hx. rewrite Hfl by done. specialize (Hskip x).
    destruct (Z.ltb_spec x a), (Z.ltb_spec x (a + SPM_PAGESIZE)); try (done || lia). cbn [andb].
    destruct (page_used rs x); [|done]. by specialize (Hskip ltac:(lia)).
  - destruct (address_sent o a Ho H64 ltac:(lia) Hm) as (b0 & b1 & Er & Ea & Es). rewrite Er. cbn [apply_report].
    rewrite Ea, Es. destruct (block_data_ok st rs Hi Hr a Ha) as [D1 D2].
    split_and!; try done; [lia|by intros i; apply enable_buffered|]. intros x Hx. cbn [memory set_memory].
    rewrite page_programmed_flash by done. specialize (Hskip x). rewrite Hfl by done.
    case_bool_decide as Hin.
    + rewrite (proj2 (Z.ltb_lt x (a + SPM_PAGESIZE))) by lia. rewrite (block_data st rs) by done.
      destruct (page_used rs x); [done|]. by specialize (Hskip ltac:(lia)).
    + destruct (Z.ltb_spec x a), (Z.ltb_spec x (a + SPM_PAGESIZE)); try done; lia.
Qed.

(** On the part, the loader sends the file's bytes, if the file has none in the last 256 bytes below
    64 KB of a part of 128 KB. *)
Lemma sent_byte o rs x : part_of o -> code_size o <> 0x10000 -> records_ok 0 rs -> on_chip x ->
  (code_size o = 0x20000 -> forall y, 0xFF00 <= y <= 0xFFFF -> image_of 0 rs y = None) ->
  block_byte rs x = default 0xFF (image_of 0 rs x).
Proof.
  intros (Hk & Hf & Hs & H0) H64 Hr [Hx0 Hx] Hgap. unfold block_byte.
  destruct (Z.leb_spec MAX_MEMORY_SIZE (page_start x + SPM_PAGESIZE)) as [Hle|]; [|done].
  destruct (image_of 0 rs x) as [b|] eqn:E; [|done]. pose proof (image_range rs 0 x b Hr E) as [Hb Hxm].
  unfold MAX_MEMORY_SIZE in *. exfalso. assert (page_start x <= x) as Hps.
  { unfold page_start. destruct page_pos as [P _]. pose proof (Z.mul_div_le x SPM_PAGESIZE P). lia. }
  destruct Hk as [|Hk]; [done|]. rewrite !elem_of_cons in Hk.
  destruct Hk as [K|[K|[K|[K|[K|K%elem_of_nil]]]]]; [..|done]; injection K as Ec Eb; try lia.
  specialize (Hgap Ec x ltac:(lia)). congruence.
Qed.


(** On a part of 64 KB the host sends the number of a block and the device takes it for an
    address in the first page. *)
Lemma address_sent_64k o st a m x : part_of o -> code_size o = 0x10000 -> 0 <= a < code_size o ->
  SPM_PAGESIZE <= x -> on_chip x ->
  flash (memory (apply_report (block_report o st a) m)) x = flash (memory m) x.
Proof.
  intros (Hk & Hf & Hs & H0) Hc Ha Hxp Hx. assert (SPM_PAGESIZE = 256) as Hp.
  { rewrite Hs. destruct Hk as [|Hk]; [done|]. rewrite !elem_of_cons in Hk.
    destruct Hk as [E|[E|[E|[E|[E|E%elem_of_nil]]]]]; [..|done]; injection E as Ec Eb; lia. }
  assert (0 <= a / 256 < 256) as Hq by (split; [apply Z.div_pos; lia|apply Z.div_lt_upper_bound; lia]).
  unfold block_report. rewrite <- Hs, (proj2 (Z.ltb_ge (code_size o) _)) by lia. cbn [Datatypes.app apply_report].
  replace (a .>> 16) with ((a .>> 8) .>> 8) by (by rewrite Z.shiftr_shiftr).
  replace (a .>> 8) with (a / 256) by (by rewrite Z.shiftr_div_pow2).
  rewrite word_sent by (unfold is_u; change (2 ^ 16) with 65536; lia).
  unfold page_address, is_start, far. rewrite (proj2 (Z.ltb_ge _ FLASHEND)) by lia.
  rewrite (proj2 (Z.eqb_neq _ _)) by (unfold COMMAND_STARTAPPLICATION; lia). cbn [memory set_memory].
  apply page_programmed_other; [unfold on_chip; lia|done|]. unfold same_page. rewrite Hp, (Z.div_small (a / 256)) by lia.
  apply Z.eqb_neq. assert (1 <= x / 256) by (apply Z.div_le_lower_bound; lia). lia.
Qed.

(** C27: on parts with 64 KB of flash the two programs disagree on the address format (the loader
    tests code_size < 0x10000, the bootloader FLASHEND > 0xFFFF): whatever the file holds, the
    loader runs to its end without an error, and the flash behind the first page is as before. *)
Theorem part_64k_not_loaded n buf buf' args o f rs w :
  parse_options args options_init = Some o -> filename o = Some f ->
  FLASHEND + 1 = code_size o -> SPM_PAGESIZE = block_size o -> code_size o = 0x10000 ->
  read_file f w = Some (print_file rs) -> records_ok 0 rs ->
  exists w', main (S n) buf buf' args w = Some (End w')
    /\ (forall x, SPM_PAGESIZE <= x <= FLASHEND -> flash (memory (boot w')) x = flash (memory (boot w)) x).
Proof.
  intros Ho Hf Hc Hs H64 Hw Hr.
  assert (part_of o) as Hp by (split; [apply (parse_options_known args options_init); [by left|done]|by rewrite H64 in *]).
  destruct (main_programs n buf buf' args o f rs w Ho Hf ltac:(lia) Hw Hr) as (st & h & w1 & Hi & Hh & [K1 K2] & ->).
  destruct page_pos as [Pp _].
  destruct (device_programmed o st h w1 (fun a d => 0 <= a /\ forall x, SPM_PAGESIZE <= x <= FLASHEND ->
    flash (memory d) x = flash (memory (boot w)) x)) as (a & d & w' & HP & Ha & -> & Hb & _); [done|done|by rewrite K1| | |].
  - intros a d [Ha HP] Hlt. destruct (_ && _); (split; [lia|]); [done|]. intros x Hx.
    rewrite address_sent_64k by (done || unfold on_chip; lia). by apply HP.
  - intros a d (Ha & _). by apply (report_bytes o st rs).
  - exists w'. split; [done|]. intros x Hx. rewrite Hb.
    replace (memory _) with (memory d) by (by destruct (reboot_after_programming o)). by apply HP.
Qed.
End Attached.
