(* ===== verification/HidExamples.v ===== *)
(** * HidExamples: the loader and the HID bootloader on concrete files and parts

    The control endpoint of [DfuExamples.v], parts of the sizes the loader knows, a bus on which
    the bootloader is attached ([desk], an instance of [BootloaderOnBus]), and the theorems on the
    loader applied to small hex files. *)
From stdpp Require Import strings.
From S2P Require Import Prelude Machine Logic Endpoint UsbController DeviceRequests Firmware.
From S2P Require Import Nvm DfuHost DfuExamples HidBoot HidPages IntelHex HexFiles Loader HidLoad.
Import Endpoint HidBoot IntelHex Loader.

#[local] Instance junk : Locals := {| junk_len := 77; junk_addr := 78; junk_code := 79; junk_i := 80; junk_cksum := 81 |}.

(** ** The reader *)

(** Two records behind a segment address, one of them over the other. *)
Definition small_file : list hex_record :=
  [SegmentRecord 0x0010; DataRecord 0x20 [0xDE; 0xAD; 0xBE; 0xEF]; DataRecord 0x22 [0x12]; LinearRecord 0].

Lemma small_file_ok : records_ok 0 small_file.
Proof. by repeat (split || constructor). Qed.

(** The text of the second record. *)
Example small_record_text : print_record (DataRecord 0x20 [0xDE; 0xAD; 0xBE; 0xEF]) = str ":04002000DEADBEEFA4" ++ [10].
Proof. by vm_compute. Qed.

Lemma hex_file_roundtrip_witness :
  exists st, read_intel_hex (Some (print_file small_file)) [] = Some (5, st)
    /\ ihex_get_data st 0x11F 6 = [0xFF; 0xDE; 0xAD; 0x12; 0xEF; 0xFF].
Proof.
  destruct (hex_file_roundtrip small_file [] small_file_ok) as (st & E & Hd & _).
  exists st. split; [exact E|]. rewrite Hd by (unfold MAX_MEMORY_SIZE; lia). by vm_compute.
Defined.

Lemma damaged_record_refused_witness :
  exists st, read_intel_hex (Some (concat (print_record <$> small_file) ++ hex_line 0x30 0 [1; 2] 0 ++ [])) [] = Some (-2, st).
Proof.
  apply (damaged_record_refused small_file 0x30 [1; 2] 0 [] [] 0 small_file_ok); [done| |done|done].
  by repeat (split || constructor).
Defined.

Lemma wrapped_record_overflows_witness :
  read_intel_hex (Some (concat (print_record <$> small_file) ++ print_record (LinearRecord 0xFFFF)
                        ++ hex_line 0xFFFF 0 [1] 0 ++ [])) [] = None.
Proof. apply (wrapped_record_overflows small_file 0xFFFF [1] 0 [] [] small_file_ok); by repeat (split || constructor). Defined.

(** ** Programming *)

#[local] Instance few_rounds : Fuel := 4%nat.

(** A request with its data stage on the way. *)
Definition control_write (r : USB_Request_Header_t) (bytes : list Z) : @mcu host_hardware :=
  @Mcu host_hardware (HostState (data_stage bytes) 0) (fun _ => 0)
    (UsbGlobals true r DEVICE_STATE_Configured 1 false false)
    script_port (LoccGlobals 0 SLEEP 0) app_init (fun _ => 0) [].

Lemma control_write_ok r bytes : exists u, USB_ControlRequest u = r
  /\ @sees host_hardware host_control (control_write r bytes) (data_stage bytes) 0 [] u.
Proof. eexists (usb (control_write r bytes)). done. Qed.

(** A host with the bootloader and another device on the bus: the bootloader's statics and the
    files of the host. *)
Record desk {NV : Nvm} := Desk { on_desk : hid_boot; files : list Z -> option (list Z) }.

Section Bench.
Context {NV : Nvm}.

Definition attached : Libusb := {|
  world := desk;
  device := bool;
  usb_handle := unit;
  idVendor b := if b then 0x03eb else 0x046d;
  idProduct b := if b then 0x2067 else 0xc03d;
  usb_find w := w;
  usb_get_busses _ := [[]; [false; true]];
  usb_open _ w := (Some tt, w);
  has_get_driver_np := true;
  usb_get_driver_np _ _ w := (0, w);
  usb_detach_kernel_driver_np _ _ w := (0, w);
  usb_claim_interface _ _ w := (0, w);
  usb_release_interface _ _ w := w;
  usb_close _ w := w;
  usb_control_msg _ requesttype request value index bytes _ w :=
    match ControlRequest (PRE := no_preempt) (on_desk w)
            (control_write (USB_Request_Header requesttype request value index (Z.of_nat (length bytes))) bytes) with
    | Some (d, _) => (Z.of_nat (length bytes), Desk _ d (files w))
    | None => (-1, w)
    end;
  read_file f w := files w f;
  delay _ w := w |}.

Definition bench : @BootloaderOnBus host_hardware host_control few_rounds NV attached.
Proof.
  refine (@Build_BootloaderOnBus host_hardware host_control few_rounds NV attached
    on_desk (fun _ => True) _ _ _ _ _ _ _ _ _ _ _ _); try done.
  - intros w dev _. destruct dev; left; discriminate.
  - intros w. exists [false], true, []. split; [done|]. split_and!; [|done|done|].
    + intros x Hx. apply list_elem_of_singleton in Hx as ->. by left.
    + intros w'. by exists tt.
  - intros h rt rq v i bytes t w _. set (r := USB_Request_Header _ _ _ _ _).
    destruct (control_write_ok r bytes) as (u & Hu & Hs). exists u, (control_write r bytes).
    split_and!; [done|done|]. intros d s' E. cbn [usb_control_msg attached]. fold r. rewrite E.
    eexists _, _. split; [done|]. split_and!; [lia|done|done].
Defined.
End Bench.

(** A part that holds 0x11 everywhere, and one file. *)
Definition full_part (page last : Z) : @nvm (part page last) := Chip (fun _ => 0x11) (fun _ => None) (fun _ => 0x22) true.
Definition desk_of (page last : Z) : @desk (part page last) :=
  Desk (part page last) (@hid_reset (part page last) 0 (full_part page last))
    (fun f => if decide (f = str "locc.hex") then Some (print_file small_file) else None).

Definition args32 := [str "-mmcu=atmega32u4"; str "locc.hex"].
Definition args64 := [str "-mmcu=at90usb646"; str "locc.hex"].

Definition laws32 : @NvmLaws (part 128 0x7FFF) := part_laws 7 128 0x7FFF ltac:(lia) eq_refl eq_refl.
Definition laws64 : @NvmLaws (part 256 0xFFFF) := part_laws 8 256 0xFFFF ltac:(lia) eq_refl eq_refl.

#[local] Abbreviation run page last := (@main (@attached (part page last)) junk 1 [] []).


(** The same file on a part of 64 KB. *)
Lemma part_64k_not_loaded_witness :
  exists w' : @desk (part 256 0xFFFF), run 256 0xFFFF args64 (desk_of 256 0xFFFF) = Some (@End attached w')
    /\ @flash _ laws64 (memory (on_desk w')) 0x120 = 0x11.
Proof.
  destruct (@part_64k_not_loaded host_hardware host_control few_rounds ltac:(unfold fuel, few_rounds; lia) (part 256 0xFFFF) laws64 junk
    attached bench 0 [] [] args64 (Options false false true false 0x10000 256 (Some (str "locc.hex")))
    (str "locc.hex") small_file (desk_of 256 0xFFFF)) as (w' & E & Hf);
    [by vm_compute|done|done|done|done|by vm_compute|exact small_file_ok|].
  exists w'. split; [exact E|]. exact (Hf 0x120 ltac:(cbn; lia)).
Defined.

(** ** A length the format does not have *)

(** The scanner takes a sign: the length is -1, and the loop runs on behind the end of the image. *)
Example negative_length_overflows : read_intel_hex (Some (str ":-1FFFF00AABB" ++ [10])) [] = None.
Proof. by vm_compute. Qed.
