(* ===== verification/Transfers.v ===== *)
(** * Transfers: the bytes a stream function moves

    What the stream functions of [EndpointStream.v] put into and take out of the FIFO of the
    selected endpoint, whatever interrupts them, up to a bus reset.  [xfers] is the abstract
    transfer: [m] bytes between a buffer and the endpoint; the loops are shown to perform one
    and to report how far it got. *)
From S2P Require Import Prelude Machine Logic Endpoint EndpointStream UsbController DeviceRequests.
From S2P Require Import Cdc Locc Interrupts Descriptors Firmware Selection.
Import Endpoint Stream Controller Requests Cdc Interrupts.

Section Moves.
Context {HW : Hardware} (ep : Z) (ep_range : is_u 4 ep).

(** With [ep] selected before and after, [ws] was written to its FIFO and [rs] read from it. *)
Definition moves (ws rs : list Z) (s : mcu) (t : list event) (s' : mcu) : Prop :=
  no_reset t -> uenum s = ep -> uenum s' = ep /\ sent ep t = ws /\ received ep t = rs.

Lemma moves_trans ws rs ws' rs' s t s1 t' s2 :
  moves ws rs s t s1 -> moves ws' rs' s1 t' s2 -> moves (ws ++ ws') (rs ++ rs') s (t ++ t') s2.
Proof.
  intros H1 H2 [N1 N2]%no_reset_app Hu. destruct (H1 N1 Hu) as (E1 & <- & <-).
  destruct (H2 N2 E1) as (E2 & <- & <-). by rewrite sent_app, received_app.
Qed.

Lemma keeps_moves s t s' : keeps ep s t s' -> moves [] [] s t s'.
Proof. intros H N Hu. destruct (H N) as (E & S & S'); [by rewrite Hu|]. by rewrite E. Qed.

Lemma keeps_then_moves ws rs s t s1 t' s2 :
  keeps ep s t s1 -> moves ws rs s1 t' s2 -> moves ws rs s (t ++ t') s2.
Proof. intros H1%keeps_moves. by apply (moves_trans [] []). Qed.

Lemma moves_then_keeps ws rs s t s1 t' s2 :
  moves ws rs s t s1 -> keeps ep s1 t' s2 -> moves ws rs s (t ++ t') s2.
Proof.
  intros H1 H2%keeps_moves. rewrite <- (app_nil_r ws), <- (app_nil_r rs). by eapply moves_trans.
Qed.

Context {PRE : Preempt} {FU : Fuel} (pre_ok : obeys (keeps ep) preempt).

Lemma write_8_moves v : spec (Endpoint_Write_8 v) (fun s _ t s' => moves [u8 v] [] s t s').
Proof.
  eapply (spec_bind _ _ _ (fun _ s _ t s' => moves [u8 v] [] s t s')); [exact pre_ok| |].
  - intros u. apply spec_raw_write. intros s _ Hu. cbn. split; [done|].
    unfold sent, received. cbn. by rewrite Hu, Z.eqb_refl.
  - cbn beta. intros. by eapply keeps_then_moves.
Qed.

Lemma read_8_moves : spec Endpoint_Read_8 (fun s v t s' => moves [] [v] s t s').
Proof.
  eapply (spec_bind _ _ _ (fun _ s v t s' => moves [] [v] s t s')); [exact pre_ok| |].
  - intros u. apply spec_raw_read; [done|]. intros s v h _ _ _ Hu. cbn. split; [done|].
    unfold sent, received. cbn. by rewrite Hu, Z.eqb_refl.
  - cbn beta. intros. by eapply keeps_then_moves.
Qed.

(** ** Abstract transfers *)

(** One byte: [one b i b' ws rs] relates the buffer and offset before, the buffer after, and
    the bytes moved. *)
Definition transfer := buffer -> Z -> buffer -> list Z -> list Z -> Prop.

Definition write_one : transfer := fun b i b' ws rs => b' = b /\ ws = [u8 (b i)] /\ rs = [].
Definition read_one : transfer := fun b i b' ws rs => exists v, b' = buf_set b i v /\ ws = [] /\ rs = [v].

(** [m] bytes from offset [i] on, [step] apart. *)
Inductive xfers (one : transfer) (step : Z) : Z -> buffer -> Z -> buffer -> list Z -> list Z -> Prop :=
  | xfers_0 b i : xfers one step 0 b i b [] []
  | xfers_S m b i b1 w r b' ws rs :
      one b i b1 w r -> 0 <= m -> xfers one step m b1 (i + step) b' ws rs ->
      xfers one step (m + 1) b i b' (w ++ ws) (r ++ rs).

(** A template's macros perform [one]. *)
Class Transfers (T : template) (one : transfer) := {
  clear_ok : obeys (keeps ep) (TEMPLATE_CLEAR_ENDPOINT T);
  transfer_ok b i : spec (TEMPLATE_TRANSFER_BYTE T b i) (fun s b' t s' =>
    exists ws rs, one b i b' ws rs /\ moves ws rs s t s') }.

Lemma write_transfer b i : spec (write_byte b i) (fun s b' t s' =>
  exists ws rs, write_one b i b' ws rs /\ moves ws rs s t s').
Proof.
  eapply (spec_bind _ _ _ (fun _ s b' t s' => b' = b /\ t = [] /\ s' = s)); [apply write_8_moves| |].
  - intros u. by apply spec_ret.
  - cbn beta. intros s u t s1 b' t' s2 H (-> & -> & ->). rewrite app_nil_r. by exists [u8 (b i)], [].
Qed.

Lemma read_transfer b i : spec (read_byte b i) (fun s b' t s' =>
  exists ws rs, read_one b i b' ws rs /\ moves ws rs s t s').
Proof.
  eapply (spec_bind _ _ _ (fun v s b' t s' => b' = buf_set b i v /\ t = [] /\ s' = s)); [apply read_8_moves| |].
  - intros u. by apply spec_ret.
  - cbn beta. intros s v t s1 b' t' s2 H (-> & -> & ->). rewrite app_nil_r.
    exists [], [v]. split; [by exists v|done].
Qed.

Lemma transfers_write c o k : obeys (keeps ep) c -> Transfers (Template c o k write_byte) write_one.
Proof. intros Hc. split; [exact Hc|exact write_transfer]. Qed.
Lemma transfers_read c o k : obeys (keeps ep) c -> Transfers (Template c o k read_byte) read_one.
Proof. intros Hc. split; [exact Hc|exact read_transfer]. Qed.
End Moves.

(** Storing bytes [step] apart. *)
Fixpoint buf_store (b : buffer) (i step : Z) (vs : list Z) : buffer :=
  match vs with [] => b | v :: vs' => buf_store (buf_set b i v) (i + step) step vs' end.

(** The bytes at [m] offsets from [i] on, [step] apart. *)
Definition buf_bytes (b : buffer) (i step m : Z) : list Z :=
  (fun j => u8 (b (i + step * j))) <$> seqZ 0 m.

Lemma buf_bytes_S b i step m : 0 <= m ->
  buf_bytes b i step (m + 1) = u8 (b i) :: buf_bytes b (i + step) step m.
Proof.
  intros Hm. unfold buf_bytes. rewrite seqZ_cons by lia. cbn [fmap list_fmap].
  rewrite Z.mul_0_r, Z.add_0_r. f_equal. rewrite Z.add_1_r, Z.pred_succ.
  change (Z.succ 0) with (1 + 0). rewrite <- (fmap_add_seqZ 1 0 m), <- list_fmap_compose. apply list_fmap_ext. intros k x _. cbn.
  f_equal. f_equal. lia.
Qed.

Lemma buf_bytes_app c i step m m' : 0 <= m -> 0 <= m' ->
  buf_bytes c i step (m + m') = buf_bytes c i step m ++ buf_bytes c (i + step * m) step m'.
Proof.
  intros Hm Hm'. unfold buf_bytes. rewrite seqZ_app, fmap_app by done. f_equal.
  rewrite Z.add_comm, <- (fmap_add_seqZ m 0 m'), <- list_fmap_compose.
  apply list_fmap_ext. intros k x _. cbn. f_equal. f_equal. lia.
Qed.

Lemma xfers_write step m b i b' ws rs : xfers write_one step m b i b' ws rs ->
  0 <= m /\ b' = b /\ ws = buf_bytes b i step m /\ rs = [].
Proof.
  induction 1 as [|m b i b1 w r b' ws rs (-> & -> & ->) Hm _ (_ & -> & -> & ->)]; [done|].
  split_and!; [lia|done|by rewrite buf_bytes_S|done].
Qed.

Lemma xfers_read step m b i b' ws rs : xfers read_one step m b i b' ws rs ->
  Z.of_nat (length rs) = m /\ b' = buf_store b i step rs /\ ws = [].
Proof.
  induction 1 as [|m b i b1 w r b' ws rs (v & -> & -> & ->) Hm _ (Hl & -> & ->)]; [done|].
  split_and!; [cbn; lia|done|done].
Qed.

Lemma buf_store_out b i step vs j :
  (forall k, (k < length vs)%nat -> j <> i + step * Z.of_nat k) -> buf_store b i step vs j = b j.
Proof.
  revert b i. induction vs as [|v vs IH]; intros b i Hj; [done|]. cbn. rewrite IH.
  - unfold buf_set. case_decide; [|done]. exfalso. apply (Hj 0%nat); cbn; lia.
  - intros k Hk. specialize (Hj (S k)). cbn in Hj. lia.
Qed.

Lemma buf_store_in b i step vs k v : step <> 0 -> vs !! k = Some v ->
  buf_store b i step vs (i + step * Z.of_nat k) = v.
Proof.
  intros Hs. revert b i k. induction vs as [|w vs IH]; intros b i k Hk; [done|].
  destruct k as [|k]; cbn [buf_store].
  - injection Hk as ->. rewrite buf_store_out by (intros; nia). unfold buf_set.
    rewrite decide_True; [done|lia].
  - replace (i + step * Z.of_nat (S k)) with (i + step + step * Z.of_nat k) by lia. by apply IH.
Qed.

(** ** Waiting *)
Section Wait.
Context {HW : Hardware} {PRE : Preempt} {FU : Fuel}.

Lemma wait_codes : yields (fun e => 0 <= e <= ENDPOINT_READYWAIT_Timeout) Endpoint_WaitUntilReady.
Proof.
  apply yields_bind. intros f. apply yields_iter. intros [a b]. unfold wait_ready_poll.
  repeat match goal with
    | |- yields _ (if ?b then _ else _) => destruct b
    | |- yields _ (ret _) => apply yields_ret; unfold ENDPOINT_READYWAIT_Timeout; done
    | |- yields _ (bind _ _) => apply yields_bind; intros
    end.
Qed.
End Wait.

(** ** [Template_Endpoint_RW] *)
Section Stream.
Context {HW : Hardware} (ep : Z) (ep_range : is_u 4 ep).
Context {PRE : Preempt} {FU : Fuel} (pre_ok : obeys (keeps ep) preempt).
Context (T : template) (one : transfer) {TO : Transfers ep T one}.

(** What a transfer of up to [L] bytes that stops after [m] of them reports, when [B] bytes
    were moved before. *)
Definition reports (L B m : Z) (bp : option Z) (e : Z) (bp' : option Z) : Prop :=
  (e = ENDPOINT_RWSTREAM_NoError /\ m = L /\ bp' = bp)
  \/ (e = ENDPOINT_RWSTREAM_IncompleteTransfer /\ m < L
      /\ exists p, bp = Some p /\ bp' = Some (u16 (p + (B + m))))
  \/ (0 < e <= ENDPOINT_RWSTREAM_Timeout /\ m < L /\ bp = None /\ bp' = None).

(** The loop from the variables [v]. *)
Definition stream_post (bp : option Z) (v : stream_vars) (s : mcu) (r : stream_result)
    (t : list event) (s' : mcu) : Prop :=
  0 <= Length v ->
  exists m ws rs,
    xfers one (TEMPLATE_BUFFER_STEP T) m (Buffer v) (DataStream v) r.2 ws rs
    /\ 0 <= m <= Length v /\ moves ep ws rs s t s'
    /\ reports (Length v) (BytesInTransfer v) m bp r.1.1 r.1.2.

(** One pass: leaves the loop with nothing moved, goes round without moving, or moves a byte. *)
Definition pass_post (bp : option Z) (v : stream_vars) (s : mcu) (r : stream_vars + stream_result)
    (t : list event) (s' : mcu) : Prop :=
  match r with
  | inr y => y.2 = Buffer v /\ keeps ep s t s'
             /\ (0 <= Length v -> reports (Length v) (BytesInTransfer v) 0 bp y.1.1 y.1.2)
  | inl v' => (v' = v /\ keeps ep s t s')
      \/ (Length v <> 0 /\ Length v' = Length v - 1
          /\ DataStream v' = DataStream v + TEMPLATE_BUFFER_STEP T
          /\ BytesInTransfer v' = u16 (BytesInTransfer v + 1)
          /\ exists ws rs, one (Buffer v) (DataStream v) (Buffer v') ws rs /\ moves ep ws rs s t s')
  end.

Lemma keeps_then_pass bp v s t s1 r t' s2 :
  keeps ep s t s1 -> pass_post bp v s1 r t' s2 -> pass_post bp v s r (t ++ t') s2.
Proof.
  intros K H. destruct r as [v'|y].
  - destruct H as [[-> K']|(? & ? & ? & ? & ws & rs & ? & ?)].
    + left. split; [done|]. by eapply policy_trans.
    + right. split_and!; try done. exists ws, rs. split; [done|]. by eapply keeps_then_moves.
  - destruct H as (? & K' & ?). split_and!; [done| |done]. by eapply policy_trans.
Qed.

(** A byte is transferred after the readiness test. *)
Lemma pass_transfer bp v : Length v <> 0 ->
  spec (b <- TEMPLATE_TRANSFER_BYTE T (Buffer v) (DataStream v) ;;
        ret (inl (StreamVars (Length v - 1) (DataStream v + TEMPLATE_BUFFER_STEP T)
                    (u16 (BytesInTransfer v + 1)) b))) (pass_post bp v).
Proof.
  intros HL.
  eapply (spec_bind _ _ _ (fun b s r t s' => t = [] /\ s' = s /\ r = inl (StreamVars
    (Length v - 1) (DataStream v + TEMPLATE_BUFFER_STEP T) (u16 (BytesInTransfer v + 1)) b))).
  { apply transfer_ok; exact TO. }
  { intros b. by apply spec_ret. }
  cbn beta. intros s b t s1 r t' s2 (ws & rs & H1 & H2) (-> & -> & ->). rewrite app_nil_r.
  right. cbn. split_and!; try done. by exists ws, rs.
Qed.

(** The endpoint is cleared and the next bank awaited. *)
Lemma pass_wait bp v : Length v <> 0 ->
  spec (TEMPLATE_CLEAR_ENDPOINT T ;;
        match bp with
        | Some p => ret (inr (ENDPOINT_RWSTREAM_IncompleteTransfer,
                              Some (u16 (p + BytesInTransfer v)), Buffer v))
        | None =>
            ErrorCode <- Endpoint_WaitUntilReady ;;
            if truth ErrorCode then ret (inr (ErrorCode, bp, Buffer v)) else ret (inl v)
        end) (pass_post bp v).
Proof.
  intros HL. eapply (spec_bind _ _ _ (fun _ => pass_post bp v)); [eapply clear_ok; exact TO| |].
  - intros u. destruct bp as [p|].
    + apply spec_ret. intros s. split_and!; [done|apply policy_refl|]. intros H0. right; left.
      split_and!; [done|lia|]. exists p. cbn. by rewrite Z.add_0_r.
    + eapply (spec_bind _ _ _ (fun e s r t s' => t = [] /\ s' = s
        /\ r = if truth e then inr (e, None, Buffer v) else inl v)).
      * apply (spec_yields _ _ (fun s _ t s' => keeps ep s t s') (wait_keeps ep pre_ok) wait_codes).
      * intros e. destruct (truth e); by apply spec_ret.
      * cbn beta. intros s e t s1 r t' s2 [K He] (-> & -> & ->). rewrite app_nil_r.
        destruct (truth e) eqn:E; [|by left]. split_and!; [done|done|]. intros H0. right; right.
        unfold truth in E. destruct (Z.eqb_spec e 0); [done|].
        unfold ENDPOINT_READYWAIT_Timeout, ENDPOINT_RWSTREAM_Timeout in *. cbn. split_and!; [lia..|done|done].
  - cbn beta. intros. by eapply keeps_then_pass.
Qed.

Lemma pass_spec bp v : spec (rw_pass T bp v) (pass_post bp v).
Proof.
  unfold rw_pass, truth. destruct (Z.eqb_spec (Length v) 0) as [HL|HL]; cbn [negb].
  - apply spec_ret. intros s. split_and!; [done|apply policy_refl|]. intros _. left. done.
  - eapply (spec_bind _ _ (fun s _ t s' => keeps ep s t s') (fun _ => pass_post bp v)).
    + match goal with |- spec ?m _ => change (obeys (keeps ep) m) end. obey.
    + intros ok. destruct ok; cbn [negb]; [by apply pass_transfer|by apply pass_wait].
    + cbn beta. intros. by eapply keeps_then_pass.
Qed.

Lemma reports_next L B m bp e bp' : 0 <= m ->
  reports (L - 1) (u16 (B + 1)) m bp e bp' -> reports L B (m + 1) bp e bp'.
Proof.
  intros Hm [(-> & -> & ->)|[(-> & Hl & p & -> & ->)|(He & Hl & -> & ->)]].
  - left. split_and!; [done|lia|done].
  - right; left. split_and!; [done|lia|]. exists p. split; [done|]. f_equal.
    replace (p + (B + (m + 1))) with (p + m + (B + 1)) by lia.
    replace (p + (u16 (B + 1) + m)) with (p + m + u16 (B + 1)) by lia.
    by apply wrap_add_r.
  - right; right. split_and!; [lia..|done|done].
Qed.

Lemma loop_spec n bp v : spec (iter n (rw_pass T bp) v) (stream_post bp v).
Proof.
  apply (spec_iter n (rw_pass T bp) v (pass_post bp) (stream_post bp)).
  - intros. apply pass_spec.
  - intros w s y t s' (E & K & Hr) H0. exists 0, [], []. rewrite E.
    split_and!; [constructor|lia|lia|by apply keeps_moves|by apply Hr].
  - intros w s w' t s1 y t' s2 [[-> K]|(HL & EL & ED & EB & ws & rs & Ho & Hm)] H H0.
    + destruct (H H0) as (m & ws & rs & ? & ? & ? & ?). exists m, ws, rs.
      split_and!; [done|lia|lia| |done]. by eapply keeps_then_moves.
    + destruct H as (m & ws' & rs' & Hx & Hm' & Hmv & Hr); [lia|].
      exists (m + 1), (ws ++ ws'), (rs ++ rs'). rewrite EL, EB in Hr. rewrite ED in Hx.
      split_and!; [eapply xfers_S; [exact Ho|lia|exact Hx]|lia|lia|by eapply moves_trans|].
      by apply reports_next; [lia|].
Qed.

(** The whole function: an error while waiting for the first bank leaves the buffer, the
    counter and the FIFO alone; otherwise a transfer of [u16 (len - p)] bytes is begun at
    offset [p]. *)
Lemma template_spec b len bp :
  spec (Template_Endpoint_RW T b len bp) (fun s r t s' =>
    let p := default 0 bp in
    exists m ws rs,
      xfers one (TEMPLATE_BUFFER_STEP T) m b (TEMPLATE_BUFFER_OFFSET T len + TEMPLATE_BUFFER_STEP T * p)
        r.2 ws rs
      /\ moves ep ws rs s t s'
      /\ (reports (u16 (len - p)) 0 m bp r.1.1 r.1.2
          \/ 0 < r.1.1 <= ENDPOINT_RWSTREAM_Timeout /\ m = 0 /\ r.1.2 = bp)).
Proof.
  eapply (spec_bind _ _ _ (fun e s r t s' =>
    if truth e then t = [] /\ s' = s /\ r = (e, bp, b)
    else stream_post bp (StreamVars (u16 (len - default 0 bp))
           (TEMPLATE_BUFFER_OFFSET T len + TEMPLATE_BUFFER_STEP T * default 0 bp) 0 b) s r t s')).
  - apply (spec_yields _ _ (fun s _ t s' => keeps ep s t s') (wait_keeps ep pre_ok) wait_codes).
  - intros e. destruct (truth e); [by apply spec_ret|apply loop_spec].
  - cbn beta. intros s e t s1 r t' s2 [K He] H. destruct (truth e) eqn:E.
    + destruct H as (-> & -> & ->). exists 0, [], []. rewrite app_nil_r.
      split_and!; [constructor|by apply keeps_moves|]. right. cbn.
      unfold truth in E. destruct (Z.eqb_spec e 0); [done|].
      unfold ENDPOINT_READYWAIT_Timeout, ENDPOINT_RWSTREAM_Timeout in *. split_and!; [lia..|done].
    + destruct H as (m & ws & rs & Hx & Hm & Hmv & Hr); [by apply wrap_is_u|]. exists m, ws, rs.
      split_and!; [done|by eapply keeps_then_moves|by left].
Qed.
End Stream.

(** ** The stream functions under interrupts *)
Section Exact.
Context {HW : Hardware} {FU : Fuel} (n : nat) (ep : Z).
#[local] Existing Instance Firmware.firmware_events.
#[local] Instance main_context : Preempt := isr n.

(** The four transfers, by direction and byte order: [p] bytes were moved by earlier calls. *)
Definition stream_le (p m : Z) (b : buffer) : list Z := buf_bytes b p 1 m.
Definition stream_be (len p m : Z) (b : buffer) : list Z := buf_bytes b (len - 1 - p) (-1) m.

(** What a call reports: [m] of [u16 (len - p)] bytes were moved. *)
Definition outcome (len p m : Z) (bp : option Z) (e : Z) (bp' : option Z) : Prop :=
  (e = ENDPOINT_RWSTREAM_NoError /\ m = u16 (len - p) /\ bp' = bp)
  \/ (e = ENDPOINT_RWSTREAM_IncompleteTransfer /\ 0 <= m < u16 (len - p)
      /\ bp = Some p /\ bp' = Some (u16 (p + m)))
  \/ (0 < e <= ENDPOINT_RWSTREAM_Timeout /\ bp' = bp /\ (bp = None \/ m = 0)).

Lemma outcome_of L m len bp e bp' : L = u16 (len - default 0 bp) -> 0 <= m ->
  (reports L 0 m bp e bp' \/ 0 < e <= ENDPOINT_RWSTREAM_Timeout /\ m = 0 /\ bp' = bp) ->
  outcome len (default 0 bp) m bp e bp'.
Proof.
  intros -> Hm [[(-> & -> & ->)|[(-> & Hl & p & -> & ->)|(He & Hl & -> & ->)]]|(He & -> & ->)].
  - by left.
  - right; left. cbn in *. split_and!; [done|lia|lia|done|done].
  - right; right. auto.
  - right; right. auto.
Qed.

Lemma write_stream_spec (be : bool) b len bp :
  ep <> 0 -> is_u 4 ep ->
  spec ((if be then Endpoint_Write_Stream_BE else Endpoint_Write_Stream_LE) b len bp)
    (fun s r t s' => exists m, r.2 = b /\ 0 <= m /\ outcome len (default 0 bp) m bp r.1.1 r.1.2
       /\ moves ep (if be then stream_be len (default 0 bp) m b else stream_le (default 0 bp) m b) []
            s t s').
Proof.
  intros He Hr. pose proof (isr_keeps n ep He) as Hp.
  assert (obeys (keeps ep) Endpoint_ClearIN) as Hc by obey.
  pose proof (fun o k => template_spec ep Hr Hp _ _ (TO := transfers_write ep Hr Hp _ o k Hc) b len bp) as HT.
  destruct be; (eapply spec_conseq; [apply HT|]); cbv zeta beta;
    intros s r t s' (m & ws & rs & Hx & Hmv & Ho);
    apply xfers_write in Hx as (Hm & E & -> & ->); exists m;
    (split_and!; [done|done|by eapply outcome_of|]).
  all: match goal with H : moves _ ?w _ _ _ _ |- moves _ ?w' _ _ _ _ => replace w' with w; [done|] end.
  all: cbv beta iota delta [TEMPLATE_BUFFER_STEP TEMPLATE_BUFFER_OFFSET].
  all: unfold stream_be, stream_le, last_offset, zero_offset; f_equal; lia.
Qed.

Lemma read_stream_spec (be : bool) b len bp :
  ep <> 0 -> is_u 4 ep ->
  spec ((if be then Endpoint_Read_Stream_BE else Endpoint_Read_Stream_LE) b len bp)
    (fun s r t s' => exists vs,
       r.2 = buf_store b (if be then len - 1 - default 0 bp else default 0 bp) (if be then -1 else 1) vs
       /\ outcome len (default 0 bp) (Z.of_nat (length vs)) bp r.1.1 r.1.2
       /\ moves ep [] vs s t s').
Proof.
  intros He Hr. pose proof (isr_keeps n ep He) as Hp.
  assert (obeys (keeps ep) Endpoint_ClearOUT) as Hc by obey.
  pose proof (fun o k => template_spec ep Hr Hp _ _ (TO := transfers_read ep Hr Hp _ o k Hc) b len bp) as HT.
  destruct be; (eapply spec_conseq; [apply HT|]); cbv zeta beta;
    intros s r t s' (m & ws & rs & Hx & Hmv & Ho);
    apply xfers_read in Hx as (Hm & E & ->); exists rs; rewrite E, Hm;
    (split_and!; [|eapply outcome_of; [done|lia|done]|done]).
  all: cbv beta iota delta [TEMPLATE_BUFFER_STEP TEMPLATE_BUFFER_OFFSET].
  all: unfold last_offset, zero_offset; f_equal; lia.
Qed.

(** C8: [Endpoint_Write_Stream_LE] and [_BE], interrupted by anything short of a bus reset:
    the bytes put into the selected endpoint's FIFO are exactly the next [m] bytes of the
    buffer, in order, none skipped or repeated; the selection is kept and nothing is taken
    out.  [NoError] is returned exactly when all of the remaining bytes went out;
    [IncompleteTransfer] reports [BytesProcessed] as the position to resume at; other errors
    are those of the readiness wait and leave [BytesProcessed] alone. *)
Theorem write_stream_exact b len bp s e bp' b' s' :
  ep <> 0 -> is_u 4 ep -> uenum s = ep ->
  forall be : bool,
  (if be then Endpoint_Write_Stream_BE else Endpoint_Write_Stream_LE) b len bp s
    = Some (e, bp', b', s') ->
  let p := default 0 bp in
  exists t m, trace s' = trace s ++ t /\ b' = b /\ 0 <= m /\ outcome len p m bp e bp'
    /\ (no_reset t -> uenum s' = ep /\ received ep t = []
        /\ sent ep t = if be then stream_be len p m b else stream_le p m b).
Proof.
  intros He Hr Hu be H p.
  destruct (write_stream_spec be b len bp He Hr _ _ _ H) as (t & Ht & m & E & Hm & Ho & Hmv).
  exists t, m. split_and!; [done|done|done|done|].
  intros N. destruct (Hmv N Hu) as (? & ? & ?). split_and!; done.
Qed.

(** C9: [Endpoint_Read_Stream_LE] and [_BE] under the same conditions: the [m] bytes taken
    out of the selected endpoint's FIFO are, in order, what the buffer holds afterwards at
    the next [m] positions (upwards, or downwards from the end for [_BE]); every other byte of
    memory around the buffer is left alone, and the report is the same as for writes. *)
Theorem read_stream_exact b len bp s e bp' b' s' :
  ep <> 0 -> is_u 4 ep -> uenum s = ep ->
  forall be : bool,
  (if be then Endpoint_Read_Stream_BE else Endpoint_Read_Stream_LE) b len bp s
    = Some (e, bp', b', s') ->
  let p := default 0 bp in
  let pos k := if be then len - 1 - p - k else p + k in
  exists t vs, trace s' = trace s ++ t /\ outcome len p (Z.of_nat (length vs)) bp e bp'
    /\ (forall k v, vs !! k = Some v -> b' (pos (Z.of_nat k)) = v)
    /\ (forall i, (forall k, (k < length vs)%nat -> i <> pos (Z.of_nat k)) -> b' i = b i)
    /\ (no_reset t -> uenum s' = ep /\ sent ep t = [] /\ received ep t = vs).
Proof.
  intros He Hr Hu be H p pos.
  destruct (read_stream_spec be b len bp He Hr _ _ _ H) as (t & Ht & vs & E & Ho & Hmv).
  cbn in E. subst b'. exists t, vs. split_and!; [done|done| | |].
  - intros k v Hk. etransitivity; [|eapply (buf_store_in b (if be then len - 1 - p else p) (if be then -1 else 1) vs k v); [by destruct be|done]].
    f_equal. unfold pos. destruct be; fold p; lia.
  - intros i Hi. apply buf_store_out. intros k Hk ->. apply (Hi k Hk). unfold pos.
    destruct be; fold p; lia.
  - intros N. by apply Hmv.
Qed.

(** The use of [BytesProcessed] the interface is made for: call again, with the position
    reported, while the transfer is incomplete. *)
Definition write_all (k : nat) (b : buffer) (len : Z) : Z -> M Z :=
  iter k (fun p =>
    r <- Endpoint_Write_Stream_LE b len (Some p) ;;
    ret (if r.1.1 =? ENDPOINT_RWSTREAM_IncompleteTransfer then inl (default 0 r.1.2) else inr r.1.1)).

Lemma stream_le_app p m m' b : 0 <= m -> 0 <= m' ->
  stream_le p (m + m') b = stream_le p m b ++ stream_le (p + m) m' b.
Proof. intros. unfold stream_le. rewrite buf_bytes_app by done. do 2 f_equal. lia. Qed.

(** One call of it. *)
Lemma write_once b len p : ep <> 0 -> is_u 4 ep -> is_u16 len ->
  spec (r <- Endpoint_Write_Stream_LE b len (Some p) ;;
        ret (if r.1.1 =? ENDPOINT_RWSTREAM_IncompleteTransfer then inl (default 0 r.1.2) else inr r.1.1))
    (fun s r t s' => 0 <= p <= len -> exists m, 0 <= m <= len - p
       /\ moves ep (stream_le p m b) [] s t s'
       /\ match r with inl p' => p' = p + m | inr e => e = ENDPOINT_RWSTREAM_NoError -> m = len - p end).
Proof.
  intros He Hr Hl. eapply spec_bind; [apply (write_stream_spec false b len (Some p) He Hr)| |].
  - intros r. apply (spec_ret _ (fun s r' t s' => t = [] /\ s' = s
      /\ r' = if r.1.1 =? ENDPOINT_RWSTREAM_IncompleteTransfer then inl (default 0 r.1.2) else inr r.1.1)).
    done.
  - cbn. intros s r t s1 r' t' s2 (m & _ & Hm & Ho & Hmv) (-> & -> & ->) Hp. rewrite app_nil_r.
    assert (u16 (len - p) = len - p) as Hu by (apply wrap_id; unfold is_u in *; lia).
    exists m. destruct Ho as [(-> & -> & _)|[(-> & Hlt & _ & ->)|(Hx & _ & [?| ->])]]; cbn.
    + split_and!; [lia|lia|done|lia].
    + split_and!; [lia|lia|done|]. apply wrap_id. unfold is_u in *. lia.
    + done.
    + split_and!; [lia|lia|done|]. unfold ENDPOINT_RWSTREAM_Timeout, ENDPOINT_RWSTREAM_NoError in *.
      destruct (Z.eqb_spec r.1.1 ENDPOINT_RWSTREAM_IncompleteTransfer) as [E|E]; [|lia].
      rewrite E in Hx. unfold ENDPOINT_RWSTREAM_IncompleteTransfer in Hx. lia.
Qed.

(** a buffer written in several calls, each resuming at the position the previous one
    reported, reaches the endpoint exactly once and in order, whatever interrupts the calls
    short of a bus reset: on [NoError] all of it, on another error a prefix. *)
Theorem write_stream_resumable k b len p s e s' :
  ep <> 0 -> is_u 4 ep -> uenum s = ep -> is_u16 len -> 0 <= p <= len ->
  write_all k b len p s = Some (e, s') ->
  exists t m, trace s' = trace s ++ t
    /\ (no_reset t -> uenum s' = ep /\ 0 <= m <= len - p /\ sent ep t = stream_le p m b
        /\ (e = ENDPOINT_RWSTREAM_NoError -> m = len - p)).
Proof.
  intros He Hr Hu Hl Hp H.
  assert (spec (write_all k b len p) (fun s e t s' => 0 <= p <= len -> exists m,
    0 <= m <= len - p /\ (e = ENDPOINT_RWSTREAM_NoError -> m = len - p)
    /\ moves ep (stream_le p m b) [] s t s')) as HS.
  { apply (spec_iter k _ p (fun p s r t s' => 0 <= p <= len -> exists m, 0 <= m <= len - p
       /\ moves ep (stream_le p m b) [] s t s'
       /\ match r with inl p' => p' = p + m | inr e => e = ENDPOINT_RWSTREAM_NoError -> m = len - p end)
      (fun p s e t s' => 0 <= p <= len -> exists m, 0 <= m <= len - p
         /\ (e = ENDPOINT_RWSTREAM_NoError -> m = len - p) /\ moves ep (stream_le p m b) [] s t s')).
    - intros q. apply write_once; done.
    - intros q s0 y t s1 HB Hq. destruct (HB Hq) as (m & ? & ? & ?). by exists m.
    - intros q s0 q' t s1 y t' s2 HB HJ Hq. destruct (HB Hq) as (m & Hm & Hmv & ->).
      destruct HJ as (m' & Hm' & Hy & Hmv'); [lia|]. exists (m + m').
      split_and!; [lia|lia|intros Hy'; specialize (Hy Hy'); lia|].
      rewrite stream_le_app by lia. by apply (moves_trans ep _ [] _ []) with s1. }
  destruct (HS _ _ _ H) as (t & Ht & HJ). destruct (HJ Hp) as (m & Hm & Hy & Hmv).
  exists t, m. split; [done|]. intros N. destruct (Hmv N Hu) as (? & ? & ?). split_and!; done || lia.
Qed.
End Exact.

(** ** Concrete runs *)
Section Demo.
#[local] Existing Instance script_hardware.
#[local] Instance demo_fuel : Fuel := 20%nat.
#[local] Existing Instance Firmware.firmware_events.

(** Endpoint 3 selected and ready; a timer tick, a start of frame and a control request
    arrive during the transfer. *)
Definition demo_script : script :=
  Script (fun r => match r with UEINTX => [0x25] | UDINT => [0x04] | UDIEN => [0x04]
                   | UEDATX => [1; 2; 3; 4; 5; 6; 7; 8; 9; 10; 11; 12] | _ => [] end)
    [None; Some TIMER0_OVF_vect; Some USB_GEN_vect; None; Some USB_COM_vect].
Definition demo_selected : mcu := set_reg UENUM 3 (boot_state demo_script script_port).
Definition demo_buffer : buffer := bytes_at [10; 20; 30].


Lemma write_stream_exact_witness :
  exists s' t, Endpoint_Write_Stream_LE (PRE := isr 1) demo_buffer 3 None demo_selected
                   = Some (0, None, demo_buffer, s')
    /\ trace s' = t /\ no_reset t /\ uenum s' = 3 /\ sent 3 t = [10; 20; 30].
Proof.
  set (run := Endpoint_Write_Stream_LE (PRE := isr 1) demo_buffer 3 None demo_selected).
  assert (check_run run (fun r t => (r.1.1 =? 0) && seen_no_reset t) = true) as V
    by (vm_compute; reflexivity).
  destruct run as [[[[e bp'] b'] s']|] eqn:E; [|done]. apply andb_prop in V as [V1 V2].
  apply Z.eqb_eq in V1. cbn in V1. subst e. apply seen_no_reset_ok in V2.
  destruct (write_stream_exact 1 3 demo_buffer 3 None demo_selected 0 bp' b' s') with (be := false)
    as (t & m & Ht & -> & _ & Ho & Hs); [lia|unfold is_u; lia|done|exact E|].
  cbn in Ht. subst t. destruct (Hs V2) as (Hu & _ & Hw).
  destruct Ho as [(_ & -> & ->)|[([=] & _)|([? _] & _)]]; [|lia].
  exists s', (trace s'). split_and!; [done|done|exact V2|exact Hu|exact Hw].
Defined.

Lemma read_stream_exact_witness :
  exists s' b' vs, Endpoint_Read_Stream_BE (PRE := isr 1) demo_buffer 3 (Some 1) demo_selected
                   = Some (0, Some 1, b', s')
    /\ no_reset (trace s') /\ received 3 (trace s') = vs /\ length vs = 2%nat
    /\ (forall k v, vs !! k = Some v -> b' (1 - Z.of_nat k) = v) /\ b' 2 = 30.
Proof.
  set (run := Endpoint_Read_Stream_BE (PRE := isr 1) demo_buffer 3 (Some 1) demo_selected).
  assert (check_run run (fun r t => (r.1.1 =? 0) && seen_no_reset t) = true) as V
    by (vm_compute; reflexivity).
  destruct run as [[[[e bp'] b'] s']|] eqn:E; [|done]. apply andb_prop in V as [V1 V2].
  apply Z.eqb_eq in V1. cbn in V1. subst e. apply seen_no_reset_ok in V2.
  destruct (read_stream_exact 1 3 demo_buffer 3 (Some 1) demo_selected 0 bp' b' s') with (be := true)
    as (t & vs & Ht & Ho & Hin & Hout & Hs); [lia|unfold is_u; lia|done|exact E|].
  cbn in Ht. subst t. destruct (Hs V2) as (_ & _ & Hv).
  destruct Ho as [(_ & Hm & ->)|[([=] & _)|([? _] & _)]]; [|lia].
  assert (length vs = 2%nat) as Hl 
    by (change (u16 (3 - default 0 (Some 1))) with 2 in Hm; lia).
  exists s', b', vs. split_and!; [done|exact V2|exact Hv|exact Hl|exact Hin|].
  apply (Hout 2). rewrite Hl. cbn. lia.
Defined.

Lemma write_stream_resumable_witness :
  exists s' m, write_all 1 5 demo_buffer 3 0 demo_selected = Some (0, s')
    /\ no_reset (trace s') /\ sent 3 (trace s') = stream_le 0 m demo_buffer /\ m = 3.
Proof.
  set (run := write_all 1 5 demo_buffer 3 0 demo_selected).
  assert (check_run run (fun e t => (e =? 0) && seen_no_reset t) = true) as V
    by (vm_compute; reflexivity).
  destruct run as [[e s']|] eqn:E; [|done]. apply andb_prop in V as [V1 V2].
  apply Z.eqb_eq in V1. subst e. apply seen_no_reset_ok in V2.
  destruct (write_stream_resumable 1 3 5 demo_buffer 3 0 demo_selected 0 s')
    as (t & m & Ht & Hs); [lia|unfold is_u; lia|done|unfold is_u; lia|lia|exact E|].
  cbn in Ht. subst t. destruct (Hs V2) as (_ & _ & Hw & Hm).
  exists s', m. split_and!; [done|exact V2|exact Hw|by apply Hm].
Defined.
End Demo.
