(* ===== verification/Control.v ===== *)
(** * Control: control transfers and the requests answered with them

    The data stage of a control transfer from the device ([Template_Endpoint_Control_W]) and
    what it sends for [GetDescriptor] and [GetLineEncoding].  Request handlers run inside
    [USB_COM_vect], where timer and bus-event interrupts can still occur ([isr 0]); [quiet] is
    what those leave alone. *)
From S2P Require Import Prelude Machine Logic Endpoint EndpointStream UsbController DeviceRequests.
From S2P Require Import Cdc Locc Interrupts Descriptors Firmware Selection Transfers.
Import Endpoint Stream Controller Requests Cdc Interrupts.

(** The host started the status stage: an OUT packet was seen on the control endpoint. *)
Definition out_event (e : event) : Prop :=
  match e with Rd UEINTX 0 v => Z.testbit v RXOUTI = true | _ => False end.
Definition out_seen (t : list event) : Prop := Exists out_event t.

Lemma out_seen_app t t' : out_seen (t ++ t') <-> out_seen t \/ out_seen t'.
Proof. apply Exists_app. Qed.

(** Reasons to end the data stage early that the log shows: the bus going idle, or an OUT or a
    SETUP packet on the control endpoint. *)
Definition idle_event (e : event) : Prop :=
  match e with Rd UDINT _ v => Z.testbit v SUSPI = true | _ => False end.
Definition host_event (e : event) : Prop :=
  match e with
  | Rd UEINTX 0 v => Z.testbit v RXOUTI = true \/ Z.testbit v RXSTPI = true
  | _ => False
  end.
Definition idle_seen (t : list event) : Prop := Exists idle_event t.
Definition ended (t : list event) : Prop := Exists (fun e => idle_event e \/ host_event e) t.

Lemma idle_app t t' : idle_seen (t ++ t') <-> idle_seen t \/ idle_seen t'.
Proof. apply Exists_app. Qed.
Lemma ended_app t t' : ended (t ++ t') <-> ended t \/ ended t'.
Proof. apply Exists_app. Qed.

Lemma idle_ended t : idle_seen t -> ended t.
Proof. apply Exists_impl. auto. Qed.
Lemma out_seen_ended t : out_seen t -> ended t.
Proof. apply Exists_impl. intros [[] [] v| |]; cbn; auto. Qed.

(** The device stays on the bus, or the log shows that it does not. *)
Section Online.
Context {HW : Hardware}.

Definition online (s : mcu) : Prop :=
  USB_DeviceState (usb s) <> DEVICE_STATE_Unattached /\ USB_DeviceState (usb s) <> DEVICE_STATE_Suspended.

Definition stays_online (s : mcu) (t : list event) (s' : mcu) : Prop :=
  online s -> online s' \/ idle_seen t.

#[export] Instance stays_online_policy : Policy stays_online.
Proof.
  split; [by left|]. intros s t s1 t' s2 H1 H2 Hs.
  destruct (H1 Hs) as [H|H]; [destruct (H2 H) as [?|H']; [by left|]|]; right; apply idle_app; auto.
Qed.

Lemma online_modify f : (forall s, trace (f s) = trace s /\ (online s -> online (f s))) ->
  obeys stays_online (modify f).
Proof. intros Hf. apply spec_modify; intros s; destruct (Hf s) as [? ?]; [done|]. left. auto. Qed.

Context {PRE : Preempt} {FU : Fuel} (pre_ok : obeys stays_online preempt).

Lemma online_rd r : obeys stays_online (rd r).
Proof. apply obeys_rd; [typeclasses eauto|done|]. by apply spec_raw_read; left. Qed.
Lemma online_wr r v : obeys stays_online (wr r v).
Proof.
  apply obeys_wr; [typeclasses eauto|done|]. apply spec_raw_write. intros s. left. by destruct (plain r).
Qed.
Lemma online_put_state d : d <> DEVICE_STATE_Unattached -> d <> DEVICE_STATE_Suspended ->
  obeys stays_online (put_state d).
Proof.
  intros. apply obeys_bind; [typeclasses eauto|done|intros]. apply online_modify. intros s.
  by destruct s as [? ? []].
Qed.
Lemma online_put_wait_ticks d : obeys stays_online (put_wait_ticks d).
Proof.
  apply obeys_put_wait_ticks; [typeclasses eauto|done|]. intros w. apply online_modify. intros s.
  by destruct s as [? ? ? ? []].
Qed.
Lemma online_put_config d : obeys stays_online (put_config d).
Proof. apply online_modify. intros s. by destruct s as [? ? []]. Qed.
Lemma online_get_state : obeys stays_online get_state.
Proof. apply obeys_bind; [typeclasses eauto|done|intros]. apply obeys_gets; typeclasses eauto. Qed.

(** A device state that ends the data stage. *)
Lemma state_read_spec : spec get_state (fun s d t s' =>
  state_error d <> None -> online s -> ended t).
Proof.
  eapply (spec_bind _ _ _ (fun _ s d t s' => t = [] /\ d = USB_DeviceState (usb s)));
    [exact pre_ok|intros; by apply spec_gets|].
  cbn beta. intros s u t s1 d t' s2 H [-> ->] He Hs. rewrite app_nil_r.
  destruct (H Hs) as [[H1 H2]|?]; [|by apply idle_ended]. unfold state_error in He. by repeat case_decide.
Qed.
End Online.

#[export] Hint Resolve online_rd online_wr online_put_wait_ticks online_put_config online_get_state : obey.
#[export] Hint Extern 1 (obeys stays_online (put_state _)) =>
  apply online_put_state; [assumption|case_match; discriminate|case_match; discriminate] : obey.
#[export] Hint Extern 1 (obeys stays_online (put_state _)) =>
  apply online_put_state; [assumption|discriminate|discriminate] : obey.

(** ** The data stage *)
Section DataStage.
Context {HW : Hardware} {PRE : Preempt} {FU : Fuel} (pre_ok : obeys (keeps 0) preempt).
Context (on_ok : obeys stays_online preempt).
Context (clear : M unit) (off : Z -> Z) (step : Z) (b : buffer).
Let T := Template clear off step write_byte.

Lemma range_0 : is_u 4 0.
Proof. done. Qed.
#[local] Hint Resolve range_0 : core.

Lemma out_received_spec : spec Endpoint_IsOUTReceived (fun s o t s' =>
  keeps 0 s t s' /\ (o = true -> no_reset t -> uenum s = 0 -> out_seen t)).
Proof.
  apply spec_and; [match goal with |- spec ?m _ => change (obeys (keeps 0) m) end; obey|].
  eapply (spec_bind _ _ (fun s v t s' => no_reset t -> uenum s = 0 -> Z.testbit v RXOUTI = true -> out_seen t)
    (fun v s o t s' => t = [] /\ o = truth (v .& bit RXOUTI))).
  - eapply (spec_bind _ _ _ (fun _ s v t s' => uenum s = 0 -> Z.testbit v RXOUTI = true -> out_seen t));
      [exact pre_ok| |].
    + intros u. apply spec_raw_read; [done|]. intros s v h _ _ Hu Hv. rewrite Hu. by left.
    + cbn beta. intros s u t s1 v t' s2 K H [N _]%no_reset_app Hu Hv. apply out_seen_app. right.
      apply H; [|done]. destruct (K N) as [-> _]; [by rewrite Hu|done].
  - intros v. by apply spec_ret.
  - cbn beta. intros s v t s1 o t' s2 H [-> ->] Ho N Hu. rewrite app_nil_r in *.
    apply H; [done|done|]. by rewrite <- truth_land_bit.
Qed.

Lemma setup_received_spec : spec Endpoint_IsSETUPReceived (fun s o t s' =>
  o = true -> no_reset t -> uenum s = 0 -> ended t).
Proof.
  eapply (spec_bind _ _ (fun s v t s' => no_reset t -> uenum s = 0 -> Z.testbit v RXSTPI = true -> ended t)
    (fun v s o t s' => t = [] /\ o = truth (v .& bit RXSTPI))).
  - eapply (spec_bind _ _ _ (fun _ s v t s' => uenum s = 0 -> Z.testbit v RXSTPI = true -> ended t));
      [exact pre_ok| |].
    + intros u. apply spec_raw_read; [done|]. intros s v h _ _ Hu Hv. rewrite Hu. left. right. by right.
    + cbn beta. intros s u t s1 v t' s2 K H [N _]%no_reset_app Hu Hv. apply ended_app. right.
      apply H; [|done]. destruct (K N) as [-> _]; [by rewrite Hu|done].
  - intros v. by apply spec_ret.
  - cbn beta. intros s v t s1 o t' s2 H [-> ->] Ho N Hu. rewrite app_nil_r in *.
    apply H; [done|done|]. by rewrite <- truth_land_bit.
Qed.

(** Filling one packet. *)
Definition fill_post (v : Z * Z * Z) (s : mcu) (r : Z * Z * Z) (t : list event) (s' : mcu) : Prop :=
  let '(L, D, B) := v in let '(L', D', B') := r in
  0 <= L -> exists m, 0 <= m <= L /\ L' = L - m /\ D' = D + step * m /\ B' = B + m
    /\ moves 0 (buf_bytes b D step m) [] s t s'.

Lemma fill_spec n v : spec (iter n (fill_pass T b) v) (fill_post v).
Proof.
  apply (spec_iter n (fill_pass T b) v (fun v s r t s' =>
    let '(L, D, B) := v in
    match r with
    | inr v' => v' = v /\ t = [] /\ s' = s
    | inl (L', D', B') => L <> 0 /\ L' = L - 1 /\ D' = D + step /\ B' = B + 1
        /\ moves 0 [u8 (b D)] [] s t s'
    end) fill_post).
  - intros [[L D] B]. unfold fill_pass. destruct (truth L) eqn:E; cbn [andb]; [|by apply spec_ret].
    destruct (_ <? _); [|by apply spec_ret]. unfold truth in E. destruct (Z.eqb_spec L 0); [done|].
    eapply (spec_bind _ _ _ (fun _ s r t s' => t = [] /\ s' = s /\ r = inl (L - 1, D + step, B + 1)));
      [apply (write_transfer 0 range_0 pre_ok)|intros; by apply spec_ret|].
    cbn beta. intros s b' t s1 r t' s2 (ws & rs & (-> & -> & ->) & H) (-> & -> & ->).
    by rewrite app_nil_r.
  - intros [[L D] B] s [[L' D'] B'] t s' (E & -> & ->) H0. injection E as -> -> ->.
    exists 0. split_and!; [lia..|by intros _].
  - intros [[L D] B] s [[L1 D1] B1] t s1 [[L' D'] B'] t' s2 (HL & -> & -> & -> & Hm) H H0.
    destruct H as (m & Hm' & -> & -> & -> & Hmv); [lia|]. exists (m + 1).
    split_and!; [lia..|]. rewrite buf_bytes_S by lia.
    by apply (moves_trans 0 [u8 (b D)] [] _ []) with s1.
Qed.

(** A part without effect on the transfer in front of the rest of a pass. *)
Definition aside (s : mcu) (t : list event) (s' : mcu) : Prop := keeps 0 s t s' /\ stays_online s t s'.

Lemma keeps_skip {A B} (m : M A) (k : A -> M B) (Q : mcu -> B -> list event -> mcu -> Prop) :
  (forall s r t s1 t' s2, aside s t s1 -> Q s1 r t' s2 -> Q s r (t ++ t') s2) ->
  obeys (keeps 0) m -> obeys stays_online m -> (forall a, spec (k a) Q) -> spec (bind m k) Q.
Proof.
  intros HQ Hm Ho Hk. eapply spec_bind; [exact (spec_and _ _ _ Hm Ho)|exact Hk|]. cbn. eauto.
Qed.

(** One pass of the outer loop: bytes of one packet, or the end: [None] only with everything
    sent or the status stage begun, any end only with everything sent or a reason in the log. *)
Definition packet_post (v : Z * Z * bool) (s : mcu) (r : (Z * Z * bool) + option Z)
    (t : list event) (s' : mcu) : Prop :=
  let '(L, D, _) := v in
  stays_online s t s' /\
  (0 <= L ->
   match r with
   | inl (L', D', _) => exists m, 0 <= m <= L /\ L' = L - m /\ D' = D + step * m
       /\ moves 0 (buf_bytes b D step m) [] s t s'
   | inr e => moves 0 [] [] s t s'
       /\ (e = None -> L = 0 \/ (no_reset t -> uenum s = 0 -> out_seen t))
       /\ (no_reset t -> uenum s = 0 -> online s -> L = 0 \/ ended t)
   end).

Lemma packet_keeps v s r t s1 t' s2 :
  aside s t s1 -> packet_post v s1 r t' s2 -> packet_post v s r (t ++ t') s2.
Proof.
  destruct v as [[L D] l]. intros [K O] [O' H]. split; [by eapply policy_trans|].
  intros H0. specialize (H H0). destruct r as [[[L' D'] l']|e].
  - destruct H as (m & Hm & ? & ? & Hmv). exists m. split_and!; try lia. by eapply keeps_then_moves.
  - destruct H as (Hmv & He & Hd). split_and!; [by eapply keeps_then_moves| |].
    + intros E. destruct (He E) as [?|Ho]; [by left|right].
      intros [N1 N2]%no_reset_app Hu. apply out_seen_app. right. apply Ho; [done|].
      destruct (K N1) as [-> _]; [by rewrite Hu|done].
    + intros [N1 N2]%no_reset_app Hu Hs. rewrite ended_app.
      destruct (K N1) as [E1 _]; [by rewrite Hu|]. rewrite Hu in E1.
      destruct (O Hs) as [Hs1|?%idle_ended]; [|auto]. destruct (Hd N2 E1 Hs1); auto.
Qed.

Lemma packet_send v : spec
  (let '(Length, DataStream, LastPacketFull) := v in
   BytesInEndpoint <- Endpoint_BytesInEndpoint ;;
   r <- iter (S (Z.to_nat Length)) (fill_pass T b) (Length, DataStream, BytesInEndpoint) ;;
   let '(Length, DataStream, BytesInEndpoint) := r in
   Endpoint_ClearIN ;;
   ret (inl (Length, DataStream, BytesInEndpoint =? USB_Device_ControlEndpointSize)))
  (packet_post v).
Proof.
  destruct v as [[L D] l]. apply keeps_skip; [intros; by eapply packet_keeps|obey|obey|].
  intros B. eapply (spec_bind _ _ _ (fun r s r' t s' => aside s t s' /\
    exists l, r' = inl (r.1.1, r.1.2, l))).
  - apply (spec_and _ (fill_post (L, D, B)) (fun s _ t s' => stays_online s t s')); [apply fill_spec|].
    match goal with |- spec ?m _ => change (obeys stays_online m) end. 
    assert (forall D, obeys stays_online (TEMPLATE_TRANSFER_BYTE T b D)) by (intros; cbn; obey). obey.
  - intros [[L' D'] B']. eapply (spec_bind _ _ (fun s _ t s' => aside s t s') (fun _ s r t s' => t = [] /\ s' = s /\ exists l, r = inl (L', D', l))).
    + apply spec_and; match goal with |- spec ?m (fun s _ t s' => ?R s t s') => change (obeys R m) end; obey.
    + intros u. apply spec_ret. eauto.
    + cbn beta. intros s u t s1 r t' s2 K (-> & -> & l' & ->). rewrite app_nil_r. eauto.
  - cbn beta. intros s [[L' D'] B'] t s1 r t' s2 [H O] [[K O'] [l' ->]].
    split; [by eapply policy_trans|]. intros H0.
    destruct (H H0) as (m & Hm & -> & -> & -> & Hmv). exists m.
    cbn [fst snd]. split_and!; [lia..|]. by eapply moves_then_keeps.
Qed.

Lemma packet_refl v s : packet_post v s (inl v) [] s.
Proof.
  destruct v as [[L D] l]. split; [apply policy_refl|]. intros H0. exists 0. split_and!; [lia..|by intros _].
Qed.

(** A test that ends the pass, with its reason in the log. *)
Lemma packet_stop {A} (m : M A) (stop : A -> option (option Z)) (k : A -> M ((Z * Z * bool) + option Z)) v :
  obeys (keeps 0) m -> obeys stays_online m ->
  spec m (fun s a t s' => forall e, stop a = Some e ->
    (no_reset t -> uenum s = 0 -> online s -> ended t)
    /\ (e = None -> no_reset t -> uenum s = 0 -> out_seen t)) ->
  (forall a, stop a = None -> spec (k a) (packet_post v)) ->
  spec (bind m (fun a => match stop a with Some e => ret (inr e) | None => k a end)) (packet_post v).
Proof.
  intros Hk Ho Hm Hr. eapply (spec_bind _ _ _ (fun a => if stop a is Some e then
      fun s r t s' => r = inr e /\ t = [] /\ s' = s else packet_post v)).
  - exact (spec_and _ _ _ Hm (spec_and _ _ _ Hk Ho)).
  - intros a. destruct (stop a) as [e|] eqn:E; [by apply spec_ret|by apply Hr].
  - cbn beta. intros s a t s1 r t' s2 (Hst & K & O) H. destruct (stop a) as [e|] eqn:E.
    + destruct H as (-> & -> & ->). rewrite app_nil_r. destruct (Hst e eq_refl) as [H1 H2].
      destruct v as [[L D] l]. split; [done|]. intros _.
      split_and!; [by apply keeps_moves|right; by apply H2|right; by apply H1].
    + eapply packet_keeps; [by split|done].
Qed.

Lemma packet_spec v : spec (control_w_pass T b v) (packet_post v).
Proof.
  pose proof (packet_send v) as Hsend. pose proof (packet_refl v) as Hrefl.
  pose proof (packet_keeps v) as Hk. destruct v as [[L D] l]. unfold control_w_pass.
  destruct (truth L || l) eqn:E; cbn [negb].
  2: { apply orb_false_iff in E as [E _]. unfold truth in E. destruct (Z.eqb_spec L 0); [|done].
       apply spec_ret. intros s. split; [apply policy_refl|]. intros _. split_and!; auto. by intros _. }
  apply (spec_ext _ (d <- get_state ;; match Some <$> state_error d with Some e => ret (inr e) | None =>
    setup <- Endpoint_IsSETUPReceived ;;
    match (if setup : bool then Some (Some ENDPOINT_RWCSTREAM_HostAborted) else None) with
    | Some e => ret (inr e) | None =>
    out <- Endpoint_IsOUTReceived ;;
    match (if out : bool then Some None else None) with Some e => ret (inr e) | None =>
    ready <- Endpoint_IsINReady ;;
    if ready : bool then
      BytesInEndpoint <- Endpoint_BytesInEndpoint ;;
      r <- iter (S (Z.to_nat L)) (fill_pass T b) (L, D, BytesInEndpoint) ;;
      let '(Length, DataStream, BytesInEndpoint) := r in
      Endpoint_ClearIN ;;
      ret (inl (Length, DataStream, BytesInEndpoint =? USB_Device_ControlEndpointSize))
    else ret (inl (L, D, l)) end end end)).
  { intros s. unfold bind. destruct (get_state s) as [[d s1]|]; [|done].
    destruct (state_error d); [done|]. cbn [fmap option_fmap option_map].
    destruct (Endpoint_IsSETUPReceived s1) as [[[] s2]|]; try done.
    by destruct (Endpoint_IsOUTReceived s2) as [[[] s3]|]. }
  apply packet_stop; [obey|obey| |intros d _].
  { eapply spec_conseq; [apply (state_read_spec on_ok)|]. cbn beta. intros s d t s' H e He.
    destruct (state_error d); [|done]. injection He as <-. split; [intros _ _; by apply H|done]. }
  apply packet_stop; [obey|obey| |intros o _].
  { eapply spec_conseq; [apply setup_received_spec|]. cbn beta. intros s [] t s' H e He; [|done].
    injection He as <-. split; [intros; by apply H|done]. }
  apply packet_stop; [obey|obey| |intros o' _].
  { eapply spec_conseq; [apply out_received_spec|]. cbn beta. intros s [] t s' [_ H] e He; [|done].
    injection He as <-. split; [intros; by apply out_seen_ended, H|intros _; by apply H]. }
  apply keeps_skip; [done|obey|obey|]. intros []; [exact Hsend|]. by apply spec_ret.
Qed.

Definition stage_post (v : Z * Z * bool) (s : mcu) (r : option Z) (t : list event) (s' : mcu) : Prop :=
  let '(L, D, _) := v in
  stays_online s t s' /\
  (0 <= L -> exists m, 0 <= m <= L /\ moves 0 (buf_bytes b D step m) [] s t s'
    /\ (r = None -> no_reset t -> uenum s = 0 -> m = L \/ out_seen t)
    /\ (no_reset t -> uenum s = 0 -> online s -> m = L \/ ended t)).

Lemma stage_spec n v : spec (iter n (control_w_pass T b) v) (stage_post v).
Proof.
  apply (spec_iter n (control_w_pass T b) v packet_post stage_post).
  - intros. apply packet_spec.
  - intros [[L D] l] s e t s' [O H]. split; [done|]. intros H0. destruct (H H0) as (Hmv & He & Hd). exists 0.
    split_and!; [lia|lia|done| |].
    + intros E N Hu. destruct (He E) as [->|Ho]; [by left|right; by apply Ho].
    + intros N Hu Hs. destruct (Hd N Hu Hs) as [->|?]; auto.
  - intros [[L D] l] s [[L1 D1] l1] t s1 e t' s2 [O H] [O' HJ]. split; [by eapply policy_trans|].
    intros H0. destruct (H H0) as (m & Hm & -> & -> & Hmv).
    destruct HJ as (m' & Hm' & Hmv' & He & Hd); [lia|]. exists (m + m').
    split_and!; [lia|lia| | |].
    + rewrite buf_bytes_app by lia. by apply (moves_trans 0 _ [] _ []) with s1.
    + intros E [N1 N2]%no_reset_app Hu. destruct (Hmv N1 Hu) as [E1 _].
      destruct (He E N2 E1) as [?|?]; [left; lia|right; apply out_seen_app; by right].
    + intros [N1 N2]%no_reset_app Hu Hs. destruct (Hmv N1 Hu) as [E1 _]. rewrite ended_app.
      destruct (O Hs) as [Hs1|?%idle_ended]; [|auto]. destruct (Hd N2 E1 Hs1) as [?|?]; [left; lia|auto].
Qed.

(** An error code that ends the data stage is not [NoError]. *)
Lemma stage_codes n v :
  yields (fun r => r <> Some ENDPOINT_RWCSTREAM_NoError) (iter n (control_w_pass T b) v).
Proof.
  apply yields_iter. intros [[L D] l]. unfold control_w_pass, state_error.
  repeat match goal with
    | |- yields _ (if ?b then _ else _) => destruct b
    | |- yields _ (match (if ?b then _ else _) with _ => _ end) => destruct b
    | |- yields _ (match ?r with _ => _ end) => destruct r
    | |- yields _ (let '(_, _) := ?r in _) => destruct r
    | |- yields _ (ret _) => apply yields_ret; done
    | |- yields _ (bind _ _) => apply yields_bind; intros
    end.
Qed.

(** The whole control write.  [t1] is the data stage, [t2] the wait for the status stage. *)
Definition written (off0 L : Z) (s : mcu) (e : Z) (t : list event) (s' : mcu) : Prop :=
  0 <= L ->
  exists t1 t2 m, t = t1 ++ t2 /\ 0 <= m <= L
    /\ moves 0 (buf_bytes b off0 step m) [] s t s'
    /\ (e = ENDPOINT_RWCSTREAM_NoError -> no_reset t1 -> uenum s = 0 -> m = L \/ out_seen t1)
    /\ (no_reset t1 -> uenum s = 0 -> online s -> m = L \/ ended t1).

Lemma aside_written off0 L s t s1 e t' s2 :
  aside s t s1 -> written off0 L s1 e t' s2 -> written off0 L s e (t ++ t') s2.
Proof.
  intros [K O] H H0. destruct (H H0) as (t1 & t2 & m & -> & Hm & Hmv & He & Hd). exists (t ++ t1), t2, m.
  split_and!; [by rewrite app_assoc|lia|lia|by eapply keeps_then_moves| |].
  - intros E [N N1]%no_reset_app Hu. destruct (K N) as [E1 _]; [by rewrite Hu|].
    destruct (He E N1) as [?|?]; [by rewrite E1|by left|right; apply out_seen_app; by right].
  - intros [N N1]%no_reset_app Hu Hs. destruct (K N) as [E1 _]; [by rewrite Hu|]. rewrite ended_app.
    destruct (O Hs) as [Hs1|?%idle_ended]; [|auto]. destruct (Hd N1) as [?|?]; [by rewrite E1|done|by left|auto].
Qed.

Lemma control_write_spec len :
  spec (Template_Endpoint_Control_W T b len) (fun s e t s' =>
    written (off len) (Z.min len (wLength (USB_ControlRequest (usb s)))) s e t s').
Proof.
  apply spec_get_bind. intros req.
  eapply (spec_bind _ _ (fun s L t s' => aside s t s' /\ L = Z.min len (wLength req))
    (fun L s e t s' => written (off len) L s e t s')).
  - destruct (Z.ltb_spec (wLength req) len).
    + apply spec_ret. intros s. split; [split; apply policy_refl|lia].
    + eapply (spec_bind _ _ (fun s _ t s' => aside s t s')
        (fun _ s L t s' => t = [] /\ s' = s /\ L = len)); [|intros; by apply spec_ret|].
      * apply spec_and; match goal with |- spec ?m (fun s _ t s' => ?R s t s') => change (obeys R m) end; obey.
      * cbn beta. intros s u t s1 L t' s2 K (-> & -> & ->). rewrite app_nil_r. split; [done|lia].
  - intros L. eapply (spec_bind _ _ _ (fun r s e t s' => keeps 0 s t s'
      /\ match r with Some e' => e = e' | None => True end)); [apply spec_yields; [apply stage_spec|apply stage_codes]| |].
    + intros [e|].
      * apply spec_ret. intros s. split; [apply policy_refl|done].
      * eapply (spec_conseq _ (fun s _ t s' => keeps 0 s t s')); [|done].
        match goal with |- spec ?m _ => change (obeys (keeps 0) m) end. obey.
    + cbn beta. intros s r t s1 e t' s2 [[_ H] Hne] [K He] H0. destruct (H H0) as (m & Hm & Hmv & Hr & Hd).
      exists t, t', m. split_and!; [done|lia|lia|by eapply moves_then_keeps| |done].
      intros E. apply Hr. destruct r; [by subst|done].
  - cbn beta. intros s L t s1 e t' s2 [K ->] H ->. by eapply aside_written.
Qed.
End DataStage.

(** ** What timer and bus events leave alone *)
Section Quiet.
Context {HW : Hardware}.

Definition quiet (s : mcu) (t : list event) (s' : mcu) : Prop :=
  USB_ControlRequest (usb s') = USB_ControlRequest (usb s) /\ cdc s' = cdc s.

#[export] Instance quiet_policy : Policy quiet.
Proof. split; unfold quiet; [done|]. intros ?????[-> ->][-> ->]. done. Qed.

Lemma quiet_modify f :
  (forall s, trace (f s) = trace s /\ USB_ControlRequest (usb (f s)) = USB_ControlRequest (usb s)
             /\ cdc (f s) = cdc s) -> obeys quiet (modify f).
Proof. intros Hf. apply spec_modify; intros s; by destruct (Hf s) as (? & ? & ?). Qed.

Context {PRE : Preempt} {FU : Fuel} (pre_ok : obeys quiet preempt).

Lemma quiet_rd r : obeys quiet (rd r).
Proof. apply obeys_rd; [typeclasses eauto|done|]. by apply spec_raw_read. Qed.
Lemma quiet_wr r v : obeys quiet (wr r v).
Proof.
  apply obeys_wr; [typeclasses eauto|done|]. apply spec_raw_write. intros s. by destruct (plain r).
Qed.
Lemma quiet_put_state d : obeys quiet (put_state d).
Proof.
  apply obeys_bind; [typeclasses eauto|done|intros]. apply quiet_modify. intros s.
  by destruct s as [? ? []].
Qed.
Lemma quiet_put_wait_ticks d : obeys quiet (put_wait_ticks d).
Proof.
  apply obeys_put_wait_ticks; [typeclasses eauto|done|]. intros w. apply quiet_modify. intros s.
  by destruct s as [? ? ? ? []].
Qed.
Lemma quiet_put_config d : obeys quiet (put_config d).
Proof. apply quiet_modify. intros s. by destruct s as [? ? []]. Qed.
Lemma quiet_get_state : obeys quiet get_state.
Proof. apply obeys_bind; [typeclasses eauto|done|intros]. apply obeys_gets; typeclasses eauto. Qed.
End Quiet.

#[export] Hint Resolve quiet_rd quiet_wr quiet_put_state quiet_put_wait_ticks quiet_put_config
  quiet_get_state : obey.

Section QuietIsr.
Context {HW : Hardware} {FU : Fuel}.
#[local] Existing Instance Firmware.firmware_events.

Lemma isr_0_quiet : obeys quiet (@preempt _ (isr 0)).
Proof.
  assert (obeys quiet (@preempt _ no_preempt)) by (apply obeys_ret; typeclasses eauto).
  assert (forall n x y z e, obeys quiet (configure_from (PRE := no_preempt) n x y z e)).
  { induction n as [|n IH]; intros x y z e; cbn [configure_from]; obey. }
  assert (obeys quiet next_irq).
  { intros s i s' H1. unfold next_irq in H1. destruct (hw_irq (hw s)) as [j h].
    injection H1 as <- <-. exists []. by rewrite app_nil_r. }
  change (obeys quiet (deliver spin)). obey.
Qed.

(** A pending suspend shows in the log. *)
Lemma suspend_seen : spec (@test_bit _ no_preempt UDINT SUSPI) (fun s o t s' => o = true -> idle_seen t).
Proof.
  eapply (spec_bind _ _ (fun _ v t _ => Z.testbit v SUSPI = true -> idle_seen t)
            (fun v _ o t _ => t = [] /\ o = truth (v .& bit SUSPI))).
  - eapply (spec_bind _ _ (fun _ _ t _ => t = [])
      (fun _ _ v t _ => Z.testbit v SUSPI = true -> idle_seen t)); [by apply spec_ret| |].
    + intros _. apply spec_raw_read; [done|]. intros s v h _ _ Hv. by left.
    + cbn beta. intros s [] t s1 v t' s2 -> H Hv. by apply H.
  - intros v. by apply spec_ret.
  - cbn beta. intros s v t s1 o t' s2 H [-> ->] Ho. rewrite app_nil_r.
    apply H. by rewrite <- truth_land_bit.
Qed.

Lemma gen_suspend_online : obeys stays_online gen_suspend.
Proof.
  assert (obeys quiet (@preempt _ no_preempt)) as Hq by (apply obeys_ret; typeclasses eauto).
  assert (obeys stays_online (@preempt _ no_preempt)) as Ho by (apply obeys_ret; typeclasses eauto).
  eapply (spec_bind _ _ (fun s p t s' => stays_online s t s' /\ (p = true -> idle_seen t))
            (fun p s _ t s' => if p : bool then True else t = [] /\ s' = s)).
  - apply spec_and; [match goal with |- spec ?m _ => change (obeys stays_online m) end; obey|].
    unfold pending. cbn [USB_INT_HasOccurred].
    eapply (spec_bind _ _ _ (fun o s p t s' => p = true -> o = true)); [apply suspend_seen| |].
    + intros []; [|apply spec_ret; done].
      eapply (spec_conseq _ (fun s _ t s' => quiet s t s')); [|cbn beta; intros; done].
      match goal with |- spec ?m _ => change (obeys quiet m) end. obey.
    + cbn beta. intros s o t s1 p t' s2 R1 R2 Hp. apply idle_app. left. auto.
  - intros []; [|by apply spec_ret].
    eapply (spec_conseq _ (fun s _ t s' => quiet s t s')); [|done].
    match goal with |- spec ?m _ => change (obeys quiet m) end. obey.
  - cbn beta. intros s p t s1 u t' s2 [O Hp] H. destruct p.
    + intros _. right. apply idle_app. left. by apply Hp.
    + destruct H as [-> ->]. by rewrite app_nil_r.
Qed.

Lemma isr_0_online : obeys stays_online (@preempt _ (isr 0)).
Proof.
  assert (obeys stays_online (@preempt _ no_preempt)) by (apply obeys_ret; typeclasses eauto).
  pose proof gen_suspend_online.
  assert (forall n x y z e, obeys stays_online (configure_from (PRE := no_preempt) n x y z e)).
  { induction n as [|n IH]; intros x y z e; cbn [configure_from]; obey. }
  assert (obeys stays_online next_irq).
  { intros s i s' Hi. unfold next_irq in Hi. destruct (hw_irq (hw s)) as [j h].
    injection Hi as <- <-. exists []. rewrite app_nil_r. split; [done|by left]. }
  change (obeys stays_online (deliver spin)). obey.
Qed.
End QuietIsr.

(** ** GetDescriptor *)

(** The descriptors of the device, by [wValue]. *)
Definition descriptor_of (wValue : Z) : option (list Z) :=
  match u8 (wValue .>> 8), wValue .& 0xFF with
  | 1, _ => Some (Descriptors.device_bytes Descriptors.DeviceDescriptor)
  | 2, _ => Some Descriptors.ConfigurationDescriptor
  | 3, 0 => Some Descriptors.LanguageString
  | 3, 1 => Some Descriptors.ManufacturerString
  | 3, 2 => Some Descriptors.ProductString
  | _, _ => None
  end.

(** The internal serial number is served under its reserved index. *)
Definition served_descriptor `{HW : Hardware} (wValue : Z) : option (list Z) :=
  if wValue =? 0x03DC then Some SignatureDescriptor else descriptor_of wValue.

(** The callback describes the descriptor's memory exactly. *)
Lemma callback_spec wValue wIndex :
  Descriptors.CALLBACK_GetDescriptor wValue wIndex =
  match descriptor_of wValue with
  | Some D => (Z.of_nat (length D), bytes_at D)
  | None => (NO_DESCRIPTOR, bytes_at [])
  end.
Proof.
  unfold Descriptors.CALLBACK_GetDescriptor, descriptor_of, DTYPE_Device, DTYPE_Configuration, DTYPE_String.
  generalize (u8 (wValue .>> 8)), (wValue .& 0xFF). intros ty nr.
  destruct (Z.eqb_spec ty 1) as [->|H1]; [done|]. destruct (Z.eqb_spec ty 2) as [->|H2]; [done|].
  destruct (Z.eqb_spec ty 3) as [->|H3].
  - destruct (Z.eqb_spec nr 0) as [->|]; [done|]. destruct (Z.eqb_spec nr 1) as [->|]; [done|].
    destruct (Z.eqb_spec nr 2) as [->|]; [done|]. by destruct nr as [|[[]|[]|]|].
  - by destruct ty as [|[[]|[]|]|].
Qed.

Lemma serial_char_range `{HW : Hardware} n a : is_u8 (serial_char n a).1.
Proof.
  unfold serial_char. destruct (truth _).
  all: match goal with |- context [?x .& 0x0F] => assert (is_u 4 (x .& 0x0F)) as H by apply (land_f_range x);
    generalize dependent (x .& 0x0F); intros d H end.
  all: unfold is_u in *; cbn [fst]; destruct (_ <=? _); change (ch "A") with 65; change (ch "0") with 48; lia.
Qed.

Lemma serial_length `{HW : Hardware} n k a : length (serial_string n k a) = n /\ Forall is_u8 (serial_string n k a).
Proof.
  revert k a. induction n as [|n IH]; intros k a; [done|]. cbn [serial_string].
  pose proof (serial_char_range k a). destruct (serial_char k a) as [c a'].
  destruct (IH (k + 1) a') as [Hl Hf]. split; [cbn; lia|by constructor].
Qed.

Lemma mjoin_le_bytes_u8 cs : Forall is_u8 (mjoin ((fun c => le_bytes 2 c) <$> cs)).
Proof.
  induction cs as [|c cs IH]; [constructor|]. cbn [fmap list_fmap mjoin list_join].
  apply Forall_app. split; [apply Forall_le_bytes|exact IH].
Qed.

Lemma served_u8 `{HW : Hardware} wValue D : served_descriptor wValue = Some D ->
  Forall is_u8 D /\ D <> [].
Proof.
  unfold served_descriptor. destruct (_ =? _).
  - intros [= <-]. split; [|done]. unfold SignatureDescriptor. apply Forall_app.
    split; [repeat (constructor; [split; done|]); constructor|apply mjoin_le_bytes_u8].
  - unfold descriptor_of. intros H.
    repeat case_match; simplify_eq; (split; [apply bytes_u8; vm_compute; reflexivity|vm_compute; discriminate]).
Qed.

Lemma take_buf_bytes D m : Forall is_u8 D -> 0 <= m <= Z.of_nat (length D) ->
  buf_bytes (bytes_at D) 0 1 m = take (Z.to_nat m) D.
Proof.
  intros HD Hm. apply list_eq. intros i. unfold buf_bytes. rewrite list_lookup_fmap.
  destruct (decide (i < Z.to_nat m)%nat) as [Hi|Hi].
  - rewrite lookup_seqZ_lt by lia. rewrite lookup_take_lt by done. cbn.
    unfold bytes_at. destruct (lookup_lt_is_Some_2 D i) as [v Hv]; [lia|].
    replace (Z.to_nat (0 + _)) with i by lia. rewrite Hv. cbn. f_equal. apply wrap_id.
    by eapply Forall_lookup_1.
  - rewrite lookup_seqZ_ge by lia. rewrite lookup_take_ge by lia. done.
Qed.

Section GetDescriptor.
Context {HW : Hardware} {FU : Fuel}.
#[local] Existing Instance Firmware.firmware_events.
#[local] Instance request_context : Preempt := isr 0.

(** Something ended the data stage while fewer than [n] bytes had been sent: the bus went idle, or
    a packet came after the request was acknowledged. *)
Definition cut_short (n : Z) (t : list event) : Prop :=
  exists t1 e t2, t = t1 ++ e :: t2 /\ Z.of_nat (length (sent 0 t1)) < n
    /\ (idle_event e \/ host_event e /\ exists v, Wr UEINTX 0 v ∈ t1).

Lemma cut_short_from n t0 t1 t2 :
  (idle_seen t0 \/ ended t1 /\ exists v, Wr UEINTX 0 v ∈ t0) ->
  Z.of_nat (length (sent 0 (t0 ++ t1 ++ t2))) < n -> cut_short n (t0 ++ t1 ++ t2).
Proof.
  intros H Hn. rewrite !sent_app, !length_app in Hn. destruct H as [H|[H [v Hv]]].
  - apply Exists_exists in H as (e & He%list_elem_of_In & Hi). apply list_elem_of_split in He as (a & c & ->).
    exists a, e, (c ++ t1 ++ t2). split_and!; [by rewrite <- app_assoc| |by left].
    rewrite sent_app, length_app in Hn. lia.
  - apply Exists_exists in H as (e & He%list_elem_of_In & Hi). apply list_elem_of_split in He as (a & c & ->).
    exists (t0 ++ a), e, (c ++ t2). split_and!; [by rewrite <- !app_assoc| |].
    + rewrite !sent_app, !length_app in *. lia.
    + destruct Hi; [by left|right]. split; [done|]. exists v. apply elem_of_app. by left.
Qed.

(** The first bytes of [D] are sent, and all of those asked for if the device is on the bus and
    nothing cuts the data stage short. *)
Definition replied (D : list Z) (asked : Z) (s : mcu) (t : list event) (s' : mcu) : Prop :=
  exists k, (k <= length D)%nat /\ Z.of_nat k <= asked
    /\ moves 0 (take k D) [] s t s'
    /\ (no_reset t -> uenum s = 0 -> online s ->
        let n := Z.min (Z.of_nat (length D)) asked in Z.of_nat k = n \/ cut_short n t).

Lemma clear_setup_logged :
  spec Endpoint_ClearSETUP (fun s _ t s' => no_reset t -> uenum s = 0 -> exists v, Wr UEINTX 0 v ∈ t).
Proof.
  pose proof (isr_0_keeps 0) as Hk. unfold Endpoint_ClearSETUP, clear_bits.
  eapply (spec_bind _ _ (fun s _ t s' => keeps 0 s t s')
    (fun _ s _ t s' => no_reset t -> uenum s = 0 -> exists v, Wr UEINTX 0 v ∈ t)).
  - match goal with |- spec ?m _ => change (obeys (keeps 0) m) end. obey.
  - intros v. eapply (spec_bind _ _ _ (fun _ s _ t s' => uenum s = 0 -> exists v, Wr UEINTX 0 v ∈ t));
      [exact Hk| |].
    + intros u. apply spec_raw_write. intros s ->. eexists. apply list_elem_of_here.
    + cbn beta. intros s u t s1 w t' s2 K H [N _]%no_reset_app Hu.
      destruct (K N) as [E1 _]; [by rewrite Hu|]. rewrite Hu in E1. destruct (H E1) as [x Hx].
      exists x. apply elem_of_app. by right.
  - cbn beta. intros s v t s1 u t' s2 K H [N1 N2]%no_reset_app Hu.
    destruct (K N1) as [E1 _]; [by rewrite Hu|]. rewrite Hu in E1. destruct (H N2 E1) as [x Hx].
    exists x. apply elem_of_app. by right.
Qed.

(** [Endpoint_ClearSETUP], a control write of the memory [D], [Endpoint_ClearOUT]. *)
Lemma reply_spec (m : M Z) D :
  m = Endpoint_Write_Control_Stream_LE (bytes_at D) (Z.of_nat (length D)) -> Forall is_u8 D ->
  spec (Endpoint_ClearSETUP ;; m ;; Endpoint_ClearOUT) (fun s _ t s' =>
    0 <= wLength (USB_ControlRequest (usb s)) ->
    replied D (wLength (USB_ControlRequest (usb s))) s t s').
Proof.
  intros -> HD. pose proof isr_0_quiet as Hq. pose proof (isr_0_keeps 0) as Hk. pose proof isr_0_online as Ho.
  eapply spec_conseq; [eapply (spec_seq _ _ (fun s _ t s' => (aside s t s' /\ quiet s t s')
      /\ (no_reset t -> uenum s = 0 -> exists v, Wr UEINTX 0 v ∈ t)));
    [|intros u; eapply (spec_seq _ _ _ (fun _ s _ t s' => keeps 0 s t s'));
      [apply (control_write_spec Hk Ho)|intros e; change (obeys (keeps 0) Endpoint_ClearOUT); obey]]|].
  { apply spec_and; [apply spec_and; [apply spec_and|]|apply clear_setup_logged];
      match goal with |- spec ?m (fun s _ t s' => ?R s t s') => change (obeys R m) end; obey. }
  cbn beta zeta. intros s u t s' (_ & t0 & s0 & t' & -> & [[[K O] [Q _]] Hack] & e & ta & s1 & t3 & -> & H & K3) Hw.
  rewrite Q in H. destruct H as (t1 & t2 & m & -> & Hm & Hmv & _ & Hd); [lia|].
  assert (moves 0 (take (Z.to_nat m) D) [] s (t0 ++ (t1 ++ t2) ++ t3) s') as Hmoves.
  { rewrite <- take_buf_bytes by (done || lia). eapply keeps_then_moves; [done|exact K|].
    by eapply moves_then_keeps. }
  exists (Z.to_nat m). split_and!; [lia|lia|done|]. intros N Hu Hs. cbn zeta.
  destruct (Z.eq_dec m (Z.min (Z.of_nat (length D)) (wLength (USB_ControlRequest (usb s))))) as [E|E];
    [left; lia|right].
  destruct (Hmoves N Hu) as (_ & Hsent & _).
  replace (t0 ++ (t1 ++ t2) ++ t3) with (t0 ++ t1 ++ (t2 ++ t3)) in * by (by rewrite <- app_assoc).
  apply cut_short_from; [|rewrite Hsent, length_take; lia].
  apply no_reset_app in N as [N0 [N1 _]%no_reset_app].
  destruct (K N0) as [E1 _]; [by rewrite Hu|]. rewrite Hu in E1.
  destruct (O Hs) as [Hs1|?]; [|by left]. destruct (Hd N1 E1 Hs1) as [?|?]; [lia|]. right. auto.
Qed.

End GetDescriptor.

(** ** The line encoding *)

(** The seven bytes of a [CDC_LineEncoding_t] on the bus. *)
Definition encode_line (l : CDC_LineEncoding_t) : list Z :=
  le_bytes 4 (BaudRateBPS l) ++ [u8 (CharFormat l); u8 (ParityType l); u8 (DataBits l)].

Section LineEncoding.
Context {HW : Hardware} {FU : Fuel} {PRE : Preempt}.
Context (pre_keeps : obeys (keeps 0) preempt) (pre_quiet : obeys quiet preempt).

(** Code that does not move bytes of the control endpoint and leaves the encoding alone. *)
Definition neutral_step {A} (m : M A) : Prop := obeys (keeps 0) m /\ obeys quiet m.

(** Code that, started with the encoding [l], sends [ws] / receives [bs] and ends with an
    encoding such that [F bs]. *)
Definition line_spec (l : CDC_LineEncoding_t) (ws : list Z) (F : list Z -> CDC_LineEncoding_t -> Prop)
    {A} (m : M A) : Prop :=
  forall s a s', LineEncoding (cdc s) = l -> m s = Some (a, s') ->
  exists t bs, trace s' = trace s ++ t /\ moves 0 ws bs s t s' /\ F bs (LineEncoding (cdc s')).

(** A first part with a known effect. *)
Lemma line_bind {A B} l l1 ws ws' (rs : A -> list Z) F (m : M A) (k : A -> M B) Q :
  spec m Q -> (forall s a t s1, Q s a t s1 -> LineEncoding (cdc s) = l ->
    moves 0 ws (rs a) s t s1 /\ LineEncoding (cdc s1) = l1
    /\ line_spec l1 ws' (fun bs => F (rs a ++ bs)) (k a)) ->
  line_spec l (ws ++ ws') F (bind m k).
Proof.
  intros Hm Hk s b s2 Hl H. unfold bind in H. destruct (m s) as [[a s1]|] eqn:Hs; [|done].
  destruct (Hm s a s1 Hs) as (t & Ht & HQ). destruct (Hk s a t s1 HQ Hl) as (Hmv & Hl1 & Hka).
  destruct (Hka s1 b s2 Hl1 H) as (t' & bs & Ht' & Hmv' & HF).
  exists (t ++ t'), (rs a ++ bs). rewrite Ht', Ht, app_assoc. split_and!; [done| |done].
  by eapply moves_trans.
Qed.

Lemma line_skip l ws F {A B} (m : M A) (k : A -> M B) :
  neutral_step m -> (forall a, line_spec l ws F (k a)) -> line_spec l ws F (bind m k).
Proof.
  intros [Hk Hq] Hm. eapply (line_bind l l [] ws (fun _ => [])); [apply spec_and; [exact Hk|exact Hq]|].
  cbn beta. intros s a t s1 [K [_ Q]] Hl. split_and!; [by apply keeps_moves|by rewrite Q|apply Hm].
Qed.

Lemma line_ret l (F : list Z -> CDC_LineEncoding_t -> Prop) : F [] l -> line_spec l [] F (ret tt).
Proof.
  intros HF s a s' Hl [= <- <-]. exists [], []. rewrite app_nil_r, Hl. split_and!; [done|by intros _|done].
Qed.

Lemma line_skip_last l F (m : M unit) : neutral_step m -> F [] l -> line_spec l [] F m.
Proof.
  intros [Hk Hq] HF s a s' Hl H.
  destruct (spec_and _ _ _ Hk Hq s a s' H) as (t & Ht & K & _ & Q). exists t, [].
  rewrite Q, Hl. split_and!; [done|by apply keeps_moves|done].
Qed.

Lemma line_get l ws F {B} (k : USB_ClassInfo_CDC_Device_t -> M B) :
  (forall c, LineEncoding c = l -> line_spec l ws F (k c)) -> line_spec l ws F (bind get_cdc k).
Proof. intros Hk s b s' Hl H. cbn in H. exact (Hk (cdc s) Hl s b s' Hl H). Qed.

Lemma line_put l e ws F {B} (k : unit -> M B) :
  line_spec e ws F (k tt) -> line_spec l ws F (bind (put_line_encoding e) k).
Proof.
  intros Hk s b s' Hl H. cbn in H.
  destruct s as [h r u [n i o t hd dh l0] lo ap tr]. cbn in H.
  eapply Hk in H as (t' & bs & Ht & Hmv & HF); [by exists t', bs|done].
Qed.

Lemma quiet_write_8 v : obeys quiet (Endpoint_Write_8 v).
Proof. obey. Qed.

Lemma line_write l v ws F {B} (k : unit -> M B) :
  line_spec l ws F (k tt) -> line_spec l (u8 v :: ws) F (bind (wr UEDATX v) k).
Proof.
  intros Hk. eapply (line_bind l l [u8 v] ws (fun _ => [])).
  - apply spec_and; [apply (write_8_moves 0 range_0 pre_keeps v)|apply quiet_write_8].
  - cbn beta. intros s [] t s1 [Hmv [_ Q]] Hl. split_and!; [done|by rewrite Q|exact Hk].
Qed.

Lemma read_8_u8 : yields is_u8 (rd UEDATX).
Proof.
  apply yields_bind. intros u s v s' H. unfold raw_read in H. cbn in H.
  destruct (hw_read UEDATX (uenum s) (hw s)) as [w h]. injection H as <- <-. by apply wrap_is_u.
Qed.

Lemma line_read l ws F {B} (k : Z -> M B) :
  (forall v, is_u8 v -> line_spec l ws (fun bs => F (v :: bs)) (k v)) ->
  line_spec l ws F (bind (rd UEDATX) k).
Proof.
  intros Hk. eapply (line_bind l l [] ws (fun v => [v])).
  - apply spec_yields; [|apply read_8_u8]. apply spec_and; [apply (read_8_moves 0 range_0 pre_keeps)|].
    exact (quiet_rd pre_quiet UEDATX).
  - cbn beta. intros s v t s1 [[Hmv [_ Q]] Hv] Hl. split_and!; [done|by rewrite Q|by apply Hk].
Qed.

Lemma line_assoc l ws F {A B C} (m : M A) (k : A -> M B) (h : B -> M C) :
  line_spec l ws F (a <- m ;; b <- k a ;; h b) -> line_spec l ws F (b <- (a <- m ;; k a) ;; h b).
Proof. intros H s a s' Hl E. rewrite <- bind_assoc in E. by eapply H. Qed.

Ltac neutral := split; [match goal with |- obeys _ ?m => change (obeys (keeps 0) m) end; obey|obey].

Lemma encode_line_eq l : let b := BaudRateBPS l in
  encode_line l = [u8 (b .& 0xFF); u8 (b .>> 8); u8 (b .>> 16); u8 (b .>> 24);
                   u8 (CharFormat l); u8 (ParityType l); u8 (DataBits l)].
Proof.
  intros b. unfold encode_line. cbn [le_bytes Datatypes.app]. rewrite !Z.shiftr_shiftr by lia.
  cbn [Z.add Pos.add]. f_equal. fold b. change 0xFF with (Z.ones 8).
  rewrite Z.land_ones by lia. symmetry. by apply wrap_wrap.
Qed.

Lemma get_line_encoding_spec l :
  line_spec l (encode_line l) (fun bs l' => bs = [] /\ l' = l) get_line_encoding.
Proof.
  unfold get_line_encoding, Endpoint_Write_32_LE, Endpoint_Write_8. rewrite encode_line_eq. cbv zeta.
  apply line_skip; [neutral|intros _]. apply line_skip; [neutral|intros _].
  apply line_get. intros c ->. do 3 (apply line_assoc, line_write). apply line_write.
  do 3 (apply line_get; intros ? ->; apply line_write).
  apply line_skip; [neutral|intros _]. apply line_skip_last; [neutral|done].
Qed.

Lemma line_pure l ws F {A B} (a : A) (k : A -> M B) :
  line_spec l ws F (k a) -> line_spec l ws F (bind (ret a) k).
Proof. intros H s b s' Hl E. by apply (H s b s'). Qed.

Lemma encode_line_bytes b0 b1 b2 b3 f p d :
  Forall is_u8 [b0; b1; b2; b3; f; p; d] ->
  encode_line (CDC_LineEncoding (le_value [b0; b1; b2; b3]) f p d) = [b0; b1; b2; b3; f; p; d].
Proof.
  intros H. rewrite !Forall_cons_iff in H. destruct H as (? & ? & ? & ? & ? & ? & ? & _).
  unfold encode_line. cbn [BaudRateBPS CharFormat ParityType DataBits].
  change (le_bytes 4) with (le_bytes (length [b0; b1; b2; b3])).
  rewrite (le_bytes_value [b0; b1; b2; b3]) by (rewrite !Forall_cons_iff; auto).
  rewrite !wrap_id by done. done.
Qed.

(** Either nothing is received (the device was detached before the data stage), or seven
    bytes, which become the encoding. *)
Lemma set_line_encoding_spec l :
  line_spec l [] (fun bs l' => (bs = [] /\ l' = l)
    \/ (length bs = 7%nat /\ Forall is_u8 bs /\ bs = encode_line l')) set_line_encoding.
Proof.
  unfold set_line_encoding, Endpoint_Read_32_LE, Endpoint_Read_8.
  apply line_skip; [neutral|intros _]. apply line_skip; [neutral|intros []]; cbn [negb].
  2: { apply line_ret. by left. }
  do 4 (apply line_assoc, line_read; intros ? ?). apply line_pure.
  apply line_get; intros c ->. apply line_put.
  do 3 (apply line_read; intros ? ?; apply line_get; intros ? ->; apply line_put).
  apply line_skip; [neutral|intros _]. apply line_skip; [neutral|intros _]. apply line_ret. right.
  cbn [BaudRateBPS CharFormat ParityType DataBits]. 
  assert (forall x y z w a b c, is_u8 x -> is_u8 y -> is_u8 z -> is_u8 w -> is_u8 a -> is_u8 b ->
    is_u8 c -> Forall is_u8 [x; y; z; w; a; b; c]) as HF by (intros; rewrite !Forall_cons_iff; auto 10).
  rewrite encode_line_bytes by auto. split_and!; [done|auto|done].
Qed.
End LineEncoding.

Section Claims.
Context {HW : Hardware} {FU : Fuel}.
#[local] Existing Instance Firmware.firmware_events.
#[local] Instance handler_context : Preempt := isr 0.


(** the line encoding survives the round trip: a [SetLineEncoding] whose seven bytes were
    received, followed by a [GetLineEncoding], sends back exactly those bytes, whatever timer
    ticks and bus events (short of a reset) interrupt the two handlers. *)
Theorem line_encoding_roundtrip s s1 s2 :
  set_line_encoding s = Some (tt, s1) -> get_line_encoding s1 = Some (tt, s2) -> uenum s = 0 ->
  exists t1 t2, trace s1 = trace s ++ t1 /\ trace s2 = trace s1 ++ t2
    /\ (no_reset t1 -> no_reset t2 ->
        (received 0 t1 = [] /\ LineEncoding (cdc s1) = LineEncoding (cdc s))
        \/ (length (received 0 t1) = 7%nat /\ sent 0 t2 = received 0 t1)).
Proof.
  intros H1 H2 Hu. pose proof (isr_0_keeps 0) as Hk. pose proof isr_0_quiet as Hq.
  destruct (set_line_encoding_spec Hk Hq _ s tt s1 eq_refl H1) as (t1 & bs & Ht1 & Hm1 & Hb).
  destruct (get_line_encoding_spec Hk Hq _ s1 tt s2 eq_refl H2) as (t2 & bs2 & Ht2 & Hm2 & _ & _).
  exists t1, t2. split_and!; [done|done|]. intros N1 N2.
  destruct (Hm1 N1 Hu) as (E1 & _ & ->). destruct (Hm2 N2 E1) as (_ & -> & _).
  destruct Hb as [[-> ->]|(Hl & _ & ->)]; [by left|by right].
Qed.
End Claims.

(** ** Concrete runs *)
Section Demo.
#[local] Existing Instance script_hardware.
#[local] Instance demo_fuel : Fuel := 40%nat.
#[local] Existing Instance Firmware.firmware_events.

(** The host asks for [len] bytes of the device descriptor; the control endpoint accepts
    packets until the status stage. *)
Definition demo_get (value len : Z) : mcu :=
  let s := boot_state (Script (fun r => match r with UEINTX => replicate 13%nat 0x01 ++ [0x05] | _ => [] end)
                         [Some TIMER0_OVF_vect]) script_port in
  let 'UsbGlobals i _ d n p w := usb s in
  set_usb (UsbGlobals i (USB_Request_Header 0x80 6 value 0 len) DEVICE_STATE_Default n p w) s.



(** 9600 baud, 8 data bits. *)
Definition demo_line : mcu :=
  boot_state (Script (fun r => match r with UEINTX => [0x05] | UEDATX => [0x80; 0x25; 0; 0; 0; 0; 8] | _ => [] end)
                [Some TIMER0_OVF_vect]) script_port.

Lemma line_encoding_roundtrip_witness :
  exists s1 s2 t1 t2, set_line_encoding (PRE := isr 0) demo_line = Some (tt, s1)
    /\ get_line_encoding (PRE := isr 0) s1 = Some (tt, s2)
    /\ trace s1 = t1 /\ trace s2 = t1 ++ t2
    /\ (no_reset t1 -> no_reset t2 ->
        (received 0 t1 = [] /\ LineEncoding (cdc s1) = LineEncoding (cdc demo_line))
        \/ (length (received 0 t1) = 7%nat /\ sent 0 t2 = received 0 t1)).
Proof.
  set (run := set_line_encoding (PRE := isr 0) demo_line).
  assert (match run with Some (_, s1) => match get_line_encoding (PRE := isr 0) s1 with Some _ => true | None => false end
          | None => false end = true) as V by (vm_compute; reflexivity).
  destruct run as [[[] s1]|] eqn:E1; [|done].
  destruct (get_line_encoding (PRE := isr 0) s1) as [[[] s2]|] eqn:E2; [|done].
  destruct (line_encoding_roundtrip demo_line s1 s2) as (t1 & t2 & Ht1 & Ht2 & H);
    [exact E1|exact E2|done|].
  cbn in Ht1. exists s1, s2, t1, t2. rewrite <- Ht1. rewrite <- Ht1 in H.
  split_and!; [done|done|done|exact Ht2|exact H].
Defined.
End Demo.
