(* ===== verification/Waiting.v ===== *)
(** * Waiting: the readiness wait ends

    [Endpoint_WaitUntilReady] polls the endpoint and counts frames down from
    [USB_STREAM_TIMEOUT_MS].  With a running frame counter it returns, after a number of polls
    that is bounded by the length of a frame, and a timeout means that the time really passed.
    [FrameClock] is what that needs of the controller: the frame counter shows the number of the
    current frame modulo 2^11, and a register access takes some time, but no longer than a frame.
    [BriefInterrupts] is what it needs of the interrupts: those served at one point return, and
    take at most 40 frames; they may come at every access, also between the two bytes of the
    frame number, and do anything else to the machine. *)
From S2P Require Import Prelude Machine Logic Endpoint EndpointStream UsbController DeviceRequests.
From S2P Require Import Cdc Locc Interrupts Descriptors Firmware.
Import Endpoint Cdc Firmware.

Class FrameClock `{HW : Hardware} := {
  elapsed : hw_state -> Z;
  frame_length : Z;
  frame_positive : 0 < frame_length;
  elapsed_nonneg h : 0 <= elapsed h;
  access_takes_time r ep h v h' :
    hw_read r ep h = (v, h') -> elapsed h + 1 <= elapsed h' <= elapsed h + frame_length;
  frame_low ep h v h' :
    hw_read UDFNUML ep h = (v, h') -> v = elapsed h / frame_length mod 256;
  frame_high ep h v h' :
    hw_read UDFNUMH ep h = (v, h') -> v = elapsed h / frame_length / 256 mod 8 }.

Definition now `{CLK : FrameClock} (s : mcu) : Z := elapsed (hw s).

Class BriefInterrupts `{CLK : FrameClock} {PRE : Preempt} := {
  interrupt_time : Z;
  interrupt_bound : interrupt_time <= 40 * frame_length;
  interrupts_brief s :
    exists s', preempt s = Some (tt, s') /\ now s <= now s' <= now s + interrupt_time }.

Section Waiting.
Context {HW : Hardware} {CLK : FrameClock} {PRE : Preempt} {BRF : BriefInterrupts} {FU : Fuel}.

Local Abbreviation K := frame_length.
Local Abbreviation D := interrupt_time.

Lemma interrupt_nonneg (s : mcu) : 0 <= D.
Proof. destruct (interrupts_brief s) as (s' & _ & H). lia. Qed.

(** A read: after the interrupts, at time [e]. *)
Lemma rd_clock r s : plain r = false -> exists v s' e, rd r s = Some (v, s')
  /\ now s <= e <= now s + D /\ e + 1 <= now s' <= e + K
  /\ (r = UDFNUML -> v = e / K mod 256) /\ (r = UDFNUMH -> v = e / K / 256 mod 8).
Proof.
  intros Hr. destruct (interrupts_brief s) as (s1 & E1 & H1).
  unfold rd, bind, raw_read. rewrite E1, Hr.
  destruct (hw_read r (uenum s1) (hw s1)) as [v h] eqn:E. exists (wrap (reg_width r) v). eexists. exists (now s1).
  split; [done|]. split; [done|]. split; [by apply (access_takes_time r (uenum s1) (hw s1) v h)|].
  unfold now, reg_width. split; intros ->.
  - rewrite (frame_low _ _ _ _ E). apply wrap_id. by apply (wrap_is_u 8).
  - rewrite (frame_high _ _ _ _ E). apply wrap_id. pose proof (Z.mod_pos_bound (elapsed (hw s1) / K / 256) 8).
    unfold is_u. lia.
Qed.

(** The frame number whose low byte is read at time [a] and whose high byte at time [b]. *)
Definition reading (a b : Z) : Z := a / K mod 256 + 256 * (b / K / 256 mod 8).

Lemma frame_clock s : exists s' a b, USB_Device_GetFrameNumber s = Some (reading a b, s')
  /\ now s <= a <= now s + D /\ a < b <= a + K + D /\ b < now s' <= b + K.
Proof.
  destruct (rd_clock UDFNUML s eq_refl) as (v1 & s1 & a & E1 & Ha & H1 & V1 & _).
  destruct (rd_clock UDFNUMH s1 eq_refl) as (v2 & s2 & b & E2 & Hb & H2 & _ & V2).
  rewrite (V1 eq_refl) in E1. rewrite (V2 eq_refl) in E2.
  exists s2, a, b. split_and!; [|lia..]. unfold USB_Device_GetFrameNumber, bind. rewrite E1, E2.
  unfold ret, reading. rewrite lor_shiftl8; [done|]. by apply (wrap_is_u 8).
Qed.

(** Equal low bytes of close times tell that the frame is the same; different numbers that one
    of the two parts has advanced. *)
Definition advance (a b : Z) : Z := a / K + b / K / 256.

Lemma same_reading a b a' b' : 0 <= a -> a <= a' -> a' <= a + 255 * K ->
  reading a' b' = reading a b -> a' / K = a / K.
Proof.
  pose proof frame_positive as HK. intros H0 Ha Hle Hr.
  assert (a / K <= a' / K <= a / K + 255) as Hd.
  { split; [apply Z.div_le_mono; lia|]. rewrite <- Z.div_add by lia. apply Z.div_le_mono; lia. }
  assert (a' / K mod 256 = a / K mod 256) as Hl.
  { unfold reading in Hr. pose proof (Z.mod_pos_bound (a / K) 256). pose proof (Z.mod_pos_bound (a' / K) 256). lia. }
  clear Hr. Z.div_mod_to_equations. lia.
Qed.

Lemma other_reading a b a' b' : 0 <= a <= a' -> 0 <= b <= b' ->
  reading a' b' <> reading a b -> advance a b < advance a' b'.
Proof.
  pose proof frame_positive as HK. intros Ha Hb Hr. unfold advance.
  assert (a / K <= a' / K) by (apply Z.div_le_mono; lia).
  assert (b / K / 256 <= b' / K / 256) by (do 2 (apply Z.div_le_mono; [lia|]); lia).
  destruct (Z.eq_dec (a' / K) (a / K)) as [E|]; [|lia].
  destruct (Z.eq_dec (b' / K / 256) (b / K / 256)) as [E'|]; [|lia].
  exfalso. apply Hr. unfold reading. by rewrite E, E'.
Qed.

Lemma get_state_now s : exists d s', get_state s = Some (d, s') /\ now s <= now s' <= now s + D.
Proof.
  destruct (interrupts_brief s) as (s1 & E1 & H1). unfold get_state, bind. rewrite E1. by do 2 eexists.
Qed.

Ltac stop := do 2 eexists; split; [reflexivity|]; split; [lia|done].

(** One poll, the previous one having read the frame number at times [a] and [b]. *)
Lemma poll_clock T a b s : 0 <= T -> 0 <= a -> a < b <= a + K + D -> b < now s <= b + K ->
  exists r s', wait_ready_poll (T, reading a b) s = Some (r, s') /\ now s < now s' /\
    match r with
    | inr c => 0 <= c <= ENDPOINT_READYWAIT_Timeout
               /\ (c = ENDPOINT_READYWAIT_Timeout -> T = 0 /\ exists a' b',
                     a' <= b' < now s' /\ advance a b < advance a' b')
    | inl (T', P') => exists a' b', P' = reading a' b' /\ a < a'
        /\ a' < b' <= a' + K + D /\ b' < now s' <= b' + K
        /\ ((T' = T /\ a' / K = a / K /\ advance a b <= advance a' b')
            \/ (T' = T - 1 /\ 0 < T /\ advance a b < advance a' b'))
    end.
Proof.
  intros HT Ha Hb Hs. unfold wait_ready_poll, Endpoint_GetEndpointDirection, Endpoint_IsINReady,
    Endpoint_IsOUTReceived, Endpoint_IsStalled.
  destruct (rd_clock UECFG0X s eq_refl) as (v1 & s1 & e1 & E1 & T1 & H1 & _).
  destruct (rd_clock UEINTX s1 eq_refl) as (v2 & s2 & e2 & E2 & T2 & H2 & _).
  destruct (get_state_now s2) as (d & s3 & E3 & H3).
  destruct (rd_clock UECONX s3 eq_refl) as (v4 & s4 & e4 & E4 & T4 & H4 & _).
  destruct (frame_clock s4) as (s5 & a' & b' & E5 & Ha' & Hb' & H5).
  assert (forall d : Z, (if d =? ENDPOINT_DIR_IN then v <- rd UEINTX ;; ret (truth (v .& bit TXINI))
    else v <- rd UEINTX ;; ret (truth (v .& bit RXOUTI))) s1
    = Some (if d =? ENDPOINT_DIR_IN then truth (v2 .& bit TXINI) else truth (v2 .& bit RXOUTI), s2)) as Hready.
  { intros x. destruct (_ =? _); unfold bind; by rewrite E2. }
  unfold bind at 1. unfold bind at 1. rewrite E1. cbn [ret].
  unfold bind at 1. rewrite Hready.
  pose proof frame_positive as HK. pose proof interrupt_bound as HD.
  destruct (if _ =? ENDPOINT_DIR_IN then _ else _); [stop|].
  unfold bind at 1. rewrite E3.
  destruct (decide _); [stop|]. destruct (decide _); [stop|].
  unfold bind. cbv beta. rewrite E4. unfold ret at 1. clear Hready. destruct (truth (v4 .& _)); [stop|].
  rewrite E5.
  assert (advance a b <= advance a' b') as Hadv.
  { unfold advance. apply Z.add_le_mono; repeat (apply Z.div_le_mono; [lia|]); lia. }
  destruct (Z.eqb_spec (reading a' b') (reading a b)) as [Ef|Ef]; cbn [negb].
  - do 2 eexists. split; [reflexivity|]. split; [lia|]. exists a', b'.
    split_and!; [by rewrite Ef|lia..|]. left. split_and!; [done| |done].
    apply (same_reading a b a' b'); [lia..|done].
  - pose proof (other_reading a b a' b' ltac:(lia) ltac:(lia) Ef) as Hlt.
    destruct (Z.eqb_spec T 0) as [->|HT0]; do 2 eexists; (split; [reflexivity|]; split; [lia|]).
    + split; [done|]. intros _. split; [done|]. exists a', b'. lia.
    + exists a', b'. split_and!; [done|lia..|]. right. lia.
Qed.

(** Polls left: [T] frames of the count, and what is left of the current one at time [e]. *)
Definition budget (T e : Z) : Z := T * K + (K - 1 - e mod K).

(** The loop from there: it ends within its budget, and the frame number has advanced [T + 1]
    more times when it ends with a timeout. *)
Lemma loop_clock n T a b s : 0 <= T -> 0 <= a -> a < b <= a + K + D -> b < now s <= b + K ->
  budget T a < Z.of_nat n ->
  exists c s', iter n wait_ready_poll (T, reading a b) s = Some (c, s')
    /\ 0 <= c <= ENDPOINT_READYWAIT_Timeout
    /\ (c = ENDPOINT_READYWAIT_Timeout -> exists a' b',
          a' <= b' < now s' /\ advance a b + T < advance a' b').
Proof.
  pose proof frame_positive as HK. revert T a b s.
  induction n as [|n IH]; intros T a b s HT Ha Hb Hs Hbud.
  { unfold budget in Hbud. pose proof (Z.mod_pos_bound a K). nia. }
  destruct (poll_clock T a b s HT Ha Hb Hs) as (r & s1 & Hp & Hnow & Hr).
  cbn [iter]. unfold bind. rewrite Hp. destruct r as [[T' P']|c].
  - destruct Hr as (a1 & b1 & -> & Ha1 & Hb1 & Hs1 & Hcase).
    destruct (IH T' a1 b1 s1) as (c & s' & Hi & Hc & Ht); [lia|lia|done|done| |].
    + unfold budget in *. pose proof (Z.mod_pos_bound a1 K). pose proof (Z.mod_pos_bound a K).
      destruct Hcase as [(-> & Hk & _)|(-> & HT0 & Hk)]; [|nia].
      rewrite !Z.mod_eq in * by lia. rewrite Hk in *. lia.
    + exists c, s'. split_and!; [done|lia|lia|]. intros Hc'.
      destruct (Ht Hc') as (a2 & b2 & Hab & Hlt). exists a2, b2. lia.
  - destruct Hr as [Hc Ht]. exists c, s1. split_and!; [done|lia|lia|]. intros Hc'.
    destruct (Ht Hc') as (-> & a2 & b2 & Hab & Hlt). exists a2, b2. lia.
Qed.

(** More than 100 advances take more than 99 frames: one of them may be the high byte's. *)
Lemma advance_time a b a' b' : 0 <= a <= b -> a' <= b' -> advance a b + 100 < advance a' b' ->
  a + 99 * K < b'.
Proof.
  pose proof frame_positive as HK. intros Hab Hab' Hadv. unfold advance in Hadv.
  assert (a / K <= b / K) by (apply Z.div_le_mono; lia).
  assert (a' / K <= b' / K) by (apply Z.div_le_mono; lia).
  assert (a / K / 256 <= b / K / 256) by (apply Z.div_le_mono; lia).
  assert (a / K + 100 <= b' / K) by (generalize dependent (a' / K); generalize dependent (b' / K);
    generalize dependent (b / K); generalize (a / K); intros; Z.div_mod_to_equations; lia).
  pose proof (Z.mod_pos_bound a K HK). pose proof (Z.mod_pos_bound b' K HK).
  rewrite (Z.div_mod a K), (Z.div_mod b' K) by lia. nia.
Qed.

Lemma wait_clock s :
  101 * K <= Z.of_nat fuel ->
  exists c s', Endpoint_WaitUntilReady s = Some (c, s')
    /\ 0 <= c <= ENDPOINT_READYWAIT_Timeout
    /\ (c = ENDPOINT_READYWAIT_Timeout -> now s + (USB_STREAM_TIMEOUT_MS - 1) * K < now s').
Proof.
  intros Hfuel. pose proof frame_positive as HK.
  destruct (frame_clock s) as (s1 & a & b & E & Ha & Hb & Hs).
  pose proof (elapsed_nonneg (hw s)) as H0. change (elapsed (hw s)) with (now s) in H0.
  pose proof (Z.mod_pos_bound a K HK).
  destruct (loop_clock fuel USB_STREAM_TIMEOUT_MS a b s1) as (c & s' & Hi & Hc & Ht);
    [by unfold USB_STREAM_TIMEOUT_MS|lia|lia|lia|unfold budget, USB_STREAM_TIMEOUT_MS; lia|].
  exists c, s'. split_and!; [|lia|lia|].
  - unfold Endpoint_WaitUntilReady, bind. by rewrite E.
  - intros Hc'. destruct (Ht Hc') as (a' & b' & Hab' & Hadv).
    pose proof (advance_time a b a' b' ltac:(lia) ltac:(lia) Hadv).
    unfold USB_STREAM_TIMEOUT_MS. lia.
Qed.

(** C12: the readiness wait terminates.  With the frame counter running and interrupts that
    return, at each point within 40 frames, and that may do anything else to the endpoint and to
    the device state, [Endpoint_WaitUntilReady] returns one of its error codes after at most 101
    frames' worth of polls (a fuel of [101 * frame_length] is enough), and it reports a timeout
    only after 99 full frames (one less than [USB_STREAM_TIMEOUT_MS], since the two bytes of the
    frame number may be read in different frames). *)
Theorem wait_until_ready_terminates s :
  101 * K <= Z.of_nat fuel ->
  exists c s', Endpoint_WaitUntilReady s = Some (c, s')
    /\ 0 <= c <= ENDPOINT_READYWAIT_Timeout
    /\ (c = ENDPOINT_READYWAIT_Timeout -> now s + (USB_STREAM_TIMEOUT_MS - 1) * K < now s').
Proof. apply wait_clock. Qed.

(** ** Output to the host *)

Lemma returns_wait : 101 * K <= Z.of_nat fuel -> returns Endpoint_WaitUntilReady.
Proof. intros Hf s. destruct (wait_clock s Hf) as (c & s' & H & _). eauto. Qed.

Lemma returns_preempt : returns preempt.
Proof. intros s. destruct (interrupts_brief s) as (s' & H & _). eauto. Qed.

Lemma returns_if {A} (b : bool) (m m' : M A) : returns m -> returns m' -> returns (if b then m else m').
Proof. by destruct b. Qed.

(** Straight-line code around the wait. *)
Ltac returning :=
  repeat match goal with
  | |- returns (bind _ _) => apply returns_bind; [|intros]
  | |- returns (if _ then _ else _) => apply returns_if
  | |- returns (match decide _ with _ => _ end) => destruct (decide _)
  | |- returns (ret _) => apply returns_ret
  | |- returns (gets _) => apply returns_gets
  | |- returns preempt => apply returns_preempt
  | |- returns (rd _) => apply returns_rd, returns_preempt
  | |- returns (wr _ _) => apply returns_wr, returns_preempt
  | |- returns (set_bits _ _) => apply returns_set_bits, returns_preempt
  | |- returns (clear_bits _ _) => apply returns_clear_bits, returns_preempt
  | |- returns Endpoint_WaitUntilReady => by apply returns_wait
  | |- returns ?m => let f := head_of m in progress unfold f
  end.

(** C13: output to the host never hangs the firmware.  With the frame counter running and
    interrupts that return, at each point within 40 frames, and whatever the endpoint does,
    sending a byte, flushing the endpoint and the port's periodic task return, and so do
    [usb_putc] and [usb_puthex] of the main program. *)
Theorem serial_output_terminates :
  101 * K <= Z.of_nat fuel ->
  (forall v, returns (CDC_Device_SendByte v)) /\ returns CDC_Device_Flush /\ returns CDC_Device_USBTask
  /\ (forall c, returns (usb_putc PRE c)) /\ (forall c, returns (usb_puthex c)).
Proof.
  intros Hf. assert (forall v, returns (CDC_Device_SendByte v)) as Hs by (intros; returning).
  assert (returns CDC_Device_Flush) as Hfl by returning.
  split_and!; [done|done| | |].
  - unfold CDC_Device_USBTask. returning.
  - intros c. unfold usb_putc, firmware_putc. by apply returns_bind; [apply Hs|intros; apply returns_ret].
  - intros c. unfold usb_puthex, usb_putc, firmware_putc. returning.
Qed.
End Waiting.

(** ** A clock: time is counted in register accesses, eight of them to a frame, the endpoint never
    becomes ready, and the timer interrupts the program before every other access. *)
Section Demo.
Definition clock_hardware : Hardware := {|
  hw_state := N * bool;
  hw_read := fun r _ h => (match r with
                           | UDFNUML => Z.of_N h.1 / 8 mod 256
                           | UDFNUMH => Z.of_N h.1 / 8 / 256 mod 8
                           | _ => 0 end, (h.1 + 1, h.2)%N);
  hw_write := fun _ _ _ h => h;
  hw_irq := fun h => (if h.2 then Some TIMER0_OVF_vect else None, (if h.2 then h.1 + 3 else h.1, negb h.2)%N);
  boot_signature_byte_get := fun _ => 0;
  word_after_openTelegram := 0 |}.
#[local] Existing Instance clock_hardware.

#[local] Instance clock : FrameClock.
Proof.
  refine {| elapsed := fun h : hw_state => Z.of_N h.1; frame_length := 8 |}.
  - done.
  - intros h. apply N2Z.is_nonneg.
  - intros r ep h v h' [= _ <-]. cbn. lia.
  - by intros ep h v h' [= <- _].
  - by intros ep h v h' [= <- _].
Defined.

#[local] Instance demo_fuel : Fuel := 808%nat.
#[local] Instance demo_interrupts : Preempt := Interrupts.isr (EV := firmware_events) 1.

Lemma timer_runs s : exists s', Locc.ISR_TIMER0_OVF_vect s = Some (tt, s') /\ hw s' = hw s.
Proof.
  unfold Locc.ISR_TIMER0_OVF_vect, bind. change (wr TCNT0 6 s) with (Some (tt, log (Wr TCNT0 (uenum s) 6) s)).
  cbv iota beta. rewrite get_wait_ticks_atomic.
  destruct (0 <? _); [|by eexists]. rewrite get_wait_ticks_atomic, put_wait_ticks_atomic.
  destruct (locc _) as [w st k]. by eexists.
Qed.

(** At most one timer interrupt per point, which takes three units. *)
#[local] Instance demo_brief : BriefInterrupts.
Proof.
  refine {| interrupt_time := 3 |}; [done|]. intros s. unfold preempt, demo_interrupts.
  change (Interrupts.isr 1) with (Interrupts.deliver (Interrupts.ISR_USB_COM_vect (Interrupts.isr 0))).
  unfold Interrupts.deliver. change fuel with (S (S 806)).
  destruct (hw s) as [h []] eqn:Eh; cbn [iter].
  - unfold bind, Interrupts.next_irq. rewrite Eh. cbn [hw_irq clock_hardware fst snd negb].
    match goal with |- context [Locc.ISR_TIMER0_OVF_vect ?x] => destruct (timer_runs x) as (s1 & E1 & H1) end.
    rewrite E1. unfold ret. rewrite H1. eexists. split; [reflexivity|].
    unfold now. rewrite Eh. cbn -[Z.of_N]. lia.
  - unfold bind, Interrupts.next_irq. rewrite Eh. eexists. split; [reflexivity|].
    unfold now. rewrite Eh. cbn. lia.
Defined.

Definition demo_clock_state : mcu :=
  Mcu _ ((0%N, false) : hw_state) (fun _ => 0)
    (UsbGlobals true (USB_Request_Header 0 0 0 0 0) DEVICE_STATE_Configured 1 false false)
    (USB_ClassInfo_CDC_Device 0 (USB_Endpoint_Table 0x83 16 2 1) (USB_Endpoint_Table 4 16 2 1)
       (USB_Endpoint_Table 0x82 8 3 1) 0 0 (CDC_LineEncoding 9600 0 0 8))
    (LoccGlobals 0 SLEEP 0) app_init (fun _ => 0) [].

Lemma wait_until_ready_terminates_witness :
  exists c s', Endpoint_WaitUntilReady (PRE := Interrupts.isr 1) demo_clock_state = Some (c, s')
    /\ 0 <= c <= ENDPOINT_READYWAIT_Timeout
    /\ (c = ENDPOINT_READYWAIT_Timeout -> 792 < now s').
Proof.
  destruct (wait_until_ready_terminates demo_clock_state) as (c & s' & E & Hc & Ht);
    [vm_compute; discriminate|].
  exists c, s'. split; [exact E|split; [exact Hc|exact Ht]].
Defined.

Lemma serial_output_terminates_witness :
  exists r s', CDC_Device_SendByte (PRE := Interrupts.isr 1) 0x4F demo_clock_state = Some (r, s').
Proof.
  destruct serial_output_terminates as (H & _); [vm_compute; discriminate|]. exact (H 0x4F demo_clock_state).
Defined.
End Demo.
