(* ===== verification/Enumeration.v ===== *)
(** * Enumeration: how the device answers the host

    The setup packet as it is read from the control endpoint, the requests that change the
    device's state, the endpoint sizes, and the consistency of the descriptors with the endpoints
    the firmware configures. *)
From S2P Require Import Prelude Machine Logic Endpoint EndpointStream UsbController DeviceRequests.
From S2P Require Import Cdc Locc Interrupts Descriptors Firmware Selection Transfers Control.
Import Endpoint Stream Controller Requests Cdc Interrupts.

(** ** Endpoint sizes *)

(** The loop at the size [2 ^ i], with [i - 3] in the mask: it stops at the first power of two
    that is large enough. *)
Lemma ep_size_loop_pow n Bytes i : 3 <= i <= 15 -> Bytes <= 2 ^ 15 -> 15 - i < Z.of_nat n ->
  exists m, ep_size_loop n Bytes (i - 3) (2 ^ i) = Some m /\ i - 3 <= m <= 12
    /\ Bytes <= 2 ^ (m + 3) /\ (i - 3 < m -> 2 ^ (m + 2) < Bytes).
Proof.
  revert i. induction n as [|n IH]; intros i Hi HB Hn; [lia|]. cbn [ep_size_loop].
  destruct (Z.ltb_spec (2 ^ i) Bytes) as [Hlt|Hle].
  - assert (i < 15). { apply Z.nle_gt. intros H. assert (i = 15) as -> by lia. lia. }
    replace (u8 (i - 3 + 1)) with (i + 1 - 3) by (symmetry; etransitivity; [apply wrap_id; unfold is_u; lia|lia]).
    replace (u16 (2 ^ i .<< 1)) with (2 ^ (i + 1)).
    2: { rewrite Z.shiftl_mul_pow2, <- Z.pow_add_r by lia. symmetry. apply wrap_id. split; [apply Z.pow_nonneg; lia|].
         apply Z.pow_lt_mono_r; lia. }
    destruct (IH (i + 1)) as (m & Hm & Hr & Hb & Hmin); [lia|done|lia|]. exists m.
    split_and!; [done|lia|lia|done|]. intros _. destruct (Z.eq_dec m (i + 1 - 3)) as [->|]; [|apply Hmin; lia].
    by replace (i + 1 - 3 + 2) with i by lia.
  - exists (i - 3). split_and!; [done|lia|lia|by replace (i - 3 + 3) with i by lia|lia].
Qed.

(** Past [2 ^ 15] the doubled size wraps to zero and the loop never ends. *)
Lemma ep_size_loop_zero n Bytes m : 0 < Bytes -> ep_size_loop n Bytes m 0 = None.
Proof.
  intros HB. revert m. induction n as [|n IH]; intros m; [done|]. cbn [ep_size_loop].
  replace (0 <? Bytes) with true by (symmetry; by apply Z.ltb_lt). apply IH.
Qed.

Lemma ep_size_loop_diverges n Bytes i m : 3 <= i <= 15 -> 2 ^ 15 < Bytes ->
  ep_size_loop n Bytes m (2 ^ i) = None.
Proof.
  revert i m. induction n as [|n IH]; intros i m Hi HB; [done|]. cbn [ep_size_loop].
  assert (2 ^ i <= 2 ^ 15) by (apply Z.pow_le_mono_r; lia).
  replace (2 ^ i <? Bytes) with true by (symmetry; apply Z.ltb_lt; lia).
  destruct (Z.eq_dec i 15) as [->|].
  - change (u16 (2 ^ 15 .<< 1)) with 0. apply ep_size_loop_zero. lia.
  - replace (u16 (2 ^ i .<< 1)) with (2 ^ (i + 1)); [apply IH; lia|].
    rewrite Z.shiftl_mul_pow2, <- Z.pow_add_r by lia. symmetry. apply wrap_id.
    split; [apply Z.pow_nonneg; lia|apply Z.pow_lt_mono_r; lia].
Qed.

(** the endpoint size field.  For every size up to 2^15 [Endpoint_BytesToEPSizeMask] returns
    the code [m] of the smallest bank of [8 * 2 ^ m] bytes that holds it, in bits 4 and up, and
    for the sizes the controller has (up to 512 bytes) the field does not leave its three bits.
    For a larger size the 16-bit size wraps to zero and the loop never ends, however long it
    runs. *)
Theorem ep_size_mask `{HW : Hardware} Bytes s :
  0 <= Bytes ->
  if Bytes <=? 2 ^ 15 then
    exists m, Endpoint_BytesToEPSizeMask Bytes s = Some (u8 (m .<< EPSIZE0), s)
      /\ 0 <= m <= 12 /\ Bytes <= 8 * 2 ^ m /\ (0 < m -> 8 * 2 ^ (m - 1) < Bytes)
      /\ (Bytes <= 512 -> u8 (m .<< EPSIZE0) = 16 * m /\ m <= 6)
  else forall n, ep_size_loop n Bytes 0 8 = None.
Proof.
  intros H0. destruct (Z.leb_spec Bytes (2 ^ 15)) as [Hle|Hgt].
  - destruct (ep_size_loop_pow 14 Bytes 3) as (m & Hm & Hr & Hb & Hmin); [lia|done|lia|].
    change (3 - 3) with 0 in *. change (2 ^ 3) with 8 in Hm. exists m. unfold Endpoint_BytesToEPSizeMask. rewrite Hm.
    rewrite Z.pow_add_r in Hb by lia. split_and!; [done|lia|lia|lia| |].
    + intros Hp. replace (m + 2) with (m - 1 + 3) in Hmin by lia. rewrite Z.pow_add_r in Hmin by lia. lia.
    + intros H512. assert (m <= 6) as Hm6.
      { apply Z.nlt_ge. intros H7. assert (2 ^ 9 <= 2 ^ (m + 2)) by (apply Z.pow_le_mono_r; lia). lia. }
      split; [|done]. rewrite Z.shiftl_mul_pow2 by done. change (2 ^ EPSIZE0) with 16.
      etransitivity; [apply wrap_id; unfold is_u; lia|lia].
  - intros n. apply (ep_size_loop_diverges n Bytes 3); lia.
Qed.

Lemma ep_size_mask_witness :
  let s := boot_state (Script (fun _ => []) []) script_port in
  exists m, @Endpoint_BytesToEPSizeMask script_hardware 16 s = Some (u8 (m .<< EPSIZE0), s)
    /\ 0 <= m <= 12 /\ 16 <= 8 * 2 ^ m /\ (0 < m -> 8 * 2 ^ (m - 1) < 16)
    /\ (16 <= 512 -> u8 (m .<< EPSIZE0) = 16 * m /\ m <= 6).
Proof. apply (@ep_size_mask script_hardware 16). lia. Defined.

(** ** The setup packet *)

(** The request header eight bytes stand for, 16-bit fields low byte first. *)
Definition header_of (bs : list Z) : option USB_Request_Header_t :=
  match bs with
  | [t; r; v0; v1; i0; i1; l0; l1] =>
      Some (USB_Request_Header t r (le_value [v0; v1]) (le_value [i0; i1]) (le_value [l0; l1]))
  | _ => None
  end.

Fixpoint store_bytes (i : nat) (bs : list Z) (req : USB_Request_Header_t) : USB_Request_Header_t :=
  match bs with [] => req | b :: bs' => store_bytes (S i) bs' (set_request_byte i b req) end.

(** Both bytes stored, nothing is left of the old field. *)
Lemma store_word w lo hi : is_u8 lo -> is_u8 hi ->
  (w .& 0xFF00 .| lo) .& 0x00FF .| hi .<< 8 = le_value [lo; hi].
Proof.
  intros Hl Hh. rewrite Z.land_lor_distr_l, <- Z.land_assoc. change (0xFF00 .& 0x00FF) with 0.
  rewrite Z.land_0_r, Z.lor_0_l. rewrite (land_ff lo) by done. cbn [le_value].
  by rewrite Z.shiftl_0_l, Z.lor_0_r.
Qed.

Lemma store_header bs req : length bs = 8%nat -> Forall is_u8 bs ->
  header_of bs = Some (store_bytes 0 bs req).
Proof.
  intros Hl HF. do 8 (destruct bs as [|? bs]; [done|]). destruct bs; [|done].
  rewrite !Forall_cons_iff in HF. destruct HF as (? & ? & ? & ? & ? & ? & ? & ? & _).
  destruct req as [t r v i l]. cbn [header_of store_bytes set_request_byte].
  by rewrite !store_word.
Qed.

Section SetupPacket.
Context {HW : Hardware} {FU : Fuel} {PRE : Preempt}.
Context (pre_keeps : obeys (keeps 0) preempt) (pre_quiet : obeys quiet preempt).

Lemma read_request_spec n i : spec (read_request n i) (fun s _ t s' =>
  exists bs, length bs = n /\ Forall is_u8 bs /\ moves 0 [] bs s t s'
    /\ USB_ControlRequest (usb s') = store_bytes i bs (USB_ControlRequest (usb s))).
Proof.
  revert i. induction n as [|n IH]; intros i; cbn [read_request].
  { apply spec_ret. intros s. exists []. split_and!; [done|done|by intros _|done]. }
  eapply spec_bind.
  { apply spec_yields; [|apply read_8_u8]. apply spec_and; [apply (read_8_moves 0 range_0 pre_keeps)|].
    exact (quiet_rd pre_quiet UEDATX). }
  { intros v. apply (spec_get_bind (fun s => USB_ControlRequest (usb s)) _ (fun s _ t s' =>
      exists bs, length bs = n /\ Forall is_u8 bs /\ moves 0 [] bs s t s'
        /\ USB_ControlRequest (usb s') = store_bytes (S i) bs (set_request_byte i v (USB_ControlRequest (usb s))))).
    intros req. eapply (spec_bind _ _ (fun s _ t s' => t = [] /\ uenum s' = uenum s /\ USB_ControlRequest (usb s') = set_request_byte i v req));
      [|intros u; apply IH|].
    - apply spec_modify; intros s; by destruct s as [? ? []].
    - cbn beta. intros s [] t s1 [] t' s2 (-> & Hu & Hr) (bs & Hl & HF & Hmv & Hs) ->. exists bs.
      rewrite Hr in Hs. split_and!; [done|done| |done]. intros N Hu'. apply Hmv; [done|by rewrite Hu]. }
  cbn beta. intros s v t s1 [] t' s2 [[Hmv [Q _]] Hv] (bs & Hl & HF & Hmv' & Hs). exists (v :: bs).
  rewrite Q in Hs. split_and!; [cbn; lia|by constructor| |done].
  by apply (moves_trans 0 [] [v] [] bs) with s1.
Qed.
End SetupPacket.

Section Setup.
Context {HW : Hardware} {FU : Fuel}.
#[local] Existing Instance Firmware.firmware_events.
#[local] Instance parse_context : Preempt := isr 0.

(** the setup packet is taken from the control endpoint byte by byte, interrupted by timer
    ticks and bus events short of a reset, into a [USB_ControlRequest] that is its decoding,
    with the 16-bit fields low byte first and nothing left of the previous request. *)
Theorem setup_packet_parsed s s' :
  uenum s = 0 -> read_request 8 0 s = Some (tt, s') ->
  exists t bs, trace s' = trace s ++ t /\ length bs = 8%nat
    /\ header_of bs = Some (USB_ControlRequest (usb s'))
    /\ (no_reset t -> uenum s' = 0 /\ received 0 t = bs /\ sent 0 t = []).
Proof.
  intros Hu H. destruct (read_request_spec (isr_0_keeps 0) isr_0_quiet 8 0 _ _ _ H)
    as (t & Ht & bs & Hl & HF & Hmv & Hs).
  exists t, bs. split_and!; [done|done| |].
  - rewrite Hs. by apply store_header.
  - intros N. destruct (Hmv N Hu) as (? & ? & ?). done.
Qed.
End Setup.

(** ** The log of register accesses *)
Section Logged.
Context {HW : Hardware} {FU : Fuel} {PRE : Preempt} (pre_ok : obeys grows preempt).
#[local] Existing Instance Firmware.firmware_events.

(** The last entry of the log of a read is the read. *)
Lemma rd_logged r : spec (rd r) (fun s v t s' => exists t1 ep, t = t1 ++ [Rd r ep v]).
Proof.
  eapply (spec_bind _ _ _ (fun _ s v t s' => exists ep, t = [Rd r ep v])); [exact pre_ok| |].
  - intros u. apply spec_raw_read; eauto.
  - cbn beta. intros s u t s1 v t' s2 _ [ep ->]. eauto.
Qed.
End Logged.

(** ** SetConfiguration *)

Section SameUsb.
Context {HW : Hardware}.

(** Code that leaves the globals of the USB core alone. *)
Definition same_usb (s : mcu) (t : list event) (s' : mcu) : Prop := usb s' = usb s.

#[export] Instance same_usb_policy : Policy same_usb.
Proof. split; unfold same_usb; [done|congruence]. Qed.

Context {PRE : Preempt} {FU : Fuel} (pre_ok : obeys same_usb preempt).

Lemma same_usb_rd r : obeys same_usb (rd r).
Proof. apply obeys_rd; [typeclasses eauto|done|]. by apply spec_raw_read. Qed.
Lemma same_usb_wr r v : obeys same_usb (wr r v).
Proof.
  apply obeys_wr; [typeclasses eauto|done|]. apply spec_raw_write. intros s. by destruct (plain r).
Qed.
Lemma same_usb_get_state : obeys same_usb get_state.
Proof. apply obeys_bind; [typeclasses eauto|done|intros]. apply obeys_gets; typeclasses eauto. Qed.
Lemma same_usb_cdc f : obeys same_usb (modify (fun s => set_cdc (f (cdc s)) s)).
Proof. by apply spec_modify. Qed.
End SameUsb.

#[export] Hint Resolve same_usb_rd same_usb_wr same_usb_get_state same_usb_cdc : obey.

Section SetConfiguration.
Context {HW : Hardware} {FU : Fuel}.
#[local] Existing Instance Firmware.firmware_events.
#[local] Existing Instance no_preempt.

Lemma no_preempt_same_usb : obeys same_usb (@preempt _ no_preempt).
Proof. apply obeys_ret. typeclasses eauto. Qed.

Lemma configuration_changed_same_usb :
  obeys same_usb (EVENT_USB_Device_ConfigurationChanged no_preempt).
Proof.
  pose proof no_preempt_same_usb.
  assert (forall n x y z e, obeys same_usb (configure_from n x y z e)).
  { induction n as [|n IH]; intros x y z e; cbn [configure_from]; obey. }
  assert (forall l, obeys same_usb (Endpoint_ConfigureEndpointTable l)).
  { induction l as [|t l IH]; cbn [Endpoint_ConfigureEndpointTable]; obey. }
  cbn. unfold Firmware.on_ConfigurationChanged. obey.
Qed.

(** The configuration number and device state a SetConfiguration leaves. *)
Definition configured (n : Z) (d : USB_Device_States_t) (u : usb_globals) : usb_globals :=
  UsbGlobals (USB_IsInitialized u) (USB_ControlRequest u) d n
    (USB_Device_CurrentlySelfPowered u) (USB_Device_RemoteWakeupEnabled u).

(** The device state is chosen by the number or, for zero, by the address bit. *)
Definition state_after (n : Z) (t : list event) (d : USB_Device_States_t) : Prop :=
  if truth n then d = DEVICE_STATE_Configured
  else exists ep v, Rd UDADDR ep v ∈ t
         /\ d = if Z.testbit v ADDEN then DEVICE_STATE_Configured else DEVICE_STATE_Powered.

Lemma choose_state n : spec
  (if truth n then put_state DEVICE_STATE_Configured
   else set <- USB_Device_IsAddressSet ;;
        put_state (if set : bool then DEVICE_STATE_Configured else DEVICE_STATE_Powered))
  (fun s _ t s' => exists d, state_after n t d
     /\ usb s' = configured (USB_Device_ConfigurationNumber (usb s)) d (usb s)).
Proof.
  assert (forall d, spec (put_state d) (fun s _ t s' => t = []
    /\ usb s' = configured (USB_Device_ConfigurationNumber (usb s)) d (usb s))) as Hput.
  { intros d s [] s' H. cbn in H. injection H as <-. exists [].
    destruct s as [? ? [] ? ? ? ?]. cbn. by rewrite app_nil_r. }
  unfold state_after. destruct (truth n).
  - eapply spec_conseq; [apply Hput|]. cbn beta. intros s [] t s' [_ H]. eauto.
  - unfold USB_Device_IsAddressSet. eapply spec_ext; [intros s; symmetry; apply bind_assoc|].
    eapply spec_bind; [apply spec_and; [apply (rd_logged (obeys_ret grows tt) UDADDR)|apply (same_usb_rd no_preempt_same_usb UDADDR)]| |].
    + intros v. apply (Hput (if truth (v .& bit ADDEN) then DEVICE_STATE_Configured else DEVICE_STATE_Powered)).
    + cbn beta. intros s v t s1 [] t' s2 [(t1 & ep & ->) E] [-> H]. unfold same_usb in E. rewrite E in H.
      exists (if truth (v .& bit ADDEN) then DEVICE_STATE_Configured else DEVICE_STATE_Powered).
      rewrite truth_land_bit in * by done. split; [|done]. exists ep, v. split; [|done].
      rewrite app_nil_r. apply elem_of_app. right. by apply list_elem_of_singleton.
Qed.

Lemma set_config_spec n : spec (put_config n) (fun s _ t s' =>
  usb s' = configured n (USB_DeviceState (usb s)) (usb s)).
Proof. apply spec_modify; intros s; by destruct s as [? ? []]. Qed.

(** Code in front that leaves the globals alone, and code behind. *)
Lemma same_usb_first {A B} (m : M A) (k : A -> M B) (F : usb_globals -> list event -> usb_globals -> Prop) :
  (forall u t t' u', F u t' u' -> F u (t ++ t') u') -> obeys same_usb m ->
  (forall a, spec (k a) (fun s _ t s' => F (usb s) t (usb s'))) ->
  spec (bind m k) (fun s _ t s' => F (usb s) t (usb s')).
Proof.
  intros HF Hm Hk. eapply spec_bind; [exact Hm|exact Hk|]. cbn beta. unfold same_usb.
  intros s a t s1 b t' s2 E H. rewrite E in H. auto.
Qed.

Lemma state_after_mono n t t' d :
  (forall e, e ∈ t -> e ∈ t') -> state_after n t d -> state_after n t' d.
Proof. unfold state_after. intros Hs. destruct (truth n); [done|]. intros (ep & v & H & ->). eauto. Qed.

Lemma state_after_app n t t' d : state_after n t' d -> state_after n (t ++ t') d.
Proof. apply state_after_mono. intros e He. apply elem_of_app. by right. Qed.

Definition set_configuration_post (u : usb_globals) (t : list event) (u' : usb_globals) : Prop :=
  let n := u8 (wValue (USB_ControlRequest u)) in
  exists d, state_after n t d /\ u' = configured n d u.

Lemma set_configuration_spec : spec
  (Endpoint_ClearSETUP ;; req <- get_request ;; put_config (u8 (wValue req)) ;;
   Endpoint_ClearStatusStage ;; n <- get_config ;;
   (if truth n then put_state DEVICE_STATE_Configured
    else set <- USB_Device_IsAddressSet ;;
         put_state (if set : bool then DEVICE_STATE_Configured else DEVICE_STATE_Powered)) ;;
   EVENT_USB_Device_ConfigurationChanged no_preempt)
  (fun s _ t s' => set_configuration_post (usb s) t (usb s')).
Proof.
  pose proof no_preempt_same_usb as Hn.
  assert (forall u t t' u', set_configuration_post u t' u' -> set_configuration_post u (t ++ t') u') as Happ.
  { intros u t t' u' (d & Hd & ->). exists d. split; [by apply state_after_app|done]. }
  apply same_usb_first; [done|obey|intros _]. apply spec_get_bind. intros req.
  set (c := u8 (wValue req)).
  eapply (spec_bind _ _ _ (fun _ s _ t s' => USB_Device_ConfigurationNumber (usb s) = c ->
    exists d, state_after c t d /\ usb s' = configured c d (usb s))); [apply set_config_spec| |].
  - intros _. eapply (same_usb_first _ _ (fun u t u' => USB_Device_ConfigurationNumber u = c ->
      exists d, state_after c t d /\ u' = configured c d u)); [|obey|].
    { intros u t t' u' H Hc. destruct (H Hc) as (d & Hd & ->). exists d. split; [by apply state_after_app|done]. }
    intros _. apply spec_get_bind. intros n.
    eapply spec_bind; [apply choose_state|intros u; apply configuration_changed_same_usb|].
    cbn beta. unfold same_usb. intros s u t s1 u' t' s2 (d & Hd & E1) E2 -> Hc. rewrite Hc in *.
    exists d. split; [|congruence]. eapply state_after_mono; [|exact Hd].
    intros e He. apply elem_of_app. by left.
  - cbn beta. intros s u t s1 u' t' s2 E H ->. unfold c. rewrite E in H.
    destruct (H eq_refl) as (d & Hd & E2). exists d. split; [by apply state_after_app|done].
Qed.

(** SetConfiguration on every branch, run without interrupts: a number above the one
    configuration the device has changes nothing (the request is left to be stalled); otherwise
    the number is recorded and the device is Configured if it is not zero.  For zero it goes to
    Powered when the address bit read from [UDADDR] is clear, but stays Configured when it is
    set, where the USB specification has Addressed.  The remaining globals, and the request, are
    left as they were. *)
Theorem set_configuration_effect s s' :
  USB_Device_SetConfiguration s = Some (tt, s') ->
  exists t, trace s' = trace s ++ t /\
    let n := u8 (wValue (USB_ControlRequest (usb s))) in
    if 1 <? n then s' = s
    else exists d, state_after n t d /\ usb s' = configured n d (usb s).
Proof.
  intros H. unfold USB_Device_SetConfiguration, get_request in H. cbn in H.
  change FIXED_NUM_CONFIGURATIONS with 1 in H. cbv zeta. destruct (_ <? _).
  - injection H as <-. exists []. by rewrite app_nil_r.
  - exact (set_configuration_spec _ _ _ H).
Qed.
End SetConfiguration.

(** ** The configuration descriptor *)

(** A sequence of descriptors is walked by the length in the first byte of each. *)
Fixpoint split_descriptors (n : nat) (bs : list Z) : option (list (list Z)) :=
  match n, bs with
  | _, [] => Some []
  | S n', l :: _ =>
      if (2 <=? l) && (l <=? Z.of_nat (length bs)) then
        match split_descriptors n' (drop (Z.to_nat l) bs) with
        | Some ds => Some (take (Z.to_nat l) bs :: ds)
        | None => None
        end
      else None
  | O, _ => None
  end.

Definition descriptor_type (d : list Z) : Z := nth 1 d 0.
Definition is_endpoint (d : list Z) : bool := descriptor_type d =? DTYPE_Endpoint.
Definition is_interface (d : list Z) : bool := descriptor_type d =? DTYPE_Interface.

(** Endpoint descriptors that follow, up to the next interface. *)
Fixpoint endpoints_following (ds : list (list Z)) : Z :=
  match ds with
  | [] => 0
  | d :: ds' => if is_interface d then 0 else (if is_endpoint d then 1 else 0) + endpoints_following ds'
  end.

(** Every interface announces the endpoints that follow it. *)
Fixpoint interfaces_agree (ds : list (list Z)) : bool :=
  match ds with
  | [] => true
  | d :: ds' => (if is_interface d then nth 4 d 0 =? endpoints_following ds' else true) && interfaces_agree ds'
  end.

(** Address, transfer type and size of an endpoint descriptor, and of a table entry. *)
Definition endpoint_of_descriptor (d : list Z) : Z * Z * Z :=
  (nth 2 d 0, nth 3 d 0 .& 3, le_value [nth 4 d 0; nth 5 d 0]).
Definition endpoint_of_table (e : USB_Endpoint_Table_t) : Z * Z * Z := (Address e, Type_ e, Size e).

(** the configuration descriptor agrees with itself and with the driver: walked by the
    length bytes it splits into whole descriptors, its total size and number of interfaces are
    right, every interface announces the endpoints that follow it, and the endpoints are exactly
    those [CDC_Device_ConfigureEndpoints] sets up (address, type, size), with distinct numbers
    the controller has and sizes that are one of its bank sizes. *)
Theorem configuration_descriptor_consistent :
  let c := reset_cdc Firmware.VirtualSerial_CDC_Interface in
  let table := [NotificationEndpoint c; DataOUTEndpoint c; DataINEndpoint c] in
  exists ds, split_descriptors 9 Descriptors.ConfigurationDescriptor = Some ds
    /\ mjoin ds = Descriptors.ConfigurationDescriptor
    /\ le_value (take 2 (drop 2 Descriptors.ConfigurationDescriptor))
       = Z.of_nat (length Descriptors.ConfigurationDescriptor)
    /\ nth 4 Descriptors.ConfigurationDescriptor 0 = Z.of_nat (length (List.filter is_interface ds))
    /\ interfaces_agree ds = true
    /\ endpoint_of_descriptor <$> List.filter is_endpoint ds = endpoint_of_table <$> table
    /\ NoDup ((fun e => Address e .& ENDPOINT_EPNUM_MASK) <$> table)
    /\ Forall (fun e => 1 <= Address e .& ENDPOINT_EPNUM_MASK < ENDPOINT_TOTAL_ENDPOINTS
                        /\ In (Size e) [8; 16; 32; 64]) table.
Proof.
  cbv zeta. eexists. split; [vm_compute; reflexivity|].
  split_and!; try (vm_compute; reflexivity).
  - apply (bool_decide_unpack _). vm_compute. exact I.
  - repeat constructor; vm_compute; (discriminate || reflexivity || tauto).
Qed.

(** ** Concrete runs *)
Section Demo.
#[local] Existing Instance script_hardware.
#[local] Instance demo_fuel : Fuel := 20%nat.
#[local] Existing Instance Firmware.firmware_events.

Definition demo_setup (bs : list Z) : mcu :=
  boot_state (Script (fun r => match r with UEDATX => bs | UEINTX => [0x08] | _ => [] end)
                [None; Some TIMER0_OVF_vect]) script_port.

Lemma setup_packet_parsed_witness :
  let bs := [0x80; 6; 0; 1; 0; 0; 18; 0] in
  exists s', read_request (PRE := isr 0) 8 0 (demo_setup bs) = Some (tt, s')
    /\ received 0 (trace s') = bs
    /\ header_of bs = Some (USB_ControlRequest (usb s'))
    /\ header_of bs = Some (USB_Request_Header 0x80 6 0x0100 0 18).
Proof.
  intros bs. set (run := read_request (PRE := isr 0) 8 0 (demo_setup bs)).
  assert (check_run run (fun _ t => seen_no_reset t && bool_decide (received 0 t = bs)) = true) as V
    by (vm_compute; reflexivity).
  destruct run as [[[] s']|] eqn:E; [|done]. apply andb_prop in V as [V1 V2].
  apply seen_no_reset_ok in V1. apply bool_decide_eq_true in V2.
  destruct (setup_packet_parsed (demo_setup bs) s') as (t & bs' & Ht & _ & Hh & H); [done|exact E|].
  cbn in Ht. subst t. destruct (H V1) as (_ & Hr & _).
  exists s'. split; [done|]. split; [exact V2|]. rewrite <- Hr, V2 in Hh. split; [exact Hh|reflexivity].
Defined.


(** SetConfiguration(0) at an address: the device state ends up Configured. *)
Definition demo_unconfigure : mcu :=
  let s := boot_state (Script (fun r => match r with UEINTX => [0x09] | UDADDR => [0x85] | UESTA0X => [0x80] | _ => [] end) [])
             Firmware.VirtualSerial_CDC_Interface in
  set_usb (UsbGlobals true (USB_Request_Header 0 9 0 0 0) DEVICE_STATE_Configured 1 false false) s.

Lemma set_configuration_effect_witness :
  exists s' t d, USB_Device_SetConfiguration (PRE := no_preempt) demo_unconfigure = Some (tt, s')
    /\ trace s' = t /\ state_after 0 t d /\ usb s' = configured 0 d (usb demo_unconfigure)
    /\ USB_DeviceState (usb s') = DEVICE_STATE_Configured.
Proof.
  set (run := USB_Device_SetConfiguration (PRE := no_preempt) demo_unconfigure).
  assert (match run with Some (_, s') => bool_decide (USB_DeviceState (usb s') = DEVICE_STATE_Configured) | None => false end = true)
    as V by (vm_compute; reflexivity).
  destruct run as [[[] s']|] eqn:E; [|done]. apply bool_decide_eq_true in V.
  destruct (set_configuration_effect demo_unconfigure s') as (t & Ht & d & Hd & Hu); [exact E|].
  exists s', t, d. split; [done|]. split; [exact Ht|]. split; [exact Hd|split; [exact Hu|exact V]].
Defined.
End Demo.
