(* ===== verification/Port.v ===== *)
(** * Port: bytes through the virtual serial port

    [CDC_Device_SendByte] and [CDC_Device_ReceiveByte], the two functions the main program
    talks to the host with, under interrupts. *)
From S2P Require Import Prelude Machine Logic Endpoint EndpointStream UsbController DeviceRequests.
From S2P Require Import Cdc Locc Interrupts Descriptors Firmware Selection Transfers Control.
Import Endpoint Stream Controller Requests Cdc Interrupts.

Section Config.
Context {HW : Hardware}.

(** The endpoint numbers of the port are fixed. *)
Definition config_kept (s : mcu) (t : list event) (s' : mcu) : Prop := same_config (cdc s) (cdc s').

#[export] Instance config_kept_policy : Policy config_kept.
Proof.
  split; unfold config_kept, same_config; [done|].
  intros s t s1 t' s2 (-> & -> & -> & ->) (-> & -> & -> & ->). done.
Qed.

#[export] Instance config_kept_usb : UsbPolicy config_kept.
Proof.
  split; [typeclasses eauto| | |done|done|done].
  - intros. by apply spec_raw_read.
  - intros. apply spec_raw_write. intros s. by destruct (plain r).
Qed.

Lemma timer_config_kept : obeys config_kept Locc.ISR_TIMER0_OVF_vect.
Proof.
  assert (obeys config_kept (@preempt _ no_preempt)) by (apply obeys_ret; typeclasses eauto).
  assert (obeys config_kept (@wr _ no_preempt TCNT0 6)).
  { apply obeys_wr; [typeclasses eauto|done|]. by apply spec_raw_write. }
  assert (forall t, obeys config_kept (@put_wait_ticks _ no_preempt t)).
  { intros t. apply obeys_put_wait_ticks; [typeclasses eauto|done|intros].
    apply spec_modify; intros s; by destruct s as [? ? ? ? []]. }
  unfold Locc.ISR_TIMER0_OVF_vect. obey.
Qed.
End Config.

Section Bytes.
Context {HW : Hardware} {FU : Fuel} (n : nat) (ep : Z).
Context (ep_data : ep <> 0) (ep_range : is_u 4 ep).
#[local] Existing Instance Firmware.firmware_events.
#[local] Hint Extern 0 Preempt => exact (isr n) : typeclass_instances.

Lemma isr_config_kept : obeys config_kept (@preempt _ (isr n)).
Proof. apply obeys_firmware_isr; [typeclasses eauto|apply timer_config_kept]. Qed.

(** The bytes of [ep] moved by code that may begin on any endpoint. *)
Definition exchanges (ws rs : list Z) (s : mcu) (t : list event) (s' : mcu) : Prop :=
  no_reset t -> is_u 4 (uenum s) -> sent ep t = ws /\ received ep t = rs.

Lemma keeps_exchanges s t s' : keeps ep s t s' -> exchanges [] [] s t s'.
Proof. intros K N Hu. by destruct (K N Hu) as (_ & ? & ?). Qed.

Lemma port_closed_spec : spec port_closed (fun s _ t s' => keeps ep s t s' /\ config_kept s t s').
Proof.
  pose proof (isr_keeps n ep ep_data) as Hk. pose proof isr_config_kept as Hc.
  apply spec_and; [change (obeys (keeps ep) port_closed)|change (obeys config_kept port_closed)]; obey.
Qed.

(** The port's endpoint is selected and [k] run on it. *)
Lemma select_then {A} (addr : USB_ClassInfo_CDC_Device_t -> Z) (k : M A) (ws rs : A -> list Z) :
  spec k (fun s a t s' => moves ep (ws a) (rs a) s t s') ->
  spec (bind (c <- get_cdc ;; Endpoint_SelectEndpoint (addr c)) (fun _ => k)) (fun s a t s' =>
    addr (cdc s) .& ENDPOINT_EPNUM_MASK = ep -> exchanges (ws a) (rs a) s t s').
Proof.
  intros Hk. pose proof (isr_keeps n ep ep_data) as Hp.
  eapply (spec_bind _ _ (fun s _ t s' => uenum s' = addr (cdc s) .& ENDPOINT_EPNUM_MASK
    /\ (no_reset t -> is_u 4 (uenum s) -> silent ep t))); [|intros; exact Hk|].
  - apply spec_get_bind. intros c. eapply spec_conseq; [apply (select_spec ep Hp)|].
    cbn beta. by intros s u t s' H ->.
  - cbn beta. intros s u t s1 a t' s2 [E S] H Ha [N1 N2]%no_reset_app Hu. rewrite Ha in E.
    destruct (S N1 Hu) as [S1 S2]. destruct (H N2 E) as (_ & Hw & Hr).
    by rewrite sent_app, received_app, S1, S2.
Qed.

(** Code that moves nothing in front of code that moves. *)
Lemma moves_skip {A B} (ws rs : B -> list Z) (m : M A) (k : A -> M B) :
  obeys (keeps ep) m -> (forall a, spec (k a) (fun s r t s' => moves ep (ws r) (rs r) s t s')) ->
  spec (bind m k) (fun s r t s' => moves ep (ws r) (rs r) s t s').
Proof.
  intros Hm Hk. eapply spec_bind; [exact Hm|exact Hk|]. cbn beta. intros. by eapply keeps_then_moves.
Qed.

Lemma write_ok v (c : Z) : spec (Endpoint_Write_8 v ;; ret c) (fun s r t s' => r = c /\ moves ep [u8 v] [] s t s').
Proof.
  pose proof (isr_keeps n ep ep_data) as Hp.
  eapply (spec_bind _ _ _ (fun _ s r t s' => r = c /\ t = [] /\ s' = s));
    [apply (write_8_moves ep ep_range Hp)|intros; by apply spec_ret|].
  cbn beta. intros s u t s1 r t' s2 H (-> & -> & ->). by rewrite app_nil_r.
Qed.

(** A function that returns [c0] on a closed port and else runs [k] on one of its endpoints. *)
Lemma port_function (addr : USB_ClassInfo_CDC_Device_t -> Z) (c0 : Z) (k : M Z) (ws rs : Z -> list Z) :
  (forall c c', same_config c c' -> addr c' = addr c) -> ws c0 = [] -> rs c0 = [] ->
  spec k (fun s r t s' => addr (cdc s) .& ENDPOINT_EPNUM_MASK = ep -> exchanges (ws r) (rs r) s t s') ->
  spec (closed <- port_closed ;; if closed : bool then ret c0 else k) (fun s r t s' =>
    addr (cdc s) .& ENDPOINT_EPNUM_MASK = ep -> exchanges (ws r) (rs r) s t s').
Proof.
  intros Haddr Hw0 Hr0 Hk.
  eapply (spec_bind _ _ _ (fun _ s r t s' => addr (cdc s) .& ENDPOINT_EPNUM_MASK = ep ->
    exchanges (ws r) (rs r) s t s')); [apply port_closed_spec| |].
  - intros []; [|exact Hk]. apply spec_ret. intros s _ _ _. by rewrite Hw0, Hr0.
  - cbn beta. intros s c t s1 r t' s2 [K C] H Ha [N1 N2]%no_reset_app Hu.
    destruct (K N1 Hu) as (E & S1 & S2). rewrite <- (Haddr _ _ C) in Ha.
    destruct (H Ha N2) as [Hw Hr]; [by rewrite E|]. by rewrite sent_app, received_app, S1, S2.
Qed.

(** The byte goes out with [NoError] and with nothing else. *)
Definition send_result (v r : Z) : list Z := if r =? ENDPOINT_READYWAIT_NoError then [u8 v] else [].

Lemma send_selected v : spec
  (rwal <- Endpoint_IsReadWriteAllowed ;;
   if negb rwal then
     Endpoint_ClearIN ;;
     ErrorCode <- Endpoint_WaitUntilReady ;;
     if negb (ErrorCode =? ENDPOINT_READYWAIT_NoError) then ret ErrorCode
     else Endpoint_Write_8 v ;; ret ENDPOINT_READYWAIT_NoError
   else Endpoint_Write_8 v ;; ret ENDPOINT_READYWAIT_NoError)
  (fun s r t s' => moves ep (send_result v r) [] s t s').
Proof.
  pose proof (isr_keeps n ep ep_data) as Hp.
  pose proof (fun A => @moves_skip A Z (send_result v) (fun _ => [])) as Hskip.
  assert (spec (Endpoint_Write_8 v ;; ret ENDPOINT_READYWAIT_NoError)
    (fun s r t s' => moves ep (send_result v r) [] s t s')) as Hw.
  { eapply spec_conseq; [apply write_ok|]. cbn beta. by intros s r t s' [-> H]. }
  apply Hskip; [obey|]. intros []; cbn [negb]; [done|].
  apply Hskip; [obey|]. intros _. apply Hskip; [by apply wait_keeps|]. intros e.
  destruct (Z.eqb_spec e ENDPOINT_READYWAIT_NoError) as [->|He]; cbn [negb]; [done|].
  apply spec_ret. intros s _ Hu. unfold send_result. by destruct (Z.eqb_spec e ENDPOINT_READYWAIT_NoError).
Qed.

(** C11: [CDC_Device_SendByte], from any selected endpoint and under any interrupts short of a
    bus reset: if it returns [NoError] (zero) the byte was put into the port's IN endpoint,
    exactly once and with nothing else; with any error code, a closed port included, nothing
    was; and it takes no byte out. *)
Theorem send_byte_exact v s r s' :
  Address (DataINEndpoint (cdc s)) .& ENDPOINT_EPNUM_MASK = ep -> is_u 4 (uenum s) ->
  CDC_Device_SendByte v s = Some (r, s') ->
  exists t, trace s' = trace s ++ t
    /\ (no_reset t -> sent ep t = (if r =? 0 then [u8 v] else []) /\ received ep t = []).
Proof.
  intros Ha Hu H.
  assert (spec (CDC_Device_SendByte v) (fun s r t s' =>
    Address (DataINEndpoint (cdc s)) .& ENDPOINT_EPNUM_MASK = ep -> exchanges (send_result v r) [] s t s')) as HS.
  { apply (port_function (fun c => Address (DataINEndpoint c)) _ _ (send_result v) (fun _ => []));
      [by intros c c' (_ & ? & _)|done|done|].
    apply (select_then (fun c => Address (DataINEndpoint c)) _ (send_result v) (fun _ => [])), send_selected. }
  destruct (HS _ _ _ H) as (t & Ht & Hx). exists t. split; [done|]. intros N. by apply Hx.
Qed.

(** The byte taken out, or none. *)
Definition receive_result (r : Z) : list Z := if r <? 0 then [] else [r].

Lemma receive_selected : spec
  (out <- Endpoint_IsOUTReceived ;;
   if out : bool then
     n <- Endpoint_BytesInEndpoint ;;
     ReceivedByte <- (if truth n then Endpoint_Read_8 else ret (-1)) ;;
     n <- Endpoint_BytesInEndpoint ;;
     (when negb (truth n) do Endpoint_ClearOUT) ;;
     ret ReceivedByte
   else ret (-1))
  (fun s r t s' => moves ep [] (receive_result r) s t s').
Proof.
  pose proof (isr_keeps n ep ep_data) as Hp.
  pose proof (fun A => @moves_skip A Z (fun _ => []) receive_result) as Hskip.
  apply Hskip; [obey|]. intros []; [|by apply spec_ret]. apply Hskip; [obey|]. intros c.
  eapply (spec_bind _ _ (fun s r t s' => moves ep [] (receive_result r) s t s')
    (fun b s r t s' => keeps ep s t s' /\ r = b)).
  - destruct (truth c); [|by apply spec_ret].
    eapply spec_conseq; [apply spec_yields; [apply (read_8_moves ep ep_range Hp)|apply read_8_u8]|].
    cbn beta. intros s v t s' [H Hv]. unfold receive_result.
    destruct (Z.ltb_spec v 0); [unfold is_u in Hv; lia|done].
  - intros b. apply spec_yields; [match goal with |- spec ?m _ => change (obeys (keeps ep) m) end; obey|].
    apply yields_bind. intros k. apply yields_bind. intros _. by apply yields_ret.
  - cbn beta. intros s b t s1 r t' s2 H [K ->]. by eapply moves_then_keeps.
Qed.

(** [CDC_Device_ReceiveByte] under the same conditions: a non-negative result is the one
    byte that was taken out of the port's OUT endpoint, and a negative one means that none was;
    nothing is put into it.  With [send_byte_exact], no byte of the serial stream is lost,
    duplicated or invented between the endpoint and the main program. *)
Theorem receive_byte_exact s r s' :
  Address (DataOUTEndpoint (cdc s)) .& ENDPOINT_EPNUM_MASK = ep -> is_u 4 (uenum s) ->
  CDC_Device_ReceiveByte s = Some (r, s') ->
  exists t, trace s' = trace s ++ t
    /\ (no_reset t -> received ep t = (if r <? 0 then [] else [r]) /\ sent ep t = []).
Proof.
  intros Ha Hu H.
  assert (spec CDC_Device_ReceiveByte (fun s r t s' =>
    Address (DataOUTEndpoint (cdc s)) .& ENDPOINT_EPNUM_MASK = ep -> exchanges [] (receive_result r) s t s')) as HS.
  { apply (port_function (fun c => Address (DataOUTEndpoint c)) _ _ (fun _ => []) receive_result);
      [by intros c c' (_ & _ & ? & _)|done|done|].
    apply (select_then (fun c => Address (DataOUTEndpoint c)) _ (fun _ => []) receive_result), receive_selected. }
  destruct (HS _ _ _ H) as (t & Ht & Hx). exists t. split; [done|]. intros N.
  destruct (Hx Ha N Hu). done.
Qed.
End Bytes.

(** ** The suspended state is never entered *)
Section Awake.
Context {HW : Hardware} {FU : Fuel}.
Import Firmware.

Definition awake (s : mcu) (t : list event) (s' : mcu) : Prop :=
  USB_DeviceState (usb s) <> DEVICE_STATE_Suspended -> USB_DeviceState (usb s') <> DEVICE_STATE_Suspended.

#[export] Instance awake_policy : Policy awake.
Proof. split; unfold awake; auto. Qed.

Lemma raw_read_awake r : obeys awake (raw_read r).
Proof. apply spec_raw_read; unfold awake; intros; assumption. Qed.
Lemma raw_write_awake r v : obeys awake (raw_write r v).
Proof. apply spec_raw_write. intros s. unfold awake. by destruct (plain r). Qed.

#[export] Instance awake_usb : UsbPolicy awake.
Proof.
  split; [typeclasses eauto|intros; apply raw_read_awake|intros; apply raw_write_awake| |by intros ??? ?|by intros ???].
  intros s u [H|H]; unfold awake; cbn; congruence.
Qed.

(** Everything outside the USB stack: other registers and globals, delays. *)
Lemma awake_modify f : (forall s, trace (f s) = trace s /\ usb (f s) = usb s) -> obeys awake (modify f).
Proof. intros Hf. apply spec_modify; intros s; destruct (Hf s) as [? E]; [done|]. unfold awake. by rewrite E. Qed.

Lemma awake_delay d : obeys awake (delay_us d).
Proof. intros s [] s' H. cbn in H. injection H as <-. exists [Delay d]. split; [done|by intros ?]. Qed.

Section Context.
Context {PRE : Preempt} (pre_ok : obeys awake preempt).

Lemma awake_rd r : obeys awake (rd r).
Proof. apply obeys_rd; [typeclasses eauto|done|apply raw_read_awake]. Qed.
Lemma awake_wr r v : obeys awake (wr r v).
Proof. apply obeys_wr; [typeclasses eauto|done|apply raw_write_awake]. Qed.
Lemma awake_put_wait_ticks x : obeys awake (put_wait_ticks x).
Proof.
  apply obeys_put_wait_ticks; [typeclasses eauto|done|intros].
  apply awake_modify. intros s. by destruct s as [? ? ? ? []].
Qed.
Lemma awake_put_step x : obeys awake (put_step x).
Proof. apply awake_modify. intros s. by destruct s as [? ? ? ? []]. Qed.
Lemma awake_app (f : app_globals -> app_globals) : obeys awake (modify (fun s => set_app (f (app s)) s)).
Proof. by apply awake_modify. Qed.
Lemma awake_put_locking b : obeys awake (put_locking b).
Proof. apply awake_modify. intros s. by destruct s as [? ? ? ? ? []]. Qed.
Lemma awake_put_keypad b : obeys awake (put_keypad b).
Proof. apply awake_modify. intros s. by destruct s as [? ? ? ? ? []]. Qed.
Lemma awake_put_dial b : obeys awake (put_dial b).
Proof. apply awake_modify. intros s. by destruct s as [? ? ? ? ? []]. Qed.
Lemma awake_put_proto b : obeys awake (put_proto b).
Proof. apply awake_modify. intros s. by destruct s as [? ? ? ? ? []]. Qed.
Lemma awake_init_buffers : obeys awake init_buffers.
Proof. apply awake_modify. intros s. by destruct s as [? ? ? ? ? []]. Qed.
End Context.

#[local] Hint Resolve awake_rd awake_wr awake_put_wait_ticks awake_put_step awake_put_locking
  awake_put_keypad awake_put_dial awake_put_proto awake_init_buffers awake_delay : obey.

Lemma awake_repeat n d : obeys awake (Locc.repeat_delay n d).
Proof. induction n as [|n IH]; cbn [Locc.repeat_delay]; obey. Qed.
#[local] Hint Resolve awake_repeat : obey.

Section Parts.
Context {PRE : Preempt} (pre_ok : obeys awake preempt).

Lemma awake_open : obeys awake Locc.open_locc.
Proof.
  assert (forall n w, obeys awake (Locc.send_bits n w)).
  { induction n as [|n IH]; intros w; cbn [Locc.send_bits]; obey. }
  assert (forall n m j, obeys awake (Locc.send_words n m j)).
  { induction n as [|n IH]; intros m j; cbn [Locc.send_words]; [obey|].
    apply obeys_bind; [typeclasses eauto|done|done]. }
  unfold Locc.open_locc, Locc.sendCylinderTelegram. obey.
Qed.

Lemma awake_loop : obeys awake loop.
Proof. pose proof awake_open. unfold loop. obey. Qed.
End Parts.

Lemma awake_isr k : obeys awake (@preempt _ (isr k)).
Proof.
  apply obeys_firmware_isr; [typeclasses eauto|].
  assert (obeys awake (@preempt _ no_preempt)) by (apply obeys_ret; typeclasses eauto).
  unfold Locc.ISR_TIMER0_OVF_vect. obey.
Qed.

Lemma awake_setup : obeys awake setup.
Proof.
  assert (obeys awake (@preempt _ no_preempt)) by (apply obeys_ret; typeclasses eauto).
  unfold setup. obey.
Qed.

(** the firmware is built with [NO_LIMITED_CONTROLLER_CONNECT] unset on a part without VBUS
    detection, where a suspended bus is taken for a disconnected one: from reset, after any
    number of rounds of the main loop under any interrupts, the device state is never
    Suspended, so the stream functions' tests for it never hold. *)
Theorem never_suspended k n s s' :
  USB_DeviceState (usb s) <> DEVICE_STATE_Suspended -> main k n s = Some (tt, s') ->
  USB_DeviceState (usb s') <> DEVICE_STATE_Suspended.
Proof.
  intros H0 H.
  assert (obeys awake (main k n)) as Hm.
  { clear H. unfold main. apply obeys_bind; [typeclasses eauto|apply awake_setup|]. intros _.
    induction n as [|m IH]; cbn [loops]; [obey|].
    apply obeys_bind; [typeclasses eauto|apply awake_loop, awake_isr|done]. }
  destruct (Hm _ _ _ H) as (t & _ & Ha). by apply Ha.
Qed.
End Awake.

(** ** Concrete runs *)
Section Demo.
#[local] Existing Instance script_hardware.
#[local] Instance demo_fuel : Fuel := 20%nat.
#[local] Existing Instance Firmware.firmware_events.

(** A configured device with an open port, and a byte waiting in the OUT endpoint. *)
Definition demo_port : mcu :=
  let h := Script (fun r => match r with UEINTX => [0x25] | UEBCLX => [1; 0] | UEDATX => [0x6F] | SPSR => [0x80]
                            | PLLCSR => [1] | UESTA0X => [0x80] | _ => [] end)
             [None; Some TIMER0_OVF_vect; Some USB_GEN_vect] in
  let s := boot_state h (USB_ClassInfo_CDC_Device 0 (USB_Endpoint_Table 0x83 16 2 1)
             (USB_Endpoint_Table 4 16 2 1) (USB_Endpoint_Table 0x82 8 3 1) 0 0
             (CDC_LineEncoding 9600 0 0 8)) in
  set_usb (UsbGlobals true (USB_Request_Header 0 0 0 0 0) DEVICE_STATE_Configured 1 false false) s.

Lemma send_byte_exact_witness :
  exists s', CDC_Device_SendByte (PRE := isr 1) 0x4F demo_port = Some (0, s')
    /\ no_reset (trace s') /\ sent 3 (trace s') = [0x4F].
Proof.
  set (run := CDC_Device_SendByte (PRE := isr 1) 0x4F demo_port).
  assert (check_run run (fun r t => (r =? 0) && seen_no_reset t) = true) as V by (vm_compute; reflexivity).
  destruct run as [[r s']|] eqn:E; [|done]. apply andb_prop in V as [V1 V2].
  apply Z.eqb_eq in V1. subst r. apply seen_no_reset_ok in V2.
  assert (is_u 4 3) as R by (split; vm_compute; [discriminate|reflexivity]).
  assert (Address (DataINEndpoint (cdc demo_port)) .& ENDPOINT_EPNUM_MASK = 3) as HA by (vm_compute; reflexivity).
  assert (is_u 4 (uenum demo_port)) as HU by (split; vm_compute; [discriminate|reflexivity]).
  destruct (send_byte_exact 1 3 (ltac:(discriminate)) R 0x4F demo_port 0 s' HA HU E) as (t & Ht & H).
  cbn in Ht. subst t. destruct (H V2) as [Hs _]. exists s'. split; [done|split; [exact V2|exact Hs]].
Defined.

Lemma receive_byte_exact_witness :
  exists s', CDC_Device_ReceiveByte (PRE := isr 1) demo_port = Some (0x6F, s')
    /\ no_reset (trace s') /\ received 4 (trace s') = [0x6F].
Proof.
  set (run := CDC_Device_ReceiveByte (PRE := isr 1) demo_port).
  assert (check_run run (fun r t => (r =? 0x6F) && seen_no_reset t) = true) as V by (vm_compute; reflexivity).
  destruct run as [[r s']|] eqn:E; [|done]. apply andb_prop in V as [V1 V2].
  apply Z.eqb_eq in V1. subst r. apply seen_no_reset_ok in V2.
  assert (is_u 4 4) as R by (split; vm_compute; [discriminate|reflexivity]).
  assert (Address (DataOUTEndpoint (cdc demo_port)) .& ENDPOINT_EPNUM_MASK = 4) as HA by (vm_compute; reflexivity).
  assert (is_u 4 (uenum demo_port)) as HU by (split; vm_compute; [discriminate|reflexivity]).
  destruct (receive_byte_exact 1 4 (ltac:(discriminate)) R demo_port 0x6F s' HA HU E) as (t & Ht & H).
  cbn in Ht. subst t. destruct (H V2) as [Hs _]. exists s'. split; [done|split; [exact V2|exact Hs]].
Defined.

Lemma never_suspended_witness :
  exists s', Firmware.main 1 1 demo_port = Some (tt, s') /\ USB_DeviceState (usb s') <> DEVICE_STATE_Suspended.
Proof.
  set (run := Firmware.main 1 1 demo_port).
  assert (check_run run (fun _ _ => true) = true) as V by (vm_compute; reflexivity).
  destruct run as [[[] s']|] eqn:E; [|done]. exists s'. split; [done|].
  apply (never_suspended 1 1 demo_port s'); [discriminate|exact E].
Defined.
End Demo.
