(* ===== verification/HidParser.v ===== *)
(** * HidParser: the HID report parser of [LUFA/Drivers/USB/Class/Common/HIDParser.c]

    [USB_ProcessHIDReport] reads a HID report descriptor, a sequence of short items, and fills
    a table of report items; the other three functions read and write the value of such an
    item in a report and give the size of a report.

    A structure is a record with the fields of the C structure, an array a list of the declared
    length, a pointer into an array the index it points at ([None] is [NULL]).  The local
    variables of the parser and the structure it fills form the record [parser].  A [return]
    inside the loop is the constructor [Return] of a small error monad.

    Values the C code leaves indeterminate (cells of the usage list that were never assigned,
    the cell behind its end that the shifting loops read, the members of [NewReportItem] that
    are not set) come from the class [Indeterminate], so that a theorem holds whatever they
    are.  The copy of [PUSH] overlaps its source and runs over the end of [StateTable], into
    other variables of the stack: an item that makes it ends the run with the outcome
    [stack_overwritten], behind which nothing is said about the function.  The filter callback is application code and a parameter. *)
From stdpp Require Import functions.
From S2P Require Import Prelude.

Module Hid.

(** ** Constants of [HIDParser.h] and [HIDReportData.h] *)

Definition HID_STATETABLE_STACK_DEPTH : nat := 2.
Definition HID_USAGE_STACK_DEPTH : Z := 8.
Definition HID_MAX_COLLECTIONS : nat := 10.
Definition HID_MAX_REPORTITEMS : Z := 20.
Definition HID_MAX_REPORT_IDS : Z := 10.

Definition HID_PARSE_Successful : Z := 0.
Definition HID_PARSE_HIDStackOverflow : Z := 1.
Definition HID_PARSE_HIDStackUnderflow : Z := 2.
Definition HID_PARSE_InsufficientReportItems : Z := 3.
Definition HID_PARSE_UnexpectedEndCollection : Z := 4.
Definition HID_PARSE_InsufficientCollectionPaths : Z := 5.
Definition HID_PARSE_UsageListOverflow : Z := 6.
Definition HID_PARSE_InsufficientReportIDItems : Z := 7.
Definition HID_PARSE_NoUnfilteredReportItems : Z := 8.

(** Not a result of the function: its behaviour is undefined. *)
Definition stack_overwritten : Z := -1.

Definition HID_RI_DATA_SIZE_MASK : Z := 0x03.
Definition HID_RI_TYPE_MASK : Z := 0x0C.
Definition HID_RI_TAG_MASK : Z := 0xF0.
Definition HID_RI_TYPE_MAIN : Z := 0x00.
Definition HID_RI_TYPE_GLOBAL : Z := 0x04.
Definition HID_RI_TYPE_LOCAL : Z := 0x08.
Definition HID_RI_DATA_BITS_0 : Z := 0x00.
Definition HID_RI_DATA_BITS_8 : Z := 0x01.
Definition HID_RI_DATA_BITS_16 : Z := 0x02.
Definition HID_RI_DATA_BITS_32 : Z := 0x03.

(** The item prefixes, [HID_RI_x(0)]. *)
Definition HID_RI_INPUT : Z := HID_RI_TYPE_MAIN .| 0x80.
Definition HID_RI_OUTPUT : Z := HID_RI_TYPE_MAIN .| 0x90.
Definition HID_RI_COLLECTION : Z := HID_RI_TYPE_MAIN .| 0xA0.
Definition HID_RI_FEATURE : Z := HID_RI_TYPE_MAIN .| 0xB0.
Definition HID_RI_END_COLLECTION : Z := HID_RI_TYPE_MAIN .| 0xC0.
Definition HID_RI_USAGE_PAGE : Z := HID_RI_TYPE_GLOBAL .| 0x00.
Definition HID_RI_LOGICAL_MINIMUM : Z := HID_RI_TYPE_GLOBAL .| 0x10.
Definition HID_RI_LOGICAL_MAXIMUM : Z := HID_RI_TYPE_GLOBAL .| 0x20.
Definition HID_RI_PHYSICAL_MINIMUM : Z := HID_RI_TYPE_GLOBAL .| 0x30.
Definition HID_RI_PHYSICAL_MAXIMUM : Z := HID_RI_TYPE_GLOBAL .| 0x40.
Definition HID_RI_UNIT_EXPONENT : Z := HID_RI_TYPE_GLOBAL .| 0x50.
Definition HID_RI_UNIT : Z := HID_RI_TYPE_GLOBAL .| 0x60.
Definition HID_RI_REPORT_SIZE : Z := HID_RI_TYPE_GLOBAL .| 0x70.
Definition HID_RI_REPORT_ID : Z := HID_RI_TYPE_GLOBAL .| 0x80.
Definition HID_RI_REPORT_COUNT : Z := HID_RI_TYPE_GLOBAL .| 0x90.
Definition HID_RI_PUSH : Z := HID_RI_TYPE_GLOBAL .| 0xA0.
Definition HID_RI_POP : Z := HID_RI_TYPE_GLOBAL .| 0xB0.
Definition HID_RI_USAGE : Z := HID_RI_TYPE_LOCAL .| 0x00.
Definition HID_RI_USAGE_MINIMUM : Z := HID_RI_TYPE_LOCAL .| 0x10.
Definition HID_RI_USAGE_MAXIMUM : Z := HID_RI_TYPE_LOCAL .| 0x20.

Definition HID_IOF_CONSTANT : Z := bit 0.

(** [_HID_RI_ENTRY(Type, Tag, DataBits, Data)], the item macros of a descriptor: the bytes of
    the prefix and of the data. *)
Inductive data_bits := Bits0 | Bits8 | Bits16 | Bits32.

Definition HID_RI_DATA_BITS (b : data_bits) : Z :=
  match b with
  | Bits0 => HID_RI_DATA_BITS_0
  | Bits8 => HID_RI_DATA_BITS_8
  | Bits16 => HID_RI_DATA_BITS_16
  | Bits32 => HID_RI_DATA_BITS_32
  end.

Definition HID_RI_ENCODE_8 (Data : Z) : list Z := [Data .& 0xFF].
Definition HID_RI_ENCODE_16 (Data : Z) : list Z :=
  HID_RI_ENCODE_8 Data ++ HID_RI_ENCODE_8 (Data .>> 8).
Definition HID_RI_ENCODE_32 (Data : Z) : list Z :=
  HID_RI_ENCODE_16 Data ++ HID_RI_ENCODE_16 (Data .>> 16).

Definition HID_RI_ENCODE (b : data_bits) (Data : Z) : list Z :=
  match b with
  | Bits0 => []
  | Bits8 => HID_RI_ENCODE_8 Data
  | Bits16 => HID_RI_ENCODE_16 Data
  | Bits32 => HID_RI_ENCODE_32 Data
  end.

Definition HID_RI_ENTRY (TypeTag : Z) (b : data_bits) (Data : Z) : list Z :=
  (TypeTag .| HID_RI_DATA_BITS b) :: HID_RI_ENCODE b Data.

(** [HID_ReportItemTypes_t], the index into [ReportSizeBits]. *)
Definition HID_REPORT_ITEM_In : Z := 0.
Definition HID_REPORT_ITEM_Out : Z := 1.
Definition HID_REPORT_ITEM_Feature : Z := 2.

(** ** Data *)

Record HID_MinMax_t := MinMax { Minimum : Z; Maximum : Z }.
Record HID_Unit_t := Unit_ { Unit_Type : Z; Exponent : Z }.
Record HID_Usage_t := Usage_ { Page : Z; Usage : Z }.

Record HID_CollectionPath_t := CollectionPath_ {
  Path_Type : Z;
  Path_Usage : HID_Usage_t;
  Parent : option nat }.

Record HID_ReportItem_Attributes_t := Attrs {
  BitSize : Z;
  Attr_Usage : HID_Usage_t;
  Unit : HID_Unit_t;
  Logical : HID_MinMax_t;
  Physical : HID_MinMax_t }.

Record HID_ReportItem_t := ReportItem {
  BitOffset : Z;
  ItemType : Z;
  ItemFlags : Z;
  Item_ReportID : Z;
  CollectionPath : option nat;
  Item_Attributes : HID_ReportItem_Attributes_t;
  Value : Z;
  PreviousValue : Z }.

Record HID_ReportSizeInfo_t := SizeInfo {
  Size_ReportID : Z;
  ReportSizeBits : list Z }.

Record HID_ReportInfo_t := ReportInfo {
  TotalReportItems : Z;
  ReportItems : list HID_ReportItem_t;
  CollectionPaths : list HID_CollectionPath_t;
  TotalDeviceReports : Z;
  ReportIDSizes : list HID_ReportSizeInfo_t;
  LargestReportSizeBits : Z;
  UsingReportIDs : bool }.

Record HID_StateTable_t := StateTable_ {
  Attributes : HID_ReportItem_Attributes_t;
  ReportCount : Z;
  ReportID : Z }.

(** The structures after [memset(..., 0x00, ...)]. *)
Definition zero_usage : HID_Usage_t := Usage_ 0 0.
Definition zero_attributes : HID_ReportItem_Attributes_t :=
  Attrs 0 zero_usage (Unit_ 0 0) (MinMax 0 0) (MinMax 0 0).
Definition zero_item : HID_ReportItem_t := ReportItem 0 0 0 0 None zero_attributes 0 0.
Definition zero_path : HID_CollectionPath_t := CollectionPath_ 0 zero_usage None.
Definition zero_size : HID_ReportSizeInfo_t := SizeInfo 0 [0; 0; 0].
Definition zero_state : HID_StateTable_t := StateTable_ zero_attributes 0 0.
Definition zero_info : HID_ReportInfo_t :=
  ReportInfo 0 (replicate (Z.to_nat HID_MAX_REPORTITEMS) zero_item)
    (replicate HID_MAX_COLLECTIONS zero_path) 0
    (replicate (Z.to_nat HID_MAX_REPORT_IDS) zero_size) 0 false.

(** The local variables of [USB_ProcessHIDReport] and the structure it fills. *)
Record parser := Parser {
  StateTable : list HID_StateTable_t;
  CurrStateTable : nat;
  CurrCollectionPath : option nat;
  CurrReportIDInfo : nat;
  UsageList : list Z;
  UsageListSize : Z;
  UsageMinMax : HID_MinMax_t;
  ParserData : HID_ReportInfo_t }.

(** [sizeof(HID_ReportItem_t)] and [sizeof(HID_StateTable_t)], packed, with 2-byte pointers. *)
Definition sizeof_HID_ReportItem_Attributes_t : Z := 1 + (2 + 2) + (4 + 1) + (4 + 4) + (4 + 4).
Definition sizeof_HID_ReportItem_t : Z :=
  2 + 1 + 2 + 1 + 2 + sizeof_HID_ReportItem_Attributes_t + 4 + 4.
Definition sizeof_HID_StateTable_t : Z := sizeof_HID_ReportItem_Attributes_t + 1 + 1.

(** The 42 bytes copied to the second of the two entries do not fit there. *)
Lemma push_overwrites :
  sizeof_HID_StateTable_t * (Z.of_nat HID_STATETABLE_STACK_DEPTH - 1) < sizeof_HID_ReportItem_t.
Proof. done. Qed.

(** Values the code uses without having set them. *)
Class Indeterminate := {
  stale_state : nat -> HID_StateTable_t;
  stale_usages : list Z;
  past_usages : parser -> Z;
  stale_value : parser -> Z * Z;
  stale_length : length stale_usages = Z.to_nat HID_USAGE_STACK_DEPTH }.

(** ** Assignment to one member *)

Definition set_StateTable x (p : parser) : parser :=
  Parser x (CurrStateTable p) (CurrCollectionPath p) (CurrReportIDInfo p) (UsageList p)
    (UsageListSize p) (UsageMinMax p) (ParserData p).
Definition set_CurrStateTable x (p : parser) : parser :=
  Parser (StateTable p) x (CurrCollectionPath p) (CurrReportIDInfo p) (UsageList p)
    (UsageListSize p) (UsageMinMax p) (ParserData p).
Definition set_CurrCollectionPath x (p : parser) : parser :=
  Parser (StateTable p) (CurrStateTable p) x (CurrReportIDInfo p) (UsageList p)
    (UsageListSize p) (UsageMinMax p) (ParserData p).
Definition set_CurrReportIDInfo x (p : parser) : parser :=
  Parser (StateTable p) (CurrStateTable p) (CurrCollectionPath p) x (UsageList p)
    (UsageListSize p) (UsageMinMax p) (ParserData p).
Definition set_UsageList x (p : parser) : parser :=
  Parser (StateTable p) (CurrStateTable p) (CurrCollectionPath p) (CurrReportIDInfo p) x
    (UsageListSize p) (UsageMinMax p) (ParserData p).
Definition set_UsageListSize x (p : parser) : parser :=
  Parser (StateTable p) (CurrStateTable p) (CurrCollectionPath p) (CurrReportIDInfo p)
    (UsageList p) x (UsageMinMax p) (ParserData p).
Definition set_UsageMinMax x (p : parser) : parser :=
  Parser (StateTable p) (CurrStateTable p) (CurrCollectionPath p) (CurrReportIDInfo p)
    (UsageList p) (UsageListSize p) x (ParserData p).
Definition set_ParserData x (p : parser) : parser :=
  Parser (StateTable p) (CurrStateTable p) (CurrCollectionPath p) (CurrReportIDInfo p)
    (UsageList p) (UsageListSize p) (UsageMinMax p) x.

Definition set_TotalReportItems x (d : HID_ReportInfo_t) : HID_ReportInfo_t :=
  ReportInfo x (ReportItems d) (CollectionPaths d) (TotalDeviceReports d) (ReportIDSizes d)
    (LargestReportSizeBits d) (UsingReportIDs d).
Definition set_ReportItems x (d : HID_ReportInfo_t) : HID_ReportInfo_t :=
  ReportInfo (TotalReportItems d) x (CollectionPaths d) (TotalDeviceReports d)
    (ReportIDSizes d) (LargestReportSizeBits d) (UsingReportIDs d).
Definition set_CollectionPaths x (d : HID_ReportInfo_t) : HID_ReportInfo_t :=
  ReportInfo (TotalReportItems d) (ReportItems d) x (TotalDeviceReports d) (ReportIDSizes d)
    (LargestReportSizeBits d) (UsingReportIDs d).
Definition set_TotalDeviceReports x (d : HID_ReportInfo_t) : HID_ReportInfo_t :=
  ReportInfo (TotalReportItems d) (ReportItems d) (CollectionPaths d) x (ReportIDSizes d)
    (LargestReportSizeBits d) (UsingReportIDs d).
Definition set_ReportIDSizes x (d : HID_ReportInfo_t) : HID_ReportInfo_t :=
  ReportInfo (TotalReportItems d) (ReportItems d) (CollectionPaths d) (TotalDeviceReports d) x
    (LargestReportSizeBits d) (UsingReportIDs d).
Definition set_LargestReportSizeBits x (d : HID_ReportInfo_t) : HID_ReportInfo_t :=
  ReportInfo (TotalReportItems d) (ReportItems d) (CollectionPaths d) (TotalDeviceReports d)
    (ReportIDSizes d) x (UsingReportIDs d).
Definition set_UsingReportIDs x (d : HID_ReportInfo_t) : HID_ReportInfo_t :=
  ReportInfo (TotalReportItems d) (ReportItems d) (CollectionPaths d) (TotalDeviceReports d)
    (ReportIDSizes d) (LargestReportSizeBits d) x.

Definition set_Attributes x (t : HID_StateTable_t) : HID_StateTable_t :=
  StateTable_ x (ReportCount t) (ReportID t).
Definition set_ReportCount x (t : HID_StateTable_t) : HID_StateTable_t :=
  StateTable_ (Attributes t) x (ReportID t).
Definition set_ReportID x (t : HID_StateTable_t) : HID_StateTable_t :=
  StateTable_ (Attributes t) (ReportCount t) x.

Definition set_BitSize x (a : HID_ReportItem_Attributes_t) : HID_ReportItem_Attributes_t :=
  Attrs x (Attr_Usage a) (Unit a) (Logical a) (Physical a).
Definition set_Attr_Usage x (a : HID_ReportItem_Attributes_t) : HID_ReportItem_Attributes_t :=
  Attrs (BitSize a) x (Unit a) (Logical a) (Physical a).
Definition set_Unit x (a : HID_ReportItem_Attributes_t) : HID_ReportItem_Attributes_t :=
  Attrs (BitSize a) (Attr_Usage a) x (Logical a) (Physical a).
Definition set_Logical x (a : HID_ReportItem_Attributes_t) : HID_ReportItem_Attributes_t :=
  Attrs (BitSize a) (Attr_Usage a) (Unit a) x (Physical a).
Definition set_Physical x (a : HID_ReportItem_Attributes_t) : HID_ReportItem_Attributes_t :=
  Attrs (BitSize a) (Attr_Usage a) (Unit a) (Logical a) x.

(** ** The error monad of the parser: [return] inside the loop *)

Inductive outcome (A : Type) :=
| Go (a : A) (p : parser)
| Return (code : Z) (p : parser).
Arguments Go {A} a p.
Arguments Return {A} code p.

Definition P (A : Type) : Type := parser -> outcome A.

Definition pret {A} (a : A) : P A := fun p => Go a p.
Definition pbind {A B} (m : P A) (k : A -> P B) : P B := fun p =>
  match m p with
  | Go a p' => k a p'
  | Return c p' => Return c p'
  end.
Definition get {A} (f : parser -> A) : P A := fun p => Go (f p) p.
Definition put (f : parser -> parser) : P unit := fun p => Go tt (f p).
Definition fail {A} (code : Z) : P A := fun p => Return code p.

Local Notation "x <- m ;; k" := (pbind m (fun x => k))
  (at level 100, m at next level, right associativity).
Local Notation "m ;; k" := (pbind m (fun _ => k)) (at level 100, right associativity).

(** ** Access through the pointers *)

Definition state_at (i : nat) (p : parser) : HID_StateTable_t :=
  default zero_state (StateTable p !! i).
Definition curr_state (p : parser) : HID_StateTable_t := state_at (CurrStateTable p) p.
Definition curr_attributes (p : parser) : HID_ReportItem_Attributes_t :=
  Attributes (curr_state p).

Definition set_state (f : HID_StateTable_t -> HID_StateTable_t) : P unit :=
  put (fun p => set_StateTable (<[CurrStateTable p := f (curr_state p)]> (StateTable p)) p).
Definition set_attributes (f : HID_ReportItem_Attributes_t -> HID_ReportItem_Attributes_t) :
    P unit :=
  set_state (fun t => set_Attributes (f (Attributes t)) t).
Definition set_data (f : HID_ReportInfo_t -> HID_ReportInfo_t) : P unit :=
  put (fun p => set_ParserData (f (ParserData p)) p).

Definition size_at (i : nat) (d : HID_ReportInfo_t) : HID_ReportSizeInfo_t :=
  default zero_size (ReportIDSizes d !! i).
Definition set_size (i : nat) (s : HID_ReportSizeInfo_t) (d : HID_ReportInfo_t) :
    HID_ReportInfo_t :=
  set_ReportIDSizes (<[i := s]> (ReportIDSizes d)) d.

Definition path_at (i : nat) (d : HID_ReportInfo_t) : HID_CollectionPath_t :=
  default zero_path (CollectionPaths d !! i).
Definition set_path (i : nat) (c : HID_CollectionPath_t) (d : HID_ReportInfo_t) :
    HID_ReportInfo_t :=
  set_CollectionPaths (<[i := c]> (CollectionPaths d)) d.

(** ** The cases of the item switch *)

Section Parser.
Context `{J : Indeterminate}.
Context (CALLBACK_HIDParser_FilterHIDReportItem : HID_ReportItem_t -> bool).

(** [PUSH].  The copy has the size of a report item (42 bytes) instead of that of a state table
    entry (28), so that it overlaps its source and, from the last entry but one, ends behind the
    table ([push_overwrites]); there is no defined behaviour from then on. *)
Definition item_push : P unit :=
  i <- get CurrStateTable ;;
  if (i =? HID_STATETABLE_STACK_DEPTH - 1)%nat then fail HID_PARSE_HIDStackOverflow else
  fail stack_overwritten.

Definition item_pop : P unit :=
  i <- get CurrStateTable ;;
  if (i =? 0)%nat then fail HID_PARSE_HIDStackUnderflow else
  put (set_CurrStateTable (i - 1)%nat).

Definition item_usage_page (item data : Z) : P unit :=
  (if item .& HID_RI_DATA_SIZE_MASK =? HID_RI_DATA_BITS_32 then
     set_attributes (fun a => set_Attr_Usage (Usage_ (u16 (data .>> 16)) (Usage (Attr_Usage a))) a)
   else pret tt) ;;
  set_attributes (fun a => set_Attr_Usage (Usage_ (u16 data) (Usage (Attr_Usage a))) a).

(** The search of [REPORT_ID] through the reports seen so far. *)
Fixpoint find_report_id (id : Z) (sizes : list HID_ReportSizeInfo_t) (i : nat) : option nat :=
  match sizes with
  | [] => None
  | s :: sizes' => if Size_ReportID s =? id then Some i else find_report_id id sizes' (S i)
  end.

Definition name_report (id : Z) : P unit :=
  set_data (set_UsingReportIDs true) ;;
  i <- get CurrReportIDInfo ;;
  set_data (fun d => set_size i (SizeInfo id (ReportSizeBits (size_at i d))) d).

(** The entry of the report [id], a new one when it was not seen before. *)
Definition select_report (id : Z) (d : HID_ReportInfo_t) : P unit :=
  if UsingReportIDs d then
    match find_report_id id (take (Z.to_nat (TotalDeviceReports d)) (ReportIDSizes d)) 0 with
    | Some i => put (set_CurrReportIDInfo i)
    | None =>
        if TotalDeviceReports d =? HID_MAX_REPORT_IDS
        then fail HID_PARSE_InsufficientReportIDItems
        else
          let i := Z.to_nat (TotalDeviceReports d) in
          put (set_CurrReportIDInfo i) ;;
          set_data (fun d => set_TotalDeviceReports (u8 (TotalDeviceReports d + 1)) d) ;;
          set_data (set_size i zero_size)
    end
  else pret tt.

Definition item_report_id (data : Z) : P unit :=
  set_state (set_ReportID (u8 data)) ;;
  id <- get (fun p => ReportID (curr_state p)) ;;
  d <- get ParserData ;;
  select_report id d ;;
  name_report id.

Definition item_usage (data : Z) : P unit :=
  n <- get UsageListSize ;;
  if n =? HID_USAGE_STACK_DEPTH then fail HID_PARSE_UsageListOverflow else
  put (fun p => set_UsageList (<[Z.to_nat n := u16 data]> (UsageList p)) p) ;;
  put (set_UsageListSize (u8 (n + 1))).

(** [for (i = 0; i < UsageListSize; i++) UsageList[i] = UsageList[i + 1]]. *)
Fixpoint shift_usages (past : Z) (l : list Z) (i n : nat) : list Z :=
  match n with
  | O => l
  | S n' => shift_usages past (<[i := default past (l !! S i)]> l) (S i) n'
  end.

(** The usage of a new collection or report item: the oldest listed usage, the next one of
    the range, or what was there ([u]). *)
Definition next_usage (u : Z) : P Z :=
  n <- get UsageListSize ;;
  mm <- get UsageMinMax ;;
  if truth n then
    u0 <- get (fun p => default (past_usages p) (UsageList p !! 0%nat)) ;;
    put (fun p => set_UsageList (shift_usages (past_usages p) (UsageList p) 0 (Z.to_nat n)) p) ;;
    put (set_UsageListSize (u8 (n - 1))) ;;
    pret u0
  else if Minimum mm <=? Maximum mm then
    put (set_UsageMinMax (MinMax (u32 (Minimum mm + 1)) (Maximum mm))) ;;
    pret (u16 (Minimum mm))
  else pret u.

(** The search for an unused collection from [CollectionPaths[1]] on. *)
Fixpoint free_path (d : HID_ReportInfo_t) (i n : nat) : option nat :=
  match Parent (path_at i d), n with
  | None, _ => Some i
  | Some _, O => None
  | Some _, S n' =>
      if (i =? HID_MAX_COLLECTIONS - 1)%nat then None else free_path d (i + 1) n'
  end.

(** Type, page and usage of the collection [CurrCollectionPath] points at. *)
Definition fill_path (data : Z) (i : nat) : P unit :=
  page <- get (fun p => Page (Attr_Usage (curr_attributes p))) ;;
  set_data (fun d => let c := path_at i d in
    set_path i (CollectionPath_ (u8 data) (Usage_ page (Usage (Path_Usage c))) (Parent c)) d) ;;
  old <- get (fun p => Usage (Path_Usage (path_at i (ParserData p)))) ;;
  u <- next_usage old ;;
  set_data (fun d => let c := path_at i d in
    set_path i (CollectionPath_ (Path_Type c) (Usage_ (Page (Path_Usage c)) u) (Parent c)) d).

Definition item_collection (data : Z) : P unit :=
  c <- get CurrCollectionPath ;;
  i <- match c with
       | None => put (set_CurrCollectionPath (Some 0%nat)) ;; pret 0%nat
       | Some parent =>
           d <- get ParserData ;;
           match free_path d 1 HID_MAX_COLLECTIONS with
           | None => fail HID_PARSE_InsufficientCollectionPaths
           | Some i =>
               put (set_CurrCollectionPath (Some i)) ;;
               set_data (fun d => let c := path_at i d in
                 set_path i (CollectionPath_ (Path_Type c) (Path_Usage c) (Some parent)) d) ;;
               pret i
           end
       end ;;
  fill_path data i.

Definition item_end_collection : P unit :=
  c <- get CurrCollectionPath ;;
  match c with
  | None => fail HID_PARSE_UnexpectedEndCollection
  | Some i => parent <- get (fun p => Parent (path_at i (ParserData p))) ;;
              put (set_CurrCollectionPath parent)
  end.

Definition item_type (tag : Z) : Z :=
  if tag =? HID_RI_INPUT then HID_REPORT_ITEM_In
  else if tag =? HID_RI_OUTPUT then HID_REPORT_ITEM_Out
  else HID_REPORT_ITEM_Feature.

Definition size_bits (ty : Z) (s : HID_ReportSizeInfo_t) : Z :=
  default 0 (ReportSizeBits s !! Z.to_nat ty).

(** One pass of the loop over [ReportCount] of [INPUT], [OUTPUT] and [FEATURE]. *)
Definition main_item (tag data : Z) : P unit :=
  a <- get curr_attributes ;;
  path <- get CurrCollectionPath ;;
  id <- get (fun p => ReportID (curr_state p)) ;;
  vals <- get stale_value ;;
  u <- next_usage (Usage (Attr_Usage a)) ;;
  let ty := item_type tag in
  i <- get CurrReportIDInfo ;;
  offset <- get (fun p => size_bits ty (size_at i (ParserData p))) ;;
  let item := ReportItem offset ty (u16 data) id path
                (set_Attr_Usage (Usage_ (Page (Attr_Usage a)) u) a) (fst vals) (snd vals) in
  b <- get (fun p => BitSize (curr_attributes p)) ;;
  let total := u16 (offset + b) in
  set_data (fun d => let s := size_at i d in
    set_size i (SizeInfo (Size_ReportID s) (<[Z.to_nat ty := total]> (ReportSizeBits s))) d) ;;
  set_data (fun d => set_LargestReportSizeBits
    (if LargestReportSizeBits d >? total then LargestReportSizeBits d else total) d) ;;
  n <- get (fun p => TotalReportItems (ParserData p)) ;;
  if n =? HID_MAX_REPORTITEMS then fail HID_PARSE_InsufficientReportItems else
  set_data (fun d => set_ReportItems (<[Z.to_nat n := item]> (ReportItems d)) d) ;;
  if negb (truth (data .& HID_IOF_CONSTANT)) && CALLBACK_HIDParser_FilterHIDReportItem item
  then set_data (set_TotalReportItems (u8 (n + 1)))
  else pret tt.

Fixpoint main_items (n : nat) (tag data : Z) : P unit :=
  match n with
  | O => pret tt
  | S n' => main_item tag data ;; main_items n' tag data
  end.

(** The switch over type and tag, and the reset of the local state behind it. *)
Definition switch_item (item data : Z) : P unit :=
  let tag := item .& (HID_RI_TYPE_MASK .| HID_RI_TAG_MASK) in
  if tag =? HID_RI_PUSH then item_push
  else if tag =? HID_RI_POP then item_pop
  else if tag =? HID_RI_USAGE_PAGE then item_usage_page item data
  else if tag =? HID_RI_LOGICAL_MINIMUM then
    set_attributes (fun a => set_Logical (MinMax data (Maximum (Logical a))) a)
  else if tag =? HID_RI_LOGICAL_MAXIMUM then
    set_attributes (fun a => set_Logical (MinMax (Minimum (Logical a)) data) a)
  else if tag =? HID_RI_PHYSICAL_MINIMUM then
    set_attributes (fun a => set_Physical (MinMax data (Maximum (Physical a))) a)
  else if tag =? HID_RI_PHYSICAL_MAXIMUM then
    set_attributes (fun a => set_Physical (MinMax (Minimum (Physical a)) data) a)
  else if tag =? HID_RI_UNIT_EXPONENT then
    set_attributes (fun a => set_Unit (Unit_ (Unit_Type (Unit a)) (u8 data)) a)
  else if tag =? HID_RI_UNIT then
    set_attributes (fun a => set_Unit (Unit_ data (Exponent (Unit a))) a)
  else if tag =? HID_RI_REPORT_SIZE then set_attributes (set_BitSize (u8 data))
  else if tag =? HID_RI_REPORT_COUNT then set_state (set_ReportCount (u8 data))
  else if tag =? HID_RI_REPORT_ID then item_report_id data
  else if tag =? HID_RI_USAGE then item_usage data
  else if tag =? HID_RI_USAGE_MINIMUM then
    put (fun p => set_UsageMinMax (MinMax data (Maximum (UsageMinMax p))) p)
  else if tag =? HID_RI_USAGE_MAXIMUM then
    put (fun p => set_UsageMinMax (MinMax (Minimum (UsageMinMax p)) data) p)
  else if tag =? HID_RI_COLLECTION then item_collection data
  else if tag =? HID_RI_END_COLLECTION then item_end_collection
  else if (tag =? HID_RI_INPUT) || (tag =? HID_RI_OUTPUT) || (tag =? HID_RI_FEATURE) then
    n <- get (fun p => ReportCount (curr_state p)) ;;
    main_items (Z.to_nat n) tag data
  else pret tt.

Definition reset_locals (item : Z) : P unit :=
  if item .& HID_RI_TYPE_MASK =? HID_RI_TYPE_MAIN then
    put (set_UsageMinMax (MinMax 0 0)) ;; put (set_UsageListSize 0)
  else pret tt.

Definition process_item (item data : Z) : P unit :=
  switch_item item data ;; reset_locals item.

(** ** The loop over the descriptor *)

(** [Report] is the memory from [ReportData] on.  The item data and its length in bytes. *)
Definition item_data (Report : Z -> Z) (pos item : Z) : Z * Z :=
  let size := item .& HID_RI_DATA_SIZE_MASK in
  if size =? HID_RI_DATA_BITS_32 then
    ((Report (pos + 3) .<< 24) .| (Report (pos + 2) .<< 16) .| (Report (pos + 1) .<< 8)
       .| Report pos, 4)
  else if size =? HID_RI_DATA_BITS_16 then ((Report (pos + 1) .<< 8) .| Report pos, 2)
  else if size =? HID_RI_DATA_BITS_8 then (Report pos, 1)
  else (0, 0).

Definition initial_parser : parser :=
  Parser (zero_state :: map stale_state (seq 1 (HID_STATETABLE_STACK_DEPTH - 1))) 0 None 0
    stale_usages 0 (MinMax 0 0) (set_TotalDeviceReports 1 zero_info).

Definition parse_end (p : parser) : Z :=
  if truth (TotalReportItems (ParserData p)) then HID_PARSE_Successful
  else HID_PARSE_NoUnfilteredReportItems.

(** [while (ReportSize)], with [fuel] passes; [None] is a loop that has not ended. *)
Fixpoint parse_items (fuel : nat) (Report : Z -> Z) (pos size : Z) (p : parser) :
    option (Z * parser) :=
  match fuel with
  | O => None
  | S fuel' =>
      if negb (truth size) then Some (parse_end p, p) else
      let item := Report pos in
      let '(data, len) := item_data Report (pos + 1) item in
      match process_item item data p with
      | Return code p' => Some (code, p')
      | Go _ p' => parse_items fuel' Report (pos + 1 + len) (u16 (u16 (size - 1) - len)) p'
      end
  end.

Definition USB_ProcessHIDReport (fuel : nat) (Report : Z -> Z) (ReportSize : Z) :
    option (Z * parser) :=
  parse_items fuel Report 0 ReportSize initial_parser.

End Parser.

(** ** Reading and writing an item of a report *)

(** [while (DataBitsRem--)] of [USB_GetHIDReportItemInfo]: the value collected. *)
Fixpoint get_bits (n : nat) (Report : Z -> Z) (CurrentBit BitMask value : Z) : Z :=
  match n with
  | O => value
  | S n' =>
      let value := if truth (Report (CurrentBit / 8) .& bit (CurrentBit mod 8))
                   then value .| BitMask else value in
      get_bits n' Report (u16 (CurrentBit + 1)) (u32 (BitMask .<< 1)) value
  end.

Definition set_values (v prev : Z) (it : HID_ReportItem_t) : HID_ReportItem_t :=
  ReportItem (BitOffset it) (ItemType it) (ItemFlags it) (Item_ReportID it) (CollectionPath it)
    (Item_Attributes it) v prev.

Definition USB_GetHIDReportItemInfo (Report : Z -> Z) (item : option HID_ReportItem_t) :
    bool * option HID_ReportItem_t :=
  match item with
  | None => (false, None)
  | Some it =>
      let id := truth (Item_ReportID it) in
      if id && negb (Item_ReportID it =? Report 0) then (false, item) else
      let Report := if id then fun i => Report (i + 1) else Report in
      let v := get_bits (Z.to_nat (BitSize (Item_Attributes it))) Report (BitOffset it)
                 (bit 0) 0 in
      (true, Some (set_values v (Value it) it))
  end.

(** [while (DataBitsRem--)] of [USB_SetHIDReportItemInfo]; [base] is where [ReportData]
    points. *)
Fixpoint set_report_bits (n : nat) (base value CurrentBit BitMask : Z) (Report : Z -> Z) :
    Z -> Z :=
  match n with
  | O => Report
  | S n' =>
      let a := base + CurrentBit / 8 in
      let Report := if truth (value .& bit (CurrentBit mod 8))
                    then <[a := u8 (Report a .| BitMask)]> Report else Report in
      set_report_bits n' base value (u16 (CurrentBit + 1)) (u32 (BitMask .<< 1)) Report
  end.

Definition USB_SetHIDReportItemInfo (Report : Z -> Z) (item : option HID_ReportItem_t) :
    (Z -> Z) * option HID_ReportItem_t :=
  match item with
  | None => (Report, None)
  | Some it =>
      let id := truth (Item_ReportID it) in
      let Report := if id then <[0 := Item_ReportID it]> Report else Report in
      (set_report_bits (Z.to_nat (BitSize (Item_Attributes it))) (if id then 1 else 0) (Value it)
         (BitOffset it) (bit 0) Report,
       Some (set_values (Value it) (Value it) it))
  end.

(** The search of [USB_GetHIDReportSize] over all entries of the table. *)
Fixpoint report_size_in (sizes : list HID_ReportSizeInfo_t) (id ty : Z) : Z :=
  match sizes with
  | [] => 0
  | s :: sizes' =>
      let bits := size_bits ty s in
      if Size_ReportID s =? id then bits / 8 + (if truth (bits mod 8) then 1 else 0)
      else report_size_in sizes' id ty
  end.

Definition USB_GetHIDReportSize (d : HID_ReportInfo_t) (id ty : Z) : Z :=
  report_size_in (take (Z.to_nat HID_MAX_REPORT_IDS) (ReportIDSizes d)) id ty.

End Hid.
