(* ===== verification/HidTypes.v ===== *)
(** * HidTypes: the structure the HID report parser fills is well typed

    The invariant of the parser's state (HidParser.v): ranges of the C types, counters and
    pointers inside their arrays, collections linked to earlier collections.  Every case of the
    item switch keeps it, whether it goes on or returns an error. *)
From S2P Require Import Prelude HidParser.
Import Hid.

(** ** Types and pointers *)

Definition minmax_ok (m : HID_MinMax_t) : Prop := is_u32 (Minimum m) /\ is_u32 (Maximum m).
Definition usage_ok (u : HID_Usage_t) : Prop := is_u16 (Page u) /\ is_u16 (Usage u).
Definition attributes_ok (a : HID_ReportItem_Attributes_t) : Prop :=
  is_u8 (BitSize a) /\ usage_ok (Attr_Usage a) /\
  (is_u32 (Unit_Type (Unit a)) /\ is_u8 (Exponent (Unit a))) /\
  minmax_ok (Logical a) /\ minmax_ok (Physical a).
Definition state_ok (t : HID_StateTable_t) : Prop :=
  attributes_ok (Attributes t) /\ is_u8 (ReportCount t) /\ is_u8 (ReportID t).
Definition size_ok (s : HID_ReportSizeInfo_t) : Prop :=
  is_u8 (Size_ReportID s) /\ length (ReportSizeBits s) = 3%nat /\ Forall is_u16 (ReportSizeBits s).

(** An item of the table; its path points at one of the collections in use. *)
Definition item_ok (m : nat) (it : HID_ReportItem_t) : Prop :=
  is_u16 (BitOffset it) /\ 0 <= ItemType it <= 2 /\ is_u16 (ItemFlags it) /\
  is_u8 (Item_ReportID it) /\ attributes_ok (Item_Attributes it) /\
  (forall c, CollectionPath it = Some c -> (c <= m)%nat).

(** The collections: number 0 is the root, the first [m] after it are in use, and the parent of
    a collection comes before it, so that every chain of parents ends at the root. *)
Definition paths_ok (m : nat) (d : HID_ReportInfo_t) : Prop :=
  length (CollectionPaths d) = HID_MAX_COLLECTIONS /\ (m < HID_MAX_COLLECTIONS)%nat /\
  Parent (path_at 0 d) = None /\
  (forall i, (1 <= i <= m)%nat -> exists j, Parent (path_at i d) = Some j /\ (j < i)%nat) /\
  (forall i, (m < i)%nat -> Parent (path_at i d) = None) /\
  (forall i, usage_ok (Path_Usage (path_at i d)) /\ is_u8 (Path_Type (path_at i d))).

Record info_ok (m : nat) (d : HID_ReportInfo_t) : Prop := InfoOk {
  ok_items_len : length (ReportItems d) = Z.to_nat HID_MAX_REPORTITEMS;
  ok_total : 0 <= TotalReportItems d <= HID_MAX_REPORTITEMS;
  ok_items : Forall (item_ok m) (take (Z.to_nat (TotalReportItems d)) (ReportItems d));
  ok_paths : paths_ok m d;
  ok_sizes_len : length (ReportIDSizes d) = Z.to_nat HID_MAX_REPORT_IDS;
  ok_reports : 1 <= TotalDeviceReports d <= HID_MAX_REPORT_IDS;
  ok_sizes : Forall size_ok (ReportIDSizes d);
  ok_largest : is_u16 (LargestReportSizeBits d) }.

Record parser_ok (m : nat) (p : parser) : Prop := ParserOk {
  ok_states_len : length (StateTable p) = HID_STATETABLE_STACK_DEPTH;
  ok_curr : (CurrStateTable p < HID_STATETABLE_STACK_DEPTH)%nat;
  ok_states : forall i, (i <= CurrStateTable p)%nat -> state_ok (state_at i p);
  ok_usages_len : length (UsageList p) = Z.to_nat HID_USAGE_STACK_DEPTH;
  ok_usages_size : 0 <= UsageListSize p <= HID_USAGE_STACK_DEPTH;
  ok_usages : Forall is_u16 (take (Z.to_nat (UsageListSize p)) (UsageList p));
  ok_minmax : minmax_ok (UsageMinMax p);
  ok_report : (CurrReportIDInfo p < Z.to_nat (TotalDeviceReports (ParserData p)))%nat;
  ok_path : forall c, CurrCollectionPath p = Some c -> (c <= m)%nat;
  ok_info : info_ok m (ParserData p) }.

(** ** Weakest preconditions of the error monad *)

Definition wp {A} (m : P A) (Q : A -> parser -> Prop) (E : Z -> parser -> Prop) (p : parser) :
    Prop :=
  match m p with
  | Go a p' => Q a p'
  | Return c p' => E c p'
  end.

Lemma wp_bind {A B} (m : P A) (k : A -> P B) Q E p :
  wp m (fun a => wp (k a) Q E) E p -> wp (pbind m k) Q E p.
Proof. unfold wp, pbind. by destruct (m p). Qed.

Lemma wp_mono {A} (m : P A) (Q Q' : A -> parser -> Prop) (E E' : Z -> parser -> Prop) p :
  wp m Q E p -> (forall a p', Q a p' -> Q' a p') -> (forall c p', E c p' -> E' c p') ->
  wp m Q' E' p.
Proof. unfold wp. destruct (m p); auto. Qed.

(** Run through straight-line code. *)
Ltac wps :=
  repeat first
    [ progress cbv beta
    | match goal with
      | |- wp (pbind _ _) _ _ _ => apply wp_bind
      | |- wp (get ?f) ?Q ?E ?p => change (Q (f p) p)
      | |- wp (put ?f) ?Q ?E ?p => change (Q tt (f p))
      | |- wp (set_data ?f) ?Q ?E ?p => change (Q tt (set_ParserData (f (ParserData p)) p))
      | |- wp (pret ?a) ?Q ?E ?p => change (Q a p)
      | |- wp (fail ?c) ?Q ?E ?p => change (E c p)
      end ].

(** ** Updates that keep the invariant *)

Lemma state_at_ok m p : parser_ok m p -> state_ok (curr_state p).
Proof. intros H. apply (ok_states m p H). done. Qed.

Lemma zero_state_ok : state_ok zero_state.
Proof. repeat split; by vm_compute. Qed.

Lemma set_state_ok m p f :
  parser_ok m p -> (forall t, state_ok t -> state_ok (f t)) ->
  parser_ok m (set_StateTable (<[CurrStateTable p := f (curr_state p)]> (StateTable p)) p).
Proof.
  intros H Hf. destruct H. constructor; try done.
  - cbn [set_StateTable StateTable]. by rewrite length_insert.
  - intros i Hi. cbn [set_StateTable CurrStateTable] in Hi. unfold state_at.
    cbn [set_StateTable StateTable]. destruct (decide (i = CurrStateTable p)) as [->|Hne].
    + rewrite list_lookup_insert_eq by lia. apply Hf. by apply ok_states0.
    + rewrite list_lookup_insert_ne by done. by apply ok_states0.
Qed.

Lemma size_at_ok m d i : info_ok m d -> size_ok (size_at i d).
Proof.
  intros H. unfold size_at. destruct (ReportIDSizes d !! i) eqn:Hi; simpl.
  - by eapply Forall_lookup_1; [apply (ok_sizes m d H)|].
  - repeat split; try by vm_compute. repeat constructor; by vm_compute.
Qed.

Lemma set_size_ok m d i s : info_ok m d -> size_ok s -> info_ok m (set_size i s d).
Proof.
  intros H Hs. destruct H. constructor; try done; cbn [set_size set_ReportIDSizes ReportIDSizes].
  - by rewrite length_insert.
  - by apply Forall_insert.
Qed.

(** Two structures with the same table of collections. *)
Lemma paths_ok_eq m d d' : CollectionPaths d' = CollectionPaths d -> paths_ok m d -> paths_ok m d'.
Proof. unfold paths_ok, path_at. intros ->. done. Qed.

Lemma path_at_set d i c j :
  length (CollectionPaths d) = HID_MAX_COLLECTIONS -> (i < HID_MAX_COLLECTIONS)%nat ->
  path_at j (set_path i c d) = if decide (j = i) then c else path_at j d.
Proof.
  intros Hl Hi. unfold path_at, set_path. cbn [set_CollectionPaths CollectionPaths].
  case_decide as E; [subst|by rewrite list_lookup_insert_ne].
  by rewrite list_lookup_insert_eq by lia.
Qed.

Lemma set_path_usage_ok m d i ty u :
  paths_ok m d -> (i < HID_MAX_COLLECTIONS)%nat -> is_u8 ty -> usage_ok u ->
  paths_ok m (set_path i (CollectionPath_ ty u (Parent (path_at i d))) d).
Proof.
  intros (Hl & Hm & H0 & Hin & Hout & Hty) Hi Ht Hu.
  split_and!; [by cbn; rewrite length_insert|done|..]; intros; rewrite ?path_at_set by done;
    case_decide;
    subst; simpl; auto.
Qed.

(** The search finds the first unused collection, or none when all are in use. *)
Lemma free_path_spec m d n i :
  paths_ok m d -> (1 <= i <= S m)%nat -> (i < HID_MAX_COLLECTIONS <= i + n)%nat ->
  free_path d i n = if (m =? HID_MAX_COLLECTIONS - 1)%nat then None else Some (S m).
Proof.
  intros (Hl & Hm & _ & Hin & Hout & _). unfold HID_MAX_COLLECTIONS in *.
  revert i. induction n as [|n IH]; intros i Hi Hn; [lia|]. cbn [free_path].
  destruct (decide (i = S m)) as [->|Hne].
  - rewrite Hout by lia. destruct (Nat.eqb_spec m (10 - 1)); [lia|done].
  - destruct (Hin i) as (j & -> & _); [lia|]. unfold HID_MAX_COLLECTIONS.
    destruct (Nat.eqb_spec i (10 - 1)); [|apply IH; lia].
    destruct (Nat.eqb_spec m (10 - 1)); [done|lia].
Qed.

Lemma new_path_ok m d parent :
  paths_ok m d -> (parent <= m)%nat -> (S m < HID_MAX_COLLECTIONS)%nat ->
  paths_ok (S m) (set_path (S m) (CollectionPath_ (Path_Type (path_at (S m) d))
                                    (Path_Usage (path_at (S m) d)) (Some parent)) d).
Proof.
  intros (Hl & Hm & H0 & Hin & Hout & Hty) Hp HS.
  split_and!; [by cbn; rewrite length_insert|done|..]; intros; rewrite ?path_at_set by done;
    case_decide;
    subst; simpl; auto; try lia.
  - exists parent. split; [done|lia].
  - apply Hin. lia.
  - apply Hout. lia.
Qed.

Lemma item_ok_mono m m' it : (m <= m')%nat -> item_ok m it -> item_ok m' it.
Proof.
  intros Hm (H1 & H2 & H3 & H4 & H5 & H6).
  refine (conj H1 (conj H2 (conj H3 (conj H4 (conj H5 _))))). intros c Hc. specialize (H6 c Hc). lia.
Qed.

Lemma set_paths_ok m m' d i c :
  info_ok m d -> (m <= m')%nat -> paths_ok m' (set_path i c d) -> info_ok m' (set_path i c d).
Proof.
  intros H Hm Hp. destruct H. constructor; try done.
  eapply Forall_impl; [|exact ok_items0]. intros it. by apply item_ok_mono.
Qed.

Lemma set_data_ok m m' p d :
  parser_ok m p -> (m <= m')%nat -> info_ok m' d ->
  (CurrReportIDInfo p < Z.to_nat (TotalDeviceReports d))%nat ->
  parser_ok m' (set_ParserData d p).
Proof.
  intros H Hm Hd Hr. destruct H. constructor; try done.
  intros c Hc. specialize (ok_path0 c Hc). lia.
Qed.

(** *** The usage of a new item *)

Lemma length_shift_usages past n l i : length (shift_usages past l i n) = length l.
Proof.
  revert l i. induction n as [|n IH]; intros l i; [done|]. cbn [shift_usages].
  by rewrite IH, length_insert.
Qed.

Lemma lookup_shift_usages past n l i j :
  (j < length l)%nat ->
  shift_usages past l i n !! j =
    if decide (i <= j < i + n)%nat then Some (default past (l !! S j)) else l !! j.
Proof.
  revert l i. induction n as [|n IH]; intros l i Hj; cbn [shift_usages].
  { case_decide; [lia|done]. }
  rewrite IH by by rewrite length_insert.
  repeat case_decide; try lia.
  - by rewrite list_lookup_insert_ne by lia.
  - assert (j = i) as -> by lia. by rewrite list_lookup_insert_eq by lia.
  - by rewrite list_lookup_insert_ne by lia.
Qed.

(** One step drops the first of the listed usages. *)
Lemma take_shift_usages past l n :
  (n < length l)%nat -> take n (shift_usages past l 0 (S n)) = take n (drop 1 l).
Proof.
  intros Hn. apply list_eq. intros j. destruct (decide (j < n)%nat) as [Hj|Hj].
  - rewrite !lookup_take_lt by done. rewrite lookup_shift_usages by lia.
    case_decide; [|lia]. rewrite lookup_drop. change (1 + j)%nat with (S j).
    destruct (l !! S j) eqn:E; [done|]. apply lookup_ge_None in E. lia.
  - by rewrite !lookup_take_ge by lia.
Qed.

(** The state apart from the usage list and range. *)
Definition same_but_usages (p p' : parser) : Prop :=
  exists l n mm, p' = set_UsageList l (set_UsageListSize n (set_UsageMinMax mm p)).

Lemma next_usage_ok `{J : Indeterminate} m p u E :
  parser_ok m p -> is_u16 u ->
  wp (next_usage u) (fun v p' => is_u16 v /\ parser_ok m p' /\ same_but_usages p p') E p.
Proof.
  intros H Hu. unfold next_usage. wps. destruct H.
  unfold HID_USAGE_STACK_DEPTH in *.
  unfold truth. destruct (Z.eqb_spec (UsageListSize p) 0) as [Hz|Hz]; cbn [negb].
  - destruct (_ <=? _); wps.
    + split; [by apply wrap_is_u|]. split.
      * constructor; try done. destruct ok_minmax0. split; [by apply wrap_is_u|done].
      * exists (UsageList p), (UsageListSize p), (MinMax (u32 (Minimum (UsageMinMax p) + 1))
          (Maximum (UsageMinMax p))). by destruct p.
    + split; [done|]. split; [by constructor|].
      exists (UsageList p), (UsageListSize p), (UsageMinMax p). by destruct p.
  - wps. destruct (Z.to_nat (UsageListSize p)) as [|n] eqn:En; [lia|].
    assert (u8 (UsageListSize p - 1) = Z.of_nat n) as Hn by (rewrite wrap_id; unfold is_u; lia).
    split; [|split].
    + destruct (UsageList p) as [|u0 l] eqn:El; [simpl in *; lia|].
      simpl in ok_usages0. by inversion ok_usages0.
    + constructor; try done; cbn [set_UsageListSize set_UsageList UsageList UsageListSize];
        rewrite ?Hn, ?Nat2Z.id.
      * by rewrite length_shift_usages.
      * unfold HID_USAGE_STACK_DEPTH. lia.
      * rewrite take_shift_usages by lia. rewrite take_drop_commute.
        by apply Forall_drop.
    + eexists _, _, (UsageMinMax p). by destruct p.
Qed.

(** *** The item cases *)

Lemma find_report_id_spec id l k i :
  find_report_id id l k = Some i ->
  (k <= i < k + length l)%nat /\ exists s, l !! (i - k)%nat = Some s /\ Size_ReportID s = id.
Proof.
  revert k. induction l as [|s l IH]; intros k; cbn [find_report_id length]; [done|].
  destruct (Z.eqb_spec (Size_ReportID s) id) as [Hs|_].
  - intros [= <-]. split; [lia|]. exists s. by rewrite Nat.sub_diag.
  - intros Hi. apply IH in Hi as (Hr & t & Ht & Hid). split; [lia|]. exists t.
    replace (i - k)%nat with (S (i - S k)) by lia. done.
Qed.

Section Typed.
Context `{J : Indeterminate} (filter : HID_ReportItem_t -> bool).

Definition any_ok (p : parser) : Prop := exists m, parser_ok m p.

(** A case of the switch keeps the invariant, whether it goes on or returns. *)
Definition keeps {A} (c : P A) : Prop :=
  forall p, any_ok p -> wp c (fun _ => any_ok) (fun _ => any_ok) p.

Lemma keeps_bind {A B} (c : P A) (k : A -> P B) :
  keeps c -> (forall a, keeps (k a)) -> keeps (pbind c k).
Proof.
  intros Hc Hk p Hp. apply wp_bind. eapply wp_mono; [by apply Hc| |done].
  intros a p' Hp'. by apply Hk.
Qed.

Lemma keeps_ret {A} (a : A) : keeps (pret a).
Proof. intros p Hp. exact Hp. Qed.

Lemma keeps_set_state f : (forall t, state_ok t -> state_ok (f t)) -> keeps (set_state f).
Proof. intros Hf p [m Hp]. exists m. by apply set_state_ok. Qed.

Lemma keeps_set_attributes f :
  (forall a, attributes_ok a -> attributes_ok (f a)) -> keeps (set_attributes f).
Proof.
  intros Hf. apply keeps_set_state. intros t (Ha & Hc & Hi). split; [by apply Hf|done].
Qed.

Lemma keeps_push : keeps item_push.
Proof. intros p Hp. unfold item_push. wps. by destruct (_ =? _)%nat; wps. Qed.

Lemma keeps_pop : keeps item_pop.
Proof.
  intros p [m Hp]. unfold item_pop. wps.
  destruct (Nat.eqb_spec (CurrStateTable p) 0); wps; [by exists m|].
  exists m. destruct Hp. constructor; try done; cbn [set_CurrStateTable CurrStateTable].
  - lia.
  - intros i Hi. apply ok_states0. lia.
Qed.

Lemma keeps_usage_page item data : keeps (item_usage_page item data).
Proof.
  apply keeps_bind; [destruct (_ =? _); [|apply keeps_ret]|intros _];
    apply keeps_set_attributes; intros a (Hb & [Hpg Hu] & Hr);
    (split; [done|]; split; [split; [by apply wrap_is_u|done]|done]).
Qed.

Lemma keeps_usage data : keeps (item_usage data).
Proof.
  intros p [m Hp]. unfold item_usage. wps.
  destruct (Z.eqb_spec (UsageListSize p) HID_USAGE_STACK_DEPTH); wps; [by exists m|].
  exists m. destruct Hp. unfold HID_USAGE_STACK_DEPTH in *.
  assert (u8 (UsageListSize p + 1) = Z.of_nat (S (Z.to_nat (UsageListSize p)))) as Hn
    by (rewrite wrap_id; unfold is_u; lia).
  constructor; try done; cbn [set_UsageListSize set_UsageList UsageList UsageListSize];
    rewrite ?Hn, ?Nat2Z.id.
  - by rewrite length_insert.
  - unfold HID_USAGE_STACK_DEPTH. lia.
  - rewrite (take_S_r _ _ (u16 data)) by (rewrite list_lookup_insert_eq by lia; done).
    rewrite take_insert_ge by done. apply Forall_app. split; [done|]. apply Forall_singleton. by apply wrap_is_u.
Qed.

Lemma keeps_minmax f :
  (forall mm, minmax_ok mm -> minmax_ok (f mm)) ->
  keeps (put (fun p => set_UsageMinMax (f (UsageMinMax p)) p)).
Proof.
  intros Hf p [m Hp]. exists m. destruct Hp. constructor; try done. by apply Hf.
Qed.

Lemma keeps_end_collection : keeps item_end_collection.
Proof.
  intros p [m Hp]. unfold item_end_collection. wps.
  destruct (CurrCollectionPath p) as [i|] eqn:Ei; wps; [|by exists m].
  exists m. destruct Hp. constructor; try done. cbn [set_CurrCollectionPath CurrCollectionPath].
  intros c Hc. destruct (ok_paths m _ ok_info0) as (_ & _ & H0 & Hin & _).
  specialize (ok_path0 i Ei). destruct i as [|i]; [congruence|].
  destruct (Hin (S i)) as (j & Hj & Hlt); [lia|]. rewrite Hc in Hj. injection Hj as ->. lia.
Qed.

Lemma keeps_name_report id :
  is_u8 id ->
  keeps (name_report id).
Proof.
  intros Hid p [m Hp]. unfold name_report. wps. exists m. destruct Hp.
  assert (info_ok m (set_UsingReportIDs true (ParserData p))) as Hd by by destruct ok_info0.
  apply (set_data_ok m m); [by constructor|done| |done].
  apply set_size_ok; [done|]. destruct (size_at_ok m _ (CurrReportIDInfo p) Hd) as (_ & Hl).
  by split.
Qed.

Lemma keeps_report_id data : keeps (item_report_id data).
Proof.
  apply keeps_bind.
  { apply keeps_set_state. intros t (Ha & Hc & _). split; [done|]. split; [done|].
    by apply wrap_is_u. }
  intros _ p [m Hp]. wps. pose proof (state_at_ok m p Hp) as (_ & _ & Hid).
  unfold select_report.
  apply (wp_mono _ (fun _ => any_ok) _ (fun _ => any_ok)); [|intros _ p' Hp'; exact (keeps_name_report _ Hid p' Hp')|done].
  destruct (UsingReportIDs (ParserData p)); [|by exists m].
  destruct Hp, ok_info0. unfold HID_MAX_REPORT_IDS in *.
  destruct (find_report_id _ _ _) as [i|] eqn:Ei; wps.
  - exists m. constructor; try done.
    apply find_report_id_spec in Ei as [Hi _]. rewrite length_take in Hi. cbn. lia.
  - unfold HID_MAX_REPORT_IDS.
    destruct (Z.eqb_spec (TotalDeviceReports (ParserData p)) 10) as [Ht|Ht]; wps.
    { exists m. by constructor. }
    set (n := TotalDeviceReports (ParserData p)) in *.
    assert (u8 (n + 1) = n + 1) as Hn by (apply wrap_id; unfold is_u; lia).
    assert (info_ok m (set_TotalDeviceReports (n + 1) (ParserData p))) as Hd.
    { constructor; try done. unfold HID_MAX_REPORT_IDS. cbn. lia. }
    exists m. subst n. cbn [set_CurrReportIDInfo ParserData]. rewrite Hn.
    apply (set_data_ok m m); [|done| |cbn; lia].
    + constructor; try done. cbn. lia.
    + apply set_size_ok; [done|].
      repeat split; try by vm_compute. repeat constructor; by vm_compute.
Qed.

(** The path of a collection is filled in: type, page and usage. *)
Lemma fill_path_ok data i p m :
  parser_ok m p -> (i <= m)%nat -> wp (fill_path data i) (fun _ => any_ok) (fun _ => any_ok) p.
Proof.
  intros Hp Hi. unfold fill_path. pose proof (state_at_ok m p Hp) as ((_ & [Hpg _] & _) & _ & _).
  pose proof (ok_paths m _ (ok_info m p Hp)) as Hpaths.
  pose proof (proj1 (proj2 Hpaths)) as Hm.
  wps. assert (forall d, info_ok m d -> forall ty u, is_u8 ty -> usage_ok u ->
    info_ok m (set_path i (CollectionPath_ ty u (Parent (path_at i d))) d)) as Hset.
  { intros d Hd ty u Hty Hu. apply (set_paths_ok m m); [done|done|].
    apply set_path_usage_ok; [apply (ok_paths m d Hd)|lia|done|done]. }
  eapply wp_mono; [apply (next_usage_ok m)|..].
  - apply (set_data_ok m m); [done|done| |apply (ok_report m p Hp)].
    apply Hset; [apply (ok_info m p Hp)|by apply wrap_is_u|]. split; [done|].
    apply (proj2 (proj2 (proj2 (proj2 (proj2 Hpaths)))) i).
  - cbn [set_ParserData ParserData]. unfold path_at at 1.
    cbn [set_path set_CollectionPaths CollectionPaths].
    rewrite list_lookup_insert_eq by (rewrite (proj1 Hpaths); lia). simpl.
    apply (proj2 (proj2 (proj2 (proj2 (proj2 Hpaths)))) i).
  - intros u p' (Hu & Hp' & _). wps. exists m. cbv zeta.
    apply (set_data_ok m m); [done|done| |apply (ok_report m p' Hp')].
    pose proof (ok_info m p' Hp') as Hd'.
    pose proof (proj2 (proj2 (proj2 (proj2 (proj2 (ok_paths m _ Hd'))))) i) as [[Hpg' _] Hty'].
    apply Hset; [done|done|by split].
  - intros c p' Hp'. exact Hp'.
Qed.

Lemma keeps_collection data : keeps (item_collection data).
Proof.
  intros p [m Hp]. unfold item_collection. wps.
  destruct (CurrCollectionPath p) as [parent|] eqn:Ec.
  - wps. pose proof (ok_paths m _ (ok_info m p Hp)) as Hpaths.
    rewrite (free_path_spec m) by (try done; unfold HID_MAX_COLLECTIONS; lia).
    destruct (Nat.eqb_spec m (HID_MAX_COLLECTIONS - 1)) as [Hf|Hf]; wps; [by exists m|].
    apply (fill_path_ok data (S m) _ (S m)); [|done].
    pose proof (proj1 (proj2 Hpaths)) as Hm.
    pose proof (ok_path m p Hp parent Ec) as Hpar. destruct Hp. constructor; try done.
    + cbn. intros c [= <-]. done.
    + apply (set_paths_ok m (S m)); [done|lia|]. apply new_path_ok; [done|done|lia].
  - wps. apply (fill_path_ok data 0 _ m); [|lia]. destruct Hp. constructor; try done.
    cbn. intros c [= <-]. lia.
Qed.

Lemma size_bits_ok ty s : size_ok s -> is_u16 (size_bits ty s).
Proof.
  intros (_ & _ & Hs). unfold size_bits. destruct (_ !! _) eqn:E; [|by split].
  simpl. by eapply Forall_lookup_1.
Qed.

Lemma item_type_range tag : 0 <= item_type tag <= 2.
Proof. unfold item_type. destruct (tag =? HID_RI_INPUT), (tag =? HID_RI_OUTPUT); by vm_compute. Qed.

(** The report grows by the item's bits. *)
Definition grow (i : nat) (ty total : Z) (d : HID_ReportInfo_t) : HID_ReportInfo_t :=
  let s := size_at i d in
  let d1 := set_size i (SizeInfo (Size_ReportID s) (<[Z.to_nat ty := total]> (ReportSizeBits s))) d in
  set_LargestReportSizeBits
    (if LargestReportSizeBits d1 >? total then LargestReportSizeBits d1 else total) d1.

Lemma grow_ok m i ty total d : info_ok m d -> is_u16 total -> info_ok m (grow i ty total d).
Proof.
  intros Hd Ht. pose proof (size_at_ok m d i Hd) as (Hid & Hl & Hs).
  assert (info_ok m (set_size i (SizeInfo (Size_ReportID (size_at i d))
    (<[Z.to_nat ty := total]> (ReportSizeBits (size_at i d)))) d)) as [].
  { apply set_size_ok; [done|]. split; [done|]. cbn [ReportSizeBits].
    split; [by rewrite length_insert|by apply Forall_insert]. }
  constructor; try done. cbn. by destruct (_ >? _).
Qed.

Lemma store_item_ok m p it n :
  parser_ok m p -> n = TotalReportItems (ParserData p) -> n <> HID_MAX_REPORTITEMS ->
  item_ok m it ->
  let p1 := set_ParserData (set_ReportItems (<[Z.to_nat n := it]> (ReportItems (ParserData p)))
              (ParserData p)) p in
  parser_ok m p1 /\
  parser_ok m (set_ParserData (set_TotalReportItems (u8 (n + 1)) (ParserData p1)) p1).
Proof.
  intros Hp -> Hn Hit p1. pose proof Hp as []. pose proof (ok_info m p Hp) as [].
  unfold HID_MAX_REPORTITEMS in *. set (n := TotalReportItems (ParserData p)) in *.
  assert (u8 (n + 1) = Z.of_nat (S (Z.to_nat n))) as Hw by (rewrite wrap_id; unfold is_u; lia).
  split; (constructor; try done); (constructor; try done); cbn; rewrite ?Hw, ?Nat2Z.id.
  - by rewrite length_insert.
  - fold n. rewrite take_insert_ge by done. done.
  - by rewrite length_insert.
  - unfold HID_MAX_REPORTITEMS. lia.
  - rewrite (take_S_r _ _ it) by (rewrite list_lookup_insert_eq by lia; done).
    rewrite take_insert_ge by done. apply Forall_app. split; [done|by apply Forall_singleton].
Qed.

Lemma keeps_main_item tag data : keeps (main_item filter tag data).
Proof.
  intros p [m Hp]. unfold main_item. wps. cbv zeta.
  pose proof (state_at_ok m p Hp) as (Ha & _ & Hid).
  eapply wp_mono; [apply (next_usage_ok m p _ (fun _ => any_ok)); [done|apply Ha]| |done].
  intros u p' (Hu & Hp' & Hsame). wps.
  set (i := CurrReportIDInfo p'). set (off := size_bits (item_type tag) (size_at i (ParserData p'))).
  set (total := u16 (off + _)).
  change (set_LargestReportSizeBits _ _) with (grow i (item_type tag) total (ParserData p')).
  assert (parser_ok m (set_ParserData (grow i (item_type tag) total (ParserData p')) p')) as Hg.
  { apply (set_data_ok m m); [done|done| |apply (ok_report m p' Hp')].
    apply grow_ok; [apply (ok_info m p' Hp')|by apply wrap_is_u]. }
  set (it := ReportItem _ _ _ _ _ _ _ _).
  assert (item_ok m it) as Hit.
  { refine (conj _ (conj (item_type_range tag) (conj _ (conj Hid (conj _ _))))).
    - apply size_bits_ok, (size_at_ok m), (ok_info m p' Hp').
    - by apply wrap_is_u.
    - destruct Ha as (Hb & [Hpg _] & Hr). by refine (conj Hb (conj (conj Hpg Hu) Hr)).
    - apply (ok_path m p Hp). }
  change (set_ParserData (grow i (item_type tag) total (ParserData p')) (set_ParserData _ p'))
    with (set_ParserData (grow i (item_type tag) total (ParserData p')) p').
  cbn [set_ParserData ParserData].
  destruct (Z.eqb_spec (TotalReportItems (grow i (item_type tag) total (ParserData p')))
    HID_MAX_REPORTITEMS) as [Hf|Hf]; wps; [by exists m|].
  pose proof (store_item_ok m _ it _ Hg eq_refl Hf Hit) as [H1 H2].
  destruct (_ && _); wps; by exists m.
Qed.

Lemma keeps_main_items n tag data : keeps (main_items filter n tag data).
Proof.
  induction n as [|n IH]; [apply keeps_ret|]. apply keeps_bind; [apply keeps_main_item|done].
Qed.

Lemma keeps_get {A B} (f : parser -> A) (k : A -> P B) :
  (forall a, keeps (k a)) -> keeps (pbind (get f) k).
Proof. intros Hk p Hp. apply (Hk (f p) p Hp). Qed.

Lemma keeps_switch item data : is_u32 data -> keeps (switch_item filter item data).
Proof.
  intros Hd. unfold switch_item.
  repeat match goal with |- keeps (if ?b then _ else _) => destruct b end;
    try first [ apply keeps_push | apply keeps_pop | apply keeps_usage_page
              | apply keeps_report_id | apply keeps_usage | apply keeps_collection
              | apply keeps_end_collection | apply keeps_ret
              | apply keeps_get; intros; apply keeps_main_items ].
  all: try (apply keeps_set_attributes; intros a (Hb & Hu & [Ht He] & [Hl1 Hl2] & [Hp1 Hp2]);
            unfold attributes_ok, minmax_ok; cbn; auto 12 with cint; fail).
  - apply keeps_set_state. intros t (Ha & _ & Hi). unfold state_ok. cbn. auto with cint.
  - apply (keeps_minmax (fun mm => MinMax data (Maximum mm))). by intros mm [].
  - apply (keeps_minmax (fun mm => MinMax (Minimum mm) data)). by intros mm [].
Qed.

Lemma keeps_process item data : is_u32 data -> keeps (process_item filter item data).
Proof.
  intros Hd. apply keeps_bind; [by apply keeps_switch|intros _]. unfold reset_locals.
  destruct (_ =? _); [|apply keeps_ret]. intros p [m Hp]. wps. exists m.
  destruct Hp. constructor; try done; by repeat constructor.
Qed.

Lemma default_replicate {A} (x : A) n i : default x (replicate n x !! i) = x.
Proof.
  destruct (replicate n x !! i) eqn:E; [|done]. by apply lookup_replicate in E as [-> _].
Qed.

Lemma initial_ok : parser_ok 0 initial_parser.
Proof.
  constructor; try done.
  - cbn. unfold HID_STATETABLE_STACK_DEPTH. lia.
  - intros i Hi. cbn in Hi. assert (i = 0)%nat as -> by lia. exact zero_state_ok.
  - exact stale_length.
  - cbn. lia.
  - constructor; try done.
    + assert (forall i, path_at i (ParserData initial_parser) = zero_path) as Hz
        by (intros; apply default_replicate).
      refine (conj eq_refl (conj _ (conj (f_equal _ (Hz 0%nat)) (conj _ (conj _ _))))).
      * unfold HID_MAX_COLLECTIONS. lia.
      * intros i Hi. lia.
      * intros i _. by rewrite Hz.
      * intros i. rewrite Hz. by repeat split.
    + apply Forall_replicate. split; [by split|]. split; [done|]. repeat constructor; done.
Qed.

Lemma is_u_shiftl w n b : 0 <= n -> 0 <= w -> is_u w b -> is_u (w + n) (b .<< n).
Proof.
  intros Hn Hw [H0 H1]. unfold is_u. rewrite Z.shiftl_mul_pow2, Z.pow_add_r by done.
  assert (0 < 2 ^ n) by (apply Z.pow_pos_nonneg; lia). nia.
Qed.

Lemma item_data_u32 Report pos item :
  (forall i, is_u8 (Report i)) -> is_u32 (fst (item_data Report pos item)).
Proof.
  intros HR. unfold item_data.
  assert (forall i, is_u32 (Report i)) as H0 by (intros; apply (is_u_mono 8); [lia|done]).
  assert (forall i, is_u32 (Report i .<< 8)) as H1
    by (intros; apply (is_u_mono (8 + 8)); [lia|by apply is_u_shiftl]).
  assert (forall i, is_u32 (Report i .<< 16)) as H2
    by (intros; apply (is_u_mono (8 + 16)); [lia|by apply is_u_shiftl]).
  assert (forall i, is_u32 (Report i .<< 24)) as H3
    by (intros; apply (is_u_shiftl 8 24); [lia|lia|done]).
  repeat match goal with |- context [if ?b then _ else _] => destruct b end; cbn [fst];
    repeat (apply is_u_lor; [done| |]); auto. by split.
Qed.

Lemma parse_items_ok fuel Report pos size p code p' :
  (forall i, is_u8 (Report i)) -> any_ok p ->
  parse_items filter fuel Report pos size p = Some (code, p') -> any_ok p'.
Proof.
  intros HR. revert pos size p. induction fuel as [|fuel IH]; intros pos size p Hp; [done|].
  cbn [parse_items]. destruct (negb (truth size)); [by intros [= <- <-]|].
  pose proof (item_data_u32 Report (pos + 1) (Report pos) HR) as Hd.
  destruct (item_data _ _ _) as [data len]. cbn [fst] in Hd.
  pose proof (keeps_process (Report pos) data Hd p Hp) as Hk. unfold wp in Hk.
  destruct (process_item _ _ _ _); [by apply IH|by intros [= <- <-]].
Qed.

End Typed.

(** ** Witness *)

(** Indeterminate values, all of them distinct from zero. *)
Definition noise : Indeterminate := {|
  stale_state _ := StateTable_ (Attrs 999 (Usage_ 999 999) (Unit_ 9 9) (MinMax 9 9) (MinMax 9 9)) 9 9;
  stale_usages := replicate 8 0xBEEF;
  past_usages _ := 0xDEAD;
  stale_value _ := (0xCAFE, 0xF00D);
  stale_length := eq_refl |}.

(** The bytes of a descriptor, and what lies behind them. *)
Definition in_memory (bs : list Z) (i : Z) : Z := default 0xAA (bs !! Z.to_nat i).

Lemma in_memory_u8 bs i : Forall is_u8 bs -> is_u8 (in_memory bs i).
Proof.
  intros H. unfold in_memory. destruct (bs !! Z.to_nat i) eqn:E; [|by split].
  simpl. by eapply Forall_lookup_1.
Qed.
