(* ===== verification/HidReport.v ===== *)
(** * HidReport: reading and writing the items of a HID report

    Theorems about [USB_GetHIDReportItemInfo] and [USB_SetHIDReportItemInfo] of HidParser.v.
    The reference definition of an item's value is [field_value]: the report read as one
    little-endian number, shifted and cut to the item's size. *)
From stdpp Require Import functions.
From S2P Require Import Prelude HidParser.
Import Hid.

(** Bit [c] of a report. *)
Definition report_bit (Report : Z -> Z) (c : Z) : bool :=
  Z.testbit (Report (c / 8)) (c mod 8).

(** The first [n] bytes of a report. *)
Definition report_bytes (Report : Z -> Z) (n : nat) : list Z := Report <$> range n.

(** The [size] bits from bit [off] on of a report of [n] bytes, as a number. *)
Definition field_value (Report : Z -> Z) (n : nat) (off size : Z) : Z :=
  (le_value (report_bytes Report n) .>> off) mod 2 ^ size.

(** Where the data of a report starts: behind the report ID, when there is one. *)
Definition report_data (Report : Z -> Z) (id : Z) : Z -> Z :=
  if truth id then fun i => Report (i + 1) else Report.

(** ** Bits *)

Lemma testbit_le_value bs i :
  Forall is_u8 bs -> 0 <= i ->
  Z.testbit (le_value bs) i = Z.testbit (default 0 (bs !! Z.to_nat (i / 8))) (i mod 8).
Proof.
  intros Hbs. revert i. induction Hbs as [|b bs Hb Hbs IH]; intros i Hi.
  { by rewrite lookup_nil, !Z.bits_0. }
  cbn [le_value]. rewrite Z.lor_spec.
  destruct (Z.lt_ge_cases i 8) as [Hlt|Hge].
  - rewrite Z.div_small, Z.mod_small, Z.shiftl_spec_low by lia. by rewrite orb_false_r.
  - rewrite Z.shiftl_spec, IH by lia. apply is_u_bits in Hb as [_ Hb]; [|done].
    rewrite Hb by lia. simpl orb.
    replace (Z.to_nat (i / 8)) with (S (Z.to_nat ((i - 8) / 8))) by zmod.
    replace ((i - 8) mod 8) with (i mod 8) by zmod. done.
Qed.

Lemma testbit_report_value Report n c :
  (forall i, is_u8 (Report i)) -> 0 <= c < 8 * Z.of_nat n ->
  Z.testbit (le_value (report_bytes Report n)) c = report_bit Report c.
Proof.
  intros HR Hc. rewrite testbit_le_value; [|by apply Forall_fmap, Forall_true|lia].
  unfold report_bit, report_bytes, range. rewrite <- list_fmap_compose.
  rewrite list_lookup_fmap, lookup_seq_lt by zmod. simpl.
  by replace (Z.of_nat (Z.to_nat (c / 8))) with (c / 8) by zmod.
Qed.

(** [BitMask] after [k] shifts. *)
Definition mask (k : Z) : Z := u32 (bit k).

Lemma mask_shift k : 0 <= k -> u32 (mask k .<< 1) = mask (k + 1).
Proof.
  intros Hk. unfold mask, wrap. rewrite !Z.shiftl_mul_pow2, !Z.mul_1_l by lia.
  rewrite Z.mul_mod_idemp_l by lia. by rewrite Z.pow_add_r by lia.
Qed.

Lemma testbit_mask k i :
  0 <= k -> 0 <= i -> Z.testbit (mask k) i = ((k =? i) && (i <? 32)).
Proof.
  intros Hk Hi. unfold mask, wrap. destruct (Z.ltb_spec i 32).
  - rewrite Z.mod_pow2_bits_low, testbit_bit by lia. by rewrite andb_true_r.
  - rewrite Z.mod_pow2_bits_high by lia. by rewrite andb_false_r.
Qed.

Lemma truth_report_bit Report c :
  0 <= c -> truth (Report (c / 8) .& bit (c mod 8)) = report_bit Report c.
Proof. intros. apply truth_land_bit. zmod. Qed.

(** ** Reading *)

Lemma get_bits_next n Report c m v :
  0 <= c -> c + 1 + Z.of_nat n <= 2 ^ 16 ->
  get_bits n Report (u16 (c + 1)) m v = get_bits n Report (c + 1) m v.
Proof.
  intros Hc Hn. destruct n; [done|]. rewrite wrap_id by (unfold is_u; lia). done.
Qed.

Lemma testbit_get_bits n Report c k v i :
  0 <= c -> c + Z.of_nat n <= 2 ^ 16 -> 0 <= k -> 0 <= i ->
  Z.testbit (get_bits n Report c (mask k) v) i =
    (Z.testbit v i ||
      ((k <=? i) && (i <? k + Z.of_nat n) && (i <? 32) && report_bit Report (c + (i - k)))).
Proof.
  revert c k v. induction n as [|n IH]; intros c k v Hc Hn Hk Hi; cbn [get_bits].
  { destruct (Z.leb_spec k i), (Z.ltb_spec i (k + Z.of_nat 0));
      try lia; by rewrite orb_false_r. }
  rewrite mask_shift, truth_report_bit, get_bits_next, IH by lia.
  replace (c + 1 + (i - (k + 1))) with (c + (i - k)) by lia.
  destruct (report_bit Report c) eqn:Hb; rewrite ?Z.lor_spec, ?testbit_mask by lia;
    (destruct (Z.eqb_spec k i) as [->|];
     [ rewrite Z.sub_diag, Z.add_0_r, Hb, Z.leb_refl;
       destruct (Z.leb_spec (i + 1) i), (Z.ltb_spec i (i + Z.of_nat (S n))); try lia;
       destruct (i <? 32), (Z.testbit v i); done
     | destruct (Z.leb_spec k i), (Z.leb_spec (k + 1) i), (Z.ltb_spec i (k + 1 + Z.of_nat n)),
         (Z.ltb_spec i (k + Z.of_nat (S n))); try lia; simpl; rewrite ?orb_false_r; done ]).
Qed.

Lemma get_bits_field Report n off size :
  (forall i, is_u8 (Report i)) -> 0 <= off -> 0 <= size ->
  off + size <= 8 * Z.of_nat n -> off + size <= 2 ^ 16 ->
  get_bits (Z.to_nat size) Report off (bit 0) 0 = field_value Report n off (Z.min size 32).
Proof.
  intros HR Ho Hs Hn Hw. change (bit 0) with (mask 0).
  apply Z.bits_inj'. intros i Hi.
  rewrite testbit_get_bits by lia. unfold field_value.
  rewrite Z.bits_0, Z.sub_0_r. simpl orb.
  destruct (Z.leb_spec 0 i), (Z.ltb_spec i (0 + Z.of_nat (Z.to_nat size))),
    (Z.ltb_spec i 32); try lia; simpl;
    rewrite ?Z.mod_pow2_bits_high by lia; try done.
  rewrite Z.mod_pow2_bits_low, Z.shiftr_spec, testbit_report_value by (done || lia).
  by rewrite Z.add_comm.
Qed.

(** C18: An item is read as the reference definition says: when the report carries the item's
    report ID (or none is used), the new value is the item's bit field of the report read as a
    little-endian number, cut to 32 bits, and the old value is kept in [PreviousValue]; when the
    report has another ID the function fails and the item is unchanged. *)
Theorem get_item_is_field Report it n :
  (forall i, is_u8 (Report i)) ->
  0 <= BitOffset it -> 0 <= BitSize (Item_Attributes it) ->
  BitOffset it + BitSize (Item_Attributes it) <= 8 * Z.of_nat n ->
  BitOffset it + BitSize (Item_Attributes it) <= 2 ^ 16 ->
  USB_GetHIDReportItemInfo Report (Some it) =
    if truth (Item_ReportID it) && negb (Item_ReportID it =? Report 0) then (false, Some it)
    else (true, Some (set_values
      (field_value (report_data Report (Item_ReportID it)) n (BitOffset it)
         (Z.min (BitSize (Item_Attributes it)) 32)) (Value it) it)).
Proof.
  intros HR Ho Hs Hn Hw. unfold USB_GetHIDReportItemInfo.
  destruct (truth (Item_ReportID it) && negb (Item_ReportID it =? Report 0)); [done|].
  change (if truth (Item_ReportID it) then fun i => Report (i + 1) else Report)
    with (report_data Report (Item_ReportID it)).
  rewrite (get_bits_field _ n); try done.
  intros i. unfold report_data. destruct (truth _); apply HR.
Qed.

(** ** Writing *)

Lemma set_bits_next n base v c m Report :
  0 <= c -> c + 1 + Z.of_nat n <= 2 ^ 16 ->
  set_report_bits n base v (u16 (c + 1)) m Report = set_report_bits n base v (c + 1) m Report.
Proof.
  intros Hc Hn. destruct n; [done|]. rewrite wrap_id by (unfold is_u; lia). done.
Qed.

(** What pass [j] writes: bit [j] of the byte it is at, when the value has the bit
    [(c + j) mod 8]. *)
Definition written (n : nat) (v c k i a : Z) : bool :=
  (k <=? i) && (i <? k + Z.of_nat n) && (a =? (c + (i - k)) / 8) &&
    Z.testbit v ((c + (i - k)) mod 8).

Lemma written_pass n v c k i a :
  0 <= c ->
  written (S n) v c k i a =
    (((k =? i) && (a =? c / 8) && Z.testbit v (c mod 8)) || written n v (c + 1) (k + 1) i a).
Proof.
  intros Hc. unfold written. replace (c + 1 + (i - (k + 1))) with (c + (i - k)) by lia.
  destruct (Z.eqb_spec k i) as [->|].
  - rewrite Z.sub_diag, Z.add_0_r, Z.leb_refl.
    destruct (Z.ltb_spec i (i + Z.of_nat (S n))), (Z.leb_spec (i + 1) i); try lia.
    simpl. by rewrite orb_false_r.
  - destruct (Z.leb_spec k i), (Z.leb_spec (k + 1) i), (Z.ltb_spec i (k + 1 + Z.of_nat n)),
      (Z.ltb_spec i (k + Z.of_nat (S n))); try lia; done.
Qed.

Lemma testbit_set_report_bits n base v c k Report a i :
  0 <= c -> c + Z.of_nat n <= 2 ^ 16 -> 0 <= k -> 0 <= i < 8 ->
  Z.testbit (set_report_bits n base v c (mask k) Report (base + a)) i =
    (Z.testbit (Report (base + a)) i || written n v c k i a).
Proof.
  revert c k Report. induction n as [|n IH]; intros c k Report Hc Hn Hk Hi.
  { unfold written. cbn [set_report_bits].
    destruct (Z.leb_spec k i), (Z.ltb_spec i (k + Z.of_nat 0)); try lia;
      by rewrite orb_false_r. }
  cbn [set_report_bits]. rewrite mask_shift, set_bits_next, IH, written_pass by lia.
  rewrite truth_land_bit by zmod. rewrite orb_assoc. f_equal.
  destruct (Z.testbit v (c mod 8)) eqn:Hv; [|by rewrite andb_false_r, orb_false_r].
  rewrite andb_true_r. destruct (Z.eqb_spec a (c / 8)) as [->|Hne].
  - rewrite fn_lookup_insert, testbit_u8, Z.lor_spec, testbit_mask by lia.
    destruct (Z.ltb_spec i 32); [|lia]. by rewrite !andb_true_r.
  - rewrite fn_lookup_insert_ne by lia. by rewrite andb_false_r, orb_false_r.
Qed.

Lemma set_report_bits_below n base v c m Report a :
  0 <= c -> a < base -> set_report_bits n base v c m Report a = Report a.
Proof.
  revert c m Report. induction n as [|n IH]; intros c m Report Hc Ha; [done|].
  cbn [set_report_bits]. rewrite IH by (try apply wrap_is_u; lia).
  destruct (truth _); [|done]. rewrite fn_lookup_insert_ne; [done|]. zmod.
Qed.

Lemma set_report_bits_u8 n base v c m Report :
  (forall a, is_u8 (Report a)) -> forall a, is_u8 (set_report_bits n base v c m Report a).
Proof.
  revert c m Report. induction n as [|n IH]; intros c m Report HR; [done|].
  cbn [set_report_bits]. apply IH. destruct (truth _); [|done].
  intros a. destruct (decide (a = base + c / 8)) as [->|].
  - rewrite fn_lookup_insert. auto with cint.
  - by rewrite fn_lookup_insert_ne.
Qed.

(** An item whose data is whole bits of one byte, from its first bit on. *)
Definition byte_aligned (it : HID_ReportItem_t) : Prop :=
  BitOffset it mod 8 = 0 /\ 0 <= BitOffset it < 2 ^ 16 /\
  0 <= BitSize (Item_Attributes it) <= 8.

(** The report buffer as the caller has to hand it over: bytes, the item's bits clear. *)
Definition cleared (Report : Z -> Z) (it : HID_ReportItem_t) : Prop :=
  (forall a, is_u8 (Report a)) /\
  forall c, 0 <= c - BitOffset it < BitSize (Item_Attributes it) ->
    report_bit (report_data Report (Item_ReportID it)) c = false.

Definition with_id (Report : Z -> Z) (id : Z) : Z -> Z :=
  if truth id then <[0 := id]> Report else Report.

Lemma set_item_unfold Report it :
  USB_SetHIDReportItemInfo Report (Some it) =
    (set_report_bits (Z.to_nat (BitSize (Item_Attributes it)))
       (if truth (Item_ReportID it) then 1 else 0) (Value it) (BitOffset it) (mask 0)
       (with_id Report (Item_ReportID it)),
     Some (set_values (Value it) (Value it) it)).
Proof. done. Qed.

Lemma report_data_at Report id a :
  report_data Report id a = Report ((if truth id then 1 else 0) + a).
Proof. unfold report_data. destruct (truth id); f_equal; lia. Qed.

Lemma with_id_data Report id a :
  0 <= a -> with_id Report id ((if truth id then 1 else 0) + a) = report_data Report id a.
Proof.
  intros Ha. rewrite report_data_at. unfold with_id. destruct (truth id); [|done].
  by rewrite fn_lookup_insert_ne by lia.
Qed.

(** Every bit of the report after [USB_SetHIDReportItemInfo]. *)
Lemma set_item_bits Report it a i :
  0 <= BitOffset it -> 0 <= BitSize (Item_Attributes it) ->
  BitOffset it + BitSize (Item_Attributes it) <= 2 ^ 16 -> 0 <= a -> 0 <= i < 8 ->
  Z.testbit (report_data (fst (USB_SetHIDReportItemInfo Report (Some it)))
      (Item_ReportID it) a) i =
    (Z.testbit (report_data Report (Item_ReportID it) a) i ||
      written (Z.to_nat (BitSize (Item_Attributes it))) (Value it) (BitOffset it) 0 i a).
Proof.
  intros Ho Hs Hw Ha Hi. rewrite set_item_unfold. cbn [fst].
  rewrite report_data_at, testbit_set_report_bits by lia. by rewrite with_id_data.
Qed.

Lemma aligned_byte off j : off mod 8 = 0 -> 0 <= j < 8 -> (off + j) / 8 = off / 8.
Proof. intros. zmod. Qed.

Lemma aligned_bit off j : off mod 8 = 0 -> 0 <= j < 8 -> (off + j) mod 8 = j.
Proof. intros. zmod. Qed.

(** Bits of the report after an aligned item was written to a cleared report: the item's bits
    are the value's, the others are what they were. *)
Lemma set_aligned_bits Report it c :
  byte_aligned it -> cleared Report it -> 0 <= c ->
  report_bit (report_data (fst (USB_SetHIDReportItemInfo Report (Some it))) (Item_ReportID it))
      c =
    if (BitOffset it <=? c) && (c <? BitOffset it + BitSize (Item_Attributes it))
    then Z.testbit (Value it) (c - BitOffset it)
    else report_bit (report_data Report (Item_ReportID it)) c.
Proof.
  intros (Hm & Ho & Hs) [_ Hclr] Hc. unfold report_bit at 1.
  rewrite set_item_bits by zmod. fold (report_bit (report_data Report (Item_ReportID it)) c).
  unfold written. rewrite Z.sub_0_r. set (off := BitOffset it) in *.
  set (sz := BitSize (Item_Attributes it)) in *.
  destruct (Z.leb_spec 0 (c mod 8)); [|zmod]. simpl andb.
  rewrite Z2Nat.id, Z.add_0_l by lia.
  destruct (Z.leb_spec off c) as [Hoc|Hoc]; simpl andb.
  2: { destruct (Z.ltb_spec (c mod 8) sz); [|by rewrite orb_false_r].
       rewrite aligned_byte by lia.
       destruct (Z.eqb_spec (c / 8) (off / 8)); [zmod|by rewrite orb_false_r]. }
  destruct (Z.ltb_spec c (off + sz)).
  - rewrite Hclr by lia. simpl orb.
    replace (c mod 8) with (c - off) by zmod. rewrite aligned_byte, aligned_bit by lia.
    destruct (Z.ltb_spec (c - off) sz); [|lia].
    destruct (Z.eqb_spec (c / 8) (off / 8)); [done|zmod].
  - destruct (Z.ltb_spec (c mod 8) sz); [|by rewrite orb_false_r].
    rewrite aligned_byte by lia.
    destruct (Z.eqb_spec (c / 8) (off / 8)); [zmod|by rewrite orb_false_r].
Qed.

Lemma set_item_id Report it :
  0 <= BitOffset it -> truth (Item_ReportID it) = true ->
  fst (USB_SetHIDReportItemInfo Report (Some it)) 0 = Item_ReportID it.
Proof.
  intros Ho Hid. rewrite set_item_unfold. cbn [fst]. rewrite Hid.
  rewrite set_report_bits_below by lia. unfold with_id. by rewrite Hid, fn_lookup_insert.
Qed.

Lemma set_item_u8 Report it :
  (forall a, is_u8 (Report a)) -> is_u8 (Item_ReportID it) ->
  forall a, is_u8 (fst (USB_SetHIDReportItemInfo Report (Some it)) a).
Proof.
  intros HR Hid. rewrite set_item_unfold. apply set_report_bits_u8. intros a.
  unfold with_id. destruct (truth _); [|done].
  destruct (decide (a = 0)) as [->|]; [by rewrite fn_lookup_insert|by rewrite fn_lookup_insert_ne].
Qed.

(** C19: A value written with [USB_SetHIDReportItemInfo] is read back by
    [USB_GetHIDReportItemInfo], and no other bit of the report changes, when the item lies
    within one byte and starts at its first bit: the case in which the two loops agree on
    where the item's bits are. *)
Theorem set_get_roundtrip Report it :
  byte_aligned it -> is_u8 (Item_ReportID it) -> cleared Report it ->
  0 <= Value it < 2 ^ BitSize (Item_Attributes it) ->
  let '(Report', it') := USB_SetHIDReportItemInfo Report (Some it) in
  USB_GetHIDReportItemInfo Report' it' = (true, Some (set_values (Value it) (Value it) it)) /\
  forall c, 0 <= c -> ~ (BitOffset it <= c < BitOffset it + BitSize (Item_Attributes it)) ->
    report_bit (report_data Report' (Item_ReportID it)) c =
    report_bit (report_data Report (Item_ReportID it)) c.
Proof.
  intros Hal Hid Hclr Hv. pose proof Hal as (Hm & Ho & Hs).
  pose proof (fun c => set_aligned_bits Report it c Hal Hclr) as Hbits.
  pose proof (set_item_u8 Report it (proj1 Hclr) Hid) as Hu8.
  pose proof (set_item_id Report it (proj1 Ho)) as Hid0.
  pose proof (set_item_unfold Report it) as E.
  destruct (USB_SetHIDReportItemInfo Report (Some it)) as [Report' it'].
  injection E as _ ->. cbn [fst] in *. split.
  2: { intros c Hc Hout. rewrite Hbits by done.
       destruct (Z.leb_spec (BitOffset it) c),
         (Z.ltb_spec c (BitOffset it + BitSize (Item_Attributes it))); try done; lia. }
  unfold USB_GetHIDReportItemInfo. cbn [set_values Item_ReportID BitOffset Item_Attributes].
  destruct (truth (Item_ReportID it)) eqn:Ht; simpl andb.
  1: rewrite Hid0, Z.eqb_refl by done; simpl negb.
  all: cbv iota; f_equal; f_equal; unfold set_values; f_equal.
  all: change (bit 0) with (mask 0); apply Z.bits_inj'; intros i Hi.
  all: rewrite testbit_get_bits, Z.bits_0, Z.sub_0_r by zmod; simpl orb.
  all: unfold report_data in Hbits; rewrite Ht in Hbits; rewrite Hbits by lia.
  all: set (sz := BitSize (Item_Attributes it)) in *.
  all: rewrite Z2Nat.id, Z.add_0_l by lia; replace (BitOffset it + i - BitOffset it) with i by lia.
  all: destruct (Z.leb_spec 0 i), (Z.leb_spec (BitOffset it) (BitOffset it + i)); try lia.
  all: destruct (Z.ltb_spec i sz), (Z.ltb_spec (BitOffset it + i) (BitOffset it + sz)),
         (Z.ltb_spec i 32); try lia; simpl; try done.
  all: apply (is_u_bits sz) in Hv as [_ Hv]; [by rewrite Hv|lia].
Qed.

(** The value of a one-bit item that is not the first bit of its byte is lost: setting it
    leaves the report as it is, because the loop tests the value and marks the report with the
    two masks exchanged. *)
Theorem set_bit_lost Report it :
  0 <= BitOffset it < 2 ^ 16 -> BitOffset it mod 8 <> 0 -> Item_ReportID it = 0 ->
  BitSize (Item_Attributes it) = 1 -> Value it = 1 ->
  fst (USB_SetHIDReportItemInfo Report (Some it)) = Report.
Proof.
  intros Ho Hm Hid Hs Hv. rewrite set_item_unfold. cbn [fst]. unfold with_id.
  rewrite Hid, Hs, Hv. change (truth 0) with false. cbv iota. cbn [set_report_bits Z.to_nat].
  change (Z.to_nat 1) with 1%nat. cbn [set_report_bits].
  rewrite truth_land_bit by zmod. change 1 with (2 ^ 0).
  rewrite Z.pow2_bits_false by zmod. done.
Qed.

(** ** Witnesses *)

Definition sample_item (off size id v : Z) : HID_ReportItem_t :=
  ReportItem off HID_REPORT_ITEM_In 2 id (Some 0%nat)
    (set_BitSize size zero_attributes) v 0.

(** A three-byte report with the ID 2 in front. *)
Definition sample_report (i : Z) : Z := default 0 ([2; 0xB5; 0x6E; 0x91] !! Z.to_nat i).

Lemma sample_report_u8 i : is_u8 (sample_report i).
Proof.
  unfold sample_report. destruct (Z.to_nat i) as [|[|[|[|n]]]]; split; by vm_compute.
Qed.

Lemma get_item_is_field_witness :
  USB_GetHIDReportItemInfo sample_report (Some (sample_item 3 10 2 5)) =
    (true, Some (set_values 0x1D6 5 (sample_item 3 10 2 5))).
Proof.
  rewrite (get_item_is_field sample_report (sample_item 3 10 2 5) 3).
  - vm_compute. reflexivity.
  - exact sample_report_u8.
  - vm_compute. discriminate.
  - vm_compute. discriminate.
  - vm_compute. discriminate.
  - vm_compute. discriminate.
Defined.

Lemma blank_cleared it : cleared (fun _ => 0) it.
Proof.
  split; [intros; by split|]. intros. unfold report_bit, report_data.
  destruct (truth _); apply Z.bits_0.
Qed.

Lemma set_get_roundtrip_witness :
  let '(Report', it') := USB_SetHIDReportItemInfo (fun _ => 0) (Some (sample_item 8 8 3 0xA5)) in
  USB_GetHIDReportItemInfo Report' it' =
    (true, Some (set_values 0xA5 0xA5 (sample_item 8 8 3 0xA5))) /\
  forall c, 0 <= c -> ~ (8 <= c < 8 + 8) ->
    report_bit (report_data Report' 3) c = report_bit (report_data (fun _ => 0) 3) c.
Proof.
  apply (set_get_roundtrip (fun _ => 0) (sample_item 8 8 3 0xA5)).
  - unfold byte_aligned. split_and!; by vm_compute.
  - split; by vm_compute.
  - apply blank_cleared.
  - split; by vm_compute.
Defined.

Lemma set_bit_lost_witness :
  fst (USB_SetHIDReportItemInfo (fun _ => 0) (Some (sample_item 1 1 0 1))) = (fun _ => 0).
Proof.
  apply (set_bit_lost (fun _ => 0) (sample_item 1 1 0 1)).
  - split; by vm_compute.
  - by vm_compute.
  - reflexivity.
  - reflexivity.
  - reflexivity.
Defined.
