(* ===== verification/HidDescriptor.v ===== *)
(** * HidDescriptor: the HID report parser on whole descriptors

    Decoding of descriptors written with the item macros, the types and pointers of the
    structure the parser fills, the exact verdict on a descriptor and the layout of the
    report items it records, for HidParser.v. *)
From S2P Require Import Prelude HidParser.
Import Hid.

(** ** Descriptors as sequences of item macros *)

Record entry := Entry { e_tag : Z; e_bits : data_bits; e_data : Z }.

(** A type and tag that leave the two size bits of the prefix free. *)
Definition tag_ok (tag : Z) : Prop :=
  is_u8 tag /\ tag .& (HID_RI_TYPE_MASK .| HID_RI_TAG_MASK) = tag.

Definition data_len (b : data_bits) : Z :=
  match b with Bits0 => 0 | Bits8 => 1 | Bits16 => 2 | Bits32 => 4 end.

Definition encode (e : entry) : list Z := HID_RI_ENTRY (e_tag e) (e_bits e) (e_data e).
Definition prefix (e : entry) : Z := e_tag e .| HID_RI_DATA_BITS (e_bits e).

(** The value the parser should take from an entry: the data cut to its size. *)
Definition payload (e : entry) : Z := wrap (8 * data_len (e_bits e)) (e_data e).

Definition descriptor (es : list entry) : list Z := concat (map encode es).

(** The memory from [pos] on starts with the bytes [bs]. *)
Definition holds_at (Report : Z -> Z) (pos : Z) (bs : list Z) : Prop :=
  forall i b, bs !! i = Some b -> Report (pos + Z.of_nat i) = b.

Lemma holds_at_cons Report pos b bs :
  holds_at Report pos (b :: bs) <-> Report pos = b /\ holds_at Report (pos + 1) bs.
Proof.
  unfold holds_at. split.
  - intros H. split; [rewrite <- (H 0%nat b) by done; f_equal; lia|].
    intros i c Hi. rewrite <- (H (S i) c) by done. f_equal; lia.
  - intros [H0 H] [|i] c Hi; [injection Hi as <-; rewrite <- H0; f_equal; lia|].
    rewrite <- (H i c) by done. f_equal; lia.
Qed.

Lemma holds_at_app Report pos l1 l2 :
  holds_at Report pos (l1 ++ l2) <->
  holds_at Report pos l1 /\ holds_at Report (pos + Z.of_nat (length l1)) l2.
Proof.
  revert pos. induction l1 as [|b l1 IH]; intros pos.
  - simpl. rewrite Z.add_0_r. split; [intros; split; [by intros [|i]|done]|tauto].
  - simpl app. rewrite !holds_at_cons, IH. cbn [length].
    replace (pos + Z.of_nat (S (length l1))) with (pos + 1 + Z.of_nat (length l1)) by lia. tauto.
Qed.

Lemma land_ff_u8 z : z .& 0xFF = u8 z.
Proof. change 0xFF with (Z.ones 8). by rewrite Z.land_ones by lia. Qed.

Lemma encode_bytes e :
  encode e = prefix e :: le_bytes (Z.to_nat (data_len (e_bits e))) (e_data e).
Proof.
  unfold encode, HID_RI_ENTRY, prefix. f_equal.
  destruct (e_bits e); cbn [HID_RI_ENCODE HID_RI_ENCODE_32 HID_RI_ENCODE_16 HID_RI_ENCODE_8 data_len
    Datatypes.app Z.to_nat Pos.to_nat Pos.iter_op Nat.add le_bytes];
    unfold HID_RI_ENCODE_32, HID_RI_ENCODE_16, HID_RI_ENCODE_8; simpl Datatypes.app;
    rewrite ?land_ff_u8; rewrite ?Z.shiftr_shiftr by lia; done.
Qed.

Lemma length_encode e : Z.of_nat (length (encode e)) = 1 + data_len (e_bits e).
Proof. rewrite encode_bytes. cbn [length]. rewrite length_le_bytes. destruct (e_bits e); done. Qed.

Lemma prefix_size e :
  tag_ok (e_tag e) -> prefix e .& HID_RI_DATA_SIZE_MASK = HID_RI_DATA_BITS (e_bits e).
Proof.
  intros [_ Ht]. unfold prefix. rewrite Z.land_lor_distr_l.
  rewrite <- Ht, <- Z.land_assoc. change (_ .& HID_RI_DATA_SIZE_MASK) with 0 at 1.
  rewrite Z.land_0_r. by destruct (e_bits e).
Qed.

Lemma prefix_tag e :
  tag_ok (e_tag e) -> prefix e .& (HID_RI_TYPE_MASK .| HID_RI_TAG_MASK) = e_tag e.
Proof.
  intros [_ Ht]. unfold prefix. rewrite Z.land_lor_distr_l, Ht.
  replace (HID_RI_DATA_BITS (e_bits e) .& _) with 0 by by destruct (e_bits e).
  apply Z.lor_0_r.
Qed.

Lemma prefix_type e :
  tag_ok (e_tag e) -> prefix e .& HID_RI_TYPE_MASK = e_tag e .& HID_RI_TYPE_MASK.
Proof.
  intros [_ Ht]. unfold prefix. rewrite Z.land_lor_distr_l.
  replace (HID_RI_DATA_BITS (e_bits e) .& _) with 0 by by destruct (e_bits e).
  apply Z.lor_0_r.
Qed.

(** The data bytes are put together as they were taken apart. *)
Lemma item_data_encode Report pos e :
  tag_ok (e_tag e) ->
  holds_at Report pos (le_bytes (Z.to_nat (data_len (e_bits e))) (e_data e)) ->
  item_data Report pos (prefix e) = (payload e, data_len (e_bits e)).
Proof.
  intros Ht H. unfold item_data. rewrite prefix_size by done. unfold payload.
  pose proof (le_value_bytes (Z.to_nat (data_len (e_bits e))) (e_data e)) as Hv.
  destruct (e_bits e); cbn [data_len HID_RI_DATA_BITS] in *;
    (let n := eval vm_compute in (Z.to_nat 4) in change (Z.to_nat 4) with n in * );
    change (Z.to_nat 2) with 2%nat in *; change (Z.to_nat 1) with 1%nat in *;
    change (Z.to_nat 0) with 0%nat in *; cbn [le_bytes] in *;
    rewrite ?holds_at_cons in H; simpl; f_equal.
  - unfold wrap. by rewrite Z.mod_1_r.
  - destruct H as [-> _]. refine (eq_trans _ Hv). cbn [le_value]. by rewrite Z.shiftl_0_l, Z.lor_0_r.
  - destruct H as (-> & -> & _). refine (eq_trans _ Hv). cbn [le_value].
    rewrite Z.shiftl_0_l, Z.lor_0_r. apply Z.lor_comm.
  - destruct H as (-> & H1 & H2 & H3 & _).
    replace (pos + 2) with (pos + 1 + 1) by lia. replace (pos + 3) with (pos + 1 + 1 + 1) by lia.
    rewrite H1, H2, H3. refine (eq_trans _ Hv). cbn [le_value].
    rewrite Z.shiftl_0_l, Z.lor_0_r, !Z.shiftl_lor, !Z.shiftl_shiftl by lia.
    change (8 + 8) with 16. change (8 + 16) with 24.
    generalize (u8 (e_data e)) (u8 (e_data e .>> 8) .<< 8)
      (u8 (e_data e .>> 8 .>> 8) .<< 16) (u8 (e_data e .>> 8 .>> 8 .>> 8) .<< 24).
    intros a b c d. rewrite (Z.lor_comm _ a), (Z.lor_comm (d .| c)), (Z.lor_comm d).
    reflexivity.
Qed.

(** ** Decoding *)

Section Runs.
Context `{J : Indeterminate} (filter : HID_ReportItem_t -> bool).

(** The parser over items instead of bytes. *)
Fixpoint run_entries (es : list entry) (p : parser) : Z * parser :=
  match es with
  | [] => (parse_end p, p)
  | e :: es' =>
      match process_item filter (prefix e) (payload e) p with
      | Return code p' => (code, p')
      | Go _ p' => run_entries es' p'
      end
  end.

Lemma parse_descriptor es Report pos size p fuel :
  Forall (fun e => tag_ok (e_tag e)) es -> holds_at Report pos (descriptor es) ->
  size = Z.of_nat (length (descriptor es)) -> size < 2 ^ 16 -> (length es < fuel)%nat ->
  parse_items filter fuel Report pos size p = Some (run_entries es p).
Proof.
  intros Hes. revert pos size p fuel.
  induction Hes as [|e es He Hes IH]; intros pos size p fuel Hr -> Hw Hf;
    (destruct fuel as [|fuel]; [simpl in Hf; lia|]); cbn [parse_items run_entries]; [done|].
  cbn [descriptor map concat] in Hr, Hw |- *. rewrite length_app, Nat2Z.inj_add, length_encode in *.
  fold (descriptor es) in *. apply holds_at_app in Hr as [Hr1 Hr2].
  rewrite length_encode in Hr2. rewrite encode_bytes, holds_at_cons in Hr1.
  destruct Hr1 as [Hp Hd]. rewrite Hp, item_data_encode by done.
  assert (0 <= data_len (e_bits e)) by by destruct (e_bits e).
  unfold truth. destruct (Z.eqb_spec (1 + data_len (e_bits e) +
    Z.of_nat (length (descriptor es))) 0); [lia|]. cbn [negb].
  destruct (process_item filter (prefix e) (payload e) p) as [[] p'|]; [|done].
  rewrite (wrap_id 16 (_ - 1)), wrap_id by (unfold is_u; lia).
  apply IH; try lia; [by rewrite Z.add_assoc in Hr2|]. simpl in Hf. lia.
Qed.

End Runs.
