(* ===== verification/HidVerdict.v ===== *)
(** * HidVerdict: the return code of the HID report parser

    An abstract machine that only counts (saved states, open and nested collections, usages,
    report IDs, stored items) gives the verdict on a descriptor.  The parser of HidParser.v
    implements it: on every descriptor made of item macros other than [PUSH] it ends, within one
    pass per item, and returns the machine's verdict, and what it has filled is well typed. *)
From S2P Require Import Prelude HidParser HidTypes HidDescriptor.
Import Hid.

(** ** The abstract machine *)

Record counts := Counts {
  c_states : list Z;     (** report counts of the saved states, the current one first *)
  c_depth : nat;         (** open collections *)
  c_nested : nat;        (** collections opened inside another one so far *)
  c_usages : Z;          (** usages since the last main item *)
  c_ids : list Z;        (** report IDs seen *)
  c_stored : Z }.        (** report items stored *)

Definition initial_counts : counts := Counts [0] 0 0 0 [] 0.

Definition is_main (tag : Z) : bool := tag .& HID_RI_TYPE_MASK =? HID_RI_TYPE_MAIN.
Definition is_field (tag : Z) : bool :=
  (tag =? HID_RI_INPUT) || (tag =? HID_RI_OUTPUT) || (tag =? HID_RI_FEATURE).

Section Verdict.

(** The filter as far as the verdict needs it: a decision by type and flags. *)
Context (accept : Z -> Z -> bool).

(** Store [n] items, or find that there is no room for one of them.  An item that is not kept
    needs a free entry too. *)
Definition store (n tag data stored : Z) : Z + Z :=
  if negb (truth (data .& HID_IOF_CONSTANT)) && accept (item_type tag) (u16 data) then
    if stored + n <=? HID_MAX_REPORTITEMS then inr (stored + n)
    else inl HID_PARSE_InsufficientReportItems
  else
    if (0 <? n) && (stored =? HID_MAX_REPORTITEMS) then inl HID_PARSE_InsufficientReportItems
    else inr stored.

Definition count_switch (tag data : Z) (c : counts) : Z + counts :=
  let '(Counts states depth nested usages ids stored) := c in
  if tag =? HID_RI_PUSH then
    if (length states =? HID_STATETABLE_STACK_DEPTH)%nat then inl HID_PARSE_HIDStackOverflow
    else inl stack_overwritten
  else if tag =? HID_RI_POP then
    if (length states =? 1)%nat then inl HID_PARSE_HIDStackUnderflow
    else inr (Counts (tail states) depth nested usages ids stored)
  else if tag =? HID_RI_REPORT_COUNT then
    inr (Counts (u8 data :: tail states) depth nested usages ids stored)
  else if tag =? HID_RI_REPORT_ID then
    if bool_decide (u8 data ∈ ids) then inr c
    else if (length ids =? Z.to_nat HID_MAX_REPORT_IDS)%nat
    then inl HID_PARSE_InsufficientReportIDItems
    else inr (Counts states depth nested usages (ids ++ [u8 data]) stored)
  else if tag =? HID_RI_USAGE then
    if usages =? HID_USAGE_STACK_DEPTH then inl HID_PARSE_UsageListOverflow
    else inr (Counts states depth nested (usages + 1) ids stored)
  else if tag =? HID_RI_COLLECTION then
    if (depth =? 0)%nat then inr (Counts states 1 nested usages ids stored)
    else if (nested =? HID_MAX_COLLECTIONS - 1)%nat
    then inl HID_PARSE_InsufficientCollectionPaths
    else inr (Counts states (S depth) (S nested) usages ids stored)
  else if tag =? HID_RI_END_COLLECTION then
    if (depth =? 0)%nat then inl HID_PARSE_UnexpectedEndCollection
    else inr (Counts states (depth - 1) nested usages ids stored)
  else if is_field tag then
    match store (hd 0 states) tag data stored with
    | inl code => inl code
    | inr stored' => inr (Counts states depth nested usages ids stored')
    end
  else inr c.

Definition end_item (tag : Z) (c : counts) : counts :=
  if is_main tag
  then Counts (c_states c) (c_depth c) (c_nested c) 0 (c_ids c) (c_stored c) else c.

Fixpoint verdict (es : list entry) (c : counts) : Z :=
  match es with
  | [] => if truth (c_stored c) then HID_PARSE_Successful else HID_PARSE_NoUnfilteredReportItems
  | e :: es' =>
      match count_switch (e_tag e) (payload e) c with
      | inl code => code
      | inr c' => verdict es' (end_item (e_tag e) c')
      end
  end.

End Verdict.

(** ** The simulation relation *)

(** [n] collections are open when the innermost one is [path]. *)
Inductive chain (d : HID_ReportInfo_t) : option nat -> nat -> Prop :=
| chain_root : chain d None 0
| chain_in i n : chain d (Parent (path_at i d)) n -> chain d (Some i) (S n).

(** [n] collections have a parent, the ones after the root. *)
Definition nested_is (n : nat) (d : HID_ReportInfo_t) : Prop :=
  forall i, (1 <= i)%nat -> is_Some (Parent (path_at i d)) <-> (i <= n)%nat.

(** The counters apart from the usages, which a main item uses up before they are cleared. *)
Record counted (c : counts) (p : parser) : Prop := Counted {
  cn_states_len : length (c_states c) = S (CurrStateTable p);
  cn_states : forall i, (i <= CurrStateTable p)%nat ->
    c_states c !! (CurrStateTable p - i)%nat = Some (ReportCount (state_at i p));
  cn_depth : chain (ParserData p) (CurrCollectionPath p) (c_depth c);
  cn_nested : nested_is (c_nested c) (ParserData p);
  cn_ids : if UsingReportIDs (ParserData p)
    then c_ids c = Size_ReportID <$>
           take (Z.to_nat (TotalDeviceReports (ParserData p))) (ReportIDSizes (ParserData p))
    else c_ids c = [] /\ TotalDeviceReports (ParserData p) = 1;
  cn_stored : c_stored c = TotalReportItems (ParserData p) }.

Definition usages_counted (c : counts) (p : parser) : Prop := c_usages c = UsageListSize p.

Lemma nested_paths m n d : paths_ok m d -> nested_is n d -> n = m.
Proof.
  intros (_ & _ & _ & Hin & Hout & _) Hn. apply Nat.le_antisymm.
  - destruct n as [|n]; [lia|]. destruct (decide (S n <= m)%nat) as [|Hlt]; [done|].
    assert (is_Some (Parent (path_at (S n) d))) as [j Hj] by (apply Hn; lia).
    rewrite Hout in Hj by lia. done.
  - destruct m as [|m]; [lia|]. apply Hn; [lia|].
    destruct (Hin (S m)) as (j & Hj & _); [lia|]. by exists j.
Qed.

Lemma nested_ext n d d' :
  nested_is n d -> (forall i, Parent (path_at i d') = Parent (path_at i d)) -> nested_is n d'.
Proof. intros Hn He i Hi. rewrite He. by apply Hn. Qed.

Lemma chain_ext d d' path n :
  chain d path n -> (forall i, Parent (path_at i d') = Parent (path_at i d)) -> chain d' path n.
Proof.
  intros H He. induction H as [|i n H IH]; constructor. by rewrite He.
Qed.

(** A chain stays inside the collections in use, so opening another one does not affect it. *)
Lemma chain_new m d d' path n :
  paths_ok m d -> chain d path n -> (forall c, path = Some c -> (c <= m)%nat) ->
  (forall i, (i <= m)%nat -> Parent (path_at i d') = Parent (path_at i d)) -> chain d' path n.
Proof.
  intros (_ & _ & H0 & Hin & _) H Hle He. induction H as [|i n H IH]; constructor.
  assert (i <= m)%nat as Hi by by apply Hle. rewrite He by done. apply IH.
  intros c Hc. destruct i as [|i]; [congruence|].
  destruct (Hin (S i)) as (j & Hj & Hlt); [lia|]. rewrite Hc in Hj. injection Hj as ->. lia.
Qed.

Lemma chain_none d n : chain d None n -> n = 0%nat.
Proof. by inversion 1. Qed.

Lemma chain_some d i n :
  chain d (Some i) n -> exists k, n = S k /\ chain d (Parent (path_at i d)) k.
Proof. inversion 1; subst. eauto. Qed.

(** ** The cases of the switch *)

Lemma same_but_intro p p' :
  StateTable p' = StateTable p -> CurrStateTable p' = CurrStateTable p ->
  CurrCollectionPath p' = CurrCollectionPath p -> CurrReportIDInfo p' = CurrReportIDInfo p ->
  ParserData p' = ParserData p -> same_but_usages p p'.
Proof.
  intros. exists (UsageList p'), (UsageListSize p'), (UsageMinMax p').
  destruct p, p'; simpl in *; by subst.
Qed.

(** [next_usage] only changes the usage list and range. *)
Lemma next_usage_frame `{J : Indeterminate} u p :
  wp (next_usage u) (fun _ p' => same_but_usages p p') (fun _ _ => False) p.
Proof.
  unfold next_usage. wps. destruct (truth _); [|destruct (_ <=? _)]; wps;
    by apply same_but_intro.
Qed.

(** A report item as one pass of the loop makes it, with the usage [u]. *)
Definition new_item `{J : Indeterminate} (tag data u off : Z) (p : parser) : HID_ReportItem_t :=
  ReportItem off (item_type tag) (u16 data) (ReportID (curr_state p)) (CurrCollectionPath p)
    (set_Attr_Usage (Usage_ (Page (Attr_Usage (curr_attributes p))) u) (curr_attributes p))
    (fst (stale_value p)) (snd (stale_value p)).

(** The item is written behind the stored ones, and counted when [b] holds. *)
Definition keep_item (b : bool) (it : HID_ReportItem_t) (d : HID_ReportInfo_t) :
    HID_ReportInfo_t :=
  let d2 := set_ReportItems (<[Z.to_nat (TotalReportItems d) := it]> (ReportItems d)) d in
  if b then set_TotalReportItems (u8 (TotalReportItems d + 1)) d2 else d2.

(** One pass of the loop: the report grows, then the item is stored or the table is full. *)
Lemma main_item_run `{J : Indeterminate} filter tag data
    (Q : unit -> parser -> Prop) (E : Z -> parser -> Prop) p :
  (forall u pu, same_but_usages p pu ->
     let off := size_bits (item_type tag) (size_at (CurrReportIDInfo p) (ParserData p)) in
     let it := new_item tag data u off p in
     let d1 := grow (CurrReportIDInfo p) (item_type tag)
                 (u16 (off + BitSize (curr_attributes p))) (ParserData p) in
     (TotalReportItems (ParserData p) = HID_MAX_REPORTITEMS ->
        E HID_PARSE_InsufficientReportItems (set_ParserData d1 pu)) /\
     (TotalReportItems (ParserData p) <> HID_MAX_REPORTITEMS ->
        Q tt (set_ParserData
                (keep_item (negb (truth (data .& HID_IOF_CONSTANT)) && filter it) it d1) pu))) ->
  wp (main_item filter tag data) Q E p.
Proof.
  intros H. unfold main_item. wps. cbv zeta.
  eapply wp_mono; [apply next_usage_frame| |done].
  intros u pu Hpu. specialize (H u pu Hpu). cbv zeta in H. destruct H as [H1 H2].
  destruct Hpu as (l & n & mm & ->). wps.
  destruct (Z.eqb_spec (TotalReportItems (ParserData p)) HID_MAX_REPORTITEMS) as [Hf|Hf].
  - specialize (H1 Hf). apply Z.eqb_eq in Hf. cbn. rewrite Hf. exact H1.
  - specialize (H2 Hf). apply Z.eqb_neq in Hf. cbn. rewrite Hf. unfold keep_item in H2.
    unfold new_item in H2. cbn in H2. destruct (_ && _); exact H2.
Qed.

Lemma find_report_id_None id l k :
  find_report_id id l k = None <-> id ∉ Size_ReportID <$> l.
Proof.
  revert k. induction l as [|s l IH]; intros k; cbn [find_report_id].
  { split; [intros _ H; by apply not_elem_of_nil in H|done]. }
  rewrite fmap_cons, not_elem_of_cons.
  destruct (Z.eqb_spec (Size_ReportID s) id) as [Hs|Hs]; [split; [done|intros []; congruence]|].
  rewrite IH. split; [intros; split; [congruence|done]|tauto].
Qed.

Lemma names_insert i s l n :
  (i < n)%nat ->
  Size_ReportID <$> take n (<[i := s]> l) =
    <[i := Size_ReportID s]> (Size_ReportID <$> take n l).
Proof. intros Hi. rewrite take_insert_lt by done. apply list_fmap_insert. Qed.

(** A filter callback that decides by type and flags. *)
Definition by_flags (accept : Z -> Z -> bool) (it : HID_ReportItem_t) : bool :=
  accept (ItemType it) (ItemFlags it).

Section Simulation.
Context `{J : Indeterminate} (accept : Z -> Z -> bool).
Local Abbreviation filter := (by_flags accept).

(** The case for [tag] does what the machine does. *)
Definition simulates (tag data : Z) (op : P unit) : Prop :=
  forall c p, any_ok p -> counted c p -> usages_counted c p ->
  wp op
    (fun _ p' => exists c', count_switch accept tag data c = inr c' /\ counted c' p' /\
                   (is_main tag = false -> usages_counted c' p'))
    (fun code _ => count_switch accept tag data c = inl code) p.

Lemma counted_set_state c p f :
  counted c p -> (forall t, ReportCount (f t) = ReportCount t) ->
  counted c (set_StateTable (<[CurrStateTable p := f (curr_state p)]> (StateTable p)) p).
Proof.
  intros Hc Hf. destruct Hc. constructor; try done. cbn [set_StateTable CurrStateTable].
  intros i Hi. rewrite cn_states0 by done. f_equal. unfold state_at.
  cbn [set_StateTable StateTable]. destruct (decide (i = CurrStateTable p)) as [->|Hne].
  - destruct (decide (CurrStateTable p < length (StateTable p))%nat).
    + rewrite list_lookup_insert_eq by done. simpl. by rewrite Hf.
    + rewrite list_insert_ge by lia. done.
  - by rewrite list_lookup_insert_ne.
Qed.

(** A case that changes nothing the machine counts. *)
Lemma simulates_state tag data f :
  (forall c, count_switch accept tag data c = inr c) ->
  (forall t, ReportCount (f t) = ReportCount t) -> simulates tag data (set_state f).
Proof.
  intros Hs Hf c p _ Hc Hu. exists c. split; [done|]. split; [by apply counted_set_state|done].
Qed.

Lemma counted_usages c p l n mm :
  counted c p -> counted c (set_UsageList l (set_UsageListSize n (set_UsageMinMax mm p))).
Proof. intros []. by constructor. Qed.

Lemma simulates_minmax tag data f :
  (forall c, count_switch accept tag data c = inr c) ->
  simulates tag data (put (fun p => set_UsageMinMax (f p) p)).
Proof.
  intros Hs c p _ Hc Hu. exists c. split; [done|]. split; [|done].
  apply (counted_usages c p (UsageList p) (UsageListSize p) (f p) Hc).
Qed.

Lemma simulates_push data : simulates HID_RI_PUSH data item_push.
Proof.
  intros [st de ne us ids sto] p [m Hp] Hc Hu. unfold item_push. wps.
  change (count_switch accept HID_RI_PUSH data (Counts st de ne us ids sto)) with
    (if (length st =? HID_STATETABLE_STACK_DEPTH)%nat then inl HID_PARSE_HIDStackOverflow
     else inl stack_overwritten : Z + counts).
  destruct Hc. cbn [c_states] in *. rewrite cn_states_len0. unfold HID_STATETABLE_STACK_DEPTH.
  cbn [Nat.sub Nat.eqb]. by destruct (CurrStateTable p =? 1)%nat; wps.
Qed.

Lemma simulates_pop data : simulates HID_RI_POP data item_pop.
Proof.
  intros [st de ne us ids sto] p [m Hp] Hc Hu. unfold item_pop. wps.
  change (count_switch accept HID_RI_POP data (Counts st de ne us ids sto)) with
    (if (length st =? 1)%nat then inl HID_PARSE_HIDStackUnderflow
     else inr (Counts (tail st) de ne us ids sto) : Z + counts).
  destruct Hc. cbn [c_states c_depth c_nested c_ids c_stored] in *. rewrite cn_states_len0.
  cbn [Nat.eqb]. destruct (Nat.eqb_spec (CurrStateTable p) 0); wps; [done|].
  eexists. split; [done|]. split; [|done].
  destruct st as [|n0 st]; [done|].
  constructor; try done; cbn [c_states set_CurrStateTable CurrStateTable length tail] in *; [lia|].
  intros i Hi. change (state_at i (set_CurrStateTable (CurrStateTable p - 1) p)) with (state_at i p).
  rewrite <- cn_states0 by lia.
  by replace (CurrStateTable p - i)%nat with (S (CurrStateTable p - 1 - i)) by lia.
Qed.

Lemma simulates_report_count data :
  simulates HID_RI_REPORT_COUNT data (set_state (set_ReportCount (u8 data))).
Proof.
  intros [st de ne us ids sto] p [m Hp] Hc Hu.
  exists (Counts (u8 data :: tail st) de ne us ids sto).
  split; [done|]. split; [|done]. destruct Hc. cbn [c_states c_depth c_nested c_ids c_stored] in *.
  destruct st as [|n0 st]; [done|].
  constructor; try done. cbn [c_states set_StateTable CurrStateTable tail].
  intros i Hi. unfold state_at. cbn [set_StateTable StateTable].
  destruct (decide (i = CurrStateTable p)) as [->|Hne].
  - rewrite list_lookup_insert_eq.
    + by rewrite Nat.sub_diag.
    + rewrite (ok_states_len m p Hp). apply (ok_curr m p Hp).
  - rewrite list_lookup_insert_ne by done. specialize (cn_states0 i Hi).
    destruct (CurrStateTable p - i)%nat eqn:E; [lia|]. exact cn_states0.
Qed.

Lemma simulates_usage data : simulates HID_RI_USAGE data (item_usage data).
Proof.
  intros [st de ne us ids sto] p [m Hp] Hc Hu. unfold item_usage. wps.
  change (count_switch accept HID_RI_USAGE data (Counts st de ne us ids sto)) with
    (if us =? HID_USAGE_STACK_DEPTH then inl HID_PARSE_UsageListOverflow
     else inr (Counts st de ne (us + 1) ids sto) : Z + counts).
  unfold usages_counted in *. cbn [c_usages] in Hu. subst us.
  pose proof (ok_usages_size m p Hp). unfold HID_USAGE_STACK_DEPTH in *.
  destruct (Z.eqb_spec (UsageListSize p) 8); wps; [done|].
  eexists. split; [done|]. split; [by destruct Hc|]. intros _. cbn.
  rewrite wrap_id; [done|unfold is_u; lia].
Qed.

Lemma simulates_end_collection data :
  simulates HID_RI_END_COLLECTION data item_end_collection.
Proof.
  intros [st de ne us ids sto] p [m Hp] Hc Hu. unfold item_end_collection. wps.
  change (count_switch accept HID_RI_END_COLLECTION data (Counts st de ne us ids sto)) with
    (if (de =? 0)%nat then inl HID_PARSE_UnexpectedEndCollection
     else inr (Counts st (de - 1) ne us ids sto) : Z + counts).
  destruct Hc. cbn [c_states c_depth c_nested c_ids c_stored] in *.
  destruct (CurrCollectionPath p) as [i|]; wps.
  - apply chain_some in cn_depth0 as (k & -> & Hk). cbn [Nat.eqb]. eexists. split; [done|].
    split; [|by intros]. constructor; try done. cbn. by rewrite Nat.sub_0_r.
  - by apply chain_none in cn_depth0 as ->.
Qed.

Lemma fill_path_frame data i p :
  wp (fill_path data i) (fun _ p' => exists d',
      same_but_usages (set_ParserData d' p) p' /\
      d' = set_CollectionPaths (CollectionPaths d') (ParserData p) /\
      forall j, Parent (path_at j d') = Parent (path_at j (ParserData p)))
    (fun _ _ => False) p.
Proof.
  unfold fill_path. wps. eapply wp_mono; [apply next_usage_frame| |done].
  intros u p' (l & n & mm & ->). wps. cbv zeta.
  match goal with |- exists d', same_but_usages _ (set_ParserData ?d _) /\ _ => exists d end.
  split; [by exists l, n, mm|]. split; [done|].
  assert (forall d ty us j, Parent (path_at j (set_path i (CollectionPath_ ty us
    (Parent (path_at i d))) d)) = Parent (path_at j d)) as Hpar.
  { intros d ty us j. unfold path_at at 1. cbn [set_path set_CollectionPaths CollectionPaths].
    destruct (decide (j = i)) as [->|]; [|by rewrite list_lookup_insert_ne].
    destruct (decide (i < length (CollectionPaths d))%nat).
    - by rewrite list_lookup_insert_eq.
    - rewrite list_insert_ge by lia. done. }
  intros j. rewrite Hpar. cbn [set_UsageList set_UsageListSize set_UsageMinMax set_ParserData
    ParserData]. by rewrite Hpar.
Qed.

(** The counters of a parser in which only the collections changed, and not their parents. *)
Lemma counted_paths c p p' d' :
  counted c p -> same_but_usages (set_ParserData d' p) p' ->
  d' = set_CollectionPaths (CollectionPaths d') (ParserData p) ->
  (forall j, Parent (path_at j d') = Parent (path_at j (ParserData p))) -> counted c p'.
Proof.
  intros [] (l & n & mm & ->) Hd Hpar. apply counted_usages.
  constructor; try done; cbn [set_ParserData ParserData CurrCollectionPath].
  - by eapply chain_ext.
  - by eapply nested_ext.
  - rewrite Hd. done.
  - rewrite Hd. done.
Qed.

Lemma simulates_fill tag data i c c' p :
  count_switch accept tag data c = inr c' -> is_main tag = true -> counted c' p ->
  wp (fill_path data i)
    (fun _ p' => exists c', count_switch accept tag data c = inr c' /\ counted c' p' /\
                   (is_main tag = false -> usages_counted c' p'))
    (fun code _ => count_switch accept tag data c = inl code) p.
Proof.
  intros Hs Hm Hc. eapply wp_mono; [apply fill_path_frame| |done].
  intros _ p' (d' & H1 & H2 & H3). exists c'. split; [done|].
  split; [by eapply counted_paths|by rewrite Hm].
Qed.

Lemma simulates_collection data : simulates HID_RI_COLLECTION data (item_collection data).
Proof.
  intros [st de ne us ids sto] p [m Hp] Hc Hu. unfold item_collection. wps.
  assert (count_switch accept HID_RI_COLLECTION data (Counts st de ne us ids sto) =
    if (de =? 0)%nat then inr (Counts st 1 ne us ids sto)
    else if (ne =? HID_MAX_COLLECTIONS - 1)%nat then inl HID_PARSE_InsufficientCollectionPaths
    else inr (Counts st (S de) (S ne) us ids sto)) as Hs by reflexivity.
  pose proof Hc as []. cbn [c_states c_depth c_nested c_ids c_stored] in *.
  pose proof (ok_paths m _ (ok_info m p Hp)) as Hpaths.
  assert (ne = m) as -> by by eapply nested_paths.
  destruct (CurrCollectionPath p) as [parent|] eqn:Ec; wps.
  - apply chain_some in cn_depth0 as Hk. destruct Hk as (k & -> & _). cbn [Nat.eqb] in Hs.
    rewrite (free_path_spec m) by (try done; unfold HID_MAX_COLLECTIONS; lia).
    destruct (Nat.eqb_spec m (HID_MAX_COLLECTIONS - 1)) as [Hf|Hf]; wps; [done|].
    eapply simulates_fill; [exact Hs|done|].
    pose proof (proj1 (proj2 Hpaths)) as Hm. pose proof (ok_path m p Hp) as Hle.
    set (d' := set_path _ _ _).
    assert (forall j, path_at j d' = if decide (j = S m) then CollectionPath_
      (Path_Type (path_at (S m) (ParserData p))) (Path_Usage (path_at (S m) (ParserData p)))
      (Some parent) else path_at j (ParserData p)) as Hat.
    { intros j. apply path_at_set; [apply Hpaths|lia]. }
    constructor; try done; cbn [set_ParserData ParserData set_CurrCollectionPath
      CurrCollectionPath c_depth c_nested].
    + constructor. rewrite Hat. rewrite decide_True by done. cbn [Parent].
      eapply chain_new; [done|done| |].
      * intros c [= <-]. by apply Hle.
      * intros i Hi. rewrite Hat, decide_False by lia. done.
    + intros i Hi. rewrite Hat. case_decide as E.
      * subst i. cbn [Parent]. split; [intros; lia|by exists parent].
      * rewrite (cn_nested0 i Hi). lia.
  - apply chain_none in cn_depth0 as ->. cbn [Nat.eqb] in Hs.
    eapply simulates_fill; [exact Hs|done|].
    constructor; try done. cbn. constructor. rewrite (proj1 (proj2 (proj2 Hpaths))). constructor.
Qed.

(** *** Report IDs *)

Lemma counted_ids c p p' ids' :
  counted c p ->
  StateTable p' = StateTable p -> CurrStateTable p' = CurrStateTable p ->
  CurrCollectionPath p' = CurrCollectionPath p ->
  CollectionPaths (ParserData p') = CollectionPaths (ParserData p) ->
  TotalReportItems (ParserData p') = TotalReportItems (ParserData p) ->
  UsingReportIDs (ParserData p') = true ->
  ids' = Size_ReportID <$>
    take (Z.to_nat (TotalDeviceReports (ParserData p'))) (ReportIDSizes (ParserData p')) ->
  counted (Counts (c_states c) (c_depth c) (c_nested c) (c_usages c) ids' (c_stored c)) p'.
Proof.
  intros [] H1 H2 H3 H4 H5 H6 H7.
  assert (forall j, path_at j (ParserData p') = path_at j (ParserData p)) as Hat
    by (intros; unfold path_at; by rewrite H4).
  constructor; cbn [c_states c_depth c_nested c_ids c_stored].
  - by rewrite H2.
  - rewrite H2. unfold state_at. by rewrite H1.
  - rewrite H3. eapply chain_ext; [done|]. intros. by rewrite Hat.
  - eapply nested_ext; [done|]. intros. by rewrite Hat.
  - by rewrite H6.
  - by rewrite H5.
Qed.

(** The report with the ID [id] becomes the current one: the first, a known one, a new one. *)
Definition named (i : nat) (id : Z) (d : HID_ReportInfo_t) (p : parser) : parser :=
  set_ParserData (set_size i (SizeInfo id (ReportSizeBits (size_at i (set_UsingReportIDs true d))))
    (set_UsingReportIDs true d)) (set_CurrReportIDInfo i p).

Lemma named_first c p i id :
  counted c p -> c_ids c = [] -> TotalDeviceReports (ParserData p) = 1 -> i = 0%nat ->
  ReportIDSizes (ParserData p) <> [] ->
  counted (Counts (c_states c) (c_depth c) (c_nested c) (c_usages c) [id] (c_stored c))
    (named i id (ParserData p) p).
Proof.
  intros Hc Hids Ht -> Hne. apply (counted_ids c p); try done. cbn. rewrite Ht.
  by destruct (ReportIDSizes (ParserData p)).
Qed.

Lemma named_known c p i id :
  counted c p -> UsingReportIDs (ParserData p) = true -> c_ids c !! i = Some id ->
  counted c (named i id (ParserData p) p).
Proof.
  intros Hc Hu Hi. pose proof (cn_ids c p Hc) as Hids. rewrite Hu in Hids.
  pose proof (counted_ids c p (named i id (ParserData p) p) (c_ids c) Hc) as Hfin.
  destruct c. apply Hfin; try done. cbn in Hids, Hi |- *.
  assert (i < Z.to_nat (TotalDeviceReports (ParserData p)))%nat as Hlt.
  { apply lookup_lt_Some in Hi. rewrite Hids, length_fmap, length_take in Hi. lia. }
  rewrite names_insert, <- Hids by done. by rewrite list_insert_id.
Qed.

Lemma named_new c p id (d := ParserData p) (n := Z.to_nat (TotalDeviceReports d)) :
  counted c p -> UsingReportIDs d = true -> 0 <= TotalDeviceReports d < 255 ->
  (n < length (ReportIDSizes d))%nat ->
  counted (Counts (c_states c) (c_depth c) (c_nested c) (c_usages c) (c_ids c ++ [id]) (c_stored c))
    (named n id (set_size n zero_size (set_TotalDeviceReports (u8 (TotalDeviceReports d + 1)) d)) p).
Proof.
  intros Hc Hu Ht Hn. pose proof (cn_ids c p Hc) as Hids. fold d in Hids. rewrite Hu in Hids.
  apply (counted_ids c p); try done. cbn. fold d.
  replace (u8 (TotalDeviceReports d + 1)) with (Z.of_nat (S n))
    by (rewrite wrap_id; unfold is_u; lia). rewrite Nat2Z.id.
  erewrite take_S_r by (rewrite list_lookup_insert_eq by (rewrite length_insert; lia); done).
  rewrite take_insert_ge, take_insert_ge by lia. rewrite fmap_app. by rewrite Hids.
Qed.

(** The switch of [REPORT_ID] once the state has its new ID. *)
Lemma report_id_counted data c p m :
  parser_ok m p -> counted c p -> usages_counted c p -> ReportID (curr_state p) = u8 data ->
  wp (pbind (get (fun p => ReportID (curr_state p))) (fun id => pbind (get ParserData) (fun d =>
        pbind (select_report id d) (fun _ => name_report id))))
    (fun _ p' => exists c', count_switch accept HID_RI_REPORT_ID data c = inr c' /\
       counted c' p' /\ (is_main HID_RI_REPORT_ID = false -> usages_counted c' p'))
    (fun code _ => count_switch accept HID_RI_REPORT_ID data c = inl code) p.
Proof.
  intros Hp Hc Hu Hid. wps. rewrite Hid. unfold select_report, name_report.
  pose proof (ok_info m p Hp) as []. pose proof (ok_report m p Hp) as Hr.
  unfold HID_MAX_REPORT_IDS in *.
  assert (count_switch accept HID_RI_REPORT_ID data c =
    if bool_decide (u8 data ∈ c_ids c) then inr c
    else if (length (c_ids c) =? 10)%nat then inl HID_PARSE_InsufficientReportIDItems
    else inr (Counts (c_states c) (c_depth c) (c_nested c) (c_usages c) (c_ids c ++ [u8 data])
                (c_stored c))) as Hs by by destruct c.
  pose proof (cn_ids c p Hc) as Hids.
  destruct (UsingReportIDs (ParserData p)) eqn:Hus.
  2: { destruct Hids as [Hids Htot]. rewrite Hids in Hs.
       rewrite bool_decide_false in Hs by apply not_elem_of_nil. wps.
       eexists. split; [exact Hs|]. split; [|done].
       apply (named_first c p (CurrReportIDInfo p)); try done; [lia|].
       intros E. rewrite E in ok_sizes_len. done. }
  assert (length (c_ids c) = Z.to_nat (TotalDeviceReports (ParserData p))) as Hlen.
  { rewrite Hids, length_fmap, length_take, ok_sizes_len. lia. }
  destruct (find_report_id _ _ _) as [i|] eqn:Ei; wps.
  - apply find_report_id_spec in Ei as (Hi & s & Hsi & Hid'). rewrite Nat.sub_0_r in Hsi.
    assert (c_ids c !! i = Some (u8 data)) as Hci
      by (rewrite Hids, list_lookup_fmap, Hsi; simpl; congruence).
    rewrite bool_decide_true in Hs by (by eapply list_elem_of_lookup_2).
    exists c. split; [done|]. split; [|done]. by apply (named_known c p i).
  - apply find_report_id_None in Ei. rewrite <- Hids in Ei.
    rewrite bool_decide_false in Hs by done.
    destruct (Z.eqb_spec (TotalDeviceReports (ParserData p)) 10) as [Hf|Hf]; wps.
    { by rewrite Hlen, Hf in Hs. }
    destruct (Nat.eqb_spec (length (c_ids c)) 10); [lia|].
    eexists. split; [exact Hs|]. split; [|done]. apply (named_new c p); try done; lia.
Qed.

Lemma simulates_report_id data : simulates HID_RI_REPORT_ID data (item_report_id data).
Proof.
  intros c p [m Hp] Hc Hu. apply wp_bind, (report_id_counted data c _ m); [..|done|].
  - apply set_state_ok; [done|]. intros t (Ha & Hn & _). split; [done|]. split; [done|].
    by apply wrap_is_u.
  - by apply counted_set_state.
  - unfold curr_state at 1, state_at. cbn [set_StateTable StateTable CurrStateTable].
    rewrite list_lookup_insert_eq; [done|]. rewrite (ok_states_len m p Hp). apply (ok_curr m p Hp).
Qed.

(** *** Input, output and feature items *)

Definition with_stored (c : counts) (n : Z) : counts :=
  Counts (c_states c) (c_depth c) (c_nested c) (c_usages c) (c_ids c) n.

Lemma store_add n tag data stored :
  0 <= n -> stored <= HID_MAX_REPORTITEMS ->
  store accept (1 + n) tag data stored =
    match store accept 1 tag data stored with
    | inl code => inl code
    | inr stored' => store accept n tag data stored'
    end.
Proof.
  intros Hn Hs. unfold store, HID_MAX_REPORTITEMS in *. destruct (_ && _).
  - destruct (Z.leb_spec (stored + 1) 20), (Z.leb_spec (stored + (1 + n)) 20);
      try (exfalso; lia); try done.
    + destruct (Z.leb_spec (stored + 1 + n) 20); [f_equal; lia|lia].
    + destruct (Z.leb_spec (stored + 1 + n) 20); [lia|done].
  - change (0 <? 1) with true. destruct (Z.ltb_spec 0 (1 + n)); [|lia]. simpl.
    destruct (Z.eqb_spec stored 20) as [->|Hne]; [done|].
    apply Z.eqb_neq in Hne as ->. by rewrite andb_false_r.
Qed.

Lemma store_range n tag data stored stored' :
  store accept n tag data stored = inr stored' -> stored <= HID_MAX_REPORTITEMS ->
  stored' <= HID_MAX_REPORTITEMS.
Proof.
  unfold store. destruct (_ && _); [|destruct (_ && _); [done|by intros [= <-]]].
  destruct (Z.leb_spec (stored + n) HID_MAX_REPORTITEMS); [by intros [= <-]|done].
Qed.

(** The names of the reports are not touched when one of them grows. *)
Lemma grow_names i ty total d :
  Size_ReportID <$> ReportIDSizes (grow i ty total d) = Size_ReportID <$> ReportIDSizes d.
Proof.
  unfold grow. cbn [set_LargestReportSizeBits set_size set_ReportIDSizes ReportIDSizes].
  rewrite list_fmap_insert. cbn [Size_ReportID]. unfold size_at.
  destruct (ReportIDSizes d !! i) as [s|] eqn:E; simpl.
  - apply list_insert_id. by rewrite list_lookup_fmap, E.
  - apply lookup_ge_None in E. apply list_insert_ge. by rewrite length_fmap.
Qed.

Lemma counted_items c p p' :
  counted c p ->
  StateTable p' = StateTable p -> CurrStateTable p' = CurrStateTable p ->
  CurrCollectionPath p' = CurrCollectionPath p ->
  CollectionPaths (ParserData p') = CollectionPaths (ParserData p) ->
  UsingReportIDs (ParserData p') = UsingReportIDs (ParserData p) ->
  TotalDeviceReports (ParserData p') = TotalDeviceReports (ParserData p) ->
  Size_ReportID <$> ReportIDSizes (ParserData p') = Size_ReportID <$> ReportIDSizes (ParserData p) ->
  counted (with_stored c (TotalReportItems (ParserData p'))) p'.
Proof.
  intros [] H1 H2 H3 H4 H5 H6 H7.
  assert (forall j, path_at j (ParserData p') = path_at j (ParserData p)) as Hat
    by (intros; unfold path_at; by rewrite H4).
  constructor; cbn [with_stored c_states c_depth c_nested c_ids c_stored].
  - by rewrite H2.
  - rewrite H2. unfold state_at. by rewrite H1.
  - rewrite H3. eapply chain_ext; [done|]. intros. by rewrite Hat.
  - eapply nested_ext; [done|]. intros. by rewrite Hat.
  - rewrite H5, H6. destruct (UsingReportIDs (ParserData p)); [|done].
    by rewrite fmap_take, H7, <- fmap_take.
  - done.
Qed.

Lemma main_item_counted tag data c p :
  any_ok p -> counted c p ->
  wp (main_item filter tag data)
    (fun _ p' => exists n, store accept 1 tag data (c_stored c) = inr n /\
                   counted (with_stored c n) p')
    (fun code _ => store accept 1 tag data (c_stored c) = inl code) p.
Proof.
  intros [m Hp] Hc. pose proof (ok_total m _ (ok_info m p Hp)) as Ht.
  apply main_item_run. intros u pu Hpu off it d1. rewrite (cn_stored c p Hc).
  unfold store. change (0 <? 1) with true. cbn [andb].
  change (filter it) with (accept (item_type tag) (u16 data)). unfold HID_MAX_REPORTITEMS in *.
  assert (forall k it', counted (with_stored c k) (set_ParserData (set_TotalReportItems k
    (set_ReportItems it' d1)) pu)) as Hk.
  { intros k it'. destruct Hpu as (l & n & mm & ->).
    match goal with |- counted _ ?q => apply (counted_items c p q) end; try done.
    apply grow_names. }
  split; intros Hf.
  { destruct (_ && _); [|by rewrite Hf].
    by destruct (Z.leb_spec (TotalReportItems (ParserData p) + 1) 20); [lia|]. }
  unfold keep_item. destruct (_ && _).
  - destruct (Z.leb_spec (TotalReportItems (ParserData p) + 1) 20); [|lia].
    eexists. split; [done|]. rewrite wrap_id; [apply Hk|].
    change (TotalReportItems d1) with (TotalReportItems (ParserData p)). unfold is_u. lia.
  - destruct (Z.eqb_spec (TotalReportItems (ParserData p)) 20); [done|].
    eexists. split; [done|]. apply Hk.
Qed.

Lemma main_items_counted n tag data c p :
  any_ok p -> counted c p ->
  wp (main_items filter n tag data)
    (fun _ p' => exists k, store accept (Z.of_nat n) tag data (c_stored c) = inr k /\
                   counted (with_stored c k) p')
    (fun code _ => store accept (Z.of_nat n) tag data (c_stored c) = inl code) p.
Proof.
  revert c p. induction n as [|n IH]; intros c p Hp Hc; cbn [main_items].
  { destruct Hp as [m Hp]. pose proof (ok_total m _ (ok_info m p Hp)) as Ht.
    exists (c_stored c). split; [|by destruct c].
    unfold store. cbn [Z.of_nat Z.ltb Z.compare andb]. rewrite (cn_stored c p Hc), Z.add_0_r.
    destruct (_ && _); [|done].
    by destruct (Z.leb_spec (TotalReportItems (ParserData p)) HID_MAX_REPORTITEMS); [|lia]. }
  assert (c_stored c <= HID_MAX_REPORTITEMS) as Hle.
  { destruct Hp as [m Hp]. rewrite (cn_stored c p Hc). apply (ok_total m _ (ok_info m p Hp)). }
  replace (Z.of_nat (S n)) with (1 + Z.of_nat n) by lia. rewrite store_add by lia.
  apply wp_bind. pose proof (keeps_main_item filter tag data p Hp) as Hk.
  pose proof (main_item_counted tag data c p Hp Hc) as Hm. unfold wp in Hk, Hm |- *.
  destruct (main_item filter tag data p) as [[] p'|code p']; [|by rewrite Hm].
  destruct Hm as (k & -> & Hc'). exact (IH _ p' Hk Hc').
Qed.

Lemma simulates_field tag data :
  is_main tag = true -> is_field tag = true ->
  (forall c, count_switch accept tag data c =
     match store accept (hd 0 (c_states c)) tag data (c_stored c) with
     | inl code => inl code
     | inr n => inr (with_stored c n)
     end) ->
  simulates tag data (pbind (get (fun p => ReportCount (curr_state p)))
                        (fun n => main_items filter (Z.to_nat n) tag data)).
Proof.
  intros Hm _ Hs c p Hp Hc Hu. wps. rewrite Hs.
  assert (hd 0 (c_states c) = ReportCount (curr_state p)) as Hhd.
  { pose proof (cn_states c p Hc (CurrStateTable p) (le_n _)) as H. rewrite Nat.sub_diag in H.
    destruct (c_states c); [done|]. by injection H. }
  assert (0 <= ReportCount (curr_state p)) as H0.
  { destruct Hp as [m Hp]. apply (state_at_ok m p Hp). }
  pose proof (main_items_counted (Z.to_nat (ReportCount (curr_state p))) tag data c p Hp Hc) as Hw.
  rewrite Z2Nat.id in Hw by done. rewrite Hhd. eapply wp_mono; [exact Hw|..]; cbv beta.
  - intros _ p' (k & -> & Hk). exists (with_stored c k). rewrite Hm. by split.
  - by intros code _ ->.
Qed.

(** *** The switch *)

Lemma simulates_page item data :
  simulates HID_RI_USAGE_PAGE data (item_usage_page item data).
Proof.
  intros c p _ Hc Hu. unfold item_usage_page.
  destruct (_ =? _); exists c; (split; [by destruct c|]; split; [|done]).
  - set (p1 := set_StateTable (<[CurrStateTable p := set_Attributes (set_Attr_Usage
      (Usage_ (u16 (data .>> 16)) (Usage (Attr_Usage (Attributes (curr_state p)))))
      (Attributes (curr_state p))) (curr_state p)]> (StateTable p)) p).
    apply (counted_set_state c p1); [|done]. apply (counted_set_state c p (fun t => set_Attributes
      (set_Attr_Usage (Usage_ (u16 (data .>> 16)) (Usage (Attr_Usage (Attributes t))))
      (Attributes t)) t)); done.
  - by apply counted_set_state.
Qed.

Lemma simulates_other tag data :
  (forall c, count_switch accept tag data c = inr c) -> simulates tag data (pret tt).
Proof. intros Hs c p _ Hc Hu. exists c. by rewrite Hs. Qed.

Lemma switch_counted item data :
  simulates (item .& (HID_RI_TYPE_MASK .| HID_RI_TAG_MASK)) data (switch_item filter item data).
Proof.
  unfold switch_item. generalize (item .& (HID_RI_TYPE_MASK .| HID_RI_TAG_MASK)). intros tag.
  repeat match goal with
  | |- simulates _ _ (if tag =? ?t then _ else _) => destruct (Z.eqb_spec tag t) as [->|?]
  end;
  try first [ apply simulates_push | apply simulates_pop | apply simulates_page
            | apply simulates_report_id | apply simulates_usage | apply simulates_collection
            | apply simulates_end_collection | apply simulates_report_count
            | apply simulates_state; [by intros []|done]
            | apply simulates_minmax; by intros [] ].
  destruct (is_field tag) eqn:Hf; unfold is_field in Hf; rewrite Hf.
  - apply orb_true_iff in Hf as [[Hf|Hf]%orb_true_iff|Hf]; apply Z.eqb_eq in Hf as ->;
      (apply simulates_field; [done|done|by intros []]).
  - apply simulates_other. intros []. unfold count_switch, is_field. rewrite Hf.
    repeat match goal with |- context [tag =? ?t] => destruct (Z.eqb_spec tag t); [done|] end.
    done.
Qed.

Lemma process_counted e c p :
  tag_ok (e_tag e) -> any_ok p -> counted c p -> usages_counted c p ->
  wp (process_item filter (prefix e) (payload e))
    (fun _ p' => exists c', count_switch accept (e_tag e) (payload e) c = inr c' /\
       counted (end_item (e_tag e) c') p' /\ usages_counted (end_item (e_tag e) c') p')
    (fun code _ => count_switch accept (e_tag e) (payload e) c = inl code) p.
Proof.
  intros Ht Hp Hc Hu. apply wp_bind.
  pose proof (switch_counted (prefix e) (payload e) c p Hp Hc Hu) as Hw.
  rewrite prefix_tag in Hw by done. eapply wp_mono; [exact Hw| |done].
  cbv beta. intros _ p' (c' & Hs & Hc' & Hu'). unfold reset_locals.
  rewrite prefix_type by done. fold (is_main (e_tag e)). unfold end_item.
  destruct (is_main (e_tag e)); wps; exists c'; (split; [exact Hs|]).
  - split; [|done]. by destruct Hc'.
  - split; [done|by apply Hu'].
Qed.

(** The payload of an item is a 32-bit number. *)
Lemma payload_u32 e : is_u32 (payload e).
Proof.
  unfold payload. apply (is_u_mono (8 * data_len (e_bits e))).
  - by destruct (e_bits e).
  - apply wrap_is_u. by destruct (e_bits e).
Qed.

Lemma run_verdict es c p :
  Forall (fun e => tag_ok (e_tag e)) es -> any_ok p -> counted c p -> usages_counted c p ->
  fst (run_entries filter es p) = verdict accept es c.
Proof.
  intros Hes. revert c p. induction Hes as [|e es He Hes IH]; intros c p Hp Hc Hu;
    cbn [run_entries verdict].
  { cbn [fst]. unfold parse_end. by rewrite (cn_stored c p Hc). }
  pose proof (process_counted e c p He Hp Hc Hu) as Hw.
  pose proof (keeps_process filter (prefix e) (payload e) (payload_u32 e) p Hp) as Hk.
  unfold wp in Hw, Hk. destruct (process_item filter (prefix e) (payload e) p) as [[] p'|code p'].
  - destruct Hw as (c' & -> & Hc' & Hu'). by apply IH.
  - by rewrite Hw.
Qed.

Lemma initial_counted : counted initial_counts initial_parser.
Proof.
  constructor; try done.
  - intros i Hi. cbn in Hi. by assert (i = 0)%nat as -> by lia.
  - constructor.
  - intros i Hi. unfold path_at. cbn [initial_parser set_TotalDeviceReports zero_info ParserData
      CollectionPaths]. rewrite default_replicate. cbn. split; [by intros []|lia].
Qed.

(** A descriptor that does not save the state, the items of which have proper tags. *)
Definition well_written (es : list entry) : Prop :=
  Forall (fun e => tag_ok (e_tag e) /\ e_tag e <> HID_RI_PUSH) es.

Lemma well_written_tags es : well_written es -> Forall (fun e => tag_ok (e_tag e)) es.
Proof. apply Forall_impl. by intros e []. Qed.

(** Without a [PUSH] the outcome is one of the function's results. *)
Lemma verdict_defined es c : well_written es -> 0 <= verdict accept es c.
Proof.
  intros H. revert c. induction H as [|e es [_ He] _ IH]; intros c; cbn [verdict].
  { by destruct (truth _). }
  destruct (count_switch accept (e_tag e) (payload e) c) as [code|c'] eqn:E; [|apply IH].
  destruct c as [st de ne us ids sto]. unfold count_switch, store in E.
  destruct (Z.eqb_spec (e_tag e) HID_RI_PUSH); [done|].
  repeat case_match; simplify_eq; done.
Qed.


End Simulation.

(** C17: The structure the parser fills is well typed.  Whatever bytes it is given, when the parser
    returns without having reached a [PUSH] (whose copy overwrites the stack), every number is in
    the range of its C type, counters and pointers stay inside their arrays, the report items point
    at collections in use, and the parent of a collection comes before it, so every chain of
    parents ends; and on every descriptor written with the item macros, without [PUSH], it does
    return. *)
Theorem parsed_info_typed `{J : Indeterminate} filter Report :
  (forall i, is_u8 (Report i)) ->
  (forall fuel size code p,
     USB_ProcessHIDReport filter fuel Report size = Some (code, p) -> code <> stack_overwritten ->
     exists m, info_ok m (ParserData p)) /\
  (forall es, well_written es -> holds_at Report 0 (descriptor es) ->
     Z.of_nat (length (descriptor es)) < 2 ^ 16 ->
     exists code p m,
       USB_ProcessHIDReport filter (S (length es)) Report (Z.of_nat (length (descriptor es)))
         = Some (code, p) /\ info_ok m (ParserData p)).
Proof.
  intros HR. assert (forall fuel size code p, USB_ProcessHIDReport filter fuel Report size = Some (code, p) ->
    exists m, info_ok m (ParserData p)) as Hok.
  { intros fuel size code p E.
    destruct (parse_items_ok filter fuel Report 0 size initial_parser code p HR) as [m Hp];
      [exists 0%nat; apply initial_ok|exact E|]. exists m. apply (ok_info m p Hp). }
  split; [intros fuel size code p E _; by eapply Hok|]. intros es Hw Hd Hl.
  destruct (run_entries filter es initial_parser) as [code p] eqn:E.
  assert (USB_ProcessHIDReport filter (S (length es)) Report (Z.of_nat (length (descriptor es)))
    = Some (code, p)) as Hrun.
  { rewrite <- E. unfold USB_ProcessHIDReport.
    apply parse_descriptor; [by apply well_written_tags|exact Hd|reflexivity|exact Hl|apply Nat.lt_succ_diag_r]. }
  destruct (Hok _ _ _ _ Hrun) as [m Hm]. eauto 6.
Qed.

(** ** Witnesses *)

Definition e8 (tag data : Z) : entry := Entry tag Bits8 data.

(** [n] one-bit inputs with the flags [flags]. *)
Definition bits (n flags : Z) : list entry :=
  [e8 HID_RI_REPORT_COUNT n; e8 HID_RI_REPORT_SIZE 1; e8 HID_RI_INPUT flags].

(** Twenty stored items fill the table; [pad] adds three bits of constant padding. *)
Definition keys (pad : bool) : list entry :=
  [Entry HID_RI_USAGE_PAGE Bits16 0x0007; e8 HID_RI_USAGE 6; e8 HID_RI_COLLECTION 1] ++
  bits 20 2 ++ (if pad then bits 3 1 else []) ++ [Entry HID_RI_END_COLLECTION Bits0 0].

Lemma tags_ok es :
  forallb (fun e => (0 <=? e_tag e) && (e_tag e <? 256) &&
                    (e_tag e .& (HID_RI_TYPE_MASK .| HID_RI_TAG_MASK) =? e_tag e)) es = true ->
  Forall (fun e => tag_ok (e_tag e)) es.
Proof.
  induction es as [|e es IH]; simpl; [constructor|].
  intros [[[H1 H2]%andb_true_iff H3]%andb_true_iff Hes]%andb_true_iff.
  constructor; [|by apply IH]. split; [split; lia|by apply Z.eqb_eq].
Qed.

Lemma written_ok es :
  forallb (fun e => (0 <=? e_tag e) && (e_tag e <? 256) && negb (e_tag e =? HID_RI_PUSH) &&
                    (e_tag e .& (HID_RI_TYPE_MASK .| HID_RI_TAG_MASK) =? e_tag e)) es = true ->
  well_written es.
Proof.
  induction es as [|e es IH]; simpl; [constructor|].
  intros [[[[H1 H2]%andb_true_iff Hp]%andb_true_iff H3]%andb_true_iff Hes]%andb_true_iff.
  constructor; [|by apply IH]. split; [split; [split; lia|by apply Z.eqb_eq]|].
  by apply negb_true_iff, Z.eqb_neq in Hp.
Qed.

Lemma in_memory_holds bs : holds_at (in_memory bs) 0 bs.
Proof. intros i b Hi. unfold in_memory. rewrite Z.add_0_l, Nat2Z.id, Hi. done. Qed.


(** A mouse: three buttons, five bits of padding, two axes. *)
Definition mouse : list Z :=
  [0x05; 0x01; 0x09; 0x02; 0xA1; 0x01; 0x09; 0x01; 0xA1; 0x00; 0x05; 0x09; 0x19; 0x01; 0x29; 0x03;
   0x15; 0x00; 0x25; 0x01; 0x95; 0x03; 0x75; 0x01; 0x81; 0x02; 0x95; 0x01; 0x75; 0x05; 0x81; 0x01;
   0x05; 0x01; 0x09; 0x30; 0x09; 0x31; 0x15; 0x81; 0x25; 0x7F; 0x75; 0x08; 0x95; 0x02; 0x81; 0x06;
   0xC0; 0xC0].

Definition mouse_run : option (Z * parser) :=
  USB_ProcessHIDReport (J := noise) (fun _ => true) 100 (in_memory mouse) 50.

Lemma parsed_info_typed_witness :
  exists p m, mouse_run = Some (HID_PARSE_Successful, p) /\ info_ok m (ParserData p) /\
    TotalReportItems (ParserData p) = 5.
Proof.
  assert (Forall is_u8 mouse) as Hb by (apply bytes_u8; reflexivity).
  unfold mouse_run. set (r := USB_ProcessHIDReport _ _ _ _).
  assert (match r with Some (c, p) => (c =? 0) && (TotalReportItems (ParserData p) =? 5)
          | None => false end = true) as Hr by (vm_compute; reflexivity).
  destruct r as [[code p]|] eqn:E; [|discriminate Hr]. subst r.
  apply andb_true_iff in Hr as [Hc Ht].
  destruct (parsed_info_typed (J := noise) (fun _ => true) (in_memory mouse)) as [Hty _].
  - intros i. by apply in_memory_u8.
  - apply Z.eqb_eq in Hc as ->.
    destruct (Hty 100%nat 50 HID_PARSE_Successful p E ltac:(discriminate)) as [m Hm].
    exists p, m. split; [reflexivity|]. split; [exact Hm|by apply Z.eqb_eq].
Defined.
