(* ===== verification/HidLayout.v ===== *)
(** * HidLayout: where the HID report parser places the items of a report

    The bit offsets the parser records (HidParser.v): the items of one report and type follow
    each other without overlap and lie inside the report, whose size
    [USB_GetHIDReportSize] gives in bytes. *)
From S2P Require Import Prelude HidParser HidTypes HidDescriptor HidVerdict.
Import Hid.

(** ** Hypotheses on a descriptor *)

Definition is_id (e : entry) : bool := e_tag e =? HID_RI_REPORT_ID.

Definition no_ids (es : list entry) : bool := forallb (fun e => negb (is_id e)) es.

(** A descriptor that uses report IDs declares the first one before its first field. *)
Fixpoint ids_first (es : list entry) : bool :=
  match es with
  | [] => true
  | e :: es' => if is_id e then true else if is_field (e_tag e) then no_ids es' else ids_first es'
  end.

Definition next_count (e : entry) (count : Z) : Z :=
  if e_tag e =? HID_RI_REPORT_COUNT then u8 (payload e) else count.
Definition next_size (e : entry) (size : Z) : Z :=
  if e_tag e =? HID_RI_REPORT_SIZE then u8 (payload e) else size.
Definition field_bits (e : entry) (count size : Z) : Z :=
  if is_field (e_tag e) then count * size else 0.

(** The number of bits of all fields of a descriptor. *)
Fixpoint total_bits (es : list entry) (count size : Z) : Z :=
  match es with
  | [] => 0
  | e :: es' => field_bits e count size + total_bits es' (next_count e count) (next_size e size)
  end.

(** A descriptor without [PUSH], with its first ID before its first field, and with fewer bits
    than the size counters can hold. *)
Definition plain (es : list entry) : bool :=
  forallb (fun e => negb (e_tag e =? HID_RI_PUSH)) es && ids_first es &&
  (total_bits es 0 0 <? 2 ^ 16).

(** ** The invariant *)

Definition name (r : nat) (d : HID_ReportInfo_t) : Z := Size_ReportID (size_at r d).
Definition bits_in (ty : Z) (r : nat) (d : HID_ReportInfo_t) : Z := size_bits ty (size_at r d).
Definition reports (d : HID_ReportInfo_t) : nat := Z.to_nat (TotalDeviceReports d).

(** The first bit behind an item. *)
Definition item_end (it : HID_ReportItem_t) : Z := BitOffset it + BitSize (Item_Attributes it).

Definition same_report (it jt : HID_ReportItem_t) : Prop :=
  ItemType it = ItemType jt /\ Item_ReportID it = Item_ReportID jt.

(** The stored items of a report table. *)
Definition stored (d : HID_ReportInfo_t) : list HID_ReportItem_t :=
  take (Z.to_nat (TotalReportItems d)) (ReportItems d).

(** Every item lies inside the report of its ID, and behind the earlier items of its report. *)
Definition placed (d : HID_ReportInfo_t) (l : list HID_ReportItem_t) : Prop :=
  (forall i it, l !! i = Some it -> exists r, (r < reports d)%nat /\
     name r d = Item_ReportID it /\ item_end it <= bits_in (ItemType it) r d) /\
  (forall i j it jt, (i < j)%nat -> l !! i = Some it -> l !! j = Some jt -> same_report it jt ->
     item_end it <= BitOffset jt).

Record laid_out (B : Z) (p : parser) : Prop := LaidOut {
  lo_curr : CurrStateTable p = 0%nat;
  lo_name : name (CurrReportIDInfo p) (ParserData p) = ReportID (curr_state p);
  lo_unique : forall r s, (r < reports (ParserData p))%nat -> (s < reports (ParserData p))%nat ->
    name r (ParserData p) = name s (ParserData p) -> r = s;
  lo_bits : forall ty r, 0 <= ty <= 2 -> bits_in ty r (ParserData p) <= B;
  lo_first : UsingReportIDs (ParserData p) = false -> TotalDeviceReports (ParserData p) = 1;
  lo_placed : placed (ParserData p) (stored (ParserData p)) }.

(** The state has the count and size the items before gave it. *)
Definition tracked (count size : Z) (p : parser) : Prop :=
  ReportCount (curr_state p) = count /\ BitSize (curr_attributes p) = size.

(** What is left of the descriptor does not name a report that has items already. *)
Definition ids_phase (es : list entry) (d : HID_ReportInfo_t) : Prop :=
  UsingReportIDs d = true \/ no_ids es = true \/
  (TotalReportItems d = 0 /\ ids_first es = true).

Lemma laid_out_frame B p p' :
  laid_out B p -> CurrStateTable p' = 0%nat -> CurrReportIDInfo p' = CurrReportIDInfo p ->
  ReportID (curr_state p') = ReportID (curr_state p) ->
  ReportIDSizes (ParserData p') = ReportIDSizes (ParserData p) ->
  TotalDeviceReports (ParserData p') = TotalDeviceReports (ParserData p) ->
  stored (ParserData p') = stored (ParserData p) ->
  UsingReportIDs (ParserData p') = UsingReportIDs (ParserData p) ->
  laid_out B p'.
Proof.
  intros [] H1 H2 H3 H4 H5 H6 H7.
  assert (forall r, size_at r (ParserData p') = size_at r (ParserData p)) as Hat
    by (intros; unfold size_at; by rewrite H4).
  unfold placed, name, bits_in, reports in *.
  constructor; unfold placed, name, bits_in, reports.
  - done.
  - by rewrite H2, H3, Hat.
  - setoid_rewrite Hat. by rewrite H5.
  - setoid_rewrite Hat. done.
  - by rewrite H5, H7.
  - rewrite H5, H6. by setoid_rewrite Hat.
Qed.

(** ** Growing a report by one item *)

Lemma size_at_grow m d i ty total r :
  info_ok m d -> (i < reports d)%nat ->
  size_at r (grow i ty total d) =
    if decide (r = i) then SizeInfo (name i d) (<[Z.to_nat ty := total]> (ReportSizeBits (size_at i d)))
    else size_at r d.
Proof.
  intros Hd Hi. unfold size_at at 1, grow. cbn [set_LargestReportSizeBits set_size
    set_ReportIDSizes ReportIDSizes]. case_decide as E; [subst r|by rewrite list_lookup_insert_ne].
  rewrite list_lookup_insert_eq; [done|]. rewrite (ok_sizes_len m d Hd).
  unfold reports in Hi. pose proof (ok_reports m d Hd). lia.
Qed.

Lemma name_grow m d i ty total r :
  info_ok m d -> (i < reports d)%nat -> name r (grow i ty total d) = name r d.
Proof.
  intros Hd Hi. unfold name at 1. rewrite (size_at_grow m) by done. case_decide; by subst.
Qed.

Lemma bits_in_grow m d i ty total ty' r :
  info_ok m d -> (i < reports d)%nat -> 0 <= ty <= 2 -> 0 <= ty' ->
  bits_in ty' r (grow i ty total d) =
    if decide (r = i /\ ty' = ty) then total else bits_in ty' r d.
Proof.
  intros Hd Hi Hty Hty'. unfold bits_in at 1. rewrite (size_at_grow m) by done.
  destruct (size_at_ok m d i Hd) as (_ & Hl & _).
  destruct (decide (r = i)) as [->|Hr]; [|by rewrite decide_False by tauto].
  unfold size_bits. cbn [ReportSizeBits]. destruct (decide (ty' = ty)) as [->|Ht].
  - rewrite decide_True by done. by rewrite list_lookup_insert_eq by lia.
  - rewrite decide_False by tauto. by rewrite list_lookup_insert_ne by lia.
Qed.

(** Items stay inside a report that grows, and a new item at its old end is behind them. *)
Lemma placed_grow m d i ty total l :
  info_ok m d -> (i < reports d)%nat -> 0 <= ty <= 2 -> bits_in ty i d <= total ->
  Forall (fun it => 0 <= ItemType it <= 2) l ->
  placed d l -> placed (grow i ty total d) l.
Proof.
  intros Hd Hi Hty Hle Hl [H1 H2]. split; [|exact H2].
  intros k it Hk. destruct (H1 k it Hk) as (r & Hr & Hn & He). exists r.
  pose proof (Forall_lookup_1 _ _ _ _ Hl Hk) as Hit. cbv beta in Hit.
  split; [done|]. rewrite (name_grow m), (bits_in_grow m) by (done || lia).
  split; [done|]. case_decide as E; [destruct E as [-> <-]; lia|done].
Qed.

Lemma placed_snoc d l it r :
  placed d l -> (r < reports d)%nat -> name r d = Item_ReportID it ->
  item_end it <= bits_in (ItemType it) r d ->
  (forall i jt, l !! i = Some jt -> same_report jt it -> item_end jt <= BitOffset it) ->
  placed d (l ++ [it]).
Proof.
  intros [H1 H2] Hr Hn He Hb. split.
  - intros i jt Hi. apply lookup_snoc_Some in Hi as [[_ Hi]|[_ <-]]; [by eapply H1|].
    by exists r.
  - intros i j a b Hij Ha Hb' Hs.
    apply lookup_snoc_Some in Ha as [[_ Ha]|[-> <-]], Hb' as [[_ Hb']|[-> <-]].
    + by eapply H2.
    + by eapply (Hb i).
    + apply lookup_lt_Some in Hb'. lia.
    + lia.
Qed.

Section Layout.
Context `{J : Indeterminate} (filter : HID_ReportItem_t -> bool).

(** *** One input, output or feature item *)

Lemma stored_keep m b it d :
  info_ok m d -> TotalReportItems d <> HID_MAX_REPORTITEMS ->
  stored (keep_item b it d) = if b then stored d ++ [it] else stored d.
Proof.
  intros Hd Hf. pose proof (ok_total m d Hd). pose proof (ok_items_len m d Hd).
  unfold HID_MAX_REPORTITEMS in *. unfold stored, keep_item.
  set (n := TotalReportItems d) in *. destruct b; cbn [set_TotalReportItems set_ReportItems
    TotalReportItems ReportItems]; fold n; [|rewrite take_insert_ge by lia; done].
  replace (u8 (n + 1)) with (Z.of_nat (S (Z.to_nat n))) by (rewrite wrap_id; unfold is_u; lia).
  rewrite Nat2Z.id. erewrite take_S_r by (rewrite list_lookup_insert_eq by lia; done).
  by rewrite take_insert_ge.
Qed.

Lemma stored_types m d : info_ok m d -> Forall (fun it => 0 <= ItemType it <= 2) (stored d).
Proof.
  intros Hd. eapply Forall_impl; [|exact (ok_items m d Hd)]. intros it H. apply H.
Qed.

(** The current report grows by [b] bits. *)
Lemma laid_out_grow B p pu m ty b :
  parser_ok m p -> laid_out B p -> same_but_usages p pu -> 0 <= ty <= 2 -> 0 <= b ->
  B + b < 2 ^ 16 ->
  laid_out (B + b) (set_ParserData (grow (CurrReportIDInfo p) ty
    (u16 (bits_in ty (CurrReportIDInfo p) (ParserData p) + b)) (ParserData p)) pu) /\
  u16 (bits_in ty (CurrReportIDInfo p) (ParserData p) + b) =
    bits_in ty (CurrReportIDInfo p) (ParserData p) + b.
Proof.
  intros Hp [] (l & n & mm & ->) Hty Hb HB. pose proof (ok_info m p Hp) as Hd.
  pose proof (ok_report m p Hp) as Hr. fold (reports (ParserData p)) in Hr.
  set (i := CurrReportIDInfo p) in *.
  assert (0 <= bits_in ty i (ParserData p)) as H0
    by apply (size_bits_ok ty), (size_at_ok m), Hd.
  assert (u16 (bits_in ty i (ParserData p) + b) = bits_in ty i (ParserData p) + b) as Hw.
  { pose proof (lo_bits0 ty i Hty). apply wrap_id. unfold is_u. lia. }
  split; [|done]. rewrite Hw. constructor; cbn [set_UsageList set_UsageListSize set_UsageMinMax
    set_ParserData ParserData CurrStateTable CurrReportIDInfo]; fold i.
  - done.
  - rewrite (name_grow m) by done. exact lo_name0.
  - intros r s H1 H2. rewrite !(name_grow m) by done. by apply lo_unique0.
  - intros ty' r Hty'. rewrite (bits_in_grow m) by (done || lia).
    pose proof (lo_bits0 ty i Hty). pose proof (lo_bits0 ty' r Hty').
    case_decide; lia.
  - exact lo_first0.
  - apply (placed_grow m); try done; [lia|]. exact (stored_types m _ Hd).
Qed.

Lemma main_item_laid tag data B p m :
  parser_ok m p -> laid_out B p -> B + BitSize (curr_attributes p) < 2 ^ 16 ->
  wp (main_item filter tag data)
    (fun _ p' => laid_out (B + BitSize (curr_attributes p)) p' /\
       curr_state p' = curr_state p /\
       UsingReportIDs (ParserData p') = UsingReportIDs (ParserData p))
    (fun _ p' => laid_out (B + BitSize (curr_attributes p)) p') p.
Proof.
  intros Hp Hl HB. apply main_item_run. intros u pu Hpu off it d1.
  pose proof (item_type_range tag) as Hty.
  assert (0 <= BitSize (curr_attributes p)) as Hb0.
  { pose proof (state_at_ok m p Hp) as ((Hb & _) & _). apply Hb. }
  destruct (laid_out_grow B p pu m (item_type tag) (BitSize (curr_attributes p)) Hp Hl Hpu Hty Hb0 HB)
    as [Hg Hw].
  change (bits_in (item_type tag) (CurrReportIDInfo p) (ParserData p)) with off in Hg, Hw.
  fold d1 in Hg. split; [done|]. intros Hf. split; [|by destruct Hpu as (l & n & mm & ->); destruct (_ && _)].
  pose proof (ok_report m p Hp) as Hr. pose proof (ok_info m p Hp) as Hd.
  assert (info_ok m d1) as Hd1 by (apply grow_ok; [done|by apply wrap_is_u]).
  assert (stored (keep_item (negb (truth (data .& HID_IOF_CONSTANT)) && filter it) it d1) =
    if negb (truth (data .& HID_IOF_CONSTANT)) && filter it then stored d1 ++ [it]
    else stored d1) as Hst by by apply (stored_keep m).
  set (b := negb _ && _) in *. clearbody b. destruct Hl, Hg. constructor.
  - done.
  - by destruct b.
  - by destruct b.
  - by destruct b.
  - by destruct b.
  - change (placed (keep_item b it d1) (stored (keep_item b it d1))). rewrite Hst.
    destruct b; [|exact lo_placed1].
    change (placed d1 (stored d1 ++ [it])). apply (placed_snoc _ _ _ (CurrReportIDInfo p)).
    + exact lo_placed1.
    + exact Hr.
    + unfold d1. rewrite (name_grow m) by done. exact lo_name0.
    + change (ItemType it) with (item_type tag). unfold d1.
      rewrite (bits_in_grow m) by (done || lia). rewrite decide_True by done.
      rewrite Hw. unfold item_end. cbn. lia.
    + intros i jt Hi [Ht Hid]. destruct (proj1 lo_placed0 i jt Hi) as (r & Hr' & Hn & He).
      assert (r = CurrReportIDInfo p) as ->.
      { apply lo_unique0; [done|done|]. rewrite Hn, lo_name0. exact Hid. }
      rewrite Ht in He. exact He.
Qed.

Lemma laid_out_mono B B' p : B <= B' -> laid_out B p -> laid_out B' p.
Proof.
  intros HB []. constructor; try done. intros ty r Hty. specialize (lo_bits0 ty r Hty). lia.
Qed.

Lemma main_items_laid n tag data B p :
  any_ok p -> laid_out B p -> B + Z.of_nat n * BitSize (curr_attributes p) < 2 ^ 16 ->
  let B' := B + Z.of_nat n * BitSize (curr_attributes p) in
  wp (main_items filter n tag data)
    (fun _ p' => laid_out B' p' /\ curr_state p' = curr_state p /\
       UsingReportIDs (ParserData p') = UsingReportIDs (ParserData p))
    (fun _ p' => laid_out B' p') p.
Proof.
  revert B p. induction n as [|n IH]; intros B p Hp Hl HB B'.
  { subst B'. rewrite Z.mul_0_l, Z.add_0_r. by split. }
  cbn [main_items]. apply wp_bind.
  pose proof (keeps_main_item filter tag data p Hp) as Hk. destruct Hp as [m Hp].
  assert (0 <= BitSize (curr_attributes p)) as Hb0.
  { pose proof (state_at_ok m p Hp) as ((Hb & _) & _). apply Hb. }
  set (b := BitSize (curr_attributes p)) in *.
  assert (B + b <= B') as Hle by (subst B'; nia).
  pose proof (main_item_laid tag data B p m Hp Hl) as Hm. fold b in Hm.
  specialize (Hm ltac:(lia)). unfold wp in Hk, Hm |- *.
  destruct (main_item filter tag data p) as [[] p'|code p']; [|by eapply laid_out_mono].
  destruct Hm as (Hl' & Hs & Hu).
  assert (BitSize (curr_attributes p') = b) as Hb' by (unfold curr_attributes; by rewrite Hs).
  specialize (IH (B + b) p' Hk Hl'). cbv zeta in IH. rewrite Hb' in IH.
  replace (B + b + Z.of_nat n * b) with B' in IH by (subst B'; lia).
  eapply wp_mono; [apply IH; lia| |done]. cbv beta. intros _ p'' (H1 & H2 & H3).
  split; [done|]. by rewrite H2, H3.
Qed.

(** *** Report IDs *)

Lemma size_at_set m d i s r :
  info_ok m d -> (i < Z.to_nat HID_MAX_REPORT_IDS)%nat ->
  size_at r (set_size i s d) = if decide (r = i) then s else size_at r d.
Proof.
  intros Hd Hi. unfold size_at, set_size. cbn [set_ReportIDSizes ReportIDSizes].
  case_decide as E; [subst r|by rewrite list_lookup_insert_ne].
  rewrite list_lookup_insert_eq; [done|]. by rewrite (ok_sizes_len m d Hd).
Qed.

(** The structure of a parser is laid out, whatever the current report is. *)
Definition laid_data (B : Z) (d : HID_ReportInfo_t) : Prop :=
  (forall r s, (r < reports d)%nat -> (s < reports d)%nat -> name r d = name s d -> r = s) /\
  (forall ty r, 0 <= ty <= 2 -> bits_in ty r d <= B) /\ placed d (stored d).

Lemma named_laid B i id d p :
  CurrStateTable p = 0%nat -> ReportID (curr_state p) = id ->
  laid_data B (ParserData (named i id d p)) ->
  name i (ParserData (named i id d p)) = id -> laid_out B (named i id d p).
Proof. intros Hc <- (H1 & H2 & H3) Hn. by constructor. Qed.

Lemma size_at_named m i id d p r :
  info_ok m d -> (i < Z.to_nat HID_MAX_REPORT_IDS)%nat ->
  size_at r (ParserData (named i id d p)) =
    if decide (r = i) then SizeInfo id (ReportSizeBits (size_at i d)) else size_at r d.
Proof.
  intros Hd Hi. unfold named. cbn [set_ParserData ParserData].
  rewrite (size_at_set m); [done| |done]. by destruct Hd.
Qed.

Lemma name_named m i id d p r :
  info_ok m d -> (i < Z.to_nat HID_MAX_REPORT_IDS)%nat ->
  name r (ParserData (named i id d p)) = if decide (r = i) then id else name r d.
Proof. intros Hd Hi. unfold name at 1. rewrite (size_at_named m) by done. by case_decide. Qed.

Lemma bits_in_named m i id d p ty r :
  info_ok m d -> (i < Z.to_nat HID_MAX_REPORT_IDS)%nat ->
  bits_in ty r (ParserData (named i id d p)) = bits_in ty r d.
Proof.
  intros Hd Hi. unfold bits_in at 1. rewrite (size_at_named m) by done. by case_decide; subst.
Qed.

Lemma name_named_self i id d p :
  (i < length (ReportIDSizes d))%nat -> name i (ParserData (named i id d p)) = id.
Proof.
  intros Hi. unfold name, size_at, named. cbn [set_ParserData ParserData set_size
    set_ReportIDSizes set_UsingReportIDs ReportIDSizes]. by rewrite list_lookup_insert_eq.
Qed.

Lemma laid_first m B i id d p :
  info_ok m d -> laid_data B d -> TotalDeviceReports d = 1 -> TotalReportItems d = 0 -> i = 0%nat ->
  laid_data B (ParserData (named i id d p)).
Proof.
  intros Hd (_ & H2 & _) Ht Hs ->. split; [|split].
  - intros r s. change (reports (ParserData (named 0 id d p))) with (reports d).
    unfold reports. rewrite Ht. lia.
  - intros ty r Hty. rewrite (bits_in_named m) by (done || (unfold HID_MAX_REPORT_IDS; lia)).
    by apply H2.
  - change (stored (ParserData (named 0 id d p))) with (stored d). unfold stored. rewrite Hs.
    split; intros ? *; cbn; rewrite ?lookup_nil; done.
Qed.

Lemma placed_names d d' l :
  placed d l -> (reports d <= reports d')%nat ->
  (forall r, (r < reports d)%nat -> name r d' = name r d) ->
  (forall ty r, (r < reports d)%nat -> bits_in ty r d' = bits_in ty r d) -> placed d' l.
Proof.
  intros [H1 H2] Hr Hn Hb. split; [|exact H2]. intros i it Hi.
  destruct (H1 i it Hi) as (r & Hlt & Hname & He). exists r.
  rewrite Hn, Hb by done. split; [lia|done].
Qed.

Lemma laid_known m B i id d p :
  info_ok m d -> laid_data B d -> (i < reports d)%nat -> name i d = id ->
  laid_data B (ParserData (named i id d p)).
Proof.
  intros Hd (H1 & H2 & H3) Hi Hn. pose proof (ok_reports m d Hd).
  assert (i < Z.to_nat HID_MAX_REPORT_IDS)%nat as Hi' by (unfold reports in Hi; lia).
  assert (forall r, name r (ParserData (named i id d p)) = name r d) as Hname.
  { intros r. rewrite (name_named m) by done. case_decide; by subst. }
  split; [|split].
  - intros r s. rewrite !Hname. apply H1.
  - intros ty r Hty. rewrite (bits_in_named m) by done. by apply H2.
  - apply (placed_names d); try done. intros. by rewrite (bits_in_named m).
Qed.

Lemma laid_new m B i id d p :
  info_ok m d -> laid_data B d -> 0 <= B -> i = reports d ->
  TotalDeviceReports d <> HID_MAX_REPORT_IDS ->
  (forall r, (r < reports d)%nat -> name r d <> id) ->
  laid_data B (ParserData (named i id
    (set_size i zero_size (set_TotalDeviceReports (u8 (TotalDeviceReports d + 1)) d)) p)).
Proof.
  intros Hd (H1 & H2 & H3) HB -> Hf Hnew. pose proof (ok_reports m d Hd) as Hr.
  unfold HID_MAX_REPORT_IDS in *. set (i := reports d) in *.
  assert (Z.of_nat i = TotalDeviceReports d) as Hi by (unfold i, reports; lia).
  replace (u8 (TotalDeviceReports d + 1)) with (Z.of_nat (S i))
    by (rewrite wrap_id; unfold is_u; lia).
  set (d1 := set_TotalDeviceReports (Z.of_nat (S i)) d).
  assert (info_ok m d1) as Hd1.
  { destruct Hd. constructor; try done. unfold HID_MAX_REPORT_IDS. cbn. lia. }
  assert (info_ok m (set_size i zero_size d1)) as Hd2.
  { apply set_size_ok; [done|]. repeat split; try by vm_compute.
    repeat constructor; by vm_compute. }
  assert (forall r, name r (ParserData (named i id (set_size i zero_size d1) p)) =
    if decide (r = i) then id else name r d) as Hname.
  { intros r. rewrite (name_named m) by (done || (unfold HID_MAX_REPORT_IDS; lia)).
    case_decide; [done|]. unfold name. rewrite (size_at_set m) by (done || (unfold HID_MAX_REPORT_IDS; lia)).
    by rewrite decide_False. }
  assert (forall ty r, bits_in ty r (ParserData (named i id (set_size i zero_size d1) p)) =
    if decide (r = i) then size_bits ty zero_size else bits_in ty r d) as Hbits.
  { intros ty r. rewrite (bits_in_named m) by (done || (unfold HID_MAX_REPORT_IDS; lia)).
    unfold bits_in. rewrite (size_at_set m) by (done || (unfold HID_MAX_REPORT_IDS; lia)).
    by case_decide. }
  assert (reports (ParserData (named i id (set_size i zero_size d1) p)) = S i) as Hrep
    by (unfold reports; cbn; lia).
  split; [|split].
  - intros r s. rewrite Hrep, !Hname. intros Hlr Hls. repeat case_decide; subst; try done.
    + intros E. destruct (Hnew s); [lia|done].
    + intros E. destruct (Hnew r); [lia|done].
    + apply H1; lia.
  - intros ty r Hty. rewrite Hbits. case_decide; [|by apply H2].
    assert (ty = 0 \/ ty = 1 \/ ty = 2) as [->|[->| ->]] by lia; exact HB.
  - apply (placed_names d).
    + exact H3.
    + rewrite Hrep. lia.
    + intros r Hlt. rewrite Hname, decide_False by lia. done.
    + intros ty r Hlt. rewrite Hbits, decide_False by lia. done.
Qed.

Lemma lookup_name m d r s :
  info_ok m d -> take (reports d) (ReportIDSizes d) !! r = Some s ->
  (r < reports d)%nat /\ name r d = Size_ReportID s.
Proof.
  intros Hd Hs. apply lookup_take_Some in Hs as [Hs Hr]. split; [done|].
  unfold name, size_at. by rewrite Hs.
Qed.

Lemma name_lookup m d r :
  info_ok m d -> (r < reports d)%nat ->
  name r d ∈ Size_ReportID <$> take (reports d) (ReportIDSizes d).
Proof.
  intros Hd Hr. pose proof (ok_reports m d Hd). pose proof (ok_sizes_len m d Hd).
  unfold reports in *. destruct (lookup_lt_is_Some_2 (ReportIDSizes d) r) as [s Hs]; [lia|].
  apply list_elem_of_fmap. exists s. unfold name, size_at. rewrite Hs. split; [done|].
  apply (list_elem_of_lookup_2 _ r). by rewrite lookup_take_lt by done.
Qed.

Lemma report_id_laid data B p m es e :
  parser_ok m p -> laid_out B p -> is_id e = true ->
  ids_phase (e :: es) (ParserData p) ->
  wp (item_report_id data)
    (fun _ p' => laid_out B p' /\ UsingReportIDs (ParserData p') = true /\
       curr_state p' = set_ReportID (u8 data) (curr_state p))
    (fun _ p' => laid_data B (ParserData p')) p.
Proof.
  intros Hp Hl He Hph. unfold item_report_id. apply wp_bind.
  change (wp (set_state ?f) ?Q ?E p) with
    (Q tt (set_StateTable (<[CurrStateTable p := f (curr_state p)]> (StateTable p)) p)).
  set (p1 := set_StateTable _ p).
  assert (curr_state p1 = set_ReportID (u8 data) (curr_state p)) as Hcs.
  { unfold curr_state at 1, state_at. cbn [p1 set_StateTable StateTable CurrStateTable].
    rewrite list_lookup_insert_eq; [done|]. rewrite (ok_states_len m p Hp). apply (ok_curr m p Hp). }
  pose proof (ok_info m p Hp) as Hd. pose proof (ok_reports m _ Hd) as Hrep.
  pose proof (ok_report m p Hp) as Hr. pose proof (ok_sizes_len m _ Hd) as Hlen. destruct Hl.
  assert (laid_data B (ParserData p)) as Hld by (split; [done|]; by split).
  assert (ReportID (curr_state p1) = u8 data) as Hid by by rewrite Hcs.
  wps. rewrite Hid. change (ParserData p1) with (ParserData p).
  set (d := ParserData p) in *. unfold HID_MAX_REPORT_IDS in *.
  assert (forall i d', laid_data B (ParserData (named i (u8 data) d' p1)) ->
    name i (ParserData (named i (u8 data) d' p1)) = u8 data ->
    laid_out B (named i (u8 data) d' p1) /\
    UsingReportIDs (ParserData (named i (u8 data) d' p1)) = true /\
    curr_state (named i (u8 data) d' p1) = set_ReportID (u8 data) (curr_state p)) as Hfin.
  { intros i d' H1 H2. split; [by apply named_laid|]. split; [done|exact Hcs]. }
  unfold select_report, name_report.
  destruct (UsingReportIDs d) eqn:Hus.
  - change (Z.to_nat (TotalDeviceReports d)) with (reports d).
    destruct (find_report_id _ _ _) as [i|] eqn:Ei; wps.
    + apply find_report_id_spec in Ei as (_ & s & Hs & Hn). rewrite Nat.sub_0_r in Hs.
      apply (lookup_name m) in Hs as [Hi Hname]; [|done]. rewrite Hn in Hname.
      apply (Hfin i d); [by apply (laid_known m)|].
      apply name_named_self. unfold reports in Hi. lia.
    + apply find_report_id_None in Ei. unfold HID_MAX_REPORT_IDS.
      destruct (Z.eqb_spec (TotalDeviceReports d) 10) as [Hf|Hf]; wps; [exact Hld|].
      apply Hfin.
      * apply (laid_new m); try done.
        -- pose proof (lo_bits0 0 0%nat ltac:(lia)). pose proof (proj1 (size_bits_ok 0 _ (size_at_ok m d 0 Hd))).
           unfold bits_in in *. lia.
        -- intros r Hlt E. apply Ei. rewrite <- E. by apply (name_lookup m).
      * apply name_named_self. cbn. rewrite length_insert. fold d. unfold reports. lia.
  - wps. apply (Hfin (CurrReportIDInfo p) d).
    + apply (laid_first m); try done.
      * by apply lo_first0.
      * unfold ids_phase in Hph. fold d in Hph. rewrite Hus in Hph. cbn [no_ids forallb] in Hph.
        rewrite He in Hph. destruct Hph as [|[|[]]]; done.
      * specialize (lo_first0 eq_refl). unfold reports in *. lia.
    + apply name_named_self. unfold reports in Hr. lia.
Qed.

(** *** The cases of the switch *)

Lemma laid_out_data B p : laid_out B p -> laid_data B (ParserData p).
Proof. intros []. split; [done|]. by split. Qed.

Lemma phase_next e es d d' :
  ids_phase (e :: es) d -> is_id e = false -> UsingReportIDs d' = UsingReportIDs d ->
  (is_field (e_tag e) = false -> TotalReportItems d' = TotalReportItems d) -> ids_phase es d'.
Proof.
  unfold ids_phase. cbn [no_ids forallb ids_first]. intros H He -> Ht. rewrite He in H.
  cbn [negb andb] in H. destruct H as [H|[H|[H1 H2]]]; [by left|by right; left|].
  destruct (is_field (e_tag e)); [by right; left|]. right; right. by rewrite Ht.
Qed.

(** The case for the item [e] keeps the layout, adding the bits of [e]. *)
Definition places (e : entry) (es : list entry) (op : P unit) : Prop :=
  forall B p count size,
  any_ok p -> laid_out B p -> tracked count size p -> ids_phase (e :: es) (ParserData p) ->
  B + field_bits e count size < 2 ^ 16 ->
  wp op
    (fun _ p' => laid_out (B + field_bits e count size) p' /\
       tracked (next_count e count) (next_size e size) p' /\ ids_phase es (ParserData p'))
    (fun _ p' => laid_data (B + field_bits e count size) (ParserData p')) p.

(** What the layout depends on does not change. *)
Definition quiet (p p' : parser) : Prop :=
  CurrStateTable p' = CurrStateTable p /\ CurrReportIDInfo p' = CurrReportIDInfo p /\
  ReportID (curr_state p') = ReportID (curr_state p) /\
  set_CollectionPaths [] (ParserData p') = set_CollectionPaths [] (ParserData p).

Lemma places_quiet e es op :
  is_field (e_tag e) = false -> is_id e = false ->
  (forall p, any_ok p -> CurrStateTable p = 0%nat ->
   wp op (fun _ p' => quiet p p' /\
            ReportCount (curr_state p') = next_count e (ReportCount (curr_state p)) /\
            BitSize (curr_attributes p') = next_size e (BitSize (curr_attributes p)))
     (fun _ p' => ParserData p' = ParserData p) p) ->
  places e es op.
Proof.
  intros Hf He Hop B p count size Hp Hl [<- <-] Hph HB. unfold field_bits in *. rewrite Hf in *.
  rewrite Z.add_0_r in *.
  eapply wp_mono; [exact (Hop p Hp (lo_curr B p Hl))|..]; cbv beta.
  - intros _ p' ((H1 & H2 & H3 & H4) & Hc & Hs).
    assert (ReportIDSizes (ParserData p') = ReportIDSizes (ParserData p)) as H5
      by exact (f_equal ReportIDSizes H4).
    assert (TotalDeviceReports (ParserData p') = TotalDeviceReports (ParserData p)) as H6
      by exact (f_equal TotalDeviceReports H4).
    assert (UsingReportIDs (ParserData p') = UsingReportIDs (ParserData p)) as H7
      by exact (f_equal UsingReportIDs H4).
    assert (TotalReportItems (ParserData p') = TotalReportItems (ParserData p)) as H8
      by exact (f_equal TotalReportItems H4).
    assert (stored (ParserData p') = stored (ParserData p)) as H9 by exact (f_equal stored H4).
    split; [|split; [done|by eapply phase_next]].
    eapply laid_out_frame; try done. by rewrite H1, (lo_curr B p Hl).
  - intros _ p' ->. by apply laid_out_data.
Qed.

Lemma curr_state_set p f :
  any_ok p ->
  curr_state (set_StateTable (<[CurrStateTable p := f (curr_state p)]> (StateTable p)) p) =
    f (curr_state p).
Proof.
  intros [m Hp]. unfold curr_state at 1, state_at. cbn [set_StateTable StateTable CurrStateTable].
  rewrite list_lookup_insert_eq; [done|]. rewrite (ok_states_len m p Hp). apply (ok_curr m p Hp).
Qed.

Lemma places_state e es f :
  is_field (e_tag e) = false -> is_id e = false ->
  (forall t, ReportID (f t) = ReportID t) ->
  (forall t, ReportCount (f t) = next_count e (ReportCount t)) ->
  (forall t, BitSize (Attributes (f t)) = next_size e (BitSize (Attributes t))) ->
  places e es (set_state f).
Proof.
  intros Hf He H1 H2 H3. apply places_quiet; [done|done|]. intros p Hp _.
  change (let p' := set_StateTable (<[CurrStateTable p := f (curr_state p)]> (StateTable p)) p in
    quiet p p' /\ ReportCount (curr_state p') = next_count e (ReportCount (curr_state p)) /\
    BitSize (Attributes (curr_state p')) = next_size e (BitSize (Attributes (curr_state p)))).
  cbv zeta. unfold quiet. rewrite curr_state_set by done. by rewrite H1, H2, H3.
Qed.

(** A case that leaves the state table and the counters alone. *)
Lemma places_silent e es op :
  is_field (e_tag e) = false -> is_id e = false ->
  (forall n, next_count e n = n) -> (forall n, next_size e n = n) ->
  (forall p, any_ok p -> CurrStateTable p = 0%nat ->
   wp op (fun _ p' => CurrStateTable p' = CurrStateTable p /\
            CurrReportIDInfo p' = CurrReportIDInfo p /\ StateTable p' = StateTable p /\
            set_CollectionPaths [] (ParserData p') = set_CollectionPaths [] (ParserData p))
     (fun _ p' => ParserData p' = ParserData p) p) ->
  places e es op.
Proof.
  intros Hf He Hc Hs Hop. apply places_quiet; [done|done|]. intros p Hp Hz.
  eapply wp_mono; [exact (Hop p Hp Hz)| |done]. cbv beta. intros _ p' (H1 & H2 & H3 & H4).
  assert (curr_state p' = curr_state p) as E by (unfold curr_state, state_at; by rewrite H1, H3).
  unfold quiet, curr_attributes. by rewrite E, Hc, Hs.
Qed.

Lemma places_pop b dat es : places (Entry HID_RI_POP b dat) es item_pop.
Proof.
  apply places_silent; try done. intros p _ Hz. unfold item_pop. wps. by rewrite Hz.
Qed.

Lemma places_usage b dat es data : places (Entry HID_RI_USAGE b dat) es (item_usage data).
Proof.
  apply places_silent; try done. intros p _ Hz. unfold item_usage. wps.
  by destruct (_ =? _); wps.
Qed.

Lemma places_end_collection b dat es :
  places (Entry HID_RI_END_COLLECTION b dat) es item_end_collection.
Proof.
  apply places_silent; try done. intros p _ Hz. unfold item_end_collection. wps.
  by destruct (CurrCollectionPath p); wps.
Qed.

Lemma places_collection b dat es data :
  places (Entry HID_RI_COLLECTION b dat) es (item_collection data).
Proof.
  apply places_silent; try done. intros p _ Hz. unfold item_collection. wps.
  assert (forall i p1, CurrStateTable p1 = CurrStateTable p ->
    CurrReportIDInfo p1 = CurrReportIDInfo p -> StateTable p1 = StateTable p ->
    set_CollectionPaths [] (ParserData p1) = set_CollectionPaths [] (ParserData p) ->
    wp (fill_path data i) (fun _ p' => CurrStateTable p' = CurrStateTable p /\
            CurrReportIDInfo p' = CurrReportIDInfo p /\ StateTable p' = StateTable p /\
            set_CollectionPaths [] (ParserData p') = set_CollectionPaths [] (ParserData p))
      (fun _ p' => ParserData p' = ParserData p) p1) as Hfill.
  { intros i p1 H1 H2 H3 H4. eapply wp_mono; [apply fill_path_frame| |done].
    intros _ p' (d' & (l & n & mm & ->) & Hd & _). split_and!; try done.
    cbn. rewrite Hd. exact H4. }
  destruct (CurrCollectionPath p); wps; [destruct (free_path _ _ _); wps; [|done]|];
    by apply Hfill.
Qed.

Lemma places_report_id b dat es data :
  places (Entry HID_RI_REPORT_ID b dat) es (item_report_id data).
Proof.
  intros B p count size [m Hp] Hl [<- <-] Hph HB. change (field_bits _ _ _) with 0.
  rewrite Z.add_0_r.
  eapply wp_mono; [apply (report_id_laid data B p m es (Entry HID_RI_REPORT_ID b dat)); done| |done].
  cbv beta. intros _ p' (H1 & H2 & H3). split; [done|]. split; [|by left].
  unfold tracked, curr_attributes. by rewrite H3.
Qed.

Lemma places_field tag b dat es data :
  is_field tag = true ->
  places (Entry tag b dat) es (pbind (get (fun p => ReportCount (curr_state p)))
                             (fun n => main_items filter (Z.to_nat n) tag data)).
Proof.
  intros Hf B p count size Hp Hl [<- <-] Hph HB. unfold field_bits in *. cbn [e_tag] in *.
  rewrite Hf in *. wps.
  assert (0 <= ReportCount (curr_state p)) as H0.
  { destruct Hp as [m Hp]. apply (state_at_ok m p Hp). }
  pose proof (main_items_laid (Z.to_nat (ReportCount (curr_state p))) tag data B p Hp Hl) as Hw.
  cbv zeta in Hw. rewrite Z2Nat.id in Hw by done. specialize (Hw HB).
  assert (forall t, is_field t = true -> t <> HID_RI_REPORT_COUNT /\ t <> HID_RI_REPORT_SIZE /\
    t <> HID_RI_REPORT_ID) as Hne by (intros t Ht; split_and!; by intros ->).
  destruct (Hne tag Hf) as (N1 & N2 & N3). apply Z.eqb_neq in N1, N2, N3.
  eapply wp_mono; [exact Hw|..]; cbv beta.
  - intros _ p' (H1 & H2 & H3). split; [done|]. split.
    + unfold tracked, next_count, next_size, curr_attributes. cbn [e_tag]. by rewrite H2, N1, N2.
    + eapply phase_next; [exact Hph|exact N3|done|]. cbn [e_tag]. by rewrite Hf.
  - intros _ p' H. by apply laid_out_data.
Qed.

Lemma places_minmax tag b dat es f :
  tag = HID_RI_USAGE_MINIMUM \/ tag = HID_RI_USAGE_MAXIMUM ->
  places (Entry tag b dat) es (put (fun p => set_UsageMinMax (f p) p)).
Proof. intros [-> | ->]; apply places_silent; done. Qed.

(** Operations that the layout does not notice, and their sequence. *)
Definition unnoticed (op : P unit) : Prop := forall p, any_ok p ->
  wp op (fun _ p' => any_ok p' /\ quiet p p' /\
           ReportCount (curr_state p') = ReportCount (curr_state p) /\
           BitSize (curr_attributes p') = BitSize (curr_attributes p)) (fun _ _ => False) p.

Lemma unnoticed_bind op1 op2 : unnoticed op1 -> unnoticed op2 -> unnoticed (pbind op1 (fun _ => op2)).
Proof.
  intros H1 H2 p Hp. apply wp_bind. eapply wp_mono; [exact (H1 p Hp)| |done].
  cbv beta. intros _ p1 (Hp1 & (A1 & A2 & A3 & A4) & A5 & A6).
  eapply wp_mono; [exact (H2 p1 Hp1)| |done].
  cbv beta. intros _ p2 (Hp2 & (B1 & B2 & B3 & B4) & B5 & B6).
  split; [done|]. unfold quiet. split_and!; congruence.
Qed.

Lemma unnoticed_attributes f :
  (forall a, attributes_ok a -> attributes_ok (f a)) -> (forall a, BitSize (f a) = BitSize a) ->
  unnoticed (set_attributes f).
Proof.
  intros Hok Hf p Hp. pose proof (keeps_set_attributes f Hok p Hp) as Hk.
  set (g := fun t => set_Attributes (f (Attributes t)) t).
  change (let p' := set_StateTable (<[CurrStateTable p := g (curr_state p)]> (StateTable p)) p in
    any_ok p' /\ quiet p p' /\ ReportCount (curr_state p') = ReportCount (curr_state p) /\
    BitSize (Attributes (curr_state p')) = BitSize (Attributes (curr_state p))).
  cbv zeta. split; [exact Hk|]. unfold quiet. rewrite curr_state_set by done. cbn. by rewrite Hf.
Qed.

Lemma places_page b dat es item data :
  places (Entry HID_RI_USAGE_PAGE b dat) es (item_usage_page item data).
Proof.
  assert (unnoticed (item_usage_page item data)) as Hq.
  { apply unnoticed_bind; [destruct (_ =? _)|];
      try (apply unnoticed_attributes; [|done]; intros a (Hb & [Hpg Hu] & Hr);
           by refine (conj Hb (conj (conj (wrap_is_u 16 _ _) Hu) Hr))).
    intros p Hp. by split. }
  apply places_quiet; [done|done|]. intros p Hp _.
  eapply wp_mono; [exact (Hq p Hp)| |done]. by intros _ p' (_ & H).
Qed.

Lemma places_other e es :
  is_field (e_tag e) = false -> is_id e = false ->
  (forall n, next_count e n = n) -> (forall n, next_size e n = n) -> places e es (pret tt).
Proof. intros Hf He Hc Hs. by apply places_silent. Qed.

Lemma switch_places e es :
  tag_ok (e_tag e) -> e_tag e <> HID_RI_PUSH ->
  places e es (switch_item filter (prefix e) (payload e)).
Proof.
  intros Ht Hpush. unfold switch_item. rewrite prefix_tag by done.
  destruct e as [tag b dat]. cbn [e_tag] in *.
  destruct (Z.eqb_spec tag HID_RI_PUSH); [done|].
  repeat match goal with
  | |- places _ _ (if tag =? ?t then _ else _) => destruct (Z.eqb_spec tag t) as [->|?]
  end;
  try first [ apply places_pop | apply places_page | apply places_report_id | apply places_usage
            | apply places_collection | apply places_end_collection
            | apply places_minmax; by auto
            | apply places_state; done ].
  destruct (is_field tag) eqn:Hf; unfold is_field in Hf; rewrite Hf.
  - by apply places_field.
  - apply places_other; try done; unfold is_id, next_count, next_size; cbn [e_tag];
      repeat match goal with |- context [tag =? ?t] => destruct (Z.eqb_spec tag t); [done|] end;
      done.
Qed.

(** *** Whole descriptors *)

Lemma process_places e es :
  tag_ok (e_tag e) -> e_tag e <> HID_RI_PUSH ->
  places e es (process_item filter (prefix e) (payload e)).
Proof.
  intros Ht Hpush B p count size Hp Hl Htr Hph HB. apply wp_bind.
  eapply wp_mono; [exact (switch_places e es Ht Hpush B p count size Hp Hl Htr Hph HB)| |done].
  cbv beta. intros _ p' (H1 & H2 & H3). unfold reset_locals.
  destruct (_ =? _); wps; [|done]. split; [|done]. eapply laid_out_frame; try done.
  apply (lo_curr _ p' H1).
Qed.

Lemma next_count_u8 e n : is_u8 n -> is_u8 (next_count e n).
Proof. unfold next_count. destruct (_ =? _); auto with cint. Qed.

Lemma next_size_u8 e n : is_u8 n -> is_u8 (next_size e n).
Proof. unfold next_size. destruct (_ =? _); auto with cint. Qed.

Lemma total_bits_nonneg es c s : is_u8 c -> is_u8 s -> 0 <= total_bits es c s.
Proof.
  revert c s. induction es as [|e es IH]; intros c s Hc Hs; cbn [total_bits]; [lia|].
  pose proof (IH _ _ (next_count_u8 e c Hc) (next_size_u8 e s Hs)).
  unfold field_bits. destruct (is_field _), Hc, Hs; nia.
Qed.

Lemma run_laid es B p count size :
  Forall (fun e => tag_ok (e_tag e)) es -> Forall (fun e => e_tag e <> HID_RI_PUSH) es ->
  any_ok p -> laid_out B p -> tracked count size p -> ids_phase es (ParserData p) ->
  is_u8 count -> is_u8 size -> B + total_bits es count size < 2 ^ 16 ->
  exists B', laid_data B' (ParserData (snd (run_entries filter es p))).
Proof.
  intros Hes. revert B p count size.
  induction Hes as [|e es He Hes IH]; intros B p count size Hpush Hp Hl Ht Hph Hcnt Hsz HB;
    cbn [run_entries].
  { exists B. by apply laid_out_data. }
  apply Forall_cons_iff in Hpush as [Hpe Hpush]. cbn [total_bits] in HB.
  pose proof (total_bits_nonneg es _ _ (next_count_u8 e count Hcnt) (next_size_u8 e size Hsz)).
  pose proof (process_places e es He Hpe B p count size Hp Hl Ht Hph ltac:(lia)) as Hw.
  pose proof (keeps_process filter (prefix e) (payload e) (payload_u32 e) p Hp) as Hk.
  unfold wp in Hw, Hk. destruct (process_item filter (prefix e) (payload e) p) as [[] p'|code p'].
  - destruct Hw as (H1 & H2 & H3).
    apply (IH _ p' _ _ Hpush Hk H1 H2 H3); [by apply next_count_u8|by apply next_size_u8|lia].
  - by exists (B + field_bits e count size).
Qed.

Lemma run_ok es p : any_ok p -> any_ok (snd (run_entries filter es p)).
Proof.
  revert p. induction es as [|e es IH]; intros p Hp; cbn [run_entries]; [done|].
  pose proof (keeps_process filter (prefix e) (payload e) (payload_u32 e) p Hp) as Hk.
  unfold wp in Hk. destruct (process_item filter (prefix e) (payload e) p); [by apply IH|done].
Qed.

Lemma initial_laid : laid_out 0 initial_parser.
Proof.
  assert (forall r, size_at r (ParserData initial_parser) = zero_size) as Hz
    by (intros; apply default_replicate).
  constructor; try done.
  - intros r s. unfold reports. cbn. lia.
  - intros ty r Hty. unfold bits_in. rewrite Hz.
    by assert (ty = 0 \/ ty = 1 \/ ty = 2) as [->|[->| ->]] by lia.
Qed.

(** The size in bytes covers the size in bits. *)
Lemma report_size_covers d r ty :
  (r < reports d)%nat -> (reports d <= Z.to_nat HID_MAX_REPORT_IDS)%nat ->
  length (ReportIDSizes d) = Z.to_nat HID_MAX_REPORT_IDS ->
  (forall r s, (r < reports d)%nat -> (s < reports d)%nat -> name r d = name s d -> r = s) ->
  bits_in ty r d <= 8 * USB_GetHIDReportSize d (name r d) ty.
Proof.
  intros Hr Hle Hlen Hu. unfold USB_GetHIDReportSize. rewrite take_ge by lia.
  assert (forall l k, ReportIDSizes d = take k (ReportIDSizes d) ++ l -> (k <= r)%nat ->
    bits_in ty r d <= 8 * report_size_in l (name r d) ty) as Hgen.
  { induction l as [|s l IH]; intros k Hl Hk.
    - rewrite app_nil_r in Hl. apply (f_equal length) in Hl. rewrite length_take in Hl. lia.
    - assert (k < length (ReportIDSizes d))%nat as Hkl by lia.
      assert (size_at k d = s) as Hs.
      { unfold size_at. rewrite Hl, lookup_app_r by (rewrite length_take; lia).
        rewrite length_take. by replace (k - k `min` length (ReportIDSizes d))%nat with 0%nat by lia. }
      cbn [report_size_in]. destruct (Z.eqb_spec (Size_ReportID s) (name r d)) as [E|E].
      + assert (k = r) as -> by (apply Hu; [lia|done|]; unfold name at 1; by rewrite Hs).
        unfold bits_in. rewrite Hs. unfold truth.
        destruct (Z.eqb_spec (size_bits ty s mod 8) 0); cbn [negb]; zmod.
      + apply (IH (S k)).
        * rewrite Hl at 1. rewrite cons_middle, app_assoc. f_equal.
          symmetry. apply take_S_r. rewrite Hl, lookup_app_r by (rewrite length_take; lia).
          rewrite length_take. by replace (k - k `min` length (ReportIDSizes d))%nat with 0%nat by lia.
        * destruct (decide (k = r)) as [->|]; [|lia]. destruct E. unfold name. by rewrite Hs. }
  apply (Hgen _ 0%nat); [by rewrite take_0|lia].
Qed.

(** C16: The items the parser stores do not overlap.  For a descriptor without [PUSH], whose
    report IDs (if any) start before its first field and whose fields have fewer than 65536
    bits, every stored item lies inside the report of its ID and type, within the size that
    [USB_GetHIDReportSize] gives for it, and behind every item of the same report that was
    stored before it; this holds for the table as it is left by an error return too. *)
Theorem items_do_not_overlap es Report fuel :
  Forall (fun e => tag_ok (e_tag e)) es -> plain es = true ->
  holds_at Report 0 (descriptor es) ->
  Z.of_nat (length (descriptor es)) < 2 ^ 16 -> (length es < fuel)%nat ->
  exists code p,
    USB_ProcessHIDReport filter fuel Report (Z.of_nat (length (descriptor es))) = Some (code, p) /\
    (forall i it, stored (ParserData p) !! i = Some it ->
       item_end it <= 8 * USB_GetHIDReportSize (ParserData p) (Item_ReportID it) (ItemType it)) /\
    (forall i j it jt, (i < j)%nat -> stored (ParserData p) !! i = Some it ->
       stored (ParserData p) !! j = Some jt -> same_report it jt -> item_end it <= BitOffset jt).
Proof.
  intros Hes Hpl HR Hlen Hf. unfold plain in Hpl.
  apply andb_true_iff in Hpl as [[Hpush Hids]%andb_true_iff Hbits].
  destruct (run_entries filter es initial_parser) as [code p] eqn:E.
  exists code, p. unfold USB_ProcessHIDReport.
  rewrite (parse_descriptor filter es Report 0 _ _ fuel) by done. rewrite E. split; [done|].
  assert (any_ok initial_parser) as H0 by (exists 0%nat; apply initial_ok).
  pose proof (run_ok es initial_parser H0) as [m Hp]. rewrite E in Hp. cbn [snd] in Hp.
  destruct (run_laid es 0 initial_parser 0 0) as (B & Hu & _ & Hin & Hdis); try done.
  - clear -Hpush. induction es as [|e es IH]; [constructor|].
    cbn in Hpush. apply andb_true_iff in Hpush as [He Hpush].
    constructor; [|by apply IH]. apply negb_true_iff, Z.eqb_neq in He. done.
  - apply initial_laid.
  - right; right. by split.
  - rewrite Z.add_0_l. by apply Z.ltb_lt.
  - rewrite E in Hu, Hin, Hdis. cbn [snd] in *. split; [|exact Hdis].
    intros i it Hi. destruct (Hin i it Hi) as (r & Hr & Hn & He).
    pose proof (ok_info m p Hp) as Hd. pose proof (ok_reports m _ Hd).
    rewrite <- Hn. etransitivity; [exact He|].
    apply report_size_covers; [done|unfold reports; lia|apply (ok_sizes_len m _ Hd)|done].
Qed.

End Layout.

(** ** Witness *)

(** Two reports with IDs, each with keys, padding and a byte. *)
Definition two_reports : list entry :=
  [e8 HID_RI_USAGE_PAGE 1; e8 HID_RI_COLLECTION 1; e8 HID_RI_REPORT_ID 1] ++ bits 3 2 ++ bits 5 1 ++
  [e8 HID_RI_REPORT_SIZE 8; e8 HID_RI_REPORT_COUNT 1; e8 HID_RI_INPUT 2; e8 HID_RI_REPORT_ID 2] ++
  bits 4 2 ++ [Entry HID_RI_END_COLLECTION Bits0 0].

Lemma items_do_not_overlap_witness :
  exists code p,
    USB_ProcessHIDReport (J := noise) (fun _ => true) 30 (in_memory (descriptor two_reports))
      (Z.of_nat (length (descriptor two_reports))) = Some (code, p) /\
    (forall i it, stored (ParserData p) !! i = Some it ->
       item_end it <= 8 * USB_GetHIDReportSize (ParserData p) (Item_ReportID it) (ItemType it)) /\
    (forall i j it jt, (i < j)%nat -> stored (ParserData p) !! i = Some it ->
       stored (ParserData p) !! j = Some jt -> same_report it jt -> item_end it <= BitOffset jt).
Proof.
  apply (items_do_not_overlap (J := noise) (fun _ => true) two_reports).
  - apply tags_ok. reflexivity.
  - reflexivity.
  - apply in_memory_holds.
  - reflexivity.
  - cbn. lia.
Defined.
