(* ===== verification/ClassMemory.v ===== *)
(** * ClassMemory: what the memory-resident class drivers share

    The stream functions of EndpointStream.v on a buffer that lies in data memory (the byte is
    loaded or stored when it is transferred, so that an interrupt between two bytes sees and can
    change it), the request types of the class requests, and endpoint tables in memory. *)
From S2P Require Import Prelude Machine Ram Logic Endpoint EndpointStream UsbController DeviceRequests.

Definition EP_TYPE_ISOCHRONOUS := 0x01.

(** [(REQDIR_DEVICETOHOST | REQTYPE_CLASS | REQREC_INTERFACE)] and its opposite. *)
Definition class_to_host := REQDIR_DEVICETOHOST .| REQTYPE_CLASS .| REQREC_INTERFACE.
Definition class_to_device := REQDIR_HOSTTODEVICE .| REQTYPE_CLASS .| REQREC_INTERFACE.

Module ClassMemory.
Import Endpoint Stream.
Section ClassMemory.
Context {HW : Hardware} {PRE : Preempt} {FU : Fuel}.

(** The byte moved by a stream function whose [Buffer] argument is the address [p]. *)
Definition ram_write_byte (p : Z) (b : buffer) (i : Z) : M buffer :=
  v <- peek (fun m => load8 m (p + i)) ;; Endpoint_Write_8 v ;; ret b.
Definition ram_read_byte (p : Z) (b : buffer) (i : Z) : M buffer :=
  v <- Endpoint_Read_8 ;; poke (fun m => store8 m (p + i) v) ;; ret b.

(** The memory is not behind the model's [buffer] argument. *)
Definition no_buffer : buffer := fun _ => 0.

(** [Endpoint_Write_Stream_LE], [Endpoint_Read_Stream_LE] and their control versions on memory;
    the error code and, for the first two, [*BytesProcessed]. *)
Definition Write_Stream_ram (p len : Z) (BytesProcessed : option Z) : M (Z * option Z) :=
  r <- Template_Endpoint_RW (Template Endpoint_ClearIN zero_offset 1 (ram_write_byte p))
         no_buffer len BytesProcessed ;; ret r.1.
Definition Read_Stream_ram (p len : Z) (BytesProcessed : option Z) : M (Z * option Z) :=
  r <- Template_Endpoint_RW (Template Endpoint_ClearOUT zero_offset 1 (ram_read_byte p))
         no_buffer len BytesProcessed ;; ret r.1.
Definition Write_Control_Stream_ram (p len : Z) : M Z :=
  Template_Endpoint_Control_W (Template no_clear zero_offset 1 (ram_write_byte p)) no_buffer len.
Definition Read_Control_Stream_ram (p len : Z) : M Z :=
  r <- Template_Endpoint_Control_R (Template no_clear zero_offset 1 (ram_read_byte p))
         no_buffer len ;; ret r.1.

(** [Endpoint_ConfigureEndpointTable(&..., 1)] *)
Definition ConfigureTable_ram (a : Z) : M bool :=
  e <- peek (fun m => load_table m a) ;; Endpoint_ConfigureEndpointTable [e].

(** [Endpoint_SelectEndpoint(...Address)] *)
Definition SelectTable_ram (a : Z) : M unit :=
  e <- peek (fun m => load8 m (table_Address a)) ;; Endpoint_SelectEndpoint e.
(** [Endpoint_ClearSETUP], one byte of answer, status stage. *)
Definition answer_byte (v : M Z) : M unit :=
  Endpoint_ClearSETUP ;;
  spin_until Endpoint_IsINReady ;;
  b <- v ;;
  Endpoint_Write_8 b ;;
  Endpoint_ClearIN ;;
  Endpoint_ClearStatusStage.

End ClassMemory.
End ClassMemory.
