(* ===== verification/Rndis.v ===== *)
(** * Rndis: the Ethernet adapter class driver
    ([LUFA/Drivers/USB/Class/Device/RNDISClassDevice.c])

    The driver answers NDIS control messages in place: one buffer holds the message and then the
    response.  The functions that only compute on it are functions of the memory; [p] is
    [RNDISInterfaceInfo], the address of the [USB_ClassInfo_RNDIS_Device_t]. *)
From S2P Require Import Prelude Machine Ram Logic Endpoint EndpointStream UsbController DeviceRequests.
From S2P Require Import Cdc ClassMemory.

Definition RNDIS_ERROR_LOGICAL_CMD_FAILED := 0x80.
Definition REMOTE_NDIS_VERSION_MAJOR := 1.
Definition REMOTE_NDIS_VERSION_MINOR := 0.

Definition REMOTE_NDIS_PACKET_MSG := 1.
Definition REMOTE_NDIS_INITIALIZE_MSG := 2.
Definition REMOTE_NDIS_HALT_MSG := 3.
Definition REMOTE_NDIS_QUERY_MSG := 4.
Definition REMOTE_NDIS_SET_MSG := 5.
Definition REMOTE_NDIS_RESET_MSG := 6.
Definition REMOTE_NDIS_KEEPALIVE_MSG := 8.
Definition REMOTE_NDIS_INITIALIZE_CMPLT := 0x80000002.
Definition REMOTE_NDIS_QUERY_CMPLT := 0x80000004.
Definition REMOTE_NDIS_SET_CMPLT := 0x80000005.
Definition REMOTE_NDIS_RESET_CMPLT := 0x80000006.
Definition REMOTE_NDIS_KEEPALIVE_CMPLT := 0x80000008.
Definition REMOTE_NDIS_STATUS_SUCCESS := 0.
Definition REMOTE_NDIS_STATUS_NOT_SUPPORTED := 0xC00000BB.
Definition REMOTE_NDIS_MEDIA_STATE_CONNECTED := 0.
Definition REMOTE_NDIS_MEDIUM_802_3 := 0.
Definition REMOTE_NDIS_DF_CONNECTIONLESS := 1.
Definition NDIS_HardwareStatus_Ready := 0.

Definition OID_GEN_SUPPORTED_LIST := 0x00010101.
Definition OID_GEN_HARDWARE_STATUS := 0x00010102.
Definition OID_GEN_MEDIA_SUPPORTED := 0x00010103.
Definition OID_GEN_MEDIA_IN_USE := 0x00010104.
Definition OID_GEN_MAXIMUM_FRAME_SIZE := 0x00010106.
Definition OID_GEN_MAXIMUM_TOTAL_SIZE := 0x00010111.
Definition OID_GEN_LINK_SPEED := 0x00010107.
Definition OID_GEN_TRANSMIT_BLOCK_SIZE := 0x0001010A.
Definition OID_GEN_RECEIVE_BLOCK_SIZE := 0x0001010B.
Definition OID_GEN_VENDOR_ID := 0x0001010C.
Definition OID_GEN_VENDOR_DESCRIPTION := 0x0001010D.
Definition OID_GEN_CURRENT_PACKET_FILTER := 0x0001010E.
Definition OID_GEN_MEDIA_CONNECT_STATUS := 0x00010114.
Definition OID_GEN_PHYSICAL_MEDIUM := 0x00010202.
Definition OID_GEN_XMIT_OK := 0x00020101.
Definition OID_GEN_RCV_OK := 0x00020102.
Definition OID_GEN_XMIT_ERROR := 0x00020103.
Definition OID_GEN_RCV_ERROR := 0x00020104.
Definition OID_GEN_RCV_NO_BUFFER := 0x00020105.
Definition OID_802_3_PERMANENT_ADDRESS := 0x01010101.
Definition OID_802_3_CURRENT_ADDRESS := 0x01010102.
Definition OID_802_3_MULTICAST_LIST := 0x01010103.
Definition OID_802_3_MAXIMUM_LIST_SIZE := 0x01010104.
Definition OID_802_3_RCV_ERROR_ALIGNMENT := 0x01020101.
Definition OID_802_3_XMIT_ONE_COLLISION := 0x01020102.
Definition OID_802_3_XMIT_MORE_COLLISIONS := 0x01020103.

Definition RNDIS_MESSAGE_BUFFER_SIZE := 128.
Definition ETHERNET_FRAME_SIZE_MAX := 1500.

(** [enum RNDIS_ClassRequests_t], [enum RNDIS_States_t], [enum RNDIS_ClassNotifications_t] *)
Definition RNDIS_REQ_SendEncapsulatedCommand := 0.
Definition RNDIS_REQ_GetEncapsulatedResponse := 1.
Definition RNDIS_Uninitialized := 0.
Definition RNDIS_Initialized := 1.
Definition RNDIS_Data_Initialized := 2.
Definition RNDIS_NOTIF_ResponseAvailable := 1.

(** Sizes of the packed message structures. *)
Definition sizeof_Message_Header := 8.
Definition sizeof_Packet_Message := 44.
Definition sizeof_Initialize_Complete := 52.
Definition sizeof_KeepAlive_Complete := 16.
Definition sizeof_Reset_Complete := 16.
Definition sizeof_Set_Complete := 16.
Definition sizeof_Query_Complete := 24.

Definition AdapterSupportedOIDList : list Z :=
  [OID_GEN_SUPPORTED_LIST; OID_GEN_PHYSICAL_MEDIUM; OID_GEN_HARDWARE_STATUS;
   OID_GEN_MEDIA_SUPPORTED; OID_GEN_MEDIA_IN_USE; OID_GEN_MAXIMUM_FRAME_SIZE;
   OID_GEN_MAXIMUM_TOTAL_SIZE; OID_GEN_LINK_SPEED; OID_GEN_TRANSMIT_BLOCK_SIZE;
   OID_GEN_RECEIVE_BLOCK_SIZE; OID_GEN_VENDOR_ID; OID_GEN_VENDOR_DESCRIPTION;
   OID_GEN_CURRENT_PACKET_FILTER; OID_GEN_MAXIMUM_TOTAL_SIZE; OID_GEN_MEDIA_CONNECT_STATUS;
   OID_GEN_XMIT_OK; OID_GEN_RCV_OK; OID_GEN_XMIT_ERROR; OID_GEN_RCV_ERROR;
   OID_GEN_RCV_NO_BUFFER; OID_802_3_PERMANENT_ADDRESS; OID_802_3_CURRENT_ADDRESS;
   OID_802_3_MULTICAST_LIST; OID_802_3_MAXIMUM_LIST_SIZE; OID_802_3_RCV_ERROR_ALIGNMENT;
   OID_802_3_XMIT_ONE_COLLISION; OID_802_3_XMIT_MORE_COLLISIONS].

(** A sequence of 32-bit fields. *)
Definition words (ws : list Z) : list Z := mjoin (le_bytes 4 <$> ws).

Module Rndis.
Import Endpoint Stream Controller Requests ClassMemory.

(** Members of [USB_ClassInfo_RNDIS_Device_t]. *)
Definition ControlInterfaceNumber (p : Z) : Z := p.
Definition DataINEndpoint (p : Z) : Z := p + 1.
Definition DataOUTEndpoint (p : Z) : Z := p + 6.
Definition NotificationEndpoint (p : Z) : Z := p + 11.
Definition AdapterVendorDescription (p : Z) : Z := p + 16.
Definition AdapterMACAddress (p : Z) : Z := p + 18.
Definition State (p : Z) : Z := p + 24.
Definition RNDISMessageBuffer (p : Z) : Z := State p.
Definition ResponseReady (p : Z) : Z := State p + 128.
Definition CurrRNDISState (p : Z) : Z := State p + 129.
Definition CurrPacketFilter (p : Z) : Z := State p + 130.
Definition sizeof_State : Z := 134.
Definition sizeof_ClassInfo : Z := 158.

(** Members of the messages laid over the buffer: the request and completion structures agree on
    the first three. *)
Definition MessageType (a : Z) : Z := a.
Definition MessageLength (a : Z) : Z := a + 4.
Definition RequestId (a : Z) : Z := a + 8.
Definition Oid (a : Z) : Z := a + 12.
Definition msg_InformationBufferLength (a : Z) : Z := a + 16.
Definition msg_InformationBufferOffset (a : Z) : Z := a + 20.
Definition Status (a : Z) : Z := a + 12.
Definition cmplt_InformationBufferLength (a : Z) : Z := a + 16.
Definition cmplt_InformationBufferOffset (a : Z) : Z := a + 20.
Definition reset_Status (a : Z) : Z := a + 8.
Definition reset_AddressingReset (a : Z) : Z := a + 12.

(** The result of a query: memory and, unless the function returns [false], [*ResponseSize].
    [None] is [strlen] on a string without end. *)
Definition answer (m : mem) (ResponseData : Z) (bs : list Z) : option (mem * option Z) :=
  Some (store_bytes m ResponseData bs, Some (u16 (Z.of_nat (length bs)))).

Definition RNDIS_Device_ProcessNDISQuery (p OId QueryData QuerySize ResponseData : Z) (m : mem)
    : option (mem * option Z) :=
  let oid := Z.eqb OId in
  if oid OID_GEN_SUPPORTED_LIST then answer m ResponseData (words AdapterSupportedOIDList)
  else if oid OID_GEN_PHYSICAL_MEDIUM then answer m ResponseData (le_bytes 4 0)
  else if oid OID_GEN_HARDWARE_STATUS then
    answer m ResponseData (le_bytes 4 NDIS_HardwareStatus_Ready)
  else if oid OID_GEN_MEDIA_SUPPORTED || oid OID_GEN_MEDIA_IN_USE then
    answer m ResponseData (le_bytes 4 REMOTE_NDIS_MEDIUM_802_3)
  else if oid OID_GEN_VENDOR_ID then answer m ResponseData (le_bytes 4 0x00FFFFFF)
  else if oid OID_GEN_MAXIMUM_FRAME_SIZE || oid OID_GEN_TRANSMIT_BLOCK_SIZE
          || oid OID_GEN_RECEIVE_BLOCK_SIZE then
    answer m ResponseData (le_bytes 4 ETHERNET_FRAME_SIZE_MAX)
  else if oid OID_GEN_VENDOR_DESCRIPTION then
    let s := load 2 m (AdapterVendorDescription p) in
    match strlen m s with
    | None => None
    | Some n => answer m ResponseData (load_bytes m s (Z.to_nat (u16 (n + 1))))
    end
  else if oid OID_GEN_MEDIA_CONNECT_STATUS then
    answer m ResponseData (le_bytes 4 REMOTE_NDIS_MEDIA_STATE_CONNECTED)
  else if oid OID_GEN_LINK_SPEED then answer m ResponseData (le_bytes 4 100000)
  else if oid OID_802_3_PERMANENT_ADDRESS || oid OID_802_3_CURRENT_ADDRESS then
    answer m ResponseData (load_bytes m (AdapterMACAddress p) 6)
  else if oid OID_802_3_MAXIMUM_LIST_SIZE then answer m ResponseData (le_bytes 4 1)
  else if oid OID_GEN_CURRENT_PACKET_FILTER then
    answer m ResponseData (le_bytes 4 (load 4 m (CurrPacketFilter p)))
  else if oid OID_GEN_XMIT_OK || oid OID_GEN_RCV_OK || oid OID_GEN_XMIT_ERROR
          || oid OID_GEN_RCV_ERROR || oid OID_GEN_RCV_NO_BUFFER || oid OID_802_3_RCV_ERROR_ALIGNMENT
          || oid OID_802_3_XMIT_ONE_COLLISION || oid OID_802_3_XMIT_MORE_COLLISIONS then
    answer m ResponseData (le_bytes 4 0)
  else if oid OID_GEN_MAXIMUM_TOTAL_SIZE then
    answer m ResponseData (le_bytes 4 (RNDIS_MESSAGE_BUFFER_SIZE + ETHERNET_FRAME_SIZE_MAX))
  else Some (m, None).

Definition RNDIS_Device_ProcessNDISSet (p OId SetData SetSize : Z) (m : mem) : mem * bool :=
  if OId =? OID_GEN_CURRENT_PACKET_FILTER then
    let m := store 4 m (CurrPacketFilter p) (load 4 m SetData) in
    let m := store8 m (CurrRNDISState p)
               (if truth (load 4 m (CurrPacketFilter p)) then RNDIS_Data_Initialized
                else RNDIS_Initialized) in
    (m, true)
  else if OId =? OID_802_3_MULTICAST_LIST then (m, true)
  else (m, false).

Definition initialize_message (p : Z) (m : mem) : mem :=
  let a := RNDISMessageBuffer p in
  let m := store8 m (ResponseReady p) 1 in
  let m := store 4 m (MessageType a) REMOTE_NDIS_INITIALIZE_CMPLT in
  let m := store 4 m (MessageLength a) sizeof_Initialize_Complete in
  let m := store 4 m (RequestId a) (load 4 m (RequestId a)) in
  let m := store 4 m (Status a) REMOTE_NDIS_STATUS_SUCCESS in
  let m := store 4 m (a + 16) REMOTE_NDIS_VERSION_MAJOR in
  let m := store 4 m (a + 20) REMOTE_NDIS_VERSION_MINOR in
  let m := store 4 m (a + 24) REMOTE_NDIS_DF_CONNECTIONLESS in
  let m := store 4 m (a + 28) REMOTE_NDIS_MEDIUM_802_3 in
  let m := store 4 m (a + 32) 1 in
  let m := store 4 m (a + 36) (sizeof_Packet_Message + ETHERNET_FRAME_SIZE_MAX) in
  let m := store 4 m (a + 40) 0 in
  let m := store 4 m (a + 44) 0 in
  let m := store 4 m (a + 48) 0 in
  store8 m (CurrRNDISState p) RNDIS_Initialized.

Definition halt_message (p : Z) (m : mem) : mem :=
  let m := store8 m (ResponseReady p) 0 in
  let m := store 4 m (MessageLength (RNDISMessageBuffer p)) 0 in
  store8 m (CurrRNDISState p) RNDIS_Uninitialized.

Definition query_message (p : Z) (m : mem) : option mem :=
  let a := RNDISMessageBuffer p in
  let m := store8 m (ResponseReady p) 1 in
  let Query_Oid := load 4 m (Oid a) in
  let QueryData := u16 (a + sizeof_Message_Header + load 4 m (msg_InformationBufferOffset a)) in
  let ResponseData := a + sizeof_Query_Complete in
  let m := store 4 m (MessageType a) REMOTE_NDIS_QUERY_CMPLT in
  match RNDIS_Device_ProcessNDISQuery p Query_Oid QueryData
          (u16 (load 4 m (msg_InformationBufferLength a))) ResponseData m with
  | None => None
  | Some (m, Some ResponseSize) =>
      let m := store 4 m (Status a) REMOTE_NDIS_STATUS_SUCCESS in
      let m := store 4 m (MessageLength a) (u16 (sizeof_Query_Complete + ResponseSize)) in
      let m := store 4 m (cmplt_InformationBufferLength a) ResponseSize in
      Some (store 4 m (cmplt_InformationBufferOffset a)
              (sizeof_Query_Complete - sizeof_Message_Header))
  | Some (m, None) =>
      let m := store 4 m (Status a) REMOTE_NDIS_STATUS_NOT_SUPPORTED in
      let m := store 4 m (MessageLength a) sizeof_Query_Complete in
      let m := store 4 m (cmplt_InformationBufferLength a) 0 in
      Some (store 4 m (cmplt_InformationBufferOffset a) 0)
  end.

Definition set_message (p : Z) (m : mem) : mem :=
  let a := RNDISMessageBuffer p in
  let m := store8 m (ResponseReady p) 1 in
  let SET_Oid := load 4 m (Oid a) in
  let m := store 4 m (MessageType a) REMOTE_NDIS_SET_CMPLT in
  let m := store 4 m (MessageLength a) sizeof_Set_Complete in
  let m := store 4 m (RequestId a) (load 4 m (RequestId a)) in
  let SetData := u16 (a + sizeof_Message_Header + load 4 m (msg_InformationBufferOffset a)) in
  let '(m, ok) := RNDIS_Device_ProcessNDISSet p SET_Oid SetData
                    (u16 (load 4 m (msg_InformationBufferLength a))) m in
  store 4 m (Status a) (if ok : bool then REMOTE_NDIS_STATUS_SUCCESS
                        else REMOTE_NDIS_STATUS_NOT_SUPPORTED).

Definition reset_message (p : Z) (m : mem) : mem :=
  let a := RNDISMessageBuffer p in
  let m := store8 m (ResponseReady p) 1 in
  let m := store 4 m (MessageType a) REMOTE_NDIS_RESET_CMPLT in
  let m := store 4 m (MessageLength a) sizeof_Reset_Complete in
  let m := store 4 m (reset_Status a) REMOTE_NDIS_STATUS_SUCCESS in
  store 4 m (reset_AddressingReset a) 0.

Definition keepalive_message (p : Z) (m : mem) : mem :=
  let a := RNDISMessageBuffer p in
  let m := store8 m (ResponseReady p) 1 in
  let m := store 4 m (MessageType a) REMOTE_NDIS_KEEPALIVE_CMPLT in
  let m := store 4 m (MessageLength a) sizeof_KeepAlive_Complete in
  let m := store 4 m (RequestId a) (load 4 m (RequestId a)) in
  store 4 m (Status a) REMOTE_NDIS_STATUS_SUCCESS.

Definition RNDIS_Device_ProcessRNDISControlMessage (p : Z) (m : mem) : option mem :=
  let t := load 4 m (MessageType (RNDISMessageBuffer p)) in
  if t =? REMOTE_NDIS_INITIALIZE_MSG then Some (initialize_message p m)
  else if t =? REMOTE_NDIS_HALT_MSG then Some (halt_message p m)
  else if t =? REMOTE_NDIS_QUERY_MSG then query_message p m
  else if t =? REMOTE_NDIS_SET_MSG then Some (set_message p m)
  else if t =? REMOTE_NDIS_RESET_MSG then Some (reset_message p m)
  else if t =? REMOTE_NDIS_KEEPALIVE_MSG then Some (keepalive_message p m)
  else Some m.

Section Rndis.
Context {HW : Hardware} {PRE : Preempt} {FU : Fuel}.

Definition send_encapsulated_command (p : Z) : M unit :=
  Endpoint_ClearSETUP ;;
  req <- get_request ;;
  Read_Control_Stream_ram (RNDISMessageBuffer p) (wLength req) ;;
  Endpoint_ClearIN ;;
  on_ram (RNDIS_Device_ProcessRNDISControlMessage p).

Definition get_encapsulated_response (p : Z) : M unit :=
  let a := RNDISMessageBuffer p in
  n <- peek (fun m => load 4 m (MessageLength a)) ;;
  (when negb (truth n) do
     (poke (fun m => store8 m a 0) ;; poke (fun m => store 4 m (MessageLength a) 1))) ;;
  Endpoint_ClearSETUP ;;
  n <- peek (fun m => load 4 m (MessageLength a)) ;;
  Write_Control_Stream_ram a (u16 n) ;;
  Endpoint_ClearOUT ;;
  poke (fun m => store 4 m (MessageLength a) 0).

Definition RNDIS_Device_ProcessControlRequest (p : Z) : M unit :=
  setup <- Endpoint_IsSETUPReceived ;;
  if negb setup then ret tt
  else
    req <- get_request ;;
    n <- peek (fun m => load8 m (ControlInterfaceNumber p)) ;;
    if negb (wIndex req =? n) then ret tt
    else if bRequest req =? RNDIS_REQ_SendEncapsulatedCommand then
      when bmRequestType req =? class_to_device do send_encapsulated_command p
    else if bRequest req =? RNDIS_REQ_GetEncapsulatedResponse then
      when bmRequestType req =? class_to_host do get_encapsulated_response p
    else ret tt.

Definition RNDIS_Device_ConfigureEndpoints (p : Z) : M bool :=
  poke (fun m => memset m (State p) 0 (Z.to_nat sizeof_State)) ;;
  poke (fun m => store8 m (table_Type (DataINEndpoint p)) EP_TYPE_BULK) ;;
  poke (fun m => store8 m (table_Type (DataOUTEndpoint p)) EP_TYPE_BULK) ;;
  poke (fun m => store8 m (table_Type (NotificationEndpoint p)) EP_TYPE_INTERRUPT) ;;
  ok <- ConfigureTable_ram (DataINEndpoint p) ;;
  if negb ok then ret false
  else
    ok <- ConfigureTable_ram (DataOUTEndpoint p) ;;
    if negb ok then ret false
    else
      ok <- ConfigureTable_ram (NotificationEndpoint p) ;;
      if negb ok then ret false else ret true.

Definition ResponseAvailable : USB_Request_Header_t :=
  USB_Request_Header class_to_host RNDIS_NOTIF_ResponseAvailable 0 0 0.

Definition RNDIS_Device_USBTask (p : Z) : M unit :=
  d <- get_state ;;
  if decide (d = DEVICE_STATE_Configured) then
    SelectTable_ram (NotificationEndpoint p) ;;
    ready <- Endpoint_IsINReady ;;
    pending <- (if ready : bool then peek (fun m => truth (load8 m (ResponseReady p)))
                else ret false) ;;
    when pending do
      (Endpoint_Write_Stream_LE (bytes_at (Cdc.request_bytes ResponseAvailable)) 8 None ;;
       Endpoint_ClearIN ;;
       poke (fun m => store8 m (ResponseReady p) 0))
  else ret tt.

(** [(USB_DeviceState != DEVICE_STATE_Configured) || (CurrRNDISState != RNDIS_Data_Initialized)] *)
Definition no_data (p : Z) : M bool :=
  d <- get_state ;;
  if decide (d = DEVICE_STATE_Configured) then
    peek (fun m => negb (load8 m (CurrRNDISState p) =? RNDIS_Data_Initialized))
  else ret true.

Definition RNDIS_Device_IsPacketReceived (p : Z) : M bool :=
  off <- no_data p ;;
  if off : bool then ret false
  else SelectTable_ram (DataOUTEndpoint p) ;; Endpoint_IsOUTReceived.

(** [header] is what [RNDISPacketHeader] holds before it is read; [Buffer] and [PacketLength]
    are addresses. *)
Definition RNDIS_Device_ReadPacket (header : buffer) (p Buffer PacketLength : Z) : M Z :=
  off <- no_data p ;;
  if off : bool then ret ENDPOINT_RWSTREAM_DeviceDisconnected
  else
    SelectTable_ram (DataOUTEndpoint p) ;;
    poke (fun m => store 2 m PacketLength 0) ;;
    out <- Endpoint_IsOUTReceived ;;
    if negb out then ret ENDPOINT_RWSTREAM_NoError
    else
      r <- Endpoint_Read_Stream_LE header sizeof_Packet_Message None ;;
      let DataLength := le_value [u8 (r.2 12); u8 (r.2 13); u8 (r.2 14); u8 (r.2 15)] in
      if ETHERNET_FRAME_SIZE_MAX <? DataLength then
        Endpoint_StallTransaction ;;
        ret RNDIS_ERROR_LOGICAL_CMD_FAILED
      else
        poke (fun m => store 2 m PacketLength (u16 DataLength)) ;;
        n <- peek (fun m => load 2 m PacketLength) ;;
        Read_Stream_ram Buffer n None ;;
        Endpoint_ClearOUT ;;
        ret ENDPOINT_RWSTREAM_NoError.

(** The packet header: the members behind [DataLength] are cleared by [memset]. *)
Definition packet_header (PacketLength : Z) : list Z :=
  words [REMOTE_NDIS_PACKET_MSG; u16 (sizeof_Packet_Message + PacketLength);
         sizeof_Packet_Message - sizeof_Message_Header; PacketLength; 0; 0; 0; 0; 0; 0; 0].

Definition RNDIS_Device_SendPacket (p Buffer PacketLength : Z) : M Z :=
  off <- no_data p ;;
  if off : bool then ret ENDPOINT_RWSTREAM_DeviceDisconnected
  else
    SelectTable_ram (DataINEndpoint p) ;;
    ErrorCode <- Endpoint_WaitUntilReady ;;
    if negb (ErrorCode =? ENDPOINT_READYWAIT_NoError) then ret ErrorCode
    else
      Endpoint_Write_Stream_LE (bytes_at (packet_header PacketLength)) sizeof_Packet_Message None ;;
      Write_Stream_ram Buffer PacketLength None ;;
      Endpoint_ClearIN ;;
      ret ENDPOINT_RWSTREAM_NoError.
End Rndis.
End Rndis.
