(* ===== verification/RndisMessages.v ===== *)
(** * RndisMessages: the control messages of the Ethernet adapter

    An NDIS adapter as the host sees it: a response that is pending or not, the initialisation
    state and the packet filter; a command moves it to its next state and is answered by a
    message.  [control_message_refines] shows that the driver, which parses the command and
    builds the response in the same 128 bytes, implements this adapter; the exception is the
    list of supported OIDs, whose response is longer than the buffer. *)
From S2P Require Import Prelude Machine Ram Logic Endpoint EndpointStream UsbController DeviceRequests.
From S2P Require Import Cdc ClassMemory Rndis.
Import Rndis.

(** ** The adapter *)

Record adapter := Adapter {
  response_pending : bool;
  ndis_state : Z;
  packet_filter : Z }.

Inductive command :=
  | Initialize (id : Z)
  | Halt
  | Query (id oid : Z)
  | SetOid (id oid value : Z)
  | Reset
  | KeepAlive (id : Z)
  | Unknown.

Definition next (ad : adapter) (c : command) : adapter :=
  match c with
  | Initialize _ => Adapter true RNDIS_Initialized (packet_filter ad)
  | Halt => Adapter false RNDIS_Uninitialized (packet_filter ad)
  | SetOid _ oid v =>
      if oid =? OID_GEN_CURRENT_PACKET_FILTER then
        Adapter true (if truth v then RNDIS_Data_Initialized else RNDIS_Initialized) v
      else Adapter true (ndis_state ad) (packet_filter ad)
  | Unknown => ad
  | _ => Adapter true (ndis_state ad) (packet_filter ad)
  end.

(** What is known of the adapter, by OID. *)
Definition oid_table (vendor mac : list Z) (filter : Z) : list (list Z * list Z) :=
  [([OID_GEN_SUPPORTED_LIST], words AdapterSupportedOIDList);
   ([OID_GEN_VENDOR_DESCRIPTION], vendor);
   ([OID_802_3_PERMANENT_ADDRESS; OID_802_3_CURRENT_ADDRESS], mac);
   ([OID_GEN_CURRENT_PACKET_FILTER], le_bytes 4 filter);
   ([OID_GEN_MAXIMUM_FRAME_SIZE; OID_GEN_TRANSMIT_BLOCK_SIZE; OID_GEN_RECEIVE_BLOCK_SIZE],
    le_bytes 4 1500);
   ([OID_GEN_MAXIMUM_TOTAL_SIZE], le_bytes 4 1628);
   ([OID_GEN_LINK_SPEED], le_bytes 4 100000);
   ([OID_GEN_VENDOR_ID], le_bytes 4 0xFFFFFF);
   ([OID_802_3_MAXIMUM_LIST_SIZE], le_bytes 4 1);
   ([OID_GEN_PHYSICAL_MEDIUM; OID_GEN_HARDWARE_STATUS; OID_GEN_MEDIA_SUPPORTED;
     OID_GEN_MEDIA_IN_USE; OID_GEN_MEDIA_CONNECT_STATUS; OID_GEN_XMIT_OK; OID_GEN_RCV_OK;
     OID_GEN_XMIT_ERROR; OID_GEN_RCV_ERROR; OID_GEN_RCV_NO_BUFFER;
     OID_802_3_RCV_ERROR_ALIGNMENT; OID_802_3_XMIT_ONE_COLLISION;
     OID_802_3_XMIT_MORE_COLLISIONS], le_bytes 4 0)].

Definition has_oid (oid : Z) (e : list Z * list Z) : bool := existsb (Z.eqb oid) e.1.

Definition oid_value (vendor mac : list Z) (filter oid : Z) : option (list Z) :=
  snd <$> List.find (has_oid oid) (oid_table vendor mac filter).

(** The response message; [None] where the command has none. *)
Definition reply (vendor mac : list Z) (ad : adapter) (c : command) : option (list Z) :=
  match c with
  | Initialize id => Some (words [REMOTE_NDIS_INITIALIZE_CMPLT; 52; id; 0; 1; 0; 1; 0; 1; 1544; 0; 0; 0])
  | Query id oid =>
      Some match oid_value vendor mac (packet_filter ad) oid with
           | Some v =>
               let n := Z.of_nat (length v) in
               words [REMOTE_NDIS_QUERY_CMPLT; 24 + n; id; REMOTE_NDIS_STATUS_SUCCESS; n; 16] ++ v
           | None => words [REMOTE_NDIS_QUERY_CMPLT; 24; id; REMOTE_NDIS_STATUS_NOT_SUPPORTED; 0; 0]
           end
  | SetOid id oid _ =>
      Some (words [REMOTE_NDIS_SET_CMPLT; 16; id;
        if (oid =? OID_GEN_CURRENT_PACKET_FILTER) || (oid =? OID_802_3_MULTICAST_LIST)
        then REMOTE_NDIS_STATUS_SUCCESS else REMOTE_NDIS_STATUS_NOT_SUPPORTED])
  | Reset => Some (words [REMOTE_NDIS_RESET_CMPLT; 16; REMOTE_NDIS_STATUS_SUCCESS; 0])
  | KeepAlive id => Some (words [REMOTE_NDIS_KEEPALIVE_CMPLT; 16; id; REMOTE_NDIS_STATUS_SUCCESS])
  | Halt | Unknown => None
  end.

(** ** The adapter and the command in memory *)

Definition adapter_of (m : mem) (p : Z) : adapter :=
  Adapter (truth (load8 m (ResponseReady p))) (load8 m (CurrRNDISState p))
    (load 4 m (CurrPacketFilter p)).

(** The command in the message buffer; the value of a set command is where its offset says. *)
Definition command_of (m : mem) (p : Z) : command :=
  let a := RNDISMessageBuffer p in
  let word i := load 4 m (a + i) in
  let t := word 0 in
  if t =? REMOTE_NDIS_INITIALIZE_MSG then Initialize (word 8)
  else if t =? REMOTE_NDIS_HALT_MSG then Halt
  else if t =? REMOTE_NDIS_QUERY_MSG then Query (word 8) (word 12)
  else if t =? REMOTE_NDIS_SET_MSG then SetOid (word 8) (word 12) (word (8 + word 20))
  else if t =? REMOTE_NDIS_RESET_MSG then Reset
  else if t =? REMOTE_NDIS_KEEPALIVE_MSG then KeepAlive (word 8)
  else Unknown.

(** The information buffer of a set command lies behind the sixteen bytes of the response and
    in the message buffer. *)
Definition set_in_bounds (m : mem) (p : Z) : Prop :=
  8 <= load 4 m (RNDISMessageBuffer p + 20) <= 116.

(** The vendor string, with its terminator, lies outside the structure. *)
Record vendor_string (m : mem) (p : Z) (vendor : list Z) : Prop := {
  vendor_length : 1 <= Z.of_nat (length vendor) <= 104;
  vendor_inside : inside (load 2 m (AdapterVendorDescription p)) (Z.of_nat (length vendor));
  vendor_outside : let s := load 2 m (AdapterVendorDescription p) in
    s + Z.of_nat (length vendor) <= p \/ p + sizeof_ClassInfo <= s;
  vendor_bytes : load_bytes m (load 2 m (AdapterVendorDescription p)) (length vendor) = vendor;
  vendor_ends : exists cs, vendor = cs ++ [0] /\ 0 ∉ cs }.

(** ** Reading structured memory *)

Lemma words_cons w ws : words (w :: ws) = le_bytes 4 w ++ words ws.
Proof. done. Qed.

(** Evaluate loads from a sequence of stores at constant offsets from a symbolic address. *)
Ltac fields := unfold store, load, sizeof_State, sizeof_ClassInfo, ResponseReady, CurrRNDISState,
  CurrPacketFilter, RNDISMessageBuffer, State, MessageType, MessageLength, RequestId, Oid, Status,
  msg_InformationBufferLength, msg_InformationBufferOffset, cmplt_InformationBufferLength,
  cmplt_InformationBufferOffset, reset_Status, reset_AddressingReset, AdapterVendorDescription,
  AdapterMACAddress in *.
Ltac pieces := rewrite ?words_cons; change (words []) with (@nil Z); rewrite <- ?app_assoc, ?app_nil_l; repeat first [apply load_pieces; rewrite ?length_le_bytes | done]; rewrite ?le_word; loads; try done; try (f_equal; lia).
Section Msg.
Context (m : mem) (p : Z) (here : inside p sizeof_ClassInfo).

(** The parts of [control_message_refines], for one memory after the call. *)
Definition implements (vendor mac : list Z) (ad : adapter) (c : command) (m' : mem) : Prop :=
  adapter_of m' p = next ad c
  /\ (forall r, reply vendor mac ad c = Some r ->
        load_bytes m' (RNDISMessageBuffer p) (length r) = r)
  /\ (c = Halt -> load 4 m' (MessageLength (RNDISMessageBuffer p)) = 0)
  /\ (forall x, 0 <= x < 65536 -> x < State p \/ p + sizeof_ClassInfo <= x -> load8 m' x = load8 m x).

Ltac message f := unfold implements, adapter_of, f, next, reply; cbv zeta; fields;
  cbn [packet_filter ndis_state]; rewrite !store8_bytes, !load8_bytes;
  split; [loads; try done|split; [try done; try (intros r <-%(inj Some); pieces)|split; [try done; try (intros _; loads; done)|try outside]]].

Lemma initialize_ok vendor mac :
  implements vendor mac (adapter_of m p) (Initialize (load 4 m (RNDISMessageBuffer p + 8))) (initialize_message p m).
Proof. message initialize_message. Qed.
Lemma halt_ok vendor mac : implements vendor mac (adapter_of m p) Halt (halt_message p m).
Proof. message halt_message. Qed.
Lemma reset_ok vendor mac : implements vendor mac (adapter_of m p) Reset (reset_message p m).
Proof. message reset_message. Qed.
Lemma keepalive_ok vendor mac :
  implements vendor mac (adapter_of m p) (KeepAlive (load 4 m (RNDISMessageBuffer p + 8))) (keepalive_message p m).
Proof. message keepalive_message. Qed.
Lemma set_ok vendor mac : set_in_bounds m p ->
  let word i := load 4 m (RNDISMessageBuffer p + i) in
  implements vendor mac (adapter_of m p) (SetOid (word 8) (word 12) (word (8 + word 20))) (set_message p m).
Proof.
  intros Hs. cbv zeta. unfold set_in_bounds in Hs.
  unfold implements, adapter_of, set_message, next, reply. cbv zeta. fields.
  rewrite !store8_bytes, !load8_bytes. cbn [packet_filter ndis_state].
  loads. set (off := le_value (load_bytes m (p + 24 + 20) 4)) in *.
  change (u16 (p + 24 + sizeof_Message_Header + off)) with (u16 (p + 24 + 8 + off)).
  rewrite u16_small by addr. replace (p + 24 + (8 + off)) with (p + 24 + 8 + off) by lia.
  unfold RNDIS_Device_ProcessNDISSet. fields. set (oid := le_value (load_bytes m (p + 24 + 12) 4)).
  destruct (oid =? OID_GEN_CURRENT_PACKET_FILTER); cbn [orb];
    [|destruct (oid =? OID_802_3_MULTICAST_LIST)].
  all: cbv zeta; rewrite ?store8_bytes.
  2,3: (split; [loads; done|split; [intros r <-%(inj Some); pieces|split; [done|outside]]]).
  rewrite !le_word.
  set (st := [if truth _ then _ else _]).
  assert (st = [if truth (le_value (load_bytes m (p + 24 + 8 + off) 4))
                then RNDIS_Data_Initialized else RNDIS_Initialized]) as Hst
    by (unfold st; loads; done).
  clearbody st. assert (Forall is_u8 st) by (rewrite Hst; destruct (truth _); bytes).
  assert (length st = 1%nat) as Hl by (by rewrite Hst).
  split; [loads; by rewrite Hst|split; [intros r <-%(inj Some); pieces|split; [done|outside]]].
Qed.

(** What the query function answers with, in a memory that agrees with [m] on the
    configuration and the filter. *)
Lemma query_value vendor m1 oid q z r :
  vendor_string m1 p vendor ->
  RNDIS_Device_ProcessNDISQuery p oid q z r m1
  = match oid_value vendor (load_bytes m1 (AdapterMACAddress p) 6) (load 4 m1 (CurrPacketFilter p)) oid with
    | Some v => answer m1 r v | None => Some (m1, None) end.
Proof.
  intros [Hl Hi _ Hb (cs & Ec & Hc)].
  assert (strlen m1 (load 2 m1 (AdapterVendorDescription p)) = Some (Z.of_nat (length cs))) as Hs.
  { apply (strlen_ok _ m1 _ 0 cs); [|done|by rewrite <- Ec]. rewrite Ec, length_app in Hl. cbn in Hl. lia. }
  assert (Z.to_nat (u16 (Z.of_nat (length cs) + 1)) = length vendor) as Hn.
  { rewrite Ec, length_app in *. cbn in *. rewrite u16_small by lia. lia. }
  unfold RNDIS_Device_ProcessNDISQuery. rewrite Hs, Hn, Hb.
  set (mac := load_bytes _ _ 6). set (f := load 4 _ _).
  clearbody mac f. clear Hs Hn Hb Hl Hi Ec Hc.
  unfold oid_value, oid_table, has_oid. cbn [List.find existsb fst snd].
  assert (forall x y, oid = x -> (oid =? y) = (x =? y)) as Heq by (by intros x y ->).
  repeat match goal with |- context [oid =? ?x] =>
    destruct (Z.eqb_spec oid x) as [->|?]; [cbn -[answer le_bytes words]; done|]
  end.
  done.
Qed.

(** Every answer but the list of OIDs fits behind the header of the response. *)
Lemma oid_value_fits vendor mac f oid v : oid <> OID_GEN_SUPPORTED_LIST ->
  oid_value vendor mac f oid = Some v -> Forall is_u8 vendor -> Forall is_u8 mac ->
  (length vendor <= 104)%nat -> (length mac <= 104)%nat -> Forall is_u8 v /\ (length v <= 104)%nat.
Proof.
  intros Ho H Hv Hm Lv Lm. unfold oid_value, oid_table in H. cbn [List.find] in H.
  destruct (has_oid oid ([OID_GEN_SUPPORTED_LIST], _)) eqn:E.
  { unfold has_oid in E. cbn [existsb fst] in E. rewrite orb_false_r in E. by apply Z.eqb_eq in E. }
  clear E. repeat (case_match; [cbv [fmap option_fmap option_map snd] in H; apply (inj Some) in H as <-; split; [first [done|bytes]|rewrite ?length_le_bytes; lia]|]).
  done.
Qed.

Lemma query_ok vendor :
  vendor_string m p vendor -> load 4 m (RNDISMessageBuffer p + 12) <> OID_GEN_SUPPORTED_LIST ->
  let word i := load 4 m (RNDISMessageBuffer p + i) in
  exists m', query_message p m = Some m'
  /\ implements vendor (load_bytes m (AdapterMACAddress p) 6) (adapter_of m p) (Query (word 8) (word 12)) m'.
Proof.
  intros Hv Ho. cbv zeta. unfold query_message. cbv zeta.
  pose proof (vendor_length _ _ _ Hv) as Hl.
  set (m1 := store 4 (store8 m _ _) _ _).
  assert (vendor_string m1 p vendor) as Hv1.
  { destruct Hv as [H1 H2 H3 H4 H5]. unfold m1. rewrite store8_bytes. 
    assert (load 2 (store 4 (store_bytes m (ResponseReady p) [1]) (MessageType (RNDISMessageBuffer p)) REMOTE_NDIS_QUERY_CMPLT)
        (AdapterVendorDescription p) = load 2 m (AdapterVendorDescription p)) as E.
    { fields. loads. done. }
    split; rewrite ?E; try done. rewrite <- H4 at 2. fields. loads. done. }
  rewrite (query_value vendor _ _ _ _ _ Hv1).
  assert (load_bytes m1 (AdapterMACAddress p) 6 = load_bytes m (AdapterMACAddress p) 6) as ->.
  { unfold m1. rewrite store8_bytes. fields. loads. done. }
  assert (load 4 m1 (CurrPacketFilter p) = load 4 m (CurrPacketFilter p)) as ->.
  { unfold m1. rewrite store8_bytes. fields. loads. done. }
  assert (load 4 (store8 m (ResponseReady p) 1) (Oid (RNDISMessageBuffer p)) = load 4 m (RNDISMessageBuffer p + 12)) as ->.
  { rewrite store8_bytes. fields. loads. done. }
  set (mac := load_bytes m (AdapterMACAddress p) 6).
  assert (Forall is_u8 vendor) as Hu by (rewrite <- (vendor_bytes _ _ _ Hv); bytes).
  unfold implements, next, reply. cbn [packet_filter adapter_of ndis_state].
  destruct (oid_value vendor mac _ _) as [v|] eqn:E.
  - destruct (oid_value_fits _ _ _ _ _ Ho E Hu) as [Hvu Hvl]; [apply load_bytes_u8|lia|by unfold mac; rewrite length_load_bytes; lia|].
    unfold answer. eexists. split; [done|]. rewrite (u16_small (Z.of_nat (length v))) by lia.
    change (sizeof_Query_Complete + Z.of_nat (length v)) with (24 + Z.of_nat (length v)).
    rewrite u16_small by lia. unfold m1, adapter_of, sizeof_Query_Complete. rewrite store8_bytes, !load8_bytes. clear Hv1 m1. fields.
    split; [loads; done|split; [intros r <-%(inj Some); pieces|split; [done|outside]]].
  - eexists. split; [done|]. unfold m1, adapter_of. rewrite store8_bytes, !load8_bytes. clear Hv1 m1. fields.
    split; [loads; done|split; [intros r <-%(inj Some); pieces|split; [done|outside]]].
Qed.

Lemma unknown_ok vendor mac : implements vendor mac (adapter_of m p) Unknown m.
Proof. done. Qed.
End Msg.

(** The three hypotheses under which a message stays inside the buffer. *)
Section Message.
Context (m : mem) (p : Z) (vendor : list Z).
Context (here : inside p sizeof_ClassInfo) (has_vendor : vendor_string m p vendor).

Lemma message_implements :
  (forall id oid v, command_of m p = SetOid id oid v -> set_in_bounds m p) ->
  (forall id, command_of m p <> Query id OID_GEN_SUPPORTED_LIST) ->
  exists m', RNDIS_Device_ProcessRNDISControlMessage p m = Some m'
    /\ implements m p vendor (load_bytes m (AdapterMACAddress p) 6) (adapter_of m p) (command_of m p) m'.
Proof.
  intros Hset Hq. unfold RNDIS_Device_ProcessRNDISControlMessage, command_of in *.
  change (MessageType (RNDISMessageBuffer p)) with (RNDISMessageBuffer p).
  cbv zeta in *. rewrite Z.add_0_r in *.
  repeat case_match.
  all: try (eexists; split; [done|]).
  - by apply initialize_ok.
  - by apply halt_ok.
  - apply query_ok; [done|done|]. intros E. by eapply Hq; rewrite E.
  - apply set_ok; [done|]. by eapply Hset.
  - by apply reset_ok.
  - by apply keepalive_ok.
  - by apply unknown_ok.
Qed.
End Message.

Lemma words_app xs ys : words (xs ++ ys) = words xs ++ words ys.
Proof. unfold words. by rewrite fmap_app, join_app. Qed.

(** The bytes of the list from its 105th on lie behind the buffer. *)
Lemma supported_list_split :
  words AdapterSupportedOIDList = take 104 (words AdapterSupportedOIDList) ++ [3] ++ [1] ++ [2; 1].
Proof. vm_compute. reflexivity. Qed.

Lemma low_half_replaced b0 b1 b2 b3 : is_u8 b0 -> is_u8 b1 -> is_u8 b2 -> is_u8 b3 ->
  le_value [2; 1; b2; b3] = le_value [b0; b1; b2; b3] / 65536 * 65536 + 0x0102.
Proof.
  intros. unfold le_value. rewrite !lor_shiftl8 by (done || by vm_compute). unfold is_u in *. zmod.
Qed.

Lemma supported_list_effect m p id :
  inside p sizeof_ClassInfo -> command_of m p = Query id OID_GEN_SUPPORTED_LIST ->
  exists m', RNDIS_Device_ProcessRNDISControlMessage p m = Some m'
    /\ load_bytes m' (RNDISMessageBuffer p) 132
       = words ([REMOTE_NDIS_QUERY_CMPLT; 132; id; REMOTE_NDIS_STATUS_SUCCESS; 108; 16]
                ++ AdapterSupportedOIDList)
    /\ adapter_of m' p = Adapter true RNDIS_Initialized
         (packet_filter (adapter_of m p) / 65536 * 65536 + 0x0102)
    /\ (forall x, 0 <= x < 65536 -> x < State p \/ p + sizeof_ClassInfo <= x -> load8 m' x = load8 m x).
Proof.
  intros Hp Hc. unfold RNDIS_Device_ProcessRNDISControlMessage, command_of in *. 
  change (MessageType (RNDISMessageBuffer p)) with (RNDISMessageBuffer p).
  cbv zeta in *. rewrite Z.add_0_r in *. repeat (case_match; try done). injection Hc as <- Hoid.
  unfold query_message. cbv zeta.
  assert (load 4 (store8 m (ResponseReady p) 1) (Oid (RNDISMessageBuffer p)) = OID_GEN_SUPPORTED_LIST) as ->.
  { rewrite <- Hoid, store8_bytes. fields. loads. done. }
  unfold RNDIS_Device_ProcessNDISQuery, answer. rewrite Z.eqb_refl.
  change (u16 (Z.of_nat (length (words AdapterSupportedOIDList)))) with 108.
  change (u16 (sizeof_Query_Complete + 108)) with 132. change sizeof_Query_Complete with 24.
  eexists. split; [done|]. rewrite store8_bytes. split; [|split].
  - assert (length (words AdapterSupportedOIDList) = 108%nat) as Hl by done.
    assert (Forall is_u8 (words AdapterSupportedOIDList)) as Hu by bytes.
    change 132%nat with (length (words ([REMOTE_NDIS_QUERY_CMPLT; 132;
      load 4 m (RNDISMessageBuffer p + 8); REMOTE_NDIS_STATUS_SUCCESS; 108; 16] ++ AdapterSupportedOIDList))).
    rewrite words_app.
    set (v := words AdapterSupportedOIDList) in *. clearbody v.
    fields.
    pieces. 
  - rewrite supported_list_split, !store_bytes_app. 
    set (v := take 104 _). assert (length v = 104%nat) as Hl by done.
    assert (Forall is_u8 v) as Hu by bytes. clearbody v.
    rewrite Hl. cbn [length].
    unfold adapter_of. rewrite !load8_bytes. fields. 
    change 4%nat with (2 + 2)%nat at 8. rewrite !(load_bytes_app _ _ 2 2). loads.
    f_equal. apply low_half_replaced; apply load8_u8.
  - assert (length (words AdapterSupportedOIDList) = 108%nat) by done. fields. outside.
Qed.

(** Data transfer is enabled with a packet filter only. *)
Definition filtered (ad : adapter) : Prop :=
  ndis_state ad = RNDIS_Data_Initialized -> packet_filter ad <> 0.

Lemma next_filtered ad c : filtered ad -> filtered (next ad c).
Proof.
  unfold filtered. destruct c; cbn; try done; case_match; cbn; try done.
  intros _ Hv ->. done.
Qed.

(** A set command keeps it wherever its data lies. *)
Lemma set_filtered m p : inside p sizeof_ClassInfo -> filtered (adapter_of m p) ->
  filtered (adapter_of (set_message p m) p).
Proof.
  intros Hp H. unfold set_message. cbv zeta. set (m1 := store 4 (store 4 _ _ _) _ _).
  assert (adapter_of m1 p = Adapter true (ndis_state (adapter_of m p)) (packet_filter (adapter_of m p))) as E.
  { unfold m1, adapter_of. rewrite !store8_bytes, !load8_bytes. fields. loads. done. }
  set (d := u16 _). clearbody d. set (z := u16 _). clearbody z.
  set (oid := load 4 _ (Oid _)). clearbody oid. clearbody m1.
  unfold RNDIS_Device_ProcessNDISSet. unfold filtered in *.
  destruct (oid =? OID_GEN_CURRENT_PACKET_FILTER); [|destruct (oid =? OID_802_3_MULTICAST_LIST)].
  - cbv zeta. set (m2 := store 4 m1 (CurrPacketFilter p) _). clearbody m2.
    unfold adapter_of. cbn [ndis_state packet_filter]. rewrite !store8_bytes, !load8_bytes.
    set (st := [if _ : bool then _ else _]).
    assert (length st = 1%nat /\ Forall is_u8 st) as [Hl Hu] by (unfold st; destruct (truth _); split; [done|bytes|done|bytes]).
    assert (default 0 (head st) = RNDIS_Data_Initialized -> load 4 m2 (CurrPacketFilter p) <> 0) as Hst.
    { unfold st, truth. by destruct (Z.eqb_spec (load 4 m2 (CurrPacketFilter p)) 0). }
    clearbody st. fields. loads. done.
  - enough (adapter_of (store 4 m1 (Status (RNDISMessageBuffer p)) REMOTE_NDIS_STATUS_SUCCESS) p
            = adapter_of m1 p) as -> by (by rewrite E).
    unfold adapter_of. rewrite !load8_bytes. fields. loads. done.
  - enough (adapter_of (store 4 m1 (Status (RNDISMessageBuffer p)) REMOTE_NDIS_STATUS_NOT_SUPPORTED) p
            = adapter_of m1 p) as -> by (by rewrite E).
    unfold adapter_of. rewrite !load8_bytes. fields. loads. done.
Qed.

(** Writes inside the state leave the configuration and the vendor string in place. *)
Definition state_only (p : Z) (m m' : mem) : Prop :=
  forall x, 0 <= x < 65536 -> x < State p \/ p + sizeof_ClassInfo <= x -> load8 m' x = load8 m x.

Lemma vendor_kept p m m' vendor : inside p sizeof_ClassInfo -> state_only p m m' ->
  vendor_string m p vendor -> vendor_string m' p vendor.
Proof.
  intros Hp Hf [H1 H2 H3 H4 H5]. unfold state_only in Hf. fields.
  assert (load_bytes m' (p + 16) 2 = load_bytes m (p + 16) 2) as E.
  { apply load_bytes_ext; [addr|]. intros x Hx. apply Hf; addr. }
  split; fields; rewrite ?E; try done.
  rewrite <- H4 at 2. apply load_bytes_ext; [done|]. intros x Hx. apply Hf; addr.
Qed.

Lemma set_state_only p m : inside p sizeof_ClassInfo -> state_only p m (set_message p m).
Proof.
  intros Hp. unfold set_message, RNDIS_Device_ProcessNDISSet, state_only. cbv zeta.
  set (d := u16 _). clearbody d. set (oid := load 4 _ (Oid _)). clearbody oid.
  destruct (oid =? OID_GEN_CURRENT_PACKET_FILTER); [|destruct (oid =? OID_802_3_MULTICAST_LIST)];
    rewrite !store8_bytes; fields; outside.
Qed.

(** Every message, also one whose set command points outside the buffer. *)
Lemma message_effect m p vendor : inside p sizeof_ClassInfo -> vendor_string m p vendor ->
  filtered (adapter_of m p) ->
  exists m', RNDIS_Device_ProcessRNDISControlMessage p m = Some m'
    /\ filtered (adapter_of m' p) /\ state_only p m m'.
Proof.
  intros Hp Hv Hf. destruct (command_of m p) eqn:Hc.
  4: { exists (set_message p m). split; [|by auto using set_filtered, set_state_only].
       unfold RNDIS_Device_ProcessRNDISControlMessage, command_of in *.
       change (MessageType (RNDISMessageBuffer p)) with (RNDISMessageBuffer p).
       cbv zeta in *. rewrite Z.add_0_r in *. by repeat (case_match; try done). }
  3: destruct (decide (oid = OID_GEN_SUPPORTED_LIST)) as [->|Ho].
  3: { destruct (supported_list_effect m p id Hp Hc) as (m' & E & _ & A & F).
       exists m'. rewrite A. done. }
  all: destruct (message_implements m p vendor Hp Hv) as (m' & E & A & _ & _ & F);
    [by rewrite Hc|by rewrite Hc; first [done|intros ? [= ?]]|].
  all: exists m'; rewrite A; by auto using next_filtered.
Qed.

(** A session: each message is received into the buffer and processed. *)
Fixpoint session (p : Z) (messages : list (list Z)) (m : mem) : option mem :=
  match messages with
  | [] => Some m
  | b :: bs =>
      match RNDIS_Device_ProcessRNDISControlMessage p (store_bytes m (RNDISMessageBuffer p) b) with
      | Some m' => session p bs m'
      | None => None
      end
  end.

Lemma session_filtered p messages vendor m :
  inside p sizeof_ClassInfo -> vendor_string m p vendor -> filtered (adapter_of m p) ->
  Forall (fun b => Z.of_nat (length b) <= RNDIS_MESSAGE_BUFFER_SIZE) messages ->
  exists m', session p messages m = Some m' /\ filtered (adapter_of m' p) /\ state_only p m m'.
Proof.
  intros Hp Hv Hf Hm. revert m Hv Hf. induction Hm as [|b bs Hb _ IH]; intros m Hv Hf.
  { by exists m. }
  cbn [session]. unfold RNDIS_MESSAGE_BUFFER_SIZE in Hb.
  set (m1 := store_bytes m (RNDISMessageBuffer p) b).
  assert (state_only p m m1) as H1 by (unfold m1, state_only; fields; outside).
  assert (adapter_of m1 p = adapter_of m p) as E.
  { unfold m1, adapter_of. rewrite !load8_bytes. fields. loads. done. }
  destruct (message_effect m1 p vendor) as (m2 & -> & H2 & H3);
    [done|by eapply vendor_kept|by rewrite E|].
  destruct (IH m2) as (m3 & -> & H4 & H5); [|done|].
  { eapply vendor_kept; [done|exact H3|]. by eapply vendor_kept. }
  exists m3. split; [done|]. split; [done|]. intros x Hx Ho. by rewrite H5, H3, H1.
Qed.

(** ** Claims *)

(** C20: the driver, which decodes the command in its message buffer and builds the response over
    it, implements the adapter: whatever the buffer holds, the new state is [next], the buffer
    starts with [reply] (the request's id echoed, lengths and offsets of the actual contents,
    unknown OIDs refused), a halt leaves no response, and nothing outside the driver's state is
    written.  The vendor string has to fit the buffer, the data of a set command has to lie
    behind the response, and the query for the list of OIDs is excluded. *)
Theorem control_message_refines m p vendor :
  inside p sizeof_ClassInfo -> vendor_string m p vendor ->
  (forall id oid v, command_of m p = SetOid id oid v -> set_in_bounds m p) ->
  (forall id, command_of m p <> Query id OID_GEN_SUPPORTED_LIST) ->
  let ad := adapter_of m p in
  let c := command_of m p in
  let mac := load_bytes m (AdapterMACAddress p) 6 in
  exists m', RNDIS_Device_ProcessRNDISControlMessage p m = Some m'
    /\ adapter_of m' p = next ad c
    /\ (forall r, reply vendor mac ad c = Some r ->
          load_bytes m' (RNDISMessageBuffer p) (length r) = r)
    /\ (c = Halt -> load 4 m' (MessageLength (RNDISMessageBuffer p)) = 0)
    /\ (forall x, 0 <= x < 65536 -> x < State p \/ p + sizeof_ClassInfo <= x ->
          load8 m' x = load8 m x).
Proof. intros. by apply message_implements. Qed.

(** the response to the query for the supported OIDs is 132 bytes long and is built in a
    buffer of 128: its last four bytes overwrite the members behind the buffer.  The response is
    complete, but whatever state the adapter was in it is [RNDIS_Initialized] afterwards, without
    data transfer, and the low half of the packet filter is 0x0102. *)
Theorem supported_list_overflows m p id :
  inside p sizeof_ClassInfo -> command_of m p = Query id OID_GEN_SUPPORTED_LIST ->
  exists m', RNDIS_Device_ProcessRNDISControlMessage p m = Some m'
    /\ load_bytes m' (RNDISMessageBuffer p) 132
       = words ([REMOTE_NDIS_QUERY_CMPLT; 132; id; REMOTE_NDIS_STATUS_SUCCESS; 108; 16]
                ++ AdapterSupportedOIDList)
    /\ adapter_of m' p = Adapter true RNDIS_Initialized
         (packet_filter (adapter_of m p) / 65536 * 65536 + 0x0102)
    /\ (forall x, 0 <= x < 65536 -> x < State p \/ p + sizeof_ClassInfo <= x -> load8 m' x = load8 m x).
Proof. apply supported_list_effect. Qed.

(** C21: over any sequence of control messages of at most 128 bytes, whatever they contain,
    processing returns, writes nothing outside the driver's state, and keeps the invariant that
    the adapter transfers data only while a packet filter is set. *)
Theorem data_transfer_needs_filter p messages vendor m :
  inside p sizeof_ClassInfo -> vendor_string m p vendor -> filtered (adapter_of m p) ->
  Forall (fun b => Z.of_nat (length b) <= RNDIS_MESSAGE_BUFFER_SIZE) messages ->
  exists m', session p messages m = Some m' /\ filtered (adapter_of m' p)
    /\ (forall x, 0 <= x < 65536 -> x < State p \/ p + sizeof_ClassInfo <= x ->
          load8 m' x = load8 m x).
Proof. apply session_filtered. Qed.

(** ** A concrete adapter at 0x100, its vendor string at 0x300 *)

Definition demo_vendor : list Z := [76; 85; 70; 65; 0].
Definition demo_adapter (message : list Z) : mem :=
  store_bytes (store_bytes (store 2 (fun _ => 0) (AdapterVendorDescription 0x100) 0x300)
    0x300 demo_vendor) (RNDISMessageBuffer 0x100) message.

Lemma demo_inside : inside 0x100 sizeof_ClassInfo.
Proof. vm_compute. by split. Qed.

Lemma demo_vendor_string b : Z.of_nat (length b) <= 128 -> vendor_string (demo_adapter b) 0x100 demo_vendor.
Proof.
  intros Hb. assert (load_bytes (demo_adapter b) 0x300 5 = demo_vendor) as Hs.
  { unfold demo_adapter. fields. rewrite load_bytes_disjoint by addr. vm_compute. reflexivity. }
  assert (load 2 (demo_adapter b) (AdapterVendorDescription 0x100) = 0x300) as Ha.
  { unfold demo_adapter. fields. rewrite load_bytes_disjoint by addr. vm_compute. reflexivity. }
  split; rewrite ?Ha; [by vm_compute|by vm_compute|by right|done|].
  exists [76; 85; 70; 65]. split; [done|]. intros H%list_elem_of_In. cbn in H. lia.
Qed.

Lemma control_message_refines_witness :
  exists m', RNDIS_Device_ProcessRNDISControlMessage 0x100
      (demo_adapter (words [REMOTE_NDIS_QUERY_MSG; 28; 7; OID_GEN_VENDOR_DESCRIPTION; 0; 0; 0])) = Some m'
    /\ load_bytes m' (RNDISMessageBuffer 0x100) 29
       = words [REMOTE_NDIS_QUERY_CMPLT; 29; 7; REMOTE_NDIS_STATUS_SUCCESS; 5; 16] ++ demo_vendor.
Proof.
  set (m := demo_adapter _).
  assert (command_of m 0x100 = Query 7 OID_GEN_VENDOR_DESCRIPTION) as Hc by (vm_compute; reflexivity).
  destruct (control_message_refines m 0x100 demo_vendor) as (m' & E & _ & R & _).
  - exact demo_inside.
  - by apply demo_vendor_string.
  - rewrite Hc. discriminate.
  - rewrite Hc. discriminate.
  - exists m'. split; [exact E|].
    refine (R (words [_; _; _; _; _; _] ++ demo_vendor) _). rewrite Hc. vm_compute. reflexivity.
Defined.

Lemma supported_list_overflows_witness :
  exists m', RNDIS_Device_ProcessRNDISControlMessage 0x100
      (store8 (demo_adapter (words [REMOTE_NDIS_QUERY_MSG; 28; 7; OID_GEN_SUPPORTED_LIST; 0; 0; 0]))
         (CurrRNDISState 0x100) RNDIS_Data_Initialized) = Some m'
    /\ adapter_of m' 0x100 = Adapter true RNDIS_Initialized 0x0102.
Proof.
  set (m := store8 _ _ _).
  assert (command_of m 0x100 = Query 7 OID_GEN_SUPPORTED_LIST) as Hc by (vm_compute; reflexivity).
  destruct (supported_list_overflows m 0x100 7 demo_inside Hc) as (m' & E & _ & A & _).
  exists m'. split; [exact E|]. rewrite A. vm_compute. reflexivity.
Defined.

(** Initialise, then set the packet filter to 9. *)
Lemma data_transfer_needs_filter_witness :
  exists m', session 0x100
      [words [REMOTE_NDIS_INITIALIZE_MSG; 24; 1; 1; 0; 0x4000];
       words [REMOTE_NDIS_SET_MSG; 32; 2; OID_GEN_CURRENT_PACKET_FILTER; 4; 20; 0; 9]]
      (demo_adapter []) = Some m' /\ filtered (adapter_of m' 0x100)
    /\ adapter_of m' 0x100 = Adapter true RNDIS_Data_Initialized 9.
Proof.
  set (ms := [_; _]).
  destruct (data_transfer_needs_filter 0x100 ms demo_vendor (demo_adapter [])) as (m' & E & F & _).
  - exact demo_inside.
  - by apply demo_vendor_string.
  - intros H. vm_compute in H. discriminate.
  - repeat constructor; vm_compute; discriminate.
  - exists m'. split; [exact E|]. split; [exact F|].
    assert (adapter_of (default (fun _ => 0) (session 0x100 ms (demo_adapter []))) 0x100
            = Adapter true RNDIS_Data_Initialized 9) as A by (vm_compute; reflexivity).
    by rewrite E in A.
Defined.
