(* ===== verification/Network.v ===== *)
(** * Network: frames, addresses and the stateless protocols of the RNDIS demo
    ([Demos/Device/ClassDriver/RNDISEthernet/Lib])

    The demo is a web server behind the Ethernet adapter of Rndis.v.  A received frame lies in
    one buffer and the answer is built in another; the protocol handlers lay their header
    structures over both, so they are functions of the memory (Ram.v) and of the addresses they
    are called with.  The scalars of a header are in network order, and the code swaps them where
    it computes with them.  A [const] object that is only compared or copied is the list of its
    bytes.  The plain-text decoders are switched off in Config/AppConfig.h.

    This file has the structures, Ethernet_Checksum16, ARP, ICMP, DHCP and UDP. *)
From S2P Require Import Prelude Machine Ram.

(** ** Byte order ([Common/Endianness.h]) *)

Definition SwapEndian_16 (Word : Z) : Z := le_value (reverse (le_bytes 2 Word)).
Definition SwapEndian_32 (DWord : Z) : Z := le_value (reverse (le_bytes 4 DWord)).

Module Net.

(** ** Addresses and constants *)

Definition ServerMACAddress : list Z := [0x00; 0x01; 0x00; 0x01; 0x00; 0x01].
Definition BroadcastMACAddress : list Z := [0xFF; 0xFF; 0xFF; 0xFF; 0xFF; 0xFF].
Definition ServerIPAddress : list Z := [10; 0; 0; 2].
Definition BroadcastIPAddress : list Z := [0xFF; 0xFF; 0xFF; 0xFF].
Definition ClientIPAddress : list Z := [10; 0; 0; 1].
(** The host's end of the adapter, which TCP_TCPTask writes out. *)
Definition AdapterMACAddress : list Z := [0x02; 0x00; 0x02; 0x00; 0x02; 0x00].

Definition ETHERTYPE_IPV4 := 0x0800.
Definition ETHERTYPE_ARP := 0x0806.
Definition PROTOCOL_ICMP := 1.
Definition PROTOCOL_TCP := 6.
Definition PROTOCOL_UDP := 17.
Definition ETHERNET_VER2_MINSIZE := 0x0600.
Definition NO_RESPONSE := 0.
Definition NO_PROCESS := -1.
Definition DEFAULT_TTL := 128.

(** [MAC_COMPARE] and [IP_COMPARE]: [memcmp] of an address in memory with a known one. *)
Definition MAC_COMPARE (m : mem) (a : Z) (mac : list Z) : bool := bool_decide (load_bytes m a 6 = mac).
Definition IP_COMPARE (m : mem) (a : Z) (ip : list Z) : bool := bool_decide (load_bytes m a 4 = ip).

(** Structure assignment, [memcpy] and [memmove]: the source is read before anything is written. *)
Definition copy (m : mem) (dst src : Z) (n : nat) : mem := store_bytes m dst (load_bytes m src n).

(** ** Structures: the address of a member from the address of the structure *)

(** [Ethernet_Frame_Info_t] *)
Definition FrameData (f : Z) : Z := f.
Definition FrameLength (f : Z) : Z := f + 1500.
Definition sizeof_Frame_Info := 1502.

(** [Ethernet_Frame_Header_t] *)
Definition eth_Destination (h : Z) : Z := h.
Definition eth_Source (h : Z) : Z := h + 6.
Definition eth_EtherType (h : Z) : Z := h + 12.
Definition sizeof_Ethernet_Header := 14.

(** [ARP_Header_t] *)
Definition arp_HardwareType (h : Z) : Z := h.
Definition arp_ProtocolType (h : Z) : Z := h + 2.
Definition arp_HLEN (h : Z) : Z := h + 4.
Definition arp_PLEN (h : Z) : Z := h + 5.
Definition arp_Operation (h : Z) : Z := h + 6.
Definition arp_SHA (h : Z) : Z := h + 8.
Definition arp_SPA (h : Z) : Z := h + 14.
Definition arp_THA (h : Z) : Z := h + 18.
Definition arp_TPA (h : Z) : Z := h + 24.
Definition sizeof_ARP_Header := 28.

(** [IP_Header_t]; the first byte has HeaderLength in its low and Version in its high half, the
    word at 6 FragmentOffset in its low 13 bits and Flags above. *)
Definition ip_HeaderLength (h : Z) : Z := h.
Definition ip_Version (h : Z) : Z := h.
Definition ip_TypeOfService (h : Z) : Z := h + 1.
Definition ip_TotalLength (h : Z) : Z := h + 2.
Definition ip_Identification (h : Z) : Z := h + 4.
Definition ip_FragmentOffset (h : Z) : Z := h + 6.
Definition ip_Flags (h : Z) : Z := h + 6.
Definition ip_TTL (h : Z) : Z := h + 8.
Definition ip_Protocol (h : Z) : Z := h + 9.
Definition ip_HeaderChecksum (h : Z) : Z := h + 10.
Definition ip_SourceAddress (h : Z) : Z := h + 12.
Definition ip_DestinationAddress (h : Z) : Z := h + 16.
Definition sizeof_IP_Header := 20.

(** [ICMP_Header_t] *)
Definition icmp_Type (h : Z) : Z := h.
Definition icmp_Code (h : Z) : Z := h + 1.
Definition icmp_Checksum (h : Z) : Z := h + 2.
Definition icmp_Id (h : Z) : Z := h + 4.
Definition icmp_Sequence (h : Z) : Z := h + 6.
Definition sizeof_ICMP_Header := 8.

(** [UDP_Header_t] *)
Definition udp_SourcePort (h : Z) : Z := h.
Definition udp_DestinationPort (h : Z) : Z := h + 2.
Definition udp_Length (h : Z) : Z := h + 4.
Definition udp_Checksum (h : Z) : Z := h + 6.
Definition sizeof_UDP_Header := 8.

(** [DHCP_Header_t] *)
Definition dhcp_Operation (h : Z) : Z := h.
Definition dhcp_HardwareType (h : Z) : Z := h + 1.
Definition dhcp_HardwareAddressLength (h : Z) : Z := h + 2.
Definition dhcp_Hops (h : Z) : Z := h + 3.
Definition dhcp_TransactionID (h : Z) : Z := h + 4.
Definition dhcp_ElapsedSeconds (h : Z) : Z := h + 8.
Definition dhcp_Flags (h : Z) : Z := h + 10.
Definition dhcp_YourIP (h : Z) : Z := h + 16.
Definition dhcp_ClientHardwareAddress (h : Z) : Z := h + 28.
Definition dhcp_Cookie (h : Z) : Z := h + 236.
Definition sizeof_DHCP_Header := 240.

(** Bit fields of [w] bits at bit [lo] of an [n]-byte unit. *)
Definition load_field (n : nat) (lo w : Z) (m : mem) (a : Z) : Z := (load n m a .>> lo) .& Z.ones w.
Definition store_field (n : nat) (lo w : Z) (m : mem) (a v : Z) : mem :=
  store n m a (load n m a .&~ (Z.ones w .<< lo) .| ((v .& Z.ones w) .<< lo)).

(** ** Ethernet_Checksum16 *)

(** [for (CurrWord = 0; CurrWord < n; CurrWord++) Checksum += Words[CurrWord]] *)
Fixpoint sum_words (m : mem) (a : Z) (n : nat) (Checksum : Z) : Z :=
  match n with
  | O => Checksum
  | S n' => sum_words m (a + 2) n' (u32 (Checksum + load 2 m a))
  end.

(** [while (Checksum & 0xFFFF0000)]; two passes are enough for 32 bits ([fold_carries_ends]). *)
Fixpoint fold_carries (k : nat) (Checksum : Z) : Z :=
  match k with
  | O => Checksum
  | S k' =>
      if truth (Checksum .& 0xFFFF0000) then
        fold_carries k' (u32 ((Checksum .& 0xFFFF) + (Checksum .>> 16)))
      else Checksum
  end.

Definition Ethernet_Checksum16 (m : mem) (Data Bytes : Z) : Z :=
  u16 (Z.lnot (fold_carries 2 (sum_words m Data (Z.to_nat (Bytes .>> 1)) 0))).

(** ** ARP *)

Definition ARP_OPERATION_REQUEST := 1.
Definition ARP_OPERATION_REPLY := 2.

Definition ARP_ProcessARPPacket (IN OUT : Z) (m : mem) : Z * mem :=
  if (SwapEndian_16 (load 2 m (arp_ProtocolType IN)) =? ETHERTYPE_IPV4)
     && (SwapEndian_16 (load 2 m (arp_Operation IN)) =? ARP_OPERATION_REQUEST) then
    if IP_COMPARE m (arp_TPA IN) ServerIPAddress || MAC_COMPARE m (arp_THA IN) ServerMACAddress then
      let m := copy m (arp_HardwareType OUT) (arp_HardwareType IN) 2 in
      let m := copy m (arp_ProtocolType OUT) (arp_ProtocolType IN) 2 in
      let m := copy m (arp_HLEN OUT) (arp_HLEN IN) 1 in
      let m := copy m (arp_PLEN OUT) (arp_PLEN IN) 1 in
      let m := store 2 m (arp_Operation OUT) (SwapEndian_16 ARP_OPERATION_REPLY) in
      let m := copy m (arp_THA OUT) (arp_SHA IN) 6 in
      let m := copy m (arp_TPA OUT) (arp_SPA IN) 4 in
      let m := store_bytes m (arp_SHA OUT) ServerMACAddress in
      let m := store_bytes m (arp_SPA OUT) ServerIPAddress in
      (sizeof_ARP_Header, m)
    else (NO_RESPONSE, m)
  else (NO_RESPONSE, m).

(** ** ICMP *)

Definition ICMP_TYPE_ECHOREPLY := 0.
Definition ICMP_TYPE_ECHOREQUEST := 8.

(** [DataSize] is an [intptr_t], 16 bits with a sign; [memmove] takes it as a [size_t]. *)
Definition ICMP_ProcessICMPPacket (FrameIN IN OUT : Z) (m : mem) : Z * mem :=
  if load8 m (icmp_Type IN) =? ICMP_TYPE_ECHOREQUEST then
    let m := store8 m (icmp_Type OUT) ICMP_TYPE_ECHOREPLY in
    let m := store8 m (icmp_Code OUT) 0 in
    let m := store 2 m (icmp_Checksum OUT) 0 in
    let m := copy m (icmp_Id OUT) (icmp_Id IN) 2 in
    let m := copy m (icmp_Sequence OUT) (icmp_Sequence IN) 2 in
    let DataSize := signed 16 (load 2 m (FrameLength FrameIN)
                               - ((IN + sizeof_ICMP_Header) - FrameData FrameIN)) in
    let m := copy m (OUT + sizeof_ICMP_Header) (IN + sizeof_ICMP_Header) (Z.to_nat (u16 DataSize)) in
    let m := store 2 m (icmp_Checksum OUT)
               (Ethernet_Checksum16 m OUT (u16 (DataSize + sizeof_ICMP_Header))) in
    (signed 16 (DataSize + sizeof_ICMP_Header), m)
  else (NO_RESPONSE, m).

(** ** DHCP *)

Definition DHCP_OP_BOOTREPLY := 0x02.
Definition DHCP_MAGIC_COOKIE := 0x63825363.
Definition DHCP_OPTION_SUBNETMASK := 1.
Definition DHCP_OPTION_MESSAGETYPE := 53.
Definition DHCP_OPTION_DHCPSERVER := 54.
Definition DHCP_OPTION_PAD := 0.
Definition DHCP_OPTION_END := 255.
Definition DHCP_MESSAGETYPE_DISCOVER := 1.
Definition DHCP_MESSAGETYPE_OFFER := 2.
Definition DHCP_MESSAGETYPE_REQUEST := 3.
Definition DHCP_MESSAGETYPE_ACK := 5.

(** The header of the reply, and the changed addresses of the request. *)
Definition dhcp_header (IP IN OUT : Z) (m : mem) : mem :=
  let m := memset m OUT 0 (Z.to_nat sizeof_DHCP_Header) in
  let m := copy m (dhcp_HardwareType OUT) (dhcp_HardwareType IN) 1 in
  let m := store8 m (dhcp_Operation OUT) DHCP_OP_BOOTREPLY in
  let m := copy m (dhcp_HardwareAddressLength OUT) (dhcp_HardwareAddressLength IN) 1 in
  let m := store8 m (dhcp_Hops OUT) 0 in
  let m := copy m (dhcp_TransactionID OUT) (dhcp_TransactionID IN) 4 in
  let m := store 2 m (dhcp_ElapsedSeconds OUT) 0 in
  let m := copy m (dhcp_Flags OUT) (dhcp_Flags IN) 2 in
  let m := store_bytes m (dhcp_YourIP OUT) ClientIPAddress in
  let m := copy m (dhcp_ClientHardwareAddress OUT) (dhcp_ClientHardwareAddress IN) 6 in
  let m := store 4 m (dhcp_Cookie OUT) (SwapEndian_32 DHCP_MAGIC_COOKIE) in
  let m := store_bytes m (ip_SourceAddress IP) ClientIPAddress in
  store_bytes m (ip_DestinationAddress IP) ServerIPAddress.

(** The options of the reply to a message of type [t], written through a moving pointer. *)
Definition dhcp_options (t : Z) : list Z :=
  [DHCP_OPTION_MESSAGETYPE; 1;
   if t =? DHCP_MESSAGETYPE_DISCOVER then DHCP_MESSAGETYPE_OFFER else DHCP_MESSAGETYPE_ACK;
   DHCP_OPTION_SUBNETMASK; 4; 0xFF; 0xFF; 0xFF; 0x00;
   DHCP_OPTION_DHCPSERVER; 4] ++ ServerIPAddress ++ [DHCP_OPTION_END].

(** The walk over the options of the request: the message type it stops at, or none at the end
    of the options.  Its only variable is a 16-bit pointer, so that a walk of 65536 steps is a
    walk without end ([None]). *)
Fixpoint dhcp_walk (k : nat) (m : mem) (o : Z) : option (option Z) :=
  match k with
  | O => None
  | S k' =>
      if load8 m o =? DHCP_OPTION_END then Some None
      else if (load8 m o =? DHCP_OPTION_MESSAGETYPE)
              && ((load8 m (o + 2) =? DHCP_MESSAGETYPE_DISCOVER)
                  || (load8 m (o + 2) =? DHCP_MESSAGETYPE_REQUEST)) then Some (Some (load8 m (o + 2)))
      else dhcp_walk k' m (o + (if load8 m o =? DHCP_OPTION_PAD then 1 else load8 m (o + 1) + 2))
  end.

Definition DHCP_ProcessDHCPPacket (IP IN OUT : Z) (m : mem) : option (Z * mem) :=
  let m := dhcp_header IP IN OUT m in
  match dhcp_walk (Z.to_nat 65536) m (IN + sizeof_DHCP_Header) with
  | None => None
  | Some (Some t) =>
      Some (sizeof_DHCP_Header + 12 + 4, store_bytes m (OUT + sizeof_DHCP_Header) (dhcp_options t))
  | Some None => Some (NO_RESPONSE, m)
  end.

(** ** UDP *)

Definition UDP_PORT_DHCP_REQUEST := 67.

Definition UDP_ProcessUDPPacket (IP IN OUT : Z) (m : mem) : option (Z * mem) :=
  match (if SwapEndian_16 (load 2 m (udp_DestinationPort IN)) =? UDP_PORT_DHCP_REQUEST then
           DHCP_ProcessDHCPPacket IP (IN + sizeof_UDP_Header) (OUT + sizeof_UDP_Header) m
         else Some (NO_RESPONSE, m)) with
  | None => None
  | Some (RetSize, m) =>
      if 0 <? RetSize then
        let m := copy m (udp_SourcePort OUT) (udp_DestinationPort IN) 2 in
        let m := copy m (udp_DestinationPort OUT) (udp_SourcePort IN) 2 in
        let m := store 2 m (udp_Checksum OUT) 0 in
        let m := store 2 m (udp_Length OUT) (SwapEndian_16 (sizeof_UDP_Header + RetSize)) in
        Some (signed 16 (sizeof_UDP_Header + RetSize), m)
      else Some (NO_RESPONSE, m)
  end.
End Net.
