(* ===== verification/Checksum.v ===== *)
(** * Checksum: the Internet checksum of the demo's network stack

    The code adds 16-bit words in a 32-bit accumulator and folds the carries back at the end.
    The reference is one's complement addition, where each carry is added back at once.  The two
    agree, and a block of data that holds its own checksum adds up to all ones: what a receiver
    tests. *)
From S2P Require Import Prelude Machine Ram Network.
Import Net.

(** ** One's complement addition *)

Definition ones_add (a b : Z) : Z := if a + b <? 65536 then a + b else a + b - 65535.
Definition ones_sum (ws : list Z) : Z := foldl ones_add 0 ws.

(** The 16-bit words of a block, low byte first; an odd last byte is a word. *)
Fixpoint words16 (bs : list Z) : list Z :=
  match bs with
  | a :: b :: bs' => le_value [a; b] :: words16 bs'
  | [a] => [a]
  | [] => []
  end.

(** What a receiver tests. *)
Definition checksum_ok (bs : list Z) : Prop := ones_sum (words16 bs) = 0xFFFF.

(** The sum as a number in [0, 65535]: both zeros of one's complement occur. *)
Definition norm (s : Z) : Z := if s =? 0 then 0 else (s - 1) mod 65535 + 1.

Definition total (ws : list Z) : Z := foldr Z.add 0 ws.

Lemma norm_u16 s : 0 <= s -> is_u16 (norm s).
Proof. intros. unfold norm, is_u. case_match; [lia|]. zmod. Qed.

Lemma norm_small s : is_u16 s -> norm s = s.
Proof. unfold is_u, norm. intros. case_match; [lia|]. rewrite Z.mod_small; lia. Qed.

Lemma norm_add a b : 0 <= a -> is_u16 b -> ones_add (norm a) b = norm (a + b).
Proof.
  unfold is_u, norm, ones_add. intros.
  destruct (Z.eqb_spec a 0), (Z.eqb_spec (a + b) 0); try lia; case_match; zmod.
Qed.

Lemma norm_complement s : 0 <= s -> norm (s + (65535 - norm s)) = 65535.
Proof.
  intros. unfold norm. destruct (Z.eqb_spec s 0) as [->|]; [done|].
  destruct (Z.eqb_spec (s + (65535 - ((s - 1) mod 65535 + 1))) 0); zmod.
Qed.

Lemma words_total_app xs ys : total (xs ++ ys) = total xs + total ys.
Proof. induction xs as [|x xs IH]; cbn; [done|]. unfold total in *. rewrite IH. lia. Qed.

Lemma total_nonneg ws : Forall is_u16 ws -> 0 <= total ws <= 65535 * Z.of_nat (length ws).
Proof. induction 1 as [|w ws Hw Hws IH]; cbn; [lia|]. unfold is_u, total in *. cbn in *. lia. Qed.

Lemma ones_sum_from a ws : 0 <= a -> Forall is_u16 ws -> foldl ones_add (norm a) ws = norm (a + total ws).
Proof.
  intros Ha Hw. revert a Ha. induction Hw as [|w ws Hw Hws IH]; intros a Ha; cbn; [by rewrite Z.add_0_r|].
  rewrite norm_add by done. rewrite IH by (unfold is_u in *; lia). unfold total. f_equal. lia.
Qed.

Lemma ones_sum_norm ws : Forall is_u16 ws -> ones_sum ws = norm (total ws).
Proof. intros. apply (ones_sum_from 0); [done|done]. Qed.

(** A word equal to the complement of the rest completes the sum. *)
Lemma ones_sum_complete xs ys : Forall is_u16 xs -> Forall is_u16 ys ->
  ones_sum (xs ++ [65535 - ones_sum (xs ++ 0 :: ys)] ++ ys) = 0xFFFF.
Proof.
  intros Hx Hy. assert (is_u16 0) by (by unfold is_u).
  assert (Forall is_u16 (xs ++ 0 :: ys)) as Hz by (apply Forall_app; split; [|constructor]; done).
  rewrite (ones_sum_norm (xs ++ 0 :: ys)) by done.
  pose proof (total_nonneg _ Hz) as [Ht _]. pose proof (norm_u16 _ Ht).
  rewrite ones_sum_norm.
  - etrans; [|exact (norm_complement _ Ht)]. f_equal.
    generalize (norm (total (xs ++ 0 :: ys))). intros k. rewrite !words_total_app. unfold total. cbn. lia.
  - apply Forall_app; split; [done|]. constructor; [|done]. unfold is_u in *. lia.
Qed.

(** ** The words of a block *)

Lemma words16_app xs ys : Nat.even (length xs) = true -> words16 (xs ++ ys) = words16 xs ++ words16 ys.
Proof.
  assert (forall n xs, (length xs <= n)%nat -> Nat.even (length xs) = true ->
            words16 (xs ++ ys) = words16 xs ++ words16 ys) as H; [|by apply (H (length xs))].
  clear xs. induction n as [|n IH]; intros [|a [|b xs]] Hl He; cbn [length] in *; try done; try lia.
  cbn [words16 Datatypes.app]. f_equal. apply IH; [lia|done].
Qed.

Lemma words16_u16 bs : Forall is_u8 bs -> Forall is_u16 (words16 bs).
Proof.
  assert (forall n bs, (length bs <= n)%nat -> Forall is_u8 bs -> Forall is_u16 (words16 bs)) as H;
    [|by apply (H (length bs))].
  clear bs. induction n as [|n IH]; intros [|a [|b bs]] Hl Hb; cbn [length words16] in *; try lia; try done.
  - apply Forall_cons_1 in Hb as [Hb _]. repeat constructor; unfold is_u in *; lia.
  - constructor.
    + apply (le_value_is_u [a; b]), (Forall_take _ 2%nat _ Hb).
    + apply IH; [lia|]. exact (Forall_drop _ 2%nat _ Hb).
Qed.

(** ** The code *)

Lemma fold_once c : u32 ((c .& 0xFFFF) + (c .>> 16)) = u32 (c mod 65536 + c / 65536).
Proof. change 0xFFFF with (Z.ones 16). by rewrite Z.land_ones, Z.shiftr_div_pow2 by done. Qed.

Lemma high_bits c : is_u32 c -> truth (c .& 0xFFFF0000) = negb (c <? 65536).
Proof.
  intros Hc. assert (c .& 0xFFFF0000 = (c / 65536) * 65536) as ->.
  { apply Z.bits_inj'. intros i Hi. rewrite Z.land_spec.
    change 65536 with (2 ^ 16). rewrite <- Z.shiftr_div_pow2, <- Z.shiftl_mul_pow2 by done.
    destruct (Z.lt_ge_cases i 16).
    - rewrite (Z.shiftl_spec_low _ 16 i) by done.
      replace 0xFFFF0000 with (Z.ones 16 .<< 16) by done. by rewrite Z.shiftl_spec_low, andb_false_r.
    - rewrite Z.shiftl_spec, Z.shiftr_spec by lia. replace (i - 16 + 16) with i by lia.
      replace 0xFFFF0000 with (Z.ones 16 .<< 16) by done. rewrite Z.shiftl_spec by done.
      destruct (Z.lt_ge_cases i 32).
      + rewrite Z.ones_spec_low by lia. apply andb_true_r.
      + apply is_u_bits in Hc as [_ Hc]; [|done]. by rewrite Hc. }
  unfold truth, is_u in *. destruct (Z.ltb_spec c 65536); destruct (Z.eqb_spec (c / 65536 * 65536) 0); cbn; zmod.
Qed.

(** Folding ends within two passes, with the sum in one's complement. *)
Lemma fold_carries_norm c : is_u32 c -> fold_carries 2 c = norm c.
Proof.
  intros Hc. cbn [fold_carries]. rewrite high_bits, !fold_once by done.
  destruct (Z.ltb_spec c 65536); cbn [negb]; [by rewrite norm_small by (unfold is_u in *; lia)|].
  assert (0 < c mod 65536 + c / 65536 <= 131070) as Hs by (unfold is_u in *; zmod).
  rewrite (wrap_id 32 (c mod 65536 + c / 65536)) by (unfold is_u; lia).
  rewrite high_bits by (unfold is_u; lia).
  assert (norm c = norm (c mod 65536 + c / 65536)) as ->.
  { unfold norm. destruct (Z.eqb_spec c 0), (Z.eqb_spec (c mod 65536 + c / 65536) 0); try lia.
    f_equal. rewrite (Z.div_mod c 65536) at 1 by lia.
    replace (65536 * (c / 65536) + c mod 65536 - 1)
      with (c mod 65536 + c / 65536 - 1 + (c / 65536) * 65535) by lia.
    by rewrite Z.mod_add. }
  destruct (Z.ltb_spec (c mod 65536 + c / 65536) 65536); cbn [negb].
  - by rewrite norm_small by (unfold is_u; lia).
  - rewrite (wrap_id 32) by (unfold is_u; zmod). unfold norm.
    destruct (Z.eqb_spec (c mod 65536 + c / 65536) 0); [lia|].
    assert (c mod 65536 + c / 65536 <= 65535 + 65535) by (unfold is_u in *; zmod).
    zmod.
Qed.

(** The loop condition is false when the model stops. *)
Lemma fold_carries_ends c : is_u32 c -> fold_carries 2 c .& 0xFFFF0000 = 0.
Proof.
  intros Hc. rewrite fold_carries_norm by done.
  pose proof (norm_u16 c ltac:(unfold is_u in *; lia)) as Hn.
  assert (is_u32 (norm c)) by (unfold is_u in *; lia).
  pose proof (high_bits (norm c) ltac:(done)) as Hh. unfold truth in Hh.
  destruct (Z.eqb_spec (norm c .& 0xFFFF0000) 0); [done|]. unfold is_u in Hn.
  destruct (Z.ltb_spec (norm c) 65536); [done|lia].
Qed.

Lemma sum_words_total m a n c :
  0 <= c -> c + 65535 * Z.of_nat n < 2 ^ 32 ->
  sum_words m a n c = c + total (words16 (load_bytes m a (2 * n))).
Proof.
  revert a c. induction n as [|n IH]; intros a c Hc Hn; [cbn; lia|].
  replace (2 * S n)%nat with (S (S (2 * n))) by lia.
  pose proof (load_u 2 m a) as Hl. change (8 * Z.of_nat 2) with 16 in Hl.
  cbn [sum_words load_bytes words16 total foldr]. unfold is_u in Hl.
  rewrite wrap_id by (unfold is_u; lia). rewrite IH by lia.
  replace (a + 1 + 1) with (a + 2) by lia. unfold total. cbn [load load_bytes]. unfold load. cbn [load_bytes]. lia.
Qed.

Lemma lnot_u16 z : is_u16 z -> u16 (Z.lnot z) = 65535 - z.
Proof. unfold is_u. intros. unfold Z.lnot, wrap. change (2 ^ 16) with 65536. zmod. Qed.

Lemma words16_length bs n : length bs = (2 * n)%nat -> length (words16 bs) = n.
Proof.
  revert n. induction n as [|n IH] in bs |- *; intros Hl; destruct bs as [|a [|b bs]]; cbn [length] in *; try lia; [done|].
  cbn [words16 length]. rewrite (IH bs) by lia. done.
Qed.

(** The complement of the sum of the words, in one's complement from the start. *)
Lemma Ethernet_Checksum16_ref m a n :
  0 <= n < 65536 ->
  Ethernet_Checksum16 m a n = 65535 - ones_sum (words16 (load_bytes m a (2 * Z.to_nat (n / 2)))).
Proof.
  intros Hn. unfold Ethernet_Checksum16. rewrite Z.shiftr_div_pow2 by done. change (2 ^ 1) with 2.
  assert (0 <= n / 2 < 32768) by zmod.
  pose proof (words16_u16 _ (load_bytes_u8 m a (2 * Z.to_nat (n / 2)))) as Hw.
  pose proof (total_nonneg _ Hw) as Ht.
  rewrite (words16_length _ (Z.to_nat (n / 2))) in Ht by (by rewrite length_load_bytes).
  rewrite sum_words_total by lia. rewrite Z.add_0_l.
  rewrite fold_carries_norm by (unfold is_u; lia). rewrite ones_sum_norm by done.
  apply lnot_u16, norm_u16. lia.
Qed.
