(* ===== verification/Tcp.v ===== *)
(** * Tcp: the TCP handler of the RNDIS demo
    ([Demos/Device/ClassDriver/RNDISEthernet/Lib/TCP.c])

    Two tables hold the open ports and the connections.  They are statics in data memory, and a
    handler holds pointers into them: a segment is copied behind the data of a connection's
    buffer without a look at the size of that buffer, so the tables are modelled where they lie.
    The address of a table is a member of [Layout].  The handler of a port is called through a
    pointer; what it does is a parameter ([TcpApplication]). *)
From S2P Require Import Prelude Machine Ram Network.

(** Where the linker placed the statics, and the flash behind the page of Webserver.c. *)
Class Layout := {
  PortStateTable : Z;
  ConnectionStateTable : Z;
  PageBlock : Z;
  flash_behind_HTTPPage : nat -> Z }.

(** The function behind a pointer in the port table: the pointer, the connection, its buffer. *)
Class TcpApplication := ApplicationHandler : Z -> Z -> Z -> mem -> option mem.

Module Tcp.
Import Net.

Definition MAX_OPEN_TCP_PORTS := 1%nat.
Definition MAX_TCP_CONNECTIONS := 3%nat.
Definition TCP_WINDOW_SIZE := 512.
Definition TCP_PACKETDIR_IN := 0.
Definition TCP_PACKETDIR_OUT := 1.
Definition TCP_FLAG_ACK := bit 4.
Definition TCP_FLAG_PSH := bit 3.
Definition TCP_FLAG_RST := bit 2.
Definition TCP_FLAG_SYN := bit 1.
Definition TCP_FLAG_FIN := bit 0.

(** [enum TCP_PortStates_t], [enum TCP_ConnectionStates_t] *)
Definition TCP_Port_Closed := 0.
Definition TCP_Port_Open := 1.
Definition TCP_Connection_Listen := 0.
Definition TCP_Connection_SYNReceived := 2.
Definition TCP_Connection_Established := 3.
Definition TCP_Connection_FINWait1 := 4.
Definition TCP_Connection_FINWait2 := 5.
Definition TCP_Connection_CloseWait := 6.
Definition TCP_Connection_Closing := 7.
Definition TCP_Connection_Closed := 10.

(** [TCP_ConnectionBuffer_t] *)
Definition buf_Length (b : Z) : Z := b.
Definition buf_Data (b : Z) : Z := b + 2.
Definition buf_Direction (b : Z) : Z := b + 514.
Definition buf_Ready (b : Z) : Z := b + 515.
Definition buf_InUse (b : Z) : Z := b + 516.

(** [TCP_ConnectionInfo_t] *)
Definition info_SequenceNumberIn (i : Z) : Z := i.
Definition info_SequenceNumberOut (i : Z) : Z := i + 4.
Definition info_Buffer (i : Z) : Z := i + 8.

(** [TCP_ConnectionState_t] *)
Definition conn_Port (c : Z) : Z := c.
Definition conn_RemotePort (c : Z) : Z := c + 2.
Definition conn_RemoteAddress (c : Z) : Z := c + 4.
Definition conn_Info (c : Z) : Z := c + 8.
Definition conn_State (c : Z) : Z := c + 533.
Definition sizeof_ConnectionState := 534.

(** [TCP_PortState_t] *)
Definition port_Port (p : Z) : Z := p.
Definition port_State (p : Z) : Z := p + 2.
Definition port_ApplicationHandler (p : Z) : Z := p + 3.
Definition sizeof_PortState := 5.

(** [TCP_Header_t]; the byte at 12 has Reserved in its low and DataOffset in its high half. *)
Definition tcp_SourcePort (h : Z) : Z := h.
Definition tcp_DestinationPort (h : Z) : Z := h + 2.
Definition tcp_SequenceNumber (h : Z) : Z := h + 4.
Definition tcp_AcknowledgmentNumber (h : Z) : Z := h + 8.
Definition tcp_Reserved (h : Z) : Z := h + 12.
Definition tcp_DataOffset (h : Z) : Z := h + 12.
Definition tcp_Flags (h : Z) : Z := h + 13.
Definition tcp_WindowSize (h : Z) : Z := h + 14.
Definition tcp_Checksum (h : Z) : Z := h + 16.
Definition tcp_UrgentPointer (h : Z) : Z := h + 18.
Definition sizeof_TCP_Header := 20.

(** ** TCP_Checksum16; the addresses are the octets behind the pointers *)

Definition ip_word (ip : list Z) (i : nat) : Z := le_value (take 2 (drop (2 * i) ip)).

Definition TCP_Checksum16 (m : mem) (TCPHeaderOut : Z) (SourceAddress DestinationAddress : list Z)
    (TCPOutSize : Z) : Z :=
  let Checksum := 0 in
  let Checksum := u32 (Checksum + ip_word SourceAddress 0) in
  let Checksum := u32 (Checksum + ip_word SourceAddress 1) in
  let Checksum := u32 (Checksum + ip_word DestinationAddress 0) in
  let Checksum := u32 (Checksum + ip_word DestinationAddress 1) in
  let Checksum := u32 (Checksum + SwapEndian_16 PROTOCOL_TCP) in
  let Checksum := u32 (Checksum + SwapEndian_16 TCPOutSize) in
  let Checksum := sum_words m TCPHeaderOut (Z.to_nat (TCPOutSize .>> 1)) Checksum in
  let Checksum :=
    if truth (TCPOutSize .& 0x01) then
      u32 (Checksum + (load 2 m (TCPHeaderOut + 2 * (TCPOutSize .>> 1)) .& 0x00FF))
    else Checksum in
  u16 (Z.lnot (fold_carries 2 Checksum)).

Section Tables.
Context {LY : Layout}.

(** ** The tables *)

Definition port_entry (i : nat) : Z := PortStateTable + sizeof_PortState * Z.of_nat i.
Definition conn_entry (i : nat) : Z := ConnectionStateTable + sizeof_ConnectionState * Z.of_nat i.

(** [for (Entry = 0; Entry < n; Entry++) if (...) return ...]: the first entry the test holds of. *)
Definition first_entry (n : nat) (test : nat -> bool) : option nat := List.find test (seq 0 n).

Definition TCP_Init (m : mem) : mem :=
  let m := foldl (fun m i => store8 m (port_State (port_entry i)) TCP_Port_Closed) m
             (seq 0 MAX_OPEN_TCP_PORTS) in
  foldl (fun m i => store8 m (conn_State (conn_entry i)) TCP_Connection_Closed) m
    (seq 0 MAX_TCP_CONNECTIONS).

Definition TCP_SetPortState (Port State Handler : Z) (m : mem) : bool * mem :=
  match first_entry MAX_OPEN_TCP_PORTS (fun i => load 2 m (port_Port (port_entry i)) =? Port) with
  | Some i =>
      let m := store8 m (port_State (port_entry i)) State in
      (true, store 2 m (port_ApplicationHandler (port_entry i)) Handler)
  | None =>
      if State =? TCP_Port_Open then
        match first_entry MAX_OPEN_TCP_PORTS
                (fun i => load8 m (port_State (port_entry i)) =? TCP_Port_Closed) with
        | Some i =>
            let m := store 2 m (port_Port (port_entry i)) Port in
            let m := store8 m (port_State (port_entry i)) State in
            (true, store 2 m (port_ApplicationHandler (port_entry i)) Handler)
        | None => (false, m)
        end
      else (true, m)
  end.

Definition TCP_GetPortState (Port : Z) (m : mem) : Z :=
  match first_entry MAX_OPEN_TCP_PORTS (fun i => load 2 m (port_Port (port_entry i)) =? Port) with
  | Some i => load8 m (port_State (port_entry i))
  | None => TCP_Port_Closed
  end.

(** The entry of a connection, by port, remote address and remote port. *)
Definition is_connection (m : mem) (Port : Z) (RemoteAddress : list Z) (RemotePort : Z) (i : nat) : bool :=
  (load 2 m (conn_Port (conn_entry i)) =? Port)
  && IP_COMPARE m (conn_RemoteAddress (conn_entry i)) RemoteAddress
  && (load 2 m (conn_RemotePort (conn_entry i)) =? RemotePort).

Definition find_connection (Port : Z) (RemoteAddress : list Z) (RemotePort : Z) (m : mem) : option nat :=
  first_entry MAX_TCP_CONNECTIONS (is_connection m Port RemoteAddress RemotePort).

Definition TCP_SetConnectionState (Port : Z) (RemoteAddress : list Z) (RemotePort State : Z) (m : mem)
    : bool * mem :=
  match find_connection Port RemoteAddress RemotePort m with
  | Some i => (true, store8 m (conn_State (conn_entry i)) State)
  | None =>
      match first_entry MAX_TCP_CONNECTIONS
              (fun i => load8 m (conn_State (conn_entry i)) =? TCP_Connection_Closed) with
      | Some i =>
          let m := store 2 m (conn_Port (conn_entry i)) Port in
          let m := store_bytes m (conn_RemoteAddress (conn_entry i)) RemoteAddress in
          let m := store 2 m (conn_RemotePort (conn_entry i)) RemotePort in
          (true, store8 m (conn_State (conn_entry i)) State)
      | None => (false, m)
      end
  end.

Definition TCP_GetConnectionState (Port : Z) (RemoteAddress : list Z) (RemotePort : Z) (m : mem) : Z :=
  match find_connection Port RemoteAddress RemotePort m with
  | Some i => load8 m (conn_State (conn_entry i))
  | None => TCP_Connection_Closed
  end.

(** [NULL] is address 0: a caller that uses the result unchecked works on what lies there. *)
Definition TCP_GetConnectionInfo (Port : Z) (RemoteAddress : list Z) (RemotePort : Z) (m : mem) : Z :=
  match find_connection Port RemoteAddress RemotePort m with
  | Some i => conn_Info (conn_entry i)
  | None => 0
  end.

(** ** A received segment *)

Section Segment.
(** [IPHeaderIN], [TCPHeaderIN] and [TCPHeaderOUT] *)
Context (IP IN OUT : Z).

(** The calls of the table functions, all with the ports and the address of the segment. *)
Definition seg_set_state (State : Z) (m : mem) : bool * mem :=
  TCP_SetConnectionState (load 2 m (tcp_DestinationPort IN)) (load_bytes m (ip_SourceAddress IP) 4)
    (load 2 m (tcp_SourcePort IN)) State m.
Definition seg_get_state (m : mem) : Z :=
  TCP_GetConnectionState (load 2 m (tcp_DestinationPort IN)) (load_bytes m (ip_SourceAddress IP) 4)
    (load 2 m (tcp_SourcePort IN)) m.
Definition seg_get_info (m : mem) : Z :=
  TCP_GetConnectionInfo (load 2 m (tcp_DestinationPort IN)) (load_bytes m (ip_SourceAddress IP) 4)
    (load 2 m (tcp_SourcePort IN)) m.

Definition seg_flags (m : mem) : Z := load8 m (tcp_Flags IN).
Definition out_flags (f : Z) (m : mem) : mem := store8 m (tcp_Flags OUT) f.
(** [++] on a 32-bit member. *)
Definition increment (a : Z) (m : mem) : mem := store 4 m a (load 4 m a + 1).

(** Each case of the switch: [PacketResponse], or [None] for [return NO_PROCESS]. *)
Definition case_Listen (m : mem) : option bool * mem :=
  if seg_flags m =? TCP_FLAG_SYN then
    let '(ok, m) := seg_set_state TCP_Connection_SYNReceived m in
    if ok : bool then
      let m := out_flags (TCP_FLAG_SYN .| TCP_FLAG_ACK) m in
      let i := seg_get_info m in
      let m := store 4 m (info_SequenceNumberIn i) (SwapEndian_32 (load 4 m (tcp_SequenceNumber IN)) + 1) in
      let m := store 4 m (info_SequenceNumberOut i) 0 in
      (Some true, store8 m (buf_InUse (info_Buffer i)) 0)
    else (Some true, out_flags TCP_FLAG_RST m)
  else (Some false, m).

Definition case_SYNReceived (m : mem) : option bool * mem :=
  if seg_flags m =? TCP_FLAG_ACK then
    let '(_, m) := seg_set_state TCP_Connection_Established m in
    let i := seg_get_info m in
    (Some false, increment (info_SequenceNumberOut i) m)
  else (Some false, m).

(** The part of the data case behind the claim of the buffer. *)
Definition copy_segment (i : Z) (m : mem) : option bool * mem :=
  let b := info_Buffer i in
  let IPOffset := load_field 1 0 4 m (ip_HeaderLength IP) * 4 in
  let TCPOffset := load_field 1 4 4 m (tcp_DataOffset IN) * 4 in
  let DataLength := u16 (SwapEndian_16 (load 2 m (ip_TotalLength IP)) - IPOffset - TCPOffset) in
  let m := copy m (buf_Data b + load 2 m (buf_Length b)) (IN + TCPOffset) (Z.to_nat DataLength) in
  let m := store 4 m (info_SequenceNumberIn i) (load 4 m (info_SequenceNumberIn i) + DataLength) in
  let m := store 2 m (buf_Length b) (load 2 m (buf_Length b) + DataLength) in
  if negb (truth (u16 (TCP_WINDOW_SIZE - load 2 m (buf_Length b)))) || truth (seg_flags m .& TCP_FLAG_PSH) then
    let m := store8 m (buf_InUse b) 0 in
    let m := store8 m (buf_Ready b) 1 in
    (Some true, out_flags TCP_FLAG_ACK m)
  else (Some false, m).

Definition case_Established (m : mem) : option bool * mem :=
  if seg_flags m =? TCP_FLAG_FIN .| TCP_FLAG_ACK then
    let m := out_flags (TCP_FLAG_FIN .| TCP_FLAG_ACK) m in
    let '(_, m) := seg_set_state TCP_Connection_CloseWait m in
    let i := seg_get_info m in
    let m := increment (info_SequenceNumberIn i) m in
    (Some true, increment (info_SequenceNumberOut i) m)
  else if (seg_flags m =? TCP_FLAG_ACK) || (seg_flags m =? TCP_FLAG_ACK .| TCP_FLAG_PSH) then
    let i := seg_get_info m in
    let b := info_Buffer i in
    let m :=
      if negb (truth (load8 m (buf_InUse b))) && negb (truth (load8 m (buf_Ready b))) then
        let m := store8 m (buf_Direction b) TCP_PACKETDIR_IN in
        let m := store8 m (buf_InUse b) 1 in
        store 2 m (buf_Length b) 0
      else m in
    if negb (truth (load8 m (buf_Direction b))) && negb (load 2 m (buf_Length b) =? TCP_WINDOW_SIZE)
    then copy_segment i m
    else (None, m)
  else (Some false, m).

Definition case_Closing (m : mem) : option bool * mem :=
  let i := seg_get_info m in
  let m := out_flags (TCP_FLAG_ACK .| TCP_FLAG_FIN) m in
  let m := store8 m (buf_InUse (info_Buffer i)) 0 in
  (Some true, (seg_set_state TCP_Connection_FINWait1 m).2).

(** The answer to FIN ACK in FINWait1 and FINWait2. *)
Definition finish (m : mem) : option bool * mem :=
  let i := seg_get_info m in
  let m := out_flags TCP_FLAG_ACK m in
  let m := increment (info_SequenceNumberIn i) m in
  let m := increment (info_SequenceNumberOut i) m in
  (Some true, (seg_set_state TCP_Connection_Closed m).2).

Definition case_FINWait1 (m : mem) : option bool * mem :=
  if seg_flags m =? TCP_FLAG_FIN .| TCP_FLAG_ACK then finish m
  else if seg_flags m =? TCP_FLAG_ACK then (Some false, (seg_set_state TCP_Connection_FINWait2 m).2)
  else (Some false, m).

Definition case_FINWait2 (m : mem) : option bool * mem :=
  if seg_flags m =? TCP_FLAG_FIN .| TCP_FLAG_ACK then finish m else (Some false, m).

Definition case_CloseWait (m : mem) : option bool * mem :=
  if seg_flags m =? TCP_FLAG_ACK then (Some false, (seg_set_state TCP_Connection_Closed m).2)
  else (Some false, m).

(** The response header; its flags are set by then. *)
Definition respond (m : mem) : mem :=
  let i := seg_get_info m in
  let m := copy m (tcp_SourcePort OUT) (tcp_DestinationPort IN) 2 in
  let m := copy m (tcp_DestinationPort OUT) (tcp_SourcePort IN) 2 in
  let m := store 4 m (tcp_SequenceNumber OUT) (SwapEndian_32 (load 4 m (info_SequenceNumberOut i))) in
  let m := store 4 m (tcp_AcknowledgmentNumber OUT) (SwapEndian_32 (load 4 m (info_SequenceNumberIn i))) in
  let m := store_field 1 4 4 m (tcp_DataOffset OUT) (sizeof_TCP_Header / 4) in
  let m := store 2 m (tcp_WindowSize OUT)
             (if negb (truth (load8 m (buf_InUse (info_Buffer i)))) then SwapEndian_16 TCP_WINDOW_SIZE
              else SwapEndian_16 (u16 (TCP_WINDOW_SIZE - load 2 m (buf_Length (info_Buffer i))))) in
  let m := store 2 m (tcp_UrgentPointer OUT) 0 in
  let m := store 2 m (tcp_Checksum OUT) 0 in
  let m := store_field 1 0 4 m (tcp_Reserved OUT) 0 in
  store 2 m (tcp_Checksum OUT)
    (TCP_Checksum16 m OUT (load_bytes m (ip_DestinationAddress IP) 4)
       (load_bytes m (ip_SourceAddress IP) 4) sizeof_TCP_Header).

(** What happens to a segment for an open port. *)
Definition process_open (m : mem) : option bool * mem :=
  let m := if truth (seg_flags m .& TCP_FLAG_SYN) then (seg_set_state TCP_Connection_Listen m).2 else m in
  if truth (seg_flags m .& TCP_FLAG_RST) then
    let '(ok, m) := seg_set_state TCP_Connection_Closed m in
    if ok : bool then (Some true, out_flags (TCP_FLAG_RST .| TCP_FLAG_ACK) m) else (Some false, m)
  else
    let s := seg_get_state m in
    if s =? TCP_Connection_Listen then case_Listen m
    else if s =? TCP_Connection_SYNReceived then case_SYNReceived m
    else if s =? TCP_Connection_Established then case_Established m
    else if s =? TCP_Connection_Closing then case_Closing m
    else if s =? TCP_Connection_FINWait1 then case_FINWait1 m
    else if s =? TCP_Connection_FINWait2 then case_FINWait2 m
    else if s =? TCP_Connection_CloseWait then case_CloseWait m
    else (Some false, m).

Definition TCP_ProcessTCPPacket (m : mem) : Z * mem :=
  let '(PacketResponse, m) :=
    if TCP_GetPortState (load 2 m (tcp_DestinationPort IN)) m =? TCP_Port_Open then process_open m
    else (Some true, out_flags (TCP_FLAG_RST .| TCP_FLAG_ACK) m) in
  match PacketResponse with
  | None => (NO_PROCESS, m)
  | Some true => (sizeof_TCP_Header, respond m)
  | Some false => (NO_RESPONSE, m)
  end.
End Segment.

(** ** The task that runs the applications and sends what they have produced *)

Context {AP : TcpApplication}.

(** The inner loop of the first part, over the ports, for the connection [c]. *)
Definition run_handlers (c : nat) (m : mem) : option mem :=
  foldl (fun r p =>
    m ← r;
    if (load 2 m (port_Port (port_entry p)) =? load 2 m (conn_Port (conn_entry c)))
       && (load8 m (port_State (port_entry p)) =? TCP_Port_Open) then
      ApplicationHandler (load 2 m (port_ApplicationHandler (port_entry p))) (conn_entry c)
        (info_Buffer (conn_Info (conn_entry c))) m
    else Some m) (Some m) (seq 0 MAX_OPEN_TCP_PORTS).

Definition run_applications (m : mem) : option mem :=
  foldl (fun r c => m ← r; run_handlers c m) (Some m) (seq 0 MAX_TCP_CONNECTIONS).

(** The frame for the connection [conn]: the segment, the packet and the frame around it. *)
Definition write_segment (TCPOUT conn PacketSize : Z) (m : mem) : mem :=
  let i := conn_Info conn in
  let b := info_Buffer i in
  let m := copy m (tcp_SourcePort TCPOUT) (conn_Port conn) 2 in
  let m := copy m (tcp_DestinationPort TCPOUT) (conn_RemotePort conn) 2 in
  let m := store 4 m (tcp_SequenceNumber TCPOUT) (SwapEndian_32 (load 4 m (info_SequenceNumberOut i))) in
  let m := store 4 m (tcp_AcknowledgmentNumber TCPOUT) (SwapEndian_32 (load 4 m (info_SequenceNumberIn i))) in
  let m := store_field 1 4 4 m (tcp_DataOffset TCPOUT) (sizeof_TCP_Header / 4) in
  let m := store 2 m (tcp_WindowSize TCPOUT) (SwapEndian_16 TCP_WINDOW_SIZE) in
  let m := store8 m (tcp_Flags TCPOUT) TCP_FLAG_ACK in
  let m := store 2 m (tcp_UrgentPointer TCPOUT) 0 in
  let m := store 2 m (tcp_Checksum TCPOUT) 0 in
  let m := store_field 1 0 4 m (tcp_Reserved TCPOUT) 0 in
  let m := copy m (TCPOUT + sizeof_TCP_Header) (buf_Data b) (Z.to_nat PacketSize) in
  let m := store 4 m (info_SequenceNumberOut i) (load 4 m (info_SequenceNumberOut i) + PacketSize) in
  store 2 m (tcp_Checksum TCPOUT)
    (TCP_Checksum16 m TCPOUT ServerIPAddress (load_bytes m (conn_RemoteAddress conn) 4)
       (u16 (sizeof_TCP_Header + PacketSize))).

Definition write_packet (IPOUT conn PacketSize : Z) (m : mem) : mem :=
  let m := store 2 m (ip_TotalLength IPOUT) (SwapEndian_16 (u16 (sizeof_IP_Header + PacketSize))) in
  let m := store8 m (ip_TypeOfService IPOUT) 0 in
  let m := store_field 1 0 4 m (ip_HeaderLength IPOUT) (sizeof_IP_Header / 4) in
  let m := store_field 1 4 4 m (ip_Version IPOUT) 4 in
  let m := store_field 2 13 3 m (ip_Flags IPOUT) 0 in
  let m := store_field 2 0 13 m (ip_FragmentOffset IPOUT) 0 in
  let m := store 2 m (ip_Identification IPOUT) 0 in
  let m := store 2 m (ip_HeaderChecksum IPOUT) 0 in
  let m := store8 m (ip_Protocol IPOUT) PROTOCOL_TCP in
  let m := store8 m (ip_TTL IPOUT) DEFAULT_TTL in
  let m := store_bytes m (ip_SourceAddress IPOUT) ServerIPAddress in
  let m := copy m (ip_DestinationAddress IPOUT) (conn_RemoteAddress conn) 4 in
  store 2 m (ip_HeaderChecksum IPOUT) (Ethernet_Checksum16 m IPOUT sizeof_IP_Header).

Definition write_frame (FrameOUT EthOUT PacketSize : Z) (m : mem) : mem :=
  let m := store_bytes m (eth_Source EthOUT) ServerMACAddress in
  let m := store_bytes m (eth_Destination EthOUT) AdapterMACAddress in
  let m := store 2 m (eth_EtherType EthOUT) (SwapEndian_16 ETHERTYPE_IPV4) in
  let PacketSize := u16 (PacketSize + sizeof_Ethernet_Header) in
  store 2 m (FrameLength FrameOUT) PacketSize.

Definition send_segment (FrameOUT : Z) (c : nat) (m : mem) : mem :=
  let conn := conn_entry c in
  let b := info_Buffer (conn_Info conn) in
  let EthOUT := FrameData FrameOUT in
  let IPOUT := EthOUT + sizeof_Ethernet_Header in
  let TCPOUT := IPOUT + sizeof_IP_Header in
  let PacketSize := load 2 m (buf_Length b) in
  let m := write_segment TCPOUT conn PacketSize m in
  let PacketSize := u16 (PacketSize + sizeof_TCP_Header) in
  let m := write_packet IPOUT conn PacketSize m in
  let PacketSize := u16 (PacketSize + sizeof_IP_Header) in
  let m := write_frame FrameOUT EthOUT PacketSize m in
  store8 m (buf_Ready b) 0.

Definition ready_to_send (m : mem) (c : nat) : bool :=
  let b := info_Buffer (conn_Info (conn_entry c)) in
  truth (load8 m (buf_Direction b)) && truth (load8 m (buf_Ready b)).

Definition TCP_TCPTask (FrameOUT : Z) (m : mem) : option mem :=
  m ← run_applications m;
  if truth (load 2 m (FrameLength FrameOUT)) then Some m
  else match first_entry MAX_TCP_CONNECTIONS (ready_to_send m) with
       | Some c => Some (send_segment FrameOUT c m)
       | None => Some m
       end.
End Tables.
End Tcp.
