(* ===== verification/Webserver.v ===== *)
(** * Webserver: the application of the RNDIS demo
    ([Demos/Device/ClassDriver/RNDISEthernet/Lib/Webserver.c])

    The handler of the HTTP port.  It is called for every connection in every pass of the main
    loop, and keeps its place in the page in one static variable for all of them.  The strings
    are in flash: a list of characters, the terminator included, and behind the page whatever
    the linker put there. *)
From S2P Require Import Prelude Machine Ram Network Tcp.
From Stdlib Require String.
Import (notations) String.

(** The characters of a literal. *)
Definition chars (s : String.string) : list Z := ch <$> String.list_ascii_of_string s.
Arguments chars s%_string_scope.

Module Web.
Import Net Tcp.

Definition CRLF : list Z := [13; 10].
Definition quote : list Z := [34].

Definition HTTP200Header : list Z :=
  chars "HTTP/1.1 200 OK" ++ CRLF
  ++ chars "Server: LUFA RNDIS" ++ CRLF
  ++ chars "Content-type: text/html" ++ CRLF
  ++ chars "Connection: close" ++ CRLF ++ CRLF ++ [0].

Definition HTTP404Header : list Z :=
  chars "HTTP/1.1 404 Not Found" ++ CRLF
  ++ chars "Server: LUFA RNDIS" ++ CRLF
  ++ chars "Connection: close" ++ CRLF ++ CRLF ++ [0].

Definition LUFA_VERSION_STRING : list Z := chars "130303".

Definition HTTPPage : list Z :=
  chars "<html>"
  ++ chars "	<head>"
  ++ chars "		<title>"
  ++ chars "			LUFA Webserver Demo"
  ++ chars "		</title>"
  ++ chars "	</head>"
  ++ chars "	<body>"
  ++ chars "		<h1>Hello from your USB AVR!</h1>"
  ++ chars "		<p>"
  ++ chars "			Hello! Welcome to the LUFA RNDIS Demo Webserver test page, running on your USB AVR via the LUFA library. This demonstrates the HTTP webserver, TCP/IP stack and RNDIS demo all running atop the LUFA USB stack."
  ++ chars "			<br /><br />"
  ++ chars "			<small>Project Information: <a href=" ++ quote ++ chars "http://www.lufa-lib.org" ++ quote
  ++ chars ">http://www.lufa-lib.org</a>.</small>"
  ++ chars "			<hr />"
  ++ chars "			<i>LUFA Version: </i>" ++ LUFA_VERSION_STRING
  ++ chars "		</p>"
  ++ chars "	</body>"
  ++ chars "</html>" ++ [0].

Definition HTTP_REPLY_BLOCK_SIZE := 128.
Definition TCP_PORT_HTTP := SwapEndian_16 80.

Section Webserver.
Context {LY : Layout}.

(** Flash from the page on. *)
Definition page_flash (i : nat) : Z :=
  match HTTPPage !! i with Some c => c | None => u8 (flash_behind_HTTPPage (i - length HTTPPage)) end.

(** [strlen_P]; [None] when no zero follows. *)
Fixpoint strlen_P (k : nat) (i : nat) (n : Z) : option Z :=
  match k with
  | O => None
  | S k' => if page_flash i =? 0 then Some n else strlen_P k' (S i) (n + 1)
  end.

(** The macros of TCP.h. *)
Definition TCP_APP_HAS_RECEIVED_PACKET (b : Z) (m : mem) : bool :=
  truth (load8 m (buf_Ready b)) && negb (truth (load8 m (buf_Direction b))).
Definition TCP_APP_HAVE_CAPTURED_BUFFER (b : Z) (m : mem) : bool :=
  negb (truth (load8 m (buf_Ready b))) && truth (load8 m (buf_InUse b)) && truth (load8 m (buf_Direction b)).
Definition TCP_APP_CAPTURE_BUFFER (b : Z) (m : mem) : mem :=
  store8 (store8 m (buf_Direction b) TCP_PACKETDIR_OUT) (buf_InUse b) 1.
Definition TCP_APP_RELEASE_BUFFER (b : Z) (m : mem) : mem := store8 m (buf_InUse b) 0.
(** [Len] is evaluated behind the first assignment. *)
Definition TCP_APP_SEND_BUFFER (b : Z) (Len : mem -> option Z) (m : mem) : option mem :=
  let m := store8 m (buf_Direction b) TCP_PACKETDIR_OUT in
  n ← Len m;
  let m := store 2 m (buf_Length b) n in
  Some (store8 m (buf_Ready b) 1).
Definition TCP_APP_CLEAR_BUFFER (b : Z) (m : mem) : mem :=
  store 2 (store8 m (buf_Ready b) 0) (buf_Length b) 0.
Definition TCP_APP_CLOSECONNECTION (c : Z) (m : mem) : mem :=
  store8 m (conn_State c) TCP_Connection_Closing.

(** [strncmp(RequestHeader, Command, strlen(Command)) == 0]; [Command] has no zero inside. *)
Definition IsHTTPCommand (m : mem) (RequestHeader : Z) (Command : list Z) : bool :=
  bool_decide (load_bytes m RequestHeader (length Command) = Command).

(** [strcpy_P] into the buffer and sending it. *)
Definition send_header (b : Z) (header : list Z) (m : mem) : option mem :=
  let m := store_bytes m (buf_Data b) header in
  TCP_APP_SEND_BUFFER b (fun m => strlen m (buf_Data b)) m.

(** A request in the buffer. *)
Definition serve_request (c b : Z) (m : mem) : option mem :=
  let is_command := IsHTTPCommand m (buf_Data b) in
  if is_command (chars "GET") then
    if is_command (chars "GET / ") then
      let m := store8 m PageBlock 0 in
      m ← send_header b HTTP200Header m;
      Some (TCP_APP_CAPTURE_BUFFER b m)
    else
      m ← send_header b HTTP404Header m;
      Some (TCP_APP_CLOSECONNECTION c m)
  else if is_command (chars "HEAD") then
    m ← (if is_command (chars "HEAD / ") then send_header b HTTP200Header m
         else send_header b HTTP404Header m);
    Some (TCP_APP_CLOSECONNECTION c m)
  else if is_command (chars "TRACE") then
    m ← TCP_APP_SEND_BUFFER b (fun m => Some (load 2 m (buf_Length b))) m;
    Some (TCP_APP_CLOSECONNECTION c m)
  else Some (TCP_APP_CLEAR_BUFFER b m).

(** The next block of the page. *)
Definition serve_block (c b : Z) (m : mem) : option mem :=
  let start := Z.to_nat (load8 m PageBlock * HTTP_REPLY_BLOCK_SIZE) in
  RemLength ← u16 <$> strlen_P (Z.to_nat 65536) start 0;
  let Length := if HTTP_REPLY_BLOCK_SIZE <? RemLength then HTTP_REPLY_BLOCK_SIZE else RemLength in
  let m := store_bytes m (buf_Data b) (page_flash <$> seq start (Z.to_nat Length)) in
  m ← TCP_APP_SEND_BUFFER b (fun _ => Some Length) m;
  let last := load8 m PageBlock =? Z.of_nat (length HTTPPage) / HTTP_REPLY_BLOCK_SIZE in
  let m := store8 m PageBlock (load8 m PageBlock + 1) in
  Some (if last then TCP_APP_CLOSECONNECTION c (TCP_APP_RELEASE_BUFFER b m) else m).

Definition Webserver_ApplicationCallback (c b : Z) (m : mem) : option mem :=
  if TCP_APP_HAS_RECEIVED_PACKET b m then serve_request c b m
  else if TCP_APP_HAVE_CAPTURED_BUFFER b m then serve_block c b m
  else Some m.

(** The function's address, as it is stored in the port table. *)
Definition Webserver_Init (Handler : Z) (m : mem) : mem :=
  (TCP_SetPortState TCP_PORT_HTTP TCP_Port_Open Handler m).2.

(** The only handler there is. *)
#[export] Instance webserver : TcpApplication := fun _ => Webserver_ApplicationCallback.
End Webserver.
End Web.
