(* ===== verification/Ethernet.v ===== *)
(** * Ethernet: IP, frame dispatch and the main loop of the RNDIS demo
    ([Demos/Device/ClassDriver/RNDISEthernet]: Lib/IP.c, Lib/Ethernet.c, RNDISEthernet.c)

    IP hands the payload to ICMP, TCP or UDP and completes the header of a response, Ethernet
    does the same one layer below.  The main loop reads frames from the adapter of Rndis.v,
    answers them, runs the TCP task and the USB tasks. *)
From S2P Require Import Prelude Machine Ram Logic Endpoint EndpointStream UsbController DeviceRequests.
From S2P Require Import Cdc ClassMemory Rndis Interrupts Network Tcp Webserver.

Module Ethernet.
Import Net Tcp Web Rndis.

Section Frames.
Context {LY : Layout}.

(** ** [IP.c] *)

(** The response header. *)
Definition ip_response (IN OUT RetSize : Z) (m : mem) : mem :=
  let m := store 2 m (ip_TotalLength OUT) (SwapEndian_16 (u16 (sizeof_IP_Header + RetSize))) in
  let m := store8 m (ip_TypeOfService OUT) 0 in
  let m := store_field 1 0 4 m (ip_HeaderLength OUT) (sizeof_IP_Header / 4) in
  let m := store_field 1 4 4 m (ip_Version OUT) 4 in
  let m := store_field 2 13 3 m (ip_Flags OUT) 0 in
  let m := store_field 2 0 13 m (ip_FragmentOffset OUT) 0 in
  let m := store 2 m (ip_Identification OUT) 0 in
  let m := store 2 m (ip_HeaderChecksum OUT) 0 in
  let m := copy m (ip_Protocol OUT) (ip_Protocol IN) 1 in
  let m := store8 m (ip_TTL OUT) DEFAULT_TTL in
  let m := copy m (ip_SourceAddress OUT) (ip_DestinationAddress IN) 4 in
  let m := copy m (ip_DestinationAddress OUT) (ip_SourceAddress IN) 4 in
  store 2 m (ip_HeaderChecksum OUT) (Ethernet_Checksum16 m OUT sizeof_IP_Header).

Definition IP_ProcessIPPacket (FrameIN IN OUT : Z) (m : mem) : option (Z * mem) :=
  let HeaderLengthBytes := load_field 1 0 4 m (ip_HeaderLength IN) * 4 in
  if negb (IP_COMPARE m (ip_DestinationAddress IN) ServerIPAddress)
     && negb (IP_COMPARE m (ip_DestinationAddress IN) BroadcastIPAddress) then Some (NO_RESPONSE, m)
  else
    let Protocol := load8 m (ip_Protocol IN) in
    '(RetSize, m) ←
      (if Protocol =? PROTOCOL_ICMP then
         Some (ICMP_ProcessICMPPacket FrameIN (IN + HeaderLengthBytes) (OUT + sizeof_IP_Header) m)
       else if Protocol =? PROTOCOL_TCP then
         Some (TCP_ProcessTCPPacket IN (IN + HeaderLengthBytes) (OUT + sizeof_IP_Header) m)
       else if Protocol =? PROTOCOL_UDP then
         UDP_ProcessUDPPacket IN (IN + HeaderLengthBytes) (OUT + sizeof_IP_Header) m
       else Some (NO_RESPONSE, m));
    if 0 <? RetSize then
      Some (signed 16 (sizeof_IP_Header + RetSize), ip_response IN OUT RetSize m)
    else Some (RetSize, m).

(** ** [Ethernet.c] *)

(** Is the frame for this station and of type II?  The length is in the processor's order, and
    is swapped nevertheless. *)
Definition accepted (FrameIN : Z) (m : mem) : bool :=
  (MAC_COMPARE m (eth_Destination (FrameData FrameIN)) ServerMACAddress
   || MAC_COMPARE m (eth_Destination (FrameData FrameIN)) BroadcastMACAddress)
  && (ETHERNET_VER2_MINSIZE <? SwapEndian_16 (load 2 m (FrameLength FrameIN))).

Definition frame_response (FrameIN FrameOUT RetSize : Z) (m : mem) : mem :=
  let IN := FrameData FrameIN in
  let OUT := FrameData FrameOUT in
  let m := store_bytes m (eth_Source OUT) ServerMACAddress in
  let m := copy m (eth_Destination OUT) (eth_Source IN) 6 in
  let m := copy m (eth_EtherType OUT) (eth_EtherType IN) 2 in
  store 2 m (FrameLength FrameOUT) (u16 (sizeof_Ethernet_Header + RetSize)).

Definition Ethernet_ProcessPacket (FrameIN FrameOUT : Z) (m : mem) : option mem :=
  let IN := FrameData FrameIN in
  let OUT := FrameData FrameOUT in
  '(RetSize, m) ←
    (if accepted FrameIN m then
       let EtherType := SwapEndian_16 (load 2 m (eth_EtherType IN)) in
       '(RetSize, m) ←
         (if EtherType =? ETHERTYPE_ARP then
            Some (ARP_ProcessARPPacket (IN + sizeof_Ethernet_Header) (OUT + sizeof_Ethernet_Header) m)
          else if EtherType =? ETHERTYPE_IPV4 then
            IP_ProcessIPPacket FrameIN (IN + sizeof_Ethernet_Header) (OUT + sizeof_Ethernet_Header) m
          else Some (NO_RESPONSE, m));
       Some (RetSize, if 0 <? RetSize then frame_response FrameIN FrameOUT RetSize m else m)
     else Some (NO_RESPONSE, m));
  Some (if RetSize =? NO_PROCESS then m else store 2 m (FrameLength FrameIN) 0).
End Frames.

(** ** [RNDISEthernet.c] and the LEDs of its board ([Board/AVR8/USBKEY/LEDs.h]) *)

Definition LEDS_LED1 := bit 4.
Definition LEDS_LED2 := bit 5.
Definition LEDS_LED3 := bit 7.
Definition LEDS_LED4 := bit 6.
Definition LEDS_ALL_LEDS := LEDS_LED1 .| LEDS_LED2 .| LEDS_LED3 .| LEDS_LED4.
Definition LEDMASK_USB_NOTREADY := LEDS_LED1.
Definition LEDMASK_USB_ENUMERATING := LEDS_LED2 .| LEDS_LED3.
Definition LEDMASK_USB_READY := LEDS_LED2 .| LEDS_LED4.
Definition LEDMASK_USB_ERROR := LEDS_LED1 .| LEDS_LED3.
Definition LEDMASK_USB_BUSY := LEDS_LED2.

Section Demo.
Context {HW : Hardware} {PRE : Preempt} {FU : Fuel} {EV : UsbEvents} {LY : Layout}.

Definition LEDs_SetAllLEDs (LEDMask : Z) : M unit :=
  v <- rd PORTD ;; wr PORTD (v .&~ LEDS_ALL_LEDS .| LEDMask).

(** The interface structure and the two frames; [header] is what the local packet header of
    RNDIS_Device_ReadPacket holds before it is read. *)
Context (Interface FrameIN FrameOUT : Z) (header : buffer).

Definition receive_frame : M unit :=
  LEDs_SetAllLEDs LEDMASK_USB_BUSY ;;
  RNDIS_Device_ReadPacket header Interface (FrameData FrameIN) (FrameLength FrameIN) ;;
  on_ram (Ethernet_ProcessPacket FrameIN FrameOUT) ;;
  n <- peek (fun m => load 2 m (FrameLength FrameOUT)) ;;
  (when truth n do
     (n <- peek (fun m => load 2 m (FrameLength FrameOUT)) ;;
      RNDIS_Device_SendPacket Interface (FrameData FrameOUT) n ;;
      poke (fun m => store 2 m (FrameLength FrameOUT) 0))) ;;
  LEDs_SetAllLEDs LEDMASK_USB_READY.

(** One round of the loop in [main]. *)
Definition demo_pass : M unit :=
  received <- RNDIS_Device_IsPacketReceived Interface ;;
  (when received do receive_frame) ;;
  on_ram (TCP_TCPTask FrameOUT) ;;
  RNDIS_Device_USBTask Interface ;;
  Interrupts.USB_USBTask.

(** The start of [main], behind SetupHardware. *)
Definition demo_init (Handler : Z) : M unit :=
  poke TCP_Init ;;
  poke (Webserver_Init Handler) ;;
  LEDs_SetAllLEDs LEDMASK_USB_NOTREADY.

Definition demo_Connect : M unit := LEDs_SetAllLEDs LEDMASK_USB_ENUMERATING.
Definition demo_Disconnect : M unit := LEDs_SetAllLEDs LEDMASK_USB_NOTREADY.
Definition demo_ConfigurationChanged : M unit :=
  ok <- RNDIS_Device_ConfigureEndpoints Interface ;;
  LEDs_SetAllLEDs (if ok : bool then LEDMASK_USB_READY else LEDMASK_USB_ERROR).
Definition demo_ControlRequest : M unit := RNDIS_Device_ProcessControlRequest Interface.
End Demo.
End Ethernet.
