(* ===== verification/Packets.v ===== *)
(** * Packets: what a network node with the demo's addresses answers

    A reference for the stateless protocols: frames are lists of bytes in the order of the wire,
    and [node] gives the frame that answers a frame.  It knows nothing of buffers, pointers or
    byte order; PacketReplies.v relates it to the code. *)
From S2P Require Import Prelude Machine Ram Network Checksum.
Import Net.

(** Fields by position. *)
Definition byte (l : list Z) (i : nat) : Z := nth i l 0.
Definition sub (l : list Z) (i n : nat) : list Z := take n (drop i l).
Definition be16 (l : list Z) (i : nat) : Z := 256 * byte l i + byte l (S i).
Definition be_bytes (n : nat) (v : Z) : list Z := reverse (le_bytes n v).

(** [l] with its Internet checksum in the two bytes at [k], which are zero in [l]; a last odd byte
    is summed as a word of its own ([words16]). *)
Definition sealed (k : nat) (l : list Z) : list Z :=
  splice k (le_bytes 2 (65535 - ones_sum (words16 l))) l.

(** ** ARP *)

Definition arp_reply (p : list Z) : option (list Z) :=
  if (be16 p 2 =? ETHERTYPE_IPV4) && (be16 p 6 =? 1)
     && (bool_decide (sub p 24 4 = ServerIPAddress) || bool_decide (sub p 18 6 = ServerMACAddress))
  then Some (sub p 0 6 ++ [0; 2] ++ ServerMACAddress ++ ServerIPAddress ++ sub p 8 10)
  else None.

(** ** ICMP *)

Definition icmp_reply (p : list Z) : option (list Z) :=
  if byte p 0 =? ICMP_TYPE_ECHOREQUEST then Some (sealed 2 ([0; 0; 0; 0] ++ drop 4 p)) else None.

(** ** DHCP over UDP *)

(** The message type an option list asks with; [None] if the list has no end. *)
Fixpoint dhcp_type (k : nat) (o : list Z) : option (option Z) :=
  match k, o with
  | S k', c :: o' =>
      if c =? DHCP_OPTION_END then Some None
      else if c =? DHCP_OPTION_PAD then dhcp_type k' o'
      else match o' with
           | n :: v =>
               if c =? DHCP_OPTION_MESSAGETYPE then
                 match v with
                 | t :: _ =>
                     if (t =? DHCP_MESSAGETYPE_DISCOVER) || (t =? DHCP_MESSAGETYPE_REQUEST)
                     then Some (Some t) else dhcp_type k' (drop (Z.to_nat n) v)
                 | [] => None
                 end
               else dhcp_type k' (drop (Z.to_nat n) v)
           | [] => None
           end
  | _, _ => None
  end.

Definition dhcp_head (p : list Z) : list Z :=
  [DHCP_OP_BOOTREPLY; byte p 1; byte p 2; 0] ++ sub p 4 4 ++ [0; 0] ++ sub p 10 2
  ++ replicate 4 0 ++ ClientIPAddress ++ replicate 8 0 ++ sub p 28 6 ++ replicate 202 0
  ++ be_bytes 4 DHCP_MAGIC_COOKIE.

Definition dhcp_reply (p : list Z) : option (option (list Z)) :=
  match dhcp_type (length p) (drop 240 p) with
  | None => None
  | Some None => Some None
  | Some (Some t) => Some (Some (dhcp_head p ++ dhcp_options t))
  end.

Definition udp_reply (p : list Z) : option (option (list Z)) :=
  if be16 p 2 =? UDP_PORT_DHCP_REQUEST then
    match dhcp_reply (drop 8 p) with
    | Some (Some r) => Some (Some (sub p 2 2 ++ sub p 0 2 ++ be_bytes 2 (8 + Z.of_nat (length r)) ++ [0; 0] ++ r))
    | r => r
    end
  else Some None.

(** ** IP *)

Definition ip_header (size proto : Z) (src dst : list Z) : list Z :=
  sealed 10 ([0x45; 0] ++ be_bytes 2 size ++ [0; 0; 0; 0; DEFAULT_TTL; proto; 0; 0] ++ src ++ dst).

Definition ip_packet (proto : Z) (src dst r : list Z) : list Z :=
  ip_header (20 + Z.of_nat (length r)) proto src dst ++ r.

(** Outer [None]: a packet the reference does not describe (TCP, or options without an end). *)
Definition ip_reply (p : list Z) : option (option (list Z)) :=
  let payload := drop (Z.to_nat (4 * (byte p 0 mod 16))) p in
  let src := sub p 12 4 in
  let dst := sub p 16 4 in
  if bool_decide (dst = ServerIPAddress) || bool_decide (dst = BroadcastIPAddress) then
    let proto := byte p 9 in
    if proto =? PROTOCOL_ICMP then Some (ip_packet proto dst src <$> icmp_reply payload)
    else if proto =? PROTOCOL_UDP then
      match udp_reply payload with
      | Some r => Some (ip_packet proto ServerIPAddress ClientIPAddress <$> r)
      | None => None
      end
    else if proto =? PROTOCOL_TCP then None
    else Some None
  else Some None.

(** ** Ethernet *)

Definition node (f : list Z) : option (option (list Z)) :=
  if bool_decide (sub f 0 6 = ServerMACAddress) || bool_decide (sub f 0 6 = BroadcastMACAddress) then
    let reply r := sub f 6 6 ++ ServerMACAddress ++ sub f 12 2 ++ r in
    if be16 f 12 =? ETHERTYPE_ARP then Some (reply <$> arp_reply (drop 14 f))
    else if be16 f 12 =? ETHERTYPE_IPV4 then
      match ip_reply (drop 14 f) with Some r => Some (reply <$> r) | None => None end
    else Some None
  else Some None.

(** Not part of the reference: the frames the code looks at at all.  It compares the length with
    its two bytes exchanged, so that this depends mostly on the low byte of the length. *)
Definition length_accepted (n : Z) : bool := 0x0600 <? 256 * (n mod 256) + n / 256.

(** Frames that contain the headers their protocol has, with ICMP messages of even length (the
    code leaves the last byte of an odd one out of the checksum). *)
Definition complete (f : list Z) : bool :=
  let p := drop 14 f in
  let hl := 4 * (byte p 0 mod 16) in
  (14 <=? Z.of_nat (length f))
  && (if be16 f 12 =? ETHERTYPE_ARP then 42 <=? Z.of_nat (length f)
      else if be16 f 12 =? ETHERTYPE_IPV4 then
        (34 <=? Z.of_nat (length f)) && (20 <=? hl) && (14 + hl + 8 <=? Z.of_nat (length f))
        && (if (byte p 9 =? PROTOCOL_UDP) && (be16 (drop (Z.to_nat hl) p) 2 =? UDP_PORT_DHCP_REQUEST)
            then 14 + hl + 8 + 240 <=? Z.of_nat (length f) else true)
        && (if byte p 9 =? PROTOCOL_ICMP then Z.even (Z.of_nat (length f) - 14 - hl) else true)
      else true).
