(* ===== verification/PacketReplies.v ===== *)
(** * PacketReplies: the stateless protocols of the demo refine the reference node

    The handlers of Network.v and Ethernet.v, which work on two buffers in memory, against
    [node] of Packets.v, which maps a frame to its answer. *)
From S2P Require Import Prelude Machine Ram Network Checksum Tcp Webserver Ethernet Packets.
Import Net Ethernet.

(** ** Fields of a packet in memory *)

Lemma sub_load m a n i k : (i + k <= n)%nat ->
  load_bytes m (a + Z.of_nat i) k = sub (load_bytes m a n) i k.
Proof.
  intros H. unfold sub. replace n with (i + (k + (n - i - k)))%nat by lia.
  rewrite !load_bytes_app. rewrite drop_app_length' by (by rewrite length_load_bytes).
  by rewrite take_app_length' by (by rewrite length_load_bytes).
Qed.

Lemma drop_load m a n i : (i <= n)%nat ->
  load_bytes m (a + Z.of_nat i) (n - i) = drop i (load_bytes m a n).
Proof.
  intros H. replace (load_bytes m a n) with (load_bytes m a (i + (n - i))) by (f_equal; lia).
  rewrite load_bytes_app. by rewrite drop_app_length' by (by rewrite length_load_bytes).
Qed.

Lemma load8_byte m a n i : (i < n)%nat -> load8 m (a + Z.of_nat i) = byte (load_bytes m a n) i.
Proof.
  intros H. pose proof (sub_load m a n i 1 ltac:(lia)) as E. cbn [load_bytes] in E.
  unfold byte. rewrite <- (take_drop i (load_bytes m a n)), app_nth2;
    rewrite length_take, length_load_bytes; [|lia].
  replace (i - i `min` n)%nat with 0%nat by lia. unfold sub in E.
  destruct (drop i (load_bytes m a n)) as [|x l]; [done|]. by injection E as ->.
Qed.

Lemma le_value2 a b : is_u8 a -> le_value [a; b] = a + 256 * b.
Proof. intros Ha. cbn [le_value]. rewrite lor_shiftl8 by done. rewrite Z.shiftl_0_l, Z.lor_0_r. done. Qed.

Lemma signed16_small z : 0 <= z < 32768 -> signed 16 z = z.
Proof. by apply (signed_small 16). Qed.

Lemma swap_bytes a b : is_u8 a -> is_u8 b -> SwapEndian_16 (le_value [a; b]) = 256 * a + b.
Proof.
  intros Ha Hb. unfold SwapEndian_16.
  assert (le_bytes 2 (le_value [a; b]) = [a; b]) as ->
    by (apply (le_bytes_value [a; b]); rewrite !Forall_cons_iff; auto).
  change (reverse [a; b]) with [b; a]. rewrite le_value2 by done. lia.
Qed.

Lemma swap_load m a n i : (i + 2 <= n)%nat ->
  SwapEndian_16 (load 2 m (a + Z.of_nat i)) = be16 (load_bytes m a n) i.
Proof.
  intros H. unfold load. cbn [load_bytes]. rewrite swap_bytes by apply load8_u8.
  unfold be16. rewrite <- !load8_byte by lia.
  by replace (a + Z.of_nat (S i)) with (a + Z.of_nat i + 1) by lia.
Qed.

Lemma swap_store v : le_bytes 2 (SwapEndian_16 v) = be_bytes 2 v.
Proof.
  unfold SwapEndian_16, be_bytes. change 2%nat with (length (reverse (le_bytes 2 v))) at 1.
  apply le_bytes_value. unfold reverse. rewrite rev_append_rev, app_nil_r.
  apply Forall_rev, Forall_le_bytes.
Qed.

(** ** Regions with literal offsets *)

Lemma load_region m a b n k bs : a = b + Z.of_nat k ->
  inside b (Z.of_nat n) -> (k + length bs <= n)%nat -> Forall is_u8 bs ->
  load_bytes (store_bytes m a bs) b n = splice k bs (load_bytes m b n).
Proof. intros ->. apply load_bytes_splice. Qed.

(** Take a list of known length apart. *)
Ltac explode l n :=
  match n with
  | O => destruct l; [|discriminate]
  | S ?k => destruct l as [|? l]; [discriminate|]; explode l k
  end.

(** Evaluate loads of a region, or of another one, from stores at literal offsets. *)
Ltac side := first [addr | bytes | done].
Ltac regions :=
  repeat match goal with
  | |- context [load_bytes (store_bytes ?m ?a ?bs) ?b ?n] =>
      first
        [ rewrite (load_bytes_disjoint m a bs b n) by addr
        | rewrite (load_bytes_at m a bs b n) by side
        | match a with
          | b + ?k => let k' := eval vm_compute in (Z.to_nat k) in
              rewrite (load_region m a b n k' bs) by side
          | b => rewrite (load_region m a b n 0 bs) by side
          end ]
  end.

(** What a handler did at [OUT]: its result, the packet, and that nothing else changed. *)
Definition answered (m : mem) (OUT : Z) (r : option (list Z)) (res : Z * mem) : Prop :=
  match r with
  | Some bs => res.1 = Z.of_nat (length bs) /\ load_bytes res.2 OUT (length bs) = bs
               /\ changed_in m res.2 OUT (Z.of_nat (length bs))
  | None => res = (NO_RESPONSE, m)
  end.

Ltac lens := repeat first [rewrite length_app | rewrite length_load_bytes
  | progress cbn [snd length Datatypes.app Nat.add]].

(** Lists of the same bytes, read at addresses written differently. *)
Ltac list_eq := repeat match goal with
  | |- _ :: _ = _ :: _ => apply (f_equal2 cons); [first [reflexivity | apply f_equal; lia]|]
  | |- [] = [] => reflexivity
  end.

(** A sequence of stores changes nothing outside. *)
Ltac changed :=
  repeat first [apply changed_refl | eapply changed_trans; [|apply changed_store; addr]].

Definition apart (a n b k : Z) : Prop := a + n <= b \/ b + k <= a.

(** ** ARP *)

Lemma arp_ok m IN OUT : inside IN 28 -> inside OUT 28 -> apart IN 28 OUT 28 ->
  answered m OUT (arp_reply (load_bytes m IN 28)) (ARP_ProcessARPPacket IN OUT m).
Proof.
  intros Hi Ho Ha. unfold apart in Ha. unfold ARP_ProcessARPPacket, arp_reply.
  rewrite <- (swap_load m IN 28 2), <- (swap_load m IN 28 6) by lia.
  rewrite <- (sub_load m IN 28 24 4), <- (sub_load m IN 28 18 6), <- (sub_load m IN 28 8 10),
    <- (sub_load m IN 28 0 6) by lia.
  change (load 2 m (IN + Z.of_nat 2)) with (load 2 m (arp_ProtocolType IN)).
  change (load 2 m (IN + Z.of_nat 6)) with (load 2 m (arp_Operation IN)).
  unfold IP_COMPARE, MAC_COMPARE, ARP_OPERATION_REQUEST.
  change (arp_TPA IN) with (IN + Z.of_nat 24). change (arp_THA IN) with (IN + Z.of_nat 18).
  destruct (_ =? ETHERTYPE_IPV4), (_ =? 1); cbn [andb]; try done.
  destruct (bool_decide _ || bool_decide _); [|done].
  cbv zeta. unfold ServerMACAddress, ServerIPAddress.
  unfold copy, arp_HardwareType, arp_ProtocolType, arp_HLEN, arp_PLEN, arp_Operation, arp_SHA,
    arp_SPA, arp_THA, arp_TPA, store.
  regions. split; [done|]. lens. split; [|changed].
  regions. rewrite (swap_store ARP_OPERATION_REPLY). cbn [load_bytes]. cbn. list_eq.
Qed.

(** ** Checksums *)

Lemma length_sealed k l : (k + 2 <= length l)%nat -> length (sealed k l) = length l.
Proof.
  intros H. unfold sealed, splice. rewrite !length_app, length_take, length_drop, length_le_bytes. lia.
Qed.

Lemma take_load m a n k : (k <= n)%nat -> load_bytes m a k = take k (load_bytes m a n).
Proof.
  intros H. pose proof (sub_load m a n 0 k H) as E. rewrite Z.add_0_r in E. by rewrite E.
Qed.

(** Storing the checksum of a block of even length at the offset [k]. *)
Lemma store_checksum m a n k : inside a (Z.of_nat n) -> (k + 2 <= n)%nat -> Z.of_nat n < 65536 ->
  Nat.even n = true ->
  load_bytes (store 2 m (a + Z.of_nat k) (Ethernet_Checksum16 m a (Z.of_nat n))) a n
  = sealed k (load_bytes m a n).
Proof.
  intros Ha Hk Hn [h Hh]%Nat.even_spec. unfold store.
  rewrite load_bytes_splice by (rewrite ?length_le_bytes; auto with cint).
  unfold sealed. f_equal. f_equal. rewrite Ethernet_Checksum16_ref by lia. do 3 f_equal.
  subst n. f_equal. rewrite Nat2Z.inj_mul, (Z.mul_comm (Z.of_nat 2)), Z.div_mul by done. lia.
Qed.

Lemma words16_le v : is_u16 v -> words16 (le_bytes 2 v) = [v].
Proof.
  intros Hv. pose proof (le_value_bytes 2 v) as E. cbn [le_bytes words16] in *. rewrite E.
  by rewrite wrap_id.
Qed.

Lemma complement_u16 xs ys : Forall is_u16 xs -> Forall is_u16 ys -> is_u16 (65535 - ones_sum (xs ++ 0 :: ys)).
Proof.
  intros Hx Hy. assert (Forall is_u16 (xs ++ 0 :: ys)) as Hz
    by (apply Forall_app; split; [|constructor]; done).
  rewrite ones_sum_norm by done. pose proof (norm_u16 _ (proj1 (total_nonneg _ Hz))).
  unfold is_u in *. lia.
Qed.

Lemma splice_ok k l : Nat.even k = true -> (k + 2 <= length l)%nat -> Forall is_u8 l -> sub l k 2 = [0; 0] ->
  checksum_ok (splice k (le_bytes 2 (65535 - ones_sum (words16 l))) l).
Proof.
  intros Hk Hn Hu Hz. unfold checksum_ok, splice.
  rewrite length_le_bytes. rewrite <- (take_drop k l) at 2.
  assert (drop k l = [0; 0] ++ drop (k + 2) l) as ->.
  { rewrite <- Hz. unfold sub. by rewrite <- drop_drop, take_drop. }
  assert (Nat.even (length (take k l)) = true) as He by (by rewrite length_take_le by lia).
  rewrite !words16_app by done. cbn [Datatypes.app words16].
  change (le_value [0; 0]) with 0. set (xs := words16 (take k l)). set (ys := words16 (drop (k + 2) l)).
  assert (Forall is_u16 xs) by (by apply words16_u16, Forall_take).
  assert (Forall is_u16 ys) by (by apply words16_u16, Forall_drop).
  rewrite words16_le by (by apply complement_u16). by apply ones_sum_complete.
Qed.

Lemma sealed_ok k l : Nat.even k = true -> (k + 2 <= length l)%nat ->
  Forall is_u8 l -> sub l k 2 = [0; 0] -> checksum_ok (sealed k l).
Proof. apply splice_ok. Qed.

(** ** ICMP *)

Lemma icmp_ok m F IN OUT n :
  inside F 1502 -> inside OUT (Z.of_nat n) -> apart F 1502 OUT (Z.of_nat n) -> F <= IN ->
  (8 <= n)%nat -> Nat.even n = true ->
  load 2 m (FrameLength F) = IN - F + Z.of_nat n -> IN - F + Z.of_nat n <= 1500 ->
  answered m OUT (icmp_reply (load_bytes m IN n)) (ICMP_ProcessICMPPacket F IN OUT m).
Proof.
  intros Hf Ho Ha Hi Hn He HL Hb. unfold apart in Ha. unfold ICMP_ProcessICMPPacket, icmp_reply.
  rewrite <- load8_byte by lia. change (Z.of_nat 0) with 0. rewrite Z.add_0_r. unfold icmp_Type.
  destruct (_ =? ICMP_TYPE_ECHOREQUEST); [|done]. cbv zeta.
  unfold sizeof_ICMP_Header, icmp_Checksum, icmp_Code, icmp_Id, icmp_Sequence, FrameLength, FrameData in *.
  set (m1 := copy _ _ _ 2).
  assert (load 2 m1 (F + 1500) = IN - F + Z.of_nat n) as ->.
  { rewrite <- HL. unfold m1, copy, load, store. rewrite !store8_bytes. regions. done. }
  replace (IN - F + Z.of_nat n - (IN + 8 - F)) with (Z.of_nat n - 8) by lia.
  rewrite (signed16_small (Z.of_nat n - 8)) by lia.
  rewrite (wrap_id 16 (Z.of_nat n - 8)) by (unfold is_u; lia).
  replace (Z.of_nat n - 8 + 8) with (Z.of_nat n) by lia.
  rewrite (wrap_id 16 (Z.of_nat n)), signed16_small by (unfold is_u; lia).
  set (m2 := copy m1 _ _ _).
  assert (load_bytes m2 OUT n = [0; 0; 0; 0] ++ drop 4 (load_bytes m IN n)) as Hm2.
  { replace n with (8 + (n - 8))%nat at 1 by lia. rewrite load_bytes_app. unfold m2, m1, copy, store.
    rewrite !store8_bytes. replace (Z.to_nat (Z.of_nat n - 8)) with (n - 8)%nat by lia. regions.
    rewrite <- (drop_load m IN n 4) by lia. replace (n - 4)%nat with (4 + (n - 8))%nat by lia.
    rewrite load_bytes_app, app_assoc. f_equal; [|f_equal; lia].
    cbn [load_bytes le_bytes]. cbn. list_eq. }
  change (OUT + 2) with (OUT + Z.of_nat 2). rewrite <- Hm2, <- store_checksum by (try done; lia).
  unfold answered. rewrite length_load_bytes.
  split; [done|split; [done|]]. cbn [snd].
  unfold m2, m1, copy, store. rewrite !store8_bytes. changed.
Qed.

(** ** DHCP *)

Lemma dhcp_walk_type m k k' o n t : (k <= k')%nat ->
  dhcp_type k (load_bytes m o n) = Some t -> dhcp_walk k' m o = Some t.
Proof.
  revert k' o n. induction k as [|k IH]; intros [|k'] o n Hk H; cbn [dhcp_type] in H; try done; try lia.
  destruct n as [|n]; cbn [load_bytes] in H; [done|]. cbn [dhcp_walk].
  destruct (load8 m o =? DHCP_OPTION_END); [done|].
  assert (forall j, dhcp_type k (drop (Z.to_nat j) (load_bytes m (o + 1 + 1) (n - 1))) = Some t ->
            0 <= j -> dhcp_walk k' m (o + (j + 2)) = Some t) as Hskip.
  { intros j Hj Hp. destruct (Nat.le_gt_cases (Z.to_nat j) (n - 1)).
    - rewrite <- drop_load in Hj by done. apply (IH k') in Hj; [|lia].
      by replace (o + (j + 2)) with (o + 1 + 1 + Z.of_nat (Z.to_nat j)) by lia.
    - rewrite drop_ge in Hj by (rewrite length_load_bytes; lia). by destruct k. }
  destruct (Z.eqb_spec (load8 m o) DHCP_OPTION_PAD) as [->|Hpad].
  { cbn [DHCP_OPTION_MESSAGETYPE DHCP_OPTION_PAD Z.eqb andb]. by apply (IH k' (o + 1) n); [lia|]. }
  destruct n as [|n]; cbn [load_bytes] in H; [done|].
  replace (S n - 1)%nat with n in Hskip by lia.
  pose proof (load8_u8 m (o + 1)) as [? _].
  destruct (load8 m o =? DHCP_OPTION_MESSAGETYPE); cbn [andb]; [|by apply Hskip].
  destruct n as [|n]; cbn [load_bytes] in H; [done|].
  replace (o + 2) with (o + 1 + 1) by lia. destruct (_ || _); [done|]. by apply Hskip.
Qed.

(** The header of the reply and the rewritten addresses. *)
Lemma dhcp_header_ok m IP IN OUT n : (240 <= n)%nat ->
  inside IP 20 -> inside IN (Z.of_nat n) -> inside OUT 240 -> IP + 20 <= IN ->
  apart IP (IN - IP + Z.of_nat n) OUT 240 ->
  let m' := dhcp_header IP IN OUT m in
  load_bytes m' OUT 240 = dhcp_head (load_bytes m IN n)
  /\ load_bytes m' (ip_SourceAddress IP) 4 = ClientIPAddress
  /\ load_bytes m' (ip_DestinationAddress IP) 4 = ServerIPAddress
  /\ changed_in2 m m' OUT 240 (IP + 12) 8.
Proof.
  intros Hn Hp Hi Ho Hd Ha. unfold apart in Ha. unfold dhcp_header. cbv zeta.
  unfold memset, sizeof_DHCP_Header, copy, store, dhcp_HardwareType, dhcp_Operation,
    dhcp_HardwareAddressLength, dhcp_Hops, dhcp_TransactionID, dhcp_ElapsedSeconds, dhcp_Flags,
    dhcp_YourIP, dhcp_ClientHardwareAddress, dhcp_Cookie, ip_SourceAddress, ip_DestinationAddress,
    ClientIPAddress, ServerIPAddress.
  change (Z.to_nat 240) with 240%nat. rewrite !store8_bytes. regions.
  split; [|split; [done|split; [done|]]].
  - unfold dhcp_head. rewrite <- !(load8_byte m IN n) by lia.
    rewrite <- !(sub_load m IN n) by lia. cbn [load_bytes].
    generalize (load8 m). intros f. reflexivity.
  - intros x Hx H1 H2. repeat rewrite store_bytes_out by addr. done.
Qed.

(** A reply of [z] bytes, or none, at [OUT]. *)
Definition placed (m : mem) (OUT : Z) (r : option (list Z)) (z : Z) : Prop :=
  match r with
  | Some bs => z = Z.of_nat (length bs) /\ load_bytes m OUT (length bs) = bs
  | None => z = NO_RESPONSE
  end.

Lemma dhcp_ok m IP IN OUT n r : (240 <= n <= 1500)%nat ->
  inside IP 20 -> inside IN (Z.of_nat n) -> inside OUT 256 -> IP + 20 <= IN ->
  apart IP (IN - IP + Z.of_nat n) OUT 256 -> dhcp_reply (load_bytes m IN n) = Some r ->
  exists z m', DHCP_ProcessDHCPPacket IP IN OUT m = Some (z, m') /\ placed m' OUT r z
    /\ load_bytes m' (ip_SourceAddress IP) 4 = ClientIPAddress
    /\ load_bytes m' (ip_DestinationAddress IP) 4 = ServerIPAddress
    /\ changed_in2 m m' OUT 256 (IP + 12) 8.
Proof.
  intros Hn Hp Hi Ho Hd Ha Hr. unfold apart in Ha. unfold inside in *.
  destruct (dhcp_header_ok m IP IN OUT n) as (Hh & Hs & Ht & Hc); try (unfold inside, apart; lia).
  unfold DHCP_ProcessDHCPPacket. cbv zeta. set (m1 := dhcp_header IP IN OUT m) in *.
  unfold dhcp_reply in Hr. destruct (dhcp_type _ _) as [t|] eqn:Et; [|done].
  rewrite length_load_bytes, <- drop_load in Et by lia.
  rewrite <- (changed_load2 m m1 OUT 240 (IP + 12) 8) in Et by first [done|unfold inside; lia].
  apply dhcp_walk_type with (k' := Z.to_nat 65536) in Et; [|lia].
  unfold sizeof_DHCP_Header. change (Z.of_nat 240) with 240 in Et. rewrite Et.
  assert (changed_in2 m m1 OUT 256 (IP + 12) 8) as Hc' by (intros x ? ? ?; apply Hc; lia).
  destruct t as [t|]; apply (inj Some) in Hr as <-; [|by exists NO_RESPONSE, m1].
  set (opts := dhcp_options t).
  assert (length opts = 16%nat) as Hl by done.
  assert (Forall is_u8 opts) as Hu
    by (unfold opts, dhcp_options; destruct (_ =? _); apply bytes_u8; vm_compute; reflexivity).
  eexists _, _. split; [done|]. clearbody opts. unfold ip_SourceAddress, ip_DestinationAddress in *.
  split; [|split; [|split]].
  - assert (length (dhcp_head (load_bytes m IN n)) = 240%nat) as Hh'
      by (by rewrite <- Hh, length_load_bytes).
    split; [by rewrite length_app, Hl, Hh'|]. apply load_pieces; rewrite Hh'.
    + by rewrite load_bytes_disjoint by (rewrite ?Hl; addr).
    + by rewrite load_bytes_at by (rewrite ?Hl; first [addr|done]).
  - by rewrite load_bytes_disjoint by (rewrite ?Hl; addr).
  - by rewrite load_bytes_disjoint by (rewrite ?Hl; addr).
  - intros x ? ? ?. rewrite store_bytes_out by (rewrite ?Hl; addr). by apply Hc'.
Qed.

Lemma dhcp_reply_length p r : (240 <= length p)%nat -> dhcp_reply p = Some (Some r) -> length r = 256%nat.
Proof.
  intros Hp. unfold dhcp_reply. destruct (dhcp_type _ _) as [[t|]|]; try done.
  intros H. apply (inj Some), (inj Some) in H as <-. unfold dhcp_head, sub.
  rewrite !length_app, !length_take, !length_drop, !length_replicate. cbn [length].
  change (length (be_bytes 4 DHCP_MAGIC_COOKIE)) with 4%nat. change (length (dhcp_options t)) with 16%nat. 
  change (length ClientIPAddress) with 4%nat. lia.
Qed.

Lemma udp_ok m IP IN OUT n r : (8 <= n <= 1500)%nat ->
  inside IP 20 -> inside IN (Z.of_nat n) -> inside OUT 264 -> IP + 20 <= IN ->
  apart IP (IN - IP + Z.of_nat n) OUT 264 ->
  (be16 (load_bytes m IN n) 2 = UDP_PORT_DHCP_REQUEST -> (248 <= n)%nat) ->
  udp_reply (load_bytes m IN n) = Some r ->
  exists z m', UDP_ProcessUDPPacket IP IN OUT m = Some (z, m') /\ placed m' OUT r z
    /\ (r <> None -> load_bytes m' (ip_SourceAddress IP) 4 = ClientIPAddress
                     /\ load_bytes m' (ip_DestinationAddress IP) 4 = ServerIPAddress)
    /\ changed_in2 m m' OUT 264 (IP + 12) 8.
Proof.
  intros Hn Hp Hi Ho Hd Ha Hq Hr. unfold apart in Ha. unfold inside in *.
  unfold UDP_ProcessUDPPacket. unfold udp_reply in Hr.
  change (udp_DestinationPort IN) with (IN + Z.of_nat 2). rewrite (swap_load m IN n) by lia.
  destruct (Z.eqb_spec (be16 (load_bytes m IN n) 2) UDP_PORT_DHCP_REQUEST) as [E|_].
  2: { apply (inj Some) in Hr as <-. by exists NO_RESPONSE, m. }
  specialize (Hq E). clear E. destruct (dhcp_reply _) as [r'|] eqn:Er; [|done].
  rewrite <- (drop_load m IN n 8) in Er by lia.
  assert (forall b, r' = Some b -> length b = 256%nat) as Hlen.
  { intros b ->. eapply dhcp_reply_length; [|exact Er]. rewrite length_load_bytes. lia. }
  apply (dhcp_ok m IP (IN + Z.of_nat 8) (OUT + 8)) in Er; [|unfold inside, apart; lia..].
  destruct Er as (z & m1 & Ez & Hpl & Hs & Ht & Hc).
  unfold sizeof_UDP_Header. change (IN + 8) with (IN + Z.of_nat 8). rewrite Ez.
  assert (changed_in2 m m1 OUT 264 (IP + 12) 8) as Hc' by (intros x ? ? ?; apply Hc; lia).
  destruct r' as [b|]; cbn [placed] in Hpl.
  2: { rewrite Hpl. apply (inj Some) in Hr as <-. by exists NO_RESPONSE, m1. }
  apply (inj Some) in Hr as <-. destruct Hpl as [-> Hb]. pose proof (Hlen b eq_refl) as Hl. rewrite Hl in *.
  change (0 <? Z.of_nat 256) with true. cbv iota.
  eexists _, _. split; [done|].
  unfold copy, store, udp_SourcePort, udp_DestinationPort, udp_Checksum, udp_Length, ip_SourceAddress,
    ip_DestinationAddress in *.
  split; [split|split].
  - change (signed 16 (8 + Z.of_nat 256)) with 264. rewrite !length_app. unfold sub, be_bytes.
    rewrite length_reverse, length_le_bytes, !length_take, !length_drop, !length_load_bytes, Hl. cbn [length]. lia.
  - assert (forall i k, (i + k <= 8)%nat -> load_bytes m1 (IN + Z.of_nat i) k = sub (load_bytes m IN n) i k) as Hsub.
    { intros i k Hik. rewrite (changed_load2 m m1 OUT 264 (IP + 12) 8) by first [done|unfold inside; lia].
      apply sub_load. lia. }
    rewrite !app_assoc. set (hdr := ((sub _ _ _ ++ sub _ _ _) ++ _) ++ _).
    assert (length hdr = 8%nat) as Hh.
    { unfold hdr, sub, be_bytes. rewrite !length_app, length_reverse, length_le_bytes, !length_take,
        !length_drop, !length_load_bytes. cbn [length]. lia. }
    apply load_pieces; rewrite Hh; unfold hdr.
    + regions. rewrite <- (Hsub 2%nat 2%nat), <- (Hsub 0%nat 2%nat) by lia. rewrite (swap_store (8 + Z.of_nat 256)).
      cbn [load_bytes]. cbn. list_eq.
    + rewrite Hl. regions. done.
  - intros _. regions. done.
  - intros x ? ? ?. repeat rewrite store_bytes_out by addr. by apply Hc'.
Qed.

(** ** IP *)

(** Two half bytes stored one after the other. *)
Lemma nibbles_ip x : is_u8 x ->
  u8 (le_value [u8 (x .&~ (Z.ones 4 .<< 0) .| ((5 .& Z.ones 4) .<< 0))] .&~ (Z.ones 4 .<< 4)
      .| ((4 .& Z.ones 4) .<< 4)) = 0x45.
Proof.
  intros Hx. apply Z.eqb_eq. revert x Hx.
  exact (forall_u8 (fun x => u8 (le_value [u8 (x .&~ (Z.ones 4 .<< 0) .| ((5 .& Z.ones 4) .<< 0))]
    .&~ (Z.ones 4 .<< 4) .| ((4 .& Z.ones 4) .<< 4)) =? 0x45) eq_refl).
Qed.

Lemma le_value_bytes2 v : le_value (le_bytes 2 v) = u16 v.
Proof. apply (le_value_bytes 2). Qed.

(** Both parts of the fragment word cleared. *)
Lemma fragment_cleared w : is_u16 w ->
  le_bytes 2 (le_value (le_bytes 2 (w .&~ (Z.ones 3 .<< 13) .| ((0 .& Z.ones 3) .<< 13)))
              .&~ (Z.ones 13 .<< 0) .| ((0 .& Z.ones 13) .<< 0)) = [0; 0].
Proof.
  intros Hw. rewrite le_value_bytes2. change ((0 .& Z.ones 3) .<< 13) with 0. change ((0 .& Z.ones 13) .<< 0) with 0.
  rewrite !Z.lor_0_r. rewrite wrap_id by auto with cint.
  rewrite Z.ldiff_ldiff_l. change ((Z.ones 3 .<< 13) .| (Z.ones 13 .<< 0)) with (Z.ones 16).
  rewrite Z.ldiff_ones_r by lia. rewrite Z.shiftr_div_pow2 by done.
  unfold is_u in Hw. rewrite Z.div_small by lia. done.
Qed.

Lemma ip_response_ok m IN OUT RetSize :
  inside IN 20 -> inside OUT 20 -> apart IN 20 OUT 20 -> 0 < RetSize -> 20 + RetSize < 65536 ->
  let m' := ip_response IN OUT RetSize m in
  load_bytes m' OUT 20 = ip_header (20 + RetSize) (load8 m (ip_Protocol IN))
    (load_bytes m (ip_DestinationAddress IN) 4) (load_bytes m (ip_SourceAddress IN) 4)
  /\ changed_in m m' OUT 20.
Proof.
  intros Hi Ho Ha H0 Hs. unfold apart in Ha. unfold ip_response. cbv zeta.
  unfold sizeof_IP_Header. rewrite (wrap_id 16 (20 + RetSize)) by (unfold is_u; lia).
  set (m1 := copy _ (ip_DestinationAddress OUT) _ 4).
  assert (changed_in m m1 OUT 20) as Hc.
  { unfold m1, copy, store_field, store, ip_TotalLength, ip_TypeOfService, ip_HeaderLength, ip_Version,
      ip_Flags, ip_FragmentOffset, ip_Identification, ip_HeaderChecksum, ip_Protocol, ip_TTL,
      ip_SourceAddress, ip_DestinationAddress. rewrite !store8_bytes. changed. }
  split; [|eapply changed_trans; [exact Hc|unfold store, ip_HeaderChecksum; changed]].
  etrans; [exact (store_checksum m1 OUT 20 10 Ho ltac:(lia) ltac:(lia) eq_refl)|]. unfold ip_header. f_equal.
  unfold m1, copy, store_field, load, store, ip_TotalLength, ip_TypeOfService, ip_HeaderLength, ip_Version,
      ip_Flags, ip_FragmentOffset, ip_Identification, ip_HeaderChecksum, ip_Protocol, ip_TTL,
      ip_SourceAddress, ip_DestinationAddress. rewrite !store8_bytes. regions.
  rewrite fragment_cleared by apply (load_u 2). rewrite swap_store.
  cbn [load_bytes le_bytes]. replace (le_value [load8 m OUT]) with (load8 m OUT) by (symmetry; apply Z.lor_0_r).
  change (20 / 4) with 5. rewrite nibbles_ip by apply load8_u8.
  generalize (load8 m). intros f. reflexivity.
Qed.
