(* ===== verification/NodeRefinement.v ===== *)
(** * NodeRefinement: the demo's frame handling implements the reference node *)
From S2P Require Import Prelude Machine Ram Network Checksum Tcp Webserver Ethernet Packets PacketReplies.
Import Net Ethernet.

Lemma header_length m a : load_field 1 0 4 m a = load8 m a mod 16.
Proof.
  unfold load_field, load. cbn [load_bytes]. rewrite Z.shiftr_0_r, Z.land_ones by done.
  f_equal. apply Z.lor_0_r.
Qed.

(** A reply completed by [ip_response]. *)
Lemma ip_complete m IN OUT r z : inside IN 20 -> inside OUT (20 + Z.of_nat (length r)) ->
  apart IN 20 OUT (20 + Z.of_nat (length r)) -> z = Z.of_nat (length r) -> 0 < z < 32000 ->
  load_bytes m (OUT + 20) (length r) = r ->
  let m' := ip_response IN OUT z m in
  load_bytes m' OUT (20 + length r) = ip_packet (load8 m (ip_Protocol IN))
    (load_bytes m (ip_DestinationAddress IN) 4) (load_bytes m (ip_SourceAddress IN) 4) r
  /\ changed_in m m' OUT 20.
Proof.
  intros Hi Ho Ha -> Hz Hr. unfold inside, apart in *.
  destruct (ip_response_ok m IN OUT (Z.of_nat (length r))) as [Hh Hc]; try (unfold inside, apart; lia).
  cbv zeta. split; [|done]. unfold ip_packet. rewrite load_bytes_app, Hh. f_equal.
  rewrite (changed_load _ _ _ _ _ _ Hc) by (unfold inside; lia). done.
Qed.

Lemma length_icmp_reply p r : (8 <= length p)%nat -> icmp_reply p = Some r -> length r = length p.
Proof.
  intros Hp. unfold icmp_reply. case_match; [|done]. intros E. apply (inj Some) in E as <-.
  rewrite length_sealed; rewrite length_app, length_drop; cbn [length]; lia.
Qed.

Lemma udp_reply_length p r : (be16 p 2 = UDP_PORT_DHCP_REQUEST -> 248 <= length p)%nat -> (8 <= length p)%nat ->
  udp_reply p = Some (Some r) -> length r = 264%nat.
Proof.
  intros Hq Hp. unfold udp_reply. destruct (Z.eqb_spec (be16 p 2) UDP_PORT_DHCP_REQUEST) as [E|]; [|done].
  specialize (Hq E). destruct (dhcp_reply _) as [[b|]|] eqn:Eb; try done.
  intros Er. apply (inj Some), (inj Some) in Er as <-.
  apply dhcp_reply_length in Eb; [|rewrite length_drop; lia]. unfold sub, be_bytes.
  rewrite !length_app, length_reverse, length_le_bytes, !length_take, !length_drop, Eb. cbn [length]. lia.
Qed.

Section Frame.
Context {LY : Layout} (F G : Z) (m : mem) (L : nat).
Context (HF : inside F 1502) (HG : inside G 1502) (HA : apart F 1502 G 1502).
Context (HL : load 2 m (FrameLength F) = Z.of_nat L) (Hmax : (34 <= L <= 1500)%nat).
Let p := load_bytes m (F + 14) (L - 14).
Let hl := 4 * (byte p 0 mod 16).
Context (Hhl : 20 <= hl) (Hhdr : 14 + hl + 8 <= Z.of_nat L).

Lemma icmp_part r : Z.even (Z.of_nat L - 14 - hl) = true -> icmp_reply (drop (Z.to_nat hl) p) = r ->
  let res := ICMP_ProcessICMPPacket F (F + 14 + hl) (G + 14 + 20) m in
  placed res.2 (G + 14 + 20) r res.1 /\ changed_in m res.2 (G + 34) (Z.of_nat L - 14 - hl).
Proof.
  intros He Hr. unfold inside, apart in *.
  assert (0 <= hl <= 60) as Hh by (unfold hl; zmod).
  assert (Nat.even (Z.to_nat (Z.of_nat L - 14 - hl)) = true) as He'.
  { apply Z.even_spec in He as [k Hk]. apply Nat.even_spec. exists (Z.to_nat k). lia. }
  assert (drop (Z.to_nat hl) p = load_bytes m (F + 14 + hl) (Z.to_nat (Z.of_nat L - 14 - hl))) as Ep.
  { unfold p. rewrite <- drop_load by lia. f_equal; lia. }
  pose proof (icmp_ok m F (F + 14 + hl) (G + 14 + 20) (Z.to_nat (Z.of_nat L - 14 - hl))) as H.
  rewrite <- Ep, Hr in H. cbv zeta.
  assert (answered m (G + 14 + 20) r (ICMP_ProcessICMPPacket F (F + 14 + hl) (G + 14 + 20) m)) as Ha.
  { apply H; unfold inside, apart; rewrite ?HL; first [done|lia]. }
  destruct r as [r|]; cbn [answered] in Ha.
  - destruct Ha as (H1 & H2 & H3). split; [done|].
    apply length_icmp_reply in Hr; [|rewrite Ep, length_load_bytes; lia].
    rewrite Hr, Ep, length_load_bytes in H3. eapply changed_mono; [| |exact H3]; lia.
  - rewrite Ha. split; [done|apply changed_refl].
Qed.

Context (Hdhcp : byte p 9 = PROTOCOL_UDP -> be16 (drop (Z.to_nat hl) p) 2 = UDP_PORT_DHCP_REQUEST ->
                 14 + hl + 8 + 240 <= Z.of_nat L).

Lemma udp_part r : byte p 9 = PROTOCOL_UDP -> udp_reply (drop (Z.to_nat hl) p) = Some r ->
  exists z m', UDP_ProcessUDPPacket (F + 14) (F + 14 + hl) (G + 14 + 20) m = Some (z, m')
    /\ placed m' (G + 14 + 20) r z
    /\ (forall b, r = Some b -> length b = 264%nat
          /\ load_bytes m' (ip_SourceAddress (F + 14)) 4 = ClientIPAddress
          /\ load_bytes m' (ip_DestinationAddress (F + 14)) 4 = ServerIPAddress)
    /\ changed_in2 m m' (G + 34) 264 (F + 26) 8.
Proof.
  intros Hu Hr. specialize (Hdhcp Hu). unfold inside, apart in *.
  assert (0 <= hl <= 60) as Hh by (unfold hl; zmod).
  assert (drop (Z.to_nat hl) p = load_bytes m (F + 14 + hl) (Z.to_nat (Z.of_nat L - 14 - hl))) as Ep.
  { unfold p. rewrite <- drop_load by lia. f_equal; lia. }
  assert (forall b, r = Some b -> length b = 264%nat) as Hl.
  { intros b ->. eapply udp_reply_length; [| |exact Hr]; rewrite Ep, length_load_bytes; [|lia].
    rewrite <- Ep. lia. }
  rewrite Ep in Hr, Hdhcp. apply (udp_ok m (F + 14) (F + 14 + hl) (G + 14 + 20)) in Hr;
    [|unfold inside, apart; lia..].
  destruct Hr as (z & m' & E & Hp & Ha & Hc). exists z, m'. split; [done|split; [done|split]].
  - intros b ->. split; [by apply Hl|]. by apply Ha.
  - intros x ? ? ?. apply Hc; lia.
Qed.

(** The IP header around the reply of a protocol handler. *)
Lemma ip_tail m1 z ur proto src dst :
  placed m1 (G + 14 + 20) ur z -> (forall b, ur = Some b -> 0 < Z.of_nat (length b) <= 1466) ->
  (ur <> None -> load8 m1 (ip_Protocol (F + 14)) = proto
     /\ load_bytes m1 (ip_DestinationAddress (F + 14)) 4 = src
     /\ load_bytes m1 (ip_SourceAddress (F + 14)) 4 = dst) ->
  changed_in2 m m1 (G + 34) 1466 (F + 26) 8 ->
  exists z' m', (if 0 <? z then Some (signed 16 (20 + z), ip_response (F + 14) (G + 14) z m1) else Some (z, m1))
      = Some (z', m')
    /\ placed m' (G + 14) (ip_packet proto src dst <$> ur) z'
    /\ (forall b, ip_packet proto src dst <$> ur = Some b -> 0 < Z.of_nat (length b) <= 1486)
    /\ changed_in2 m m' (G + 14) 1486 (F + 26) 8.
Proof.
  intros Hp Hl Ha Hc. unfold inside, apart in *.
  destruct ur as [b|]; cbn [placed] in Hp.
  2: { subst z. exists NO_RESPONSE, m1. repeat split; try done. intros x ? ? ?. apply Hc; lia. }
  destruct Hp as [Hz Hb]. specialize (Hl b eq_refl). destruct Ha as (E1 & E2 & E3); [done|].
  destruct (Z.ltb_spec 0 z) as [Hp|]; [|lia]. eexists _, _. split; [done|].
  destruct (ip_complete m1 (F + 14) (G + 14) b z) as [H1 H2]; try (unfold inside, apart; lia); [done|].
  rewrite E1, E2, E3 in H1. cbn [fmap option_fmap option_map placed].
  assert (length (ip_packet proto src dst b) = (20 + length b)%nat) as Hn
    by (by rewrite <- H1, length_load_bytes).
  rewrite Hn, signed16_small by lia. split; [split; [lia|done]|split].
  - intros b' [= <-]. lia.
  - intros x ? ? ?. rewrite H2 by lia. apply Hc; lia.
Qed.

Context (Heven : byte p 9 = PROTOCOL_ICMP -> Z.even (Z.of_nat L - 14 - hl) = true).

Lemma ip_ok r : ip_reply p = Some r ->
  exists z m', IP_ProcessIPPacket F (F + 14) (G + 14) m = Some (z, m') /\ placed m' (G + 14) r z
    /\ (forall b, r = Some b -> 0 < Z.of_nat (length b) <= 1486)
    /\ changed_in2 m m' (G + 14) 1486 (F + 26) 8.
Proof.
  intros Hr. unfold inside, apart in *. assert (0 <= hl <= 60) as Hh by (unfold hl; zmod).
  unfold IP_ProcessIPPacket. rewrite header_length. unfold ip_HeaderLength.
  assert (load8 m (F + 14) = byte p 0) as E0.
  { unfold p. rewrite <- load8_byte by lia. f_equal. lia. }
  rewrite E0, (Z.mul_comm _ 4). fold hl. clear E0.
  assert (load8 m (ip_Protocol (F + 14)) = byte p 9) as E9 by (unfold p; by rewrite <- load8_byte by lia).
  assert (load_bytes m (ip_SourceAddress (F + 14)) 4 = sub p 12 4) as Es by (unfold p; by rewrite <- sub_load by lia).
  assert (load_bytes m (ip_DestinationAddress (F + 14)) 4 = sub p 16 4) as Ed by (unfold p; by rewrite <- sub_load by lia).
  unfold IP_COMPARE. rewrite E9, Ed. unfold ip_reply in Hr. fold hl in Hr. unfold sizeof_IP_Header.
  rewrite <- negb_orb. destruct (_ || _) in *; cbn [negb].
  2: { apply (inj Some) in Hr as <-. exists NO_RESPONSE, m. by repeat split. }
  destruct (Z.eqb_spec (byte p 9) PROTOCOL_ICMP) as [Ei|Ni].
  { apply (inj Some) in Hr as <-. destruct (icmp_part _ (Heven Ei) eq_refl) as [Hp Hc].
    destruct (ICMP_ProcessICMPPacket F (F + 14 + hl) (G + 14 + 20) m) as [z m1]. cbn [fst snd] in *.
    change (Some (z, m1) ≫= ?f) with (f (z, m1)). cbv beta iota. apply ip_tail; [done| | |].
    - intros b Eb. apply length_icmp_reply in Eb; unfold p in *; rewrite length_drop, length_load_bytes in *; lia.
    - intros _. unfold ip_Protocol, ip_DestinationAddress, ip_SourceAddress in *.
      rewrite !load8_bytes in *. rewrite !(changed_load _ _ _ _ _ _ Hc) by (unfold inside; lia). by rewrite E9.
    - intros x ? ? ?. apply Hc; lia. }
  destruct (Z.eqb_spec (byte p 9) PROTOCOL_TCP) as [Et|Nt].
  { rewrite Et in Hr. done. }
  destruct (Z.eqb_spec (byte p 9) PROTOCOL_UDP) as [Eu|Nu].
  2: { apply (inj Some) in Hr as <-. exists NO_RESPONSE, m. by repeat split. }
  destruct (udp_reply _) as [ur|] eqn:Eq; [|done]. apply (inj Some) in Hr as <-.
  destruct (udp_part ur Eu Eq) as (z & m1 & -> & Hp & Ha & Hc).
  change (Some (z, m1) ≫= ?f) with (f (z, m1)). cbv beta iota. apply ip_tail; [done| | |].
  - intros b Eb. destruct (Ha b Eb) as [-> _]. lia.
  - intros Hs. destruct ur as [b|]; [|done]. destruct (Ha b eq_refl) as (_ & -> & ->).
    unfold ip_Protocol in *. rewrite !load8_bytes in *.
    rewrite (changed_load2 _ _ _ _ _ _ _ _ Hc) by (unfold inside; lia). by rewrite E9.
  - intros x ? ? ?. apply Hc; lia.
Qed.
End Frame.

Lemma swap_length n : is_u16 n -> SwapEndian_16 n = 256 * (n mod 256) + n / 256.
Proof.
  intros Hn. assert (n = le_value [n mod 256; n / 256]) as E.
  { rewrite le_value2 by (unfold is_u in *; zmod). zmod. }
  rewrite E at 1. rewrite swap_bytes by (unfold is_u in *; zmod). done.
Qed.

(** The Ethernet header around the reply of ARP or IP. *)
Lemma frame_tail F G m z r :
  inside F 1502 -> inside G 1502 -> apart F 1502 G 1502 ->
  placed m (G + 14) r z -> (forall b, r = Some b -> 0 < Z.of_nat (length b) <= 1486) ->
  let m' := if 0 <? z then frame_response F G z m else m in
  match r with
  | Some b =>
      load 2 m' (FrameLength G) = Z.of_nat (14 + length b)
      /\ load_bytes m' (FrameData G) (14 + length b)
         = load_bytes m (F + 6) 6 ++ ServerMACAddress ++ load_bytes m (F + 12) 2 ++ b
  | None => load 2 m' (FrameLength G) = load 2 m (FrameLength G)
  end /\ changed_in m m' G 1502.
Proof.
  intros HF HG HA Hp Hl. unfold apart in HA. destruct r as [b|]; cbn [placed] in Hp.
  2: { subst z. cbn. split; [done|apply changed_refl]. }
  destruct Hp as [-> Hb]. specialize (Hl b eq_refl). unfold inside in *.
  destruct (Z.ltb_spec 0 (Z.of_nat (length b))); [|lia]. cbv zeta.
  unfold frame_response, sizeof_Ethernet_Header, copy, FrameData, FrameLength, eth_Source, eth_Destination,
    eth_EtherType, ServerMACAddress. cbv zeta. rewrite (wrap_id 16) by (unfold is_u; lia).
  split; [split|].
  - rewrite load_same by (unfold inside; lia). rewrite wrap_id by (unfold is_u; lia). lia.
  - unfold store. rewrite load_bytes_app. regions. change (Z.of_nat 14) with 14. rewrite Hb, !app_assoc. f_equal.
  - unfold store. changed.
Qed.

Section Node.
Context {LY : Layout} (F G : Z) (m : mem) (f : list Z) (r : option (list Z)).

(** What the frame handler leaves behind: the answer in the outgoing frame, the incoming frame
    released, nothing else touched. *)
Definition frame_handled (m' : mem) : Prop :=
  load 2 m' (FrameLength F) = 0
  /\ match r with
     | Some b => load 2 m' (FrameLength G) = Z.of_nat (length b) /\ load_bytes m' (FrameData G) (length b) = b
     | None => load 2 m' (FrameLength G) = load 2 m (FrameLength G)
     end
  /\ changed_in2 m m' F 1502 G 1502.
End Node.

Lemma arp_reply_take p : (28 <= length p)%nat -> arp_reply p = arp_reply (take 28 p).
Proof. intros H. do 28 (destruct p as [|? p]; [cbn in H; lia|]). done. Qed.

Lemma arp_answered m m1 IN OUT z :
  answered m OUT (arp_reply (load_bytes m IN 28)) (z, m1) ->
  placed m1 OUT (arp_reply (load_bytes m IN 28)) z
  /\ (forall b, arp_reply (load_bytes m IN 28) = Some b -> length b = 28%nat)
  /\ changed_in m m1 OUT 28.
Proof.
  assert (forall b, arp_reply (load_bytes m IN 28) = Some b -> length b = 28%nat) as Hl.
  { intros b. unfold arp_reply. case_match; [|done]. intros E. apply (inj Some) in E as <-. done. }
  destruct (arp_reply _) as [b|]; cbn [answered placed fst snd].
  - intros (-> & H1 & H2). rewrite (Hl b eq_refl) in *. done.
  - intros [= -> ->]. split; [done|]. split; [done|apply changed_refl].
Qed.

(** From the reply of ARP or IP to the handled frame. *)
Lemma node_tail F G m m1 f z r :
  inside F 1502 -> inside G 1502 -> apart F 1502 G 1502 -> (14 <= length f <= 1500)%nat ->
  load_bytes m (FrameData F) (length f) = f -> placed m1 (G + 14) r z ->
  (forall b, r = Some b -> 0 < Z.of_nat (length b) <= 1486) ->
  changed_in2 m m1 (G + 14) 1486 (F + 26) 8 ->
  let m2 := if 0 <? z then frame_response F G z m1 else m1 in
  exists m', Some (if z =? NO_PROCESS then m2 else store 2 m2 (FrameLength F) 0) = Some m'
    /\ frame_handled F G m ((fun r => sub f 6 6 ++ ServerMACAddress ++ sub f 12 2 ++ r) <$> r) m'.
Proof.
  intros HF HG HA Hlen Hf Hp Hl Hc. cbv zeta.
  destruct (frame_tail F G m1 z r HF HG HA Hp Hl) as [H1 H2]. cbv zeta in H1, H2.
  set (m2 := if 0 <? z then _ else _) in *. unfold inside, apart in *.
  assert (z <> NO_PROCESS) as Hz.
  { destruct r; cbn [placed] in Hp; [destruct Hp as [-> _]|subst z]; unfold NO_PROCESS, NO_RESPONSE; lia. }
  destruct (Z.eqb_spec z NO_PROCESS); [done|]. eexists. split; [done|]. clear Hz n. unfold frame_handled, FrameLength, FrameData in *.
  assert (forall a k, a + Z.of_nat k <= F + 26 -> F <= a -> load_bytes m1 a k = load_bytes m a k) as Hk.
  { intros a k Hk1 Hk2. rewrite (changed_load2 _ _ _ _ _ _ _ _ Hc) by (unfold inside; lia). done. }
  split; [|split].
  - rewrite load_same by (unfold inside; lia). done.
  - destruct r as [b|]; cbn [fmap option_fmap option_map].
    + destruct H1 as [H1 H1']. rewrite (Hk (F + 6) 6%nat), (Hk (F + 12) 2%nat) in H1' by lia.
      assert (forall i k, (i + k <= 14)%nat -> load_bytes m (F + Z.of_nat i) k = sub f i k) as Hs.
      { intros i k ?. rewrite (sub_load m F (length f)) by lia. by rewrite Hf. }
      pose proof (Hs 6%nat 6%nat ltac:(lia)) as E6. pose proof (Hs 12%nat 2%nat ltac:(lia)) as E12.
      change (Z.of_nat 6) with 6 in E6. change (Z.of_nat 12) with 12 in E12. rewrite E6, E12 in H1'.
      assert (length (sub f 6 6 ++ ServerMACAddress ++ sub f 12 2 ++ b) = (14 + length b)%nat) as ->
        by (by rewrite <- H1', length_load_bytes).
      unfold store. specialize (Hl b eq_refl). unfold load in *. by rewrite !load_bytes_disjoint by addr.
    + unfold store, load in *. rewrite load_bytes_disjoint by addr. rewrite H1.
      by rewrite (changed_load2 _ _ _ _ _ _ _ _ Hc) by (unfold inside; lia).
  - intros x ? ? ?. unfold store. rewrite store_bytes_out by addr. rewrite H2 by lia. apply Hc; lia.
Qed.

(** The end of Ethernet_ProcessPacket, behind a protocol handler. *)
Definition frame_end (F G : Z) (res : Z * mem) : option mem :=
  let m2 := if 0 <? res.1 then frame_response F G res.1 res.2 else res.2 in
  Some (if res.1 =? NO_PROCESS then m2 else store 2 m2 (FrameLength F) 0).

Section Branches.
Context (F G : Z) (m : mem) (f : list Z).
Context (HF : inside F 1502) (HG : inside G 1502) (HA : apart F 1502 G 1502).
Context (Hlen : (14 <= length f <= 1500)%nat) (Hf : load_bytes m (FrameData F) (length f) = f).

Lemma node_silent : exists m', frame_end F G (NO_RESPONSE, m) = Some m' /\ frame_handled F G m None m'.
Proof. apply (node_tail F G m m f NO_RESPONSE None); done. Qed.

Lemma node_arp : (42 <= length f)%nat ->
  exists m', frame_end F G (ARP_ProcessARPPacket (F + 14) (G + 14) m) = Some m'
    /\ frame_handled F G m ((fun r => sub f 6 6 ++ ServerMACAddress ++ sub f 12 2 ++ r) <$> arp_reply (drop 14 f)) m'.
Proof.
  intros H42. unfold inside, apart, FrameData in *.
  assert (arp_reply (drop 14 f) = arp_reply (load_bytes m (F + 14) 28)) as ->.
  { assert (drop 14 f = load_bytes m (F + 14) (length f - 14)) as Hd.
    { rewrite <- Hf at 1. change 14 with (Z.of_nat 14). by rewrite drop_load by lia. }
    rewrite (take_load m (F + 14) (length f - 14) 28), <- Hd by lia. apply arp_reply_take. rewrite length_drop. lia. }
  pose proof (arp_ok m (F + 14) (G + 14)) as Ha.
  destruct (ARP_ProcessARPPacket (F + 14) (G + 14) m) as [z m1].
  destruct (arp_answered m m1 (F + 14) (G + 14) z) as (Hp & Hl & Hch); [apply Ha; unfold inside, apart; lia|].
  apply (node_tail F G m m1 f z); try (unfold inside, apart; lia); try done.
  - intros b Eb. specialize (Hl b Eb). lia.
  - intros x ? ? ?. apply Hch; lia.
Qed.
End Branches.

(** C31: the stateless protocols from frame to frame.  Take a frame that contains the headers its
    protocol has (an ICMP message of even length) and that the reference node of Packets.v
    describes (no TCP; DHCP options that end inside the frame).  If its length passes the code's
    test, which exchanges the two bytes of the length, it is handled as the reference says: ARP
    requests, echo requests and DHCP messages for this station are answered by the frame of the
    reference, with correct addresses, lengths and Internet checksums, and nothing is answered
    where the reference has no answer; otherwise it is dropped.  The incoming frame is released
    and nothing outside the two frames changes, whatever memory held before. *)
Theorem frames_refine_node {LY : Layout} F G m f r :
  inside F sizeof_Frame_Info -> inside G sizeof_Frame_Info ->
  apart F sizeof_Frame_Info G sizeof_Frame_Info ->
  load 2 m (FrameLength F) = Z.of_nat (length f) -> Z.of_nat (length f) <= 1500 ->
  load_bytes m (FrameData F) (length f) = f ->
  complete f = true -> node f = Some r ->
  exists m', Ethernet_ProcessPacket F G m = Some m'
    /\ frame_handled F G m (if length_accepted (Z.of_nat (length f)) then r else None) m'.
Proof.
  unfold sizeof_Frame_Info. intros HF HG HA HL Hmax Hf Hc Hn.
  set (L := length f) in *.
  unfold complete in Hc. cbv zeta in Hc. rewrite !andb_true_iff in Hc. destruct Hc as [H14 Hc].
  apply Z.leb_le in H14. fold L in H14, Hc. unfold inside, apart in *.
  unfold FrameData in Hf.
  assert (forall i k, (i + k <= 14)%nat -> load_bytes m (F + Z.of_nat i) k = sub f i k) as Hs.
  { intros i k ?. rewrite (sub_load m F L) by lia. by rewrite Hf. }
  unfold node in Hn. fold L in Hn.
  unfold Ethernet_ProcessPacket, accepted. unfold FrameData, eth_Destination, MAC_COMPARE, eth_EtherType in *.
  rewrite HL, swap_length by (unfold is_u; lia). change (ETHERNET_VER2_MINSIZE <? 256 * _ + _) with (length_accepted (Z.of_nat L)).
  pose proof (Hs 0%nat 6%nat ltac:(lia)) as E0. change (Z.of_nat 0) with 0 in E0. rewrite Z.add_0_r in E0.
  rewrite E0.
  change (F + 12) with (F + Z.of_nat 12). rewrite (swap_load m F L 12), Hf by lia.
  assert (drop 14 f = load_bytes m (F + 14) (L - 14)) as Hd.
  { rewrite <- Hf. change 14 with (Z.of_nat 14). by rewrite drop_load by lia. }
  assert (inside F 1502 /\ inside G 1502 /\ apart F 1502 G 1502 /\ (14 <= length f <= 1500)%nat) as (HF' & HG' & HA' & Hlen)
    by (unfold inside, apart; fold L; lia).
  fold L. destruct (length_accepted (Z.of_nat L));
    [|rewrite andb_false_r; exact (node_silent F G m f HF' HG' HA' Hlen Hf)]. rewrite andb_true_r.
  destruct (_ || _); [|apply (inj Some) in Hn as <-; exact (node_silent F G m f HF' HG' HA' Hlen Hf)].
  destruct (be16 f 12 =? ETHERTYPE_ARP).
  { apply (inj Some) in Hn as <-. apply Z.leb_le in Hc. unfold sizeof_Ethernet_Header.
    destruct (node_arp F G m f HF' HG' HA' Hlen Hf) as (m' & E & H'); [fold L; lia|]. exists m'. split; [|exact H'].
    rewrite <- E. by destruct (ARP_ProcessARPPacket (F + 14) (G + 14) m). }
  destruct (be16 f 12 =? ETHERTYPE_IPV4); [|apply (inj Some) in Hn as <-; exact (node_silent F G m f HF' HG' HA' Hlen Hf)].
  rewrite !andb_true_iff, !Z.leb_le in Hc. destruct Hc as [[[[H34 H20] H8] Hq] He].
  destruct (ip_reply (drop 14 f)) as [r'|] eqn:Er; [|done]. apply (inj Some) in Hn as <-. rewrite Hd in *.
  apply (ip_ok F G m L) in Er; try (unfold inside, apart; lia).
  2: { intros Eu E67. rewrite Eu, E67 in Hq. cbn in Hq. lia. }
  2: { intros Ei. rewrite Ei in He. exact He. }
  destruct Er as (z & m1 & E & Hp & Hl & Hch).
  unfold sizeof_Ethernet_Header. rewrite E.
  destruct (node_tail F G m m1 f z r') as (m' & E' & H'); try (unfold inside, apart; fold L; lia); try done.
  by exists m'.
Qed.
