(* ===== verification/TcpServer.v ===== *)
(** * TcpServer: an abstract TCP server, and the tables of Tcp.v as its state

    The server has three connection slots.  A slot holds the connection's identity, its state,
    the two sequence numbers and one buffer that is used in either direction.  [step] says what
    a segment does to the slots and how it is answered; TcpRefinement.v shows that
    TCP_ProcessTCPPacket does this, in memory. *)
From S2P Require Import Prelude Machine Ram Network Checksum Tcp Packets PacketReplies.
Import Net Tcp.

(** ** The server *)

(** Port and remote port are 16-bit numbers as they lie in the header, the address four bytes. *)
Record key := Key { k_port : Z; k_addr : list Z; k_rport : Z }.

#[global] Instance key_eq_dec : EqDecision key.
Proof. solve_decision. Defined.

Record slot := Slot {
  s_key : key;
  seq_in : Z;
  seq_out : Z;
  buf_len : Z;
  buf_data : list Z;
  outgoing : bool;
  ready : bool;
  in_use : bool;
  conn_st : Z }.

Definition set_st (s : Z) (c : slot) : slot :=
  Slot (s_key c) (seq_in c) (seq_out c) (buf_len c) (buf_data c) (outgoing c) (ready c) (in_use c) s.
Definition set_key (k : key) (c : slot) : slot :=
  Slot k (seq_in c) (seq_out c) (buf_len c) (buf_data c) (outgoing c) (ready c) (in_use c) (conn_st c).
Definition set_in (v : Z) (c : slot) : slot :=
  Slot (s_key c) (u32 v) (seq_out c) (buf_len c) (buf_data c) (outgoing c) (ready c) (in_use c) (conn_st c).
Definition set_out (v : Z) (c : slot) : slot :=
  Slot (s_key c) (seq_in c) (u32 v) (buf_len c) (buf_data c) (outgoing c) (ready c) (in_use c) (conn_st c).
Definition set_use (b : bool) (c : slot) : slot :=
  Slot (s_key c) (seq_in c) (seq_out c) (buf_len c) (buf_data c) (outgoing c) (ready c) b (conn_st c).
Definition set_ready (b : bool) (c : slot) : slot :=
  Slot (s_key c) (seq_in c) (seq_out c) (buf_len c) (buf_data c) (outgoing c) b (in_use c) (conn_st c).
Definition set_dir (b : bool) (c : slot) : slot :=
  Slot (s_key c) (seq_in c) (seq_out c) (buf_len c) (buf_data c) b (ready c) (in_use c) (conn_st c).
Definition set_len (n : Z) (c : slot) : slot :=
  Slot (s_key c) (seq_in c) (seq_out c) (u16 n) (buf_data c) (outgoing c) (ready c) (in_use c) (conn_st c).
Definition set_data (d : list Z) (c : slot) : slot :=
  Slot (s_key c) (seq_in c) (seq_out c) (buf_len c) d (outgoing c) (ready c) (in_use c) (conn_st c).

Abbreviation table := (list slot).

Definition slot_test (t : table) (P : slot -> bool) (i : nat) : bool :=
  match t !! i with Some c => P c | None => false end.

Definition find_slot (k : key) (t : table) : option nat :=
  first_entry MAX_TCP_CONNECTIONS (slot_test t (fun c => bool_decide (s_key c = k))).
Definition free_slot (t : table) : option nat :=
  first_entry MAX_TCP_CONNECTIONS (slot_test t (fun c => conn_st c =? TCP_Connection_Closed)).

(** The state of a connection; a connection without a slot is closed. *)
Definition state_of (k : key) (t : table) : Z :=
  match find_slot k t with
  | Some i => default TCP_Connection_Closed (conn_st <$> t !! i)
  | None => TCP_Connection_Closed
  end.

Definition enter (k : key) (s : Z) (t : table) : bool * table :=
  match find_slot k t with
  | Some i => (true, alter (set_st s) i t)
  | None =>
      match free_slot t with
      | Some i => (true, alter (fun c => set_st s (set_key k c)) i t)
      | None => (false, t)
      end
  end.

Definition on_slot (k : key) (f : slot -> slot) (t : table) : table :=
  match find_slot k t with Some i => alter f i t | None => t end.

(** A received segment, and the server's reaction. *)
Record segment := Segment { sg_key : key; sg_flags : Z; sg_seq : Z; sg_data : list Z }.

Inductive verdict := Silent | Deferred | Answer (fl : Z).

(** Data for an established connection. *)
Definition claim (c : slot) : slot :=
  if negb (in_use c) && negb (ready c) then set_len 0 (set_use true (set_dir false c)) else c.
Definition accepts (c : slot) : bool := negb (outgoing c) && negb (buf_len c =? TCP_WINDOW_SIZE).
Definition append (d : list Z) (c : slot) : slot :=
  set_len (buf_len c + Z.of_nat (length d))
    (set_in (seq_in c + Z.of_nat (length d))
       (set_data (splice (Z.to_nat (buf_len c)) d (buf_data c)) c)).
Definition complete_buffer (fl : Z) (c : slot) : bool :=
  (buf_len c =? TCP_WINDOW_SIZE) || truth (fl .& TCP_FLAG_PSH).

Definition receive (sg : segment) (t : table) : verdict * table :=
  let k := sg_key sg in
  match find_slot k t with
  | None => (Silent, t)
  | Some i =>
      match t !! i with
      | None => (Silent, t)
      | Some c =>
          let t := alter claim i t in
          if accepts (claim c) then
            let t := alter (append (sg_data sg)) i t in
            if complete_buffer (sg_flags sg) (append (sg_data sg) (claim c)) then
              (Answer TCP_FLAG_ACK, alter (fun c => set_ready true (set_use false c)) i t)
            else (Silent, t)
          else (Deferred, t)
      end
  end.

Definition bump_in (c : slot) : slot := set_in (seq_in c + 1) c.
Definition bump_out (c : slot) : slot := set_out (seq_out c + 1) c.

(** The last step of a close from this side. *)
Definition close_acked (k : key) (t : table) : verdict * table :=
  (Answer TCP_FLAG_ACK, (enter k TCP_Connection_Closed (on_slot k (fun c => bump_out (bump_in c)) t)).2).

Definition react (sg : segment) (t : table) : verdict * table :=
  let k := sg_key sg in
  let fl := sg_flags sg in
  let s := state_of k t in
  if s =? TCP_Connection_Listen then
    if fl =? TCP_FLAG_SYN then
      let '(ok, t) := enter k TCP_Connection_SYNReceived t in
      if ok : bool then
        (Answer (TCP_FLAG_SYN .| TCP_FLAG_ACK),
         on_slot k (fun c => set_use false (set_out 0 (set_in (sg_seq sg + 1) c))) t)
      else (Answer TCP_FLAG_RST, t)
    else (Silent, t)
  else if s =? TCP_Connection_SYNReceived then
    if fl =? TCP_FLAG_ACK then
      (Silent, on_slot k bump_out (enter k TCP_Connection_Established t).2)
    else (Silent, t)
  else if s =? TCP_Connection_Established then
    if fl =? TCP_FLAG_FIN .| TCP_FLAG_ACK then
      (Answer (TCP_FLAG_FIN .| TCP_FLAG_ACK),
       on_slot k (fun c => bump_out (bump_in c)) (enter k TCP_Connection_CloseWait t).2)
    else if (fl =? TCP_FLAG_ACK) || (fl =? TCP_FLAG_ACK .| TCP_FLAG_PSH) then receive sg t
    else (Silent, t)
  else if s =? TCP_Connection_Closing then
    (Answer (TCP_FLAG_ACK .| TCP_FLAG_FIN),
     (enter k TCP_Connection_FINWait1 (on_slot k (set_use false) t)).2)
  else if s =? TCP_Connection_FINWait1 then
    if fl =? TCP_FLAG_FIN .| TCP_FLAG_ACK then close_acked k t
    else if fl =? TCP_FLAG_ACK then (Silent, (enter k TCP_Connection_FINWait2 t).2)
    else (Silent, t)
  else if s =? TCP_Connection_FINWait2 then
    if fl =? TCP_FLAG_FIN .| TCP_FLAG_ACK then close_acked k t else (Silent, t)
  else if s =? TCP_Connection_CloseWait then
    if fl =? TCP_FLAG_ACK then (Silent, (enter k TCP_Connection_Closed t).2) else (Silent, t)
  else (Silent, t).

Definition step (sg : segment) (t : table) : verdict * table :=
  let k := sg_key sg in
  let t := if truth (sg_flags sg .& TCP_FLAG_SYN) then (enter k TCP_Connection_Listen t).2 else t in
  if truth (sg_flags sg .& TCP_FLAG_RST) then
    let '(ok, t) := enter k TCP_Connection_Closed t in
    (if ok : bool then Answer (TCP_FLAG_RST .| TCP_FLAG_ACK) else Silent, t)
  else react sg t.

(** ** Searching *)

Lemma first_entry_ext k f g : (forall i, (i < k)%nat -> f i = g i) -> first_entry k f = first_entry k g.
Proof.
  intros H. unfold first_entry. assert (forall i, i ∈ seq 0 k -> f i = g i) as H'.
  { intros i Hi%elem_of_seq. apply H. lia. }
  clear H. induction (seq 0 k) as [|i l IH]; [done|]. cbn. rewrite H' by apply list_elem_of_here.
  destruct (g i); [done|]. apply IH. intros j Hj. apply H'. by apply list_elem_of_further.
Qed.

Lemma first_entry_some k f i : first_entry k f = Some i -> (i < k)%nat /\ f i = true.
Proof. intros [Hin Hf]%List.find_some. apply in_seq in Hin. split; [lia|done]. Qed.

Lemma find_slot_lt k t i : find_slot k t = Some i -> (i < 3)%nat.
Proof. by intros [H _]%first_entry_some. Qed.
Lemma free_slot_lt t i : free_slot t = Some i -> (i < 3)%nat.
Proof. by intros [H _]%first_entry_some. Qed.

Lemma first_entry_none k f i : first_entry k f = None -> (i < k)%nat -> f i = false.
Proof. intros H Hi. apply (List.find_none _ _ H). apply in_seq. lia. Qed.

Lemma first_entry_unique k f i : (i < k)%nat -> f i = true ->
  (forall j, (j < k)%nat -> j <> i -> f j = false) -> first_entry k f = Some i.
Proof.
  intros Hi Hf Hu. destruct (first_entry k f) as [j|] eqn:E.
  - apply first_entry_some in E as [Hj Ej]. destruct (decide (j = i)) as [->|]; [done|]. by rewrite Hu in Ej.
  - by rewrite (first_entry_none _ _ _ E Hi) in Hf.
Qed.

(** An update that keeps the identity keeps the search. *)
Lemma find_alter k f i t : (forall c, s_key (f c) = s_key c) -> find_slot k (alter f i t) = find_slot k t.
Proof.
  intros Hf. apply first_entry_ext. intros j _. unfold slot_test. destruct (decide (i = j)) as [->|].
  - rewrite list_lookup_alter_eq. destruct (t !! j); cbn; [by rewrite Hf|done].
  - by rewrite list_lookup_alter_ne.
Qed.

Lemma find_new k s i t : find_slot k t = None -> (i < 3)%nat -> is_Some (t !! i) ->
  find_slot k (alter (fun c => set_st s (set_key k c)) i t) = Some i.
Proof.
  intros Hn Hi [c Hc]. apply first_entry_unique; [done| |]; unfold slot_test.
  - rewrite list_lookup_alter_eq, Hc. cbn. by apply bool_decide_eq_true.
  - intros j Hj Hij. rewrite list_lookup_alter_ne by done. exact (first_entry_none _ _ _ Hn Hj).
Qed.

Lemma slot_test_some t P i : slot_test t P i = true -> is_Some (t !! i).
Proof. unfold slot_test. by destruct (t !! i). Qed.

(** A connection that was entered has a slot. *)
Lemma enter_find k s t : (enter k s t).1 = true -> is_Some (find_slot k (enter k s t).2).
Proof.
  unfold enter. destruct (find_slot k t) as [i|] eqn:E; cbn [fst snd].
  - intros _. by rewrite find_alter, E by done.
  - destruct (free_slot t) as [i|] eqn:E'; cbn [fst snd]; [|done]. intros _. apply first_entry_some in E' as [Hi Ht].
    rewrite find_new; [done|done|done|by eapply slot_test_some].
Qed.

Lemma enter_known k s t : is_Some (find_slot k t) -> (enter k s t).1 = true.
Proof. intros [i E]. unfold enter. by rewrite E. Qed.

Lemma state_of_known k t s : state_of k t = s -> s <> TCP_Connection_Closed -> is_Some (find_slot k t).
Proof. unfold state_of. destruct (find_slot k t); [done|]. intros <-. done. Qed.

(** Entering a state, and failing to for want of a slot. *)
Lemma enter_state k s t : (enter k s t).1 = true -> state_of k (enter k s t).2 = s.
Proof.
  unfold enter, state_of. destruct (find_slot k t) as [i|] eqn:E; cbn [fst snd].
  - intros _. rewrite find_alter, E, list_lookup_alter_eq by done. apply first_entry_some in E as [_ [c Hc]%slot_test_some].
    by rewrite Hc.
  - destruct (free_slot t) as [i|] eqn:E'; cbn [fst snd]; [|done]. intros _.
    apply first_entry_some in E' as [Hi Ht%slot_test_some].
    rewrite find_new by done. rewrite list_lookup_alter_eq. destruct Ht as [c Hc]. by rewrite Hc.
Qed.

Lemma enter_full k s t : (enter k s t).1 = false -> (enter k s t).2 = t /\ state_of k t = TCP_Connection_Closed.
Proof.
  unfold enter, state_of. destruct (find_slot k t); [done|]. by destruct (free_slot t).
Qed.

(** ** The slots in memory *)

Definition slot_of (m : mem) (c : Z) : slot :=
  let i := conn_Info c in
  let b := info_Buffer i in
  Slot (Key (load 2 m (conn_Port c)) (load_bytes m (conn_RemoteAddress c) 4) (load 2 m (conn_RemotePort c)))
    (load 4 m (info_SequenceNumberIn i)) (load 4 m (info_SequenceNumberOut i))
    (load 2 m (buf_Length b)) (load_bytes m (buf_Data b) 512)
    (truth (load8 m (buf_Direction b))) (truth (load8 m (buf_Ready b))) (truth (load8 m (buf_InUse b)))
    (load8 m (conn_State c)).

Section Table.
Context {LY : Layout}.

Definition table_of (m : mem) : table := slot_of m <$> (conn_entry <$> seq 0 MAX_TCP_CONNECTIONS).

Definition sizeof_table : Z := sizeof_ConnectionState * 3.
Context (here : inside ConnectionStateTable sizeof_table).

Lemma table_lookup m i : (i < 3)%nat -> table_of m !! i = Some (slot_of m (conn_entry i)).
Proof. intros Hi. do 3 (destruct i as [|i]; [done|]). lia. Qed.

(** A store that changes the slot [i] only. *)
Lemma table_alter m m' i f : (i < 3)%nat ->
  slot_of m' (conn_entry i) = f (slot_of m (conn_entry i)) ->
  (forall j, (j < 3)%nat -> j <> i -> slot_of m' (conn_entry j) = slot_of m (conn_entry j)) ->
  table_of m' = alter f i (table_of m).
Proof.
  intros Hi Hs Ho. apply list_eq. intros j. destruct (Nat.lt_ge_cases j 3) as [Hj|Hj].
  - rewrite table_lookup by done. destruct (decide (i = j)) as [->|].
    + by rewrite list_lookup_alter_eq, table_lookup, Hs by done.
    + by rewrite list_lookup_alter_ne, table_lookup, Ho by auto.
  - rewrite !lookup_ge_None_2; [done| |]; rewrite ?length_alter; exact Hj.
Qed.

Lemma table_same m m' : (forall j, (j < 3)%nat -> slot_of m' (conn_entry j) = slot_of m (conn_entry j)) ->
  table_of m' = table_of m.
Proof. intros H. unfold table_of. cbn. rewrite !H by lia. done. Qed.
End Table.
