(* ===== verification/TcpRefinement.v ===== *)
(** * TcpRefinement: TCP_ProcessTCPPacket implements the abstract server

    Every operation of the code on a connection entry is an update of a slot, and what the code
    reads of the segment stays as it was received, because the tables and the outgoing header lie
    elsewhere.  Two steps then agree branch by branch. *)
From S2P Require Import Prelude Machine Ram Network Checksum Tcp Packets PacketReplies TcpServer.
Import Net Tcp.

(** ** One entry *)

Section Entry.
Context (m : mem) (c : Z) (Hc : inside c 534).

Ltac slots := unfold slot_of, set_st, set_key, set_in, set_out, set_use, set_ready, set_dir, set_len,
    set_data, conn_State, conn_Port, conn_RemoteAddress, conn_RemotePort, conn_Info, info_Buffer,
    info_SequenceNumberIn, info_SequenceNumberOut, buf_Length, buf_Data, buf_Direction, buf_Ready,
    buf_InUse; cbn [s_key seq_in seq_out buf_len buf_data outgoing ready in_use conn_st];
  unfold store, load; rewrite ?store8_bytes, ?load8_bytes; loads; try done.

Lemma slot_st s : is_u8 s -> slot_of (store8 m (conn_State c) s) c = set_st s (slot_of m c).
Proof. intros Hs. slots. assert (Forall is_u8 [s]) by (by constructor). loads. done. Qed.

Lemma slot_key k : Forall is_u8 (k_addr k) -> length (k_addr k) = 4%nat -> is_u16 (k_port k) -> is_u16 (k_rport k) ->
  slot_of (store 2 (store_bytes (store 2 m (conn_Port c) (k_port k)) (conn_RemoteAddress c) (k_addr k))
             (conn_RemotePort c) (k_rport k)) c = set_key k (slot_of m c).
Proof.
  intros Ha Hl Hp Hr. destruct k as [p a r]. cbn [k_addr k_port k_rport] in *.
  do 4 (destruct a as [|? a]; [done|]). destruct a; [|done].
  slots. by rewrite !le_value_bytes2, !wrap_id by done.
Qed.

Lemma slot_in v : slot_of (store 4 m (info_SequenceNumberIn (conn_Info c)) v) c = set_in v (slot_of m c).
Proof. slots. by rewrite (le_value_bytes 4). Qed.
Lemma slot_out v : slot_of (store 4 m (info_SequenceNumberOut (conn_Info c)) v) c = set_out v (slot_of m c).
Proof. slots. by rewrite (le_value_bytes 4). Qed.
Lemma slot_len v : slot_of (store 2 m (buf_Length (info_Buffer (conn_Info c))) v) c = set_len v (slot_of m c).
Proof. slots. by rewrite (le_value_bytes 2). Qed.
Lemma slot_use (b : bool) :
  slot_of (store8 m (buf_InUse (info_Buffer (conn_Info c))) (if b then 1 else 0)) c = set_use b (slot_of m c).
Proof. destruct b; slots. Qed.
Lemma slot_ready (b : bool) :
  slot_of (store8 m (buf_Ready (info_Buffer (conn_Info c))) (if b then 1 else 0)) c = set_ready b (slot_of m c).
Proof. destruct b; slots. Qed.
Lemma slot_dir (b : bool) :
  slot_of (store8 m (buf_Direction (info_Buffer (conn_Info c))) (if b then 1 else 0)) c = set_dir b (slot_of m c).
Proof. destruct b; slots. Qed.
Lemma slot_data n d : 0 <= n -> n + Z.of_nat (length d) <= 512 -> Forall is_u8 d ->
  slot_of (store_bytes m (buf_Data (info_Buffer (conn_Info c)) + n) d) c
  = set_data (splice (Z.to_nat n) d (buf_data (slot_of m c))) (slot_of m c).
Proof.
  intros Hn Hd Hu. slots. rewrite (load_region _ _ _ _ (Z.to_nat n)) by (try done; unfold inside in *; lia). done.
Qed.
End Entry.

Lemma slot_elsewhere2 m m' c a k b l : inside c 534 -> changed_in2 m m' a k b l -> apart c 534 a k -> apart c 534 b l ->
  slot_of m' c = slot_of m c.
Proof.
  intros Hc Hch Ha Hb. unfold apart in Ha, Hb. unfold slot_of, conn_State, conn_Port, conn_RemoteAddress,
    conn_RemotePort, conn_Info, info_Buffer, info_SequenceNumberIn, info_SequenceNumberOut, buf_Length,
    buf_Data, buf_Direction, buf_Ready, buf_InUse, load.
  rewrite !load8_bytes. rewrite !(changed_load2 _ _ _ _ _ _ _ _ Hch) by (unfold inside in *; lia). done.
Qed.

Lemma slot_elsewhere m m' c a k : inside c 534 -> changed_in m m' a k -> apart c 534 a k ->
  slot_of m' c = slot_of m c.
Proof. intros Hc Hch Ha. apply (slot_elsewhere2 m m' c a k a k); [done| |done..]. intros x H1 H2 _. by apply Hch. Qed.

(** Entries are in place and apart. *)
Section Sim.
Context {LY : Layout} (IP IN OUT n : Z) (m0 : mem).
Abbreviation T := ConnectionStateTable.
Context (Ht : inside T sizeof_table) (Hp : inside IP n) (Ho : inside OUT 20).
Context (Hi : IP + 20 <= IN) (Hn : IN + 20 <= IP + n).
Context (Htp : apart T sizeof_table IP n) (Hto : apart T sizeof_table OUT 20) (Hpo : apart IP n OUT 20).

Definition total_length : Z := be16 (load_bytes m0 IP 20) 2.
Definition data_start : Z := 4 * (load8 m0 (tcp_DataOffset IN) / 16).
Definition data_length : Z := total_length - 4 * (load8 m0 IP mod 16) - data_start.

Definition segment_of : segment :=
  Segment (Key (load 2 m0 (tcp_DestinationPort IN)) (load_bytes m0 (ip_SourceAddress IP) 4)
             (load 2 m0 (tcp_SourcePort IN)))
    (load8 m0 (tcp_Flags IN)) (SwapEndian_32 (load 4 m0 (tcp_SequenceNumber IN)))
    (load_bytes m0 (IN + data_start) (Z.to_nat data_length)).

(** The memory [m] holds the slots [t], the received packet is untouched, and the flags of the
    response, once they are set, are [o]. *)
Definition R (o : option Z) (t : table) (m : mem) : Prop :=
  table_of m = t /\ changed_in2 m0 m T sizeof_table OUT 20
  /\ (forall fl, o = Some fl -> load8 m (tcp_Flags OUT) = fl).

Ltac geo := unfold inside, apart, sizeof_table, conn_entry, sizeof_ConnectionState, tcp_Flags in *; lia.

Lemma R_packet o t m a k : R o t m -> IP <= a -> a + Z.of_nat k <= IP + n -> load_bytes m a k = load_bytes m0 a k.
Proof. intros (_ & Hc & _) H1 H2. apply (changed_load2 _ _ _ _ _ _ _ _ Hc); geo. Qed.

(** An update of one entry. *)
Lemma R_entry o t m m' i f : R o t m -> (i < 3)%nat -> changed_in m m' (conn_entry i) 534 ->
  slot_of m' (conn_entry i) = f (slot_of m (conn_entry i)) -> R o (alter f i t) m'.
Proof.
  intros (<- & Hc & Hf) Hi3 Hch Hs. split; [|split].
  - apply table_alter; [done|done|]. intros j Hj Hij. eapply slot_elsewhere; [geo|exact Hch|geo].
  - intros x Hx Hx1 Hx2. rewrite Hch by geo. by apply Hc.
  - intros fl E. rewrite Hch by geo. by apply Hf.
Qed.

(** An update of the outgoing header behind the flags. *)
Lemma R_out o t m a bs : R o t m -> OUT <= a -> a + Z.of_nat (length bs) <= OUT + 20 ->
  a + Z.of_nat (length bs) <= OUT + 13 \/ OUT + 13 < a -> R o t (store_bytes m a bs).
Proof.
  intros (<- & Hc & Hf) H1 H2 H3.
  assert (changed_in m (store_bytes m a bs) a (Z.of_nat (length bs))) as Hch by (apply changed_store; geo).
  split; [|split].
  - apply table_same. intros j Hj. eapply slot_elsewhere; [geo|exact Hch|geo].
  - intros x Hx Hx1 Hx2. rewrite Hch by geo. by apply Hc.
  - intros fl E. rewrite Hch by geo. by apply Hf.
Qed.

Lemma R_flags o t m fl : R o t m -> is_u8 fl -> R (Some fl) t (out_flags OUT fl m).
Proof.
  intros (<- & Hc & _) Hu. unfold out_flags.
  assert (changed_in m (store8 m (tcp_Flags OUT) fl) OUT 20) as Hch
    by (rewrite store8_bytes; apply changed_store; cbn [length]; geo).
  split; [|split].
  - apply table_same. intros j Hj. eapply slot_elsewhere; [geo|exact Hch|geo].
  - intros x Hx Hx1 Hx2. rewrite Hch by geo. by apply Hc.
  - intros fl' [= <-]. rewrite load8_same. by apply wrap_id.
Qed.

(** ** Looking up *)

Lemma find_connection_slot o t m p a r : R o t m ->
  find_connection p a r m = find_slot (Key p a r) t.
Proof.
  intros (<- & _). apply first_entry_ext. intros i Hi3. unfold slot_test, is_connection, IP_COMPARE.
  rewrite table_lookup by done. cbn [slot_of s_key].
  apply eq_true_iff_eq. rewrite bool_decide_eq_true, !andb_true_iff, !Z.eqb_eq, bool_decide_eq_true.
  split; [by intros [[-> ->] ->]|].
  intros H. exact (conj (conj (f_equal k_port H) (f_equal k_addr H)) (f_equal k_rport H)).
Qed.

Lemma free_connection_slot o t m : R o t m ->
  first_entry MAX_TCP_CONNECTIONS (fun i => load8 m (conn_State (conn_entry i)) =? TCP_Connection_Closed)
  = free_slot t.
Proof.
  intros (<- & _). apply first_entry_ext. intros i Hi3. unfold slot_test. by rewrite table_lookup.
Qed.

Abbreviation K := (sg_key segment_of).

Lemma packet_key o t m : R o t m ->
  Key (load 2 m (tcp_DestinationPort IN)) (load_bytes m (ip_SourceAddress IP) 4) (load 2 m (tcp_SourcePort IN)) = K.
Proof.
  intros HR. unfold load. unfold tcp_DestinationPort, tcp_SourcePort, ip_SourceAddress in *.
  rewrite !(R_packet _ _ _ _ _ HR) by lia. done.
Qed.

Lemma seg_find o t m : R o t m ->
  find_connection (load 2 m (tcp_DestinationPort IN)) (load_bytes m (ip_SourceAddress IP) 4)
    (load 2 m (tcp_SourcePort IN)) m = find_slot K t.
Proof. intros HR. rewrite (find_connection_slot _ _ _ _ _ _ HR). by rewrite (packet_key _ _ _ HR). Qed.

Lemma seg_get_info_at o t m i : R o t m -> find_slot K t = Some i ->
  (i < 3)%nat /\ seg_get_info IP IN m = conn_Info (conn_entry i).
Proof.
  intros HR Hf. split; [by eapply find_slot_lt|].
  unfold seg_get_info, TCP_GetConnectionInfo. by rewrite (seg_find _ _ _ HR), Hf.
Qed.

Lemma seg_get_state_at o t m : R o t m -> seg_get_state IP IN m = state_of K t.
Proof.
  intros HR. unfold seg_get_state, TCP_GetConnectionState, state_of. rewrite (seg_find _ _ _ HR).
  destruct (find_slot K t) as [i|] eqn:E; [|done]. apply find_slot_lt in E as Hi3.
  destruct HR as (<- & _). by rewrite table_lookup.
Qed.

Lemma seg_flags_at o t m : R o t m -> seg_flags IN m = sg_flags segment_of.
Proof.
  intros HR. unfold seg_flags. cbn [segment_of sg_flags]. rewrite !load8_bytes.
  by rewrite (R_packet _ _ _ _ _ HR) by geo.
Qed.

Lemma seg_set_state_at o t m s : R o t m -> is_u8 s ->
  (seg_set_state IP IN s m).1 = (enter K s t).1 /\ R o (enter K s t).2 (seg_set_state IP IN s m).2.
Proof.
  intros HR Hs. unfold seg_set_state, TCP_SetConnectionState, enter. rewrite (seg_find _ _ _ HR).
  destruct (find_slot K t) as [i|] eqn:E.
  { apply find_slot_lt in E as Hi3. split; [done|].
    eapply R_entry; [exact HR|done|rewrite store8_bytes; apply changed_store; cbn [length]; unfold conn_State; geo|].
    apply slot_st; [geo|done]. }
  rewrite (free_connection_slot _ _ _ HR). destruct (free_slot t) as [i|] eqn:E'; [|done].
  apply free_slot_lt in E' as Hi3. split; [done|]. cbn [snd].
  eapply R_entry; [exact HR|done| |].
  - unfold store, conn_Port, conn_RemoteAddress, conn_RemotePort, conn_State. rewrite !store8_bytes.
    repeat first [apply changed_refl | eapply changed_trans; [|apply changed_store; rewrite ?length_le_bytes, ?length_load_bytes; cbn [length]; geo]].
  - rewrite slot_st by first [geo|done]. f_equal. rewrite <- (packet_key _ _ _ HR).
    set (k := Key _ _ _). assert (inside (conn_entry i) 534) as Hin by geo.
    exact (slot_key m (conn_entry i) Hin k (load_bytes_u8 _ _ _) (length_load_bytes _ _ _)
             (load_u 2 _ _) (load_u 2 _ _)).
Qed.

(** ** The cases *)

Lemma R_forget o t m : R o t m -> R None t m.
Proof. intros (? & ? & ?). by repeat split. Qed.

Definition matches (res : option bool * mem) (vt : verdict * table) : Prop :=
  match vt.1 with
  | Answer fl => res.1 = Some true /\ R (Some fl) vt.2 res.2
  | Silent => res.1 = Some false /\ R None vt.2 res.2
  | Deferred => res.1 = None /\ R None vt.2 res.2
  end.

Ltac u8lit := split; vm_compute; congruence.
(** Stores into the entry [i]. *)
Ltac in_entry := unfold store, increment, info_SequenceNumberIn, info_SequenceNumberOut, buf_InUse, buf_Ready,
    buf_Direction, buf_Length, info_Buffer, conn_Info, conn_State; rewrite ?store8_bytes;
  repeat first [apply changed_refl | eapply changed_trans; [|apply changed_store;
    rewrite ?length_le_bytes, ?length_load_bytes; cbn [length]; geo]].

Ltac entry i := assert (inside (conn_entry i) 534) as Hin by geo.

Lemma listen_ok t m : R None t m -> state_of K t = TCP_Connection_Listen ->
  matches (case_Listen IP IN OUT m) (react segment_of t).
Proof.
  intros HR Es. unfold case_Listen, react. cbv zeta. rewrite Es, (seg_flags_at _ _ _ HR). cbn [Z.eqb TCP_Connection_Listen].
  destruct (_ =? TCP_FLAG_SYN); [|done].
  destruct (seg_set_state_at None t m TCP_Connection_SYNReceived HR ltac:(u8lit)) as [E1 HR1].
  pose proof (enter_known K TCP_Connection_SYNReceived t (state_of_known _ _ _ Es ltac:(done))) as Hk.
  pose proof (enter_find _ _ _ Hk) as [i Hf].
  destruct (seg_set_state IP IN TCP_Connection_SYNReceived m) as [ok m1].
  destruct (enter K TCP_Connection_SYNReceived t) as [ok' t1]. cbn [fst snd] in *. subst ok ok'.
  apply (R_flags _ _ _ (TCP_FLAG_SYN .| TCP_FLAG_ACK)) in HR1; [|u8lit].
  set (m2 := out_flags OUT _ m1) in *.
  destruct (seg_get_info_at _ _ _ _ HR1 Hf) as [Hi3 ->].
  split; [done|]. cbn [snd fst]. unfold on_slot. rewrite Hf.
  eapply R_entry; [exact HR1|done|in_entry|]. entry i.
  etrans; [exact (slot_use _ _ Hin false)|]. f_equal. etrans; [exact (slot_out _ _ Hin 0)|]. f_equal.
  etrans; [apply (slot_in _ _ Hin)|]. do 3 f_equal. unfold load. cbn [segment_of sg_seq].
  by rewrite (R_packet _ _ _ _ _ HR1) by (unfold tcp_SequenceNumber; lia).
Qed.

(** The first part of several cases: enter a state, and find the slot again. *)
Lemma enter_at o t m s : R o t m -> is_u8 s -> is_Some (find_slot K t) ->
  exists i, find_slot K (enter K s t).2 = Some i /\ (i < 3)%nat
    /\ R o (enter K s t).2 (seg_set_state IP IN s m).2
    /\ seg_get_info IP IN (seg_set_state IP IN s m).2 = conn_Info (conn_entry i).
Proof.
  intros HR Hs Hk. destruct (seg_set_state_at o t m s HR Hs) as [_ HR1].
  destruct (enter_find K s t (enter_known _ _ _ Hk)) as [i Hf]. exists i.
  destruct (seg_get_info_at _ _ _ _ HR1 Hf) as [Hi3 E]. done.
Qed.

Lemma slot_bump_in m c : inside c 534 ->
  slot_of (increment (info_SequenceNumberIn (conn_Info c)) m) c = bump_in (slot_of m c).
Proof. intros Hc. apply (slot_in _ _ Hc). Qed.
Lemma slot_bump_out m c : inside c 534 ->
  slot_of (increment (info_SequenceNumberOut (conn_Info c)) m) c = bump_out (slot_of m c).
Proof. intros Hc. apply (slot_out _ _ Hc). Qed.

Lemma syn_received_ok t m : R None t m -> state_of K t = TCP_Connection_SYNReceived ->
  matches (case_SYNReceived IP IN m) (react segment_of t).
Proof.
  intros HR Es. unfold case_SYNReceived, react. cbv zeta. rewrite Es, (seg_flags_at _ _ _ HR). cbn [Z.eqb TCP_Connection_Listen TCP_Connection_SYNReceived Pos.eqb].
  destruct (_ =? TCP_FLAG_ACK); [|done].
  destruct (enter_at None t m TCP_Connection_Established HR ltac:(u8lit) (state_of_known _ _ _ Es ltac:(done)))
    as (i & Hf & Hi3 & HR1 & Ei).
  destruct (seg_set_state IP IN TCP_Connection_Established m) as [ok m1]. cbn [snd] in *. rewrite Ei.
  split; [done|]. cbn [snd fst]. unfold on_slot. rewrite Hf.
  eapply R_entry; [exact HR1|done|in_entry|]. entry i. by apply slot_bump_out.
Qed.

Lemma fin_ok t m : R None t m -> is_Some (find_slot K t) ->
  matches (let m := out_flags OUT (TCP_FLAG_FIN .| TCP_FLAG_ACK) m in
           let '(_, m) := seg_set_state IP IN TCP_Connection_CloseWait m in
           let i := seg_get_info IP IN m in
           let m := increment (info_SequenceNumberIn i) m in
           (Some true, increment (info_SequenceNumberOut i) m))
    (Answer (TCP_FLAG_FIN .| TCP_FLAG_ACK),
     on_slot K (fun c => bump_out (bump_in c)) (enter K TCP_Connection_CloseWait t).2).
Proof.
  intros HR Hk. cbv zeta. apply (R_flags _ _ _ (TCP_FLAG_FIN .| TCP_FLAG_ACK)) in HR; [|u8lit].
  set (m1 := out_flags OUT _ m) in *.
  destruct (enter_at _ t m1 TCP_Connection_CloseWait HR ltac:(u8lit) Hk) as (i & Hf & Hi3 & HR1 & Ei).
  destruct (seg_set_state IP IN TCP_Connection_CloseWait m1) as [ok m2]. cbn [snd] in *. rewrite Ei.
  split; [done|]. cbn [snd fst]. unfold on_slot. rewrite Hf.
  eapply R_entry; [exact HR1|done|in_entry|]. entry i.
  etrans; [by apply slot_bump_out|]. f_equal. by apply slot_bump_in.
Qed.

Lemma closing_ok t m : R None t m -> state_of K t = TCP_Connection_Closing ->
  matches (case_Closing IP IN OUT m) (react segment_of t).
Proof.
  intros HR Es. unfold case_Closing, react. cbv zeta. rewrite Es.
  change (_ =? TCP_Connection_Closing) with true. cbv iota.
  destruct (state_of_known _ _ _ Es ltac:(done)) as [i Hf].
  destruct (seg_get_info_at _ _ _ _ HR Hf) as [Hi3 ->].
  apply (R_flags _ _ _ (TCP_FLAG_ACK .| TCP_FLAG_FIN)) in HR; [|u8lit].
  set (m1 := out_flags OUT _ m) in *. split; [done|]. cbn [fst snd].
  apply seg_set_state_at; [|u8lit]. unfold on_slot. rewrite Hf.
  eapply R_entry; [exact HR|done|in_entry|]. entry i. exact (slot_use _ _ Hin false).
Qed.

Lemma finish_ok t m : R None t m -> is_Some (find_slot K t) ->
  matches (finish IP IN OUT m) (close_acked K t).
Proof.
  intros HR [i Hf]. unfold finish, close_acked. cbv zeta.
  destruct (seg_get_info_at _ _ _ _ HR Hf) as [Hi3 ->].
  apply (R_flags _ _ _ TCP_FLAG_ACK) in HR; [|u8lit].
  set (m1 := out_flags OUT _ m) in *. split; [done|]. cbn [fst snd].
  apply seg_set_state_at; [|u8lit]. unfold on_slot. rewrite Hf.
  eapply R_entry; [exact HR|done|in_entry|]. entry i.
  etrans; [by apply slot_bump_out|]. f_equal. by apply slot_bump_in.
Qed.

Lemma silent_enter t m s : R None t m -> is_u8 s ->
  matches (Some false, (seg_set_state IP IN s m).2) (Silent, (enter K s t).2).
Proof. intros HR Hs. split; [done|]. by apply seg_set_state_at. Qed.

Lemma silent_stay t m : R None t m -> matches (Some false, m) (Silent, t).
Proof. done. Qed.

(** ** Data *)

Context (Hd0 : 0 <= data_length) (Hdn : IN + data_start + data_length <= IP + n).

Lemma data_offset m a : load_field 1 4 4 m a = load8 m a / 16.
Proof.
  unfold load_field, load. cbn [load_bytes le_value]. rewrite Z.lor_0_r, Z.land_ones, Z.shiftr_div_pow2 by done.
  change (2 ^ 4) with 16. pose proof (load8_u8 m a) as H. unfold is_u in H. rewrite Z.mod_small by zmod. done.
Qed.

Lemma header_nibble m a : load_field 1 0 4 m a = load8 m a mod 16.
Proof.
  unfold load_field, load. cbn [load_bytes le_value]. by rewrite Z.lor_0_r, Z.land_ones, Z.shiftr_0_r by done.
Qed.

Lemma data_length_at o t m : R o t m ->
  u16 (SwapEndian_16 (load 2 m (ip_TotalLength IP)) - load_field 1 0 4 m (ip_HeaderLength IP) * 4
       - load_field 1 4 4 m (tcp_DataOffset IN) * 4) = data_length.
Proof.
  intros HR. rewrite header_nibble, data_offset. unfold load. rewrite !load8_bytes.
  unfold ip_TotalLength, ip_HeaderLength, tcp_DataOffset.
  rewrite !(R_packet _ _ _ _ _ HR) by lia. rewrite <- !load8_bytes.
  change (le_value (load_bytes m0 (IP + 2) 2)) with (load 2 m0 (IP + Z.of_nat 2)).
  rewrite (swap_load m0 IP 20 2) by lia. fold total_length.
  replace (total_length - load8 m0 IP mod 16 * 4 - load8 m0 (IN + 12) / 16 * 4) with data_length
    by (unfold data_length, data_start, tcp_DataOffset; lia).
  apply wrap_id. unfold is_u in *. split; [done|]. change (2 ^ 16) with 65536.
  unfold inside in Hp. assert (0 <= data_start) by (unfold data_start; pose proof (load8_u8 m0 (tcp_DataOffset IN)) as H; unfold is_u in H; zmod).
  lia.
Qed.

Lemma data_at o t m : R o t m ->
  load_bytes m (IN + load_field 1 4 4 m (tcp_DataOffset IN) * 4) (Z.to_nat data_length) = sg_data segment_of.
Proof.
  intros HR. rewrite data_offset. rewrite load8_bytes. unfold tcp_DataOffset.
  rewrite (R_packet _ _ _ (IN + 12) _ HR) by lia. rewrite <- load8_bytes.
  replace (load8 m0 (IN + 12) / 16 * 4) with data_start by (unfold data_start, tcp_DataOffset; lia).
  assert (0 <= data_start) by (unfold data_start; pose proof (load8_u8 m0 (tcp_DataOffset IN)) as H; unfold is_u in H; zmod).
  rewrite (R_packet _ _ _ _ _ HR) by lia. done.
Qed.

Lemma length_data : length (sg_data segment_of) = Z.to_nat data_length.
Proof. apply length_load_bytes. Qed.

(** The buffer has room for the data behind what it holds. *)
Definition room (c : slot) : Prop := buf_len (claim c) + data_length <= 512.

Lemma full_test x : is_u16 x -> negb (truth (u16 (TCP_WINDOW_SIZE - x))) = (x =? TCP_WINDOW_SIZE).
Proof.
  unfold is_u, truth, TCP_WINDOW_SIZE. intros Hx. rewrite negb_involutive. apply eq_true_iff_eq.
  rewrite !Z.eqb_eq. unfold wrap. change (2 ^ 16) with 65536. zmod.
Qed.

Lemma copy_segment_ok o t m i c : R o t m -> (i < 3)%nat -> t !! i = Some c ->
  buf_len c + data_length <= 512 -> 0 <= buf_len c ->
  matches (copy_segment IP IN OUT (conn_Info (conn_entry i)) m)
    (let t := alter (append (sg_data segment_of)) i t in
     if complete_buffer (sg_flags segment_of) (append (sg_data segment_of) c) then
       (Answer TCP_FLAG_ACK, alter (fun c => set_ready true (set_use false c)) i t)
     else (Silent, t)).
Proof.
  intros HR Hi3 Hc Hroom Hb0. unfold copy_segment. cbv zeta. entry i.
  assert (c = slot_of m (conn_entry i)) as Ec.
  { destruct HR as (E & _). rewrite <- E, table_lookup in Hc by done. by injection Hc. }
  rewrite (data_length_at _ _ _ HR). unfold copy. rewrite (data_at _ _ _ HR).
  set (d := sg_data segment_of).
  assert (buf_len c = load 2 m (buf_Length (info_Buffer (conn_Info (conn_entry i))))) as El by (by rewrite Ec).
  rewrite <- El.
  set (m2 := store_bytes m _ d). set (m3 := store 4 m2 _ _). set (m4 := store 2 m3 _ _).
  assert (Z.of_nat (length d) = data_length) as Hl by (unfold d; rewrite length_data; lia).
  assert (slot_of m4 (conn_entry i) = append d c) as Es4.
  { assert (slot_of m2 (conn_entry i) = set_data (splice (Z.to_nat (buf_len c)) d (buf_data c)) c) as E2.
    { rewrite Ec at 2 3. apply (slot_data _ _ Hin); [done|lia|]. apply load_bytes_u8. }
    etrans; [apply (slot_len _ _ Hin)|]. unfold append. rewrite Hl.
    assert (slot_of m3 (conn_entry i) = set_in (seq_in c + data_length) (set_data (splice (Z.to_nat (buf_len c)) d (buf_data c)) c)) as E3.
    { etrans; [apply (slot_in _ _ Hin)|].
      change (load 4 m2 _) with (seq_in (slot_of m2 (conn_entry i))). by rewrite E2. }
    change (load 2 m3 _) with (buf_len (slot_of m3 (conn_entry i))). by rewrite E3. }
  assert (R o (alter (append d) i t) m4) as HR4.
  { eapply R_entry; [exact HR|done| |by rewrite <- Ec].
    apply (changed_trans _ m3); [apply (changed_trans _ m2)|].
    - apply changed_store; unfold buf_Data, info_Buffer, conn_Info; geo.
    - unfold m3. in_entry.
    - unfold m4. in_entry. }
  change (load 2 m4 _) with (buf_len (slot_of m4 (conn_entry i))). rewrite Es4.
  rewrite full_test by (unfold append, set_len; cbn; apply (wrap_is_u 16); lia).
  rewrite (seg_flags_at _ _ _ HR4). unfold complete_buffer.
  destruct (_ || _).
  - split; [done|]. cbn [fst snd]. eapply R_flags; [|u8lit].
    eapply R_entry; [exact HR4|done|in_entry|].
    etrans; [exact (slot_ready _ _ Hin true)|]. f_equal. exact (slot_use _ _ Hin false).
  - split; [done|]. by eapply R_forget.
Qed.

(** The buffer is claimed for incoming data. *)
Lemma claim_ok o t m i (b := info_Buffer (conn_Info (conn_entry i))) : R o t m -> (i < 3)%nat ->
  let m1 := if negb (truth (load8 m (buf_InUse b))) && negb (truth (load8 m (buf_Ready b)))
            then store 2 (store8 (store8 m (buf_Direction b) TCP_PACKETDIR_IN) (buf_InUse b) 1) (buf_Length b) 0 else m in
  R o (alter claim i t) m1 /\ slot_of m1 (conn_entry i) = claim (slot_of m (conn_entry i)).
Proof.
  intros HR Hi3 m1. entry i. set (c := slot_of m (conn_entry i)).
  assert (changed_in m m1 (conn_entry i) 534 /\ slot_of m1 (conn_entry i) = claim c) as [Hch E1];
    [|split; [by eapply R_entry|done]].
  unfold m1, claim.
  change (truth (load8 m (buf_InUse b))) with (in_use c). change (truth (load8 m (buf_Ready b))) with (ready c).
  destruct (negb (in_use c) && negb (ready c)); [|split; [apply changed_refl|done]].
  split; [unfold b; in_entry|]. etrans; [exact (slot_len _ _ Hin 0)|]. f_equal.
  etrans; [exact (slot_use _ _ Hin true)|]. f_equal. exact (slot_dir _ _ Hin false).
Qed.

Lemma established_ok t m : R None t m -> state_of K t = TCP_Connection_Established ->
  (forall i c, find_slot K t = Some i -> t !! i = Some c -> room c) ->
  matches (case_Established IP IN OUT m) (react segment_of t).
Proof.
  intros HR Es Hroom. pose proof (state_of_known _ _ _ Es ltac:(done)) as Hk.
  unfold case_Established, react. cbv zeta. rewrite Es, (seg_flags_at _ _ _ HR).
  change (_ =? TCP_Connection_Listen) with false. change (_ =? TCP_Connection_SYNReceived) with false.
  change (TCP_Connection_Established =? TCP_Connection_Established) with true. cbv iota.
  destruct (_ =? TCP_FLAG_FIN .| TCP_FLAG_ACK); [by apply fin_ok|].
  destruct (_ || _); [|done]. destruct Hk as [i Hf]. unfold receive. rewrite Hf.
  destruct (seg_get_info_at _ _ _ _ HR Hf) as [Hi3 ->]. entry i.
  destruct (claim_ok None t m i HR Hi3) as [HR1 Ec]. set (b := info_Buffer _) in *. set (m1 := if _ && _ then _ else m) in *.
  pose proof (proj1 HR) as Et. 
  assert (t !! i = Some (slot_of m (conn_entry i))) as Hc by (by rewrite <- Et, table_lookup).
  rewrite Hc. specialize (Hroom i _ Hf Hc). set (c := slot_of m (conn_entry i)) in *.
  change (truth (load8 m1 (buf_Direction b))) with (outgoing (slot_of m1 (conn_entry i))).
  change (load 2 m1 (buf_Length b)) with (buf_len (slot_of m1 (conn_entry i))). rewrite Ec.
  fold (accepts (claim c)). destruct (accepts (claim c)); [|done].
  eapply copy_segment_ok; [done|done| |done|].
  - by rewrite list_lookup_alter_eq, Hc.
  - rewrite <- Ec. apply (load_u 2).
Qed.

(** ** The whole segment *)

Lemma process_open_ok : (forall i c, find_slot K (table_of m0) = Some i -> table_of m0 !! i = Some c -> room c) ->
  matches (process_open IP IN OUT m0) (step segment_of (table_of m0)).
Proof.
  intros Hroom. unfold process_open, step.
  assert (R None (table_of m0) m0) as HR0 by (by repeat split).
  rewrite (seg_flags_at _ _ _ HR0).
  set (syn := truth (sg_flags segment_of .& TCP_FLAG_SYN)).
  set (m1 := if syn then _ else m0). set (t1 := if syn then _ else table_of m0).
  assert (R None t1 m1) as HR1.
  { unfold t1, m1. destruct syn; [|done]. by apply seg_set_state_at; [|u8lit]. }
  assert (state_of K t1 = TCP_Connection_Established ->
          forall i c, find_slot K t1 = Some i -> t1 !! i = Some c -> room c) as Hroom1.
  { unfold t1. destruct syn; [|done]. intros Es. destruct (enter K TCP_Connection_Listen (table_of m0)).1 eqn:E.
    - by rewrite enter_state in Es by done.
    - apply enter_full in E as [E E']. rewrite E in Es. by rewrite E' in Es. }
  clearbody t1 m1. clear Hroom HR0. rewrite (seg_flags_at _ _ _ HR1).
  destruct (truth (sg_flags segment_of .& TCP_FLAG_RST)).
  { destruct (seg_set_state_at None t1 m1 TCP_Connection_Closed HR1 ltac:(u8lit)) as [E HR2].
    destruct (seg_set_state IP IN TCP_Connection_Closed m1) as [ok m2].
    destruct (enter K TCP_Connection_Closed t1) as [ok' t2]. cbn [fst snd] in *. subst ok'.
    destruct ok; [|done]. split; [done|]. eapply R_flags; [exact HR2|u8lit]. }
  rewrite (seg_get_state_at _ _ _ HR1).
  destruct (Z.eqb_spec (state_of K t1) TCP_Connection_Listen) as [E|N0]; [by apply listen_ok|].
  destruct (Z.eqb_spec (state_of K t1) TCP_Connection_SYNReceived) as [E|N1]; [by apply syn_received_ok|].
  destruct (Z.eqb_spec (state_of K t1) TCP_Connection_Established) as [E|N2]; [exact (established_ok t1 m1 HR1 E (Hroom1 E))|].
  destruct (Z.eqb_spec (state_of K t1) TCP_Connection_Closing) as [E|N3]; [by apply closing_ok|].
  unfold react. cbv zeta. rewrite (proj2 (Z.eqb_neq _ _) N0), (proj2 (Z.eqb_neq _ _) N1),
    (proj2 (Z.eqb_neq _ _) N2), (proj2 (Z.eqb_neq _ _) N3).
  destruct (Z.eqb_spec (state_of K t1) TCP_Connection_FINWait1) as [E|N4].
  { unfold case_FINWait1. rewrite (seg_flags_at _ _ _ HR1).
    destruct (_ =? TCP_FLAG_FIN .| TCP_FLAG_ACK); [apply finish_ok; [done|exact (state_of_known _ _ _ E ltac:(done))]|].
    destruct (_ =? TCP_FLAG_ACK); [apply silent_enter; [done|u8lit]|done]. }
  destruct (Z.eqb_spec (state_of K t1) TCP_Connection_FINWait2) as [E|N5].
  { unfold case_FINWait2. rewrite (seg_flags_at _ _ _ HR1).
    destruct (_ =? TCP_FLAG_FIN .| TCP_FLAG_ACK); [apply finish_ok; [done|exact (state_of_known _ _ _ E ltac:(done))]|done]. }
  destruct (Z.eqb_spec (state_of K t1) TCP_Connection_CloseWait) as [E|N6]; [|done].
  unfold case_CloseWait. rewrite (seg_flags_at _ _ _ HR1).
  destruct (_ =? TCP_FLAG_ACK); [apply silent_enter; [done|u8lit]|done].
Qed.
End Sim.
