(* ===== verification/TcpHeader.v ===== *)
(** * TcpHeader: the segments the server sends

    The checksum over the pseudo header, the header of a response, and the theorem that
    TCP_ProcessTCPPacket implements the abstract server. *)
From S2P Require Import Prelude Machine Ram Network Checksum Tcp Packets PacketReplies TcpServer TcpRefinement.
Import Net Tcp.

(** ** The checksum *)

(** The pseudo header of a segment of [n] bytes. *)
Definition pseudo_header (src dst : list Z) (n : Z) : list Z := src ++ dst ++ [0; PROTOCOL_TCP] ++ be_bytes 2 n.

Definition tcp_checksum (src dst seg : list Z) : Z :=
  65535 - ones_sum (words16 (pseudo_header src dst (Z.of_nat (length seg)) ++ seg)).

Lemma words16_be v : words16 (be_bytes 2 v) = [SwapEndian_16 v].
Proof. done. Qed.

Lemma odd_byte m a : load 2 m a .& 0x00FF = load8 m a.
Proof.
  unfold load. cbn [load_bytes]. rewrite le_value2 by apply load8_u8.
  change 0x00FF with (Z.ones 8). rewrite Z.land_ones by done. change (2 ^ 8) with 256.
  pose proof (load8_u8 m a) as H. unfold is_u in H. rewrite Z.mul_comm, Z.mod_add by done. by apply Z.mod_small.
Qed.

Lemma swap_u16 v : is_u16 (SwapEndian_16 v).
Proof.
  unfold SwapEndian_16. apply (le_value_is_u (reverse (le_bytes 2 v))).
  unfold reverse. rewrite rev_append_rev, app_nil_r. apply Forall_rev, Forall_le_bytes.
Qed.

Lemma u32_sum a b : 0 <= a <= 65535 * 5 -> 0 <= b <= 65535 -> u32 (a + b) = a + b.
Proof. intros. apply wrap_id. unfold is_u. lia. Qed.

Lemma odd_spec n : truth (n .& 0x01) = Z.odd n.
Proof. change 0x01 with (bit 0). by rewrite truth_land_bit, Z.bit0_odd. Qed.

(** The words of the pseudo header, as the code adds them up. *)
Lemma pseudo_sum src dst n : Forall is_u8 src -> Forall is_u8 dst -> length src = 4%nat -> length dst = 4%nat ->
  let ps := words16 (pseudo_header src dst n) in
  u32 (u32 (u32 (u32 (u32 (u32 (0 + ip_word src 0) + ip_word src 1) + ip_word dst 0) + ip_word dst 1)
            + SwapEndian_16 PROTOCOL_TCP) + SwapEndian_16 n) = total ps
  /\ Forall is_u16 ps /\ length ps = 6%nat.
Proof.
  intros Hs Hd Ls Ld. cbv zeta.
  do 4 (destruct src as [|? src]; [done|]). destruct src; [|done].
  do 4 (destruct dst as [|? dst]; [done|]). destruct dst; [|done].
  unfold pseudo_header. rewrite !words16_app, words16_be by done.
  set (ps := words16 _ ++ _).
  assert (Forall is_u16 ps) as Hps.
  { unfold ps. repeat apply Forall_app_2; try (apply words16_u16; first [done|bytes]).
    constructor; [apply swap_u16|done]. }
  split; [|split; done]. unfold ip_word. cbn [Nat.mul Nat.add take drop].
  unfold ps in *. cbn [words16 Datatypes.app total foldr] in *.
  change (le_value [0; PROTOCOL_TCP]) with (SwapEndian_16 PROTOCOL_TCP) in *.
  rewrite !Forall_cons_iff in Hps. unfold is_u in Hps.
  set (w1 := le_value [z; z0]) in *. set (w2 := le_value [z1; z2]) in *. set (w3 := le_value [z3; z4]) in *.
  set (w4 := le_value [z5; z6]) in *. set (w5 := SwapEndian_16 PROTOCOL_TCP) in *. set (w6 := SwapEndian_16 n) in *.
  rewrite (u32_sum 0 w1), (u32_sum _ w2), (u32_sum _ w3), (u32_sum _ w4), (u32_sum _ w5), (u32_sum _ w6) by lia. lia.
Qed.

(** A block is its whole words and perhaps a byte. *)
Lemma load_halves m a n : 0 <= n ->
  load_bytes m a (Z.to_nat n) = load_bytes m a (2 * Z.to_nat (n / 2))
    ++ (if truth (n .& 1) then [load8 m (a + 2 * (n / 2))] else []).
Proof.
  intros Hn. rewrite odd_spec. replace (Z.to_nat n) with (2 * Z.to_nat (n / 2) + (if Z.odd n then 1 else 0))%nat.
  - rewrite load_bytes_app. f_equal. destruct (Z.odd n); [|done]. cbn [load_bytes]. do 2 f_equal. zmod.
  - pose proof (Z.div2_odd n) as E. rewrite Z.div2_div in E. destruct (Z.odd n); cbn in E; lia.
Qed.

Lemma TCP_Checksum16_ref m a src dst n :
  0 <= n < 65536 -> Forall is_u8 src -> Forall is_u8 dst -> length src = 4%nat -> length dst = 4%nat ->
  TCP_Checksum16 m a src dst n = tcp_checksum src dst (load_bytes m a (Z.to_nat n)).
Proof.
  intros Hn Hs Hd Ls Ld. unfold TCP_Checksum16, tcp_checksum. cbv zeta. rewrite length_load_bytes, Z2Nat.id by lia.
  destruct (pseudo_sum src dst n Hs Hd Ls Ld) as (-> & Hps & Lps).
  rewrite words16_app by (unfold pseudo_header; rewrite !length_app, Ls, Ld; done).
  set (ps := words16 (pseudo_header src dst n)) in *. pose proof (total_nonneg _ Hps) as Hps6. rewrite Lps in Hps6.
  rewrite Z.shiftr_div_pow2 by done. change (2 ^ 1) with 2. assert (0 <= n / 2 < 32768) by zmod.
  rewrite sum_words_total by lia. rewrite load_halves by lia.
  set (h := Z.to_nat (n / 2)). set (odd := truth (n .& 1)). set (body := load_bytes m a (2 * h)).
  assert (Forall is_u16 (words16 body)) as Hb by (apply words16_u16, load_bytes_u8).
  assert (length (words16 body) = h) as Lb by (apply words16_length; apply length_load_bytes).
  pose proof (total_nonneg _ Hb) as Tb. rewrite Lb in Tb.
  rewrite (words16_app body) by (unfold body; rewrite length_load_bytes; apply Nat.even_spec; by exists h).
  pose proof (load8_u8 m (a + 2 * (n / 2))) as Hl8.
  assert (Forall is_u16 (words16 (if odd then [load8 m (a + 2 * (n / 2))] else []))) as Ho.
  { destruct odd; repeat constructor; unfold is_u in *; lia. }
  rewrite odd_byte.
  rewrite ones_sum_norm by (apply Forall_app_2; [done|by apply Forall_app_2]). rewrite !words_total_app.
  rewrite <- (lnot_u16 (norm _)) by (apply norm_u16; pose proof (total_nonneg _ Ho); lia).
  do 2 f_equal. unfold is_u in Hl8. destruct odd; cbn [words16 total foldr].
  - rewrite fold_carries_norm by (apply (wrap_is_u 32); lia). f_equal. rewrite wrap_id by (unfold is_u; lia).
    unfold total. cbn. lia.
  - rewrite fold_carries_norm by (unfold is_u; lia). f_equal. lia.
Qed.

(** ** The header of a response *)

(** A segment from the connection [k] with its checksum; [src] and [dst] are the addresses of
    the packet around it. *)
Definition tcp_header (k : key) (seq ack fl window : Z) : list Z :=
  le_bytes 2 (k_port k) ++ le_bytes 2 (k_rport k) ++ be_bytes 4 seq ++ be_bytes 4 ack
  ++ [0x50; fl] ++ be_bytes 2 window ++ [0; 0; 0; 0].

Definition tcp_segment (src dst : list Z) (k : key) (seq ack fl window : Z) (data : list Z) : list Z :=
  let seg := tcp_header k seq ack fl window ++ data in
  splice 16 (le_bytes 2 (tcp_checksum src dst seg)) seg.

Definition window_of (c : slot) : Z := if in_use c then u16 (TCP_WINDOW_SIZE - buf_len c) else TCP_WINDOW_SIZE.

Lemma nibbles_tcp x : is_u8 x ->
  u8 (le_value [u8 (le_value [x] .&~ (Z.ones 4 .<< 4) .| ((5 .& Z.ones 4) .<< 4))] .&~ (Z.ones 4 .<< 0)
      .| ((0 .& Z.ones 4) .<< 0)) = 0x50.
Proof.
  intros Hx. apply Z.eqb_eq. revert x Hx.
  exact (forall_u8 (fun x => u8 (le_value [u8 (le_value [x] .&~ (Z.ones 4 .<< 4) .| ((5 .& Z.ones 4) .<< 4))]
    .&~ (Z.ones 4 .<< 0) .| ((0 .& Z.ones 4) .<< 0)) =? 0x50) eq_refl).
Qed.

Lemma swap_store4 v : le_bytes 4 (SwapEndian_32 v) = be_bytes 4 v.
Proof.
  unfold SwapEndian_32, be_bytes. change 4%nat with (length (reverse (le_bytes 4 v))) at 1.
  apply le_bytes_value. unfold reverse. rewrite rev_append_rev, app_nil_r.
  apply Forall_rev, Forall_le_bytes.
Qed.

Section Respond.
Context {LY : Layout} (IP IN OUT n : Z) (m0 : mem).
Abbreviation T := ConnectionStateTable.
Context (Ht : inside T sizeof_table) (Hp : inside IP n) (Ho : inside OUT 20).
Context (Hi : IP + 20 <= IN) (Hn : IN + 20 <= IP + n).
Context (Htp : apart T sizeof_table IP n) (Hto : apart T sizeof_table OUT 20) (Hpo : apart IP n OUT 20).
Abbreviation R := (R OUT m0).
Abbreviation K := (sg_key (segment_of IP IN m0)).
Abbreviation Dst := (load_bytes m0 (ip_DestinationAddress IP) 4).

Ltac hdr := unfold copy, store_field, store, tcp_SourcePort, tcp_DestinationPort, tcp_SequenceNumber,
  tcp_AcknowledgmentNumber, tcp_DataOffset, tcp_Reserved, tcp_Flags, tcp_WindowSize, tcp_Checksum,
  tcp_UrgentPointer, sizeof_TCP_Header, conn_Info, info_Buffer, info_SequenceNumberIn, info_SequenceNumberOut,
  buf_InUse, buf_Length.

(** The memory before the checksum is stored; [a] is the [ConnectionInfo] the code works with. *)
Lemma respond_stores o t m a : R o t m -> seg_get_info IP IN m = a -> inside a 525 -> apart a 525 OUT 20 ->
  exists m1, respond IP IN OUT m = store 2 m1 (tcp_Checksum OUT) (TCP_Checksum16 m1 OUT Dst (k_addr K) 20)
    /\ changed_in m m1 OUT 20
    /\ load_bytes m1 OUT 20 = tcp_header K (load 4 m (info_SequenceNumberOut a)) (load 4 m (info_SequenceNumberIn a))
         (load8 m (tcp_Flags OUT))
         (if truth (load8 m (buf_InUse (info_Buffer a))) then u16 (TCP_WINDOW_SIZE - load 2 m (buf_Length (info_Buffer a)))
          else TCP_WINDOW_SIZE).
Proof.
  intros HR Ha Hin Hap. unfold respond. cbv zeta. rewrite Ha.
  assert (forall a k, IP <= a -> a + Z.of_nat k <= IP + n -> load_bytes m a k = load_bytes m0 a k) as Hpk.
  { intros x k H1 H2. exact (R_packet IP IN OUT n m0 Ht Hp Ho Hi Hn Htp Hto Hpo _ _ _ _ _ HR H1 H2). }
  set (m1 := store_field 1 0 4 _ _ 0).
  assert (changed_in m m1 OUT 20) as Hch.
  { unfold m1. hdr. changed. }
  unfold inside, apart in *.
  exists m1. split; [|split; [done|]].
  - unfold ip_DestinationAddress, ip_SourceAddress.
    rewrite !(changed_load _ _ _ _ _ _ Hch) by (unfold inside; lia).
    by rewrite !Hpk by lia.
  - unfold m1. hdr. unfold load. rewrite !load8_bytes. regions.
    set (w := if negb _ then _ else _). set (w' := if truth _ then _ else TCP_WINDOW_SIZE).
    assert (w = SwapEndian_16 w') as ->.
    { unfold w, w'. rewrite <- load8_bytes. destruct (truth (load8 m (a + 8 + 516))); exact eq_refl. }
    clearbody w'. rewrite swap_store, !swap_store4. unfold tcp_header. cbn [segment_of sg_key k_port k_rport].
    rewrite !(le_bytes_load 2). unfold tcp_DestinationPort, tcp_SourcePort.
    rewrite (Hpk (IN + 2) 2%nat), (Hpk IN 2%nat) by lia.
    generalize (le_value (load_bytes m (a + 4) 4)) (le_value (load_bytes m a 4)). intros si so.
    change (load_bytes m OUT 20) with (load_bytes m OUT (13 + (1 + 6))). rewrite !load_bytes_app.
    change (OUT + Z.of_nat 13) with (OUT + 13). change (20 / 4) with 5.
    cbn [load_bytes le_bytes]. rewrite nibbles_tcp by apply load8_u8.
    generalize (load8 m) (load8 m0). intros f f0. reflexivity.
Qed.

(** The complete response. *)
Lemma respond_ok fl t m i c : R (Some fl) t m -> find_slot K t = Some i -> t !! i = Some c ->
  load_bytes (respond IP IN OUT m) OUT 20
  = tcp_segment Dst (k_addr K) K (seq_out c) (seq_in c) fl (window_of c) []
  /\ R None t (respond IP IN OUT m).
Proof.
  intros HR Hf Hc.
  destruct (seg_get_info_at IP IN OUT n m0 Ht Hp Ho Hi Hn Htp Hto Hpo _ _ _ _ HR Hf) as [Hi3 Ei].
  destruct (respond_stores _ t m _ HR Ei) as (m1 & Er & Hch & Hh);
    [unfold inside, apart, sizeof_table, conn_Info, conn_entry, sizeof_ConnectionState in *; lia..|].
  assert (slot_of m (conn_entry i) = c) as Ec.
  { pose proof (find_slot_lt _ _ _ Hf). destruct HR as (E & _). rewrite <- E, table_lookup in Hc by done. by injection Hc. }
  change (tcp_header _ _ _ _ _) with (tcp_header K (seq_out (slot_of m (conn_entry i))) (seq_in (slot_of m (conn_entry i)))
    (load8 m (tcp_Flags OUT)) (window_of (slot_of m (conn_entry i)))) in Hh.
  rewrite Ec, (proj2 (proj2 HR) fl eq_refl) in Hh. rewrite Er. split.
  - unfold store, tcp_Checksum. rewrite (load_region _ _ _ _ 16) by (rewrite ?length_le_bytes; auto with cint; unfold inside in *; lia).
    rewrite TCP_Checksum16_ref by (try done; try lia; apply load_bytes_u8).
    change (Z.to_nat 20) with 20%nat. rewrite Hh. unfold tcp_segment. by rewrite app_nil_r.
  - rewrite <- Er. destruct HR as (<- & Hc2 & _).
    assert (changed_in m (respond IP IN OUT m) OUT 20) as Hch2.
    { rewrite Er. eapply changed_trans; [exact Hch|]. unfold store, tcp_Checksum. apply changed_store.
      all: rewrite ?length_le_bytes; unfold inside in *; lia. }
    split; [|split; [|done]].
    + apply table_same. intros j Hj.
      eapply slot_elsewhere; [|exact Hch2|]; unfold inside, apart, sizeof_table, conn_entry, sizeof_ConnectionState in *; lia.
    + intros x Hx H1 H2. rewrite Hch2 by lia. by apply Hc2.
Qed.
End Respond.

(** ** Answered segments have a slot *)

Lemma find_on_slot k k' f t : (forall c, s_key (f c) = s_key c) -> find_slot k (on_slot k' f t) = find_slot k t.
Proof. intros Hf. unfold on_slot. destruct (find_slot k' t); [by apply find_alter|done]. Qed.

Lemma enter_keeps k s t : is_Some (find_slot k t) -> is_Some (find_slot k (enter k s t).2).
Proof. intros H. apply enter_find. by apply enter_known. Qed.

Lemma receive_find sg t : is_Some (find_slot (sg_key sg) t) ->
  is_Some (find_slot (sg_key sg) (receive sg t).2).
Proof.
  intros [i E]. unfold receive. rewrite E. destruct (t !! i) as [c|]; cbn [snd]; [|by rewrite E].
  assert (forall c, s_key (claim c) = s_key c) as Hcl by (intros c'; unfold claim; by destruct (_ && _)).
  destruct (accepts (claim c)); [destruct (complete_buffer _ _)|]; cbn [snd];
    rewrite !find_alter, E by done; done.
Qed.

Lemma react_answer sg t fl t' : react sg t = (Answer fl, t') -> is_Some (find_slot (sg_key sg) t').
Proof.
  unfold react. cbv zeta.
  assert (forall s, state_of (sg_key sg) t = s -> s <> TCP_Connection_Closed -> is_Some (find_slot (sg_key sg) t))
    as Hk by (intros s; apply state_of_known).
  repeat match goal with |- context [state_of ?k ?t =? ?s] =>
    destruct (Z.eqb_spec (state_of k t) s) as [E|_]; [specialize (Hk _ E ltac:(done))|] end.
  - destruct (_ =? _); [|done]. pose proof (enter_keeps _ TCP_Connection_SYNReceived _ Hk) as Hk'.
    rewrite (surjective_pairing (enter _ _ _)). rewrite enter_known by done.
    intros [= _ <-]. by rewrite find_on_slot.
  - by destruct (_ =? _).
  - destruct (_ =? _).
    { intros [= _ <-]. rewrite find_on_slot by done. by apply enter_keeps. }
    destruct (_ || _); [|done]. intros H. pose proof (receive_find sg t Hk) as Hr. by rewrite H in Hr.
  - intros [= _ <-]. apply enter_keeps. by rewrite find_on_slot.
  - unfold close_acked. destruct (_ =? _); [|by destruct (_ =? _)].
    intros [= _ <-]. apply enter_keeps. by rewrite find_on_slot.
  - unfold close_acked. destruct (_ =? _); [|done].
    intros [= _ <-]. apply enter_keeps. by rewrite find_on_slot.
  - by destruct (_ =? _).
  - done.
Qed.

Lemma step_answer sg t fl t' : step sg t = (Answer fl, t') -> is_Some (find_slot (sg_key sg) t').
Proof.
  unfold step. cbv zeta. set (t1 := if truth _ then _ else t).
  destruct (truth (_ .& TCP_FLAG_RST)); [|apply react_answer].
  pose proof (enter_find (sg_key sg) TCP_Connection_Closed t1) as H.
  destruct (enter _ _ t1) as [ok t2]. cbn [fst snd] in H. destruct ok; [|done]. intros [= _ <-]. by apply H.
Qed.

(** ** The handler *)

Definition connection (k : key) (t : table) : option slot := find_slot k t ≫= fun i => t !! i.

(** The segment that answers; [src] is the address the received one was sent to. *)
Definition answer (src : list Z) (k : key) (r : verdict * table) : option (list Z) :=
  match r.1 with
  | Answer fl =>
      (fun c => tcp_segment src (k_addr k) k (seq_out c) (seq_in c) fl (window_of c) []) <$> connection k r.2
  | _ => None
  end.

Definition result_of (v : verdict) : Z :=
  match v with Silent => NO_RESPONSE | Deferred => NO_PROCESS | Answer _ => sizeof_TCP_Header end.

Lemma length_tcp_header k seq ack fl w : length (tcp_header k seq ack fl w) = 20%nat.
Proof. done. Qed.

Section Process.
Context {LY : Layout} (IP IN OUT n : Z) (m0 : mem).
Abbreviation T := ConnectionStateTable.
Context (Ht : inside T sizeof_table) (Hp : inside IP n) (Ho : inside OUT 20).
Context (Hi : IP + 20 <= IN) (Hn : IN + 20 <= IP + n).
Context (Htp : apart T sizeof_table IP n) (Hto : apart T sizeof_table OUT 20) (Hpo : apart IP n OUT 20).
Context (Hd0 : 0 <= data_length IP IN m0) (Hdn : IN + data_start IN m0 + data_length IP IN m0 <= IP + n).
Abbreviation sg := (segment_of IP IN m0).

Lemma process_tcp_ok :
  TCP_GetPortState (k_port (sg_key sg)) m0 = TCP_Port_Open ->
  (forall c, connection (sg_key sg) (table_of m0) = Some c -> room IP IN m0 c) ->
  let res := TCP_ProcessTCPPacket IP IN OUT m0 in
  let r := step sg (table_of m0) in
  res.1 = result_of r.1 /\ table_of res.2 = r.2
  /\ (forall bs, answer (load_bytes m0 (ip_DestinationAddress IP) 4) (sg_key sg) r = Some bs -> load_bytes res.2 OUT 20 = bs)
  /\ (forall fl, r.1 = Answer fl -> is_Some (answer (load_bytes m0 (ip_DestinationAddress IP) 4) (sg_key sg) r))
  /\ changed_in2 m0 res.2 T sizeof_table OUT 20.
Proof.
  intros Hport Hroom. cbv zeta. unfold TCP_ProcessTCPPacket. cbn [segment_of sg_key k_port] in Hport. rewrite Hport.
  change (TCP_Port_Open =? TCP_Port_Open) with true. cbv iota.
  pose proof (process_open_ok IP IN OUT n m0 Ht Hp Ho Hi Hn Htp Hto Hpo Hd0 Hdn) as M.
  assert (matches OUT m0 (process_open IP IN OUT m0) (step sg (table_of m0))) as M2.
  { apply M. intros i c Hf Hc. apply Hroom. unfold connection. by rewrite Hf. }
  pose proof (step_answer sg (table_of m0)) as Ha.
  destruct (process_open IP IN OUT m0) as [o m1]. destruct (step sg (table_of m0)) as [v t].
  unfold answer. clear M. rename M2 into M. unfold matches in M. cbn [fst snd] in *.
  destruct v as [| |fl]; destruct M as [-> HR]; cbn [fst snd result_of].
  - destruct HR as (? & ? & _). by repeat split.
  - destruct HR as (? & ? & _). by repeat split.
  - destruct (Ha fl t eq_refl) as [i Hf]. unfold connection. rewrite Hf. cbn [mbind option_bind].
    pose proof (find_slot_lt _ _ _ Hf) as Hi3. pose proof (proj1 HR) as Et.
    assert (t !! i = Some (slot_of m1 (conn_entry i))) as Hc by (by rewrite <- Et, table_lookup).
    rewrite Hc. cbn [fmap option_fmap option_map].
    destruct (respond_ok IP IN OUT n m0 Ht Hp Ho Hi Hn Htp Hto Hpo fl t m1 i _ HR Hf Hc) as [E (E1 & E2 & _)].
    split; [done|]. split; [done|]. split; [|by repeat split; eauto].
    intros bs Eb. apply (inj Some) in Eb as <-. exact E.
Qed.
End Process.
