(* ===== verification/TcpFrames.v ===== *)
(** * TcpFrames: TCP from frame to frame, over a whole exchange

    The TCP handler below IP and Ethernet, run on a sequence of frames: what goes out and the
    connections that result are those of the abstract server. *)
From S2P Require Import Prelude Machine Ram Network Checksum Tcp Webserver Ethernet Packets PacketReplies.
From S2P Require Import NodeRefinement TcpServer TcpRefinement TcpHeader.
Import Net Tcp Ethernet.

(** ** The segment in a frame *)

(** [p] is an IP packet. *)
Definition segment_in (p : list Z) : segment :=
  let h := Z.to_nat (4 * (byte p 0 mod 16)) in
  let o := Z.to_nat (4 * (byte p (h + 12) / 16)) in
  Segment (Key (le_value (sub p (h + 2) 2)) (sub p 12 4) (le_value (sub p h 2)))
    (byte p (h + 13)) (le_value (reverse (sub p (h + 4) 4)))
    (sub p (h + o) (Z.to_nat (be16 p 2) - h - o)).

(** The answer to a frame, and the new connections. *)
Definition serve (f : list Z) (t : table) : option (list Z) * table :=
  let p := drop 14 f in
  let r := step (segment_in p) t in
  ((fun s => sub f 6 6 ++ ServerMACAddress ++ sub f 12 2
             ++ ip_packet PROTOCOL_TCP (sub p 16 4) (sub p 12 4) s)
     <$> answer (sub p 16 4) (sg_key (segment_in p)) r, r.2).

Fixpoint serve_all (fs : list (list Z)) (t : table) : list (option (list Z)) * table :=
  match fs with
  | [] => ([], t)
  | f :: fs => let '(r, t) := serve f t in let '(rs, t) := serve_all fs t in (r :: rs, t)
  end.

(** A frame with a whole TCP segment for this station. *)
Definition tcp_frame (f : list Z) : bool :=
  let p := drop 14 f in
  let h := 4 * (byte p 0 mod 16) in
  let o := 4 * (byte p (Z.to_nat h + 12) / 16) in
  (bool_decide (sub f 0 6 = ServerMACAddress) || bool_decide (sub f 0 6 = BroadcastMACAddress))
  && length_accepted (Z.of_nat (length f)) && (Z.of_nat (length f) <=? 1500)
  && (be16 f 12 =? ETHERTYPE_IPV4)
  && (bool_decide (sub p 16 4 = ServerIPAddress) || bool_decide (sub p 16 4 = BroadcastIPAddress))
  && (byte p 9 =? PROTOCOL_TCP)
  && (20 <=? h) && (14 + h + 20 <=? Z.of_nat (length f))
  && (h + o <=? be16 p 2) && (14 + be16 p 2 <=? Z.of_nat (length f))
  && forallb (fun b => (0 <=? b) && (b <? 256)) f.

(** The connection's buffer has room for the data of the frame. *)
Definition fits (f : list Z) (t : table) : bool :=
  let sg := segment_in (drop 14 f) in
  match connection (sg_key sg) t with
  | Some c => buf_len (claim c) + Z.of_nat (length (sg_data sg)) <=? TCP_WINDOW_SIZE
  | None => true
  end.

Fixpoint suitable (fs : list (list Z)) (t : table) : bool :=
  match fs with
  | [] => true
  | f :: fs => tcp_frame f && fits f t && suitable fs (serve f t).2
  end.

(** ** The same, by the code *)

Section Exchange.
Context {LY : Layout} (F G : Z).

(** The frame waiting to be sent is taken away, as in [receive_frame]. *)
Definition take_frame (m : mem) : option (list Z) * mem :=
  let n := load 2 m (FrameLength G) in
  if truth n then (Some (load_bytes m (FrameData G) (Z.to_nat n)), store 2 m (FrameLength G) 0)
  else (None, m).

(** A frame arrives and is handled. *)
Definition deliver (f : list Z) (m : mem) : option (option (list Z) * mem) :=
  let m := store 2 (store_bytes m (FrameData F) f) (FrameLength F) (Z.of_nat (length f)) in
  m ← Ethernet_ProcessPacket F G m;
  Some (take_frame m).

Fixpoint deliver_all (fs : list (list Z)) (m : mem) : option (list (option (list Z)) * mem) :=
  match fs with
  | [] => Some ([], m)
  | f :: fs =>
      '(r, m) ← deliver f m;
      '(rs, m) ← deliver_all fs m;
      Some (r :: rs, m)
  end.
End Exchange.

Lemma forallb_u8 f : forallb (fun b => (0 <=? b) && (b <? 256)) f = true -> Forall is_u8 f.
Proof.
  intros H. apply List.Forall_forall. intros x Hx.
  pose proof (proj1 (List.forallb_forall _ _) H x Hx) as E. cbv beta in E. rewrite andb_true_iff in E. unfold is_u. lia.
Qed.

Section Frame.
Context {LY : Layout} (F G : Z).
Abbreviation T := ConnectionStateTable.
Abbreviation P := PortStateTable.
Context (HF : inside F 1502) (HG : inside G 1502) (HT : inside T sizeof_table).
Context (HFG : apart F 1502 G 1502) (HTF : apart T sizeof_table F 1502) (HTG : apart T sizeof_table G 1502).

(** Nothing but the frames and the connections has changed. *)
Definition kept (m m' : mem) : Prop :=
  forall x, 0 <= x < 65536 -> x < F \/ F + 1502 <= x -> x < G \/ G + 1502 <= x ->
    x < T \/ T + sizeof_table <= x -> load8 m' x = load8 m x.

Lemma table_changed m m' a n : changed_in m m' a n -> apart T sizeof_table a n -> table_of m' = table_of m.
Proof.
  intros Hc Ha. apply table_same. intros j Hj.
  eapply slot_elsewhere; [|exact Hc|]; unfold inside, apart, sizeof_table, conn_entry, sizeof_ConnectionState in *; lia.
Qed.

(** What the code reads of a segment is what the frame holds. *)
Lemma segment_at m p (h := 4 * (byte p 0 mod 16)) :
  load_bytes m (F + 14) (length p) = p -> h + 20 <= Z.of_nat (length p) ->
  h + 4 * (byte p (Z.to_nat h + 12) / 16) <= be16 p 2 <= Z.of_nat (length p) ->
  20 <= h -> segment_of (F + 14) (F + 14 + h) m = segment_in p
  /\ data_start (F + 14 + h) m = 4 * (byte p (Z.to_nat h + 12) / 16)
  /\ data_length (F + 14) (F + 14 + h) m = be16 p 2 - h - 4 * (byte p (Z.to_nat h + 12) / 16).
Proof.
  intros Hl Hh Ho H20. assert (0 <= h <= 60) as Hh0 by (unfold h; zmod).
  assert (forall i k, (i + k <= length p)%nat -> load_bytes m (F + 14 + Z.of_nat i) k = sub p i k) as Hs.
  { intros i k ?. rewrite (sub_load m (F + 14) (length p)) by lia. by rewrite Hl. }
  assert (forall i, (i < length p)%nat -> load8 m (F + 14 + Z.of_nat i) = byte p i) as Hb.
  { intros i ?. rewrite (load8_byte m (F + 14) (length p)) by lia. by rewrite Hl. }
  assert (data_start (F + 14 + h) m = 4 * (byte p (Z.to_nat h + 12) / 16)) as Eds.
  { unfold data_start, tcp_DataOffset. rewrite <- Hb by lia. do 3 f_equal. lia. }
  assert (data_length (F + 14) (F + 14 + h) m = be16 p 2 - h - 4 * (byte p (Z.to_nat h + 12) / 16)) as Edl.
  { unfold data_length, total_length. rewrite Eds. f_equal. f_equal.
    - rewrite (take_load m (F + 14) (length p) 20), Hl by lia. unfold be16, byte.
      do 20 (destruct p as [|? p]; [cbn in Hh; lia|]). done.
    - pose proof (Hb 0%nat ltac:(lia)) as E. change (Z.of_nat 0) with 0 in E. rewrite Z.add_0_r in E. by rewrite E. }
  split; [|done]. unfold segment_of, segment_in. fold h. rewrite Edl, Eds.
  unfold tcp_DestinationPort, tcp_SourcePort, ip_SourceAddress, tcp_Flags, tcp_SequenceNumber, load.
  replace (F + 14 + h + 2) with (F + 14 + Z.of_nat (Z.to_nat h + 2)) by lia.
  replace (F + 14 + h + 4) with (F + 14 + Z.of_nat (Z.to_nat h + 4)) by lia.
  replace (F + 14 + h + 13) with (F + 14 + Z.of_nat (Z.to_nat h + 13)) by lia.
  replace (F + 14 + 12) with (F + 14 + Z.of_nat 12) by lia.
  set (o := 4 * (byte p (Z.to_nat h + 12) / 16)) in *.
  assert (0 <= o) as Ho0.
  { unfold o. rewrite <- Hb by lia. pose proof (load8_u8 m (F + 14 + Z.of_nat (Z.to_nat h + 12))) as E.
    unfold is_u in E. zmod. }
  replace (F + 14 + h + o) with (F + 14 + Z.of_nat (Z.to_nat h + Z.to_nat o)) by lia.
  replace (F + 14 + h) with (F + 14 + Z.of_nat (Z.to_nat h)) by lia.
  rewrite !Hs, Hb by lia. f_equal.
  - unfold SwapEndian_32. change 4%nat with (length (load_bytes m (F + 14 + Z.of_nat (Z.to_nat h + 4)) 4)) at 1.
    rewrite <- (Hs (Z.to_nat h + 4)%nat 4%nat) by lia. by rewrite le_bytes_value by apply load_bytes_u8.
  - f_equal. lia.
Qed.

(** The headers around the answer of the TCP handler, which left [m1]. *)
Lemma tcp_tail m m1 z a src dst fl : load_bytes m (F + 14 + 16) 4 = src -> load_bytes m (F + 14 + 12) 4 = dst ->
  load_bytes m1 F 34 = load_bytes m F 34 -> load8 m (F + 14 + 9) = PROTOCOL_TCP ->
  match a with Some s => z = 20 /\ length s = 20%nat /\ load_bytes m1 (G + 34) 20 = s
             | None => z = NO_RESPONSE \/ z = NO_PROCESS end ->
  load 2 m1 (FrameLength G) = fl ->
  exists m', ('(z, m2) ← Some (if 0 <? z then (signed 16 (20 + z), ip_response (F + 14) (G + 14) z m1) else (z, m1));
              '(z, m2) ← Some (z, if 0 <? z then frame_response F G z m2 else m2);
              Some (if z =? NO_PROCESS then m2 else store 2 m2 (FrameLength F) 0)) = Some m'
    /\ match (fun s => load_bytes m (F + 6) 6 ++ ServerMACAddress ++ load_bytes m (F + 12) 2
                      ++ ip_packet PROTOCOL_TCP src dst s) <$> a with
       | Some b => load 2 m' (FrameLength G) = Z.of_nat (length b) /\ load_bytes m' (FrameData G) (length b) = b
       | None => load 2 m' (FrameLength G) = fl
       end
    /\ changed_in2 m1 m' F 1502 G 1502.
Proof.
  intros Hsrc Hdst Hhd Hpr Ha Hfl. unfold inside, apart in *.
  change (Some ?x ≫= ?f) with (f x). cbv beta iota.
  assert (forall i k, (i + k <= 34)%nat -> load_bytes m1 (F + Z.of_nat i) k = load_bytes m (F + Z.of_nat i) k) as Hk.
  { intros i k ?. rewrite !(sub_load _ F 34) by lia. by rewrite Hhd. }
  destruct a as [s|]; cbn [fmap option_fmap option_map].
  - destruct Ha as (-> & Ls & Hs). change (0 <? 20) with true. cbv iota.
    destruct (ip_complete m1 (F + 14) (G + 14) s 20) as [Hip Hc1]; rewrite ?Ls; try (unfold inside, apart; lia).
    { by replace (G + 14 + 20) with (G + 34) by lia. }
    cbv zeta in Hip, Hc1. set (m2 := ip_response _ _ _ _) in *. change (signed 16 (20 + 20)) with 40.
    assert (load8 m1 (ip_Protocol (F + 14)) = PROTOCOL_TCP) as E9.
    { rewrite <- Hpr, !load8_bytes. unfold ip_Protocol. replace (F + 14 + 9) with (F + Z.of_nat 23) by lia. by rewrite Hk by lia. }
    assert (load_bytes m1 (ip_DestinationAddress (F + 14)) 4 = src) as Esrc.
    { rewrite <- Hsrc. unfold ip_DestinationAddress. replace (F + 14 + 16) with (F + Z.of_nat 30) by lia. by rewrite Hk by lia. }
    assert (load_bytes m1 (ip_SourceAddress (F + 14)) 4 = dst) as Edst.
    { rewrite <- Hdst. unfold ip_SourceAddress. replace (F + 14 + 12) with (F + Z.of_nat 26) by lia. by rewrite Hk by lia. }
    rewrite E9, Esrc, Edst in Hip.
    set (b := ip_packet PROTOCOL_TCP src dst s) in *.
    assert (length b = 40%nat) as Lb by (by rewrite <- Hip, length_load_bytes, Ls).
    destruct (frame_tail F G m2 40 (Some b)) as [[Hf1 Hf2] Hc2]; try (unfold inside, apart; lia).
    { cbn [placed]. rewrite Lb. split; [done|]. by rewrite <- Ls, <- Hip. }
    { intros b' [= <-]. lia. }
    cbv zeta in *. change (0 <? 40) with true in *. change (40 =? NO_PROCESS) with false. cbv iota in *.
    set (m3 := frame_response _ _ _ _) in *. exists (store 2 m3 (FrameLength F) 0). split; [done|].
    assert (forall i k, (i + k <= 34)%nat -> load_bytes m2 (F + Z.of_nat i) k = load_bytes m (F + Z.of_nat i) k) as Hk2.
    { intros i k ?. rewrite (changed_load _ _ _ _ _ _ Hc1) by (unfold inside; lia). by apply Hk. }
    pose proof (Hk2 6%nat 6%nat ltac:(lia)) as E6. pose proof (Hk2 12%nat 2%nat ltac:(lia)) as E12.
    change (Z.of_nat 6) with 6 in E6. change (Z.of_nat 12) with 12 in E12. rewrite E6, E12 in Hf2.
    assert (length (load_bytes m (F + 6) 6 ++ ServerMACAddress ++ load_bytes m (F + 12) 2 ++ b) = (14 + length b)%nat) as ->
      by (by rewrite <- Hf2, length_load_bytes).
    split.
    + unfold FrameLength, FrameData, store, load in *. rewrite Lb in *. by rewrite !load_bytes_disjoint by addr.
    + intros x ? ? ?. unfold store, FrameLength. rewrite store_bytes_out by addr. rewrite Hc2 by lia. by apply Hc1; lia.
  - assert ((0 <? z) = false) as E0 by (destruct Ha as [->| ->]; done). rewrite !E0. cbv iota beta.
    change (Some ?x ≫= ?f) with (f x). cbv beta iota. rewrite ?E0.
    exists (if z =? NO_PROCESS then m1 else store 2 m1 (FrameLength F) 0). split; [done|]. destruct (z =? NO_PROCESS).
    + split; [done|]. intros x ? ? ?. done.
    + unfold FrameLength, store, load in *. split.
      * by rewrite load_bytes_disjoint by addr.
      * intros x ? ? ?. by rewrite store_bytes_out by addr.
Qed.

Lemma length_answer src k r bs : answer src k r = Some bs -> length bs = 20%nat.
Proof.
  unfold answer. destruct r as [[| |fl] t]; try done. cbn [fst snd]. destruct (connection k t) as [c|]; [|done].
  cbn [fmap option_fmap option_map]. intros E. apply (inj Some) in E as <-. done.
Qed.

(** The result of the handler and the answer it leaves. *)
Lemma answer_result src k r z m1 (a := answer src k r) : z = result_of r.1 ->
  (forall fl, r.1 = Answer fl -> is_Some a) -> (forall bs, a = Some bs -> load_bytes m1 (G + 34) 20 = bs) ->
  match a with Some s => z = 20 /\ length s = 20%nat /\ load_bytes m1 (G + 34) 20 = s
             | None => z = NO_RESPONSE \/ z = NO_PROCESS end.
Proof.
  intros -> Hsome Hans. pose proof (length_answer src k r) as Hla. fold a in Hla. destruct a as [s|] eqn:Ea.
  - split; [|split; [by apply Hla|by apply Hans]]. unfold a, answer in Ea. by destruct r.1.
  - destruct r.1 as [| |fl] eqn:Ev; cbn [result_of]; auto. destruct (Hsome fl eq_refl) as [? [=]].
Qed.

Lemma drop14 m f : load_bytes m F (length f) = f -> (14 <= length f)%nat ->
  load_bytes m (F + 14) (length (drop 14 f)) = drop 14 f.
Proof.
  intros Hf Hl. rewrite <- Hf at 2. rewrite <- (drop_load m F (length f) 14) by done. f_equal. by rewrite length_drop.
Qed.

(** What the code reads of a TCP frame before it reaches the handler. *)
Lemma frame_fields m f (p := drop 14 f) (h := 4 * (byte p 0 mod 16)) :
  load_bytes m F (length f) = f -> 20 <= h -> 14 + h + 20 <= Z.of_nat (length f) -> byte p 9 = PROTOCOL_TCP ->
  (load_bytes m F 6 = sub f 0 6 /\ load_bytes m (F + 6) 6 = sub f 6 6 /\ load_bytes m (F + 12) 2 = sub f 12 2)
  /\ load_bytes m (F + 14) (length p) = p
  /\ load_bytes m (F + 14 + 12) 4 = sub p 12 4 /\ load_bytes m (F + 14 + 16) 4 = sub p 16 4
  /\ load8 m (F + 14) = byte p 0 /\ load8 m (F + 14 + 9) = PROTOCOL_TCP.
Proof.
  intros Hf H20 Hhd Htcp. assert (length p = (length f - 14)%nat) as Lp by apply length_drop.
  assert (load_bytes m (F + 14) (length p) = p) as Hp by (apply drop14; [done|lia]).
  assert (forall i k, (i + k <= 14)%nat -> load_bytes m (F + Z.of_nat i) k = sub f i k) as Hs.
  { intros i k ?. rewrite (sub_load m F (length f)) by lia. by rewrite Hf. }
  assert (forall i k, (i + k <= 20)%nat -> load_bytes m (F + 14 + Z.of_nat i) k = sub p i k) as Hsp.
  { intros i k ?. rewrite (sub_load m (F + 14) (length p)) by lia. by rewrite Hp. }
  assert (forall i, (i < 20)%nat -> load8 m (F + 14 + Z.of_nat i) = byte p i) as Hb.
  { intros i ?. rewrite (load8_byte m (F + 14) (length p)) by lia. by rewrite Hp. }
  pose proof (Hs 0%nat 6%nat ltac:(lia)) as E0. rewrite Z.add_0_r in E0.
  pose proof (Hb 0%nat ltac:(lia)) as B0. rewrite Z.add_0_r in B0.
  split; [split; [done|split]; [exact (Hs 6%nat 6%nat ltac:(lia))|exact (Hs 12%nat 2%nat ltac:(lia))]|].
  split; [done|]. split; [exact (Hsp 12%nat 4%nat ltac:(lia))|]. split; [exact (Hsp 16%nat 4%nat ltac:(lia))|].
  split; [done|]. rewrite <- Htcp. exact (Hb 9%nat ltac:(lia)).
Qed.

(** Ethernet and IP hand the segment to the TCP handler and complete its answer. *)
Lemma tcp_dispatch m f (p := drop 14 f) (h := 4 * (byte p 0 mod 16)) :
  load 2 m (FrameLength F) = Z.of_nat (length f) -> load_bytes m F (length f) = f -> tcp_frame f = true ->
  Ethernet_ProcessPacket F G m
  = ('(z, m1) ← Some (TCP_ProcessTCPPacket (F + 14) (F + 14 + h) (G + 34) m);
     '(z, m2) ← Some (if 0 <? z then (signed 16 (20 + z), ip_response (F + 14) (G + 14) z m1) else (z, m1));
     '(z, m2) ← Some (z, if 0 <? z then frame_response F G z m2 else m2);
     Some (if z =? NO_PROCESS then m2 else store 2 m2 (FrameLength F) 0)).
Proof.
  intros HL Hf Ht. unfold tcp_frame in Ht. cbv zeta in Ht. rewrite !andb_true_iff in Ht.
  destruct Ht as ((((((((((Hmac & Hacc) & Hmax) & Hty) & Hip) & Htcp) & H20) & Hhd) & _) & _) & _).
  fold p in Hip, Htcp, H20, Hhd. fold h in H20, Hhd. apply Z.leb_le in Hmax, H20, Hhd. apply Z.eqb_eq in Htcp.
  destruct (frame_fields m f Hf H20 Hhd Htcp) as ((E0 & _ & _) & _ & _ & Ep16 & Eb0 & E9).
  unfold inside, apart in *. unfold Ethernet_ProcessPacket, accepted. unfold FrameData, eth_Destination, MAC_COMPARE, eth_EtherType.
  rewrite HL, swap_length by (unfold is_u; lia).
  change (ETHERNET_VER2_MINSIZE <? 256 * _ + _) with (length_accepted (Z.of_nat (length f))).
  rewrite E0, Hmac, Hacc. cbn [andb]. change (F + 12) with (F + Z.of_nat 12). rewrite (swap_load m F (length f) 12), Hf by lia.
  rewrite Hty. apply Z.eqb_eq in Hty. rewrite Hty. change (ETHERTYPE_IPV4 =? ETHERTYPE_ARP) with false. cbv iota.
  unfold IP_ProcessIPPacket. rewrite header_length. unfold ip_HeaderLength, sizeof_Ethernet_Header, sizeof_IP_Header.
  rewrite Eb0, (Z.mul_comm _ 4). fold p. fold h. unfold IP_COMPARE, ip_DestinationAddress, ip_Protocol. rewrite Ep16, E9.
  fold p. rewrite <- negb_orb, Hip. cbn [negb]. change (PROTOCOL_TCP =? PROTOCOL_ICMP) with false.
  change (PROTOCOL_TCP =? PROTOCOL_TCP) with true. cbv iota. replace (G + 14 + 20) with (G + 34) by lia.
  destruct (TCP_ProcessTCPPacket _ _ _ m) as [z m1]. change (Some ?x ≫= ?f) with (f x). cbv beta iota.
  by destruct (0 <? z).
Qed.

(** One frame. *)
Lemma tcp_frame_ok m f : load 2 m (FrameLength F) = Z.of_nat (length f) -> load_bytes m (FrameData F) (length f) = f ->
  tcp_frame f = true -> fits f (table_of m) = true ->
  TCP_GetPortState (k_port (sg_key (segment_in (drop 14 f)))) m = TCP_Port_Open ->
  exists m', Ethernet_ProcessPacket F G m = Some m'
    /\ match (serve f (table_of m)).1 with
       | Some b => load 2 m' (FrameLength G) = Z.of_nat (length b) /\ load_bytes m' (FrameData G) (length b) = b
       | None => load 2 m' (FrameLength G) = load 2 m (FrameLength G)
       end
    /\ table_of m' = (serve f (table_of m)).2 /\ kept m m'.
Proof.
  intros HL Hf Ht Hfit Hport. unfold FrameData in Hf. rewrite (tcp_dispatch m f HL Hf Ht).
  unfold tcp_frame in Ht. cbv zeta in Ht. rewrite !andb_true_iff in Ht.
  destruct Ht as ((((((((((_ & _) & Hmax) & _) & _) & Htcp) & H20) & Hhd) & Hoff) & Htot) & _).
  apply Z.leb_le in Hmax, H20, Hhd, Hoff, Htot. apply Z.eqb_eq in Htcp.
  destruct (frame_fields m f Hf H20 Hhd Htcp) as ((_ & E6 & E12) & Hp & Ep12 & Ep16 & _ & E9).
  assert (length (drop 14 f) = (length f - 14)%nat) as Lp by apply length_drop.
  set (p := drop 14 f) in *. set (h := 4 * (byte p 0 mod 16)) in *. assert (0 <= h <= 60) as Hh0 by (unfold h; zmod).
  destruct (segment_at m p Hp) as (Eseg & Eds & Edl); [fold h; lia|fold h; lia|done|]. fold h in Eseg, Eds, Edl.
  unfold inside, apart in *. assert (0 <= data_start (F + 14 + h) m) as Hds0.
  { unfold data_start. pose proof (load8_u8 m (tcp_DataOffset (F + 14 + h))) as E. unfold is_u in E. zmod. }
  destruct (process_tcp_ok (F + 14) (F + 14 + h) (G + 34) (Z.of_nat (length p)) m) as (Hz & Htab & Hans & Hsome & Hch);
    try (unfold inside, apart; rewrite ?Eds, ?Edl; lia).
  { by rewrite Eseg. }
  { intros c Hc. rewrite Eseg in Hc. unfold fits in Hfit. cbv zeta in Hfit. fold p in Hfit. rewrite Hc in Hfit.
    unfold room. apply Z.leb_le in Hfit. rewrite <- Eseg, length_data in Hfit. unfold TCP_WINDOW_SIZE in Hfit. lia. }
  cbv zeta in Hz, Htab, Hans, Hsome, Hch. rewrite Eseg in *. unfold ip_DestinationAddress in *. rewrite Ep16 in Hans, Hsome.
  unfold serve. fold p. set (r := step (segment_in p) (table_of m)) in *.
  destruct (TCP_ProcessTCPPacket (F + 14) (F + 14 + h) (G + 34) m) as [z m1]. cbn [fst snd] in *.
  set (a := answer (sub p 16 4) (sg_key (segment_in p)) r) in *.
  destruct (tcp_tail m m1 z a (sub p 16 4) (sub p 12 4) (load 2 m (FrameLength G))) as (m' & Em & Hout & Hc2); try done.
  { apply (changed_load2 _ _ _ _ _ _ _ _ Hch); unfold inside; lia. }
  { apply (answer_result (sub p 16 4) (sg_key (segment_in p)) r z); [done|done|exact Hans]. }
  { unfold load, FrameLength. apply f_equal. apply (changed_load2 _ _ _ _ _ _ _ _ Hch); unfold inside; lia. }
  exists m'. split; [exact Em|]. split; [rewrite <- E6, <- E12; exact Hout|]. split.
  - rewrite <- Htab. apply table_same. intros j Hj.
    eapply slot_elsewhere2; [|exact Hc2| |]; unfold inside, apart, sizeof_table, conn_entry, sizeof_ConnectionState in *; lia.
  - intros x ? ? ? ?. rewrite Hc2 by lia. apply Hch; lia.
Qed.

Lemma kept_trans m1 m2 m3 : kept m1 m2 -> kept m2 m3 -> kept m1 m3.
Proof. intros H1 H2 x Hx ? ? ?. rewrite H2, H1 by done. done. Qed.

Lemma kept_frames m m' : changed_in2 m m' F 1502 G 1502 -> kept m m'.
Proof. intros H x ? ? ? ?. by apply H. Qed.

Lemma table_frames m m' : changed_in2 m m' F 1502 G 1502 -> table_of m' = table_of m.
Proof.
  intros Hc. apply table_same. intros j Hj.
  eapply slot_elsewhere2; [|exact Hc| |]; unfold inside, apart, sizeof_table, conn_entry, sizeof_ConnectionState in *; lia.
Qed.

(** The arriving frame, and the one that is taken away. *)
Lemma frame_arrives m f (m1 := store 2 (store_bytes m (FrameData F) f) (FrameLength F) (Z.of_nat (length f))) :
  Forall is_u8 f -> (length f <= 1500)%nat ->
  load 2 m1 (FrameLength F) = Z.of_nat (length f) /\ load_bytes m1 (FrameData F) (length f) = f
  /\ load 2 m1 (FrameLength G) = load 2 m (FrameLength G) /\ changed_in2 m m1 F 1502 G 1502.
Proof.
  intros Hu Hl. unfold m1, FrameLength, FrameData, inside, apart in *. repeat split.
  - rewrite load_same by (unfold inside; lia). apply wrap_id. unfold is_u. lia.
  - unfold store. rewrite load_bytes_disjoint by addr. by rewrite load_bytes_same by (try done; unfold inside; lia).
  - unfold store, load. by rewrite !load_bytes_disjoint by addr.
  - intros x ? ? ?. unfold store. by rewrite !store_bytes_out by addr.
Qed.

Lemma frame_taken m b : load 2 m (FrameLength G) = Z.of_nat (length b) -> load_bytes m (FrameData G) (length b) = b -> b <> [] ->
  exists m', take_frame G m = (Some b, m') /\ load 2 m' (FrameLength G) = 0 /\ changed_in m m' G 1502.
Proof.
  intros Hl Hb Hne. unfold take_frame. rewrite Hl. assert (truth (Z.of_nat (length b)) = true) as ->.
  { destruct b; [done|]. unfold truth. cbn [length]. destruct (Z.eqb_spec (Z.of_nat (S (length b))) 0); [lia|done]. }
  rewrite Nat2Z.id, Hb. eexists. split; [done|]. unfold FrameLength, inside in *. split.
  - rewrite load_same; [done|unfold inside; lia].
  - unfold store. apply changed_store; rewrite ?length_le_bytes; unfold inside; lia.
Qed.

Context (HP : inside P sizeof_PortState) (HPF : apart P sizeof_PortState F 1502) (HPG : apart P sizeof_PortState G 1502).
Context (HPT : apart P sizeof_PortState T sizeof_table).

Lemma kept_port m m' port : kept m m' -> TCP_GetPortState port m' = TCP_GetPortState port m.
Proof.
  intros Hk. unfold TCP_GetPortState, MAX_OPEN_TCP_PORTS, first_entry, port_Port, port_State, load.
  assert (forall k, P <= k < P + 5 -> load8 m' k = load8 m k) as H.
  { unfold inside, apart, sizeof_PortState in *. intros k ?. apply Hk; lia. }
  assert (port_entry 0 = P) as E by (unfold port_entry; lia). cbn [List.find seq load_bytes]. rewrite E.
  rewrite !H by lia. destruct (_ =? port); [|done]. by rewrite E, H by lia.
Qed.

Lemma deliver_ok m f : tcp_frame f = true -> fits f (table_of m) = true -> load 2 m (FrameLength G) = 0 ->
  TCP_GetPortState (k_port (sg_key (segment_in (drop 14 f)))) m = TCP_Port_Open ->
  exists m', deliver F G f m = Some ((serve f (table_of m)).1, m')
    /\ table_of m' = (serve f (table_of m)).2 /\ load 2 m' (FrameLength G) = 0 /\ kept m m'.
Proof.
  intros Hf Hfit HG0 Hport.
  assert (Forall is_u8 f /\ (length f <= 1500)%nat) as [Hu Hmax].
  { unfold tcp_frame in Hf. cbv zeta in Hf. rewrite !andb_true_iff in Hf.
    destruct Hf as ((((((((((_ & _) & Hmax) & _) & _) & _) & _) & _) & _) & _) & Hu).
    split; [by apply forallb_u8|]. apply Z.leb_le in Hmax. lia. }
  destruct (frame_arrives m f Hu Hmax) as (H1 & H2 & H3 & H4). unfold deliver. cbv zeta.
  set (m1 := store 2 _ (FrameLength F) _) in *. rewrite HG0 in H3. rewrite <- (table_frames _ _ H4) in *.
  destruct (tcp_frame_ok m1 f H1 H2 Hf Hfit) as (m2 & -> & Hout & Htab & Hk).
  { by rewrite (kept_port m m1) by (by apply kept_frames). }
  assert (kept m m2) as Hk2 by (eapply kept_trans; [apply kept_frames|]; done).
  change (Some ?x ≫= ?f) with (f x). cbv beta.
  destruct (serve f (table_of m1)).1 as [b|] eqn:Es; cbn [fst].
  - destruct Hout as [Hl Hb]. assert (b <> []) as Hne.
    { intros ->. unfold serve in Es. cbn [fst] in Es. destruct (answer _ _ _); [|done].
      cbn [fmap option_fmap option_map] in Es. apply (inj Some) in Es. apply (f_equal length) in Es.
      rewrite !length_app in Es. cbn in Es. lia. }
    destruct (frame_taken m2 b Hl Hb Hne) as (m3 & -> & HG3 & Hc3). exists m3. split; [done|].
    assert (changed_in2 m2 m3 F 1502 G 1502) as Hc by (intros x ? ? ?; by apply Hc3).
    split; [by rewrite (table_frames _ _ Hc)|split; [done|]].
    eapply kept_trans; [exact Hk2|by apply kept_frames].
  - rewrite H3 in Hout. unfold take_frame. rewrite Hout. change (truth 0) with false. cbv iota. exists m2. repeat split; done.
Qed.

Lemma deliver_all_ok fs m : suitable fs (table_of m) = true -> load 2 m (FrameLength G) = 0 ->
  Forall (fun f => TCP_GetPortState (k_port (sg_key (segment_in (drop 14 f)))) m = TCP_Port_Open) fs ->
  exists m', deliver_all F G fs m = Some ((serve_all fs (table_of m)).1, m')
    /\ table_of m' = (serve_all fs (table_of m)).2.
Proof.
  revert m. induction fs as [|f fs IH]; intros m Hs HG0 Hp.
  - by exists m.
  - cbn [suitable] in Hs. rewrite !andb_true_iff in Hs. destruct Hs as [[Hf Hfit] Hs].
    apply Forall_cons_iff in Hp as [Hpf Hp].
    destruct (deliver_ok m f Hf Hfit HG0 Hpf) as (m1 & E1 & Et & HG1 & Hk).
    cbn [deliver_all serve_all]. rewrite E1. rewrite <- Et in Hs.
    destruct (IH m1 Hs HG1) as (m2 & E2 & Et2).
    { revert Hp. apply Forall_impl. intros g Hg. by rewrite (kept_port m). }
    destruct (serve f (table_of m)) as [r t1]. cbn [fst snd] in *. subst t1.
    change (Some ?x ≫= ?f) with (f x). cbv beta iota. rewrite E2.
    destruct (serve_all fs (table_of m1)) as [rs t2]. cbn [fst snd] in *. exists m2. done.
Qed.
End Frame.
