(* ===== verification/TcpSessions.v ===== *)
(** * TcpSessions: what clients can rely on across an exchange

    Consequences of TcpFrames.v for whole sequences of frames: connections do not disturb each
    other, the handshake establishes a connection, and the segments of a request are put together
    in the order of their arrival. *)
From S2P Require Import Prelude Machine Ram Network Checksum Tcp Webserver Ethernet Packets PacketReplies.
From S2P Require Import NodeRefinement TcpServer TcpRefinement TcpHeader TcpFrames.
Import Net Tcp Ethernet.

(** The connections and frames lie inside memory and apart from each other. *)
Definition in_place {LY : Layout} (F G : Z) : Prop :=
  inside F sizeof_Frame_Info /\ inside G sizeof_Frame_Info /\ inside ConnectionStateTable sizeof_table
  /\ inside PortStateTable sizeof_PortState
  /\ apart F sizeof_Frame_Info G sizeof_Frame_Info
  /\ apart ConnectionStateTable sizeof_table F sizeof_Frame_Info
  /\ apart ConnectionStateTable sizeof_table G sizeof_Frame_Info
  /\ apart PortStateTable sizeof_PortState F sizeof_Frame_Info
  /\ apart PortStateTable sizeof_PortState G sizeof_Frame_Info
  /\ apart PortStateTable sizeof_PortState ConnectionStateTable sizeof_table.

(** The connection and the flags of a frame, and its data. *)
Abbreviation seg f := (segment_in (drop 14 f)).
Abbreviation conn f := (sg_key (seg f)).

(** All frames are for the port that is open. *)
Definition ports_open {LY : Layout} (m : mem) (fs : list (list Z)) : Prop :=
  Forall (fun f => TCP_GetPortState (k_port (conn f)) m = TCP_Port_Open) fs.

Lemma exchange {LY : Layout} F G fs m : in_place F G -> suitable fs (table_of m) = true ->
  load 2 m (FrameLength G) = 0 -> ports_open m fs ->
  exists m', deliver_all F G fs m = Some ((serve_all fs (table_of m)).1, m')
    /\ table_of m' = (serve_all fs (table_of m)).2.
Proof. intros (?&?&?&?&?&?&?&?&?&?) Hs HG Hp. by apply deliver_all_ok. Qed.

(** ** Slots with different keys *)

Lemma first_entry_first n f i : first_entry n f = Some i <->
  (i < n)%nat /\ f i = true /\ forall j, (j < i)%nat -> f j = false.
Proof.
  unfold first_entry. assert (forall a l, List.find f (seq a l) = Some i <->
    (a <= i < a + l)%nat /\ f i = true /\ forall j, (a <= j < i)%nat -> f j = false) as H.
  { intros a l. revert a. induction l as [|l IH]; intros a; cbn.
    - split; [done|]. intros [H _]. lia.
    - destruct (f a) eqn:Ea.
      + split; [intros [= <-]|].
        * repeat split; [lia|lia|done|]. intros j Hj. lia.
        * intros (H1 & H2 & H3). destruct (decide (a = i)) as [->|]; [done|]. by rewrite H3 in Ea by lia.
      + rewrite IH. split; intros (H1 & H2 & H3).
        * repeat split; [lia|lia|done|]. intros j Hj. destruct (decide (j = a)) as [->|]; [done|]. apply H3. lia.
        * destruct (decide (a = i)) as [->|]; [by rewrite H2 in Ea|].
          repeat split; [lia|lia|done|]. intros j Hj. apply H3. lia. }
  rewrite H. split; intros (H1 & H2 & H3); repeat split; try done; try lia; intros j Hj; apply H3; lia.
Qed.

Section Isolation.
Context (k : key) (c : slot) (Hlive : conn_st c <> TCP_Connection_Closed).

(** The connection [k] is in slot [i], with the content [c]. *)
Definition holds (i : nat) (t : table) : Prop := find_slot k t = Some i /\ t !! i = Some c.

Lemma connection_holds t : connection k t = Some c <-> exists i, holds i t.
Proof.
  unfold connection, holds. destruct (find_slot k t) as [j|]; cbn [mbind option_bind].
  - split; [by exists j|]. by intros (i & [= <-] & H).
  - split; [done|]. by intros (i & [=] & _).
Qed.

(** An update of another slot. *)
Lemma holds_alter i j f t : holds i t -> j <> i ->
  (forall c, t !! j = Some c -> s_key c <> k -> s_key (f c) <> k) -> holds i (alter f j t).
Proof.
  intros [Hf Hc] Hj Hkey. split; [|by rewrite list_lookup_alter_ne].
  apply first_entry_first in Hf as (H1 & H2 & H3). apply first_entry_first.
  assert (forall x, x <> j -> slot_test (alter f j t) (fun c => bool_decide (s_key c = k)) x
                              = slot_test t (fun c => bool_decide (s_key c = k)) x) as E.
  { intros x Hx. unfold slot_test. by rewrite list_lookup_alter_ne. }
  repeat split; [done|by rewrite E by done|]. intros x Hx. specialize (H3 x Hx).
  destruct (decide (x = j)) as [->|]; [|by rewrite E]. unfold slot_test in *. rewrite list_lookup_alter_eq.
  destruct (t !! j) as [c'|] eqn:Ej; [|done]. cbn. apply bool_decide_eq_false in H3. apply bool_decide_eq_false.
  by apply Hkey.
Qed.

Lemma find_slot_key k' j t : find_slot k' t = Some j -> exists c', t !! j = Some c' /\ s_key c' = k'.
Proof.
  intros (_ & H & _)%first_entry_first. unfold slot_test in H. destruct (t !! j) as [c'|]; [|done].
  apply bool_decide_eq_true in H. by exists c'.
Qed.

Context (k' : key) (Hk : k' <> k).

Lemma holds_ne i t j : holds i t -> find_slot k' t = Some j -> j <> i.
Proof.
  intros [Hf Hc] Hj ->. destruct (find_slot_key _ _ _ Hj) as (c1 & E1 & Ek1).
  destruct (find_slot_key _ _ _ Hf) as (c2 & E2 & Ek2). congruence.
Qed.

Lemma holds_enter i s t : holds i t -> holds i (enter k' s t).2.
Proof.
  intros H. unfold enter. destruct (find_slot k' t) as [j|] eqn:E; cbn [snd].
  - apply holds_alter; [done|by eapply holds_ne|]. by intros.
  - destruct (free_slot t) as [j|] eqn:E'; cbn [snd]; [|done].
    apply holds_alter; [done| |by intros]. intros ->. apply first_entry_first in E' as (_ & E' & _).
    unfold slot_test in E'. rewrite (proj2 H) in E'. by apply Z.eqb_eq in E'.
Qed.

Lemma holds_on_slot i f t : (forall c, s_key (f c) = s_key c) -> holds i t -> holds i (on_slot k' f t).
Proof.
  intros Hf H. unfold on_slot. destruct (find_slot k' t) as [j|] eqn:E; [|done].
  apply holds_alter; [done|by eapply holds_ne|]. intros. by rewrite Hf.
Qed.

Lemma claim_key c' : s_key (claim c') = s_key c'.
Proof. unfold claim. by destruct (_ && _). Qed.

Lemma holds_receive i sg t : sg_key sg = k' -> holds i t -> holds i (receive sg t).2.
Proof.
  intros Ek H. unfold receive. rewrite Ek. destruct (find_slot k' t) as [j|] eqn:E; [|done].
  destruct (t !! j) as [c'|]; [|done]. assert (j <> i) as Hj by (by eapply holds_ne).
  destruct (accepts _); [destruct (complete_buffer _ _)|]; cbn [snd];
    repeat (apply holds_alter; [|done|intros; by rewrite ?claim_key]); done.
Qed.

Lemma holds_step i sg t : sg_key sg = k' -> holds i t -> holds i (step sg t).2.
Proof.
  intros Ek H. unfold step. cbv zeta. rewrite Ek. set (t1 := if truth _ then _ else t).
  assert (holds i t1) as H1 by (unfold t1; destruct (truth _); [by apply holds_enter|done]).
  clearbody t1. destruct (truth (_ .& TCP_FLAG_RST)).
  { pose proof (holds_enter i TCP_Connection_Closed t1 H1). by destruct (enter _ _ t1). }
  unfold react. cbv zeta. rewrite Ek. unfold close_acked.
  pose proof (holds_enter i TCP_Connection_SYNReceived t1 H1) as Hsyn.
  destruct (enter k' TCP_Connection_SYNReceived t1) as [[|] t2]; cbn [snd] in Hsyn;
  repeat match goal with |- context [if ?b then _ else _] => destruct b end; cbn [snd];
    repeat first [exact H1 | exact Hsyn | apply holds_enter | apply holds_on_slot; [done|]
                 | apply holds_receive; [done|]].
Qed.
End Isolation.

Lemma serve_isolated k c f t : conn_st c <> TCP_Connection_Closed -> conn f <> k ->
  connection k t = Some c -> connection k (serve f t).2 = Some c.
Proof.
  intros Hl Hk [i Hi]%connection_holds. apply connection_holds. exists i. unfold serve. cbn [snd].
  by apply (holds_step k c Hl (conn f) Hk).
Qed.

Lemma serve_all_isolated k c fs t : conn_st c <> TCP_Connection_Closed ->
  Forall (fun f => conn f <> k) fs -> connection k t = Some c -> connection k (serve_all fs t).2 = Some c.
Proof.
  intros Hl Hk. revert t. induction Hk as [|f fs Hf Hk IH]; intros t Hc; [done|].
  cbn [serve_all]. pose proof (serve_isolated k c f t Hl Hf Hc) as H1.
  destruct (serve f t) as [r t1]. cbn [snd] in H1. specialize (IH t1 H1).
  by destruct (serve_all fs t1) as [rs t2].
Qed.

(** ** One connection *)

Section Connection.
Context (k : key).

Lemma connection_alter i f t : (forall c, s_key (f c) = s_key c) -> find_slot k t = Some i ->
  connection k (alter f i t) = f <$> connection k t.
Proof.
  intros Hf Hi. unfold connection. rewrite find_alter, Hi by done. cbn [mbind option_bind]. apply list_lookup_alter_eq.
Qed.

Lemma connection_find t c : connection k t = Some c -> exists i, find_slot k t = Some i /\ t !! i = Some c.
Proof. unfold connection. destruct (find_slot k t) as [i|]; [|done]. by exists i. Qed.

Lemma connection_state t : state_of k t = default TCP_Connection_Closed (conn_st <$> connection k t).
Proof. unfold state_of, connection. by destruct (find_slot k t). Qed.

Lemma connection_enter s t c : connection k t = Some c -> enter k s t = (true, (enter k s t).2)
  /\ connection k (enter k s t).2 = Some (set_st s c).
Proof.
  intros Hc. destruct (connection_find t c Hc) as (i & Hf & _). unfold enter. rewrite Hf. cbn [snd].
  split; [done|]. by rewrite connection_alter, Hc.
Qed.

Lemma connection_on_slot f t : (forall c, s_key (f c) = s_key c) -> connection k (on_slot k f t) = f <$> connection k t.
Proof.
  intros Hf. unfold on_slot. destruct (find_slot k t) as [i|] eqn:E; [by apply connection_alter|].
  unfold connection. by rewrite E.
Qed.

Lemma connection_new s t : (enter k s t).1 = true -> exists c, connection k (enter k s t).2 = Some c /\ conn_st c = s.
Proof.
  intros H. pose proof (enter_state k s t H) as E. destruct (enter_find k s t H) as [i Hi].
  rewrite connection_state in E. unfold connection in *. rewrite Hi in *. cbn [mbind option_bind] in *.
  apply find_slot_key in Hi as (c & Hc & _). rewrite Hc in *. by exists c.
Qed.

(** Opening. *)
Lemma syn_step sg t : sg_key sg = k -> sg_flags sg = TCP_FLAG_SYN -> (enter k TCP_Connection_Listen t).1 = true ->
  exists c t', step sg t = (Answer (TCP_FLAG_SYN .| TCP_FLAG_ACK), t') /\ connection k t' = Some c
    /\ conn_st c = TCP_Connection_SYNReceived /\ seq_in c = u32 (sg_seq sg + 1) /\ seq_out c = 0 /\ in_use c = false.
Proof.
  intros Ek Ef H. destruct (connection_new TCP_Connection_Listen t H) as (c & Hc & Hst).
  unfold step. cbv zeta. rewrite Ek, Ef. change (truth (TCP_FLAG_SYN .& TCP_FLAG_SYN)) with true.
  change (truth (TCP_FLAG_SYN .& TCP_FLAG_RST)) with false. cbv iota.
  set (t1 := (enter k TCP_Connection_Listen t).2) in *. unfold react. cbv zeta.
  rewrite Ek, Ef, connection_state, Hc. cbn [fmap option_fmap option_map default]. rewrite Hst.
  change (_ =? TCP_Connection_Listen) with true. change (_ =? TCP_FLAG_SYN) with true. cbv iota.
  destruct (connection_enter TCP_Connection_SYNReceived t1 c Hc) as [E Hc2]. rewrite E.
  set (t2 := (enter k TCP_Connection_SYNReceived t1).2) in *. eexists _, _. split; [done|].
  rewrite connection_on_slot by done. by rewrite Hc2.
Qed.

Lemma ack_step sg t c : sg_key sg = k -> sg_flags sg = TCP_FLAG_ACK -> connection k t = Some c ->
  conn_st c = TCP_Connection_SYNReceived ->
  exists t', step sg t = (Silent, t')
    /\ connection k t' = Some (bump_out (set_st TCP_Connection_Established c)).
Proof.
  intros Ek Ef Hc Hst. unfold step. cbv zeta. rewrite Ek, Ef.
  change (truth (TCP_FLAG_ACK .& _)) with false. cbv iota. unfold react. cbv zeta.
  rewrite Ek, Ef, connection_state, Hc. cbn [fmap option_fmap option_map default]. rewrite Hst.
  change (_ =? TCP_Connection_Listen) with false. change (TCP_Connection_SYNReceived =? TCP_Connection_SYNReceived) with true.
  change (TCP_FLAG_ACK =? TCP_FLAG_ACK) with true. cbv iota. eexists. split; [done|].
  rewrite connection_on_slot by done. by rewrite (proj2 (connection_enter _ _ _ Hc)).
Qed.

(** Data. *)
Lemma receive_step sg t c : sg_key sg = k -> connection k t = Some c -> conn_st c = TCP_Connection_Established ->
  sg_flags sg = TCP_FLAG_ACK \/ sg_flags sg = TCP_FLAG_ACK .| TCP_FLAG_PSH -> accepts (claim c) = true ->
  let c' := append (sg_data sg) (claim c) in
  if complete_buffer (sg_flags sg) c' then
    exists t', step sg t = (Answer TCP_FLAG_ACK, t') /\ connection k t' = Some (set_ready true (set_use false c'))
  else exists t', step sg t = (Silent, t') /\ connection k t' = Some c'.
Proof.
  intros Ek Hc Hst Hfl Hacc. cbv zeta.
  assert (step sg t = receive sg t) as ->.
  { unfold step. cbv zeta. rewrite Ek. replace (truth (sg_flags sg .& TCP_FLAG_SYN)) with false by (by destruct Hfl as [-> | ->]).
    replace (truth (sg_flags sg .& TCP_FLAG_RST)) with false by (by destruct Hfl as [-> | ->]).
    unfold react. cbv zeta. rewrite Ek, connection_state, Hc. cbn [fmap option_fmap option_map default]. rewrite Hst.
    by destruct Hfl as [-> | ->]. }
  destruct (connection_find t c Hc) as (i & Hf & Hi). unfold receive. rewrite Ek, Hf, Hi, Hacc.
  assert (find_slot k (alter claim i t) = Some i) as Hf1 by (rewrite find_alter by apply claim_key; done).
  assert (find_slot k (alter (append (sg_data sg)) i (alter claim i t)) = Some i) as Hf2 by (by rewrite find_alter).
  destruct (complete_buffer _ _); (eexists; split; [done|]);
    rewrite ?(connection_alter i), Hc by first [done | apply claim_key]; done.
Qed.
End Connection.

(** ** A request in pieces *)

(** The connection [c] has gathered the data [acc] since its sequence number was [si]. *)
Record gathering (si so : Z) (acc : list Z) (c : slot) : Prop := {
  g_state : conn_st c = TCP_Connection_Established;
  g_ready : ready c = false;
  g_in : seq_in c = u32 (si + Z.of_nat (length acc));
  g_out : seq_out c = so;
  g_size : length (buf_data c) = 512%nat;
  g_dir : outgoing (claim c) = false;
  g_len : buf_len (claim c) = Z.of_nat (length acc);
  g_data : take (length acc) (buf_data c) = acc }.

Lemma claim_use c : ready c = false -> in_use (claim c) = true.
Proof. unfold claim. intros ->. by destruct (in_use c) eqn:E. Qed.

Lemma claim_fields c : conn_st (claim c) = conn_st c /\ ready (claim c) = ready c /\ seq_in (claim c) = seq_in c
  /\ seq_out (claim c) = seq_out c /\ buf_data (claim c) = buf_data c.
Proof. unfold claim. by destruct (_ && _). Qed.

Lemma take_splice acc d l : take (length acc) l = acc -> (length acc + length d <= length l)%nat ->
  take (length (acc ++ d)) (splice (length acc) d l) = acc ++ d /\ length (splice (length acc) d l) = length l.
Proof.
  intros Ha Hl. unfold splice. rewrite Ha, app_assoc. split; [by rewrite take_app_length|].
  rewrite !length_app, length_drop. lia.
Qed.

Lemma gather si so acc c d : gathering si so acc c -> (length acc + length d <= 512)%nat ->
  let c' := append d (claim c) in
  conn_st c' = TCP_Connection_Established /\ seq_in c' = u32 (si + Z.of_nat (length (acc ++ d))) /\ seq_out c' = so
  /\ length (buf_data c') = 512%nat /\ outgoing c' = false /\ buf_len c' = Z.of_nat (length (acc ++ d))
  /\ take (length (acc ++ d)) (buf_data c') = acc ++ d /\ in_use c' = true /\ ready c' = false.
Proof.
  intros [H1 H2 H3 H4 H5 H6 H7 H8] Hd. destruct (claim_fields c) as (E1 & E2 & E3 & E4 & E5).
  destruct (take_splice acc d (buf_data c) H8) as [T1 T2]; [lia|].
  cbv zeta. unfold append, set_len, set_in, set_data. cbn [conn_st seq_in seq_out buf_data outgoing buf_len in_use ready].
  rewrite E1, E2, E3, E4, E5, H7, H3, Nat2Z.id, T1, T2, length_app, claim_use by done.
  repeat split; try done.
  - rewrite Z.add_comm, wrap_add_r by done. f_equal. lia.
  - rewrite wrap_id by (unfold is_u; lia). lia.
Qed.

Lemma gather_more si so acc c d : gathering si so acc c -> (length acc + length d <= 512)%nat ->
  gathering si so (acc ++ d) (append d (claim c)).
Proof.
  intros Hg Hd. destruct (gather si so acc c d Hg Hd) as (H1 & H2 & H3 & H4 & H5 & H6 & H7 & H8 & H9).
  set (c' := append d (claim c)) in *. clearbody c'.
  assert (claim c' = c') as Ec by (unfold claim; by rewrite H8). split; try rewrite Ec; done.
Qed.

Lemma gathering_accepts si so acc c : gathering si so acc c -> (length acc < 512)%nat -> accepts (claim c) = true.
Proof.
  intros Hg Hl. unfold accepts. rewrite (g_dir _ _ _ _ Hg), (g_len _ _ _ _ Hg). cbn [negb andb].
  destruct (Z.eqb_spec (Z.of_nat (length acc)) TCP_WINDOW_SIZE); [unfold TCP_WINDOW_SIZE in *; lia|done].
Qed.

Definition quiet (k : key) (f : list Z) : Prop := conn f = k /\ sg_flags (seg f) = TCP_FLAG_ACK.
Definition data_of (fs : list (list Z)) : list Z := concat ((fun f => sg_data (seg f)) <$> fs).

Lemma serve_quiet k f t c si so acc : quiet k f -> connection k t = Some c -> gathering si so acc c ->
  (length acc + length (sg_data (seg f)) < 512)%nat ->
  exists t', serve f t = (None, t') /\ connection k t' = Some (append (sg_data (seg f)) (claim c)).
Proof.
  intros [Ek Ef] Hc Hg Hl. pose proof (gather si so acc c _ Hg ltac:(apply Nat.lt_le_incl, Hl)) as G.
  cbv zeta in G. destruct G as (_ & _ & _ & _ & _ & Hlen & _).
  pose proof (receive_step k (seg f) t c Ek Hc (g_state _ _ _ _ Hg) (or_introl Ef)) as H.
  specialize (H (gathering_accepts _ _ _ _ Hg ltac:(lia))). cbv zeta in H. unfold complete_buffer in H. rewrite Hlen, Ef in H.
  rewrite length_app in H. change (truth (TCP_FLAG_ACK .& TCP_FLAG_PSH)) with false in H. rewrite orb_false_r in H.
  destruct (Z.eqb_spec (Z.of_nat (length acc + length (sg_data (seg f)))) TCP_WINDOW_SIZE); [unfold TCP_WINDOW_SIZE in *; lia|].
  destruct H as (t' & E & H). exists t'. split; [|done]. unfold serve. by rewrite E.
Qed.

Lemma serve_all_quiet k fs t c si so acc : Forall (quiet k) fs -> connection k t = Some c -> gathering si so acc c ->
  (length acc + length (data_of fs) < 512)%nat ->
  exists t' c', serve_all fs t = (replicate (length fs) None, t') /\ connection k t' = Some c'
    /\ gathering si so (acc ++ data_of fs) c'.
Proof.
  intros Hq. revert t c acc. induction Hq as [|f fs Hf Hq IH]; intros t c acc Hc Hg Hl.
  - exists t, c. by rewrite app_nil_r.
  - unfold data_of in *. cbn [fmap list_fmap concat] in *. rewrite length_app in Hl.
    destruct (serve_quiet k f t c si so acc Hf Hc Hg ltac:(lia)) as (t1 & E & Hc1).
    pose proof (gather_more si so acc c (sg_data (seg f)) Hg ltac:(lia)) as Hg1.
    destruct (IH t1 _ _ Hc1 Hg1) as (t' & c' & E' & Hc' & Hg'); [rewrite length_app; lia|].
    exists t', c'. cbn [serve_all length replicate]. rewrite E, E', app_assoc. done.
Qed.

(** ** The properties *)

(** C32: TCP as a server.  A sequence of frames with TCP segments for the open port, run through
    Ethernet_ProcessPacket one by one, is answered frame by frame as the abstract server answers,
    and the connection table ends as the server's slots, provided that the data of every segment
    fit into what is left of its connection's buffer. *)
Theorem tcp_exchange_refines_server {LY : Layout} F G fs m :
  in_place F G -> suitable fs (table_of m) = true -> load 2 m (FrameLength G) = 0 -> ports_open m fs ->
  exists m', deliver_all F G fs m = Some ((serve_all fs (table_of m)).1, m')
    /\ table_of m' = (serve_all fs (table_of m)).2.
Proof. apply exchange. Qed.

(** C33: connections do not disturb each other, as long as data fit the buffers.  An exchange of
    TCP frames for the open port that belong to other connections, each with no more data than
    the buffer of its connection has room for ([suitable]), leaves the whole slot of a connection
    that is not closed as it was: its identity, sequence numbers, buffer and state.  (A longer
    segment overwrites its neighbour: [segment_overruns_buffer].) *)
Theorem tcp_connections_isolated {LY : Layout} F G fs m k c :
  in_place F G -> suitable fs (table_of m) = true -> load 2 m (FrameLength G) = 0 -> ports_open m fs ->
  connection k (table_of m) = Some c -> conn_st c <> TCP_Connection_Closed ->
  Forall (fun f => conn f <> k) fs ->
  exists rs m', deliver_all F G fs m = Some (rs, m') /\ connection k (table_of m') = Some c.
Proof.
  intros Hpl Hs HG Hp Hc Hl Hk. destruct (exchange F G fs m Hpl Hs HG Hp) as (m' & E & Et).
  exists (serve_all fs (table_of m)).1, m'. split; [done|]. rewrite Et. by apply serve_all_isolated.
Qed.

Lemma serve_all_app fs gs t : serve_all (fs ++ gs) t
  = ((serve_all fs t).1 ++ (serve_all gs (serve_all fs t).2).1, (serve_all gs (serve_all fs t).2).2).
Proof.
  revert t. induction fs as [|f fs IH]; intros t; cbn [serve_all Datatypes.app fst snd].
  - by destruct (serve_all gs t).
  - destruct (serve f t) as [r t1]. rewrite IH. by destruct (serve_all fs t1).
Qed.

(** The whole frame that answers [f] with flags [fl]. *)
Definition tcp_reply (f : list Z) (c : slot) (fl : Z) : list Z :=
  let p := drop 14 f in
  sub f 6 6 ++ ServerMACAddress ++ sub f 12 2
  ++ ip_packet PROTOCOL_TCP (sub p 16 4) (sub p 12 4)
       (tcp_segment (sub p 16 4) (k_addr (conn f)) (conn f) (seq_out c) (seq_in c) fl (window_of c) []).

Lemma serve_answer f t fl t' c : step (seg f) t = (Answer fl, t') -> connection (conn f) t' = Some c ->
  serve f t = (Some (tcp_reply f c fl), t').
Proof. intros E Hc. unfold serve, answer. rewrite E. cbn [fst snd]. by rewrite Hc. Qed.

(** opening.  When the connection has a slot or one is free, SYN is answered by SYN ACK with
    sequence number 0 that acknowledges the SYN and offers the full window, and the ACK makes the
    connection established, with the sequence numbers of both sides one further. *)
Theorem tcp_handshake {LY : Layout} F G syn ack m k :
  in_place F G -> suitable [syn; ack] (table_of m) = true -> load 2 m (FrameLength G) = 0 ->
  ports_open m [syn; ack] -> conn syn = k -> conn ack = k ->
  sg_flags (seg syn) = TCP_FLAG_SYN -> sg_flags (seg ack) = TCP_FLAG_ACK ->
  is_Some (find_slot k (table_of m)) \/ is_Some (free_slot (table_of m)) ->
  exists m' c c', deliver_all F G [syn; ack] m
      = Some ([Some (tcp_reply syn c (TCP_FLAG_SYN .| TCP_FLAG_ACK)); None], m')
    /\ seq_out c = 0 /\ seq_in c = u32 (sg_seq (seg syn) + 1) /\ window_of c = TCP_WINDOW_SIZE
    /\ connection k (table_of m') = Some c' /\ conn_st c' = TCP_Connection_Established
    /\ seq_out c' = 1 /\ seq_in c' = seq_in c.
Proof.
  intros Hpl Hs HG Hp Ek1 Ek2 Ef1 Ef2 Hsp. destruct (exchange F G _ m Hpl Hs HG Hp) as (m' & E & Et).
  assert ((enter k TCP_Connection_Listen (table_of m)).1 = true) as Hen.
  { unfold enter. destruct (find_slot k (table_of m)); [done|]. destruct Hsp as [[? [=]]|[j ->]]. done. }
  destruct (syn_step k (seg syn) (table_of m) Ek1 Ef1 Hen) as (c & t1 & E1 & Hc1 & Hst & Hin & Hout & Hus).
  destruct (ack_step k (seg ack) t1 c Ek2 Ef2 Hc1 Hst) as (t2 & E2 & Hc2).
  cbn [serve_all] in E, Et. rewrite (serve_answer syn _ _ t1 c E1) in E, Et by (by rewrite Ek1).
  assert (serve ack t1 = (None, t2)) as Es2 by (unfold serve; by rewrite E2). rewrite Es2 in E, Et.
  cbn [fst snd] in E, Et. exists m', c, (bump_out (set_st TCP_Connection_Established c)).
  split; [done|]. unfold window_of. rewrite Hus, Et. repeat split; try done. cbn. by rewrite Hout.
Qed.

(** data.  Segments of an established connection whose buffer is free are put together in
    the order of their arrival: those without PSH are not answered, the one with PSH is
    acknowledged with the total length, and the buffer holds all data and is handed to the
    application.  Nothing is assumed about the sequence numbers of the segments: they are not
    looked at, so a repeated segment is stored twice. *)
Theorem request_assembled {LY : Layout} F G fs f m k c :
  in_place F G -> suitable (fs ++ [f]) (table_of m) = true -> load 2 m (FrameLength G) = 0 ->
  ports_open m (fs ++ [f]) -> connection k (table_of m) = Some c ->
  conn_st c = TCP_Connection_Established -> in_use c = false -> ready c = false ->
  Forall (quiet k) fs -> conn f = k -> sg_flags (seg f) = TCP_FLAG_ACK .| TCP_FLAG_PSH ->
  let data := data_of (fs ++ [f]) in
  (length (data_of fs) < 512)%nat -> (length data <= 512)%nat ->
  exists m' c', deliver_all F G (fs ++ [f]) m
      = Some (replicate (length fs) None ++ [Some (tcp_reply f c' TCP_FLAG_ACK)], m')
    /\ connection k (table_of m') = Some c' /\ ready c' = true /\ outgoing c' = false
    /\ take (length data) (buf_data c') = data /\ buf_len c' = Z.of_nat (length data)
    /\ seq_in c' = u32 (seq_in c + Z.of_nat (length data)) /\ seq_out c' = seq_out c
    /\ window_of c' = TCP_WINDOW_SIZE.
Proof.
  intros Hpl Hs HG Hp Hc Hst Hus Hrd Hq Ek Ef. cbv zeta. intros Hl Hl2.
  destruct (exchange F G _ m Hpl Hs HG Hp) as (m' & E & Et). rewrite serve_all_app in E, Et. cbn [fst snd] in E, Et.
  assert (gathering (seq_in c) (seq_out c) [] c) as Hg0.
  { destruct (connection_find k _ c Hc) as (i & Hf & Hi). pose proof (find_slot_lt _ _ _ Hf) as Hi3.
    rewrite table_lookup in Hi by done. apply (inj Some) in Hi.
    assert (claim c = set_len 0 (set_use true (set_dir false c))) as Ecl by (unfold claim; by rewrite Hus, Hrd).
    split; try rewrite Ecl; try done.
    - rewrite Z.add_0_r, wrap_id; [done|]. rewrite <- Hi. apply (load_u 4).
    - rewrite <- Hi. apply length_load_bytes. }
  destruct (serve_all_quiet k fs _ c _ _ [] Hq Hc Hg0 Hl) as (t1 & c1 & E1 & Hc1 & Hg1).
  rewrite E1 in E, Et. cbn [fst snd Datatypes.app] in E, Et, Hg1.
  assert (data_of (fs ++ [f]) = data_of fs ++ sg_data (seg f)) as Ed.
  { unfold data_of. rewrite fmap_app, concat_app. cbn. by rewrite app_nil_r. }
  rewrite Ed in *. clear Ed.
  destruct (gather _ _ _ _ (sg_data (seg f)) Hg1) as (_ & Hi & Hou & _ & Hdir & Hlen & Hdat & _); [by rewrite <- length_app|].
  pose proof (receive_step k (seg f) t1 c1 Ek Hc1 (g_state _ _ _ _ Hg1) (or_intror Ef)) as H.
  specialize (H (gathering_accepts _ _ _ _ Hg1 Hl)). cbv zeta in H. unfold complete_buffer in H. rewrite Ef in H.
  change (truth ((TCP_FLAG_ACK .| TCP_FLAG_PSH) .& TCP_FLAG_PSH)) with true in H. rewrite orb_true_r in H.
  destruct H as (t2 & Est & Hc2). set (c2 := append _ _) in *.
  cbn [serve_all] in E, Et. rewrite (serve_answer f t1 _ t2 _ Est) in E, Et by (rewrite Ek; exact Hc2). cbn [fst snd] in E, Et.
  exists m', (set_ready true (set_use false c2)). rewrite Et. by repeat split.
Qed.
