(* ===== verification/TcpTask.v ===== *)
(** * TcpTask: the frames that carry what an application has put into its buffer *)
From S2P Require Import Prelude Machine Ram Network Checksum Tcp Webserver Ethernet Packets PacketReplies.
From S2P Require Import NodeRefinement TcpServer TcpRefinement TcpHeader TcpFrames.
Import Net Tcp.

Ltac hdr := unfold copy, store_field, store, tcp_SourcePort, tcp_DestinationPort, tcp_SequenceNumber,
  tcp_AcknowledgmentNumber, tcp_DataOffset, tcp_Reserved, tcp_Flags, tcp_WindowSize, tcp_Checksum,
  tcp_UrgentPointer, sizeof_TCP_Header, conn_Port, conn_RemotePort, conn_Info, info_Buffer, info_SequenceNumberIn,
  info_SequenceNumberOut, buf_InUse, buf_Length.

Section Send.
Context (m : mem) (c O : Z) (n : nat).
Abbreviation s := (slot_of m c).
Abbreviation K := (s_key s).
Context (Hc : inside c 534) (HO : inside O (20 + Z.of_nat n)) (Ha : apart c 534 O (20 + Z.of_nat n)) (Hn : (n <= 512)%nat).

(** The header without its checksum. *)
Definition segment_head : mem :=
  let i := conn_Info c in
  let m := copy m (tcp_SourcePort O) (conn_Port c) 2 in
  let m := copy m (tcp_DestinationPort O) (conn_RemotePort c) 2 in
  let m := store 4 m (tcp_SequenceNumber O) (SwapEndian_32 (load 4 m (info_SequenceNumberOut i))) in
  let m := store 4 m (tcp_AcknowledgmentNumber O) (SwapEndian_32 (load 4 m (info_SequenceNumberIn i))) in
  let m := store_field 1 4 4 m (tcp_DataOffset O) (sizeof_TCP_Header / 4) in
  let m := store 2 m (tcp_WindowSize O) (SwapEndian_16 TCP_WINDOW_SIZE) in
  let m := store8 m (tcp_Flags O) TCP_FLAG_ACK in
  let m := store 2 m (tcp_UrgentPointer O) 0 in
  let m := store 2 m (tcp_Checksum O) 0 in
  store_field 1 0 4 m (tcp_Reserved O) 0.

Lemma segment_head_ok :
  load_bytes segment_head O 20 = tcp_header K (seq_out s) (seq_in s) TCP_FLAG_ACK TCP_WINDOW_SIZE
  /\ changed_in m segment_head O 20.
Proof.
  unfold inside, apart in *. split.
  2: { unfold segment_head. cbv zeta. hdr. rewrite ?store8_bytes. changed. }
  unfold segment_head. cbv zeta. hdr. unfold load. rewrite ?store8_bytes. regions.
  rewrite swap_store, !swap_store4. unfold tcp_header. cbn [slot_of s_key k_port k_rport].
  rewrite !(le_bytes_load 2). unfold conn_Port, conn_RemotePort.
  change (le_value (load_bytes m (c + 8 + 4) 4)) with (seq_out (slot_of m c)).
  change (le_value (load_bytes m (c + 8) 4)) with (seq_in (slot_of m c)).
  generalize (seq_in (slot_of m c)) (seq_out (slot_of m c)). intros si so.
  change (20 / 4) with 5. cbn [load_bytes le_bytes]. rewrite nibbles_tcp by apply load8_u8.
  generalize (load8 m). intros f. reflexivity.
Qed.

Lemma write_segment_ok (m' := write_segment O c (Z.of_nat n) m) :
  load_bytes m' O (20 + n)
  = tcp_segment ServerIPAddress (k_addr K) K (seq_out s) (seq_in s) TCP_FLAG_ACK TCP_WINDOW_SIZE (take n (buf_data s))
  /\ slot_of m' c = set_out (seq_out s + Z.of_nat n) s
  /\ changed_in2 m m' c 534 O (20 + Z.of_nat n).
Proof.
  destruct segment_head_ok as [Hh Hch]. unfold m', write_segment. cbv zeta. fold segment_head.
  set (m1 := segment_head) in *. clearbody m1. unfold inside, apart in *.
  assert (slot_of m1 c = s) as Es by (eapply slot_elsewhere; [|exact Hch|]; unfold inside, apart; lia).
  rewrite Nat2Z.id. rewrite (wrap_id 16) by (unfold is_u, sizeof_TCP_Header; lia).
  assert (load_bytes m1 (buf_Data (info_Buffer (conn_Info c))) n = take n (buf_data s)) as Ed.
  { rewrite <- Es. cbn [slot_of buf_data]. symmetry. rewrite (take_load _ _ 512 n) by done. done. }
  unfold copy. rewrite Ed. set (d := take n (buf_data s)) in *.
  assert (length d = n) as Ld by (rewrite <- Ed; apply length_load_bytes).
  assert (Forall is_u8 d) as Hd by (rewrite <- Ed; apply load_bytes_u8).
  set (m2 := store_bytes m1 _ d).
  assert (changed_in m1 m2 O (20 + Z.of_nat n)) as Hc2 by (apply changed_store; rewrite ?Ld; unfold inside, sizeof_TCP_Header; lia).
  assert (slot_of m2 c = s) as Es2 by (rewrite <- Es; eapply slot_elsewhere; [|exact Hc2|]; unfold inside, apart; lia).
  change (load 4 m2 (info_SequenceNumberOut (conn_Info c))) with (seq_out (slot_of m2 c)). rewrite Es2.
  set (m3 := store 4 m2 _ _).
  assert (slot_of m3 c = set_out (seq_out s + Z.of_nat n) s) as Es3 by (rewrite <- Es2 at 2; by apply slot_out).
  change (load_bytes m3 (conn_RemoteAddress c) 4) with (k_addr (s_key (slot_of m3 c))). rewrite Es3.
  change (s_key (set_out ?v ?x)) with (s_key x).
  assert (changed_in m2 m3 c 534) as Hc3.
  { unfold m3, store. apply changed_store; rewrite ?length_le_bytes; unfold inside, info_SequenceNumberOut, conn_Info; lia. }
  assert (load_bytes m3 O (20 + n) = tcp_header K (seq_out s) (seq_in s) TCP_FLAG_ACK TCP_WINDOW_SIZE ++ d) as E3.
  { rewrite (changed_load _ _ _ _ _ _ Hc3) by (unfold inside; lia). rewrite load_bytes_app.
    unfold m2, sizeof_TCP_Header. rewrite load_bytes_disjoint by addr. rewrite Hh. f_equal.
    change (Z.of_nat 20) with 20. by rewrite load_bytes_same by (try done; unfold inside; lia). }
  set (m4 := store 2 m3 _ _).
  assert (changed_in m3 m4 O (20 + Z.of_nat n)) as Hc4.
  { unfold m4, store, tcp_Checksum. apply changed_store; rewrite ?length_le_bytes; unfold inside; lia. }
  split; [|split].
  - unfold m4, store, tcp_Checksum. rewrite (load_region _ _ _ _ 16)
      by (rewrite ?length_le_bytes; auto with cint; unfold inside; lia).
    rewrite TCP_Checksum16_ref by (try done; try (unfold sizeof_TCP_Header; lia);
      try (apply load_bytes_u8); try (apply bytes_u8; vm_compute; reflexivity)).
    unfold sizeof_TCP_Header. replace (Z.to_nat (20 + Z.of_nat n)) with (20 + n)%nat by lia. by rewrite E3.
  - rewrite <- Es3. eapply slot_elsewhere; [|exact Hc4|]; unfold inside, apart; lia.
  - intros x ? ? ?. rewrite Hc4, Hc3, Hc2, Hch by lia. done.
Qed.
End Send.

Lemma write_packet_ok m I c z : inside c 534 -> inside I 20 -> apart c 534 I 20 -> 0 < z -> 20 + z < 65536 ->
  let m' := write_packet I c z m in
  load_bytes m' I 20 = ip_header (20 + z) PROTOCOL_TCP ServerIPAddress (load_bytes m (conn_RemoteAddress c) 4)
  /\ changed_in m m' I 20.
Proof.
  intros Hc Hi Ha H0 Hs. unfold apart in Ha. unfold write_packet. cbv zeta. unfold conn_RemoteAddress.
  unfold sizeof_IP_Header. rewrite (wrap_id 16 (20 + z)) by (unfold is_u; lia).
  set (m1 := copy _ (ip_DestinationAddress I) _ 4).
  assert (changed_in m m1 I 20) as Hch.
  { unfold m1, copy, store_field, store, ip_TotalLength, ip_TypeOfService, ip_HeaderLength, ip_Version,
      ip_Flags, ip_FragmentOffset, ip_Identification, ip_HeaderChecksum, ip_Protocol, ip_TTL,
      ip_SourceAddress, ip_DestinationAddress, ServerIPAddress. rewrite !store8_bytes. changed. }
  split; [|eapply changed_trans; [exact Hch|unfold store, ip_HeaderChecksum; changed]].
  etrans; [exact (store_checksum m1 I 20 10 Hi ltac:(lia) ltac:(lia) eq_refl)|]. unfold ip_header. f_equal.
  unfold m1, copy, store_field, load, store, ip_TotalLength, ip_TypeOfService, ip_HeaderLength, ip_Version,
      ip_Flags, ip_FragmentOffset, ip_Identification, ip_HeaderChecksum, ip_Protocol, ip_TTL,
      ip_SourceAddress, ip_DestinationAddress, ServerIPAddress. rewrite !store8_bytes. regions.
  rewrite fragment_cleared by apply (load_u 2). rewrite swap_store.
  cbn [load_bytes le_bytes]. replace (le_value [load8 m I]) with (load8 m I) by (symmetry; apply Z.lor_0_r).
  change (20 / 4) with 5. rewrite nibbles_ip by apply load8_u8.
  generalize (load8 m). intros f. reflexivity.
Qed.

Lemma write_frame_ok m G z : inside G 1502 -> 0 < z <= 1486 ->
  let m' := write_frame G (FrameData G) z m in
  load 2 m' (FrameLength G) = 14 + z
  /\ load_bytes m' G (14 + Z.to_nat z)
     = AdapterMACAddress ++ ServerMACAddress ++ be_bytes 2 ETHERTYPE_IPV4 ++ load_bytes m (G + 14) (Z.to_nat z)
  /\ changed_in m m' G 1502.
Proof.
  intros HG Hz. unfold inside in HG.
  unfold write_frame, sizeof_Ethernet_Header, FrameData, FrameLength, eth_Source, eth_Destination,
    eth_EtherType, ServerMACAddress, AdapterMACAddress. cbv zeta. rewrite (wrap_id 16) by (unfold is_u; lia).
  split; [|split].
  - rewrite load_same by (unfold inside; lia). rewrite wrap_id by (unfold is_u; lia). lia.
  - unfold store. rewrite load_bytes_app. regions. change (Z.of_nat 14) with 14. rewrite swap_store, !app_assoc. f_equal.
  - unfold store. changed.
Qed.

(** The frame with the next data of a connection. *)
Definition data_frame (k : key) (seq ack : Z) (data : list Z) : list Z :=
  AdapterMACAddress ++ ServerMACAddress ++ be_bytes 2 ETHERTYPE_IPV4
  ++ ip_packet PROTOCOL_TCP ServerIPAddress (k_addr k)
       (tcp_segment ServerIPAddress (k_addr k) k seq ack TCP_FLAG_ACK TCP_WINDOW_SIZE data).

Lemma length_tcp_segment src dst k seq ack fl w d : length (tcp_segment src dst k seq ack fl w d) = (20 + length d)%nat.
Proof.
  unfold tcp_segment, splice. rewrite !length_app, length_take, length_drop, length_le_bytes, length_app, length_tcp_header. lia.
Qed.

Lemma send_segment_ok {LY : Layout} G i m (c := conn_entry i) (s := slot_of m c) :
  inside c 534 -> inside G 1502 -> apart c 534 G 1502 -> buf_len s <= 512 ->
  let m' := send_segment G i m in
  let d := take (Z.to_nat (buf_len s)) (buf_data s) in
  load 2 m' (FrameLength G) = Z.of_nat (length (data_frame (s_key s) (seq_out s) (seq_in s) d))
  /\ load_bytes m' (FrameData G) (length (data_frame (s_key s) (seq_out s) (seq_in s) d))
     = data_frame (s_key s) (seq_out s) (seq_in s) d
  /\ slot_of m' c = set_ready false (set_out (seq_out s + buf_len s) s)
  /\ changed_in2 m m' c 534 G 1502.
Proof.
  intros Hc HG Ha Hl. cbv zeta. assert (0 <= buf_len s) as Hl0 by apply (load_u 2). unfold inside, apart in *.
  set (n := Z.to_nat (buf_len s)). assert (buf_len s = Z.of_nat n) as En by (unfold n; lia). assert (n <= 512)%nat as Hn by lia.
  set (d := take n (buf_data s)). assert (length d = n) as Ld.
  { unfold d, s. cbn [slot_of buf_data]. rewrite length_take, length_load_bytes. lia. }
  unfold send_segment. fold c. cbv zeta. change (load 2 m (buf_Length (info_Buffer (conn_Info c)))) with (buf_len s). rewrite En.
  unfold sizeof_Ethernet_Header, sizeof_IP_Header, sizeof_TCP_Header, FrameData.
  rewrite (wrap_id 16 (Z.of_nat n + 20)) by (unfold is_u; lia). rewrite (wrap_id 16 (Z.of_nat n + 20 + 20)) by (unfold is_u; lia).
  destruct (write_segment_ok m c (G + 14 + 20) n) as (Hs1 & Es1 & Hc1); try (unfold inside, apart; lia).
  set (m1 := write_segment _ _ _ m) in *. fold s in Hs1, Es1. fold d in Hs1.
  destruct (write_packet_ok m1 (G + 14) c (Z.of_nat n + 20)) as (Hs2 & Hc2); try (unfold inside, apart; lia). cbv zeta in Hs2, Hc2.
  change (load_bytes m1 (conn_RemoteAddress c) 4) with (k_addr (s_key (slot_of m1 c))) in Hs2. rewrite Es1 in Hs2.
  change (s_key (set_out ?v ?x)) with (s_key x) in Hs2.
  set (m2 := write_packet _ _ _ m1) in *.
  destruct (write_frame_ok m2 G (Z.of_nat n + 20 + 20)) as (Hl3 & Hs3 & Hc3); try (unfold inside, apart; lia). cbv zeta in Hl3, Hs3, Hc3.
  unfold FrameData in Hl3, Hs3, Hc3. set (m3 := write_frame _ _ _ m2) in *.
  clearbody m1 m2 m3.
  replace (Z.to_nat (Z.of_nat n + 20 + 20)) with (20 + (20 + n))%nat in Hs3 by lia.
  rewrite (load_bytes_app _ (G + 14) 20) in Hs3. change (Z.of_nat 20) with 20 in Hs3.
  rewrite Hs2, (changed_load _ _ _ _ _ _ Hc2), Hs1 in Hs3 by (unfold inside; lia).
  assert (load_bytes m3 G (14 + (20 + (20 + n))) = data_frame (s_key s) (seq_out s) (seq_in s) d) as E3.
  { rewrite Hs3. unfold data_frame, ip_packet. rewrite length_tcp_segment, Ld. do 4 f_equal. f_equal. lia. }
  assert (length (data_frame (s_key s) (seq_out s) (seq_in s) d) = (14 + (20 + (20 + n)))%nat) as Lf
    by (by rewrite <- E3, length_load_bytes).
  rewrite Lf. assert (slot_of m3 c = set_out (seq_out s + Z.of_nat n) s) as Es3.
  { rewrite <- Es1. etrans; (eapply slot_elsewhere; [|eassumption|]); unfold inside, apart; lia. }
  assert (changed_in m3 (store8 m3 (buf_Ready (info_Buffer (conn_Info c))) 0) c 534) as Hc4.
  { rewrite store8_bytes. apply changed_store; cbn [length]; unfold inside, buf_Ready, info_Buffer, conn_Info; lia. }
  unfold load, FrameLength in *. rewrite !(changed_load _ _ _ _ _ _ Hc4) by (unfold inside; lia). split; [rewrite Hl3; lia|].
  split; [done|split].
  - etrans; [exact (slot_ready m3 c Hc false)|]. by rewrite Es3.
  - intros x ? ? ?. rewrite Hc4, Hc3, Hc2, Hc1 by lia. done.
Qed.
