(* ===== verification/WebPages.v ===== *)
(** * WebPages: the page reaches the client

    The web server as a user of a connection's buffer, and a whole transfer over rounds of the
    main loop, which sends a frame of the TCP task when another frame is received: a request for
    the page is answered by the header and the blocks of the page, one frame each, behind which
    the connection is closing. *)
From S2P Require Import Prelude Machine Ram Network Checksum Tcp Webserver Ethernet Packets PacketReplies.
From S2P Require Import NodeRefinement TcpServer TcpRefinement TcpHeader TcpFrames TcpSessions TcpTask.
From Stdlib Require String.
Import (notations) String.
Import Net Tcp Web Ethernet.

(** The text in front of the terminating zero. *)
Definition text (s : list Z) : list Z := take (length s - 1) s.

Definition header_ok (h : list Z) : bool :=
  bool_decide (h = text h ++ [0]) && forallb (fun c => negb (c =? 0)) (text h)
  && forallb (fun c => (0 <=? c) && (c <? 256)) h && (Z.of_nat (length h) <=? 512).

Lemma text_no_zero l : forallb (fun c => negb (c =? 0)) l = true -> 0 ∉ l.
Proof.
  intros H Hin. apply list_elem_of_In in Hin. pose proof (proj1 (List.forallb_forall _ _) H 0 Hin) as E. done.
Qed.

(** ** The macros on slots *)

Section Slots.
Context (c : Z) (Hc : inside c 534).
Abbreviation b := (info_Buffer (conn_Info c)).

Definition sent (n : Z) (s : slot) : slot := set_ready true (set_len n (set_dir true s)).

Lemma slot_received m : TCP_APP_HAS_RECEIVED_PACKET b m = ready (slot_of m c) && negb (outgoing (slot_of m c)).
Proof. done. Qed.
Lemma slot_captured m : TCP_APP_HAVE_CAPTURED_BUFFER b m
  = negb (ready (slot_of m c)) && in_use (slot_of m c) && outgoing (slot_of m c).
Proof. done. Qed.

Lemma slot_capture m : slot_of (TCP_APP_CAPTURE_BUFFER b m) c = set_use true (set_dir true (slot_of m c)).
Proof.
  unfold TCP_APP_CAPTURE_BUFFER. etrans; [exact (slot_use _ c Hc true)|]. f_equal. exact (slot_dir _ c Hc true).
Qed.
Lemma slot_release m : slot_of (TCP_APP_RELEASE_BUFFER b m) c = set_use false (slot_of m c).
Proof. exact (slot_use _ c Hc false). Qed.
Lemma slot_closing m : slot_of (TCP_APP_CLOSECONNECTION c m) c = set_st TCP_Connection_Closing (slot_of m c).
Proof. apply (slot_st _ c Hc). split; vm_compute; congruence. Qed.

Lemma slot_send m len n m' : TCP_APP_SEND_BUFFER b len m = Some m' ->
  len (store8 m (buf_Direction b) TCP_PACKETDIR_OUT) = Some n -> slot_of m' c = sent n (slot_of m c).
Proof.
  unfold TCP_APP_SEND_BUFFER. cbv zeta. intros H Hn. rewrite Hn in H. apply (inj Some) in H as <-.
  etrans; [exact (slot_ready _ c Hc true)|]. unfold sent. f_equal.
  etrans; [exact (slot_len _ c Hc n)|]. f_equal. exact (slot_dir _ c Hc true).
Qed.

Ltac in_slot := unfold store, buf_InUse, buf_Ready, buf_Data,
    buf_Direction, buf_Length, info_Buffer, conn_Info, conn_State; rewrite ?store8_bytes;
  repeat first [apply changed_refl | eapply changed_trans; [|apply changed_store;
    rewrite ?length_le_bytes, ?length_load_bytes; cbn [length]; unfold inside in *; lia]].

Lemma send_changed m len m' : TCP_APP_SEND_BUFFER b len m = Some m' -> changed_in m m' c 534.
Proof.
  unfold TCP_APP_SEND_BUFFER. cbv zeta. destruct (len _) as [n|]; [|done]. intros H. apply (inj Some) in H as <-. in_slot.
Qed.

Lemma send_some m len n : len (store8 m (buf_Direction b) TCP_PACKETDIR_OUT) = Some n ->
  exists m', TCP_APP_SEND_BUFFER b len m = Some m'.
Proof. intros H. unfold TCP_APP_SEND_BUFFER. cbv zeta. rewrite H. by eexists. Qed.

(** A header or any other text put into the buffer. *)
Lemma send_header_ok m h : header_ok h = true ->
  exists m', send_header b h m = Some m' /\ changed_in m m' c 534
    /\ slot_of m' c = sent (Z.of_nat (length (text h))) (set_data (splice 0 h (buf_data (slot_of m c))) (slot_of m c)).
Proof.
  unfold header_ok. rewrite !andb_true_iff. intros [[[Ht%bool_decide_eq_true Hz] Hu] Hl].
  apply forallb_u8 in Hu. apply text_no_zero in Hz. apply Z.leb_le in Hl. unfold send_header. cbv zeta.
  assert (length (text h) < length h)%nat as Hlt by (rewrite Ht at 2; rewrite length_app; cbn; lia).
  set (m1 := store_bytes m (buf_Data b) h).
  assert (changed_in m m1 c 534) as Hc1.
  { unfold m1. apply changed_store; unfold buf_Data, info_Buffer, conn_Info, inside in *; lia. }
  assert (slot_of m1 c = set_data (splice 0 h (buf_data (slot_of m c))) (slot_of m c)) as Es.
  { pose proof (slot_data m c Hc 0 h ltac:(lia) ltac:(lia) Hu) as E. by rewrite Z.add_0_r in E. }
  assert (strlen (store8 m1 (buf_Direction b) TCP_PACKETDIR_OUT) (buf_Data b) = Some (Z.of_nat (length (text h)))) as Hs.
  { apply (strlen_ok _ _ _ 0 (text h)); [lia|done|]. rewrite <- Ht. rewrite store8_bytes.
    unfold buf_Data, buf_Direction, info_Buffer, conn_Info, inside in *. rewrite load_bytes_disjoint by (cbn [length]; unfold inside; lia).
    unfold m1. rewrite load_bytes_same; [done| |done|done]. unfold buf_Data, info_Buffer, conn_Info, inside. lia. }
  destruct (send_some m1 (fun m => strlen m (buf_Data b)) _ Hs) as [m2 E2]. exists m2. split; [done|]. split.
  - eapply changed_trans; [exact Hc1|]. by eapply send_changed.
  - rewrite <- Es. eapply slot_send; [exact E2|exact Hs].
Qed.
End Slots.

(** ** The page in flash *)

Definition block (j : nat) : list Z := sub (text HTTPPage) (128 * j) 128.

Section Page.
Context {LY : Layout}.

Lemma page_ok : header_ok HTTPPage = true.
Proof. vm_compute. reflexivity. Qed.
Lemma page_split : HTTPPage = text HTTPPage ++ [0] /\ length (text HTTPPage) = 495%nat /\ 0 ∉ text HTTPPage.
Proof.
  pose proof page_ok as H. unfold header_ok in H. rewrite !andb_true_iff in H. destruct H as [[[H1 H2] _] _].
  split; [by apply bool_decide_eq_true in H1|]. split; [done|by apply text_no_zero].
Qed.

Lemma page_flash_text i : (i < 495)%nat -> text HTTPPage !! i = Some (page_flash i) /\ page_flash i <> 0.
Proof.
  destruct page_split as (E & L & Hz). intros Hi. unfold page_flash.
  destruct (text HTTPPage !! i) as [x|] eqn:Ex; [|apply lookup_ge_None in Ex; lia].
  assert (HTTPPage !! i = Some x) as -> by (rewrite E, lookup_app_l by lia; done).
  split; [done|]. intros ->. apply Hz. by eapply list_elem_of_lookup_2.
Qed.

Lemma page_flash_end : page_flash 495 = 0.
Proof. reflexivity. Qed.

Lemma page_length k i n : (i <= 495)%nat -> (495 - i < k)%nat -> strlen_P k i n = Some (n + Z.of_nat (495 - i)).
Proof.
  revert i n. induction k as [|k IH]; intros i n Hi Hk; [lia|]. cbn [strlen_P].
  destruct (decide (i = 495%nat)) as [->|].
  - rewrite page_flash_end. cbn. f_equal. lia.
  - destruct (page_flash_text i) as [_ Hz]; [lia|]. rewrite (proj2 (Z.eqb_neq _ _) Hz).
    rewrite IH by lia. f_equal. lia.
Qed.

Lemma page_read a n : (a + n <= 495)%nat -> page_flash <$> seq a n = sub (text HTTPPage) a n.
Proof.
  intros H. destruct page_split as (_ & L & _). apply list_eq. intros i. rewrite list_lookup_fmap. unfold sub.
  destruct (Nat.lt_ge_cases i n) as [Hi|Hi].
  - rewrite lookup_seq_lt by done. rewrite lookup_take_lt, lookup_drop by done. cbn [fmap option_fmap option_map].
    destruct (page_flash_text (a + i)) as [E _]; [lia|]. by rewrite E.
  - rewrite lookup_seq_ge by done. rewrite lookup_take_ge by done. done.
Qed.

(** ** The handler *)

Section Handler.
Context (c : Z) (Hc : inside c 534) (HP : inside PageBlock 1) (Hpc : apart c 534 PageBlock 1).
Abbreviation b := (info_Buffer (conn_Info c)).

Lemma page_block_kept m m' : changed_in m m' c 534 -> load8 m' PageBlock = load8 m PageBlock.
Proof. intros H. unfold inside, apart in *. apply H; lia. Qed.

Lemma page_block_slot m v : slot_of (store8 m PageBlock v) c = slot_of m c /\ changed_in m (store8 m PageBlock v) PageBlock 1.
Proof.
  assert (changed_in m (store8 m PageBlock v) PageBlock 1) as H.
  { rewrite store8_bytes. apply changed_store; cbn [length]; unfold inside in *; lia. }
  split; [|done]. eapply slot_elsewhere; [done|exact H|]. unfold apart in *. lia.
Qed.

Lemma command m (cmd : list Z) : (length cmd <= 512)%nat ->
  IsHTTPCommand m (buf_Data b) cmd = bool_decide (take (length cmd) (buf_data (slot_of m c)) = cmd).
Proof.
  intros Hl. unfold IsHTTPCommand. cbn [slot_of buf_data]. by rewrite <- (take_load m _ 512) by lia.
Qed.

(** Set the header and the page for a request of the page. *)
Lemma get_ok m (s := slot_of m c) : ready s = true -> outgoing s = false -> take 6 (buf_data s) = chars "GET / " ->
  exists m', Webserver_ApplicationCallback c b m = Some m'
    /\ slot_of m' c = set_use true (set_dir true (sent (Z.of_nat (length (text HTTP200Header)))
                        (set_data (splice 0 HTTP200Header (buf_data s)) s)))
    /\ load8 m' PageBlock = 0 /\ changed_in2 m m' c 534 PageBlock 1.
Proof.
  intros Hr Ho Hg. unfold Webserver_ApplicationCallback. rewrite slot_received. fold s. rewrite Hr, Ho. cbn [andb negb].
  unfold serve_request. cbv zeta. rewrite !command by (vm_compute; lia). fold s.
  assert (take (length (chars "GET")) (buf_data s) = chars "GET") as Hg3.
  { change (length (chars "GET")) with (3 `min` 6)%nat. rewrite <- take_take, Hg. done. }
  rewrite Hg3. change (length (chars "GET / ")) with 6%nat. rewrite Hg, !bool_decide_eq_true_2 by done.
  destruct (page_block_slot m 0) as [Es Hc0]. set (m1 := store8 m PageBlock 0) in *.
  destruct (send_header_ok c Hc m1 HTTP200Header eq_refl) as (m2 & -> & Hc2 & Es2).
  eexists. split; [done|]. unfold TCP_APP_CAPTURE_BUFFER.
  split; [etrans; [exact (slot_capture c Hc m2)|by rewrite Es2, Es]|].
  assert (changed_in m2 (TCP_APP_CAPTURE_BUFFER b m2) c 534) as Hc3.
  { unfold TCP_APP_CAPTURE_BUFFER, buf_Direction, buf_InUse, info_Buffer, conn_Info. rewrite !store8_bytes.
    repeat first [apply changed_refl | eapply changed_trans; [|apply changed_store; cbn [length]; unfold inside in *; lia]]. }
  split.
  - etrans; [exact (page_block_kept _ _ Hc3)|]. rewrite (page_block_kept _ _ Hc2). unfold m1. by rewrite load8_same.
  - intros x ? ? ?. etrans; [apply Hc3; lia|]. rewrite Hc2, Hc0 by lia. done.
Qed.

Lemma length_block j : (j <= 3)%nat -> length (block j) = Nat.min 128 (495 - 128 * j).
Proof. intros Hj. unfold block, sub. rewrite length_take, length_drop. destruct page_split as (_ & -> & _). done. Qed.

Lemma block_flash j : (j <= 3)%nat -> page_flash <$> seq (128 * j) (length (block j)) = block j.
Proof.
  intros Hj. pose proof (length_block j Hj) as Lb. rewrite page_read by lia. unfold block, sub at 1. unfold block in Lb. rewrite Lb.
  unfold sub. destruct page_split as (_ & L & _). destruct (Nat.le_gt_cases 128 (495 - 128 * j)) as [?|?].
  - by rewrite Nat.min_l by done.
  - rewrite Nat.min_r by lia. rewrite !take_ge; [done| |]; rewrite length_drop; lia.
Qed.

Lemma block_u8 j : Forall is_u8 (block j).
Proof. apply Forall_take, Forall_drop. apply Forall_take. apply forallb_u8. vm_compute. reflexivity. Qed.

Lemma last_block j : (Z.of_nat j =? Z.of_nat (length HTTPPage) / 128) = bool_decide (j = 3%nat).
Proof.
  change (Z.of_nat (length HTTPPage) / 128) with 3. destruct (Z.eqb_spec (Z.of_nat j) 3);
    [rewrite bool_decide_eq_true_2 by lia|rewrite bool_decide_eq_false_2 by lia]; done.
Qed.

(** Send the next block, and close behind the last. *)
Lemma block_ok m j (s := slot_of m c) : (j <= 3)%nat -> load8 m PageBlock = Z.of_nat j ->
  ready s = false -> in_use s = true -> outgoing s = true ->
  exists m', Webserver_ApplicationCallback c b m = Some m'
    /\ slot_of m' c
       = (let x := sent (Z.of_nat (length (block j))) (set_data (splice 0 (block j) (buf_data s)) s) in
          if decide (j = 3%nat) then set_st TCP_Connection_Closing (set_use false x) else x)
    /\ load8 m' PageBlock = Z.of_nat (S j) /\ changed_in2 m m' c 534 PageBlock 1.
Proof.
  intros Hj Hb Hr Hu Ho. unfold Webserver_ApplicationCallback.
  rewrite slot_received, slot_captured. fold s. rewrite Hr, Hu, Ho. cbn [andb negb].
  unfold serve_block. cbv zeta. rewrite Hb. unfold HTTP_REPLY_BLOCK_SIZE.
  replace (Z.to_nat (Z.of_nat j * 128)) with (128 * j)%nat by lia.
  rewrite page_length by lia. cbn [fmap option_fmap option_map]. rewrite (wrap_id 16) by (unfold is_u; lia).
  change (Some ?x ≫= ?f) with (f x). cbv beta. rewrite Z.add_0_l.
  assert ((if 128 <? Z.of_nat (495 - 128 * j) then 128 else Z.of_nat (495 - 128 * j)) = Z.of_nat (length (block j))) as ->.
  { rewrite length_block by done. destruct (Z.ltb_spec 128 (Z.of_nat (495 - 128 * j))); lia. }
  pose proof (length_block j Hj) as Lb. rewrite Nat2Z.id.
  rewrite block_flash by done.
  set (m1 := store_bytes m (buf_Data b) (block j)).
  pose proof (block_u8 j) as Hu8.
  assert (changed_in m m1 c 534) as Hc1.
  { unfold m1. apply changed_store; unfold buf_Data, info_Buffer, conn_Info, inside in *; lia. }
  assert (slot_of m1 c = set_data (splice 0 (block j) (buf_data s)) s) as Es1.
  { pose proof (slot_data m c Hc 0 (block j) ltac:(lia) ltac:(lia) Hu8) as E. by rewrite Z.add_0_r in E. }
  destruct (send_some c m1 (fun _ => Some (Z.of_nat (length (block j)))) _ eq_refl) as [m2 E2]. rewrite E2.
  change (Some ?x ≫= ?f) with (f x). cbv beta.
  pose proof (slot_send c Hc _ _ _ _ E2 eq_refl) as Es2. rewrite Es1 in Es2. pose proof (send_changed c Hc _ _ _ E2) as Hc2.
  assert (load8 m2 PageBlock = Z.of_nat j) as Hb2 by (by rewrite (page_block_kept _ _ Hc2), (page_block_kept _ _ Hc1)).
  rewrite Hb2. destruct (page_block_slot m2 (Z.of_nat j + 1)) as [Es3 Hc3]. set (m3 := store8 m2 PageBlock (Z.of_nat j + 1)) in *.
  rewrite Es2 in Es3. assert (load8 m3 PageBlock = Z.of_nat (S j)) as Hb3.
  { unfold m3. rewrite load8_same, wrap_id by (unfold is_u; lia). lia. }
  rewrite last_block.
  eexists. split; [done|]. destruct (decide (j = 3%nat)) as [Ej|Ej].
  - rewrite bool_decide_eq_true_2 by done.
    assert (changed_in m3 (TCP_APP_CLOSECONNECTION c (TCP_APP_RELEASE_BUFFER b m3)) c 534) as Hc4.
    { unfold TCP_APP_CLOSECONNECTION, TCP_APP_RELEASE_BUFFER, buf_InUse, conn_State, info_Buffer, conn_Info. rewrite !store8_bytes.
      repeat first [apply changed_refl | eapply changed_trans; [|apply changed_store; cbn [length]; unfold inside in *; lia]]. }
    split; [by rewrite slot_closing, slot_release, Es3|]. split; [by rewrite (page_block_kept _ _ Hc4)|].
    intros x ? ? ?. rewrite Hc4, Hc3, Hc2, Hc1 by lia. done.
  - rewrite bool_decide_eq_false_2 by done. split; [done|]. split; [done|].
    intros x ? ? ?. rewrite Hc3, Hc2, Hc1 by lia. done.
Qed.
End Handler.
End Page.

(** ** Frames that leave a transfer alone *)

(** Frames the node passes over: for another station, of another protocol, ARP messages that need
    no answer, packets for another address. *)
Definition passed_over (f : list Z) : bool :=
  (14 <=? Z.of_nat (length f)) && (Z.of_nat (length f) <=? 1500)
  && forallb (fun b => (0 <=? b) && (b <? 256)) f
  && (if bool_decide (sub f 0 6 = ServerMACAddress) || bool_decide (sub f 0 6 = BroadcastMACAddress) then
        if be16 f 12 =? ETHERTYPE_ARP then
          (42 <=? Z.of_nat (length f)) && bool_decide (arp_reply (drop 14 f) = None)
        else if be16 f 12 =? ETHERTYPE_IPV4 then
          (34 <=? Z.of_nat (length f))
          && negb (bool_decide (sub f 30 4 = ServerIPAddress)) && negb (bool_decide (sub f 30 4 = BroadcastIPAddress))
        else true
      else true).

(** A segment of the client [k] that only has the ACK flag, and possibly PSH. *)
Definition client_ack (k : key) (f : list Z) : bool :=
  let sg := segment_in (drop 14 f) in
  tcp_frame f && bool_decide (sg_key sg = k)
  && ((sg_flags sg =? TCP_FLAG_ACK) || (sg_flags sg =? TCP_FLAG_ACK .| TCP_FLAG_PSH)).

Section Received.
Context {LY : Layout} (F G : Z).
Abbreviation T := ConnectionStateTable.
Abbreviation P := PortStateTable.
Context (HF : inside F 1502) (HG : inside G 1502) (HT : inside T sizeof_table).
Context (HFG : apart F 1502 G 1502) (HTF : apart T sizeof_table F 1502) (HTG : apart T sizeof_table G 1502).

Lemma passed_over_ok m f :
  load 2 m (FrameLength F) = Z.of_nat (length f) -> load_bytes m F (length f) = f -> passed_over f = true ->
  Ethernet_ProcessPacket F G m = Some (store 2 m (FrameLength F) 0).
Proof.
  intros HL Hf H. unfold passed_over in H. rewrite !andb_true_iff in H. destruct H as [[[H14 Hmax] _] H].
  apply Z.leb_le in H14, Hmax. unfold inside, apart in *.
  assert (forall i k, (i + k <= length f)%nat -> load_bytes m (F + Z.of_nat i) k = sub f i k) as Hs.
  { intros i k ?. rewrite (sub_load m F (length f)) by lia. by rewrite Hf. }
  unfold Ethernet_ProcessPacket, accepted. unfold FrameData, eth_Destination, MAC_COMPARE, eth_EtherType.
  pose proof (Hs 0%nat 6%nat ltac:(lia)) as E0. change (Z.of_nat 0) with 0 in E0. rewrite Z.add_0_r in E0. rewrite E0.
  change (F + 12) with (F + Z.of_nat 12). rewrite (swap_load m F (length f) 12), Hf by lia.
  destruct (_ || _); cbn [andb]; [|done]. destruct (_ <? _); [|done].
  destruct (be16 f 12 =? ETHERTYPE_ARP).
  - rewrite andb_true_iff, bool_decide_eq_true in H. destruct H as [H42 Hn]. apply Z.leb_le in H42.
    unfold sizeof_Ethernet_Header. pose proof (arp_ok m (F + 14) (G + 14)) as Ha.
    assert (arp_reply (load_bytes m (F + 14) 28) = None) as E.
    { rewrite <- Hn, (arp_reply_take (drop 14 f)) by (rewrite length_drop; lia).
      change (F + 14) with (F + Z.of_nat 14). rewrite Hs by lia. done. }
    rewrite E in Ha. cbn [answered] in Ha. by rewrite Ha by (unfold inside, apart; lia).
  - destruct (be16 f 12 =? ETHERTYPE_IPV4); [|done]. rewrite !andb_true_iff in H. destruct H as [[H34 Hn1] Hn2].
    apply Z.leb_le in H34. unfold IP_ProcessIPPacket, IP_COMPARE, ip_DestinationAddress, sizeof_Ethernet_Header.
    replace (F + 14 + 16) with (F + Z.of_nat 30) by lia. rewrite Hs by lia. by rewrite Hn1, Hn2.
Qed.

(** While the buffer is used for output, a segment of the client is put off. *)
Lemma segment_deferred IP IN OUT n m i s (sg := segment_of IP IN m) :
  inside IP n -> inside OUT 20 -> IP + 20 <= IN -> IN + 20 <= IP + n ->
  apart T sizeof_table IP n -> apart T sizeof_table OUT 20 -> apart IP n OUT 20 ->
  find_slot (sg_key sg) (table_of m) = Some i -> slot_of m (conn_entry i) = s ->
  TCP_GetPortState (k_port (sg_key sg)) m = TCP_Port_Open ->
  (sg_flags sg =? TCP_FLAG_ACK) || (sg_flags sg =? TCP_FLAG_ACK .| TCP_FLAG_PSH) = true ->
  conn_st s = TCP_Connection_Established -> in_use s = true -> outgoing s = true ->
  TCP_ProcessTCPPacket IP IN OUT m = (NO_PROCESS, m).
Proof.
  intros H1 H2 H3 H4 H5 H6 H7 Hfind Es Hport Hfl Hst Hu Ho.
  assert (R OUT m None (table_of m) m) as HR by (repeat split; done).
  pose proof (seg_get_state_at IP IN OUT n m HT H1 H2 H3 H4 H5 H6 H7 _ _ _ HR) as Estate.
  destruct (seg_get_info_at IP IN OUT n m HT H1 H2 H3 H4 H5 H6 H7 _ _ _ _ HR Hfind) as [Hi Einfo].
  fold sg in Estate. unfold state_of in Estate. rewrite Hfind, table_lookup in Estate by done. cbn [fmap option_fmap option_map default] in Estate.
  rewrite Es, Hst in Estate. unfold TCP_ProcessTCPPacket.
  change (load 2 m (tcp_DestinationPort IN)) with (k_port (sg_key sg)). rewrite Hport.
  change (TCP_Port_Open =? TCP_Port_Open) with true. cbv iota. unfold process_open, seg_flags.
  change (load8 m (tcp_Flags IN)) with (sg_flags sg).
  assert (truth (sg_flags sg .& TCP_FLAG_SYN) = false /\ truth (sg_flags sg .& TCP_FLAG_RST) = false
    /\ (sg_flags sg =? TCP_FLAG_FIN .| TCP_FLAG_ACK) = false) as (-> & E2 & E3).
  { apply orb_true_iff in Hfl as [E%Z.eqb_eq|E%Z.eqb_eq]; rewrite E; done. }
  cbv zeta. change (load8 m (tcp_Flags IN)) with (sg_flags sg). rewrite E2, Estate.
  change (TCP_Connection_Established =? TCP_Connection_Listen) with false.
  change (TCP_Connection_Established =? TCP_Connection_SYNReceived) with false.
  change (TCP_Connection_Established =? TCP_Connection_Established) with true. cbv iota.
  unfold case_Established, seg_flags. change (load8 m (tcp_Flags IN)) with (sg_flags sg). rewrite E3, Hfl, Einfo. cbv zeta iota.
  change (truth (load8 m (buf_InUse (info_Buffer (conn_Info (conn_entry i)))))) with (in_use (slot_of m (conn_entry i))).
  rewrite Es, Hu. cbn [negb andb].
  change (truth (load8 m (buf_Direction (info_Buffer (conn_Info (conn_entry i)))))) with (outgoing (slot_of m (conn_entry i))).
  by rewrite Es, Ho.
Qed.

Lemma client_ack_ok m f k i s :
  load 2 m (FrameLength F) = Z.of_nat (length f) -> load_bytes m F (length f) = f -> client_ack k f = true ->
  find_slot k (table_of m) = Some i -> slot_of m (conn_entry i) = s -> TCP_GetPortState (k_port k) m = TCP_Port_Open ->
  conn_st s = TCP_Connection_Established -> in_use s = true -> outgoing s = true ->
  Ethernet_ProcessPacket F G m = Some m.
Proof.
  intros HL Hf Hk Hfind Es Hport Hst Hu Ho. unfold client_ack in Hk. cbv zeta in Hk.
  rewrite !andb_true_iff, bool_decide_eq_true in Hk. destruct Hk as [[Ht Hkey] Hfl].
  rewrite (tcp_dispatch F G m f HL Hf Ht).
  unfold tcp_frame in Ht. cbv zeta in Ht. rewrite !andb_true_iff in Ht.
  destruct Ht as ((((((((((_ & _) & Hmax) & _) & _) & Htcp) & H20) & Hhd) & Hoff) & Htot) & _).
  apply Z.leb_le in Hmax, H20, Hhd, Hoff, Htot. apply Z.eqb_eq in Htcp.
  destruct (frame_fields F m f Hf H20 Hhd Htcp) as (_ & Hp & _ & _ & _ & _).
  assert (length (drop 14 f) = (length f - 14)%nat) as Lp by apply length_drop.
  set (p := drop 14 f) in *. set (h := 4 * (byte p 0 mod 16)) in *.
  destruct (segment_at F m p Hp) as (Eseg & _ & _); [fold h; lia|fold h; lia|done|]. fold h in Eseg.
  unfold inside, apart in *.
  rewrite (segment_deferred (F + 14) (F + 14 + h) (G + 34) (Z.of_nat (length p)) m i s);
    rewrite ?Eseg, ?Hkey; try (unfold inside, apart; lia); done.
Qed.
End Received.

(** ** Rounds of the main loop *)

(** A connection the application has nothing to do for. *)
Definition idle (s : slot) : bool := negb (outgoing s) && negb (ready s).

(** What is sent for the page: the header, then the blocks. *)
Definition parts : list (list Z) := text HTTP200Header :: (block <$> seq 0 4).
Definition part (n : nat) : list Z := default [] (parts !! n).

(** The frames that carry the parts of a text. *)
Fixpoint data_frames (k : key) (seq ack : Z) (ps : list (list Z)) : list (list Z) :=
  match ps with
  | [] => []
  | d :: ds => data_frame k seq ack d :: data_frames k (u32 (seq + Z.of_nat (length d))) ack ds
  end.

Section Rounds.
Context {LY : Layout} (F G : Z) (i : nat).
Abbreviation T := ConnectionStateTable.
Abbreviation P := PortStateTable.

(** One round of the loop in [main], cut before TCP_TCPTask: the task runs; then, if a frame is
    received, it is processed and what is in the outgoing frame is sent. *)
Definition main_round (p : option (list Z)) (m : mem) : option (option (list Z) * mem) :=
  m ← TCP_TCPTask G m;
  match p with Some f => deliver F G f m | None => Some (None, m) end.

(** Rounds, and the frames they send. *)
Fixpoint main_rounds (ps : list (option (list Z))) (m : mem) : option (list (list Z) * mem) :=
  match ps with
  | [] => Some ([], m)
  | p :: ps =>
      '(r, m) ← main_round p m;
      '(rs, m) ← main_rounds ps m;
      Some (match r with Some b => b :: rs | None => rs end, m)
  end.

(** The port [k] is for is open, the other connections are idle and not [k]. *)
Record around (k : key) (m : mem) : Prop := {
  ar_port : load 2 m P = k_port k;
  ar_open : load8 m (P + 2) = TCP_Port_Open;
  ar_idle : forall j, (j < 3)%nat -> j <> i -> idle (slot_of m (conn_entry j)) = true;
  ar_key : forall j, (j < 3)%nat -> j <> i -> s_key (slot_of m (conn_entry j)) <> k }.

Context (Hi : (i < 3)%nat) (HF : inside F 1502) (HG : inside G 1502) (HT : inside T sizeof_table).
Context (HP : inside P sizeof_PortState) (HB : inside PageBlock 1) (HFG : apart F 1502 G 1502).
Context (HTF : apart T sizeof_table F 1502) (HTG : apart T sizeof_table G 1502) (HTP : apart T sizeof_table P sizeof_PortState).
Context (HTB : apart T sizeof_table PageBlock 1) (HFP : apart F 1502 P sizeof_PortState) (HGP : apart G 1502 P sizeof_PortState).
Context (HFB : apart F 1502 PageBlock 1) (HGB : apart G 1502 PageBlock 1) (HPB : apart P sizeof_PortState PageBlock 1).

Ltac geo := unfold inside, apart, sizeof_table, conn_entry, sizeof_ConnectionState, sizeof_PortState in *; lia.

(** Nothing has changed but the entry, the counter of the page and the frames. *)
Definition beside (m m' : mem) : Prop :=
  forall x, 0 <= x < 65536 -> x < conn_entry i \/ conn_entry i + 534 <= x -> x <> PageBlock ->
    x < F \/ F + 1502 <= x -> x < G \/ G + 1502 <= x -> load8 m' x = load8 m x.

Lemma other_slot m m' j : beside m m' -> (j < 3)%nat -> j <> i -> slot_of m' (conn_entry j) = slot_of m (conn_entry j).
Proof.
  intros H Hj Hne. unfold slot_of, conn_State, conn_Port, conn_RemoteAddress,
    conn_RemotePort, conn_Info, info_Buffer, info_SequenceNumberIn, info_SequenceNumberOut, buf_Length,
    buf_Data, buf_Direction, buf_Ready, buf_InUse, load. rewrite !load8_bytes.
  assert (forall a n, conn_entry j <= a -> a + Z.of_nat n <= conn_entry j + 534 -> load_bytes m' a n = load_bytes m a n) as E.
  { intros a n ? ?. apply load_bytes_ext; [geo|]. intros x ?. apply H; geo. }
  rewrite !E by geo. done.
Qed.

Lemma around_beside k m m' : around k m -> beside m m' -> around k m'.
Proof.
  intros [H1 H2 H3 H4] H. assert (forall x, P <= x < P + 5 -> load8 m' x = load8 m x) as HkP.
  { intros x ?. apply H; geo. }
  split.
  - rewrite <- H1. unfold load. cbn [load_bytes]. by rewrite !HkP by lia.
  - by rewrite HkP by lia.
  - intros j Hj Hne. rewrite (other_slot m m') by done. by apply H3.
  - intros j Hj Hne. rewrite (other_slot m m') by done. by apply H4.
Qed.

(** The handler is called for the connection, and does nothing for the others. *)
Lemma handlers_idle m j : idle (slot_of m (conn_entry j)) = true -> run_handlers j m = Some m.
Proof.
  unfold idle. rewrite andb_true_iff, !negb_true_iff. intros [Ho Hr]. unfold run_handlers. cbn [foldl seq MAX_OPEN_TCP_PORTS].
  change (Some m ≫= ?f) with (f m). cbv beta. destruct (_ && _); [|done].
  unfold ApplicationHandler, webserver, Webserver_ApplicationCallback. rewrite slot_received, slot_captured, Ho, Hr. cbn.
  by rewrite andb_false_r.
Qed.

Abbreviation callback m := (Webserver_ApplicationCallback (conn_entry i) (info_Buffer (conn_Info (conn_entry i))) m).

Lemma handlers_run k m : around k m -> s_key (slot_of m (conn_entry i)) = k -> run_handlers i m = callback m.
Proof.
  intros [Hp Hop _ _] Es. unfold run_handlers. cbn [foldl seq MAX_OPEN_TCP_PORTS].
  change (Some m ≫= ?f) with (f m). cbv beta.
  assert (port_entry 0 = P) as E by (unfold port_entry; lia). unfold port_Port, port_State. rewrite E, Hp, Hop.
  change (load 2 m (conn_Port (conn_entry i))) with (k_port (s_key (slot_of m (conn_entry i)))). rewrite Es, Z.eqb_refl. done.
Qed.

Lemma applications_run k m m' : around k m -> s_key (slot_of m (conn_entry i)) = k ->
  callback m = Some m' -> beside m m' -> run_applications m = Some m'.
Proof.
  intros St Ek H Hc. pose proof (handlers_run k m St Ek) as Hr. rewrite H in Hr.
  assert (forall j, (j < 3)%nat -> j <> i -> run_handlers j m = Some m) as H1.
  { intros j Hj Hne. apply handlers_idle. by apply (ar_idle _ _ St). }
  assert (forall j, (j < 3)%nat -> j <> i -> run_handlers j m' = Some m') as H2.
  { intros j Hj Hne. apply handlers_idle. by apply (ar_idle _ _ (around_beside _ _ _ St Hc)). }
  unfold run_applications. cbn [foldl seq MAX_TCP_CONNECTIONS].
  assert (i = 0 \/ i = 1 \/ i = 2)%nat as [Ei|[Ei|Ei]] by lia; rewrite Ei in *.
  - change (Some m ≫= ?f) with (f m). cbv beta. rewrite Hr. change (Some m' ≫= ?f) with (f m'). cbv beta.
    rewrite (H2 1%nat) by lia. change (Some m' ≫= ?f) with (f m'). apply (H2 2%nat); lia.
  - change (Some m ≫= ?f) with (f m). cbv beta. rewrite (H1 0%nat) by lia. change (Some m ≫= ?f) with (f m). cbv beta. rewrite Hr.
    change (Some m' ≫= ?f) with (f m'). apply (H2 2%nat); lia.
  - change (Some m ≫= ?f) with (f m). cbv beta. rewrite (H1 0%nat) by lia. change (Some m ≫= ?f) with (f m). cbv beta.
    rewrite (H1 1%nat) by lia. exact Hr.
Qed.

(** *** A transfer on its way

    For the client [K], with the sequence numbers [A] and [Q] of the request. *)
Section Transfer.
Context (K : key) (A Q : Z).

Definition sent_before (n : nat) : Z := u32 (Q + Z.of_nat (length (concat (take n parts)))).
Definition page_frame (n : nat) : list Z := data_frame K (sent_before n) A (part n).

(** [n] parts were put into the buffer, the last of them is still there if [b]; the one before
    it, or the last, is in the outgoing frame if [w]. *)
Record serving (n : nat) (b w : bool) (m : mem) : Prop := {
  sv_n : (1 <= n <= 5)%nat;
  sv_count : (Nat.b2n b + Nat.b2n w <= n)%nat;
  sv_around : around K m;
  sv_key : s_key (slot_of m (conn_entry i)) = K;
  sv_in : seq_in (slot_of m (conn_entry i)) = A;
  sv_out : seq_out (slot_of m (conn_entry i)) = sent_before (n - Nat.b2n b);
  sv_dir : outgoing (slot_of m (conn_entry i)) = true;
  sv_ready : ready (slot_of m (conn_entry i)) = b;
  sv_use : in_use (slot_of m (conn_entry i)) = (n <? 5)%nat;
  sv_st : conn_st (slot_of m (conn_entry i)) = if (n <? 5)%nat then TCP_Connection_Established else TCP_Connection_Closing;
  sv_len : b = true -> buf_len (slot_of m (conn_entry i)) = Z.of_nat (length (part (n - 1)));
  sv_data : b = true -> take (length (part (n - 1))) (buf_data (slot_of m (conn_entry i))) = part (n - 1);
  sv_block : load8 m PageBlock = Z.of_nat (n - 1);
  sv_waiting : let f := page_frame (n - Nat.b2n b - 1) in
    if w then load 2 m (FrameLength G) = Z.of_nat (length f) /\ load_bytes m (FrameData G) (length f) = f
    else load 2 m (FrameLength G) = 0 }.

Lemma part_block j : (j <= 3)%nat -> part (S j) = block j.
Proof. clear. intros Hj. do 4 (destruct j as [|j]; [reflexivity|]). lia. Qed.

Lemma length_part n : (length (part n) <= 512)%nat.
Proof.
  clear.
  destruct n as [|j]; [vm_compute; lia|]. destruct (Nat.le_gt_cases j 3) as [Hj|Hj].
  - rewrite part_block, length_block by done. lia.
  - unfold part. rewrite lookup_ge_None_2; [cbn; lia|]. cbn. lia.
Qed.

Lemma sent_next n : (n < 5)%nat -> u32 (sent_before n + Z.of_nat (length (part n))) = sent_before (S n).
Proof.
  clear -Q. intros Hn. unfold sent_before. rewrite Z.add_comm, wrap_add_r by done. f_equal.
  rewrite (take_S_r parts n (part n)).
  - rewrite concat_app, length_app. cbn [concat]. rewrite app_nil_r. lia.
  - unfold part. destruct (parts !! n) eqn:E; [done|]. apply lookup_ge_None in E. change (length parts) with 5%nat in E. lia.
Qed.

Lemma entry_placed : inside (conn_entry i) 534 /\ apart (conn_entry i) 534 G 1502
  /\ apart (conn_entry i) 534 F 1502 /\ apart (conn_entry i) 534 PageBlock 1.
Proof. geo. Qed.

Lemma beside_entry m m' : changed_in2 m m' (conn_entry i) 534 PageBlock 1 -> beside m m'.
Proof. intros H x ? ? ? ? ?. apply H; lia. Qed.
Lemma beside_frame m m' : changed_in2 m m' (conn_entry i) 534 G 1502 -> beside m m'.
Proof. intros H x ? ? ? ? ?. apply H; lia. Qed.

(** The outgoing frame stays when the entry and the counter change. *)
Lemma frame_kept m m' n : changed_in2 m m' (conn_entry i) 534 PageBlock 1 -> Z.of_nat n <= 1500 ->
  load 2 m' (FrameLength G) = load 2 m (FrameLength G) /\ load_bytes m' (FrameData G) n = load_bytes m (FrameData G) n.
Proof.
  intros Hc Hn. unfold load, FrameLength, FrameData.
  by rewrite !(changed_load2 _ _ _ _ _ _ _ _ Hc) by geo.
Qed.

Lemma length_page_frame n : length (k_addr K) = 4%nat -> (length (page_frame n) <= 1500)%nat /\ page_frame n <> [].
Proof.
  intros H4. split; [|done]. unfold page_frame, data_frame, ip_packet. rewrite !length_app, length_tcp_segment. pose proof (length_part n).
  destruct (k_addr K) as [|d0 [|d1 [|d2 [|d3 [|]]]]]; try done.
  unfold ip_header. rewrite length_sealed by (vm_compute; lia). cbn. lia.
Qed.

(** The request is answered by the first part. *)
Lemma request_taken m : around K m -> load 2 m (FrameLength G) = 0 ->
  s_key (slot_of m (conn_entry i)) = K -> seq_in (slot_of m (conn_entry i)) = A -> seq_out (slot_of m (conn_entry i)) = Q ->
  conn_st (slot_of m (conn_entry i)) = TCP_Connection_Established ->
  ready (slot_of m (conn_entry i)) = true -> outgoing (slot_of m (conn_entry i)) = false ->
  take 6 (buf_data (slot_of m (conn_entry i))) = chars "GET / " ->
  exists m', run_applications m = Some m' /\ serving 1 true false m'.
Proof.
  intros Ha H0 Hk Hin Hout Hst Hr Ho Hg. destruct entry_placed as (Hc & _ & _ & HcB).
  destruct (get_ok (conn_entry i) Hc HB HcB m Hr Ho Hg) as (m' & E & Es & Hb & Hch).
  exists m'. split; [by apply (applications_run K m m' Ha Hk E), beside_entry|].
  assert (is_u 32 Q) as HQ by (rewrite <- Hout; apply (load_u 4)).
  split; rewrite ?Es; try done; try lia.
  - by apply (around_beside K m), beside_entry.
  - cbn [sent set_use set_dir set_ready set_len set_data seq_out]. rewrite Hout. unfold sent_before. cbn. rewrite Z.add_0_r. by rewrite wrap_id.
  - cbv zeta. by rewrite (proj1 (frame_kept m m' 0 Hch ltac:(lia))).
Qed.

(** The next part is put into the buffer when it is free. *)
Lemma next_part m n w : (n < 5)%nat -> serving n false w m ->
  exists m', run_applications m = Some m' /\ serving (S n) true w m'.
Proof.
  intros Hn [? ? Ha Hk Hin Hout Hd Hr Hu Hst _ _ Hb Hw]. rewrite (proj2 (Nat.ltb_lt _ _) Hn) in Hu, Hst.
  destruct entry_placed as (Hc & _ & _ & HcB). destruct n as [|j]; [lia|]. rewrite Nat.sub_succ, Nat.sub_0_r in Hb.
  destruct (block_ok (conn_entry i) Hc HB HcB m j ltac:(lia) Hb Hr Hu Hd) as (m' & E & Es & Hb' & Hch).
  exists m'. split; [by apply (applications_run K m m' Ha Hk E), beside_entry|].
  pose proof (part_block j ltac:(lia)) as Ep. pose proof (length_part (S j)) as Lp. rewrite Ep in Lp. cbv zeta in Es.
  assert (u16 (Z.of_nat (length (block j))) = Z.of_nat (length (block j))) as Eu by (apply wrap_id; unfold is_u; lia).
  set (x := sent _ _) in Es.
  assert (in_use x = true /\ conn_st x = TCP_Connection_Established) as [Ux Sx] by done.
  split; rewrite ?Nat.sub_succ, ?Nat.sub_0_r, ?Ep, ?Es; cbn [Nat.b2n]; try lia.
  - by apply (around_beside K m), beside_entry.
  - by destruct (decide _).
  - by destruct (decide _).
  - destruct (decide _); (etrans; [exact Hout|]); f_equal; lia.
  - by destruct (decide _).
  - by destruct (decide _).
  - destruct (decide (j = 3%nat)) as [->|]; [done|]. by destruct (Nat.ltb_spec (S (S j)) 5); [|lia].
  - destruct (decide (j = 3%nat)) as [->|]; [done|]. by destruct (Nat.ltb_spec (S (S j)) 5); [|lia].
  - intros _. by destruct (decide _).
  - intros _. destruct (decide _); cbn; by rewrite take_app_length.
  - cbv zeta in *. replace (S (S j) - 1 - 1)%nat with j by lia.
    replace (S j - Nat.b2n false - 1)%nat with j in Hw by (cbn [Nat.b2n]; lia).
    destruct (length_page_frame j) as [Lf _]; [by rewrite <- Hk|].
    destruct (frame_kept m m' (length (page_frame j)) Hch) as [-> ->]; [lia|done].
Qed.

(** The handler has nothing to do while the buffer is full, or after the last part. *)
Lemma no_part m n b w : b = true \/ n = 5%nat -> serving n b w m -> run_applications m = Some m.
Proof.
  intros Hbn [? ? Ha Hk _ _ Hd Hr Hu _ _ _ _ _]. apply (applications_run K m m Ha Hk); [|by intros x].
  unfold Webserver_ApplicationCallback. rewrite slot_received, slot_captured, Hd, Hr, Hu.
  destruct Hbn as [->| ->]; [done|]. by destruct b.
Qed.

(** A full buffer goes into the outgoing frame if that is free. *)
Lemma part_sent m0 m n b w : run_applications m0 = Some m -> serving n b w m ->
  exists m', TCP_TCPTask G m0 = Some m' /\ serving n (b && w) (w || b) m'.
Proof.
  intros Erun S. unfold TCP_TCPTask. rewrite Erun. change (Some ?x ≫= ?f) with (f x). cbv beta.
  destruct S as [Hn Hcnt Ha Hk Hin Hout Hd Hr Hu Hst Hl Hdt Hb Hw]. destruct w.
  { destruct Hw as [Hw Hw']. rewrite Hw. exists m. rewrite andb_true_r. split; [|by split].
    destruct (length_page_frame (n - Nat.b2n b - 1)) as [_ Hne]; [by rewrite <- Hk|].
    by destruct (page_frame _). }
  rewrite Hw. change (truth 0) with false. cbv iota. rewrite andb_false_r, orb_false_l.
  destruct b.
  - rewrite (first_entry_unique _ _ i Hi).
    2: { change (ready_to_send m i) with (outgoing (slot_of m (conn_entry i)) && ready (slot_of m (conn_entry i))). by rewrite Hd, Hr. }
    2: { intros j Hj Hne. change (ready_to_send m j) with (outgoing (slot_of m (conn_entry j)) && ready (slot_of m (conn_entry j))).
         pose proof (ar_idle _ _ Ha j Hj Hne) as E. unfold idle in E. rewrite andb_true_iff, !negb_true_iff in E. by rewrite (proj1 E). }
    destruct entry_placed as (Hc & HcG & _ & HcB). specialize (Hl eq_refl). specialize (Hdt eq_refl). pose proof (length_part (n - 1)) as Lp.
    destruct (send_segment_ok G i m) as (Hl2 & Hb2 & Es2 & Hc2); [done|done|done|rewrite Hl; lia|]. cbv zeta in *.
    rewrite Hl, Nat2Z.id, Hdt, Hk, Hin, Hout in *. cbn [Nat.b2n] in *. fold (page_frame (n - 1)) in Hl2, Hb2.
    eexists. split; [done|]. split; rewrite ?Es2; cbn [Nat.b2n]; try done; try lia.
    + by apply (around_beside K m), beside_frame.
    + cbn [set_ready set_out seq_out]. rewrite sent_next by lia. f_equal. lia.
    + rewrite <- Hb. apply Hc2; geo.
    + cbv zeta. replace (n - 0 - 1)%nat with (n - 1)%nat by lia. done.
  - assert (first_entry MAX_TCP_CONNECTIONS (ready_to_send m) = None) as ->.
    { destruct (first_entry _ _) as [j|] eqn:E; [|done]. apply first_entry_some in E as [Hj E].
      change (ready_to_send m j) with (outgoing (slot_of m (conn_entry j)) && ready (slot_of m (conn_entry j))) in E.
      destruct (decide (j = i)) as [->|Hne]; [by rewrite Hr, andb_false_r in E|].
      pose proof (ar_idle _ _ Ha j Hj Hne) as E'. unfold idle in E'. rewrite andb_true_iff, !negb_true_iff in E'. by rewrite (proj1 E') in E. }
    exists m. split; [done|]. by split.
Qed.

(** The task: as many frames have been sent as before, and one waits unless all have been sent. *)
Lemma task_serving m n b w : serving n b w m ->
  exists m' n' b' w', TCP_TCPTask G m = Some m' /\ serving n' b' w' m'
    /\ (n' - Nat.b2n b' - Nat.b2n w' = n - Nat.b2n b - Nat.b2n w)%nat
    /\ w' = (n - Nat.b2n b - Nat.b2n w <? 5)%nat.
Proof.
  intros S. pose proof (sv_n _ _ _ _ S) as Hn. pose proof (sv_count _ _ _ _ S) as Hc.
  destruct (decide (b = false /\ (n < 5)%nat)) as [[-> H5]|Hno].
  - destruct (next_part m n w H5 S) as (m1 & E1 & S1). destruct (part_sent m m1 _ _ _ E1 S1) as (m2 & E2 & S2).
    exists m2, (Datatypes.S n), (true && w), (w || true). split; [done|]. split; [done|]. rewrite orb_true_r.
    destruct w; cbn [andb Nat.b2n] in *; (split; [lia|]); symmetry; apply Nat.ltb_lt; lia.
  - assert (b = true \/ n = 5%nat) as Hbn by (destruct b; [by left|right; destruct (decide (n = 5%nat)); [done|exfalso; apply Hno; split; [done|lia]]]).
    destruct (part_sent m m _ _ _ (no_part m n b w Hbn S) S) as (m2 & E2 & S2).
    exists m2, n, (b && w), (w || b). split; [done|]. split; [done|].
    destruct b, w; cbn [andb orb Nat.b2n] in *; (split; [lia|]); symmetry;
      try (apply Nat.ltb_lt; lia). apply Nat.ltb_ge. destruct Hbn; [done|lia].
Qed.

(** ** Receiving while a transfer is on its way *)

Lemma serving_frames m m' n b w w' : serving n b w m -> changed_in2 m m' F 1502 G 1502 -> (Nat.b2n w' <= Nat.b2n w)%nat ->
  (let f := page_frame (n - Nat.b2n b - 1) in
   if w' then load 2 m' (FrameLength G) = Z.of_nat (length f) /\ load_bytes m' (FrameData G) (length f) = f
   else load 2 m' (FrameLength G) = 0) -> serving n b w' m'.
Proof.
  intros [Hn Hcnt Ha Hk Hin Hout Hd Hr Hu Hst Hl Hdt Hb Hw] Hc Hww Hw'. destruct entry_placed as (Hin' & HcG & HcF & _).
  assert (slot_of m' (conn_entry i) = slot_of m (conn_entry i)) as Es by (eapply slot_elsewhere2; [done|exact Hc|done|done]).
  split; rewrite ?Es; try done; try lia.
  - apply (around_beside K m); [done|]. intros x ? ? ? ? ?. by apply Hc.
  - rewrite <- Hb. apply Hc; geo.
Qed.

Lemma transfer_found m n b w : serving n b w m ->
  find_slot K (table_of m) = Some i /\ TCP_GetPortState (k_port K) m = TCP_Port_Open.
Proof.
  intros S. pose proof (sv_around _ _ _ _ S) as [Hp Ho _ Hne]. split.
  - apply first_entry_unique; [done| |]; unfold slot_test.
    + rewrite table_lookup by done. apply bool_decide_eq_true. by apply (sv_key _ _ _ _ S).
    + intros j Hj Hji. rewrite table_lookup by done. apply bool_decide_eq_false. by apply Hne.
  - unfold TCP_GetPortState, MAX_OPEN_TCP_PORTS, first_entry, port_Port, port_State.
    assert (port_entry 0 = P) as E by (unfold port_entry; lia). cbn [List.find seq]. by rewrite E, Hp, Z.eqb_refl, E, Ho.
Qed.

(** A frame the transfer is not disturbed by is received: the waiting frame goes out. *)
Lemma frame_received m n b w f : serving n b w m ->
  passed_over f = true \/ (n < 5)%nat /\ client_ack K f = true ->
  exists m', deliver F G f m = Some (if w then Some (page_frame (n - Nat.b2n b - 1)) else None, m') /\ serving n b false m'.
Proof.
  intros S Hf. assert (Forall is_u8 f /\ (length f <= 1500)%nat) as [Hu8 Hmax].
  { destruct Hf as [H|[_ H]].
    - unfold passed_over in H. rewrite !andb_true_iff in H. destruct H as [[[_ Hm] Hu] _]. apply Z.leb_le in Hm. split; [by apply forallb_u8|lia].
    - unfold client_ack, tcp_frame in H. cbv zeta in H. rewrite !andb_true_iff in H.
      destruct H as [[((((((((((_ & _) & Hm) & _) & _) & _) & _) & _) & _) & _) & Hu) _] _]. apply Z.leb_le in Hm. split; [by apply forallb_u8|lia]. }
  destruct (frame_arrives F G HF HG HFG m f Hu8 Hmax) as (H1 & H2 & H3 & H4). unfold deliver. cbv zeta.
  assert (changed_in m (store 2 (store_bytes m (FrameData F) f) (FrameLength F) (Z.of_nat (length f))) F 1502) as HcF.
  { unfold store, FrameData, FrameLength. eapply changed_trans; apply changed_store; rewrite ?length_le_bytes; geo. }
  set (m1 := store 2 _ (FrameLength F) _) in *. unfold FrameData in H2.
  assert (forall m2, changed_in m m2 F 1502 -> serving n b w m2) as Hkeep.
  { intros m2 Hc. apply (serving_frames m m2 n b w w S); [intros x ? ? ?; by apply Hc|lia|].
    pose proof (sv_waiting _ _ _ _ S) as Hw. cbv zeta in *. destruct (length_page_frame (n - Nat.b2n b - 1)) as [Lf _];
      [by rewrite <- (sv_key _ _ _ _ S)|]. set (g := page_frame _) in *.
    unfold load, FrameLength, FrameData in *. rewrite !(changed_load _ _ _ _ _ _ Hc) by geo. done. }
  assert (exists m2, Ethernet_ProcessPacket F G m1 = Some m2 /\ changed_in m m2 F 1502) as (m2 & -> & Hc2).
  { destruct Hf as [Hf|[Hn Hf]].
    - eexists. split; [by apply (passed_over_ok F G HF HG HFG m1 f)|].
      eapply changed_trans; [exact HcF|]. unfold store, FrameLength. apply changed_store; rewrite ?length_le_bytes; geo.
    - exists m1. split; [|done]. pose proof (Hkeep m1 HcF) as S1. destruct (transfer_found _ _ _ _ S1) as [Hfind Hport].
      pose proof (sv_use _ _ _ _ S1) as Hu. pose proof (sv_st _ _ _ _ S1) as Hst. rewrite (proj2 (Nat.ltb_lt _ _) Hn) in Hu, Hst.
      apply (client_ack_ok F G HF HG HT HFG HTF HTG m1 f K i (slot_of m1 (conn_entry i))); try done. by apply (sv_dir _ _ _ _ S1). }
  change (Some ?x ≫= ?f) with (f x). cbv beta. pose proof (Hkeep m2 Hc2) as S2.
  pose proof (sv_waiting _ _ _ _ S2) as Hw. cbv zeta in Hw. destruct w.
  - destruct Hw as [Hw1 Hw2]. destruct (frame_taken G HG m2 _ Hw1 Hw2) as (m3 & -> & HG3 & Hc3).
    { by apply length_page_frame; rewrite <- (sv_key _ _ _ _ S). }
    exists m3. split; [done|]. apply (serving_frames m2 m3 n b true false S2); [intros x ? ? ?; by apply Hc3|cbn; lia|done].
  - exists m2. unfold take_frame. rewrite Hw. done.
Qed.

(** What is sent in rounds: the frames of the page in order, one for each received frame. *)
Definition page_frames : list (list Z) := page_frame <$> seq 0 5.

Lemma page_frames_lookup k : page_frames !! k = if (k <? 5)%nat then Some (page_frame k) else None.
Proof. unfold page_frames. do 5 (destruct k as [|k]; [reflexivity|]). reflexivity. Qed.

Lemma page_frames_drop k : drop k page_frames = match page_frames !! k with Some f => f :: drop (S k) page_frames | None => [] end.
Proof.
  destruct (page_frames !! k) as [f|] eqn:E; [by apply drop_S|]. apply drop_ge. by apply lookup_ge_None.
Qed.

(** The second half of a round. *)
Lemma round_received p m n b w (k := (n - Nat.b2n b - Nat.b2n w)%nat) : serving n b w m -> w = (k <? 5)%nat ->
  (forall f, p = Some f -> passed_over f = true \/ (k < 3)%nat /\ client_ack K f = true) ->
  exists m' w', match p with Some f => deliver F G f m | None => Some (None, m) end
                = Some (match p with Some _ => page_frames !! k | None => None end, m')
    /\ serving n b w' m'
    /\ (n - Nat.b2n b - Nat.b2n w' = match p with Some _ => 5 `min` S k | None => k end)%nat.
Proof.
  intros S Hw Hf. pose proof (sv_n _ _ _ _ S) as Hn. pose proof (sv_count _ _ _ _ S) as Hc.
  destruct p as [f|]; [|by exists m, w]. specialize (Hf f eq_refl).
  destruct (frame_received m n b w f S) as (m' & E & S').
  { destruct Hf as [Hf|[Hk Hf]]; [by left|right]. split; [|done]. unfold k in *. destruct b, w; cbn [Nat.b2n] in *; lia. }
  exists m', false. split; [|split; [done|]].
  - rewrite E, page_frames_lookup, <- Hw. destruct w; [|done]. done.
  - unfold k in *. destruct w; symmetry in Hw; [apply Nat.ltb_lt in Hw|apply Nat.ltb_ge in Hw]; destruct b; cbn [Nat.b2n] in *; lia.
Qed.

Lemma rounds_serving ps p m m1 n b w : TCP_TCPTask G m = Some m1 -> serving n b w m1 ->
  let k := (n - Nat.b2n b - Nat.b2n w)%nat in
  let fs := omap id (p :: ps) in
  w = (k <? 5)%nat ->
  (forall j f, fs !! j = Some f -> passed_over f = true \/ (k + j < 3)%nat /\ client_ack K f = true) ->
  exists m' n' b' w', main_rounds (p :: ps) m = Some (take (length fs) (drop k page_frames), m')
    /\ serving n' b' w' m' /\ (n' - Nat.b2n b' - Nat.b2n w' = 5 `min` (k + length fs))%nat.
Proof.
  cbv zeta. revert p m m1 n b w. induction ps as [|q ps IH]; intros p m m1 n b w Et S Hw Hfs;
    set (k := (n - Nat.b2n b - Nat.b2n w)%nat) in *;
    (assert (k <= 5)%nat as Hk5 by (pose proof (sv_n _ _ _ _ S); unfold k; lia));
    (destruct (round_received p m1 n b w S Hw) as (m2 & w2 & E2 & S2 & K2);
      [intros f ->; rewrite <- (Nat.add_0_r (_ - _ - _)); by apply (Hfs 0%nat)|]); fold k in E2, K2.
  - exists m2, n, b, w2. cbn [main_rounds]. unfold main_round. rewrite Et. change (Some m1 ≫= ?f) with (f m1). cbv beta.
    rewrite E2. change (Some ?x ≫= ?f) with (f x). cbv beta iota. destruct p as [f|]; cbn [omap list_omap id length].
    + rewrite page_frames_drop, page_frames_lookup. split; [|split; [done|lia]]. by destruct (k <? 5)%nat.
    + split; [done|]. split; [done|]. lia.
  - destruct (task_serving m2 n b w2 S2) as (m3 & n3 & b3 & w3 & E3 & S3 & K3 & Hw3). rewrite <- K3 in Hw3. rewrite K2 in K3.
    destruct (IH q m2 m3 n3 b3 w3 E3 S3) as (m' & n' & b' & w' & E' & S' & K').
    { exact Hw3. }
    { rewrite K3. intros j f Hj. destruct p as [g|].
      - destruct (Hfs (Datatypes.S j) f Hj) as [?|[? ?]]; [by left|right]. split; [lia|done].
      - by apply Hfs. }
    rewrite K3 in E', K'. exists m', n', b', w'.
    change (main_rounds (p :: q :: ps) m) with ('(r, m) ← main_round p m; '(rs, m) ← main_rounds (q :: ps) m;
      Some (match r with Some b => b :: rs | None => rs end, m)).
    unfold main_round. rewrite Et. change (Some m1 ≫= ?f) with (f m1). cbv beta.
    rewrite E2. change (Some (?x, ?y) ≫= ?f) with (f (x, y)). cbv beta iota. rewrite E'.
    change (Some (?x, ?y) ≫= ?f) with (f (x, y)). cbv beta iota. destruct p as [f|].
    + change (omap id (Some f :: q :: ps)) with (f :: omap id (q :: ps)). cbn [length].
      split; [|split; [done|lia]]. rewrite (page_frames_drop k), page_frames_lookup.
      destruct (Nat.ltb_spec k 5); [rewrite Nat.min_r by lia; done|].
      rewrite Nat.min_l, drop_ge by (try lia; done). by rewrite !take_nil.
    + change (omap id (None :: q :: ps)) with (omap id (q :: ps)). done.
Qed.
End Transfer.
End Rounds.

Lemma page_frames_data {LY : Layout} K A Q : is_u 32 Q -> page_frames K A Q = data_frames K Q A parts.
Proof.
  intros HQ. unfold page_frames, page_frame. cbn [fmap list_fmap seq]. unfold parts at 1. cbn [fmap list_fmap seq data_frames].
  assert (forall n, (n < 5)%nat -> sent_before Q (S n) = u32 (sent_before Q n + Z.of_nat (length (part n)))) as E
    by (intros n Hn; by rewrite sent_next).
  assert (sent_before Q 0 = Q) as E0 by (unfold sent_before; cbn; rewrite Z.add_0_r; by apply wrap_id).
  rewrite !E, E0 by lia. reflexivity.
Qed.

Definition web_in_place {LY : Layout} (F G : Z) : Prop :=
  inside F 1502 /\ inside G 1502 /\ inside ConnectionStateTable sizeof_table /\ inside PortStateTable sizeof_PortState
  /\ inside PageBlock 1 /\ apart F 1502 G 1502
  /\ apart ConnectionStateTable sizeof_table F 1502 /\ apart ConnectionStateTable sizeof_table G 1502
  /\ apart ConnectionStateTable sizeof_table PortStateTable sizeof_PortState
  /\ apart ConnectionStateTable sizeof_table PageBlock 1
  /\ apart F 1502 PortStateTable sizeof_PortState /\ apart G 1502 PortStateTable sizeof_PortState
  /\ apart F 1502 PageBlock 1 /\ apart G 1502 PageBlock 1 /\ apart PortStateTable sizeof_PortState PageBlock 1.

(** C34: the page.  Let a request for "/" be in the buffer of one established connection while
    the other connections are idle.  In any sequence of rounds of the main loop, in which nothing is
    received or frames that the node passes over, or, among the first three, segments of the
    client with ACK and no other flag but PSH, one frame is sent for each received frame until
    five are sent: they carry the header and then the whole page, in order and with consecutive
    sequence numbers.  (Nothing is sent in rounds without a received frame.)  After the fifth the
    connection is closing and its buffer is free. *)
Theorem page_served {LY : Layout} F G i s m ps :
  web_in_place F G -> (i < MAX_TCP_CONNECTIONS)%nat ->
  slot_of m (conn_entry i) = s -> around i (s_key s) m -> load 2 m (FrameLength G) = 0 ->
  conn_st s = TCP_Connection_Established -> ready s = true -> outgoing s = false -> take 6 (buf_data s) = chars "GET / " ->
  let fs := omap id ps in
  (forall j f, fs !! j = Some f -> passed_over f = true \/ (j < 3)%nat /\ client_ack (s_key s) f = true) ->
  concat parts = text HTTP200Header ++ text HTTPPage
  /\ exists m', main_rounds F G ps m
         = Some (take (length fs) (data_frames (s_key s) (seq_out s) (seq_in s) parts), m')
       /\ ((5 <= length fs)%nat -> let s' := slot_of m' (conn_entry i) in
             conn_st s' = TCP_Connection_Closing /\ in_use s' = false /\ ready s' = false
             /\ seq_out s' = u32 (seq_out s + Z.of_nat (length (concat parts)))).
Proof.
  intros (HF & HG & HT & HP & HB & H1 & H2 & H3 & H4 & H5 & H6 & H7 & H8 & H9 & H10) Hi Es Ha H0 Hst Hr Ho Hg.
  cbv zeta. intros Hfs. split; [reflexivity|]. destruct ps as [|p ps].
  { exists m. split; [done|]. cbn. lia. }
  assert (is_u 32 (seq_out s)) as HQ by (rewrite <- Es; apply (load_u 4)).
  assert (exists m0, run_applications m = Some m0 /\ serving G i (s_key s) (seq_in s) (seq_out s) 1 true false m0)
    as (m0 & E0 & S0) by (apply (request_taken F G i); rewrite ?Es; done).
  assert (exists m1, TCP_TCPTask G m = Some m1 /\ serving G i (s_key s) (seq_in s) (seq_out s) 1 false true m1)
    as (m1 & E1 & S1) by exact (part_sent F G i Hi HF HG HT HP HB H1 H2 H3 H4 H5 H6 H7 H8 H9 H10 _ _ _ m m0 1 true false E0 S0).
  destruct (rounds_serving F G i Hi HF HG HT HP HB H1 H2 H3 H4 H5 H6 H7 H8 H9 H10 _ _ _ ps p m m1 _ _ _ E1 S1 eq_refl Hfs)
    as (m' & n' & b' & w' & E & S' & K').
  exists m'. rewrite <- page_frames_data by done. split; [exact E|]. intros Hlen.
  pose proof (sv_n _ _ _ _ _ _ _ _ _ S') as Hn'. destruct b', w'; cbn [Nat.b2n] in K'; try lia.
  assert (n' = 5%nat) as -> by lia. destruct S' as [_ _ _ _ _ So _ Sr Su Ss _ _ _ _]. by repeat split.
Qed.
