(* ===== verification/FrameChecks.v ===== *)
(** * FrameChecks: checksums of the frames, and what the network code does beyond its limits

    The checksums agree with one's complement addition, and the frames sent pass the tests of a
    receiver.  The second part is about inputs the code does not check: data that do not fit the
    buffer of a connection, a port without a connection, two clients of the web server. *)
From S2P Require Import Prelude Machine Ram Network Checksum Tcp Webserver Ethernet Packets PacketReplies.
From S2P Require Import NodeRefinement TcpServer TcpRefinement TcpHeader TcpFrames TcpSessions TcpTask WebPages.
Import Net Tcp Web Ethernet.

(** ** Checksums *)

Lemma splice_app k bs xs ys : splice (length xs + k) bs (xs ++ ys) = xs ++ splice k bs ys.
Proof.
  unfold splice. rewrite take_app, take_ge by lia. rewrite <- app_assoc. do 2 f_equal; [f_equal; lia|].
  f_equal. rewrite drop_app, drop_ge by lia. cbn. f_equal. lia.
Qed.

(** Lists of bytes. *)
Ltac octets := repeat match goal with
  | |- Forall _ (_ ++ _) => apply Forall_app_2
  | |- Forall _ (_ :: _) => apply Forall_cons_iff; split; [first [assumption | unfold is_u; vm_compute; intuition congruence]|]
  | |- Forall _ [] => apply Forall_nil_2
  | |- Forall _ (be_bytes _ _) => apply Forall_reverse
  | |- Forall _ (le_bytes _ _) => apply Forall_le_bytes
  | _ => assumption
  end.

Lemma tcp_segment_ok src dst k seq ack fl w d :
  Forall is_u8 src -> Forall is_u8 dst -> length src = 4%nat -> length dst = 4%nat -> is_u8 fl -> Forall is_u8 d ->
  checksum_ok (pseudo_header src dst (Z.of_nat (20 + length d)) ++ tcp_segment src dst k seq ack fl w d).
Proof.
  intros Hs Hd Ls Ld Hf Hdat. unfold tcp_segment. cbv zeta. set (seg := tcp_header _ _ _ _ _ ++ d).
  assert (length seg = (20 + length d)%nat) as Lseg by (unfold seg; by rewrite length_app, length_tcp_header).
  unfold tcp_checksum. rewrite Lseg. set (ps := pseudo_header src dst _).
  assert (length ps = 12%nat) as Lps.
  { unfold ps, pseudo_header. rewrite !length_app, Ls, Ld. done. }
  rewrite <- splice_app, Lps. change (12 + 16)%nat with 28%nat.
  apply splice_ok; [done|rewrite length_app; lia| |].
  - unfold ps, seg, pseudo_header, tcp_header. octets.
  - unfold sub. rewrite drop_app, drop_ge, Lps by lia. exact eq_refl.
Qed.

Lemma ip_header_ok size proto src dst : Forall is_u8 src -> Forall is_u8 dst -> length src = 4%nat -> length dst = 4%nat ->
  is_u8 proto -> checksum_ok (ip_header size proto src dst).
Proof.
  intros Hs Hd Ls Ld Hp. unfold ip_header. apply sealed_ok; [done|rewrite !length_app, Ls, Ld; cbn; lia| |done].
  octets.
Qed.

(** C36: both checksum routines, which add in 32 bits and fold the carries at the end, compute the
    complement of the one's complement sum; the header checksum is over the whole words of the
    block, the TCP checksum over pseudo header and segment with an odd last byte.  Two passes of
    the folding loop are enough: its condition is false behind them. *)
Theorem checksums_match_reference m a n src dst :
  0 <= n < 65536 -> Forall is_u8 src -> Forall is_u8 dst -> length src = 4%nat -> length dst = 4%nat ->
  Ethernet_Checksum16 m a n = 65535 - ones_sum (words16 (load_bytes m a (2 * Z.to_nat (n / 2))))
  /\ TCP_Checksum16 m a src dst n
     = 65535 - ones_sum (words16 (pseudo_header src dst n ++ load_bytes m a (Z.to_nat n)))
  /\ forall c, is_u32 c -> fold_carries 2 c .& 0xFFFF0000 = 0.
Proof.
  intros Hn Hs Hd Ls Ld. split; [by apply Ethernet_Checksum16_ref|]. split; [|apply fold_carries_ends].
  rewrite TCP_Checksum16_ref by done. unfold tcp_checksum. by rewrite length_load_bytes, Z2Nat.id by lia.
Qed.

(** A frame with TCP data, as its receiver tests it: the packet behind the Ethernet header,
    the segment behind the IP header with the pseudo header in front. *)
Definition frame_verifies (f : list Z) : Prop :=
  checksum_ok (sub f 14 20)
  /\ checksum_ok (pseudo_header (sub f 26 4) (sub f 30 4) (Z.of_nat (length f) - 34) ++ drop 34 f).

Lemma tcp_frame_verifies mac src dst k seq ack fl w d :
  length mac = 14%nat -> Forall is_u8 src -> Forall is_u8 dst -> length src = 4%nat -> length dst = 4%nat -> is_u8 fl -> Forall is_u8 d ->
  frame_verifies (mac ++ ip_packet PROTOCOL_TCP src dst (tcp_segment src dst k seq ack fl w d)).
Proof.
  intros Lm Hs Hd Ls Ld Hf Hdat. unfold frame_verifies, ip_packet.
  set (seg := tcp_segment _ _ _ _ _ _ _ _). set (h := ip_header _ _ _ _).
  assert (length seg = (20 + length d)%nat) as Lseg by apply length_tcp_segment.
  destruct src as [|s0 [|s1 [|s2 [|s3 [|]]]]]; try done. destruct dst as [|d0 [|d1 [|d2 [|d3 [|]]]]]; try done.
  assert (length h = 20%nat) as Lh by (unfold h, ip_header; rewrite length_sealed by (vm_compute; lia); reflexivity).
  unfold sub.
  rewrite (drop_app_length' mac (h ++ seg) 14) by done. rewrite (take_app_length' h seg 20) by done.
  split; [apply ip_header_ok; try done; unfold is_u, PROTOCOL_TCP; lia|].
  assert (drop 34 (mac ++ h ++ seg) = seg) as ->.
  { rewrite app_assoc. apply drop_app_length'. rewrite length_app. lia. }
  assert (forall i, take 4 (drop (14 + i) (mac ++ h ++ seg)) = take 4 (drop i (h ++ seg))) as E.
  { intros i. rewrite <- drop_drop. by rewrite (drop_app_length' mac (h ++ seg) 14). }
  pose proof (E 12%nat) as E12. pose proof (E 16%nat) as E16. cbn [Nat.add] in E12, E16. rewrite E12, E16.
  change (take 4 (drop 12 (h ++ seg))) with [s0; s1; s2; s3]. change (take 4 (drop 16 (h ++ seg))) with [d0; d1; d2; d3].
  rewrite !length_app, Lm, Lh, Lseg. replace (Z.of_nat (14 + (20 + (20 + length d))) - 34) with (Z.of_nat (20 + length d)) by lia.
  by apply tcp_segment_ok.
Qed.

(** C35: every frame the task builds for a connection passes the tests of a receiver: the IP header
    and the TCP segment with its pseudo header add up to all ones. *)
Theorem sent_frames_verify {LY : Layout} G i m :
  inside (conn_entry i) sizeof_ConnectionState -> inside G sizeof_Frame_Info ->
  apart (conn_entry i) sizeof_ConnectionState G sizeof_Frame_Info ->
  load 2 m (buf_Length (info_Buffer (conn_Info (conn_entry i)))) <= TCP_WINDOW_SIZE ->
  let m' := send_segment G i m in
  frame_verifies (load_bytes m' (FrameData G) (Z.to_nat (load 2 m' (FrameLength G)))).
Proof.
  intros Hc HG Ha Hl. cbv zeta. destruct (send_segment_ok G i m Hc HG Ha Hl) as (E1 & E2 & _).
  rewrite E1, Nat2Z.id, E2. unfold data_frame. rewrite !(app_assoc AdapterMACAddress), (app_assoc (_ ++ ServerMACAddress)).
  apply tcp_frame_verifies; [reflexivity|apply bytes_u8; vm_compute; reflexivity|apply load_bytes_u8|reflexivity
    |apply length_load_bytes|unfold is_u, TCP_FLAG_ACK, bit; cbn; lia|apply Forall_take, load_bytes_u8].
Qed.

(** ** Data beyond the buffer *)

Lemma load8_stored m a bs k : inside a (Z.of_nat (length bs)) -> Forall is_u8 bs -> (k < length bs)%nat ->
  load8 (store_bytes m a bs) (a + Z.of_nat k) = byte bs k.
Proof.
  intros Ha Hb Hk. rewrite (load8_byte _ a (length bs)) by done. by rewrite load_bytes_same.
Qed.

Lemma sub_bytes2 l k : (k + 2 <= length l)%nat -> sub l k 2 = [byte l k; byte l (S k)].
Proof.
  intros H. unfold sub, byte. destruct (drop k l) as [|x [|y r]] eqn:E; apply (f_equal length) in E as E'; rewrite length_drop in E'; cbn in E'; try lia.
  assert (l = take k l ++ x :: y :: r) as -> by (by rewrite <- E, take_drop).
  rewrite !app_nth2; rewrite length_take_le by lia; try lia. rewrite Nat.sub_diag. replace (S k - k)%nat with 1%nat by lia. done.
Qed.

Section Overrun.
Context {LY : Layout} (IP IN OUT n : Z) (m : mem) (i : nat).
Context (Ht : inside ConnectionStateTable sizeof_table) (Hp : inside IP n) (Ho : inside OUT 20).
Context (Hi : IP + 20 <= IN) (Hn : IN + 20 <= IP + n).
Context (Htp : apart ConnectionStateTable sizeof_table IP n) (Hto : apart ConnectionStateTable sizeof_table OUT 20) (Hpo : apart IP n OUT 20).
Context (Hdn : IN + data_start IN m + data_length IP IN m <= IP + n).
(** The data copied behind the start of the buffer stay in memory and off the packet. *)
Context (Hbuf : inside (conn_entry i) (18 + data_length IP IN m)) (Hbp : apart (conn_entry i) (18 + data_length IP IN m) IP n).
Abbreviation sg := (segment_of IP IN m).
Abbreviation c := (slot_of m (conn_entry i)).

(** A segment without PSH for the established connection [i] reaches the copy, with the buffer claimed. *)
Lemma data_dispatch : (i < 3)%nat ->
  TCP_GetPortState (k_port (sg_key sg)) m = TCP_Port_Open -> sg_flags sg = TCP_FLAG_ACK ->
  find_slot (sg_key sg) (table_of m) = Some i ->
  conn_st c = TCP_Connection_Established -> in_use c = false -> ready c = false ->
  exists m1, R OUT m None (alter claim i (table_of m)) m1
    /\ slot_of m1 (conn_entry i) = set_len 0 (set_use true (set_dir false c))
    /\ forall m', copy_segment IP IN OUT (conn_Info (conn_entry i)) m1 = (Some false, m') ->
         (TCP_ProcessTCPPacket IP IN OUT m).2 = m'.
Proof.
  intros Hi3 Hport Hfl Hf Hst Hu Hr. assert (R OUT m None (table_of m) m) as HR by (by repeat split).
  assert (seg_flags IN m = TCP_FLAG_ACK) as Hflm
    by (rewrite <- Hfl; exact (seg_flags_at IP IN OUT n m Ht Hp Ho Hi Hn Htp Hto Hpo _ _ _ HR)).
  unfold TCP_ProcessTCPPacket. cbn [segment_of sg_key k_port] in Hport. rewrite Hport.
  change (TCP_Port_Open =? TCP_Port_Open) with true. cbv iota. unfold process_open. rewrite Hflm.
  change (truth (TCP_FLAG_ACK .& _)) with false. cbv iota. rewrite Hflm.
  change (truth (TCP_FLAG_ACK .& _)) with false. cbv iota zeta.
  rewrite (seg_get_state_at IP IN OUT n m Ht Hp Ho Hi Hn Htp Hto Hpo _ _ _ HR).
  assert (state_of (sg_key sg) (table_of m) = TCP_Connection_Established) as ->.
  { unfold state_of. rewrite Hf, table_lookup by lia. exact Hst. }
  change (TCP_Connection_Established =? TCP_Connection_Listen) with false.
  change (TCP_Connection_Established =? TCP_Connection_SYNReceived) with false.
  change (TCP_Connection_Established =? TCP_Connection_Established) with true. cbv iota.
  unfold case_Established. cbv zeta. rewrite Hflm.
  change (TCP_FLAG_ACK =? TCP_FLAG_FIN .| TCP_FLAG_ACK) with false. change (TCP_FLAG_ACK =? TCP_FLAG_ACK) with true. cbn [orb].
  destruct (seg_get_info_at IP IN OUT n m Ht Hp Ho Hi Hn Htp Hto Hpo _ _ _ _ HR Hf) as [_ ->].
  destruct (claim_ok IP IN OUT n m Ht Hp Ho Hi Hn Htp Hto Hpo None _ m i HR Hi3) as [HR1 Ec].
  cbv zeta in HR1, Ec. set (m1 := if negb _ && negb _ then _ else m) in *. clearbody m1. exists m1.
  set (b := info_Buffer (conn_Info (conn_entry i))) in *.
  assert (claim c = set_len 0 (set_use true (set_dir false c))) as Ecl by (unfold claim; by rewrite Hu, Hr).
  rewrite Ecl in Ec. split; [done|]. split; [done|]. intros m' E.
  assert (load 2 m1 (buf_Length b) = 0) as El by exact (f_equal buf_len Ec).
  assert (truth (load8 m1 (buf_Direction b)) = false) as -> by exact (f_equal outgoing Ec).
  rewrite El. change (negb false && negb (0 =? TCP_WINDOW_SIZE)) with true. cbv iota. by rewrite E.
Qed.

(** The copy into an empty buffer. *)
Lemma copy_overruns m1 t : (i < 2)%nat -> 518 <= data_length IP IN m -> R OUT m None t m1 -> sg_flags sg = TCP_FLAG_ACK ->
  load 2 m1 (buf_Length (info_Buffer (conn_Info (conn_entry i)))) = 0 ->
  exists m4, copy_segment IP IN OUT (conn_Info (conn_entry i)) m1 = (Some false, m4)
    /\ forall k, (515 <= k < 518)%nat -> load8 m4 (conn_entry i + 18 + Z.of_nat k) = byte (sg_data sg) k.
Proof.
  intros Hi2 Hlong HR1 Hfl. set (b := info_Buffer (conn_Info (conn_entry i))) in *. intros El.
  assert (inside (conn_entry i) 1068) as Hin.
  { unfold inside, sizeof_table, conn_entry, sizeof_ConnectionState in *. lia. }
  assert (0 <= data_length IP IN m) as Hd0 by lia.
  unfold copy_segment. cbv zeta. fold b. unfold copy. rewrite El, Z.add_0_r.
  rewrite (data_length_at IP IN OUT n m Ht Hp Ho Hi Hn Htp Hto Hpo Hd0 Hdn _ _ _ HR1).
  rewrite (data_at IP IN OUT n m Ht Hp Ho Hi Hn Htp Hto Hpo Hd0 Hdn _ _ _ HR1).
  assert (Z.of_nat (length (sg_data sg)) = data_length IP IN m) as Ld by (rewrite length_data; lia).
  set (d := sg_data sg) in *. assert (Forall is_u8 d) as Hdu by apply load_bytes_u8.
  set (m2 := store_bytes m1 (buf_Data b) d). set (m3 := store 4 m2 _ _). set (m4 := store 2 m3 _ _).
  assert (changed_in m1 m4 (conn_entry i) (18 + data_length IP IN m)) as Hc4.
  { unfold m4, m3, m2, store, buf_Length, info_SequenceNumberIn, b, buf_Data, info_Buffer, conn_Info.
    repeat first [apply changed_refl | eapply changed_trans; [|apply changed_store; rewrite ?length_le_bytes, ?Ld; unfold inside in *; lia]]. }
  assert (load 2 m4 (buf_Length b) = data_length IP IN m) as ->.
  { unfold m4 at 1. rewrite load_same by (unfold b, buf_Length, info_Buffer, conn_Info, inside in *; lia).
    assert (load 2 m3 (buf_Length b) = 0) as ->.
    { rewrite <- El. unfold m3, m2, store, load, buf_Length, info_SequenceNumberIn, b, buf_Data, info_Buffer, conn_Info, inside in *.
      rewrite !load_bytes_disjoint by (rewrite ?length_le_bytes; unfold inside; lia). done. }
    rewrite Z.add_0_l. apply wrap_id. unfold is_u, inside in *. lia. }
  rewrite full_test by (unfold is_u, inside in *; lia).
  assert (seg_flags IN m4 = TCP_FLAG_ACK) as ->.
  { rewrite <- Hfl, <- (seg_flags_at IP IN OUT n m Ht Hp Ho Hi Hn Htp Hto Hpo _ _ _ HR1).
    unfold seg_flags, tcp_Flags. apply Hc4; unfold inside, apart in *; lia. }
  destruct (Z.eqb_spec (data_length IP IN m) TCP_WINDOW_SIZE); [unfold TCP_WINDOW_SIZE in *; lia|].
  change (truth (TCP_FLAG_ACK .& TCP_FLAG_PSH)) with false. cbn [orb]. exists m4. split; [done|].
  intros k Hk. replace (conn_entry i + 18) with (buf_Data b) by (unfold buf_Data, b, info_Buffer, conn_Info; lia).
  unfold m4, m3, store, buf_Length, info_SequenceNumberIn. unfold b, buf_Data, info_Buffer, conn_Info, inside in *.
  rewrite !store_bytes_out by (rewrite ?length_le_bytes; unfold inside; lia). apply load8_stored; [unfold inside; lia|done|lia].
Qed.

Lemma overrun : (i < 2)%nat -> 518 <= data_length IP IN m ->
  TCP_GetPortState (k_port (sg_key sg)) m = TCP_Port_Open -> sg_flags sg = TCP_FLAG_ACK ->
  find_slot (sg_key sg) (table_of m) = Some i ->
  conn_st c = TCP_Connection_Established -> in_use c = false -> ready c = false ->
  let m' := (TCP_ProcessTCPPacket IP IN OUT m).2 in
  load8 m' (conn_State (conn_entry i)) = byte (sg_data sg) 515
  /\ load 2 m' (conn_Port (conn_entry (S i))) = le_value (sub (sg_data sg) 516 2).
Proof.
  intros Hi2 Hlong Hport Hfl Hf Hst Hu Hr. cbv zeta.
  destruct (data_dispatch ltac:(lia) Hport Hfl Hf Hst Hu Hr) as (m1 & HR1 & Ec & Hres).
  destruct (copy_overruns m1 _ Hi2 Hlong HR1 Hfl (f_equal buf_len Ec)) as (m4 & E4 & H4). rewrite (Hres m4 E4).
  assert (conn_entry i + 18 + Z.of_nat 515 = conn_entry i + 533) as E515 by lia.
  assert (conn_entry i + 18 + Z.of_nat 516 = conn_entry (S i)) as E516 by (unfold conn_entry, sizeof_ConnectionState; lia).
  assert (conn_entry i + 18 + Z.of_nat 517 = conn_entry (S i) + 1) as E517 by lia.
  unfold load, conn_State, conn_Port. cbn [load_bytes]. rewrite <- E515, <- E517, <- E516, !H4 by lia. split; [done|].
  by rewrite sub_bytes2 by (rewrite length_data; lia).
Qed.
End Overrun.

(** the size of a segment is not checked.  In an established connection with a free buffer, a
    segment of at least 518 bytes is copied over the end of the 512-byte buffer: byte 515 of the
    data is the new state of the connection, and the next two are the port of the next one. *)
Theorem segment_overruns_buffer {LY : Layout} IP IN OUT n m i :
  inside ConnectionStateTable sizeof_table -> inside IP n -> inside OUT sizeof_TCP_Header ->
  IP + 20 <= IN -> IN + 20 <= IP + n -> apart ConnectionStateTable sizeof_table IP n ->
  apart ConnectionStateTable sizeof_table OUT sizeof_TCP_Header -> apart IP n OUT sizeof_TCP_Header ->
  IN + data_start IN m + data_length IP IN m <= IP + n ->
  inside (conn_entry i) (18 + data_length IP IN m) -> apart (conn_entry i) (18 + data_length IP IN m) IP n ->
  (i < 2)%nat -> 518 <= data_length IP IN m ->
  let sg := segment_of IP IN m in
  let c := slot_of m (conn_entry i) in
  TCP_GetPortState (k_port (sg_key sg)) m = TCP_Port_Open -> sg_flags sg = TCP_FLAG_ACK ->
  find_slot (sg_key sg) (table_of m) = Some i ->
  conn_st c = TCP_Connection_Established -> in_use c = false -> ready c = false ->
  let m' := (TCP_ProcessTCPPacket IP IN OUT m).2 in
  load8 m' (conn_State (conn_entry i)) = byte (sg_data sg) 515
  /\ load 2 m' (conn_Port (conn_entry (S i))) = le_value (sub (sg_data sg) 516 2).
Proof. intros Ht Hp Ho Hi Hn Htp Hto Hpo Hdn Hb Hbp Hi2 Hl. by apply (overrun IP IN OUT n). Qed.

(** ** A port that is not open *)

Section ClosedPort.
Context {LY : Layout} (IP IN OUT n : Z) (m : mem).
Context (Ht : inside ConnectionStateTable sizeof_table) (Hp : inside IP n) (Ho : inside OUT 20).
Context (Hi : IP + 20 <= IN) (Hn : IN + 20 <= IP + n).
Context (Htp : apart ConnectionStateTable sizeof_table IP n) (Hto : apart ConnectionStateTable sizeof_table OUT 20) (Hpo : apart IP n OUT 20).
Abbreviation K := (sg_key (segment_of IP IN m)).

Lemma closed_port : TCP_GetPortState (k_port K) m <> TCP_Port_Open -> find_slot K (table_of m) = None -> 525 <= OUT ->
  let res := TCP_ProcessTCPPacket IP IN OUT m in
  exists w, res.1 = sizeof_TCP_Header
    /\ load_bytes res.2 OUT 20 = tcp_segment (load_bytes m (ip_DestinationAddress IP) 4) (k_addr K) K
         (load 4 m 4) (load 4 m 0) (TCP_FLAG_RST .| TCP_FLAG_ACK) w [].
Proof.
  intros Hport Hf Hout. cbv zeta. unfold TCP_ProcessTCPPacket. cbn [segment_of sg_key k_port] in Hport.
  rewrite (proj2 (Z.eqb_neq _ _) Hport).
  assert (R OUT m None (table_of m) m) as HR by (by repeat split).
  apply (R_flags IP IN OUT n m Ht Hp Ho Hi Hn Htp Hto Hpo _ _ _ (TCP_FLAG_RST .| TCP_FLAG_ACK)) in HR; [|split; vm_compute; congruence].
  set (m1 := out_flags OUT _ m) in *. cbn [fst snd].
  assert (seg_get_info IP IN m1 = 0) as Einfo.
  { unfold seg_get_info, TCP_GetConnectionInfo. by rewrite (seg_find IP IN OUT n m Ht Hp Ho Hi Hn Htp Hto Hpo _ _ _ HR), Hf. }
  destruct (respond_stores IP IN OUT n m Ht Hp Ho Hi Hn Htp Hto Hpo _ _ m1 0 HR Einfo) as (m2 & -> & Hch & Hh);
    [unfold inside, apart in *; lia..|].
  rewrite (proj2 (proj2 HR) _ eq_refl) in Hh.
  set (w := if truth _ then _ else _) in Hh. exists w. clearbody w. split; [done|].
  assert (changed_in m m1 OUT 20) as Hc1.
  { unfold m1, out_flags. rewrite store8_bytes. apply changed_store; cbn [length]; unfold inside, tcp_Flags in *; lia. }
  assert (forall a, 0 <= a <= 4 -> load 4 m1 a = load 4 m a) as Hl.
  { intros a ?. unfold load. apply f_equal. apply (changed_load _ _ _ _ _ _ Hc1); unfold inside in *; lia. }
  unfold info_SequenceNumberIn, info_SequenceNumberOut in Hh. rewrite !Hl in Hh by lia.
  unfold store, tcp_Checksum. rewrite (load_region _ _ _ _ 16) by (rewrite ?length_le_bytes; auto with cint; unfold inside in *; lia).
  rewrite TCP_Checksum16_ref by (try done; try lia; apply load_bytes_u8).
  change (Z.to_nat 20) with 20%nat. rewrite Hh. unfold tcp_segment. by rewrite app_nil_r.
Qed.
End ClosedPort.

(** ** The length test *)

Lemma accepted_frame_length FrameIN m : accepted FrameIN m = true -> 6 <= load 2 m (FrameLength FrameIN) mod 256.
Proof.
  unfold accepted. rewrite andb_true_iff. intros [_ H%Z.ltb_lt].
  pose proof (load_u 2 m (FrameLength FrameIN)) as Hu. change (8 * Z.of_nat 2) with 16 in Hu.
  rewrite swap_length in H by done. unfold ETHERNET_VER2_MINSIZE, is_u in *. zmod.
Qed.
