(* ===== verification/NetworkExamples.v ===== *)
(** * NetworkExamples: the network theorems on concrete frames

    A layout of the statics, frames of a client, and runs of the demo on them.  The last part
    has a client that acknowledges every frame, and two clients of the web server at once. *)
From S2P Require Import Prelude Machine Ram Network Checksum Tcp Webserver Ethernet Packets PacketReplies.
From S2P Require Import NodeRefinement TcpServer TcpRefinement TcpHeader TcpFrames TcpSessions TcpTask WebPages FrameChecks.
From Stdlib Require String.
Import (notations) String.
Import Net Tcp Web Ethernet.

(** Ports, page counter, connections; the frames are at 0x1000 and 0x2000. *)
Definition demo_layout : Layout :=
  {| PortStateTable := 0x300; ConnectionStateTable := 0x320; PageBlock := 0x310;
     flash_behind_HTTPPage := fun i => if decide (i < 200)%nat then 83 else 0 |}.
#[local] Existing Instance demo_layout.
Abbreviation F := 0x1000.
Abbreviation G := 0x2000.

(** Memory after reset and the start of [main]. *)
Definition reset_mem : mem := Webserver_Init 0x1234 (TCP_Init (fun _ => 0)).

(** ** Frames of a client *)

Definition client : list Z := [10; 0; 0; 1].
Definition from_client (port fl seq : Z) (data : list Z) : list Z :=
  ServerMACAddress ++ AdapterMACAddress ++ [8; 0]
  ++ [0x45; 0] ++ be_bytes 2 (40 + Z.of_nat (length data)) ++ [1; 2; 0; 0; 64; 6; 0; 0] ++ client ++ ServerIPAddress
  ++ be_bytes 2 port ++ [0; 80] ++ be_bytes 4 seq ++ [0; 0; 0; 0; 0x50; fl; 2; 0; 0; 0; 0; 0] ++ data.

Definition syn (port : Z) : list Z := from_client port TCP_FLAG_SYN 1000 [].
Definition ack (port : Z) : list Z := from_client port TCP_FLAG_ACK 1001 [].
Definition get_start (port : Z) : list Z := from_client port TCP_FLAG_ACK 1001 (chars "GET ").
Definition get_rest (port : Z) : list Z := from_client port (TCP_FLAG_ACK .| TCP_FLAG_PSH) 1005 (chars "/ HTTP/1.1" ++ CRLF ++ CRLF).

Definition ping : list Z :=
  ServerMACAddress ++ AdapterMACAddress ++ [8; 0]
  ++ [0x45; 0; 0; 60; 1; 2; 0; 0; 64; 1; 0; 0; 10; 0; 0; 1; 10; 0; 0; 2]
  ++ [8; 0; 0x12; 0x34; 1; 2; 3; 4] ++ (Z.of_nat <$> seq 0 32).
(** An echo request with one byte of data. *)
Definition odd_ping : list Z :=
  ServerMACAddress ++ AdapterMACAddress ++ [8; 0]
  ++ [0x45; 0; 0; 29; 1; 2; 0; 0; 64; 1; 0; 0; 10; 0; 0; 1; 10; 0; 0; 2] ++ [8; 0; 0; 0; 1; 2; 3; 4; 7].

Definition arrived (f : list Z) (m : mem) : mem := store 2 (store_bytes m (FrameData F) f) (FrameLength F) (Z.of_nat (length f)).

(** An established connection in slot [i]; [data] is a request that is complete. *)
Definition client_key (port : Z) : key := Key TCP_PORT_HTTP client (SwapEndian_16 port).
Definition established (i : nat) (port : Z) (m : mem) : mem :=
  let c := conn_entry i in
  let m := store 2 m (conn_Port c) TCP_PORT_HTTP in
  let m := store_bytes m (conn_RemoteAddress c) client in
  let m := store 2 m (conn_RemotePort c) (SwapEndian_16 port) in
  store8 m (conn_State c) TCP_Connection_Established.
Definition requested (i : nat) (port : Z) (m : mem) : mem :=
  let b := info_Buffer (conn_Info (conn_entry i)) in
  let m := established i port m in
  let m := store_bytes m (buf_Data b) (chars "GET / HTTP/1.1") in
  let m := store 2 m (buf_Length b) 14 in
  store8 m (buf_Ready b) 1.

Ltac places := unfold in_place, web_in_place, inside, apart; vm_compute; intuition congruence.

Definition pong : list Z := default [] (default None (node ping)).
Definition ponged : mem := arrived ping reset_mem.

Lemma frames_refine_node_witness :
  exists m', Ethernet_ProcessPacket F G ponged = Some m' /\ frame_handled F G ponged (Some pong) m'.
Proof.
  apply (frames_refine_node F G ponged ping (Some pong)); [places..| | | | |]; vm_compute; congruence.
Defined.

Lemma tcp_exchange_refines_server_witness :
  exists m', deliver_all F G [syn 4000; ack 4000; get_start 4000; get_rest 4000] reset_mem
      = Some ((serve_all [syn 4000; ack 4000; get_start 4000; get_rest 4000] (table_of reset_mem)).1, m')
    /\ table_of m' = (serve_all [syn 4000; ack 4000; get_start 4000; get_rest 4000] (table_of reset_mem)).2.
Proof.
  apply tcp_exchange_refines_server; [places|vm_compute; reflexivity|vm_compute; reflexivity|].
  repeat constructor; vm_compute; reflexivity.
Defined.

Ltac runs := vm_compute; reflexivity.
Ltac ports := repeat constructor; runs.

(** Client 5000 is connected; client 4000 opens a connection and sends a request. *)
Definition one_client : mem := established 0 5000 reset_mem.
Definition session : list (list Z) := [syn 4000; ack 4000; get_start 4000; get_rest 4000].

Lemma tcp_connections_isolated_witness :
  exists rs m', deliver_all F G session one_client = Some (rs, m')
    /\ connection (client_key 5000) (table_of m') = Some (slot_of one_client (conn_entry 0)).
Proof.
  apply tcp_connections_isolated; [places|runs|runs|ports|runs|vm_compute; congruence|].
  repeat constructor; vm_compute; congruence.
Defined.

Lemma tcp_handshake_witness :
  exists m' c c', deliver_all F G [syn 4000; ack 4000] one_client
      = Some ([Some (tcp_reply (syn 4000) c (TCP_FLAG_SYN .| TCP_FLAG_ACK)); None], m')
    /\ seq_out c = 0 /\ seq_in c = u32 (sg_seq (seg (syn 4000)) + 1) /\ window_of c = TCP_WINDOW_SIZE
    /\ connection (client_key 4000) (table_of m') = Some c' /\ conn_st c' = TCP_Connection_Established
    /\ seq_out c' = 1 /\ seq_in c' = seq_in c.
Proof.
  apply tcp_handshake; [places|runs|runs|ports|runs..|]. right. eexists. runs.
Defined.

Lemma request_assembled_witness :
  exists m' c', deliver_all F G [get_start 5000; get_rest 5000] one_client
      = Some ([None; Some (tcp_reply (get_rest 5000) c' TCP_FLAG_ACK)], m')
    /\ connection (client_key 5000) (table_of m') = Some c'
    /\ take 18 (buf_data c') = chars "GET / HTTP/1.1" ++ CRLF ++ CRLF.
Proof.
  destruct (request_assembled F G [get_start 5000] (get_rest 5000) one_client (client_key 5000)
              (slot_of one_client (conn_entry 0))) as (m' & c' & H1 & H2 & _ & _ & H3 & _).
  1: places. 1-2: runs. 1: ports. 1-4: runs. 1: ports. 1-2: runs. 1-2: (vm_compute; lia).
  exists m', c'. split; [exact H1|]. split; [exact H2|exact H3].
Defined.

Definition one_request : mem := requested 1 4000 reset_mem.

(** A frame for another station. *)
Definition chatter : list Z := [2; 2; 2; 2; 2; 2] ++ AdapterMACAddress ++ [8; 0] ++ replicate 46 0.

(** The client acknowledges the first three frames; then other stations are heard. *)
Definition rounds : list (option (list Z)) :=
  [None; Some (ack 4000); None; None; Some (ack 4000); Some (ack 4000); Some chatter; None; Some chatter; None].

Lemma page_served_witness :
  let s := slot_of one_request (conn_entry 1) in
  concat parts = text HTTP200Header ++ text HTTPPage
  /\ exists m', main_rounds F G rounds one_request
         = Some (data_frames (s_key s) (seq_out s) (seq_in s) parts, m')
       /\ conn_st (slot_of m' (conn_entry 1)) = TCP_Connection_Closing.
Proof.
  destruct (page_served F G 1 (slot_of one_request (conn_entry 1)) one_request rounds) as (Hp & m' & E & H).
  1: places. 1: (vm_compute; lia). 1: reflexivity. 2-6: runs.
  - split; [runs|runs| |]; intros [|[|[|j]]] Hj Hne; try lia; try runs; vm_compute; congruence.
  - intros j f Hj. do 5 (destruct j as [|j]; [apply (inj Some) in Hj as <-; first [left; runs|right; split; [lia|runs]]|]). done.
  - split; [exact Hp|]. exists m'. split; [exact E|]. apply H. vm_compute. lia.
Defined.

Lemma sent_frames_verify_witness :
  let m' := send_segment G 1 one_request in
  frame_verifies (load_bytes m' (FrameData G) (Z.to_nat (load 2 m' (FrameLength G)))).
Proof. apply sent_frames_verify; [places..|]. vm_compute. congruence. Defined.

Lemma checksums_match_reference_witness :
  Ethernet_Checksum16 ponged (FrameData F + 14) 20
  = 65535 - ones_sum (words16 (load_bytes ponged (FrameData F + 14) 20)).
Proof.
  refine (proj1 (checksums_match_reference ponged (FrameData F + 14) 20 client ServerIPAddress _ _ _ _ _));
    [lia|apply bytes_u8; runs|apply bytes_u8; runs|runs|runs].
Defined.

(** A segment of 520 bytes whose tail is the state Closed and another port. *)
Definition long_data : list Z := replicate 515 65 ++ [TCP_Connection_Closed; 0x12; 0x34; 0; 0].
Definition long_segment : mem := arrived (from_client 5000 TCP_FLAG_ACK 1001 long_data) one_client.

Lemma segment_overruns_buffer_witness :
  let m' := (TCP_ProcessTCPPacket (F + 14) (F + 34) (G + 34) long_segment).2 in
  load8 m' (conn_State (conn_entry 0)) = TCP_Connection_Closed /\ load 2 m' (conn_Port (conn_entry 1)) = 0x3412.
Proof.
  refine (segment_overruns_buffer (F + 14) (F + 34) (G + 34) 560 long_segment 0 _ _ _ _ _ _ _ _ _ _ _ _ _ _ _ _ _ _ _).
  1-11: places. 1: lia. 1: (vm_compute; congruence). 1-2: runs. 1-4: (lazy; reflexivity).
Defined.

(** ** Beyond the limits *)

(** The answer to an odd echo request does not pass the receiver's test. *)
Lemma odd_ping_fails_checksum :
  match Ethernet_ProcessPacket F G (arrived odd_ping reset_mem) with
  | Some m' => load 2 m' (FrameLength G) = 43 /\ ~ checksum_ok (load_bytes m' (FrameData G + 34) 9)
  | None => False
  end.
Proof. vm_compute. split; [reflexivity|discriminate]. Qed.

(** The data of the frames that were sent. *)
Definition data_sent (r : option (list (list Z) * mem)) : list (list Z) :=
  match r with Some (fs, _) => drop 54 <$> fs | None => [] end.

(** A client that acknowledges every frame: the fourth acknowledgement finds the connection
    closing, is answered with FIN in the outgoing frame, and the block that waited there is lost. *)
Lemma acknowledged_page_is_cut :
  data_sent (main_rounds F G (concat (replicate 6 [None; Some (ack 4000)])) one_request)
  = [part 0; part 1; part 2; []; part 4].
Proof. vm_compute. reflexivity. Qed.

(** Two clients have sent their requests.  The first gets its page; the second is sent a header,
    and then flash from 16 bytes behind the page on, as its connection stays open. *)
Definition two_requests : mem := requested 1 5000 (requested 0 4000 reset_mem).

Lemma second_client_reads_past_page :
  match main_rounds F G (replicate 7 (Some chatter)) two_requests with
  | Some (fs, m') =>
      concat (drop 54 <$> take 6 fs) = text HTTP200Header ++ text HTTPPage ++ text HTTP200Header
      /\ drop 54 <$> fs !! 6%nat = Some (flash_behind_HTTPPage <$> seq 16 128)
      /\ load8 m' (conn_State (conn_entry 1)) = TCP_Connection_Established
  | None => False
  end.
Proof. vm_compute. repeat split; reflexivity. Qed.
