(* ===== verification/HidDevice.v ===== *)
(** * HidDevice: the human interface device class driver
    ([LUFA/Drivers/USB/Class/Device/HIDClassDevice.c])

    [p] is [HIDInterfaceInfo].  The application creates and consumes the reports: its callbacks
    are the class [HidCallbacks]. *)
From S2P Require Import Prelude Machine Ram Logic Endpoint EndpointStream UsbController DeviceRequests.
From S2P Require Import ClassMemory HidParser.

(** [enum HID_ClassRequests_t] *)
Definition HID_REQ_GetReport := 0x01.
Definition HID_REQ_GetIdle := 0x02.
Definition HID_REQ_GetProtocol := 0x03.
Definition HID_REQ_SetReport := 0x09.
Definition HID_REQ_SetIdle := 0x0A.
Definition HID_REQ_SetProtocol := 0x0B.

(** The application.  [CreateHIDReport] is given [*ReportID], the report type, the report buffer
    and [*ReportSize], and returns its verdict with the new values of the three. *)
Class HidCallbacks `{Hardware} := {
  CALLBACK_HID_Device_CreateHIDReport :
    Preempt -> Z -> Z -> Z -> buffer -> Z -> M (bool * Z * buffer * Z);
  CALLBACK_HID_Device_ProcessHIDReport : Preempt -> Z -> Z -> Z -> buffer -> Z -> M unit }.

Module HidDevice.
Import Endpoint Stream Controller Requests ClassMemory.

(** Members of [USB_ClassInfo_HID_Device_t]. *)
Definition InterfaceNumber (p : Z) : Z := p.
Definition ReportINEndpoint (p : Z) : Z := p + 1.
Definition PrevReportINBuffer (p : Z) : Z := p + 6.
Definition PrevReportINBufferSize (p : Z) : Z := p + 8.
Definition State (p : Z) : Z := p + 9.
Definition UsingReportProtocol (p : Z) : Z := State p.
Definition PrevFrameNum (p : Z) : Z := State p + 1.
Definition IdleCount (p : Z) : Z := State p + 3.
Definition IdleMSRemaining (p : Z) : Z := State p + 5.
Definition sizeof_State : Z := 7.
Definition sizeof_ClassInfo : Z := 16.

(** A local array of [n] bytes after [memset]; what lies behind it is the rest of the stack. *)
Definition cleared (n : Z) (stack : buffer) : buffer :=
  fun i => if (0 <=? i) && (i <? n) then 0 else stack i.

Definition buffer_bytes (b : buffer) (n : Z) : list Z := b <$> range (Z.to_nat n).

Section HidDevice.
Context {HW : Hardware} {PRE : Preempt} {FU : Fuel} {CB : HidCallbacks}.

(** [if (PrevReportINBuffer != NULL) memcpy(PrevReportINBuffer, ReportData, ...)] *)
Definition save_report (p : Z) (ReportData : buffer) : M unit :=
  prev <- peek (fun m => load 2 m (PrevReportINBuffer p)) ;;
  n <- peek (fun m => load8 m (PrevReportINBufferSize p)) ;;
  when truth prev do poke (fun m => store_bytes m prev (buffer_bytes ReportData n)).

Definition get_report (stack : buffer) (p : Z) : M unit :=
  req <- get_request ;;
  n <- peek (fun m => load8 m (PrevReportINBufferSize p)) ;;
  let ReportID := u8 (wValue req .& 0xFF) in
  let ReportType := u8 ((wValue req .>> 8) - 1) in
  r <- CALLBACK_HID_Device_CreateHIDReport PRE p ReportID ReportType (cleared n stack) 0 ;;
  let '(_, _, ReportData, ReportSize) := r in
  save_report p ReportData ;;
  Endpoint_SelectEndpoint ENDPOINT_CONTROLEP ;;
  Endpoint_ClearSETUP ;;
  Endpoint_Write_Control_Stream_LE ReportData ReportSize ;;
  Endpoint_ClearOUT.

Definition set_report (stack : buffer) (p : Z) : M unit :=
  req <- get_request ;;
  let ReportSize := wLength req in
  let ReportID := u8 (wValue req .& 0xFF) in
  let ReportType := u8 ((wValue req .>> 8) - 1) in
  Endpoint_ClearSETUP ;;
  r <- Endpoint_Read_Control_Stream_LE stack ReportSize ;;
  Endpoint_ClearIN ;;
  let skip := if truth ReportID then 1 else 0 in
  CALLBACK_HID_Device_ProcessHIDReport PRE p ReportID ReportType
    (fun i => r.2 (skip + i)) (u16 (ReportSize - skip)).

Definition set_idle (p : Z) : M unit :=
  Endpoint_ClearSETUP ;;
  Endpoint_ClearStatusStage ;;
  req <- get_request ;;
  poke (fun m => store 2 m (IdleCount p) ((wValue req .& 0xFF00) .>> 6)).

Definition get_idle (p : Z) : M unit := answer_byte (peek (fun m => load 2 m (IdleCount p) .>> 2)).

Definition HID_Device_ProcessControlRequest (stack : buffer) (p : Z) : M unit :=
  setup <- Endpoint_IsSETUPReceived ;;
  if negb setup then ret tt
  else
    req <- get_request ;;
    n <- peek (fun m => load8 m (InterfaceNumber p)) ;;
    if negb (wIndex req =? n) then ret tt
    else
      let b := bRequest req in
      if b =? HID_REQ_GetReport then
        when bmRequestType req =? class_to_host do get_report stack p
      else if b =? HID_REQ_SetReport then
        when bmRequestType req =? class_to_device do set_report stack p
      else if b =? HID_REQ_GetProtocol then
        when bmRequestType req =? class_to_host do
          answer_byte (peek (fun m => load8 m (UsingReportProtocol p)))
      else if b =? HID_REQ_SetProtocol then
        when bmRequestType req =? class_to_device do
          (Endpoint_ClearSETUP ;;
           Endpoint_ClearStatusStage ;;
           req <- get_request ;;
           poke (fun m => store8 m (UsingReportProtocol p)
                            (if truth (wValue req .& 0xFF) then 1 else 0)))
      else if b =? HID_REQ_SetIdle then
        when bmRequestType req =? class_to_device do set_idle p
      else if b =? HID_REQ_GetIdle then
        when bmRequestType req =? class_to_host do get_idle p
      else ret tt.

Definition HID_Device_ConfigureEndpoints (p : Z) : M bool :=
  poke (fun m => memset m (State p) 0 (Z.to_nat sizeof_State)) ;;
  poke (fun m => store8 m (UsingReportProtocol p) 1) ;;
  poke (fun m => store 2 m (IdleCount p) 500) ;;
  poke (fun m => store8 m (table_Type (ReportINEndpoint p)) EP_TYPE_INTERRUPT) ;;
  ok <- ConfigureTable_ram (ReportINEndpoint p) ;;
  if negb ok then ret false else ret true.

(** [(ReportINSize && (ForceSend || StatesChanged || IdlePeriodElapsed))] *)
Definition report_due (m : mem) (p : Z) (ForceSend : bool) (ReportINData : buffer)
    (ReportINSize : Z) : bool :=
  let prev := load 2 m (PrevReportINBuffer p) in
  let StatesChanged :=
    truth prev && bool_decide (buffer_bytes ReportINData ReportINSize
                               <> load_bytes m prev (Z.to_nat ReportINSize)) in
  let IdlePeriodElapsed :=
    truth (load 2 m (IdleCount p)) && negb (truth (load 2 m (IdleMSRemaining p))) in
  truth ReportINSize && (ForceSend || StatesChanged || IdlePeriodElapsed).

Definition HID_Device_USBTask (stack : buffer) (p : Z) : M unit :=
  d <- get_state ;;
  if decide (d = DEVICE_STATE_Configured) then
    prev <- peek (fun m => load 2 m (PrevFrameNum p)) ;;
    f <- USB_Device_GetFrameNumber ;;
    if prev =? f then ret tt
    else
      SelectTable_ram (ReportINEndpoint p) ;;
      rwal <- Endpoint_IsReadWriteAllowed ;;
      when rwal do
        (n <- peek (fun m => load8 m (PrevReportINBufferSize p)) ;;
         r <- CALLBACK_HID_Device_CreateHIDReport PRE p 0 Hid.HID_REPORT_ITEM_In (cleared n stack) 0 ;;
         let '(ForceSend, ReportID, ReportINData, ReportINSize) := r in
         due <- peek (fun m => report_due m p ForceSend ReportINData ReportINSize) ;;
         save_report p ReportINData ;;
         (when due do
            (poke (fun m => store 2 m (IdleMSRemaining p) (load 2 m (IdleCount p))) ;;
             SelectTable_ram (ReportINEndpoint p) ;;
             (when truth ReportID do Endpoint_Write_8 ReportID) ;;
             Endpoint_Write_Stream_LE ReportINData ReportINSize None ;;
             Endpoint_ClearIN)) ;;
         f <- USB_Device_GetFrameNumber ;;
         poke (fun m => store 2 m (PrevFrameNum p) f))
  else ret tt.

Definition HID_Device_MillisecondElapsed (p : Z) : M unit :=
  n <- peek (fun m => load 2 m (IdleMSRemaining p)) ;;
  when truth n do
    poke (fun m => store 2 m (IdleMSRemaining p) (load 2 m (IdleMSRemaining p) - 1)).
End HidDevice.
End HidDevice.
