(* ===== verification/MassStorage.v ===== *)
(** * MassStorage: the mass storage class driver
    ([LUFA/Drivers/USB/Class/Device/MassStorageClassDevice.c])

    [p] is [MSInterfaceInfo].  The library is built with [INTERRUPT_CONTROL_ENDPOINT], so that
    [MS_Device_ReturnCommandStatus] waits for a stall to be cleared without calling
    [USB_USBTask].  [IsMassStoreReset] is volatile: reading it is an interrupt point. *)
From S2P Require Import Prelude Machine Ram Logic Endpoint EndpointStream UsbController DeviceRequests.
From S2P Require Import ClassMemory.

Definition MS_REQ_GetMaxLUN := 0xFE.
Definition MS_REQ_MassStorageReset := 0xFF.
Definition MS_CBW_SIGNATURE := 0x43425355.
Definition MS_CSW_SIGNATURE := 0x53425355.
Definition MS_COMMAND_DIR_DATA_IN := 1 .<< 7.
Definition MS_SCSI_COMMAND_Pass := 0.
Definition MS_SCSI_COMMAND_Fail := 1.

(** The application's SCSI interpreter. *)
Class MsCallbacks `{Hardware} := {
  CALLBACK_MS_Device_SCSICommandReceived : Preempt -> Z -> M bool }.

Module MassStorage.
Import Endpoint Stream Controller Requests ClassMemory.

(** Members of [USB_ClassInfo_MS_Device_t]. *)
Definition InterfaceNumber (p : Z) : Z := p.
Definition DataINEndpoint (p : Z) : Z := p + 1.
Definition DataOUTEndpoint (p : Z) : Z := p + 6.
Definition TotalLUNs (p : Z) : Z := p + 11.
Definition State (p : Z) : Z := p + 12.
Definition CommandBlock (p : Z) : Z := State p.
Definition CommandStatus (p : Z) : Z := State p + 31.
Definition IsMassStoreReset (p : Z) : Z := State p + 44.
Definition sizeof_State : Z := 45.
Definition sizeof_ClassInfo : Z := 57.

(** Members of [MS_CommandBlockWrapper_t] and [MS_CommandStatusWrapper_t]. *)
Definition cbw_Signature (a : Z) : Z := a.
Definition cbw_Tag (a : Z) : Z := a + 4.
Definition cbw_DataTransferLength (a : Z) : Z := a + 8.
Definition cbw_Flags (a : Z) : Z := a + 12.
Definition cbw_LUN (a : Z) : Z := a + 13.
Definition cbw_SCSICommandLength (a : Z) : Z := a + 14.
Definition cbw_SCSICommandData (a : Z) : Z := a + 15.
Definition sizeof_CommandBlockWrapper : Z := 31.
Definition csw_Signature (a : Z) : Z := a.
Definition csw_Tag (a : Z) : Z := a + 4.
Definition csw_DataTransferResidue (a : Z) : Z := a + 8.
Definition csw_Status (a : Z) : Z := a + 12.
Definition sizeof_CommandStatusWrapper : Z := 13.

Section MassStorage.
Context {HW : Hardware} {PRE : Preempt} {FU : Fuel} {CB : MsCallbacks}.

Definition get_reset (p : Z) : M bool :=
  preempt ;; peek (fun m => truth (load8 m (IsMassStoreReset p))).
Definition put_reset (p : Z) (b : bool) : M unit :=
  preempt ;; poke (fun m => store8 m (IsMassStoreReset p) (if b then 1 else 0)).

Definition MS_Device_ProcessControlRequest (p : Z) : M unit :=
  setup <- Endpoint_IsSETUPReceived ;;
  if negb setup then ret tt
  else
    req <- get_request ;;
    n <- peek (fun m => load8 m (InterfaceNumber p)) ;;
    if negb (wIndex req =? n) then ret tt
    else if bRequest req =? MS_REQ_MassStorageReset then
      when bmRequestType req =? class_to_device do
        (Endpoint_ClearSETUP ;;
         Endpoint_ClearStatusStage ;;
         put_reset p true)
    else if bRequest req =? MS_REQ_GetMaxLUN then
      when bmRequestType req =? class_to_host do
        answer_byte (peek (fun m => load8 m (TotalLUNs p) - 1))
    else ret tt.

Definition MS_Device_ConfigureEndpoints (p : Z) : M bool :=
  poke (fun m => memset m (State p) 0 (Z.to_nat sizeof_State)) ;;
  poke (fun m => store8 m (table_Type (DataINEndpoint p)) EP_TYPE_BULK) ;;
  poke (fun m => store8 m (table_Type (DataOUTEndpoint p)) EP_TYPE_BULK) ;;
  ok <- ConfigureTable_ram (DataINEndpoint p) ;;
  if negb ok then ret false
  else
    ok <- ConfigureTable_ram (DataOUTEndpoint p) ;;
    if negb ok then ret false else ret true.

(** [while (stream(...) == IncompleteTransfer) if (IsMassStoreReset) return]: whether the loop
    was left at its end. *)
Definition transfer_loop (p : Z) (stream : option Z -> M (Z * option Z)) : M bool :=
  iter fuel (fun BytesProcessed =>
    r <- stream (Some BytesProcessed) ;;
    if r.1 =? ENDPOINT_RWSTREAM_IncompleteTransfer then
      reset <- get_reset p ;;
      ret (if reset : bool then inr false else inl (default BytesProcessed r.2))
    else ret (inr true)) 0.

(** The test of the received command block. *)
Definition invalid_block (m : mem) (p : Z) : bool :=
  let a := CommandBlock p in
  negb (load 4 m (cbw_Signature a) =? MS_CBW_SIGNATURE)
  || (load8 m (TotalLUNs p) <=? load8 m (cbw_LUN a))
  || truth (load8 m (cbw_Flags a) .& 0x1F)
  || (load8 m (cbw_SCSICommandLength a) =? 0)
  || (16 <? load8 m (cbw_SCSICommandLength a)).

Definition MS_Device_ReadInCommandBlock (p : Z) : M bool :=
  SelectTable_ram (DataOUTEndpoint p) ;;
  ok <- transfer_loop p (Read_Stream_ram (CommandBlock p) (sizeof_CommandBlockWrapper - 16)) ;;
  if negb ok then ret false
  else
    bad <- peek (fun m => invalid_block m p) ;;
    if bad : bool then
      Endpoint_StallTransaction ;;
      SelectTable_ram (DataINEndpoint p) ;;
      Endpoint_StallTransaction ;;
      ret false
    else
      ok <- transfer_loop p (fun bp =>
              n <- peek (fun m => load8 m (cbw_SCSICommandLength (CommandBlock p))) ;;
              Read_Stream_ram (cbw_SCSICommandData (CommandBlock p)) n bp) ;;
      if negb ok then ret false
      else Endpoint_ClearOUT ;; ret true.

(** [while (Endpoint_IsStalled()) if (IsMassStoreReset) return] *)
Definition stall_loop (p : Z) : M bool :=
  iter fuel (fun _ : unit =>
    stalled <- Endpoint_IsStalled ;;
    if stalled : bool then
      reset <- get_reset p ;; ret (if reset : bool then inr false else inl tt)
    else ret (inr true)) tt.

Definition MS_Device_ReturnCommandStatus (p : Z) : M unit :=
  SelectTable_ram (DataOUTEndpoint p) ;;
  ok <- stall_loop p ;;
  if negb ok then ret tt
  else
    SelectTable_ram (DataINEndpoint p) ;;
    ok <- stall_loop p ;;
    if negb ok then ret tt
    else
      ok <- transfer_loop p (Write_Stream_ram (CommandStatus p) sizeof_CommandStatusWrapper) ;;
      if negb ok then ret tt else Endpoint_ClearIN.

(** The members of [CommandStatus], in the order of the assignments. *)
Definition fill_status (p : Z) (SCSICommandResult : bool) (m : mem) : mem :=
  let c := CommandStatus p in
  let m := store8 m (csw_Status c)
             (if SCSICommandResult then MS_SCSI_COMMAND_Pass else MS_SCSI_COMMAND_Fail) in
  let m := store 4 m (csw_Signature c) MS_CSW_SIGNATURE in
  let m := store 4 m (csw_Tag c) (load 4 m (cbw_Tag (CommandBlock p))) in
  store 4 m (csw_DataTransferResidue c) (load 4 m (cbw_DataTransferLength (CommandBlock p))).

Definition MS_Device_USBTask (p : Z) : M unit :=
  d <- get_state ;;
  if decide (d = DEVICE_STATE_Configured) then
    SelectTable_ram (DataOUTEndpoint p) ;;
    out <- Endpoint_IsOUTReceived ;;
    (when out do
       (ok <- MS_Device_ReadInCommandBlock p ;;
        when ok do
          (flags <- peek (fun m => load8 m (cbw_Flags (CommandBlock p))) ;;
           (when truth (flags .& MS_COMMAND_DIR_DATA_IN) do SelectTable_ram (DataINEndpoint p)) ;;
           SCSICommandResult <- CALLBACK_MS_Device_SCSICommandReceived PRE p ;;
           poke (fill_status p SCSICommandResult) ;;
           residue <- peek (fun m => load 4 m (csw_DataTransferResidue (CommandStatus p))) ;;
           (when negb SCSICommandResult && truth residue do Endpoint_StallTransaction) ;;
           MS_Device_ReturnCommandStatus p))) ;;
    reset <- get_reset p ;;
    when reset do
      (o <- peek (fun m => load8 m (table_Address (DataOUTEndpoint p))) ;;
       Endpoint_ResetEndpoint o ;;
       i <- peek (fun m => load8 m (table_Address (DataINEndpoint p))) ;;
       Endpoint_ResetEndpoint i ;;
       SelectTable_ram (DataOUTEndpoint p) ;;
       Endpoint_ClearStall ;;
       Endpoint_ResetDataToggle ;;
       SelectTable_ram (DataINEndpoint p) ;;
       Endpoint_ClearStall ;;
       Endpoint_ResetDataToggle ;;
       put_reset p false)
  else ret tt.
End MassStorage.
End MassStorage.
