(* ===== verification/Midi.v ===== *)
(** * Midi: the MIDI class driver ([LUFA/Drivers/USB/Class/Device/MIDIClassDevice.c and .h])

    [p] is [MIDIInterfaceInfo], [Event] the address of a [MIDI_EventPacket_t] of four bytes. *)
From S2P Require Import Prelude Machine Ram Logic Endpoint EndpointStream UsbController DeviceRequests.
From S2P Require Import ClassMemory.

Module Midi.
Import Endpoint Stream Controller ClassMemory.

(** Members of [USB_ClassInfo_MIDI_Device_t]. *)
Definition StreamingInterfaceNumber (p : Z) : Z := p.
Definition DataINEndpoint (p : Z) : Z := p + 1.
Definition DataOUTEndpoint (p : Z) : Z := p + 6.
Definition State (p : Z) : Z := p + 11.
Definition sizeof_State : Z := 1.
Definition sizeof_EventPacket : Z := 4.

Section Midi.
Context {HW : Hardware} {PRE : Preempt} {FU : Fuel}.

Definition MIDI_Device_ConfigureEndpoints (p : Z) : M bool :=
  poke (fun m => memset m (State p) 0 (Z.to_nat sizeof_State)) ;;
  poke (fun m => store8 m (table_Type (DataINEndpoint p)) EP_TYPE_BULK) ;;
  poke (fun m => store8 m (table_Type (DataOUTEndpoint p)) EP_TYPE_BULK) ;;
  ok <- ConfigureTable_ram (DataINEndpoint p) ;;
  if negb ok then ret false
  else
    ok <- ConfigureTable_ram (DataOUTEndpoint p) ;;
    if negb ok then ret false else ret true.

Definition MIDI_Device_Flush (p : Z) : M Z :=
  d <- get_state ;;
  if decide (d = DEVICE_STATE_Configured) then
    SelectTable_ram (DataINEndpoint p) ;;
    n <- Endpoint_BytesInEndpoint ;;
    if truth n then
      Endpoint_ClearIN ;;
      ErrorCode <- Endpoint_WaitUntilReady ;;
      if negb (ErrorCode =? ENDPOINT_READYWAIT_NoError) then ret ErrorCode
      else ret ENDPOINT_READYWAIT_NoError
    else ret ENDPOINT_READYWAIT_NoError
  else ret ENDPOINT_RWSTREAM_DeviceDisconnected.

Definition MIDI_Device_USBTask (p : Z) : M unit :=
  d <- get_state ;;
  if decide (d = DEVICE_STATE_Configured) then
    SelectTable_ram (DataINEndpoint p) ;;
    ready <- Endpoint_IsINReady ;;
    when ready do (MIDI_Device_Flush p ;; ret tt)
  else ret tt.

Definition MIDI_Device_SendEventPacket (p Event : Z) : M Z :=
  d <- get_state ;;
  if decide (d = DEVICE_STATE_Configured) then
    SelectTable_ram (DataINEndpoint p) ;;
    r <- Write_Stream_ram Event sizeof_EventPacket None ;;
    let ErrorCode := r.1 in
    if negb (ErrorCode =? ENDPOINT_RWSTREAM_NoError) then ret ErrorCode
    else
      rwal <- Endpoint_IsReadWriteAllowed ;;
      (when negb rwal do Endpoint_ClearIN) ;;
      ret ENDPOINT_RWSTREAM_NoError
  else ret ENDPOINT_RWSTREAM_DeviceDisconnected.

Definition MIDI_Device_ReceiveEventPacket (p Event : Z) : M bool :=
  d <- get_state ;;
  if decide (d = DEVICE_STATE_Configured) then
    SelectTable_ram (DataOUTEndpoint p) ;;
    rwal <- Endpoint_IsReadWriteAllowed ;;
    if negb rwal then ret false
    else
      Read_Stream_ram Event sizeof_EventPacket None ;;
      rwal <- Endpoint_IsReadWriteAllowed ;;
      (when negb rwal do Endpoint_ClearOUT) ;;
      ret true
  else ret false.

Definition MIDI_Device_ProcessControlRequest (p : Z) : M unit := ret tt.
End Midi.
End Midi.
