(* ===== verification/AudioDevice.v ===== *)
(** * AudioDevice: the audio class driver
    ([LUFA/Drivers/USB/Class/Device/AudioClassDevice.c and .h])

    [p] is [AudioInterfaceInfo].  The application's property callbacks are the class
    [AudioCallbacks]; their last argument is [None] when the driver passes [NULL] for the length
    and the data.  Samples are read from and written to the endpoint selected before, as signed
    values. *)
From S2P Require Import Prelude Machine Ram Logic Endpoint EndpointStream UsbController DeviceRequests.
From S2P Require Import ClassMemory.

Definition REQ_SetInterface := 11.
Definition AUDIO_REQ_SetCurrent := 0x01.
Definition AUDIO_REQ_SetMinimum := 0x02.
Definition AUDIO_REQ_SetMaximum := 0x03.
Definition AUDIO_REQ_SetResolution := 0x04.
Definition AUDIO_REQ_GetCurrent := 0x81.
Definition AUDIO_REQ_GetMinimum := 0x82.
Definition AUDIO_REQ_GetMaximum := 0x83.
Definition AUDIO_REQ_GetResolution := 0x84.
Definition AUDIO_REQ_GetStatus := 0xFF.

(** [GetSet...Property]: verdict, [*DataLength] and [Data]. *)
Class AudioCallbacks `{Hardware} := {
  CALLBACK_Audio_Device_GetSetEndpointProperty :
    Preempt -> Z -> Z -> Z -> Z -> option (Z * buffer) -> M (bool * (Z * buffer));
  CALLBACK_Audio_Device_GetSetInterfaceProperty :
    Preempt -> Z -> Z -> Z -> Z -> option (Z * buffer) -> M (bool * (Z * buffer));
  EVENT_Audio_Device_StreamStartStop : Preempt -> Z -> M unit }.

Module AudioDevice.
Import Endpoint Stream Controller Requests ClassMemory.

(** Members of [USB_ClassInfo_Audio_Device_t]. *)
Definition ControlInterfaceNumber (p : Z) : Z := p.
Definition StreamingInterfaceNumber (p : Z) : Z := p + 1.
Definition DataINEndpoint (p : Z) : Z := p + 2.
Definition DataOUTEndpoint (p : Z) : Z := p + 7.
Definition InterfaceEnabled (p : Z) : Z := p + 12.
Definition sizeof_State : Z := 1.

(** The first tests of the request handler: whether the request is for this interface. *)
Definition addressed (req : USB_Request_Header_t) (m : mem) (p : Z) : bool :=
  let recipient := bmRequestType req .& CONTROL_REQTYPE_RECIPIENT in
  let i := wIndex req .& 0xFF in
  if recipient =? REQREC_INTERFACE then
    (i =? load8 m (ControlInterfaceNumber p)) || (i =? load8 m (StreamingInterfaceNumber p))
  else if recipient =? REQREC_ENDPOINT then
    (i =? load8 m (table_Address (DataINEndpoint p)))
    || (i =? load8 m (table_Address (DataOUTEndpoint p)))
  else true.

Section AudioDevice.
Context {HW : Hardware} {PRE : Preempt} {FU : Fuel} {CB : AudioCallbacks}.

(** The library's default for [EVENT_Audio_Device_StreamStartStop]. *)
Definition Audio_Device_Event_Stub : M unit := ret tt.

(** Receive a value and hand it to the property callback, when the callback says that the
    property exists. *)
Definition set_property (stack : buffer) (property : option (Z * buffer) -> M (bool * (Z * buffer)))
    : M unit :=
  r <- property None ;;
  when r.1 do
    (req <- get_request ;;
     let ValueLength := wLength req in
     Endpoint_ClearSETUP ;;
     v <- Endpoint_Read_Control_Stream_LE stack ValueLength ;;
     Endpoint_ClearIN ;;
     property (Some (ValueLength, v.2)) ;;
     ret tt).

Definition get_property (stack : buffer) (property : option (Z * buffer) -> M (bool * (Z * buffer)))
    : M unit :=
  req <- get_request ;;
  r <- property (Some (wLength req, stack)) ;;
  when r.1 do
    (Endpoint_ClearSETUP ;;
     Endpoint_Write_Control_Stream_LE r.2.2 r.2.1 ;;
     Endpoint_ClearOUT).

(** The property the request names, on the endpoint or interface it is for. *)
Definition with_property (p : Z)
    (k : (option (Z * buffer) -> M (bool * (Z * buffer))) -> M unit) : M unit :=
  req <- get_request ;;
  let recipient := bmRequestType req .& CONTROL_REQTYPE_RECIPIENT in
  if recipient =? REQREC_ENDPOINT then
    k (CALLBACK_Audio_Device_GetSetEndpointProperty PRE p (bRequest req) (u8 (wIndex req))
         (u8 (wValue req .>> 8)))
  else if recipient =? REQREC_INTERFACE then
    k (CALLBACK_Audio_Device_GetSetInterfaceProperty PRE p (bRequest req) (u8 (wIndex req .>> 8))
         (wValue req))
  else ret tt.

Definition Audio_Device_ProcessControlRequest (stack : buffer) (p : Z) : M unit :=
  setup <- Endpoint_IsSETUPReceived ;;
  if negb setup then ret tt
  else
    req <- get_request ;;
    mine <- peek (fun m => addressed req m p) ;;
    if negb mine then ret tt
    else
      let b := bRequest req in
      if b =? REQ_SetInterface then
        when bmRequestType req =? REQDIR_HOSTTODEVICE .| REQTYPE_STANDARD .| REQREC_INTERFACE do
          (Endpoint_ClearSETUP ;;
           Endpoint_ClearStatusStage ;;
           req <- get_request ;;
           poke (fun m => store8 m (InterfaceEnabled p)
                            (if truth (wValue req .& 0xFF) then 1 else 0)) ;;
           EVENT_Audio_Device_StreamStartStop PRE p)
      else if b =? AUDIO_REQ_GetStatus then
        when (bmRequestType req =? class_to_device)
             || (bmRequestType req =? REQDIR_HOSTTODEVICE .| REQTYPE_CLASS .| REQREC_ENDPOINT) do
          (Endpoint_ClearSETUP ;; Endpoint_ClearStatusStage)
      else if (b =? AUDIO_REQ_SetCurrent) || (b =? AUDIO_REQ_SetMinimum)
              || (b =? AUDIO_REQ_SetMaximum) || (b =? AUDIO_REQ_SetResolution) then
        with_property p (set_property stack)
      else if (b =? AUDIO_REQ_GetCurrent) || (b =? AUDIO_REQ_GetMinimum)
              || (b =? AUDIO_REQ_GetMaximum) || (b =? AUDIO_REQ_GetResolution) then
        with_property p (get_property stack)
      else ret tt.

Definition Audio_Device_ConfigureEndpoints (p : Z) : M bool :=
  poke (fun m => memset m (InterfaceEnabled p) 0 (Z.to_nat sizeof_State)) ;;
  poke (fun m => store8 m (table_Type (DataINEndpoint p)) EP_TYPE_ISOCHRONOUS) ;;
  poke (fun m => store8 m (table_Type (DataOUTEndpoint p)) EP_TYPE_ISOCHRONOUS) ;;
  ok <- ConfigureTable_ram (DataINEndpoint p) ;;
  if negb ok then ret false
  else
    ok <- ConfigureTable_ram (DataOUTEndpoint p) ;;
    if negb ok then ret false else ret true.

Definition Audio_Device_USBTask (p : Z) : M unit := ret tt.

(** [(USB_DeviceState != DEVICE_STATE_Configured) || !(InterfaceEnabled)] *)
Definition stream_off (p : Z) : M bool :=
  d <- get_state ;;
  if decide (d = DEVICE_STATE_Configured) then
    peek (fun m => negb (truth (load8 m (InterfaceEnabled p))))
  else ret true.

Definition Audio_Device_IsSampleReceived (p : Z) : M bool :=
  off <- stream_off p ;;
  if off : bool then ret false
  else SelectTable_ram (DataOUTEndpoint p) ;; Endpoint_IsOUTReceived.

Definition Audio_Device_IsReadyForNextSample (p : Z) : M bool :=
  off <- stream_off p ;;
  if off : bool then ret false
  else SelectTable_ram (DataINEndpoint p) ;; Endpoint_IsINReady.

(** [if (!(Endpoint_BytesInEndpoint())) Endpoint_ClearOUT()] *)
Definition release_out : M unit :=
  n <- Endpoint_BytesInEndpoint ;; when negb (truth n) do Endpoint_ClearOUT.

Definition Audio_Device_ReadSample8 (p : Z) : M Z :=
  Sample <- Endpoint_Read_8 ;; release_out ;; ret (signed 8 Sample).

Definition Audio_Device_ReadSample16 (p : Z) : M Z :=
  Sample <- Endpoint_Read_16_LE ;; release_out ;; ret (signed 16 Sample).

(** [((uint32_t)Endpoint_Read_8() << 16) | Endpoint_Read_16_LE()]: C leaves it open which operand
    is evaluated first; [left_first] is the compiler's choice. *)
Definition Audio_Device_ReadSample24 (left_first : bool) (p : Z) : M Z :=
  Sample <- (if left_first then
               h <- Endpoint_Read_8 ;; l <- Endpoint_Read_16_LE ;; ret ((h .<< 16) .| l)
             else
               l <- Endpoint_Read_16_LE ;; h <- Endpoint_Read_8 ;; ret ((h .<< 16) .| l)) ;;
  release_out ;;
  ret (signed 32 Sample).

(** [if (Endpoint_BytesInEndpoint() == DataINEndpoint.Size) Endpoint_ClearIN()] *)
Definition release_in (p : Z) : M unit :=
  n <- Endpoint_BytesInEndpoint ;;
  size <- peek (fun m => load 2 m (table_Size (DataINEndpoint p))) ;;
  when n =? size do Endpoint_ClearIN.

Definition Audio_Device_WriteSample8 (p Sample : Z) : M unit :=
  Endpoint_Write_8 Sample ;; release_in p.

Definition Audio_Device_WriteSample16 (p Sample : Z) : M unit :=
  Endpoint_Write_16_LE (u16 Sample) ;; release_in p.

Definition Audio_Device_WriteSample24 (p Sample : Z) : M unit :=
  Endpoint_Write_16_LE (u16 Sample) ;;
  Endpoint_Write_8 (Sample .>> 16) ;;
  release_in p.
End AudioDevice.
End AudioDevice.
