(* ===== verification/Footprints.v ===== *)
(** * Footprints: what the class drivers write in memory

    [writes P]: a piece of code changes the data memory only at addresses in [P].  It is a
    policy, so that it is proved by taking the code apart; the loops of the stream functions need
    an invariant for the address they are at.  The interrupts' footprint is a hypothesis. *)
From S2P Require Import Prelude Machine Ram Logic Endpoint EndpointStream UsbController DeviceRequests.
From S2P Require Import ClassMemory Rndis RndisMessages MassStorage.
Import Endpoint Stream ClassMemory.

Section Writes.
Context {HW : Hardware}.

Definition writes (P : Z -> Prop) (s : mcu) (t : list event) (s' : mcu) : Prop :=
  forall x, 0 <= x < 65536 -> ~ P x -> load8 (ram s') x = load8 (ram s) x.

#[export] Instance writes_policy P : Policy (writes P).
Proof.
  split; unfold writes; [done|]. intros s t s1 t' s2 H H' x Hx HP. by rewrite H', H.
Qed.

#[export] Instance writes_usb P : UsbPolicy (writes P).
Proof.
  split; [typeclasses eauto| | |done|done|done].
  - intros. by apply spec_raw_read.
  - intros. apply spec_raw_write. intros s. by destruct (plain r).
Qed.

Lemma writes_mono (P Q : Z -> Prop) s t s' : (forall x, P x -> Q x) -> writes P s t s' -> writes Q s t s'.
Proof. intros HPQ H x Hx HQ. apply H; [done|]. auto. Qed.

Lemma obeys_mono {A} (P Q : Z -> Prop) (m : M A) :
  (forall x, P x -> Q x) -> obeys (writes P) m -> obeys (writes Q) m.
Proof. intros HPQ H. eapply spec_conseq; [exact H|]. cbn beta. intros. by eapply writes_mono. Qed.

(** The addresses of an object of [n] bytes. *)
Definition object (a n x : Z) : Prop := a <= x < a + n.

Lemma obeys_peek P {A} (f : mem -> A) : obeys (writes P) (peek f).
Proof. apply obeys_gets. typeclasses eauto. Qed.

Lemma obeys_poke_bytes (P : Z -> Prop) a (f : mem -> list Z) n :
  inside a (Z.of_nat n) -> (forall m, length (f m) = n) -> (forall x, object a (Z.of_nat n) x -> P x) ->
  obeys (writes P) (poke (fun m => store_bytes m a (f m))).
Proof.
  intros Ha Hf HP. apply spec_modify; [done|]. intros s x Hx Hn. cbn.
  apply store_bytes_out; rewrite ?Hf; [done..|].
  destruct (Z.lt_ge_cases x a); [by left|]. right.
  destruct (Z.lt_ge_cases x (a + Z.of_nat n)); [|lia]. exfalso. apply Hn, HP. done.
Qed.

Lemma obeys_poke (P : Z -> Prop) a n (v : mem -> Z) :
  inside a (Z.of_nat n) -> (forall x, object a (Z.of_nat n) x -> P x) ->
  obeys (writes P) (poke (fun m => store n m a (v m))).
Proof. intros. apply (obeys_poke_bytes P a (fun m => le_bytes n (v m)) n); auto using length_le_bytes. Qed.

Lemma obeys_poke8 (P : Z -> Prop) a (v : mem -> Z) :
  inside a 1 -> P a -> obeys (writes P) (poke (fun m => store8 m a (v m))).
Proof.
  intros Ha HP. apply (obeys_poke_bytes P a (fun m => [v m]) 1); [done|done|].
  intros x Hx. unfold object in Hx. by replace x with a by lia.
Qed.

(** Loops with an invariant on their variables. *)
Lemma spec_iter_inv {X Y} R `{!Policy R} (I : X -> Prop) (F : Y -> Prop) n (body : X -> M (X + Y)) x :
  (forall x, I x -> spec (body x) (fun s r t s' =>
     R s t s' /\ match r with inl x' => I x' | inr y => F y end)) ->
  I x -> spec (iter n body x) (fun s y t s' => R s t s' /\ F y).
Proof.
  intros Hb. revert x. induction n as [|n IH]; intros x Hx; cbn [iter]; [apply spec_spin|].
  intros s y s2 H. unfold bind in H. destruct (body x s) as [[r s1]|] eqn:E; [|done].
  destruct (Hb x Hx s r s1 E) as (t & Ht & HR & HI). destruct r as [x'|y'].
  - destruct (IH x' HI s1 y s2 H) as (t' & Ht' & HR' & HF). exists (t ++ t').
    rewrite Ht', Ht, app_assoc. split; [done|]. split; [by eapply policy_trans|done].
  - injection H as <- <-. eauto.
Qed.

Lemma spec_obeys_ret {A} R `{!Policy R} (F : A -> Prop) (a : A) :
  F a -> spec (ret a) (fun s r t s' => R s t s' /\ F r).
Proof. intros HF. apply spec_ret. intros s. split; [apply policy_refl|done]. Qed.

(** A part that obeys the policy in front of one that does and has a property of its result. *)
Lemma spec_obeys_bind {A B} R `{!Policy R} (F : B -> Prop) (m : M A) (k : A -> M B) :
  obeys R m -> (forall a, spec (k a) (fun s r t s' => R s t s' /\ F r)) ->
  spec (bind m k) (fun s r t s' => R s t s' /\ F r).
Proof.
  intros Hm Hk. eapply spec_bind; [exact Hm|exact Hk|]. cbn beta.
  intros s a t s1 b t' s2 H [H' HF]. split; [by eapply policy_trans|done].
Qed.

(** The result of the first part is known. *)
Lemma spec_yield_bind {A B} R `{!Policy R} (G : A -> Prop) (F : B -> Prop) (m : M A) (k : A -> M B) :
  spec m (fun s a t s' => R s t s' /\ G a) ->
  (forall a, G a -> spec (k a) (fun s r t s' => R s t s' /\ F r)) ->
  spec (bind m k) (fun s r t s' => R s t s' /\ F r).
Proof.
  intros Hm Hk s b s2 H. unfold bind in H. destruct (m s) as [[a s1]|] eqn:E; [|done].
  destruct (Hm s a s1 E) as (t & Ht & HR & HG). destruct (Hk a HG s1 b s2 H) as (t' & Ht' & HR' & HF).
  exists (t ++ t'). rewrite Ht', Ht, app_assoc. split; [done|]. split; [by eapply policy_trans|done].
Qed.
End Writes.

#[export] Hint Resolve obeys_peek : obey.

Section Streams.
Context {HW : Hardware} (P : Z -> Prop) {PRE : Preempt} {FU : Fuel}.
Context (pre_ok : obeys (writes P) preempt).
Context (p len : Z) (p_inside : inside p len) (len_range : 0 <= len < 65536).
Context (p_allowed : forall x, object p len x -> P x).

Lemma obeys_ram_read_byte b i : 0 <= i < len -> obeys (writes P) (ram_read_byte p b i).
Proof.
  intros Hi. unfold ram_read_byte. destruct p_inside.
  apply obeys_bind; [typeclasses eauto|obey|intros v].
  apply obeys_bind; [typeclasses eauto| |intros; obey].
  apply (obeys_poke8 P (p + i) (fun _ => v)); [unfold inside; lia|].
  apply p_allowed. unfold object. lia.
Qed.

(** The offset of the next byte and the bytes still to come add up to the length. *)
Definition at_offset (start : Z) (v : stream_vars) : Prop :=
  0 <= Length v /\ start <= DataStream v /\ DataStream v + Length v = len
  /\ BytesInTransfer v = DataStream v - start.

Definition progress (start : Z) (bp : option Z) (r : stream_result) : Prop :=
  forall q, bp = Some start -> r.1.2 = Some q -> start <= q <= len.

Lemma read_pass_writes start bp v : 0 <= start -> at_offset start v ->
  spec (rw_pass (Template Endpoint_ClearOUT zero_offset 1 (ram_read_byte p)) bp v) (fun s r t s' =>
    writes P s t s' /\ match r with inl v' => at_offset start v' | inr y => progress start bp y end).
Proof.
  intros Hs (H0 & H1 & H2 & H3). unfold rw_pass.
  destruct (Z.eqb_spec (Length v) 0) as [E|E]; unfold truth; rewrite ?E; cbn [negb Z.eqb].
  { apply spec_obeys_ret; [typeclasses eauto|]. intros q -> [= <-]. lia. }
  destruct (Z.eqb_spec (Length v) 0); [done|]. cbn [negb].
  apply spec_obeys_bind; [typeclasses eauto|obey|]. intros []; cbn [negb].
  - apply spec_obeys_bind; [typeclasses eauto|apply obeys_ram_read_byte; lia|]. intros b.
    apply spec_obeys_ret; [typeclasses eauto|]. unfold at_offset. cbn. rewrite u16_small; lia.
  - apply spec_obeys_bind; [typeclasses eauto|obey|]. intros _. destruct bp as [q|].
    + apply spec_obeys_ret; [typeclasses eauto|]. intros q' [= ->] [= <-]. rewrite u16_small; lia.
    + apply spec_obeys_bind; [typeclasses eauto|obey|]. intros e. case_match.
      * by apply spec_obeys_ret; [typeclasses eauto|].
      * by apply spec_obeys_ret; [typeclasses eauto|].
Qed.

Lemma read_stream_writes bp : 0 <= default 0 bp <= len ->
  spec (Read_Stream_ram p len bp) (fun s r t s' =>
    writes P s t s' /\ forall start q, bp = Some start -> r.2 = Some q -> start <= q <= len).
Proof.
  intros Hbp. unfold Read_Stream_ram, Template_Endpoint_RW.
  eapply (spec_yield_bind _ (progress (default 0 bp) bp)).
  - apply spec_obeys_bind; [typeclasses eauto|obey|]. intros e. case_match.
    + apply spec_obeys_ret; [typeclasses eauto|]. intros q -> [= <-]. cbn in *. lia.
    + apply (spec_iter_inv (writes P) (at_offset (default 0 bp)) (progress (default 0 bp) bp)).
      * intros x Hx. by apply read_pass_writes; [lia|].
      * unfold at_offset. cbn. unfold zero_offset. rewrite u16_small; lia.
  - intros r Hr. apply spec_obeys_ret; [typeclasses eauto|].
    intros start q -> Hq. by apply Hr.
Qed.
End Streams.

(** An object no byte of which is written keeps its value. *)
Lemma load_kept {HW : Hardware} W s t s' n a : writes W s t s' -> inside a (Z.of_nat n) ->
  (forall x, object a (Z.of_nat n) x -> ~ W x) -> load n (ram s') a = load n (ram s) a.
Proof.
  intros H Ha Hd. unfold load. f_equal. apply load_bytes_ext; [done|].
  intros x Hx. destruct Ha. apply H; [lia|]. by apply Hd.
Qed.

Lemma load8_kept {HW : Hardware} W s t s' a : writes W s t s' -> 0 <= a < 65536 -> ~ W a ->
  load8 (ram s') a = load8 (ram s) a.
Proof. intros H Ha Hd. by apply H. Qed.

(** ** The Ethernet adapter's receive function *)
Section ReadPacket.
Context {HW : Hardware} {PRE : Preempt} {FU : Fuel}.
Context (Q : Z -> Prop) (pre_ok : obeys (writes Q) preempt).
Context (p Buffer PacketLength : Z) (header : buffer).
Context (Buffer_inside : inside Buffer ETHERNET_FRAME_SIZE_MAX) (PacketLength_inside : inside PacketLength 2).
Context (apart : forall x, object PacketLength 2 x -> ~ object Buffer ETHERNET_FRAME_SIZE_MAX x /\ ~ Q x).
Import Rndis.

Definition data_area (x : Z) : Prop := object Buffer ETHERNET_FRAME_SIZE_MAX x \/ Q x.
Definition packet_area (x : Z) : Prop := object PacketLength 2 x \/ data_area x.

(** The length stays in range once it is. *)
Definition packet_post (s : mcu) (r : Z) (t : list event) (s' : mcu) : Prop :=
  writes packet_area s t s'
  /\ (load 2 (ram s) PacketLength <= ETHERNET_FRAME_SIZE_MAX -> r = ENDPOINT_RWSTREAM_NoError ->
      load 2 (ram s') PacketLength <= ETHERNET_FRAME_SIZE_MAX).

(** The length is in range at the end. *)
Definition packet_bounded (s : mcu) (r : Z) (t : list event) (s' : mcu) : Prop :=
  writes packet_area s t s'
  /\ (r = ENDPOINT_RWSTREAM_NoError -> load 2 (ram s') PacketLength <= ETHERNET_FRAME_SIZE_MAX).

Lemma data_in_packet x : data_area x -> packet_area x.
Proof. by right. Qed.

Lemma pre_data : obeys (writes data_area) preempt.
Proof. eapply obeys_mono; [|exact pre_ok]. intros x Hx. by right. Qed.

Lemma packet_length_kept s t s' : writes data_area s t s' ->
  load 2 (ram s') PacketLength = load 2 (ram s) PacketLength.
Proof. intros H. eapply load_kept; [exact H|done|]. intros x Hx [|]; by destruct (apart x Hx). Qed.

Lemma packet_ret c : spec (ret c) packet_post.
Proof. apply spec_ret. intros s. by split. Qed.

Lemma packet_skip {A} (m : M A) (k : A -> M Z) :
  obeys (writes data_area) m -> (forall a, spec (k a) packet_post) -> spec (bind m k) packet_post.
Proof.
  intros Hm Hk. eapply spec_bind; [exact Hm|exact Hk|]. cbn beta.
  intros s a t s1 b t' s2 H [H' HF]. split.
  - eapply policy_trans; [|exact H']. eapply writes_mono; [exact data_in_packet|exact H].
  - intros Hl. apply HF. by rewrite (packet_length_kept _ _ _ H).
Qed.

Lemma bounded_skip {A} (m : M A) (k : A -> M Z) :
  obeys (writes data_area) m -> (forall a, spec (k a) packet_bounded) -> spec (bind m k) packet_bounded.
Proof.
  intros Hm Hk. eapply spec_bind; [exact Hm|exact Hk|]. cbn beta.
  intros s a t s1 b t' s2 H [H' HF]. split; [|done].
  eapply policy_trans; [|exact H']. eapply writes_mono; [exact data_in_packet|exact H].
Qed.

Lemma stored_length v (k : M Z) : 0 <= v <= ETHERNET_FRAME_SIZE_MAX -> spec k packet_post ->
  spec (poke (fun m => store 2 m PacketLength v) ;; k) packet_bounded.
Proof.
  intros Hv Hk. eapply (spec_bind _ _ (fun s _ t s' =>
    writes packet_area s t s' /\ load 2 (ram s') PacketLength = v)); [|intros; exact Hk|].
  - apply spec_modify; [done|]. intros s. split.
    + destruct (obeys_poke packet_area PacketLength 2 (fun _ => v) PacketLength_inside
        ltac:(by left) s tt _ eq_refl) as (t & _ & H). exact H.
    + cbn [ram set_ram]. rewrite load_same by done. apply (u16_small v). unfold ETHERNET_FRAME_SIZE_MAX in *. lia.
  - cbn beta. intros s _ t s1 b t' s2 [H E] [H' HF]. split; [by eapply policy_trans|].
    apply HF. rewrite E. lia.
Qed.

Lemma bounded_post (k : M Z) : spec k packet_bounded -> spec k packet_post.
Proof. intros Hk. eapply spec_conseq; [exact Hk|]. cbn beta. intros s r t s' [H HF]. by split. Qed.

(** The length that is stored is the length that is used. *)
Lemma length_read_back v (k : Z -> M Z) s :
  0 <= v <= ETHERNET_FRAME_SIZE_MAX ->
  (poke (fun m => store 2 m PacketLength v) ;; n <- peek (fun m => load 2 m PacketLength) ;; k n) s
  = (poke (fun m => store 2 m PacketLength v) ;; k v) s.
Proof.
  intros Hv. unfold bind, poke, modify, peek, gets. cbn [ram set_ram]. rewrite load_same by done.
  change (8 * Z.of_nat 2) with 16. unfold ETHERNET_FRAME_SIZE_MAX in Hv. by rewrite u16_small by lia.
Qed.

Lemma read_packet_data v : 0 <= v <= ETHERNET_FRAME_SIZE_MAX ->
  obeys (writes data_area) (Read_Stream_ram Buffer v None).
Proof.
  intros Hv. pose proof Buffer_inside as [B0 B1]. unfold ETHERNET_FRAME_SIZE_MAX in Hv, B1.
  eapply spec_conseq; [apply (read_stream_writes data_area pre_data Buffer v)|].
  - split; lia.
  - lia.
  - intros x Hx. left. unfold object, ETHERNET_FRAME_SIZE_MAX in *. lia.
  - cbn. lia.
  - cbn beta. by intros s r t s' [H _].
Qed.

Lemma read_packet_spec : spec (RNDIS_Device_ReadPacket header p Buffer PacketLength) packet_bounded.
Proof.
  pose proof pre_data as Hd. unfold RNDIS_Device_ReadPacket.
  apply bounded_skip; [obey|]. intros [].
  { apply spec_ret. intros s. split; [done|]. discriminate. }
  apply bounded_skip; [obey|]. intros _.
  apply (stored_length 0); [unfold ETHERNET_FRAME_SIZE_MAX; lia|].
  apply packet_skip; [obey|]. intros []; cbn [negb]; [|apply packet_ret].
  apply packet_skip; [obey|]. intros r. cbv zeta.
  set (n := le_value _). destruct (Z.ltb_spec ETHERNET_FRAME_SIZE_MAX n) as [Hn|Hn].
  { apply packet_skip; [obey|]. intros _. apply packet_ret. }
  assert (0 <= n) as H0.
  { apply (le_value_is_u [u8 (r.2 12); u8 (r.2 13); u8 (r.2 14); u8 (r.2 15)]).
    repeat (constructor; [by apply wrap_is_u|]). constructor. }
  clearbody n. rewrite (u16_small n) by (unfold ETHERNET_FRAME_SIZE_MAX in *; lia).
  apply bounded_post. eapply spec_ext; [intros s; apply length_read_back; lia|].
  apply stored_length; [lia|].
  apply packet_skip; [apply read_packet_data; lia|]. intros _.
  apply packet_skip; [obey|]. intros _. apply packet_ret.
Qed.
End ReadPacket.

(** ** Assertions on the memory

    [hoare R P m Q]: from a state with [P], whatever [m] does obeys [R] and ends with [Q]. *)
Section Hoare.
Context {HW : Hardware} (R : mcu -> list event -> mcu -> Prop) `{!Policy R}.

Definition hoare {A} (P : mcu -> Prop) (m : M A) (Q : A -> mcu -> Prop) : Prop :=
  forall s a s', P s -> m s = Some (a, s') -> exists t, trace s' = trace s ++ t /\ R s t s' /\ Q a s'.

Lemma hoare_ret {A} (P : mcu -> Prop) (a : A) (Q : A -> mcu -> Prop) :
  (forall s, P s -> Q a s) -> hoare P (ret a) Q.
Proof.
  intros H s b s' HP [= <- <-]. exists []. rewrite app_nil_r. split; [done|].
  split; [apply policy_refl|auto].
Qed.

Lemma hoare_bind {A B} (P : mcu -> Prop) (m : M A) (k : A -> M B) (Q : A -> mcu -> Prop) (T : B -> mcu -> Prop) :
  hoare P m Q -> (forall a, hoare (Q a) (k a) T) -> hoare P (bind m k) T.
Proof.
  intros Hm Hk s b s2 HP H. unfold bind in H. destruct (m s) as [[a s1]|] eqn:E; [|done].
  destruct (Hm s a s1 HP E) as (t & Ht & HR & HQ). destruct (Hk a s1 b s2 HQ H) as (t' & Ht' & HR' & HT).
  exists (t ++ t'). rewrite Ht', Ht, app_assoc. split; [done|]. split; [by eapply policy_trans|done].
Qed.

Lemma hoare_peek {A B} (P : mcu -> Prop) (f : mem -> A) (k : A -> M B) (T : B -> mcu -> Prop) :
  (forall a, hoare (fun s => P s /\ a = f (ram s)) (k a) T) -> hoare P (bind (peek f) k) T.
Proof. intros Hk s b s' HP H. by apply (Hk (f (ram s))). Qed.

Lemma hoare_iter {X Y} n (body : X -> M (X + Y)) (J : X -> mcu -> Prop) (T : Y -> mcu -> Prop) x :
  (forall x, hoare (J x) (body x) (fun r s => match r with inl x' => J x' s | inr y => T y s end)) ->
  hoare (J x) (iter n body x) T.
Proof.
  intros Hb. revert x. induction n as [|n IH]; intros x; cbn [iter]; [by intros s a s' _ [=]|].
  eapply hoare_bind; [apply Hb|]. intros [x'|y]; [apply IH|]. by apply hoare_ret.
Qed.

(** Code that obeys the policy keeps what the policy keeps. *)
Lemma hoare_stable {A} (P : mcu -> Prop) (m : M A) :
  (forall s t s', R s t s' -> P s -> P s') -> obeys R m -> hoare P m (fun _ => P).
Proof. intros HP Hm s a s' Hs E. destruct (Hm s a s' E) as (t & Ht & HR). eauto 10. Qed.

Lemma hoare_weaken {A} (P P' : mcu -> Prop) (m : M A) (Q Q' : A -> mcu -> Prop) :
  hoare P' m Q' -> (forall s, P s -> P' s) -> (forall a s, Q' a s -> Q a s) -> hoare P m Q.
Proof.
  intros H HP HQ s a s' Hs E. destruct (H s a s' (HP s Hs) E) as (t & Ht & HR & HT). eauto 10.
Qed.
End Hoare.

(** ** The mass storage driver's command block *)
Section CommandBlock.
Context {HW : Hardware} {PRE : Preempt} {FU : Fuel} (p : Z).
Import MassStorage.
Context (here : inside p sizeof_ClassInfo).
Context (pre_ok : obeys (writes (eq (IsMassStoreReset p))) preempt).

Definition block_area (x : Z) : Prop :=
  object (CommandBlock p) sizeof_CommandBlockWrapper x \/ IsMassStoreReset p = x.
Definition payload_area (x : Z) : Prop :=
  object (cbw_SCSICommandData (CommandBlock p)) 16 x \/ IsMassStoreReset p = x.

(** A command block that passed the test, with [n] bytes of SCSI command. *)
Definition accepted (n : Z) (s : mcu) : Prop :=
  invalid_block (ram s) p = false /\ load8 (ram s) (cbw_SCSICommandLength (CommandBlock p)) = n.

Ltac ms := unfold payload_area, block_area, object, IsMassStoreReset, CommandStatus, CommandBlock, State,
  TotalLUNs, cbw_Signature, cbw_LUN, cbw_Flags, cbw_SCSICommandLength, cbw_SCSICommandData,
  sizeof_CommandBlockWrapper, sizeof_ClassInfo, inside in *.

Lemma accepted_kept n s t s' : writes payload_area s t s' -> accepted n s -> accepted n s'.
Proof.
  intros H [H1 H2]. unfold accepted, invalid_block in *. ms.
  assert (load 4 (ram s') (p + 12) = load 4 (ram s) (p + 12)) as ->.
  { eapply load_kept; [exact H|ms; lia|]. intros x. ms. lia. }
  rewrite !(load8_kept _ _ _ _ _ H) by (ms; lia). done.
Qed.

Lemma accepted_length n s : accepted n s -> 0 < n <= 16.
Proof.
  intros [H <-]. unfold invalid_block in H. pose proof (load8_u8 (ram s) (cbw_SCSICommandLength (CommandBlock p))) as [H0 _].
  rewrite !orb_false_iff in H. destruct H as [[_ H1] H2].
  apply Z.eqb_neq in H1. apply Z.ltb_ge in H2. lia.
Qed.

Lemma pre_block : obeys (writes block_area) preempt.
Proof. eapply obeys_mono; [|exact pre_ok]. by right. Qed.
Lemma pre_payload : obeys (writes payload_area) preempt.
Proof. eapply obeys_mono; [|exact pre_ok]. by right. Qed.

(** A transfer in pieces, of [len] bytes. *)
Lemma hoare_transfer W (P : mcu -> Prop) (stream : option Z -> M (Z * option Z)) len :
  obeys (writes W) preempt -> (forall s t s', writes W s t s' -> P s -> P s') -> 0 <= len ->
  (forall bp, 0 <= bp <= len -> hoare (writes W) P (stream (Some bp)) (fun r s =>
     P s /\ forall q, r.2 = Some q -> bp <= q <= len)) ->
  hoare (writes W) P (transfer_loop p stream) (fun _ => P).
Proof.
  intros Hpre HP Hlen Hstream. unfold transfer_loop.
  apply (hoare_weaken _ _ (fun s => P s /\ 0 <= 0 <= len) _ _ (fun _ => P)); [|intros; split; [done|lia]|done].
  apply (hoare_iter _ _ _ (fun bp s => P s /\ 0 <= bp <= len) (fun _ => P)).
  intros bp s a s' [Hs Hbp]. revert s a s' Hs.
  change (hoare (writes W) P (r <- stream (Some bp) ;;
    if r.1 =? ENDPOINT_RWSTREAM_IncompleteTransfer then
      reset <- get_reset p ;; ret (if reset : bool then inr false else inl (default bp r.2))
    else ret (inr true)) (fun r s => match r with inl x' => P s /\ 0 <= x' <= len | inr _ => P s end)).
  eapply hoare_bind; [typeclasses eauto|by apply Hstream|]. intros r. cbv beta. case_match.
  - eapply hoare_bind; [typeclasses eauto| |].
    + apply (hoare_stable _ (fun s => P s /\ forall q, r.2 = Some q -> bp <= q <= len)); [|obey].
      intros s t s' Hw [Hs Hq]. split; [by eapply HP|done].
    + intros []; (apply hoare_ret; [typeclasses eauto|]); [by intros s []|]. intros s [Hs Hq]. split; [done|].
      destruct r.2 as [q|]; cbn; [|done]. specialize (Hq q eq_refl). lia.
  - apply hoare_ret; [typeclasses eauto|]. by intros s [].
Qed.

Lemma read_stream_hoare W (P : mcu -> Prop) a len bp :
  obeys (writes W) preempt -> (forall s t s', writes W s t s' -> P s -> P s') ->
  inside a len -> 0 <= len < 65536 -> (forall x, object a len x -> W x) -> 0 <= bp <= len ->
  hoare (writes W) P (Read_Stream_ram a len (Some bp)) (fun r s =>
    P s /\ forall q, r.2 = Some q -> bp <= q <= len).
Proof.
  intros Hpre HP Ha Hl Hin Hbp s r s' Hs E.
  destruct (read_stream_writes W Hpre a len Ha Hl Hin (Some bp) Hbp s r s' E) as (t & Ht & Hw & Hq).
  exists t. split; [done|]. split; [done|]. split; [by eapply HP|]. intros q. by apply Hq.
Qed.

Lemma in_block W s t s' : (forall x, W x -> block_area x) -> writes W s t s' -> writes block_area s t s'.
Proof. intros. by eapply writes_mono. Qed.

(** The second transfer stays behind the header. *)
Lemma payload_transfer n : 0 < n <= 16 ->
  hoare (writes payload_area) (accepted n)
    (transfer_loop p (fun bp =>
       n <- peek (fun m => load8 m (cbw_SCSICommandLength (CommandBlock p))) ;;
       Read_Stream_ram (cbw_SCSICommandData (CommandBlock p)) n bp)) (fun _ => accepted n).
Proof.
  intros Hn. apply (hoare_transfer payload_area (accepted n) _ n); [exact pre_payload|apply accepted_kept|lia|].
  intros bp Hbp. apply hoare_peek. intros n'.
  destruct (decide (n' = n)) as [->|Hne]; [|intros s a s' [[_ E] ->]; congruence].
  apply (hoare_weaken _ _ (accepted n) _ _ (fun r s => accepted n s /\ forall q, r.2 = Some q -> bp <= q <= n));
    [|by intros s []|done].
  apply read_stream_hoare; [exact pre_payload|apply accepted_kept|ms; lia|lia| |done].
  intros x Hx. left. unfold object in *. lia.
Qed.

Lemma header_transfer :
  hoare (writes block_area) (fun _ => True)
    (transfer_loop p (Read_Stream_ram (CommandBlock p) (sizeof_CommandBlockWrapper - 16))) (fun _ _ => True).
Proof.
  apply (hoare_transfer block_area (fun _ => True) _ 15); [exact pre_block|done|lia|]. intros bp Hbp.
  apply (read_stream_hoare block_area (fun _ => True) (CommandBlock p) 15); [exact pre_block|done|ms; lia|lia| |done].
  intros x Hx. left. ms. lia.
Qed.

Lemma hoare_mono {A} (W W' : Z -> Prop) (P : mcu -> Prop) (m : M A) Q :
  (forall x, W x -> W' x) -> hoare (writes W) P m Q -> hoare (writes W') P m Q.
Proof.
  intros HW' H s a s' Hs E. destruct (H s a s' Hs E) as (t & Ht & Hw & HQ).
  exists t. split; [done|]. split; [by eapply writes_mono|done].
Qed.

Lemma payload_in_block x : payload_area x -> block_area x.
Proof. ms. lia. Qed.

(** Code that keeps [True]. *)
Lemma hoare_any {A} (m : M A) : obeys (writes block_area) m ->
  hoare (writes block_area) (fun _ => True) m (fun _ _ => True).
Proof. by apply hoare_stable. Qed.

Lemma hoare_accepted {A} n (m : M A) : obeys (writes payload_area) m ->
  hoare (writes block_area) (accepted n) m (fun _ => accepted n).
Proof.
  intros Hm. apply (hoare_mono payload_area); [exact payload_in_block|].
  apply hoare_stable; [apply accepted_kept|done].
Qed.

Definition valid_if_true (r : bool) (s : mcu) : Prop := r = true -> invalid_block (ram s) p = false.

Lemma hoare_false (P : mcu -> Prop) : hoare (writes block_area) P (ret false) valid_if_true.
Proof. by apply hoare_ret; [typeclasses eauto|]. Qed.

Lemma rejected_block :
  hoare (writes block_area) (fun _ => True)
    (Endpoint_StallTransaction ;; SelectTable_ram (DataINEndpoint p) ;; Endpoint_StallTransaction ;; ret false)
    valid_if_true.
Proof.
  pose proof pre_block as Hb.
  eapply hoare_bind; [typeclasses eauto|apply hoare_any; obey|]. intros ?.
  eapply hoare_bind; [typeclasses eauto|apply hoare_any; obey|]. intros ?.
  eapply hoare_bind; [typeclasses eauto|apply hoare_any; obey|]. intros ?. apply hoare_false.
Qed.

Lemma accepted_block n : 0 < n <= 16 ->
  hoare (writes block_area) (accepted n)
    (ok <- transfer_loop p (fun bp =>
       n <- peek (fun m => load8 m (cbw_SCSICommandLength (CommandBlock p))) ;;
       Read_Stream_ram (cbw_SCSICommandData (CommandBlock p)) n bp) ;;
     if negb ok then ret false else Endpoint_ClearOUT ;; ret true) valid_if_true.
Proof.
  intros Hn. pose proof pre_payload as Hp.
  eapply hoare_bind; [typeclasses eauto|apply (hoare_mono payload_area); [exact payload_in_block|exact (payload_transfer n Hn)]|].
  intros []; cbn [negb]; [|apply hoare_false].
  eapply hoare_bind; [typeclasses eauto|apply (hoare_accepted n); obey|]. intros ?.
  apply hoare_ret; [typeclasses eauto|]. intros s [H _] _. exact H.
Qed.

Lemma read_in_spec :
  hoare (writes block_area) (fun _ => True) (MS_Device_ReadInCommandBlock p) valid_if_true.
Proof.
  pose proof pre_block as Hb. unfold MS_Device_ReadInCommandBlock.
  eapply hoare_bind; [typeclasses eauto|apply hoare_any; obey|]. intros ?.
  eapply hoare_bind; [typeclasses eauto|exact header_transfer|]. intros []; cbn [negb]; [|apply hoare_false].
  apply hoare_peek. intros [].
  - eapply hoare_weaken; [apply rejected_block|done|done].
  - intros s r s' [_ E]. apply (accepted_block (load8 (ram s) (cbw_SCSICommandLength (CommandBlock p))));
      [by apply (accepted_length _ s)|by split].
Qed.
End CommandBlock.

(** ** Claims *)
Section Claims.
Context {HW : Hardware} {PRE : Preempt} {FU : Fuel}.

(** Two programs that differ behind a first part. *)
Lemma bind_cong {A B} (m : M A) (k k' : A -> M B) s :
  (forall a s', m s = Some (a, s') -> k a s' = k' a s') -> bind m k s = bind m k' s.
Proof. intros H. unfold bind. destruct (m s) as [[a s1]|]; [by apply H|done]. Qed.

Lemma bind_first {A B} (m m' : M A) (k : A -> M B) s : m s = m' s -> bind m k s = bind m' k s.
Proof. intros H. unfold bind. by rewrite H. Qed.

(** The application's SCSI interpreter, made to fail on a command block that does not pass the
    tests of the Bulk-Only Transport protocol. *)
Definition guarded (CB : MsCallbacks) : MsCallbacks := {|
  CALLBACK_MS_Device_SCSICommandReceived := fun pre p s =>
    if MassStorage.invalid_block (ram s) p then None
    else CALLBACK_MS_Device_SCSICommandReceived pre p s |}.

Lemma select_keeps_validity (b : bool) p n s r s' :
  inside p MassStorage.sizeof_ClassInfo ->
  obeys (writes (eq (MassStorage.IsMassStoreReset p))) preempt ->
  accepted p n s ->
  (when b do SelectTable_ram (MassStorage.DataINEndpoint p)) s = Some (r, s') -> accepted p n s'.
Proof.
  intros Hp Hpre Hs E. pose proof (pre_payload p Hpre) as Hpp.
  assert (obeys (writes (payload_area p)) (when b do SelectTable_ram (MassStorage.DataINEndpoint p))) as Ho
    by (destruct b; obey).
  destruct (Ho _ _ _ E) as (t & _ & Hw). by eapply accepted_kept.
Qed.


(** whatever a host sends, the receive function writes at most 1500 bytes into the caller's
    buffer and besides it the length, and the length it reports with [NoError] is at most 1500;
    the first reads of the header may fail and leave it as it was.  Interrupts may write
    anywhere but to the length. *)
Theorem read_packet_bounded (Q : Z -> Prop) header p Buffer PacketLength s r s' :
  obeys (writes Q) preempt ->
  inside Buffer ETHERNET_FRAME_SIZE_MAX -> inside PacketLength 2 ->
  (forall x, object PacketLength 2 x -> ~ object Buffer ETHERNET_FRAME_SIZE_MAX x /\ ~ Q x) ->
  Rndis.RNDIS_Device_ReadPacket header p Buffer PacketLength s = Some (r, s') ->
  (forall x, 0 <= x < 65536 -> ~ object Buffer ETHERNET_FRAME_SIZE_MAX x -> ~ object PacketLength 2 x ->
     ~ Q x -> load8 (ram s') x = load8 (ram s) x)
  /\ (r = ENDPOINT_RWSTREAM_NoError -> load 2 (ram s') PacketLength <= ETHERNET_FRAME_SIZE_MAX).
Proof.
  intros Hpre HB HL Ha E.
  destruct (read_packet_spec Q Hpre p Buffer PacketLength header HB HL Ha _ _ _ E) as (t & _ & Hw & Hr).
  split; [|exact Hr]. intros x Hx H1 H2 H3. apply Hw; [done|]. unfold packet_area, data_area. tauto.
Qed.
End Claims.

(** ** Concrete runs: endpoints that are always ready, interface structures at 0x100 *)
Section Demo.
Existing Instance script_hardware.
#[local] Existing Instance no_preempt.
#[local] Instance demo_class_fuel : Fuel := 64%nat.

Definition ready_script (data : list Z) : script :=
  Script (fun r => match r with UEINTX => [0x25] | UEDATX => data | UECFG0X => [0] | _ => [0] end) [].

Definition class_state (data : list Z) (m : mem) : mcu :=
  let s := boot_state (ready_script data) script_port in
  set_ram m (set_usb (UsbGlobals true (USB_Request_Header 0 0 0 0 0) DEVICE_STATE_Configured 1 false false) s).

Lemma no_preempt_writes P : obeys (writes P) (@preempt _ no_preempt).
Proof. apply obeys_ret. typeclasses eauto. Qed.

Definition demo_ms : mem := store_bytes (fun _ => 0) 0x100 [0; 0x83; 64; 0; 2; 1; 4; 64; 0; 2; 1; 1].
Definition demo_cbw : list Z := words [MS_CBW_SIGNATURE; 0xCAFE; 0] ++ [0; 0; 6; 0x12; 0; 0; 0; 36; 0].
Instance demo_scsi : MsCallbacks := {| CALLBACK_MS_Device_SCSICommandReceived := fun _ _ => ret true |}.

(** Interrupts that set the reset flag. *)
Definition reset_preempt : Preempt :=
  modify (fun s => set_ram (store8 (ram s) (MassStorage.IsMassStoreReset 0x100) 1) s).

Lemma reset_preempt_writes :
  obeys (writes (eq (MassStorage.IsMassStoreReset 0x100))) (@preempt _ reset_preempt).
Proof.
  apply spec_modify; intros s; [done|]. intros x Hx Hne. cbn [ram set_ram]. rewrite load8_store8, u16_small by lia.
  destruct (Z.eqb_spec x (u16 (MassStorage.IsMassStoreReset 0x100))) as [E|]; [|done].
  exfalso. apply Hne. rewrite E. reflexivity.
Qed.


(** A packet of six bytes, read into a buffer at 0x400. *)
Definition demo_rndis : mem := store8 (fun _ => 0) (Rndis.CurrRNDISState 0x100) RNDIS_Data_Initialized.
Definition demo_packet : list Z := Rndis.packet_header 6 ++ [1; 2; 3; 4; 5; 6].

Lemma read_packet_bounded_witness :
  exists s', Rndis.RNDIS_Device_ReadPacket (fun _ => 0) 0x100 0x400 0xF00 (class_state demo_packet demo_rndis)
      = Some (ENDPOINT_RWSTREAM_NoError, s')
    /\ load 2 (ram s') 0xF00 = 6 /\ load_bytes (ram s') 0x400 6 = [1; 2; 3; 4; 5; 6]
    /\ load8 (ram s') (0x400 + 1500) = load8 demo_rndis (0x400 + 1500).
Proof.
  assert (option_map (fun r => (r.1, load 2 (ram r.2) 0xF00, load_bytes (ram r.2) 0x400 6))
    (Rndis.RNDIS_Device_ReadPacket (fun _ => 0) 0x100 0x400 0xF00 (class_state demo_packet demo_rndis))
    = Some (ENDPOINT_RWSTREAM_NoError, 6, [1; 2; 3; 4; 5; 6])) as H by (vm_compute; reflexivity).
  destruct (Rndis.RNDIS_Device_ReadPacket _ _ _ _ _) as [[r s']|] eqn:E; [|discriminate].
  apply (inj Some) in H. apply pair_eq in H as [H H3]. apply pair_eq in H as [H1 H2]. cbn [fst snd] in *.
  destruct (read_packet_bounded (fun _ => False) (fun _ => 0) 0x100 0x400 0xF00
    (class_state demo_packet demo_rndis) r s') as [Hw _].
  - apply no_preempt_writes.
  - vm_compute. split; discriminate.
  - vm_compute. split; discriminate.
  - unfold object, ETHERNET_FRAME_SIZE_MAX. intros x Hx. split; [lia|by intros []].
  - exact E.
  - exists s'. rewrite H1, H2, H3. split; [exact eq_refl|]. split; [exact eq_refl|]. split; [exact eq_refl|].
    apply Hw; unfold object, ETHERNET_FRAME_SIZE_MAX; [lia|lia|lia|by intros []].
Defined.
End Demo.
