(* ===== verification/ClassTransfers.v ===== *)
(** * ClassTransfers: what the HID and audio drivers exchange with the host

    Properties of the bytes on the endpoints, under interrupts that leave the selection, the
    FIFO of the endpoint and the driver's memory alone ([keeps], [writes], [quiet] as
    hypotheses on [preempt]). *)
From S2P Require Import Prelude Machine Ram Logic Endpoint EndpointStream UsbController DeviceRequests.
From S2P Require Import Cdc Locc Interrupts Descriptors Firmware Selection Transfers Control.
From S2P Require Import ClassMemory HidParser HidDevice AudioDevice Rndis RndisMessages MassStorage Footprints.
Import Endpoint Stream ClassMemory.

(** ** Audio samples *)
Section Samples.
Context {HW : Hardware} {PRE : Preempt} {FU : Fuel} (ep : Z) (ep_range : is_u 4 ep).
Context (pre_ok : obeys (keeps ep) preempt).
Import AudioDevice.

(** Samples of one, two and three bytes. *)
Inductive sample_size := Sample8 | Sample16 | Sample24.

Definition write_sample (w : sample_size) (p x : Z) : M unit :=
  match w with
  | Sample8 => Audio_Device_WriteSample8 p x
  | Sample16 => Audio_Device_WriteSample16 p x
  | Sample24 => Audio_Device_WriteSample24 p x
  end.

Definition read_sample (left_first : bool) (w : sample_size) (p : Z) : M Z :=
  match w with
  | Sample8 => Audio_Device_ReadSample8 p
  | Sample16 => Audio_Device_ReadSample16 p
  | Sample24 => Audio_Device_ReadSample24 left_first p
  end.

Definition sample_bytes (w : sample_size) : nat :=
  match w with Sample8 => 1 | Sample16 => 2 | Sample24 => 3 end.

(** What a read makes of the bytes it takes. *)
Definition sample_value (left_first : bool) (w : sample_size) (bs : list Z) : Z :=
  match w, bs with
  | Sample8, [b] => signed 8 b
  | Sample16, [b0; b1] => signed 16 (le_value [b0; b1])
  | Sample24, [b0; b1; b2] =>
      if left_first then (b0 .<< 16) .| le_value [b1; b2] else (b2 .<< 16) .| le_value [b0; b1]
  | _, _ => 0
  end.

(** ** Code that only writes, and code that only reads *)

Definition puts {A} (m : M A) (ws : list Z) : Prop :=
  spec m (fun s _ t s' => moves ep ws [] s t s').
Definition takes {A} (m : M A) (F : list Z -> A -> Prop) : Prop :=
  spec m (fun s a t s' => exists bs, F bs a /\ Forall is_u8 bs /\ moves ep [] bs s t s').

Lemma puts_bind {A B} (m : M A) (k : A -> M B) ws ws' :
  puts m ws -> (forall a, puts (k a) ws') -> puts (bind m k) (ws ++ ws').
Proof.
  intros Hm Hk. eapply (spec_bind _ _ _ (fun _ s _ t s' => moves ep ws' [] s t s')); [exact Hm|exact Hk|].
  cbn beta. intros s a t s1 b t' s2 H H'. by eapply (moves_trans ep ws [] ws' []).
Qed.

Lemma puts_byte v : puts (wr UEDATX v) [u8 v].
Proof. apply (write_8_moves ep ep_range pre_ok). Qed.

Lemma puts_skip {A} (m : M A) : obeys (keeps ep) m -> puts m [].
Proof. intros H. eapply spec_conseq; [exact H|]. cbn beta. intros. by apply keeps_moves. Qed.

Lemma takes_bind {A B} (m : M A) (k : A -> M B) F (G : A -> list Z -> B -> Prop) :
  takes m F -> (forall a, takes (k a) (G a)) ->
  takes (bind m k) (fun bs b => exists a b1 b2, bs = b1 ++ b2 /\ F b1 a /\ G a b2 b).
Proof.
  intros Hm Hk. eapply (spec_bind _ _ _ (fun a s b t s' => exists bs, G a bs b /\ Forall is_u8 bs
    /\ moves ep [] bs s t s')); [exact Hm|exact Hk|]. cbn beta.
  intros s a t s1 b t' s2 (b1 & H1 & U1 & M1) (b2 & H2 & U2 & M2). exists (b1 ++ b2).
  split; [by exists a, b1, b2|]. split; [by apply Forall_app|]. by eapply (moves_trans ep [] b1 [] b2).
Qed.

Lemma takes_byte : takes (rd UEDATX) (fun bs v => bs = [v]).
Proof.
  eapply spec_conseq; [exact (spec_yields is_u8 _ _ (read_8_moves ep ep_range pre_ok) read_8_u8)|].
  cbn beta. intros s v t s' [H Hv]. exists [v]. auto.
Qed.

Lemma takes_skip {A} (m : M A) : obeys (keeps ep) m -> takes m (fun bs _ => bs = []).
Proof.
  intros H. eapply spec_conseq; [exact H|]. cbn beta. intros. exists []. split; [done|].
  split; [done|]. by apply keeps_moves.
Qed.

Lemma takes_ret {A} (a : A) : takes (ret a) (fun bs b => bs = [] /\ b = a).
Proof. apply spec_ret. intros s. exists []. by repeat split. Qed.

Lemma takes_weaken {A} (m : M A) F G : takes m F -> (forall bs a, F bs a -> G bs a) -> takes m G.
Proof. intros Hm HG. eapply spec_conseq; [exact Hm|]. cbn beta. intros s a t s' (bs & ? & ? & ?). eauto. Qed.

Lemma puts_16 v : puts (Endpoint_Write_16_LE v) [u8 (v .& 0xFF); u8 (v .>> 8)].
Proof. apply (puts_bind _ _ [_] [_]); [apply puts_byte|intros; apply puts_byte]. Qed.

Lemma takes_16 : takes Endpoint_Read_16_LE (fun bs v => exists b0 b1, bs = [b0; b1] /\ v = le_value [b0; b1]).
Proof.
  eapply takes_weaken; [apply takes_bind; [apply takes_byte|]; intros b0; apply takes_bind;
    [apply takes_byte|]; intros b1; apply takes_ret|].
  cbn beta. intros bs a (b0 & ? & ? & -> & -> & b1 & ? & ? & -> & -> & -> & ->). by exists b0, b1.
Qed.

Lemma keeps_release_in p : obeys (keeps ep) (release_in p).
Proof. obey. Qed.
Lemma keeps_release_out : obeys (keeps ep) release_out.
Proof. obey. Qed.

Lemma le_bytes_2 x : le_bytes 2 x = [u8 (u16 x .& 0xFF); u8 (u16 x .>> 8)].
Proof.
  cbn [le_bytes]. change 0xFF with (Z.ones 8). rewrite Z.land_ones, !Z.shiftr_div_pow2 by lia.
  unfold wrap. f_equal; [|f_equal]; change (2 ^ 8) with 256; change (2 ^ 16) with 65536; zmod.
Qed.

Lemma le_bytes_3 x : le_bytes 3 x = le_bytes 2 x ++ [u8 (x .>> 16)].
Proof. cbn [le_bytes Datatypes.app]. by rewrite Z.shiftr_shiftr by lia. Qed.

Lemma write_sample_moves w p x : puts (write_sample w p x) (le_bytes (sample_bytes w) x).
Proof.
  pose proof (keeps_release_in p) as Hr.
  destruct w; cbn [write_sample sample_bytes].
  - apply (puts_bind _ _ [_] []); [apply puts_byte|intros; by apply puts_skip].
  - rewrite <- (app_nil_r (le_bytes 2 x)), le_bytes_2.
    apply puts_bind; [apply puts_16|intros; by apply puts_skip].
  - rewrite <- (app_nil_r (le_bytes 3 x)), le_bytes_3, le_bytes_2, <- app_assoc.
    apply puts_bind; [apply puts_16|intros].
    apply puts_bind; [apply puts_byte|intros; by apply puts_skip].
Qed.

Lemma is_u24 h l : is_u8 h -> is_u16 l -> is_u 24 ((h .<< 16) .| l).
Proof.
  intros Hh Hl. apply is_u_lor; [done| |by eapply is_u_mono; [|exact Hl]].
  unfold is_u in *. rewrite Z.shiftl_mul_pow2 by lia. lia.
Qed.

Lemma signed_24_in_32 h l : is_u8 h -> is_u16 l -> signed 32 ((h .<< 16) .| l) = (h .<< 16) .| l.
Proof.
  intros Hh Hl. apply signed_small; [done|]. destruct (is_u24 h l Hh Hl). change (2 ^ (32 - 1)) with 2147483648.
  change (2 ^ 24) with 16777216 in *. lia.
Qed.

Lemma le_value_u16 b0 b1 : is_u8 b0 -> is_u8 b1 -> is_u16 (le_value [b0; b1]).
Proof. intros. apply (le_value_is_u [b0; b1]). by rewrite !Forall_cons_iff. Qed.

(** The bytes taken, for a read that is followed by the release of an empty bank. *)
Lemma takes_release {A} (m : M A) (f : A -> Z) F :
  takes m F -> takes (bind m (fun x => release_out ;; ret (f x))) (fun bs v => exists a, F bs a /\ v = f a).
Proof.
  intros Hm. pose proof keeps_release_out as Hr.
  eapply takes_weaken; [apply takes_bind; [exact Hm|]; intros a; apply takes_bind;
    [by apply takes_skip|]; intros u; apply takes_ret|].
  cbn beta. intros bs v (a & b1 & ? & -> & HF & _ & ? & ? & -> & -> & -> & ->).
  exists a. by rewrite app_nil_r.
Qed.

Lemma takes_24 lf : takes
  (if lf : bool then h <- Endpoint_Read_8 ;; l <- Endpoint_Read_16_LE ;; ret ((h .<< 16) .| l)
   else l <- Endpoint_Read_16_LE ;; h <- Endpoint_Read_8 ;; ret ((h .<< 16) .| l))
  (fun bs v => exists b0 b1 b2, bs = [b0; b1; b2] /\ v = sample_value lf Sample24 bs).
Proof.
  destruct lf.
  - eapply takes_weaken; [apply takes_bind; [apply takes_byte|]; intros h; apply takes_bind;
      [apply takes_16|]; intros l; apply takes_ret|].
    cbn beta. intros bs v (h & ? & ? & -> & -> & l & ? & ? & -> & (b0 & b1 & -> & ->) & -> & ->).
    by exists h, b0, b1.
  - eapply takes_weaken; [apply takes_bind; [apply takes_16|]; intros h; apply takes_bind;
      [apply takes_byte|]; intros l; apply takes_ret|].
    cbn beta. intros bs v (l & ? & ? & -> & (b0 & b1 & -> & ->) & h & ? & ? & -> & -> & -> & ->).
    by exists b0, b1, h.
Qed.

Lemma read_sample_moves lf w p : takes (read_sample lf w p) (fun bs v =>
  length bs = sample_bytes w /\ (Forall is_u8 bs -> v = sample_value lf w bs)).
Proof.
  destruct w; cbn [read_sample].
  - eapply takes_weaken; [apply (takes_release (rd UEDATX) (signed 8)), takes_byte|].
    cbn beta. by intros bs v (a & -> & ->).
  - eapply takes_weaken; [apply (takes_release Endpoint_Read_16_LE (signed 16)), takes_16|].
    cbn beta. by intros bs v (a & (b0 & b1 & -> & ->) & ->).
  - eapply takes_weaken; [apply (takes_release _ (signed 32)), takes_24|].
    cbn beta. intros bs v (a & (b0 & b1 & b2 & -> & ->) & ->). split; [done|].
    rewrite !Forall_cons_iff. intros (H0 & H1 & H2 & _).
    cbn [sample_value]. destruct lf; apply signed_24_in_32; auto using le_value_u16.
Qed.
End Samples.

(** What comes back of a sample. *)
Definition read_back (left_first : bool) (w : sample_size) (x : Z) : Z :=
  match w with
  | Sample24 => if left_first then x mod 256 * 65536 + x mod 2 ^ 24 / 256 else x mod 2 ^ 24
  | _ => x
  end.

Definition sample_range (w : sample_size) (x : Z) : Prop :=
  let h := 2 ^ (8 * Z.of_nat (sample_bytes w) - 1) in - h <= x < h.

Lemma signed_wrap w x : 0 < w -> - 2 ^ (w - 1) <= x < 2 ^ (w - 1) -> signed w (wrap w x) = x.
Proof.
  intros Hw Hx. assert (2 ^ w = 2 * 2 ^ (w - 1)) as E.
  { rewrite <- Z.pow_succ_r by lia. f_equal. lia. }
  unfold signed. rewrite wrap_wrap by lia. unfold wrap. rewrite E.
  set (h := 2 ^ (w - 1)) in *. destruct (Z.lt_ge_cases x 0).
  - assert (x mod (2 * h) = x + 2 * h) as -> by (symmetry; apply (Z.mod_unique _ _ (-1)); lia).
    destruct (Z.ltb_spec (x + 2 * h) h); lia.
  - rewrite Z.mod_small by lia. destruct (Z.ltb_spec x h); lia.
Qed.

Lemma high_byte_or b2 l : is_u16 l -> 0 <= b2 -> (b2 .<< 16) .| l = l + 65536 * b2.
Proof.
  intros Hl Hb. rewrite Z.lor_comm. assert (l .& (b2 .<< 16) = 0) as Hd.
  { apply Z.bits_inj'. intros i Hi. rewrite Z.land_spec, Z.bits_0.
    destruct (Z.lt_ge_cases i 16); [rewrite (Z.shiftl_spec_low b2 16 i) by done; apply andb_false_r|].
    apply is_u_bits in Hl as [_ Hl]; [|done]. by rewrite Hl. }
  rewrite <- Z.lxor_lor, <- Z.add_nocarry_lxor by done. rewrite Z.shiftl_mul_pow2 by done. lia.
Qed.

Lemma sample_value_bytes lf w x : sample_range w x ->
  sample_value lf w (le_bytes (sample_bytes w) x) = read_back lf w x.
Proof.
  unfold sample_range. intros Hx. destruct w; cbn [sample_bytes] in *.
  - by apply (signed_wrap 8).
  - change (signed 16 (le_value (le_bytes 2 x)) = x). rewrite le_value_bytes. by apply (signed_wrap 16).
  - unfold sample_value, read_back. cbn [le_bytes]. rewrite Z.shiftr_shiftr by lia. change (8 + 8) with 16.
    assert (is_u8 (u8 x) /\ is_u8 (u8 (x .>> 8)) /\ is_u8 (u8 (x .>> 16))) as (H0 & H1 & H2)
      by (split_and!; by apply wrap_is_u).
    destruct lf; (rewrite high_byte_or; [|by apply le_value_u16|by destruct H0, H2]);
      cbn [le_value]; rewrite !lor_shiftl8 by done; rewrite !Z.shiftr_div_pow2 in * by lia;
      unfold wrap in *; change (2 ^ 8) with 256; change (2 ^ 16) with 65536; change (2 ^ 24) with 16777216; zmod.
Qed.

(** ** The HID driver's idle period *)
Section Idle.
Context {HW : Hardware} {PRE : Preempt} {FU : Fuel} (p : Z) (Q : Z -> Prop).
Import HidDevice.
Context (here : inside p sizeof_ClassInfo) (untouched : forall x, object (IdleCount p) 2 x -> ~ Q x).
Context (pre_keeps : obeys (keeps 0) preempt) (pre_quiet : obeys quiet preempt).
Context (pre_writes : obeys (writes Q) preempt).

Lemma idle_inside : inside (IdleCount p) 2.
Proof. unfold IdleCount, State, sizeof_ClassInfo, inside in *. lia. Qed.

(** The duration in units of 4 ms is the high byte of [wValue]. *)
Lemma idle_count v : is_u16 v -> u16 ((v .& 0xFF00) .>> 6) = 4 * (v .>> 8).
Proof.
  intros Hv. rewrite Z.shiftr_land. change (0xFF00 .>> 6) with (Z.ones 8 .<< 2).
  assert ((v .>> 6) .& (Z.ones 8 .<< 2) = (v .>> 8) .<< 2) as ->.
  { apply Z.bits_inj'. intros i Hi. rewrite Z.land_spec. rewrite Z.shiftr_spec by done.
    destruct (Z.lt_ge_cases i 2).
    { by rewrite !Z.shiftl_spec_low, andb_false_r by done. }
    rewrite !Z.shiftl_spec, Z.shiftr_spec by lia. replace (i - 2 + 8) with (i + 6) by lia.
    rewrite Z.testbit_ones by lia. destruct (Z.ltb_spec (i - 2) 8).
    - destruct (Z.leb_spec 0 (i - 2)); [|lia]. by rewrite andb_true_r.
    - apply is_u_bits in Hv as [_ Hv]; [|done]. by rewrite !(Hv (i + 6)) by lia. }
  rewrite Z.shiftl_mul_pow2, !Z.shiftr_div_pow2 by lia. change (2 ^ 2) with 4. change (2 ^ 8) with 256.
  unfold is_u in Hv. change (2 ^ 16) with 65536 in Hv. rewrite u16_small by zmod. lia.
Qed.

Lemma set_idle_spec : spec (set_idle p) (fun s _ t s' =>
  is_u16 (wValue (USB_ControlRequest (usb s))) ->
  load 2 (ram s') (IdleCount p) = 4 * (wValue (USB_ControlRequest (usb s)) .>> 8)).
Proof.
  unfold set_idle.
  assert (obeys quiet Endpoint_ClearSETUP) as H1 by obey.
  assert (obeys quiet Endpoint_ClearStatusStage) as H2 by obey.
  eapply (spec_bind _ _ _ (fun _ s _ t s' => is_u16 (wValue (USB_ControlRequest (usb s))) ->
    load 2 (ram s') (IdleCount p) = 4 * (wValue (USB_ControlRequest (usb s)) .>> 8))); [exact H1| |].
  2: { cbn beta. intros s u t s1 b t' s2 [E _] H. by rewrite E in H. }
  intros _. eapply (spec_bind _ _ _ (fun _ s _ t s' => is_u16 (wValue (USB_ControlRequest (usb s))) ->
    load 2 (ram s') (IdleCount p) = 4 * (wValue (USB_ControlRequest (usb s)) .>> 8))); [exact H2| |].
  2: { cbn beta. intros s u t s1 b t' s2 [E _] H. by rewrite E in H. }
  intros _. apply spec_get_bind. intros req. apply spec_modify; [done|].
  intros s -> Hv. cbn [ram set_ram]. rewrite load_same by apply idle_inside. by apply idle_count.
Qed.

Lemma get_idle_spec : spec (get_idle p) (fun s _ t s' =>
  moves 0 [u8 (load 2 (ram s) (IdleCount p) .>> 2)] [] s t s').
Proof.
  unfold get_idle, answer_byte.
  assert (obeys (keeps 0) (Endpoint_ClearSETUP ;; spin_until Endpoint_IsINReady)) as K by obey.
  assert (obeys (writes Q) (Endpoint_ClearSETUP ;; spin_until Endpoint_IsINReady)) as W by obey.
  eapply spec_ext; [intros s; apply bind_assoc|].
  eapply (spec_bind _ _ _ (fun _ s _ t s' => moves 0 [u8 (load 2 (ram s) (IdleCount p) .>> 2)] [] s t s'));
    [exact (spec_and _ _ _ K W)| |].
  - intros u. unfold peek. apply spec_get_bind. intros b.
    assert (spec (Endpoint_Write_8 b ;; Endpoint_ClearIN ;; Endpoint_ClearStatusStage)
      (fun s _ t s' => moves 0 [u8 b] [] s t s')) as H.
    { apply (puts_bind 0 _ _ [u8 b] []); [by apply (puts_byte 0)|intros; apply (puts_skip 0 range_0); obey]. }
    eapply spec_conseq; [exact H|]. cbn beta. by intros s a t s' H' ->.
  - cbn beta. intros s u t s1 b t' s2 [H1 H2] H.
    rewrite <- (load_kept Q s t s1 2 (IdleCount p) H2 idle_inside untouched).
    by eapply keeps_then_moves.
Qed.
End Idle.

(** ** Claims *)
Section Claims.
Context {HW : Hardware} {PRE : Preempt} {FU : Fuel}.

(** an audio sample written to one endpoint and read back from another that delivers the
    same bytes.  8- and 16-bit samples survive with their sign; a 24-bit sample comes back
    without sign extension, and with its bytes in the wrong order when the compiler evaluates
    the left operand of [|] first. *)
Theorem audio_sample_roundtrip left_first w p x i o s s1 s2 y s3 t1 t2 :
  obeys (keeps i) preempt -> obeys (keeps o) preempt -> is_u 4 i -> is_u 4 o -> sample_range w x ->
  write_sample w p x s = Some (tt, s1) -> read_sample left_first w p s2 = Some (y, s3) ->
  uenum s = i -> uenum s2 = o -> trace s1 = trace s ++ t1 -> trace s3 = trace s2 ++ t2 ->
  no_reset t1 -> no_reset t2 -> received o t2 = sent i t1 ->
  sent i t1 = le_bytes (sample_bytes w) x /\ y = read_back left_first w x.
Proof.
  intros Ki Ko Hi Ho Hx Hw Hr Hu Hu2 Ht1 Ht2 N1 N2 E.
  destruct (write_sample_moves i Hi Ki w p x _ _ _ Hw) as (t & Ht & Hm).
  rewrite Ht1 in Ht. apply app_inv_head in Ht as <-.
  destruct (read_sample_moves o Ho Ko left_first w p _ _ _ Hr) as (t & Ht & bs & [_ Hy] & Hb & Hm2).
  rewrite Ht2 in Ht. apply app_inv_head in Ht as <-.
  destruct (Hm N1 Hu) as (_ & S1 & _). destruct (Hm2 N2 Hu2) as (_ & _ & S2).
  split; [done|]. rewrite Hy by done. rewrite <- S2, E, S1. by apply sample_value_bytes.
Qed.

(** the idle period a host sets is the one it reads back, and the driver counts it in
    milliseconds: four for each unit of the request. *)
Theorem hid_idle_roundtrip p (Q : Z -> Prop) s s1 s2 :
  inside p HidDevice.sizeof_ClassInfo -> (forall x, object (HidDevice.IdleCount p) 2 x -> ~ Q x) ->
  obeys (keeps 0) preempt -> obeys quiet preempt -> obeys (writes Q) preempt ->
  let v := wValue (USB_ControlRequest (usb s)) in
  is_u16 v -> HidDevice.set_idle p s = Some (tt, s1) -> HidDevice.get_idle p s1 = Some (tt, s2) ->
  uenum s1 = 0 ->
  load 2 (ram s1) (HidDevice.IdleCount p) = 4 * (v .>> 8)
  /\ exists t, trace s2 = trace s1 ++ t /\ (no_reset t -> sent 0 t = [v .>> 8]).
Proof.
  intros Hp HQ K Hq W v Hv H1 H2 Hu.
  destruct (set_idle_spec p Hp Hq _ _ _ H1) as (t1 & _ & E1). specialize (E1 Hv).
  destruct (get_idle_spec p Q Hp HQ K W _ _ _ H2) as (t2 & Ht2 & M2).
  split; [exact E1|]. exists t2. split; [done|]. intros N. destruct (M2 N Hu) as (_ & -> & _).
  rewrite E1, Z.mul_comm. change 4 with (2 ^ 2). rewrite <- Z.shiftl_mul_pow2, Z.shiftr_shiftl_l by lia.
  change (2 - 2) with 0. rewrite Z.shiftl_0_r, wrap_id; [done|].
  unfold is_u in *. rewrite Z.shiftr_div_pow2 by lia. change (2 ^ 8) with 256. change (2 ^ 16) with 65536 in Hv. zmod.
Qed.
End Claims.

(** ** Concrete runs *)
Section Demo.
Existing Instance script_hardware.
#[local] Existing Instance no_preempt.
#[local] Instance demo_transfer_fuel : Fuel := 8%nat.

Lemma no_preempt_policy R `{!Policy R} : obeys R (@preempt _ no_preempt).
Proof. by apply obeys_ret. Qed.

Definition no_reset_dec (t : list event) : bool := forallb (fun e => negb (reset_seen e)) t.

Lemma no_reset_of t : no_reset_dec t = true -> no_reset t.
Proof.
  unfold no_reset_dec, no_reset. rewrite forallb_forall, List.Forall_forall.
  intros H x Hx. apply negb_true_iff. by apply H.
Qed.

(** The sample -2 as three bytes, read back with the right operand first. *)
Definition sample_out : mcu := set_reg UENUM 1 (class_state [] (fun _ => 0)).
Definition sample_in : mcu := set_reg UENUM 2 (class_state [0xFE; 0xFF; 0xFF; 0] (fun _ => 0)).

Lemma audio_sample_roundtrip_witness :
  exists s1 s3, write_sample Sample24 0x100 (-2) sample_out = Some (tt, s1)
    /\ sent 1 (trace s1) = [0xFE; 0xFF; 0xFF]
    /\ read_sample false Sample24 0x100 sample_in = Some (0xFFFFFE, s3).
Proof.
  set (w := write_sample Sample24 0x100 (-2) sample_out).
  set (r := read_sample false Sample24 0x100 sample_in).
  assert (match w, r with
          | Some (_, s1), Some (_, s3) => no_reset_dec (trace s1) && no_reset_dec (trace s3)
              && bool_decide (received 2 (trace s3) = sent 1 (trace s1))
          | _, _ => false end = true) as V by (vm_compute; reflexivity).
  destruct w as [[[] s1]|] eqn:Ew; [|done]. destruct r as [[y s3]|] eqn:Er; [|done].
  apply andb_true_iff in V as [[V1 V2]%andb_true_iff V3%bool_decide_eq_true].
  destruct (audio_sample_roundtrip false Sample24 0x100 (-2) 1 2 sample_out s1 sample_in y s3 (trace s1) (trace s3))
    as [S Y].
  1,2: apply no_preempt_policy; typeclasses eauto.
  1,2: split; by vm_compute.
  - vm_compute. split; [discriminate|reflexivity].
  - exact Ew.
  - exact Er.
  - exact eq_refl.
  - exact eq_refl.
  - exact eq_refl.
  - exact eq_refl.
  - by apply no_reset_of.
  - by apply no_reset_of.
  - exact V3.
  - exists s1, s3. rewrite S, Y. split; [exact eq_refl|]. split; [vm_compute; reflexivity|exact eq_refl].
Defined.

(** A duration of 125 units, 500 ms. *)
Definition idle_state : mcu :=
  let s := class_state [] (fun _ => 0) in
  set_usb (UsbGlobals true (USB_Request_Header 0x21 0x0A 0x7D00 0 0) DEVICE_STATE_Configured 1 false false) s.

Lemma hid_idle_roundtrip_witness :
  exists s1 s2, HidDevice.set_idle 0x100 idle_state = Some (tt, s1)
    /\ HidDevice.get_idle 0x100 s1 = Some (tt, s2)
    /\ load 2 (ram s1) (HidDevice.IdleCount 0x100) = 500
    /\ exists t, trace s2 = trace s1 ++ t /\ (no_reset t -> sent 0 t = [125]).
Proof.
  set (r := HidDevice.set_idle 0x100 idle_state).
  assert (match r with
          | Some (_, s1) => (uenum s1 =? 0) && match HidDevice.get_idle 0x100 s1 with Some _ => true | None => false end
          | None => false end = true) as V by (vm_compute; reflexivity).
  destruct r as [[[] s1]|] eqn:E1; [|done].
  apply andb_true_iff in V as [V0%Z.eqb_eq V1].
  destruct (HidDevice.get_idle 0x100 s1) as [[[] s2]|] eqn:E2; [|done].
  destruct (hid_idle_roundtrip 0x100 (fun _ => False) idle_state s1 s2) as [L T].
  - vm_compute. split; discriminate.
  - by intros x _ [].
  - apply no_preempt_policy. typeclasses eauto.
  - apply no_preempt_policy. typeclasses eauto.
  - apply no_preempt_policy. typeclasses eauto.
  - split; by vm_compute.
  - exact E1.
  - exact E2.
  - exact V0.
  - exists s1, s2. rewrite L. split; [exact eq_refl|]. split; [exact E2|]. split; [vm_compute; reflexivity|exact T].
Defined.
End Demo.
